(* ===== verification/_CoqProject ===== *)
-Q . S2P
Prelude.v
Fairness.v
MainConfig.v
ConfigFacts.v
CotData.v
FtsState.v
Supervisor.v
Registry.v
Startup.v
RestCommands.v
SupervisorFacts.v
ServiceProps.v
RegistryFacts.v
FtsSystem.v
SystemProps.v
ConfigProps.v
CotState.v
SendData.v
Reception.v
TcpService.v
SslService.v
CotFacts.v
CotRun.v
CotSend.v
CotClients.v
CotReceive.v
SslProps.v
Exchange.v
DomainNode.v
DomainClasses.v
DictToNode.v
DomainFacts.v
ConvertFacts.v
WriteFacts.v
FillFacts.v
DomainProps.v
DomainErrors.v
JsonStore.v
StoreProps.v
CotManagement.v
Emergency.v
ManagementProps.v
PostTables.v
ListTables.v
RestGeo.v
RestGeoProps.v
MissionDb.v
MissionStore.v
MissionList.v
MissionFacts.v
MissionNodes.v
MissionBuilders.v
MissionSample.v
MissionProps.v
MissionRoles.v
MissionControllers.v
MissionFacade.v
MissionReads.v
MissionLooks.v
MissionMissing.v
MissionLogs.v
MissionChanges.v
MissionHierarchy.v
SyncFiles.v
SyncStore.v
SyncHttp.v
SyncPaths.v
SyncFacts.v
SyncSample.v
SyncReads.v
SyncUpdates.v
SyncUploads.v
MissionHttp.v
ExcheckStore.v
ExcheckXml.v
ExcheckControllers.v
ExcheckProps.v
ExcheckStarts.v
ExcheckHttp.v
ExcheckSample.v
