(* ===== verification/Prelude.v ===== *)
(** * FreeTAKServer: a verification of the core process, the settings, the CoT services, the
      components messages pass through, the missions, the enterprise sync and the checklists

    FreeTAKServer relays Cursor-on-Target (CoT) messages between clients.  It is a set
    of processes: the core ([controllers/services/FTS.py] under [src/FreeTAKServer]),
    which starts and stops the others, keeps the registry of users and forwards data
    between services; the TCP and SSL CoT services, which hold the sockets of the
    clients; the REST API; the data package and the federation services.  They share
    [core/configuration/MainConfig.py], the settings, and talk over [multiprocessing]
    queues.  A CoT service hands a message, as a document, to components behind
    DigitalPy's action mapper: the domain turns it into a tree of nodes, the management of
    CoTs decides whom it is for and what is repeated to later clients, the emergencies are
    kept in a file, the serializer makes XML of the nodes again, and the response comes
    back to the service with its recipients.  The component of the missions keeps missions
    with their members, CoTs, files, logs and changes in a database.  The enterprise sync
    keeps packages of data that clients upload and download over HTTP and HTTPS: a record
    with keywords in the database, and the bytes in a file.  The component of checklists
    (excheck) keeps templates, the checklists that are started from them and their tasks:
    XML documents in the enterprise sync, and records in a database of its own; for each it
    asks the missions to take it.

    ** How code becomes definitions

    A Python method is a function of the monad [M S] below: it runs in a state and
    returns or raises, and what it did before it raised stays done.  [try_except] is
    [except Exception], [try_with] any other handler.  Objects are records, a [dict] is
    the association list of its insertion order ([dget], [dset], [ddel]), enumerations
    are inductive types.  Where two names share a dictionary ([JsonStore]) there is a heap
    of dictionaries.  A call into code that is not in the repository is asked of a
    parameter: in the core a function [faults] says at each instant which of these
    calls raise; the CoT service has a record [world] of what sockets take and say, how
    often a clock test still holds, which calls raise, what the core answers and what
    the parsers return; the nodes have a record [library] (DigitalPy's attributes, the
    clock, uuids, [lxml] and [xmltodict]), the management of CoTs a record [manager] of
    what the sub-actions and the database answer, the emergencies the points of events and connections, the distance between two
    points and what their sub-actions answer, the REST API a record [rest_library] of the clock, uuids, floats and regular expressions, the missions a record
    [mission_library] of what DigitalPy, the serializer, the clock, tokens, zip files and
    the enterprise sync do, the enterprise sync records [sync_library] (the digest, what the
    file system refuses, where its directory is) and [web_library] (Flask, formats of
    times), the checklists records [xml_library] (the parsers and printers of [lxml] and
    [ElementTree]) and [excheck_library] (what the missions answer, formats, addresses), the
    endpoints of the missions a record [http_library] (the document of a request, the texts of
    exceptions, and what the enterprise sync answers).  The
    databases of the missions, of the enterprise sync and of the checklists are an interface: the class
    [Orm] of what a session of SQLAlchemy is asked, [OrmLaws] of what it promises whenever
    it answers or raises (every call of it may raise), [OrmReliable] of the database
    that does answer, and [MissionList] a database held in lists that keeps both sets of
    promises; it refuses rows whose key is NULL, or taken; the checklists have two states of that kind, their own database and that of
    the enterprise sync.  [calm] is a state with nothing pending and nothing broken.  Theorems hold for all of them, or name
    what they assume: [polite] (nothing raises but [Exception]s), [os_sockets],
    [open_pipe], [no_call_raises]; that pickling an object and reading it gives the
    object; [quiet_world] and [plain_library] are instances.  Loops whose number of turns
    the clock decides recurse over that number; a loop over a list recurses over the
    list; there is no other fuel but the length of the list [removeClientThread] walks,
    in which every turn moves on by one, and the depth of the node [serialize_node]
    writes, which is enough for it ([write_node]).

    ** The files

    - [Prelude]: values, exceptions, the monad, its rules ([preserves], [total],
      [benign], [triple], [yields]), the tactics [py_step], [py_walk] and [py_run], and
      dictionaries.  [Fairness]: fair schedules and what happens in them again and again.
    - [MainConfig]: the tables of settings, [set_config], [get], the YAML file, the
      environment, [instance] and [reset].  [ConfigFacts]: types, precedence, paths.
      [ConfigProps]: the properties of the settings.
    - [CotData]: what the services send each other.  [FtsState]: the state of the core,
      with [User], [FilterGroup], the startup objects and the process table.
      [Supervisor]: the start and stop handlers.  [Startup]: [start_all], [startup], the
      main loop.  [Registry]: the registry of users, and forwarding.  [RestCommands]: the
      status command and the command loop.
    - [SupervisorFacts], [RegistryFacts]: what handlers and registry guarantee, the map
      that the registry implements ([registry_spec]).  [ServiceProps]: properties of the
      handlers.  [FtsSystem]: the core as a transition system of the turns of its
      threads, [fts_step], with its invariant [fts_inv].  [SystemProps]: properties of
      that system.
    - [CotState]: the state of a CoT service, its [world] and primitives; what it does to
      the outside is its [trace].  [SendData]: [SendDataController.py] and
      [send_component_data_controller.py].  [Reception]: [ClientReceptionHandler.py] and
      [ReceiveConnections.py].  [TcpService]: [client_connection_controller.py],
      [client_disconnection_controller.py], the handlers and [mainRunFunction], against
      the class [CotService] of what the two services do differently, with the instance
      of the TCP service.  [SslService]: that of the SSL service
      ([services/ssl_cot_service]), its listener, reception and senders.
    - [CotFacts]: the classes [Calm] and [Stable] of what an invariant has to survive,
      each operation of a service proved once against them, and which exceptions
      leave an operation.  [CotRun]: properties of runs.  [CotSend]: of sending.
      [CotClients]: of clients that connect, disconnect and send.  [CotReceive]: of
      reception.  [SslProps]: of the SSL service.
    - [Exchange]: the core and the two CoT services as one system over their pipes, and what
      circulates in it.
    - [DomainNode]: nodes, with what reading and assigning their attributes does
      ([components/core/abstract_component]).  [DomainClasses]: the classes of the domains
      of the core, the missions and excheck, as tables, with their constructors.
      [DictToNode]: [dict_to_node_controller.py] and [xml_serialization_controller.py].
      [DomainFacts]: properties of the tables.  [ConvertFacts]: what reading changes.
      [WriteFacts]: what writing a node yields.  [FillFacts]: what filling a node from a
      document yields, and when a document fits.  [DomainProps], [DomainErrors]: what
      conversions keep and lose.
    - [JsonStore]: the store of the emergencies, its copies, and the types.  [StoreProps]:
      the promise of the store, its refinement, and restarts.
    - [CotManagement]: repeated messages, geo objects, recipients and the default handling
      of a message ([core/cot_management/controllers]).  [Emergency]: the controllers of
      the emergencies.  [ManagementProps]: their properties, together
      with the sending of the CoT service.
    - [PostTables], [ListTables]: the enumerations of the REST API, as tables.  [RestGeo]:
      what the REST API does to geo objects and emergencies
      ([core/parsers], [core/RestMessageControllers], [services/rest_api_service]).
      [RestGeoProps]: its properties, together with the sending of the CoT services.
    - The missions ([components/extended/mission]).  [MissionDb]: the tables
      ([persistence]), objects, queries, and the interface of a session.  [MissionStore]:
      [mission_persistence_controller.py], each method over that interface.  [MissionList]:
      the database in lists.  [MissionNodes], [MissionBuilders]: the documents of the
      answers, with the builders, the directors and [mission_domain_controller.py].
      [MissionControllers]: tokens, changes, [mission_general_controller.py],
      subscriptions and logs.  [MissionFacade]: the other controllers, the type
      [mission_request] of the requests, what each performs and [execute], in which an
      exception ends the request and what was committed stays.
      [MissionFacts]: the rules for stores of objects, one or several, and what is looked
      up in them.  [MissionLooks]: the calculus of requests that
      look only, or end in an exception.  [MissionSample]: databases for witnesses.
      [MissionProps], [MissionRoles], [MissionReads], [MissionMissing], [MissionLogs],
      [MissionChanges], [MissionHierarchy]: the properties, of the store and missions, the
      roles, what asks, missions without a role, logs, changes with CoTs and external data,
      parents and children.
    - The enterprise sync ([core/enterprise_sync]).  [SyncFiles]: a disk, what paths lead
      to on it, and what reading and writing do.  [SyncStore]: the controllers of the
      database (over the interface of [MissionDb]), of files and of formats, the general
      controller, and the facade with its actions [sync_action], [sync_perform] and
      [sync_execute], in which an exception ends the action and is logged.  [SyncHttp]: the
      endpoints of the HTTP and the HTTPS service ([services/http_tak_api_service],
      [services/https_tak_api_service]) and of the REST API
      ([services/rest_api_service/blueprints/datapackages_blueprint.py]).  [SyncPaths]:
      where names lead.  [SyncFacts]: what is found and stored.  [SyncSample]: a disk and a
      package for witnesses.  [SyncReads], [SyncUpdates], [SyncUploads]: the
      properties of downloads and lists, of changes and deletions, and of uploads.
    - [MissionHttp]: the endpoints of the missions in the HTTP and the HTTPS service
      ([blueprints/mission_blueprint.py]) and in the REST API, as views of a route, with their
      properties: what a client is answered, and what it is not.
    - The checklists ([components/extended/excheck]).  [ExcheckStore]:
      [excheck_persistency_controller.py] over the interface of [MissionDb], which has its
      tables.  [ExcheckXml]: elements, what the code finds in them and changes, and
      [excheck_wintak_adapter.py].  [ExcheckControllers]: [excheck_template_controller.py],
      [excheck_checklist_controller.py] and the facade, with the type [excheck_action] of its
      actions, over the facade of [SyncStore], which gets all values of the request, as
      [execute_sub_action] hands them on; what the missions are asked is written down.
      [ExcheckProps]: data in the enterprise sync that is asked for, and replaced, by its uid;
      templates and tasks that are updated.  [ExcheckStarts]: checklists that
      are started.  [ExcheckHttp]: the endpoints in the two services
      ([blueprints/excheck_blueprint.py]), and what a client sees through them.  [ExcheckSample]: documents, and the theorems applied to them.

    ** What the theorems show

    - The core: every start handler starts and registers all of its service or leaves
      its registrations alone; a stop handler undoes what it says; all states the threads
      reach are consistent; the registry implements a map from users to connection
      types; a pass of forwarding puts what each source said (of a list, the first element
      and then the presences of all users) on every pipe but that of the source, past the
      puts that raise.  And where services step on each other: the data package
      services share one key, the CoT services one process attribute, the SSL CoT
      service can not be stopped, a status command restarts what it does not name.
    - The settings: precedence of environment, file and defaults; types; read-only
      settings, as long as nobody overrides them; the paths that are accepted; integers survive the environment; the keys
      of the file that can not be read.
    - The CoT services: the tables stay consistent however long they run, with the sockets of
      connections that came and what these or the core said of them; the loop never
      raises and keeps its two jobs going; messages of components reach whom they are
      for past every failing socket; those of clients stop at the first; chat reaches
      its addressee, a message with destinations nobody, because the core never learns
      of a client; what other services share is shared again, so that with both services
      running a message circulates without end; connections and disconnections enter and
      leave the tables, but for the connection that stays behind; reception reports on all
      clients, the SSL service after reading up to three times where nothing is said; a
      listener closes what it does not hand on; and what the removals of XML
      declarations keep.
    - The domain: properties read back the text they are assigned, but for seven that
      recurse, ten that take nodes only and the [data] of mission infos; a document that fits its nodes survives the conversion to nodes and back,
      at any depth, unknown elements included; an attribute that can not be assigned ends
      its element and, on the event, drops the message; of a list only the first element
      is kept.
    - Messages and stores: whom a message is for, and that "nobody" comes out as
      everybody; the stored emergencies refine a map until they are listed, and are
      final from then on; the copies of that store can not be opened; repeated messages
      are a map that survives in its file; emergencies go to those less than
      the radius away, and to a new client once too often for each further one; missions are asked to take
      stored messages only; a geo object that is repeated can not be deleted.
    - The REST API: what a geo object request makes is written for the clients as it was
      described; a request with a value that is not accepted does nothing at all; objects
      that are created are listed with what they were created with; the query for objects
      in a radius does not ask for the distance.
    - The missions: a call of the store that raises leaves nothing of what it did (the
      default permissions, which are committed one by one, and the recording of a change,
      which does not clean its session, apart); missions
      are a map from lower-case names; the default permissions and roles are created
      once; requests that ask change nothing; a log is stored once with its entries; a CoT
      and the change that tells of it once for each mission; a parent is given and taken
      away.  And what is stored but can not be asked for: a mission without a role, a
      relation, the entries of a log that was deleted, external data with an upper-case
      uid; and a change that fails ends the recording of changes.  Over HTTP and HTTPS: no GET
      request changes a table; who puts a mission without a role, or takes a parent away, is
      answered with an error although it is done.
    - The enterprise sync: what is uploaded under a new name comes back byte for byte, by
      name and by hash; the lists are of the public packages with the tool and the keyword
      that are asked for; a deletion leaves neither record nor file; files with plain names
      stay in their directory.  And where it goes wrong: a change that does not speak of
      privacy publishes a package; keywords lose a change; over HTTP privacy is never set;
      a name with steps upwards leaves the directory; a second upload takes the bytes of a
      hash; content that is put is not stored; of binary packages it is said that they are
      not there.
    - The checklists: a template that is posted comes back with its tasks numbered; a
      checklist that is started is stored with all of its tasks, and what the client is sent
      is what is stored; a task that is updated is stored with its checklist.  And where it goes
      wrong: the uids of the tasks are those of the template, so that a second checklist is
      not started; one that comes with its content never is; the record of a checklist gets
      the digest of a task.

    ** Bounds

    Integers are Python's, without bound.  The turns of the main loop take at most 100
    messages of the other services, as in the code.  Strings of text and of bytes have
    the same characters; [int], [str] and [lower] are those of ASCII.

    ** Not modelled

    The thread pool runs a reception and a listener beside the main loop; here each is
    one step with respect to it (only the main loop changes the tables, and a
    disconnection only happens when no reception runs).  The monitor thread of a CoT
    service, which logs and resets counters, is left out, and so are methods nothing
    calls.  Of the domain, [content] and the list of mission invitations, pickling, and
    the merge with an [xml_string] no node has; the database below the management of CoTs,
    and errors of the file system below the stores; what DigitalPy does between two
    actions (validation of users, routing, business rules).  Of the missions, the stub
    of Flask methods ([mission_api_controller.py]) and two controllers nothing uses, the
    objects SQLAlchemy keeps in a session beside those it has to write (a row that is read
    is the row that is there), and what saving a file puts in the response.  Of the
    enterprise sync, the methods that only [pass], the two controllers that look up other
    components, links on the disk, and numbers given as text to columns of numbers, which
    are refused; requests to the facade are carried out one at a time and before the answer,
    also where the HTTPS service does not wait for it.  Of the
    checklists, the list of templates and the mission of a checklist, which fill nodes of the
    domain, the notifications, comments and processing instructions in documents, and the
    earlier controllers the facade does not use.  The Flask endpoints of the REST API but for geo
    objects, emergencies, packages and the list of missions, those of the two services that answer
    constants, federation, the legacy services and certificates are not modelled.

    ** Plan

    Next: the JSON controllers of the
    REST API ([core/parsers], [core/RestMessageControllers]), whose documents are those of
    [DictToNode]; the database of the management of CoTs as a table, with what is
    read back from it; the legacy services of [core/services] against the lemmas of
    [CotFacts]. *)
From stdpp Require Import base strings list gmap pretty.
From Stdlib Require Import ZArith Lia Ascii String.

Set Default Proof Using "Type".

(** * Python values *)

(** The dynamic values the modelled code stores in settings, configuration
    objects and messages. *)
Inductive pyval :=
  | PNone
  | PBool (b : bool)
  | PInt (z : Z)
  | PStr (s : string)
  | PPath (s : string)
  | PList (l : list string).

#[export] Instance pyval_eq_dec : EqDecision pyval.
Proof. solve_decision. Defined.

(** [a == b]: a [bool] is an [int], every other pair of distinct types differs. *)
Definition py_eqb (a b : pyval) : bool :=
  match a, b with
  | PBool x, PInt z | PInt z, PBool x => Z.eqb z (Z.b2z x)
  | _, _ => bool_decide (a = b)
  end.

(** [bool(v)], the test an [if v:] makes. *)
Definition py_truth (v : pyval) : bool :=
  match v with
  | PNone => false
  | PBool b => b
  | PInt z => negb (Z.eqb z 0)
  | PStr s => negb (bool_decide (s = ""%string))
  | PPath _ => true
  | PList l => negb (bool_decide (l = []))
  end.

(** [str(v)] and what an f-string writes for [v].  A list is written for elements
    without quotes, backslashes or control characters. *)
Definition py_str (v : pyval) : string :=
  match v with
  | PNone => "None"
  | PBool true => "True"
  | PBool false => "False"
  | PInt z => pretty z
  | PStr s | PPath s => s
  | PList l => "[" +:+ String.concat ", " ((fun s => "'" +:+ s +:+ "'") <$> l) +:+ "]"
  end.

(** [int(s)] for a string of ASCII characters: white space around an optional sign
    and digits, single underscores allowed between digits. *)
Definition is_space (c : Ascii.ascii) : bool :=
  let n := Ascii.nat_of_ascii c in
  (Nat.leb 9 n && Nat.leb n 13) || (Nat.leb 28 n && Nat.leb n 32).

Definition digit_value (c : Ascii.ascii) : option Z :=
  let n := Ascii.nat_of_ascii c in
  if Nat.leb 48 n && Nat.leb n 57 then Some (Z.of_nat n - 48)%Z else None.

Fixpoint digits_after (l : list Ascii.ascii) (acc : Z) : option Z :=
  match l with
  | [] => Some acc
  | c :: l =>
      match digit_value c with
      | Some d => digits_after l (10 * acc + d)
      | None =>
          if decide (c = "_"%char) then
            match l with
            | c' :: l =>
                match digit_value c' with
                | Some d => digits_after l (10 * acc + d)
                | None => None
                end
            | [] => None
            end
          else None
      end
  end.

Definition digits (l : list Ascii.ascii) : option Z :=
  match l with
  | c :: l => d ← digit_value c; digits_after l d
  | [] => None
  end.

Fixpoint lstrip (l : list Ascii.ascii) : list Ascii.ascii :=
  match l with
  | c :: l' => if is_space c then lstrip l' else l
  | [] => []
  end.

Definition strip (l : list Ascii.ascii) : list Ascii.ascii :=
  rev (lstrip (rev (lstrip l))).

Definition parse_int (s : string) : option Z :=
  match strip (String.list_ascii_of_string s) with
  | "-"%char :: l => Z.opp <$> digits l
  | "+"%char :: l => digits l
  | l => digits l
  end.

(** * Exceptions, state and their monad *)

(** Exceptions by class.  [External] stands for whatever a call into code that is
    not part of the repository raises. *)
Inductive exn :=
  | KeyError | AttributeError | TypeError | ValueError | IndexError
  | NameError | RuntimeError | AssertionError | ParseError | SystemExit
  | OSError | TimeoutError | BlockingIOError | BrokenPipeError | ConnectionAbortedError
  | ConnectionResetError | FileNotFoundError | EOFError
  | External.

#[export] Instance exn_eq_dec : EqDecision exn.
Proof. solve_decision. Defined.

(** [except Exception] catches every exception but [SystemExit] (a [BaseException]). *)
Definition is_Exception (e : exn) : bool :=
  match e with SystemExit => false | _ => true end.

(** [except OSError], with the subclasses of [OSError].  [TimeoutError] is
    [socket.timeout]. *)
Definition is_OSError (e : exn) : bool :=
  match e with
  | OSError | TimeoutError | BlockingIOError | BrokenPipeError | ConnectionAbortedError
  | ConnectionResetError | FileNotFoundError => true
  | _ => false
  end.

Inductive outcome (A : Type) :=
  | Ret (a : A)
  | Exn (e : exn).
Arguments Ret {A} a.
Arguments Exn {A} e.

(** A Python statement sequence: it runs in a state and either yields a value or
    raises, and in both cases the state it had reached is kept. *)
Definition M (S A : Type) : Type := S -> outcome A * S.

#[export] Instance M_ret S : MRet (M S) := fun A a s => (Ret a, s).
#[export] Instance M_bind S : MBind (M S) := fun A B k m s =>
  match m s with
  | (Ret a, s') => k a s'
  | (Exn e, s') => (Exn e, s')
  end.

(** [int(v)]. *)
Definition py_int (v : pyval) : outcome Z :=
  match v with
  | PInt z => Ret z
  | PBool b => Ret (Z.b2z b)
  | PStr s => match parse_int s with Some z => Ret z | None => Exn ValueError end
  | PNone | PPath _ | PList _ => Exn TypeError
  end.

Section monad.
Context {S : Type}.

Definition of_outcome {A} (o : outcome A) : M S A := fun s => (o, s).

Definition raise {A} (e : exn) : M S A := fun s => (Exn e, s).
Definition gets {A} (f : S -> A) : M S A := fun s => (Ret (f s), s).
Definition modify (f : S -> S) : M S unit := fun s => (Ret tt, f s).

(** [try: m] followed by [except:], the handler choosing by exception. *)
Definition try_with {A} (m : M S A) (h : exn -> M S A) : M S A := fun s =>
  match m s with
  | (Ret a, s') => (Ret a, s')
  | (Exn e, s') => h e s'
  end.

(** [try: m except Exception: h]. *)
Definition try_except {A} (m : M S A) (h : exn -> M S A) : M S A :=
  try_with m (fun e => if is_Exception e then h e else raise e).

(** [o] if it is there, an exception otherwise. *)
Definition of_option {A} (e : exn) (o : option A) : M S A :=
  match o with Some a => mret a | None => raise e end.

Fixpoint for_each {A} (l : list A) (f : A -> M S unit) : M S unit :=
  match l with
  | [] => mret tt
  | a :: l => f a ≫= fun _ => for_each l f
  end.

(** A loop whose body may [return]: [Some r] leaves the loop with [r]. *)
Fixpoint for_return {A R} (l : list A) (f : A -> M S (option R)) : M S (option R) :=
  match l with
  | [] => mret None
  | a :: l =>
      f a ≫= fun o =>
      match o with
      | Some r => mret (Some r)
      | None => for_return l f
      end
  end.
End monad.

Declare Scope py_scope.
Delimit Scope py_scope with py.
Notation "'try:' m 'except:' h" := (try_except m (fun _ => h))
  (at level 10, m at level 200, h at level 200) : py_scope.
Notation "x <- m ;; k" := (mbind (fun x => k) m)
  (at level 100, m at next level, right associativity) : py_scope.
Notation "m ;;; k" := (mbind (fun _ => k) m)
  (at level 100, right associativity) : py_scope.
Open Scope py_scope.

(** * Reasoning about statement sequences *)

Section reasoning.
Context {S : Type}.
Implicit Types (I : S -> Prop).

(** [m] keeps the invariant [I], whether it returns or raises. *)
Definition preserves {A} I (m : M S A) : Prop := forall s, I s -> I (m s).2.

(** [m] leaves the observation [f] of the state alone. *)
Definition keeps {A T} (f : S -> T) (m : M S A) : Prop :=
  forall x, preserves (fun s => f s = x) m.

(** [m] never raises. *)
Definition total {A} (m : M S A) : Prop := forall s, exists a s', m s = (Ret a, s').

(** If [m] raises, the observation [f] of the state is what it was before. *)
Definition clean {A T} (f : S -> T) (m : M S A) : Prop :=
  forall s e s', m s = (Exn e, s') -> f s' = f s.

(** Every value [m] returns satisfies [Q] with the state it returns in. *)
Definition yields {A} (m : M S A) (Q : A -> S -> Prop) : Prop :=
  forall s a s', m s = (Ret a, s') -> Q a s'.

(** From a state satisfying [P], [m] returns in [Q] or raises in [E]. *)
Definition triple {A} (P : S -> Prop) (m : M S A) (Q : A -> S -> Prop)
    (E : exn -> S -> Prop) : Prop :=
  forall s, P s ->
    match m s with
    | (Ret a, s') => Q a s'
    | (Exn e, s') => E e s'
    end.

Lemma run_ret {A} (m : M S A) s a : (m s).1 = Ret a -> m s = (Ret a, (m s).2).
Proof. intros <-. by destruct (m s). Qed.

Lemma run_bind {A B} (m : M S A) (k : A -> M S B) s a s' :
  m s = (Ret a, s') -> (m ≫= k) s = k a s'.
Proof. intros E. cbv [mbind M_bind]. by rewrite E. Qed.

Lemma run_bind_exn {A B} (m : M S A) (k : A -> M S B) s e s' :
  m s = (Exn e, s') -> (m ≫= k) s = (Exn e, s').
Proof. intros E. cbv [mbind M_bind]. by rewrite E. Qed.

Lemma bind_inv {A B} (m : M S A) (k : A -> M S B) s b s' :
  (m ≫= k) s = (Ret b, s') -> exists a s1, m s = (Ret a, s1) /\ k a s1 = (Ret b, s').
Proof.
  cbv [mbind M_bind]. destruct (m s) as [[a|e] s1]; [|discriminate].
  intros E. by exists a, s1.
Qed.

Lemma try_except_ret {A} (m : M S A) (h : exn -> M S A) s a s' :
  m s = (Ret a, s') -> try_except m h s = (Ret a, s').
Proof. intros E. unfold try_except, try_with. by rewrite E. Qed.

Lemma try_except_exn {A} (m : M S A) (h : exn -> M S A) s e s' :
  m s = (Exn e, s') -> is_Exception e = true -> try_except m h s = h e s'.
Proof. intros E He. unfold try_except, try_with. by rewrite E, He. Qed.

Lemma try_except_inv {A} (m : M S A) (h : exn -> M S A) s a s' :
  try_except m h s = (Ret a, s') ->
  m s = (Ret a, s') \/ exists e s1, m s = (Exn e, s1) /\ is_Exception e = true /\ h e s1 = (Ret a, s').
Proof.
  unfold try_except, try_with. destruct (m s) as [[b|e] s1]; [by left|].
  destruct (is_Exception e) eqn:He; [|discriminate]. intros E. right. by exists e, s1.
Qed.

(** A handler that returned something else than its [except] clause ran through. *)
Lemma try_default_inv {A} (m : M S A) (d : A) s a s' :
  try_except m (fun _ => mret d) s = (Ret a, s') -> a <> d -> m s = (Ret a, s').
Proof.
  intros E Hne. destruct (try_except_inv _ _ _ _ _ E) as [H|(e & s1 & _ & _ & [= <- _])];
    [exact H|done].
Qed.

Lemma triple_bind {A B} P (m : M S A) (k : A -> M S B) R Q E :
  triple P m R E -> (forall a, triple (R a) (k a) Q E) -> triple P (m ≫= k) Q E.
Proof.
  intros Hm Hk s Hs. specialize (Hm s Hs). cbv [mbind M_bind].
  destruct (m s) as [[a|e] s']; [exact (Hk a s' Hm)|exact Hm].
Qed.

Lemma triple_ret {A} (P : S -> Prop) (a : A) (Q : A -> S -> Prop) E :
  (forall s, P s -> Q a s) -> triple P (mret a) Q E.
Proof. intros H s Hs. exact (H s Hs). Qed.

Lemma triple_try_except {A} P (m : M S A) h Q R E :
  triple P m Q R -> (forall e, triple (R e) (h e) Q E) ->
  (forall e s, is_Exception e = false -> R e s -> E e s) ->
  triple P (try_except m h) Q E.
Proof.
  intros Hm Hh Hx s Hs. specialize (Hm s Hs). unfold try_except, try_with.
  destruct (m s) as [[a|e] s']; [exact Hm|].
  destruct (is_Exception e) eqn:Ee; [exact (Hh e s' Hm)|exact (Hx e s' Ee Hm)].
Qed.

Lemma triple_weaken {A} (P P' : S -> Prop) (m : M S A) (Q Q' : A -> S -> Prop)
    (E E' : exn -> S -> Prop) :
  triple P m Q E -> (forall s, P' s -> P s) -> (forall a s, Q a s -> Q' a s) ->
  (forall e s, E e s -> E' e s) -> triple P' m Q' E'.
Proof.
  intros Hm HP HQ HE s Hs. specialize (Hm s (HP s Hs)).
  destruct (m s) as [[a|e] s']; auto.
Qed.

(** An invariant goes through a statement that preserves it. *)
Lemma triple_preserves {A} I (m : M S A) :
  preserves I m -> triple I m (fun _ => I) (fun _ => I).
Proof. intros Hm s Hs. specialize (Hm s Hs). by destruct (m s) as [[a|e] s']. Qed.

Lemma preserves_triple {A} I (m : M S A) :
  triple I m (fun _ => I) (fun _ => I) -> preserves I m.
Proof. intros Hm s Hs. specialize (Hm s Hs). by destruct (m s) as [[a|e] s']. Qed.

Lemma triple_step {A B} I (m : M S A) (k : A -> M S B) Q :
  preserves I m -> (forall a, triple I (k a) Q (fun _ => I)) ->
  triple I (m ≫= k) Q (fun _ => I).
Proof.
  intros Hm Hk. eapply triple_bind; [by apply triple_preserves|exact Hk].
Qed.

(** The value of [m] satisfies [phi] where the rest runs. *)
Lemma triple_value_step {A B} (I : S -> Prop) (phi : A -> Prop) (m : M S A)
    (k : A -> M S B) Q :
  triple I m (fun a s => I s /\ phi a) (fun _ => I) ->
  (forall a, phi a -> triple I (k a) Q (fun _ => I)) ->
  triple I (m ≫= k) Q (fun _ => I).
Proof.
  intros Hm Hk. eapply triple_bind; [exact Hm|].
  intros a s [Hs Ha]. exact (Hk a Ha s Hs).
Qed.

Lemma triple_keeps_step {A B T} (f : S -> T) x (m : M S A) (k : A -> M S B) Q :
  keeps f m ->
  (forall a, triple (fun s => f s = x) (k a) Q (fun _ s => f s = x)) ->
  triple (fun s => f s = x) (m ≫= k) Q (fun _ s => f s = x).
Proof. intros Hm. apply triple_step, Hm. Qed.

Lemma preserves_ret {A} I (a : A) : preserves I (mret a : M S A).
Proof. intros s Hs. exact Hs. Qed.

Lemma preserves_raise {A} I e : preserves I (raise e : M S A).
Proof. intros s Hs. exact Hs. Qed.

Lemma preserves_gets {A} I (f : S -> A) : preserves I (gets f).
Proof. intros s Hs. exact Hs. Qed.

Lemma preserves_modify I (f : S -> S) :
  (forall s, I s -> I (f s)) -> preserves I (modify f).
Proof. intros Hf s Hs. exact (Hf s Hs). Qed.

Lemma preserves_bind {A B} I (m : M S A) (k : A -> M S B) :
  preserves I m -> (forall a, preserves I (k a)) -> preserves I (m ≫= k).
Proof.
  intros Hm Hk s Hs. specialize (Hm s Hs). cbv [mbind M_bind].
  destruct (m s) as [[a|e] s']; [apply Hk, Hm|exact Hm].
Qed.

Lemma preserves_try_with {A} I (m : M S A) h :
  preserves I m -> (forall e, preserves I (h e)) -> preserves I (try_with m h).
Proof.
  intros Hm Hk s Hs. specialize (Hm s Hs). unfold try_with.
  destruct (m s) as [[a|e] s']; [exact Hm|apply Hk, Hm].
Qed.

Lemma preserves_try_except {A} I (m : M S A) h :
  preserves I m -> (forall e, preserves I (h e)) -> preserves I (try_except m h).
Proof.
  intros Hm Hk. apply preserves_try_with; [exact Hm|].
  intros e. destruct (is_Exception e); [apply Hk|apply preserves_raise].
Qed.

Lemma preserves_of_option {A} I e (o : option A) : preserves I (of_option e o : M S A).
Proof. destruct o; [apply preserves_ret|apply preserves_raise]. Qed.

Lemma preserves_of_outcome {A} I (o : outcome A) : preserves I (of_outcome o : M S A).
Proof. intros s Hs. exact Hs. Qed.

Lemma preserves_for_each {A} I (l : list A) (f : A -> M S unit) :
  (forall a, a ∈ l -> preserves I (f a)) -> preserves I (for_each l f).
Proof.
  induction l as [|a l IH]; intros Hf; [apply preserves_ret|].
  apply preserves_bind; [apply Hf; set_solver|].
  intros _. apply IH. set_solver.
Qed.

Lemma preserves_for_return {A R} I (l : list A) (f : A -> M S (option R)) :
  (forall a, a ∈ l -> preserves I (f a)) -> preserves I (for_return l f).
Proof.
  induction l as [|a l IH]; intros Hf; [apply preserves_ret|].
  apply preserves_bind; [apply Hf; set_solver|].
  intros [r|]; [apply preserves_ret|]. apply IH. set_solver.
Qed.

Lemma preserves_and {A} (I J : S -> Prop) (m : M S A) :
  preserves I m -> preserves J m -> preserves (fun s => I s /\ J s) m.
Proof. intros Hi Hj s [Hs Ht]. split; [apply Hi, Hs|apply Hj, Ht]. Qed.

Lemma keeps_eq {A T} (f : S -> T) (m : M S A) s : keeps f m -> f (m s).2 = f s.
Proof. intros H. exact (H (f s) s eq_refl). Qed.

(** An invariant of an observation that [m] leaves alone is kept by [m]. *)
Lemma keeps_preserves {A T} (f : S -> T) (I : T -> Prop) (m : M S A) :
  keeps f m -> preserves (fun s => I (f s)) m.
Proof. intros H s Hs. rewrite (keeps_eq f m s H). exact Hs. Qed.

Lemma total_ret {A} (a : A) : total (mret a : M S A).
Proof. intros s. by exists a, s. Qed.

Lemma total_gets {A} (f : S -> A) : total (gets f).
Proof. intros s. by exists (f s), s. Qed.

Lemma total_modify (f : S -> S) : total (modify f).
Proof. intros s. by exists tt, (f s). Qed.

Lemma total_bind {A B} (m : M S A) (k : A -> M S B) :
  total m -> (forall a, total (k a)) -> total (m ≫= k).
Proof.
  intros Hm Hk s. destruct (Hm s) as (a & s' & E).
  cbv [mbind M_bind]. rewrite E. apply Hk.
Qed.

Lemma total_try_with {A} (m : M S A) h : (forall e, total (h e)) -> total (try_with m h).
Proof.
  intros Hh s. unfold try_with. destruct (m s) as [[a|e] s']; [by exists a, s'|apply Hh].
Qed.

Lemma total_for_each {A} (l : list A) (f : A -> M S unit) :
  (forall a, total (f a)) -> total (for_each l f).
Proof.
  intros Hf. induction l as [|a l IH]; [apply total_ret|].
  apply total_bind; [apply Hf|]. intros _. exact IH.
Qed.

(** [m] raises nothing but [Exception]s, which [except Exception] catches. *)
Definition benign {A} (m : M S A) : Prop :=
  forall s e s', m s = (Exn e, s') -> is_Exception e = true.

Lemma benign_total {A} (m : M S A) : total m -> benign m.
Proof. intros H s e s' E. destruct (H s) as (a & s1 & E1). congruence. Qed.

Lemma benign_raise {A} e : is_Exception e = true -> benign (raise e : M S A).
Proof. intros H s x s' E. injection E as <- <-. exact H. Qed.

Lemma benign_bind {A B} (m : M S A) (k : A -> M S B) :
  benign m -> (forall a, benign (k a)) -> benign (m ≫= k).
Proof.
  intros Hm Hk s e s' E. cbv [mbind M_bind] in E.
  destruct (m s) as [[a|x] s1] eqn:E1; [exact (Hk a _ _ _ E)|].
  injection E as <- <-. exact (Hm _ _ _ E1).
Qed.

Lemma benign_of_option {A} e (o : option A) :
  is_Exception e = true -> benign (of_option e o : M S A).
Proof. destruct o; [intros _; apply benign_total, total_ret|apply benign_raise]. Qed.

Lemma benign_try_with {A} (m : M S A) h :
  (forall e, benign (h e)) -> benign (try_with m h).
Proof.
  intros Hh s e s' E. unfold try_with in E.
  destruct (m s) as [[a|x] s1]; [discriminate|exact (Hh x _ _ _ E)].
Qed.

Lemma benign_try_except {A} (m : M S A) h :
  benign m -> (forall e, benign (h e)) -> benign (try_except m h).
Proof.
  intros Hm Hh s e s' E. unfold try_except, try_with in E.
  destruct (m s) as [[a|x] s1] eqn:E1; [discriminate|].
  rewrite (Hm _ _ _ E1) in E. exact (Hh x _ _ _ E).
Qed.

Lemma benign_for_each {A} (l : list A) (f : A -> M S unit) :
  (forall a, benign (f a)) -> benign (for_each l f).
Proof.
  intros Hf. induction l as [|a l IH]; [apply benign_total, total_ret|].
  apply benign_bind; [apply Hf|]. intros _. exact IH.
Qed.

Lemma total_try_except {A} (m : M S A) h :
  benign m -> (forall e, total (h e)) -> total (try_except m h).
Proof.
  intros Hm Hh s. unfold try_except, try_with.
  destruct (m s) as [[a|e] s'] eqn:E; [by exists a, s'|].
  rewrite (Hm _ _ _ E). apply Hh.
Qed.

Lemma clean_keeps {A T} (f : S -> T) (m : M S A) : keeps f m -> clean f m.
Proof. intros H s e s' E. rewrite <- (keeps_eq f m s H), E. done. Qed.

Lemma clean_total {A T} (f : S -> T) (m : M S A) : total m -> clean f m.
Proof. intros H s e s' E. destruct (H s) as (a & s1 & E1). congruence. Qed.

(** The shape of an operation that registers its effect last. *)
Lemma clean_bind {A B T} (f : S -> T) (m : M S A) (k : A -> M S B) :
  keeps f m -> (forall a, clean f (k a)) -> clean f (m ≫= k).
Proof.
  intros Hm Hk s e s' E. pose proof (keeps_eq f m s Hm) as Hf.
  cbv [mbind M_bind] in E.
  destruct (m s) as [[a|x] s1]; simpl in Hf; [|congruence].
  rewrite <- Hf. exact (Hk a s1 e s' E).
Qed.

Lemma yields_bind {A B} (m : M S A) (k : A -> M S B) Q :
  (forall a, yields (k a) Q) -> yields (m ≫= k) Q.
Proof.
  intros Hk s b s' E. cbv [mbind M_bind] in E.
  destruct (m s) as [[a|e] s1]; [exact (Hk a s1 b s' E)|discriminate].
Qed.

Lemma yields_ret {A} (a : A) (Q : A -> S -> Prop) :
  (forall s, Q a s) -> yields (mret a) Q.
Proof. intros H s b s' E. injection E as <- <-. apply H. Qed.
End reasoning.

Create HintDb py.
#[export] Hint Resolve preserves_ret preserves_raise preserves_gets preserves_of_option
  preserves_of_outcome   preserves_bind preserves_try_with preserves_try_except
  total_ret total_gets total_modify total_bind total_for_each : py.

(** Walks a statement sequence: one step per statement, both branches of a test. *)
Ltac py_step :=
  match goal with
  | |- keeps _ _ => let x := fresh "x" in intros x
  | |- preserves _ (mbind _ _) => apply preserves_bind; [|intros ?]
  | |- preserves _ (try_except _ _) => apply preserves_try_except; [|intros ?]
  | |- preserves _ (try_with _ _) => apply preserves_try_with; [|intros ?]
  | |- preserves _ (for_each _ _) => apply preserves_for_each; intros ? ?
  | |- preserves _ (for_return _ _) => apply preserves_for_return; intros ? ?
  | |- preserves _ (mret _) => apply preserves_ret
  | |- preserves _ (raise _) => apply preserves_raise
  | |- preserves _ (gets _) => apply preserves_gets
  | |- preserves _ (of_outcome _) => apply preserves_of_outcome
  | |- preserves _ (of_option _ _) => apply preserves_of_option
  | |- preserves _ (match ?x with _ => _ end) => destruct x
  | |- benign (mbind _ _) => apply benign_bind; [|intros ?]
  | |- benign (try_except _ _) => apply benign_try_except; [|intros ?]
  | |- benign (try_with _ _) => apply benign_try_with; intros ?
  | |- benign (for_each _ _) => apply benign_for_each; intros ?
  | |- benign (mret _) => apply benign_total, total_ret
  | |- benign (gets _) => apply benign_total, total_gets
  | |- benign (modify _) => apply benign_total, total_modify
  | |- benign (raise _) => apply benign_raise; reflexivity
  | |- benign (of_option _ _) => apply benign_of_option; reflexivity
  | |- benign (match ?x with _ => _ end) => destruct x
  | |- total (mbind _ _) => apply total_bind; [|intros ?]
  | |- total (try_except _ _) => apply total_try_except; [|intros ?]
  | |- total (try_with _ _) => apply total_try_with; intros ?
  | |- total (for_each _ _) => apply total_for_each; intros ?
  | |- total (mret _) => apply total_ret
  | |- total (gets _) => apply total_gets
  | |- total (modify _) => apply total_modify
  | |- total (match ?x with _ => _ end) => destruct x
  end.

Ltac py_walk := repeat (py_step || solve [eauto 3 with py nocore]).

(** Unfolds the monad so that a run on a concrete or partly known state computes. *)
Ltac py_run :=
  cbv [mbind mret M_bind M_ret raise gets modify try_with try_except of_option of_outcome
       is_Exception fst snd].

(** * Python dictionaries *)

(** A [dict] iterates over its keys in insertion order; assigning to a key that is
    there keeps its place, assigning to a new one appends. *)
Section dict.
Context {K V : Type} {HK : EqDecision K}.
Implicit Types (d : list (K * V)) (k : K) (v : V).

Fixpoint dget k d : option V :=
  match d with
  | [] => None
  | (k', v) :: d => if decide (k = k') then Some v else dget k d
  end.

Fixpoint dset k v d : list (K * V) :=
  match d with
  | [] => [(k, v)]
  | (k', v') :: d => if decide (k = k') then (k', v) :: d else (k', v') :: dset k v d
  end.

Fixpoint ddel k d : list (K * V) :=
  match d with
  | [] => []
  | (k', v) :: d => if decide (k = k') then ddel k d else (k', v) :: ddel k d
  end.

Definition dkeys d : list K := d.*1.
Definition dvalues d : list V := d.*2.

Lemma dget_dset_eq k v d : dget k (dset k v d) = Some v.
Proof.
  induction d as [|[k' v'] d IH]; simpl; [by rewrite decide_True|].
  case_decide; simpl; [by rewrite decide_True|by rewrite decide_False].
Qed.

Lemma dget_dset_ne k k' v d : k <> k' -> dget k (dset k' v d) = dget k d.
Proof.
  intros Hne. induction d as [|[k1 v1] d IH]; simpl; [by rewrite decide_False|].
  repeat case_decide; simplify_eq; simpl; repeat case_decide; naive_solver.
Qed.

Lemma dget_ddel_eq k d : dget k (ddel k d) = None.
Proof.
  induction d as [|[k' v'] d IH]; simpl; [done|].
  case_decide; simpl; [done|by rewrite decide_False].
Qed.

Lemma dget_ddel_ne k k' d : k <> k' -> dget k (ddel k' d) = dget k d.
Proof.
  intros Hne. induction d as [|[k1 v1] d IH]; simpl; [done|].
  repeat case_decide; simplify_eq; simpl; repeat case_decide; naive_solver.
Qed.

Lemma dget_Some_elem k v d : dget k d = Some v -> (k, v) ∈ d.
Proof.
  induction d as [|[k' v'] d IH]; simpl; [done|].
  case_decide; intros; simplify_eq; [left|right; auto].
Qed.

Lemma dget_None_keys k d : dget k d = None <-> k ∉ dkeys d.
Proof.
  unfold dkeys. induction d as [|[k' v'] d IH]; simpl.
  - split; [intros _; apply not_elem_of_nil|done].
  - rewrite not_elem_of_cons, <- IH. case_decide; intuition congruence.
Qed.

Lemma dset_absent k v d : dget k d = None -> dset k v d = d ++ [(k, v)].
Proof.
  induction d as [|[k' v'] d IH]; simpl; [done|].
  case_decide; [done|]. intros HN. by rewrite IH.
Qed.

Lemma dkeys_dset_present k v v' d :
  dget k d = Some v' -> dkeys (dset k v d) = dkeys d.
Proof.
  unfold dkeys. induction d as [|[k1 v1] d IH]; simpl; [done|].
  case_decide; simpl; [done|]. intros HN. f_equal. by apply IH.
Qed.

Lemma ddel_absent k d : dget k d = None -> ddel k d = d.
Proof.
  induction d as [|[k' v'] d IH]; simpl; [done|].
  case_decide; [done|]. intros HN. by rewrite IH.
Qed.

Lemma elem_of_ddel k d p : p ∈ ddel k d <-> p ∈ d /\ p.1 <> k.
Proof.
  induction d as [|[k' v'] d IH]; simpl.
  - split; [intros Hp; by apply not_elem_of_nil in Hp|]. by intros [Hp _].
  - case_decide as Hk; rewrite !elem_of_cons, IH; split.
    + intros [Hp Hne]. auto.
    + intros [[->|Hp] Hne]; [by subst|auto].
    + intros [->|[Hp Hne]]; auto using not_eq_sym.
    + intros [[->|Hp] Hne]; auto.
Qed.

Lemma NoDup_ddel k d : NoDup (dkeys d) -> NoDup (dkeys (ddel k d)).
Proof.
  unfold dkeys. induction d as [|[k' v'] d IH]; simpl; [done|].
  rewrite NoDup_cons. intros [Hn Hd]. case_decide; [auto|].
  simpl. apply NoDup_cons. split; [|auto].
  intros Hin. apply Hn. apply list_elem_of_fmap in Hin as ([k1 v1] & -> & Hin).
  apply elem_of_ddel in Hin as [Hin _]. by apply (list_elem_of_fmap_2 fst).
Qed.

Lemma NoDup_dset k v d : NoDup (dkeys d) -> NoDup (dkeys (dset k v d)).
Proof.
  intros Hd. destruct (dget k d) as [v'|] eqn:E.
  - by rewrite (dkeys_dset_present _ _ _ _ E).
  - rewrite (dset_absent _ _ _ E). unfold dkeys. rewrite fmap_app. apply NoDup_app.
    split; [done|]. split; [|apply NoDup_singleton].
    apply dget_None_keys in E. unfold dkeys in E. set_solver.
Qed.

Lemma elem_dget k v d : NoDup (dkeys d) -> (k, v) ∈ d -> dget k d = Some v.
Proof.
  unfold dkeys. induction d as [|[k' v'] d IH]; simpl; [set_solver|].
  rewrite NoDup_cons, elem_of_cons. intros [Hn Hd] [E|Hin].
  - simplify_eq. by rewrite decide_True.
  - rewrite decide_False; [auto|]. intros ->.
    apply Hn. by apply (list_elem_of_fmap_2 fst) in Hin.
Qed.

Lemma elem_of_dset k v d p :
  p ∈ dset k v d -> p = (k, v) \/ (p ∈ d /\ (NoDup (dkeys d) -> p.1 <> k)).
Proof.
  unfold dkeys. induction d as [|[k' v'] d IH]; simpl; [set_solver|].
  case_decide as Hk.
  - rewrite !elem_of_cons. intros [->|Hin]; [left; by subst|].
    right. split; [auto|]. rewrite NoDup_cons. intros [Hn _] <-.
    subst. apply Hn. by apply (list_elem_of_fmap_2 fst) in Hin.
  - rewrite !elem_of_cons. intros [->|Hin]; [right; split; [by left|]; intros _; by apply not_eq_sym|].
    destruct (IH Hin) as [->|[H1 H2]]; [by left|right].
    split; [by right|]. rewrite NoDup_cons. intros [_ Hd]. by apply H2.
Qed.

(** Two dictionaries with the same entries, in whatever order. *)
Definition dict_equiv d1 d2 : Prop := forall k, dget k d1 = dget k d2.

#[global] Instance dict_equiv_equivalence : Equivalence dict_equiv.
Proof.
  split; [by intros d k|by intros d1 d2 H k|].
  intros d1 d2 d3 H1 H2 k. by rewrite H1, H2.
Qed.

#[global] Instance dset_proper k v : Proper (dict_equiv ==> dict_equiv) (dset k v).
Proof.
  intros d1 d2 H j. destruct (decide (j = k)) as [->|Hne].
  - by rewrite !dget_dset_eq.
  - rewrite !dget_dset_ne by done. apply H.
Qed.

#[global] Instance ddel_proper k : Proper (dict_equiv ==> dict_equiv) (ddel k).
Proof.
  intros d1 d2 H j. destruct (decide (j = k)) as [->|Hne].
  - by rewrite !dget_ddel_eq.
  - rewrite !dget_ddel_ne by done. apply H.
Qed.

#[global] Instance dget_proper k : Proper (dict_equiv ==> eq) (dget k).
Proof. intros d1 d2 H. apply H. Qed.

Lemma ddel_dset k v d : dget k d = None -> ddel k (dset k v d) = d.
Proof.
  intros H. rewrite (dset_absent _ _ _ H). clear -H.
  induction d as [|[k' v'] d IH]; simpl in *; [by rewrite decide_True|].
  case_decide; [done|]. by rewrite IH.
Qed.

Lemma dget_fold_dset (l : list (K * V)) k d :
  k ∉ l.*1 -> dget k (fold_left (fun d p => dset p.1 p.2 d) l d) = dget k d.
Proof.
  revert d. induction l as [|[k' v'] l IH]; intros d H; simpl in *; [done|].
  rewrite IH by set_solver. rewrite dget_dset_ne by set_solver. done.
Qed.

Lemma dget_fold_dset_rev (l : list (K * V)) k d :
  dget k (fold_left (fun d p => dset p.1 p.2 d) l d) =
  match dget k (rev l) with Some v => Some v | None => dget k d end.
Proof.
  induction l as [|[k' v] l IH] using rev_ind; [done|].
  rewrite fold_left_app, rev_app_distr. simpl. case_decide as Hk.
  - subst. by rewrite dget_dset_eq.
  - by rewrite dget_dset_ne.
Qed.

Lemma dget_rev (l : list (K * V)) k : NoDup (dkeys l) -> dget k (rev l) = dget k l.
Proof.
  intros H. assert (Hr : NoDup (dkeys (rev l))).
  { unfold dkeys in *. assert (P : Permutation (rev l).*1 l.*1); [|by rewrite P].
    apply fmap_Permutation, Permutation_sym, Permutation_rev. }
  destruct (dget k l) as [v|] eqn:E.
  - apply elem_dget; [done|]. apply list_elem_of_In, in_rev. rewrite rev_involutive.
    apply list_elem_of_In. by apply dget_Some_elem.
  - apply dget_None_keys. apply dget_None_keys in E. revert E. unfold dkeys.
    intros E Hin. apply E. apply list_elem_of_fmap in Hin as (p & -> & Hp).
    apply list_elem_of_fmap_2. apply list_elem_of_In. apply in_rev. by apply list_elem_of_In.
Qed.
End dict.

(** Elements of a list with different images are told apart by them. *)
Lemma Forall2_elem_l {A B} (P : A -> B -> Prop) l k x : Forall2 P l k -> x ∈ l -> exists y, y ∈ k /\ P x y.
Proof.
  intros HP (i & Hi)%list_elem_of_lookup_1. destruct (Forall2_lookup_l _ _ _ _ _ HP Hi) as (y & Hy & Hxy).
  exists y. split; [by eapply list_elem_of_lookup_2|done].
Qed.
Lemma Forall2_elem_r {A B} (P : A -> B -> Prop) l k y : Forall2 P l k -> y ∈ k -> exists x, x ∈ l /\ P x y.
Proof.
  intros HP (i & Hi)%list_elem_of_lookup_1. destruct (Forall2_lookup_r _ _ _ _ _ HP Hi) as (x & Hx & Hxy).
  exists x. split; [by eapply list_elem_of_lookup_2|done].
Qed.

Lemma NoDup_fmap_elem {A B} (f : A -> B) (l : list A) x y :
  NoDup (f <$> l) -> x ∈ l -> y ∈ l -> f x = f y -> x = y.
Proof.
  induction l as [|z l IH]; [intros _ Hx; by apply not_elem_of_nil in Hx|].
  rewrite fmap_cons, NoDup_cons, !elem_of_cons. intros [Hz Hl] [->|Hx] [->|Hy] E; [done| | |auto];
    destruct Hz; [rewrite E|rewrite <- E]; by apply list_elem_of_fmap_2.
Qed.

Create Rewrite HintDb dict.
#[export] Hint Rewrite @dget_dset_eq @dget_ddel_eq : dict.
#[export] Hint Rewrite @dget_dset_ne @dget_ddel_ne using done : dict.
Ltac dict_simpl := autorewrite with dict in *.

(** [d.update(l)]; a display of a dictionary is an update of the empty one. *)
Definition dupdate {K V} `{EqDecision K} (d l : list (K * V)) : list (K * V) :=
  fold_left (fun d p => dset p.1 p.2 d) l d.
Definition dict_of {K V} `{EqDecision K} (l : list (K * V)) : list (K * V) := dupdate [] l.

Section Update.
Context {K V : Type} `{EqDecision K}.
Implicit Types (P : K * V -> Prop) (d l : list (K * V)).

(** What holds of the entries written down holds of those of the dictionary. *)
Lemma Forall_entry_set P k v d : P (k, v) -> Forall P d -> Forall P (dset k v d).
Proof.
  intros H. induction 1 as [|[k' v'] d H' Hd IH]; cbn [dset].
  - by apply Forall_cons_2; [|apply Forall_nil_2].
  - destruct (decide _) as [<-|]; by apply Forall_cons_2.
Qed.

Lemma Forall_dupdate P d l : Forall P d -> Forall P l -> Forall P (dupdate d l).
Proof.
  intros Hd Hl. unfold dupdate. revert d Hd. induction Hl as [|[k v] l H _ IH]; intros d Hd; [done|].
  cbn [fold_left]. apply IH. by apply Forall_entry_set.
Qed.

Lemma Forall_updates P ds d : Forall P d -> Forall (Forall P) ds -> Forall P (fold_left dupdate ds d).
Proof.
  intros Hd H. revert d Hd. induction H as [|l ds Hl _ IH]; intros d Hd; [done|].
  cbn [fold_left]. apply IH. by apply Forall_dupdate.
Qed.

(** A key that is not in the last of the dictionaries. *)
Lemma dget_dupdate_absent k d l :
  Forall (fun p => p.1 <> k) l -> dget k (dupdate d l) = dget k d.
Proof.
  intros H. unfold dupdate. revert d. induction H as [|[k' v'] l Hk _ IH]; intros d; [done|].
  cbn [fold_left fst snd]. rewrite IH. by apply dget_dset_ne.
Qed.

Lemma dget_updates_last k d l ds :
  Forall (fun p => p.1 <> k) l ->
  dget k (fold_left dupdate (ds ++ [l])%list d) = dget k (fold_left dupdate ds d).
Proof. intros H. rewrite fold_left_app. by apply dget_dupdate_absent. Qed.
End Update.

(** [del d[k]] raises [KeyError] where [k] is no key of [d]. *)
Definition py_del {K V} `{EqDecision K} (k : K) (d : list (K * V)) : option (list (K * V)) :=
  match dget k d with
  | Some _ => Some (ddel k d)
  | None => None
  end.
