(* ===== verification/Fairness.v ===== *)
(** Runs of concurrent components under a schedule: what happens infinitely often, and
    what leads to what when every component gets its turn again and again. *)
From stdpp Require Import base tactics.
From Stdlib Require Import Lia Arith.

Set Default Proof Using "Type".

Section schedule.
Context {St Actor : Type} (step : Actor -> St -> St) (schedule : nat -> Actor) (x0 : St).

(** The state after [n] turns. *)
Fixpoint run (n : nat) : St :=
  match n with O => x0 | S n => step (schedule n) (run n) end.

(** Every actor gets a turn after any instant. *)
Definition fair : Prop := forall a n, exists m, n <= m /\ schedule m = a.

(** Whenever [P] holds, [Q] does then or later. *)
Definition leads_to (P Q : St -> Prop) : Prop :=
  forall n, P (run n) -> exists m, n <= m /\ Q (run m).

Lemma run_invariant (I : St -> Prop) :
  I x0 -> (forall a x, I x -> I (step a x)) -> forall n, I (run n).
Proof. intros H0 Hs n. induction n as [|n IH]; [exact H0|]. cbn. auto. Qed.

Lemma leads_to_now (P Q : St -> Prop) : (forall n, P (run n) -> Q (run n)) -> leads_to P Q.
Proof. intros H n Hn. exists n. auto. Qed.

Lemma leads_to_trans (P Q R : St -> Prop) : leads_to P Q -> leads_to Q R -> leads_to P R.
Proof.
  intros H1 H2 n Hn. destruct (H1 n Hn) as (m & Hm & HQ). destruct (H2 m HQ) as (k & Hk & HR).
  exists k. split; [lia|done].
Qed.

Lemma leads_to_or (P Q R : St -> Prop) :
  leads_to P R -> leads_to Q R -> leads_to (fun x => P x \/ Q x) R.
Proof. intros H1 H2 n [H|H]; [by apply H1|by apply H2]. Qed.

Lemma leads_to_ex {I} (P : I -> St -> Prop) (Q : St -> Prop) :
  (forall i, leads_to (P i) Q) -> leads_to (fun x => exists i, P i x) Q.
Proof. intros H n (i & Hi). by apply (H i). Qed.

(** [P] holds until [a] gets its turn, and then [Q] does. *)
Lemma leads_to_turn (P Q : St -> Prop) a :
  fair ->
  (forall n, P (run n) -> schedule n <> a -> P (run (S n))) ->
  (forall n, P (run n) -> schedule n = a -> Q (run (S n))) ->
  (forall a' : Actor, a' = a \/ a' <> a) ->
  leads_to P Q.
Proof.
  intros Hf Hp Hq Hd n Hn. destruct (Hf a n) as (m & Hm & Ha).
  revert n Hn Hm. enough (H : forall k n, m = n + k -> P (run n) -> exists i, n <= i /\ Q (run i)).
  { intros n Hn Hm. by apply (H (m - n) n ltac:(lia)). }
  intros k. induction k as [|k IH]; intros n E Hn.
  - exists (S n). split; [lia|]. apply Hq; [done|]. by rewrite Nat.add_0_r in E; subst m.
  - destruct (Hd (schedule n)) as [En|En]; [exists (S n); split; [lia|by apply Hq]|].
    destruct (IH (S n) ltac:(lia) (Hp n Hn En)) as (i & Hi & H). exists i. split; [lia|done].
Qed.

(** [P i] leads to [Q] when it leads to [Q] or to a [P j] with a smaller [j]. *)
Lemma leads_to_measure (P : nat -> St -> Prop) (Q : St -> Prop) :
  (forall i, leads_to (P i) (fun x => Q x \/ exists j, j < i /\ P j x)) ->
  forall i, leads_to (P i) Q.
Proof.
  intros H i. induction (lt_wf i) as [i _ IH].
  apply (leads_to_trans _ _ _ (H i)). apply leads_to_or; [by apply leads_to_now|].
  intros n (j & Hj & Hn). by apply (IH j).
Qed.

(** A count that never falls exceeds every bound when from wherever [P] holds it grows
    and [P] holds again. *)
Lemma grows_forever (P : St -> Prop) (count : St -> nat) :
  (forall n, count (run n) <= count (run (S n))) ->
  (forall c, leads_to (fun x => P x /\ c <= count x) (fun x => P x /\ c < count x)) ->
  P x0 -> forall N, exists n, N <= count (run n).
Proof.
  intros Hm Hg H0 N.
  enough (H : exists n, P (run n) /\ N <= count (run n)) by (destruct H as (n & _ & H); by exists n).
  induction N as [|N (n & Hn & Hc)]; [exists 0; split; [done|lia]|].
  destruct (Hg N n (conj Hn Hc)) as (m & _ & Hp & Hlt). exists m. split; [done|lia].
Qed.
End schedule.
