(* ===== verification/MainConfig.v ===== *)
(** [core/configuration/MainConfig.py]: the settings of the server, their defaults, and
    how a YAML file and the environment override them. *)
From stdpp Require Import base strings list.
From Stdlib Require Import ZArith Lia Ascii String.
From S2P Require Import Prelude.

Set Default Proof Using "Type".
Local Open Scope string_scope.
Local Open Scope list_scope.
Local Open Scope py_scope.

(** * Paths *)

(** [s.split(c)]. *)
Fixpoint split_on (c : ascii) (l : list ascii) : list (list ascii) :=
  match l with
  | [] => [[]]
  | x :: l =>
      match split_on c l with
      | w :: ws => if decide (x = c) then [] :: w :: ws else (x :: w) :: ws
      | [] => [[x]]
      end
  end.

(** [c.join(l)]. *)
Fixpoint join_with (c : ascii) (l : list (list ascii)) : list ascii :=
  match l with
  | [] => []
  | [w] => w
  | w :: l => w ++ c :: join_with c l
  end.

Abbreviation slash := ("/"%char).
Definition dot : list ascii := ["."%char].
Definition dotdot : list ascii := ["."%char; "."%char].
Abbreviation chars := list_ascii_of_string.
Abbreviation text := string_of_list_ascii.

(** The leading slashes POSIX keeps: two of them stay two, more are one. *)
Definition root_of (l : list ascii) : list ascii :=
  match l with
  | "/"%char :: "/"%char :: "/"%char :: _ => [slash]
  | "/"%char :: "/"%char :: _ => [slash; slash]
  | "/"%char :: _ => [slash]
  | _ => []
  end.

(** [pathlib.Path(s)] as a value: [str] of it has no empty and no ["."] component. *)
Definition Path (s : string) : pyval :=
  let l := chars s in
  let comps := filter (fun w => w <> [] /\ w <> dot) (split_on slash l) in
  match root_of l ++ join_with slash comps with
  | [] => PPath "."
  | p => PPath (text p)
  end.

(** The loop of [posixpath.normpath] for an absolute path: the components kept so far
    are in reverse. *)
Fixpoint norm_comps (comps new_comps : list (list ascii)) : list (list ascii) :=
  match comps with
  | [] => rev new_comps
  | c :: comps =>
      if decide (c = [] \/ c = dot) then norm_comps comps new_comps
      else if decide (c = dotdot) then norm_comps comps (tail new_comps)
      else norm_comps comps (c :: new_comps)
  end.

(** [ROOTPATH + os.path.relpath(os.path.normpath(os.path.join(os.sep, path)), os.sep)]:
    joined to the root the path is absolute, and relative to the root it is its
    components. *)
Definition sanitized (path : string) : string :=
  match norm_comps (split_on slash (chars path)) [] with
  | [] => "/."
  | comps => text (slash :: join_with slash comps)
  end.

(** * The tables *)

Inductive vtype := TStr | TInt | TBool | TList.

#[export] Instance vtype_eq_dec : EqDecision vtype.
Proof. solve_decision. Defined.

Record var := mkVar { v_default : pyval; v_type : vtype; v_readonly : bool }.

Definition FTS_VERSION : string := "FreeTAKServer-2.2.1".
Definition API_VERSION : string := "3".

(** What the module reads from its host when it is imported: the persistence path, the
    directory of the package, the address of the host and a random node id. *)
Record host := mkHost {
  PERSISTENCE_PATH : string; MAINPATH : string; host_ip : string; node_id : string }.

Definition _defaults (h : host) : list (string * var) :=
  let PERSISTENCE_PATH := PERSISTENCE_PATH h in
  let MAINPATH := MAINPATH h in
  let host_ip := host_ip h in
  let node_id := node_id h in
  [("version", mkVar (PStr FTS_VERSION) TStr true);
   ("APIVersion", mkVar (PStr API_VERSION) TStr true);
   ("SecretKey", mkVar (PStr "vnkdjnfjknfl1232#") TStr false);
   ("nodeID", mkVar (PStr node_id) TStr false);
   ("OptimizeAPI", mkVar (PBool true) TBool false);
   ("DataReceptionBuffer", mkVar (PInt 1024) TInt false);
   ("MaxReceptionTime", mkVar (PInt 4) TInt false);
   ("LogLevel", mkVar (PStr "info") TStr false);
   ("UserPersistencePath", mkVar (Path (PERSISTENCE_PATH +:+ "/user_persistence.txt")) TStr false);
   ("MainLoopDelay", mkVar (PInt 100) TInt false);
   ("CoTServicePort", mkVar (PInt 8087) TInt false);
   ("SSLCoTServicePort", mkVar (PInt 8089) TInt false);
   ("HTTPSTakAPIPort", mkVar (PInt 8443) TInt false);
   ("HTTPTakAPIPort", mkVar (PInt 8080) TInt false);
   ("DataPackageServiceDefaultIP", mkVar (PStr host_ip) TStr false);
   ("UserConnectionIP", mkVar (PStr host_ip) TStr false);
   ("APIPort", mkVar (PInt 19023) TInt false);
   ("FederationPort", mkVar (PInt 9000) TInt false);
   ("APIIP", mkVar (PStr "0.0.0.0") TStr false);
   ("CLIIP", mkVar (PStr "127.0.0.1") TStr false);
   ("AllowCLIIPs", mkVar (PList ["127.0.0.1"]) TList false);
   ("SaveCoTToDB", mkVar (PBool true) TBool false);
   ("DBFilePath", mkVar (PStr (PERSISTENCE_PATH +:+ "/FTSDataBase.db")) TStr false);
   ("MainPath", mkVar (Path MAINPATH) TStr false);
   ("certsPath", mkVar (Path (PERSISTENCE_PATH +:+ "/certs")) TStr false);
   ("EnterpriseSyncPath", mkVar (Path (PERSISTENCE_PATH +:+ "/enterprise_sync")) TStr false);
   ("ExCheckMainPath", mkVar (Path (PERSISTENCE_PATH +:+ "/ExCheck")) TStr false);
   ("ExCheckFilePath", mkVar (Path (PERSISTENCE_PATH +:+ "/ExCheck/template")) TStr false);
   ("ExCheckChecklistFilePath", mkVar (Path (PERSISTENCE_PATH +:+ "/ExCheck/checklist")) TStr false);
   ("DataPackageFilePath", mkVar (Path (PERSISTENCE_PATH +:+ "/FreeTAKServerDataPackageFolder")) TStr false);
   ("LogFilePath", mkVar (Path (PERSISTENCE_PATH +:+ "/Logs")) TStr false);
   ("federationKeyPassword", mkVar (PStr "defaultpass") TStr false);
   ("keyDir", mkVar (Path (PERSISTENCE_PATH +:+ "/certs/server.key")) TStr false);
   ("pemDir", mkVar (Path (PERSISTENCE_PATH +:+ "/certs/server.pem")) TStr false);
   ("testPem", mkVar (Path (PERSISTENCE_PATH +:+ "/certs/server.key")) TStr false);
   ("testKey", mkVar (Path (PERSISTENCE_PATH +:+ "/certs/server.pem")) TStr false);
   ("unencryptedKey", mkVar (Path (PERSISTENCE_PATH +:+ "/certs/server.key.unencrypted")) TStr false);
   ("p12Dir", mkVar (Path (PERSISTENCE_PATH +:+ "/certs/server.p12")) TStr false);
   ("CA", mkVar (Path (PERSISTENCE_PATH +:+ "/certs/ca.pem")) TStr false);
   ("CAkey", mkVar (Path (PERSISTENCE_PATH +:+ "/certs/ca.key")) TStr false);
   ("federationCert", mkVar (Path (PERSISTENCE_PATH +:+ "/certs/server.pem")) TStr false);
   ("federationKey", mkVar (Path (PERSISTENCE_PATH +:+ "/certs/server.key")) TStr false);
   ("password", mkVar (PStr "supersecret") TStr false);
   ("websocketkey", mkVar (PStr "YourWebsocketKey") TStr false);
   ("CRLFile", mkVar (Path (PERSISTENCE_PATH +:+ "/certs/FTS_CRL.json")) TStr false);
   ("ConnectionMessage", mkVar (PStr ("Welcome to FreeTAKServer " +:+ FTS_VERSION +:+
         ". The Parrot is not dead. It’s just resting")) TStr false);
   ("DataBaseType", mkVar (PStr "SQLite") TStr false);
   ("ClientPackages", mkVar (Path (PERSISTENCE_PATH +:+ "/certs/clientPackages")) TStr false);
   ("CoreComponentsPath", mkVar (Path (MAINPATH +:+ "/core")) TStr false);
   ("CoreComponentsImportRoot", mkVar (PStr "FreeTAKServer.core") TStr false);
   ("InternalComponentsPath", mkVar (Path (MAINPATH +:+ "/components/core")) TStr false);
   ("InternalComponentsImportRoot", mkVar (PStr "FreeTAKServer.components.core") TStr false);
   ("ExternalComponentsPath", mkVar (Path (MAINPATH +:+ "/components/extended")) TStr false);
   ("ExternalComponentsImportRoot", mkVar (PStr "FreeTAKServer.components.extended") TStr false);
   ("NumRoutingWorkers", mkVar (PInt 3) TInt false);
   ("RoutingProxySubscriberPort", mkVar (PInt 19030) TInt false);
   ("RoutingProxyPublisherPort", mkVar (PInt 19032) TInt false);
   ("RoutingProxyRequestServerPort", mkVar (PInt 19031) TInt false);
   ("RoutingProxySubscriberIP", mkVar (PStr "127.0.0.1") TStr false);
   ("RoutingProxyPublisherIP", mkVar (PStr "127.0.0.1") TStr false);
   ("RoutingProxyRequestServerIP", mkVar (PStr "127.0.0.1") TStr false);
   ("IntegrationManagerPullerPort", mkVar (PInt 19033) TInt false);
   ("IntegrationManagerPullerAddress", mkVar (PStr "127.0.0.1") TStr false);
   ("IntegrationManagerPublisherPort", mkVar (PInt 19034) TInt false);
   ("IntegrationManagerPublisherAddress", mkVar (PStr "127.0.0.1") TStr false);
   ("yaml_path", mkVar (PStr (PERSISTENCE_PATH +:+ "/FTSConfig.yaml")) TStr false);
   ("ip", mkVar (PStr host_ip) TStr false);
   ("EmergencyRadius", mkVar (PInt 0) TInt false);
   ("persistencePath", mkVar (PStr PERSISTENCE_PATH) TStr false)].

Definition _env_vars : list (string * string) :=
  [("FTS_SECRET_KEY", "SecretKey");
   ("FTS_NODE_ID", "nodeID");
   ("FTS_OPTIMIZE_API", "OptimizeAPI");
   ("FTS_DATA_RECEPTION_BUFFER", "DataReceptionBuffer");
   ("FTS_MAX_RECEPTION_TIME", "MaxReceptionTime");
   ("FTS_MAINLOOP_DELAY", "MainLoopDelay");
   ("FTS_COT_PORT", "CoTServicePort");
   ("FTS_SSLCOT_PORT", "SSLCoTServicePort");
   ("FTS_DP_ADDRESS", "DataPackageServiceDefaultIP");
   ("FTS_USER_ADDRESS", "UserConnectionIP");
   ("FTS_API_PORT", "APIPort");
   ("FTS_CLI_WHITELIST", "AllowCLIIPs");
   ("FTS_FED_PORT", "FederationPort");
   ("FTS_API_ADDRESS", "APIIP");
   ("FTS_COT_TO_DB", "SaveCoTToDB");
   ("FTS_DB_PATH", "DBFilePath");
   ("FTS_MAINPATH", "MainPath");
   ("FTS_CERTS_PATH", "certsPath");
   ("FTS_EXCHECK_PATH", "ExCheckMainPath");
   ("FTS_EXCHECK_TEMPLATE_PATH", "ExCheckFilePath");
   ("FTS_EXCHECK_CHECKLIST_PATH", "ExCheckChecklistFilePath");
   ("FTS_DATAPACKAGE_PATH", "DataPackageFilePath");
   ("FTS_LOGFILE_PATH", "LogFilePath");
   ("FTS_FED_PASSWORD", "federationKeyPassword");
   ("FTS_SERVER_KEYDIR", "keyDir");
   ("FTS_SERVER_PEMDIR", "pemDir");
   ("FTS_TESTCLIENT_PEMDIR", "testPem");
   ("FTS_TESTCLIENT_KEYDIR", "testKey");
   ("FTS_UNENCRYPTED_KEYDIR", "unencryptedKey");
   ("FTS_SERVER_P12DIR", "p12Dir");
   ("FTS_CADIR", "CA");
   ("FTS_CAKEYDIR", "CAkey");
   ("FTS_FEDERATION_CERTDIR", "federationCert");
   ("FTS_FEDERATION_KEYDIR", "federationKey");
   ("FTS_FEDERATION_KEYPASS", "federationKeyPassword");
   ("FTS_CLIENT_CERT_PASSWORD", "password");
   ("FTS_WEBSOCKET_KEY", "websocketkey");
   ("FTS_CRLDIR", "CRLFile");
   ("FTS_CONNECTION_MESSAGE", "ConnectionMessage");
   ("FTS_DATABASE_TYPE", "DataBaseType");
   ("FTS_CLIENT_PACKAGES_PATH", "ClientPackages");
   ("FTS_NUM_ROUTING_WORKERS", "NumRoutingWorkers");
   ("FTS_ROUTING_PROXY_SUBSCRIBE_PORT", "RoutingProxySubscriberPort");
   ("FTS_ROUTING_PROXY_SUBSCRIBE_IP", "RoutingProxySubscriberIP");
   ("FTS_ROUTING_PROXY_PUBLISHER_PORT", "RoutingProxyPublisherPort");
   ("FTS_ROUTING_PROXY_PUBLISHER_IP", "RoutingProxyPublisherIP");
   ("FTS_ROUTING_PROXY_SERVER_PORT", "RoutingProxyRequestServerPort");
   ("FTS_ROUTING_PROXY_SERVER_IP", "RoutingProxyRequestServerIP");
   ("FTS_CORE_COMPONENTS_PATH", "CoreComponentsPath");
   ("FTS_CORE_COMPONENTS_IMPORT_ROOT", "CoreComponentsImportRoot");
   ("FTS_INTERNAL_COMPONENTS_PATH", "InternalComponentsPath");
   ("FTS_INTERNAL_COMPONENTS_IMPORT_ROOT", "InternalComponentsImportRoot");
   ("FTS_EXTERNAL_COMPONENTS_PATH", "ExternalComponentsPath");
   ("FTS_EXTERNAL_COMPONENTS_IMPORT_ROOT", "ExternalComponentsImportRoot");
   ("FTS_INTEGRATION_MANAGER_PULLER_PORT", "IntegrationManagerPullerPort");
   ("FTS_INTEGRATION_MANAGER_PULLER_ADDRESS", "IntegrationManagerPullerAddress");
   ("FTS_INTEGRATION_MANAGER_PUBLISHER_PORT", "IntegrationManagerPublisherPort");
   ("FTS_INTEGRATION_MANAGER_PUBLISHER_ADDRESS", "IntegrationManagerPublisherAddress");
   ("FTS_EMERGENCY_RADIUS", "EmergencyRadius");
   ("FTS_PERSISTENCE_PATH", "persistencePath");
   ("FTS_LOG_LEVEL", "LogLevel")].

(** The value of a YAML key in the table: the name of a setting, or a dictionary. *)
Inductive yaml_target := VName (name : string) | VDict.

Definition _yaml_keys : list (string * list (string * yaml_target)) :=
  [("System",
     [("FTS_NODE_ID", VName "nodeID");
      ("FTS_MAINLOOP_DELAY", VName "MainLoopDelay");
      ("FTS_CONNECTION_MESSAGE", VName "ConnectionMessage");
      ("FTS_DATABASE_TYPE", VName "DataBaseType");
      ("FTS_OPTIMIZE_API", VName "OptimizeAPI");
      ("FTS_SECRET_KEY", VName "SecretKey");
      ("FTS_DATA_RECEPTION_BUFFER", VName "DataReceptionBuffer");
      ("FTS_MAX_RECEPTION_TIME", VName "MaxReceptionTime");
      ("FTS_EMERGENCY_RADIUS", VName "EmergencyRadius")]);
   ("Addresses",
     [("FTS_COT_PORT", VName "CoTServicePort");
      ("FTS_SSLCOT_PORT", VName "SSLCoTServicePort");
      ("FTS_DP_ADDRESS", VName "DataPackageServiceDefaultIP");
      ("FTS_USER_ADDRESS", VName "UserConnectionIP");
      ("FTS_API_PORT", VName "APIPort");
      ("FTS_FED_PORT", VName "FederationPort");
      ("FTS_API_ADDRESS", VName "APIIP");
      ("FTS_CLI_WHITELIST", VName "AllowCLIIPs");
      ("NumRoutingWorkers", VDict);
      ("RoutingProxySubscriberPort", VDict);
      ("RoutingProxyPublisherPort", VDict);
      ("RoutingProxyRequestServerPort", VDict);
      ("RoutingProxySubscriberIP", VDict);
      ("RoutingProxyPublisherIP", VDict);
      ("RoutingProxyRequestServerIP", VDict);
      ("FTS_INTEGRATION_MANAGER_PULLER_PORT", VName "IntegrationManagerPullerPort");
      ("FTS_INTEGRATION_MANAGER_PULLER_ADDRESS", VName "IntegrationManagerPullerAddress");
      ("FTS_INTEGRATION_MANAGER_PUBLISHER_PORT", VName "IntegrationManagerPublisherPort");
      ("FTS_INTEGRATION_MANAGER_PUBLISHER_ADDRESS", VName "IntegrationManagerPublisherAddress")]);
   ("Filesystem",
     [("FTS_PERSISTENCE_PATH", VName "persistencePath");
      ("FTS_COT_TO_DB", VName "SaveCoTToDB");
      ("FTS_DB_PATH", VName "DBFilePath");
      ("FTS_MAINPATH", VName "MainPath");
      ("FTS_CERTS_PATH", VName "certsPath");
      ("FTS_EXCHECK_PATH", VName "ExCheckMainPath");
      ("FTS_EXCHECK_TEMPLATE_PATH", VName "ExCheckFilePath");
      ("FTS_EXCHECK_CHECKLIST_PATH", VName "ExCheckChecklistFilePath");
      ("FTS_DATAPACKAGE_PATH", VName "DataPackageFilePath");
      ("FTS_LOGFILE_PATH", VName "LogFilePath");
      ("FTS_CLIENT_PACKAGES_PATH", VName "ClientPackages");
      ("FTS_CORE_COMPONENTS_PATH", VName "CoreComponentsPath");
      ("FTS_CORE_COMPONENTS_IMPORT_ROOT", VName "CoreComponentsImportRoot");
      ("FTS_INTERNAL_COMPONENTS_PATH", VName "InternalComponentsPath");
      ("FTS_INTERNAL_COMPONENTS_IMPORT_ROOT", VName "InternalComponentsImportRoot");
      ("FTS_EXTERNAL_COMPONENTS_PATH", VName "ExternalComponentsPath");
      ("FTS_EXTERNAL_COMPONENTS_IMPORT_ROOT", VName "ExternalComponentsImportRoot");
      ("FTS_LOG_LEVEL", VName "LogLevel")]);
   ("Certs",
     [("FTS_SERVER_KEYDIR", VName "keyDir");
      ("FTS_SERVER_PEMDIR", VName "pemDir");
      ("FTS_TESTCLIENT_PEMDIR", VName "testPem");
      ("FTS_TESTCLIENT_KEYDIR", VName "testKey");
      ("FTS_UNENCRYPTED_KEYDIR", VName "unencryptedKey");
      ("FTS_SERVER_P12DIR", VName "p12Dir");
      ("FTS_CADIR", VName "CA");
      ("FTS_CAKEYDIR", VName "CAkey");
      ("FTS_FEDERATION_CERTDIR", VName "federationCert");
      ("FTS_FEDERATION_KEYDIR", VName "federationKey");
      ("FTS_FEDERATION_KEYPASS", VName "federationKeyPassword");
      ("FTS_CLIENT_CERT_PASSWORD", VName "password");
      ("FTS_WEBSOCKET_KEY", VName "websocketkey");
      ("FTS_CRLDIR", VName "CRLFile")])].

(** * Operations *)

(** What [yaml.safe_load] gives: nothing for an empty file, or sections, themselves
    nothing or keys with values. *)
Definition yaml_section : Type := option (list (string * pyval)).
Definition yaml_doc : Type := option (list (string * yaml_section)).

(** [_instance] and [_values]. *)
Record config_state := mkConfigState {
  c_instance : bool; _values : list (string * pyval) }.

Definition no_config_state : config_state := mkConfigState false [].

(** [t(v)] for the type [t]. *)
Definition convert (t : vtype) (v : pyval) : outcome pyval :=
  match t with
  | TStr => Ret (PStr (py_str v))
  | TInt => match py_int v with Ret z => Ret (PInt z) | Exn e => Exn e end
  | TBool => Ret (PBool (py_truth v))
  | TList =>
      match v with
      | PList l => Ret (PList l)
      | PStr s => Ret (PList ((fun c => String c EmptyString) <$> chars s))
      | _ => Exn TypeError
      end
  end.

Section MainConfig.
Variable h : host.
(** [os.access(p, os.F_OK)] and [os.access(p, os.W_OK)]. *)
Variable access : string -> bool.
Variable writable : string -> bool.
(** [os.path.exists] with the content [open] and [yaml.safe_load] then give. *)
Variable file : string -> option (outcome yaml_doc).
(** [os.environ]. *)
Variable environ : string -> option string.
Abbreviation MC := (M config_state).

Definition defaults : list (string * var) := _defaults h.

Definition lookup_var (name : string) : MC var := of_option KeyError (dget name defaults).

Definition _readonly (name : string) : MC bool :=
  v <- lookup_var name ;; mret (v_readonly v).

Definition _var_type (name : string) : MC vtype :=
  v <- lookup_var name ;; mret (v_type v).

Definition put_value (name : string) (v : pyval) : MC unit :=
  modify (fun s => mkConfigState (c_instance s) (dset name v (_values s))).

Definition set_config (name : string) (value : pyval) (override_ro : bool) : MC unit :=
  ro <- _readonly name ;;
  if negb ro || override_ro then
    t <- _var_type name ;;
    v <- of_outcome (convert t value) ;;
    put_value name v
  else mret tt.

Definition get (name : string) : MC pyval :=
  v <- gets (fun s => dget name (_values s)) ;; of_option RuntimeError v.

Definition validate_and_sanitize_path (path : pyval) : MC pyval :=
  match path with
  | PStr p | PPath p =>
      let sanitized_path := sanitized p in
      if negb (access sanitized_path) || negb (writable sanitized_path)
      then raise SystemExit
      else mret (PStr sanitized_path)
  | _ => raise TypeError
  end.

(** [attr.endswith(('PATH', 'DIR'))]. *)
Definition ends_with (s suffix : string) : bool :=
  bool_decide (rev (take (String.length suffix) (rev (chars s))) = chars suffix).
Definition is_path_attr (attr : string) : bool :=
  ends_with attr "PATH" || ends_with attr "DIR".

Definition read_yaml_entry (sect : yaml_section) (attr : string) (target : yaml_target)
    : MC unit :=
  match s ← sect; dget attr s with
  | None => mret tt
  | Some value =>
      value <- (if is_path_attr attr then validate_and_sanitize_path value else mret value) ;;
      match target with
      | VName name => set_config name value false
      | VDict => raise TypeError
      end
  end.

Definition read_yaml_config (doc : outcome yaml_doc) : MC unit :=
  yamlConfig <- of_outcome doc ;;
  for_each _yaml_keys (fun sect =>
    content <- of_option TypeError yamlConfig ;;
    match dget sect.1 content with
    | None => mret tt
    | Some section => for_each sect.2 (fun av => read_yaml_entry section av.1 av.2)
    end).

(** [s.upper()]. *)
Definition upper (s : string) : string :=
  text ((fun c => let n := nat_of_ascii c in
           if Nat.leb 97 n && Nat.leb n 122 then ascii_of_nat (n - 32) else c) <$> chars s).

(** [re.split(r':|,', s)]. *)
Definition split_list (s : string) : list string :=
  text <$> (w ← split_on ":"%char (chars s); split_on ","%char w).

Definition env_value_of (t : vtype) (env_value : string) : pyval :=
  match t with
  | TBool => PBool (bool_decide (upper env_value ∈ ["1"; "TRUE"; "YES"; "Y"]))
  | TList => PList (split_list env_value)
  | _ => PStr env_value
  end.

Definition import_env_config : MC unit :=
  for_each _env_vars (fun ev =>
    match environ ev.1 with
    | None => mret tt
    | Some env_value =>
        t <- _var_type ev.2 ;;
        set_config ev.2 (env_value_of t env_value) false
    end).

Definition yaml_path_default : string := PERSISTENCE_PATH h +:+ "/FTSConfig.yaml".

Definition load_defaults : MC unit :=
  for_each defaults (fun nv => set_config nv.1 (v_default nv.2) true).

(** Every setting in turn from its default, the file and the environment. *)
Definition initialize (config_file : option string) : MC unit :=
  load_defaults ;;;
  let config_file := default (default yaml_path_default (environ "FTS_CONFIG_PATH")) config_file in
  (match file config_file with
   | Some doc => read_yaml_config doc
   | None => mret tt
   end) ;;;
  import_env_config.

Definition instance (config_file : option string) : MC unit :=
  made <- gets c_instance ;;
  if made : bool then mret tt else
  modify (fun s => mkConfigState true (_values s)) ;;;
  initialize config_file.

(** [reset()]. *)
Definition reset : MC unit := modify (fun _ => no_config_state).
End MainConfig.
