(* ===== verification/ConfigFacts.v ===== *)
(** What [MainConfig] guarantees of the settings: their types, the read-only ones, the
    precedence of the sources, and the paths it accepts. *)
From stdpp Require Import base strings list pretty sets.
From Stdlib Require Import ZArith Lia Ascii String.
From S2P Require Import Prelude.
From S2P Require Import MainConfig.

Set Default Proof Using "Type".
Local Open Scope string_scope.
Local Open Scope list_scope.
Local Open Scope py_scope.

(** * Types *)

Definition has_type (t : vtype) (v : pyval) : Prop :=
  match t, v with
  | TStr, PStr _ | TInt, PInt _ | TBool, PBool _ | TList, PList _ => True
  | _, _ => False
  end.

Lemma converted_type t v v' : convert t v = Ret v' -> has_type t v'.
Proof.
  destruct t; simpl; [by intros [= <-]| |by intros [= <-]|].
  - destruct (py_int v); [by intros [= <-]|discriminate].
  - destruct v; try discriminate; by intros [= <-].
Qed.

Section facts.
Context (h : host) (access writable : string -> bool).
Context (file : string -> option (outcome yaml_doc)) (environ : string -> option string).

(** Only settings of the table have a value, of the type of the table, and a
    read-only one that is not among the [overridden] has no value but its default. *)
Context (overridden : string -> Prop).
Definition settings_ok (s : config_state) : Prop :=
  forall name v, dget name (_values s) = Some v ->
    exists d, dget name (defaults h) = Some d /\ has_type (v_type d) v /\
      (v_readonly d = true -> ~ overridden name -> convert (v_type d) (v_default d) = Ret v).

Lemma settings_ok_none : settings_ok no_config_state.
Proof. intros name v. discriminate. Qed.

Lemma set_config_run name value o s :
  set_config h name value o s =
  match dget name (defaults h) with
  | None => (Exn KeyError, s)
  | Some d =>
      if negb (v_readonly d) || o then
        match convert (v_type d) value with
        | Ret v => put_value name v s
        | Exn e => (Exn e, s)
        end
      else (Ret tt, s)
  end.
Proof.
  unfold set_config, _readonly, _var_type, lookup_var, put_value. py_run.
  destruct (dget name (defaults h)) as [d|]; [|done]. simpl.
  destruct (negb (v_readonly d) || o); [|done]. by destruct (convert _ _).
Qed.

Lemma settings_ok_set name value o :
  (o = true -> ~ overridden name -> forall d, dget name (defaults h) = Some d -> value = v_default d) ->
  preserves settings_ok (set_config h name value o).
Proof.
  intros Ho s Hs. rewrite set_config_run. destruct (dget name (defaults h)) as [d|] eqn:Ed; [|done].
  destruct (negb (v_readonly d) || o) eqn:Er; [|done].
  destruct (convert (v_type d) value) as [v|e] eqn:Ec; [|done].
  intros n v'. simpl. destruct (decide (n = name)) as [->|Hne].
  - rewrite dget_dset_eq. intros [= <-]. exists d. split_and!; [done|by eapply converted_type|].
    intros Hr Hno. rewrite Hr in Er. simpl in Er. by rewrite <- (Ho Er Hno d eq_refl).
  - rewrite dget_dset_ne by done. apply Hs.
Qed.

Lemma settings_ok_read doc : preserves settings_ok (read_yaml_config h access writable doc).
Proof.
  unfold read_yaml_config. py_step; [py_step|]. py_step. py_step; [py_step|].
  destruct (dget _ _) as [section|]; [|py_step]. py_step.
  unfold read_yaml_entry. destruct (_ ← section; dget _ _) as [value|]; [|py_step].
  py_step; [unfold validate_and_sanitize_path; repeat py_step|].
  py_step; [by apply settings_ok_set|py_step].
Qed.

Lemma settings_ok_env : preserves settings_ok (import_env_config h environ).
Proof.
  unfold import_env_config. py_step. destruct (environ _); [|py_step].
  py_step; [unfold _var_type, lookup_var; repeat py_step|by apply settings_ok_set].
Qed.

Lemma NoDup_defaults : NoDup (dkeys (defaults h)).
Proof. apply (bool_decide_unpack _). vm_compute. exact I. Qed.

Lemma settings_ok_defaults : preserves settings_ok (load_defaults h).
Proof.
  unfold load_defaults. apply preserves_for_each. intros [n d] Hin.
  apply settings_ok_set. intros _ _ d' Hd'.
  rewrite (elem_dget _ _ _ NoDup_defaults Hin) in Hd'. by injection Hd' as <-.
Qed.

Lemma settings_ok_instance f :
  preserves settings_ok (instance h access writable file environ f).
Proof.
  unfold instance. py_step; [py_step|]. py_step; [py_step|].
  py_step; [apply preserves_modify; intros s Hs; exact Hs|]. unfold initialize.
  py_step; [apply settings_ok_defaults|].
  py_step; [|apply settings_ok_env].
  destruct (file _); [apply settings_ok_read|py_step].
Qed.
End facts.

(** * Precedence *)

Section precedence.
Context (h : host) (access writable : string -> bool).
Context (file : string -> option (outcome yaml_doc)) (environ : string -> option string).

(** What the environment says of a setting: a later variable of the table wins. *)
Definition from_env (name : string) : option string :=
  last (omap (fun ev => if decide (ev.2 = name) then environ ev.1 else None) _env_vars).

(** What a YAML document says of a setting, paths sanitized. *)
Definition yaml_entry (section : yaml_section) (name : string)
    (av : string * yaml_target) : option pyval :=
  match av.2 with
  | VName n =>
      if decide (n = name) then
        value ← (s ← section; dget av.1 s);
        Some (if is_path_attr av.1 then PStr (sanitized (py_str value)) else value)
      else None
  | VDict => None
  end.

Definition from_yaml (content : list (string * yaml_section)) (name : string) : option pyval :=
  last (omap (fun sect => section ← dget sect.1 content;
                          last (omap (yaml_entry section name) sect.2)) _yaml_keys).

Context (name : string) (d : var).
Context (Hd : dget name (defaults h) = Some d) (Hro : v_readonly d = false).

(** The setting has the value [raw] converts to; nothing is said for [None]. *)
Definition valued (raw : option pyval) (s : config_state) : Prop :=
  forall r, raw = Some r -> exists v, convert (v_type d) r = Ret v /\ dget name (_values s) = Some v.

(** [m] gives the setting a value it says, or leaves the setting alone. *)
Definition says (m : M config_state unit) (o : option pyval) : Prop :=
  forall s s' raw, m s = (Ret tt, s') -> valued raw s ->
    valued (match o with Some r => Some r | None => raw end) s'.

Lemma says_for_each {A} (l : list A) (f : A -> M config_state unit) g :
  (forall a, a ∈ l -> says (f a) (g a)) -> says (for_each l f) (last (omap g l)).
Proof.
  induction l as [|a l IH]; intros Hf s s' raw E Hs.
  - injection E as <-. exact Hs.
  - simpl in E. apply bind_inv in E as ([] & s1 & E1 & E2).
    pose proof (Hf a ltac:(left) s s1 raw E1 Hs) as H1.
    pose proof (IH ltac:(intros; apply Hf; by right) s1 s' _ E2 H1) as H2.
    change (omap g (a :: l))
      with (match g a with Some y => y :: omap g l | None => omap g l end).
    destruct (g a) as [r|]; [|exact H2]. rewrite last_cons.
    by destruct (last (omap g l)).
Qed.

Lemma says_ret : says (mret tt) None.
Proof. intros s s' raw [= <-] Hs. exact Hs. Qed.

Lemma says_seq (m1 m2 : M config_state unit) o1 o2 :
  says m1 o1 -> says m2 o2 ->
  says (m1 ;;; m2) (match o2 with Some r => Some r | None => o1 end).
Proof.
  intros H1 H2 s s' raw E Hs. apply bind_inv in E as ([] & s1 & E1 & E2).
  pose proof (H2 s1 s' _ E2 (H1 s s1 raw E1 Hs)) as H. by destruct o2.
Qed.

Lemma says_set n value o :
  says (set_config h n value o) (if decide (n = name) then Some value else None).
Proof using Hd Hro.
  intros s s' raw E Hs. rewrite set_config_run in E. case_decide as En.
  - subst n. rewrite Hd, Hro in E. simpl in E.
    destruct (convert (v_type d) value) as [v|e] eqn:Ec; [|discriminate].
    injection E as <-. intros r [= <-]. exists v. split; [done|apply dget_dset_eq].
  - destruct (dget n (defaults h)) as [d'|]; [|discriminate].
    destruct (negb (v_readonly d') || o); [|injection E as <-; exact Hs].
    destruct (convert _ _) as [v|]; [|discriminate]. injection E as <-.
    intros r Hr. destruct (Hs r Hr) as (v' & Hc & Hv). exists v'. split; [done|].
    simpl. rewrite dget_dset_ne by congruence. exact Hv.
Qed.

Lemma says_env : says (import_env_config h environ) (env_value_of (v_type d) <$> from_env name).
Proof using Hd Hro.
  assert (H : says (import_env_config h environ)
    (last (omap (fun ev => if decide (ev.2 = name)
                           then env_value_of (v_type d) <$> environ ev.1 else None) _env_vars))).
  { apply says_for_each. intros [ev n] _. cbn [fst snd].
    destruct (environ ev) as [e|]; [|case_decide; apply says_ret].
    intros s s' raw E. unfold _var_type, lookup_var in E.
    apply bind_inv in E as (t & s1 & E1 & E2).
    apply bind_inv in E1 as (d' & s2 & E1 & [= <- ->]).
    pose proof (says_set n (env_value_of (v_type d') e) false s1 s' raw) as Hset.
    revert E1. destruct (dget n (defaults h)) as [d1|] eqn:En; [|discriminate].
    intros [= -> <-]. case_decide as E; [|exact (Hset E2)].
    subst n. rewrite Hd in En. injection En as <-. exact (Hset E2). }
  unfold from_env. revert H. generalize _env_vars. intros l.
  replace (env_value_of (v_type d) <$> last (omap (fun ev => if decide (ev.2 = name) then environ ev.1 else None) l))
    with (last (omap (fun ev => if decide (ev.2 = name)
                           then env_value_of (v_type d) <$> environ ev.1 else None) l)); [done|].
  rewrite <- fmap_last. f_equal. induction l as [|[ev n] l IH]; simpl; [done|].
  case_decide; [|exact IH]. destruct (environ ev); simpl; [by f_equal|exact IH].
Qed.

Lemma says_yaml_entry section attr target :
  says (read_yaml_entry h access writable section attr target)
    (yaml_entry section name (attr, target)).
Proof using Hd Hro.
  unfold read_yaml_entry, yaml_entry. cbn [fst snd].
  destruct (s ← section; dget attr s) as [value|] eqn:Ev.
  2: { destruct target; [case_decide|]; apply says_ret. }
  intros s s' raw E. apply bind_inv in E as (v & s1 & E1 & E2).
  assert (Hv : s1 = s /\ v = if is_path_attr attr then PStr (sanitized (py_str value)) else value).
  { destruct (is_path_attr attr); [|by injection E1 as <- <-].
    unfold validate_and_sanitize_path in E1. destruct value; try discriminate;
      (destruct (negb _ || negb _); [discriminate|]); by injection E1 as <- <-. }
  destruct Hv as [-> ->]. destruct target as [n|]; [|discriminate].
  pose proof (says_set n _ _ s s' raw E2) as H. by case_decide.
Qed.

Lemma says_yaml content :
  says (read_yaml_config h access writable (Ret (Some content))) (from_yaml content name).
Proof using Hd Hro.
  intros s s' raw E. apply bind_inv in E as (c & s1 & [= <- <-] & E).
  revert s s' raw E. apply says_for_each. intros sect _ s s' raw E.
  apply bind_inv in E as (c & s1 & [= <- <-] & E).
  destruct (dget sect.1 content) as [section|]; [|injection E as <-; by intros H].
  revert s s' raw E. apply says_for_each. intros [attr target] _. apply says_yaml_entry.
Qed.

Lemma says_defaults : says (load_defaults h) (Some (v_default d)).
Proof using Hd Hro.
  assert (H : says (load_defaults h)
    (last (omap (fun nv => if decide (nv.1 = name) then Some (v_default nv.2) else None)
             (defaults h)))).
  { apply (says_for_each (defaults h)
      (fun nv => set_config h nv.1 (v_default nv.2) true)). intros nv _. apply says_set. }
  replace (last _) with (Some (v_default d)) in H; [done|].
  pose proof (NoDup_defaults h) as Hn. revert Hd Hn. clear. unfold dkeys.
  generalize (defaults h). intros l. induction l as [|[n v] l IH]; [done|].
  rewrite fmap_cons, NoDup_cons. intros Hg [Hn Hl].
  change (omap ?g ((n, v) :: l)) with (match g (n, v) with Some y => y :: omap g l | None => omap g l end).
  simpl in *. destruct (decide (name = n)) as [->|Hne].
  - injection Hg as ->. rewrite decide_True by done.
    replace (omap _ l) with (@nil pyval); [done|]. symmetry. clear -Hn.
    induction l as [|[n' v'] l IH]; [done|]. simpl in *.
    rewrite decide_False by set_solver. apply IH. set_solver.
  - rewrite decide_False by done. by apply IH.
Qed.

Lemma read_yaml_empty s : exists s', read_yaml_config h access writable (Ret None) s = (Exn TypeError, s').
Proof. exists s. reflexivity. Qed.

(** What the file says, whether it is there, empty or has content. *)
Lemma says_file (content : option yaml_doc) :
  says (match Ret <$> content with
        | Some doc => read_yaml_config h access writable doc
        | None => mret tt
        end) (c ← content; c ← c; from_yaml c name).
Proof using Hd Hro.
  destruct content as [[content|]|].
  - exact (says_yaml content).
  - intros s s' raw E. destruct (read_yaml_empty s) as [s1 E1].
    change (read_yaml_config h access writable (Ret None) s = (Ret tt, s')) in E. congruence.
  - apply says_ret.
Qed.

(** The value a setting gets: from the environment, the file or the table. *)
Definition configured (content : option yaml_doc) : pyval :=
  match from_env name with
  | Some e => env_value_of (v_type d) e
  | None => default (v_default d) (c ← content; c ← c; from_yaml c name)
  end.

Lemma says_loads content :
  says (load_defaults h ;;;
        (match Ret <$> content with
         | Some doc => read_yaml_config h access writable doc
         | None => mret tt
         end) ;;; import_env_config h environ) (Some (configured content)).
Proof using Hd Hro.
  pose proof (says_seq _ _ _ _ says_defaults
    (says_seq _ _ _ _ (says_file content) says_env)) as H.
  intros s s' raw E Hs. specialize (H s s' raw E Hs). unfold configured.
  destruct (from_env name); [exact H|]. cbn [fmap option_fmap option_map] in H.
  by destruct (c ← content; c ← c; from_yaml c name).
Qed.

Lemma initialize_eq config_file :
  initialize h access writable file environ config_file =
  (load_defaults h ;;;
   (match file (default (default (yaml_path_default h) (environ "FTS_CONFIG_PATH")) config_file) with
    | Some doc => read_yaml_config h access writable doc
    | None => mret tt
    end) ;;; import_env_config h environ).
Proof. reflexivity. Qed.

Lemma initialize_valued config_file content s0 s :
  file (default (default (yaml_path_default h) (environ "FTS_CONFIG_PATH")) config_file)
    = Ret <$> content ->
  initialize h access writable file environ config_file s0 = (Ret tt, s) ->
  valued (Some (configured content)) s.
Proof using Hd Hro.
  intros Hf E. rewrite initialize_eq, Hf in E.
  refine (says_loads content s0 s None E _). discriminate.
Qed.
End precedence.

Lemma configured_env environ name d content e :
  from_env environ name = Some e -> configured environ name d content = env_value_of (v_type d) e.
Proof. unfold configured. by intros ->. Qed.

Lemma instance_first h access writable file environ config_file :
  instance h access writable file environ config_file no_config_state =
  initialize h access writable file environ config_file (mkConfigState true []).
Proof.
  unfold instance.
  etransitivity; [apply (run_bind (gets c_instance) _ _ false no_config_state); reflexivity|].
  cbv iota.
  apply (run_bind (modify (fun s => mkConfigState true (_values s)))
    (fun _ => initialize h access writable file environ config_file) _ tt (mkConfigState true [])).
  reflexivity.
Qed.

(** * Paths *)

(** A component [normpath] keeps: not empty, not ["."], not [".."], without a slash. *)
Definition clean_comp (w : list ascii) : Prop :=
  w <> [] /\ w <> dot /\ w <> dotdot /\ slash ∉ w.

Lemma split_on_no_sep c l w : w ∈ split_on c l -> c ∉ w.
Proof.
  revert w. induction l as [|x l IH]; intros w; simpl.
  - rewrite list_elem_of_singleton. intros ->. apply not_elem_of_nil.
  - destruct (split_on c l) as [|w0 ws] eqn:E.
    + rewrite list_elem_of_singleton. intros ->. destruct l; simpl in E; [done|].
      destruct (split_on c l); [done|]. by destruct (decide _).
    + case_decide as Hx.
      * rewrite !elem_of_cons. intros [->|[->|Hw]]; [apply not_elem_of_nil|apply IH; left|].
        apply IH. by right.
      * rewrite elem_of_cons. intros [->|Hw].
        -- rewrite not_elem_of_cons. split; [congruence|]. apply IH. left.
        -- apply IH. by right.
Qed.

Lemma elem_of_rev {A} (x : A) l : x ∈ rev l <-> x ∈ l.
Proof. by rewrite !list_elem_of_In, <- in_rev. Qed.

Lemma norm_comps_clean comps new_comps :
  (forall w, w ∈ comps -> slash ∉ w) -> (forall w, w ∈ new_comps -> clean_comp w) ->
  forall w, w ∈ norm_comps comps new_comps -> clean_comp w.
Proof.
  revert new_comps. induction comps as [|c comps IH]; intros new_comps Hs Hn w; simpl.
  - rewrite elem_of_rev. auto.
  - case_decide as H1; [apply IH; [intros; apply Hs; by right|done]|].
    case_decide as H2; apply IH; try (intros; apply Hs; by right).
    + intros w' Hw'. apply Hn. destruct new_comps; [done|]. by right.
    + intros w' [->|Hw']%elem_of_cons; [|auto].
      split_and!; [tauto|tauto|done|apply Hs; left].
Qed.

Lemma norm_comps_id comps new_comps :
  (forall w, w ∈ comps -> clean_comp w) -> norm_comps comps new_comps = rev new_comps ++ comps.
Proof.
  revert new_comps. induction comps as [|c comps IH]; intros new_comps H; simpl.
  - by rewrite app_nil_r.
  - destruct (H c) as (H1 & H2 & H3 & _); [left|]. rewrite decide_False by tauto.
    rewrite decide_False by done. rewrite IH by (intros; apply H; by right).
    simpl. by rewrite <- app_assoc.
Qed.

Lemma norm_comps_empty comps acc : norm_comps ([] :: comps) acc = norm_comps comps acc.
Proof. reflexivity. Qed.

Lemma split_on_word c w : c ∉ w -> split_on c w = [w].
Proof.
  induction w as [|x w IH]; simpl; [done|]. rewrite not_elem_of_cons. intros [Hx Hw].
  rewrite IH by done. by rewrite decide_False.
Qed.

Lemma split_on_app c w l : c ∉ w -> split_on c (w ++ c :: l) = w :: split_on c l.
Proof.
  induction w as [|x w IH]; simpl.
  - intros _. destruct (split_on c l) eqn:E; [|by rewrite decide_True].
    exfalso. destruct l; simpl in E; [done|]. destruct (split_on c l); [done|by case_decide].
  - rewrite not_elem_of_cons. intros [Hx Hw]. rewrite IH by done. by rewrite decide_False.
Qed.

Lemma split_on_join c ws :
  ws <> [] -> (forall w, w ∈ ws -> c ∉ w) -> split_on c (join_with c ws) = ws.
Proof.
  induction ws as [|w ws IH]; [done|]. intros _ H.
  destruct ws as [|w' ws]; [by apply split_on_word, H; left|].
  change (join_with c (w :: w' :: ws)) with (w ++ c :: join_with c (w' :: ws)).
  rewrite split_on_app by (apply H; left). rewrite IH; [done|done|].
  intros; apply H; by right.
Qed.

(** The path a setting gets: absolute, with clean components, none of them [".."]. *)
Lemma sanitized_shape p : exists comps,
  (forall w, w ∈ comps -> clean_comp w) /\
  sanitized p = match comps with [] => "/." | _ => text (slash :: join_with slash comps) end.
Proof.
  exists (norm_comps (split_on slash (chars p)) []). split; [|unfold sanitized; by destruct (norm_comps _ _)].
  apply norm_comps_clean; [apply split_on_no_sep|]. intros w Hw. by apply elem_of_nil in Hw.
Qed.

Lemma sanitized_idempotent p : sanitized (sanitized p) = sanitized p.
Proof.
  destruct (sanitized_shape p) as (comps & Hc & E). rewrite E.
  destruct comps as [|c comps]; [reflexivity|]. unfold sanitized.
  rewrite list_ascii_of_string_of_list_ascii.
  change (slash :: join_with slash (c :: comps)) with ([] ++ slash :: join_with slash (c :: comps)).
  rewrite split_on_app by apply not_elem_of_nil. rewrite split_on_join.
  - rewrite norm_comps_empty, norm_comps_id by done. reflexivity.
  - done.
  - intros w Hw. by destruct (Hc w Hw) as (_ & _ & _ & ?).
Qed.

(** * Integers of the environment *)

Lemma digit_pretty n : (n < 10)%N -> digit_value (pretty_N_char n) = Some (Z.of_N n).
Proof.
  intros H. assert (Hn : n ∈ [0; 1; 2; 3; 4; 5; 6; 7; 8; 9]%N).
  { rewrite !elem_of_cons. lia. }
  repeat (apply elem_of_cons in Hn as [->|Hn]; [reflexivity|]). by apply elem_of_nil in Hn.
Qed.

Lemma pretty_digits x s acc :
  (0 < x)%N -> exists k,
  digits_after (chars (pretty_N_go x s)) acc = digits_after (chars s) (acc * k + Z.of_N x).
Proof.
  revert s acc. induction (N.lt_wf_0 x) as [x _ IH]. intros s acc Hx.
  rewrite pretty_N_go_step by done.
  assert (Hm : (x `mod` 10 < 10)%N) by (apply N.mod_lt; lia).
  pose proof (N.div_mod x 10 ltac:(lia)) as Hdm.
  destruct (decide (0 < x `div` 10)%N) as [Hd|Hd].
  - destruct (IH (x `div` 10)%N ltac:(apply N.div_lt; lia)
      (String (pretty_N_char (x `mod` 10)) s) acc Hd) as [k Hk].
    exists (10 * k)%Z. rewrite Hk. simpl. rewrite digit_pretty by done. f_equal. lia.
  - replace (x `div` 10)%N with 0%N in * by lia. exists 10%Z. rewrite pretty_N_go_0. simpl.
    rewrite digit_pretty by done. f_equal. lia.
Qed.

Definition all_digits (l : list ascii) : Prop := forall c, c ∈ l -> is_Some (digit_value c).

Lemma pretty_all_digits x s : all_digits (chars s) -> all_digits (chars (pretty_N_go x s)).
Proof.
  revert s. induction (N.lt_wf_0 x) as [x _ IH]. intros s Hs.
  destruct (decide (0 < x)%N) as [Hx|Hx].
  - rewrite pretty_N_go_step by done. apply IH; [apply N.div_lt; lia|].
    intros c. cbn [chars]. rewrite elem_of_cons. intros [->|Hc]; [|auto].
    rewrite digit_pretty by (apply N.mod_lt; lia). by eexists.
  - replace x with 0%N by lia. by rewrite pretty_N_go_0.
Qed.

Lemma digit_not_space c : is_Some (digit_value c) -> is_space c = false.
Proof.
  unfold digit_value, is_space. destruct (Nat.leb 48 (nat_of_ascii c)) eqn:H1;
    [|by intros []]. apply Nat.leb_le in H1. intros _.
  apply orb_false_iff. split; apply andb_false_iff; right; apply Nat.leb_gt; lia.
Qed.

Lemma lstrip_solid c l : is_space c = false -> lstrip (c :: l) = c :: l.
Proof. simpl. by intros ->. Qed.

Lemma strip_solid l : (forall c, c ∈ l -> is_space c = false) -> strip l = l.
Proof.
  intros H. unfold strip. destruct l as [|c l]; [done|].
  rewrite (lstrip_solid c l) by (apply H; left).
  destruct (rev (c :: l)) as [|c' l'] eqn:E.
  - apply (f_equal (@Datatypes.length ascii)) in E. rewrite length_rev in E. discriminate.
  - rewrite lstrip_solid, <- E; [apply rev_involutive|]. apply H, elem_of_rev. rewrite E. left.
Qed.

Lemma digits_digits l z :
  l <> [] -> all_digits l -> digits_after l 0 = Some z -> digits l = Some z.
Proof.
  destruct l as [|c l]; [done|]. intros _ H. destruct (H c) as [d Hd]; [left|].
  simpl. rewrite Hd. simpl. done.
Qed.

(** The digits of a number, printed and read again. *)
Lemma digits_pretty x : (0 < x)%N ->
  let l := chars (pretty_N_go x "") in
  l <> [] /\ all_digits l /\ digits l = Some (Z.of_N x).
Proof.
  intros Hx l. assert (Ha : all_digits l).
  { apply pretty_all_digits. intros c Hc. by apply elem_of_nil in Hc. }
  destruct (pretty_digits x "" 0 Hx) as [k Hk]. fold l in Hk. simpl in Hk.
  assert (Hne : l <> []).
  { intros E. rewrite E in Hk. injection Hk as Hk. lia. }
  split_and!; [done|done|]. by apply digits_digits.
Qed.

Lemma parse_int_pretty z : parse_int (py_str (PInt z)) = Some z.
Proof.
  cbn [py_str]. destruct z as [|p|p]; [reflexivity| |].
  - change (pretty (Z.pos p)) with (pretty_N_go (N.pos p) "").
    destruct (digits_pretty (N.pos p) ltac:(lia)) as (Hne & Ha & Hd).
    unfold parse_int. rewrite strip_solid by (intros; apply digit_not_space, Ha; done).
    destruct (chars _) as [|c l]; [done|]. destruct (Ha c) as [d Hc]; [left|].
    destruct c as [[] [] [] [] [] [] [] []]; try exact Hd; discriminate.
  - change (pretty (Z.neg p)) with (String "-" (pretty_N_go (N.pos p) "")).
    destruct (digits_pretty (N.pos p) ltac:(lia)) as (Hne & Ha & Hd).
    unfold parse_int. cbn [chars]. rewrite strip_solid.
    + cbn iota. rewrite Hd. reflexivity.
    + intros c. rewrite elem_of_cons. intros [->|Hc]; [reflexivity|].
      apply digit_not_space, Ha, Hc.
Qed.

Lemma convert_text s z : parse_int s = Some z -> convert TInt (PStr s) = Ret (PInt z).
Proof. intros H. simpl. by rewrite H. Qed.
