(* ===== verification/CotData.v ===== *)
(** The messages the CoT services and the core exchange: what is read of a processed
    CoT and who it is from. *)
From stdpp Require Import base strings list.
From Stdlib Require Import ZArith Lia.
From S2P Require Import Prelude.

Set Default Proof Using "Type".
Local Open Scope string_scope.

(** What a message carries as [xmlString] or [idData].  A [str] and the [bytes]
    [encode] makes of it are written with the same characters. *)
Inductive payload :=
  | Bytes (b : string)
  | Text (s : string)
  | NoText.

#[export] Instance payload_eq_dec : EqDecision payload.
Proof. solve_decision. Defined.

(** What is read of the [modelObject] of a message: its uid, the callsigns of
    [detail.marti.dest] and [detail._chat.chatgrp.uid1], where [detail] has them. *)
Record model := mkModel {
  model_uid : string; marti : option (list (option string));
  chat : option (option string) }.

(** Who a message is from: nobody, an object with a [user_id], an object without one
    (a [str], a [ClientInformation]), or the message itself, with its socket. *)
Inductive sender :=
  | SNone
  | SUser (user_id : string)
  | SOther
  | SSelf (sock : nat).

#[export] Instance sender_eq_dec : EqDecision sender.
Proof. solve_decision. Defined.

(** A message: [None] where the object lacks the attribute.  For [m_model],
    [Some None] is a [modelObject] that is [None]. *)
Record message := mkMessage {
  m_type : string; m_clientInformation : option sender;
  m_xmlString : option payload; m_idData : option payload;
  m_model : option (option model) }.

Definition with_clientInformation (c : sender) (m : message) : message :=
  mkMessage (m_type m) (Some c) (m_xmlString m) (m_idData m) (m_model m).
Definition with_idData (p : payload) (m : message) : message :=
  mkMessage (m_type m) (m_clientInformation m) (m_xmlString m) (Some p) (m_model m).
