(* ===== verification/FtsState.v ===== *)
(** The state of the [FTS] process of [controllers/services/FTS.py]: the startup
    object of [model/ServiceObjects], [FilterGroup], the user and connection objects
    it shares with the CoT services, and the process, queue and event primitives of
    [multiprocessing] the service handlers use. *)
From stdpp Require Import base strings list gmap.
From Stdlib Require Import ZArith Lia.
From S2P Require Import Prelude.
From S2P Require Import CotData.

Set Default Proof Using "Type".
Local Open Scope string_scope.

(** * Startup configuration objects *)

(** The address, port and status every object of [model/ServiceObjects] holds for
    its service. *)
Record svc := mkSvc { svc_ip : pyval; svc_port : pyval; svc_status : pyval }.

Record RoutingProxyService := mkRoutingProxyService {
  RoutingProxySubscriberPort : pyval;
  RoutingProxySubscriberIP : pyval;
  RoutingProxySubscriberProtocol : pyval;
  RoutingProxyPublisherPort : pyval;
  RoutingProxyPublisherIP : pyval;
  RoutingProxyPublisherProtocol : pyval;
  RoutingProxyRequestServerPort : pyval;
  RoutingProxyRequestServerIP : pyval;
  RoutingProxyRequestServerProtocol : pyval;
  RoutingProxyServiceStatus : pyval;
  NumRoutingWorkers : pyval }.

Record IntegrationManagerService := mkIntegrationManagerService {
  IntegrationManagerPullerProtocol : pyval;
  IntegrationManagerPullerAddress : pyval;
  IntegrationManagerPullerPort : pyval;
  IntegrationManagerPublisherProtocol : pyval;
  IntegrationManagerPublisherAddress : pyval;
  IntegrationManagerPublisherPort : pyval }.

Record ComponentRegistration := mkComponentRegistration {
  core_components_path : pyval;
  core_components_import_root : pyval;
  internal_components_path : pyval;
  internal_components_import_root : pyval;
  external_components_path : pyval;
  external_components_import_root : pyval }.

(** The services [FTSObj] has a sub-object for with an address, port and status. *)
Inductive service :=
  | CoTService | TCPDataPackageService | SSLDataPackageService | RestAPIService
  | SSLCoTService | FederationClientService | FederationServerService.

#[export] Instance service_eq_dec : EqDecision service.
Proof. solve_decision. Defined.

Record FTSObj := mkFTSObj {
  o_svc : service -> svc;
  o_routing : RoutingProxyService;
  o_components : ComponentRegistration;
  o_integration : IntegrationManagerService }.

(** [o.S.SServiceIP = v] and the same for the port and the status. *)
Definition upd_svc (s : service) (f : svc -> svc) (o : FTSObj) : FTSObj :=
  mkFTSObj (fun s' => if decide (s' = s) then f (o_svc o s) else o_svc o s')
    (o_routing o) (o_components o) (o_integration o).
Definition with_ip (v : pyval) (x : svc) : svc := mkSvc v (svc_port x) (svc_status x).
Definition with_port (v : pyval) (x : svc) : svc := mkSvc (svc_ip x) v (svc_status x).
Definition with_status (v : pyval) (x : svc) : svc := mkSvc (svc_ip x) (svc_port x) v.

(** The default each service object is built with; [config] reads [MainConfig]. *)
Definition default_svc (config : string -> pyval) (s : service) : svc :=
  match s with
  | CoTService => mkSvc (PStr "0.0.0.0") (config "CoTServicePort") (PStr "")
  | TCPDataPackageService =>
      mkSvc (config "DataPackageServiceDefaultIP") (PInt 8080) (PStr "")
  | SSLDataPackageService =>
      mkSvc (config "DataPackageServiceDefaultIP") (PInt 8443) (PStr "")
  | RestAPIService => mkSvc (config "APIIP") (config "APIPort") (PStr "")
  | SSLCoTService => mkSvc (PStr "0.0.0.0") (config "SSLCoTServicePort") (PStr "")
  | FederationClientService => mkSvc PNone (PInt 9000) (PStr "")
  | FederationServerService =>
      mkSvc (PStr "0.0.0.0") (config "FederationPort") (PStr "stop")
  end.

Definition default_routing (config : string -> pyval) : RoutingProxyService :=
  {| RoutingProxySubscriberPort := config "RoutingProxySubscriberPort";
     RoutingProxySubscriberIP := config "RoutingProxySubscriberIP";
     RoutingProxySubscriberProtocol := PStr "tcp";
     RoutingProxyPublisherPort := config "RoutingProxyPublisherPort";
     RoutingProxyPublisherIP := config "RoutingProxyPublisherIP";
     RoutingProxyPublisherProtocol := PStr "tcp";
     RoutingProxyRequestServerPort := config "RoutingProxyRequestServerPort";
     RoutingProxyRequestServerIP := config "RoutingProxyRequestServerIP";
     RoutingProxyRequestServerProtocol := PStr "tcp";
     RoutingProxyServiceStatus := PStr "";
     NumRoutingWorkers := config "NumRoutingWorkers" |}.

Definition default_integration (config : string -> pyval) : IntegrationManagerService :=
  {| IntegrationManagerPullerProtocol := PStr "tcp";
     IntegrationManagerPullerAddress := config "IntegrationManagerPullerAddress";
     IntegrationManagerPullerPort := config "IntegrationManagerPullerPort";
     IntegrationManagerPublisherProtocol := PStr "tcp";
     IntegrationManagerPublisherAddress := config "IntegrationManagerPublisherAddress";
     IntegrationManagerPublisherPort := config "IntegrationManagerPublisherPort" |}.

Definition default_components (config : string -> pyval) : ComponentRegistration :=
  {| core_components_path := config "CoreComponentsPath";
     core_components_import_root := config "CoreComponentsImportRoot";
     internal_components_path := config "InternalComponentsPath";
     internal_components_import_root := config "InternalComponentsImportRoot";
     external_components_path := config "ExternalComponentsPath";
     external_components_import_root := config "ExternalComponentsImportRoot" |}.

(** [FTSObj()]. *)
Definition new_FTSObj (config : string -> pyval) : FTSObj :=
  mkFTSObj (default_svc config) (default_routing config) (default_components config)
    (default_integration config).

(** * Service and connection types *)

(** A member of [ServiceTypes].  A Python [Enum] makes two names with one value the
    same member, so a member is its value. *)
Record ServiceTypes := mkServiceType { st_value : string }.
Definition TCPCOTSERVICE := mkServiceType "TCP-CoT-Service".
Definition SSLCOTSERVICE := mkServiceType "SSL-CoT-Service".
Definition TCPDPSERVICE := mkServiceType "TCP-DP-Service".
Definition SSLDPSERVICE := mkServiceType "TCP-DP-Service".
Definition APISERVICE := mkServiceType "API-Service".
Definition FEDSERVERSERVICE := mkServiceType "Federation-Server-Service".
Definition FEDCLIENTSERVICE := mkServiceType "Federation-Client-Service".

#[export] Instance ServiceTypes_eq_dec : EqDecision ServiceTypes.
Proof. solve_decision. Defined.

Inductive ConnectionTypes := TCP | SSL | UDP | PROTO.

#[export] Instance ConnectionTypes_eq_dec : EqDecision ConnectionTypes.
Proof. solve_decision. Defined.

#[export] Instance ConnectionTypes_countable : Countable ConnectionTypes.
Proof.
  refine
    {| encode c := match c with TCP => 1 | SSL => 2 | UDP => 3 | PROTO => 4 end%positive;
       decode p := match p with
         | 1 => Some TCP | 2 => Some SSL | 3 => Some UDP | 4 => Some PROTO
         | _ => None end%positive |}; by intros [].
Defined.

Record Connection := mkConnection {
  conn_ip : string; conn_port : Z; conn_user_id : string;
  connection_type : ConnectionTypes }.

(** [Presence]: its xml, and of its [modelObject] the uid and the callsign of the
    contact. *)
Record Presence := mkPresence {
  presence_uid : string; presence_xml : string; presence_callsign : string }.

#[export] Instance Presence_eq_dec : EqDecision Presence.
Proof. solve_decision. Defined.

(** * [User] *)

Record User := mkUser {
  connections : list (ConnectionTypes * Connection);
  m_presence : Presence;
  user_id : string }.

(** [User(connection, m_presence)]. *)
Definition new_User (p : Presence) (c : Connection) : User :=
  mkUser [(connection_type c, c)] p (presence_uid p).

Definition get_connection (t : ConnectionTypes) (u : User) : option Connection :=
  dget t (connections u).

(** [None] for the [KeyError] of [del self.connections[connection_type]]. *)
Definition delete_connection (t : ConnectionTypes) (u : User) : option User :=
  match py_del t (connections u) with
  | Some cs => Some (mkUser cs (m_presence u) (user_id u))
  | None => None
  end.

Definition with_presence (p : Presence) (u : User) : User :=
  mkUser (connections u) p (user_id u).

(** * Pipes and [FilterGroup] *)

(** What the core reads client data from and writes it to: a [Queue] or a
    [QueueManager] (the queue it puts to, the queue it gets from). *)
Inductive pipe :=
  | PipeQueue (q : nat)
  | PipeManager (sender_queue listener_queue : nat).

#[export] Instance pipe_eq_dec : EqDecision pipe.
Proof. solve_decision. Defined.

Record FilterGroup := mkFilterGroup {
  sources : list (ServiceTypes * pipe);
  receivers : list (ServiceTypes * pipe);
  allowedType : list string;
  rejectedType : list string }.

Definition new_FilterGroup : FilterGroup := mkFilterGroup [] [] ["*"] [].

Definition add_source (p : pipe) (n : ServiceTypes) (g : FilterGroup) : FilterGroup :=
  mkFilterGroup (dset n p (sources g)) (receivers g) (allowedType g) (rejectedType g).

Definition add_receiver (p : pipe) (n : ServiceTypes) (g : FilterGroup) : FilterGroup :=
  mkFilterGroup (sources g) (dset n p (receivers g)) (allowedType g) (rejectedType g).

(** [None]: the [KeyError] of [del]. *)
Definition remove_source (n : ServiceTypes) (g : FilterGroup) : option FilterGroup :=
  (fun d => mkFilterGroup d (receivers g) (allowedType g) (rejectedType g))
    <$> py_del n (sources g).

Definition remove_receiver (n : ServiceTypes) (g : FilterGroup) : option FilterGroup :=
  (fun d => mkFilterGroup (sources g) d (allowedType g) (rejectedType g))
    <$> py_del n (receivers g).

Definition add_allowed_type (t : string) (g : FilterGroup) : FilterGroup :=
  mkFilterGroup (sources g) (receivers g) (allowedType g ++ [t]) (rejectedType g).

(** [list.remove]: the first occurrence, [ValueError] ([None]) when there is none. *)
Fixpoint list_remove (t : string) (l : list string) : option (list string) :=
  match l with
  | [] => None
  | x :: l => if decide (t = x) then Some l else cons x <$> list_remove t l
  end.

Definition remove_allowed_type (t : string) (g : FilterGroup) : option FilterGroup :=
  (fun l => mkFilterGroup (sources g) (receivers g) l (rejectedType g))
    <$> list_remove t (allowedType g).

Definition check_if_type_is_allowed (t : string) (g : FilterGroup) : bool :=
  (bool_decide (t ∈ allowedType g) && bool_decide (t ∉ rejectedType g))
  || (bool_decide (allowedType g = ["*"]) && bool_decide (t ∉ rejectedType g)).

(** * The process *)

Inductive pstatus := PCreated | PRunning | PSignalled | PExited.

#[export] Instance pstatus_eq_dec : EqDecision pstatus.
Proof. solve_decision. Defined.

Inductive parg :=
  | AVal (v : pyval) | APipe (p : pipe) | AEvent (e : nat) | AObj (name : string).

(** A [multiprocessing.Process]: what it runs, its arguments and its life cycle. *)
Record process := mkProcess {
  pr_target : string; pr_args : list parg; pr_status : pstatus }.

Definition with_pstatus (st : pstatus) (p : process) : process :=
  mkProcess (pr_target p) (pr_args p) st.

(** What an attribute of [self] refers to. *)
Inductive obj :=
  | ONone
  | OProcess (id : nat)
  | OThread (id : nat)
  | OEvent (id : nat)
  | OPipe (p : pipe)
  | ODatetime.

(** What is put on a queue. *)
Inductive msg :=
  | MPresence (p : Presence)
  | MUsers (u : list (string * User))
  | MCoT (m : message)
  | MInt (z : Z)
  | MCode (s : string)
  | MNone
  | MCommand (n : nat)
  | MObject (o : FTSObj)
  | MClients (n : nat).

(** The calls into code outside the repository that a handler makes, any of which
    may raise. *)
Inductive ext :=
  | ESetValue (section key : string)
  | EGetInstance (name : string)
  | EConstruct (class : string)
  | EStart (target : string)
  | ETerminate (target : string)
  | EJoin (target : string)
  | EQueueClose
  | EQueuePut
  | EDatabase (op : string)
  | EConfigure (op : string).

Record fts := mkFts {
  attrs : gmap string obj;
  procs : gmap nat process;
  threads : gmap nat pstatus;
  events : gmap nat bool;
  next_id : nat;
  clock : nat;
  pipeList : list (string * pipe);
  filterGroup : FilterGroup;
  configuration : list (string * string * pyval);
  registered : list (string * string);
  startup_object : FTSObj;
  user_dict : list (string * User);
  socketCount : Z;
  data_from_services : Z;
  killSwitch : bool;
  sent : list (pipe * msg) }.

Definition set_attrs f w := mkFts (f (attrs w)) (procs w) (threads w) (events w)
  (next_id w) (clock w) (pipeList w) (filterGroup w) (configuration w) (registered w)
  (startup_object w) (user_dict w) (socketCount w) (data_from_services w)
  (killSwitch w) (sent w).
Definition set_heap fp ft fe fn w := mkFts (attrs w) (fp (procs w)) (ft (threads w))
  (fe (events w)) (fn (next_id w)) (clock w) (pipeList w) (filterGroup w)
  (configuration w) (registered w) (startup_object w) (user_dict w) (socketCount w)
  (data_from_services w) (killSwitch w) (sent w).
Definition tick w := mkFts (attrs w) (procs w) (threads w) (events w) (next_id w)
  (S (clock w)) (pipeList w) (filterGroup w) (configuration w) (registered w)
  (startup_object w) (user_dict w) (socketCount w) (data_from_services w)
  (killSwitch w) (sent w).
Definition set_pipeList f w := mkFts (attrs w) (procs w) (threads w) (events w)
  (next_id w) (clock w) (f (pipeList w)) (filterGroup w) (configuration w)
  (registered w) (startup_object w) (user_dict w) (socketCount w)
  (data_from_services w) (killSwitch w) (sent w).
Definition set_filterGroup f w := mkFts (attrs w) (procs w) (threads w) (events w)
  (next_id w) (clock w) (pipeList w) (f (filterGroup w)) (configuration w)
  (registered w) (startup_object w) (user_dict w) (socketCount w)
  (data_from_services w) (killSwitch w) (sent w).
Definition set_configuration f w := mkFts (attrs w) (procs w) (threads w) (events w)
  (next_id w) (clock w) (pipeList w) (filterGroup w) (f (configuration w))
  (registered w) (startup_object w) (user_dict w) (socketCount w)
  (data_from_services w) (killSwitch w) (sent w).
Definition set_registered f w := mkFts (attrs w) (procs w) (threads w) (events w)
  (next_id w) (clock w) (pipeList w) (filterGroup w) (configuration w)
  (f (registered w)) (startup_object w) (user_dict w) (socketCount w)
  (data_from_services w) (killSwitch w) (sent w).
Definition set_startup_object f w := mkFts (attrs w) (procs w) (threads w) (events w)
  (next_id w) (clock w) (pipeList w) (filterGroup w) (configuration w)
  (registered w) (f (startup_object w)) (user_dict w) (socketCount w)
  (data_from_services w) (killSwitch w) (sent w).
Definition set_users f w := mkFts (attrs w) (procs w) (threads w) (events w)
  (next_id w) (clock w) (pipeList w) (filterGroup w) (configuration w)
  (registered w) (startup_object w) (f (user_dict w)) (socketCount w)
  (data_from_services w) (killSwitch w) (sent w).
Definition set_counters fs fd w := mkFts (attrs w) (procs w) (threads w) (events w)
  (next_id w) (clock w) (pipeList w) (filterGroup w) (configuration w)
  (registered w) (startup_object w) (user_dict w) (fs (socketCount w))
  (fd (data_from_services w)) (killSwitch w) (sent w).
Definition set_killSwitch v w := mkFts (attrs w) (procs w) (threads w) (events w)
  (next_id w) (clock w) (pipeList w) (filterGroup w) (configuration w)
  (registered w) (startup_object w) (user_dict w) (socketCount w)
  (data_from_services w) v (sent w).
Definition set_sent f w := mkFts (attrs w) (procs w) (threads w) (events w)
  (next_id w) (clock w) (pipeList w) (filterGroup w) (configuration w)
  (registered w) (startup_object w) (user_dict w) (socketCount w)
  (data_from_services w) (killSwitch w) (f (sent w)).
