(* ===== verification/Supervisor.v ===== *)
(** The service handlers of [controllers/services/FTS.py]: starting and stopping the
    REST API, CoT, data package and federation services, [configure] and
    [register_components]. *)
From stdpp Require Import base strings list gmap.
From Stdlib Require Import ZArith Lia.
From S2P Require Import Prelude.
From S2P Require Import FtsState.

Set Default Proof Using "Type".
Local Open Scope string_scope.
Local Open Scope list_scope.
Local Open Scope py_scope.

Section Supervisor.
(** Which call into outside code raises: the n-th call made, and what it calls. *)
Variable faults : nat -> ext -> bool.

Abbreviation MF := (M fts).

(** ** Primitives *)

Definition ext_call (c : ext) : MF unit := fun w =>
  (if faults (clock w) c then Exn External else Ret tt, tick w).

Definition self_set (name : string) (o : obj) : MF unit :=
  modify (set_attrs <[name := o]>).

Definition self_get (name : string) : MF obj :=
  o <- gets (fun w => attrs w !! name) ;; of_option AttributeError o.

Definition fresh_id : MF nat :=
  n <- gets next_id ;; modify (set_heap id id id S) ;;; mret n.

Definition new_Queue : MF nat := ext_call (EConstruct "Queue") ;;; fresh_id.

Definition new_Event : MF nat :=
  ext_call (EConstruct "Event") ;;;
  e <- fresh_id ;; modify (set_heap id id <[e := false]> id) ;;; mret e.

Definition event_put (e : nat) (b : bool) : MF unit :=
  modify (set_heap id id <[e := b]> id).

(** [o.set()] and [o.clear()]. *)
Definition obj_event_put (o : obj) (b : bool) : MF unit :=
  match o with OEvent e => event_put e b | _ => raise AttributeError end.

Definition new_Process (target : string) (args : list parg) : MF nat :=
  ext_call (EConstruct "Process") ;;;
  p <- fresh_id ;;
  modify (set_heap <[p := mkProcess target args PCreated]> id id id) ;;; mret p.

Definition new_Thread : MF nat :=
  ext_call (EConstruct "Thread") ;;;
  t <- fresh_id ;; modify (set_heap id <[t := PCreated]> id id) ;;; mret t.

(** The process [o] names: no other object has the methods below. *)
Definition obj_process (o : obj) : MF (nat * process) :=
  match o with
  | OProcess i =>
      p <- gets (fun w => procs w !! i) ;;
      p <- of_option AttributeError p ;; mret (i, p)
  | _ => raise AttributeError
  end.

Definition set_pstatus (i : nat) (st : pstatus) : MF unit :=
  modify (set_heap (alter (with_pstatus st) i) id id id).

(** [o.start()]: a process starts once. *)
Definition process_start (o : obj) : MF unit :=
  ip <- obj_process o ;;
  match pr_status ip.2 with
  | PCreated =>
      ext_call (EStart (pr_target ip.2)) ;;;
      set_pstatus ip.1 PRunning
  | _ => raise AssertionError
  end.

Definition process_is_alive (o : obj) : MF bool :=
  ip <- obj_process o ;;
  mret (match pr_status ip.2 with PRunning | PSignalled => true | _ => false end).

(** [o.terminate()] signals a running process; one that was never started has no
    handle to signal. *)
Definition process_terminate (o : obj) : MF unit :=
  ip <- obj_process o ;;
  match pr_status ip.2 with
  | PCreated => raise AttributeError
  | PRunning =>
      ext_call (ETerminate (pr_target ip.2)) ;;;
      set_pstatus ip.1 PSignalled
  | _ => mret tt
  end.

(** [o.join()] returns when the process has exited. *)
Definition process_join (o : obj) : MF unit :=
  ip <- obj_process o ;;
  match pr_status ip.2 with
  | PCreated => raise AssertionError
  | PExited => mret tt
  | _ =>
      ext_call (EJoin (pr_target ip.2)) ;;;
      set_pstatus ip.1 PExited
  end.

Definition thread_start (t : nat) : MF unit :=
  ext_call (EStart "Thread") ;;; modify (set_heap id <[t := PRunning]> id id).

Definition thread_join (o : obj) : MF unit :=
  match o with
  | OThread t =>
      ext_call (EJoin "Thread") ;;; modify (set_heap id <[t := PExited]> id id)
  | _ => raise AttributeError
  end.

(** [o.close()]: of the objects the closed attributes hold, a [Queue] has it, and a
    [QueueManager] closes its two queues. *)
Definition pipe_close (o : obj) : MF unit :=
  match o with
  | OPipe (PipeQueue _) => ext_call EQueueClose
  | OPipe (PipeManager _ _) => ext_call EQueueClose ;;; ext_call EQueueClose
  | _ => raise AttributeError
  end.

(** [QueueManager(sender_queue, listener_queue)] makes and sets a lock event. *)
Definition new_QueueManager (sender_queue listener_queue : nat) : MF pipe :=
  lock <- new_Event ;; event_put lock true ;;; mret (PipeManager sender_queue listener_queue).

Definition get_instance (name : string) : MF unit := ext_call (EGetInstance name).

Definition set_value (section key : string) (v : pyval) : MF unit :=
  ext_call (ESetValue section key) ;;;
  modify (set_configuration (fun c => c ++ [(section, key, v)])).

Definition pipeList_set (k : string) (p : pipe) : MF unit :=
  modify (set_pipeList (dset k p)).

Definition pipeList_del (k : string) : MF unit :=
  d <- gets (fun w => py_del k (pipeList w)) ;;
  d <- of_option KeyError d ;; modify (set_pipeList (fun _ => d)).

Definition fg_add_source (p : pipe) (n : ServiceTypes) : MF unit :=
  modify (set_filterGroup (add_source p n)).
Definition fg_add_receiver (p : pipe) (n : ServiceTypes) : MF unit :=
  modify (set_filterGroup (add_receiver p n)).
Definition fg_remove_source (n : ServiceTypes) : MF unit :=
  g <- gets (fun w => remove_source n (filterGroup w)) ;;
  g <- of_option KeyError g ;; modify (set_filterGroup (fun _ => g)).
Definition fg_remove_receiver (n : ServiceTypes) : MF unit :=
  g <- gets (fun w => remove_receiver n (filterGroup w)) ;;
  g <- of_option KeyError g ;; modify (set_filterGroup (fun _ => g)).

(** The settings the REST API, CoT and data package handlers write to the section
    of their service. *)
Definition set_service_values (section service_id : string) (cfg : FTSObj) : MF unit :=
  let r := o_routing cfg in
  let i := o_integration cfg in
  set_value section "subject_address" (PStr (py_str (RoutingProxySubscriberIP r))) ;;;
  set_value section "subject_port" (PStr (py_str (RoutingProxySubscriberPort r))) ;;;
  set_value section "subject_protocol" (RoutingProxySubscriberProtocol r) ;;;
  set_value section "integration_manager_address" (IntegrationManagerPublisherAddress i) ;;;
  set_value section "integration_manager_port" (IntegrationManagerPublisherPort i) ;;;
  set_value section "integration_manager_protocol" (IntegrationManagerPublisherProtocol i) ;;;
  set_value section "service_id" (PStr service_id).

(** ** The REST API service *)

Definition start_rest_api_service (cfg : FTSObj) : MF pyval :=
  try:
    set_service_values "RestAPIService" "rest_api_service" cfg ;;;
    RestAPIPipe <- new_Queue ;;
    self_set "RestAPIPipe" (OPipe (PipeQueue RestAPIPipe)) ;;;
    restapicommandsthread <- new_Queue ;;
    restapicommandsmain <- new_Queue ;;
    RestAPICommandsFTS <- new_QueueManager restapicommandsmain restapicommandsthread ;;
    self_set "RestAPICommandsFTS" (OPipe RestAPICommandsFTS) ;;;
    RestAPICommandsFTS' <- new_QueueManager restapicommandsthread restapicommandsmain ;;
    receive_Rest_stopper <- new_Event ;;
    self_set "receive_Rest_stopper" (OEvent receive_Rest_stopper) ;;;
    event_put receive_Rest_stopper false ;;;
    receive_Rest <- new_Thread ;;
    self_set "receive_Rest" (OThread receive_Rest) ;;;
    get_instance "RestAPIService" ;;;
    self_get "StartupTime" ;;;
    get_instance "factory" ;;;
    RestAPIProcess <- new_Process "RestAPIService"
      [APipe (PipeQueue RestAPIPipe); APipe RestAPICommandsFTS';
       AVal (svc_ip (o_svc cfg RestAPIService));
       AVal (svc_port (o_svc cfg RestAPIService));
       AObj "StartupTime"; AObj "factory"] ;;
    self_set "RestAPIProcess" (OProcess RestAPIProcess) ;;;
    thread_start receive_Rest ;;;
    process_start (OProcess RestAPIProcess) ;;;
    pipeList_set "restAPI" (PipeQueue RestAPIPipe) ;;;
    fg_add_source (PipeQueue RestAPIPipe) APISERVICE ;;;
    mret (PInt 1)
  except: mret (PInt (-1)).

Definition stop_rest_api_service : MF pyval :=
  try:
    p <- self_get "RestAPIProcess" ;; process_terminate p ;;;
    p <- self_get "RestAPIProcess" ;; process_join p ;;;
    e <- self_get "receive_Rest_stopper" ;; obj_event_put e true ;;;
    t <- self_get "receive_Rest" ;; thread_join t ;;;
    mret PNone
  except: mret PNone.

(** Terminates and joins the process an attribute names, or joins it when it is not
    alive. *)
Definition shut_down (attr : string) : MF unit :=
  p <- self_get attr ;;
  alive <- process_is_alive p ;;
  if alive : bool
  then process_terminate p ;;; process_join p
  else process_join p.

(** ** The TCP CoT service *)

Definition start_cot_service (cfg : FTSObj) : MF pyval :=
  try:
    set_service_values "TCPCoTService" "tcp_cot_service" cfg ;;;
    core_queue <- new_Queue ;;
    self_set "core_tcp_user_queue_send" (OPipe (PipeQueue core_queue)) ;;;
    service_queue <- new_Queue ;;
    self_set "service_tcp_user_queue_send" (OPipe (PipeQueue service_queue)) ;;;
    TCPCoTServiceThread <- new_Queue ;;
    TCPCoTServiceFTS <- new_Queue ;;
    manager <- new_QueueManager TCPCoTServiceThread TCPCoTServiceFTS ;;
    self_set "TCPCoTService" (OPipe manager) ;;;
    TCPCoTService <- new_QueueManager TCPCoTServiceFTS TCPCoTServiceThread ;;
    CoTPoisonPill <- new_Event ;;
    self_set "CoTPoisonPill" (OEvent CoTPoisonPill) ;;;
    event_put CoTPoisonPill true ;;;
    ReceiveConnectionsReset <- new_Event ;;
    self_set "ReceiveConnectionsReset" (OEvent ReceiveConnectionsReset) ;;;
    get_instance "TCPCoTService" ;;;
    get_instance "factory" ;;;
    get_instance "tracingprovider" ;;;
    p <- new_Process "TCPCoTService"
      [AVal (svc_ip (o_svc cfg CoTService)); AVal (svc_port (o_svc cfg CoTService));
       AEvent CoTPoisonPill; APipe (PipeQueue service_queue);
       AEvent ReceiveConnectionsReset; APipe TCPCoTService;
       APipe (PipeQueue core_queue); AObj "factory"; AObj "tracingprovider"] ;;
    self_set "CoTService" (OProcess p) ;;;
    process_start (OProcess p) ;;;
    pipeList_set "TCPCoTServiceFTSPipe" manager ;;;
    fg_add_receiver manager TCPCOTSERVICE ;;;
    fg_add_source manager TCPCOTSERVICE ;;;
    mret (PInt 1)
  except: mret (PInt (-1)).

Definition stop_cot_service : MF pyval :=
  try:
    e <- self_get "CoTPoisonPill" ;; obj_event_put e false ;;;
    shut_down "CoTService" ;;;
    fg_remove_source TCPCOTSERVICE ;;;
    fg_remove_receiver TCPCOTSERVICE ;;;
    mret (PInt 1)
  except: mret (PInt (-1)).

(** ** The data package services *)

Definition start_tcp_data_package_service (cfg : FTSObj) : MF pyval :=
  try:
    set_service_values "HTTPTakAPIService" "http_tak_api_service" cfg ;;;
    q <- new_Queue ;;
    self_set "tcp_data_package_service_pipe" (OPipe (PipeQueue q)) ;;;
    get_instance "HTTPTakAPIService" ;;;
    get_instance "factory" ;;;
    p <- new_Process "HTTPTakAPIService"
      [AVal (svc_ip (o_svc cfg TCPDataPackageService));
       AVal (svc_port (o_svc cfg TCPDataPackageService));
       APipe (PipeQueue q); AObj "factory"] ;;
    self_set "TCPDataPackageService" (OProcess p) ;;;
    process_start (OProcess p) ;;;
    pipeList_set "tcp_data_package_service_pipe" (PipeQueue q) ;;;
    fg_add_source (PipeQueue q) TCPDPSERVICE ;;;
    mret (PInt 1)
  except: mret (PInt (-1)).

Definition stop_tcp_data_package_service : MF pyval :=
  pipeList_del "tcp_data_package_service_pipe" ;;;
  fg_remove_source TCPDPSERVICE ;;;
  ok <- (try: (p <- self_get "TCPDataPackageService" ;; process_terminate p ;;; mret true)
         except: mret false) ;;
  if negb ok then mret (PInt (-1)) else
  ok <- (try: (p <- self_get "TCPDataPackageService" ;; process_join p ;;; mret true)
         except: mret false) ;;
  if negb ok then mret (PInt (-1)) else
  (q <- self_get "tcp_data_package_service_pipe" ;; pipe_close q) ;;;
  mret (PInt 1).

Definition start_ssl_data_package_service (cfg : FTSObj) : MF pyval :=
  try:
    set_service_values "HTTPSTakAPIService" "https_tak_api_service" cfg ;;;
    q <- new_Queue ;;
    self_set "ssl_data_package_service" (OPipe (PipeQueue q)) ;;;
    get_instance "HTTPSTakAPIService" ;;;
    get_instance "factory" ;;;
    p <- new_Process "HTTPSTakAPIService"
      [AVal (svc_ip (o_svc cfg SSLDataPackageService));
       AVal (svc_port (o_svc cfg SSLDataPackageService)); AObj "factory"] ;;
    self_set "SSLDataPackageService" (OProcess p) ;;;
    process_start (OProcess p) ;;;
    pipeList_set "ssl_data_package_service" (PipeQueue q) ;;;
    fg_add_source (PipeQueue q) SSLDPSERVICE ;;;
    mret (PInt 1)
  except: mret (PInt (-1)).

Definition stop_ssl_data_package_service : MF pyval :=
  pipeList_del "ssl_data_package_service" ;;;
  fg_remove_source SSLDPSERVICE ;;;
  ok <- (try: (p <- self_get "SSLDataPackageService" ;; process_terminate p ;;; mret true)
         except: mret false) ;;
  if negb ok then mret (PInt (-1)) else
  ok <- (try: (p <- self_get "SSLDataPackageService" ;; process_join p ;;; mret true)
         except: mret false) ;;
  if negb ok then mret (PInt (-1)) else
  (q <- self_get "ssl_data_package_service" ;; pipe_close q) ;;;
  mret (PInt 1).

(** ** The SSL CoT service *)

Definition start_ssl_cot_service (cfg : FTSObj) : MF pyval :=
  try:
    set_service_values "SSLCoTService" "ssl_cot_service" cfg ;;;
    core_queue <- new_Queue ;;
    self_set "core_ssl_user_queue_send" (OPipe (PipeQueue core_queue)) ;;;
    service_queue <- new_Queue ;;
    self_set "service_ssl_user_queue_send" (OPipe (PipeQueue service_queue)) ;;;
    SSLCoTServiceThread <- new_Queue ;;
    SSLCoTServiceFTS <- new_Queue ;;
    manager <- new_QueueManager SSLCoTServiceThread SSLCoTServiceFTS ;;
    self_set "SSLCoTService" (OPipe manager) ;;;
    SSLCoTService <- new_QueueManager SSLCoTServiceFTS SSLCoTServiceThread ;;
    CoTPoisonPill <- new_Event ;;
    self_set "CoTPoisonPill" (OEvent CoTPoisonPill) ;;;
    event_put CoTPoisonPill true ;;;
    ReceiveConnectionsReset <- new_Event ;;
    self_set "ReceiveConnectionsReset" (OEvent ReceiveConnectionsReset) ;;;
    get_instance "SSLCoTService" ;;;
    get_instance "factory" ;;;
    get_instance "tracingprovider" ;;;
    p <- new_Process "SSLCoTService"
      [AVal (svc_ip (o_svc cfg FtsState.SSLCoTService));
       AVal (svc_port (o_svc cfg FtsState.SSLCoTService));
       AEvent CoTPoisonPill; APipe (PipeQueue service_queue);
       AEvent ReceiveConnectionsReset; APipe SSLCoTService;
       APipe (PipeQueue core_queue); AObj "factory"; AObj "tracingprovider"] ;;
    self_set "CoTService" (OProcess p) ;;;
    process_start (OProcess p) ;;;
    pipeList_set "SSLCoTServiceFTSPipe" manager ;;;
    fg_add_receiver manager SSLCOTSERVICE ;;;
    fg_add_source manager SSLCOTSERVICE ;;;
    mret (PInt 1)
  except: mret (PInt (-1)).

Definition stop_ssl_cot_service : MF pyval :=
  try:
    q <- self_get "SSLClientDataPipe" ;; pipe_close q ;;;
    e <- self_get "SSLCoTPoisonPill" ;; obj_event_put e false ;;;
    shut_down "SSLCoTService" ;;;
    pipeList_del "SSLCoTServiceFTSPipe" ;;;
    fg_remove_source SSLCOTSERVICE ;;;
    fg_remove_receiver SSLCOTSERVICE ;;;
    mret (PInt 1)
  except: mret (PInt (-1)).

(** ** The federation services *)

Definition start_federation_client_service (cfg : FTSObj) : MF pyval :=
  FederationClientServicePipeFTS <- new_Queue ;;
  FederationClientServicePipe <- new_Queue ;;
  manager <- new_QueueManager FederationClientServicePipeFTS FederationClientServicePipe ;;
  self_set "FederationClientServicePipeFTS" (OPipe manager) ;;;
  service_side <-
    new_QueueManager FederationClientServicePipe FederationClientServicePipeFTS ;;
  ext_call (EConstruct "FederationClientServiceController") ;;;
  p <- new_Process "FederationClientServiceController" [APipe service_side] ;;
  self_set "FederationClientService" (OProcess p) ;;;
  process_start (OProcess p) ;;;
  pipeList_set "FederationClientServiceFTSPipe" manager ;;;
  fg_add_source manager FEDCLIENTSERVICE ;;;
  fg_add_receiver manager FEDCLIENTSERVICE ;;;
  mret (PInt 1).

Definition stop_federation_client_service : MF pyval :=
  try_with
    (pipeList_del "FederationClientServiceFTSPipe" ;;;
     shut_down "FederationClientService" ;;;
     fg_remove_receiver FEDCLIENTSERVICE ;;;
     fg_remove_source FEDCLIENTSERVICE ;;;
     mret (PInt 1))
    (fun _ => mret (PInt (-1))).

Definition start_federation_server_service (cfg : FTSObj) : MF pyval :=
  try:
    let ip := svc_ip (o_svc cfg FederationServerService) in
    let port := svc_port (o_svc cfg FederationServerService) in
    FederationServerServiceFTS <- new_Queue ;;
    FederationServerServiceController <- new_Queue ;;
    manager <- new_QueueManager FederationServerServiceController
                 FederationServerServiceFTS ;;
    self_set "FederationServerServicePipeFTS" (OPipe manager) ;;;
    service_side <- new_QueueManager FederationServerServiceFTS
                      FederationServerServiceController ;;
    ext_call (EConstruct "FederationServerService") ;;;
    p <- new_Process "FederationServerService" [APipe service_side; AVal ip; AVal port] ;;
    self_set "FederationServerService" (OProcess p) ;;;
    process_start (OProcess p) ;;;
    pipeList_set "FederationServerServiceFTSPipe" manager ;;;
    fg_add_source manager FEDSERVERSERVICE ;;;
    fg_add_receiver manager FEDSERVERSERVICE ;;;
    mret (PInt 1)
  except: mret (PInt (-1)).

Definition stop_federation_server_service : MF pyval :=
  try_with
    (shut_down "FederationServerService" ;;;
     q <- self_get "FederationServerServicePipeFTS" ;; pipe_close q ;;;
     fg_remove_source FEDSERVERSERVICE ;;;
     fg_remove_receiver FEDSERVERSERVICE ;;;
     mret (PInt 1))
    (fun _ => mret (PInt (-1))).

(** ** Configuration and components *)

(** [f"{protocol}://{address}:{port}"]. *)
Definition url (protocol address port : pyval) : pyval :=
  PStr (py_str protocol +:+ "://" +:+ py_str address +:+ ":" +:+ py_str port).

Definition _configure_integration_manager (cfg : FTSObj) : MF unit :=
  let i := o_integration cfg in
  set_value "IntegrationManager" "integration_manager_puller_protocol"
    (IntegrationManagerPullerProtocol i) ;;;
  set_value "IntegrationManager" "integration_manager_puller_address"
    (IntegrationManagerPullerAddress i) ;;;
  set_value "IntegrationManager" "integration_manager_puller_port"
    (IntegrationManagerPullerPort i) ;;;
  set_value "IntegrationManager" "integration_manager_publisher_protocol"
    (IntegrationManagerPublisherProtocol i) ;;;
  set_value "IntegrationManager" "integration_manager_publisher_address"
    (IntegrationManagerPublisherAddress i) ;;;
  set_value "IntegrationManager" "integration_manager_publisher_port"
    (IntegrationManagerPublisherPort i).

Definition _configure_subject (cfg : FTSObj) : MF unit :=
  let r := o_routing cfg in
  set_value "Subject" "frontend_pull_address"
    (url (RoutingProxySubscriberProtocol r) (RoutingProxySubscriberIP r)
       (RoutingProxySubscriberPort r)) ;;;
  set_value "Subject" "frontend_pub_address"
    (url (RoutingProxyPublisherProtocol r) (RoutingProxyPublisherIP r)
       (RoutingProxyPublisherPort r)) ;;;
  set_value "Subject" "backend_address"
    (url (RoutingProxyRequestServerProtocol r) (RoutingProxyRequestServerIP r)
       (RoutingProxyRequestServerPort r)) ;;;
  workers <- of_outcome (py_int (NumRoutingWorkers r)) ;;
  set_value "Subject" "worker_count" (PInt workers).

Definition _configure_action_mapper (cfg : FTSObj) : MF unit :=
  let r := o_routing cfg in
  set_value "ActionMapper" "routing_publisher_address"
    (url (RoutingProxyPublisherProtocol r) (RoutingProxyPublisherIP r)
       (RoutingProxyPublisherPort r)) ;;;
  set_value "ActionMapper" "routing_subscriber_address"
    (url (RoutingProxySubscriberProtocol r) (RoutingProxySubscriberIP r)
       (RoutingProxySubscriberPort r)).

Definition _configure_routing_worker (cfg : FTSObj) : MF unit :=
  let r := o_routing cfg in
  let i := o_integration cfg in
  set_value "RoutingWorker" "server_address"
    (url (RoutingProxyRequestServerProtocol r) (RoutingProxyRequestServerIP r)
       (RoutingProxyRequestServerPort r)) ;;;
  set_value "RoutingWorker" "integration_manager_address"
    (url (IntegrationManagerPullerProtocol i) (IntegrationManagerPullerAddress i)
       (IntegrationManagerPullerPort i)).

Definition configure (cfg : FTSObj) : MF unit :=
  ext_call (EConfigure "DigitalPy.configure") ;;;
  _configure_routing_worker cfg ;;;
  _configure_action_mapper cfg ;;;
  _configure_subject cfg ;;;
  _configure_integration_manager cfg.

(** [ComponentRegistrationHandler.discover_components], by folder. *)
Variable discover_components : string -> list string.

(** Discovers the components of a folder and registers each under its import root. *)
Definition register_folder (path import_root : pyval) : MF unit :=
  ext_call (EConfigure "discover_components") ;;;
  for_each (discover_components (py_str path)) (fun component =>
    ext_call (EConfigure "register_component") ;;;
    modify (set_registered (fun l => l ++ [(component, py_str import_root)]))).

Definition register_components (cfg : FTSObj) : MF unit :=
  let c := o_components cfg in
  ext_call (EConfigure "DigitalPy.register_components") ;;;
  ext_call (EConfigure "add_configuration") ;;;
  register_folder (internal_components_path c) (internal_components_import_root c) ;;;
  register_folder (core_components_path c) (core_components_import_root c) ;;;
  register_folder (external_components_path c) (external_components_import_root c).
End Supervisor.
