(* ===== verification/Registry.v ===== *)
(** The user registry of the [FTS] process ([receive_data_froCoT_service_thread] of
    [controllers/services/FTS.py]), the forwarding of data between services
    ([AddDataToCoTList], [checkPipes]) and the remote commands that read it. *)
From stdpp Require Import base strings list gmap.
From Stdlib Require Import ZArith Lia.
From S2P Require Import Prelude.
From S2P Require Import FtsState.
From S2P Require Import Supervisor.

Set Default Proof Using "Type".
Local Open Scope string_scope.
Local Open Scope list_scope.
Local Open Scope py_scope.

(** * Messages of the CoT services *)

(** An element of the list a CoT service puts on the queue to the core. *)
Inductive item :=
  | IPresence (p : Presence)
  | IConnection (c : Connection)
  | IType (t : ConnectionTypes)
  | IUser (uid : string)
  | INone
  | IOther.

(** [[operation, modelObject, opensockets, connection_object]]; the last element is
    left out of a ["get"]. *)
Record user_op := mkOp {
  op_name : string; op_arg : item; op_sockets : Z; op_conn : option item }.

(** [recv_pipe.get(timeout=...)]: [queue.Empty], another exception, or the data; [None]
    and the empty list are false. *)
Inductive received :=
  | GotEmpty
  | GotError
  | GotFalse
  | GotOp (d : user_op).

Section Registry.
Variable faults : nat -> ext -> bool.
Abbreviation MF := (M fts).

(** [self.user_dict[uid] = u], [self.user_dict[uid]], [del self.user_dict[uid]]. *)
Definition users_set (uid : string) (u : User) : MF unit := modify (set_users (dset uid u)).
Definition users_get (uid : string) : MF User :=
  u <- gets (fun w => dget uid (user_dict w)) ;; of_option KeyError u.
Definition users_del (uid : string) : MF unit :=
  d <- gets (fun w => py_del uid (user_dict w)) ;;
  d <- of_option KeyError d ;; modify (set_users (fun _ => d)).

(** [pipe.put(data)].  [QueueManager.put] keeps every exception to itself; that of a
    [Queue] comes out. *)
Definition pipe_put (p : pipe) (m : msg) : MF unit :=
  let put := ext_call faults EQueuePut ;;; modify (set_sent (fun l => l ++ [(p, m)])) in
  match p with
  | PipeQueue _ => put
  | PipeManager _ _ => try: put except: mret tt
  end.

(** [o.put(data)]. *)
Definition obj_put (o : obj) (m : msg) : MF unit :=
  match o with OPipe p => pipe_put p m | _ => raise AttributeError end.

(** [data[1].user_id]. *)
Definition item_user_id (i : item) : MF string :=
  match i with
  | IUser uid => mret uid
  | IConnection c => mret (conn_user_id c)
  | _ => raise AttributeError
  end.

Definition handle_add (d : user_op) : MF unit :=
  match op_arg d with
  | IPresence p =>
      c <- of_option IndexError (op_conn d) ;;
      match c with
      | IConnection c =>
          users_set (user_id (new_User p c)) (new_User p c) ;;;
          o <- self_get "RestAPIPipe" ;; obj_put o (MPresence p)
      | _ => mret tt
      end
  | _ => of_option IndexError (op_conn d) ;;; mret tt
  end.

Definition handle_remove (d : user_op) : MF unit :=
  uid <- item_user_id (op_arg d) ;;
  u <- users_get uid ;;
  c <- of_option IndexError (op_conn d) ;;
  u <- of_option KeyError
         (match c with IType t => delete_connection t u | _ => None end) ;;
  users_set uid u ;;;
  if bool_decide (length (connections u) < 1)%nat then users_del uid else mret tt.

Definition handle_update (d : user_op) : MF unit :=
  match op_arg d with
  | IPresence p =>
      u <- users_get (presence_uid p) ;;
      users_set (presence_uid p) (with_presence p u)
  | _ => mret tt
  end.

(** The users [get_connection] finds a connection of the asked type for. *)
Definition users_with (i : item) (d : list (string * User)) : list (string * User) :=
  match i with
  | IType t => filter (fun p => get_connection t p.2 <> None) d
  | _ => []
  end.

Definition handle_get (d : user_op) (send_pipe : obj) : MF unit :=
  users <- gets user_dict ;;
  match op_arg d with
  | INone => obj_put send_pipe (MUsers users)
  | i => obj_put send_pipe (MUsers (users_with i users))
  end.

Definition handle_op (d : user_op) (send_pipe : obj) : MF unit :=
  modify (set_counters (fun _ => op_sockets d) id) ;;;
  if decide (op_name d = "add") then handle_add d
  else if decide (op_name d = "remove") then handle_remove d
  else if decide (op_name d = "update") then handle_update d
  else if decide (op_name d = "get") then handle_get d send_pipe
  else mret tt.

(** The log entry of the handler reads [self.user_dict[data[1].user_id]], which may
    raise in its turn. *)
Definition log_failure (d : user_op) : MF unit :=
  uid <- item_user_id (op_arg d) ;; users_get uid ;;; mret tt.

Definition receive_data_froCoT_service_thread (got : received) (send_pipe : obj)
    : MF (list (string * User)) :=
  match got with
  | GotEmpty | GotFalse => gets user_dict
  | GotError =>
      (* [data] is unbound where the log entry reads it *)
      raise NameError
  | GotOp d =>
      try_except
        (handle_op d send_pipe ;;; gets user_dict)
        (fun _ => log_failure d ;;; gets user_dict)
  end.

(** ** Forwarding between services *)

(** What [AddDataToCoTList.recv] gives for a pipe. *)
Inductive recv_data :=
  | RNothing
  | RList (l : list msg)
  | ROne (m : msg).

(** [AddDataToCoTList.send]: every pipe but the one of the origin. *)
Definition add_data_send (pipes : list (ServiceTypes * pipe)) (data : msg)
    (origin : ServiceTypes) : MF pyval :=
  for_each pipes (fun sp =>
    try: (if decide (sp.1 <> origin) then pipe_put sp.2 data else mret tt)
    except: mret tt) ;;;
  mret (PInt 1).

Definition count_data (n : Z) : MF unit := modify (set_counters id (fun k => k + n)%Z).

Definition forward (data : recv_data) (service_name : ServiceTypes) : MF unit :=
  match data with
  | RNothing => mret tt
  | RList l =>
      count_data (Z.of_nat (length l)) ;;;
      m <- of_option IndexError (head l) ;;
      rs <- gets (fun w => receivers (filterGroup w)) ;;
      add_data_send rs m service_name ;;;
      users <- gets user_dict ;;
      for_each (dvalues users) (fun client =>
        rs <- gets (fun w => receivers (filterGroup w)) ;;
        add_data_send rs (MPresence (m_presence client)) service_name ;;; mret tt)
  | ROne m =>
      count_data 1 ;;;
      rs <- gets (fun w => receivers (filterGroup w)) ;;
      add_data_send rs m service_name ;;; mret tt
  end.

(** One pass over the sources of the [while True] loop of [checkPipes]; [recv] is
    what each source has to say. *)
Definition checkPipes_pass (recv : ServiceTypes -> pipe -> recv_data) : MF unit :=
  try:
    ss <- gets (fun w => sources (filterGroup w)) ;;
    for_each ss (fun sp =>
      try: forward (recv sp.1 sp.2) sp.1 except: mret tt)
  except: mret tt.

(** ** Commands *)

Definition check_server_status : MF FTSObj := gets startup_object.

Definition restart_receive_connection_process : MF pyval :=
  e <- self_get "ReceiveConnectionsReset" ;; obj_event_put e true ;;; mret (PInt 1).

Definition kill : MF pyval := modify (set_killSwitch true) ;;; mret (PInt 1).

(** [SimpleClient]: address, callsign and team. *)
Record SimpleClient := mkSimpleClient { ip : string; callsign : string; team : string }.

(** Iterating over a [dict] gives its keys, and a [str] has no [IP]. *)
Definition show_users : MF (list SimpleClient) :=
  users <- gets user_dict ;;
  for_each (dkeys users) (fun client => raise AttributeError) ;;;
  mret (map (fun c => mkSimpleClient c.1.1 c.1.2 c.2) [("", "", "")]).

(** [example] is the [isinstance] test of the class given, if one is. *)
Definition verify_output (input : pyval) (example : option (pyval -> bool)) : MF bool :=
  match example with
  | None => mret (negb (py_eqb input PNone || py_eqb input (PInt (-1))))
  | Some isinstance => mret (isinstance input)
  end.
End Registry.
