(* ===== verification/Startup.v ===== *)
(** [start_all] and [startup] of [controllers/services/FTS.py]: applying a startup
    object to the running services, and the main loop of the core process. *)
From stdpp Require Import base strings list gmap.
From Stdlib Require Import ZArith Lia.
From S2P Require Import Prelude.
From S2P Require Import FtsState.
From S2P Require Import Supervisor.
From S2P Require Import Registry.

Set Default Proof Using "Type".
Local Open Scope string_scope.
Local Open Scope list_scope.
Local Open Scope py_scope.

Section Startup.
Variable faults : nat -> ext -> bool.
Variable discover_components : string -> list string.
(** [MainConfig] as an attribute lookup. *)
Variable config : string -> pyval.
Abbreviation MF := (M fts).

(** [v == "start"] and the like. *)
Definition is_str (v : pyval) (s : string) : bool := py_eqb v (PStr s).

Definition own (s : service) : MF svc := gets (fun w => o_svc (startup_object w) s).
Definition update_own (s : service) (f : svc -> svc) : MF unit :=
  modify (set_startup_object (upd_svc s f)).

Definition when (b : bool) (m : MF unit) : MF unit := if b then m else mret tt.
Definition ignore {A} (m : MF A) : MF unit := m ;;; mret tt.

(** [isinstance(self.X, multiprocessing.Process) and self.X.is_alive()]. *)
Definition running (name : string) : MF bool :=
  o <- self_get name ;;
  match o with OProcess _ => process_is_alive o | _ => mret false end.

(** The new port and address are kept unless they are empty. *)
Definition keep_address (s : service) (cfg : FTSObj) : MF unit :=
  let c := o_svc cfg s in
  when (negb (is_str (svc_port c) "")) (update_own s (with_port (svc_port c))) ;;;
  when (negb (is_str (svc_ip c) "")) (update_own s (with_ip (svc_ip c))).

Definition start_all_tcp_data_package (cfg : FTSObj) : MF unit :=
  let s := TCPDataPackageService in
  let c := o_svc cfg s in
  if is_str (svc_status c) "start" then
    update_own s (with_status (svc_status c)) ;;;
    alive <- running "TCPDataPackageService" ;;
    when alive (ignore (stop_tcp_data_package_service faults)) ;;;
    ignore (start_tcp_data_package_service faults cfg) ;;;
    keep_address s cfg
  else if is_str (svc_status c) "stop" then
    update_own s (with_status (svc_status c)) ;;;
    ignore (stop_tcp_data_package_service faults)
  else
    me <- own s ;;
    if negb (py_eqb (svc_ip c) (svc_ip me)) || negb (py_eqb (svc_port me) (svc_port c)) then
      if is_str (svc_status c) "start" || is_str (svc_status me) "start" then
        update_own s (with_ip (svc_ip c)) ;;;
        update_own s (with_port (svc_port c)) ;;;
        ignore (stop_tcp_data_package_service faults) ;;;
        ignore (start_tcp_data_package_service faults cfg)
      else update_own s (with_ip (svc_ip c))
    else mret tt.

Definition start_all_ssl_data_package (cfg : FTSObj) : MF unit :=
  let s := SSLDataPackageService in
  let c := o_svc cfg s in
  if is_str (svc_status c) "start" then
    update_own s (with_status (svc_status c)) ;;;
    alive <- running "SSLDataPackageService" ;;
    when alive (ignore (stop_ssl_data_package_service faults)) ;;;
    ignore (start_ssl_data_package_service faults cfg) ;;;
    keep_address s cfg
  else if is_str (svc_status c) "stop" then
    update_own s (with_status (svc_status c)) ;;;
    ignore (stop_ssl_data_package_service faults)
  else
    when (negb (is_str (svc_port c) "")) (update_own s (with_port (svc_port c))) ;;;
    tcp <- own TCPDataPackageService ;;
    if negb (py_eqb (svc_ip c) (svc_ip tcp)) then
      me <- own s ;;
      if py_truth (svc_status c) || py_truth (svc_status me) then
        update_own s (with_ip (svc_ip c)) ;;;
        ignore (stop_ssl_data_package_service faults) ;;;
        ignore (start_ssl_data_package_service faults cfg)
      else update_own s (with_ip (svc_ip c))
    else mret tt.

Definition start_all_cot (cfg : FTSObj) : MF unit :=
  let s := CoTService in
  let c := o_svc cfg s in
  if is_str (svc_status c) "start" then
    update_own s (with_status (svc_status c)) ;;;
    alive <- running "CoTService" ;;
    when alive (ignore (stop_cot_service faults)) ;;;
    ignore (start_cot_service faults cfg) ;;;
    keep_address s cfg
  else if is_str (svc_status c) "stop" then
    update_own s (with_status (svc_status c)) ;;;
    ignore (stop_cot_service faults)
  else mret tt.

Definition start_all_ssl_cot (cfg : FTSObj) : MF unit :=
  let s := SSLCoTService in
  let c := o_svc cfg s in
  if is_str (svc_status c) "start" then
    update_own s (with_status (svc_status c)) ;;;
    alive <- running "SSLCoTService" ;;
    when alive (ignore (stop_ssl_cot_service faults)) ;;;
    ignore (start_ssl_cot_service faults cfg) ;;;
    keep_address s cfg
  else if is_str (svc_status c) "stop" then
    update_own s (with_status (svc_status c)) ;;;
    ignore (stop_ssl_cot_service faults)
  else mret tt.

Definition start_all_federation_client (cfg : FTSObj) : MF unit :=
  let s := FederationClientService in
  let c := o_svc cfg s in
  if is_str (svc_status c) "start" then
    update_own s (with_status (svc_status c)) ;;;
    alive <- running "FederationClientService" ;;
    when alive (ignore (stop_federation_client_service faults)) ;;;
    ignore (start_federation_client_service faults cfg) ;;;
    keep_address s cfg
  else if is_str (svc_status c) "stop" then
    update_own s (with_status (svc_status c)) ;;;
    ignore (stop_federation_client_service faults)
  else mret tt.

Definition start_all_federation_server (cfg : FTSObj) : MF unit :=
  let s := FederationServerService in
  let c := o_svc cfg s in
  if is_str (svc_status c) "start" then
    update_own s (with_status (svc_status c)) ;;;
    alive <- running "FederationServerService" ;;
    when alive (ignore (stop_federation_server_service faults)) ;;;
    ignore (start_federation_server_service faults cfg) ;;;
    keep_address s cfg
  else
    me <- own s ;;
    if is_str (svc_status c) "stop" && negb (is_str (svc_status me) "stop") then
      update_own s (with_status (svc_status c)) ;;;
      ignore (stop_federation_server_service faults)
    else mret tt.

Definition start_all (cfg : FTSObj) : MF pyval :=
  try:
    start_all_tcp_data_package cfg ;;;
    start_all_ssl_data_package cfg ;;;
    start_all_cot cfg ;;;
    start_all_ssl_cot cfg ;;;
    start_all_federation_client cfg ;;;
    start_all_federation_server cfg ;;;
    mret (PInt 1)
  except: mret (PInt (-1)).

(** ** [FTS()] *)

Definition new_FTS : fts :=
  {| attrs := list_to_map
       [("FederationClientService", ONone); ("FederationServerService", ONone);
        ("SSLCoTService", ONone); ("SSLDataPackageService", ONone);
        ("CoTService", ONone); ("TCPDataPackageService", ONone);
        ("UserCommand", ONone); ("ReceiveConnectionsReset", ONone);
        ("CoTPoisonPill", ONone); ("core_tcp_user_queue_send", ONone);
        ("SSLClientDataPipe", ONone)];
     procs := ∅; threads := ∅; events := ∅; next_id := 0%nat; clock := 0%nat;
     pipeList := []; filterGroup := new_FilterGroup; configuration := [];
     registered := []; startup_object := new_FTSObj config; user_dict := [];
     socketCount := 0; data_from_services := 0; killSwitch := false; sent := [] |}.

(** ** [startup] *)

Record startup_args := mkStartupArgs {
  a_CoTPort : pyval; a_CoTIP : pyval;
  a_DataPackagePort : pyval; a_DataPackageIP : pyval;
  a_SSLDataPackagePort : pyval; a_SSLDataPackageIP : pyval;
  a_RestAPIPort : pyval; a_RestAPIIP : pyval;
  a_SSLCoTPort : pyval; a_SSLCoTIP : pyval;
  a_AutoStart : pyval; a_firstStart : bool }.

Definition started (ip port : pyval) : svc -> svc := fun _ => mkSvc ip port (PStr "start").

(** The startup object when only the REST API is to run. *)
Definition rest_only_object (a : startup_args) : FTSObj :=
  upd_svc RestAPIService (started (a_RestAPIIP a) (a_RestAPIPort a)) (new_FTSObj config).

(** The startup object of an automatic start: every service but the federation
    server. *)
Definition auto_start_object (a : startup_args) : FTSObj :=
  upd_svc SSLCoTService (started (a_SSLCoTIP a) (a_SSLCoTPort a))
  (upd_svc FederationClientService (with_status (PStr "start"))
  (upd_svc RestAPIService (started (a_RestAPIIP a) (a_RestAPIPort a))
  (upd_svc SSLDataPackageService (started (a_SSLDataPackageIP a) (a_SSLDataPackagePort a))
  (upd_svc TCPDataPackageService (started (a_DataPackageIP a) (a_DataPackagePort a))
  (upd_svc CoTService (started (a_CoTIP a) (a_CoTPort a)) (new_FTSObj config)))))).

(** [startup] up to the main loop. *)
Definition startup_services (a : startup_args) : MF unit :=
  ext_call faults (EDatabase "remove_user") ;;;
  update_own RestAPIService (with_status (PStr "start")) ;;;
  update_own RestAPIService (with_port (a_RestAPIPort a)) ;;;
  when (a_firstStart a) (self_set "StartupTime" ODatetime) ;;;
  if is_str (a_AutoStart a) "False" then
    ignore (start_rest_api_service faults (rest_only_object a))
  else
    let o := auto_start_object a in
    configure faults o ;;;
    register_components faults discover_components o ;;;
    ext_call faults (EConfigure "start_services") ;;;
    ignore (start_rest_api_service faults o) ;;;
    ignore (start_all o).

(** [self.user_dict = self.receive_data_froCoT_service_thread(self.IN, _, self.OUT)]. *)
Definition poll_users (in_attr out_attr : string) (got : received) : MF unit :=
  try:
    recv_pipe <- self_get in_attr ;;
    send_pipe <- self_get out_attr ;;
    let got := match recv_pipe with OPipe _ => got | _ => GotError end in
    d <- receive_data_froCoT_service_thread faults got send_pipe ;;
    modify (set_users (fun _ => d))
  except: mret tt.

(** One turn of the main loop: the counter is reset when the periodic message is
    due, then the queue of each CoT service is read once. *)
Definition main_loop_turn (message_due : bool) (from_tcp from_ssl : received) : MF unit :=
  when message_due (modify (set_counters id (fun _ => 0%Z))) ;;;
  poll_users "service_tcp_user_queue_send" "core_tcp_user_queue_send" from_tcp ;;;
  poll_users "service_ssl_user_queue_send" "core_ssl_user_queue_send" from_ssl.

(** [startup] with the turns its loop makes while the process lives. *)
Definition startup (a : startup_args) (turns : list (bool * received * received)) : MF unit :=
  try:
    startup_services a ;;;
    for_each turns (fun t => main_loop_turn t.1.1 t.1.2 t.2)
  except: mret tt.
End Startup.
