(* ===== verification/RestCommands.v ===== *)
(** The commands of the REST API service to the core: [changeStatus] of
    [services/rest_api_service/rest_api_service_main.py], which builds a startup
    object from a request, and [receive_Rest_commands] of
    [controllers/services/FTS.py], which runs what it is sent. *)
From stdpp Require Import base strings list gmap.
From Stdlib Require Import ZArith Lia.
From S2P Require Import Prelude.
From S2P Require Import FtsState.
From S2P Require Import Supervisor.
From S2P Require Import Registry.
From S2P Require Import Startup.

Set Default Proof Using "Type".
Local Open Scope string_scope.
Local Open Scope list_scope.
Local Open Scope py_scope.

(** * The request *)

(** [RestAPIVariables.json_vars]: the name of a service in a request. *)
Definition json_vars (s : service) : string :=
  match s with
  | CoTService => "TCP_CoT_service"
  | TCPDataPackageService => "TCP_DataPackage_service"
  | SSLCoTService => "SSL_CoT_service"
  | SSLDataPackageService => "SSL_DataPackage_service"
  | FederationClientService => "Federation_Client_service"
  | FederationServerService => "Federation_server_service"
  | RestAPIService => "Rest_API_service"
  end.

(** What a request says of a service; a key left out reads as [None]. *)
Record service_request := mkServiceRequest { req_port : pyval; req_status : pyval }.

(** The request: [services] and [ip]. *)
Record status_request := mkStatusRequest {
  req_services : list (string * service_request); req_ip : pyval }.

(** [mappings[...]]. *)
Definition mappings (v : pyval) : option pyval :=
  match v with
  | PStr s =>
      if decide (s = "on") then Some (PStr "start")
      else if decide (s = "off") then Some (PStr "stop")
      else if decide (s = "") then Some (PStr "")
      else None
  | _ => None
  end.

(** The port as a number, or empty where it is none. *)
Definition requested_port (v : pyval) : pyval :=
  match py_int v with Ret z => PInt z | Exn _ => PStr "" end.

(** The services [changeStatus] looks for, in its order: the federation client is not
    one of them. *)
Definition changed_services : list service :=
  [CoTService; TCPDataPackageService; SSLDataPackageService; SSLCoTService;
   FederationServerService; RestAPIService].

Definition change_service (req : list (string * service_request)) (o : option FTSObj)
    (s : service) : option FTSObj :=
  o ← o;
  match dget (json_vars s) req with
  | None => Some o
  | Some r =>
      st ← mappings (req_status r);
      Some (upd_svc s (with_status st) (upd_svc s (with_port (requested_port (req_port r))) o))
  end.

(** The startup object [changeStatus] sends with the [Status] command; [None] when a
    status is none of the known ones and an error is answered. *)
Definition changeStatus (config : string -> pyval) (r : status_request) : option FTSObj :=
  o ← fold_left (change_service (req_services r)) changed_services (Some (new_FTSObj config));
  Some (upd_svc TCPDataPackageService (with_ip (req_ip r))
         (upd_svc SSLDataPackageService (with_ip (req_ip r)) o)).

(** * Running a command *)

(** What the REST API service puts on the command pipe: a federation tuple, or a list
    of one of the names of [RestAPIVariables.function_names] and perhaps an argument.
    [CNothing] is the [None] that [QueueManager.get] makes of an exception. *)
Inductive command :=
  | CFederate (n : nat)
  | CStatus (o : FTSObj)
  | CcheckStatus
  | CClients
  | CNothing.

Section RestCommands.
Variable faults : nat -> ext -> bool.
Abbreviation MF := (M fts).

(** [getattr(self, command[0])] applied to the rest of the command. *)
Definition run_command (c : command) : MF msg :=
  match c with
  | CStatus o => v <- start_all faults o ;; mret (match v with PInt z => MInt z | _ => MNone end)
  | CcheckStatus => o <- check_server_status ;; mret (MObject o)
  | CClients => l <- show_users ;; mret (MClients (length l))
  | CFederate _ | CNothing => raise TypeError
  end.

(** One turn of the loop of [receive_Rest_commands]. *)
Definition receive_Rest_commands_turn (c : command) : MF unit :=
  try:
    match c with
    | CFederate n =>
        q <- self_get "FederationClientServicePipeFTS" ;; obj_put faults q (MCommand n)
    | _ =>
        out <- run_command c ;;
        q <- self_get "RestAPICommandsFTS" ;; obj_put faults q out
    end
  except:
    (q <- self_get "RestAPICommandsFTS" ;; obj_put faults q (MCode "500")).
End RestCommands.
