(* ===== verification/SupervisorFacts.v ===== *)
(** What the service handlers of [Supervisor] guarantee, whichever of the calls into
    outside code raise: the outcome of a start, the effect of a stop, and the
    interference between services. *)
From stdpp Require Import base strings list gmap.
From Stdlib Require Import ZArith Lia.
From S2P Require Import Prelude.
From S2P Require Import FtsState.
From S2P Require Import Supervisor.

Set Default Proof Using "Type".
Local Open Scope string_scope.
Local Open Scope list_scope.
Local Open Scope py_scope.

Create HintDb fts.
#[export] Hint Unfold self_set self_get fresh_id new_Queue new_Event event_put
  obj_event_put new_Process new_Thread obj_process process_start
  set_pstatus process_is_alive process_terminate process_join thread_start thread_join pipe_close
  new_QueueManager get_instance set_value pipeList_set pipeList_del fg_add_source
  fg_add_receiver fg_remove_source fg_remove_receiver set_service_values shut_down : fts.

(** ** Observations the primitives leave alone *)

Lemma preserves_ext_call faults (I : fts -> Prop) c :
  (forall w, I w -> I (tick w)) -> preserves I (ext_call faults c).
Proof. intros H w Hw. unfold ext_call. by destruct (faults _ _); apply H. Qed.

Lemma benign_ext_call faults c : benign (ext_call faults c).
Proof. intros w e w' E. unfold ext_call in E. destruct (faults _ _); by simplify_eq. Qed.

Ltac fts_step :=
  first
    [ py_step
    | apply benign_ext_call
    | match goal with
      | |- preserves _ (ext_call _ _) => apply preserves_ext_call; intros ? <-; reflexivity
      | |- preserves _ (modify _) => apply preserves_modify; intros ? <-; reflexivity
      end ].

(** Proves [keeps f m] for an observation of the state no statement of [m] writes. *)
Ltac fts_keeps := intros ?; autounfold with fts; repeat fts_step.

(** Proves that a handler raises nothing that its [except] clause lets through. *)
Ltac fts_benign := autounfold with fts; repeat fts_step.

(** The tables a service is registered in. *)
Definition registration (w : fts) : list (string * pipe) * FilterGroup :=
  (pipeList w, filterGroup w).

(** [w] has the registrations [w0] has and the processes [w0] has, and perhaps more
    processes. *)
Definition quiet (w0 w : fts) : Prop :=
  registration w = registration w0 /\ (next_id w0 <= next_id w)%nat /\
  forall i, (i < next_id w0)%nat -> procs w !! i = procs w0 !! i.

Lemma quiet_refl w : quiet w w.
Proof. by split_and!. Qed.

Ltac quiet_step :=
  first
    [ py_step
    | match goal with
      | |- preserves _ (ext_call _ _) => apply preserves_ext_call
      | |- preserves _ (modify _) => apply preserves_modify
      end;
      intros ? (? & ? & ?); split_and!; simpl; [done|lia|done] ].

Ltac quiet_auto := autounfold with fts; repeat quiet_step.

Section quiet.
Context (faults : nat -> ext -> bool) (w0 : fts).

Lemma quiet_set_service_values section service_id cfg :
  preserves (quiet w0) (set_service_values faults section service_id cfg).
Proof. quiet_auto. Qed.
Lemma quiet_new_Queue : preserves (quiet w0) (new_Queue faults).
Proof. quiet_auto. Qed.
Lemma quiet_new_Event : preserves (quiet w0) (new_Event faults).
Proof. quiet_auto. Qed.
Lemma quiet_new_Thread : preserves (quiet w0) (new_Thread faults).
Proof. quiet_auto. Qed.
Lemma quiet_new_QueueManager a b : preserves (quiet w0) (new_QueueManager faults a b).
Proof. quiet_auto. Qed.
Lemma quiet_self_set name o : preserves (quiet w0) (self_set name o).
Proof. quiet_auto. Qed.
Lemma quiet_self_get name : preserves (quiet w0) (self_get name).
Proof. quiet_auto. Qed.
Lemma quiet_event_put e b : preserves (quiet w0) (event_put e b).
Proof. quiet_auto. Qed.
Lemma quiet_get_instance name : preserves (quiet w0) (get_instance faults name).
Proof. quiet_auto. Qed.
Lemma quiet_ext_call c : preserves (quiet w0) (ext_call faults c).
Proof. quiet_auto. Qed.
End quiet.

#[export] Hint Resolve quiet_set_service_values quiet_new_Queue quiet_new_Event
  quiet_new_Thread quiet_new_QueueManager quiet_self_set quiet_self_get quiet_event_put
  quiet_get_instance quiet_ext_call : fts.

(** ** Starting a service *)

(** [w'] has a new running process in attribute [attr], started with [args]. *)
Definition launched (attr target : string) (args : list parg) (w0 w : fts) : Prop :=
  exists p, attrs w !! attr = Some (OProcess p) /\ (next_id w0 <= p < next_id w)%nat /\
            procs w !! p = Some (mkProcess target args PRunning).

(** [w] is [w0] with a service launched and registered under a pipe. *)
Definition is_up (attr target key : string) (reg : pipe -> FilterGroup -> FilterGroup)
    (address : list parg) (w0 : fts) (v : pyval) (w : fts) : Prop :=
  v = PInt 1 /\
  exists args q, launched attr target args w0 w /\ address ⊆ args /\
    pipeList w = dset key q (pipeList w0) /\ filterGroup w = reg q (filterGroup w0) /\
    (forall i, (i < next_id w0)%nat -> procs w !! i = procs w0 !! i).

(** A start handler either returns 1 with the service up, or fails with nothing
    registered and every process as it was. *)
Definition starts (attr target key : string) (reg : pipe -> FilterGroup -> FilterGroup)
    (address : list parg) (fails : outcome pyval -> Prop) (m : M fts pyval) : Prop :=
  forall w,
    let '(r, w') := m w in
    (exists v, r = Ret v /\ is_up attr target key reg address w v w') \/
    (fails r /\ quiet w w').

Definition returns_minus_one (r : outcome pyval) : Prop := r = Ret (PInt (-1)).
Definition raises_only (r : outcome pyval) : Prop := exists e, r = Exn e.

Section starting.
Context (faults : nat -> ext -> bool) (w0 : fts).

(** Creating and naming a process, [mid], starting it, then [K]. *)
Lemma launch_mid_triple target args attr (mid : M fts unit) (K : nat -> M fts pyval) Q :
  keeps (fun w => (registration w, attrs w, procs w, next_id w)) mid ->
  (forall p, triple (fun w => quiet w0 w /\ launched attr target args w0 w)
               (K p) Q (fun _ => quiet w0)) ->
  triple (quiet w0)
    (p <- new_Process faults target args ;;
     self_set attr (OProcess p) ;;; mid ;;; process_start faults (OProcess p) ;;; K p)
    Q (fun _ => quiet w0).
Proof.
  intros Hmid HK w (Hr & Hn & Hp). autounfold with fts. unfold ext_call. py_run. simpl.
  destruct (faults (clock w) (EConstruct "Process")) eqn:E1; [by split_and!|].
  match goal with |- context [mid ?s] => pose proof (keeps_eq _ mid s Hmid) as Hk end.
  cbv beta in Hk. injection Hk as Hl Hf Ha Hpr Hi.
  destruct (mid _) as [[[]|e] w1]; simpl in *.
  2: { unfold quiet, registration. rewrite Hl, Hf, Hpr, Hi. split_and!; [done|simpl; lia|].
       intros i Hlt. simpl. rewrite lookup_insert_ne by lia. auto. }
  rewrite Hpr, lookup_insert_eq. simpl.
  assert (Hw1 : quiet w0 w1).
  { unfold quiet, registration. rewrite Hl, Hf, Hpr, Hi. split_and!; [done|simpl; lia|].
    intros i Hlt. simpl. rewrite lookup_insert_ne by lia. auto. }
  destruct (faults (clock w1) (EStart target)) eqn:E2; [exact Hw1|].
  match goal with |- match K ?p ?s with _ => _ end => apply (HK p s) end.
  destruct Hw1 as (Hr1 & Hn1 & Hp1). split.
  - split_and!; [exact Hr1|exact Hn1|]. intros i Hlt. simpl.
    rewrite lookup_alter_ne by lia. auto.
  - exists (next_id w). simpl. rewrite Ha. rewrite Hi. split_and!; [apply lookup_insert_eq|done|simpl; lia|].
    by rewrite Hpr, lookup_alter_eq, lookup_insert_eq.
Qed.

Lemma launch_triple target args attr (K : nat -> M fts pyval) Q :
  (forall p, triple (fun w => quiet w0 w /\ launched attr target args w0 w)
               (K p) Q (fun _ => quiet w0)) ->
  triple (quiet w0)
    (p <- new_Process faults target args ;;
     self_set attr (OProcess p) ;;; process_start faults (OProcess p) ;;; K p)
    Q (fun _ => quiet w0).
Proof. exact (launch_mid_triple target args attr (mret tt) K Q (fun _ _ H => H)). Qed.

(** Registering the pipe of a launched service and returning 1. *)
Lemma register_triple attr target key reg address args q m :
  address ⊆ args ->
  (forall w, m w = (Ret (PInt 1), set_filterGroup (reg q) (set_pipeList (dset key q) w))) ->
  triple (fun w => quiet w0 w /\ launched attr target args w0 w) m
    (is_up attr target key reg address w0) (fun _ => quiet w0).
Proof.
  intros Ha Hm w [(Hr & Hn & Hp) HL]. rewrite Hm. split; [done|]. exists args, q.
  injection Hr as Hl Hf. rewrite <- Hl, <- Hf. split_and!; done.
Qed.

End starting.

Lemma starts_intro attr target key reg address fails m :
  (forall w0, triple (quiet w0) m (is_up attr target key reg address w0)
     (fun e w => fails (Exn e) /\ quiet w0 w)) ->
  starts attr target key reg address fails m.
Proof.
  intros H w. specialize (H w w (quiet_refl w)).
  destruct (m w) as [[v|e] w']; [left; by exists v|right; exact H].
Qed.

(** The same for a handler whose [except] clause returns -1. *)
Lemma starts_try attr target key reg address m :
  (forall w0, triple (quiet w0) m (is_up attr target key reg address w0)
     (fun _ => quiet w0)) ->
  benign m ->
  starts attr target key reg address returns_minus_one
    (try: m except: mret (PInt (-1))).
Proof.
  intros H Hb w. specialize (H w w (quiet_refl w)). unfold try_except, try_with.
  destruct (m w) as [[v|e] w'] eqn:E; [left; by exists v|].
  rewrite (Hb _ _ _ E). by right.
Qed.

Section start_handlers.
Context (faults : nat -> ext -> bool) (cfg : FTSObj).

Definition address_args (s : service) : list parg :=
  [AVal (svc_ip (o_svc cfg s)); AVal (svc_port (o_svc cfg s))].

Ltac launch_it :=
  repeat (apply triple_step; [solve [auto with fts]|intros ?]);
  first [apply launch_triple | apply launch_mid_triple; [fts_keeps|]]; intros ?;
  eapply register_triple; [|reflexivity];
  intros ?; unfold address_args; rewrite ?elem_of_cons, ?elem_of_nil; tauto.

Lemma start_cot_starts :
  starts "CoTService" "TCPCoTService" "TCPCoTServiceFTSPipe"
    (fun q g => add_source q TCPCOTSERVICE (add_receiver q TCPCOTSERVICE g))
    (address_args CoTService) returns_minus_one (start_cot_service faults cfg).
Proof.
  unfold start_cot_service. apply starts_try; [intros w0; launch_it|fts_benign].
Qed.

Lemma start_ssl_cot_starts :
  starts "CoTService" "SSLCoTService" "SSLCoTServiceFTSPipe"
    (fun q g => add_source q SSLCOTSERVICE (add_receiver q SSLCOTSERVICE g))
    (address_args SSLCoTService) returns_minus_one (start_ssl_cot_service faults cfg).
Proof.
  unfold start_ssl_cot_service. apply starts_try; [intros w0; launch_it|fts_benign].
Qed.

Lemma start_rest_api_starts :
  starts "RestAPIProcess" "RestAPIService" "restAPI"
    (fun q g => add_source q APISERVICE g)
    (address_args RestAPIService) returns_minus_one (start_rest_api_service faults cfg).
Proof.
  unfold start_rest_api_service. apply starts_try; [intros w0; launch_it|fts_benign].
Qed.

Lemma start_tcp_data_package_starts :
  starts "TCPDataPackageService" "HTTPTakAPIService" "tcp_data_package_service_pipe"
    (fun q g => add_source q TCPDPSERVICE g)
    (address_args TCPDataPackageService) returns_minus_one
    (start_tcp_data_package_service faults cfg).
Proof.
  unfold start_tcp_data_package_service. apply starts_try; [intros w0; launch_it|fts_benign].
Qed.

Lemma start_ssl_data_package_starts :
  starts "SSLDataPackageService" "HTTPSTakAPIService" "ssl_data_package_service"
    (fun q g => add_source q SSLDPSERVICE g)
    (address_args SSLDataPackageService) returns_minus_one
    (start_ssl_data_package_service faults cfg).
Proof.
  unfold start_ssl_data_package_service. apply starts_try; [intros w0; launch_it|fts_benign].
Qed.

Lemma start_federation_server_starts :
  starts "FederationServerService" "FederationServerService"
    "FederationServerServiceFTSPipe"
    (fun q g => add_receiver q FEDSERVERSERVICE (add_source q FEDSERVERSERVICE g))
    (address_args FederationServerService) returns_minus_one
    (start_federation_server_service faults cfg).
Proof.
  unfold start_federation_server_service. apply starts_try; [intros w0; launch_it|fts_benign].
Qed.

(** The federation client is started without a [try]: it raises instead. *)
Lemma start_federation_client_starts :
  starts "FederationClientService" "FederationClientServiceController"
    "FederationClientServiceFTSPipe"
    (fun q g => add_receiver q FEDCLIENTSERVICE (add_source q FEDCLIENTSERVICE g))
    [] raises_only (start_federation_client_service faults cfg).
Proof.
  unfold start_federation_client_service. apply starts_intro. intros w0.
  apply triple_weaken with (P := quiet w0) (E := fun _ => quiet w0)
    (Q := is_up "FederationClientService" "FederationClientServiceController"
      "FederationClientServiceFTSPipe"
      (fun q g => add_receiver q FEDCLIENTSERVICE (add_source q FEDCLIENTSERVICE g))
      [] w0); [launch_it|done|done|].
  intros e s H. split; [by exists e|exact H].
Qed.
End start_handlers.

(** ** Stopping a service *)

(** A stop handler acts on the process its attribute names and on no other. *)
Section stopping.
Context (faults : nat -> ext -> bool) (attr : string) (p i : nat) (pr : option process).
Context (Hne : i <> p).

Definition spares (w : fts) : Prop :=
  attrs w !! attr = Some (OProcess p) /\ procs w !! i = pr.

Lemma self_get_named :
  triple spares (self_get attr) (fun o w => spares w /\ o = OProcess p) (fun _ => spares).
Proof. intros w [Ha Hp]. unfold self_get. py_run. rewrite Ha. by split_and!. Qed.

Ltac spares_auto :=
  autounfold with fts;
  repeat first
    [ py_step
    | match goal with
      | |- preserves _ (ext_call _ _) => apply preserves_ext_call
      | |- preserves _ (modify _) => apply preserves_modify
      end;
      intros ? [? ?]; split; simpl; [done|by rewrite ?lookup_alter_ne] ].

Lemma spares_obj_process :
  triple spares (obj_process (OProcess p)) (fun ip w => spares w /\ ip.1 = p)
    (fun _ => spares).
Proof. intros w [Ha Hp]. unfold obj_process. py_run. by destruct (procs w !! p). Qed.

(** A statement on the process an object names. *)
Lemma spares_process {A} (k : nat * process -> M fts A) :
  (forall x, preserves spares (k (p, x))) ->
  preserves spares (ip <- obj_process (OProcess p) ;; k ip).
Proof.
  intros Hk. apply preserves_triple. eapply triple_value_step; [exact spares_obj_process|].
  intros [j x] [= ->]. by apply triple_preserves.
Qed.

Lemma spares_is_alive : preserves spares (process_is_alive (OProcess p)).
Proof. spares_auto. Qed.
Lemma spares_terminate : preserves spares (process_terminate faults (OProcess p)).
Proof using Hne. apply spares_process. intros x. spares_auto. Qed.
Lemma spares_join : preserves spares (process_join faults (OProcess p)).
Proof using Hne. apply spares_process. intros x. spares_auto. Qed.
Lemma spares_self_get name : preserves spares (self_get name).
Proof. spares_auto. Qed.
Lemma spares_obj_event_put o b : preserves spares (obj_event_put o b).
Proof. spares_auto. Qed.
Lemma spares_pipe_close o : preserves spares (pipe_close faults o).
Proof. spares_auto. Qed.
Lemma spares_pipeList_del k : preserves spares (pipeList_del k).
Proof. spares_auto. Qed.
Lemma spares_remove_source n : preserves spares (fg_remove_source n).
Proof. spares_auto. Qed.
Lemma spares_remove_receiver n : preserves spares (fg_remove_receiver n).
Proof. spares_auto. Qed.

(** A statement on the named process, reached through its attribute. *)
Lemma spares_through {A} (k : obj -> M fts A) :
  preserves spares (k (OProcess p)) -> preserves spares (o <- self_get attr ;; k o).
Proof.
  intros Hk. apply preserves_triple. eapply triple_value_step; [exact self_get_named|].
  intros o ->. by apply triple_preserves.
Qed.

Lemma spares_shut_down : preserves spares (shut_down faults attr).
Proof using Hne.
  apply spares_through. apply preserves_bind; [apply spares_is_alive|].
  intros []; [apply preserves_bind; [apply spares_terminate|intros _]|]; apply spares_join.
Qed.
End stopping.

#[export] Hint Resolve spares_terminate spares_join spares_self_get
  spares_obj_event_put spares_pipe_close spares_pipeList_del spares_remove_source
  spares_remove_receiver : fts.

Ltac spares_walk :=
  repeat first
    [ apply spares_shut_down; done
    | apply spares_through
    | match goal with
      | |- preserves _ (self_get _) => apply spares_self_get
      | |- preserves _ (process_terminate _ _) => apply spares_terminate; done
      | |- preserves _ (process_join _ _) => apply spares_join; done
      | |- preserves _ (obj_event_put _ _) => apply spares_obj_event_put
      | |- preserves _ (pipe_close _ _) => apply spares_pipe_close
      | |- preserves _ (pipeList_del _) => apply spares_pipeList_del
      | |- preserves _ (fg_remove_source _) => apply spares_remove_source
      | |- preserves _ (fg_remove_receiver _) => apply spares_remove_receiver
      end
    | py_step ].

Section stop_handlers.
Context (faults : nat -> ext -> bool).

Lemma stop_cot_spares w p i :
  attrs w !! "CoTService" = Some (OProcess p) -> i <> p ->
  procs (stop_cot_service faults w).2 !! i = procs w !! i.
Proof.
  intros Ha Hne.
  assert (H : preserves (spares "CoTService" p i (procs w !! i)) (stop_cot_service faults)).
  { unfold stop_cot_service. spares_walk. }
  by apply (H w).
Qed.

Lemma stop_ssl_data_package_spares w p i :
  attrs w !! "SSLDataPackageService" = Some (OProcess p) -> i <> p ->
  procs (stop_ssl_data_package_service faults w).2 !! i = procs w !! i.
Proof.
  intros Ha Hne.
  assert (H : preserves (spares "SSLDataPackageService" p i (procs w !! i))
                (stop_ssl_data_package_service faults)).
  { unfold stop_ssl_data_package_service. spares_walk. }
  by apply (H w).
Qed.
End stop_handlers.

(** ** The process a stop has shut down *)

(** [w'] is [w] with the process of attribute [attr] exited. *)
Definition shut (attr : string) (w w' : fts) : Prop :=
  exists p pr, attrs w !! attr = Some (OProcess p) /\ procs w !! p = Some pr /\
    procs w' = <[p := with_pstatus PExited pr]> (procs w) /\
    attrs w' = attrs w /\ events w' = events w /\ registration w' = registration w.

Lemma with_pstatus_same p : with_pstatus (pr_status p) p = p.
Proof. by destruct p. Qed.

Lemma alter_pstatus (procs : gmap nat process) i a p :
  procs !! i = Some p -> alter (with_pstatus a) i procs = <[i := with_pstatus a p]> procs.
Proof.
  intros H. apply map_eq. intros j. destruct (decide (j = i)) as [->|Hne].
  - by rewrite lookup_alter_eq, lookup_insert_eq, H.
  - by rewrite lookup_alter_ne, lookup_insert_ne.
Qed.

(** [w'] is [w] with the status of the process [o] names set. *)
Definition process_set (o : obj) (st : pstatus -> pstatus) (w w' : fts) : Prop :=
  exists i pr, o = OProcess i /\ procs w !! i = Some pr /\
    procs w' = <[i := with_pstatus (st (pr_status pr)) pr]> (procs w) /\
    attrs w' = attrs w /\ events w' = events w /\ registration w' = registration w.

Lemma process_terminate_inv faults o w a w' :
  process_terminate faults o w = (Ret a, w') ->
  process_set o (fun st => match st with PRunning => PSignalled | _ => st end) w w'.
Proof.
  unfold process_terminate, obj_process, set_pstatus, ext_call. py_run.
  destruct o as [|i| | | |]; try discriminate.
  destruct (procs w !! i) as [pr|] eqn:Hp; try discriminate. simpl.
  destruct (pr_status pr) eqn:Hs; try discriminate;
    [destruct (faults _ _); try discriminate| |]; intros [= _ <-]; exists i, pr;
    (split_and!; [done..| |done|done|done]); simpl; rewrite Hs;
    [by apply alter_pstatus|..]; rewrite <- Hs, with_pstatus_same; by rewrite insert_id.
Qed.

Lemma process_join_inv faults o w a w' :
  process_join faults o w = (Ret a, w') -> process_set o (fun _ => PExited) w w'.
Proof.
  unfold process_join, obj_process, set_pstatus, ext_call. py_run.
  destruct o as [|i| | | |]; try discriminate.
  destruct (procs w !! i) as [pr|] eqn:Hp; try discriminate. simpl.
  destruct (pr_status pr) eqn:Hs; try discriminate;
    [destruct (faults _ _); try discriminate..|]; intros [= _ <-]; exists i, pr;
    (split_and!; [done..| |done|done|done]); simpl;
    [by apply alter_pstatus..|]; rewrite <- Hs, with_pstatus_same; by rewrite insert_id.
Qed.

Lemma process_is_alive_inv o w b w' : process_is_alive o w = (Ret b, w') -> w' = w.
Proof.
  unfold process_is_alive, obj_process. py_run. destruct o; try discriminate.
  destruct (procs w !! _); try discriminate. by intros [= _ <-].
Qed.

Lemma join_shut faults attr o w w' :
  attrs w !! attr = Some o -> process_join faults o w = (Ret tt, w') -> shut attr w w'.
Proof.
  intros Ha H. apply process_join_inv in H as (i & pr & -> & Hp & Hs & H).
  by exists i, pr.
Qed.

Lemma terminate_join_shut faults attr o w w1 w2 :
  attrs w !! attr = Some o -> process_terminate faults o w = (Ret tt, w1) ->
  process_join faults o w1 = (Ret tt, w2) -> shut attr w w2.
Proof.
  intros Ha H1 H2. apply process_terminate_inv in H1 as (i & pr & -> & Hp & Hs & H1).
  apply process_join_inv in H2 as (j & pr' & [= <-] & Hp' & Hs' & H2).
  rewrite Hs, lookup_insert_eq in Hp'. injection Hp' as <-.
  rewrite Hs, insert_insert_eq in Hs'. exists i, pr.
  destruct H1 as (? & ? & ?), H2 as (? & ? & ?). split_and!; congruence || done.
Qed.

(** The block either shuts the process down or raises. *)
Lemma shut_down_shut faults attr w w' :
  shut_down faults attr w = (Ret tt, w') -> shut attr w w'.
Proof.
  intros H. apply bind_inv in H as (o & w1 & H1 & H).
  assert (E1 : w1 = w /\ attrs w !! attr = Some o).
  { unfold self_get in H1. revert H1. py_run. destruct (attrs w !! attr); [|discriminate].
    by intros [= <- <-]. }
  destruct E1 as [-> Ha]. apply bind_inv in H as (b & w2 & H2 & H).
  apply process_is_alive_inv in H2 as ->.
  destruct b; [apply bind_inv in H as ([] & w3 & H3 & H)|];
    eauto using join_shut, terminate_join_shut.
Qed.
