(* ===== verification/ServiceProps.v ===== *)
(** Properties of the service handlers of [Supervisor]: atomic starts, the restarts
    that interfere with each other, and the round trips of a start and a stop. *)
From stdpp Require Import base strings list gmap.
From Stdlib Require Import ZArith Lia.
From S2P Require Import Prelude.
From S2P Require Import FtsState.
From S2P Require Import Supervisor.
From S2P Require Import Startup.
From S2P Require Import SupervisorFacts.

Set Default Proof Using "Type".
Local Open Scope string_scope.
Local Open Scope list_scope.

(** A run in which no call into outside code raises. *)
Definition no_faults : nat -> ext -> bool := fun _ _ => false.

(** C1: every start handler is all or nothing.  Whichever outside calls raise, it
    either returns 1 with a new running process launched on the configured address and
    the service registered under one pipe, or fails (-1, or an exception for the
    federation client) with the registrations and every earlier process untouched. *)
Theorem start_handlers_all_or_nothing (faults : nat -> ext -> bool) (cfg : FTSObj) :
  starts "RestAPIProcess" "RestAPIService" "restAPI"
    (fun q g => add_source q APISERVICE g)
    (address_args cfg RestAPIService) returns_minus_one
    (start_rest_api_service faults cfg) /\
  starts "CoTService" "TCPCoTService" "TCPCoTServiceFTSPipe"
    (fun q g => add_source q TCPCOTSERVICE (add_receiver q TCPCOTSERVICE g))
    (address_args cfg CoTService) returns_minus_one (start_cot_service faults cfg) /\
  starts "TCPDataPackageService" "HTTPTakAPIService" "tcp_data_package_service_pipe"
    (fun q g => add_source q TCPDPSERVICE g)
    (address_args cfg TCPDataPackageService) returns_minus_one
    (start_tcp_data_package_service faults cfg) /\
  starts "SSLDataPackageService" "HTTPSTakAPIService" "ssl_data_package_service"
    (fun q g => add_source q SSLDPSERVICE g)
    (address_args cfg SSLDataPackageService) returns_minus_one
    (start_ssl_data_package_service faults cfg) /\
  starts "CoTService" "SSLCoTService" "SSLCoTServiceFTSPipe"
    (fun q g => add_source q SSLCOTSERVICE (add_receiver q SSLCOTSERVICE g))
    (address_args cfg SSLCoTService) returns_minus_one (start_ssl_cot_service faults cfg) /\
  starts "FederationServerService" "FederationServerService"
    "FederationServerServiceFTSPipe"
    (fun q g => add_receiver q FEDSERVERSERVICE (add_source q FEDSERVERSERVICE g))
    (address_args cfg FederationServerService) returns_minus_one
    (start_federation_server_service faults cfg) /\
  starts "FederationClientService" "FederationClientServiceController"
    "FederationClientServiceFTSPipe"
    (fun q g => add_receiver q FEDCLIENTSERVICE (add_source q FEDCLIENTSERVICE g))
    [] raises_only (start_federation_client_service faults cfg).
Proof.
  split_and!; [apply start_rest_api_starts|apply start_cot_starts
    |apply start_tcp_data_package_starts|apply start_ssl_data_package_starts
    |apply start_ssl_cot_starts|apply start_federation_server_starts
    |apply start_federation_client_starts].
Qed.

(** A start handler that returned 1 has the service up. *)
Lemma starts_up attr target key reg address m w w' :
  starts attr target key reg address returns_minus_one m ->
  m w = (Ret (PInt 1), w') -> is_up attr target key reg address w (PInt 1) w'.
Proof.
  intros H E. specialize (H w). rewrite E in H.
  destruct H as [(v & [= <-] & H)|[H _]]; [exact H|discriminate].
Qed.

(** ** What the statements of a stop do to the registrations *)

Definition drop_source (n : ServiceTypes) (g : FilterGroup) : FilterGroup :=
  mkFilterGroup (ddel n (sources g)) (receivers g) (allowedType g) (rejectedType g).
Definition drop_receiver (n : ServiceTypes) (g : FilterGroup) : FilterGroup :=
  mkFilterGroup (sources g) (ddel n (receivers g)) (allowedType g) (rejectedType g).

Lemma pipeList_del_present k q w :
  dget k (pipeList w) = Some q ->
  pipeList_del k w = (Ret tt, set_pipeList (fun _ => ddel k (pipeList w)) w).
Proof. intros H. unfold pipeList_del, py_del. py_run. by rewrite H. Qed.

Lemma fg_remove_source_present n q w :
  dget n (sources (filterGroup w)) = Some q ->
  fg_remove_source n w = (Ret tt, set_filterGroup (drop_source n) w).
Proof. intros H. unfold fg_remove_source, remove_source, py_del. py_run. by rewrite H. Qed.

Lemma fg_remove_source_absent n w :
  dget n (sources (filterGroup w)) = None -> fg_remove_source n w = (Exn KeyError, w).
Proof. intros H. unfold fg_remove_source, remove_source, py_del. py_run. by rewrite H. Qed.

(** Proves that an attribute other than those [m] assigns keeps its value. *)
Ltac attr_keeps :=
  intros ?; autounfold with fts;
  repeat first
    [ py_step
    | match goal with
      | |- preserves _ (ext_call _ _) => apply preserves_ext_call; intros ? <-; reflexivity
      | |- preserves _ (modify _) => apply preserves_modify; intros ? <-; simpl;
          rewrite ?lookup_insert_ne by done; reflexivity
      end ].

(** ** The data package services *)

(** Whatever else happens, stopping the SSL data package service unregisters the
    source both data package services share. *)
Lemma stop_ssl_data_package_registration faults w q q' :
  dget "ssl_data_package_service" (pipeList w) = Some q ->
  dget SSLDPSERVICE (sources (filterGroup w)) = Some q' ->
  let w' := (stop_ssl_data_package_service faults w).2 in
  pipeList w' = ddel "ssl_data_package_service" (pipeList w) /\
  sources (filterGroup w') = ddel SSLDPSERVICE (sources (filterGroup w)).
Proof.
  intros Hq Hs. unfold stop_ssl_data_package_service.
  rewrite (run_bind _ _ _ _ _ (pipeList_del_present _ _ _ Hq)).
  rewrite (run_bind _ _ _ _ _ (fg_remove_source_present SSLDPSERVICE q'
    (set_pipeList (fun _ => ddel "ssl_data_package_service" (pipeList w)) w) Hs)).
  match goal with |- context [(?m ?s).2] =>
    assert (Hk : keeps registration m) by fts_keeps;
    pose proof (keeps_eq registration m s Hk) as Hr
  end.
  injection Hr as -> ->. by split.
Qed.

Lemma start_ssl_data_package_attr faults cfg :
  keeps (fun w => attrs w !! "TCPDataPackageService")
    (start_ssl_data_package_service faults cfg).
Proof. unfold start_ssl_data_package_service. attr_keeps. Qed.

Lemma stop_ssl_data_package_attr faults :
  keeps (fun w => attrs w !! "TCPDataPackageService") (stop_ssl_data_package_service faults).
Proof. unfold stop_ssl_data_package_service. attr_keeps. Qed.

(** [SSLDPSERVICE] and [TCPDPSERVICE] have one value, so they are one member of
    [ServiceTypes].  Once both data package services were started and the SSL one was
    stopped, whatever that stop returned, stopping the TCP one raises [KeyError]: its
    pipe is unregistered and its process keeps running. *)
Theorem stop_ssl_data_package_breaks_tcp faults cfg w w1 w2 :
  start_tcp_data_package_service faults cfg w = (Ret (PInt 1), w1) ->
  start_ssl_data_package_service faults cfg w1 = (Ret (PInt 1), w2) ->
  let w3 := (stop_ssl_data_package_service faults w2).2 in
  let '(r, w4) := stop_tcp_data_package_service faults w3 in
  r = Exn KeyError /\ dget "tcp_data_package_service_pipe" (pipeList w4) = None /\
  exists p args, attrs w4 !! "TCPDataPackageService" = Some (OProcess p) /\
    procs w4 !! p = Some (mkProcess "HTTPTakAPIService" args PRunning).
Proof.
  intros E1 E2 w3.
  destruct (starts_up _ _ _ _ _ _ _ _ (start_tcp_data_package_starts faults cfg) E1)
    as (_ & args1 & q1 & (p1 & Ha1 & Hb1 & Hp1) & _ & Hl1 & Hf1 & _).
  destruct (starts_up _ _ _ _ _ _ _ _ (start_ssl_data_package_starts faults cfg) E2)
    as (_ & args2 & q2 & (p2 & Ha2 & Hb2 & Hp2) & _ & Hl2 & Hf2 & Hold).
  pose proof (keeps_eq _ _ w1 (start_ssl_data_package_attr faults cfg)) as Hk1.
  rewrite E2 in Hk1. simpl in Hk1.
  pose proof (keeps_eq _ _ w2 (stop_ssl_data_package_attr faults)) as Hk2.
  assert (Hp3 : procs w3 !! p1 = procs w2 !! p1)
    by (apply (stop_ssl_data_package_spares faults w2 p2 p1 Ha2); lia).
  destruct (stop_ssl_data_package_registration faults w2 q2 q2) as [Hl3 Hf3];
    [rewrite Hl2; apply dget_dset_eq|rewrite Hf2; apply dget_dset_eq|].
  fold w3 in Hk2, Hl3, Hf3.
  assert (Hq : dget "tcp_data_package_service_pipe" (pipeList w3) = Some q1).
  { rewrite Hl3, Hl2, Hl1. by rewrite dget_ddel_ne, dget_dset_ne, dget_dset_eq. }
  unfold stop_tcp_data_package_service.
  rewrite (run_bind _ _ _ _ _ (pipeList_del_present _ _ _ Hq)).
  erewrite run_bind_exn; [|apply fg_remove_source_absent; simpl; rewrite Hf3; apply dget_ddel_eq].
  split_and!; [done|apply dget_ddel_eq|]. exists p1, args1. simpl.
  rewrite Hk2, Hk1, Hp3, (Hold p1) by lia. done.
Qed.

(** A configuration that sets nothing. *)
Definition no_config : string -> pyval := fun _ => PNone.

Definition first_state : fts := new_FTS no_config.
Definition any_config : FTSObj := new_FTSObj no_config.

Lemma stop_ssl_data_package_breaks_tcp_witness :
  let w1 := (start_tcp_data_package_service no_faults any_config first_state).2 in
  let w2 := (start_ssl_data_package_service no_faults any_config w1).2 in
  let w3 := (stop_ssl_data_package_service no_faults w2).2 in
  let '(r, w4) := stop_tcp_data_package_service no_faults w3 in
  r = Exn KeyError /\ dget "tcp_data_package_service_pipe" (pipeList w4) = None /\
  exists p args, attrs w4 !! "TCPDataPackageService" = Some (OProcess p) /\
    procs w4 !! p = Some (mkProcess "HTTPTakAPIService" args PRunning).
Proof.
  intros w1 w2.
  assert (E1 : (start_tcp_data_package_service no_faults any_config first_state).1
    = Ret (PInt 1)) by (vm_compute; reflexivity).
  assert (E2 : (start_ssl_data_package_service no_faults any_config w1).1 = Ret (PInt 1))
    by (vm_compute; reflexivity).
  exact (stop_ssl_data_package_breaks_tcp no_faults any_config first_state w1 w2
    (run_ret _ _ _ E1) (run_ret _ _ _ E2)).
Defined.

(** ** Stopping a service *)

(** A stop handler that returns 1 has the process of its attribute exited, every other
    process and every attribute as it was, and the service unregistered. *)
Definition stops (attr : string) (unlist : list (string * pipe) -> list (string * pipe))
    (unreg : FilterGroup -> FilterGroup) (m : M fts pyval) : Prop :=
  forall w w', m w = (Ret (PInt 1), w') ->
    exists p pr, attrs w !! attr = Some (OProcess p) /\ procs w !! p = Some pr /\
      procs w' = <[p := with_pstatus PExited pr]> (procs w) /\ attrs w' = attrs w /\
      pipeList w' = unlist (pipeList w) /\ filterGroup w' = unreg (filterGroup w).

Lemma pipeList_del_inv k w a w' :
  pipeList_del k w = (Ret a, w') -> w' = set_pipeList (ddel k) w.
Proof.
  unfold pipeList_del, py_del. py_run. destruct (dget k _); [|discriminate]. by intros [= _ <-].
Qed.

Lemma fg_remove_source_inv n w a w' :
  fg_remove_source n w = (Ret a, w') -> w' = set_filterGroup (drop_source n) w.
Proof.
  unfold fg_remove_source, remove_source, py_del. py_run.
  destruct (dget n _); [|discriminate]. by intros [= _ <-].
Qed.

Lemma fg_remove_receiver_inv n w a w' :
  fg_remove_receiver n w = (Ret a, w') -> w' = set_filterGroup (drop_receiver n) w.
Proof.
  unfold fg_remove_receiver, remove_receiver, py_del. py_run.
  destruct (dget n _); [|discriminate]. by intros [= _ <-].
Qed.

Lemma self_get_inv name w o w' :
  self_get name w = (Ret o, w') -> w' = w /\ attrs w !! name = Some o.
Proof.
  unfold self_get. py_run. destruct (attrs w !! name); [|discriminate]. by intros [= <- <-].
Qed.

Lemma obj_event_put_inv o b w a w' :
  obj_event_put o b w = (Ret a, w') ->
  exists e, o = OEvent e /\ w' = set_heap id id <[e := b]> id w.
Proof. destruct o; try discriminate. intros [= _ <-]. by eexists. Qed.

Lemma pipe_close_inv faults o w a w' :
  pipe_close faults o w = (Ret a, w') ->
  procs w' = procs w /\ attrs w' = attrs w /\ registration w' = registration w.
Proof.
  destruct o as [| | | |[]|]; try discriminate; unfold pipe_close, ext_call; py_run;
    repeat (destruct (faults _ _); try discriminate); by intros [= _ <-].
Qed.

(** Splits a run that returned into the runs of its statements. *)
Ltac run_inv :=
  repeat match goal with
  | H : (_ ≫= _) _ = (Ret _, _) |- _ => apply bind_inv in H as (? & ? & ? & H)
  | H : pipeList_del _ _ = (Ret _, _) |- _ => apply pipeList_del_inv in H as ->
  | H : fg_remove_source _ _ = (Ret _, _) |- _ => apply fg_remove_source_inv in H as ->
  | H : fg_remove_receiver _ _ = (Ret _, _) |- _ => apply fg_remove_receiver_inv in H as ->
  | H : self_get _ _ = (Ret _, _) |- _ => apply self_get_inv in H as [-> ?]
  | H : obj_event_put _ _ _ = (Ret _, _) |- _ => apply obj_event_put_inv in H as (? & -> & ->)
  | H : pipe_close _ _ _ = (Ret _, _) |- _ => apply pipe_close_inv in H as (? & ? & ?)
  | x : unit |- _ => destruct x
  | H : shut_down _ _ _ = (Ret tt, _) |- _ =>
      apply shut_down_shut in H as (? & ? & ? & ? & ? & ? & ? & ?)
  | H : mret _ _ = (Ret _, _) |- _ => injection H as <-
  end.

(** Terminating and then joining a process, each in a [try] that gives up on failure. *)
Lemma stop_process_inv faults attr (k : M fts pyval) w w' :
  (ok <- try_except (p <- self_get attr ;; process_terminate faults p ;;; mret true)
           (fun _ => mret false) ;;
   if negb ok then mret (PInt (-1)) else
   ok <- try_except (p <- self_get attr ;; process_join faults p ;;; mret true)
           (fun _ => mret false) ;;
   if negb ok then mret (PInt (-1)) else k) w = (Ret (PInt 1), w') ->
  exists w1, shut attr w w1 /\ k w1 = (Ret (PInt 1), w').
Proof.
  intros H. apply bind_inv in H as ([] & w1 & H1 & H); [|discriminate].
  apply bind_inv in H as ([] & w2 & H2 & H); [|discriminate].
  apply try_default_inv in H1, H2; [|done..]. exists w2. split; [|exact H].
  apply bind_inv in H1 as (p & s & Hp & H1).
  apply self_get_inv in Hp as [-> Ha]. apply bind_inv in H1 as ([] & s1 & H1 & [= <-]).
  apply bind_inv in H2 as (p2 & s2 & Hp2 & H2). apply self_get_inv in Hp2 as [-> Ha2].
  apply bind_inv in H2 as ([] & s3 & H2 & [= <-]).
  assert (E : attrs s1 = attrs w) by (by apply process_terminate_inv in H1 as (?&?&?&?&?&?&?)).
  rewrite E, Ha in Ha2. injection Ha2 as <-. eauto using terminate_join_shut.
Qed.

(** The services stopped by a bare [except:]. *)
Lemma try_with_inv {A} (m : M fts A) (d : A) w a w' :
  try_with m (fun _ => mret d) w = (Ret a, w') -> a <> d -> m w = (Ret a, w').
Proof.
  unfold try_with. destruct (m w) as [[v|e] s]; [done|]. by intros [= <- _].
Qed.

Ltac stop_effect :=
  run_inv; unfold registration in *; simpl in *; simplify_eq; simpl in *;
  eexists _, _; split_and!; [eassumption|eassumption|simpl; congruence..].

Section stop_effects.
Context (faults : nat -> ext -> bool).

Lemma stop_cot_stops :
  stops "CoTService" id (fun g => drop_receiver TCPCOTSERVICE (drop_source TCPCOTSERVICE g))
    (stop_cot_service faults).
Proof. intros w w' H. apply try_default_inv in H; [|done]. stop_effect. Qed.

Lemma stop_federation_client_stops :
  stops "FederationClientService" (ddel "FederationClientServiceFTSPipe")
    (fun g => drop_source FEDCLIENTSERVICE (drop_receiver FEDCLIENTSERVICE g))
    (stop_federation_client_service faults).
Proof. intros w w' H. apply try_with_inv in H; [|done]. stop_effect. Qed.

Lemma stop_federation_server_stops :
  stops "FederationServerService" id
    (fun g => drop_receiver FEDSERVERSERVICE (drop_source FEDSERVERSERVICE g))
    (stop_federation_server_service faults).
Proof. intros w w' H. apply try_with_inv in H; [|done]. stop_effect. Qed.

Lemma stop_tcp_data_package_stops :
  stops "TCPDataPackageService" (ddel "tcp_data_package_service_pipe")
    (drop_source TCPDPSERVICE) (stop_tcp_data_package_service faults).
Proof.
  intros w w' H. unfold stop_tcp_data_package_service in H.
  apply bind_inv in H as ([] & w1 & H1 & H). apply bind_inv in H as ([] & w2 & H2 & H).
  apply stop_process_inv in H as (w3 & (p & pr & H3) & H). decompose [and] H3. stop_effect.
Qed.

Lemma stop_ssl_data_package_stops :
  stops "SSLDataPackageService" (ddel "ssl_data_package_service")
    (drop_source SSLDPSERVICE) (stop_ssl_data_package_service faults).
Proof.
  intros w w' H. unfold stop_ssl_data_package_service in H.
  apply bind_inv in H as ([] & w1 & H1 & H). apply bind_inv in H as ([] & w2 & H2 & H).
  apply stop_process_inv in H as (w3 & (p & pr & H3) & H). decompose [and] H3. stop_effect.
Qed.
End stop_effects.

(** A stop handler that returns 1 has joined the process its attribute names, left
    every other process and every attribute alone and unregistered the service.  The
    data package services and the federation client also leave the pipe list; the CoT
    service and the federation server keep their entry in it. *)
Theorem stop_handlers_effect (faults : nat -> ext -> bool) :
  stops "CoTService" id (fun g => drop_receiver TCPCOTSERVICE (drop_source TCPCOTSERVICE g))
    (stop_cot_service faults) /\
  stops "TCPDataPackageService" (ddel "tcp_data_package_service_pipe")
    (drop_source TCPDPSERVICE) (stop_tcp_data_package_service faults) /\
  stops "SSLDataPackageService" (ddel "ssl_data_package_service")
    (drop_source SSLDPSERVICE) (stop_ssl_data_package_service faults) /\
  stops "FederationClientService" (ddel "FederationClientServiceFTSPipe")
    (fun g => drop_source FEDCLIENTSERVICE (drop_receiver FEDCLIENTSERVICE g))
    (stop_federation_client_service faults) /\
  stops "FederationServerService" id
    (fun g => drop_receiver FEDSERVERSERVICE (drop_source FEDSERVERSERVICE g))
    (stop_federation_server_service faults).
Proof.
  split_and!; [apply stop_cot_stops|apply stop_tcp_data_package_stops
    |apply stop_ssl_data_package_stops|apply stop_federation_client_stops
    |apply stop_federation_server_stops].
Qed.

(** ** Restarting the CoT services *)

Lemma self_set_yields {A} n o (k : unit -> M fts A) :
  preserves (fun w => attrs w !! n = Some o) (k tt) ->
  yields (self_set n o ≫= k) (fun _ w => attrs w !! n = Some o).
Proof.
  intros H w a w' E. unfold self_set in E. revert E. py_run.
  set (w1 := set_attrs _ w). intros E. specialize (H w1 (lookup_insert_eq _ _ _)).
  by rewrite E in H.
Qed.

Ltac attr_stays :=
  autounfold with fts;
  repeat first
    [ py_step
    | match goal with
      | |- preserves _ (ext_call _ _) => apply preserves_ext_call; intros ? ?; assumption
      | |- preserves _ (modify _) => apply preserves_modify; intros ? ?; simpl;
          rewrite ?lookup_insert_ne by done; assumption
      end ].

Lemma start_cot_pill faults cfg w w' :
  start_cot_service faults cfg w = (Ret (PInt 1), w') ->
  exists e, attrs w' !! "CoTPoisonPill" = Some (OEvent e).
Proof.
  intros H. apply try_default_inv in H; [|done].
  do 10 (apply bind_inv in H as (? & ? & _ & H)). apply bind_inv in H as (e & ? & _ & H).
  exists e. revert H. apply self_set_yields. attr_stays.
Qed.

(** A run without faults shuts a running process down. *)
Lemma shut_down_running attr p pr w :
  attrs w !! attr = Some (OProcess p) -> procs w !! p = Some pr -> pr_status pr = PRunning ->
  exists w', shut_down no_faults attr w = (Ret tt, w').
Proof.
  intros Ha Hp Hs. unfold shut_down, self_get, process_is_alive, process_terminate,
    process_join, obj_process, set_pstatus, ext_call, no_faults. py_run.
  rewrite Ha, Hp. simpl. rewrite Hs, Hp. simpl. rewrite Hs. simpl.
  rewrite lookup_alter_eq, Hp. simpl. by eexists.
Qed.

Lemma self_get_present name o w :
  attrs w !! name = Some o -> self_get name w = (Ret o, w).
Proof. intros H. unfold self_get. py_run. by rewrite H. Qed.

Lemma fg_remove_receiver_present n q w :
  dget n (receivers (filterGroup w)) = Some q ->
  fg_remove_receiver n w = (Ret tt, set_filterGroup (drop_receiver n) w).
Proof. intros H. unfold fg_remove_receiver, remove_receiver, py_del. py_run. by rewrite H. Qed.

Lemma try_default_run {A} (m : M fts A) d w a w' :
  m w = (Ret a, w') -> try_except m (fun _ => mret d) w = (Ret a, w').
Proof. intros E. unfold try_except, try_with. by rewrite E. Qed.

(** Registering under both tables and dropping both entries gives the tables back. *)
Lemma drop_add n q g :
  dget n (sources g) = None -> dget n (receivers g) = None ->
  drop_receiver n (drop_source n (add_source q n (add_receiver q n g))) = g.
Proof.
  intros Hs Hr. destruct g as [ss rs al rj]. unfold drop_receiver, drop_source; simpl in *.
  by rewrite !ddel_dset.
Qed.

(** a CoT service that was started, whatever happened on the way, is stopped by a
    stop during which nothing raises: it returns 1, the process has exited, the filter
    group is again the one before the start, but the entry of the service in the pipe
    list stays behind. *)
Theorem stop_cot_undoes_start faults cfg w w1 :
  dget TCPCOTSERVICE (sources (filterGroup w)) = None ->
  dget TCPCOTSERVICE (receivers (filterGroup w)) = None ->
  start_cot_service faults cfg w = (Ret (PInt 1), w1) ->
  exists w2, stop_cot_service no_faults w1 = (Ret (PInt 1), w2) /\
    filterGroup w2 = filterGroup w /\
    (exists q, pipeList w2 = dset "TCPCoTServiceFTSPipe" q (pipeList w)) /\
    exists p args, attrs w2 !! "CoTService" = Some (OProcess p) /\
      procs w2 !! p = Some (mkProcess "TCPCoTService" args PExited).
Proof.
  intros Hs Hr E1. destruct (start_cot_pill _ _ _ _ E1) as [e He].
  destruct (starts_up _ _ _ _ _ _ _ _ (start_cot_starts faults cfg) E1)
    as (_ & args & q & (p & Ha & _ & Hp) & _ & Hl & Hf & _).
  set (w1' := set_heap id id <[e := false]> id w1).
  destruct (shut_down_running "CoTService" p _ w1' Ha Hp eq_refl) as [w3 E3].
  pose proof (shut_down_shut _ _ _ _ E3) as (p' & pr & Ha' & Hp' & Hs3 & Ha3 & _ & Hr3).
  unfold registration in Hr3. simpl in *. simplify_eq.
  rename H into Hl3, H0 into Hf3.
  assert (E : stop_cot_service no_faults w1 = (Ret (PInt 1),
    set_filterGroup (drop_receiver TCPCOTSERVICE) (set_filterGroup (drop_source TCPCOTSERVICE) w3))).
  { apply try_default_run. rewrite (run_bind _ _ _ _ _ (self_get_present _ _ _ He)).
    erewrite run_bind by reflexivity. rewrite (run_bind _ _ _ _ _ E3).
    erewrite run_bind; [|eapply fg_remove_source_present; rewrite Hf3, Hf; apply dget_dset_eq].
    erewrite run_bind; [reflexivity|]. eapply fg_remove_receiver_present. simpl.
    rewrite Hf3, Hf. simpl. apply dget_dset_eq. }
  eexists. split; [exact E|]. split_and!.
  - simpl. rewrite Hf3, Hf. by apply drop_add.
  - exists q. simpl. by rewrite Hl3.
  - exists p, args. simpl. rewrite Ha3, Hs3, lookup_insert_eq. by split.
Qed.

Lemma stop_cot_undoes_start_witness :
  exists w2, stop_cot_service no_faults
      (start_cot_service no_faults any_config first_state).2 = (Ret (PInt 1), w2) /\
    filterGroup w2 = filterGroup first_state /\
    (exists q, pipeList w2 = dset "TCPCoTServiceFTSPipe" q (pipeList first_state)) /\
    exists p args, attrs w2 !! "CoTService" = Some (OProcess p) /\
      procs w2 !! p = Some (mkProcess "TCPCoTService" args PExited).
Proof.
  assert (E : (start_cot_service no_faults any_config first_state).1 = Ret (PInt 1))
    by (vm_compute; reflexivity).
  exact (stop_cot_undoes_start no_faults any_config first_state _ eq_refl eq_refl
    (run_ret _ _ _ E)).
Defined.

(** Both CoT services keep their process in the attribute [CoTService].  Once the
    TCP one and then the SSL one were started, stopping the (TCP) CoT service leaves
    the TCP process running, and when that stop returns 1 it is the SSL process that
    has exited, while the TCP service is the one unregistered and the SSL one stays
    registered. *)
Theorem stop_cot_stops_ssl_process faults cfg w w1 w2 :
  start_cot_service faults cfg w = (Ret (PInt 1), w1) ->
  start_ssl_cot_service faults cfg w1 = (Ret (PInt 1), w2) ->
  let '(r, w3) := stop_cot_service faults w2 in
  (exists p args, attrs w1 !! "CoTService" = Some (OProcess p) /\
     procs w3 !! p = Some (mkProcess "TCPCoTService" args PRunning)) /\
  (r = Ret (PInt 1) ->
   (exists p args, attrs w3 !! "CoTService" = Some (OProcess p) /\
      procs w3 !! p = Some (mkProcess "SSLCoTService" args PExited)) /\
   dget TCPCOTSERVICE (sources (filterGroup w3)) = None /\
   dget SSLCOTSERVICE (sources (filterGroup w3)) <> None).
Proof.
  intros E1 E2.
  destruct (starts_up _ _ _ _ _ _ _ _ (start_cot_starts faults cfg) E1)
    as (_ & args1 & q1 & (p1 & Ha1 & Hb1 & Hp1) & _ & Hl1 & Hf1 & _).
  destruct (starts_up _ _ _ _ _ _ _ _ (start_ssl_cot_starts faults cfg) E2)
    as (_ & args2 & q2 & (p2 & Ha2 & Hb2 & Hp2) & _ & Hl2 & Hf2 & Hold).
  assert (Hp3 : procs (stop_cot_service faults w2).2 !! p1 = procs w2 !! p1)
    by (apply (stop_cot_spares faults w2 p2 p1 Ha2); lia).
  destruct (stop_cot_service faults w2) as [r w3] eqn:E3. simpl in Hp3. split.
  - exists p1, args1. by rewrite Hp3, (Hold p1) by lia.
  - intros ->. destruct (stop_cot_stops faults w2 w3 E3)
      as (p & pr & Ha & Hp & Hs & Hat & _ & Hf). simplify_eq.
    rewrite Hat, Hs, Hf, Hf2, Hf1. simpl. split_and!.
    + exists p2, args2. by rewrite lookup_insert_eq.
    + apply dget_ddel_eq.
    + by rewrite dget_ddel_ne, dget_dset_eq.
Qed.

Lemma stop_cot_stops_ssl_process_witness :
  let w1 := (start_cot_service no_faults any_config first_state).2 in
  let w2 := (start_ssl_cot_service no_faults any_config w1).2 in
  let '(r, w3) := stop_cot_service no_faults w2 in
  (exists p args, attrs w1 !! "CoTService" = Some (OProcess p) /\
     procs w3 !! p = Some (mkProcess "TCPCoTService" args PRunning)) /\
  (r = Ret (PInt 1) ->
   (exists p args, attrs w3 !! "CoTService" = Some (OProcess p) /\
      procs w3 !! p = Some (mkProcess "SSLCoTService" args PExited)) /\
   dget TCPCOTSERVICE (sources (filterGroup w3)) = None /\
   dget SSLCOTSERVICE (sources (filterGroup w3)) <> None).
Proof.
  intros w1 w2.
  assert (E1 : (start_cot_service no_faults any_config first_state).1 = Ret (PInt 1))
    by (vm_compute; reflexivity).
  assert (E2 : (start_ssl_cot_service no_faults any_config w1).1 = Ret (PInt 1))
    by (vm_compute; reflexivity).
  exact (stop_cot_stops_ssl_process no_faults any_config first_state w1 w2
    (run_ret _ _ _ E1) (run_ret _ _ _ E2)).
Defined.
