(* ===== verification/RegistryFacts.v ===== *)
(** What the user registry of [Registry] keeps true of its users, the abstract map it
    implements, and what forwarding delivers. *)
From stdpp Require Import base strings list gmap.
From Stdlib Require Import ZArith Lia.
From S2P Require Import Prelude.
From S2P Require Import FtsState.
From S2P Require Import Supervisor.
From S2P Require Import Registry.
From S2P Require Import SupervisorFacts.

Set Default Proof Using "Type".
Local Open Scope string_scope.
Local Open Scope list_scope.
Local Open Scope py_scope.

(** * The invariant of the users *)

(** A user is registered under its own id, with at least one connection, each under
    the type it has. *)
Record user_ok (uid : string) (u : User) : Prop := mkUserOk {
  user_ok_id : user_id u = uid;
  user_ok_connected : connections u <> [];
  user_ok_keys : NoDup (dkeys (connections u));
  user_ok_types t c : dget t (connections u) = Some c -> connection_type c = t }.

Record users_ok (d : list (string * User)) : Prop := mkUsersOk {
  users_ok_keys : NoDup (dkeys d);
  users_ok_users uid u : dget uid d = Some u -> user_ok uid u }.

Lemma users_ok_nil : users_ok [].
Proof. split; [constructor|discriminate]. Qed.

Lemma users_ok_set uid u d : users_ok d -> user_ok uid u -> users_ok (dset uid u d).
Proof.
  intros [Hk Hu] H. split; [by apply NoDup_dset|]. intros k v.
  destruct (decide (k = uid)) as [->|Hne];
    [rewrite dget_dset_eq; by intros [= <-]|rewrite dget_dset_ne by done; auto].
Qed.

Lemma users_ok_del uid d : users_ok d -> users_ok (ddel uid d).
Proof.
  intros [Hk Hu]. split; [by apply NoDup_ddel|]. intros k v.
  destruct (decide (k = uid)) as [->|Hne];
    [by rewrite dget_ddel_eq|rewrite dget_ddel_ne by done; auto].
Qed.

Lemma user_ok_new p c : user_ok (user_id (new_User p c)) (new_User p c).
Proof.
  split; simpl; [done|done|apply NoDup_singleton|].
  intros t c'. case_decide; [by intros [= ->]|done].
Qed.

Lemma user_ok_presence uid u p : user_ok uid u -> user_ok uid (with_presence p u).
Proof. intros []. by split. Qed.

(** Deleting one of several connections leaves a user that is still registered. *)
Lemma user_ok_delete uid u t u' :
  user_ok uid u -> delete_connection t u = Some u' -> connections u' <> [] -> user_ok uid u'.
Proof.
  unfold delete_connection, py_del. destruct (dget t (connections u)); [|done].
  intros [] [= <-] Hne. split; simpl in *; [done|done|by apply NoDup_ddel|].
  intros t' c'. destruct (decide (t' = t)) as [->|Hn];
    [by rewrite dget_ddel_eq|rewrite dget_ddel_ne by done; auto].
Qed.

(** * The registry as a map *)

(** The types each user is connected with. *)
Definition conn_types (u : User) : gset ConnectionTypes := list_to_set (dkeys (connections u)).

Definition abs_users (d : list (string * User)) : gmap string (gset ConnectionTypes) :=
  list_to_map ((fun p => (p.1, conn_types p.2)) <$> d).

Lemma abs_users_lookup d uid : abs_users d !! uid = conn_types <$> dget uid d.
Proof.
  unfold abs_users. induction d as [|[k u] d IH]; simpl; [done|].
  case_decide as E; [subst; by rewrite lookup_insert_eq|by rewrite lookup_insert_ne].
Qed.

Lemma abs_users_set uid u d : abs_users (dset uid u d) = <[uid := conn_types u]> (abs_users d).
Proof.
  apply map_eq. intros k. rewrite abs_users_lookup. destruct (decide (k = uid)) as [->|Hne].
  - by rewrite dget_dset_eq, lookup_insert_eq.
  - by rewrite dget_dset_ne, lookup_insert_ne, abs_users_lookup.
Qed.

Lemma abs_users_del uid d : abs_users (ddel uid d) = delete uid (abs_users d).
Proof.
  apply map_eq. intros k. rewrite abs_users_lookup. destruct (decide (k = uid)) as [->|Hne].
  - by rewrite dget_ddel_eq, lookup_delete_eq.
  - by rewrite dget_ddel_ne, lookup_delete_ne, abs_users_lookup.
Qed.

(** What an operation does to the map. *)
Definition registry_spec (d : user_op) (m : gmap string (gset ConnectionTypes))
    : gmap string (gset ConnectionTypes) :=
  if decide (op_name d = "add") then
    match op_arg d, op_conn d with
    | IPresence p, Some (IConnection c) => <[presence_uid p := {[connection_type c]}]> m
    | _, _ => m
    end
  else if decide (op_name d = "remove") then
    match op_arg d, op_conn d with
    | IUser uid, Some (IType t) | IConnection (mkConnection _ _ uid _), Some (IType t) =>
        match m !! uid with
        | Some ts =>
            if decide (t ∈ ts)
            then if decide (ts ∖ {[t]} = ∅) then delete uid m else <[uid := ts ∖ {[t]}]> m
            else m
        | None => m
        end
    | _, _ => m
    end
  else m.

Lemma conn_types_new p c : conn_types (new_User p c) = {[connection_type c]}.
Proof. unfold conn_types. simpl. set_solver. Qed.

Lemma elem_conn_types t u : t ∈ conn_types u <-> dget t (connections u) <> None.
Proof. unfold conn_types. rewrite elem_of_list_to_set, dget_None_keys. split; [tauto|]. apply dec_stable. Qed.

Lemma conn_types_delete t u cs m uid :
  connections u = cs -> conn_types (mkUser (ddel t cs) m uid) = conn_types u ∖ {[t]}.
Proof.
  intros <-. apply set_eq. intros t'. rewrite elem_of_difference, !elem_conn_types, elem_of_singleton.
  simpl. destruct (decide (t' = t)) as [->|Hne];
    [rewrite dget_ddel_eq|rewrite dget_ddel_ne by done]; intuition congruence.
Qed.

Lemma conn_types_empty u : conn_types u = ∅ <-> connections u = [].
Proof.
  unfold conn_types, dkeys. destruct (connections u) as [|[t c] cs]; simpl; [done|].
  split; [set_solver|done].
Qed.

(** * What an operation does to the users *)

Lemma ddel_dset_same {K V} `{EqDecision K} (k : K) (v : V) d : ddel k (dset k v d) = ddel k d.
Proof.
  induction d as [|[k' v'] d IH]; simpl; [by rewrite decide_True|].
  case_decide; simpl; [by rewrite decide_True|by rewrite decide_False, IH].
Qed.

Definition item_target (i : item) : option string :=
  match i with
  | IUser uid => Some uid
  | IConnection c => Some (conn_user_id c)
  | _ => None
  end.

Definition users_remove (uid : string) (t : ConnectionTypes) (us : list (string * User))
    : list (string * User) :=
  match dget uid us with
  | None => us
  | Some u =>
      match delete_connection t u with
      | None => us
      | Some u' => if decide (connections u' = []) then ddel uid us else dset uid u' us
      end
  end.

(** The users after an operation: an operation that fails leaves them as they are. *)
Definition users_step (d : user_op) (us : list (string * User)) : list (string * User) :=
  if decide (op_name d = "add") then
    match op_arg d, op_conn d with
    | IPresence p, Some (IConnection c) => dset (presence_uid p) (new_User p c) us
    | _, _ => us
    end
  else if decide (op_name d = "remove") then
    match item_target (op_arg d), op_conn d with
    | Some uid, Some (IType t) => users_remove uid t us
    | _, _ => us
    end
  else if decide (op_name d = "update") then
    match op_arg d with
    | IPresence p =>
        match dget (presence_uid p) us with
        | Some u => dset (presence_uid p) (with_presence p u) us
        | None => us
        end
    | _ => us
    end
  else us.

Section receive.
Context (faults : nat -> ext -> bool).

Lemma keeps_pipe_put {T} (f : fts -> T) p m :
  (forall w, f (tick w) = f w) -> (forall w g, f (set_sent g w) = f w) ->
  keeps f (pipe_put faults p m).
Proof.
  intros H1 H2 x. unfold pipe_put.
  assert (H : preserves (fun w => f w = x)
    (ext_call faults EQueuePut ;;; modify (set_sent (fun l => l ++ [(p, m)])))).
  { py_step; [apply preserves_ext_call|apply preserves_modify]; intros w E; rewrite ?H1, ?H2; exact E. }
  destruct p; [exact H|]. apply preserves_try_except; [exact H|intros _; py_step].
Qed.

Lemma keeps_obj_put {T} (f : fts -> T) o m :
  (forall w, f (tick w) = f w) -> (forall w g, f (set_sent g w) = f w) ->
  keeps f (obj_put faults o m).
Proof.
  intros H1 H2 x. destruct o; try (apply preserves_raise). by apply keeps_pipe_put.
Qed.

Lemma handle_add_users d w :
  user_dict (handle_add faults d w).2 =
  match op_arg d, op_conn d with
  | IPresence p, Some (IConnection c) => dset (presence_uid p) (new_User p c) (user_dict w)
  | _, _ => user_dict w
  end.
Proof.
  unfold handle_add. destruct (op_arg d) as [p|c1|t1|u1| |], (op_conn d) as [[p2|c|t2|u2| |]|];
    try reflexivity.
  assert (Hk : keeps user_dict
    (o <- self_get "RestAPIPipe" ;; obj_put faults o (MPresence p))).
  { intros x. apply preserves_bind; [unfold self_get; repeat py_step|intros o; by apply keeps_obj_put]. }
  cbn [of_option]. erewrite run_bind by reflexivity. cbv beta iota.
  erewrite run_bind by reflexivity.
  rewrite (keeps_eq user_dict _ _ Hk). reflexivity.
Qed.

Lemma handle_remove_users d w :
  user_dict (handle_remove d w).2 =
  match item_target (op_arg d), op_conn d with
  | Some uid, Some (IType t) => users_remove uid t (user_dict w)
  | _, _ => user_dict w
  end.
Proof.
  unfold handle_remove, item_user_id, users_get, users_set, users_del, users_remove.
  assert (H : forall uid,
    user_dict
      ((u <- (u <- gets (fun w => dget uid (user_dict w)) ;; of_option KeyError u) ;;
        c <- of_option IndexError (op_conn d) ;;
        u <- of_option KeyError
               (match c with IType t => delete_connection t u | _ => None end) ;;
        modify (set_users (dset uid u)) ;;;
        if bool_decide (length (connections u) < 1)%nat
        then d <- gets (fun w => py_del uid (user_dict w)) ;;
             d <- of_option KeyError d ;; modify (set_users (fun _ => d))
        else mret tt) w).2 =
    match op_conn d with
    | Some (IType t) => users_remove uid t (user_dict w)
    | _ => user_dict w
    end).
  { intros uid. unfold users_remove. py_run.
    destruct (dget uid (user_dict w)) as [u|];
      [|by destruct (op_conn d) as [[| |t| | |]|]].
    destruct (op_conn d) as [[| |t| | |]|]; try reflexivity.
    destruct (delete_connection t u) as [u'|]; [|reflexivity].
    destruct (connections u') eqn:E; simpl.
    - unfold py_del. by rewrite dget_dset_eq, ddel_dset_same.
    - reflexivity. }
  destruct (op_arg d) as [p|c|t|uid| |]; simpl; try (by destruct (op_conn d) as [[]|]).
  - apply H.
  - apply H.
Qed.

Lemma handle_update_users d w :
  user_dict (handle_update d w).2 =
  match op_arg d with
  | IPresence p =>
      match dget (presence_uid p) (user_dict w) with
      | Some u => dset (presence_uid p) (with_presence p u) (user_dict w)
      | None => user_dict w
      end
  | _ => user_dict w
  end.
Proof.
  unfold handle_update, users_get, users_set. destruct (op_arg d); try reflexivity.
  py_run. by destruct (dget _ _).
Qed.

Lemma handle_get_users d o : keeps user_dict (handle_get faults d o).
Proof.
  intros x. unfold handle_get. py_step; [py_step|].
  destruct (op_arg d); by apply keeps_obj_put.
Qed.

Lemma handle_op_users d o w :
  user_dict (handle_op faults d o w).2 = users_step d (user_dict w).
Proof.
  unfold handle_op, users_step. erewrite run_bind by reflexivity.
  destruct (decide (op_name d = "add")); [rewrite handle_add_users; reflexivity|].
  destruct (decide (op_name d = "remove")); [rewrite handle_remove_users; reflexivity|].
  destruct (decide (op_name d = "update")); [rewrite handle_update_users; reflexivity|].
  destruct (decide (op_name d = "get")); [|reflexivity].
  rewrite (keeps_eq user_dict _ _ (handle_get_users d o)). reflexivity.
Qed.

Lemma log_failure_users d : keeps user_dict (log_failure d).
Proof. intros x. unfold log_failure, item_user_id, users_get. repeat py_step. Qed.

Definition users_after (got : received) (us : list (string * User)) : list (string * User) :=
  match got with GotOp d => users_step d us | _ => us end.

Lemma receive_users got o w :
  user_dict (receive_data_froCoT_service_thread faults got o w).2
  = users_after got (user_dict w).
Proof.
  destruct got as [| | |d]; try reflexivity. simpl.
  rewrite <- (handle_op_users d o w). unfold try_except, try_with.
  cbv [mbind M_bind gets]. destruct (handle_op faults d o w) as [[[]|e] w1]; [done|].
  destruct (is_Exception e); [|done].
  pose proof (keeps_eq user_dict _ w1 (log_failure_users d)) as Hk.
  destruct (log_failure d w1) as [[[]|e'] w2]; exact Hk.
Qed.

(** The dictionary a call returns is the one the process then has. *)
Lemma receive_returns got o w d w' :
  receive_data_froCoT_service_thread faults got o w = (Ret d, w') -> d = user_dict w'.
Proof.
  destruct got as [| | |op]; simpl; [by intros [= <- <-]|discriminate|by intros [= <- <-]|].
  intros H. apply try_except_inv in H as [H|(e & w1 & _ & _ & H)];
    apply bind_inv in H as (a & w2 & _ & [= <- <-]); done.
Qed.
End receive.

(** * The invariant and the map *)

Lemma users_remove_ok uid t us : users_ok us -> users_ok (users_remove uid t us).
Proof.
  intros H. unfold users_remove. destruct (dget uid us) as [u|] eqn:E; [|done].
  destruct (delete_connection t u) as [u'|] eqn:E'; [|done].
  case_decide; [by apply users_ok_del|]. apply users_ok_set; [done|].
  eauto using user_ok_delete, users_ok_users.
Qed.

Lemma users_after_ok got us : users_ok us -> users_ok (users_after got us).
Proof.
  intros H. destruct got as [| | |d]; try exact H. simpl. unfold users_step.
  repeat case_decide; try exact H.
  - destruct (op_arg d), (op_conn d) as [[]|]; try exact H.
    apply users_ok_set; [done|apply user_ok_new].
  - destruct (item_target (op_arg d)), (op_conn d) as [[]|]; try exact H.
    by apply users_remove_ok.
  - destruct (op_arg d) as [p|c|t|uid| |]; try exact H.
    destruct (dget (presence_uid p) us) as [u|] eqn:E; [|exact H].
    apply users_ok_set; [done|]. eauto using user_ok_presence, users_ok_users.
Qed.

Lemma users_remove_abs uid t us :
  abs_users (users_remove uid t us) =
  match abs_users us !! uid with
  | Some ts =>
      if decide (t ∈ ts)
      then if decide (ts ∖ {[t]} = ∅) then delete uid (abs_users us)
           else <[uid := ts ∖ {[t]}]> (abs_users us)
      else abs_users us
  | None => abs_users us
  end.
Proof.
  unfold users_remove. rewrite abs_users_lookup.
  destruct (dget uid us) as [u|]; simpl; [|done].
  unfold delete_connection, py_del.
  destruct (dget t (connections u)) as [c|] eqn:E; simpl.
  - rewrite (decide_True (P := t ∈ conn_types u)) by (apply elem_conn_types; congruence).
    pose proof (conn_types_delete t u _ (m_presence u) (user_id u) eq_refl) as Hd.
    pose proof (conn_types_empty (mkUser (ddel t (connections u)) (m_presence u) (user_id u)))
      as He. simpl in He. rewrite Hd in He. case_decide as Hc.
    + rewrite decide_True by (apply He; exact Hc). apply abs_users_del.
    + rewrite decide_False by (intros H; apply Hc, He, H). by rewrite abs_users_set, Hd.
  - rewrite decide_False; [done|]. rewrite elem_conn_types. congruence.
Qed.

Lemma users_step_abs d us : abs_users (users_step d us) = registry_spec d (abs_users us).
Proof.
  unfold users_step, registry_spec. repeat case_decide; try done.
  - destruct (op_arg d), (op_conn d) as [[]|]; try done.
    by rewrite abs_users_set, conn_types_new.
  - destruct (op_arg d) as [p|[ip port uid ct]|t|uid| |], (op_conn d) as [[]|]; try done;
      apply users_remove_abs.
  - destruct (op_arg d) as [p|c|t|uid| |]; try done.
    destruct (dget (presence_uid p) us) as [u|] eqn:E; [|done].
    rewrite abs_users_set. apply insert_id. by rewrite abs_users_lookup, E.
Qed.

(** * Forwarding *)

(** What a source has said, for each receiver that is not the source itself. *)
Definition forwarded (rs : list (ServiceTypes * pipe)) (m : msg) (origin : ServiceTypes)
    : list (pipe * msg) :=
  (fun sp => (sp.2, m)) <$> filter (fun sp => sp.1 <> origin) rs.

Definition forwards (rs : list (ServiceTypes * pipe)) (users : list (string * User))
    (data : recv_data) (origin : ServiceTypes) : list (pipe * msg) :=
  match data with
  | RNothing | RList [] => []
  | RList (m :: _) =>
      forwarded rs m origin ++
      (u ← dvalues users; forwarded rs (MPresence (m_presence u)) origin)
  | ROne m => forwarded rs m origin
  end.

(** The tables a forwarding step reads. *)
Definition tables (w : fts) : FilterGroup * list (string * User) := (filterGroup w, user_dict w).

(** What arrives when putting the messages on their pipes are the outside calls from the
    [n]-th on: those whose own call does not raise. *)
Fixpoint delivered (faults : nat -> ext -> bool) (n : nat) (l : list (pipe * msg)) : list (pipe * msg) :=
  match l with
  | [] => []
  | p :: l => (if faults n EQueuePut then [] else [p]) ++ delivered faults (S n) l
  end.

Lemma delivered_app faults n l1 l2 :
  delivered faults n (l1 ++ l2) = delivered faults n l1 ++ delivered faults (n + length l1) l2.
Proof.
  revert n. induction l1 as [|p l1 IH]; intros n; cbn; [by rewrite Nat.add_0_r|].
  by rewrite IH, <- app_assoc, Nat.add_succ_comm.
Qed.

Lemma delivered_all faults n l : (forall n c, faults n c = false) -> delivered faults n l = l.
Proof. intros H. revert n. induction l as [|p l IH]; intros n; cbn; [done|]. by rewrite H, IH. Qed.

(** With the tables [st], [m] returns and puts the messages of [l] on their pipes, one after
    the other, going on past those that raise; it leaves the tables alone. *)
Definition sends (faults : nat -> ext -> bool) st (l : list (pipe * msg)) {A} (m : M fts A)
    : Prop :=
  forall w, tables w = st -> exists a w',
    m w = (Ret a, w') /\ tables w' = st /\ clock w' = clock w + length l /\
    sent w' = sent w ++ delivered faults (clock w) l.

Section forwarding.
Context (faults : nat -> ext -> bool) (st : FilterGroup * list (string * User)).
Abbreviation sends := (sends faults st).

Lemma sends_ret {A} (a : A) : sends [] (mret a).
Proof. intros w Hw. exists a, w. cbn. by rewrite app_nil_r, Nat.add_0_r. Qed.

Lemma sends_then {A B} l1 l2 (m : M fts A) (k : A -> M fts B) :
  sends l1 m -> (forall a, sends l2 (k a)) -> sends (l1 ++ l2) (m ≫= k).
Proof.
  intros H1 H2 w Hw. destruct (H1 w Hw) as (a & w1 & E1 & T1 & C1 & S1).
  destruct (H2 a w1 T1) as (b & w2 & E2 & T2 & C2 & S2).
  exists b, w2. rewrite (run_bind _ _ _ _ _ E1), delivered_app, length_app, app_assoc, <- S1, <- C1.
  split_and!; [done|done|lia|done].
Qed.

Lemma sends_silent {A B} l (m : M fts A) (k : A -> M fts B) :
  sends [] m -> (forall a, sends l (k a)) -> sends l (m ≫= k).
Proof. apply (sends_then [] l). Qed.

Lemma sends_last {A B} l (m : M fts A) (k : A -> M fts B) :
  sends l m -> (forall a, sends [] (k a)) -> sends l (m ≫= k).
Proof.
  intros H1 H2. pose proof (sends_then l [] m k H1 H2) as H. by rewrite app_nil_r in H.
Qed.

Lemma sends_value {A B} l (a : A) (k : A -> M fts B) : sends l (k a) -> sends l (mret a ≫= k).
Proof. intros H. exact H. Qed.

Lemma sends_gets {A B} (f : fts -> A) v l (k : A -> M fts B) :
  (forall w, tables w = st -> f w = v) -> sends l (k v) -> sends l (gets f ≫= k).
Proof.
  intros Hf H w Hw. erewrite run_bind by reflexivity. rewrite (Hf w Hw). by apply H.
Qed.

Lemma sends_count n : sends [] (count_data n).
Proof. intros w Hw. eexists _, _. cbn. rewrite app_nil_r, Nat.add_0_r. by split_and!. Qed.

Lemma sends_try {A} l (m : M fts A) h : sends l m -> sends l (try_except m h).
Proof.
  intros H w Hw. destruct (H w Hw) as (a & w' & E & H'). exists a, w'.
  unfold try_except, try_with. by rewrite E.
Qed.

Lemma sends_put p m : sends [(p, m)] (try_except (pipe_put faults p m) (fun _ => mret tt)).
Proof.
  intros w Hw. unfold pipe_put, ext_call. destruct p; py_run;
    destruct (faults (clock w) EQueuePut) eqn:E; simpl; (eexists _, _; split; [reflexivity|]);
    cbn; rewrite ?E, ?app_nil_r, Nat.add_1_r; by split_and!.
Qed.

Lemma sends_add_data_send rs m origin :
  sends (forwarded rs m origin) (add_data_send faults rs m origin).
Proof.
  unfold add_data_send. apply sends_last; [|intros _; apply sends_ret].
  induction rs as [|[n p] rs IH]; [apply sends_ret|]. simpl. unfold forwarded.
  rewrite filter_cons. simpl in *. destruct (decide (n <> origin)); simpl.
  - apply (sends_then [(p, m)]); [apply sends_put|intros _; exact IH].
  - apply sends_silent; [apply sends_try, sends_ret|intros _; exact IH].
Qed.

Lemma sends_for_each {A} (l : list A) (f : A -> M fts unit) (g : A -> list (pipe * msg)) :
  (forall a, sends (g a) (f a)) -> sends (l ≫= g) (for_each l f).
Proof.
  intros H. induction l as [|a l IH]; [apply sends_ret|]. simpl.
  apply sends_then; [apply H|intros _; exact IH].
Qed.

(** Forwarding what one source has said, whatever it is. *)
Lemma sends_forward data origin :
  sends (forwards (receivers st.1) st.2 data origin)
    (try_except (forward faults data origin) (fun _ => mret tt)).
Proof.
  assert (Hr : forall w, tables w = st -> receivers (filterGroup w) = receivers st.1)
    by (by intros w <-).
  assert (Hu : forall w, tables w = st -> user_dict w = st.2) by (by intros w <-).
  destruct data as [|[|m l]|m]; simpl.
  - apply sends_try, sends_ret.
  - intros w Hw. unfold try_except, try_with, count_data. py_run. simpl.
    eexists _, _. rewrite app_nil_r, Nat.add_0_r. by split_and!.
  - apply sends_try, sends_silent; [apply sends_count|intros _].
    apply sends_value. eapply sends_gets; [exact Hr|].
    apply sends_then; [apply sends_add_data_send|intros _].
    eapply sends_gets; [exact Hu|]. apply sends_for_each. intros u.
    eapply sends_gets; [exact Hr|].
    apply sends_last; [apply sends_add_data_send|intros _; apply sends_ret].
  - apply sends_try, sends_silent; [apply sends_count|intros _].
    eapply sends_gets; [exact Hr|].
    apply sends_last; [apply sends_add_data_send|intros _; apply sends_ret].
Qed.

Lemma sends_checkPipes recv :
  sends (sp ← sources st.1; forwards (receivers st.1) st.2 (recv sp.1 sp.2) sp.1)
    (checkPipes_pass faults recv).
Proof.
  apply sends_try. apply (sends_gets _ (sources st.1)); [by intros w <-|].
  apply sends_for_each. intros sp. apply sends_forward.
Qed.
End forwarding.

Lemma checkPipes_run faults recv w :
  let expected :=
    sp ← sources (filterGroup w);
    forwards (receivers (filterGroup w)) (user_dict w) (recv sp.1 sp.2) sp.1 in
  exists w', checkPipes_pass faults recv w = (Ret tt, w') /\
    sent w' = sent w ++ delivered faults (clock w) expected /\
    filterGroup w' = filterGroup w /\ user_dict w' = user_dict w.
Proof.
  intros expected. destruct (sends_checkPipes faults (tables w) recv w eq_refl)
    as ([] & w' & E & Ht & _ & Hs).
  injection Ht as H1 H2. exists w'. by split_and!.
Qed.

(** The state after a sequence of operations. *)
Definition receive_all (faults : nat -> ext -> bool) (o : obj) (l : list user_op) (w : fts) : fts :=
  fold_left (fun w d => (receive_data_froCoT_service_thread faults (GotOp d) o w).2) l w.

Lemma receive_all_abs faults o l w :
  abs_users (user_dict (receive_all faults o l w)) =
  fold_left (fun m d => registry_spec d m) l (abs_users (user_dict w)).
Proof.
  unfold receive_all. revert w. induction l as [|d l IH]; intros w; cbn [fold_left]; [done|].
  rewrite IH. f_equal.
  rewrite (receive_users faults (GotOp d) o w). apply users_step_abs.
Qed.

(** ** Requests for the users of an empty registry *)

Definition is_get (d : user_op) : Prop := exists t, op_name d = "get" /\ op_arg d = IType t.

(** No user is known, and what was sent since [l] is that there is none. *)
Definition answers_nobody (l : list (pipe * msg)) (w : fts) : Prop :=
  user_dict w = [] /\
  exists l', sent w = l ++ l' /\ Forall (fun p => p.2 = MUsers []) l'.

Lemma answers_nobody_put faults l o :
  preserves (answers_nobody l) (obj_put faults o (MUsers [])).
Proof.
  assert (H : forall p, preserves (answers_nobody l)
    (ext_call faults EQueuePut ;;; modify (set_sent (fun l => l ++ [(p, MUsers [])])))).
  { intros p. apply preserves_bind; [apply preserves_ext_call; by intros w|intros _].
    apply preserves_modify. intros w (Hu & l' & Hs & Hl). split; [exact Hu|].
    exists (l' ++ [(p, MUsers [])]). cbn. rewrite Hs, <- app_assoc. split; [done|].
    apply Forall_app. by repeat constructor. }
  destruct o as [| | | |p|]; try apply preserves_raise. unfold obj_put, pipe_put.
  destruct p; [apply H|]. apply preserves_try_except; [apply H|intros _; apply preserves_ret].
Qed.

Lemma answers_nobody_receive faults l o d :
  is_get d ->
  preserves (answers_nobody l) (receive_data_froCoT_service_thread faults (GotOp d) o).
Proof.
  intros (t & Hn & Ha) w Hw. unfold receive_data_froCoT_service_thread. revert w Hw.
  apply preserves_try_except.
  - apply preserves_bind; [|intros _; apply preserves_gets].
    unfold handle_op. rewrite Hn. apply preserves_bind; [by apply preserves_modify|intros _].
    cbn [decide decide_rel]. intros w Hw. vm_compute (decide _). cbv beta iota.
    unfold handle_get. rewrite Ha. erewrite run_bind by reflexivity. destruct Hw as [Hu Hs].
    rewrite Hu. by apply answers_nobody_put.
  - intros e. unfold log_failure, item_user_id. rewrite Ha.
    apply preserves_bind; [|intros _; apply preserves_gets].
    apply preserves_bind; [apply preserves_raise|]. intros uid.
    unfold users_get. repeat py_step.
Qed.

Lemma answers_nobody_all faults o l w :
  Forall is_get l -> user_dict w = [] -> answers_nobody (sent w) (receive_all faults o l w).
Proof.
  intros Hl Hu. assert (Hw : answers_nobody (sent w) w).
  { split; [done|]. exists []. by rewrite app_nil_r. }
  revert Hw. generalize (sent w) as l0. clear Hu. revert w.
  induction Hl as [|d l Hd _ IH]; intros w l0 Hw; [exact Hw|].
  cbn [receive_all fold_left]. apply (IH _ l0). by apply answers_nobody_receive.
Qed.
