(* ===== verification/FtsSystem.v ===== *)
(** The core process as a transition system: the turns of its three threads (the main
    loop, the command loop of the REST API and [checkPipes]), what is reachable, and
    the invariant of every reachable state, whatever the services send and whichever
    calls into outside code raise. *)
From stdpp Require Import base strings list gmap.
From Stdlib Require Import ZArith Lia.
From Stdlib Require Import Relations.Relation_Operators.
From S2P Require Import Prelude.
From S2P Require Import FtsState.
From S2P Require Import Supervisor.
From S2P Require Import Registry.
From S2P Require Import Startup.
From S2P Require Import RestCommands.
From S2P Require Import SupervisorFacts.
From S2P Require Import RegistryFacts.

Set Default Proof Using "Type".
Local Open Scope string_scope.
Local Open Scope list_scope.
Local Open Scope py_scope.

(** * Steps *)

Section System.
Context (discover_components : string -> list string) (config : string -> pyval).

(** One turn of a thread.  Which outside calls raise may differ from turn to turn. *)
Inductive fts_step (w : fts) : fts -> Prop :=
  | step_startup faults a :
      fts_step w (startup_services faults discover_components config a w).2
  | step_main_loop faults due from_tcp from_ssl :
      fts_step w (main_loop_turn faults due from_tcp from_ssl w).2
  | step_command faults c :
      fts_step w (receive_Rest_commands_turn faults c w).2
  | step_pipes faults recv :
      fts_step w (checkPipes_pass faults recv w).2.

Definition reachable : fts -> Prop := clos_refl_trans_1n _ fts_step (new_FTS config).

Lemma reachable_invariant (I : fts -> Prop) :
  I (new_FTS config) -> (forall w w', fts_step w w' -> I w -> I w') ->
  forall w, reachable w -> I w.
Proof.
  intros H0 Hs w Hw. unfold reachable in Hw. revert H0.
  induction Hw as [|x y z Hxy _ IH]; [done|]. intros Hx. eauto.
Qed.
End System.

(** * The invariant *)

Record fts_inv (w : fts) : Prop := mkFtsInv {
  inv_pipes : NoDup (dkeys (pipeList w));
  inv_sources : NoDup (dkeys (sources (filterGroup w)));
  inv_receivers : NoDup (dkeys (receivers (filterGroup w)));
  inv_users : users_ok (user_dict w);
  inv_heap i : (next_id w <= i)%nat -> procs w !! i = None;
  inv_attrs name p : attrs w !! name = Some (OProcess p) -> is_Some (procs w !! p);
  inv_ssl_pipe : attrs w !! "SSLClientDataPipe" = Some ONone }.

(** The invariant, with the processes [P] known to exist. *)
Definition inv (P : list nat) (w : fts) : Prop :=
  fts_inv w /\ forall p, p ∈ P -> is_Some (procs w !! p).

Lemma inv_nil w : inv [] w <-> fts_inv w.
Proof. split; [by intros [H _]|]. intros H. split; [done|]. intros p Hp. by apply elem_of_nil in Hp. Qed.

(** What [fts_inv] depends on. *)
Lemma inv_same P w w' :
  attrs w' = attrs w -> procs w' = procs w -> next_id w' = next_id w ->
  pipeList w' = pipeList w -> filterGroup w' = filterGroup w -> user_dict w' = user_dict w ->
  inv P w -> inv P w'.
Proof.
  intros E1 E2 E3 E4 E5 E6 [[] HP].
  split; [split|]; rewrite ?E1, ?E2, ?E3, ?E4, ?E5, ?E6; auto.
Qed.

Ltac inv_frame := intros ?; apply inv_same; reflexivity.

Section primitives.
Context (faults : nat -> ext -> bool) (P : list nat).

Lemma inv_ext_call c : preserves (inv P) (ext_call faults c).
Proof. apply preserves_ext_call. inv_frame. Qed.

Lemma inv_self_set name o :
  name <> "SSLClientDataPipe" -> (forall p, o = OProcess p -> p ∈ P) ->
  preserves (inv P) (self_set name o).
Proof.
  intros Hn Ho. apply preserves_modify. intros w [[] HP]. split; [split|]; simpl; auto.
  - intros n p. destruct (decide (n = name)) as [->|Hne].
    + rewrite lookup_insert_eq. intros [= ->]. auto.
    + rewrite lookup_insert_ne by done. eauto.
  - by rewrite lookup_insert_ne.
Qed.

Lemma inv_fresh_id : preserves (inv P) fresh_id.
Proof.
  unfold fresh_id. py_step; [py_step|]. py_step; [|py_step]. apply preserves_modify.
  intros w [[] HP]. split; [split|]; simpl; auto with lia.
Qed.

Lemma inv_set_pstatus i st : preserves (inv P) (set_pstatus i st).
Proof.
  apply preserves_modify. intros w [[] HP].
  assert (Hd : forall p, is_Some (procs w !! p) -> is_Some (alter (with_pstatus st) i (procs w) !! p)).
  { intros p [x Hx]. destruct (decide (p = i)) as [->|Hne];
      [rewrite lookup_alter_eq|rewrite lookup_alter_ne by done]; rewrite Hx; by eexists. }
  split; [split|]; simpl; eauto.
  intros p Hp. destruct (decide (p = i)) as [->|Hne];
    [rewrite lookup_alter_eq|rewrite lookup_alter_ne by done]; by rewrite inv_heap0.
Qed.

Lemma inv_modify_frame f :
  (forall w, attrs (f w) = attrs w /\ procs (f w) = procs w /\ next_id (f w) = next_id w /\
    pipeList (f w) = pipeList w /\ filterGroup (f w) = filterGroup w /\
    user_dict (f w) = user_dict w) ->
  preserves (inv P) (modify f).
Proof.
  intros H. apply preserves_modify. intros w.
  destruct (H w) as (?&?&?&?&?&?). by apply inv_same.
Qed.

Lemma inv_set_pipeList k q : preserves (inv P) (modify (set_pipeList (dset k q))).
Proof.
  apply preserves_modify. intros w [[] HP]. split; [split|]; simpl; auto using NoDup_dset.
Qed.

Lemma inv_pipeList_del k : preserves (inv P) (pipeList_del k).
Proof.
  intros w [[] HP]. unfold pipeList_del, py_del. py_run.
  destruct (dget k _); simpl; (split; [split|]); simpl; auto using NoDup_ddel.
Qed.

Lemma inv_fg_add_source q n : preserves (inv P) (fg_add_source q n).
Proof.
  apply preserves_modify. intros w [[] HP]. split; [split|]; simpl; auto using NoDup_dset.
Qed.

Lemma inv_fg_add_receiver q n : preserves (inv P) (fg_add_receiver q n).
Proof.
  apply preserves_modify. intros w [[] HP]. split; [split|]; simpl; auto using NoDup_dset.
Qed.

Lemma inv_fg_remove_source n : preserves (inv P) (fg_remove_source n).
Proof.
  intros w [[] HP]. unfold fg_remove_source, remove_source, py_del. py_run.
  destruct (dget n _); simpl; (split; [split|]); simpl; auto using NoDup_ddel.
Qed.

Lemma inv_fg_remove_receiver n : preserves (inv P) (fg_remove_receiver n).
Proof.
  intros w [[] HP]. unfold fg_remove_receiver, remove_receiver, py_del. py_run.
  destruct (dget n _); simpl; (split; [split|]); simpl; auto using NoDup_ddel.
Qed.

(** A new process is known to exist in what follows. *)
Lemma inv_new_Process {A} target args (k : nat -> M fts A) :
  (forall p, preserves (inv (p :: P)) (k p)) ->
  preserves (inv P) (new_Process faults target args ≫= k).
Proof.
  intros Hk w Hw. unfold new_Process, fresh_id, ext_call. py_run.
  destruct (faults _ _); [revert Hw; by apply inv_same|].
  match goal with |- context [k ?p ?s] => cut (inv (p :: P) (k p s).2) end.
  { intros [HI HP]. split; [done|]. intros p Hp. apply HP. by right. }
  apply Hk. destruct Hw as [[] HP]. split; [split|]; simpl; auto.
  - intros i Hi. rewrite lookup_insert_ne by lia. auto with lia.
  - intros name p Ha. destruct (decide (p = next_id w)) as [->|Hne];
      [rewrite lookup_insert_eq; by eexists|rewrite lookup_insert_ne by done; eauto].
  - intros p Hp. destruct (decide (p = next_id w)) as [->|Hne];
      [rewrite lookup_insert_eq; by eexists|].
    rewrite lookup_insert_ne by done. apply elem_of_cons in Hp as [->|Hp]; [done|auto].
Qed.
End primitives.

Ltac inv_step :=
  first
    [ match goal with
      | |- preserves (inv _) (new_Process _ _ _ ≫= _) => apply inv_new_Process; intros ?
      | |- preserves (inv _) (ext_call _ _) => apply inv_ext_call
      | |- preserves (inv _) (self_set _ _) =>
          apply inv_self_set; [done|intros ? ?; simplify_eq; try (left; done)]
      | |- preserves (inv _) fresh_id => apply inv_fresh_id
      | |- preserves (inv _) (set_pstatus _ _) => apply inv_set_pstatus
      | |- preserves (inv _) (modify (set_pipeList (dset _ _))) => apply inv_set_pipeList
      | |- preserves (inv _) (pipeList_set _ _) => apply inv_set_pipeList
      | |- preserves (inv _) (pipeList_del _) => apply inv_pipeList_del
      | |- preserves (inv _) (fg_add_source _ _) => apply inv_fg_add_source
      | |- preserves (inv _) (fg_add_receiver _ _) => apply inv_fg_add_receiver
      | |- preserves (inv _) (fg_remove_source _) => apply inv_fg_remove_source
      | |- preserves (inv _) (fg_remove_receiver _) => apply inv_fg_remove_receiver
      | |- preserves (inv _) (modify _) => apply inv_modify_frame; by intros ?
      end
    | py_step ].

Create HintDb inv.
#[export] Hint Unfold self_get new_Queue new_Event event_put obj_event_put new_Thread
  obj_process process_start process_is_alive process_terminate process_join thread_start
  thread_join pipe_close new_QueueManager get_instance set_value set_service_values
  shut_down : inv.

Ltac inv_walk := autounfold with inv; repeat inv_step.

Section handlers.
Context (faults : nat -> ext -> bool) (cfg : FTSObj) (P : list nat).

Lemma inv_set_service_values section service_id :
  preserves (inv P) (set_service_values faults section service_id cfg).
Proof. inv_walk. Qed.

Lemma inv_start_rest_api : preserves (inv P) (start_rest_api_service faults cfg).
Proof. unfold start_rest_api_service. inv_walk. Qed.
Lemma inv_start_cot : preserves (inv P) (start_cot_service faults cfg).
Proof. unfold start_cot_service. inv_walk. Qed.
Lemma inv_start_ssl_cot : preserves (inv P) (start_ssl_cot_service faults cfg).
Proof. unfold start_ssl_cot_service. inv_walk. Qed.
Lemma inv_start_tcp_dp : preserves (inv P) (start_tcp_data_package_service faults cfg).
Proof. unfold start_tcp_data_package_service. inv_walk. Qed.
Lemma inv_start_ssl_dp : preserves (inv P) (start_ssl_data_package_service faults cfg).
Proof. unfold start_ssl_data_package_service. inv_walk. Qed.
Lemma inv_start_fed_client : preserves (inv P) (start_federation_client_service faults cfg).
Proof. unfold start_federation_client_service. inv_walk. Qed.
Lemma inv_start_fed_server : preserves (inv P) (start_federation_server_service faults cfg).
Proof. unfold start_federation_server_service. inv_walk. Qed.

Lemma inv_stop_cot : preserves (inv P) (stop_cot_service faults).
Proof. unfold stop_cot_service. inv_walk. Qed.
Lemma inv_stop_ssl_cot : preserves (inv P) (stop_ssl_cot_service faults).
Proof. unfold stop_ssl_cot_service. inv_walk. Qed.
Lemma inv_stop_tcp_dp : preserves (inv P) (stop_tcp_data_package_service faults).
Proof. unfold stop_tcp_data_package_service. inv_walk. Qed.
Lemma inv_stop_ssl_dp : preserves (inv P) (stop_ssl_data_package_service faults).
Proof. unfold stop_ssl_data_package_service. inv_walk. Qed.
Lemma inv_stop_fed_client : preserves (inv P) (stop_federation_client_service faults).
Proof. unfold stop_federation_client_service. inv_walk. Qed.
Lemma inv_stop_fed_server : preserves (inv P) (stop_federation_server_service faults).
Proof. unfold stop_federation_server_service. inv_walk. Qed.
End handlers.

#[export] Hint Unfold own update_own when ignore running keep_address pipe_put obj_put
  count_data add_data_send : inv.

(** The statements that call a handler. *)
Ltac inv_handler :=
  match goal with
  | |- preserves _ (start_rest_api_service _ _) => apply inv_start_rest_api
  | |- preserves _ (start_cot_service _ _) => apply inv_start_cot
  | |- preserves _ (start_ssl_cot_service _ _) => apply inv_start_ssl_cot
  | |- preserves _ (start_tcp_data_package_service _ _) => apply inv_start_tcp_dp
  | |- preserves _ (start_ssl_data_package_service _ _) => apply inv_start_ssl_dp
  | |- preserves _ (start_federation_client_service _ _) => apply inv_start_fed_client
  | |- preserves _ (start_federation_server_service _ _) => apply inv_start_fed_server
  | |- preserves _ (stop_cot_service _) => apply inv_stop_cot
  | |- preserves _ (stop_ssl_cot_service _) => apply inv_stop_ssl_cot
  | |- preserves _ (stop_tcp_data_package_service _) => apply inv_stop_tcp_dp
  | |- preserves _ (stop_ssl_data_package_service _) => apply inv_stop_ssl_dp
  | |- preserves _ (stop_federation_client_service _) => apply inv_stop_fed_client
  | |- preserves _ (stop_federation_server_service _) => apply inv_stop_fed_server
  end.

Ltac inv_handlers := autounfold with inv; repeat (inv_handler || inv_step).

Section threads.
Context (faults : nat -> ext -> bool) (discover_components : string -> list string).
Context (config : string -> pyval) (P : list nat).

Lemma inv_start_all_tcp_dp cfg : preserves (inv P) (start_all_tcp_data_package faults cfg).
Proof. unfold start_all_tcp_data_package. inv_handlers. Qed.
Lemma inv_start_all_ssl_dp cfg : preserves (inv P) (start_all_ssl_data_package faults cfg).
Proof. unfold start_all_ssl_data_package. inv_handlers. Qed.
Lemma inv_start_all_cot cfg : preserves (inv P) (start_all_cot faults cfg).
Proof. unfold start_all_cot. inv_handlers. Qed.
Lemma inv_start_all_ssl_cot cfg : preserves (inv P) (start_all_ssl_cot faults cfg).
Proof. unfold start_all_ssl_cot. inv_handlers. Qed.
Lemma inv_start_all_fed_client cfg :
  preserves (inv P) (start_all_federation_client faults cfg).
Proof. unfold start_all_federation_client. inv_handlers. Qed.
Lemma inv_start_all_fed_server cfg :
  preserves (inv P) (start_all_federation_server faults cfg).
Proof. unfold start_all_federation_server. inv_handlers. Qed.

Lemma inv_start_all cfg : preserves (inv P) (start_all faults cfg).
Proof.
  unfold start_all. py_step; [|py_step].
  repeat (apply preserves_bind; [|intros _]);
    auto using inv_start_all_tcp_dp, inv_start_all_ssl_dp, inv_start_all_cot,
      inv_start_all_ssl_cot, inv_start_all_fed_client, inv_start_all_fed_server,
      preserves_ret.
Qed.

Lemma inv_configure cfg : preserves (inv P) (configure faults cfg).
Proof.
  unfold configure, _configure_routing_worker, _configure_action_mapper,
    _configure_subject, _configure_integration_manager. inv_walk.
Qed.

Lemma inv_register_components cfg :
  preserves (inv P) (register_components faults discover_components cfg).
Proof. unfold register_components, register_folder. inv_walk. Qed.

Lemma inv_startup_services a :
  preserves (inv P) (startup_services faults discover_components config a).
Proof.
  unfold startup_services. autounfold with inv.
  repeat first [apply inv_start_all|apply inv_configure|apply inv_register_components
    |apply inv_start_rest_api|inv_step].
Qed.
End threads.

Section users.
Context (faults : nat -> ext -> bool).

(** What the registry leaves alone. *)
Definition core (w : fts) :=
  (attrs w, procs w, next_id w, (pipeList w, filterGroup w)).

Lemma inv_core P w w' :
  core w' = core w -> users_ok (user_dict w') -> inv P w -> inv P w'.
Proof.
  intros [= E1 E2 E3 E4 E5] Hu [[] HP].
  split; [split|]; rewrite ?E1, ?E2, ?E3, ?E4, ?E5; auto.
Qed.

Ltac core_step :=
  first
    [ match goal with
      | |- preserves _ (pipe_put _ _ _) => apply keeps_pipe_put; reflexivity
      | |- preserves _ (obj_put _ _ _) => apply keeps_obj_put; reflexivity
      end
    | fts_step ].

Lemma core_receive got o : keeps core (receive_data_froCoT_service_thread faults got o).
Proof.
  intros x. unfold receive_data_froCoT_service_thread, handle_op, handle_add, handle_remove,
    handle_update, handle_get, log_failure, item_user_id, users_get, users_set, users_del,
    self_get.
  repeat core_step.
Qed.

Lemma inv_receive P got o :
  preserves (inv P) (receive_data_froCoT_service_thread faults got o).
Proof.
  intros w Hw. eapply inv_core; [apply (keeps_eq core), core_receive| |exact Hw].
  rewrite receive_users. apply users_after_ok. by destruct Hw as [[] _].
Qed.

Lemma inv_poll_users P in_attr out_attr got :
  preserves (inv P) (poll_users faults in_attr out_attr got).
Proof.
  unfold poll_users. py_step; [|py_step].
  py_step; [unfold self_get; repeat py_step|].
  py_step; [unfold self_get; repeat py_step|].
  intros w Hw.
  match goal with |- context [receive_data_froCoT_service_thread faults ?g ?o] =>
    pose proof (inv_receive P g o w Hw) as H;
    destruct (receive_data_froCoT_service_thread faults g o w) as [[d|e] w1] eqn:E
  end.
  - rewrite (run_bind _ _ _ _ _ E). apply receive_returns in E as ->.
    apply (inv_core P w1); [reflexivity| |exact H]. by destruct H as [[] _].
  - by rewrite (run_bind_exn _ _ _ _ _ E).
Qed.

Lemma inv_main_loop P due a b : preserves (inv P) (main_loop_turn faults due a b).
Proof.
  unfold main_loop_turn, when. py_step; [inv_walk|].
  py_step; [|]; apply inv_poll_users.
Qed.

Lemma inv_keeps_core P {A} (m : M fts A) :
  keeps core m -> keeps user_dict m -> preserves (inv P) m.
Proof.
  intros Hc Hu w Hw. eapply inv_core; [by apply (keeps_eq core)| |exact Hw].
  rewrite (keeps_eq user_dict _ _ Hu). by destruct Hw as [[] _].
Qed.

Lemma inv_obj_put P o m : preserves (inv P) (obj_put faults o m).
Proof. apply inv_keeps_core; by apply keeps_obj_put. Qed.

Lemma inv_command P c : preserves (inv P) (receive_Rest_commands_turn faults c).
Proof.
  unfold receive_Rest_commands_turn, run_command, check_server_status, show_users.
  autounfold with inv.
  repeat first [apply inv_start_all|apply inv_obj_put|inv_step].
Qed.

Lemma inv_checkPipes P recv : preserves (inv P) (checkPipes_pass faults recv).
Proof.
  apply inv_keeps_core; intros x; unfold checkPipes_pass, forward, add_data_send, count_data;
    repeat core_step.
Qed.
End users.

Section reachable.
Context (discover_components : string -> list string) (config : string -> pyval).

Lemma fts_inv_first : fts_inv (new_FTS config).
Proof.
  split.
  1-3: constructor.
  - apply users_ok_nil.
  - done.
  - intros name p H. apply elem_of_list_to_map_2 in H.
    repeat (apply elem_of_cons in H as [?|H]; [discriminate|]). by apply elem_of_nil in H.
  - by vm_compute.
Qed.

Lemma fts_inv_step w w' : fts_step discover_components config w w' -> fts_inv w -> fts_inv w'.
Proof.
  intros Hs. rewrite <- !inv_nil. intros Hw. destruct Hs;
    [by apply inv_startup_services|by apply inv_main_loop|by apply inv_command|by apply inv_checkPipes].
Qed.

Lemma reachable_inv w : reachable discover_components config w -> fts_inv w.
Proof. apply reachable_invariant; [apply fts_inv_first|apply fts_inv_step]. Qed.
End reachable.
