(* ===== verification/SystemProps.v ===== *)
(** Properties of the core process: the invariant of its reachable states, the registry as
    an implementation of a map, what forwarding delivers, and the commands of the REST
    API. *)
From stdpp Require Import base strings list gmap.
From Stdlib Require Import ZArith Lia.
From Stdlib Require Import Relations.Relation_Operators.
From S2P Require Import Prelude.
From S2P Require Import FtsState.
From S2P Require Import Supervisor.
From S2P Require Import Registry.
From S2P Require Import Startup.
From S2P Require Import RestCommands.
From S2P Require Import SupervisorFacts.
From S2P Require Import ServiceProps.
From S2P Require Import RegistryFacts.
From S2P Require Import FtsSystem.

Set Default Proof Using "Type".
Local Open Scope string_scope.
Local Open Scope list_scope.

(** A server that found no component. *)
Definition no_components : string -> list string := fun _ => [].

(** * Reachable states *)

(** C5: whatever the services and the REST API send, in whatever order the threads of
    the core run and whichever outside calls raise, every user the core knows is
    registered once, under its own id, with at least one connection, each under its
    own type; no service is registered twice; and every process attribute names a
    process that exists. *)
Theorem reachable_states_consistent discover_components config w :
  reachable discover_components config w ->
  users_ok (user_dict w) /\ NoDup (dkeys (pipeList w)) /\
  NoDup (dkeys (sources (filterGroup w))) /\ NoDup (dkeys (receivers (filterGroup w))) /\
  forall name p, attrs w !! name = Some (OProcess p) -> is_Some (procs w !! p).
Proof. intros H. apply reachable_inv in H as []. by split_and!. Qed.

(** A start of the REST API alone. *)
Definition rest_only_args : startup_args :=
  mkStartupArgs PNone PNone PNone PNone PNone PNone (PInt 19023) (PStr "0.0.0.0") PNone PNone
    (PStr "False") true.
Definition rest_only_state : fts :=
  (startup_services no_faults no_components no_config rest_only_args first_state).2.

Lemma rest_only_reachable : reachable no_components no_config rest_only_state.
Proof. apply rt1n_trans with rest_only_state; [constructor|constructor]. Defined.

Lemma reachable_states_consistent_witness :
  users_ok (user_dict rest_only_state) /\ NoDup (dkeys (pipeList rest_only_state)) /\
  NoDup (dkeys (sources (filterGroup rest_only_state))) /\
  NoDup (dkeys (receivers (filterGroup rest_only_state))) /\
  forall name p, attrs rest_only_state !! name = Some (OProcess p) ->
    is_Some (procs rest_only_state !! p).
Proof.
  exact (reachable_states_consistent no_components no_config rest_only_state rest_only_reachable).
Defined.

(** In no reachable state does [stop_ssl_cot_service] stop anything: it returns -1
    and the state is what it was, since the attribute [SSLClientDataPipe] it closes
    first is never assigned. *)
Theorem stop_ssl_cot_never_stops discover_components config faults w :
  reachable discover_components config w ->
  stop_ssl_cot_service faults w = (Ret (PInt (-1)), w).
Proof.
  intros H. apply reachable_inv in H as []. unfold stop_ssl_cot_service.
  unfold try_except, try_with. rewrite (run_bind _ _ _ _ _ (self_get_present _ _ _ inv_ssl_pipe)).
  reflexivity.
Qed.

Lemma stop_ssl_cot_never_stops_witness :
  stop_ssl_cot_service no_faults rest_only_state = (Ret (PInt (-1)), rest_only_state).
Proof.
  exact (stop_ssl_cot_never_stops no_components no_config no_faults rest_only_state
    rest_only_reachable).
Defined.

(** * The registry *)

(** C3: the registry implements a map from user ids to the types they are connected
    with: whatever is received and whichever outside calls raise, the users after the
    call are those [registry_spec] gives, and a call that returns returns them. *)
Theorem registry_refines_map faults got send_pipe w :
  let '(r, w') := receive_data_froCoT_service_thread faults got send_pipe w in
  abs_users (user_dict w') =
    match got with GotOp d => registry_spec d (abs_users (user_dict w))
                 | _ => abs_users (user_dict w) end /\
  (forall d, r = Ret d -> d = user_dict w').
Proof.
  destruct (receive_data_froCoT_service_thread faults got send_pipe w) as [r w'] eqn:E. split.
  - pose proof (receive_users faults got send_pipe w) as H. rewrite E in H. simpl in H.
    rewrite H. destruct got; simpl; auto using users_step_abs.
  - intros d ->. exact (receive_returns _ _ _ _ _ _ E).
Qed.

Definition add_op (p : Presence) (c : Connection) (n : Z) : user_op :=
  mkOp "add" (IPresence p) n (Some (IConnection c)).
Definition remove_op (uid : string) (t : ConnectionTypes) (n : Z) : user_op :=
  mkOp "remove" (IUser uid) n (Some (IType t)).

Lemma spec_remove uid t n m :
  registry_spec (remove_op uid t n) m =
  match m !! uid with
  | Some ts =>
      if decide (t ∈ ts)
      then if decide (ts ∖ {[t]} = ∅) then delete uid m else <[uid := ts ∖ {[t]}]> m
      else m
  | None => m
  end.
Proof. reflexivity. Qed.

(** [User] says a user may have multiple connections, but the registry never
    keeps two.  A user that connects a second time, with another connection type, has
    its first connection forgotten; when the second one is removed the user is no
    longer registered though it is still connected, and removing the first one then
    raises. *)
Theorem second_connection_forgets_first faults o p c1 c2 n1 n2 n3 n4 w :
  connection_type c1 <> connection_type c2 ->
  let uid := presence_uid p in
  let w2 := receive_all faults o [add_op p c1 n1; add_op p c2 n2] w in
  let w3 := receive_all faults o [remove_op uid (connection_type c2) n3] w2 in
  (abs_users (user_dict w2) !! uid = Some {[connection_type c2]}) /\
  dget uid (user_dict w3) = None /\
  exists w4, receive_data_froCoT_service_thread faults
    (GotOp (remove_op uid (connection_type c1) n4)) o w3 = (Exn KeyError, w4).
Proof.
  intros Hne uid w2 w3.
  assert (H2 : abs_users (user_dict w2) !! uid = Some {[connection_type c2]}).
  { unfold w2. rewrite receive_all_abs. apply lookup_insert_eq. }
  assert (H3 : dget uid (user_dict w3) = None).
  { assert (H : abs_users (user_dict w3) !! uid = None).
    { unfold w3. rewrite receive_all_abs. cbn [fold_left]. rewrite spec_remove, H2.
      rewrite decide_True by by apply elem_of_singleton.
      rewrite decide_True by apply difference_diag_L. apply lookup_delete_eq. }
    rewrite abs_users_lookup in H. by destruct (dget uid _). }
  split_and!; [done|done|]. clearbody w3. clear H2.
  unfold receive_data_froCoT_service_thread, handle_op, handle_remove, log_failure, remove_op,
    item_user_id, users_get. py_run. simpl.
  change (user_dict (set_counters (fun _ => n4) id w3)) with (user_dict w3).
  rewrite H3. py_run. cbn [user_dict set_counters]. rewrite H3. by eexists.
Qed.

Definition someone : Presence := mkPresence "ANDROID-1" "<event/>" "ALPHA".
Definition tcp_connection : Connection := mkConnection "10.0.0.7" 40000 "ANDROID-1" TCP.
Definition ssl_connection : Connection := mkConnection "10.0.0.7" 40001 "ANDROID-1" SSL.

Lemma second_connection_forgets_first_witness :
  dget "ANDROID-1" (user_dict (receive_all no_faults ONone [remove_op "ANDROID-1" SSL 1]
    (receive_all no_faults ONone
      [add_op someone tcp_connection 1; add_op someone ssl_connection 2] first_state))) = None.
Proof.
  assert (Hne : connection_type tcp_connection <> connection_type ssl_connection)
    by discriminate.
  exact (proj1 (proj2 (second_connection_forgets_first no_faults ONone someone tcp_connection
    ssl_connection 1 2 1 0 first_state Hne))).
Defined.

(** C36: a pass of [checkPipes] puts what each source has said on the pipe of every receiver
    but the source itself, in the order of the tables and each message once: a message is
    lost only where its own put raises, and the tables stay as they are.  When a source says
    a list, what is forwarded is its first element, followed by the presences of all users;
    the rest of the list is dropped. *)
Theorem checkPipes_forwards faults recv w :
  let expected :=
    sp ← sources (filterGroup w);
    forwards (receivers (filterGroup w)) (user_dict w) (recv sp.1 sp.2) sp.1 in
  exists w', checkPipes_pass faults recv w = (Ret tt, w') /\
    sent w' = sent w ++ delivered faults (clock w) expected /\
    filterGroup w' = filterGroup w /\ user_dict w' = user_dict w.
Proof. apply checkPipes_run. Qed.

(** [show_users] iterates over the keys of the user dictionary and reads an
    attribute of each: it returns when no user is connected and raises
    [AttributeError] otherwise, so the [Clients] command is then answered ["500"]. *)
Theorem show_users_fails_with_users faults w q p :
  attrs w !! "RestAPICommandsFTS" = Some (OPipe (PipeManager q p)) ->
  (forall n c, faults n c = false) ->
  exists w', receive_Rest_commands_turn faults CClients w = (Ret tt, w') /\
    sent w' = sent w ++
      [(PipeManager q p,
        match user_dict w with [] => MClients 1 | _ :: _ => MCode "500" end)].
Proof.
  intros Ha Hf. unfold receive_Rest_commands_turn, run_command, show_users, self_get,
    obj_put, pipe_put, ext_call. py_run.
  destruct (user_dict w) as [|[uid u] us]; simpl; py_run; rewrite Ha; simpl; rewrite Hf;
    by eexists.
Qed.

Lemma show_users_fails_with_users_witness :
  exists w', receive_Rest_commands_turn no_faults CClients
      (receive_all no_faults ONone [add_op someone tcp_connection 1] rest_only_state)
      = (Ret tt, w') /\
    sent w' =
      sent (receive_all no_faults ONone [add_op someone tcp_connection 1] rest_only_state) ++
      [(PipeManager 2 1, MCode "500")].
Proof.
  set (w := receive_all no_faults ONone [add_op someone tcp_connection 1] rest_only_state).
  assert (Ha : attrs w !! "RestAPICommandsFTS" = Some (OPipe (PipeManager 2 1)))
    by (vm_compute; reflexivity).
  assert (Hu : length (user_dict w) = 1%nat) by (vm_compute; reflexivity).
  destruct (show_users_fails_with_users no_faults w 2 1 Ha (fun _ _ => eq_refl))
    as (w' & E & Hs).
  clearbody w. exists w'. split; [exact E|]. rewrite Hs.
  destruct (user_dict w) as [|x us]; [discriminate Hu|reflexivity].
Defined.

(** * The status command *)

Lemma change_service_other req o s s' o' :
  change_service req (Some o) s = Some o' -> s <> s' \/ dget (json_vars s) req = None ->
  o_svc o' s' = o_svc o s'.
Proof.
  simpl. destruct (dget (json_vars s) req) as [r|]; [|by intros [= <-]].
  destruct (mappings _); simpl; [|done]. intros [= <-] [H|H]; [|done]. simpl.
  by repeat (case_decide; [congruence|]).
Qed.

Lemma change_services_other req l o o' s' :
  fold_left (change_service req) l (Some o) = Some o' ->
  dget (json_vars s') req = None -> o_svc o' s' = o_svc o s'.
Proof.
  intros E Hn. revert o E. induction l as [|s l IH]; cbn [fold_left]; intros o E;
    [by injection E as <-|].
  destruct (change_service req (Some o) s) as [o1|] eqn:E1.
  - rewrite (IH o1 E). apply (change_service_other _ _ _ _ _ E1).
    destruct (decide (s = s')) as [->|]; auto.
  - exfalso. clear -E. induction l as [|s1 l IH]; [discriminate|exact (IH E)].
Qed.

(** A status command that says nothing of the data package service still
    restarts it.  [changeStatus] writes the address of the request over that of the
    data package services of the startup object, also when the request has none, and
    [start_all] restarts a data package service whose address differs: it is started
    again on the address [None]. *)
Theorem status_command_restarts_data_packages faults config r c w w' ip :
  changeStatus config r = Some c ->
  dget (json_vars TCPDataPackageService) (req_services r) = None -> req_ip r = PNone ->
  svc_status (o_svc (startup_object w) TCPDataPackageService) = PStr "start" ->
  svc_ip (o_svc (startup_object w) TCPDataPackageService) = PStr ip ->
  start_all_tcp_data_package faults c w = (Ret tt, w') ->
  svc_ip (o_svc (startup_object w') TCPDataPackageService) = PNone /\
  exists w1 w2 v1 v2, stop_tcp_data_package_service faults w1 = (Ret v1, w2) /\
    start_tcp_data_package_service faults c w2 = (Ret v2, w') /\
    (v2 = PInt 1 -> exists args, AVal PNone ∈ args /\
       launched "TCPDataPackageService" "HTTPTakAPIService" args w2 w').
Proof.
  intros Hc Hn Hip Hs Hi E.
  assert (Hsvc : o_svc c TCPDataPackageService = mkSvc PNone (PInt 8080) (PStr "")).
  { unfold changeStatus in Hc.
    destruct (fold_left _ _ _) as [o|] eqn:Eo; [|discriminate]. injection Hc as <-. simpl.
    rewrite (change_services_other _ _ _ _ _ Eo Hn), Hip. reflexivity. }
  unfold start_all_tcp_data_package in E. rewrite Hsvc in E. simpl in E.
  apply bind_inv in E as (me & w0 & E0 & E). injection E0 as <- <-. rewrite Hi, Hs in E.
  simpl in E.
  do 2 (apply bind_inv in E as ([] & ? & [= <-] & E)).
  apply bind_inv in E as ([] & w2 & E1 & E). unfold ignore in E1, E.
  apply bind_inv in E1 as (v1 & w2' & E1 & [= ->]).
  apply bind_inv in E as (v2 & w3' & E2 & [= ->]). simpl in *. split.
  - assert (K1 : keeps startup_object (stop_tcp_data_package_service faults))
      by (unfold stop_tcp_data_package_service; fts_keeps).
    assert (K2 : keeps startup_object (start_tcp_data_package_service faults c))
      by (unfold start_tcp_data_package_service; fts_keeps).
    match type of E1 with _ ?s = _ => pose proof (keeps_eq _ _ s K1) as H1 end.
    rewrite E1 in H1. pose proof (keeps_eq _ _ w2 K2) as H2. rewrite E2 in H2. simpl in *.
    rewrite H2, H1. reflexivity.
  - eexists _, w2, v1, v2. split; [exact E1|]. split; [exact E2|]. intros ->.
    destruct (starts_up _ _ _ _ _ _ _ _ (start_tcp_data_package_starts faults c) E2)
      as (_ & args & q & Hl & Ha & _). exists args. split; [|exact Hl].
    apply Ha. unfold address_args. rewrite Hsvc. left.
Qed.

Definition some_config : string -> pyval := fun _ => PInt 3.
Definition auto_start_args : startup_args :=
  mkStartupArgs (PInt 8087) (PStr "0.0.0.0") (PInt 8080) (PStr "10.0.0.1") (PInt 8443)
    (PStr "10.0.0.1") (PInt 19023) (PStr "0.0.0.0") (PInt 8089) (PStr "0.0.0.0")
    (PStr "True") true.
Definition running_state : fts :=
  (startup_services no_faults no_components some_config auto_start_args
    (new_FTS some_config)).2.

(** Switching the CoT service off, with no address. *)
Definition cot_off : status_request :=
  mkStatusRequest [("TCP_CoT_service", mkServiceRequest PNone (PStr "off"))] PNone.

Lemma status_command_restarts_data_packages_witness :
  match changeStatus some_config cot_off with
  | Some c =>
      svc_ip (o_svc (startup_object (start_all_tcp_data_package no_faults c running_state).2)
        TCPDataPackageService) = PNone
  | None => False
  end.
Proof.
  destruct (changeStatus some_config cot_off) as [c|] eqn:Hc; [|vm_compute in Hc; discriminate].
  assert (E : (start_all_tcp_data_package no_faults c running_state).1 = Ret tt)
    by (vm_compute in Hc; injection Hc as <-; vm_compute; reflexivity).
  assert (Hs : svc_status (o_svc (startup_object running_state) TCPDataPackageService)
    = PStr "start") by (vm_compute; reflexivity).
  assert (Hi : svc_ip (o_svc (startup_object running_state) TCPDataPackageService)
    = PStr "10.0.0.1") by (vm_compute; reflexivity).
  exact (proj1 (status_command_restarts_data_packages no_faults some_config cot_off c
    running_state _ "10.0.0.1" Hc eq_refl eq_refl Hs Hi (run_ret _ _ _ E))).
Defined.
