(* ===== verification/ConfigProps.v ===== *)
(** Properties of the settings of the server ([MainConfig]) and of the startup object
    built from them. *)
From stdpp Require Import base strings list.
From Stdlib Require Import ZArith Lia Ascii String.
From S2P Require Import Prelude.
From S2P Require Import MainConfig.
From S2P Require Import ConfigFacts.
From S2P Require Import FtsState.
From S2P Require Import Supervisor.
From S2P Require Import ServiceProps.

Set Default Proof Using "Type".
Local Open Scope string_scope.
Local Open Scope list_scope.
Local Open Scope py_scope.

(** What the rest of the program does to the settings: initialise them, from whatever
    host, file and environment, set one (as [config.x = v] or [config[x] = v], or with
    [set], which may override what is read-only), or reset them. *)
Inductive config_op :=
  | OpInstance (access writable : string -> bool) (file : string -> option (outcome yaml_doc))
      (environ : string -> option string) (config_file : option string)
  | OpSet (name : string) (value : pyval) (override_ro : bool)
  | OpReset.

Definition run_config (h : host) (s : config_state) (o : config_op) : config_state :=
  match o with
  | OpInstance a w f e c => (instance h a w f e c s).2
  | OpSet name v o => (set_config h name v o s).2
  | OpReset => (reset s).2
  end.

(** Settings that were set with [override_ro] since the last reset. *)
Definition overridden (l : list config_op) (name : string) : Prop :=
  exists l1 v l2, l = l1 ++ OpSet name v true :: l2 /\ OpReset ∉ l2.

Lemma overridden_later l o name : o <> OpReset -> overridden l name -> overridden (l ++ [o]) name.
Proof.
  intros Ho (l1 & v & l2 & -> & Hl). exists l1, v, (l2 ++ [o]). rewrite <- app_assoc. split; [done|].
  intros [?|?%list_elem_of_singleton]%elem_of_app; congruence.
Qed.

Lemma settings_ok_weaken h (P Q : string -> Prop) s :
  (forall name, P name -> Q name) -> settings_ok h P s -> settings_ok h Q s.
Proof.
  intros HPQ Hs name v Hv. destruct (Hs name v Hv) as (d & Hd & Ht & Hr). exists d.
  split_and!; [done|done|]. intros Hro Hno. apply Hr; [done|]. intros HP. by apply Hno, HPQ.
Qed.

Lemma settings_ok_run h l : settings_ok h (overridden l) (fold_left (run_config h) l no_config_state).
Proof.
  induction l as [|o l IH] using rev_ind; [apply settings_ok_none|]. rewrite fold_left_app.
  cbn [fold_left].
  assert (Hl : o <> OpReset -> settings_ok h (overridden (l ++ [o])) (fold_left (run_config h) l no_config_state)).
  { intros Ho. revert IH. apply settings_ok_weaken. intros name. by apply overridden_later. }
  destruct o as [a w f e c|name v o|]; cbn [run_config].
  - by apply settings_ok_instance, Hl.
  - apply settings_ok_set; [|by apply Hl]. intros -> Hno. destruct Hno. exists l, v, [].
    split; [done|apply not_elem_of_nil].
  - apply settings_ok_none.
Qed.

(** C39: whatever is done to the settings, and whichever of it raises, a value that can
    be read is that of a setting of the table and has its type, a read-only setting
    that was not set with [override_ro] since the last reset reads as its default, and the
    name [AllowedCLIIPs] the REST API reads (the table has [AllowCLIIPs]) can never be
    read: reading it raises [RuntimeError]. *)
Theorem settings_well_typed h l :
  let s := fold_left (run_config h) l no_config_state in
  (forall name v s', get name s = (Ret v, s') -> exists d,
     dget name (_defaults h) = Some d /\ has_type (v_type d) v /\
     (v_readonly d = true -> ~ overridden l name -> convert (v_type d) (v_default d) = Ret v)) /\
  get "AllowedCLIIPs" s = (Exn RuntimeError, s).
Proof.
  intros s. assert (H : settings_ok h (overridden l) s) by apply settings_ok_run. split.
  - intros name v s'. unfold get. py_run. destruct (dget name (_values s)) eqn:E; [|discriminate].
    intros [= <- _]. exact (H _ _ E).
  - unfold get. py_run. destruct (dget "AllowedCLIIPs" (_values s)) eqn:E; [|done].
    destruct (H _ _ E) as (d & Hd & _). vm_compute in Hd. discriminate.
Qed.

(** C37: precedence.  When the settings are initialised, each one that is not read-only
    has the value of the last environment variable that names it, converted to its
    type, else that of the YAML file, with paths sanitized, else its default. *)
Theorem settings_precedence h access writable file environ config_file content s name d :
  dget name (_defaults h) = Some d -> v_readonly d = false ->
  file (default (default (yaml_path_default h) (environ "FTS_CONFIG_PATH")) config_file)
    = Ret <$> content ->
  instance h access writable file environ config_file no_config_state = (Ret tt, s) ->
  exists v, get name s = (Ret v, s) /\
    convert (v_type d) (configured environ name d content) = Ret v.
Proof.
  intros Hd Hro Hf E. rewrite instance_first in E.
  destruct (initialize_valued h access writable file environ name d Hd Hro _ _ _ _ Hf E _ eq_refl)
    as (v & Hc & Hv).
  exists v. split; [|exact Hc]. unfold get. py_run. by rewrite Hv.
Qed.

Definition some_host : host := mkHost "/opt/fts" "/srv/FreeTAKServer" "10.0.0.1" "node".
Definition no_file : string -> option (outcome yaml_doc) := fun _ => None.
Definition port_environ : string -> option string := fun v =>
  if decide (v = "FTS_COT_PORT") then Some "9087" else None.

Lemma settings_precedence_witness :
  exists v, get "CoTServicePort"
      (instance some_host (fun _ => true) (fun _ => true) no_file port_environ None
         no_config_state).2 =
    (Ret v, (instance some_host (fun _ => true) (fun _ => true) no_file port_environ None
               no_config_state).2) /\ Ret (PInt 9087) = Ret v.
Proof.
  assert (E : (instance some_host (fun _ => true) (fun _ => true) no_file port_environ None
    no_config_state).1 = Ret tt) by (vm_compute; reflexivity).
  assert (Hd : dget "CoTServicePort" (_defaults some_host) = Some (mkVar (PInt 8087) TInt false))
    by (vm_compute; reflexivity).
  exact (settings_precedence some_host (fun _ => true) (fun _ => true) no_file port_environ None
    None _ "CoTServicePort" _ Hd eq_refl eq_refl (run_ret _ _ _ E)).
Defined.

(** An integer written to the environment is the integer read from the settings:
    the decimal text of [z] in the last variable that names an integer setting gives
    the setting the value [z], for every integer. *)
Theorem env_integer_roundtrip h access writable file environ config_file content s name d z :
  dget name (_defaults h) = Some d -> v_readonly d = false -> v_type d = TInt ->
  file (default (default (yaml_path_default h) (environ "FTS_CONFIG_PATH")) config_file)
    = Ret <$> content ->
  instance h access writable file environ config_file no_config_state = (Ret tt, s) ->
  from_env environ name = Some (py_str (PInt z)) ->
  get name s = (Ret (PInt z), s).
Proof.
  intros Hd Hro Ht Hf E He. rewrite instance_first in E.
  destruct (initialize_valued h access writable file environ name d Hd Hro _ _ _ _ Hf E _ eq_refl)
    as (v & Hc & Hv).
  rewrite (configured_env _ _ _ _ _ He), Ht in Hc.
  pose proof (convert_text _ _ (parse_int_pretty z)) as Hz.
  change (convert TInt (PStr (py_str (PInt z))) = Ret v) in Hc. rewrite Hz in Hc. injection Hc as <-. unfold get. py_run. by rewrite Hv.
Qed.

Lemma env_integer_roundtrip_witness :
  get "CoTServicePort"
      (instance some_host (fun _ => true) (fun _ => true) no_file port_environ None
         no_config_state).2 =
    (Ret (PInt 9087), (instance some_host (fun _ => true) (fun _ => true) no_file port_environ
                         None no_config_state).2).
Proof.
  assert (E : (instance some_host (fun _ => true) (fun _ => true) no_file port_environ None
    no_config_state).1 = Ret tt) by (vm_compute; reflexivity).
  assert (Hd : dget "CoTServicePort" (_defaults some_host) = Some (mkVar (PInt 8087) TInt false))
    by (vm_compute; reflexivity).
  assert (He : from_env port_environ "CoTServicePort" = Some (py_str (PInt 9087)))
    by (vm_compute; reflexivity).
  exact (env_integer_roundtrip some_host (fun _ => true) (fun _ => true) no_file port_environ None
    None _ "CoTServicePort" _ 9087 Hd eq_refl eq_refl eq_refl (run_ret _ _ _ E) He).
Defined.

(** a path setting of the YAML file is accepted only as an absolute path without
    empty, ["."] or [".."] components that exists and is writable, and the accepted
    path is a fixed point: it is accepted again and unchanged.  Any other path ends
    the process. *)
Theorem accepted_paths_are_safe access writable path s :
  match validate_and_sanitize_path access writable path s with
  | (Ret v, s') =>
      s' = s /\ (exists p comps, v = PStr p /\ access p = true /\ writable p = true /\
        (forall w, w ∈ comps -> clean_comp w) /\
        p = match comps with [] => "/." | _ => text (slash :: join_with slash comps) end) /\
      validate_and_sanitize_path access writable v s = (Ret v, s)
  | (Exn e, s') => s' = s /\ (e = SystemExit \/ e = TypeError)
  end.
Proof.
  assert (Hs : forall p, match (if negb (access (sanitized p)) || negb (writable (sanitized p))
      then raise SystemExit else mret (PStr (sanitized p))) s with
    | (Ret v, s') =>
        s' = s /\ (exists p comps, v = PStr p /\ access p = true /\ writable p = true /\
          (forall w, w ∈ comps -> clean_comp w) /\
          p = match comps with [] => "/." | _ => text (slash :: join_with slash comps) end) /\
        validate_and_sanitize_path access writable v s = (Ret v, s)
    | (Exn e, s') => s' = s /\ (e = SystemExit \/ e = TypeError)
    end).
  { intros p. destruct (access (sanitized p)) eqn:Ha; [|by split; [|left]].
    destruct (writable (sanitized p)) eqn:Hw; [|by split; [|left]]. simpl.
    rewrite !sanitized_idempotent, Ha, Hw.
    destruct (sanitized_shape p) as (comps & Hc & E).
    split_and!; [done|by exists (sanitized p), comps|done]. }
  destruct path; simpl; try (by split; [|right]); apply Hs.
Qed.

(** The keys of the YAML table whose target is a dictionary. *)
Definition routing_keys : list string :=
  ["NumRoutingWorkers"; "RoutingProxySubscriberPort"; "RoutingProxyPublisherPort";
   "RoutingProxyRequestServerPort"; "RoutingProxySubscriberIP"; "RoutingProxyPublisherIP";
   "RoutingProxyRequestServerIP"].

Lemma for_each_returned {S A} (l : list A) (f : A -> M S unit) s s' a :
  for_each l f s = (Ret tt, s') -> a ∈ l -> exists s1 s2, f a s1 = (Ret tt, s2).
Proof.
  revert s. induction l as [|b l IH]; intros s E; [by intros H%elem_of_nil|].
  apply bind_inv in E as ([] & s1 & E1 & E2).
  intros [->|Hin]%elem_of_cons; [by exists s, s1|exact (IH s1 E2 Hin)].
Qed.

Lemma routing_key_rows key : key ∈ routing_keys ->
  exists rows, ("Addresses", rows) ∈ _yaml_keys /\ (key, VDict) ∈ rows.
Proof.
  intros Hk. destruct (dget "Addresses" _yaml_keys) as [rows|] eqn:E; [|discriminate].
  exists rows. split; [by apply dget_Some_elem|]. injection E as <-.
  apply dget_Some_elem. unfold routing_keys in Hk.
  repeat (apply elem_of_cons in Hk as [->|Hk]; [reflexivity|]). by apply elem_of_nil in Hk.
Qed.

Lemma read_yaml_routing_key access writable h (content : list (string * yaml_section)) sect key
    v s s' :
  dget "Addresses" content = Some (Some sect) -> key ∈ routing_keys -> dget key sect = Some v ->
  read_yaml_config h access writable (Ret (Some content)) s <> (Ret tt, s').
Proof.
  intros Hc Hk Hv E. destruct (routing_key_rows key Hk) as (rows & Hr & Hin).
  apply bind_inv in E as (c & s1 & [= <- <-] & E).
  destruct (for_each_returned _ _ _ _ _ E Hr) as (s2 & s3 & E2).
  apply bind_inv in E2 as (c & s4 & [= <- <-] & E2). cbn [fst snd] in E2. rewrite Hc in E2.
  destruct (for_each_returned _ _ _ _ _ E2 Hin) as (s5 & s6 & E3).
  unfold read_yaml_entry in E3. cbn [fst snd mbind option_bind] in E3. rewrite Hv in E3.
  apply bind_inv in E3 as (v' & s7 & _ & E3). discriminate.
Qed.

Lemma initialize_instance h access writable file environ config_file :
  preserves (fun s => c_instance s = true) (initialize h access writable file environ config_file).
Proof.
  assert (Hs : forall n v o, preserves (fun s => c_instance s = true) (set_config h n v o)).
  { intros n v o. unfold set_config, _readonly, _var_type, lookup_var, put_value.
    repeat (py_step || (apply preserves_modify; intros s Hs; exact Hs)). }
  unfold initialize, load_defaults, read_yaml_config, read_yaml_entry, import_env_config,
    validate_and_sanitize_path, _var_type, lookup_var.
  repeat match goal with
         | |- preserves _ (set_config _ _ _ _) => apply Hs
         | _ => py_step
         end.
Qed.

(** Seven routing settings can not be set in the YAML file, though its table lists
    them: the table maps them to dictionaries, so a file with one of these keys, whatever
    its value, makes the initialisation raise.  A second [instance()] then answers
    normally without having read the environment.  An empty file raises [TypeError]. *)
Theorem yaml_routing_keys_raise h access writable file environ config_file
    (content : list (string * yaml_section)) sect key v :
  file (default (default (yaml_path_default h) (environ "FTS_CONFIG_PATH")) config_file)
    = Some (Ret (Some content)) ->
  dget "Addresses" content = Some (Some sect) -> key ∈ routing_keys -> dget key sect = Some v ->
  exists e s,
    instance h access writable file environ config_file no_config_state = (Exn e, s) /\
    (forall access' writable' file' environ' config_file',
       instance h access' writable' file' environ' config_file' s = (Ret tt, s)).
Proof.
  intros Hf Hc Hk Hv. rewrite instance_first.
  pose proof (initialize_instance h access writable file environ config_file
    (mkConfigState true []) eq_refl) as Hi.
  destruct (initialize _ _ _ _ _ _ _) as [[[]|e] s] eqn:E.
  - exfalso. rewrite initialize_eq, Hf in E.
    apply bind_inv in E as ([] & s1 & _ & E). apply bind_inv in E as ([] & s2 & E & _).
    exact (read_yaml_routing_key access writable h _ _ _ _ _ _ Hc Hk Hv E).
  - exists e, s. split; [done|]. intros. unfold instance. simpl in Hi.
    rewrite (run_bind (gets c_instance) _ s true s) by (unfold gets; by rewrite Hi). done.
Qed.

Definition routing_file : string -> option (outcome yaml_doc) := fun _ =>
  Some (Ret (Some [("Addresses", Some [("NumRoutingWorkers", PInt 5)])])).

Lemma yaml_routing_keys_raise_witness :
  exists e s,
    instance some_host (fun _ => true) (fun _ => true) routing_file port_environ None
      no_config_state = (Exn e, s) /\
    (forall access' writable' file' environ' config_file',
       instance some_host access' writable' file' environ' config_file' s = (Ret tt, s)).
Proof.
  refine (yaml_routing_keys_raise some_host (fun _ => true) (fun _ => true) routing_file
    port_environ None _ _ "NumRoutingWorkers" (PInt 5) eq_refl eq_refl _ eq_refl).
  left.
Defined.

(** * The startup object *)

(** The settings as the service objects read them. *)
Definition setting (s : config_state) (name : string) : pyval :=
  default PNone (dget name (_values s)).

Lemma total_ext_call c : total (ext_call no_faults c).
Proof. intros w. by exists tt, (tick w). Qed.

Lemma total_set_value a b v : total (set_value no_faults a b v).
Proof. unfold set_value. apply total_bind; [apply total_ext_call|intros ?; apply total_modify]. Qed.

(** The settings of a successful initialisation configure the server: the startup
    object built from them is one [configure] accepts, whatever the file and the
    environment said, and the number of routing workers it sets is an integer. *)
Theorem settings_configure h access writable file environ config_file content s w :
  file (default (default (yaml_path_default h) (environ "FTS_CONFIG_PATH")) config_file)
    = Ret <$> content ->
  instance h access writable file environ config_file no_config_state = (Ret tt, s) ->
  (exists z, NumRoutingWorkers (o_routing (new_FTSObj (setting s))) = PInt z) /\
  exists w', configure no_faults (new_FTSObj (setting s)) w = (Ret tt, w').
Proof.
  intros Hf E. rewrite instance_first in E.
  assert (Hd : dget "NumRoutingWorkers" (defaults h) = Some (mkVar (PInt 3) TInt false))
    by (vm_compute; reflexivity).
  destruct (initialize_valued h access writable file environ "NumRoutingWorkers" _ Hd eq_refl
    _ _ _ _ Hf E _ eq_refl) as (v & Hc & Hv).
  apply converted_type in Hc. cbn [v_type has_type] in Hc.
  assert (Hi : exists z, v = PInt z) by (clear -Hc; destruct v; try done; by eexists).
  destruct Hi as [z ->].
  assert (Hz : NumRoutingWorkers (o_routing (new_FTSObj (setting s))) = PInt z)
    by (unfold setting; simpl; by rewrite Hv).
  split; [by exists z|].
  assert (Ht : total (configure no_faults (new_FTSObj (setting s)))).
  { unfold configure, _configure_routing_worker, _configure_action_mapper, _configure_subject,
      _configure_integration_manager. rewrite Hz.
    repeat match goal with
           | |- total (ext_call _ _) => apply total_ext_call
           | |- total (set_value _ _ _ _) => apply total_set_value
           | |- total (of_outcome _) => intros w1; by exists z, w1
           | |- _ => py_step
           end. }
  destruct (Ht w) as ([] & w' & E'). by exists w'.
Qed.

Lemma settings_configure_witness :
  exists w', configure no_faults (new_FTSObj (setting
    (instance some_host (fun _ => true) (fun _ => true) no_file port_environ None
       no_config_state).2)) first_state = (Ret tt, w').
Proof.
  assert (E : (instance some_host (fun _ => true) (fun _ => true) no_file port_environ None
    no_config_state).1 = Ret tt) by (vm_compute; reflexivity).
  exact (proj2 (settings_configure some_host (fun _ => true) (fun _ => true) no_file port_environ
    None None _ first_state eq_refl (run_ret _ _ _ E))).
Defined.
