(* ===== verification/CotState.v ===== *)
(** The state of a CoT service ([services/tcp_cot_service], [services/ssl_cot_service]):
    its clients, its connections, what it has handed to sockets, queues and components,
    the primitives its controllers use, and the interface of what the two services do
    differently. *)
From stdpp Require Import base strings list.
From Stdlib Require Import ZArith Lia Ascii String.
From S2P Require Import Prelude.
From S2P Require Import CotData.
From S2P Require Import FtsState.
From S2P Require Import Registry.

Set Default Proof Using "Type".
Local Open Scope string_scope.
Local Open Scope list_scope.
Local Open Scope py_scope.

(** * Data *)

(** [p.encode()]. *)
Definition encode (p : payload) : outcome payload :=
  match p with Text s => Ret (Bytes s) | Bytes _ | NoText => Exn AttributeError end.

(** [ClientInformation], of its [modelObject] the uid and the callsign. *)
Record ClientInformation := mkClientInformation {
  ci_uid : string; ci_callsign : string; ci_IP : string; ci_socket : nat;
  ci_idData : string }.

#[export] Instance ClientInformation_eq_dec : EqDecision ClientInformation.
Proof. solve_decision. Defined.

(** What the elements after the socket of an entry of [client_information_queue]
    are: the information of the connection, a user of the core, or the socket under
    that of TLS ([None] where there is none). *)
Inductive info :=
  | InfoClient (ci : ClientInformation)
  | InfoUser (u : User)
  | InfoSock (sock : option nat).

Record client := mkClient { c_sock : nat; c_infos : list info }.

(** [TCPCoTConnection]: the uid of its [model_object] and its socket. *)
Record TCPCoTConnection := mkTCPCoTConnection { tc_uid : string; tc_sock : nat }.

(** [RawConnectionInformation], with the [unwrapped_sock] of [RawSSLConnectionInformation]
    ([None] in the class of the TCP service, which has no such attribute). *)
Record RawConnectionInformation := mkRawConnection {
  rc_ip : string; rc_socket : nat; rc_unwrapped_sock : option nat; rc_xmlString : string }.

(** [RawCoT]. *)
Record RawCoT := mkRawCoT { raw_client : string; raw_xmlString : string }.

#[export] Instance RawCoT_eq_dec : EqDecision RawCoT.
Proof. solve_decision. Defined.

(** Requests to the components, by action, context and what they carry. *)
Inductive request :=
  | ConnectionRequest (oid : string)
  | RepeaterRequest (oid : string) (recipients : list string)
  | EmergenciesRequest (oid : string)
  | DisconnectionRequest (oid : string)
  | CoTRequest (human_type xml : string).

#[export] Instance request_eq_dec : EqDecision request.
Proof. solve_decision. Defined.

(** Jobs of the thread pool. *)
Inductive job := ListenJob | ReceptionJob.

#[export] Instance job_eq_dec : EqDecision job.
Proof. solve_decision. Defined.

(** * The service *)

(** What the service has done, in order: bytes a socket took, what it put on the
    queue of the core and on the pipe to the other services, requests, rows of the
    user table, sockets shut and closed, jobs started. *)
Inductive effect :=
  | Delivered (sock : nat) (b : string)
  | ToCore (op : user_op)
  | Shared (m : message)
  | SharedList (m : message)
  | Requested (r : request)
  | UserRow (uid callsign IP : string)
  | Shut (sock : nat)
  | Closed (sock : nat)
  | Launched (j : job)
  | Stopped.

Record cot := mkCot {
  client_information_queue : list (string * client);
  cot_connections : list (string * TCPCoTConnection);
  thread_array : list (string * nat);
  openSockets : Z;
  connection_received : Z;
  received_message_count : Z;
  sent_message_count : Z;
  messages_from_core_count : Z;
  trace : list effect;
  now : nat }.

Definition new_TCPCoTServiceMain : cot := mkCot [] [] [] 0 0 0 0 0 [] 0.

Definition set_queue f s := mkCot (f (client_information_queue s)) (cot_connections s)
  (thread_array s) (openSockets s) (connection_received s) (received_message_count s)
  (sent_message_count s) (messages_from_core_count s) (trace s) (now s).
Definition set_connections f s := mkCot (client_information_queue s)
  (f (cot_connections s)) (thread_array s) (openSockets s) (connection_received s)
  (received_message_count s) (sent_message_count s) (messages_from_core_count s)
  (trace s) (now s).
Definition set_threads f s := mkCot (client_information_queue s) (cot_connections s)
  (f (thread_array s)) (openSockets s) (connection_received s)
  (received_message_count s) (sent_message_count s) (messages_from_core_count s)
  (trace s) (now s).
Definition count_connection s := mkCot (client_information_queue s) (cot_connections s)
  (thread_array s) (openSockets s) (connection_received s + 1)
  (received_message_count s) (sent_message_count s) (messages_from_core_count s)
  (trace s) (now s).
Definition count_received n s := mkCot (client_information_queue s) (cot_connections s)
  (thread_array s) (openSockets s) (connection_received s)
  (received_message_count s + n) (sent_message_count s) (messages_from_core_count s)
  (trace s) (now s).
Definition count_sent s := mkCot (client_information_queue s) (cot_connections s)
  (thread_array s) (openSockets s) (connection_received s) (received_message_count s)
  (sent_message_count s + 1) (messages_from_core_count s) (trace s) (now s).
Definition count_from_core s := mkCot (client_information_queue s) (cot_connections s)
  (thread_array s) (openSockets s) (connection_received s) (received_message_count s)
  (sent_message_count s) (messages_from_core_count s + 1) (trace s) (now s).
Definition add_effect e s := mkCot (client_information_queue s) (cot_connections s)
  (thread_array s) (openSockets s) (connection_received s) (received_message_count s)
  (sent_message_count s) (messages_from_core_count s) (trace s ++ [e]) (now s).
Definition tick_cot s := mkCot (client_information_queue s) (cot_connections s)
  (thread_array s) (openSockets s) (connection_received s) (received_message_count s)
  (sent_message_count s) (messages_from_core_count s) (trace s) (S (now s)).

(** The sockets the service has closed. *)
Definition closes (k : nat) (e : effect) : bool :=
  match e with Closed k' => bool_decide (k = k') | _ => false end.
Definition is_closed (s : cot) (k : nat) : bool := existsb (closes k) (trace s).

(** * The world *)

(** Calls that may raise: into [multiprocessing] queues and pools, DigitalPy, the
    database and the sockets. *)
Inductive cot_call :=
  | CQueuePut
  | CFactory
  | CSubjectSend
  | CDatabase
  | CShutdown
  | CClose
  | CListen
  | CPoolTerminate.

(** What is outside the service, asked at an instant: how much a socket takes of what
    it is sent, what it has received, the socket TLS puts around it, how often a clock
    test still holds, which calls raise and what the core answers; and the functions of [lxml], [defusedxml],
    [uuid], DigitalPy and of the serializers and components the service calls.
    [object_id] is the text of a new [ObjectId], [object_id_instance] that of the one
    [get_instance] finds. *)
Record world := mkWorld {
  takes : nat -> nat -> string -> outcome nat;
  receives : nat -> nat -> outcome string;
  accepts : nat -> outcome (string * nat);
  wraps : nat -> nat -> outcome nat;
  reads_left : nat -> nat;
  raises : nat -> cot_call -> option exn;
  core_reply : nat -> outcome (list (string * User));
  pipe_full : nat -> bool;
  decode : string -> outcome string;
  received_events : string -> outcome (list string);
  connection_events : string -> outcome (list string);
  connection_text : string -> option string;
  parse_connection : string -> outcome (string * string);
  cot_type : string -> outcome string;
  human_readable_type : string -> outcome string;
  uuid1 : nat -> string;
  object_id : string -> string;
  object_id_instance : nat -> string -> string;
  disconnect_message : string -> outcome message;
  geochat_message : string -> outcome message;
  serialize : model -> payload;
  connection_message : option string }.

Section primitives.
Context (w : world).
Abbreviation MC := (M cot).

Definition emit (e : effect) : MC unit := modify (add_effect e).

(** The instant of the next call. *)
Definition clock_tick : MC nat := n <- gets now ;; modify tick_cot ;;; mret n.

Definition call (c : cot_call) : MC unit :=
  n <- clock_tick ;;
  match raises w n c with Some e => raise e | None => mret tt end.

(** [sock.send(data)]: what the socket takes may be less than the data; a closed
    socket raises [OSError] and anything but [bytes] a [TypeError]. *)
Definition sock_send (k : nat) (data : payload) : MC unit :=
  n <- clock_tick ;;
  match data with
  | Bytes b =>
      closed <- gets (fun s => is_closed s k) ;;
      if closed : bool then raise OSError
      else
        taken <- of_outcome (takes w n k b) ;;
        emit (Delivered k (substring 0 taken b))
  | Text _ | NoText => raise TypeError
  end.

(** [sock.recv(n)]. *)
Definition sock_recv (k : nat) : MC string :=
  n <- clock_tick ;;
  closed <- gets (fun s => is_closed s k) ;;
  if closed : bool then raise OSError else of_outcome (receives w n k).

Definition sock_close (k : nat) : MC unit := emit (Closed k).

(** [CoTSharePipe.put(m)]: a [QueueManager], which keeps every exception to itself. *)
Definition share_put (e : effect) : MC unit := try: call CQueuePut ;;; emit e except: mret tt.

Definition queue_get (uid : string) : MC client :=
  c <- gets (fun s => dget uid (client_information_queue s)) ;; of_option KeyError c.

(** [client[1]]. *)
Definition client_info (c : client) : MC info := of_option IndexError (head (c_infos c)).

(** [self.subject_send_request(request, APPLICATION_PROTOCOL)]. *)
Definition subject_send_request (r : request) : MC unit :=
  call CSubjectSend ;;; emit (Requested r).

(** [info.m_presence]: a [ClientInformation] has none. *)
Definition info_presence (i : info) : MC Presence :=
  match i with
  | InfoUser u => mret (m_presence u)
  | InfoClient _ | InfoSock _ => raise AttributeError
  end.
End primitives.

(** * The two services *)

(** What the services do differently: the connection type they name to the core; what
    an entry of [client_information_queue] holds after the socket and the information,
    and the length of an entry whose information the core may replace; the sockets of
    an entry, in the order they are shut in ([None] for an object that is no socket);
    how XML declarations are removed from what clients send; and what is read again
    when a reading of a client is empty. *)
Class CotService := mkCotService {
  service_type : ConnectionTypes;
  entry_rest : RawConnectionInformation -> list info;
  entry_length : nat;
  entry_socks : client -> outcome (list (option nat));
  strip_received : string -> string;
  read_again : world -> nat -> M cot string;
  logged_first : bool }.
