(* ===== verification/SendData.v ===== *)
(** Sending to clients: [SendDataController] and [SendComponentDataController] of
    [services/tcp_cot_service/controllers]. *)
From stdpp Require Import base strings list.
From Stdlib Require Import ZArith Lia.
From S2P Require Import Prelude.
From S2P Require Import CotData.
From S2P Require Import FtsState.
From S2P Require Import CotState.

Set Default Proof Using "Type".
Local Open Scope string_scope.
Local Open Scope list_scope.
Local Open Scope py_scope.

(** What the methods of [SendDataController] return: [1] and [-1], [(-1, client[1])],
    an [Exception] object, or nothing. *)
Inductive send_result :=
  | RInt (z : Z)
  | RFailed (i : info)
  | RException
  | RNone.

Definition ALL_CHAT_ROOMS : option string := Some "All Chat Rooms".

(** [m.modelObject.detail]. *)
Definition message_detail (m : message) : outcome model :=
  match m_model m with Some (Some d) => Ret d | _ => Exn AttributeError end.

(** [m.modelObject.detail._chat.chatgrp.uid1]. *)
Definition chat_uid (m : message) : outcome (option string) :=
  match message_detail m with
  | Ret d => match chat d with Some u => Ret u | None => Exn AttributeError end
  | Exn e => Exn e
  end.

(** The callsigns of [m.modelObject.detail.marti.dest]. *)
Definition marti_dests (m : message) : outcome (list (option string)) :=
  match message_detail m with
  | Ret d => match marti d with Some l => Ret l | None => Exn AttributeError end
  | Exn e => Exn e
  end.

Definition has_valid_marti (m : message) : outcome bool :=
  match m_model m with
  | None => Ret false
  | Some None => Exn AttributeError
  | Some (Some d) =>
      match marti d with
      | Some dest =>
          if bool_decide (1 < length dest)%nat then Ret true
          else
            match dest with
            | [] => Exn IndexError
            | c :: _ => Ret (negb (bool_decide (c = None)) && negb (bool_decide (c = Some "")))
            end
      | None =>
          match chat d with
          | Some u => Ret (negb (bool_decide (u = ALL_CHAT_ROOMS)))
          | None => Ret false
          end
      end
  end.

(** [hasattr(detail, "_chat") and detail._chat.chatgrp.uid1 != "All Chat Rooms"]. *)
Definition has_direct_chat (m : message) : outcome bool :=
  match message_detail m with
  | Ret d => match chat d with
             | Some u => Ret (negb (bool_decide (u = ALL_CHAT_ROOMS)))
             | None => Ret false
             end
  | Exn e => Exn e
  end.

Section SendData.
Context (w : world).
Abbreviation MC := (M cot).

(** The log entries of a failed [send] read [processedCoT.xmlString]. *)
Definition message_xml (m : message) : MC payload := of_option AttributeError (m_xmlString m).

(** [if shareDataPipe != None]: clear the client information and put the message. *)
Definition share_message (shareDataPipe : bool) (m : message) : MC unit :=
  if shareDataPipe then share_put w (Shared (with_clientInformation SNone m)) else mret tt.

(** [try: sock.send(data) except TypeError: sock.send(data.encode())]. *)
Definition send_encoded (sock : nat) (data : payload) : MC unit :=
  try_with (sock_send w sock data) (fun e =>
    if decide (e = TypeError) then data <- of_outcome (encode data) ;; sock_send w sock data
    else raise e).

(** The test that leaves the sender out. *)
Definition is_sender (m : message) (s : sender) (client_id : string) : bool :=
  negb (bool_decide (m_type m = "TakPong")) &&
  match s with SUser u => bool_decide (client_id = u) | _ => false end.

Definition send_to_all (m : message) (s : sender) (shareDataPipe : bool) : MC send_result :=
  try:
    q <- gets client_information_queue ;;
    r <- for_return q (fun p =>
      if is_sender m s p.1 then mret None
      else
        try:
          data <- of_option AttributeError
                    (match m_xmlString m with Some x => Some x | None => m_idData m end) ;;
          send_encoded (c_sock p.2) data ;;; mret None
        except: (i <- client_info p.2 ;; mret (Some (RFailed i)))) ;;
    match r with
    | Some r => mret r
    | None => share_message shareDataPipe m ;;; mret (RInt 1)
    end
  except: raise External.

(** [try: sock.send(processedCoT.xmlString)], the answer when it fails. *)
Definition send_xml_to (m : message) (c : client) : MC (option send_result) :=
  try: (x <- message_xml m ;; sock_send w (c_sock c) x ;;; mret None)
  except: (message_xml m ;;; i <- client_info c ;; mret (Some (RFailed i))).

(** One turn of [for dest in dests]. *)
Definition send_to_dest (m : message) (dest : option string) : MC (option send_result) :=
  try:
    q <- gets client_information_queue ;;
    for_return q (fun p =>
      i <- client_info p.2 ;;
      u <- info_presence i ;;
      if bool_decide (Some (presence_callsign u) = dest) then send_xml_to m p.2
      else mret None)
  except: (message_xml m ;;; mret (Some (RInt (-1)))).

Definition send_to_specific_client (m : message) (s : sender) (shareDataPipe : bool)
    : MC send_result :=
  try:
    dests <- of_outcome (marti_dests m) ;;
    valid <- of_outcome (has_valid_marti m) ;;
    direct <- (if valid : bool then mret true else of_outcome (has_direct_chat m)) ;;
    if negb (direct : bool) then send_to_all m s shareDataPipe
    else if bool_decide (dests = [None]) || bool_decide (dests = [None; None])
    then send_to_all m s shareDataPipe
    else
      r <- for_return dests (send_to_dest m) ;;
      match r with
      | Some r => mret r
      | None => share_message shareDataPipe m ;;; mret (RInt 1)
      end
  except: mret (RInt (-1)).

Definition geochat_sending (m : message) (s : sender) (shareDataPipe : bool)
    : MC send_result :=
  try:
    to <- of_outcome (chat_uid m) ;;
    if bool_decide (to = ALL_CHAT_ROOMS) then send_to_all m s shareDataPipe
    else
      q <- gets client_information_queue ;;
      r <- for_return q (fun p =>
        try: (if bool_decide (Some p.1 = to) then send_xml_to m p.2 else mret None)
        except: (message_xml m ;;; mret (Some (RInt (-1))))) ;;
      match r with
      | Some r => mret r
      | None => share_message shareDataPipe m ;;; mret (RInt 1)
      end
  except: mret RNone.

(** [sender == processedCoT]: the introduction of a new client to the others. *)
Definition introduce (m : message) (new_sock : nat) (shareDataPipe : bool)
    : MC send_result :=
  q <- gets client_information_queue ;;
  for_each q (fun p =>
    try:
      d <- of_outcome (message_detail m) ;;
      if bool_decide (p.1 <> model_uid d) then
        user <- client_info p.2 ;;
        data <- of_option AttributeError (m_idData m) ;;
        data <- of_outcome (encode data) ;;
        sock_send w (c_sock p.2) data ;;;
        u <- info_presence user ;;
        sock_send w new_sock (Bytes (presence_xml u))
      else mret tt
    except: (of_option AttributeError (m_idData m) ;;; mret tt)) ;;;
  data <- of_option AttributeError (m_idData m) ;;
  data <- of_outcome (encode data) ;;
  (if shareDataPipe then share_put w (SharedList (with_idData data m))
   else raise AttributeError) ;;;
  mret (RInt 1).

Definition sendDataInQueue (s : sender) (m : message) (shareDataPipe : bool)
    : MC send_result :=
  try:
    if bool_decide (m_type m = "GeoChat") then geochat_sending m s shareDataPipe
    else
      match s with
      | SSelf k => introduce m k shareDataPipe
      | _ =>
          valid <- of_outcome (has_valid_marti m) ;;
          if valid : bool then send_to_specific_client m s shareDataPipe
          else send_to_all m s shareDataPipe
      end
  except: mret RException.

(** ** [SendComponentDataController] *)

(** The [except] clauses around [connection.sock.send(message)]. *)
Definition send_to_connection (message : payload) (c : TCPCoTConnection) : MC unit :=
  try_with (sock_send w (tc_sock c) message) (fun e =>
    if is_OSError e then mret tt else raise e).

Definition send_message_to_all (message : payload) : MC unit :=
  cs <- gets cot_connections ;;
  for_each (dvalues cs) (send_to_connection message).

Definition send_message_to_some (message : payload) (recipients : list string) : MC unit :=
  for_each recipients (fun oid =>
    c <- gets (fun s => dget oid (cot_connections s)) ;;
    match c with
    | Some c => send_to_connection message c
    | None => mret tt
    end).

Inductive MessageTypes := SEND_TO_ALL | SEND_TO_SOME.

Definition determine_message_type (recipients : option (list string)) : MessageTypes :=
  match recipients with None | Some [] => SEND_TO_ALL | Some _ => SEND_TO_SOME end.

Definition send_message (message : payload) (recipients : option (list string)) : MC unit :=
  match determine_message_type recipients with
  | SEND_TO_ALL => send_message_to_all message
  | SEND_TO_SOME => send_message_to_some message (default [] recipients)
  end.
End SendData.
