(* ===== verification/Reception.v ===== *)
(** Reception: [ClientReceptionHandler], which reads the connected clients of a CoT
    service, and the [ReceiveConnections] of the TCP CoT service, which accepts new
    ones, with the removal of XML declarations. *)
From Stdlib Require Import Ascii String.
From stdpp Require Import base strings list.
From Stdlib Require Import ZArith Lia.
From S2P Require Import Prelude.
From S2P Require Import CotData.
From S2P Require Import FtsState.
From S2P Require Import CotState.

Set Default Proof Using "Type".
Local Open Scope string_scope.
Local Open Scope list_scope.
Local Open Scope py_scope.

(** * XML declarations *)

Definition chars (s : string) : list ascii := list_ascii_of_string s.
Definition newline : ascii := "010"%char.

Definition starts_with (p l : list ascii) : bool := bool_decide (take (length p) l = p).

(** [re.sub(pattern, '', l)] for a pattern whose match at the head of [l] has the
    length [m l]; the first argument counts what is left of the match. *)
Fixpoint re_sub (m : list ascii -> option nat) (skip : nat) (l : list ascii) : list ascii :=
  match l with
  | [] => []
  | c :: l' =>
      match skip with
      | S k => re_sub m k l'
      | O =>
          match m l with
          | Some n => re_sub m (n - 1) l'
          | None => c :: re_sub m 0 l'
          end
      end
  end.

(** How much there is up to the first question mark and closing bracket, on one line. *)
Fixpoint close_first (l : list ascii) : option nat :=
  match l with
  | [] => None
  | c :: l' =>
      if starts_with (chars "?>") l then Some 2
      else if decide (c = newline) then None
      else S <$> close_first l'
  end.

(** The same up to the last one, whatever is between. *)
Fixpoint close_last (l : list ascii) : option nat :=
  match l with
  | [] => None
  | c :: l' =>
      match close_last l' with
      | Some n => Some (S n)
      | None => if starts_with (chars "?>") l then Some 2 else None
      end
  end.

Definition declaration (close : list ascii -> option nat) (l : list ascii) : option nat :=
  if starts_with (chars "<?xml") l then (fun n => 5 + n) <$> close (drop 5 l) else None.

(** The patterns of [monitorForData] (the shortest match, on one line) and of
    [receive_connection_data] (the longest, over lines). *)
Definition strip_shortest (s : string) : string :=
  string_of_list_ascii (re_sub (declaration close_first) 0 (chars s)).
Definition strip_longest (s : string) : string :=
  string_of_list_ascii (re_sub (declaration close_last) 0 (chars s)).

Definition multi_event (s : string) : string := "<multiEvent>" +:+ s +:+ "</multiEvent>".

(** [data.replace(b'\n', b'')]. *)
Definition remove_newlines (s : string) : string :=
  string_of_list_ascii (filter (fun c => c <> newline) (chars s)).

(** [delimiter in message]. *)
Definition contains (delimiter message : string) : bool :=
  match String.index 0 delimiter message with Some _ => true | None => false end.

(** * [ClientReceptionHandler] *)

Section recv_until.
Context (w : world).
Abbreviation MC := (M cot).

(** The [while] loop of [recv_until]: its test holds [n] times. *)
Fixpoint recv_more (n : nat) (sock : nat) (msg : string) : MC string :=
  match n with
  | O => mret msg
  | S n =>
      r <- try_except (part <- sock_recv w sock ;; mret (Some part)) (fun _ => mret None) ;;
      match r with
      | Some part => recv_more n sock (msg +:+ part)
      | None => mret msg
      end
  end.

Definition recv_until (sock : nat) : MC string :=
  msg <- sock_recv w sock ;;
  n <- gets (fun s => reads_left w (now s)) ;;
  recv_more n sock msg.

End recv_until.

Section Reception.
Context (w : world) {V : CotService}.
Abbreviation MC := (M cot).

(** [returnReceivedData]: the element it appends to [dataPipe]. *)
Definition returnReceivedData (client data : string) : RawCoT :=
  mkRawCoT client (remove_newlines data).

(** What the socket of a client says, read again by the service when it is empty. *)
Definition read_client (sock : nat) : MC string :=
  raw <- recv_until w sock ;;
  xmlstring <- of_outcome (decode w raw) ;;
  if bool_decide (xmlstring = "") then read_again w sock else mret xmlstring.

(** One client of [monitorForData]: what it appends to [dataPipe]. *)
Definition receive_client (client : string) (sock : nat) : MC (list RawCoT) :=
  try_except
    (xmlstring <- read_client sock ;;
     if bool_decide (xmlstring = "") then mret [returnReceivedData client ""]
     else
       events <- of_outcome (received_events w (strip_received (multi_event xmlstring))) ;;
       mret (returnReceivedData client <$> events))
    (fun e =>
       match e with
       | TimeoutError | BlockingIOError => mret []
       | _ => mret [returnReceivedData client ""]
       end).

Fixpoint receive_clients (keys : list string) (dataPipe : list RawCoT) : MC (list RawCoT) :=
  match keys with
  | [] => mret dataPipe
  | uid :: keys =>
      c <- queue_get uid ;;
      l <- receive_client uid (c_sock c) ;;
      receive_clients keys (dataPipe ++ l)
  end.

(** [monitorForData] and [startup]: [None] stands for [-1]. *)
Definition monitorForData : MC (option (list RawCoT)) :=
  try:
    keys <- gets (fun s => dkeys (client_information_queue s)) ;;
    l <- receive_clients keys [] ;; mret (Some l)
  except: mret None.

Definition reception_startup : MC (option (list RawCoT)) := monitorForData.
End Reception.

(** * [ReceiveConnections] *)

Section ReceiveConnections.
Context (w : world).
Abbreviation MC := (M cot).

Definition MAX_RECEPTION_ITERATIONS : nat := 4.
Definition TESTDATA : string := "TEST".

(** The [while] loop of [recv_until]: its clock test holds [tests_left] times, and [more]
    is its test of the number of parts received. *)
Fixpoint recv_connection (more : nat -> bool) (tests_left : nat) (sock received_count : nat)
    (delimiter msg : string) : MC string :=
  match tests_left with
  | O => mret msg
  | S tests_left =>
      if contains delimiter msg || negb (more received_count) then mret msg
      else
        r <- try_with (part <- sock_recv w sock ;; mret (Some part)) (fun _ => mret None) ;;
        match r with
        | Some part =>
            recv_connection more tests_left sock (S received_count) delimiter (msg +:+ part)
        | None => mret msg
        end
  end.

Definition recv_until_delimiter (sock : nat) (delimiter : string) : MC string :=
  n <- gets (fun s => reads_left w (now s)) ;;
  recv_connection (fun count => Nat.leb count MAX_RECEPTION_ITERATIONS) n sock 0 delimiter "".

(** What [receive_connection_data] returns: [TEST_SUCCESS], or an element of which the
    text and the [event] children are given. *)
Inductive connection_data :=
  | TestSuccess
  | Events (text : option string) (l : list string).

(** [receive_connection_data] with the [recv_until] of a service. *)
Definition receive_data_with (recv : nat -> string -> MC string) (client : nat)
    : MC connection_data :=
  part <- sock_recv w client ;;
  if bool_decide (part = "") then raise External
  else
    raw <- recv client "</event>" ;;
    xmlstring <- of_outcome (decode w raw) ;;
    part <- of_outcome (decode w part) ;;
    if bool_decide (part +:+ xmlstring = TESTDATA) then mret TestSuccess
    else
      let document := strip_longest (multi_event (part +:+ xmlstring)) in
      events <- of_outcome (connection_events w document) ;;
      mret (Events (connection_text w document) events).

Definition receive_connection_data : nat -> MC connection_data :=
  receive_data_with recv_until_delimiter.

(** [events.findall('event')[0]]: a [str] has no [findall]. *)
Definition instantiate_client_object (ip : string) (client : nat) (d : connection_data)
    : outcome RawConnectionInformation :=
  match d with
  | TestSuccess => Exn AttributeError
  | Events _ [] => Exn IndexError
  | Events _ (e :: _) => Ret (mkRawConnection ip client None e)
  end.

(** The data is asked for a second time when that fails, and the socket closed when it
    fails again. *)
Definition receive_twice (client : nat) : MC (option connection_data) :=
  try_except (d <- receive_connection_data client ;; mret (Some d)) (fun _ =>
  try_except (d <- receive_connection_data client ;; mret (Some d)) (fun _ =>
  sock_close client ;;; mret None)).

(** [None] stands for [-1].  The final test compares a [str] with [b'']: it always
    succeeds. *)
Definition listen : MC (option RawConnectionInformation) :=
  call w CListen ;;;
  n <- clock_tick ;;
  match accepts w n with
  | Exn e => if is_Exception e then mret None else raise e
  | Ret (ip, client) =>
      try:
        d <- receive_twice client ;;
        match d with
        | None => mret None
        | Some d =>
            (match d with
             | TestSuccess => sock_send w client (Bytes "success")
             | Events _ _ => mret tt
             end) ;;;
            r <- of_outcome (instantiate_client_object ip client d) ;; mret (Some r)
        end
      except: (sock_close client ;;; mret None)
  end.
End ReceiveConnections.

Example strip_shortest_two :
  strip_shortest "<a><?xml v?><b/><?xml w?><c/></a>" = "<a><b/><c/></a>".
Proof. reflexivity. Qed.
Example strip_longest_two :
  strip_longest "<a><?xml v?><b/><?xml w?><c/></a>" = "<a><c/></a>".
Proof. reflexivity. Qed.
