(* ===== verification/TcpService.v ===== *)
(** The TCP CoT service: [ClientConnectionController], [ClientDisconnectionController]
    and [ActiveThreadsController], and the handlers and the main loop of
    [tcp_cot_service_main.py]. *)
From stdpp Require Import base strings list.
From Stdlib Require Import ZArith Lia.
From S2P Require Import Prelude.
From S2P Require Import CotData.
From S2P Require Import FtsState.
From S2P Require Import Registry.
From S2P Require Import CotState.
From S2P Require Import SendData.
From S2P Require Import Reception.

Set Default Proof Using "Type".
Local Open Scope string_scope.
Local Open Scope list_scope.
Local Open Scope py_scope.

(** * [ActiveThreadsController] *)

(** [list.remove(x)]. *)
Fixpoint remove_first (x : string * nat) (l : list (string * nat)) : list (string * nat) :=
  match l with
  | [] => []
  | y :: l => if decide (x = y) then l else y :: remove_first x l
  end.

(** [for x in thread_array: if x[0] == uid: thread_array.remove(x)]: the iterator is an
    index into a list that shrinks under it. *)
Fixpoint remove_from (fuel i : nat) (uid : string) (l : list (string * nat))
    : list (string * nat) :=
  match fuel with
  | O => l
  | S fuel =>
      match l !! i with
      | None => l
      | Some x =>
          remove_from fuel (S i) uid
            (if decide (x.1 = uid) then remove_first x l else l)
      end
  end.

Definition remove_client_thread (uid : string) (l : list (string * nat))
    : list (string * nat) := remove_from (length l) 0 uid l.

(** * Inputs of the main loop *)

(** [AsyncResult.get(timeout=0.01)]. *)
Inductive job_result (A : Type) :=
  | Pending
  | Failed (e : exn)
  | Done (a : A).
Arguments Pending {A}.
Arguments Failed {A} e.
Arguments Done {A} a.

(** A response of a component: its message or messages and its recipients. *)
Record response := mkResponse {
  r_messages : list payload; r_recipients : option (list string) }.

(** What one turn of the loop finds: whether the reset of the listener is asked for,
    the two jobs, the messages of the other services, the responses. *)
Record turn := mkTurn {
  t_reset : bool;
  t_connection : job_result (option RawConnectionInformation);
  t_data : job_result (option (list (option RawCoT)));
  t_shared : list message;
  t_responses : outcome (list response) }.

Section TcpService.
Context (w : world) {V : CotService}.
Abbreviation MC := (M cot).

Definition removeClientThread (uid : string) : MC unit :=
  modify (set_threads (remove_client_thread uid)).

(** * [ClientConnectionController] *)

(** [None] stands for [-1]. *)
Definition instantiate_client_information (raw : RawConnectionInformation)
    : option ClientInformation :=
  match parse_connection w (rc_xmlString raw) with
  | Ret (uid, callsign) =>
      Some (mkClientInformation uid callsign (rc_ip raw) (rc_socket raw) (rc_xmlString raw))
  | Exn _ => None
  end.

Definition save_client_to_db (ci : ClientInformation) : MC unit :=
  try: call w CDatabase ;;; emit (UserRow (ci_uid ci) (ci_callsign ci) (ci_IP ci))
  except: mret tt.

Definition create_client_connection (raw : RawConnectionInformation)
    : MC (TCPCoTConnection * ClientInformation) :=
  (* the log entry reads [clientInformation.modelObject] before the test for [-1] *)
  ci <- of_option AttributeError (instantiate_client_information raw) ;;
  save_client_to_db ci ;;;
  modify (set_queue (dset (ci_uid ci) (mkClient (ci_socket ci) (InfoClient ci :: entry_rest raw)))) ;;;
  call w CFactory ;;;
  let connection := mkTCPCoTConnection (ci_uid ci) (ci_socket ci) in
  modify (set_connections (dset (object_id w (ci_uid ci)) connection)) ;;;
  mret (connection, ci).

Definition connection_oid (c : TCPCoTConnection) : string := object_id w (tc_uid c).

Definition create_iam_request (c : TCPCoTConnection) : MC request :=
  call w CFactory ;;; mret (ConnectionRequest (connection_oid c)).
Definition create_send_repeated_messages_request (c : TCPCoTConnection) : MC request :=
  call w CFactory ;;; mret (RepeaterRequest (connection_oid c) [connection_oid c]).
Definition create_send_emergencies_request (c : TCPCoTConnection) : MC request :=
  call w CFactory ;;; mret (EmergenciesRequest (connection_oid c)).

(** [Marti.setdest] drops the [Dest] it is given and appends one without callsign. *)
Definition greeting_model (ci : ClientInformation) (dests : list (option string))
    (uuid : string) : model :=
  mkModel ("GeoChat.SERVER-UID." +:+ ci_callsign ci +:+ "." +:+ uuid)
    (Some (dests ++ [None])) (Some (Some (ci_uid ci))).

Definition send_user_connection_geo_chat (ci : ClientInformation) : MC unit :=
  match connection_message w with
  | None => mret tt
  | Some text =>
      m <- of_outcome (geochat_message w
             ("<event><point/><detail><remarks>" +:+ text +:+
              "</remarks><marti><dest/></marti></detail></event>")) ;;
      of_outcome (chat_uid m) ;;;
      dests <- of_outcome (marti_dests m) ;;
      n <- clock_tick ;;
      let d := greeting_model ci dests (uuid1 w n) in
      sendDataInQueue w SNone
        (mkMessage (m_type m) (m_clientInformation m) (Some (serialize w d)) (m_idData m)
           (Some (Some d))) false ;;;
      mret tt
  end.

(** * [ClientDisconnectionController] *)

(** [get_sock], [get_socks]. *)
Definition get_socks (uid : string) : MC (list (option nat)) :=
  c <- queue_get uid ;; of_outcome (entry_socks c).

Definition delete_client_connection (uid : string) : MC unit :=
  q <- gets (fun s => py_del uid (client_information_queue s)) ;;
  q <- of_option KeyError q ;;
  modify (set_queue (fun _ => q)) ;;;
  removeClientThread uid.

Definition disconnect_socket (k : nat) : MC unit :=
  (try: call w CShutdown ;;; emit (Shut k) except: mret tt) ;;;
  (try: call w CClose ;;; sock_close k except: mret tt).

(** What is no socket has neither method. *)
Definition disconnect_entry (k : option nat) : MC unit :=
  match k with Some k => disconnect_socket k | None => mret tt end.

Definition get_connection_id (uid : string) : MC string :=
  call w CFactory ;;; n <- gets now ;; mret (object_id_instance w n uid).

Definition create_iam_disconnect_request (connection_id : string) : MC request :=
  call w CFactory ;;; mret (DisconnectionRequest connection_id).

Definition send_disconnect_cot (uid : string) : MC unit :=
  m <- of_outcome (disconnect_message w
         ("<event><detail><link uid=" +:+ String (Ascii.ascii_of_nat 34) uid +:+
          String (Ascii.ascii_of_nat 34) "/></detail></event>")) ;;
  s <- of_option AttributeError (m_clientInformation m) ;;
  sendDataInQueue w s m false ;;; mret tt.

(** * Handlers of the service *)

Definition handle_disconnection (uid : string) : MC unit :=
  socks <- get_socks uid ;;
  delete_client_connection uid ;;;
  for_each socks disconnect_entry ;;;
  connection_id <- get_connection_id uid ;;
  r <- create_iam_disconnect_request connection_id ;;
  subject_send_request w r ;;;
  send_disconnect_cot uid.

(** The body of the [try] of [handle_connection]. *)
Definition enter_client (raw : RawConnectionInformation) : MC unit :=
  p <- create_client_connection raw ;;
  save_client_to_db p.2 ;;;
  r <- create_iam_request p.1 ;; subject_send_request w r ;;;
  r <- create_send_repeated_messages_request p.1 ;; subject_send_request w r ;;;
  r <- create_send_emergencies_request p.1 ;; subject_send_request w r ;;;
  send_user_connection_geo_chat p.2.

Definition handle_connection (output : option RawConnectionInformation) : MC pyval :=
  match output with
  | None => mret PNone
  | Some raw =>
      (try: enter_client raw except: mret tt) ;;;
      mret (PInt 1)
  end.

(** What the core knows of a client is appended to an entry that is but a socket, and
    takes the place of the information in one of the length the service gives it. *)
Definition merge_user (u : User) (c : client) : client :=
  match c_infos c with
  | [] => mkClient (c_sock c) [InfoUser u]
  | _ :: rest =>
      if bool_decide (length (c_infos c) + 1 = entry_length)%nat
      then mkClient (c_sock c) (InfoUser u :: rest) else c
  end.

Definition get_client_information : MC unit :=
  try:
    full <- gets (fun s => pipe_full w (now s)) ;;
    if full : bool then mret tt
    else
      call w CQueuePut ;;;
      n <- gets openSockets ;;
      emit (ToCore (mkOp "get" (IType service_type) n None)) ;;;
      t <- clock_tick ;;
      users <- of_outcome (core_reply w t) ;;
      keys <- gets (fun s => dkeys (client_information_queue s)) ;;
      for_each keys (fun client_id =>
        match dget client_id users with
        | Some u =>
            c <- queue_get client_id ;;
            modify (set_queue (dset client_id (merge_user u c)))
        | None => mret tt
        end)
  except: mret tt.

Definition component_handler (xml_cot : string) : MC unit :=
  t <- of_outcome (cot_type w xml_cot) ;;
  call w CFactory ;;;
  human <- of_outcome (human_readable_type w t) ;;
  subject_send_request w (CoTRequest human xml_cot).

(** [None] stands for an element that is [-1]: it has no [xmlString], which the log
    entries read. *)
Definition handle_regular_item (o : option RawCoT) : MC unit :=
  try:
    (if logged_first then of_option AttributeError o ;;; mret tt else mret tt) ;;;
    match o with
    | None => mret tt
    | Some d =>
        if bool_decide (raw_xmlString d = "") then handle_disconnection (raw_client d)
        else component_handler (raw_xmlString d)
    end
  except: (of_option AttributeError o ;;; mret tt).

Definition handle_regular_data (l : list (option RawCoT)) : MC pyval :=
  try: for_each l handle_regular_item ;;; mret (PInt 1)
  except: mret (PInt (-1)).

(** [use_share_pipe] is not used. *)
Definition send_message_from (s : sender) (m : message) (use_share_pipe : bool)
    : MC send_result := sendDataInQueue w s m true.

Definition handle_shared_data (m : message) : MC unit :=
  try:
    get_client_information ;;;
    modify count_from_core ;;;
    modify count_sent ;;;
    send_message_from (default SNone (m_clientInformation m)) m false ;;; mret tt
  except: mret tt.

Definition broadcast_component_responses (receiver : outcome (list response)) : MC unit :=
  responses <- of_outcome receiver ;;
  for_each responses (fun r =>
    try: for_each (r_messages r) (fun m => send_message w m (r_recipients r))
    except: mret tt).

(** * The main loop *)

Definition launch (j : job) : MC unit := emit (Launched j).

Definition receive_connection_part (t : turn) : MC unit :=
  try:
    if t_reset t then launch ListenJob
    else
      match t_connection t with
      | Pending => mret tt
      | Failed e => raise e
      | Done output =>
          modify count_connection ;;; launch ListenJob ;;;
          handle_connection output ;;; mret tt
      end
  except: mret tt.

Definition client_data_part (t : turn) : MC unit :=
  try:
    match t_data t with
    | Pending => mret tt
    | Failed e => raise e
    | Done (Some l) =>
        modify (count_received (Z.of_nat (length l))) ;;;
        handle_regular_data l ;;;
        get_client_information ;;;
        launch ReceptionJob
    | Done None => launch ReceptionJob ;;; raise External
    end
  except: mret tt.

Definition shared_data_part (t : turn) : MC unit :=
  try: for_each (take 100 (t_shared t)) handle_shared_data except: mret tt.

Definition responses_part (t : turn) : MC unit :=
  try: broadcast_component_responses (t_responses t) except: mret tt.

Definition main_turn (t : turn) : MC unit :=
  try:
    receive_connection_part t ;;;
    client_data_part t ;;;
    shared_data_part t ;;;
    responses_part t
  except: mret tt.

Definition stop : MC unit := call w CPoolTerminate ;;; emit Stopped.

(** The loop runs while the event is set, for the turns given; [late] says that the
    event was cleared between its two tests in the last turn. *)
Definition mainRunFunction (turns : list turn) (late : bool) : MC unit :=
  for_each turns main_turn ;;;
  (if late then try: stop except: mret tt else mret tt) ;;;
  stop.
End TcpService.

(** * The TCP service *)

(** [get_sock]: [client[0]]. *)
Definition get_sock (c : client) : nat := c_sock c.

(** An entry is a socket and an information; an empty reading is that of a client that
    is gone. *)
Definition tcp_service : CotService := {|
  service_type := TCP;
  entry_rest := fun _ => [];
  entry_length := 2;
  entry_socks := fun c => Ret [Some (get_sock c)];
  strip_received := strip_shortest;
  read_again := fun _ _ => mret "";
  logged_first := true |}.
