(* ===== verification/SslService.v ===== *)
(** The SSL CoT service ([services/ssl_cot_service]): the listener, which puts TLS around
    the connections it accepts, what the service does otherwise than the TCP one, and
    the operations the two share. *)
From stdpp Require Import base strings list.
From Stdlib Require Import ZArith Lia.
From S2P Require Import Prelude.
From S2P Require Import CotData.
From S2P Require Import FtsState.
From S2P Require Import Registry.
From S2P Require Import CotState.
From S2P Require Import SendData.
From S2P Require Import Reception.
From S2P Require Import TcpService.

Set Default Proof Using "Type".
Local Open Scope string_scope.
Local Open Scope list_scope.
Local Open Scope py_scope.

Section Ssl.
Context (w : world).
Abbreviation MC := (M cot).

(** * [ReceiveConnections] *)

(** There is no bound on the parts received. *)
Definition ssl_recv_until_delimiter (sock : nat) (delimiter : string) : MC string :=
  n <- gets (fun s => reads_left w (now s)) ;;
  recv_connection w (fun _ => true) n sock 0 delimiter "".

Definition ssl_receive_connection_data : nat -> MC connection_data :=
  receive_data_with w ssl_recv_until_delimiter.

(** [SSLSocketController().wrap_client_socket(client)]. *)
Definition wrap_client_socket (client : nat) : MC nat :=
  n <- clock_tick ;; of_outcome (wraps w n client).

(** [disconnect_socket]: a [shutdown] that raises leaves both sockets as they are. *)
Definition disconnect_pair (client ssl_client : nat) : MC unit :=
  call w CShutdown ;;; emit (Shut ssl_client) ;;;
  sock_close ssl_client ;;;
  sock_close client.

Definition ssl_instantiate_client_object (ip : string) (unwrapped_client client : nat)
    (d : connection_data) : outcome RawConnectionInformation :=
  match d with
  | TestSuccess => Exn AttributeError
  | Events _ [] => Exn IndexError
  | Events _ (e :: _) => Ret (mkRawConnection ip client (Some unwrapped_client) e)
  end.

Definition ssl_receive_twice (client ssl_client : nat) : MC (option connection_data) :=
  try_except (d <- ssl_receive_connection_data ssl_client ;; mret (Some d)) (fun _ =>
  try_except (d <- ssl_receive_connection_data ssl_client ;; mret (Some d)) (fun _ =>
  disconnect_pair client ssl_client ;;; mret None)).

(** [if events.text == TEST_SUCCESS]: the [str] of a test has no [text]. *)
Definition answer_test (ssl_client : nat) (d : connection_data) : MC unit :=
  match d with
  | TestSuccess => raise AttributeError
  | Events text _ =>
      if bool_decide (text = Some "success") then sock_send w ssl_client (Bytes "success")
      else mret tt
  end.

(** What [listen] does with a connection that TLS is around. *)
Definition ssl_serve (ip : string) (client ssl_client : nat)
    : MC (option RawConnectionInformation) :=
  d <- ssl_receive_twice client ssl_client ;;
  match d with
  | None => mret None
  | Some d =>
      answer_test ssl_client d ;;;
      r <- of_outcome (ssl_instantiate_client_object ip client ssl_client d) ;; mret (Some r)
  end.

(** [None] stands for [-1].  Where [accept] or [wrap_client_socket] fails there is no
    [ssl_client] yet: the last handler, which means to disconnect it, fails as well and
    keeps that to itself. *)
Definition ssl_listen : MC (option RawConnectionInformation) :=
  call w CListen ;;;
  n <- clock_tick ;;
  match accepts w n with
  | Exn e => if is_Exception e then mret None else raise e
  | Ret (ip, client) =>
      r <- (try: (k <- wrap_client_socket client ;; mret (Some k)) except: mret None) ;;
      match r with
      | None => mret None
      | Some ssl_client =>
          try: ssl_serve ip client ssl_client
          except: (try_with (disconnect_pair client ssl_client) (fun _ => mret tt) ;;; mret None)
      end
  end.

(** * [ClientReceptionHandler] *)

(** The loop of [validate_client_disconnect]: a client says something in the end, or it
    has gone. *)
Fixpoint validate_client_disconnect (n : nat) (sock : nat) : MC string :=
  match n with
  | O => mret ""
  | S n =>
      raw <- recv_until w sock ;;
      xmlstring <- of_outcome (decode w raw) ;;
      if bool_decide (xmlstring = "") then validate_client_disconnect n sock
      else mret xmlstring
  end.
End Ssl.

(** * The service *)

(** [get_socks]: [client[0], client[2]]; the second is shut first. *)
Definition ssl_get_socks (c : client) : outcome (list (option nat)) :=
  match c_infos c !! 1 with
  | None => Exn IndexError
  | Some (InfoSock k) => Ret [k; Some (c_sock c)]
  | Some _ => Ret [None; Some (c_sock c)]
  end.

(** An entry is the socket of TLS, an information and the socket under it. *)
Definition ssl_service : CotService := {|
  service_type := SSL;
  entry_rest := fun raw => [InfoSock (rc_unwrapped_sock raw)];
  entry_length := 3;
  entry_socks := ssl_get_socks;
  strip_received := strip_longest;
  read_again := fun w k => validate_client_disconnect w 2 k;
  logged_first := false |}.

(** ** Sending

    [SendDataController] and [SendComponentDataController] are those of the TCP
    service. *)

Definition ssl_has_valid_marti : message -> outcome bool := has_valid_marti.
Definition ssl_send_to_all : world -> message -> sender -> bool -> M cot send_result :=
  send_to_all.
Definition ssl_send_to_specific_client
    : world -> message -> sender -> bool -> M cot send_result := send_to_specific_client.
Definition ssl_geochat_sending : world -> message -> sender -> bool -> M cot send_result :=
  geochat_sending.
Definition ssl_sendDataInQueue : world -> sender -> message -> bool -> M cot send_result :=
  sendDataInQueue.
Definition ssl_determine_message_type : option (list string) -> MessageTypes :=
  determine_message_type.
Definition ssl_send_message_to_all : world -> payload -> M cot unit := send_message_to_all.
Definition ssl_send_message_to_some : world -> payload -> list string -> M cot unit :=
  send_message_to_some.
Definition ssl_send_component_message
    : world -> payload -> option (list string) -> M cot unit := send_message.

(** ** Connections, handlers and main loop *)

#[local] Existing Instance ssl_service.

Definition ssl_receive_client : world -> string -> nat -> M cot (list RawCoT) :=
  fun w => receive_client w.
Definition ssl_reception_startup : world -> M cot (option (list RawCoT)) :=
  fun w => reception_startup w.
Definition ssl_monitorForData : world -> M cot (option (list RawCoT)) :=
  fun w => monitorForData w.
Definition ssl_recv_until : world -> nat -> M cot string := recv_until.
Definition ssl_save_client_to_db : world -> ClientInformation -> M cot unit :=
  save_client_to_db.
Definition ssl_create_iam_request : world -> TCPCoTConnection -> M cot request :=
  create_iam_request.
Definition ssl_create_send_repeated_messages_request
    : world -> TCPCoTConnection -> M cot request := create_send_repeated_messages_request.
Definition ssl_create_send_emergencies_request
    : world -> TCPCoTConnection -> M cot request := create_send_emergencies_request.
Definition ssl_delete_client_connection : string -> M cot unit := delete_client_connection.
Definition ssl_get_connection_id : world -> string -> M cot string := get_connection_id.
Definition ssl_create_iam_disconnect_request : world -> string -> M cot request :=
  create_iam_disconnect_request.
Definition ssl_create_client_connection
    : world -> RawConnectionInformation -> M cot (TCPCoTConnection * ClientInformation) :=
  fun w => create_client_connection w.
Definition ssl_send_user_connection_geo_chat : world -> ClientInformation -> M cot unit :=
  fun w => send_user_connection_geo_chat w.
Definition ssl_send_disconnect_cot : world -> string -> M cot unit :=
  fun w => send_disconnect_cot w.
Definition ssl_disconnect_socket : world -> nat -> M cot unit :=
  fun w => disconnect_socket w.
Definition ssl_handle_disconnection : world -> string -> M cot unit :=
  fun w => handle_disconnection w.
Definition ssl_handle_connection
    : world -> option RawConnectionInformation -> M cot pyval :=
  fun w => handle_connection w.
Definition ssl_get_client_information : world -> M cot unit :=
  fun w => get_client_information w.
Definition ssl_component_handler : world -> string -> M cot unit :=
  fun w => component_handler w.
Definition ssl_handle_regular_data : world -> list (option RawCoT) -> M cot pyval :=
  fun w => handle_regular_data w.
Definition ssl_handle_shared_data : world -> message -> M cot unit :=
  fun w => handle_shared_data w.
Definition ssl_broadcast_component_responses
    : world -> outcome (list response) -> M cot unit :=
  fun w => broadcast_component_responses w.
Definition ssl_main_turn : world -> turn -> M cot unit :=
  fun w => main_turn w.
Definition ssl_mainRunFunction : world -> list turn -> bool -> M cot unit :=
  fun w => mainRunFunction w.
Definition new_SSLCoTServiceMain : cot := new_TCPCoTServiceMain.
