(* ===== verification/CotFacts.v ===== *)
(** Lemmas on the CoT services shared by their properties: how an invariant goes
    through their operations, which effects they have, which exceptions leave them, and
    the laws of what the two services do differently. *)
From stdpp Require Import base strings list.
From Stdlib Require Import ZArith Lia.
From S2P Require Import Prelude.
From S2P Require Import CotData.
From S2P Require Import FtsState.
From S2P Require Import Registry.
From S2P Require Import CotState.
From S2P Require Import SendData.
From S2P Require Import Reception.
From S2P Require Import TcpService.

Set Default Proof Using "Type".
Local Open Scope list_scope.
Local Open Scope py_scope.

(** * Invariants *)

(** What an invariant [I] has to survive where only sockets, queues and components are
    used: time and the effects [A] allows. *)
Class Calm (A : effect -> Prop) (I : cot -> Prop) : Prop := {
  st_tick s : I s -> I (tick_cot s);
  st_effect e s : A e -> I s -> I (add_effect e s) }.

(** What an invariant has to survive where the clients stay the same: also the counters
    of what is exchanged and the answers of the core. *)
Class Settled (w : world) {V : CotService} (A : effect -> Prop) (I : cot -> Prop) : Prop := {
  #[global] settled_calm :: Calm A I;
  st_count_sent s : I s -> I (count_sent s);
  st_count_from_core s : I s -> I (count_from_core s);
  st_merge t users uid u c s : I s -> core_reply w t = Ret users -> dget uid users = Some u ->
    dget uid (client_information_queue s) = Some c ->
    I (set_queue (dset uid (merge_user u c)) s) }.

(** What is made of a connection has its socket and the uid read from it. *)
Lemma instantiate_introduces w raw ci :
  instantiate_client_information w raw = Some ci ->
  parse_connection w (rc_xmlString raw) = Ret (ci_uid ci, ci_callsign ci) /\
  ci_socket ci = rc_socket raw.
Proof.
  unfold instantiate_client_information.
  destruct (parse_connection w (rc_xmlString raw)) as [[u c]|]; [|discriminate].
  by intros [= <-].
Qed.

(** The connection a turn has found, which the main loop looks at unless a reset of the
    listener is asked for. *)
Definition arrival_of (t : turn) : option RawConnectionInformation :=
  if t_reset t then None else match t_connection t with Done o => o | _ => None end.

(** What an invariant of the service has to survive: also the changes of the tables, the
    connections being those of [R]. *)
Class Stable (w : world) {V : CotService} (R : RawConnectionInformation -> Prop)
    (A : effect -> Prop) (I : cot -> Prop) : Prop := {
  stable_settled : Settled w A I;
  st_count_connection s : I s -> I (count_connection s);
  st_count_received n s : I s -> I (count_received n s);
  st_connect ci raw s : I s -> R raw -> instantiate_client_information w raw = Some ci ->
    I (set_queue (dset (ci_uid ci)
        (mkClient (ci_socket ci) (InfoClient ci :: entry_rest raw))) s);
  st_register ci raw s : I s -> R raw -> instantiate_client_information w raw = Some ci ->
    I (set_connections (dset (object_id w (ci_uid ci))
        (mkTCPCoTConnection (ci_uid ci) (ci_socket ci))) s);
  st_delete uid s : I s -> I (set_queue (ddel uid) s);
  st_threads uid s : I s -> I (set_threads (remove_client_thread uid) s) }.

#[export] Hint Extern 1 (Settled _ _ _) =>
  match goal with H : Stable _ _ _ _ |- _ => exact (stable_settled (Stable := H)) end : typeclass_instances.

(** The effects a sending method may have. *)
Definition sending (e : effect) : Prop :=
  match e with Delivered _ _ | Shared _ | SharedList _ => True | _ => False end.

(** The request of a service for its users. *)
Definition asking {V : CotService} (e : effect) : Prop :=
  match e with
  | ToCore op => op_name op = "get"%string /\ op_arg op = IType service_type
  | _ => False
  end.

(** The effects the handlers may have. *)
Definition handler_effect {V : CotService} (e : effect) : Prop :=
  match e with
  | ToCore _ => asking e
  | Stopped | Launched _ => False
  | _ => True
  end.

Lemma asking_handler {V : CotService} e : asking e -> handler_effect e.
Proof. by destruct e. Qed.

Lemma preserves_bind_of_option {S A B} (I : S -> Prop) e (o : option A) (k : A -> M S B) :
  (forall a, o = Some a -> preserves I (k a)) -> preserves I (of_option e o ≫= k).
Proof. intros H s Hs. destruct o as [a|]; [exact (H a eq_refl s Hs)|exact Hs]. Qed.

Section invariants.
Context (w : world) {A : effect -> Prop} {I : cot -> Prop} `{Ca : !Calm A I}.

Lemma preserves_emit e : A e -> preserves I (emit e).
Proof using Ca. intros He. apply preserves_modify. intros s. by apply st_effect. Qed.

Lemma preserves_clock_tick : preserves I clock_tick.
Proof using Ca.
  unfold clock_tick. repeat py_step. apply preserves_modify, st_tick.
Qed.

Lemma preserves_call c : preserves I (call w c).
Proof using Ca.
  unfold call. py_step; [apply preserves_clock_tick|]. repeat py_step.
Qed.

Lemma preserves_sock_send k d :
  (forall b, A (Delivered k b)) -> preserves I (sock_send w k d).
Proof using Ca.
  intros HA. unfold sock_send. py_step; [apply preserves_clock_tick|].
  repeat py_step. by apply preserves_emit.
Qed.

Lemma preserves_sock_recv k : preserves I (sock_recv w k).
Proof using Ca.
  unfold sock_recv. py_step; [apply preserves_clock_tick|]. repeat py_step.
Qed.

Lemma preserves_share_put e : A e -> preserves I (share_put w e).
Proof using Ca.
  intros He. unfold share_put. repeat py_step; [apply preserves_call|by apply preserves_emit].
Qed.

Lemma preserves_queue_get uid : preserves I (queue_get uid).
Proof. unfold queue_get. repeat py_step. Qed.

Lemma preserves_client_info c : preserves I (client_info c).
Proof. unfold client_info. repeat py_step. Qed.

Lemma preserves_info_presence i : preserves I (info_presence i).
Proof. unfold info_presence. repeat py_step. Qed.

Lemma preserves_message_xml m : preserves I (message_xml m).
Proof. unfold message_xml. repeat py_step. Qed.

Lemma preserves_subject_send_request r :
  A (Requested r) -> preserves I (subject_send_request w r).
Proof using Ca.
  intros HA. unfold subject_send_request. repeat py_step;
    [apply preserves_call|by apply preserves_emit].
Qed.

Hypothesis A_sending : forall e, sending e -> A e.

Ltac walk := repeat first
  [ py_step
  | apply preserves_call | apply preserves_clock_tick | apply preserves_queue_get
  | apply preserves_client_info | apply preserves_info_presence
  | apply preserves_message_xml | apply preserves_sock_recv
  | apply preserves_sock_send; intros ? | apply preserves_share_put
  | apply preserves_emit | apply preserves_subject_send_request
  | solve [auto; by apply A_sending] ].

Lemma preserves_share_message b m : preserves I (share_message w b m).
Proof using Ca A_sending. unfold share_message. walk. Qed.

Lemma preserves_send_encoded k d : preserves I (send_encoded w k d).
Proof using Ca A_sending. unfold send_encoded. walk. Qed.

Lemma preserves_send_to_all m s b : preserves I (send_to_all w m s b).
Proof using Ca A_sending.
  unfold send_to_all. repeat first [apply preserves_send_encoded|apply preserves_share_message|progress walk].
Qed.

Lemma preserves_send_xml_to m c : preserves I (send_xml_to w m c).
Proof using Ca A_sending. unfold send_xml_to. walk. Qed.

Lemma preserves_send_to_specific_client m s b :
  preserves I (send_to_specific_client w m s b).
Proof using Ca A_sending.
  unfold send_to_specific_client, send_to_dest.
  repeat first [apply preserves_send_to_all|apply preserves_share_message
    |apply preserves_send_xml_to|progress walk].
Qed.

Lemma preserves_geochat_sending m s b : preserves I (geochat_sending w m s b).
Proof using Ca A_sending.
  unfold geochat_sending.
  repeat first [apply preserves_send_to_all|apply preserves_share_message
    |apply preserves_send_xml_to|progress walk].
Qed.

Lemma preserves_introduce m k b : preserves I (introduce w m k b).
Proof using Ca A_sending. unfold introduce. walk. Qed.

Lemma preserves_sendDataInQueue s m b : preserves I (sendDataInQueue w s m b).
Proof using Ca A_sending.
  unfold sendDataInQueue.
  repeat first [apply preserves_geochat_sending|apply preserves_introduce
    |apply preserves_send_to_specific_client|apply preserves_send_to_all|progress walk].
Qed.

Lemma preserves_send_message m r : preserves I (send_message w m r).
Proof using Ca A_sending.
  unfold send_message, send_message_to_all, send_message_to_some, send_to_connection. walk.
Qed.

(** ** What is exchanged *)

Section exchanged.
Context {V : CotService} `{Se : !Settled w A I}.
Hypothesis A_asking : forall e, asking e -> A e.

Ltac walk1 := repeat first
  [ progress walk
  | apply preserves_sendDataInQueue | apply preserves_send_message
  | solve [auto; by apply A_asking] ].

Lemma preserves_merge t users uid :
  core_reply w t = Ret users ->
  preserves I (match dget uid users with
               | Some u =>
                   c <- queue_get uid ;;
                   modify (set_queue (dset uid (merge_user u c)))
               | None => mret tt
               end).
Proof using Ca Se.
  intros Ht s Hs. destruct (dget uid users) as [u|] eqn:Eu; [|exact Hs].
  unfold queue_get. py_run.
  destruct (dget uid (client_information_queue s)) as [c|] eqn:Ec; [|exact Hs].
  exact (st_merge t users uid u c s Hs Ht Eu Ec).
Qed.

Lemma preserves_get_client_information : preserves I (get_client_information w).
Proof using Ca Se A_asking.
  unfold get_client_information. apply preserves_try_except; [|intros ?; walk1].
  py_step; [walk1|]. destruct a; [walk1|]. do 4 (py_step; [walk1|]).
  match goal with |- context [core_reply w ?t] => rename t into asked end.
  intros s Hs. cbv [mbind M_bind of_outcome].
  destruct (core_reply w asked) as [users|e] eqn:Ht; [|exact Hs].
  revert s Hs. apply preserves_bind; [walk1|]. intros keys.
  apply preserves_for_each. intros uid _. exact (preserves_merge _ _ uid Ht).
Qed.

Lemma preserves_handle_shared_data m : preserves I (handle_shared_data w m).
Proof using Ca Se A_sending A_asking.
  unfold handle_shared_data, send_message_from. walk1.
  - apply preserves_get_client_information.
  - apply preserves_modify, st_count_from_core.
  - apply preserves_modify, st_count_sent.
Qed.

Lemma preserves_shared_data_part t : preserves I (shared_data_part w t).
Proof using Ca Se A_sending A_asking.
  unfold shared_data_part. repeat first [apply preserves_handle_shared_data|py_step].
Qed.

End exchanged.

(** ** Handlers *)

Context {V : CotService} {R : RawConnectionInformation -> Prop} `{St : !Stable w R A I}.
Hypothesis A_handler : forall e, handler_effect e -> A e.

Lemma asking_allowed e : asking e -> A e.
Proof using A_handler. intros H. by apply A_handler, asking_handler. Qed.

Ltac walk2 := repeat first
  [ progress walk
  | apply preserves_sendDataInQueue | apply preserves_send_message
  | solve [auto; by apply A_handler] ].

Lemma preserves_save_client_to_db ci : preserves I (save_client_to_db w ci).
Proof using Ca A_handler. unfold save_client_to_db. walk2. Qed.

Lemma preserves_create_client_connection raw :
  R raw -> preserves I (create_client_connection w raw).
Proof using Ca St A_handler.
  intros Hr. unfold create_client_connection.
  apply preserves_bind_of_option. intros ci E.
  walk2.
  - apply preserves_save_client_to_db.
  - apply preserves_modify. intros s Hs. by apply st_connect.
  - apply preserves_modify. intros s Hs. by apply (st_register ci raw).
Qed.

Lemma preserves_send_user_connection_geo_chat ci :
  preserves I (send_user_connection_geo_chat w ci).
Proof using Ca A_sending. unfold send_user_connection_geo_chat. walk2. Qed.

Lemma preserves_handle_connection o :
  (forall raw, o = Some raw -> R raw) -> preserves I (handle_connection w o).
Proof using Ca St A_sending A_handler.
  intros Hr. unfold handle_connection.
  destruct o as [raw|]; [specialize (Hr raw eq_refl)|py_step]. unfold enter_client, create_iam_request, create_send_repeated_messages_request,
    create_send_emergencies_request.
  repeat first [by apply preserves_create_client_connection|apply preserves_save_client_to_db
    |apply preserves_send_user_connection_geo_chat|progress walk2].
Qed.

Lemma preserves_delete_client_connection uid : preserves I (delete_client_connection uid).
Proof using Ca St.
  intros s Hs. unfold delete_client_connection, removeClientThread, py_del. py_run.
  destruct (dget uid (client_information_queue s)); [|exact Hs].
  apply st_threads. exact (st_delete uid s Hs).
Qed.

Lemma preserves_disconnect_socket k : preserves I (disconnect_socket w k).
Proof using Ca A_handler. unfold disconnect_socket, sock_close. walk2. Qed.

Lemma preserves_disconnect_entry k : preserves I (disconnect_entry w k).
Proof using Ca A_handler.
  destruct k; [apply preserves_disconnect_socket|apply preserves_ret].
Qed.

Lemma preserves_handle_disconnection uid : preserves I (handle_disconnection w uid).
Proof using Ca St A_sending A_handler.
  unfold handle_disconnection, get_socks, get_connection_id, create_iam_disconnect_request,
    send_disconnect_cot.
  repeat first [apply preserves_delete_client_connection|apply preserves_disconnect_entry|progress walk2].
Qed.

Lemma preserves_component_handler x : preserves I (component_handler w x).
Proof using Ca A_handler. unfold component_handler. walk2. Qed.

Lemma preserves_handle_regular_data l : preserves I (handle_regular_data w l).
Proof using Ca St A_sending A_handler.
  unfold handle_regular_data, handle_regular_item.
  repeat first [apply preserves_handle_disconnection|apply preserves_component_handler|progress walk2].
Qed.

Lemma preserves_main_turn t :
  (forall raw, arrival_of t = Some raw -> R raw) ->
  (forall j, A (Launched j)) -> preserves I (main_turn w t).
Proof using Ca St A_sending A_handler.
  unfold arrival_of. intros Hr A_launch.
  unfold main_turn, receive_connection_part, client_data_part, shared_data_part,
    responses_part, broadcast_component_responses, launch.
  destruct (t_reset t), (t_connection t).
  all: repeat first [apply preserves_handle_connection; intros raw ->; by apply Hr
    |apply preserves_handle_regular_data
    |apply (preserves_get_client_information asking_allowed)
    |apply (preserves_handle_shared_data asking_allowed)
    |apply preserves_modify, st_count_connection
    |apply preserves_modify; intros ?; apply st_count_received|progress walk2].
Qed.
End invariants.

(** * Runs as equations *)

(** [n] instants later, with the effects [es]. *)
Definition advance (es : list effect) (n : nat) (s : cot) : cot :=
  mkCot (client_information_queue s) (cot_connections s) (thread_array s) (openSockets s)
    (connection_received s) (received_message_count s) (sent_message_count s)
    (messages_from_core_count s) (trace s ++ es) (n + now s).

Lemma advance_advance es n es' n' s :
  advance es' n' (advance es n s) = advance (es ++ es') (n + n') s.
Proof. unfold advance. cbn. f_equal; [by rewrite app_assoc|lia]. Qed.

Lemma advance_0 s : advance [] 0 s = s.
Proof. destruct s. unfold advance. cbn. by rewrite app_nil_r. Qed.

Lemma tick_advance s : tick_cot s = advance [] 1 s.
Proof. destruct s. unfold tick_cot, advance. cbn. by rewrite app_nil_r. Qed.

Lemma effect_advance e s : add_effect e s = advance [e] 0 s.
Proof. done. Qed.

Lemma emit_run e s : emit e s = (Ret tt, advance [e] 0 s).
Proof. done. Qed.

(** * Reading *)

(** [m] takes time and does nothing else. *)
Definition waits {A} (m : M cot A) : Prop := forall s, exists n, (m s).2 = advance [] n s.

Lemma waits_ret {A} (a : A) : waits (mret a).
Proof. intros s. exists 0. by rewrite advance_0. Qed.

Lemma waits_of_outcome {A} (o : outcome A) : waits (of_outcome o).
Proof. intros s. exists 0. by rewrite advance_0. Qed.

Lemma waits_raise {A} e : waits (raise e : M cot A).
Proof. intros s. exists 0. by rewrite advance_0. Qed.

Lemma waits_gets {A} (f : cot -> A) : waits (gets f).
Proof. intros s. exists 0. by rewrite advance_0. Qed.

Lemma waits_bind {A B} (m : M cot A) (k : A -> M cot B) :
  waits m -> (forall a, waits (k a)) -> waits (m ≫= k).
Proof.
  intros Hm Hk s. destruct (Hm s) as [n Hn]. cbv [mbind M_bind].
  destruct (m s) as [[a|e] s1]; cbn in Hn; subst s1; [|by exists n].
  destruct (Hk a (advance [] n s)) as [n' ->]. exists (n + n'). by rewrite advance_advance.
Qed.

Lemma waits_try_with {A} (m : M cot A) h :
  waits m -> (forall e, waits (h e)) -> waits (try_with m h).
Proof.
  intros Hm Hh s. destruct (Hm s) as [n Hn]. unfold try_with.
  destruct (m s) as [[a|e] s1]; cbn in Hn; subst s1; [by exists n|].
  destruct (Hh e (advance [] n s)) as [n' ->]. exists (n + n'). by rewrite advance_advance.
Qed.

Lemma waits_try_except {A} (m : M cot A) h :
  waits m -> (forall e, waits (h e)) -> waits (try_except m h).
Proof.
  intros Hm Hh. apply waits_try_with; [done|]. intros e.
  destruct (is_Exception e); [apply Hh|apply waits_raise].
Qed.

Section reading.
Context (w : world).

Lemma waits_sock_recv k : waits (sock_recv w k).
Proof.
  unfold sock_recv. apply waits_bind.
  - intros s. exists 1. unfold clock_tick. py_run. cbn. by rewrite tick_advance.
  - intros n. apply waits_bind; [apply waits_gets|]. intros []; [apply waits_raise|].
    apply waits_of_outcome.
Qed.

Lemma waits_recv_more n k msg : waits (recv_more w n k msg).
Proof.
  revert msg. induction n as [|n IH]; intros msg; [apply waits_ret|]. cbn [recv_more].
  apply waits_bind; [|intros [part|]; [apply IH|apply waits_ret]].
  apply waits_try_except; [|intros _; apply waits_ret].
  apply waits_bind; [apply waits_sock_recv|intros part; apply waits_ret].
Qed.

Lemma waits_recv_until k : waits (recv_until w k).
Proof.
  unfold recv_until. apply waits_bind; [apply waits_sock_recv|intros msg].
  apply waits_bind; [apply waits_gets|intros n]. apply waits_recv_more.
Qed.

End reading.

(** * Exceptions *)

(** Nothing the service calls raises but [Exception]s. *)
Record polite (w : world) : Prop := mkPolite {
  po_takes n k b e : takes w n k b = Exn e -> is_Exception e = true;
  po_receives n k e : receives w n k = Exn e -> is_Exception e = true;
  po_accepts n e : accepts w n = Exn e -> is_Exception e = true;
  po_wraps n k e : wraps w n k = Exn e -> is_Exception e = true;
  po_raises n c e : raises w n c = Some e -> is_Exception e = true;
  po_core_reply n e : core_reply w n = Exn e -> is_Exception e = true;
  po_decode b e : decode w b = Exn e -> is_Exception e = true;
  po_received_events x e : received_events w x = Exn e -> is_Exception e = true;
  po_connection_events x e : connection_events w x = Exn e -> is_Exception e = true;
  po_cot_type x e : cot_type w x = Exn e -> is_Exception e = true;
  po_human x e : human_readable_type w x = Exn e -> is_Exception e = true;
  po_disconnect x e : disconnect_message w x = Exn e -> is_Exception e = true;
  po_geochat x e : geochat_message w x = Exn e -> is_Exception e = true }.

Lemma benign_of_outcome {S A} (o : outcome A) :
  (forall e, o = Exn e -> is_Exception e = true) -> benign (of_outcome o : M S A).
Proof. intros H s e s' E. injection E as E <-. by apply H. Qed.

Lemma benign_for_return {S A R} (l : list A) (f : A -> M S (option R)) :
  (forall a, benign (f a)) -> benign (for_return l f).
Proof.
  intros Hf. induction l as [|a l IH]; [apply benign_total, total_ret|].
  apply benign_bind; [apply Hf|]. intros [r|]; [apply benign_total, total_ret|exact IH].
Qed.

Lemma message_outcomes m e :
  message_detail m = Exn e \/ chat_uid m = Exn e \/ marti_dests m = Exn e \/
  has_valid_marti m = Exn e \/ has_direct_chat m = Exn e -> is_Exception e = true.
Proof.
  unfold chat_uid, marti_dests, has_valid_marti, has_direct_chat, message_detail.
  intros H. destruct (m_model m) as [[d|]|]; repeat case_match; destruct_or?; by simplify_eq.
Qed.

Lemma encode_outcomes p e : encode p = Exn e -> is_Exception e = true.
Proof. destruct p; simpl; intros; by simplify_eq. Qed.

(** The laws of a service: the core may replace the information of an entry the service
    made, such an entry can be shut, its socket with it, and reading again but takes
    time and raises but [Exception]s. *)
Class CotServiceLaws (V : CotService) : Prop := {
  law_length raw : entry_length = S (S (length (entry_rest raw)));
  law_socks k i raw :
    exists l, entry_socks (mkClient k (i :: entry_rest raw)) = Ret l /\ Some k ∈ l;
  law_socks_benign c e : entry_socks c = Exn e -> is_Exception e = true;
  law_again_waits w k : waits (read_again w k);
  law_again_benign w k : polite w -> benign (read_again w k) }.

Section exceptions.
Context (w : world) {V : CotService} `{L : !CotServiceLaws V} (Po : polite w).

Ltac outcome := first
  [ apply benign_of_outcome; let e := fresh in let E := fresh in intros e E;
    first [ by apply (po_takes w Po) in E | by apply (po_receives w Po) in E
      | by apply (po_core_reply w Po) in E | by apply (po_decode w Po) in E
      | by apply (po_received_events w Po) in E | by apply (po_connection_events w Po) in E
      | by apply (po_cot_type w Po) in E | by apply (po_human w Po) in E
      | by apply (po_disconnect w Po) in E | by apply (po_geochat w Po) in E
      | by apply encode_outcomes in E
      | match type of E with _ ?m = _ => apply (message_outcomes m); tauto end ]
  | apply benign_for_return; intros ? ].

Lemma benign_call c : benign (call w c).
Proof using Po.
  unfold call, clock_tick. apply benign_bind; [repeat py_step|intros n].
  destruct (raises w n c) as [e|] eqn:E; [|repeat py_step].
  apply benign_raise. exact (po_raises w Po _ _ _ E).
Qed.

Lemma benign_sock_send k d : benign (sock_send w k d).
Proof using Po. unfold sock_send, clock_tick, emit. repeat first [py_step|outcome]. Qed.

Lemma benign_sock_recv k : benign (sock_recv w k).
Proof using Po. unfold sock_recv, clock_tick. repeat first [py_step|outcome]. Qed.

Lemma benign_share_put e : benign (share_put w e).
Proof using Po.
  unfold share_put, emit. repeat first [apply benign_call|py_step].
Qed.

Lemma benign_send_encoded k d : benign (send_encoded w k d).
Proof using Po.
  intros s e s' E. unfold send_encoded, try_with in E.
  destruct (sock_send w k d s) as [[a|x] s1] eqn:E1; [discriminate|].
  case_decide.
  - revert E. apply (benign_bind (of_outcome (encode d))); [outcome|].
    intros p. apply benign_sock_send.
  - injection E as <- <-. exact (benign_sock_send _ _ _ _ _ E1).
Qed.

Ltac walk := repeat first
  [ apply benign_call | apply benign_sock_send | apply benign_sock_recv
  | apply benign_share_put | apply benign_send_encoded | py_step | outcome ].

Lemma benign_share_message b m : benign (share_message w b m).
Proof using Po. unfold share_message. walk. Qed.

Lemma benign_send_to_all m s b : benign (send_to_all w m s b).
Proof using Po.
  unfold send_to_all, client_info. repeat first [apply benign_share_message|progress walk].
Qed.

Lemma benign_send_xml_to m c : benign (send_xml_to w m c).
Proof using Po. unfold send_xml_to, message_xml, client_info. walk. Qed.

Lemma benign_send_to_specific_client m s b : benign (send_to_specific_client w m s b).
Proof using Po.
  unfold send_to_specific_client, send_to_dest, client_info, info_presence, message_xml.
  repeat first [apply benign_send_to_all|apply benign_share_message
    |apply benign_send_xml_to|progress walk].
Qed.

Lemma benign_geochat_sending m s b : benign (geochat_sending w m s b).
Proof using Po.
  unfold geochat_sending, message_xml.
  repeat first [apply benign_send_to_all|apply benign_share_message
    |apply benign_send_xml_to|progress walk].
Qed.

Lemma benign_introduce m k b : benign (introduce w m k b).
Proof using Po. unfold introduce, client_info, info_presence. walk. Qed.

Lemma total_sendDataInQueue s m b : total (sendDataInQueue w s m b).
Proof using Po.
  unfold sendDataInQueue. apply total_try_except; [|intros _; apply total_ret].
  repeat first [apply benign_geochat_sending|apply benign_introduce
    |apply benign_send_to_specific_client|apply benign_send_to_all|progress walk].
Qed.

Lemma benign_sendDataInQueue s m b : benign (sendDataInQueue w s m b).
Proof using Po. apply benign_total, total_sendDataInQueue. Qed.

Lemma benign_send_message m r : benign (send_message w m r).
Proof using Po.
  assert (H : forall c, benign (send_to_connection w m c)).
  { intros c s e s' E. unfold send_to_connection, try_with in E.
    destruct (sock_send w (tc_sock c) m s) as [[a|x] s1] eqn:E1; [discriminate|].
    destruct (is_OSError x); [discriminate|].
    injection E as <- <-. exact (benign_sock_send _ _ _ _ _ E1). }
  unfold send_message, send_message_to_all, send_message_to_some.
  repeat first [apply H|progress walk].
Qed.

Lemma total_get_client_information : total (get_client_information w).
Proof using Po.
  unfold get_client_information. apply total_try_except; [|intros _; apply total_ret].
  unfold clock_tick, queue_get, emit. walk.
Qed.

Lemma total_save_client_to_db ci : total (save_client_to_db w ci).
Proof using Po.
  unfold save_client_to_db, emit. apply total_try_except; [walk|intros _; apply total_ret].
Qed.

Lemma benign_subject_send_request r : benign (subject_send_request w r).
Proof using Po. unfold subject_send_request, emit. walk. Qed.

Lemma total_disconnect_socket k : total (disconnect_socket w k).
Proof using Po.
  unfold disconnect_socket, emit, sock_close, emit.
  apply total_bind; [|intros _]; (apply total_try_except; [walk|intros _; apply total_ret]).
Qed.

Lemma total_disconnect_entry k : total (disconnect_entry w k).
Proof using Po. destruct k; [apply total_disconnect_socket|apply total_ret]. Qed.

Ltac walk2 := repeat first
  [ apply benign_subject_send_request | apply benign_sendDataInQueue
  | apply benign_total, total_save_client_to_db
  | apply benign_total, total_disconnect_entry
  | progress walk ].

Lemma benign_send_user_connection_geo_chat ci :
  benign (send_user_connection_geo_chat w ci).
Proof using Po. unfold send_user_connection_geo_chat, clock_tick. walk2. Qed.

Lemma total_handle_connection o : total (handle_connection w o).
Proof using Po.
  unfold handle_connection. destruct o as [raw|]; [|apply total_ret].
  apply total_bind; [|intros _; apply total_ret].
  apply total_try_except; [|intros _; apply total_ret].
  unfold enter_client, create_client_connection, create_iam_request, create_send_repeated_messages_request,
    create_send_emergencies_request, send_user_connection_geo_chat, clock_tick.
  walk2.
Qed.

Lemma benign_handle_disconnection uid : benign (handle_disconnection w uid).
Proof using Po L.
  unfold handle_disconnection, get_socks, queue_get, delete_client_connection,
    removeClientThread, get_connection_id, create_iam_disconnect_request,
    send_disconnect_cot.
  repeat first [apply benign_of_outcome; by apply law_socks_benign|progress walk2].
Qed.

Lemma total_handle_regular_data l : total (handle_regular_data w l).
Proof using Po L.
  unfold handle_regular_data. apply total_try_except; [|intros _; apply total_ret].
  unfold handle_regular_item, component_handler.
  repeat first [apply benign_handle_disconnection|progress walk2].
Qed.

Lemma total_handle_shared_data m : total (handle_shared_data w m).
Proof using Po.
  unfold handle_shared_data, send_message_from.
  apply total_try_except; [|intros _; apply total_ret].
  repeat first [apply benign_total, total_get_client_information|progress walk2].
Qed.

Lemma benign_broadcast r :
  (forall e, r = Exn e -> is_Exception e = true) ->
  benign (broadcast_component_responses w r).
Proof using Po.
  intros Hr. unfold broadcast_component_responses.
  apply benign_bind; [by apply benign_of_outcome|intros l].
  repeat first [apply benign_send_message|progress walk2].
Qed.
End exceptions.

#[export] Instance tcp_laws : CotServiceLaws tcp_service.
Proof.
  split; try done.
  - intros k i raw. eexists. split; [done|]. left.
  - intros w k. apply waits_ret.
Qed.

(** * A world to try things in *)

Definition short_message (t : string) (x : string) (d : model) : message :=
  mkMessage t (Some SNone) (Some (Bytes x)) None (Some (Some d)).

(** Nothing raises, sockets take what they are given and have nothing to say, and the
    core knows nobody. *)
Definition quiet_world : world := {|
  takes := fun _ _ b => Ret (Stdlib.Strings.String.length b);
  receives := fun _ _ => Exn TimeoutError;
  accepts := fun _ => Ret ("10.0.0.7"%string, 7);
  wraps := fun _ k => Ret (100 + k);
  reads_left := fun _ => 5;
  raises := fun _ _ => None;
  core_reply := fun _ => Ret [];
  pipe_full := fun _ => false;
  decode := Ret;
  received_events := fun x => Ret [x];
  connection_events := fun x => Ret [x];
  connection_text := fun _ => None;
  parse_connection := fun x => Ret (x, "ALPHA"%string);
  cot_type := fun _ => Ret "a-f-G-U-C"%string;
  human_readable_type := Ret;
  uuid1 := fun _ => "0001"%string;
  object_id := String.append "connection:";
  object_id_instance := fun _ => String.append "connection:";
  disconnect_message := fun x => Ret (short_message "Disconnect" x (mkModel "D" None None));
  geochat_message := fun x =>
    Ret (short_message "GeoChat" x (mkModel "G" (Some [None]) (Some None)));
  serialize := fun _ => Bytes "<event/>";
  connection_message := None |}.

Lemma quiet_polite : polite quiet_world.
Proof. split; intros; simplify_eq/=; done. Qed.

Definition client_A : ClientInformation := mkClientInformation "A" "ALPHA" "10.0.0.1" 1 "<a/>".
Definition client_B : ClientInformation := mkClientInformation "B" "BRAVO" "10.0.0.2" 2 "<b/>".

(** Two clients are connected. *)
Definition two_clients : cot :=
  mkCot
    [("A"%string, mkClient 1 [InfoClient client_A]); ("B"%string, mkClient 2 [InfoClient client_B])]
    [("connection:A"%string, mkTCPCoTConnection "A" 1);
     ("connection:B"%string, mkTCPCoTConnection "B" 2)]
    [] 0 0 0 0 0 [] 0.

(** A client connects. *)
Definition arrival : turn :=
  mkTurn false (Done (Some (mkRawConnection "10.0.0.7" 7 None "C"))) Pending [] (Ret []).
