(* ===== verification/CotRun.v ===== *)
(** Properties of runs of the CoT services: its tables, what the core learns of its
    clients, the jobs it keeps going. *)
From stdpp Require Import base strings list sets.
From Stdlib Require Import ZArith Lia.
From S2P Require Import Prelude.
From S2P Require Import CotData.
From S2P Require Import FtsState.
From S2P Require Import Registry.
From S2P Require Import RegistryFacts.
From S2P Require Import CotState.
From S2P Require Import SendData.
From S2P Require Import Reception.
From S2P Require Import TcpService.
From S2P Require Import CotFacts.

Set Default Proof Using "Type".
Local Open Scope string_scope.
Local Open Scope list_scope.
Local Open Scope py_scope.

(** The state a run of the main loop ends in. *)
Definition after_run (w : world) {V : CotService} (turns : list turn) (late : bool) : cot :=
  (mainRunFunction w turns late new_TCPCoTServiceMain).2.

(** The connections that came in the turns, and of which client. *)
Definition arrivals (turns : list turn) : list RawConnectionInformation :=
  omap arrival_of turns.
Definition came_as (w : world) (turns : list turn) (uid : string)
    (raw : RawConnectionInformation) : Prop :=
  raw ∈ arrivals turns /\
  exists callsign, parse_connection w (rc_xmlString raw) = Ret (uid, callsign).

Lemma run_stable w {V : CotService} {A : effect -> Prop} {I : cot -> Prop} turns
    `{!Stable w (fun raw => raw ∈ arrivals turns) A I} late :
  (forall e, sending e -> A e) -> (forall e, handler_effect e -> A e) ->
  (forall j, A (Launched j)) -> A Stopped -> I new_TCPCoTServiceMain -> I (after_run w turns late).
Proof.
  intros H1 H2 H4 H3 H0. unfold after_run. revert H0. generalize new_TCPCoTServiceMain.
  assert (Hs : preserves I (stop w)).
  { unfold stop. apply preserves_bind; [exact (preserves_call w _)|intros _].
    exact (preserves_emit _ H3). }
  unfold mainRunFunction. apply preserves_bind; [|intros _; apply preserves_bind].
  - apply preserves_for_each. intros t Ht. apply (preserves_main_turn w H1 H2 t); [|exact H4].
    intros raw Hraw. apply list_elem_of_omap. by exists t.
  - destruct late; [|apply preserves_ret].
    apply preserves_try_except; [exact Hs|intros _; apply preserves_ret].
  - intros _. exact Hs.
Qed.

(** * The tables *)

(** An entry of [client_information_queue] belongs to a connection of its client that
    came in one of the turns: it has the socket of that connection, then what the client
    connected with or what the core has answered for it, and then what the service
    adds for that connection. *)
Definition entry_ok (w : world) {V : CotService} (turns : list turn) (p : string * client)
    : Prop :=
  exists raw i, came_as w turns p.1 raw /\
    p.2 = mkClient (rc_socket raw) (i :: entry_rest raw) /\
    match i with
    | InfoClient ci => instantiate_client_information w raw = Some ci
    | InfoUser u => exists t users, core_reply w t = Ret users /\ dget p.1 users = Some u
    | InfoSock _ => False
    end.

(** An entry of [connections] is that of a client, with the socket of such a connection,
    under the object id of its uid. *)
Definition connection_ok (w : world) (turns : list turn) (p : string * TCPCoTConnection)
    : Prop :=
  exists raw, came_as w turns (tc_uid p.2) raw /\ tc_sock p.2 = rc_socket raw /\
    p.1 = object_id w (tc_uid p.2).

Record tables_ok (w : world) {V : CotService} (turns : list turn) (s : cot) : Prop := mkTablesOk {
  ok_queue_keys : NoDup (dkeys (client_information_queue s));
  ok_queue p : p ∈ client_information_queue s -> entry_ok w turns p;
  ok_connection_keys : NoDup (dkeys (cot_connections s));
  ok_connections p : p ∈ cot_connections s -> connection_ok w turns p;
  ok_threads : thread_array s = [] }.

Lemma tables_ok_queue w {V : CotService} turns s q :
  tables_ok w turns s -> NoDup (dkeys q) -> (forall p, p ∈ q -> entry_ok w turns p) ->
  tables_ok w turns (set_queue (fun _ => q) s).
Proof. intros [H1 H2 H3 H4 H5] Hk Hq. by split. Qed.

Lemma tables_ok_set w {V : CotService} turns s uid c :
  tables_ok w turns s -> entry_ok w turns (uid, c) -> tables_ok w turns (set_queue (dset uid c) s).
Proof.
  intros H Hc. apply (tables_ok_queue w turns s (dset uid c (client_information_queue s)) H).
  - apply NoDup_dset, H.
  - intros p Hp. destruct (elem_of_dset _ _ _ _ Hp) as [->|[Hin _]]; [exact Hc|].
    by apply (ok_queue w turns s H).
Qed.

(** What the core knows takes the place of what a client connected with. *)
Lemma merge_user_entry {V : CotService} `{!CotServiceLaws V} u k i raw :
  merge_user u (mkClient k (i :: entry_rest raw)) = mkClient k (InfoUser u :: entry_rest raw).
Proof.
  unfold merge_user. cbn [c_infos c_sock]. rewrite bool_decide_eq_true_2; [done|].
  rewrite (law_length raw). cbn. lia.
Qed.

#[export] Instance tables_ok_settled w {V : CotService} `{!CotServiceLaws V} turns :
  Settled w (fun _ => True) (tables_ok w turns).
Proof.
  split.
  2-3: intros; match goal with H : tables_ok _ _ _ |- _ => destruct H; by split end.
  - split; [intros s []|intros e s _ []]; by split.
  - intros t users uid u c s H Ht Hu Hc. apply tables_ok_set; [exact H|].
    destruct (ok_queue w turns s H (uid, c) (dget_Some_elem _ _ _ Hc)) as (raw & i & Hr & Hi & _).
    cbn in Hr, Hi. rewrite Hi, merge_user_entry. exists raw, (InfoUser u). split; [exact Hr|].
    split; [done|]. by exists t, users.
Qed.

#[export] Instance tables_ok_stable w {V : CotService} `{!CotServiceLaws V} turns :
  Stable w (fun raw => raw ∈ arrivals turns) (fun _ => True) (tables_ok w turns).
Proof.
  split.
  2-3: intros; match goal with H : tables_ok _ _ _ |- _ => destruct H; by split end.
  - apply _.
  - intros ci raw s H Hr Hi. destruct (instantiate_introduces w raw ci Hi) as [Hp Hs]. apply tables_ok_set; [exact H|].
    exists raw, (InfoClient ci). rewrite Hs. split; [|done]. split; [exact Hr|by eexists].
  - intros ci raw s [H1 H2 H3 H4 H5] Hr Hi. apply instantiate_introduces in Hi as [Hi Hs].
    split; [exact H1|exact H2|by apply NoDup_dset| |exact H5].
    intros p Hp. destruct (elem_of_dset _ _ _ _ Hp) as [->|[Hin _]]; [|by apply H4].
    exists raw. split; [|done]. split; [exact Hr|by eexists].
  - intros uid s H.
    apply (tables_ok_queue w turns s (ddel uid (client_information_queue s)) H).
    + apply NoDup_ddel, H.
    + intros p Hp. apply elem_of_ddel in Hp as [Hp _]. by apply (ok_queue w turns s H).
  - intros uid s [H1 H2 H3 H4 H5]. split; try done. cbn. by rewrite H5.
Qed.

(** C2: whatever happens in however many turns of the main loop of either CoT service,
    calls that raise, clients that come and go, answers of the core: a client has one
    entry in [client_information_queue], which belongs to a connection of its uid that
    came in one of these turns: it has that connection's socket, one information, what
    was read from that connection or what the core has answered for its uid, and what the
    service adds for that connection; [connections] has, under the object id of its uid,
    one entry of a client, with the socket of a connection of that uid; no thread is
    registered. *)
Theorem client_tables_consistent w {V : CotService} `{!CotServiceLaws V} turns late :
  tables_ok w turns (after_run w turns late).
Proof.
  apply (run_stable w turns late); try done.
  split; cbn; [apply NoDup_nil_2|set_solver|apply NoDup_nil_2|set_solver|done].
Qed.

Lemma client_tables_consistent_witness :
  tables_ok (V := tcp_service) quiet_world [arrival] (after_run (V := tcp_service) quiet_world [arrival] false).
Proof. exact (client_tables_consistent quiet_world (V := tcp_service) [arrival] false). Defined.

(** * What the core learns *)

(** The operations the service has put on the queue of the core. *)
Definition core_op (e : effect) : option user_op :=
  match e with ToCore op => Some op | _ => None end.
Definition core_ops (s : cot) : list user_op := omap core_op (trace s).

Definition anonymous (s : cot) : Prop :=
  Forall (fun p => exists ci, head (c_infos p.2) = Some (InfoClient ci)) (client_information_queue s).

Definition asks_only (s : cot) : Prop := Forall is_get (core_ops s).

#[export] Instance asks_only_stable w {V : CotService} R :
  Stable w R (fun e => match e with ToCore _ => handler_effect e | _ => True end) asks_only.
Proof.
  do 3 (split; try done).
  intros e s He H. unfold asks_only, core_ops. cbn. rewrite omap_app. apply Forall_app.
  split; [exact H|]. destruct e as [|op| | | | | | | |]; cbn; try constructor; try constructor.
  destruct He as [Hn Ha]. by exists service_type.
Qed.

Lemma Forall_dset {V} (P : string * V -> Prop) uid v d :
  Forall P d -> (forall k, P (k, v)) -> Forall P (dset uid v d).
Proof.
  rewrite !Forall_forall. intros H Hv p Hp.
  destruct (elem_of_dset _ _ _ _ Hp) as [->|[Hin _]]; auto.
Qed.

Lemma anonymous_stable w {V : CotService} R :
  (forall t users, core_reply w t = Ret users -> users = []) ->
  Stable w R (fun _ => True) anonymous.
Proof.
  intros Hc. split; try done; unfold anonymous; cbn.
  - split; [by split|done|done|].
    intros t users uid u c s H Ht Hu. rewrite (Hc t users Ht) in Hu. discriminate.
  - intros ci raw s H _ _. apply Forall_dset; [exact H|]. intros k. by eexists.
  - intros uid s H. rewrite Forall_forall in H |- *. intros p Hp.
    apply elem_of_ddel in Hp as [Hp _]. by apply H.
Qed.

(** C7: the core is meant to be the single source of truth for the clients of a CoT
    service, but it is never told of one.  In every run of the main loop the service
    puts nothing on the queue of the core but requests for its users; a core that
    knows no user knows none after them and answers that there is none; and while that
    is the answer, every client keeps the information it connected with, in which
    there is no presence. *)
Theorem core_learns_of_no_client w {V : CotService} turns late :
  (forall t users, core_reply w t = Ret users -> users = []) ->
  let s := after_run w turns late in
  (forall faults o core, user_dict core = [] ->
     answers_nobody (sent core) (receive_all faults o (core_ops s) core)) /\
  anonymous s.
Proof.
  intros Hc s. split.
  - intros faults o core Hu. apply answers_nobody_all; [|exact Hu].
    apply (run_stable (I := asks_only) w turns late); try by constructor.
    all: by intros [].
  - pose proof (anonymous_stable w (fun raw => raw ∈ arrivals turns) Hc). apply (run_stable w turns late); try done. by constructor.
Qed.

Lemma core_learns_of_no_client_witness :
  client_information_queue (after_run (V := tcp_service) quiet_world [arrival] false) <> [] /\
  anonymous (after_run (V := tcp_service) quiet_world [arrival] false).
Proof.
  split; [vm_compute; discriminate|].
  assert (H : forall t users, core_reply quiet_world t = Ret users -> users = [])
    by (intros t users [= <-]; reflexivity).
  exact (proj2 (core_learns_of_no_client quiet_world (V := tcp_service) [arrival] false H)).
Defined.

(** * Jobs *)

Definition launched_job (e : effect) : option job :=
  match e with Launched j => Some j | _ => None end.

(** The jobs the service has started, in order. *)
Definition launched_jobs (s : cot) : list job := omap launched_job (trace s).

Definition quiet_effect (e : effect) : Prop := launched_job e = None.

#[export] Instance launched_calm x : Calm quiet_effect (fun s => launched_jobs s = x).
Proof.
  split; try done. intros e s He H. unfold launched_jobs in *. cbn.
  rewrite omap_app, H. cbn. unfold quiet_effect in He. rewrite He. by rewrite app_nil_r.
Qed.

#[export] Instance launched_stable w {V : CotService} R x : Stable w R quiet_effect (fun s => launched_jobs s = x).
Proof. do 2 (split; try done). apply launched_calm. Qed.

#[export] Instance launched_settled w {V : CotService} x : Settled w quiet_effect (fun s => launched_jobs s = x).
Proof. exact (stable_settled (R := fun _ => True)). Qed.

Lemma sending_quiet e : sending e -> quiet_effect e.
Proof. by destruct e. Qed.
Lemma asking_quiet {V : CotService} e : asking e -> quiet_effect e.
Proof. by destruct e. Qed.
Lemma handler_quiet {V : CotService} e : handler_effect e -> quiet_effect e.
Proof. by destruct e. Qed.

(** [m] returns and starts the jobs [js]. *)
Definition starts_jobs (js : list job) {A} (m : M cot A) : Prop :=
  forall s, exists a s', m s = (Ret a, s') /\ launched_jobs s' = launched_jobs s ++ js.

Lemma jobs_bind {A B} js js' (m : M cot A) (k : A -> M cot B) :
  starts_jobs js m -> (forall a, starts_jobs js' (k a)) -> starts_jobs (js ++ js') (m ≫= k).
Proof.
  intros Hm Hk s. destruct (Hm s) as (a & s1 & E1 & L1).
  destruct (Hk a s1) as (b & s2 & E2 & L2). exists b, s2.
  rewrite (run_bind _ _ _ _ _ E1), L2, L1, app_assoc. done.
Qed.

Lemma jobs_silent {A} (m : M cot A) : total m -> keeps launched_jobs m -> starts_jobs [] m.
Proof.
  intros Ht Hk s. destruct (Ht s) as (a & s' & E). exists a, s'. split; [done|].
  rewrite app_nil_r. pose proof (keeps_eq launched_jobs m s Hk) as H. by rewrite E in H.
Qed.

Lemma jobs_launch j : starts_jobs [j] (launch j).
Proof. intros s. exists tt, (add_effect (Launched j) s). split; [done|]. unfold launched_jobs. cbn. by rewrite omap_app. Qed.

Lemma jobs_try {A} js (m : M cot A) h : starts_jobs js m -> starts_jobs js (try_except m h).
Proof.
  intros H s. destruct (H s) as (a & s' & E & L). exists a, s'. split; [|done].
  unfold try_except, try_with. by rewrite E.
Qed.

(** An [Exception] after the jobs [js] have been started. *)
Definition fails_after (js : list job) {A} (m : M cot A) : Prop :=
  forall s, exists e s', m s = (Exn e, s') /\ is_Exception e = true /\ launched_jobs s' = launched_jobs s ++ js.

Lemma jobs_try_fail {A} js (m : M cot A) (a : A) :
  fails_after js m -> starts_jobs js (try_except m (fun _ => mret a)).
Proof.
  intros H s. destruct (H s) as (e & s' & E & He & L). exists a, s'. split; [|done].
  unfold try_except, try_with. by rewrite E, He.
Qed.

Lemma fails_after_raise {A} e : is_Exception e = true -> fails_after [] (raise e : M cot A).
Proof. intros He s. exists e, s. by rewrite app_nil_r. Qed.

Lemma fails_after_bind {A B} js js' (m : M cot A) (k : A -> M cot B) :
  starts_jobs js m -> (forall a, fails_after js' (k a)) -> fails_after (js ++ js') (m ≫= k).
Proof.
  intros Hm Hk s. destruct (Hm s) as (a & s1 & E1 & L1).
  destruct (Hk a s1) as (e & s2 & E2 & He & L2). exists e, s2.
  rewrite (run_bind _ _ _ _ _ E1), L2, L1, app_assoc. done.
Qed.

(** What a turn finds raises nothing but [Exception]s. *)
Definition polite_turn (t : turn) : Prop :=
  (forall e, t_connection t = Failed e -> is_Exception e = true) /\
  (forall e, t_data t = Failed e -> is_Exception e = true) /\
  (forall e, t_responses t = Exn e -> is_Exception e = true).

Definition listen_jobs (t : turn) : list job :=
  if t_reset t then [ListenJob]
  else match t_connection t with Done _ => [ListenJob] | _ => [] end.
Definition reception_jobs (t : turn) : list job :=
  match t_data t with Done _ => [ReceptionJob] | _ => [] end.

Section jobs.
Context (w : world) {V : CotService} `{L : !CotServiceLaws V} (Po : polite w).

Lemma jobs_handle_connection o : starts_jobs [] (handle_connection w o).
Proof using Po L.
  apply jobs_silent; [by apply total_handle_connection|]. intros x.
  by apply (preserves_handle_connection (R := fun _ => True) w sending_quiet handler_quiet).
Qed.

Lemma jobs_handle_regular_data l : starts_jobs [] (handle_regular_data w l).
Proof using Po L.
  apply jobs_silent; [by apply total_handle_regular_data|]. intros x.
  apply (preserves_handle_regular_data (R := fun _ => True) w sending_quiet handler_quiet).
Qed.

Lemma jobs_get_client_information : starts_jobs [] (get_client_information w).
Proof using Po L.
  apply jobs_silent; [by apply total_get_client_information|]. intros x.
  apply (preserves_get_client_information w asking_quiet).
Qed.

Lemma jobs_receive_connection_part t :
  polite_turn t -> starts_jobs (listen_jobs t) (receive_connection_part w t).
Proof using Po L.
  intros (H & _ & _). unfold receive_connection_part, listen_jobs.
  destruct (t_reset t); [apply jobs_try, jobs_launch|].
  destruct (t_connection t) as [|e|o].
  - apply jobs_try, jobs_silent; [apply total_ret|intros x; apply preserves_ret].
  - apply jobs_try_fail, fails_after_raise. by apply H.
  - apply jobs_try. apply (jobs_bind [] [ListenJob]).
    { apply jobs_silent; [apply total_modify|intros x; by apply preserves_modify]. }
    intros _. apply (jobs_bind [ListenJob] []); [apply jobs_launch|intros _].
    apply (jobs_bind [] []); [apply jobs_handle_connection|intros _].
    apply jobs_silent; [apply total_ret|intros x; apply preserves_ret].
Qed.

Lemma jobs_client_data_part t :
  polite_turn t -> starts_jobs (reception_jobs t) (client_data_part w t).
Proof using Po L.
  intros (_ & H & _). unfold client_data_part, reception_jobs.
  destruct (t_data t) as [|e|[l|]].
  - apply jobs_try, jobs_silent; [apply total_ret|intros x; apply preserves_ret].
  - apply jobs_try_fail, fails_after_raise. by apply H.
  - apply jobs_try. apply (jobs_bind [] [ReceptionJob]).
    { apply jobs_silent; [apply total_modify|intros x; by apply preserves_modify]. }
    intros _. apply (jobs_bind [] [ReceptionJob]); [apply jobs_handle_regular_data|intros _].
    apply (jobs_bind [] [ReceptionJob]); [apply jobs_get_client_information|intros _].
    apply jobs_launch.
  - apply jobs_try_fail. apply (fails_after_bind [ReceptionJob] []).
    + apply jobs_launch.
    + intros _. by apply fails_after_raise.
Qed.

Lemma jobs_shared_data_part t : starts_jobs [] (shared_data_part w t).
Proof using Po L.
  apply jobs_try, jobs_silent.
  - apply total_for_each. intros m. by apply total_handle_shared_data.
  - intros x. apply preserves_for_each. intros m _.
    apply (preserves_handle_shared_data w sending_quiet asking_quiet).
Qed.

Lemma jobs_responses_part t : polite_turn t -> starts_jobs [] (responses_part w t).
Proof using Po.
  intros (_ & _ & H). apply jobs_silent.
  - apply total_try_except; [by apply benign_broadcast|intros _; apply total_ret].
  - intros x. unfold responses_part, broadcast_component_responses.
    repeat first [apply (preserves_send_message w sending_quiet)|py_step].
Qed.
End jobs.

(** C4: a turn of the main loop of a CoT service never raises, whatever the calls it makes and the
    jobs it asks about raise, and it keeps the two jobs of the service going: it starts
    a listener when the last one has answered or a reset is asked for, and a reception
    when the last one has answered, and starts none while a job is still running.  A
    job that raised is not replaced. *)
Theorem turn_keeps_jobs_going w {V : CotService} `{!CotServiceLaws V} t s :
  polite w -> polite_turn t ->
  exists s', main_turn w t s = (Ret tt, s') /\
    launched_jobs s' = launched_jobs s ++ listen_jobs t ++ reception_jobs t.
Proof.
  intros Po Ht.
  assert (H : starts_jobs (listen_jobs t ++ reception_jobs t ++ [] ++ []) (main_turn w t)).
  { unfold main_turn. apply jobs_try.
    apply jobs_bind; [by apply jobs_receive_connection_part|intros _].
    apply jobs_bind; [by apply jobs_client_data_part|intros _].
    apply jobs_bind; [by apply jobs_shared_data_part|intros _].
    by apply jobs_responses_part. }
  destruct (H s) as ([] & s' & E & L). exists s'. split; [exact E|].
  cbn [app] in L. by rewrite app_nil_r in L.
Qed.

Lemma arrival_polite : polite_turn arrival.
Proof. split; [|split]; intros e He; discriminate. Qed.

Lemma turn_keeps_jobs_going_witness :
  exists s', main_turn (V := tcp_service) quiet_world arrival two_clients = (Ret tt, s') /\
    launched_jobs s' = [ListenJob].
Proof. exact (turn_keeps_jobs_going quiet_world arrival two_clients quiet_polite arrival_polite). Defined.
