(* ===== verification/CotSend.v ===== *)
(** What sending in the CoT services does: the messages of components, the messages
    of clients and of the other services, and what becomes of them when a socket does
    not take them. *)
From stdpp Require Import base strings list sets.
From Stdlib Require Import ZArith Lia.
From S2P Require Import Prelude.
From S2P Require Import CotData.
From S2P Require Import FtsState.
From S2P Require Import Registry.
From S2P Require Import CotState.
From S2P Require Import SendData.
From S2P Require Import Reception.
From S2P Require Import TcpService.
From S2P Require Import CotFacts.
From S2P Require Import CotRun.

Set Default Proof Using "Type".
Local Open Scope string_scope.
Local Open Scope list_scope.
Local Open Scope py_scope.

(** * Sockets *)

Definition delivery (e : effect) : Prop := match e with Delivered _ _ => True | _ => False end.

Lemma is_closed_advance es n s k :
  Forall delivery es -> is_closed (advance es n s) k = is_closed s k.
Proof.
  intros H. unfold is_closed, advance. cbn. rewrite existsb_app.
  replace (existsb (closes k) es) with false; [by rewrite orb_false_r|].
  symmetry. induction H as [|e l He _ IH]; [done|]. by destruct e.
Qed.

(** What a socket takes of [b] at the instant [n]; [None] when sending raises. *)
Definition offer (w : world) (closed : nat -> bool) (n k : nat) (b : string)
    : option string :=
  if closed k then None
  else match takes w n k b with Ret t => Some (String.substring 0 t b) | Exn _ => None end.

Definition taken (k : nat) (o : option string) : list effect :=
  match o with Some x => [Delivered k x] | None => [] end.

(** [socket.send] raises nothing but [OSError]s. *)
Definition os_sockets (w : world) : Prop :=
  forall n k b e, takes w n k b = Exn e -> is_OSError e = true.

Lemma os_Exception e : is_OSError e = true -> is_Exception e = true.
Proof. by destruct e. Qed.

Lemma sock_send_run w k b s :
  os_sockets w ->
  match offer w (is_closed s) (now s) k b with
  | Some x => sock_send w k (Bytes b) s = (Ret tt, advance [Delivered k x] 1 s)
  | None => exists e, is_OSError e = true /\ sock_send w k (Bytes b) s = (Exn e, advance [] 1 s)
  end.
Proof.
  intros Hw. unfold offer, sock_send, clock_tick, emit. py_run.
  change (is_closed (tick_cot s) k) with (is_closed s k).
  rewrite <- tick_advance.
  destruct (is_closed s k); [by exists OSError|].
  destruct (takes w (now s) k b) as [t|e] eqn:E.
  - rewrite effect_advance, tick_advance, advance_advance. done.
  - exists e. split; [exact (Hw _ _ _ _ E)|done].
Qed.

Lemma sock_send_effect w k b s :
  exists o, sock_send w k (Bytes b) s =
    (o, advance (taken k (offer w (is_closed s) (now s) k b)) 1 s).
Proof.
  unfold offer, sock_send, clock_tick, emit. py_run.
  change (is_closed (tick_cot s) k) with (is_closed s k). rewrite !tick_advance.
  destruct (is_closed s k); [by eexists|].
  destruct (takes w (now s) k b) as [t|e]; [|by eexists].
  rewrite effect_advance, advance_advance. by eexists.
Qed.

(** * Messages of the components *)

(** [b] offered to one socket after the other, whatever becomes of it. *)
Fixpoint broadcast (w : world) (closed : nat -> bool) (n : nat) (socks : list nat)
    (b : string) : list effect :=
  match socks with
  | [] => []
  | k :: socks => taken k (offer w closed n k b) ++ broadcast w closed (S n) socks b
  end.

(** The sockets a message for [recipients] is for: all of them when there are none, and
    else the connections among them, in their order. *)
Definition recipient_socks (recipients : option (list string))
    (cs : list (string * TCPCoTConnection)) : list nat :=
  match recipients with
  | None | Some [] => tc_sock <$> dvalues cs
  | Some l => omap (fun oid => tc_sock <$> dget oid cs) l
  end.

Lemma send_to_connection_run w b c s :
  os_sockets w ->
  send_to_connection w (Bytes b) c s =
    (Ret tt, advance (taken (tc_sock c) (offer w (is_closed s) (now s) (tc_sock c) b)) 1 s).
Proof.
  intros Hw. unfold send_to_connection, try_with.
  pose proof (sock_send_run w (tc_sock c) b s Hw) as H.
  destruct (offer _ _ _ _ _) as [x|]; [by rewrite H|].
  destruct H as (e & He & ->). by rewrite He.
Qed.

Lemma taken_delivery k o : Forall delivery (taken k o).
Proof. destruct o; repeat constructor. Qed.

Lemma broadcast_ext w c1 c2 n socks b :
  (forall k, c1 k = c2 k) -> broadcast w c1 n socks b = broadcast w c2 n socks b.
Proof.
  intros H. revert n. induction socks as [|k socks IH]; intros n; [done|].
  cbn [broadcast]. rewrite IH. unfold offer. by rewrite H.
Qed.

Lemma broadcast_run {A} w b (f : A -> M cot unit) (sock : A -> option nat) l s :
  (forall a s', client_information_queue s' = client_information_queue s ->
     cot_connections s' = cot_connections s ->
     f a s' = (Ret tt, match sock a with
       | Some k => advance (taken k (offer w (is_closed s') (now s') k b)) 1 s'
       | None => s'
       end)) ->
  for_each l f s =
    (Ret tt, advance (broadcast w (is_closed s) (now s) (omap sock l) b)
               (length (omap sock l)) s).
Proof.
  revert s. induction l as [|a l IH]; intros s Hf; cbn [for_each].
  { by rewrite advance_0. }
  erewrite run_bind by by apply Hf. cbn [omap list_omap].
  destruct (sock a) as [k|]; [|by apply IH].
  rewrite IH by (intros a' s' H1 H2; apply Hf; by rewrite ?H1, ?H2).
  f_equal. rewrite advance_advance. cbn [length broadcast]. f_equal. f_equal.
  apply broadcast_ext. intros k'. by apply is_closed_advance, taken_delivery.
Qed.

Lemma broadcast_offers w closed n socks b i k x :
  socks !! i = Some k -> offer w closed (n + i) k b = Some x ->
  Delivered k x ∈ broadcast w closed n socks b.
Proof.
  revert n i. induction socks as [|k' socks IH]; intros n [|i] Hk Hx; simplify_eq/=.
  - rewrite Nat.add_0_r in Hx. rewrite Hx. apply elem_of_app. left. by apply list_elem_of_singleton.
  - apply elem_of_app. right. apply (IH (S n) i); [done|]. by rewrite Nat.add_succ_comm.
Qed.

Lemma send_message_run w b recipients s :
  os_sockets w ->
  let socks := recipient_socks recipients (cot_connections s) in
  send_message w (Bytes b) recipients s =
    (Ret tt, advance (broadcast w (is_closed s) (now s) socks b) (length socks) s).
Proof.
  intros Hw socks.
  assert (Hall : send_message_to_all w (Bytes b) s = (Ret tt, advance
    (broadcast w (is_closed s) (now s) (tc_sock <$> dvalues (cot_connections s)) b)
    (length (tc_sock <$> dvalues (cot_connections s))) s)).
  { unfold send_message_to_all. erewrite run_bind by reflexivity.
    rewrite (broadcast_run w b _ (fun c => Some (tc_sock c)))
      by (intros a s' _ _; by apply send_to_connection_run).
    replace (omap (fun c => Some (tc_sock c)) (dvalues (cot_connections s)))
      with (tc_sock <$> dvalues (cot_connections s)); [done|].
    induction (dvalues (cot_connections s)) as [|c l IH]; [done|]. cbn. by rewrite IH. }
  destruct recipients as [[|o l]|]; [exact Hall| |exact Hall].
  unfold send_message. cbn [determine_message_type default]. unfold send_message_to_some.
  rewrite (broadcast_run w b _ (fun oid => tc_sock <$> dget oid (cot_connections s))); [done|].
  intros oid s' _ Hc. erewrite run_bind by reflexivity. rewrite Hc.
  destruct (dget oid (cot_connections s)); [by apply send_to_connection_run|done].
Qed.

(** C6: a message of a component goes to every connection it is for: all of them when
    it names no recipients, else those among its recipients that are connected, unknown
    ones ignored.  A connection that times out, is broken or was closed is passed over;
    the others get the message all the same, once, in order, as far as their sockets
    take it, and nothing else happens. *)
Theorem component_messages_reach_recipients w b recipients s :
  os_sockets w ->
  let socks := recipient_socks recipients (cot_connections s) in
  let es := broadcast w (is_closed s) (now s) socks b in
  send_message w (Bytes b) recipients s = (Ret tt, advance es (length socks) s) /\
  (forall i k x, socks !! i = Some k ->
     offer w (is_closed s) (now s + i) k b = Some x -> Delivered k x ∈ es) /\
  (forall e, e ∈ es -> exists k x, e = Delivered k x /\ k ∈ socks /\ is_closed s k = false).
Proof.
  intros Hw socks es. split; [by apply send_message_run|]. split.
  - intros i k x Hk Hx. by eapply broadcast_offers.
  - intros e He. subst es. revert He. generalize (now s).
    induction socks as [|k socks IH]; intros n He; cbn [broadcast] in He.
    { by apply not_elem_of_nil in He. }
    apply elem_of_app in He as [He|He].
    + unfold offer in He. destruct (is_closed s k) eqn:Ek; [by apply not_elem_of_nil in He|].
      destruct (takes w n k b) as [t|]; [|by apply not_elem_of_nil in He].
      apply list_elem_of_singleton in He. exists k, (String.substring 0 t b).
      split; [done|]. split; [left|done].
    + destruct (IH _ He) as (k' & x & -> & Hk & Hc). exists k', x.
      split; [done|]. split; [by right|done].
Qed.

Lemma quiet_os : os_sockets quiet_world.
Proof. intros n k b e He. discriminate. Qed.

Lemma component_messages_reach_recipients_witness :
  send_message quiet_world (Bytes "x") (Some ["connection:B"; "nobody"]) two_clients
    = (Ret tt, advance [Delivered 2 "x"] 1 two_clients).
Proof.
  exact (proj1 (component_messages_reach_recipients quiet_world "x"
    (Some ["connection:B"; "nobody"]) two_clients quiet_os)).
Defined.

(** * Messages of clients and of the other services *)

(** The pipe to the other services takes what is put on it. *)
Definition open_pipe (w : world) : Prop := forall n, raises w n CQueuePut = None.

Definition shares (shareDataPipe : bool) (m : message) : list effect :=
  if shareDataPipe then [Shared (with_clientInformation SNone m)] else [].

Lemma share_message_run w share m s :
  open_pipe w -> exists n, share_message w share m s = (Ret tt, advance (shares share m) n s).
Proof.
  intros Hp. destruct share; [|exists 0; by rewrite advance_0].
  exists 1. unfold share_message, share_put, call, clock_tick, emit. py_run. by rewrite Hp.
Qed.

(** What [for_return] over clients does when each is sent [b] until one fails: the
    effects and the rest of the list, the failing one first. *)
Fixpoint send_until (w : world) (closed : nat -> bool) (n : nat) (b : string)
    (l : list (string * client)) : list effect * list (string * client) :=
  match l with
  | [] => ([], [])
  | p :: l' =>
      match offer w closed n (c_sock p.2) b with
      | Some x =>
          let r := send_until w closed (S n) b l' in (Delivered (c_sock p.2) x :: r.1, r.2)
      | None => ([], l)
      end
  end.

Lemma send_until_ext w c1 c2 n b l :
  (forall k, c1 k = c2 k) -> send_until w c1 n b l = send_until w c2 n b l.
Proof.
  intros H. revert n. induction l as [|p l IH]; intros n; [done|].
  cbn [send_until]. rewrite IH. unfold offer. by rewrite H.
Qed.

(** Everybody but the sender; the sender, too, of a [TakPong]. *)
Definition recipients_of (m : message) (s : sender) (q : list (string * client))
    : list (string * client) :=
  filter (fun p => m_type m = "TakPong" \/ s <> SUser p.1) q.

Lemma is_sender_spec m s id :
  is_sender m s id = false <-> m_type m = "TakPong" \/ s <> SUser id.
Proof.
  unfold is_sender. rewrite andb_false_iff, negb_false_iff, bool_decide_eq_true.
  destruct s as [|u| |k]; (split; [intros [H|H]|intros [H|H]]; try by left);
    try (by right); [right|right].
  - rewrite bool_decide_eq_false in H. congruence.
  - apply bool_decide_eq_false_2. congruence.
Qed.

(** One client of [send_to_all]. *)
Definition send_step (w : world) (m : message) (b : string) (p : string * client)
    : M cot (option send_result) :=
  try:
    send_encoded w (c_sock p.2) (Bytes b) ;;; mret None
  except: (i <- client_info p.2 ;; mret (Some (RFailed i))).

Lemma send_step_run w m b p s :
  os_sockets w ->
  match offer w (is_closed s) (now s) (c_sock p.2) b with
  | Some x => send_step w m b p s = (Ret None, advance [Delivered (c_sock p.2) x] 1 s)
  | None =>
      send_step w m b p s =
        ((i <- client_info p.2 ;; mret (Some (RFailed i))) (advance [] 1 s))
  end.
Proof.
  intros Hw. pose proof (sock_send_run w (c_sock p.2) b s Hw) as H.
  unfold send_step. destruct (offer _ _ _ _ _) as [x|].
  - assert (E : send_encoded w (c_sock p.2) (Bytes b) s =
      (Ret tt, advance [Delivered (c_sock p.2) x] 1 s)).
    { unfold send_encoded, try_with. by rewrite H. }
    apply try_except_ret. by rewrite (run_bind _ _ _ _ _ E).
  - destruct H as (e & He & H).
    assert (E : send_encoded w (c_sock p.2) (Bytes b) s = (Exn e, advance [] 1 s)).
    { unfold send_encoded, try_with. rewrite H. rewrite decide_False by by intros ->. done. }
    by rewrite (try_except_exn _ _ _ _ _ (run_bind_exn _ _ _ _ _ E) (os_Exception e He)).
Qed.

Lemma send_all_run w m who b q s :
  os_sockets w ->
  (forall p, p ∈ q -> c_infos p.2 <> []) ->
  let r := send_until w (is_closed s) (now s) b (recipients_of m who q) in
  for_return q (fun p => if is_sender m who p.1 then mret None else send_step w m b p) s =
    match r.2 with
    | [] => (Ret None, advance r.1 (length r.1) s)
    | p :: _ =>
        (Ret (RFailed <$> head (c_infos p.2)), advance r.1 (S (length r.1)) s)
    end.
Proof.
  intros Hw. revert s. induction q as [|p q IH]; intros s Hq.
  { cbn. by rewrite advance_0. }
  cbn [for_return]. unfold recipients_of. rewrite filter_cons.
  destruct (is_sender m who p.1) eqn:Es.
  { rewrite decide_False by (rewrite <- is_sender_spec, Es; discriminate).
    erewrite run_bind by reflexivity. apply IH. set_solver. }
  rewrite decide_True by by apply is_sender_spec. cbn [send_until].
  pose proof (send_step_run w m b p s Hw) as H.
  destruct (offer _ _ _ _ _) as [x|].
  - erewrite run_bind by exact H. cbv iota. rewrite IH by set_solver. cbv zeta.
    rewrite (send_until_ext w _ (is_closed s)) by
      (intros k; apply is_closed_advance; by repeat constructor).
    change (now (advance [Delivered (c_sock p.2) x] 1 s)) with (S (now s)).
    fold (recipients_of m who q).
    destruct (send_until _ _ _ _ _) as [es [|p' l]]; cbn [fst snd];
      by rewrite advance_advance.
  - cbn [fst snd]. destruct (c_infos p.2) as [|i l0] eqn:Ei.
    { by destruct (Hq p); [left|]. }
    unfold client_info in H. rewrite Ei in H. cbn in H.
    erewrite run_bind by exact H. done.
Qed.

Lemma send_until_split w closed n b l :
  let r := send_until w closed n b l in
  exists pre, l = pre ++ r.2 /\
    Forall2 (fun p e => exists x, e = Delivered (c_sock p.2) x) pre r.1 /\
    match r.2 with
    | [] => True
    | p :: _ => offer w closed (n + length pre) (c_sock p.2) b = None
    end.
Proof.
  revert n. induction l as [|p l IH]; intros n; cbn [send_until].
  { exists []. by repeat constructor. }
  destruct (offer w closed n (c_sock p.2) b) as [x|] eqn:E.
  - destruct (IH (S n)) as (pre & H1 & H2 & H3). cbn [fst snd].
    exists (p :: pre). cbn [app length]. rewrite <- H1. split; [done|]. split.
    + constructor; [by exists x|exact H2].
    + by rewrite Nat.add_succ_r.
  - exists []. cbn [app length fst snd]. rewrite Nat.add_0_r. by repeat constructor.
Qed.

Lemma send_to_all_run w m who b share s :
  os_sockets w -> open_pipe w -> m_xmlString m = Some (Bytes b) ->
  (forall p, p ∈ client_information_queue s -> c_infos p.2 <> []) ->
  let r := send_until w (is_closed s) (now s) b
             (recipients_of m who (client_information_queue s)) in
  exists n,
    send_to_all w m who share s =
      match r.2 with
      | [] => (Ret (RInt 1), advance (r.1 ++ shares share m) n s)
      | p :: _ =>
          (Ret (default RNone (RFailed <$> head (c_infos p.2))), advance r.1 n s)
      end.
Proof.
  intros Hw Hp Hx Hq r. pose proof (send_all_run w m who b _ s Hw Hq) as H. cbv zeta in H.
  unfold send_to_all, try_except, try_with. erewrite run_bind by reflexivity. rewrite Hx.
  change (for_return _ _) with (for_return (client_information_queue s)
    (fun p => if is_sender m who p.1 then mret None else send_step w m b p)).
  fold r in H. destruct r as [es [|p l]] eqn:Er; cbn [fst snd] in *.
  - destruct (share_message_run w share m (advance es (length es) s) Hp) as [n Hn].
    exists (length es + n). erewrite run_bind by exact H. cbv iota.
    erewrite run_bind by exact Hn. py_run. by rewrite advance_advance.
  - exists (S (length es)). destruct (c_infos p.2) as [|i l0] eqn:Ei.
    { exfalso. destruct (send_until_split w (is_closed s) (now s) b
        (recipients_of m who (client_information_queue s))) as (pre & E & _).
      fold r in E. rewrite Er in E. cbn [snd] in E. apply (Hq p); [|done].
      assert (Hin : p ∈ recipients_of m who (client_information_queue s)).
      { rewrite E. apply elem_of_app. right. left. }
      by apply list_elem_of_filter in Hin as [_ Hin]. }
    erewrite run_bind by exact H. done.
Qed.

(** a message for every client goes to the clients but its sender, in the order of
    the table, until a socket does not take it: the first failure ends the round, the
    clients after it get nothing, and the message is not passed on to the other
    services either.  When nobody fails all get it and it is passed on.  (The one
    caller that hands over messages of the other services ignores the answer.) *)
Theorem send_to_all_stops_at_failure w m who b share s :
  os_sockets w -> open_pipe w -> m_xmlString m = Some (Bytes b) ->
  (forall p, p ∈ client_information_queue s -> c_infos p.2 <> []) ->
  exists pre post es n,
    recipients_of m who (client_information_queue s) = pre ++ post /\
    Forall2 (fun p e => exists x, e = Delivered (c_sock p.2) x) pre es /\
    match post with
    | [] => send_to_all w m who share s = (Ret (RInt 1), advance (es ++ shares share m) n s)
    | p :: _ =>
        offer w (is_closed s) (now s + length pre) (c_sock p.2) b = None /\
        exists i, head (c_infos p.2) = Some i /\
          send_to_all w m who share s = (Ret (RFailed i), advance es n s)
    end.
Proof.
  intros Hw Hp Hx Hq.
  destruct (send_to_all_run w m who b share s Hw Hp Hx Hq) as [n Hn].
  destruct (send_until_split w (is_closed s) (now s) b
    (recipients_of m who (client_information_queue s))) as (pre & E & H2 & H3).
  exists pre, (send_until w (is_closed s) (now s) b
    (recipients_of m who (client_information_queue s))).2, (send_until w (is_closed s) (now s) b
    (recipients_of m who (client_information_queue s))).1, n.
  split; [exact E|]. split; [exact H2|].
  destruct (send_until _ _ _ _ _) as [es [|p l]]; cbn [fst snd] in *; [exact Hn|].
  split; [exact H3|]. assert (Hin : p ∈ recipients_of m who (client_information_queue s)).
  { rewrite E. apply elem_of_app. right. left. }
  apply list_elem_of_filter in Hin as [_ Hin].
  destruct (c_infos p.2) as [|i l0] eqn:Ei; [by destruct (Hq p Hin)|].
  exists i. split; [done|exact Hn].
Qed.

(** The socket of the first client does not take anything. *)
Definition broken_world : world :=
  mkWorld (fun _ k b => if Nat.eq_dec k 1 then Exn BrokenPipeError else Ret 1)
    (receives quiet_world) (accepts quiet_world) (wraps quiet_world) (reads_left quiet_world)
    (raises quiet_world) (core_reply quiet_world) (pipe_full quiet_world)
    (decode quiet_world) (received_events quiet_world) (connection_events quiet_world)
    (connection_text quiet_world)
    (parse_connection quiet_world) (cot_type quiet_world)
    (human_readable_type quiet_world) (uuid1 quiet_world) (object_id quiet_world)
    (object_id_instance quiet_world) (disconnect_message quiet_world) (geochat_message quiet_world)
    (serialize quiet_world) None.

Definition note : message := short_message "Other" "<note/>" (mkModel "N" None None).

Lemma two_clients_infos p : p ∈ client_information_queue two_clients -> c_infos p.2 <> [].
Proof.
  intros H. apply elem_of_cons in H as [->|H]; [done|].
  apply elem_of_cons in H as [->|H]; [done|]. by apply not_elem_of_nil in H.
Qed.

Lemma send_to_all_stops_at_failure_witness :
  exists pre post es n,
    recipients_of note SNone (client_information_queue two_clients) = pre ++ post /\
    Forall2 (fun p e => exists x, e = Delivered (c_sock p.2) x) pre es /\
    match post with
    | [] => send_to_all broken_world note SNone true two_clients
              = (Ret (RInt 1), advance (es ++ shares true note) n two_clients)
    | p :: _ =>
        offer broken_world (is_closed two_clients) (now two_clients + length pre)
          (c_sock p.2) "<note/>" = None /\
        exists i, head (c_infos p.2) = Some i /\
          send_to_all broken_world note SNone true two_clients
            = (Ret (RFailed i), advance es n two_clients)
    end.
Proof.
  assert (Hw : os_sockets broken_world).
  { intros n k b e He. cbn in He. destruct (Nat.eq_dec k 1); simplify_eq; reflexivity. }
  assert (Hp : open_pipe broken_world) by (intros n; reflexivity).
  exact (send_to_all_stops_at_failure broken_world note SNone "<note/>" true two_clients Hw Hp
    eq_refl two_clients_infos).
Defined.

Lemma send_xml_to_run w m c b s :
  os_sockets w -> m_xmlString m = Some (Bytes b) -> c_infos c <> [] ->
  match offer w (is_closed s) (now s) (c_sock c) b with
  | Some x => send_xml_to w m c s = (Ret None, advance [Delivered (c_sock c) x] 1 s)
  | None => exists i, head (c_infos c) = Some i /\
      send_xml_to w m c s = (Ret (Some (RFailed i)), advance [] 1 s)
  end.
Proof.
  intros Hw Hx Hc. pose proof (sock_send_run w (c_sock c) b s Hw) as H.
  assert (Em : forall s', message_xml m s' = (Ret (Bytes b), s')).
  { intros s'. unfold message_xml. by rewrite Hx. }
  unfold send_xml_to. destruct (offer _ _ _ _ _) as [x|].
  - apply try_except_ret. rewrite (run_bind _ _ _ _ _ (Em s)).
    by rewrite (run_bind _ _ _ _ _ H).
  - destruct H as (e & He & H). destruct (c_infos c) as [|i l] eqn:Ei; [done|].
    exists i. split; [done|].
    erewrite try_except_exn; [| |exact (os_Exception e He)].
    + rewrite (run_bind _ _ _ _ _ (Em _)). unfold client_info. by rewrite Ei.
    + rewrite (run_bind _ _ _ _ _ (Em s)). by rewrite (run_bind_exn _ _ _ _ _ H).
Qed.

(** One client of [geochat_sending]. *)
Definition chat_step (w : world) (m : message) (to : string) (p : string * client)
    : M cot (option send_result) :=
  try: (if bool_decide (Some p.1 = Some to) then send_xml_to w m p.2 else mret None)
  except: (message_xml m ;;; mret (Some (RInt (-1)))).

Lemma chat_others w m to q s :
  to ∉ dkeys q -> for_return q (chat_step w m to) s = (Ret None, s).
Proof.
  induction q as [|p q IH]; intros H; [done|]. cbn [for_return].
  unfold dkeys in H. cbn in H. rewrite not_elem_of_cons in H. destruct H as [Hp H].
  assert (E : chat_step w m to p s = (Ret None, s)).
  { unfold chat_step. rewrite bool_decide_eq_false_2 by congruence. done. }
  rewrite (run_bind _ _ _ _ _ E). by apply IH.
Qed.

Lemma chat_loop w m to q c s b :
  os_sockets w -> m_xmlString m = Some (Bytes b) -> NoDup (dkeys q) ->
  dget to q = Some c -> c_infos c <> [] ->
  match offer w (is_closed s) (now s) (c_sock c) b with
  | Some x =>
      for_return q (chat_step w m to) s = (Ret None, advance [Delivered (c_sock c) x] 1 s)
  | None => exists i, head (c_infos c) = Some i /\
      for_return q (chat_step w m to) s = (Ret (Some (RFailed i)), advance [] 1 s)
  end.
Proof.
  intros Hw Hx. induction q as [|[uid c'] q IH]; intros Hn Hd Hc; [done|].
  unfold dkeys in Hn. cbn in Hn, Hd. rewrite NoDup_cons in Hn. destruct Hn as [Hnot Hn].
  cbn [for_return]. case_decide as Ht.
  - subst uid. injection Hd as ->.
    assert (E : forall s', chat_step w m to (to, c) s' = try_except (send_xml_to w m c)
      (fun _ => message_xml m ;;; mret (Some (RInt (-1)))) s').
    { intros s'. unfold chat_step. by rewrite bool_decide_eq_true_2. }
    pose proof (send_xml_to_run w m c b s Hw Hx Hc) as H.
    destruct (offer _ _ _ _ _) as [x|].
    + erewrite run_bind; [|rewrite E; by apply try_except_ret]. by apply chat_others.
    + destruct H as (i & Hi & H). exists i. split; [done|].
      erewrite run_bind; [|rewrite E; by apply try_except_ret]. done.
  - assert (E : chat_step w m to (uid, c') s = (Ret None, s)).
    { unfold chat_step. rewrite bool_decide_eq_false_2; [done|]. cbn. congruence. }
    rewrite (run_bind _ _ _ _ _ E). by apply IH.
Qed.

(** a chat message for one client goes to the client with that uid and to nobody
    else; it is then passed on to the other services, and so it is when no such client
    is connected here.  A failing socket ends the matter there. *)
Theorem geochat_reaches_addressee w m who to b share s :
  os_sockets w -> open_pipe w -> m_type m = "GeoChat" -> m_xmlString m = Some (Bytes b) ->
  chat_uid m = Ret (Some to) -> to <> "All Chat Rooms" ->
  NoDup (dkeys (client_information_queue s)) ->
  (forall p, p ∈ client_information_queue s -> c_infos p.2 <> []) ->
  exists n, sendDataInQueue w who m share s =
    match dget to (client_information_queue s) with
    | None => (Ret (RInt 1), advance (shares share m) n s)
    | Some c =>
        match offer w (is_closed s) (now s) (c_sock c) b with
        | Some x => (Ret (RInt 1), advance (Delivered (c_sock c) x :: shares share m) n s)
        | None => (Ret (default RNone (RFailed <$> head (c_infos c))), advance [] n s)
        end
    end.
Proof.
  intros Hw Hp Ht Hx Hu Hto Hn Hq.
  unfold sendDataInQueue. rewrite (bool_decide_eq_true_2 _ Ht).
  assert (E : forall r s', (r1 <- for_return (client_information_queue s) (chat_step w m to) ;;
      match r1 with
      | Some r => mret r
      | None => share_message w share m ;;; mret (RInt 1)
      end) s = (Ret r, s') ->
    try_except (geochat_sending w m who share) (fun _ => mret RException) s = (Ret r, s')).
  { intros r s' E. apply try_except_ret. unfold geochat_sending. apply try_except_ret.
    rewrite Hu. erewrite run_bind by reflexivity. cbv beta.
    rewrite bool_decide_eq_false_2 by (unfold ALL_CHAT_ROOMS; congruence).
    erewrite run_bind by reflexivity. exact E. }
  destruct (dget to (client_information_queue s)) as [c|] eqn:Ec.
  - assert (Hc : c_infos c <> []) by exact (Hq _ (dget_Some_elem _ _ _ Ec)).
    pose proof (chat_loop w m to _ c s b Hw Hx Hn Ec Hc) as H.
    destruct (offer _ _ _ _ _) as [x|].
    + destruct (share_message_run w share m (advance [Delivered (c_sock c) x] 1 s) Hp) as [n Hs].
      exists (1 + n). apply E. rewrite (run_bind _ _ _ _ _ H). cbv iota.
      rewrite (run_bind _ _ _ _ _ Hs). by rewrite advance_advance.
    + destruct H as (i & Hi & H). exists 1. apply E. rewrite (run_bind _ _ _ _ _ H).
      by rewrite Hi.
  - destruct (share_message_run w share m s Hp) as [n Hs]. exists n. apply E.
    apply dget_None_keys in Ec. rewrite (run_bind _ _ _ _ _ (chat_others w m to _ s Ec)).
    by rewrite (run_bind _ _ _ _ _ Hs).
Qed.

Definition whisper : message :=
  short_message "GeoChat" "<chat/>" (mkModel "W" None (Some (Some "B"))).

Lemma geochat_reaches_addressee_witness :
  exists n, sendDataInQueue quiet_world SNone whisper true two_clients
    = (Ret (RInt 1), advance (Delivered 2 "<chat/>" :: shares true whisper) n two_clients).
Proof.
  assert (Hto : "B" <> "All Chat Rooms") by discriminate.
  assert (Hn : NoDup (dkeys (client_information_queue two_clients))).
  { apply (bool_decide_unpack _). vm_compute. exact I. }
  exact (geochat_reaches_addressee quiet_world whisper SNone "B" "<chat/>" true two_clients
    quiet_os (fun _ => eq_refl) eq_refl eq_refl eq_refl Hto Hn two_clients_infos).
Defined.

Definition valid_marti (m : message) : Prop := has_valid_marti m = Ret true.

Lemma valid_marti_direct m : valid_marti m -> exists b, has_direct_chat m = Ret b.
Proof.
  unfold valid_marti, has_valid_marti, has_direct_chat, message_detail.
  destruct (m_model m) as [[d|]|]; [|done..]. intros _. destruct (chat d); by eexists.
Qed.

Lemma send_to_dest_fails w m dest p q ci x s :
  client_information_queue s = p :: q -> head (c_infos p.2) = Some (InfoClient ci) ->
  m_xmlString m = Some x ->
  send_to_dest w m dest s = (Ret (Some (RInt (-1))), s).
Proof.
  intros Hq Hp Hx. unfold send_to_dest.
  assert (Ei : forall s', (i <- client_info p.2 ;; u <- info_presence i ;;
      if bool_decide (Some (presence_callsign u) = dest) then send_xml_to w m p.2
      else mret None) s' = (Exn AttributeError, s')).
  { intros s'. unfold client_info. rewrite Hp. reflexivity. }
  rewrite (try_except_exn _ _ s AttributeError s).
  - unfold message_xml. rewrite Hx. reflexivity.
  - erewrite run_bind by reflexivity. rewrite Hq. cbn [for_return].
    exact (run_bind_exn _ _ _ _ _ (Ei s)).
  - reflexivity.
Qed.

(** a message that names the clients it is for is not delivered.  What the table of
    the service holds for a client is the information it connected with, and that
    has no presence to compare a callsign with: at the first client of the table,
    whoever it is, [send_to_specific_client] gives up and answers [-1], with nothing
    sent to a client and nothing passed on. *)
Theorem directed_messages_undeliverable w m who share s :
  m_type m <> "GeoChat" -> (forall k, who <> SSelf k) ->
  valid_marti m -> m_xmlString m <> None ->
  marti_dests m <> Ret [None; None] ->
  anonymous s -> client_information_queue s <> [] ->
  sendDataInQueue w who m share s = (Ret (RInt (-1)), s).
Proof.
  intros Ht Hs Hv Hx Hd Ha Hq. unfold sendDataInQueue. apply try_except_ret.
  rewrite (bool_decide_eq_false_2 _ Ht).
  assert (E : send_to_specific_client w m who share s = (Ret (RInt (-1)), s)).
  2: { unfold valid_marti in Hv. destruct who as [|u| |k]; [..|by destruct (Hs k)];
       rewrite Hv; by erewrite run_bind by reflexivity. }
  unfold send_to_specific_client.
  destruct (marti_dests m) as [dests|e] eqn:Em.
  2: { rewrite (try_except_exn _ _ s e s); [reflexivity|reflexivity|].
       apply (message_outcomes m); tauto. }
  apply try_except_ret. erewrite run_bind by reflexivity. rewrite Hv.
  erewrite run_bind by reflexivity. cbv iota. erewrite run_bind by reflexivity. cbv beta.
  assert (Hne : dests <> [] /\ dests <> [None]).
  { revert Hv Em. unfold valid_marti, has_valid_marti, marti_dests, message_detail.
    destruct (m_model m) as [[d|]|]; [|done..]. destruct (marti d) as [l|]; [|done].
    intros Hv [= <-]. destruct l as [|x [|y l]]; [done| |done].
    cbn in Hv. split; [done|]. by intros [= ->]. }
  rewrite bool_decide_eq_false_2 by apply Hne.
  rewrite bool_decide_eq_false_2 by congruence. cbn [orb negb].
  destruct dests as [|dest dests]; [by destruct Hne|]. cbn [for_return].
  destruct (client_information_queue s) as [|p q] eqn:Eq; [done|].
  unfold anonymous in Ha. rewrite Eq in Ha. apply Forall_cons in Ha as [(ci & Hci) _].
  destruct (m_xmlString m) as [x|] eqn:Ex; [|done].
  erewrite run_bind; [|erewrite run_bind by (by eapply send_to_dest_fails); reflexivity].
  reflexivity.
Qed.

Definition to_bravo : message :=
  short_message "Other" "<note/>" (mkModel "N" (Some [Some "BRAVO"]) None).

Lemma directed_messages_undeliverable_witness :
  sendDataInQueue quiet_world SNone to_bravo true two_clients = (Ret (RInt (-1)), two_clients).
Proof.
  apply (directed_messages_undeliverable quiet_world to_bravo SNone true two_clients);
    try discriminate; [reflexivity|].
  repeat constructor; by eexists.
Defined.

(** ** Echo *)

Lemma yields_step {S A B} (m : M S A) (k : A -> M S B) (P : A -> Prop) Q :
  yields m (fun a _ => P a) -> (forall a, P a -> yields (k a) Q) -> yields (m ≫= k) Q.
Proof.
  intros Hm Hk s b s' E. destruct (bind_inv _ _ _ _ _ E) as (a & s1 & E1 & E2).
  exact (Hk a (Hm _ _ _ E1) _ _ _ E2).
Qed.

Lemma yields_try {S A} (m : M S A) (h : exn -> M S A) Q :
  yields m Q -> (forall e, yields (h e) Q) -> yields (try_except m h) Q.
Proof.
  intros Hm Hh s a s' E. destruct (try_except_inv _ _ _ _ _ E) as [H|(e & s1 & _ & _ & H)];
    [exact (Hm _ _ _ H)|exact (Hh _ _ _ _ H)].
Qed.

Lemma yields_raise {S A} e (Q : A -> S -> Prop) : yields (raise e) Q.
Proof. intros s a s' E. discriminate. Qed.

Lemma yields_for_return {S A R} (l : list A) (f : A -> M S (option R)) (P : option R -> Prop) :
  P None -> (forall a, yields (f a) (fun o _ => P o)) ->
  yields (for_return l f) (fun o _ => P o).
Proof.
  intros H0 Hf. induction l as [|a l IH]; [by apply yields_ret|].
  apply (yields_step _ _ P); [apply Hf|]. intros [r|] Hr; [by apply yields_ret|exact IH].
Qed.

(** The answer of a turn of a loop over clients: that it failed, if anything. *)
Definition not_sent (o : option send_result) : Prop := o <> Some (RInt 1).

(** A method that answers [1] has put the message on the pipe last. *)
Definition shared_last (m : message) (r : send_result) (s : cot) : Prop :=
  r = RInt 1 -> last (trace s) = Some (Shared (with_clientInformation SNone m)).

Section echo.
Context (w : world) (Hp : open_pipe w) (m : message).

Lemma share_yields : yields (share_message w true m ;;; mret (RInt 1)) (shared_last m).
Proof using Hp.
  intros s r s' E. destruct (share_message_run w true m s Hp) as [n Hn].
  rewrite (run_bind _ _ _ _ _ Hn) in E. injection E as <- <-. intros _. cbn. apply last_snoc.
Qed.

Lemma loop_yields (l : M cot (option send_result)) :
  yields l (fun o _ => not_sent o) ->
  yields (r <- l ;; match r with
                    | Some r => mret r
                    | None => share_message w true m ;;; mret (RInt 1)
                    end) (shared_last m).
Proof using Hp.
  intros Hl. apply (yields_step _ _ not_sent); [exact Hl|]. intros [r|] Hr.
  - apply yields_ret. intros s ->. by destruct Hr.
  - apply share_yields.
Qed.

Lemma failed_not_sent c :
  yields (i <- client_info c ;; mret (Some (RFailed i))) (fun o _ => not_sent o).
Proof. apply yields_bind. intros i. by apply yields_ret. Qed.

Lemma send_to_all_yields who : yields (send_to_all w m who true) (shared_last m).
Proof using Hp.
  unfold send_to_all. apply yields_try; [|intros e; apply yields_raise].
  apply yields_bind. intros q. apply loop_yields, yields_for_return; [done|].
  intros p. destruct (is_sender m who p.1); [by apply yields_ret|].
  apply yields_try; [|intros _; apply failed_not_sent].
  do 2 (apply yields_bind; intros ?). by apply yields_ret.
Qed.

Lemma send_xml_to_yields c : yields (send_xml_to w m c) (fun o _ => not_sent o).
Proof.
  unfold send_xml_to. apply yields_try; [|intros _].
  - do 2 (apply yields_bind; intros ?). by apply yields_ret.
  - apply yields_bind. intros _. apply failed_not_sent.
Qed.

Lemma minus_one_yields :
  yields (message_xml m ;;; mret (Some (RInt (-1)))) (fun o _ => not_sent o).
Proof. apply yields_bind. intros _. by apply yields_ret. Qed.

Lemma send_to_dest_yields dest : yields (send_to_dest w m dest) (fun o _ => not_sent o).
Proof.
  unfold send_to_dest. apply yields_try; [|intros _; apply minus_one_yields].
  apply yields_bind. intros q. apply yields_for_return; [done|]. intros p.
  do 2 (apply yields_bind; intros ?).
  case_bool_decide; [apply send_xml_to_yields|by apply yields_ret].
Qed.

Lemma specific_yields who : yields (send_to_specific_client w m who true) (shared_last m).
Proof using Hp.
  unfold send_to_specific_client.
  apply yields_try; [|intros e; apply yields_ret; intros s; discriminate].
  do 3 (apply yields_bind; intros ?).
  case_match; [apply send_to_all_yields|]. case_match; [apply send_to_all_yields|].
  apply loop_yields, yields_for_return; [done|]. intros dest. apply send_to_dest_yields.
Qed.

Lemma geochat_yields who : yields (geochat_sending w m who true) (shared_last m).
Proof using Hp.
  unfold geochat_sending.
  apply yields_try; [|intros e; apply yields_ret; intros s; discriminate].
  apply yields_bind. intros to. case_match; [apply send_to_all_yields|].
  apply yields_bind. intros q. apply loop_yields, yields_for_return; [done|]. intros p.
  apply yields_try; [|intros _; apply minus_one_yields].
  case_match; [apply send_xml_to_yields|by apply yields_ret].
Qed.

Lemma sendDataInQueue_yields who :
  (forall k, who <> SSelf k) -> yields (sendDataInQueue w who m true) (shared_last m).
Proof using Hp.
  intros Hw. unfold sendDataInQueue.
  apply yields_try; [|intros e; apply yields_ret; intros s; discriminate].
  case_match; [apply geochat_yields|]. destruct who as [|u| |k]; [..|by destruct (Hw k)].
  all: apply yields_bind; intros v; destruct v; [apply specific_yields|apply send_to_all_yields].
Qed.
End echo.

(** The state in which [handle_shared_data] sends. *)
Definition before_sending (w : world) {V : CotService} (s : cot) : cot :=
  count_sent (count_from_core (get_client_information w s).2).

(** [handle_shared_data] asks that what it forwards not be shared
    ([use_share_pipe=False]), but [send_message] does not look at that: whenever a
    message that came over the pipe from the other services has been sent, the last
    thing done with it is to put it on the pipe to the other services again, without
    its client information.  The core passes that on to every service but this one, and the other
    service, whose methods are the same, does likewise. *)
Theorem shared_data_is_echoed w {V : CotService} m s :
  polite w -> open_pipe w -> (forall k, m_clientInformation m <> Some (SSelf k)) ->
  (sendDataInQueue w (default SNone (m_clientInformation m)) m true (before_sending w s)).1
    = Ret (RInt 1) ->
  exists tr, trace (handle_shared_data w m s).2
    = tr ++ [Shared (with_clientInformation SNone m)].
Proof.
  intros Po Hp Hk H. apply run_ret in H. unfold before_sending in H.
  destruct (total_get_client_information w Po s) as ([] & s1 & E1). rewrite E1 in H. cbn [snd] in H.
  assert (E : handle_shared_data w m s = (Ret tt,
    (sendDataInQueue w (default SNone (m_clientInformation m)) m true
      (count_sent (count_from_core s1))).2)).
  { unfold handle_shared_data. apply try_except_ret. rewrite (run_bind _ _ _ _ _ E1).
    do 2 erewrite run_bind by reflexivity. unfold send_message_from.
    by rewrite (run_bind _ _ _ _ _ H). }
  rewrite E. cbn [snd]. apply last_Some.
  apply (sendDataInQueue_yields w Hp m (default SNone (m_clientInformation m))) in H; [by apply H|].
  intros k Ek. destruct (m_clientInformation m) as [c|] eqn:Ec; [|discriminate].
  cbn in Ek. subst c. by apply (Hk k).
Qed.

Lemma shared_data_is_echoed_witness :
  exists tr, trace (handle_shared_data (V := tcp_service) quiet_world note two_clients).2
    = tr ++ [Shared (with_clientInformation SNone note)].
Proof.
  assert (H : (sendDataInQueue quiet_world (default SNone (m_clientInformation note)) note true
    (before_sending (V := tcp_service) quiet_world two_clients)).1 = Ret (RInt 1)) by (vm_compute; reflexivity).
  assert (Hk : forall k, m_clientInformation note <> Some (SSelf k)) by (intros k; discriminate).
  exact (shared_data_is_echoed quiet_world (V := tcp_service) note two_clients quiet_polite (fun _ => eq_refl) Hk H).
Defined.
