(* ===== verification/CotClients.v ===== *)
(** Clients of the CoT services that come, go and send. *)
From stdpp Require Import base strings list sets.
From Stdlib Require Import ZArith Lia.
From S2P Require Import Prelude.
From S2P Require Import CotData.
From S2P Require Import FtsState.
From S2P Require Import Registry.
From S2P Require Import CotState.
From S2P Require Import SendData.
From S2P Require Import Reception.
From S2P Require Import TcpService.
From S2P Require Import CotFacts.
From S2P Require Import CotRun.
From S2P Require Import CotSend.

Set Default Proof Using "Type".
Local Open Scope string_scope.
Local Open Scope list_scope.
Local Open Scope py_scope.

(** * Connections *)

(** What a new client adds to the user table and asks of the components. *)
Definition connection_effects (w : world) (ci : ClientInformation) : list effect :=
  let o := object_id w (ci_uid ci) in
  [UserRow (ci_uid ci) (ci_callsign ci) (ci_IP ci);
   UserRow (ci_uid ci) (ci_callsign ci) (ci_IP ci);
   Requested (ConnectionRequest o); Requested (RepeaterRequest o [o]);
   Requested (EmergenciesRequest o)].

Definition no_call_raises (w : world) : Prop := forall n c, raises w n c = None.

Lemma call_run w c s : no_call_raises w -> call w c s = (Ret tt, advance [] 1 s).
Proof. intros H. unfold call, clock_tick. py_run. rewrite H. by rewrite tick_advance. Qed.

Lemma save_client_to_db_run w ci s :
  no_call_raises w ->
  save_client_to_db w ci s =
    (Ret tt, advance [UserRow (ci_uid ci) (ci_callsign ci) (ci_IP ci)] 1 s).
Proof.
  intros H. unfold save_client_to_db. apply try_except_ret.
  rewrite (run_bind _ _ _ _ _ (call_run w CDatabase s H)), emit_run.
  by rewrite advance_advance.
Qed.

Lemma subject_send_request_run w r s :
  no_call_raises w ->
  subject_send_request w r s = (Ret tt, advance [Requested r] 1 s).
Proof.
  intros H. unfold subject_send_request.
  rewrite (run_bind _ _ _ _ _ (call_run w CSubjectSend s H)), emit_run.
  by rewrite advance_advance.
Qed.

Lemma new_request_run w (r : request) s :
  no_call_raises w -> (call w CFactory ;;; mret r) s = (Ret r, advance [] 1 s).
Proof. intros H. by rewrite (run_bind _ _ _ _ _ (call_run w CFactory s H)). Qed.

(** The tables after a client has connected. *)
Definition connected (w : world) {V : CotService} (raw : RawConnectionInformation)
    (ci : ClientInformation) (s : cot) : cot :=
  set_connections (dset (object_id w (ci_uid ci)) (mkTCPCoTConnection (ci_uid ci) (ci_socket ci)))
    (set_queue (dset (ci_uid ci) (mkClient (ci_socket ci) (InfoClient ci :: entry_rest raw))) s).

Lemma create_client_connection_run w {V : CotService} raw ci s :
  no_call_raises w -> instantiate_client_information w raw = Some ci ->
  create_client_connection w raw s =
    (Ret (mkTCPCoTConnection (ci_uid ci) (ci_socket ci), ci),
     advance [UserRow (ci_uid ci) (ci_callsign ci) (ci_IP ci)] 2 (connected w raw ci s)).
Proof.
  intros H E. unfold create_client_connection. rewrite E. erewrite run_bind by reflexivity.
  rewrite (run_bind _ _ _ _ _ (save_client_to_db_run w ci s H)).
  erewrite run_bind by reflexivity.
  rewrite (run_bind _ _ _ _ _ (call_run w CFactory _ H)).
  erewrite run_bind by reflexivity. cbn [mret M_ret]. f_equal.
  unfold connected, set_connections, set_queue, advance. cbn. by rewrite app_nil_r.
Qed.

Lemma enter_client_run w {V : CotService} raw ci s :
  no_call_raises w -> instantiate_client_information w raw = Some ci ->
  enter_client w raw s =
    send_user_connection_geo_chat w ci (advance (connection_effects w ci) 9 (connected w raw ci s)).
Proof.
  intros H E. unfold enter_client.
  rewrite (run_bind _ _ _ _ _ (create_client_connection_run w raw ci s H E)). cbn [fst snd].
  rewrite (run_bind _ _ _ _ _ (save_client_to_db_run w ci _ H)).
  unfold create_iam_request, create_send_repeated_messages_request,
    create_send_emergencies_request.
  do 3 (rewrite (run_bind _ _ _ _ _ (new_request_run w _ _ H));
        rewrite (run_bind _ _ _ _ _ (subject_send_request_run w _ _ H))).
  by rewrite !advance_advance.
Qed.

(** From [s], which it may have left by sending, with the tables as they are. *)
Definition sent_from (s s' : cot) : Prop :=
  client_information_queue s' = client_information_queue s /\
  cot_connections s' = cot_connections s /\
  exists es, trace s' = trace s ++ es /\ Forall sending es.

#[export] Instance sent_from_calm s : Calm sending (sent_from s).
Proof.
  split; [done|]. intros e s' He (H1 & H2 & es & H3 & H4). split; [done|]. split; [done|].
  exists (es ++ [e]). cbn. rewrite H3, app_assoc. split; [done|].
  apply Forall_app. by repeat constructor.
Qed.

(** C38: a client whose first event can be read is entered in both tables with its
    socket, in the user table, twice over, and is announced to the components that
    register it, send it the repeated messages and send it the emergencies, in this
    order; nothing but its greeting follows.  Of a connection that failed nothing
    remains.  But a client whose first event can not be read, which the log says has
    been disconnected, is only forgotten: its socket is not closed. *)
Theorem connection_enters_client w {V : CotService} raw s :
  polite w -> no_call_raises w ->
  handle_connection w None s = (Ret PNone, s) /\
  match instantiate_client_information w raw with
  | None => handle_connection w (Some raw) s = (Ret (PInt 1), s)
  | Some ci => exists s' es,
      handle_connection w (Some raw) s = (Ret (PInt 1), s') /\
      client_information_queue s' =
        dset (ci_uid ci) (mkClient (rc_socket raw) (InfoClient ci :: entry_rest raw))
          (client_information_queue s) /\
      cot_connections s' =
        dset (object_id w (ci_uid ci)) (mkTCPCoTConnection (ci_uid ci) (rc_socket raw))
          (cot_connections s) /\
      trace s' = trace s ++ connection_effects w ci ++ es /\ Forall sending es
  end.
Proof.
  intros Po H. split; [done|].
  destruct (instantiate_client_information w raw) as [ci|] eqn:E.
  2: { unfold handle_connection, enter_client, create_client_connection. rewrite E. reflexivity. }
  assert (Hs : ci_socket ci = rc_socket raw).
  { unfold instantiate_client_information in E.
    destruct (parse_connection w (rc_xmlString raw)) as [[u c]|]; by simplify_eq/=. }
  set (s1 := advance (connection_effects w ci) 9 (connected w raw ci s)).
  pose proof (preserves_send_user_connection_geo_chat (I := sent_from s1) w
    (fun e He => He) ci s1) as Hg.
  assert (H1 : sent_from s1 s1).
  { split; [done|]. split; [done|]. exists []. by rewrite app_nil_r. }
  specialize (Hg H1). clear H1.
  exists (send_user_connection_geo_chat w ci s1).2.
  destruct Hg as (Hq & Hc & es & Ht & Hes). exists es.
  split; [|rewrite Hq, Hc, Ht, <- Hs; unfold s1; cbn [advance connected]; split; [done|];
    split; [done|]; cbn; by rewrite <- app_assoc].
  pose proof (enter_client_run w raw ci s H E) as Eb. fold s1 in Eb.
  destruct (send_user_connection_geo_chat w ci s1) as [[[]|e] s2] eqn:E2.
  - exact (run_bind _ _ _ _ _ (try_except_ret _ _ _ _ _ Eb)).
  - pose proof (benign_send_user_connection_geo_chat w Po ci _ _ _ E2) as He.
    unfold handle_connection. erewrite run_bind; [reflexivity|].
    by rewrite (try_except_exn _ _ _ _ _ Eb He).
Qed.

Lemma connection_enters_client_witness :
  exists s' es,
    handle_connection (V := tcp_service) quiet_world (Some (mkRawConnection "10.0.0.7" 7 None "C")) two_clients
      = (Ret (PInt 1), s') /\
    client_information_queue s' =
      client_information_queue two_clients ++
        [("C", mkClient 7 [InfoClient (mkClientInformation "C" "ALPHA" "10.0.0.7" 7 "C")])] /\
    cot_connections s' =
      cot_connections two_clients ++ [("connection:C", mkTCPCoTConnection "C" 7)] /\
    trace s' = [] ++ connection_effects quiet_world
      (mkClientInformation "C" "ALPHA" "10.0.0.7" 7 "C") ++ es /\ Forall sending es.
Proof.
  exact (proj2 (connection_enters_client quiet_world (V := tcp_service) (mkRawConnection "10.0.0.7" 7 None "C")
    two_clients quiet_polite (fun _ _ => eq_refl))).
Defined.

(** * Disconnections *)

(** The tables are as given and the sockets [ks] are closed. *)
Definition left_by (q : list (string * client)) (cs : list (string * TCPCoTConnection))
    (ks : list nat) (s : cot) : Prop :=
  client_information_queue s = q /\ cot_connections s = cs /\
  forall k, k ∈ ks -> is_closed s k = true.

#[export] Instance left_by_calm q cs ks : Calm (fun _ => True) (left_by q cs ks).
Proof.
  split; [done|]. intros e s _ (H1 & H2 & H3). split; [done|]. split; [done|].
  intros k Hk. specialize (H3 k Hk). unfold is_closed in *. cbn. by rewrite existsb_app, H3.
Qed.

Lemma disconnect_socket_closes w q cs ks k s :
  polite w -> (forall n, raises w n CClose = None) -> left_by q cs ks s ->
  left_by q cs (k :: ks) (disconnect_socket w k s).2.
Proof.
  intros Po Hc Hs. unfold disconnect_socket.
  assert (Ht : total (try: (call w CShutdown ;;; emit (Shut k)) except: mret tt)).
  { apply total_try_except; [|intros _; apply total_ret]. unfold emit.
    apply benign_bind; [by apply benign_call|intros _; repeat py_step]. }
  assert (Hp : preserves (left_by q cs ks)
    (try: (call w CShutdown ;;; emit (Shut k)) except: mret tt)).
  { repeat py_step; [exact (preserves_call w _)
      |exact (preserves_emit _ Logic.I)]. }
  destruct (Ht s) as ([] & s1 & E). specialize (Hp s Hs). rewrite E in Hp.
  rewrite (run_bind _ _ _ _ _ E).
  assert (E2 : (call w CClose ;;; sock_close k) s1 = (Ret tt, advance [Closed k] 1 s1)).
  { unfold call, clock_tick, sock_close, emit. py_run. rewrite Hc.
    by rewrite effect_advance, tick_advance, advance_advance. }
  rewrite (try_except_ret _ _ _ _ _ E2). destruct Hp as (H1 & H2 & H3). split; [done|].
  split; [done|]. intros k' Hk. unfold is_closed. cbn. rewrite existsb_app. cbn.
  apply elem_of_cons in Hk as [->|Hk].
  - rewrite bool_decide_eq_true_2 by done. by rewrite orb_true_r.
  - specialize (H3 k' Hk). cbn in H3. unfold is_closed in H3. by rewrite H3.
Qed.

Lemma disconnect_entries_close w q cs ks l s :
  polite w -> (forall n, raises w n CClose = None) -> left_by q cs ks s ->
  exists s', for_each l (disconnect_entry w) s = (Ret tt, s') /\
    left_by q cs (ks ++ omap id l) s'.
Proof.
  intros Po Hc. revert ks s. induction l as [|[k|] l IH]; intros ks s Hs; cbn [for_each].
  - exists s. split; [done|]. cbn. by rewrite app_nil_r.
  - pose proof (disconnect_socket_closes w q cs ks k s Po Hc Hs) as H.
    destruct (total_disconnect_socket w Po k s) as ([] & s1 & E). rewrite E in H.
    cbn [disconnect_entry]. rewrite (run_bind _ _ _ _ _ E).
    destruct (IH (k :: ks) s1 H) as (s' & E' & H1 & H2 & H3). exists s'. split; [exact E'|].
    split; [done|]. split; [done|]. intros k' Hk. apply H3. cbn in Hk |- *.
    set_solver.
  - erewrite run_bind by reflexivity. by apply IH.
Qed.

(** when a client disconnects it leaves [client_information_queue], the other
    entries as they were, whatever raises afterwards, and its sockets are closed, which
    for a client of the SSL service are that of TLS and the one under it.  But its
    connection is not taken out of [connections]: the messages of the components go on
    being offered to the closed socket for as long as the service runs (without
    effect), and the table never shrinks. *)
Theorem disconnection_leaves_connection w {V : CotService} uid c l s :
  polite w -> (forall n, raises w n CClose = None) ->
  dget uid (client_information_queue s) = Some c -> entry_socks c = Ret l ->
  let s' := (handle_disconnection w uid s).2 in
  client_information_queue s' = ddel uid (client_information_queue s) /\
  cot_connections s' = cot_connections s /\
  forall k, Some k ∈ l -> is_closed s' k = true.
Proof.
  intros Po Hc Hd Hl. cbv zeta.
  set (q := ddel uid (client_information_queue s)).
  cut (left_by q (cot_connections s) (omap id l) (handle_disconnection w uid s).2).
  { intros (H1 & H2 & H3). split; [done|]. split; [done|]. intros k Hk. apply H3.
    apply list_elem_of_omap. by exists (Some k). }
  assert (E1 : get_socks uid s = (Ret l, s)).
  { unfold get_socks, queue_get. py_run. by rewrite Hd, Hl. }
  set (s1 := set_threads (remove_client_thread uid) (set_queue (fun _ => q) s)).
  assert (E2 : delete_client_connection uid s = (Ret tt, s1)).
  { unfold delete_client_connection, removeClientThread, py_del. py_run. by rewrite Hd. }
  unfold handle_disconnection. rewrite (run_bind _ _ _ _ _ E1), (run_bind _ _ _ _ _ E2).
  assert (Hs1 : left_by q (cot_connections s) [] s1).
  { split; [done|]. split; [done|]. intros k Hk. by apply not_elem_of_nil in Hk. }
  destruct (disconnect_entries_close w q _ [] l s1 Po Hc Hs1) as (s2 & E3 & H).
  rewrite (run_bind _ _ _ _ _ E3). clear E3. revert s2 H.
  refine (_ : preserves (left_by q (cot_connections s) (omap id l)) _).
  unfold get_connection_id, create_iam_disconnect_request, send_disconnect_cot.
  repeat first [py_step|exact (preserves_call w _)
    |exact (preserves_subject_send_request w _ Logic.I)
    |exact (preserves_sendDataInQueue w (fun _ _ => Logic.I) _ _ _)].
Qed.

Lemma disconnection_leaves_connection_witness :
  let s' := (handle_disconnection (V := tcp_service) quiet_world "A" two_clients).2 in
  client_information_queue s' = [("B", mkClient 2 [InfoClient client_B])] /\
  cot_connections s' = cot_connections two_clients /\
  forall k, Some k ∈ [Some 1] -> is_closed s' k = true.
Proof.
  exact (disconnection_leaves_connection quiet_world (V := tcp_service) "A"
    (mkClient 1 [InfoClient client_A]) [Some 1]
    two_clients quiet_polite (fun _ => eq_refl) eq_refl eq_refl).
Defined.

(** * Data *)

(** An element that is not [-1] is handled the same way in both services. *)
Lemma handle_regular_item_some w {V : CotService} d s :
  handle_regular_item w (Some d) s =
    try_except
      (if bool_decide (raw_xmlString d = "") then handle_disconnection w (raw_client d)
       else component_handler w (raw_xmlString d)) (fun _ => mret tt) s.
Proof.
  unfold handle_regular_item, try_except, try_with.
  by destruct logged_first; (erewrite run_bind by reflexivity).
Qed.

Lemma handle_regular_item_none w {V : CotService} s :
  handle_regular_item w None s = (if logged_first then Exn AttributeError else Ret tt, s).
Proof. unfold handle_regular_item, try_except, try_with. by destruct logged_first. Qed.

Lemma handle_regular_item_total w {V : CotService} `{!CotServiceLaws V} d :
  polite w -> total (handle_regular_item w (Some d)).
Proof.
  intros Po s. rewrite handle_regular_item_some. revert s.
  apply total_try_except; [|intros _; apply total_ret].
  case_match; [by apply benign_handle_disconnection|].
  unfold component_handler. repeat first
    [by apply benign_call|by apply benign_subject_send_request|py_step
    |apply benign_of_outcome; by apply po_cot_type|apply benign_of_outcome; by apply po_human].
Qed.

(** The state after the data of the clients [ds] has been handled, one after the other. *)
Definition after_items (w : world) {V : CotService} (ds : list RawCoT) (s : cot) : cot :=
  fold_left (fun s d => (handle_regular_item w (Some d) s).2) ds s.

Lemma items_run w {V : CotService} `{!CotServiceLaws V} ds rest s :
  polite w ->
  for_each ((Some <$> ds) ++ rest) (handle_regular_item w) s =
    for_each rest (handle_regular_item w) (after_items w ds s).
Proof.
  intros Po. revert s. induction ds as [|d ds IH]; intros s; [done|].
  cbn [fmap list_fmap app for_each after_items fold_left].
  destruct (handle_regular_item_total w d Po s) as ([] & s' & E).
  rewrite (run_bind _ _ _ _ _ E), E. apply IH.
Qed.

(** What becomes of the data [d] of a client: [None] when it is empty or its type can
    not be found out. *)
Definition routed (w : world) (d : RawCoT) : option request :=
  if bool_decide (raw_xmlString d = "") then None
  else match cot_type w (raw_xmlString d) with
       | Exn _ => None
       | Ret t => match human_readable_type w t with
                  | Exn _ => None
                  | Ret h => Some (CoTRequest h (raw_xmlString d))
                  end
       end.

Lemma handle_regular_item_run w {V : CotService} d s :
  polite w -> no_call_raises w -> raw_xmlString d <> "" ->
  exists n, handle_regular_item w (Some d) s =
    (Ret tt, advance (Requested <$> option_list (routed w d)) n s).
Proof.
  intros Po H Hne. rewrite handle_regular_item_some. unfold routed.
  rewrite !bool_decide_eq_false_2 by done.
  unfold try_except, try_with, component_handler.
  destruct (cot_type w (raw_xmlString d)) as [t|e] eqn:Et.
  2: { exists 0. rewrite advance_0. py_run. pose proof (po_cot_type w Po _ _ Et) as He.
       unfold is_Exception in He. by rewrite He. }
  erewrite run_bind by reflexivity. rewrite (run_bind _ _ _ _ _ (call_run w CFactory s H)).
  destruct (human_readable_type w t) as [h|e] eqn:Eh.
  2: { exists 1. py_run. pose proof (po_human w Po _ _ Eh) as He.
       unfold is_Exception in He. by rewrite He. }
  erewrite run_bind by reflexivity. rewrite subject_send_request_run by done.
  exists 2. by rewrite advance_advance.
Qed.

(** the data of the clients is handled piece by piece: a piece that can not be
    handled does not keep the later ones from being handled, each that is not empty and
    whose type can be found is sent to its component, in order and unchanged, and the
    answer is [1].  An element that is [-1], which the code means to skip, is skipped by
    a service that does not log it first; in one that does, the TCP service, it ends
    the handling with [-1] and what comes after it is lost. *)
Theorem regular_data_is_routed w {V : CotService} `{!CotServiceLaws V} ds rest s :
  polite w ->
  handle_regular_data w (Some <$> ds) s = (Ret (PInt 1), after_items w ds s) /\
  handle_regular_data w ((Some <$> ds) ++ None :: rest) s =
    (if logged_first then (Ret (PInt (-1)), after_items w ds s)
     else handle_regular_data w rest (after_items w ds s)) /\
  (no_call_raises w -> (forall d, d ∈ ds -> raw_xmlString d <> "") ->
   trace (after_items w ds s) = trace s ++ (Requested <$> omap (routed w) ds)).
Proof.
  intros Po. unfold handle_regular_data. split; [|split].
  - apply try_except_ret. rewrite <- (app_nil_r (Some <$> ds)).
    assert (E := items_run w ds [] s Po). by rewrite (run_bind _ _ _ _ _ E).
  - assert (E := items_run w ds (None :: rest) s Po).
    unfold try_except, try_with. cbv [mbind M_bind]. rewrite E. cbn [for_each].
    cbv [mbind M_bind].
    rewrite handle_regular_item_none. by destruct logged_first.
  - intros H. revert s. induction ds as [|d ds IH]; intros s Hd.
    { cbn. by rewrite app_nil_r. }
    cbn [after_items fold_left]. fold (after_items w ds (handle_regular_item w (Some d) s).2).
    rewrite IH by set_solver.
    destruct (handle_regular_item_run w d s Po H) as [n ->]; [apply Hd; left|].
    cbn [omap list_omap]. destruct (routed w d); cbn; by rewrite <- app_assoc.
Qed.

Lemma regular_data_is_routed_witness :
  handle_regular_data (V := tcp_service) quiet_world [Some (mkRawCoT "A" "<event/>"); None] two_clients
    = (Ret (PInt (-1)), after_items (V := tcp_service) quiet_world [mkRawCoT "A" "<event/>"] two_clients).
Proof.
  exact (proj1 (proj2 (regular_data_is_routed quiet_world (V := tcp_service) [mkRawCoT "A" "<event/>"] []
    two_clients quiet_polite))).
Defined.
