(* ===== verification/CotReceive.v ===== *)
(** What the CoT services receive: the data of its clients, the connections it
    accepts, and the XML declarations in both. *)
From Stdlib Require Import Ascii String.
From stdpp Require Import base strings list sets.
From Stdlib Require Import ZArith Lia.
From S2P Require Import Prelude.
From S2P Require Import CotData.
From S2P Require Import FtsState.
From S2P Require Import Registry.
From S2P Require Import CotState.
From S2P Require Import SendData.
From S2P Require Import Reception.
From S2P Require Import TcpService.
From S2P Require Import CotFacts.
From S2P Require Import CotRun.
From S2P Require Import CotSend.

Set Default Proof Using "Type".
Local Open Scope string_scope.
Local Open Scope list_scope.
Local Open Scope py_scope.

(** * XML declarations *)

Definition mark : ascii := "?"%char.

(** A text without question marks. *)
Definition plain (s : string) : Prop := mark ∉ chars s.

Lemma chars_app s t : chars (s +:+ t) = chars s ++ chars t.
Proof. unfold chars. induction s as [|c s IH]; [done|].
  change (c :: list_ascii_of_string (s +:+ t) = c :: (list_ascii_of_string s ++ list_ascii_of_string t)).
  by rewrite IH.
Qed.

Lemma chars_string l : chars (string_of_list_ascii l) = l.
Proof. apply list_ascii_of_string_of_list_ascii. Qed.

Lemma starts_with_app p l : starts_with p (p ++ l) = true.
Proof. unfold starts_with. by rewrite take_app_length, bool_decide_eq_true_2. Qed.

Lemma starts_with_head c p l : starts_with (c :: p) l = true -> head l = Some c.
Proof.
  unfold starts_with. rewrite bool_decide_eq_true. destruct l as [|d l]; [done|].
  cbn. by intros [= -> _].
Qed.

Lemma starts_with_second c d p l :
  starts_with (c :: d :: p) l = true -> exists l', l = c :: d :: l'.
Proof.
  unfold starts_with. rewrite bool_decide_eq_true. destruct l as [|x [|y l]]; try done.
  cbn. intros [= -> -> _]. by eexists.
Qed.

Lemma re_sub_skip m n l : re_sub m n l = re_sub m 0 (drop n l).
Proof. revert n. induction l as [|c l IH]; intros [|n]; try done. cbn. apply IH. Qed.

Lemma re_sub_match m n l : m l = Some (S n) -> re_sub m 0 l = re_sub m 0 (drop (S n) l).
Proof.
  intros H. destruct l as [|c l]; [done|]. cbn. rewrite H. cbn.
  rewrite Nat.sub_0_r. apply re_sub_skip.
Qed.

(** A text before a declaration, or alone, is kept. *)
Lemma re_sub_plain close b rest :
  mark ∉ b -> (rest = [] \/ exists r, rest = "<"%char :: r) ->
  re_sub (declaration close) 0 (b ++ rest) = b ++ re_sub (declaration close) 0 rest.
Proof.
  intros Hb Hr. induction b as [|c b IH]; [done|].
  rewrite not_elem_of_cons in Hb. destruct Hb as [Hc Hb].
  assert (E : declaration close ((c :: b) ++ rest) = None).
  { unfold declaration. destruct (starts_with _ _) eqn:Es; [|done]. exfalso.
    apply starts_with_second in Es as [l' E]. destruct b as [|d b]; cbn in E.
    - injection E as _ E. destruct Hr as [->|[r ->]]; [done|]. discriminate.
    - injection E as _ Ed _. subst d. apply Hb. left. }
  cbn [app re_sub]. change (c :: b ++ rest) with ((c :: b) ++ rest). rewrite E.
  by rewrite (IH Hb).
Qed.

Lemma close_first_plain d rest :
  mark ∉ d -> newline ∉ d ->
  close_first (d ++ chars "?>" ++ rest) = Some (length d + 2).
Proof.
  induction d as [|c d IH]; intros Hm Hn; [done|].
  rewrite not_elem_of_cons in Hm, Hn. cbn [app close_first].
  destruct (starts_with _ _) eqn:Es.
  { apply starts_with_head in Es. cbn in Es. destruct Hm as [Hm _]. by simplify_eq. }
  rewrite decide_False by (intros ->; by destruct Hn).
  rewrite IH by tauto. done.
Qed.

Lemma close_last_plain x y :
  mark ∉ y -> close_last (x ++ chars "?>" ++ y) = Some (length x + 2).
Proof.
  intros Hy. assert (H : close_last y = None).
  { induction y as [|c y IH]; [done|]. rewrite not_elem_of_cons in Hy. cbn.
    rewrite IH by tauto. destruct (starts_with _ _) eqn:Es; [|done].
    apply starts_with_head in Es. destruct Hy as [Hy _]. cbn in Es. by simplify_eq. }
  induction x as [|c x IH]; [cbn; by rewrite H|]. cbn [app close_last]. by rewrite IH.
Qed.

(** Declarations, each with the text after it. *)
Fixpoint announced (l : list (string * string)) : string :=
  match l with
  | [] => ""
  | p :: l => "<?xml" +:+ (p.1 +:+ ("?>" +:+ (p.2 +:+ announced l)))
  end.

Definition announced_ok (p : string * string) : Prop :=
  plain p.1 /\ (newline ∉ chars p.1) /\ plain p.2.

Fixpoint bodies (l : list (string * string)) : string :=
  match l with [] => "" | p :: l => p.2 +:+ bodies l end.

Lemma announced_start l : chars (announced l) = [] \/ exists r, chars (announced l) = "<"%char :: r.
Proof. destruct l as [|p l]; [by left|right]. by eexists. Qed.

Lemma drop_declaration d rest :
  drop (5 + (length d + 2)) (chars "<?xml" ++ d ++ chars "?>" ++ rest) = rest.
Proof. cbn. rewrite drop_app_ge by lia. rewrite Nat.add_comm, Nat.add_sub. done. Qed.

Lemma shortest_announced l :
  Forall announced_ok l ->
  re_sub (declaration close_first) 0 (chars (announced l)) = chars (bodies l).
Proof.
  induction 1 as [|[d b] l (Hd & Hn & Hb) _ IH]; [done|].
  cbn [announced bodies fst snd]. rewrite !chars_app.
  assert (E : declaration close_first
      (chars "<?xml" ++ chars d ++ chars "?>" ++ chars b ++ chars (announced l))
    = Some (S (4 + (length (chars d) + 2)))).
  { unfold declaration. rewrite starts_with_app. rewrite drop_app_length' by done.
    by rewrite close_first_plain. }
  rewrite (re_sub_match _ _ _ E). change (S (4 + ?n)) with (5 + n). rewrite drop_declaration.
  rewrite re_sub_plain; [by rewrite IH|done|apply announced_start].
Qed.

Lemma announced_last l p :
  exists y, chars (announced (l ++ [p])) = chars "<?xml" ++ y ++ chars "?>" ++ chars p.2.
Proof.
  induction l as [|q l (y & E)].
  - exists (chars p.1). cbn [app announced]. rewrite !chars_app.
    cbn [chars announced list_ascii_of_string]. by rewrite app_nil_r.
  - cbn [app announced]. rewrite !chars_app, E.
    exists (chars q.1 ++ chars "?>" ++ chars q.2 ++ chars "<?xml" ++ y).
    by rewrite <- !app_assoc.
Qed.

(** The two removals of XML declarations, on a text with any number of them, each
    on one line.  Where the data of connected clients is received every declaration is
    removed and all that is between them is kept.  Where a new connection is received
    everything from the first declaration to the end of the last one is removed: of
    several documents, each with its declaration, only the last one is left. *)
Theorem declarations_removed b l p :
  plain b -> Forall announced_ok (l ++ [p]) ->
  strip_shortest (b +:+ announced (l ++ [p])) = b +:+ bodies (l ++ [p]) /\
  strip_longest (b +:+ announced (l ++ [p])) = b +:+ p.2.
Proof.
  intros Hb Hl. unfold strip_shortest, strip_longest. rewrite chars_app.
  rewrite !re_sub_plain by (done || apply announced_start).
  rewrite shortest_announced by done.
  split; [rewrite <- chars_app; apply string_of_list_ascii_of_string|].
  destruct (announced_last l p) as (y & E). rewrite E.
  assert (Hp : mark ∉ chars p.2).
  { apply Forall_app in Hl as [_ Hl]. apply Forall_cons in Hl. apply Hl. }
  assert (Ed : declaration close_last (chars "<?xml" ++ y ++ chars "?>" ++ chars p.2)
    = Some (S (4 + (length y + 2)))).
  { unfold declaration. rewrite starts_with_app, drop_app_length' by done.
    by rewrite close_last_plain. }
  rewrite (re_sub_match _ _ _ Ed). change (S (4 + ?n)) with (5 + n). rewrite drop_declaration.
  rewrite <- (app_nil_r (chars p.2)), re_sub_plain by (done || by left).
  cbn [re_sub]. rewrite app_nil_r, <- chars_app. apply string_of_list_ascii_of_string.
Qed.

Lemma declarations_removed_witness :
  strip_longest "<multiEvent><?xml a?><e/><?xml b?><f/></multiEvent>"
    = "<multiEvent><f/></multiEvent>".
Proof.
  assert (H : Forall announced_ok [(" a", "<e/>"); (" b", "<f/></multiEvent>")]).
  { repeat constructor; cbn; apply (bool_decide_unpack _); vm_compute; exact I. }
  assert (Hb : plain "<multiEvent>").
  { apply (bool_decide_unpack _). vm_compute. exact I. }
  exact (proj2 (declarations_removed "<multiEvent>" [(" a", "<e/>")] (" b", "<f/></multiEvent>")
    Hb H)).
Defined.

(** * Receiving from the clients *)

Section receiving.
Context (w : world) {V : CotService} `{L : !CotServiceLaws V}.

Lemma waits_read_client k : waits (read_client w k).
Proof using L.
  unfold read_client. apply waits_bind; [apply waits_recv_until|intros raw].
  apply waits_bind; [apply waits_of_outcome|intros x].
  case_bool_decide; [apply law_again_waits|apply waits_ret].
Qed.

Lemma benign_recv_until k : polite w -> benign (recv_until w k).
Proof.
  intros Po. unfold recv_until.
  apply benign_bind; [by apply benign_sock_recv|intros msg].
  apply benign_bind; [apply benign_total, total_gets|intros n].
  revert msg. induction n as [|n IH]; intros msg; [apply benign_total, total_ret|].
  cbn [recv_more]. apply benign_bind; [|intros [part|]; [apply IH|apply benign_total, total_ret]].
  apply benign_try_except; [|intros _; apply benign_total, total_ret].
  apply benign_bind; [by apply benign_sock_recv|intros x; apply benign_total, total_ret].
Qed.

Lemma benign_read_client k : polite w -> benign (read_client w k).
Proof using L.
  intros Po. unfold read_client.
  apply benign_bind; [by apply benign_recv_until|intros raw].
  apply benign_bind; [apply benign_of_outcome, po_decode, Po|intros x].
  case_bool_decide; [by apply law_again_benign|apply benign_total, total_ret].
Qed.

(** What an exception means for the client: nothing to read yet, or that it is gone. *)
Definition report_failure (uid : string) (e : exn) : list RawCoT :=
  match e with TimeoutError | BlockingIOError => [] | _ => [mkRawCoT uid ""] end.

(** What a reading of a client is reported as. *)
Definition report (uid : string) (o : outcome string) : list RawCoT :=
  match o with
  | Exn e => report_failure uid e
  | Ret x =>
      if bool_decide (x = "") then [mkRawCoT uid ""]
      else
        match received_events w (strip_received (multi_event x)) with
        | Ret events => (fun e => mkRawCoT uid (remove_newlines e)) <$> events
        | Exn e => report_failure uid e
        end
  end.

Lemma receive_client_run (Po : polite w) uid k s :
  receive_client w uid k s = (Ret (report uid (read_client w k s).1), (read_client w k s).2).
Proof using L.
  assert (Hf : forall e s', is_Exception e = true ->
    (match e with
     | TimeoutError | BlockingIOError => mret []
     | _ => mret [returnReceivedData uid ""]
     end : M cot (list RawCoT)) s' = (Ret (report_failure uid e), s')) by by intros [].
  pose proof (benign_read_client k Po) as Hb.
  unfold receive_client, try_except, try_with. cbv [mbind M_bind].
  destruct (read_client w k s) as [[x|e] s1] eqn:E1; cbn [fst snd report].
  2: { rewrite (Hb _ _ _ E1). by apply Hf, (Hb _ _ _ E1). }
  case_bool_decide as Hx; [done|]. unfold of_outcome.
  destruct (received_events w _) as [l|e] eqn:Ee; [done|].
  rewrite (po_received_events w Po _ _ Ee). by apply Hf, (po_received_events w Po _ _ Ee).
Qed.

(** Each client with what was reported of it. *)
Definition reported (s : cot) (p : string * client) (l : list RawCoT) : Prop :=
  exists n, l = report p.1 (read_client w (c_sock p.2) (advance [] n s)).1.

Lemma receive_clients_run (Po : polite w) q acc s :
  (forall p, p ∈ q -> dget p.1 (client_information_queue s) = Some p.2) ->
  exists n ls, receive_clients w (dkeys q) acc s = (Ret (acc ++ concat ls), advance [] n s) /\
    Forall2 (reported s) q ls.
Proof using L.
  intros Hq.
  enough (H : forall n0, exists n ls,
    receive_clients w (dkeys q) acc (advance [] n0 s) = (Ret (acc ++ concat ls), advance [] n s) /\
    Forall2 (reported s) q ls) by (pose proof (H 0) as H0; by rewrite advance_0 in H0).
  revert acc.
  induction q as [|[uid c] q IH]; intros acc n0.
  { exists n0, []. by rewrite app_nil_r. }
  unfold dkeys. cbn [fmap list_fmap receive_clients fst].
  assert (E1 : queue_get uid (advance [] n0 s) = (Ret c, advance [] n0 s)).
  { unfold queue_get. py_run. change (client_information_queue (advance [] n0 s)) with
      (client_information_queue s). pose proof (Hq (uid, c)) as H. cbn in H.
    by rewrite H by left. }
  rewrite (run_bind _ _ _ _ _ E1).
  rewrite (run_bind _ _ _ _ _ (receive_client_run Po uid (c_sock c) _)).
  destruct (waits_read_client (c_sock c) (advance [] n0 s)) as [n1 E2]. rewrite E2.
  rewrite advance_advance. cbn [app].
  destruct (IH (fun p Hp => Hq p (list_elem_of_further _ _ _ Hp))
    (acc ++ report uid (read_client w (c_sock c) (advance [] n0 s)).1) (n0 + n1))
    as (n & ls & E3 & H3).
  exists n, (report uid (read_client w (c_sock c) (advance [] n0 s)).1 :: ls).
  split; [|by constructor; [exists n0|]]. fold (dkeys q). rewrite E3.
  cbn [concat]. by rewrite app_assoc.
Qed.
End receiving.

(** a reception asks every connected client in turn and reports on each: nothing
    when there is nothing to read yet; that it is gone, as empty data, when its socket
    fails in any other way, was closed, has come to its end, or says something that is
    not text or not XML; and else its events, one by one.  A client that fails does not
    keep the later ones from being heard, and the service itself is left as it was. *)
Theorem reception_reports_on_all w {V : CotService} `{!CotServiceLaws V} s :
  polite w -> NoDup (dkeys (client_information_queue s)) ->
  (exists n ls, reception_startup w s = (Ret (Some (concat ls)), advance [] n s) /\
     Forall2 (reported w s) (client_information_queue s) ls) /\
  (forall k s', is_closed s' k = true -> (read_client w k s').1 = Exn OSError) /\
  (forall k s' e, is_closed s' k = false -> receives w (now s') k = Exn e ->
     (read_client w k s').1 = Exn e).
Proof.
  intros Po Hn. split; [|split].
  - destruct (receive_clients_run w Po (client_information_queue s) [] s) as (n & ls & E & H).
    { intros [uid c] Hp. by apply elem_dget. }
    exists n, ls. split; [|done]. unfold reception_startup, monitorForData.
    apply try_except_ret. erewrite run_bind by reflexivity. by rewrite (run_bind _ _ _ _ _ E).
  - intros k s' H. unfold read_client, recv_until, sock_recv, clock_tick. py_run.
    change (is_closed (tick_cot s') k) with (is_closed s' k). by rewrite H.
  - intros k s' e H He. unfold read_client, recv_until, sock_recv, clock_tick. py_run.
    change (is_closed (tick_cot s') k) with (is_closed s' k). by rewrite H, He.
Qed.

Lemma reception_reports_on_all_witness :
  exists n ls, reception_startup (V := tcp_service) quiet_world two_clients
      = (Ret (Some (concat ls)), advance [] n two_clients) /\
    Forall2 (reported (V := tcp_service) quiet_world two_clients) (client_information_queue two_clients) ls.
Proof.
  assert (Hn : NoDup (dkeys (client_information_queue two_clients))).
  { apply (bool_decide_unpack _). vm_compute. exact I. }
  exact (proj1 (reception_reports_on_all quiet_world (V := tcp_service) two_clients quiet_polite Hn)).
Defined.

(** * Receiving a connection *)

Lemma sock_recv_run w k s :
  is_closed s k = false -> sock_recv w k s = (receives w (now s) k, advance [] 1 s).
Proof.
  intros H. unfold sock_recv, clock_tick. py_run.
  change (is_closed (tick_cot s) k) with (is_closed s k). rewrite H, tick_advance. done.
Qed.

(** One turn of the loops that receive a connection: a part, or the end. *)
Lemma recv_part_run w k s :
  exists r, try_with (part <- sock_recv w k ;; mret (Some part)) (fun _ => mret None) s
    = (Ret r, advance [] 1 s).
Proof.
  unfold try_with. destruct (sock_recv w k s) as [[p|e] s1] eqn:Es.
  - exists (Some p). rewrite (run_bind _ _ _ _ _ Es). unfold sock_recv, clock_tick in Es.
    revert Es. py_run. rewrite <- tick_advance. destruct (is_closed _ k); [done|].
    by intros [= _ <-].
  - exists None. rewrite (run_bind_exn _ _ _ _ _ Es). unfold sock_recv, clock_tick in Es.
    revert Es. py_run. rewrite <- tick_advance. by destruct (is_closed _ k); intros [= _ <-].
Qed.

Lemma recv_connection_bound w more tests k count d msg s :
  exists m n, recv_connection w more tests k count d msg s = (Ret m, advance [] n s) /\
    n <= tests /\ forall limit, (forall c, more c = true -> c < limit) -> n <= limit - count.
Proof.
  revert count msg s. induction tests as [|tests IH]; intros count msg s; cbn [recv_connection].
  { exists msg, 0. rewrite advance_0. split; [done|]. split; [lia|intros; lia]. }
  destruct (contains d msg || negb (more count)) eqn:E.
  { exists msg, 0. rewrite advance_0. split; [done|]. split; [lia|intros; lia]. }
  apply orb_false_iff in E as [_ E]. apply negb_false_iff in E.
  destruct (recv_part_run w k s) as [[p|] H]; rewrite (run_bind _ _ _ _ _ H).
  - destruct (IH (S count) (msg +:+ p) (advance [] 1 s)) as (m & n & -> & Hn & Hl).
    exists m, (1 + n). rewrite advance_advance. split; [done|]. split; [lia|].
    intros limit Hm. specialize (Hl limit Hm). specialize (Hm count E). lia.
  - exists msg, 1. split; [done|]. split; [lia|]. intros limit Hm.
    specialize (Hm count E). lia.
Qed.

(** The text of the first parts. *)
Definition joined (msg : string) (parts : list string) : string :=
  fold_left String.append parts msg.

Lemma recv_connection_parts w more parts tests k count d msg s :
  is_closed s k = false ->
  (forall i p, parts !! i = Some p -> receives w (now s + i) k = Ret p) ->
  (forall i, i < length parts -> contains d (joined msg (take i parts)) = false) ->
  length parts <= tests ->
  (forall i, i < length parts -> more (count + i) = true) ->
  more (count + length parts) = false \/
    contains d (joined msg parts) = true \/ tests = length parts ->
  recv_connection w more tests k count d msg s =
    (Ret (joined msg parts), advance [] (length parts) s).
Proof.
  revert tests count msg s. induction parts as [|p parts IH];
    intros tests count msg s Hc Hr Hd Hl Hm He; cbn [length] in *.
  - rewrite advance_0. destruct tests as [|tests]; [done|]. cbn [recv_connection].
    rewrite Nat.add_0_r in He.
    replace (contains d msg || negb (more count)) with true; [done|].
    symmetry. apply orb_true_iff. destruct He as [He|[He|He]]; [right|by left|lia].
    by rewrite He.
  - destruct tests as [|tests]; [lia|]. cbn [recv_connection].
    pose proof (Hd 0 (Nat.lt_0_succ _)) as H0. cbn in H0. rewrite H0.
    pose proof (Hm 0 (Nat.lt_0_succ _)) as H1. rewrite Nat.add_0_r in H1. rewrite H1.
    cbn [orb negb].
    pose proof (sock_recv_run w k s Hc) as E. rewrite <- (Nat.add_0_r (now s)) in E.
    rewrite (Hr 0 p eq_refl) in E.
    assert (E' : try_with (part <- sock_recv w k ;; mret (Some part)) (fun _ => mret None) s
      = (Ret (Some p), advance [] 1 s)).
    { unfold try_with. by rewrite (run_bind _ _ _ _ _ E). }
    rewrite (run_bind _ _ _ _ _ E'). rewrite IH; [by rewrite advance_advance| | | | | |].
    + by rewrite is_closed_advance.
    + intros i q Hi. cbn. rewrite <- Nat.add_succ_r. by apply Hr.
    + intros i Hi. apply (Hd (S i)). lia.
    + lia.
    + intros i Hi. rewrite Nat.add_succ_comm. apply Hm. lia.
    + destruct He as [He|[He|He]]; [left|right; by left|right; right; lia].
      by rewrite Nat.add_succ_comm.
Qed.

(** At most five parts. *)
Lemma few_parts i : Nat.leb i MAX_RECEPTION_ITERATIONS = true <-> i < S MAX_RECEPTION_ITERATIONS.
Proof. rewrite Nat.leb_le. lia. Qed.

(** the first message of a connection is received in at most five parts, one more
    than [MAX_RECEPTION_ITERATIONS], however often the peer has something to say and
    whatever the clock allows.  Reading never raises; parts that arrive are joined in
    order, until the end of an event is among them, five have arrived or time is up. *)
Theorem connection_reads_bounded w k d s :
  (exists m n, recv_until_delimiter w k d s = (Ret m, advance [] n s) /\
     n <= S MAX_RECEPTION_ITERATIONS) /\
  (forall parts, is_closed s k = false ->
     (forall i p, parts !! i = Some p -> receives w (now s + i) k = Ret p) ->
     (forall i, i < length parts -> contains d (joined "" (take i parts)) = false) ->
     length parts <= reads_left w (now s) -> length parts <= S MAX_RECEPTION_ITERATIONS ->
     length parts = S MAX_RECEPTION_ITERATIONS \/
       contains d (joined "" parts) = true \/ reads_left w (now s) = length parts ->
     recv_until_delimiter w k d s = (Ret (joined "" parts), advance [] (length parts) s)).
Proof.
  unfold recv_until_delimiter. split.
  - destruct (recv_connection_bound w (fun c => Nat.leb c MAX_RECEPTION_ITERATIONS)
      (reads_left w (now s)) k 0 d "" s) as (m & n & E & _ & Hn).
    exists m, n. erewrite run_bind by reflexivity. split; [exact E|].
    rewrite <- (Nat.sub_0_r (S _)). apply Hn. intros c. apply few_parts.
  - intros parts Hc Hr Hd Hl Hm He. erewrite run_bind by reflexivity.
    apply (recv_connection_parts w _ parts); try done.
    + intros i Hi. apply few_parts. cbn. lia.
    + destruct He as [He|He]; [left|by right]. cbn [Nat.add]. rewrite He.
      apply Nat.leb_gt. lia.
Qed.

(** A peer that says [x] five times and would go on. *)
Definition chatty_world : world :=
  mkWorld (takes quiet_world) (fun _ _ => Ret "x") (accepts quiet_world) (wraps quiet_world) (fun _ => 9)
    (raises quiet_world) (core_reply quiet_world) (pipe_full quiet_world)
    (decode quiet_world) (received_events quiet_world) (connection_events quiet_world)
    (connection_text quiet_world)
    (parse_connection quiet_world) (cot_type quiet_world)
    (human_readable_type quiet_world) (uuid1 quiet_world) (object_id quiet_world)
    (object_id_instance quiet_world) (disconnect_message quiet_world) (geochat_message quiet_world)
    (serialize quiet_world) None.

Lemma connection_reads_bounded_witness :
  recv_until_delimiter chatty_world 3 "</event>" two_clients
    = (Ret "xxxxx", advance [] 5 two_clients).
Proof.
  apply (proj2 (connection_reads_bounded chatty_world 3 "</event>" two_clients)
    ["x"; "x"; "x"; "x"; "x"]).
  - reflexivity.
  - intros i p Hi. do 5 (destruct i as [|i]; [injection Hi as <-; reflexivity|]). discriminate.
  - intros i Hi. do 5 (destruct i as [|i]; [reflexivity|]). cbn in Hi. lia.
  - cbn. lia.
  - apply Nat.leb_le. reflexivity.
  - left. reflexivity.
Defined.

Section receive_data.
Context (w : world) (recv : nat -> string -> M cot string).

Lemma waits_receive_data k :
  (forall d, waits (recv k d)) -> waits (receive_data_with w recv k).
Proof.
  intros H. unfold receive_data_with. apply waits_bind; [apply waits_sock_recv|intros part].
  case_bool_decide; [apply waits_raise|].
  apply waits_bind; [apply H|intros raw].
  do 2 (apply waits_bind; [apply waits_of_outcome|intros ?]).
  case_bool_decide; [apply waits_ret|].
  apply waits_bind; [apply waits_of_outcome|intros ?]. apply waits_ret.
Qed.

Lemma benign_receive_data k :
  polite w -> (forall d, benign (recv k d)) -> benign (receive_data_with w recv k).
Proof.
  intros Po H. unfold receive_data_with.
  apply benign_bind; [by apply benign_sock_recv|intros part].
  case_bool_decide; [by apply benign_raise|].
  apply benign_bind; [apply H|intros raw].
  do 2 (apply benign_bind; [apply benign_of_outcome; apply (po_decode w Po)|intros ?]).
  case_bool_decide; [apply benign_total, total_ret|].
  apply benign_bind; [apply benign_of_outcome; apply (po_connection_events w Po)|intros ?].
  apply benign_total, total_ret.
Qed.
End receive_data.

Lemma waits_recv_connection w more n k count d msg :
  waits (recv_connection w more n k count d msg).
Proof.
  intros s. destruct (recv_connection_bound w more n k count d msg s) as (m & i & -> & _).
  by exists i.
Qed.

Lemma total_recv_connection w more n k count d msg :
  total (recv_connection w more n k count d msg).
Proof.
  intros s. destruct (recv_connection_bound w more n k count d msg s) as (m & i & -> & _).
  by eexists _, _.
Qed.

Lemma waits_receive_connection_data w k : waits (receive_connection_data w k).
Proof.
  apply waits_receive_data. intros d. unfold recv_until_delimiter.
  apply waits_bind; [apply waits_gets|intros n; apply waits_recv_connection].
Qed.

Lemma benign_receive_connection_data w k : polite w -> benign (receive_connection_data w k).
Proof.
  intros Po. apply benign_receive_data; [done|]. intros d. unfold recv_until_delimiter.
  apply benign_total, total_bind; [apply total_gets|intros n; apply total_recv_connection].
Qed.

(** One attempt at receiving. *)
Lemma attempt_run {A} (m : M cot A) s :
  waits m -> benign m ->
  (exists d n, (d <- m ;; mret (Some d)) s = (Ret (Some d), advance [] n s)) \/
  (exists e n, is_Exception e = true /\
     (d <- m ;; mret (Some d)) s = (Exn e, advance [] n s)).
Proof.
  intros Hm Hb. destruct (Hm s) as [n Hn].
  destruct (m s) as [[d|e] s2] eqn:E; cbn in Hn; subst s2.
  - left. exists d, n. by rewrite (run_bind _ _ _ _ _ E).
  - right. exists e, n. rewrite (run_bind_exn _ _ _ _ _ E). split; [|done].
    exact (Hb _ _ _ E).
Qed.

(** The data is received, in no more than time, or the socket is closed. *)
Lemma receive_twice_run w k s :
  polite w ->
  (exists d n, receive_twice w k s = (Ret (Some d), advance [] n s)) \/
  (exists n, receive_twice w k s = (Ret None, advance [Closed k] n s)).
Proof.
  intros Po.
  pose proof (fun s1 => attempt_run _ s1 (waits_receive_connection_data w k)
    (benign_receive_connection_data w k Po)) as H.
  unfold receive_twice. destruct (H s) as [(d & n & E)|(e & n & He & E)].
  { left. exists d, n. by apply try_except_ret. }
  rewrite (try_except_exn _ _ _ _ _ E He).
  destruct (H (advance [] n s)) as [(d & n' & E')|(e' & n' & He' & E')].
  { left. exists d, (n + n'). rewrite (try_except_ret _ _ _ _ _ E'). by rewrite advance_advance. }
  right. exists (n + (n' + 0)). rewrite (try_except_exn _ _ _ _ _ E' He').
  unfold sock_close. rewrite (run_bind _ _ _ _ _ (emit_run _ _)).
  rewrite !advance_advance. reflexivity.
Qed.

(** What [listen] does with a peer it has accepted. *)
Definition serve (w : world) (ip : string) (k : nat)
    : M cot (option RawConnectionInformation) :=
  d <- receive_twice w k ;;
  match d with
  | None => mret None
  | Some d =>
      (match d with
       | TestSuccess => sock_send w k (Bytes "success")
       | Events _ _ => mret tt
       end) ;;;
      r <- of_outcome (instantiate_client_object ip k d) ;; mret (Some r)
  end.

Lemma listen_run w s :
  polite w -> raises w (now s) CListen = None ->
  listen w s =
    match accepts w (S (now s)) with
    | Exn _ => (Ret None, advance [] 2 s)
    | Ret (ip, k) =>
        try_except (serve w ip k) (fun _ => sock_close k ;;; mret None) (advance [] 2 s)
    end.
Proof.
  intros Po H. unfold listen.
  assert (E : call w CListen s = (Ret tt, advance [] 1 s)).
  { unfold call, clock_tick. py_run. by rewrite H, tick_advance. }
  rewrite (run_bind _ _ _ _ _ E).
  assert (E2 : clock_tick (advance [] 1 s) = (Ret (S (now s)), advance [] 2 s)).
  { unfold clock_tick. py_run. by rewrite tick_advance, advance_advance. }
  rewrite (run_bind _ _ _ _ _ E2).
  destruct (accepts w (S (now s))) as [[ip k]|e] eqn:Ea; [done|].
  by rewrite (po_accepts w Po _ _ Ea).
Qed.

(** A failing [serve] closes the socket. *)
Lemma serve_fails w ip k s e s' :
  serve w ip k s = (Exn e, s') -> is_Exception e = true ->
  try_except (serve w ip k) (fun _ => sock_close k ;;; mret None) s
    = (Ret None, advance [Closed k] 0 s').
Proof.
  intros E He. rewrite (try_except_exn _ _ _ _ _ E He). unfold sock_close.
  by rewrite (run_bind _ _ _ _ _ (emit_run _ _)).
Qed.

Lemma serve_test w ip k s n :
  polite w -> receive_twice w k s = (Ret (Some TestSuccess), advance [] n s) ->
  exists n', try_except (serve w ip k) (fun _ => sock_close k ;;; mret None) s =
    (Ret None, advance
      (taken k (offer w (is_closed s) (now (advance [] n s)) k "success") ++ [Closed k]) n' s).
Proof.
  intros Po E. destruct (sock_send_effect w k "success" (advance [] n s)) as [o Eo].
  change (is_closed (advance [] n s)) with (is_closed (advance [] n s)) in Eo.
  assert (Hc : offer w (is_closed (advance [] n s)) (now (advance [] n s)) k "success" =
    offer w (is_closed s) (now (advance [] n s)) k "success").
  { unfold offer. by rewrite is_closed_advance by constructor. }
  rewrite Hc in Eo. set (es := taken k _) in *.
  exists (n + 1 + 0).
  assert (Es : exists e, serve w ip k s = (Exn e, advance es (n + 1) s) /\ is_Exception e = true).
  { unfold serve. rewrite (run_bind _ _ _ _ _ E). destruct o as [[]|e].
    - exists AttributeError. rewrite (run_bind _ _ _ _ _ Eo).
      cbn [instantiate_client_object]. rewrite advance_advance. done.
    - exists e. rewrite (run_bind_exn _ _ _ _ _ Eo), advance_advance.
      split; [done|]. exact (benign_sock_send w Po k _ _ _ _ Eo). }
  destruct Es as (e & Es & He). rewrite (serve_fails _ _ _ _ _ _ Es He).
  by rewrite advance_advance.
Qed.

(** what [listen] answers to a peer.  Either [-1], and then the socket of the peer
    has been closed; or a connection, with the address and the socket of the peer, and
    then nothing has been sent on it and it is not closed.  A peer that only tests
    whether the server is there is told so, as far as its socket takes it, and its
    connection closed, with the answer [-1].  When accepting fails the answer is [-1]
    too: [listen] raises only when the listening socket does, before it accepts. *)
Theorem listen_answers w s :
  polite w -> raises w (now s) CListen = None ->
  match accepts w (S (now s)) with
  | Exn _ => listen w s = (Ret None, advance [] 2 s)
  | Ret (ip, k) =>
      (exists n, (exists x, listen w s =
           (Ret (Some (mkRawConnection ip k None x)), advance [] n s)) \/
         (exists es, listen w s = (Ret None, advance (es ++ [Closed k]) n s) /\
           Forall delivery es)) /\
      (forall n, receive_twice w k (advance [] 2 s) =
           (Ret (Some TestSuccess), advance [] n (advance [] 2 s)) ->
         exists n', listen w s = (Ret None, advance (taken k
           (offer w (is_closed s) (n + (2 + now s)) k "success") ++ [Closed k]) n' s))
  end.
Proof.
  intros Po H. rewrite (listen_run w s Po H).
  destruct (accepts w (S (now s))) as [[ip k]|e]; [|done]. set (s2 := advance [] 2 s).
  split.
  2: { intros n E. destruct (serve_test w ip k s2 n Po E) as [n' E']. exists (2 + n').
       rewrite E'. unfold s2. rewrite advance_advance. cbn [app].
       replace (offer w (is_closed (advance [] 2 s)) (now (advance [] n (advance [] 2 s))) k "success")
         with (offer w (is_closed s) (n + (2 + now s)) k "success"); [done|].
       unfold offer. by rewrite is_closed_advance by constructor. }
  destruct (receive_twice_run w k s2 Po) as [(d & n & E)|(n & E)].
  2: { exists (2 + n). right. exists []. split; [|constructor].
       assert (Es : serve w ip k s2 = (Ret None, advance [Closed k] n s2)).
       { unfold serve. by rewrite (run_bind _ _ _ _ _ E). }
       rewrite (try_except_ret _ _ _ _ _ Es). unfold s2. by rewrite advance_advance. }
  destruct d as [|text [|x l]].
  - destruct (serve_test w ip k s2 n Po E) as [n' E']. exists (2 + n'). right.
    eexists. split; [rewrite E'; unfold s2; rewrite advance_advance; done|].
    apply taken_delivery.
  - exists (2 + (n + 0)). right. exists []. split; [|constructor].
    assert (Es : serve w ip k s2 = (Exn IndexError, advance [] n s2)).
    { unfold serve. by rewrite (run_bind _ _ _ _ _ E). }
    rewrite (serve_fails _ _ _ _ _ _ Es eq_refl). unfold s2. by rewrite !advance_advance.
  - exists (2 + n). left. exists x.
    assert (Es : serve w ip k s2 = (Ret (Some (mkRawConnection ip k None x)), advance [] n s2)).
    { unfold serve. by rewrite (run_bind _ _ _ _ _ E). }
    rewrite (try_except_ret _ _ _ _ _ Es). unfold s2. by rewrite advance_advance.
Qed.

Lemma listen_answers_witness :
  exists n, (exists x, listen quiet_world two_clients =
      (Ret (Some (mkRawConnection "10.0.0.7" 7 None x)), advance [] n two_clients)) \/
    (exists es, listen quiet_world two_clients =
      (Ret None, advance (es ++ [Closed 7]) n two_clients) /\ Forall delivery es).
Proof. exact (proj1 (listen_answers quiet_world two_clients quiet_polite eq_refl)). Defined.
