(* ===== verification/SslProps.v ===== *)
(** Properties of the SSL CoT service: that it keeps the laws the common theorems rest
    on, what its listener answers, and when it takes a client to be gone. *)
From stdpp Require Import base strings list sets.
From Stdlib Require Import ZArith Lia.
From S2P Require Import Prelude.
From S2P Require Import CotData.
From S2P Require Import FtsState.
From S2P Require Import Registry.
From S2P Require Import CotState.
From S2P Require Import SendData.
From S2P Require Import Reception.
From S2P Require Import TcpService.
From S2P Require Import SslService.
From S2P Require Import CotFacts.
From S2P Require Import CotRun.
From S2P Require Import CotSend.
From S2P Require Import CotClients.
From S2P Require Import CotReceive.

Set Default Proof Using "Type".
Local Open Scope string_scope.
Local Open Scope list_scope.
Local Open Scope py_scope.

(** * The laws *)

Lemma waits_validate w n k : waits (validate_client_disconnect w n k).
Proof.
  induction n as [|n IH]; [apply waits_ret|]. cbn [validate_client_disconnect].
  apply waits_bind; [apply waits_recv_until|intros raw].
  apply waits_bind; [apply waits_of_outcome|intros x].
  case_bool_decide; [exact IH|apply waits_ret].
Qed.

Lemma benign_validate w n k : polite w -> benign (validate_client_disconnect w n k).
Proof.
  intros Po. induction n as [|n IH]; [apply benign_total, total_ret|].
  cbn [validate_client_disconnect].
  apply benign_bind; [by apply benign_recv_until|intros raw].
  apply benign_bind; [apply benign_of_outcome, po_decode, Po|intros x].
  case_bool_decide; [exact IH|apply benign_total, total_ret].
Qed.

#[export] Instance ssl_laws : CotServiceLaws ssl_service.
Proof.
  split.
  - done.
  - intros k i raw. eexists. split; [done|]. right. left.
  - intros [k l] e. cbn. unfold ssl_get_socks. cbn.
    destruct (l !! 1) as [[]|]; intros; by simplify_eq.
  - intros w k. apply waits_validate.
  - intros w k. apply benign_validate.
Qed.

(** * Clients that say nothing *)

(** What one reading of a client gives. *)
Definition reading (w : world) (k : nat) : M cot string :=
  raw <- recv_until w k ;; of_outcome (decode w raw).

(** The reading [r], or the next one where [r] is empty. *)
Definition or_next (r : outcome string * cot) (next : M cot string) : outcome string * cot :=
  match r.1 with Ret "" => next r.2 | _ => r end.

Lemma read_client_reading w {V : CotService} k s :
  read_client w k s = or_next (reading w k s) (read_again w k).
Proof.
  unfold read_client, reading, or_next. cbv [mbind M_bind of_outcome].
  destruct (recv_until w k s) as [[raw|e] s1]; [|done].
  destruct (decode w raw) as [[|c x]|e]; done.
Qed.

Lemma validate_reading w n k s :
  validate_client_disconnect w (S n) k s =
    or_next (reading w k s) (validate_client_disconnect w n k).
Proof.
  cbn [validate_client_disconnect]. unfold reading, or_next. cbv [mbind M_bind of_outcome].
  destruct (recv_until w k s) as [[raw|e] s1]; [|done].
  destruct (decode w raw) as [[|c x]|e]; done.
Qed.

Lemma or_next_last r : or_next r (mret "") = r.
Proof. unfold or_next. by destruct r as [[[|c x]|e] s]. Qed.

Lemma or_next_assoc r f g : or_next (or_next r f) g = or_next r (fun s => or_next (f s) g).
Proof. unfold or_next at 2 3. destruct r as [[[|c x]|e] s]; done. Qed.

Lemma or_next_ext r f g : (forall s, f s = g s) -> or_next r f = or_next r g.
Proof. intros H. unfold or_next. destruct r as [[[|c x]|e] s]; cbn; auto. Qed.

(** C40: a client of the SSL service whose reading is empty is read again, up to two times,
    and the first reading that says something or raises counts; so for saying nothing it is
    reported as gone only after three empty readings, by the TCP service after the first
    one.  A reading that raises is not repeated in either service: unless it says that there
    is nothing to read yet, the client is reported as gone at once. *)
Theorem ssl_empty_readings_are_repeated w uid k s :
  polite w ->
  let r1 := reading w k s in
  let r2 := or_next r1 (reading w k) in
  let r3 := or_next r2 (reading w k) in
  ssl_receive_client w uid k s = (Ret (report (V := ssl_service) w uid r3.1), r3.2) /\
  receive_client (V := tcp_service) w uid k s =
    (Ret (report (V := tcp_service) w uid r1.1), r1.2) /\
  (forall e, r1.1 = Exn e ->
     let heard := Ret match e with TimeoutError | BlockingIOError => [] | _ => [mkRawCoT uid ""] end in
     (ssl_receive_client w uid k s).1 = heard /\ (receive_client (V := tcp_service) w uid k s).1 = heard).
Proof.
  intros Po r1 r2 r3.
  enough (Hr : ssl_receive_client w uid k s = (Ret (report (V := ssl_service) w uid r3.1), r3.2) /\
    receive_client (V := tcp_service) w uid k s = (Ret (report (V := tcp_service) w uid r1.1), r1.2)).
  { destruct Hr as [H1 H2]. split; [exact H1|]. split; [exact H2|]. intros e He. rewrite H1, H2. cbn [fst].
    subst r3 r2. unfold or_next. rewrite He. cbn. rewrite He. cbn. rewrite He. by destruct e. }
  unfold ssl_receive_client. rewrite !(receive_client_run w Po).
  rewrite !read_client_reading. fold r1. cbn [read_again ssl_service tcp_service].
  rewrite or_next_last.
  assert (E3 : or_next r1 (validate_client_disconnect w 2 k) = r3).
  { subst r3 r2. rewrite or_next_assoc. apply or_next_ext. intros s1.
    rewrite validate_reading. apply or_next_ext. intros s2.
    rewrite validate_reading. apply or_next_last. }
  by rewrite E3.
Qed.

(** The first reading of a client is empty, the second is not. *)
Definition late_world : world :=
  mkWorld (takes quiet_world)
    (fun n _ => Ret (if Nat.ltb n 1 then "" else "<event/>")) (accepts quiet_world)
    (wraps quiet_world) (fun _ => 0)
    (raises quiet_world) (core_reply quiet_world) (pipe_full quiet_world)
    (decode quiet_world) (received_events quiet_world) (connection_events quiet_world)
    (connection_text quiet_world) (parse_connection quiet_world) (cot_type quiet_world)
    (human_readable_type quiet_world) (uuid1 quiet_world) (object_id quiet_world)
    (object_id_instance quiet_world) (disconnect_message quiet_world)
    (geochat_message quiet_world) (serialize quiet_world) None.

Lemma late_polite : polite late_world.
Proof. split; intros; simplify_eq/=; done. Qed.

Lemma ssl_empty_readings_are_repeated_witness :
  (ssl_receive_client late_world "A" 1 two_clients).1
    = Ret [mkRawCoT "A" "<multiEvent><event/></multiEvent>"] /\
  (receive_client (V := tcp_service) late_world "A" 1 two_clients).1 = Ret [mkRawCoT "A" ""].
Proof.
  destruct (ssl_empty_readings_are_repeated late_world "A" 1 two_clients late_polite)
    as (E1 & E2 & _).
  rewrite E1, E2. split; vm_compute; reflexivity.
Defined.

(** * The listener *)

Lemma waits_ssl_data w k : waits (ssl_receive_connection_data w k).
Proof.
  apply waits_receive_data. intros d. unfold ssl_recv_until_delimiter.
  apply waits_bind; [apply waits_gets|intros n; apply waits_recv_connection].
Qed.

Lemma benign_ssl_data w k : polite w -> benign (ssl_receive_connection_data w k).
Proof.
  intros Po. apply benign_receive_data; [done|]. intros d. unfold ssl_recv_until_delimiter.
  apply benign_total, total_bind; [apply total_gets|intros n; apply total_recv_connection].
Qed.

(** Both sockets of a connection shut and closed. *)
Definition both_closed (client ssl_client : nat) : list effect :=
  [Shut ssl_client; Closed ssl_client; Closed client].

(** What disconnecting a connection does: it closes both sockets, or, where the
    [shutdown] raises, nothing. *)
Definition disconnects (w : world) (client ssl_client : nat) (es : list effect) : Prop :=
  es = both_closed client ssl_client \/
  (es = [] /\ exists n, is_Some (raises w n CShutdown)).

Lemma disconnect_pair_run w client k s :
  polite w ->
  disconnect_pair w client k s = (Ret tt, advance (both_closed client k) 1 s) \/
  exists e, is_Exception e = true /\ is_Some (raises w (now s) CShutdown) /\
    disconnect_pair w client k s = (Exn e, advance [] 1 s).
Proof.
  intros Po. unfold disconnect_pair, call, clock_tick, sock_close, emit. py_run.
  destruct (raises w (now s) CShutdown) as [e|] eqn:E.
  - right. exists e. split; [exact (po_raises w Po _ _ _ E)|]. split; [by eexists|].
    by rewrite <- tick_advance.
  - left. by rewrite !effect_advance, tick_advance, !advance_advance.
Qed.

(** The last handler of [listen]. *)
Definition last_handler (w : world) (client k : nat) : M cot (option RawConnectionInformation) :=
  try_with (disconnect_pair w client k) (fun _ => mret tt) ;;; mret None.

Lemma last_handler_run w client k s :
  polite w -> exists n es, disconnects w client k es /\
    last_handler w client k s = (Ret None, advance es n s).
Proof.
  intros Po. unfold last_handler, try_with. cbv [mbind M_bind].
  destruct (disconnect_pair_run w client k s Po) as [->|(e & _ & Hs & ->)].
  - eexists _, _. split; [by left|done].
  - eexists 1, []. split; [right; split; [done|by eexists]|done].
Qed.

(** The data is received, in no more than time, or the connection disconnected. *)
Lemma ssl_receive_twice_run w client k s :
  polite w ->
  (exists d n, ssl_receive_twice w client k s = (Ret (Some d), advance [] n s)) \/
  (exists n, ssl_receive_twice w client k s =
     (Ret None, advance (both_closed client k) n s)) \/
  (exists e n, is_Exception e = true /\ ssl_receive_twice w client k s = (Exn e, advance [] n s)).
Proof.
  intros Po.
  pose proof (fun s1 => attempt_run _ s1 (waits_ssl_data w k) (benign_ssl_data w k Po)) as H.
  unfold ssl_receive_twice. destruct (H s) as [(d & n & E)|(e & n & He & E)].
  { left. exists d, n. by apply try_except_ret. }
  rewrite (try_except_exn _ _ _ _ _ E He).
  destruct (H (advance [] n s)) as [(d & n' & E')|(e' & n' & He' & E')].
  { left. exists d, (n + n'). rewrite (try_except_ret _ _ _ _ _ E'). by rewrite advance_advance. }
  right. rewrite (try_except_exn _ _ _ _ _ E' He').
  destruct (disconnect_pair_run w client k (advance [] n' (advance [] n s)) Po)
    as [Ed|(x & Hx & _ & Ed)].
  - left. exists (n + (n' + 1)). rewrite (run_bind _ _ _ _ _ Ed), !advance_advance. done.
  - right. exists x, (n + (n' + 1)). rewrite (run_bind_exn _ _ _ _ _ Ed), !advance_advance. done.
Qed.

(** What is answered to a test. *)
Lemma answer_test_run w k d s :
  polite w ->
  exists o n es, answer_test w k d s = (o, advance es n s) /\ Forall delivery es /\
    (forall e, o = Exn e -> is_Exception e = true) /\
    (d = TestSuccess -> o = Exn AttributeError /\ es = []) /\
    (forall text l, d = Events text l -> text <> Some "success" -> o = Ret tt /\ es = []).
Proof.
  intros Po. destruct d as [|text l]; cbn [answer_test].
  - exists (Exn AttributeError), 0, []. rewrite advance_0. split; [done|].
    split; [constructor|]. split; [by intros e [= <-]|]. split; [done|]. by intros.
  - case_bool_decide as Ht.
    + destruct (sock_send_effect w k "success" s) as [o Eo]. eexists o, _, _.
      split; [exact Eo|]. split; [apply taken_delivery|]. split; [|split; [done|intros text' l' [= <- _] Hne; by destruct Hne]].
      intros e ->. exact (benign_sock_send w Po _ _ _ _ _ Eo).
    + exists (Ret tt), 0, []. rewrite advance_0. split; [done|].
      split; [constructor|]. split; [done|]. split; [done|]. by intros.
Qed.

Lemma ssl_serve_run w ip client k s :
  polite w ->
  (exists x n es, Forall delivery es /\
     ssl_serve w ip client k s =
       (Ret (Some (mkRawConnection ip k (Some client) x)), advance es n s)) \/
  (exists n, ssl_serve w ip client k s = (Ret None, advance (both_closed client k) n s)) \/
  (exists e n es, is_Exception e = true /\ Forall delivery es /\
     ssl_serve w ip client k s = (Exn e, advance es n s)).
Proof.
  intros Po. unfold ssl_serve.
  destruct (ssl_receive_twice_run w client k s Po) as [(d & n & E)|[(n & E)|(e & n & He & E)]].
  - rewrite (run_bind _ _ _ _ _ E).
    destruct (answer_test_run w k d (advance [] n s) Po) as (o & n' & es & Ea & Hes & Ho & Ht & _).
    rewrite advance_advance in Ea. destruct o as [[]|e].
    2: { right; right. exists e, (n + n'), es. rewrite (run_bind_exn _ _ _ _ _ Ea). by auto. }
    rewrite (run_bind _ _ _ _ _ Ea). destruct d as [|text [|x l]].
    + by destruct (Ht eq_refl).
    + right; right. by exists IndexError, (n + n'), es.
    + left. by exists x, (n + n'), es.
  - right; left. exists n. by rewrite (run_bind _ _ _ _ _ E).
  - right; right. exists e, n, []. by rewrite (run_bind_exn _ _ _ _ _ E).
Qed.

Lemma ssl_listen_run w s :
  polite w -> raises w (now s) CListen = None ->
  ssl_listen w s =
    match accepts w (S (now s)) with
    | Exn _ => (Ret None, advance [] 2 s)
    | Ret (ip, client) =>
        match wraps w (2 + now s) client with
        | Exn _ => (Ret None, advance [] 3 s)
        | Ret k => try_except (ssl_serve w ip client k) (fun _ => last_handler w client k)
                     (advance [] 3 s)
        end
    end.
Proof.
  intros Po H. unfold ssl_listen.
  assert (E : call w CListen s = (Ret tt, advance [] 1 s)).
  { unfold call, clock_tick. py_run. by rewrite H, tick_advance. }
  assert (Et : forall s', clock_tick s' = (Ret (now s'), advance [] 1 s')).
  { intros s'. unfold clock_tick. py_run. by rewrite tick_advance. }
  rewrite (run_bind _ _ _ _ _ E), (run_bind _ _ _ _ _ (Et _)), advance_advance.
  change (now (advance [] 1 s)) with (S (now s)).
  destruct (accepts w (S (now s))) as [[ip client]|e] eqn:Ea.
  2: by rewrite (po_accepts w Po _ _ Ea).
  assert (Ew : forall s', wrap_client_socket w client s' =
      (wraps w (now s') client, advance [] 1 s')).
  { intros s'. unfold wrap_client_socket. by rewrite (run_bind _ _ _ _ _ (Et s')). }
  set (s2 := advance ([] ++ []) (1 + 1) s). specialize (Ew s2).
  change (now s2) with (2 + now s) in Ew.
  destruct (wraps w (2 + now s) client) as [k|e] eqn:E2.
  - assert (Er : (try: (k <- wrap_client_socket w client ;; mret (Some k)) except: mret None) s2
      = (Ret (Some k), advance [] 1 s2)).
    { apply try_except_ret. by rewrite (run_bind _ _ _ _ _ Ew). }
    rewrite (run_bind _ _ _ _ _ Er). unfold s2. by rewrite advance_advance.
  - assert (Er : (try: (k <- wrap_client_socket w client ;; mret (Some k)) except: mret None) s2
      = (Ret None, advance [] 1 s2)).
    { by rewrite (try_except_exn _ _ _ _ _ (run_bind_exn _ _ _ _ _ Ew) (po_wraps w Po _ _ _ E2)). }
    rewrite (run_bind _ _ _ _ _ Er). unfold s2. by rewrite advance_advance.
Qed.

(** What the SSL listener answers to a peer.  Where accepting a connection or putting
    TLS around it fails the answer is [-1] and the service does nothing to the
    connection.  Else it answers the connection, with the socket of TLS and the one under
    it, neither of them closed, or [-1] after closing both; where shutting the connection
    raises, as when the peer has gone, it closes neither.  A peer that only tests
    whether the server is there is never told so: [TEST_SUCCESS] has no [text]. *)
Theorem ssl_listen_answers w s :
  polite w -> raises w (now s) CListen = None ->
  match accepts w (S (now s)) with
  | Exn _ => ssl_listen w s = (Ret None, advance [] 2 s)
  | Ret (ip, client) =>
      match wraps w (2 + now s) client with
      | Exn _ => ssl_listen w s = (Ret None, advance [] 3 s)
      | Ret k =>
          (exists n es, Forall delivery es /\
             ((exists x, ssl_listen w s =
                 (Ret (Some (mkRawConnection ip k (Some client) x)), advance es n s)) \/
              (exists es', disconnects w client k es' /\
                 ssl_listen w s = (Ret None, advance (es ++ es') n s)))) /\
          (forall n, ssl_receive_twice w client k (advance [] 3 s) =
               (Ret (Some TestSuccess), advance [] n (advance [] 3 s)) ->
             exists n' es, disconnects w client k es /\
               ssl_listen w s = (Ret None, advance es n' s))
      end
  end.
Proof.
  intros Po H. rewrite (ssl_listen_run w s Po H).
  destruct (accepts w (S (now s))) as [[ip client]|e]; [|done].
  destruct (wraps w (2 + now s) client) as [k|e]; [|done].
  set (s3 := advance [] 3 s). split.
  - destruct (ssl_serve_run w ip client k s3 Po)
      as [(x & n & es & Hes & E)|[(n & E)|(e & n & es & He & Hes & E)]].
    + exists (3 + n), es. split; [done|]. left. exists x.
      rewrite (try_except_ret _ _ _ _ _ E). unfold s3. by rewrite advance_advance.
    + exists (3 + n), []. split; [done|]. right. eexists. split; [by left|].
      rewrite (try_except_ret _ _ _ _ _ E). unfold s3. by rewrite advance_advance.
    + rewrite (try_except_exn _ _ _ _ _ E He).
      destruct (last_handler_run w client k (advance es n s3) Po) as (n' & es' & Hd & ->).
      exists (3 + (n + n')), es. split; [done|]. right. exists es'. split; [done|].
      unfold s3. by rewrite !advance_advance.
  - intros n E.
    assert (Es : ssl_serve w ip client k s3 = (Exn AttributeError, advance [] n s3)).
    { unfold ssl_serve. by rewrite (run_bind _ _ _ _ _ E). }
    rewrite (try_except_exn _ _ _ _ _ Es eq_refl).
    destruct (last_handler_run w client k (advance [] n s3) Po) as (n' & es' & Hd & ->).
    exists (3 + (n + n')), es'. split; [done|]. unfold s3. by rewrite !advance_advance.
Qed.

Lemma ssl_listen_answers_witness :
  exists n es, Forall delivery es /\
    ((exists x, ssl_listen quiet_world two_clients =
        (Ret (Some (mkRawConnection "10.0.0.7" 107 (Some 7) x)), advance es n two_clients)) \/
     (exists es', disconnects quiet_world 7 107 es' /\
        ssl_listen quiet_world two_clients = (Ret None, advance (es ++ es') n two_clients))).
Proof. exact (proj1 (ssl_listen_answers quiet_world two_clients quiet_polite eq_refl)). Defined.
