(* ===== verification/Exchange.v ===== *)
(** The exchange of messages between the two CoT services over the core: the pipes
    between them, a turn of each service and a pass of [checkPipes] as the steps of one
    system; and what it comes to: a message one of them is given goes round for ever. *)
From stdpp Require Import base strings list.
From Stdlib Require Import ZArith Lia.
From stdpp Require Import base strings list sets.
From S2P Require Import Prelude.
From S2P Require Import Fairness.
From S2P Require Import CotData.
From S2P Require Import FtsState.
From S2P Require Import Supervisor.
From S2P Require Import Registry.
From S2P Require Import ServiceProps.
From S2P Require Import RegistryFacts.
From S2P Require Import SystemProps.
From S2P Require Import CotState.
From S2P Require Import SendData.
From S2P Require Import Reception.
From S2P Require Import TcpService.
From S2P Require Import SslService.
From S2P Require Import CotFacts.
From S2P Require Import CotRun.
From S2P Require Import CotSend.
From S2P Require Import CotClients.
From S2P Require Import CotReceive.
From S2P Require Import SslProps.

Set Default Proof Using "Type".
Local Open Scope list_scope.
Local Open Scope py_scope.

(** The CoT services and their names in the core. *)
Inductive side := TcpSide | SslSide.

#[export] Instance side_eq_dec : EqDecision side.
Proof. solve_decision. Defined.

Definition side_service (k : side) : CotService :=
  match k with TcpSide => tcp_service | SslSide => ssl_service end.
Definition side_name (k : side) : ServiceTypes :=
  match k with TcpSide => TCPCOTSERVICE | SslSide => SSLCOTSERVICE end.
Definition other (k : side) : side :=
  match k with TcpSide => SslSide | SslSide => TcpSide end.
Definition side_of (name : ServiceTypes) : option side :=
  if decide (name = TCPCOTSERVICE) then Some TcpSide
  else if decide (name = SSLCOTSERVICE) then Some SslSide else None.

(** The core, the services, and what is on the pipes to each service and from it. *)
Record exchange := mkExchange {
  x_core : fts;
  x_service : side -> cot;
  x_inbox : side -> list message;
  x_outbox : side -> list recv_data }.

Definition upd {A} (f : side -> A) (k : side) (v : A) : side -> A :=
  fun k' => if decide (k' = k) then v else f k'.

Section Exchange.
Context (faults : nat -> ext -> bool) (w : side -> world).
(** What a service reads of the [Presence] objects of the core. *)
Context (presence_message : Presence -> message).

(** What an effect of a service puts on its pipe to the core. *)
Definition shared_item (e : effect) : option recv_data :=
  match e with
  | Shared m => Some (ROne (MCoT m))
  | SharedList m => Some (RList [MCoT m])
  | _ => None
  end.

(** What the core puts on the pipe to a service. *)
Definition as_message (m : msg) : option message :=
  match m with
  | MCoT m => Some m
  | MPresence p => Some (presence_message p)
  | _ => None
  end.

(** A turn in which no client connects or speaks and no component answers. *)
Definition idle (l : list message) : turn := mkTurn false Pending Pending l (Ret []).

Definition service_step (k : side) (x : exchange) : exchange :=
  let s := x_service x k in
  let s' := (main_turn (V := side_service k) (w k) (idle (x_inbox x k)) s).2 in
  mkExchange (x_core x) (upd (x_service x) k s')
    (upd (x_inbox x) k (drop 100 (x_inbox x k)))
    (upd (x_outbox x) k
       (x_outbox x k ++ omap shared_item (drop (length (trace s)) (trace s')))).

(** [AddDataToCoTList.recv]: the first thing on the pipe of a service. *)
Definition from_outbox (x : exchange) (name : ServiceTypes) (_ : pipe) : recv_data :=
  match side_of name with
  | Some k => default RNothing (head (x_outbox x k))
  | None => RNothing
  end.

(** What a pass of the core has put on the pipe [p]. *)
Definition put_on (p : option pipe) (l : list (pipe * msg)) : list message :=
  match p with
  | Some p => omap (fun pm => if decide (pm.1 = p) then as_message pm.2 else None) l
  | None => []
  end.

Definition core_step (x : exchange) : exchange :=
  let g := filterGroup (x_core x) in
  let c := (checkPipes_pass faults (from_outbox x) (x_core x)).2 in
  let l := drop (length (sent (x_core x))) (sent c) in
  mkExchange c (x_service x)
    (fun k => x_inbox x k ++ put_on (dget (side_name k) (receivers g)) l)
    (fun k => match dget (side_name k) (sources g) with
              | Some _ => tail (x_outbox x k)
              | None => x_outbox x k
              end).

Inductive actor := ServiceTurn (k : side) | CoreTurn.

Definition exchange_step (a : actor) (x : exchange) : exchange :=
  match a with
  | ServiceTurn k => service_step k x
  | CoreTurn => core_step x
  end.
End Exchange.

Set Default Proof Using "Type".
Local Open Scope string_scope.
Local Open Scope list_scope.
Local Open Scope py_scope.

(** * One service *)

(** The clients of [s] are those of [L], by uid and socket; each has an information,
    and no socket is closed. *)
Record open_clients (L : list (string * nat)) (s : cot) : Prop := mkOpenClients {
  oc_entries : (fun p => (p.1, c_sock p.2)) <$> client_information_queue s = L;
  oc_infos p : p ∈ client_information_queue s -> c_infos p.2 <> [];
  oc_open p : p ∈ L -> is_closed s p.2 = false }.

Lemma fmap_dset_same {A} (f : string * client -> A) k c c' q :
  dget k q = Some c -> f (k, c') = f (k, c) -> f <$> dset k c' q = f <$> q.
Proof.
  intros Hd Hf. induction q as [|[k1 c1] q IH]; [done|]. cbn in Hd |- *.
  case_decide as E; [|cbn; by rewrite IH]. injection Hd as ->. subst k1. cbn. by rewrite Hf.
Qed.

Definition exchanged {V : CotService} (e : effect) : Prop := sending e \/ asking e.

Lemma sending_exchanged {V : CotService} e : sending e -> exchanged e.
Proof. by left. Qed.
Lemma asking_exchanged {V : CotService} e : asking e -> exchanged e.
Proof. by right. Qed.

#[export] Instance open_clients_calm {V : CotService} L : Calm exchanged (open_clients L).
Proof.
  split; [intros s []; by split|]. intros e s He [H1 H2 H3]. split; [done|done|].
  intros p Hp. specialize (H3 p Hp). unfold is_closed in *. cbn. rewrite existsb_app, H3.
  cbn. destruct e; try done; by destruct He.
Qed.

#[export] Instance open_clients_settled w {V : CotService} L :
  Settled w exchanged (open_clients L).
Proof.
  split.
  - apply open_clients_calm.
  - intros s []. by split.
  - intros s []. by split.
  - intros t users uid u c s [H1 H2 H3] _ _ Hc.
    assert (Hm : c_sock (merge_user u c) = c_sock c /\ c_infos (merge_user u c) <> []).
    { unfold merge_user. destruct (c_infos c) eqn:E; [done|].
      case_bool_decide; [done|]. by rewrite E. }
    destruct Hm as [Hs Hi]. split; [|intros p Hp|done]; cbn in *.
    + rewrite (fmap_dset_same _ _ c); [done|done|cbn; by rewrite Hs].
    + destruct (elem_of_dset _ _ _ _ Hp) as [->|[Hin _]]; [done|by apply H2].
Qed.

(** The effects of [s] go on from [t]. *)
Definition after (t : list effect) (s : cot) : Prop := t `prefix_of` trace s.

Lemma after_refl s : after (trace s) s.
Proof. exists []. by rewrite app_nil_r. Qed.

#[export] Instance after_calm t : Calm (fun _ => True) (after t).
Proof.
  split; [done|]. intros e s _ H. unfold after in *. cbn. by apply prefix_app_r.
Qed.

#[export] Instance after_settled w {V : CotService} t : Settled w (fun _ => True) (after t).
Proof. by split; [apply after_calm|..]. Qed.

Lemma after_handle {V : CotService} w m s : after (trace s) (handle_shared_data w m s).2.
Proof.
  exact (preserves_handle_shared_data (A := fun _ => True) (I := after (trace s)) w
    (fun _ _ => Logic.I) (fun _ _ => Logic.I) m s (after_refl s)).
Qed.

Lemma open_handle {V : CotService} w L m s :
  open_clients L s -> open_clients L (handle_shared_data w m s).2.
Proof.
  exact (preserves_handle_shared_data (A := exchanged) (I := open_clients L) w
    sending_exchanged asking_exchanged m s).
Qed.

(** A message for everybody, with nobody as its sender, as it is on the pipes. *)
Record for_everybody (m : message) (b : string) : Prop := mkForEverybody {
  fe_type : m_type m <> "GeoChat";
  fe_marti : has_valid_marti m = Ret false;
  fe_xml : m_xmlString m = Some (Bytes b);
  fe_sender : m_clientInformation m = Some SNone }.

(** The sockets take all they are given. *)
Definition eager (w : world) : Prop :=
  forall n k b, takes w n k b = Ret (Stdlib.Strings.String.length b).

Lemma eager_os w : eager w -> os_sockets w.
Proof. intros H n k b e E. by rewrite H in E. Qed.

Lemma substring_all b : String.substring 0 (String.length b) b = b.
Proof. induction b as [|c b IH]; [done|]. cbn. by rewrite IH. Qed.

Lemma offer_eager w closed n k b : eager w -> closed k = false -> offer w closed n k b = Some b.
Proof. intros H Hk. unfold offer. rewrite Hk, H. by rewrite substring_all. Qed.

Lemma send_until_eager w closed n b l :
  eager w -> (forall p, p ∈ l -> closed (c_sock p.2) = false) ->
  send_until w closed n b l = ((fun p => Delivered (c_sock p.2) b) <$> l, []).
Proof.
  intros Hw. revert n. induction l as [|p l IH]; intros n Hl; [done|].
  cbn [send_until]. rewrite offer_eager by (done || apply Hl; left).
  rewrite IH by (intros q Hq; apply Hl; by right). done.
Qed.

Lemma recipients_nobody m q : recipients_of m SNone q = q.
Proof.
  induction q as [|p q IH]; [done|]. unfold recipients_of in *. rewrite filter_cons.
  rewrite decide_True by (right; discriminate). by rewrite IH.
Qed.

(** Handling such a message delivers it to every client and shares it again. *)
Lemma handle_for_everybody {V : CotService} w L m b s :
  polite w -> open_pipe w -> eager w -> for_everybody m b -> open_clients L s ->
  exists t, trace (handle_shared_data w m s).2 = trace s ++ t /\
    (forall p, p ∈ L -> Delivered p.2 b ∈ t) /\ Shared m ∈ t.
Proof.
  intros Po Hp Hw [Ht Hv Hx Hc] Ho.
  destruct (total_get_client_information w Po s) as ([] & s1 & E1).
  pose proof (preserves_get_client_information (A := exchanged) (I := open_clients L) w
    asking_exchanged s Ho) as Ho1.
  pose proof (preserves_get_client_information (A := fun _ => True) (I := after (trace s)) w
    (fun _ _ => Logic.I) s (after_refl s)) as [t1 Ht1].
  rewrite E1 in Ho1, Ht1. cbn in Ho1, Ht1.
  set (s2 := count_sent (count_from_core s1)).
  destruct Ho1 as [H1 H2 H3].
  destruct (send_to_all_run w m SNone b true s2 (eager_os w Hw) Hp Hx H2) as [n Hn].
  cbv zeta in Hn. rewrite recipients_nobody in Hn.
  assert (Hopen : forall p, p ∈ client_information_queue s1 -> is_closed s1 (c_sock p.2) = false).
  { intros p Hin. apply (H3 (p.1, c_sock p.2)). rewrite <- H1.
    apply list_elem_of_fmap. by exists p. }
  rewrite (send_until_eager w (is_closed s2) _ b _ Hw Hopen) in Hn. cbn [fst snd] in Hn.
  assert (E : handle_shared_data w m s = (Ret tt, advance
      (((fun p => Delivered (c_sock p.2) b) <$> client_information_queue s2) ++ shares true m)
      n s2)).
  { unfold handle_shared_data. apply try_except_ret. rewrite (run_bind _ _ _ _ _ E1).
    do 2 erewrite run_bind by reflexivity. fold s2. unfold send_message_from. rewrite Hc.
    assert (Eq : sendDataInQueue w SNone m true s2 = (Ret (RInt 1), advance
      (((fun p => Delivered (c_sock p.2) b) <$> client_information_queue s2) ++ shares true m)
      n s2)).
    { unfold sendDataInQueue. apply try_except_ret. rewrite (bool_decide_eq_false_2 _ Ht), Hv.
      by erewrite run_bind by reflexivity. }
    by rewrite (run_bind _ _ _ _ _ Eq). }
  rewrite E. cbn [snd advance trace]. change (trace s2) with (trace s1). rewrite Ht1.
  eexists. split; [by rewrite <- app_assoc|]. split.
  - intros p Hin. rewrite <- H1 in Hin. apply list_elem_of_fmap in Hin as (q & -> & Hq).
    apply elem_of_app. right. apply elem_of_app. left. apply list_elem_of_fmap. by exists q.
  - apply elem_of_app. right. apply elem_of_app. right. cbn.
    replace (with_clientInformation SNone m) with m; [by left|].
    destruct m. cbn in Hc. by subst.
Qed.

(** The messages [l] handled one after the other. *)
Definition handled (w : world) {V : CotService} (l : list message) (s : cot) : cot :=
  fold_left (fun s m => (handle_shared_data w m s).2) l s.

Lemma for_each_fold {St A} (f : A -> M St unit) l s :
  (forall a, total (f a)) -> for_each l f s = (Ret tt, fold_left (fun s a => (f a s).2) l s).
Proof.
  intros Hf. revert s. induction l as [|a l IH]; intros s; [done|]. cbn [for_each fold_left].
  destruct (Hf a s) as ([] & s' & E). rewrite (run_bind _ _ _ _ _ E), E. apply IH.
Qed.

Lemma idle_turn w {V : CotService} l s :
  polite w -> main_turn w (idle l) s = (Ret tt, handled w (take 100 l) s).
Proof.
  intros Po. unfold main_turn. apply try_except_ret.
  do 2 erewrite run_bind by reflexivity.
  assert (E : shared_data_part w (idle l) s = (Ret tt, handled w (take 100 l) s)).
  { unfold shared_data_part. apply try_except_ret, for_each_fold. intros m.
    by apply total_handle_shared_data. }
  by rewrite (run_bind _ _ _ _ _ E).
Qed.

Lemma handled_keeps w {V : CotService} L l s :
  open_clients L s -> open_clients L (handled w l s) /\ after (trace s) (handled w l s).
Proof.
  revert s. induction l as [|m l IH]; intros s Ho; [split; [done|apply after_refl]|].
  cbn [handled fold_left]. destruct (IH _ (open_handle w L m s Ho)) as [H1 H2].
  split; [exact H1|]. unfold after in *. etrans; [apply after_handle|exact H2].
Qed.

(** A turn handles every message it gets to. *)
Lemma handled_delivers w {V : CotService} L l i m b s :
  polite w -> open_pipe w -> eager w -> for_everybody m b -> open_clients L s ->
  l !! i = Some m ->
  exists t, trace (handled w l s) = trace s ++ t /\
    (forall p, p ∈ L -> Delivered p.2 b ∈ t) /\ Shared m ∈ t.
Proof.
  intros Po Hp Hw Hm Ho Hi. rewrite <- (take_drop_middle l i m Hi).
  unfold handled. rewrite fold_left_app. cbn [fold_left]. fold (handled w (take i l) s).
  destruct (handled_keeps w L (take i l) s Ho) as [Ho1 [t1 E1]].
  set (s1 := handled w (take i l) s) in *.
  destruct (handle_for_everybody w L m b s1 Po Hp Hw Hm Ho1) as (t2 & E2 & H2 & H3).
  fold (handled w (drop (S i) l) (handle_shared_data w m s1).2).
  destruct (handled_keeps w L (drop (S i) l) _ (open_handle w L m s1 Ho1)) as [_ [t3 E3]].
  exists (t1 ++ t2 ++ t3). rewrite E3, E2, E1, <- !app_assoc. split; [done|].
  split; [intros p Hin; specialize (H2 p Hin)|]; set_solver.
Qed.

(** How often [b] has been delivered to the socket [k]. *)
Definition delivers (k : nat) (b : string) (e : effect) : bool :=
  match e with Delivered k' b' => bool_decide (k = k') && bool_decide (b = b') | _ => false end.
Definition deliveries (k : nat) (b : string) (s : cot) : nat :=
  length (filter (fun e => delivers k b e = true) (trace s)).

Lemma deliveries_more k b s s' t :
  trace s' = trace s ++ t -> Delivered k b ∈ t -> deliveries k b s < deliveries k b s'.
Proof.
  intros E Hin. unfold deliveries. rewrite E, filter_app, length_app.
  assert (H : Delivered k b ∈ filter (fun e => delivers k b e = true) t).
  { apply list_elem_of_filter. split; [|done]. cbn. by rewrite !bool_decide_eq_true_2. }
  destruct (filter _ t); [by apply not_elem_of_nil in H|]. cbn. lia.
Qed.

Lemma deliveries_after k b s s' : after (trace s) s' -> deliveries k b s <= deliveries k b s'.
Proof.
  intros [t E]. unfold deliveries. rewrite E, filter_app, length_app. lia.
Qed.

(** * The exchange *)

(** The core forwards between the two services, over a pipe to each. *)
Record wired (g : FilterGroup) (p : side -> pipe) : Prop := mkWired {
  wi_sources : NoDup (dkeys (sources g));
  wi_source k : is_Some (dget (side_name k) (sources g));
  wi_receiver k : dget (side_name k) (receivers g) = Some (p k);
  wi_pipes : p TcpSide <> p SslSide }.

Lemma side_of_name k : side_of (side_name k) = Some k.
Proof. by destruct k. Qed.

Lemma upd_eq {A} (f : side -> A) k v : upd f k v k = v.
Proof. unfold upd. by rewrite decide_True. Qed.
Lemma upd_ne {A} (f : side -> A) k v k' : k' <> k -> upd f k v k' = f k'.
Proof. intros H. unfold upd. by rewrite decide_False. Qed.

Section circulation.
Context (faults : nat -> ext -> bool) (w : side -> world) (pm : Presence -> message).
Context (g : FilterGroup) (p : side -> pipe) (L : side -> list (string * nat)).
Context (m : message) (b : string).
Hypothesis no_faults : forall n c, faults n c = false.
Hypothesis Po : forall k, polite (w k).
Hypothesis Hp : forall k, open_pipe (w k).
Hypothesis Hw : forall k, eager (w k).
Hypothesis Hg : wired g p.
Hypothesis Hm : for_everybody m b.
Abbreviation step := (exchange_step faults w pm).

(** The tables of the core are [g] and the clients those of [L]. *)
Definition going (x : exchange) : Prop :=
  filterGroup (x_core x) = g /\ forall k, open_clients (L k) (x_service x k).

Lemma core_pass_run x :
  exists c, checkPipes_pass faults (from_outbox x) (x_core x) = (Ret tt, c) /\
    filterGroup c = filterGroup (x_core x) /\
    drop (length (sent (x_core x))) (sent c) =
      (sp ← sources (filterGroup (x_core x));
       forwards (receivers (filterGroup (x_core x))) (user_dict (x_core x))
         (from_outbox x sp.1 sp.2) sp.1).
Proof using no_faults.
  destruct (checkPipes_run faults (from_outbox x) (x_core x)) as (c & E & Hs & Hf & _).
  exists c. split; [exact E|]. split; [exact Hf|].
  rewrite Hs, drop_app_length. by apply delivered_all.
Qed.

Lemma service_turn k x :
  (main_turn (V := side_service k) (w k) (idle (x_inbox x k)) (x_service x k)).2 =
    handled (w k) (V := side_service k) (take 100 (x_inbox x k)) (x_service x k).
Proof using Po. destruct k; by rewrite idle_turn. Qed.

Lemma going_step a x : going x -> going (step a x).
Proof using no_faults Po.
  intros [Hc Ho]. destruct a as [k|]; cbn [exchange_step].
  - split; [done|]. intros k'. unfold service_step. cbn [x_service].
    destruct (decide (k' = k)) as [->|Hne]; [|by rewrite upd_ne].
    rewrite upd_eq, service_turn. by apply handled_keeps.
  - destruct (core_pass_run x) as (c & E & Hf & _). unfold going, core_step.
    rewrite E. cbn [snd x_core x_service]. by rewrite Hf.
Qed.

(** Where the message is: at a place of the pipe to a service, or from it. *)
Definition coming (k : side) (i : nat) (x : exchange) : Prop := x_inbox x k !! i = Some m.
Definition leaving (k : side) (i : nat) (x : exchange) : Prop :=
  x_outbox x k !! i = Some (ROne (MCoT m)).

Lemma turn_delivers k i x :
  going x -> coming k i x -> i < 100 ->
  (forall q, q ∈ L k -> deliveries q.2 b (x_service x k) <
     deliveries q.2 b (x_service (step (ServiceTurn k) x) k)) /\
  exists j, leaving k j (step (ServiceTurn k) x).
Proof using no_faults Po Hp Hw Hm.
  intros [_ Ho] Hi Hlt.
  assert (Hi' : take 100 (x_inbox x k) !! i = Some m) by (rewrite lookup_take_lt; done).
  destruct (handled_delivers (w k) (V := side_service k) (L k) _ i m b (x_service x k)
    (Po k) (Hp k) (Hw k) Hm (Ho k) Hi') as (t & Et & Hd & Hs).
  unfold leaving. cbn [exchange_step]. unfold service_step. cbn [x_service x_outbox].
  rewrite !upd_eq, service_turn, Et, drop_app_length. split.
  - intros q Hq. by eapply deliveries_more; [exact Et|apply Hd].
  - assert (Hin : ROne (MCoT m) ∈ omap shared_item t).
    { apply list_elem_of_omap. by exists (Shared m). }
    apply list_elem_of_lookup in Hin as [j Hj]. exists (length (x_outbox x k) + j).
    by rewrite lookup_app_r, Nat.add_comm, Nat.add_sub by lia.
Qed.

Lemma turn_moves_up k i x :
  coming k (100 + i) x -> coming k i (step (ServiceTurn k) x).
Proof.
  unfold coming. intros Hi. cbn [exchange_step]. unfold service_step. cbn [x_inbox].
  by rewrite upd_eq, lookup_drop.
Qed.

Lemma coming_stays k i x a :
  coming k i x -> a <> ServiceTurn k -> coming k i (step a x).
Proof.
  unfold coming. intros Hi Ha. destruct a as [k'|]; cbn [exchange_step].
  - unfold service_step. cbn [x_inbox]. rewrite upd_ne; [done|congruence].
  - unfold core_step. cbn [x_inbox]. by apply lookup_app_l_Some.
Qed.

Lemma leaving_stays k i x a :
  leaving k i x -> a <> CoreTurn -> leaving k i (step a x).
Proof.
  unfold leaving. intros Hi Ha. destruct a as [k'|]; [|done]. cbn [exchange_step].
  unfold service_step. cbn [x_outbox]. destruct (decide (k = k')) as [->|Hne].
  - rewrite upd_eq. by apply lookup_app_l_Some.
  - by rewrite upd_ne.
Qed.

Lemma core_moves_up k i x :
  going x -> leaving k (S i) x -> leaving k i (step CoreTurn x).
Proof using Hg.
  unfold leaving. intros [Hc _] Hi. cbn [exchange_step]. unfold core_step. cbn [x_outbox].
  rewrite Hc. destruct (wi_source g p Hg k) as [v ->]. by rewrite lookup_tail.
Qed.

Lemma elem_put_on q mm l :
  (q, MCoT mm) ∈ l -> mm ∈ put_on pm (Some q) l.
Proof.
  intros H. cbn. apply list_elem_of_omap. exists (q, MCoT mm). split; [done|]. cbn.
  by rewrite decide_True.
Qed.

Lemma core_hands_over k x :
  going x -> leaving k 0 x -> exists i, coming (other k) i (step CoreTurn x).
Proof using no_faults Hg.
  unfold leaving, coming. intros [Hc _] Hi.
  destruct (core_pass_run x) as (c & E & _ & Hput).
  cbn [exchange_step]. unfold core_step. rewrite E. cbn [snd x_inbox].
  rewrite Hput, Hc, (wi_receiver g p Hg (other k)).
  destruct (wi_source g p Hg k) as [v Hv].
  enough (Hin : m ∈ x_inbox x (other k) ++ put_on pm (Some (p (other k)))
    (sp ← sources g; forwards (receivers g) (user_dict (x_core x)) (from_outbox x sp.1 sp.2) sp.1)).
  { by apply list_elem_of_lookup in Hin as [i Hin]; exists i. }
  apply elem_of_app. right. apply elem_put_on.
  apply list_elem_of_bind. exists (side_name k, v). split; [|by apply dget_Some_elem].
  cbn [fst snd]. unfold from_outbox. rewrite side_of_name.
  destruct (x_outbox x k) as [|o l]; [done|]. cbn in Hi |- *. injection Hi as ->.
  cbn [forwards forwarded]. apply list_elem_of_fmap.
  exists (side_name (other k), p (other k)). split; [done|].
  apply list_elem_of_filter. split; [by destruct k|].
  apply dget_Some_elem, Hg.
Qed.

Context (schedule : nat -> actor) (x0 : exchange).
Hypothesis Hfair : fair schedule.
Hypothesis H0 : going x0.
Abbreviation state := (run step schedule x0).
#[local] Notation "P ~> Q" := (leads_to step schedule x0 P Q) (at level 70).

Lemma going_on n : going (state n).
Proof using no_faults Po H0. apply run_invariant; [exact H0|apply going_step]. Qed.

Lemma actor_cases (a a' : actor) : a' = a \/ a' <> a.
Proof. destruct a as [[]|], a' as [[]|]; by (left + right). Qed.

(** What does not end while the message goes round. *)
Definition lasting (R : exchange -> Prop) : Prop := forall n, R (state n) -> R (state (S n)).

Section lasting.
Context (R : exchange -> Prop) (HR : lasting R).

(** The turn in which the message is delivered may bring about more. *)
Lemma coming_reaches k (R' : exchange -> Prop) i :
  (forall n i, R (state n) -> coming k i (state n) -> i < 100 ->
     schedule n = ServiceTurn k -> R' (state (S n))) ->
  (fun x => coming k i x /\ R x) ~> (fun x => (exists j, leaving k j x) /\ R' x).
Proof using no_faults Po Hp Hw Hm Hfair H0 HR.
  intros HT. revert i. apply (leads_to_measure step schedule x0
    (fun i x => coming k i x /\ R x) (fun x => (exists j, leaving k j x) /\ R' x)).
  intros i. apply (leads_to_turn _ _ _ _ _ (ServiceTurn k)); [done| | |apply actor_cases].
  - intros n [Hi Hr] Hne. split; [by apply coming_stays|by apply HR].
  - intros n [Hi Hr] E. destruct (decide (i < 100)) as [Hlt|Hge].
    + left. split; [|by apply (HT n i)]. cbn [run]. rewrite E.
      by apply (turn_delivers k i _ (going_on n) Hi).
    + cbn [run]. rewrite E. right. exists (i - 100). split; [lia|]. split.
      * apply turn_moves_up. by replace (100 + (i - 100)) with i by lia.
      * specialize (HR n Hr). cbn [run] in HR. by rewrite E in HR.
Qed.

Lemma coming_leads k i :
  (fun x => coming k i x /\ R x) ~> (fun x => (exists j, leaving k j x) /\ R x).
Proof using no_faults Po Hp Hw Hm Hfair H0 HR.
  apply coming_reaches. intros n j Hr _ _ _. by apply HR.
Qed.

Lemma leaving_leads k j :
  (fun x => leaving k j x /\ R x) ~> (fun x => (exists i, coming (other k) i x) /\ R x).
Proof using no_faults Po Hg Hfair H0 HR.
  revert j. apply (leads_to_measure step schedule x0
    (fun j x => leaving k j x /\ R x) (fun x => (exists i, coming (other k) i x) /\ R x)).
  intros j. apply (leads_to_turn _ _ _ _ _ CoreTurn); [done| | |apply actor_cases].
  - intros n [Hi Hr] Hne. split; [by apply leaving_stays|by apply HR].
  - intros n [Hi Hr] E. cbn [run]. rewrite E.
    assert (Hr' : R (state (S n))) by by apply HR. cbn [run] in Hr'. rewrite E in Hr'.
    destruct j as [|j].
    + left. split; [|done]. by apply core_hands_over; [apply going_on|].
    + right. exists j. split; [lia|]. split; [|done]. by apply core_moves_up; [apply going_on|].
Qed.

Definition comes (k : side) (x : exchange) : Prop := (exists i, coming k i x) /\ R x.
Definition leaves (k : side) (x : exchange) : Prop := (exists j, leaving k j x) /\ R x.

Lemma comes_leads k : comes k ~> leaves k.
Proof using no_faults Po Hp Hw Hm Hfair H0 HR.
  intros n [[i Hi] Hr]. by apply (coming_leads k i n).
Qed.

Lemma leaves_leads k : leaves k ~> comes (other k).
Proof using no_faults Po Hg Hfair H0 HR.
  intros n [[j Hj] Hr]. by apply (leaving_leads k j n).
Qed.

(** Wherever it is, it comes to each service. *)
Lemma circulates k k' : (fun x => comes k' x \/ leaves k' x) ~> comes k.
Proof using no_faults Po Hp Hw Hm Hg Hfair H0 HR.
  assert (H2 : comes (other k) ~> comes k).
  { apply (leads_to_trans _ _ _ _ _ _ (comes_leads (other k))).
    pose proof (leaves_leads (other k)) as H. by replace (other (other k)) with k in H by by destruct k. }
  assert (Hc : comes k' ~> comes k).
  { destruct (decide (k' = k)) as [->|Hne]; [by apply leads_to_now|].
    by replace k' with (other k) by (by destruct k, k'). }
  apply leads_to_or; [exact Hc|].
  apply (leads_to_trans _ _ _ _ _ _ (leaves_leads k')).
  destruct (decide (other k' = k)) as [<-|Hne]; [by apply leads_to_now|].
  by replace (other k') with (other k) by (by destruct k, k').
Qed.
End lasting.

(** The message is on some pipe. *)
Definition circulating (x : exchange) : Prop :=
  exists k, (exists i, coming k i x) \/ (exists j, leaving k j x).

Lemma deliveries_step k q n :
  deliveries q b (x_service (state n) k) <= deliveries q b (x_service (state (S n)) k).
Proof using no_faults Po H0.
  cbn [run]. destruct (schedule n) as [k'|]; [|done]. cbn [exchange_step].
  unfold service_step. cbn [x_service].
  destruct (decide (k = k')) as [->|Hne]; [|by rewrite upd_ne].
  rewrite upd_eq, service_turn. apply deliveries_after.
  by apply (handled_keeps (w k') (L k')), (going_on n).
Qed.

Lemma delivered_again k q c :
  q ∈ L k ->
  (fun x => circulating x /\ c <= deliveries q.2 b (x_service x k)) ~>
  (fun x => circulating x /\ c < deliveries q.2 b (x_service x k)).
Proof using no_faults Po Hp Hw Hm Hg Hfair H0.
  intros Hq. set (R := fun x => c <= deliveries q.2 b (x_service x k)).
  assert (HR : lasting R).
  { intros n. unfold R. pose proof (deliveries_step k q.2 n). lia. }
  assert (H1 : (fun x => circulating x /\ R x) ~> comes R k).
  { intros n [[k' H] Hr]. apply (circulates R HR k k' n).
    destruct H as [H|H]; [by left|by right]. }
  assert (H2 : (fun x => exists i, coming k i x /\ R x) ~>
    (fun x => (exists j, leaving k j x) /\ c < deliveries q.2 b (x_service x k))).
  { apply leads_to_ex. intros i. apply (coming_reaches R HR k).
    intros n i' Hr Hi Hlt E. cbn [run]. rewrite E.
    eapply Nat.le_lt_trans; [exact Hr|]. by apply (turn_delivers k i' _ (going_on n) Hi). }
  intros n Hn. destruct (H1 n Hn) as (n1 & Hn1 & [[i Hi] Hr]).
  destruct (H2 n1 (ex_intro _ i (conj Hi Hr))) as (n2 & Hn2 & Hl & Hd).
  exists n2. split; [lia|]. split; [|done]. exists k. by right.
Qed.
End circulation.

(** C8: left to themselves the two CoT services go on sending for ever what one of them
    has been given.  A message for every client that is once on the pipe of the core to
    a service, or from one, is delivered to every client of both services again and
    again, more often than any number, whatever else is on the pipes, in every run in
    which each service and the core get their turns.  (The sockets take what they are
    sent, no call raises in the core, and nobody connects, disconnects or speaks.) *)
Theorem shared_message_circulates faults w pm g p L m b schedule x0 :
  (forall n c, faults n c = false) ->
  (forall k, polite (w k)) -> (forall k, open_pipe (w k)) -> (forall k, eager (w k)) ->
  wired g p -> for_everybody m b -> fair schedule -> going g L x0 ->
  (exists k, m ∈ x_inbox x0 k \/ ROne (MCoT m) ∈ x_outbox x0 k) ->
  forall k q, q ∈ L k -> forall N, exists n,
    N <= deliveries q.2 b (x_service (run (exchange_step faults w pm) schedule x0 n) k).
Proof.
  intros Hf Po Hp Hw Hg Hm Hs H0 (k0 & Hk) k q Hq.
  apply (grows_forever (exchange_step faults w pm) schedule x0 (circulating m)
    (fun x => deliveries q.2 b (x_service x k))).
  - intros n. by apply (deliveries_step faults w pm g L b).
  - intros c. by apply (delivered_again faults w pm g p L m b).
  - exists k0. destruct Hk as [Hk|Hk]; apply list_elem_of_lookup in Hk as [i Hi];
      [left|right]; by exists i.
Qed.

(** Both services started, each with two clients, and a message for one of them. *)
Definition started : fts :=
  (start_ssl_cot_service no_faults any_config
     (start_cot_service no_faults any_config first_state).2).2.

Definition given : exchange :=
  mkExchange started (fun _ => two_clients)
    (fun k => match k with TcpSide => [note] | SslSide => [] end) (fun _ => []).

Definition their_pipe (k : side) : pipe :=
  default (PipeQueue 0) (dget (side_name k) (receivers (filterGroup started))).

Definition round_robin (n : nat) : actor :=
  match n mod 3 with
  | 0 => ServiceTurn TcpSide
  | 1 => ServiceTurn SslSide
  | _ => CoreTurn
  end.

Lemma round_robin_fair : fair round_robin.
Proof.
  intros a n. unfold round_robin.
  assert (H : forall r, r < 3 -> n <= 3 * n + r /\ (3 * n + r) mod 3 = r).
  { intros r Hr. split; [lia|]. rewrite Nat.mul_comm, Nat.add_comm, Nat.Div0.mod_add.
    by apply Nat.mod_small. }
  destruct a as [[]|]; [exists (3 * n + 0)|exists (3 * n + 1)|exists (3 * n + 2)];
    (split; [apply H; lia|]); [destruct (H 0 ltac:(lia)) as [_ ->]
      |destruct (H 1 ltac:(lia)) as [_ ->]|destruct (H 2 ltac:(lia)) as [_ ->]]; done.
Qed.

Lemma started_wired : wired (filterGroup started) their_pipe.
Proof.
  split.
  - apply (bool_decide_unpack _). vm_compute. exact Logic.I.
  - intros []; vm_compute; by eexists.
  - intros []; vm_compute; reflexivity.
  - vm_compute. discriminate.
Qed.

Lemma given_going : going (filterGroup started) (fun _ => [("A", 1); ("B", 2)]) given.
Proof.
  split; [reflexivity|]. intros k. split; [reflexivity|apply two_clients_infos|].
  intros q Hq. reflexivity.
Qed.

Lemma shared_message_circulates_witness :
  exists n, 1000 <= deliveries 2 "<note/>"
    (x_service (run (exchange_step no_faults (fun _ => quiet_world) (fun _ => note))
       round_robin given n) SslSide).
Proof.
  assert (He : eager quiet_world) by (intros n k b; reflexivity).
  assert (Hn : for_everybody note "<note/>") by (split; [discriminate|reflexivity..]).
  assert (Hm : exists k, note ∈ x_inbox given k \/ ROne (MCoT note) ∈ x_outbox given k).
  { exists TcpSide. left. left. }
  assert (Hq : ("B", 2) ∈ [("A", 1); ("B", 2)]) by (right; left).
  exact (shared_message_circulates no_faults (fun _ => quiet_world) (fun _ => note)
    (filterGroup started) their_pipe (fun _ => [("A", 1); ("B", 2)]) note "<note/>"
    round_robin given (fun _ _ => eq_refl) (fun _ => quiet_polite) (fun _ _ => eq_refl)
    (fun _ => He) started_wired Hn round_robin_fair given_going Hm SslSide ("B", 2) Hq 1000).
Defined.
