(* ===== verification/DomainNode.v ===== *)
(** The nodes a CoT message is held in ([components/core/abstract_component/cot_node.py]
    and [components/core/domain]): elements, the attributes of a node, and what its
    accessors do when they are read and assigned. *)
From stdpp Require Import base strings list.
From Stdlib Require Import ZArith Lia.
From S2P Require Import Prelude.

Set Default Proof Using "Type".
Local Open Scope list_scope.
Local Open Scope string_scope.
Local Open Scope py_scope.

Local Unset Elimination Schemes.

(** * Documents *)

(** What [xmltodict] makes of a document: attributes are keys that begin with "@", the
    text beside them is "#text", elements of the same tag are a list. *)
Inductive xval :=
  | XNone
  | XText (s : string)
  | XDict (l : list (string * xval))
  | XList (l : list xval).

(** An element of [lxml]. *)
Inductive element := mkElement {
  e_tag : string;
  e_text : option string;
  e_attrib : list (string * string);
  e_children : list element }.

(** * Nodes *)

(** A value in [cot_attributes]: data, or the child with that position. *)
Inductive aval :=
  | VRaw (x : xval)
  | VChild (i : nat).

(** An element below [node.xml]: one of its own, or the [xml] of the child with that
    position, which is shared with that child. *)
Inductive xitem :=
  | Foreign (e : element)
  | ChildXml (i : nat).

Record xml_node := mkXml {
  x_tag : string;
  x_text : option string;
  x_attrib : list (string * string);
  x_items : list xitem }.

(** A [CoTNode]: its class, [cot_attributes], the attributes set on the instance under
    other names, the children in the order they were added, and [xml]. *)
Inductive node := mkNode {
  n_class : string;
  n_attributes : list (string * aval);
  n_dict : list (string * xval);
  n_children : list node;
  n_xml : xml_node }.

Local Set Elimination Schemes.

(** * Accessors of the domain classes *)

Inductive getter :=
  (** [return self.cot_attributes.get(key, default)] *)
  | Get (key : string)
  | GetOr (key : string) (default : xval)
  (** [return self.cot_attributes[key]] *)
  | GetItem (key : string)
  (** raises [AttributeError] where the value is [None] *)
  | GetOrRaise (key : string)
  (** sets the value to the time in so many seconds where it is [None] *)
  | GetTime (key : string) (seconds : nat)
  (** sets the value to a new uuid where the key is missing *)
  | GetUuid (key : string)
  (** the children of these classes, class by class *)
  | GetChildren (classes : list string)
  (** the same, or the value where there are none *)
  | GetChildrenOr (classes : list string) (key : string)
  (** the first of these values that is not [None] *)
  | GetFirst (keys : list string).

Inductive setter :=
  (** [self.cot_attributes[key] = value] *)
  | SetValue (key : string)
  (** assigns to the property it is the setter of *)
  | SetItself
  (** the same, after a test for [None] whose branch reads [datetime.datetime] of the
      class [datetime] *)
  | SetItselfOrTime
  (** [None] is replaced by the time in so many seconds *)
  | SetTime (key : string) (seconds : nat)
  (** [None] is replaced by a new uuid *)
  | SetUuid (key : string)
  (** [self.add_child(value)] *)
  | SetChild
  (** children of these classes are added, text is appended to the list *)
  | SetChildOrAppend (classes : list string) (key : string)
  (** a value takes the place of another only if it is of its class *)
  | SetSameClass (key : string).

Record accessor := mkAccessor {
  a_name : string;
  a_cot : bool;        (* a [CoTProperty], not a [property] *)
  a_get : getter;
  a_set : setter }.

(** What the constructor does to [cot_attributes] after that of [CoTNode]. *)
Inductive init_step :=
  | Init (key : string) (value : xval)
  | InitMissing (key : string) (value : xval).

Record domain_class := mkClass {
  d_name : string;
  d_tag : string;      (* the tag of [xml] *)
  d_init : list init_step;
  d_accessors : list accessor }.

(** * Reading and assigning attributes *)

(** Code outside the repository: the attributes DigitalPy's [Node] has and what assigning
    to one raises, the clock in so many seconds, new uuids, the names [lxml] accepts,
    [xmltodict.unparse] followed by [etree.fromstring], [str] of a dictionary or list,
    and whether creating a further node raises. *)
Record library := mkLibrary {
  node_attr : string -> bool;
  node_setattr : string -> option exn;
  clock : nat -> string;
  new_uuid : string;
  valid_name : string -> bool;
  dict_to_element : string -> xval -> outcome element;
  str_of : xval -> string;
  create_fails : string -> option exn }.

(** What an attribute evaluates to. *)
Inductive gval :=
  | GRaw (x : xval)
  | GNode (i : nat)
  | GNodes (l : list nat).

Section Node.
Context (lib : library) (classes : list domain_class).

Abbreviation MN := (M node).

Definition find_class (c : string) : option domain_class :=
  List.find (fun d => bool_decide (d_name d = c)) classes.

Definition accessors (c : string) : list accessor :=
  default [] (d_accessors <$> find_class c).

Definition find_accessor (c key : string) : option accessor :=
  List.find (fun a => bool_decide (a_name a = key)) (accessors c).

Definition set_attributes (f : list (string * aval) -> list (string * aval)) (n : node) : node :=
  mkNode (n_class n) (f (n_attributes n)) (n_dict n) (n_children n) (n_xml n).
Definition set_dict (f : list (string * xval) -> list (string * xval)) (n : node) : node :=
  mkNode (n_class n) (n_attributes n) (f (n_dict n)) (n_children n) (n_xml n).
Definition set_children (f : list node -> list node) (n : node) : node :=
  mkNode (n_class n) (n_attributes n) (n_dict n) (f (n_children n)) (n_xml n).
Definition set_xml (f : xml_node -> xml_node) (n : node) : node :=
  mkNode (n_class n) (n_attributes n) (n_dict n) (n_children n) (f (n_xml n)).

(** The attributes [CoTNode] gives its instances and its methods. *)
Definition cot_node_attrs : list string :=
  ["cot_attributes"; "xml"; "text"; "get_properties"; "add_child"; "__getstate__"; "__setstate__"].

(** An attribute of [CoTNode] that the instance does not have under its name any more. *)
Definition hidden (name : string) (n : node) : bool := bool_decide (is_Some (dget name (n_dict n))).

(** [self.cot_attributes], which is text once a document has assigned to it. *)
Definition cot_attributes : MN (list (string * aval)) :=
  h <- gets (hidden "cot_attributes") ;;
  if (h : bool) then raise AttributeError else gets n_attributes.

Definition store (key : string) (v : aval) : MN unit :=
  h <- gets (hidden "cot_attributes") ;;
  if (h : bool) then raise TypeError else modify (set_attributes (dset key v)).

Definition gval_of (v : aval) : gval :=
  match v with VRaw x => GRaw x | VChild i => GNode i end.

(** [get_children_ex(children_type=c)] for each class in turn. *)
Definition children_of (cs : list string) (n : node) : list nat :=
  cs ≫= fun c =>
    omap (fun p => if bool_decide (p.2 = c) then Some p.1 else None)
      (imap pair (n_class <$> n_children n)).

Definition get_children (cs : list string) : MN gval :=
  h <- gets (hidden "get_children_ex") ;;
  if (h : bool) then raise TypeError else gets (fun n => GNodes (children_of cs n)).

Definition get_value (key : string) (default : xval) : MN gval :=
  c <- cot_attributes ;;
  mret (match dget key c with Some v => gval_of v | None => GRaw default end).

Definition do_get (g : getter) : MN gval :=
  match g with
  | Get key => get_value key XNone
  | GetOr key default => get_value key default
  | GetItem key =>
      c <- cot_attributes ;; v <- of_option KeyError (dget key c) ;; mret (gval_of v)
  | GetOrRaise key =>
      v <- get_value key XNone ;;
      match v with GRaw XNone => raise AttributeError | _ => mret v end
  | GetTime key seconds =>
      v <- get_value key XNone ;;
      match v with
      | GRaw XNone =>
          store key (VRaw (XText (clock lib seconds))) ;;;
          mret (GRaw (XText (clock lib seconds)))
      | _ => mret v
      end
  | GetUuid key =>
      c <- cot_attributes ;;
      match dget key c with
      | Some v => mret (gval_of v)
      | None =>
          store key (VRaw (XText (new_uuid lib))) ;;; mret (GRaw (XText (new_uuid lib)))
      end
  | GetChildren cs => get_children cs
  | GetChildrenOr cs key =>
      v <- get_children cs ;;
      match v with GNodes [] => get_value key XNone | _ => mret v end
  | GetFirst keys =>
      o <- for_return keys (fun key =>
        v <- get_value key XNone ;;
        mret (match v with GRaw XNone => None | _ => Some v end)) ;;
      mret (default (GRaw XNone) o)
  end.

(** The setter of a property, for the values of a document. *)
Definition do_set (s : setter) (v : xval) : MN unit :=
  match s with
  | SetValue key => store key (VRaw v)
  | SetItself => raise RuntimeError
  | SetItselfOrTime =>
      match v with XNone => raise AttributeError | _ => raise RuntimeError end
  | SetTime key seconds =>
      store key (VRaw (match v with XNone => XText (clock lib seconds) | _ => v end))
  | SetUuid key => store key (VRaw (match v with XNone => XText (new_uuid lib) | _ => v end))
  | SetChild => raise TypeError
  | SetChildOrAppend _ key =>
      match v with
      | XText s =>
          c <- cot_attributes ;;
          w <- of_option KeyError (dget key c) ;;
          match w with
          | VRaw (XList l) => store key (VRaw (XList (l ++ [v])))
          | _ => raise AttributeError
          end
      | _ => mret tt
      end
  | SetSameClass key =>
      w <- get_value key XNone ;;
      match w, v with
      | GRaw XNone, _ | GRaw (XText _), XText _ | GRaw (XDict _), XDict _
      | GRaw (XList _), XList _ => store key (VRaw v)
      | _, _ => raise External
      end
  end.

(** [getattr(node, name)]: a property of the class, else an attribute of the instance,
    else something of a base class ([None] here). *)
Definition getattr (name : string) : MN (option gval) :=
  n <- gets id ;;
  match find_accessor (n_class n) name, dget name (n_dict n) with
  | Some a, _ => v <- do_get (a_get a) ;; mret (Some v)
  | None, Some x => mret (Some (GRaw x))
  | None, None =>
      if bool_decide (name ∈ cot_node_attrs) || node_attr lib name then mret None
      else raise AttributeError
  end.

(** [getattr(node, name, None)] and [hasattr(node, name)]. *)
Definition getattr_or_none (name : string) : MN (option gval) :=
  try_with (getattr name) (fun e =>
    if decide (e = AttributeError) then mret (Some (GRaw XNone)) else raise e).

Definition hasattr (name : string) : MN bool :=
  try_with (getattr name ;;; mret true) (fun e =>
    if decide (e = AttributeError) then mret false else raise e).

(** [setattr(node, name, v)]. *)
Definition setattr (name : string) (v : xval) : MN unit :=
  n <- gets id ;;
  match find_accessor (n_class n) name with
  | Some a => do_set (a_set a) v
  | None =>
      match node_setattr lib name with
      | Some e => raise e
      | None => modify (set_dict (dset name v))
      end
  end.

(** What is done to the child with position [i]. *)
Definition in_child {A} (i : nat) (m : MN A) : MN A := fun n =>
  match n_children n !! i with
  | Some c => let r := m c in (r.1, set_children (<[i := r.2]>) n)
  | None => (Exn AttributeError, n)
  end.

(** [CoTNode.__init__] with the children the configuration gives, and the constructor of
    the class. *)
Definition do_init (s : init_step) (l : list (string * aval)) : list (string * aval) :=
  match s with
  | Init key v => dset key (VRaw v) l
  | InitMissing key v =>
      match dget key l with Some (VChild _) => l | _ => dset key (VRaw v) l end
  end.

Definition new_node (d : domain_class) (children : list node) : node :=
  let own_text := bool_decide ("text" ∈ a_name <$> d_accessors d) in
  let c0 := if own_text then [("text", VRaw (XText ""))] else [] in
  let c1 := fold_left (fun l p => dset (n_class p.2) (VChild p.1) l) (imap pair children) c0 in
  mkNode (d_name d) (fold_left (fun l s => do_init s l) (d_init d) c1)
    (if own_text then [] else [("text", XText "")]) children
    (mkXml (d_tag d) None [] []).
End Node.
