(* ===== verification/DomainClasses.v ===== *)
(** The classes of the domain: what their constructors put in [cot_attributes] and their
    properties, class by class ([components/core/domain/domain],
    [components/extended/mission/domain] and [components/extended/excheck/domain]). *)
From stdpp Require Import base strings list.
From S2P Require Import Prelude.
From S2P Require Import DomainNode.

Local Open Scope list_scope.
Local Open Scope string_scope.

(** A [CoTProperty] and a [property]. *)
Definition cot_prop (name : string) : getter -> setter -> accessor := mkAccessor name true.
Definition plain_prop (name : string) : getter -> setter -> accessor := mkAccessor name false.

(** * The domain of the core *)

Definition contact_class : domain_class :=
  mkClass "contact" "contact"
    [Init "callsign" XNone; Init "endpoint" XNone; Init "iconsetpath" XNone;
     Init "uid" XNone; Init "name" XNone; Init "emailAddress" XNone;
     Init "xmppUsername" XNone; Init "sipAddress" XNone]
    [cot_prop "iconsetpath" (Get "iconsetpath") (SetValue "iconsetpath");
     cot_prop "sipAddress" (Get "sipAddress") (SetValue "sipAddress");
     cot_prop "emailAddress" (Get "emailAddress") (SetValue "emailAddress");
     cot_prop "xmppUsername" (Get "xmppUsername") (SetValue "xmppUsername");
     cot_prop "callsign" (Get "callsign") (SetValue "callsign");
     cot_prop "endpoint" (Get "endpoint") (SetValue "endpoint");
     cot_prop "uid" (Get "uid") SetItself; cot_prop "name" (Get "name") SetItself;
     cot_prop "phone" (Get "phone") (SetValue "phone")].

Definition contentResource_class : domain_class :=
  mkClass "contentResource" "contentResource"
    []
    [cot_prop "filename" (GetOrRaise "filename") (SetValue "filename");
     cot_prop "hash" (GetOrRaise "hash") (SetValue "hash");
     cot_prop "keywords" (GetOrRaise "keywords") (SetValue "keywords");
     cot_prop "mimeType" (GetOrRaise "mimeType") (SetValue "mimeType");
     cot_prop "name" (GetOrRaise "name") (SetValue "name");
     cot_prop "size" (GetOrRaise "size") (SetValue "size");
     cot_prop "submissionTime" (GetOrRaise "submissionTime") (SetValue "submissionTime");
     cot_prop "submitter" (GetOrRaise "submitter") (SetValue "submitter");
     cot_prop "tool" (GetOrRaise "tool") (SetValue "tool");
     cot_prop "uid" (GetOrRaise "uid") (SetValue "uid");
     cot_prop "expiration" (GetOrRaise "expiration") (SetValue "expiration");
     cot_prop "groupVector" (GetOrRaise "groupVector") (SetValue "groupVector");
     cot_prop "creatorUid" (GetOrRaise "creatorUid") (SetValue "creatorUid");
     cot_prop "timestamp" (GetOrRaise "timestamp") (SetValue "timestamp")].

Definition contentUid_class : domain_class :=
  mkClass "contentUid" "contentUid"
    [Init "text" XNone]
    [plain_prop "text" (Get "text") (SetValue "text")].

Definition creatorUid_class : domain_class :=
  mkClass "creatorUid" "creatorUid"
    [Init "text" XNone]
    [plain_prop "text" (Get "text") (SetValue "text")].

Definition dest_class : domain_class :=
  mkClass "dest" "dest"
    [Init "callsign" XNone; Init "mission" XNone]
    [cot_prop "callsign" (GetItem "callsign") (SetValue "callsign");
     cot_prop "mission" (GetItem "mission") (SetValue "mission")].

Definition detail_class : domain_class :=
  mkClass "detail" "detail"
    []
    [cot_prop "marti" (GetOrRaise "marti") (SetValue "marti");
     cot_prop "link" (GetOrRaise "link") (SetValue "link");
     cot_prop "contact" (GetOrRaise "contact") (SetValue "contact");
     cot_prop "mission" (GetOrRaise "mission") (SetValue "mission");
     cot_prop "emergency" (GetOrRaise "emergency") (SetValue "emergency");
     cot_prop "remarks" (GetOrRaise "remarks") (SetValue "remarks");
     cot_prop "usericon" (GetOrRaise "usericon") (SetValue "usericon")].

Definition emergency_class : domain_class :=
  mkClass "emergency" "emergency"
    [Init "type" XNone; Init "alert" XNone; Init "cancel" XNone; Init "text" XNone]
    [cot_prop "type" (Get "type") (SetValue "type");
     cot_prop "Alert" (Get "alert") (SetValue "alert");
     cot_prop "cancel" (Get "cancel") (SetValue "cancel");
     cot_prop "text" (Get "text") (SetValue "text")].

Definition event_class : domain_class :=
  mkClass "Event" "event"
    [Init "version" XNone; Init "uid" XNone; Init "type" XNone; Init "how" XNone;
     Init "stale" XNone; Init "start" XNone; Init "time" XNone]
    [cot_prop "start" (GetTime "start" 0) (SetTime "start" 0);
     cot_prop "how" (Get "how") (SetValue "how");
     cot_prop "uid" (Get "uid") (SetUuid "uid");
     cot_prop "version" (Get "version") (SetValue "version");
     cot_prop "time" (GetTime "time" 0) (SetTime "time" 0);
     cot_prop "stale" (GetTime "stale" 60) (SetTime "stale" 60);
     cot_prop "type" (Get "type") (SetValue "type");
     cot_prop "point" (Get "point") (SetValue "point");
     cot_prop "detail" (Get "detail") (SetValue "detail");
     cot_prop "access" (Get "access") (SetValue "access")].

Definition expiration_class : domain_class :=
  mkClass "expiration" "expiration"
    [Init "text" XNone]
    [plain_prop "text" (Get "text") (SetValue "text")].

Definition groupVector_class : domain_class :=
  mkClass "groupVector" "groupVector"
    [Init "text" XNone]
    [plain_prop "text" (Get "text") (SetValue "text")].

Definition hash_class : domain_class :=
  mkClass "hash" "hash"
    [Init "text" XNone]
    [plain_prop "text" (Get "text") (SetValue "text")].

Definition isFederatedChange_class : domain_class :=
  mkClass "isFederatedChange" "isFederatedChange"
    [Init "text" XNone]
    [plain_prop "text" (Get "text") (SetValue "text")].

Definition link_class : domain_class :=
  mkClass "link" "link"
    [Init "uid" XNone; Init "relation" XNone; Init "production_time" XNone;
     Init "type" XNone; Init "parent_callsign" XNone]
    [cot_prop "remarks" (Get "remarks") (SetValue "remarks");
     cot_prop "callsign" (Get "callsign") (SetValue "callsign");
     cot_prop "point" (Get "point") (SetValue "point");
     cot_prop "uid" (GetUuid "uid") (SetValue "uid");
     cot_prop "production_time" (Get "production_time") SetItselfOrTime;
     cot_prop "relation" (Get "relation") (SetValue "relation");
     cot_prop "type" (Get "type") (SetValue "type");
     cot_prop "parent_callsign" (Get "parent_callsign") (SetValue "parent_callsign");
     cot_prop "relationship" (Get "relationship") (SetValue "relationship")].

Definition marti_class : domain_class :=
  mkClass "marti" "marti"
    [Init "dest" (XList [])]
    [cot_prop "dest" (GetChildren ["dest"]) SetChild].

Definition mimeType_class : domain_class :=
  mkClass "mimeType" "mimeType"
    [Init "text" XNone]
    [plain_prop "text" (Get "text") (SetValue "text")].

Definition mission_class : domain_class :=
  mkClass "mission" "mission"
    [Init "name" XNone; Init "type" XNone; Init "tool" XNone; Init "authorUid" XNone;
     Init "token" XNone]
    [cot_prop "name" (Get "name") (SetValue "name");
     cot_prop "type" (Get "type") (SetValue "type");
     cot_prop "tool" (Get "tool") (SetValue "tool");
     cot_prop "authorUid" (Get "authorUid") (SetValue "authorUid");
     cot_prop "MissionChanges" (Get "MissionChanges") (SetValue "MissionChanges");
     cot_prop "role" (Get "role") (SetValue "role");
     cot_prop "token" (Get "token") (SetValue "token")].

Definition missionChange_class : domain_class :=
  mkClass "MissionChange" "MissionChange"
    []
    [cot_prop "contentResource" (GetOrRaise "contentResource") (SetValue "contentResource");
     cot_prop "externalData" (GetOrRaise "externalData") (SetValue "externalData");
     cot_prop "isFederatedChange" (GetOrRaise "isFederatedChange") (SetValue "isFederatedChange");
     cot_prop "groupVector" (GetOrRaise "groupVector") (SetValue "groupVector");
     cot_prop "creatorUid" (GetOrRaise "creatorUid") (SetValue "creatorUid");
     cot_prop "missionName" (GetOrRaise "missionName") (SetValue "missionName");
     cot_prop "timestamp" (GetOrRaise "timestamp") (SetValue "timestamp");
     cot_prop "type" (GetOrRaise "type") (SetValue "type");
     cot_prop "content" (GetOrRaise "content") (SetValue "content");
     cot_prop "details" (GetOrRaise "details") (SetValue "details");
     cot_prop "contentUid" (GetOrRaise "contentUid") (SetValue "contentUid")].

Definition missionChangeRecord_class : domain_class :=
  mkClass "MissionChangeRecord" "MissionChangeRecord"
    [Init "type" XNone; Init "contentUid" XNone; Init "missionName" XNone;
     Init "timestamp" XNone; Init "creatorUid" XNone; Init "serverTime" XNone;
     Init "contentResource" XNone; Init "isFederatedChange" XNone]
    [cot_prop "isFederatedChange" (Get "isFederatedChange") (SetValue "isFederatedChange");
     cot_prop "type" (Get "type") (SetValue "type");
     cot_prop "contentUid" (Get "contentUid") (SetValue "contentUid");
     cot_prop "missionName" (Get "missionName") (SetValue "missionName");
     cot_prop "timestamp" (Get "timestamp") (SetValue "timestamp");
     cot_prop "creatorUid" (Get "creatorUid") (SetValue "creatorUid");
     cot_prop "serverTime" (Get "serverTime") (SetValue "serverTime");
     cot_prop "contentResource" (Get "MissionContentData") (SetValue "MissionContentData");
     cot_prop "details" (Get "details") (SetValue "details");
     cot_prop "externalData" (Get "externalData") (SetValue "externalData")].

Definition missionChanges_class : domain_class :=
  mkClass "MissionChanges" "MissionChanges"
    []
    [cot_prop "MissionChange" (GetChildren ["MissionChange"]) SetChild].

Definition missionContent_class : domain_class :=
  mkClass "MissionContent" "MissionContent"
    [Init "timestamp" XNone; Init "creatorUid" XNone; Init "data" XNone]
    [cot_prop "timestamp" (Get "timestamp") (SetValue "timestamp");
     cot_prop "creatorUid" (Get "creatorUid") (SetValue "creatorUid");
     cot_prop "data" (Get "MissionContentData") (SetValue "MissionContentData");
     cot_prop "details" (Get "details") (SetValue "details")].

Definition missionContentData_class : domain_class :=
  mkClass "MissionContentData" "MissionContentData"
    [Init "filename" XNone; Init "keywords" XNone; Init "mimeType" XNone;
     Init "name" XNone; Init "submissionTime" XNone; Init "submitter" XNone;
     Init "uid" XNone; Init "hash" XNone; Init "size" XNone; Init "tool" XNone;
     Init "expiration" XNone]
    [cot_prop "filename" (Get "filename") (SetValue "filename");
     cot_prop "keywords" (Get "keywords") (SetValue "keywords");
     cot_prop "mimeType" (Get "mimeType") (SetValue "mimeType");
     cot_prop "name" (Get "name") (SetValue "name");
     cot_prop "submissionTime" (Get "submissionTime") (SetValue "submissionTime");
     cot_prop "submitter" (Get "submitter") (SetValue "submitter");
     cot_prop "uid" (Get "uid") (SetValue "uid");
     cot_prop "hash" (Get "hash") (SetValue "hash");
     cot_prop "size" (Get "size") (SetValue "size");
     cot_prop "tool" (Get "tool") (SetValue "tool");
     cot_prop "expiration" (Get "expiration") (SetValue "expiration")].

Definition missionCOT_class : domain_class :=
  mkClass "MissionCOT" "MissionCOT"
    [Init "type" XNone; Init "callsign" XNone]
    [cot_prop "type" (Get "type") (SetValue "type");
     cot_prop "callsign" (Get "callsign") (SetValue "callsign")].

Definition missionData_class : domain_class :=
  mkClass "MissionData" "MissionData"
    [Init "name" XNone; Init "description" XNone; Init "chatRoom" XNone;
     Init "baseLayer" XNone; Init "bbox" XNone; Init "path" XNone;
     Init "classification" XNone; Init "tool" XNone; Init "keywords" XNone;
     Init "creatorUid" XNone; Init "createTime" XNone; Init "groups" XNone;
     Init "externalData" (XList []); Init "feeds" XNone; Init "mapLayers" XNone;
     Init "defaultRole" XNone; Init "ownerRole" XNone; Init "inviteOnly" XNone;
     Init "expiration" XNone; Init "guid" XNone; Init "uids" XNone;
     Init "contents" (XList []); Init "token" XNone; Init "passwordProtected" XNone]
    [cot_prop "name" (Get "name") (SetValue "name");
     cot_prop "description" (Get "description") (SetValue "description");
     cot_prop "chatRoom" (Get "chatRoom") (SetValue "chatRoom");
     cot_prop "baseLayer" (Get "baseLayer") (SetValue "baseLayer");
     cot_prop "bbox" (Get "bbox") (SetValue "bbox");
     cot_prop "path" (Get "path") (SetValue "path");
     cot_prop "classification" (Get "classification") (SetValue "classification");
     cot_prop "tool" (Get "tool") (SetValue "tool");
     cot_prop "keywords" (Get "keywords") (SetValue "keywords");
     cot_prop "creatorUid" (Get "creatorUid") (SetValue "creatorUid");
     cot_prop "createTime" (Get "createTime") (SetValue "createTime");
     cot_prop "groups" (Get "groups") (SetValue "groups");
     cot_prop "externalData" (GetChildren ["MissionExternalData"]) SetChild;
     cot_prop "feeds" (Get "feeds") (SetValue "feeds");
     cot_prop "mapLayers" (Get "mapLayers") (SetValue "mapLayers");
     cot_prop "inviteOnly" (Get "inviteOnly") (SetValue "inviteOnly");
     cot_prop "expiration" (Get "expiration") (SetValue "expiration");
     cot_prop "guid" (Get "guid") (SetValue "guid");
     cot_prop "uids" (GetChildren ["MissionCoTContent"; "MissionListCoTContent"]) SetChild;
     cot_prop "passwordProtected" (Get "passwordProtected") (SetValue "passwordProtected");
     cot_prop "contents" (GetChildren ["MissionContent"]) SetChild;
     cot_prop "defaultRole" (Get "MissionRoleDefault") (SetValue "MissionRoleDefault");
     cot_prop "ownerRole" (Get "MissionRoleOwner") (SetValue "MissionRoleOwner");
     cot_prop "token" (Get "token") (SetValue "token")].

Definition missionExternalData_class : domain_class :=
  mkClass "MissionExternalData" "MissionExternalData"
    []
    [cot_prop "name" (Get "name") (SetValue "name");
     cot_prop "notes" (Get "notes") (SetValue "notes");
     cot_prop "tool" (Get "tool") (SetValue "tool");
     cot_prop "uid" (Get "uid") (SetValue "uid");
     cot_prop "urlData" (Get "urlData") (SetValue "urlData");
     cot_prop "urlView" (Get "urlView") (SetValue "urlView")].

Definition missionInfo_class : domain_class :=
  mkClass "MissionInfo" "MissionInfo"
    [Init "version" XNone; Init "type" XNone; Init "nodeId" XNone;
     Init "data" (XList [])]
    [cot_prop "version" (Get "version") (SetValue "version");
     cot_prop "type" (Get "type") (SetValue "type");
     cot_prop "nodeId" (Get "nodeId") (SetValue "nodeId");
     cot_prop "data" (GetChildrenOr ["MissionData"; "MissionSubscription"; "MissionLog"; "MissionChangeRecord"] "data") (SetChildOrAppend ["MissionData"; "MissionSubscription"; "MissionLog"; "MissionChangeRecord"] "data")].

Definition missionInfoSingle_class : domain_class :=
  mkClass "MissionInfoSingle" "MissionInfoSingle"
    [Init "version" XNone; Init "type" XNone; Init "nodeId" XNone; Init "data" XNone]
    [cot_prop "version" (Get "version") (SetValue "version");
     cot_prop "type" (Get "type") (SetValue "type");
     cot_prop "nodeId" (Get "nodeId") (SetValue "nodeId");
     cot_prop "data" (GetFirst ["data"; "MissionSubscription"; "MissionLog"; "MissionData"; "MissionExternalData"]) (SetSameClass "data")].

Definition missionLog_class : domain_class :=
  mkClass "MissionLog" "MissionLog"
    [Init "id" XNone; Init "creatorUid" XNone; Init "entryUid" XNone;
     Init "missionNames" (XList []); Init "dtg" XNone; Init "content" XNone;
     Init "contentHashes" (XList []); Init "keywords" (XList []);
     Init "servertime" XNone; Init "created" XNone; Init "data" XNone]
    [cot_prop "creatorUid" (Get "creatorUid") (SetValue "creatorUid");
     cot_prop "entryUid" (Get "entryUid") (SetValue "entryUid");
     cot_prop "missionNames" (GetOr "missionNames" (XList [])) (SetValue "missionNames");
     cot_prop "dtg" (Get "dtg") (SetValue "dtg");
     cot_prop "contentHashes" (GetOr "contentHashes" (XList [])) (SetValue "contentHashes");
     cot_prop "keywords" (GetOr "keywords" (XList [])) (SetValue "keywords");
     cot_prop "servertime" (Get "servertime") (SetValue "servertime");
     cot_prop "created" (Get "created") (SetValue "created");
     cot_prop "id" (Get "id") (SetValue "id");
     cot_prop "content" (Get "content") (SetValue "content");
     cot_prop "data" (Get "data") (SetValue "data")].

Definition missionName_class : domain_class :=
  mkClass "missionName" "missionName"
    [Init "text" XNone]
    [plain_prop "text" (Get "text") (SetValue "text")].

Definition missionSubscription_class : domain_class :=
  mkClass "MissionSubscription" "MissionSubscription"
    [Init "token" XNone; Init "clientUid" XNone; Init "username" XNone;
     Init "createTime" XNone]
    [cot_prop "token" (Get "token") (SetValue "token");
     cot_prop "clientUid" (Get "clientUid") (SetValue "clientUid");
     cot_prop "username" (Get "username") (SetValue "username");
     cot_prop "createTime" (Get "createTime") (SetValue "createTime");
     cot_prop "role" (Get "role") (SetValue "role")].

Definition name_class : domain_class :=
  mkClass "name" "name"
    [Init "text" XNone]
    [plain_prop "text" (Get "text") (SetValue "text")].

Definition point_class : domain_class :=
  mkClass "point" "point"
    [Init "le" (XText "9999999.0"); Init "ce" (XText "9999999.0");
     Init "hae" (XText "9999999.0"); Init "lon" (XText "0"); Init "lat" (XText "0")]
    [cot_prop "ce" (Get "ce") (SetValue "ce"); cot_prop "le" (Get "le") (SetValue "le");
     cot_prop "lat" (Get "lat") (SetValue "lat");
     cot_prop "lon" (Get "lon") (SetValue "lon");
     cot_prop "hae" (Get "hae") (SetValue "hae")].

Definition remarks_class : domain_class :=
  mkClass "remarks" "remarks"
    [Init "keywords" XNone; Init "relation" XNone; Init "time" XNone; Init "to" XNone;
     Init "version" XNone]
    [cot_prop "keywords" (Get "keywords") SetItself;
     cot_prop "source" (Get "source") SetItself;
     cot_prop "sourceID" (Get "sourceID") SetItself;
     cot_prop "time" (Get "time") SetItselfOrTime;
     cot_prop "to" (Get "to") (SetValue "to");
     cot_prop "version" (Get "version") (SetValue "version");
     plain_prop "text" (Get "text") (SetValue "text")].

Definition role_class : domain_class :=
  mkClass "role" "role"
    [Init "type" XNone; InitMissing "permissions" XNone]
    [cot_prop "permissions" (GetItem "permissions") (SetValue "permissions");
     cot_prop "type" (Get "type") (SetValue "type")].

Definition size_class : domain_class :=
  mkClass "size" "size"
    [Init "text" XNone]
    [plain_prop "text" (Get "text") (SetValue "text")].

Definition submissionTime_class : domain_class :=
  mkClass "submissionTime" "submissionTime"
    [Init "text" XNone]
    [plain_prop "text" (Get "text") (SetValue "text")].

Definition submitter_class : domain_class :=
  mkClass "submitter" "submitter"
    []
    [plain_prop "text" (Get "text") (SetValue "text")].

Definition timestamp_class : domain_class :=
  mkClass "timestamp" "timestamp"
    [Init "text" XNone]
    [plain_prop "text" (Get "text") (SetTime "text" 0)].

Definition type_class : domain_class :=
  mkClass "type" "type"
    [Init "text" XNone]
    [plain_prop "text" (Get "text") (SetValue "text")].

Definition uid_class : domain_class :=
  mkClass "uid" "uid"
    [Init "Droid" XNone]
    [plain_prop "text" (Get "text") (SetValue "text");
     cot_prop "Droid" (Get "Droid") (SetValue "Droid")].

Definition usericon_class : domain_class :=
  mkClass "usericon" "usericon"
    [Init "iconsetpath" XNone]
    [cot_prop "iconsetpath" (Get "iconsetpath") (SetValue "iconsetpath")].

Definition domain : list domain_class :=
  [contact_class; contentResource_class; contentUid_class; creatorUid_class; dest_class;
   detail_class; emergency_class; event_class; expiration_class; groupVector_class;
   hash_class; isFederatedChange_class; link_class; marti_class; mimeType_class;
   mission_class; missionChange_class; missionChangeRecord_class; missionChanges_class;
   missionContent_class; missionContentData_class; missionCOT_class; missionData_class;
   missionExternalData_class; missionInfo_class; missionInfoSingle_class;
   missionLog_class; missionName_class; missionSubscription_class; name_class;
   point_class; remarks_class; role_class; size_class; submissionTime_class;
   submitter_class; timestamp_class; type_class; uid_class; usericon_class].

(** * What the mission component adds *)

Definition mission_detail_class : domain_class :=
  mkClass "detail" "detail"
    [Init "callsign" XNone; Init "type" XNone]
    [cot_prop "callsign" (GetOrRaise "callsign") (SetValue "callsign");
     cot_prop "type" (GetOrRaise "type") (SetValue "type")].

Definition mission_details_class : domain_class :=
  mkClass "details" "details"
    [Init "type" XNone; Init "callsign" XNone; Init "iconsetPath" XNone]
    [cot_prop "type" (GetOrRaise "type") (SetValue "type");
     cot_prop "callsign" (GetOrRaise "callsign") (SetValue "callsign");
     cot_prop "iconsetPath" (GetOrRaise "iconsetPath") (SetValue "iconsetPath");
     cot_prop "location" (GetOrRaise "location") (SetValue "location")].

Definition mission_events_class : domain_class :=
  mkClass "events" "events"
    []
    [].

Definition mission_externalData_class : domain_class :=
  mkClass "externalData" "externalData"
    []
    [cot_prop "name" (Get "name") (SetValue "name");
     cot_prop "notes" (Get "notes") (SetValue "notes");
     cot_prop "tool" (Get "tool") (SetValue "tool");
     cot_prop "uid" (Get "uid") (SetValue "uid");
     cot_prop "urlData" (Get "urlData") (SetValue "urlData");
     cot_prop "urlView" (Get "urlView") (SetValue "urlView")].

Definition mission_location_class : domain_class :=
  mkClass "location" "location"
    [Init "lat" XNone; Init "lon" XNone]
    [cot_prop "lat" (GetOrRaise "lat") (SetValue "lat");
     cot_prop "lon" (GetOrRaise "lon") (SetValue "lon")].

Definition mission_missionInvitation_class : domain_class :=
  mkClass "MissionInvitation" "MissionInvitation"
    [Init "missionName" XNone; Init "invitee" XNone; Init "type" XNone;
     Init "creatorUid" XNone; Init "createTime" XNone; Init "token" XNone;
     Init "role" XNone]
    [cot_prop "role" (Get "role") (SetValue "role");
     cot_prop "missionName" (Get "missionName") (SetValue "missionName");
     cot_prop "invitee" (Get "invitee") (SetValue "invitee");
     cot_prop "type" (Get "type") (SetValue "type");
     cot_prop "creatorUid" (Get "creatorUid") (SetValue "creatorUid");
     cot_prop "createTime" (Get "createTime") (SetValue "createTime");
     cot_prop "token" (Get "token") (SetValue "token")].

Definition mission_notes_class : domain_class :=
  mkClass "notes" "notes"
    []
    [plain_prop "text" (Get "text") (SetValue "text")].

Definition mission_permission_class : domain_class :=
  mkClass "permission" "permission"
    [Init "type" XNone]
    [cot_prop "type" (Get "type") (SetValue "type")].

Definition mission_permissions_class : domain_class :=
  mkClass "permissions" "permissions"
    []
    [cot_prop "permission" (GetChildren ["permission"]) SetChild].

Definition mission_tool_class : domain_class :=
  mkClass "tool" "tool"
    []
    [plain_prop "text" (Get "text") (SetValue "text")].

Definition mission_urlData_class : domain_class :=
  mkClass "urlData" "urlData"
    []
    [plain_prop "text" (Get "text") (SetValue "text")].

Definition mission_urlView_class : domain_class :=
  mkClass "urlView" "urlView"
    []
    [plain_prop "text" (Get "text") (SetValue "text")].

Definition mission_missionListCoTContent_class : domain_class :=
  mkClass "MissionListCoTContent" "MissionListCoTContent"
    [Init "data" XNone; Init "timestamp" XNone; Init "creatorUid" XNone]
    [cot_prop "data" (GetOrRaise "data") (SetValue "data");
     cot_prop "timestamp" (GetOrRaise "timestamp") (SetValue "timestamp");
     cot_prop "creatorUid" (GetOrRaise "creatorUid") (SetValue "creatorUid")].

Definition mission_domain : list domain_class :=
  [mission_detail_class; mission_details_class; mission_events_class;
   mission_externalData_class; mission_location_class; mission_missionInvitation_class;
   mission_notes_class; mission_permission_class; mission_permissions_class;
   mission_tool_class; mission_urlData_class; mission_urlView_class;
   mission_missionListCoTContent_class].

(** * The classes of the checklists *)

Definition excheck_completeDTG_class : domain_class :=
  mkClass "CompleteDTG" "CompleteDTG"
    []
    [].

Definition excheck_checklist_class : domain_class :=
  mkClass "Checklist" "Checklist"
    [Init "checklist" XNone]
    [cot_prop "checklistDetails" (Get "checklistDetails") (SetValue "checklistDetails");
     cot_prop "checklistColumns" (Get "checklistColumns") (SetValue "checklistColumns");
     cot_prop "checklistTasks" (Get "checklistTasks") (SetValue "checklistTasks")].

Definition excheck_checklistColumn_class : domain_class :=
  mkClass "checklistColumn" "checklistColumn"
    []
    [cot_prop "columnName" (Get "columnName") (SetValue "columnName");
     cot_prop "columnType" (Get "columnType") (SetValue "columnType");
     cot_prop "columnWidth" (Get "columnWidth") (SetValue "columnWidth")].

Definition excheck_checklistColumns_class : domain_class :=
  mkClass "checklistColumns" "checklistColumns"
    []
    [cot_prop "checklistColumn" (Get "checklistColumn") (SetValue "checklistColumn")].

Definition excheck_checklistDetails_class : domain_class :=
  mkClass "checklistDetails" "checklistDetails"
    []
    [cot_prop "name" (Get "name") (SetValue "name");
     cot_prop "uid" (Get "uid") (SetValue "uid");
     cot_prop "description" (Get "description") (SetValue "description");
     cot_prop "startTime" (Get "startTime") (SetValue "startTime");
     cot_prop "templateName" (Get "templateName") (SetValue "templateName");
     cot_prop "creatorUid" (Get "creatorUid") (SetValue "creatorUid");
     cot_prop "creatorCallsign" (Get "creatorCallsign") (SetValue "creatorCallsign")].

Definition excheck_checklistTasks_class : domain_class :=
  mkClass "checklistTasks" "checklistTasks"
    []
    [cot_prop "checklistTask" (Get "checklistTask") (SetValue "checklistTask")].

Definition excheck_checklistTask_class : domain_class :=
  mkClass "ChecklistTask" "ChecklistTask"
    []
    [cot_prop "lineBreak" (Get "lineBreak") (SetValue "lineBreak");
     cot_prop "number" (Get "number") (SetValue "number");
     cot_prop "uid" (Get "uid") (SetValue "uid");
     cot_prop "value" (Get "value") (SetValue "value");
     cot_prop "status" (Get "status") (SetValue "status");
     cot_prop "CompleteDTG" (Get "CompleteDTG") (SetValue "CompleteDTG")].

Definition excheck_checklists_class : domain_class :=
  mkClass "checklists" "checklists"
    []
    [cot_prop "checklist" (Get "checklist") (SetValue "checklist")].

Definition excheck_columnName_class : domain_class :=
  mkClass "columnName" "columnName"
    []
    [].

Definition excheck_columnType_class : domain_class :=
  mkClass "columnType" "columnType"
    []
    [].

Definition excheck_columnWidth_class : domain_class :=
  mkClass "columnWidth" "columnWidth"
    []
    [].

Definition excheck_contentResource_class : domain_class :=
  mkClass "contentResource" "contentResource"
    []
    [cot_prop "filename" (GetOrRaise "filename") (SetValue "filename");
     cot_prop "hash" (GetOrRaise "hash") (SetValue "hash");
     cot_prop "keywords" (GetOrRaise "keywords") (SetValue "keywords");
     cot_prop "mimeType" (GetOrRaise "mimeType") (SetValue "mimeType");
     cot_prop "name" (GetOrRaise "name") (SetValue "name");
     cot_prop "size" (GetOrRaise "size") (SetValue "size");
     cot_prop "submissionTime" (GetOrRaise "submissionTime") (SetValue "submissionTime");
     cot_prop "submitter" (GetOrRaise "submitter") (SetValue "submitter");
     cot_prop "tool" (GetOrRaise "tool") (SetValue "tool");
     cot_prop "uid" (GetOrRaise "uid") (SetValue "uid");
     cot_prop "expiration" (GetOrRaise "expiration") (SetValue "expiration");
     cot_prop "groupVector" (GetOrRaise "groupVector") (SetValue "groupVector")].

Definition excheck_creatorCallsign_class : domain_class :=
  mkClass "creatorCallsign" "creatorCallsign"
    []
    [].

Definition excheck_creatorUid_class : domain_class :=
  mkClass "creatorUid" "creatorUid"
    [Init "text" XNone]
    [plain_prop "text" (Get "text") (SetValue "text")].

Definition excheck_description_class : domain_class :=
  mkClass "description" "description"
    []
    [].

Definition excheck_expiration_class : domain_class :=
  mkClass "expiration" "expiration"
    [Init "text" XNone]
    [plain_prop "text" (Get "text") (SetValue "text")].

Definition excheck_filename_class : domain_class :=
  mkClass "filename" "filename"
    [Init "text" XNone]
    [plain_prop "text" (Get "text") (SetValue "text")].

Definition excheck_groupVector_class : domain_class :=
  mkClass "groupVector" "groupVector"
    [Init "text" XNone]
    [plain_prop "text" (Get "text") (SetValue "text")].

Definition excheck_hash_class : domain_class :=
  mkClass "hash" "hash"
    [Init "text" XNone]
    [plain_prop "text" (Get "text") (SetValue "text")].

Definition excheck_isFederatedChange_class : domain_class :=
  mkClass "isFederatedChange" "isFederatedChange"
    [Init "text" XNone]
    [plain_prop "text" (Get "text") (SetValue "text")].

Definition excheck_keywords_class : domain_class :=
  mkClass "keywords" "keywords"
    [Init "text" XNone]
    [plain_prop "text" (Get "text") (SetValue "text")].

Definition excheck_lineBreak_class : domain_class :=
  mkClass "lineBreak" "lineBreak"
    []
    [].

Definition excheck_mimeType_class : domain_class :=
  mkClass "mimeType" "mimeType"
    [Init "text" XNone]
    [plain_prop "text" (Get "text") (SetValue "text")].

Definition excheck_mission_class : domain_class :=
  mkClass "mission" "mission"
    [Init "type" XNone; Init "tool" XNone; Init "name" XNone; Init "authorUid" XNone]
    [cot_prop "MissionChanges" (GetItem "MissionChanges") (SetValue "MissionChanges");
     cot_prop "type" (GetItem "type") (SetValue "type");
     cot_prop "tool" (GetItem "tool") (SetValue "tool");
     cot_prop "name" (GetItem "name") (SetValue "name");
     cot_prop "authorUid" (GetItem "authorUid") (SetValue "authorUid")].

Definition excheck_missionChange_class : domain_class :=
  mkClass "MissionChange" "MissionChange"
    []
    [cot_prop "contentResource" (GetOrRaise "contentResource") (SetValue "contentResource");
     cot_prop "isFederatedChange" (GetOrRaise "isFederatedChange") (SetValue "isFederatedChange");
     cot_prop "groupVector" (GetOrRaise "groupVector") (SetValue "groupVector");
     cot_prop "creatorUid" (GetOrRaise "creatorUid") (SetValue "creatorUid");
     cot_prop "missionName" (GetOrRaise "missionName") (SetValue "missionName");
     cot_prop "timestamp" (GetOrRaise "timestamp") (SetValue "timestamp");
     cot_prop "type" (GetOrRaise "type") (SetValue "type");
     cot_prop "content" (GetOrRaise "content") (SetValue "content")].

Definition excheck_missionChanges_class : domain_class :=
  mkClass "MissionChanges" "MissionChanges"
    [Init "MissionChange" (XList [])]
    [cot_prop "MissionChange" (GetChildren ["MissionChange"]) SetChild].

Definition excheck_missionData_class : domain_class :=
  mkClass "MissionData" "MissionData"
    [Init "name" XNone; Init "description" XNone; Init "chatRoom" XNone;
     Init "baseLayer" XNone; Init "bbox" XNone; Init "path" XNone;
     Init "classification" XNone; Init "tool" XNone; Init "keywords" XNone;
     Init "creatorUid" XNone; Init "createTime" XNone; Init "groups" XNone;
     Init "externalData" XNone; Init "feeds" XNone; Init "mapLayers" XNone;
     Init "inviteOnly" XNone; Init "expiration" XNone; Init "guid" XNone;
     Init "uids" XNone; Init "passwordProtected" XNone; Init "contents" (XList [])]
    [cot_prop "name" (Get "name") (SetValue "name");
     cot_prop "description" (Get "description") (SetValue "description");
     cot_prop "chatRoom" (Get "chatRoom") (SetValue "chatRoom");
     cot_prop "baseLayer" (Get "baseLayer") (SetValue "baseLayer");
     cot_prop "bbox" (Get "bbox") (SetValue "bbox");
     cot_prop "path" (Get "path") (SetValue "path");
     cot_prop "classification" (Get "classification") (SetValue "classification");
     cot_prop "tool" (Get "tool") (SetValue "tool");
     cot_prop "keywords" (Get "keywords") (SetValue "keywords");
     cot_prop "creatorUid" (Get "creatorUid") (SetValue "creatorUid");
     cot_prop "createTime" (Get "createTime") (SetValue "createTime");
     cot_prop "groups" (Get "groups") (SetValue "groups");
     cot_prop "externalData" (GetChildren ["MissionExternalData"]) SetChild;
     cot_prop "feeds" (Get "feeds") (SetValue "feeds");
     cot_prop "mapLayers" (Get "mapLayers") (SetValue "mapLayers");
     cot_prop "inviteOnly" (Get "inviteOnly") (SetValue "inviteOnly");
     cot_prop "expiration" (Get "expiration") (SetValue "expiration");
     cot_prop "guid" (Get "guid") (SetValue "guid");
     cot_prop "uids" (Get "uids") (SetValue "uids");
     cot_prop "passwordProtected" (Get "passwordProtected") (SetValue "passwordProtected");
     cot_prop "contents" (GetChildren ["MissionItemMetaData"]) SetChild].

Definition excheck_missionInfo_class : domain_class :=
  mkClass "MissionInfo" "MissionInfo"
    [Init "version" XNone; Init "type" XNone; Init "nodeId" XNone;
     Init "data" (XList [])]
    [cot_prop "version" (Get "version") (SetValue "version");
     cot_prop "type" (Get "type") (SetValue "type");
     cot_prop "nodeId" (Get "nodeId") (SetValue "nodeId");
     cot_prop "data" (GetChildren ["MissionData"]) SetChild].

Definition excheck_missionItem_class : domain_class :=
  mkClass "MissionItem" "MissionItem"
    [Init "filename" XNone; Init "keywords" XNone; Init "mimeType" XNone;
     Init "name" XNone; Init "submissionTime" XNone; Init "submitter" XNone;
     Init "uid" XNone; Init "hash" XNone; Init "size" XNone; Init "tool" XNone;
     Init "expiration" XNone]
    [cot_prop "filename" (Get "filename") (SetValue "filename");
     cot_prop "keywords" (Get "keywords") (SetValue "keywords");
     cot_prop "mimeType" (Get "mimeType") (SetValue "mimeType");
     cot_prop "name" (Get "name") (SetValue "name");
     cot_prop "submissionTime" (Get "submissionTime") (SetValue "submissionTime");
     cot_prop "submitter" (Get "submitter") (SetValue "submitter");
     cot_prop "uid" (Get "uid") (SetValue "uid");
     cot_prop "hash" (Get "hash") (SetValue "hash");
     cot_prop "size" (Get "size") (SetValue "size");
     cot_prop "tool" (Get "tool") (SetValue "tool");
     cot_prop "expiration" (Get "expiration") (SetValue "expiration")].

Definition excheck_missionItemMetaData_class : domain_class :=
  mkClass "MissionItemMetaData" "MissionItemMetaData"
    [Init "timestamp" XNone; Init "creatorUid" XNone; Init "data" XNone]
    [cot_prop "timestamp" (Get "timestamp") (SetValue "timestamp");
     cot_prop "creatorUid" (Get "creatorUid") (SetValue "creatorUid");
     cot_prop "data" (Get "MissionItem") (SetValue "MissionItem")].

Definition excheck_missionName_class : domain_class :=
  mkClass "missionName" "missionName"
    [Init "text" XNone]
    [plain_prop "text" (Get "text") (SetValue "text")].

Definition excheck_name_class : domain_class :=
  mkClass "name" "name"
    [Init "text" XNone]
    [plain_prop "text" (Get "text") (SetValue "text")].

Definition excheck_number_class : domain_class :=
  mkClass "number" "number"
    []
    [].

Definition excheck_size_class : domain_class :=
  mkClass "size" "size"
    [Init "text" XNone]
    [plain_prop "text" (Get "text") (SetValue "text")].

Definition excheck_startTime_class : domain_class :=
  mkClass "startTime" "startTime"
    []
    [].

Definition excheck_status_class : domain_class :=
  mkClass "status" "status"
    []
    [].

Definition excheck_submissionTime_class : domain_class :=
  mkClass "submissionTime" "submissionTime"
    [Init "text" XNone]
    [plain_prop "text" (Get "text") (SetValue "text")].

Definition excheck_submitter_class : domain_class :=
  mkClass "submitter" "submitter"
    []
    [plain_prop "text" (Get "text") (SetValue "text")].

Definition excheck_templateName_class : domain_class :=
  mkClass "templateName" "templateName"
    []
    [].

Definition excheck_templateDescription_class : domain_class :=
  mkClass "TemplateDescription" "TemplateDescription"
    []
    [].

Definition excheck_timestamp_class : domain_class :=
  mkClass "timestamp" "timestamp"
    [Init "text" XNone]
    [plain_prop "text" (Get "text") (SetTime "text" 0)].

Definition excheck_tool_class : domain_class :=
  mkClass "tool" "tool"
    []
    [plain_prop "text" (Get "text") (SetValue "text")].

Definition excheck_type_class : domain_class :=
  mkClass "type" "type"
    [Init "text" XNone]
    [plain_prop "text" (Get "text") (SetValue "text")].

Definition excheck_uid_class : domain_class :=
  mkClass "uid" "uid"
    [Init "Droid" XNone]
    [plain_prop "text" (Get "text") (SetValue "text");
     cot_prop "Droid" (Get "Droid") (SetValue "Droid")].

Definition excheck_value_class : domain_class :=
  mkClass "value" "value"
    []
    [].

Definition excheck_domain : list domain_class :=
  [excheck_completeDTG_class; excheck_checklist_class; excheck_checklistColumn_class;
   excheck_checklistColumns_class; excheck_checklistDetails_class;
   excheck_checklistTasks_class; excheck_checklistTask_class; excheck_checklists_class;
   excheck_columnName_class; excheck_columnType_class; excheck_columnWidth_class;
   excheck_contentResource_class; excheck_creatorCallsign_class;
   excheck_creatorUid_class; excheck_description_class; excheck_expiration_class;
   excheck_filename_class; excheck_groupVector_class; excheck_hash_class;
   excheck_isFederatedChange_class; excheck_keywords_class; excheck_lineBreak_class;
   excheck_mimeType_class; excheck_mission_class; excheck_missionChange_class;
   excheck_missionChanges_class; excheck_missionData_class; excheck_missionInfo_class;
   excheck_missionItem_class; excheck_missionItemMetaData_class;
   excheck_missionName_class; excheck_name_class; excheck_number_class;
   excheck_size_class; excheck_startTime_class; excheck_status_class;
   excheck_submissionTime_class; excheck_submitter_class; excheck_templateName_class;
   excheck_templateDescription_class; excheck_timestamp_class; excheck_tool_class;
   excheck_type_class; excheck_uid_class; excheck_value_class].
