(* ===== verification/DictToNode.v ===== *)
(** From a document to a node and back: [dict_to_node_controller.py] of the domain
    component and [xml_serialization_controller.py]. *)
From Stdlib Require Import ZArith Lia Ascii String.
From stdpp Require Import base strings list sorting.
From S2P Require Import Prelude.
From S2P Require Import DomainNode.

Set Default Proof Using "Type".
Local Open Scope list_scope.
Local Open Scope string_scope.
Local Open Scope py_scope.

(** [key.strip("@")]. *)
Fixpoint lstrip_at (s : string) : string :=
  match s with
  | String "@"%char s' => lstrip_at s'
  | _ => s
  end.
Definition strip_at (s : string) : string :=
  String.rev (lstrip_at (String.rev (lstrip_at s))).

(** [key.lower()], of letters of ASCII. *)
Definition lower_char (c : ascii) : ascii :=
  let n := N_of_ascii c in
  if (65 <=? n)%N && (n <=? 90)%N then ascii_of_N (n + 32) else c.
Fixpoint lower (s : string) : string :=
  match s with EmptyString => EmptyString | String c s' => String (lower_char c) (lower s') end.

Section Convert.
Context (lib : library) (classes : list domain_class).

Abbreviation MN := (M node).

(** * [DictToNodeController] *)

(** [node.xml], which is text once a document has assigned to it. *)
Definition change_xml (f : xml_node -> xml_node) : MN unit :=
  h <- gets (hidden "xml") ;;
  if (h : bool) then raise AttributeError else modify (set_xml f).

Definition append_element (e : element) (x : xml_node) : xml_node :=
  mkXml (x_tag x) (x_text x) (x_attrib x) (x_items x ++ [Foreign e]).
Definition set_attrib (k v : string) (x : xml_node) : xml_node :=
  mkXml (x_tag x) (x_text x) (dset k v (x_attrib x)) (x_items x).

Definition handle_missing_attribute (key : string) (value : xval) : MN unit :=
  match value with
  | XDict _ =>
      e <- of_outcome (dict_to_element lib key value) ;; change_xml (append_element e)
  | XList l =>
      for_each l (fun val =>
        e <- of_outcome (dict_to_element lib key val) ;; change_xml (append_element e))
  | XText s =>
      h <- gets (hidden "xml") ;;
      if (h : bool) then raise AttributeError
      else if valid_name lib key then change_xml (set_attrib key s) else raise ValueError
  | XNone => mret tt
  end.

(** [serialize] of a value that no node takes: it fails, and says so. *)
Definition print_failure : MN unit := mret tt.

(** [whole] is [serialize] with the value, [parts] with each of its elements. *)
Definition add_value_to_node (key : string) (value : xval) (whole : MN unit)
    (parts : list (MN unit)) : MN unit :=
  if decide (key = "#text") then setattr lib classes "text" value else
  known <- hasattr lib classes (strip_at key) ;;
  if negb known then handle_missing_attribute key value else
  current <- getattr_or_none lib classes key ;;
  match value, current with
  | XDict _, Some (GNode i) => in_child i whole
  | XList _, Some (GNodes l) =>
      part <- of_option IndexError (head parts) ;;
      i <- of_option IndexError (head l) ;;
      in_child i part ;;;
      for_each (tail parts) (fun _ =>
        match create_fails lib key with Some e => raise e | None => mret tt end)
  | _, Some (GNodes l) => i <- of_option IndexError (head l) ;; in_child i whole
  | XList _, Some (GRaw (XList l)) =>
      _ <- of_option IndexError (head parts) ;;
      _ <- of_option IndexError (head l) ;;
      for_each (tail parts) (fun _ =>
        match create_fails lib key with Some e => raise e | None => mret tt end)
  | _, Some (GRaw (XList l)) => _ <- of_option IndexError (head l) ;; print_failure
  | _, _ => setattr lib classes (strip_at key) value
  end.

(** [serialize]: whether it returned the node, or [None] after an exception. *)
Fixpoint serialize (d : xval) : MN bool :=
  match d with
  | XDict l =>
      try: (for_each
        (List.map (fun kv =>
           add_value_to_node kv.1 kv.2 (serialize kv.2 ;;; mret tt)
             match kv.2 with
             | XList vs => List.map (fun v => serialize v ;;; mret tt) vs
             | _ => []
             end) l) id ;;; mret true)
      except: mret false
  | _ => mret false
  end.

(** [convert_dict_to_node]: the node it answers, and what has become of the one given. *)
Definition convert_dict_to_node (object_class_name : string) (dictionary : list (string * xval)) :
    MN bool :=
  d <- of_option KeyError (dget (lower object_class_name) dictionary) ;; serialize d.

(** * [XMLSerializationController] *)

(** [inspect.getmembers] lists the members of a class by name. *)
Definition name_le (a b : string) : Prop := String.leb a b = true.
#[local] Instance name_le_dec : RelDecision name_le.
Proof. intros a b. unfold name_le. apply _. Defined.

Definition cot_names (c : string) : list string :=
  merge_sort name_le (a_name <$> filter (fun a => a_cot a = true) (accessors classes c)).

(** Those of the names whose property is not [None], which reads each of them. *)
Fixpoint present (names : list string) : MN (list string) :=
  match names with
  | [] => mret []
  | name :: names =>
      v <- getattr_or_none lib classes name ;;
      rest <- present names ;;
      mret (match v with Some (GRaw XNone) => rest | _ => name :: rest end)
  end.

Definition get_properties : MN (list string) :=
  h <- gets (hidden "get_properties") ;;
  if (h : bool) then raise TypeError else
  n <- gets id ;; present (cot_names (n_class n)).

Definition is_child (i : nat) (it : xitem) : bool :=
  match it with ChildXml j => bool_decide (j = i) | Foreign _ => false end.

(** [xml.append(child)] moves the element to the end where it is there already. *)
Definition append_child (i : nat) (x : xml_node) : xml_node :=
  mkXml (x_tag x) (x_text x) (x_attrib x)
    (List.filter (fun it => negb (is_child i it)) (x_items x) ++ [ChildXml i]).

Definition set_tag (f : string -> string) (x : xml_node) : xml_node :=
  mkXml (f (x_tag x)) (x_text x) (x_attrib x) (x_items x).
Definition set_text (t : option string) (x : xml_node) : xml_node :=
  mkXml (x_tag x) t (x_attrib x) (x_items x).

Definition is_private (name : string) : bool :=
  match name with String "_"%char _ => true | _ => false end.

(** The element of a child is appended, its tag prefixed for a private name. *)
Definition append_node (name : string) (i : nat) (serialize_child : MN unit) : MN unit :=
  in_child i serialize_child ;;;
  (if is_private name then in_child i (change_xml (set_tag (fun t => "_" +:+ t))) else mret tt) ;;;
  change_xml (append_child i).

(** [xml.attrib[name] = str(value)], for a private name under a second name too. *)
Definition write_attribute (name : string) (value : xval) : MN unit :=
  match is_private name, value with
  | true, XText s =>
      change_xml (set_attrib ("_" +:+ name) s) ;;; change_xml (set_attrib name s)
  | true, _ => mret tt
  | false, _ => change_xml (set_attrib name (str_of lib value))
  end.

Definition write_property (serialize_child : MN unit) (name : string) : MN unit :=
  value <- getattr lib classes name ;;
  match value with
  | Some (GNode i) => append_node name i serialize_child
  | Some (GRaw XNone) => mret tt
  | Some (GNodes l) => for_each l (fun i => append_node name i serialize_child)
  | Some (GRaw (XList l)) => for_each l (fun _ => raise AttributeError)
  | Some (GRaw v) => write_attribute name v
  | None => mret tt
  end.

Definition write_text : MN unit :=
  known <- hasattr lib classes "text" ;;
  if (known : bool) then
    v <- getattr lib classes "text" ;;
    match v with
    | Some (GRaw (XText s)) => change_xml (set_text (Some s))
    | Some (GRaw XNone) => change_xml (set_text None)
    | _ => raise TypeError
    end
  else mret tt.

(** [_serialize_node], which leaves the result in [node.xml]; [fuel] bounds the depth. *)
Fixpoint serialize_node (fuel : nat) : MN unit :=
  match fuel with
  | 0 => raise RuntimeError
  | S fuel =>
      h <- gets (hidden "xml") ;;
      (if (h : bool) then raise AttributeError else mret tt) ;;;
      write_text ;;;
      names <- get_properties ;;
      for_each names (write_property (serialize_node fuel)) ;;;
      merged <- hasattr lib classes "xml_string" ;;
      if (merged : bool) then raise AttributeError else mret tt
  end.

Fixpoint depth (n : node) : nat := S (max_list (List.map depth (n_children n))).

(** The element [node.xml] with those of the children in it. *)
Fixpoint xml_of (n : node) : element :=
  match n with
  | mkNode _ _ _ children x =>
      let es := List.map xml_of children in
      mkElement (x_tag x) (x_text x) (x_attrib x)
        (omap (fun it => match it with Foreign e => Some e | ChildXml i => es !! i end)
           (x_items x))
  end.

(** [convert_node_to_xml]: the element whose text is the message. *)
Definition convert_node_to_xml : MN element :=
  n <- gets id ;; serialize_node (depth n) ;;; gets xml_of.
End Convert.
