(* ===== verification/DomainFacts.v ===== *)
(** How reading, assigning and converting nodes behaves: which accessors read back what
    they are assigned, what an exception leaves, and what a conversion keeps. *)
From stdpp Require Import base strings list.
From Stdlib Require Import ZArith Lia.
From S2P Require Import Prelude.
From S2P Require Import DomainNode.
From S2P Require Import DomainClasses.
From S2P Require Import DictToNode.

Set Default Proof Using "Type".
Local Open Scope list_scope.
Local Open Scope string_scope.
Local Open Scope py_scope.

(** * Accessors *)

(** The getter reads what the setter writes. *)
Definition reads_back (a : accessor) : bool :=
  match a_set a, a_get a with
  | SetValue k, (Get k' | GetOr k' _ | GetItem k' | GetOrRaise k' | GetUuid k')
  | SetTime k _, (Get k' | GetTime k' _)
  | SetUuid k, (Get k' | GetUuid k') => bool_decide (k = k')
  | _, _ => false
  end.

(** The setter assigns to its own property. *)
Definition assigns_itself (a : accessor) : bool :=
  match a_set a with SetItself | SetItselfOrTime => true | _ => false end.

(** The setter takes nodes. *)
Definition takes_nodes (a : accessor) : bool :=
  match a_set a with SetChild => true | _ => false end.

Section Accessors.
Context (lib : library) (classes : list domain_class).

Lemma run_cot_attributes n :
  hidden "cot_attributes" n = false -> cot_attributes n = (Ret (n_attributes n), n).
Proof. intros H. unfold cot_attributes. by py_run; rewrite H. Qed.

Lemma run_store k v n :
  hidden "cot_attributes" n = false ->
  store k v n = (Ret tt, set_attributes (dset k v) n).
Proof. intros H. unfold store. by py_run; rewrite H. Qed.

Lemma run_get_value k d n :
  hidden "cot_attributes" n = false ->
  get_value k d n =
  (Ret (match dget k (n_attributes n) with Some v => gval_of v | None => GRaw d end), n).
Proof. intros H. unfold get_value. by rewrite (run_bind _ _ _ _ _ (run_cot_attributes n H)). Qed.

Lemma run_setattr name a v n :
  find_accessor classes (n_class n) name = Some a ->
  setattr lib classes name v n = do_set lib (a_set a) v n.
Proof. intros H. unfold setattr. py_run. cbn [id]. by rewrite H. Qed.

Lemma run_getattr name a n v n' :
  find_accessor classes (n_class n) name = Some a -> do_get lib (a_get a) n = (Ret v, n') ->
  getattr lib classes name n = (Ret (Some v), n').
Proof.
  intros H E. unfold getattr. rewrite (run_bind (gets id) _ n n n eq_refl), H.
  by rewrite (run_bind _ _ _ _ _ E).
Qed.

(** The text a property reads, where it is there. *)
Lemma run_do_get g k v n :
  (g = Get k \/ (exists d, g = GetOr k d) \/ g = GetItem k \/ g = GetOrRaise k \/ g = GetUuid k \/
   exists t, g = GetTime k t) ->
  hidden "cot_attributes" n = false -> dget k (n_attributes n) = Some v ->
  v <> VRaw XNone -> do_get lib g n = (Ret (gval_of v), n).
Proof.
  intros Hg Hn Hk Hv.
  assert (E : forall d, get_value k d n = (Ret (gval_of v), n)).
  { intros d. by rewrite run_get_value, Hk. }
  pose proof (run_cot_attributes n Hn) as Ec.
  destruct Hg as [->|[[d ->]|[->|[->|[->|[t ->]]]]]]; cbn [do_get]; try exact (E _).
  - rewrite (run_bind _ _ _ _ _ Ec), Hk. reflexivity.
  - rewrite (run_bind _ _ _ _ _ (E XNone)). by destruct v as [[]|].
  - rewrite (run_bind _ _ _ _ _ Ec), Hk. reflexivity.
  - rewrite (run_bind _ _ _ _ _ (E XNone)). by destruct v as [[]|].
Qed.

(** Assigning text where the getter reads what the setter writes. *)
Lemma assigned_text name a s n :
  find_accessor classes (n_class n) name = Some a -> reads_back a = true ->
  hidden "cot_attributes" n = false ->
  exists k, setattr lib classes name (XText s) n =
      (Ret tt, set_attributes (dset k (VRaw (XText s))) n) /\
    getattr lib classes name (set_attributes (dset k (VRaw (XText s))) n) =
      (Ret (Some (GRaw (XText s))), set_attributes (dset k (VRaw (XText s))) n).
Proof.
  intros Ha Hr Hn. unfold reads_back in Hr.
  assert (Hs : exists k, do_set lib (a_set a) (XText s) n =
      (Ret tt, set_attributes (dset k (VRaw (XText s))) n) /\
      (a_get a = Get k \/ (exists d, a_get a = GetOr k d) \/ a_get a = GetItem k \/
       a_get a = GetOrRaise k \/ a_get a = GetUuid k \/ exists t, a_get a = GetTime k t)).
  { destruct (a_set a) as [k| | |k t|k| | |]; try discriminate; exists k;
      (split; [exact (run_store _ _ _ Hn)|]);
      destruct (a_get a); try discriminate; apply bool_decide_eq_true in Hr as <-; eauto 8. }
  destruct Hs as (k & Hs & Hg). exists k. split; [by rewrite (run_setattr name a)|].
  apply (run_getattr name a); [exact Ha|].
  rewrite (run_do_get _ k (VRaw (XText s))); [done|exact Hg|exact Hn| |done].
  apply dget_dset_eq.
Qed.

(** Text that is appended to the list of the attribute [k]. *)
Lemma appended_text cs k s n : hidden "cot_attributes" n = false ->
  do_set lib (SetChildOrAppend cs k) (XText s) n =
    match dget k (n_attributes n) with
    | Some (VRaw (XList l)) => (Ret tt, set_attributes (dset k (VRaw (XList (l ++ [XText s])))) n)
    | Some _ => (Exn AttributeError, n)
    | None => (Exn KeyError, n)
    end.
Proof.
  intros Hn. cbn [do_set]. rewrite (run_bind _ _ _ _ _ (run_cot_attributes n Hn)).
  destruct (dget k (n_attributes n)) as [[[]|]|]; try reflexivity. by apply run_store.
Qed.

(** Text that may only take the place of nothing or of text. *)
Definition replaces (a : accessor) : bool :=
  match a_set a, a_get a with
  | SetSameClass k, GetFirst (k' :: _) => bool_decide (k = "data" /\ k' = "data")
  | _, _ => false
  end.

Lemma replaced_text name a s n :
  find_accessor classes (n_class n) name = Some a -> replaces a = true ->
  hidden "cot_attributes" n = false ->
  setattr lib classes name (XText s) n =
    match dget "data" (n_attributes n) with
    | None | Some (VRaw (XNone | XText _)) => (Ret tt, set_attributes (dset "data" (VRaw (XText s))) n)
    | Some _ => (Exn External, n)
    end.
Proof.
  intros Ha Hr Hn. rewrite (run_setattr name a) by done. unfold replaces in Hr.
  destruct (a_set a) as [| | | | | | |k]; try done. destruct (a_get a) as [| | | | | | | |[|k' ks]]; try done.
  apply bool_decide_eq_true in Hr as [-> ->]. cbn [do_set].
  rewrite (run_bind _ _ _ _ _ (run_get_value "data" XNone n Hn)).
  destruct (dget "data" (n_attributes n)) as [[[]|]|]; cbn [gval_of]; try reflexivity; by apply run_store.
Qed.

Lemma replaced_text_read name a s n :
  find_accessor classes (n_class n) name = Some a -> replaces a = true ->
  hidden "cot_attributes" n = false ->
  let n' := set_attributes (dset "data" (VRaw (XText s))) n in
  getattr lib classes name n' = (Ret (Some (GRaw (XText s))), n').
Proof.
  intros Ha Hr Hn n'. apply (run_getattr name a); [done|]. unfold replaces in Hr.
  destruct (a_set a) as [| | | | | | |k]; try done. destruct (a_get a) as [| | | | | | | |[|k' ks]]; try done.
  apply bool_decide_eq_true in Hr as [-> ->]. cbn [do_get for_return].
  assert (E : get_value "data" XNone n' = (Ret (GRaw (XText s)), n')).
  { rewrite run_get_value by done. cbn [n' set_attributes n_attributes]. by rewrite dget_dset_eq. }
  rewrite (run_bind _ _ n' (Some (GRaw (XText s))) n'); [done|].
  rewrite (run_bind _ _ n' (Some (GRaw (XText s))) n'); [done|].
  by rewrite (run_bind _ _ _ _ _ E).
Qed.
End Accessors.

Lemma find_named {A} (f : A -> string) (l : list A) (x : A) :
  NoDup (f <$> l) -> x ∈ l -> List.find (fun y => bool_decide (f y = f x)) l = Some x.
Proof.
  induction l as [|y l IH]; [by intros _ ?%not_elem_of_nil|].
  rewrite fmap_cons, NoDup_cons, elem_of_cons. intros [Hy Hl] [<-|Hx]; simpl.
  - by rewrite bool_decide_eq_true_2.
  - rewrite bool_decide_eq_false_2; [by apply IH|].
    intros E. apply Hy. rewrite E. by apply list_elem_of_fmap_2.
Qed.

(** The classes of a domain and the properties of a class have names of their own. *)
Definition named_apart (D : list domain_class) : Prop :=
  NoDup (d_name <$> D) /\ Forall (fun d => NoDup (a_name <$> d_accessors d)) D.

Lemma find_accessor_of D d a :
  named_apart D -> d ∈ D -> a ∈ d_accessors d ->
  find_accessor D (d_name d) (a_name a) = Some a.
Proof.
  intros [HD Hd] Hin Ha. unfold find_accessor, accessors, find_class.
  rewrite (find_named d_name D d HD Hin). cbn [fmap option_fmap option_map default].
  apply (find_named a_name); [|exact Ha].
  exact (proj1 (Forall_forall _ _) Hd d Hin).
Qed.

Definition all_domains : list (list domain_class) := [domain; mission_domain; excheck_domain].

Lemma domains_named_apart D : D ∈ all_domains -> named_apart D.
Proof.
  intros HD.
  assert (H : Forall named_apart all_domains).
  { apply (bool_decide_unpack _). vm_compute. exact Logic.I. }
  exact (proj1 (Forall_forall _ _) H D HD).
Qed.

(** What becomes of text that is assigned to a property. *)
Inductive fate :=
  (** it can be read back *)
  | ReadsBack
  (** the setter recurses *)
  | Recurses
  (** only nodes are taken *)
  | TakesNodes
  (** it is appended to a list *)
  | Appends
  (** it takes the place of nothing or of text only *)
  | Replaces.

#[export] Instance fate_eq_dec : EqDecision fate.
Proof. solve_decision. Defined.

(** The properties of which something else than [ReadsBack] holds: the domain of the class
    (0 that of the core, 1 that of the missions, 2 that of the checklists), the class and
    the property. *)
Definition fates : list (nat * string * string * fate) :=
  [(0, "contact", "uid", Recurses); (0, "contact", "name", Recurses);
   (0, "link", "production_time", Recurses); (0, "remarks", "keywords", Recurses);
   (0, "remarks", "source", Recurses); (0, "remarks", "sourceID", Recurses);
   (0, "remarks", "time", Recurses);
   (0, "marti", "dest", TakesNodes); (0, "MissionChanges", "MissionChange", TakesNodes);
   (0, "MissionData", "externalData", TakesNodes); (0, "MissionData", "uids", TakesNodes);
   (0, "MissionData", "contents", TakesNodes); (1, "permissions", "permission", TakesNodes);
   (2, "MissionChanges", "MissionChange", TakesNodes);
   (2, "MissionData", "externalData", TakesNodes); (2, "MissionData", "contents", TakesNodes);
   (2, "MissionInfo", "data", TakesNodes);
   (0, "MissionInfo", "data", Appends); (0, "MissionInfoSingle", "data", Replaces)].

Definition fate_of (i : nat) (c name : string) : fate :=
  default ReadsBack (snd <$> List.find (fun p => bool_decide (p.1 = (i, c, name))) fates).

(** The accessor does so. *)
Definition fated (f : fate) (a : accessor) : bool :=
  match f with
  | ReadsBack => reads_back a
  | Recurses => assigns_itself a
  | TakesNodes => takes_nodes a
  | Appends => match a_set a with SetChildOrAppend _ k => bool_decide (k = "data") | _ => false end
  | Replaces => replaces a
  end.

Lemma domains_fated i D d a :
  all_domains !! i = Some D -> d ∈ D -> a ∈ d_accessors d -> fated (fate_of i (d_name d) (a_name a)) a = true.
Proof.
  intros HD Hd Ha.
  assert (H : Forall (fun p => Forall (fun d => Forall (fun a => fated (fate_of p.1 (d_name d) (a_name a)) a = true)
    (d_accessors d)) p.2) (imap pair all_domains)).
  { apply (bool_decide_unpack _). vm_compute. exact Logic.I. }
  rewrite Forall_forall in H. specialize (H (i, D)). cbn [fst snd] in H.
  assert (Hi : (i, D) ∈ imap pair all_domains) by (apply elem_of_lookup_imap; by exists i, D).
  specialize (H Hi). rewrite Forall_forall in H.
  specialize (H d Hd). rewrite Forall_forall in H. exact (H a Ha).
Qed.
