(* ===== verification/ConvertFacts.v ===== *)
(** What a conversion keeps: nodes that can be written, the documents a node holds and an
    element carries, and the relation between a node and what it is after it was read. *)
From Stdlib Require Import ZArith Lia Ascii String.
From stdpp Require Import base strings list sorting sets.
From S2P Require Import Prelude.
From S2P Require Import DomainNode.
From S2P Require Import DomainClasses.
From S2P Require Import DictToNode.
From S2P Require Import DomainFacts.

Set Default Proof Using "Type".
Local Open Scope list_scope.
Local Open Scope string_scope.
Local Open Scope py_scope.

(** * What an element carries *)

(** [carries e tag x]: the element has the tag and everything the document says. *)
Inductive carries : element -> string -> xval -> Prop :=
  | carries_dict e l :
      (forall k v, (k, v) ∈ l -> carried e k v) -> carries e (e_tag e) (XDict l)
  | carries_text e s : e_text e = Some s -> carries e (e_tag e) (XText s)
with carried : element -> string -> xval -> Prop :=
  | carried_text e s : e_text e = Some s -> carried e "#text" (XText s)
  | carried_attr e name s :
      dget name (e_attrib e) = Some s -> carried e ("@" +:+ name) (XText s)
  | carried_child e k v c : c ∈ e_children e -> carries c k v -> carried e k v
  | carried_children e k vs :
      (forall v, v ∈ vs -> exists c, c ∈ e_children e /\ carries c k v) ->
      carried e k (XList vs).

(** A name that is in a list of names. *)
Ltac own_name := apply (bool_decide_unpack _); exact Logic.I.

Section Facts.
Context (lib : library) (D : list domain_class).

(** * Reading a node *)

(** A value that was not there may have become text; all others stay. *)
Definition same_or_text (o o' : option aval) : Prop :=
  o' = o \/ ((o = None \/ o = Some (VRaw XNone)) /\ exists s, o' = Some (VRaw (XText s))).

Lemma same_or_text_trans o1 o2 o3 :
  same_or_text o1 o2 -> same_or_text o2 o3 -> same_or_text o1 o3.
Proof.
  unfold same_or_text. intros [->|[H1 [s ->]]] [->|[H2 [s' ->]]]; eauto.
Qed.

Lemma same_or_text_raw o o' x :
  same_or_text o o' -> o = Some (VRaw x) -> x <> XNone -> o' = Some (VRaw x).
Proof. intros [->|[[->| ->] _]] E Hx; congruence. Qed.

Lemma same_or_text_child o o' i : same_or_text o o' -> o = Some (VChild i) -> o' = Some (VChild i).
Proof. intros [->|[[->| ->] _]] E; congruence. Qed.

(** Reading a node only fills in such values. *)
Record read_of (n n' : node) : Prop := {
  ro_class : n_class n' = n_class n;
  ro_dict : n_dict n' = n_dict n;
  ro_children : n_children n' = n_children n;
  ro_xml : n_xml n' = n_xml n;
  ro_attributes : forall k, same_or_text (dget k (n_attributes n)) (dget k (n_attributes n')) }.

(** The same for a node whose children and [xml] may have changed. *)
Record grown (n n' : node) : Prop := {
  gr_class : n_class n' = n_class n;
  gr_dict : n_dict n' = n_dict n;
  gr_children : n_class <$> n_children n' = n_class <$> n_children n;
  gr_attributes : forall k, same_or_text (dget k (n_attributes n)) (dget k (n_attributes n')) }.

Lemma read_of_grown n n' : read_of n n' -> grown n n'.
Proof. intros [C Hd H X A]. split; try done. by rewrite H. Qed.

Lemma grown_length n n' : grown n n' -> length (n_children n') = length (n_children n).
Proof. intros [_ _ H _]. apply (f_equal length) in H. by rewrite !length_fmap in H. Qed.

(** Which children there are depends on their classes only. *)
Lemma grown_children_of cs n n' : grown n n' -> children_of cs n' = children_of cs n.
Proof. intros [_ _ H _]. unfold children_of. by rewrite H. Qed.

Lemma grown_trans n1 n2 n3 : grown n1 n2 -> grown n2 n3 -> grown n1 n3.
Proof.
  intros [C1 D1 H1 A1] [C2 D2 H2 A2]. split; try congruence.
  intros k. eapply same_or_text_trans; [apply A1|apply A2].
Qed.

#[global] Instance read_of_refl : Reflexive read_of.
Proof. split; try done. by left. Qed.

Lemma read_of_trans n1 n2 n3 : read_of n1 n2 -> read_of n2 n3 -> read_of n1 n3.
Proof.
  intros [C1 D1 H1 X1 A1] [C2 D2 H2 X2 A2]. split; try congruence.
  intros k. eapply same_or_text_trans; [apply A1|apply A2].
Qed.

(** The names under which [CoTNode] keeps what it needs are not taken. *)
Definition own_names (n : node) : Prop :=
  forall name, name ∈ ["cot_attributes"; "xml"; "get_properties"; "get_children_ex"] ->
    hidden name n = false.

(** The values are text, nothing, or nodes that are there. *)
Definition flat (n : node) : Prop :=
  forall k v, dget k (n_attributes n) = Some v ->
    match v with
    | VRaw (XText _) | VRaw XNone | VRaw (XList []) => True
    | VChild i => i < length (n_children n)
    | _ => False
    end.

(** A value that can be written. *)
Definition writable_value (n : node) (v : gval) : Prop :=
  match v with
  | GRaw (XText _) | GRaw XNone | GRaw (XList []) => True
  | GRaw _ => False
  | GNode i => i < length (n_children n)
  | GNodes l => Forall (fun i => i < length (n_children n)) l
  end.

(** The keys that are read without a default are there. *)
Definition getter_reads (n : node) (g : getter) : Prop :=
  match g with
  | GetItem k => is_Some (dget k (n_attributes n))
  | GetOr _ x => writable_value n (GRaw x)
  | _ => True
  end.

Definition readable (n : node) : Prop :=
  own_names n /\ flat n /\
  forall name a, find_accessor D (n_class n) name = Some a -> getter_reads n (a_get a).

Lemma writable_gval n v k :
  flat n -> dget k (n_attributes n) = Some v -> writable_value n (gval_of v).
Proof. intros Hf E. specialize (Hf k v E). by destruct v as [[| | |[]]|]. Qed.

Lemma grown_readable n n' : grown n n' -> readable n -> readable n'.
Proof.
  intros G (Ho & Hf & Hi). pose proof (grown_length _ _ G) as Hch. destruct G as [Hc Hd _ Ha].
  split; [|split].
  - intros name Hn. unfold hidden. rewrite Hd. by apply Ho.
  - intros k v E. destruct (Ha k) as [E'|[_ [s E']]]; rewrite E in E'.
    + rewrite Hch. by apply (Hf k).
    + injection E' as ->. exact Logic.I.
  - intros name a Hn. rewrite Hc in Hn. specialize (Hi name a Hn).
    destruct (a_get a) as [|k x|k| | | | | |]; try done.
    destruct (Ha k) as [E|[_ [s E]]]; unfold getter_reads; rewrite E; [exact Hi|by eexists].
Qed.

Lemma read_of_readable n n' : read_of n n' -> readable n -> readable n'.
Proof. intros H. by apply grown_readable, read_of_grown. Qed.

(** The property does not raise. *)
Definition answers (n : node) (g : getter) : Prop :=
  match g with
  | GetOrRaise k => exists v, dget k (n_attributes n) = Some v /\ v <> VRaw XNone
  | _ => True
  end.

Lemma grown_answers n n' g : grown n n' -> answers n g -> answers n' g.
Proof.
  intros [_ _ _ Ha]. destruct g as [| | |k| | | | |]; try done. intros (v & Hk & Hv).
  exists v. split; [|done]. destruct v as [x|i].
  - apply (same_or_text_raw _ _ _ (Ha k) Hk). congruence.
  - exact (same_or_text_child _ _ _ (Ha k) Hk).
Qed.

(** Reading raises nothing but [AttributeError], and that only where [E] holds; what it
    yields satisfies [Q]. *)
Definition reads_well {A} (m : M node A) (Q : node -> A -> Prop) (E : Prop) (n : node) : Prop :=
  match m n with
  | (Ret v, n') => read_of n n' /\ Q n' v
  | (Exn e, n') => read_of n n' /\ e = AttributeError /\ E
  end.

Lemma not_hidden n name :
  readable n -> name ∈ ["cot_attributes"; "xml"; "get_properties"; "get_children_ex"] ->
  hidden name n = false.
Proof. intros [H _]. apply H. Qed.

Lemma reads_well_ret {A} (v : A) (Q : node -> A -> Prop) E n : Q n v -> reads_well (mret v) Q E n.
Proof. by split. Qed.

Lemma reads_well_bind {A B} (m : M node A) (k : A -> M node B) Q R E n :
  reads_well m Q E n ->
  (forall v n', read_of n n' -> Q n' v -> reads_well (k v) R E n') ->
  reads_well (m ≫= k) R E n.
Proof.
  unfold reads_well. intros Hm Hk. cbv [mbind M_bind].
  destruct (m n) as [[v|e] n1]; [|exact Hm]. destruct Hm as [H1 HQ].
  specialize (Hk v n1 H1 HQ).
  destruct (k v n1) as [[w|e] n2]; destruct Hk as [H2 H3];
    (split; [by apply (read_of_trans _ n1)|done]).
Qed.

Lemma get_value_reads k x E n :
  readable n -> writable_value n (GRaw x) -> reads_well (get_value k x) writable_value E n.
Proof.
  intros Hr Hx. unfold reads_well.
  rewrite run_get_value by (apply not_hidden; [done|set_solver]).
  split; [reflexivity|]. destruct (dget k _) as [v|] eqn:Ek; [|exact Hx].
  exact (writable_gval n v k (proj1 (proj2 Hr)) Ek).
Qed.

Lemma store_reads k s E n :
  readable n -> (dget k (n_attributes n) = None \/ dget k (n_attributes n) = Some (VRaw XNone)) ->
  reads_well (store k (VRaw (XText s)) ;;; mret (GRaw (XText s))) writable_value E n.
Proof.
  intros Hr Hk. unfold reads_well.
  rewrite (run_bind _ _ _ _ _ (run_store _ _ _ (not_hidden n "cot_attributes" Hr ltac:(own_name)))).
  split; [|exact Logic.I]. split; try done.
  intros j. cbn [set_attributes n_attributes]. destruct (decide (j = k)) as [->|Hj].
  - rewrite dget_dset_eq. right. eauto.
  - rewrite dget_dset_ne by done. by left.
Qed.

Lemma get_children_reads cs E n :
  readable n -> reads_well (get_children cs) writable_value E n.
Proof.
  intros Hr. unfold reads_well, get_children. py_run.
  rewrite (not_hidden n "get_children_ex" Hr) by set_solver. split; [reflexivity|].
  unfold writable_value, children_of. apply Forall_forall. intros i Hi.
  apply list_elem_of_bind in Hi as (c & Hi & _). apply list_elem_of_omap in Hi as ([j d] & Hj & Ej).
  case_bool_decide; [|done]. injection Ej as <-.
  apply elem_of_lookup_imap in Hj as (j' & d' & [= -> ->] & Hl).
  apply lookup_lt_Some in Hl. by rewrite length_fmap in Hl.
Qed.

Lemma do_get_reads g n :
  readable n -> getter_reads n g ->
  reads_well (do_get lib g) writable_value (~ answers n g) n.
Proof.
  intros Hr Hg.
  assert (Hv : forall k E, reads_well (get_value k XNone) writable_value E n).
  { intros k E. by apply get_value_reads. }
  destruct g as [k|k x|k|k|k t|k|cs|cs k|ks]; cbn [do_get].
  - apply Hv.
  - by apply get_value_reads.
  - destruct Hg as [v Hv']. unfold reads_well.
    rewrite (run_bind _ _ _ _ _ (run_cot_attributes n (not_hidden n "cot_attributes" Hr ltac:(own_name)))), Hv'.
    split; [reflexivity|]. exact (writable_gval n v k (proj1 (proj2 Hr)) Hv').
  - pose proof (run_get_value k XNone n (not_hidden n "cot_attributes" Hr ltac:(own_name))) as E.
    unfold reads_well, answers. rewrite (run_bind _ _ _ _ _ E).
    destruct (dget k (n_attributes n)) as [v|] eqn:Ek;
      [|split; [reflexivity|split; [done|]]; by intros (v & [= ] & _)].
    pose proof (writable_gval n v k (proj1 (proj2 Hr)) Ek) as Hw.
    destruct v as [[]|]; (split; [reflexivity|try exact Hw]).
    split; [done|]. by intros (v & [= <-] & ?).
  - pose proof (run_get_value k XNone n (not_hidden n "cot_attributes" Hr ltac:(own_name))) as E.
    destruct (dget k (n_attributes n)) as [v|] eqn:Ek.
    + destruct v as [[]|]; unfold reads_well; rewrite (run_bind _ _ _ _ _ E);
        first [apply (store_reads k); auto | split; [reflexivity|];
          exact (writable_gval n _ k (proj1 (proj2 Hr)) Ek)].
    + unfold reads_well. rewrite (run_bind _ _ _ _ _ E). apply (store_reads k); auto.
  - pose proof (run_cot_attributes n (not_hidden n "cot_attributes" Hr ltac:(own_name))) as E.
    unfold reads_well. rewrite (run_bind _ _ _ _ _ E).
    destruct (dget k (n_attributes n)) as [v|] eqn:Ek.
    + split; [reflexivity|]. exact (writable_gval n v k (proj1 (proj2 Hr)) Ek).
    + apply (store_reads k); auto.
  - by apply get_children_reads.
  - eapply reads_well_bind; [by apply get_children_reads|]. intros v n' Hn Hw.
    destruct v as [| |[]]; try (by apply reads_well_ret).
    by apply get_value_reads; [apply (read_of_readable n)|].
  - eapply (reads_well_bind _ _ (fun n' o => forall v, o = Some v -> writable_value n' v)).
    + clear Hg. generalize (~ answers n (GetFirst ks)). intros E. revert n Hr Hv.
      induction ks as [|k ks IH]; intros n Hr Hv; [by apply reads_well_ret|].
      cbn [for_return].
      eapply (reads_well_bind _ _ (fun n' o => forall v, o = Some v -> writable_value n' v)).
      * eapply reads_well_bind; [apply Hv|]. intros v n' _ Hw. apply reads_well_ret.
        intros w. destruct v as [[]| |]; intros [= <-]; exact Hw.
      * intros [v|] n' Hn Hw; [by apply reads_well_ret|].
        apply IH; [by apply (read_of_readable n)|].
        intros k' E'. apply get_value_reads; [by apply (read_of_readable n)|exact Logic.I].
    + intros [v|] n' _ Hw; apply reads_well_ret; [by apply Hw|exact Logic.I].
Qed.


Definition some_writable (n : node) (o : option gval) : Prop :=
  exists v, o = Some v /\ writable_value n v.

Lemma getattr_reads name a n :
  readable n -> find_accessor D (n_class n) name = Some a ->
  reads_well (getattr lib D name) some_writable (~ answers n (a_get a)) n.
Proof.
  intros Hr Ha. unfold getattr, reads_well. rewrite (run_bind (gets id) _ n n n eq_refl), Ha.
  apply (reads_well_bind (do_get lib (a_get a)) _ writable_value).
  - by apply do_get_reads, (proj2 (proj2 Hr) name).
  - intros v n' _ Hv. apply reads_well_ret. by exists v.
Qed.

(** Reading with a default always answers. *)
Lemma getattr_or_none_reads name a n :
  readable n -> find_accessor D (n_class n) name = Some a ->
  exists o n', getattr_or_none lib D name n = (Ret o, n') /\ read_of n n' /\
    some_writable n' o /\ (o = Some (GRaw XNone) \/ answers n' (a_get a)).
Proof.
  intros Hr Ha. pose proof (getattr_reads name a n Hr Ha) as H.
  unfold getattr_or_none, try_with. unfold reads_well in H.
  destruct (getattr lib D name n) as [[o|e] n'] eqn:E; destruct H as [Hn H].
  - exists o, n'. split; [done|]. split; [done|]. split; [done|].
    destruct (a_get a) as [| | |k| | | | |] eqn:Eg; try (by right).
    pose proof (run_get_value k XNone n (not_hidden n "cot_attributes" Hr ltac:(own_name))) as E1.
    right. apply (grown_answers n); [by apply read_of_grown|].
    unfold getattr in E. rewrite (run_bind (gets id) _ n n n eq_refl) in E.
    rewrite Ha, Eg in E. cbn [do_get] in E.
    unfold answers. destruct (dget k (n_attributes n)) as [[[]|]|] eqn:Ek; try by eexists.
    + cbv [mbind M_bind] in E. rewrite E1 in E. discriminate.
    + cbv [mbind M_bind] in E. rewrite E1 in E. discriminate.
  - destruct H as [-> _]. rewrite decide_True by done. eexists _, n'. split; [reflexivity|].
    split; [done|]. split; [by exists (GRaw XNone)|by left].
Qed.

(** * What is there to be read *)

Definition get_of (g : getter) (k : string) : Prop :=
  g = Get k \/ (exists d, g = GetOr k d) \/ g = GetItem k \/ g = GetOrRaise k \/ g = GetUuid k \/
  exists t, g = GetTime k t.

(** The property of the name shows this value. *)
Definition shows (n : node) (name : string) (v : aval) : Prop :=
  exists a k, find_accessor D (n_class n) name = Some a /\ a_cot a = true /\
    get_of (a_get a) k /\ dget k (n_attributes n) = Some v /\ v <> VRaw XNone.

Lemma shows_getattr n name v :
  shows n name v -> hidden "cot_attributes" n = false ->
  getattr lib D name n = (Ret (Some (gval_of v)), n).
Proof.
  intros (a & k & Ha & _ & Hg & Hk & Hv) Hn. apply (run_getattr lib D name a); [done|].
  by apply (run_do_get lib _ k v).
Qed.

Lemma shows_grown n n' name v : grown n n' -> shows n name v -> shows n' name v.
Proof.
  intros [Hc _ _ Ha] (a & k & Hf & Hcot & Hg & Hk & Hv). exists a, k. rewrite Hc.
  repeat split; try done. destruct v as [x|i].
  - apply (same_or_text_raw _ _ _ (Ha k) Hk). congruence.
  - exact (same_or_text_child _ _ _ (Ha k) Hk).
Qed.

(** The property of the name leads to the child with this position. *)
Definition leads (n : node) (name : string) (i : nat) : Prop :=
  shows n name (VChild i) \/
  exists a cs, find_accessor D (n_class n) name = Some a /\ a_cot a = true /\
    a_get a = GetChildren cs /\ i ∈ children_of cs n.

Lemma leads_getattr n name i :
  leads n name i -> readable n -> exists g, getattr lib D name n = (Ret (Some g), n) /\
    (g = GNode i \/ exists l, g = GNodes l /\ i ∈ l).
Proof.
  intros [H|(a & cs & Ha & _ & Hg & Hi)] Hr.
  - eexists. split; [|by left]. apply (shows_getattr n name (VChild i)); [done|].
    exact (not_hidden n "cot_attributes" Hr ltac:(own_name)).
  - exists (GNodes (children_of cs n)). split; [|right; by eexists].
    apply (run_getattr lib D name a); [done|]. rewrite Hg. cbn [do_get]. unfold get_children.
    py_run. by rewrite (not_hidden n "get_children_ex" Hr ltac:(own_name)).
Qed.

Lemma leads_grown n n' name i : grown n n' -> leads n name i -> leads n' name i.
Proof.
  intros G [H|(a & cs & Ha & Hc & Hg & Hi)]; [left; by apply (shows_grown n)|right].
  exists a, cs. by rewrite (gr_class _ _ G), (grown_children_of cs n n' G).
Qed.

(** The property of the name has something to write. *)
Definition visible (n : node) (name : string) : Prop :=
  (exists v, shows n name v) \/ exists i, leads n name i.

Lemma visible_grown n n' name : grown n n' -> visible n name -> visible n' name.
Proof.
  intros G [[v H]|[i H]]; [left; exists v; by apply (shows_grown n)|].
  right. exists i. by apply (leads_grown n).
Qed.

Lemma visible_getattr n name :
  visible n name -> readable n ->
  exists g, getattr lib D name n = (Ret (Some g), n) /\ g <> GRaw XNone.
Proof.
  intros [[v H]|[i H]] Hr.
  - exists (gval_of v). split.
    + apply (shows_getattr n name v); [done|].
      exact (not_hidden n "cot_attributes" Hr ltac:(own_name)).
    + destruct H as (_ & _ & _ & _ & _ & _ & Hv). by destruct v as [[]|].
  - destruct (leads_getattr n name i H Hr) as (g & E & [->|(l & -> & _)]); by eexists.
Qed.

Lemma find_accessor_name c name a :
  find_accessor D c name = Some a -> a ∈ accessors D c /\ a_name a = name.
Proof.
  intros H. apply List.find_some in H as [H1 H2]. apply bool_decide_eq_true in H2.
  split; [by apply list_elem_of_In|done].
Qed.

Lemma elem_of_cot_names c name a :
  find_accessor D c name = Some a -> a_cot a = true -> name ∈ cot_names D c.
Proof.
  intros [Ha <-]%find_accessor_name Hc. unfold cot_names. rewrite merge_sort_Permutation.
  apply list_elem_of_fmap_2, list_elem_of_filter. done.
Qed.

Lemma cot_names_found c name :
  name ∈ cot_names D c -> exists a, find_accessor D c name = Some a.
Proof.
  unfold cot_names. rewrite merge_sort_Permutation. intros H.
  apply list_elem_of_fmap in H as (a & -> & Ha). apply list_elem_of_filter in Ha as [_ Ha].
  unfold find_accessor. destruct (List.find _ _) as [b|] eqn:E; [by exists b|].
  pose proof (List.find_none _ _ E a (proj1 (list_elem_of_In _ _) Ha)) as Hb.
  by apply bool_decide_eq_false in Hb.
Qed.

Lemma visible_cot_names n name : visible n name -> name ∈ cot_names D (n_class n).
Proof.
  intros [[v (a & k & Ha & Hc & _)]|[i [(a & k & Ha & Hc & _)|(a & cs & Ha & Hc & _)]]];
    by apply (elem_of_cot_names _ _ a).
Qed.

Lemma present_reads l n :
  readable n -> (forall name, name ∈ l -> exists a, find_accessor D (n_class n) name = Some a) ->
  exists names n', present lib D l n = (Ret names, n') /\ read_of n n' /\
    (forall name, name ∈ names ->
       exists a, find_accessor D (n_class n) name = Some a /\ answers n' (a_get a)) /\
    (forall name, visible n name -> name ∈ l -> name ∈ names).
Proof.
  revert n. induction l as [|x l IH]; intros n Hr Hfound.
  { exists [], n. split; [done|]. split; [reflexivity|]. set_solver. }
  destruct (Hfound x ltac:(set_solver)) as [a Ha].
  destruct (getattr_or_none_reads x a n Hr Ha) as (o & n1 & E1 & H1 & Ho & Hans).
  destruct (IH n1) as (names & n2 & E2 & H2 & Hl & Hs).
  { by apply (read_of_readable n). }
  { intros name Hn. rewrite (ro_class _ _ H1). apply Hfound. set_solver. }
  cbn [present]. rewrite (run_bind _ _ _ _ _ E1), (run_bind _ _ _ _ _ E2).
  eexists _, n2. split; [reflexivity|]. split; [by apply (read_of_trans _ n1)|]. split.
  - intros name Hn. rewrite <- (ro_class _ _ H1).
    assert (Hx : name = x /\ o <> Some (GRaw XNone) \/ name ∈ names).
    { destruct o as [[[]| |]|]; set_solver. }
    destruct Hx as [[-> Ho']|Hx]; [|by apply Hl]. exists a. rewrite (ro_class _ _ H1).
    split; [done|]. destruct Hans as [?|Hans]; [done|].
    by apply (grown_answers n1); [apply read_of_grown|].
  - intros name Hv Hn. apply elem_of_cons in Hn as [->|Hn].
    + destruct (visible_getattr n x Hv Hr) as (g & E & Hg).
      unfold getattr_or_none, try_with in E1. rewrite E in E1. injection E1 as <- _.
      destruct g as [[]| |]; first [by destruct Hg | set_solver].
    + specialize (Hs name (visible_grown _ _ _ (read_of_grown _ _ H1) Hv) Hn).
      destruct o as [[[]| |]|]; set_solver.
Qed.

Lemma get_properties_reads n :
  readable n -> exists names n', get_properties lib D n = (Ret names, n') /\ read_of n n' /\
    (forall name, name ∈ names ->
       exists a, find_accessor D (n_class n) name = Some a /\ answers n' (a_get a)) /\
    (forall name, visible n name -> name ∈ names).
Proof.
  intros Hr. unfold get_properties.
  rewrite (run_bind (gets (hidden "get_properties")) _ n false n)
    by (unfold gets; by rewrite (not_hidden n "get_properties" Hr) by set_solver).
  cbv iota. rewrite (run_bind (gets id) _ n n n eq_refl). cbn [id].
  destruct (present_reads (cot_names D (n_class n)) n Hr (cot_names_found _))
    as (names & n' & E & Hn & Hl & Hs).
  exists names, n'. split; [exact E|]. split; [done|].
  split; [exact Hl|]. intros name Hv. apply (Hs name Hv). by apply visible_cot_names.
Qed.
End Facts.
