(* ===== verification/WriteFacts.v ===== *)
(** Writing a node: [_serialize_node] of a node whose values are text and nodes answers
    with an element that carries every document the node holds. *)
From Stdlib Require Import ZArith Lia Ascii String.
From stdpp Require Import base strings list sorting sets.
From S2P Require Import Prelude.
From S2P Require Import DomainNode.
From S2P Require Import DomainClasses.
From S2P Require Import DictToNode.
From S2P Require Import DomainFacts.
From S2P Require Import ConvertFacts.

Set Default Proof Using "Type".
Local Open Scope list_scope.
Local Open Scope string_scope.
Local Open Scope py_scope.

Section Write.
Context (lib : library) (D : list domain_class).

(** * The text of a node *)

Definition text_of (n : node) : option string :=
  match find_accessor D (n_class n) "text" with
  | Some a =>
      match a_get a with
      | Get k => match dget k (n_attributes n) with Some (VRaw (XText s)) => Some s | _ => None end
      | _ => None
      end
  | None => match dget "text" (n_dict n) with Some (XText s) => Some s | _ => None end
  end.

(** It is text or [None], and there is no [xml_string]. *)
Definition text_ok (n : node) : Prop :=
  match find_accessor D (n_class n) "text" with
  | Some a => exists k, a_get a = Get k /\
      match dget k (n_attributes n) with
      | Some (VRaw (XText _)) | Some (VRaw XNone) | None => True
      | _ => False
      end
  | None =>
      match dget "text" (n_dict n) with Some (XText _) | Some XNone => True | _ => False end
  end /\ find_accessor D (n_class n) "xml_string" = None /\ hidden "xml_string" n = false.

Inductive good : node -> Prop :=
  | good_node n :
      readable D n -> text_ok n -> (forall i c, n_children n !! i = Some c -> good c) -> good n.

Lemma good_readable n : good n -> readable D n.
Proof. intros H. destruct H as [n Hr _ _]. exact Hr. Qed.
Hint Resolve good_readable : py.

Lemma run_change_xml f n :
  readable D n -> change_xml f n = (Ret tt, set_xml f n).
Proof.
  intros Hr. unfold change_xml. py_run. by rewrite (not_hidden D n "xml" Hr ltac:(own_name)).
Qed.

Lemma getattr_text n :
  readable D n -> text_ok n ->
  getattr lib D "text" n =
  (Ret (Some (GRaw match text_of n with Some s => XText s | None => XNone end)), n).
Proof.
  intros Hr [Ht _]. unfold text_of. unfold getattr.
  rewrite (run_bind (gets id) _ n n n eq_refl). cbn [id].
  destruct (find_accessor D (n_class n) "text") as [a|].
  - destruct Ht as (k & Hg & Hk). rewrite Hg. cbn [do_get].
    rewrite (run_bind _ _ _ _ _
      (run_get_value k XNone n (not_hidden D n "cot_attributes" Hr ltac:(own_name)))).
    by destruct (dget k (n_attributes n)) as [[[]|]|].
  - by destruct (dget "text" (n_dict n)) as [[]|].
Qed.

Lemma run_write_text n :
  readable D n -> text_ok n ->
  write_text lib D n = (Ret tt, set_xml (set_text (text_of n)) n).
Proof.
  intros Hr Ht. pose proof (getattr_text n Hr Ht) as E. unfold write_text.
  assert (Eh : hasattr lib D "text" n = (Ret true, n)).
  { unfold hasattr, try_with. by rewrite (run_bind _ _ _ _ _ E). }
  rewrite (run_bind _ _ _ _ _ Eh). cbv iota. rewrite (run_bind _ _ _ _ _ E).
  by destruct (text_of n); apply run_change_xml.
Qed.

Context (no_merge : node_attr lib "xml_string" = false).

Lemma run_xml_string n :
  find_accessor D (n_class n) "xml_string" = None -> hidden "xml_string" n = false ->
  hasattr lib D "xml_string" n = (Ret false, n).
Proof using no_merge.
  intros Ha Hh. unfold hasattr, try_with, getattr, hidden in *. py_run. cbn [id]. rewrite Ha.
  destruct (dget "xml_string" (n_dict n)); [discriminate|].
  rewrite no_merge. reflexivity.
Qed.

(** * The documents a node holds *)

Inductive holds : xval -> node -> Prop :=
  | holds_dict l n : (forall k v, (k, v) ∈ l -> holds_entry k v n) -> holds (XDict l) n
with holds_entry : string -> xval -> node -> Prop :=
  | holds_text s n : text_of n = Some s -> holds_entry "#text" (XText s) n
  | holds_attr name s n :
      shows D n name (VRaw (XText s)) -> holds_entry ("@" +:+ name) (XText s) n
  | holds_child k v i c n :
      leads D n k i -> n_children n !! i = Some c ->
      x_tag (n_xml c) = k -> holds v c -> holds_entry k v n
  | holds_foreign k v e n :
      Foreign e ∈ x_items (n_xml n) -> carries e k v -> holds_entry k v n
  | holds_foreigns k vs n :
      (forall v, v ∈ vs -> exists e, Foreign e ∈ x_items (n_xml n) /\ carries e k v) ->
      holds_entry k (XList vs) n.

(** What may happen to a node while its parent is written. *)
Record evolves (c c' : node) : Prop := {
  ev_good : good c';
  ev_class : n_class c' = n_class c;
  ev_tag : x_tag (n_xml c') = x_tag (n_xml c);
  ev_depth : depth c' = depth c;
  ev_holds : forall v, holds v c -> holds v c' }.

Definition carried_by (c c' : node) : Prop :=
  forall v, holds v c -> carries (xml_of c') (x_tag (n_xml c)) v.

Lemma evolves_refl c : good c -> evolves c c.
Proof. by split. Qed.

Lemma evolves_trans c1 c2 c3 : evolves c1 c2 -> evolves c2 c3 -> evolves c1 c3.
Proof. intros [] []. split; try congruence; auto. Qed.

(** * The loop over the properties *)

Context (str_text : forall s, str_of lib (XText s) = s).
Context (no_private : forall c name a, find_accessor D c name = Some a -> is_private name = false).

(** The element of the child is below that of the node and carries what the child held. *)
Definition kept (m : node) (i : nat) (c : node) : Prop :=
  exists c', n_children m !! i = Some c' /\ carried_by c c' /\ ChildXml i ∈ x_items (n_xml m).

(** The node [n0] when the properties of [done] have been written. *)
Record written (n0 : node) (done : list string) (m : node) : Prop := {
  w_grown : grown n0 m;
  w_tag : x_tag (n_xml m) = x_tag (n_xml n0);
  w_text : x_text (n_xml m) = x_text (n_xml n0);
  w_children : forall i c, n_children n0 !! i = Some c ->
    exists c', n_children m !! i = Some c' /\ evolves c c';
  w_foreign : forall e, Foreign e ∈ x_items (n_xml n0) -> Foreign e ∈ x_items (n_xml m);
  w_attr : forall name s, name ∈ done -> shows D n0 name (VRaw (XText s)) ->
    dget name (x_attrib (n_xml m)) = Some s;
  w_child : forall name i c, name ∈ done -> leads D n0 name i ->
    n_children n0 !! i = Some c -> kept m i c }.

Lemma written_start n : (forall i c, n_children n !! i = Some c -> good c) -> written n [] n.
Proof.
  intros Hg. split; try done.
  - apply read_of_grown. reflexivity.
  - intros i c Hi. exists c. split; [done|]. apply evolves_refl. by apply (Hg i).
  - intros name s Hn. by apply not_elem_of_nil in Hn.
  - intros name i c Hn. by apply not_elem_of_nil in Hn.
Qed.

Lemma written_read n0 done m m' : read_of m m' -> written n0 done m -> written n0 done m'.
Proof.
  intros H [G T X C F A K]. pose proof H as [_ _ Hc Hx _].
  split; unfold kept; rewrite ?Hx, ?Hc; try done.
  by apply (grown_trans _ m); [|apply read_of_grown].
Qed.

Lemma elem_of_append_child i it x :
  it ∈ x_items x \/ it = ChildXml i -> it ∈ x_items (append_child i x).
Proof.
  intros H. unfold append_child. cbn [x_items]. apply elem_of_app.
  destruct (is_child i it) eqn:E.
  - right. destruct it as [e|j]; [done|]. apply bool_decide_eq_true in E as ->. by left.
  - destruct H as [H|H].
    + left. apply list_elem_of_In, List.filter_In. rewrite E.
      split; [by apply list_elem_of_In|done].
    + subst it. cbn in E. by rewrite bool_decide_eq_true_2 in E.
Qed.

Definition writes (fuel : nat) : Prop :=
  forall c, good c -> depth c <= fuel ->
    exists c', serialize_node lib D fuel c = (Ret tt, c') /\ evolves c c' /\ carried_by c c'.

Section Loop.
Context (fuel : nat) (IH : writes fuel).
Context (n0 : node) (readable0 : readable D n0).
Context (shallow : forall i c, n_children n0 !! i = Some c -> depth c <= fuel).

Lemma written_append done m name a i :
  find_accessor D (n_class n0) name = Some a -> i < length (n_children n0) -> written n0 done m ->
  exists m', append_node name i (serialize_node lib D fuel) m = (Ret tt, m') /\
    written n0 done m' /\
    forall j d, n_children n0 !! j = Some d -> j = i \/ kept m j d -> kept m' j d.
Proof using IH no_private readable0 shallow.
  intros Ha Hi W. pose proof W as [G T X C F A K].
  destruct (lookup_lt_is_Some_2 _ _ Hi) as [c Hc].
  destruct (C i c Hc) as (c1 & Hc1 & E1).
  destruct (IH c1) as (c2 & R & E2 & B2).
  { by apply ev_good in E1. }
  { rewrite (ev_depth _ _ E1). by apply (shallow i). }
  assert (B : carried_by c c2).
  { intros v Hv. rewrite <- (ev_tag _ _ E1). apply B2, (ev_holds _ _ E1), Hv. }
  set (m1 := set_children (<[i := c2]>) m).
  assert (G1 : grown n0 m1).
  { destruct G as [? ? Hcl ?]. split; [done..| |done]. unfold m1. cbn [set_children n_children].
    rewrite list_fmap_insert, list_insert_id; [done|].
    by rewrite list_lookup_fmap, Hc1, (ev_class _ _ E2). }
  exists (set_xml (append_child i) m1). split.
  { unfold append_node.
    rewrite (run_bind _ _ _ _ m1) by (unfold in_child; rewrite Hc1, R; reflexivity).
    rewrite (no_private _ _ _ Ha). rewrite (run_bind _ _ m1 tt m1 eq_refl).
    apply run_change_xml. by apply (grown_readable D n0). }
  assert (L : n_children m1 !! i = Some c2).
  { cbn. apply list_lookup_insert_eq. by apply lookup_lt_Some in Hc1. }
  assert (Hk : forall j d, n_children n0 !! j = Some d -> j = i \/ kept m j d ->
    kept (set_xml (append_child i) m1) j d).
  { intros j d Hd [->|(d' & Hd' & Bd & Hx)].
    - replace d with c by congruence. exists c2. split; [exact L|]. split; [done|].
      apply elem_of_append_child. by right.
    - destruct (decide (j = i)) as [->|Hj].
      + replace d with c by congruence. exists c2. split; [exact L|]. split; [done|].
        apply elem_of_append_child. by right.
      + exists d'. split; [cbn; by rewrite list_lookup_insert_ne|]. split; [done|].
        apply elem_of_append_child. by left. }
  split; [|exact Hk].
  split; [by destruct G1|exact T|exact X| | |exact A|].
  - intros j d Hd. cbn. destruct (decide (j = i)) as [->|Hj].
    + replace d with c by congruence. exists c2. split; [exact L|].
      by apply (evolves_trans _ c1).
    + rewrite list_lookup_insert_ne by done. exact (C j d Hd).
  - intros e He. apply elem_of_append_child. left. exact (F e He).
  - intros nm j d Hn Hs Hd. apply Hk; [done|]. right. by apply (K nm).
Qed.

(** Names more that show nothing of their own. *)
Lemma written_more done m name :
  written n0 done m ->
  (forall s, shows D n0 name (VRaw (XText s)) -> dget name (x_attrib (n_xml m)) = Some s) ->
  (forall i c, leads D n0 name i -> n_children n0 !! i = Some c -> kept m i c) ->
  written n0 (name :: done) m.
Proof.
  intros [G T X C F A K] Hs Hc. split; try done.
  - intros nm s [->|Hn]%elem_of_cons; [apply Hs|by apply A].
  - intros nm i c [->|Hn]%elem_of_cons; [apply Hc|by apply K].
Qed.

Lemma written_appends done m name a l :
  find_accessor D (n_class n0) name = Some a ->
  Forall (fun i => i < length (n_children n0)) l -> written n0 done m ->
  exists m', for_each l (fun i => append_node name i (serialize_node lib D fuel)) m = (Ret tt, m') /\
    written n0 done m' /\
    forall j d, n_children n0 !! j = Some d -> j ∈ l \/ kept m j d -> kept m' j d.
Proof using IH no_private readable0 shallow.
  intros Ha Hl. revert m. induction Hl as [|i l Hi _ IHl]; intros m W.
  { exists m. split; [done|]. split; [done|]. intros j d _ [H|H]; [|done].
    by apply not_elem_of_nil in H. }
  destruct (written_append done m name a i Ha Hi W) as (m1 & E1 & W1 & K1).
  destruct (IHl m1 W1) as (m2 & E2 & W2 & K2). exists m2. split; [|split; [done|]].
  - cbn [for_each]. by rewrite (run_bind _ _ _ _ _ E1).
  - intros j d Hd Hj. apply (K2 j d Hd). rewrite elem_of_cons in Hj.
    destruct Hj as [[Hj|Hj]|Hj]; [right|by left|right]; apply (K1 j d Hd); auto.
Qed.

(** What a name shows is what is read. *)
Lemma shows_read done m name v o m' :
  written n0 done m -> shows D n0 name v -> getattr lib D name m = (Ret o, m') ->
  o = Some (gval_of v).
Proof using readable0.
  intros W Hv E. apply (shows_grown D n0 m) in Hv; [|by destruct W].
  pose proof (grown_readable D n0 m (w_grown _ _ _ W) readable0) as Hr.
  rewrite (shows_getattr lib D m name v Hv (not_hidden D m "cot_attributes" Hr ltac:(own_name))) in E.
  by injection E as <- _.
Qed.

(** What a name leads to is read. *)
Lemma leads_read done m name i o m' :
  written n0 done m -> leads D n0 name i -> getattr lib D name m = (Ret o, m') ->
  o = Some (GNode i) \/ exists l, o = Some (GNodes l) /\ i ∈ l.
Proof using readable0.
  intros W Hv E. apply (leads_grown D n0 m) in Hv; [|by destruct W].
  pose proof (grown_readable D n0 m (w_grown _ _ _ W) readable0) as Hr.
  destruct (leads_getattr lib D m name i Hv Hr) as (g & E' & Hg). rewrite E' in E.
  injection E as <- _. destruct Hg as [->|(l & -> & Hi)]; [by left|right; by exists l].
Qed.

Lemma write_property_step done m name a :
  find_accessor D (n_class n0) name = Some a -> answers n0 (a_get a) -> written n0 done m ->
  exists m', write_property lib D (serialize_node lib D fuel) name m = (Ret tt, m') /\
    written n0 (name :: done) m'.
Proof using IH no_merge no_private readable0 shallow str_text.
  intros Ha Hans W. pose proof (w_grown _ _ _ W) as G.
  pose proof (grown_readable D n0 m G readable0) as Hr.
  pose proof (getattr_reads lib D name a m Hr) as Hg. rewrite (gr_class _ _ G) in Hg.
  specialize (Hg Ha). unfold reads_well in Hg. unfold write_property.
  destruct (getattr lib D name m) as [[o|e] m1] eqn:E.
  2:{ destruct Hg as (_ & _ & []). by apply (grown_answers n0). }
  destruct Hg as (H1 & v & -> & Hv). rewrite (run_bind _ _ _ _ _ E).
  pose proof (written_read _ _ _ _ H1 W) as W1.
  assert (L : length (n_children m1) = length (n_children n0)).
  { rewrite (ro_children _ _ H1). by apply grown_length. }
  assert (Hs := fun w Hw => shows_read done m name w _ _ W Hw E).
  assert (Hl := fun i Hw => leads_read done m name i _ _ W Hw E).
  destruct v as [[|s| |[]]|i|l]; try contradiction; cbn [writable_value] in Hv.
  - eexists. split; [reflexivity|]. apply written_more; [done| |].
    + intros s Hw. by specialize (Hs _ Hw).
    + intros i c Hw. by destruct (Hl _ Hw) as [|(? & ? & _)].
  - unfold write_attribute. rewrite (no_private _ _ _ Ha), str_text.
    rewrite run_change_xml by (by apply (grown_readable D n0); [apply (w_grown _ _ _ W1)|]).
    eexists. split; [reflexivity|]. destruct W1 as [G1 T1 X1 C1 F1 A1 K1].
    split; [by destruct G1|done..| |].
    + intros nm s' Hn Hw. cbn. destruct (decide (nm = name)) as [->|Hne].
      * specialize (Hs _ Hw). injection Hs as <-. apply dget_dset_eq.
      * rewrite dget_dset_ne by done. apply A1; [set_solver|done].
    + intros nm i c [->|Hn]%elem_of_cons Hw; [by destruct (Hl _ Hw) as [|(? & ? & _)]|by apply (K1 nm)].
  - eexists. split; [reflexivity|]. apply written_more; [done| |].
    + intros s Hw. by specialize (Hs _ Hw).
    + intros i c Hw. by destruct (Hl _ Hw) as [|(? & ? & _)].
  - rewrite L in Hv. destruct (written_append done m1 name a i Ha Hv W1) as (m2 & E2 & W2 & B).
    exists m2. split; [exact E2|]. apply written_more; [done| |].
    + intros s Hw. by specialize (Hs _ Hw).
    + intros j c Hw Hj. destruct (Hl _ Hw) as [[= ->]|(? & ? & _)]; [|done]. apply (B j c Hj).
      by left.
  - rewrite L in Hv. destruct (written_appends done m1 name a l Ha Hv W1) as (m2 & E2 & W2 & B).
    exists m2. split; [exact E2|]. apply written_more; [done| |].
    + intros s Hw. by specialize (Hs _ Hw).
    + intros j c Hw Hj. destruct (Hl _ Hw) as [?|(l' & [= <-] & Hjl)]; [done|].
      apply (B j c Hj). by left.
Qed.

Lemma write_properties names done m :
  (forall name, name ∈ names ->
     exists a, find_accessor D (n_class n0) name = Some a /\ answers n0 (a_get a)) ->
  written n0 done m ->
  exists m', for_each names (write_property lib D (serialize_node lib D fuel)) m = (Ret tt, m') /\
    written n0 (rev names ++ done)%list m'.
Proof using IH no_merge no_private readable0 shallow str_text.
  revert done m. induction names as [|name names IHn]; intros done m Hn W; [by exists m|].
  destruct (Hn name ltac:(set_solver)) as (a & Ha & Hans).
  destruct (write_property_step done m name a Ha Hans W) as (m1 & E1 & W1).
  destruct (IHn (name :: done) m1) as (m2 & E2 & W2); [set_solver|done|].
  exists m2. split; [cbn [for_each]; by rewrite (run_bind _ _ _ _ _ E1)|].
  cbn [rev]. by rewrite <- app_assoc.
Qed.
End Loop.

(** * Nodes *)

Lemma grown_text n n' :
  grown n n' -> text_ok n -> text_ok n' /\ forall s, text_of n = Some s -> text_of n' = Some s.
Proof.
  intros [C Hd _ A] [Ht Hx]. unfold text_ok, text_of, hidden in *. rewrite C, Hd.
  destruct (find_accessor D (n_class n) "text") as [a|]; [|by split].
  destruct Ht as (k & Hg & Hk). rewrite Hg. destruct (A k) as [E|[Hn [s E]]]; rewrite E.
  - split; [|done]. split; [|done]. exists k. by rewrite E.
  - split; [|by destruct Hn as [->| ->]]. split; [|done]. exists k. by rewrite E.
Qed.

Lemma depth_children n n' :
  length (n_children n') = length (n_children n) ->
  (forall i c c', n_children n !! i = Some c -> n_children n' !! i = Some c' -> depth c' = depth c) ->
  depth n' = depth n.
Proof.
  intros Hl Hc. destruct n as [c1 a1 d1 ch x1], n' as [c2 a2 d2 ch' x2]. cbn in *.
  assert (E : List.map depth ch' = List.map depth ch); [|by rewrite E].
  change (depth <$> ch' = depth <$> ch). apply list_eq. intros i. rewrite !list_lookup_fmap.
  destruct (ch !! i) as [u|] eqn:Hu.
  - assert (Hi : i < length ch') by (rewrite Hl; by apply lookup_lt_Some in Hu).
    destruct (lookup_lt_is_Some_2 _ _ Hi) as [u' Hu']. rewrite Hu'. cbn. f_equal. by apply (Hc i).
  - assert (Hu' : ch' !! i = None); [|by rewrite Hu'].
    apply lookup_ge_None. rewrite Hl. by apply lookup_ge_None.
Qed.

Lemma depth_child n i c : n_children n !! i = Some c -> depth c < depth n.
Proof.
  destruct n as [c1 a1 d1 ch x1]. cbn. intros H.
  assert (depth c <= max_list (List.map depth ch)); [|lia].
  apply max_list_elem_of_le. by apply list_elem_of_fmap_2, (list_elem_of_lookup_2 _ i).
Qed.

Lemma elem_of_xml_of i c n :
  n_children n !! i = Some c -> ChildXml i ∈ x_items (n_xml n) -> xml_of c ∈ e_children (xml_of n).
Proof.
  destruct n as [c1 a1 d1 ch x1]. cbn. intros H Hi. apply list_elem_of_omap.
  exists (ChildXml i). split; [done|]. apply list_lookup_fmap_Some. by exists c.
Qed.

Lemma elem_of_xml_foreign e n : Foreign e ∈ x_items (n_xml n) -> e ∈ e_children (xml_of n).
Proof.
  destruct n as [c1 a1 d1 ch x1]. cbn. intros H. apply list_elem_of_omap. by exists (Foreign e).
Qed.

Lemma xml_of_fields n :
  e_tag (xml_of n) = x_tag (n_xml n) /\ e_text (xml_of n) = x_text (n_xml n) /\
  e_attrib (xml_of n) = x_attrib (n_xml n).
Proof. by destruct n. Qed.

Lemma good_inv n :
  good n -> readable D n /\ text_ok n /\ forall i c, n_children n !! i = Some c -> good c.
Proof. intros H. by destruct H. Qed.

Lemma holds_inv v n :
  holds v n -> exists l, v = XDict l /\ forall k v, (k, v) ∈ l -> holds_entry k v n.
Proof. intros H. destruct H as [l n H]. by exists l. Qed.

(** A node that has been written holds what it held, and its element carries it. *)
Lemma written_evolves n0 done m :
  good n0 -> written n0 done m -> evolves n0 m.
Proof.
  intros Hgood W. pose proof W as [G T X C F _ _].
  destruct (good_inv n0 Hgood) as (Hr & Ht & Hg). split.
  - split; [by apply (grown_readable D n0)|by apply (grown_text n0)|].
    intros i c' Hc'. assert (Hi : i < length (n_children n0)).
    { rewrite <- (grown_length _ _ G). by apply lookup_lt_Some in Hc'. }
    destruct (lookup_lt_is_Some_2 _ _ Hi) as [c Hc]. destruct (C i c Hc) as (c2 & Hc2 & Ev).
    replace c' with c2 by congruence. by destruct Ev.
  - by destruct G.
  - exact T.
  - apply depth_children; [by apply grown_length|]. intros i c c' Hc Hc'.
    destruct (C i c Hc) as (c2 & Hc2 & Ev). replace c' with c2 by congruence. by destruct Ev.
  - intros v (l & -> & He)%holds_inv. constructor. intros k v Hkv.
    specialize (He k v Hkv). inversion He; subst.
    + constructor. by apply (grown_text n0).
    + constructor. by apply (shows_grown D n0).
    + destruct (C i c) as (c2 & Hc2 & Ev); [done|].
      apply (holds_child _ _ i c2); [by apply (leads_grown D n0)|done| |by apply Ev].
      by rewrite (ev_tag _ _ Ev).
    + apply (holds_foreign _ _ e); auto.
    + constructor. intros v Hin. destruct (H v Hin) as (e & ? & ?). exists e. auto.
Qed.

(** Reading a node before it is written, and its text. *)
Lemma read_evolves c c' :
  good c -> grown c c' -> n_children c' = n_children c -> x_tag (n_xml c') = x_tag (n_xml c) ->
  x_items (n_xml c') = x_items (n_xml c) -> evolves c c'.
Proof.
  intros (Hr & Ht & Hg)%good_inv G Hc T X. split.
  - split; [by apply (grown_readable D c)|by apply (grown_text c)|by rewrite Hc].
  - by destruct G.
  - exact T.
  - apply depth_children; [by rewrite Hc|]. rewrite Hc. intros i d d' ? ?. congruence.
  - intros v (l & -> & He)%holds_inv. constructor. intros key v Hkv. specialize (He key v Hkv).
    inversion He; subst.
    + constructor. by apply (grown_text c).
    + constructor. by apply (shows_grown D c).
    + apply (holds_child _ _ i c0); try done; [by apply (leads_grown D c)|by rewrite Hc].
    + apply (holds_foreign _ _ e); [by rewrite X|done].
    + constructor. intros v Hv. destruct (H v Hv) as (e & ? & ?). exists e. by rewrite X.
Qed.

Lemma written_carries c n0 done m :
  grown c n0 -> n_children n0 = n_children c -> x_tag (n_xml n0) = x_tag (n_xml c) ->
  x_items (n_xml n0) = x_items (n_xml c) -> x_text (n_xml n0) = text_of c ->
  (forall name, visible D c name -> name ∈ done) -> written n0 done m -> carried_by c m.
Proof.
  intros Gc Hc Tc Xc Htext Hdone [G T X C F A K] v (l & -> & He)%holds_inv.
  destruct (xml_of_fields m) as (E1 & E2 & E3). rewrite <- Tc, <- T, <- E1. constructor.
  intros key v Hkv. specialize (He key v Hkv). inversion He; subst.
  - constructor. congruence.
  - constructor. rewrite E3. apply A; [apply Hdone; left; by eexists|by apply (shows_grown D c)].
  - edestruct K as (c2 & Hc2 & B & Hi);
      [apply Hdone; right; by eexists|by apply (leads_grown D c)|by rewrite Hc|].
    apply (carried_child _ _ _ (xml_of c2)); [by apply (elem_of_xml_of i)|by apply B].
  - apply (carried_child _ _ _ e); [apply elem_of_xml_foreign, F; by rewrite Xc|done].
  - constructor. intros v Hv. destruct (H v Hv) as (e & Hin & Hce). exists e.
    split; [apply elem_of_xml_foreign, F; by rewrite Xc|done].
Qed.

(** [_serialize_node] answers within the depth of the node. *)
Lemma write_node fuel : writes fuel.
Proof using no_merge no_private str_text.
  induction fuel as [|fuel IH]; intros c Hgood Hd.
  { destruct c. cbn in Hd. lia. }
  destruct (good_inv c Hgood) as (Hr & Ht & Hg).
  set (c1 := set_xml (set_text (text_of c)) c).
  assert (Hr1 : readable D c1) by exact Hr.
  destruct (get_properties_reads lib D c1 Hr1) as (names & c2 & E2 & H2 & Hn & Hs).
  assert (Gc : grown c c2).
  { apply (grown_trans c c1); [|by apply read_of_grown]. split; [done..|]. by left. }
  assert (Hx : n_xml c2 = n_xml c1) by by destruct H2.
  assert (Ev : evolves c c2).
  { apply read_evolves; try done; [by destruct H2|by rewrite Hx..]. }
  pose proof (ev_good _ _ Ev) as Hg2.
  destruct (write_properties fuel IH c2 (good_readable c2 Hg2)) with (names := names)
    (done := @nil string) (m := c2) as (m & E3 & W).
  { intros i d Hi. rewrite (ro_children _ _ H2) in Hi.
    pose proof (depth_child c i d Hi). lia. }
  { intros name Hin. rewrite (ro_class _ _ H2). by apply Hn. }
  { apply written_start. by destruct (good_inv c2 Hg2) as (_ & _ & ?). }
  assert (Hm : text_ok m) by (apply (grown_text c2); [by destruct W|by destruct (good_inv c2 Hg2) as (_ & ? & _)]).
  exists m. split; [|split].
  - cbn [serialize_node].
    rewrite (run_bind (gets (hidden "xml")) _ c false c)
      by (unfold gets; by rewrite (not_hidden D c "xml" Hr ltac:(own_name))).
    cbv iota. rewrite (run_bind (mret tt) _ c tt c eq_refl).
    rewrite (run_bind _ _ _ _ _ (run_write_text c Hr Ht)), (run_bind _ _ _ _ _ E2),
      (run_bind _ _ _ _ _ E3).
    by rewrite (run_bind _ _ _ _ _ (run_xml_string m (proj1 (proj2 Hm)) (proj2 (proj2 Hm)))).
  - apply (evolves_trans _ c2); [done|by apply (written_evolves c2 (rev names ++ []))].
  - apply (written_carries c c2 (rev names ++ [])); try done; [by destruct H2|by rewrite Hx..|].
    intros name Hv. rewrite app_nil_r. apply list_elem_of_In, in_rev.
    rewrite rev_involutive. apply list_elem_of_In. apply (Hs name).
    apply (visible_grown D c); [|done]. split; [done..|]. by left.
Qed.
End Write.
