(* ===== verification/FillFacts.v ===== *)
(** Filling a node from a document: a document all of whose entries have a place in the
    node is held by it afterwards. *)
From Stdlib Require Import ZArith Lia Ascii String.
From stdpp Require Import base strings list sorting sets.
From S2P Require Import Prelude.
From S2P Require Import DomainNode.
From S2P Require Import DomainClasses.
From S2P Require Import DictToNode.
From S2P Require Import DomainFacts.
From S2P Require Import ConvertFacts.
From S2P Require Import WriteFacts.

Set Default Proof Using "Type".
Local Open Scope list_scope.
Local Open Scope string_scope.
Local Open Scope py_scope.

(** * Classes whose properties do not get in each other's way *)

Definition set_key (a : accessor) : option string :=
  match a_set a with SetValue k | SetTime k _ | SetUuid k => Some k | _ => None end.

(** Setters write different keys; no name is private or has an "@" at an end; the text is
    a plain property. *)
Record well_formed (D : list domain_class) : Prop := {
  wf_keys : forall c x y a b k, find_accessor D c x = Some a -> find_accessor D c y = Some b ->
    set_key a = Some k -> set_key b = Some k -> x = y;
  wf_private : forall c x a, find_accessor D c x = Some a -> is_private x = false;
  wf_at : forall c x, find_accessor D c ("@" +:+ x) = None;
  wf_strip : forall c x a, find_accessor D c x = Some a ->
    strip_at ("@" +:+ x) = x /\ strip_at x = x;
  wf_text : forall c a, find_accessor D c "text" = Some a ->
    exists k, a_get a = Get k /\ set_key a = Some k }.

Definition starts_at (s : string) : bool :=
  match s with String "@"%char _ => true | _ => false end.

(** The same as a test of the tables. *)
Definition class_well_formed (d : domain_class) : bool :=
  bool_decide (NoDup (omap set_key (d_accessors d))) &&
  forallb (fun a =>
    negb (is_private (a_name a)) && negb (starts_at (a_name a)) &&
    bool_decide (strip_at ("@" +:+ a_name a) = a_name a) &&
    bool_decide (strip_at (a_name a) = a_name a) &&
    (if bool_decide (a_name a = "text") then
       match a_get a, set_key a with Get k, Some k' => bool_decide (k = k') | _, _ => false end
     else true)) (d_accessors d).

Lemma find_accessor_class D c x a :
  find_accessor D c x = Some a -> exists d, d ∈ D /\ accessors D c = d_accessors d /\
    a ∈ d_accessors d /\ a_name a = x.
Proof.
  intros H. destruct (find_accessor_name D c x a H) as [Ha Hx]. unfold accessors in *.
  destruct (find_class D c) as [d|] eqn:E; [|by apply not_elem_of_nil in Ha].
  apply List.find_some in E as [Hd _]. exists d. split; [by apply list_elem_of_In|done].
Qed.

Lemma omap_NoDup_same {A} (f : A -> option string) (l : list A) x y k :
  NoDup (omap f l) -> x ∈ l -> y ∈ l -> f x = Some k -> f y = Some k -> x = y.
Proof.
  induction l as [|z l IH]; [by intros _ ?%not_elem_of_nil|]. cbn [omap list_omap].
  intros Hn Hx Hy Ex Ey. apply elem_of_cons in Hx, Hy.
  destruct Hx as [->|Hx], Hy as [->|Hy]; [done|..].
  - rewrite Ex in Hn. apply NoDup_cons in Hn as [Hn _]. destruct Hn.
    apply list_elem_of_omap. by exists y.
  - rewrite Ey in Hn. apply NoDup_cons in Hn as [Hn _]. destruct Hn.
    apply list_elem_of_omap. by exists x.
  - apply IH; try done. destruct (f z); [by apply NoDup_cons in Hn as [_ Hn]|done].
Qed.

Lemma tables_well_formed D : forallb class_well_formed D = true -> well_formed D.
Proof.
  intros H.
  assert (Hd : forall c x a, find_accessor D c x = Some a -> exists d, accessors D c = d_accessors d /\
    a ∈ d_accessors d /\ a_name a = x /\ class_well_formed d = true).
  { intros c x a Ha. destruct (find_accessor_class D c x a Ha) as (d & Hd & E & Hin & Hx).
    exists d. repeat split; try done. rewrite forallb_forall in H. by apply H, list_elem_of_In. }
  assert (Ha : forall c x a, find_accessor D c x = Some a ->
    is_private x = false /\ starts_at x = false /\
    (strip_at ("@" +:+ x) = x /\ strip_at x = x) /\
    (x = "text" -> exists k, a_get a = Get k /\ set_key a = Some k)).
  { intros c x a Hf. destruct (Hd c x a Hf) as (d & _ & Hin & <- & Hw).
    apply andb_prop in Hw as [_ Hw]. rewrite forallb_forall in Hw.
    specialize (Hw a (proj1 (list_elem_of_In _ _) Hin)).
    apply andb_prop in Hw as [[[[Hp Hat]%andb_prop Hs1]%andb_prop Hs2]%andb_prop Ht].
    apply negb_true_iff in Hp, Hat. apply bool_decide_eq_true in Hs1, Hs2.
    repeat split; try done. intros Hx. rewrite bool_decide_eq_true_2 in Ht by done.
    destruct (a_get a) as [k| | | | | | | |]; try done. destruct (set_key a); [|done].
    apply bool_decide_eq_true in Ht as <-. by exists k. }
  split.
  - intros c x y a b k Hx Hy Ka Kb. destruct (Hd c x a Hx) as (d & E & Hin & <- & Hw).
    destruct (Hd c y b Hy) as (d' & E' & Hin' & <- & _). rewrite E in E'. rewrite <- E' in Hin'.
    apply andb_prop in Hw as [Hw _]. apply bool_decide_eq_true in Hw.
    by rewrite (omap_NoDup_same set_key _ a b k Hw).
  - intros c x a Hx. by destruct (Ha c x a Hx).
  - intros c x. destruct (find_accessor D c _) as [a|] eqn:E; [|done].
    by destruct (Ha c _ a E) as (_ & Hs & _).
  - intros c x a Hx. by destruct (Ha c x a Hx) as (_ & _ & Hs & _).
  - intros c a Hx. destruct (Ha c _ a Hx) as (_ & _ & _ & Ht). by apply Ht.
Qed.

Lemma domain_well_formed : well_formed domain.
Proof. apply tables_well_formed. vm_compute. reflexivity. Qed.

(** Induction over documents. *)
Lemma xval_ind' (P : xval -> Prop) :
  P XNone -> (forall s, P (XText s)) ->
  (forall l, (forall k v, (k, v) ∈ l -> P v) -> P (XDict l)) ->
  (forall l, (forall v, v ∈ l -> P v) -> P (XList l)) -> forall x, P x.
Proof.
  intros H1 H2 H3 H4. fix IH 1. intros [|s|l|l]; [exact H1|apply H2|apply H3|apply H4].
  - assert (H : Forall (fun p => P p.2) l).
    { induction l as [|p l IHl]; constructor; [apply IH|exact IHl]. }
    intros k v. exact (proj1 (Forall_forall _ _) H (k, v)).
  - apply (proj1 (Forall_forall _ _)).
    induction l as [|v l IHl]; constructor; [apply IH|exact IHl].
Qed.

Section Fill.
Context (lib : library) (D : list domain_class).

(** * Documents that have a place in a node *)

(** No class of the node has an attribute of this name. *)
Definition unknown (n : node) (k : string) : Prop :=
  k <> "#text" /\ find_accessor D (n_class n) (strip_at k) = None /\
  dget (strip_at k) (n_dict n) = None /\ strip_at k <> "text" /\
  (strip_at k ∉ cot_node_attrs) /\ node_attr lib (strip_at k) = false.

(** The child a document of this name is put in. *)
Inductive enters (n : node) (name : string) (i : nat) : Prop :=
  | enters_value a key :
      find_accessor D (n_class n) name = Some a -> a_cot a = true ->
      (a_get a = Get key \/ a_get a = GetOrRaise key) ->
      dget key (n_attributes n) = Some (VChild i) -> enters n name i
  | enters_first a cs :
      find_accessor D (n_class n) name = Some a -> a_cot a = true ->
      a_get a = GetChildren cs -> head (children_of cs n) = Some i -> enters n name i.

Lemma head_elem {A} (l : list A) x : head l = Some x -> x ∈ l.
Proof. destruct l; [done|]. intros [= ->]. by left. Qed.

Lemma enters_leads n name i : enters n name i -> leads D n name i.
Proof.
  intros [a key Ha Hc Hg Hk|a cs Ha Hc Hg Hi].
  - left. exists a, key. split; [done|]. split; [done|]. split; [|by split].
    destruct Hg as [->| ->]; [by left|by right; right; right; left].
  - right. exists a, cs. split; [done|]. split; [done|]. split; [done|]. by apply head_elem.
Qed.

Lemma enters_found n name i : enters n name i -> exists a, find_accessor D (n_class n) name = Some a.
Proof. intros [a ? ? _ _ _|a ? ? _ _ _]; by exists a. Qed.

Inductive fits : xval -> node -> Prop :=
  | fits_dict l n :
      NoDup l.*1 -> (forall k v, (k, v) ∈ l -> fits_entry k v n) -> fits (XDict l) n
with fits_entry : string -> xval -> node -> Prop :=
  | fits_text s n : fits_entry "#text" (XText s) n
  | fits_attr name s a k n :
      name <> "text" -> find_accessor D (n_class n) name = Some a -> a_cot a = true ->
      set_key a = Some k -> get_of (a_get a) k -> a_get a <> GetOrRaise k ->
      hidden ("@" +:+ name) n = false ->
      (forall i, dget k (n_attributes n) <> Some (VChild i)) ->
      fits_entry ("@" +:+ name) (XText s) n
  | fits_child name l i c n :
      enters n name i -> n_children n !! i = Some c ->
      x_tag (n_xml c) = name -> name <> "#text" -> fits (XDict l) c ->
      fits_entry name (XDict l) n
  | fits_foreign k l e n :
      unknown n k -> dict_to_element lib k (XDict l) = Ret e -> carries e k (XDict l) ->
      fits_entry k (XDict l) n
  | fits_foreigns k vs n :
      unknown n k ->
      (forall v, v ∈ vs -> exists e, dict_to_element lib k v = Ret e /\ carries e k v) ->
      fits_entry k (XList vs) n.

(** One turn of the loop of [serialize]. *)
Definition entry (kv : string * xval) : M node unit :=
  add_value_to_node lib D kv.1 kv.2 (serialize lib D kv.2 ;;; mret tt)
    match kv.2 with
    | XList vs => List.map (fun v => serialize lib D v ;;; mret tt) vs
    | _ => []
    end.

Lemma serialize_dict l :
  serialize lib D (XDict l) =
    (try: (for_each (List.map entry l) id ;;; mret true) except: mret false).
Proof. reflexivity. Qed.

(** An entry that has been put in its place: [n] is the node before, [m] the node now. *)
Inductive placed (n m : node) : string -> xval -> Prop :=
  | placed_text s : text_of D m = Some s -> placed n m "#text" (XText s)
  | placed_attr name s a k :
      name <> "text" -> find_accessor D (n_class n) name = Some a -> a_cot a = true ->
      set_key a = Some k -> get_of (a_get a) k ->
      dget k (n_attributes m) = Some (VRaw (XText s)) -> placed n m ("@" +:+ name) (XText s)
  | placed_child name l i c c' :
      enters n name i -> n_children n !! i = Some c ->
      x_tag (n_xml c) = name -> n_children m !! i = Some c' -> x_tag (n_xml c') = name ->
      holds D (XDict l) c' -> placed n m name (XDict l)
  | placed_foreign k v e :
      Foreign e ∈ x_items (n_xml m) -> carries e k v -> placed n m k v
  | placed_foreigns k vs :
      (forall v, v ∈ vs -> exists e, Foreign e ∈ x_items (n_xml m) /\ carries e k v) ->
      placed n m k (XList vs).

(** The node [n] when the entries of [done] have been put in it. *)
Record filled (n : node) (done : list (string * xval)) (m : node) : Prop := {
  fi_class : n_class m = n_class n;
  fi_tag : x_tag (n_xml m) = x_tag (n_xml n);
  fi_dict : forall j, j <> "text" -> dget j (n_dict m) = dget j (n_dict n);
  fi_good : good D m;
  fi_classes : n_class <$> n_children m = n_class <$> n_children n;
  fi_keys : forall key i, dget key (n_attributes n) = Some (VChild i) ->
    dget key (n_attributes m) = Some (VChild i);
  fi_children : forall i c, n_children n !! i = Some c -> x_tag (n_xml c) ∉ done.*1 ->
    n_children m !! i = Some c;
  fi_placed : forall k v, (k, v) ∈ done -> placed n m k v }.

Lemma filled_start n : good D n -> filled n [] n.
Proof. intros H. split; try done. intros k v Hk. by apply not_elem_of_nil in Hk. Qed.

Lemma filled_length n done m : filled n done m -> length (n_children m) = length (n_children n).
Proof.
  intros F. pose proof (f_equal length (fi_classes _ _ _ F)) as H. by rewrite !length_fmap in H.
Qed.

Lemma filled_enters n done m name i : filled n done m -> enters n name i -> enters m name i.
Proof.
  intros F [a key Ha Hc Hg Hk|a cs Ha Hc Hg Hi].
  - apply (enters_value _ _ _ a key); [by rewrite (fi_class _ _ _ F)|done..|].
    by apply (fi_keys _ _ _ F).
  - apply (enters_first _ _ _ a cs); [by rewrite (fi_class _ _ _ F)|done..|].
    revert Hi. unfold children_of. by rewrite (fi_classes _ _ _ F).
Qed.

Lemma placed_holds n done m k v :
  filled n done m -> placed n m k v -> holds_entry D k v m.
Proof.
  intros F. destruct 1 as [s Ht|name s a k Hn Ha Hc Hs Hg Hk|name l i c c' He Hi Ht Hi' Ht' Hl|k v e|k vs].
  - by constructor.
  - constructor. exists a, k. rewrite (fi_class _ _ _ F). repeat split; try done.
  - apply (holds_child _ _ _ i c'); try done. by apply enters_leads, (filled_enters n done).
  - by apply (holds_foreign _ _ _ e).
  - by constructor.
Qed.

(** An entry more. *)
Lemma filled_more n done m k v :
  filled n done m -> placed n m k v -> filled n (done ++ [(k, v)]) m.
Proof.
  intros [C T Hd G L K Ch P] H. split; try done.
  - intros i c Hi Hn. apply Ch; [done|]. rewrite fmap_app in Hn. set_solver.
  - intros k' v' [Hin|[= -> ->]%list_elem_of_singleton]%elem_of_app; [by apply P|done].
Qed.

Lemma filled_read n done m m' : read_of m m' -> filled n done m -> filled n done m'.
Proof.
  intros R [C T Hd G L K Ch P]. pose proof R as [RC RD RCh RX RA].
  assert (Ev : evolves D m m').
  { apply read_evolves; try done; [by apply read_of_grown|by rewrite RX..]. }
  split; try congruence.
  - intros j Hj. rewrite RD. by apply Hd.
  - by destruct Ev.
  - intros key i Hk. exact (same_or_text_child _ _ _ (RA key) (K key i Hk)).
  - intros i c Hi Hn. rewrite RCh. by apply Ch.
  - intros k v Hkv. destruct (P k v Hkv) as [s Ht|name s a k0 Hn Ha Hc Hs Hg Hk|name l i c c' He Hi Ht Hi' Ht' Hl|k0 v0 e He|k0 vs He].
    + constructor. destruct (good_inv D m G) as (_ & Htx & _).
      by apply (grown_text D m); [apply read_of_grown| |].
    + apply (placed_attr _ _ _ _ a k0); try done.
      by apply (same_or_text_raw _ _ _ (RA k0) Hk).
    + apply (placed_child _ _ _ _ i c c'); try done. by rewrite RCh.
    + apply (placed_foreign _ _ _ _ e); [by rewrite RX|done].
    + constructor. by rewrite RX.
Qed.

Context (wf : well_formed D).
(** [CoTNode] sets [self.text] itself. *)
Context (text_settable : node_setattr lib "text" = None).

(** Text stored by a setter. *)
Lemma store_good m name a k s :
  good D m -> find_accessor D (n_class m) name = Some a -> set_key a = Some k ->
  good D (set_attributes (dset k (VRaw (XText s))) m).
Proof.
  intros ((Ho & Hf & Hg) & Ht & Hc)%good_inv Ha Hk. split; [split; [exact Ho|split]| |exact Hc].
  - intros j v. cbn [n_attributes set_attributes]. destruct (decide (j = k)) as [->|Hj].
    + rewrite dget_dset_eq. by intros [= <-].
    + rewrite dget_dset_ne by done. apply Hf.
  - intros nm b Hb. specialize (Hg nm b Hb). destruct (a_get b) as [|j x|j| | | | | |]; try done.
    cbn [getter_reads n_attributes set_attributes] in *. destruct (decide (j = k)) as [->|Hj].
    + rewrite dget_dset_eq. by eexists.
    + by rewrite dget_dset_ne.
  - destruct Ht as [Ht Hx]. split; [|exact Hx]. cbn [n_class set_attributes n_attributes n_dict].
    destruct (find_accessor D (n_class m) "text") as [b|]; [|done].
    destruct Ht as (j & Hj & Hv). exists j. split; [done|].
    destruct (decide (j = k)) as [->|Hne]; [by rewrite dget_dset_eq|by rewrite dget_dset_ne].
Qed.

Lemma text_of_store m name a k s :
  name <> "text" -> find_accessor D (n_class m) name = Some a -> set_key a = Some k ->
  text_of D (set_attributes (dset k (VRaw (XText s))) m) = text_of D m.
Proof using wf.
  intros Hn Ha Hk. unfold text_of. cbn [n_class set_attributes n_attributes n_dict].
  destruct (find_accessor D (n_class m) "text") as [b|] eqn:Eb; [|done].
  destruct (wf_text D wf _ _ Eb) as (j & Hj & Hs). rewrite Hj.
  rewrite dget_dset_ne; [done|]. intros ->. apply Hn. symmetry.
  by apply (wf_keys D wf _ _ _ _ _ _ Eb Ha Hs).
Qed.

Lemma filled_store n done m name a k s :
  filled n done m -> find_accessor D (n_class n) name = Some a -> set_key a = Some k ->
  (forall i, dget k (n_attributes n) <> Some (VChild i)) ->
  (name = "text" -> "#text" ∉ done.*1) -> (name <> "text" -> ("@" +:+ name) ∉ done.*1) ->
  filled n done (set_attributes (dset k (VRaw (XText s))) m).
Proof using wf.
  intros [C T Hd G L K Ch P] Ha Hk Hnc Hnt Hna.
  assert (Ham : find_accessor D (n_class m) name = Some a) by by rewrite C.
  split; [exact C|exact T|exact Hd| |exact L| |exact Ch|].
  - by apply (store_good _ name a).
  - intros key i Hi. cbn. rewrite dget_dset_ne; [by apply K|]. intros ->. by apply (Hnc i).
  - intros k' v' Hkv. assert (Hin : k' ∈ done.*1) by by apply (list_elem_of_fmap_2 fst) in Hkv.
    destruct (P k' v' Hkv) as [s' Ht|nm s' b j Hn Hb Hc Hs Hg Hj|nm l i c c' H1 H2 H3 H4 H5 H6|j v0 e He|j vs He].
    + constructor. rewrite (text_of_store m name a); [done| |done|done].
      intros ->. by apply Hnt.
    + apply (placed_attr _ _ _ _ b j); try done. cbn. rewrite dget_dset_ne; [done|].
      intros ->. pose proof (wf_keys D wf _ _ _ _ _ _ Ha Hb Hk Hs) as <-. by apply Hna.
    + by apply (placed_child _ _ _ _ i c c').
    + by apply (placed_foreign _ _ _ _ e).
    + by constructor.
Qed.

(** Text kept on the instance, of a class without a property for it. *)
Lemma filled_text n done m s :
  filled n done m -> find_accessor D (n_class n) "text" = None -> "#text" ∉ done.*1 ->
  filled n done (set_dict (dset "text" (XText s)) m).
Proof.
  intros [C T Hd G L K Ch P] Ha Hn.
  assert (Hdict : forall j, j <> "text" ->
    dget j (dset "text" (XText s) (n_dict m)) = dget j (n_dict m)).
  { intros j Hj. by apply dget_dset_ne. }
  split; [exact C|exact T| | |exact L|exact K|exact Ch|].
  - intros j Hj. cbn. rewrite Hdict by done. by apply Hd.
  - destruct (good_inv D m G) as ((Ho & Hf & Hg) & [Ht [Hx Hx']] & Hc).
    split; [split; [|by split]| |exact Hc].
    + intros name Hin. unfold hidden. cbn. rewrite Hdict; [by apply Ho|].
      intros ->. revert Hin. apply (bool_decide_unpack _). exact Logic.I.
    + unfold text_ok, hidden in *. cbn [n_class n_dict set_dict n_attributes].
      rewrite C, Ha, dget_dset_eq, Hdict by done. rewrite C in Hx. done.
  - intros k v Hkv. assert (Hin : k ∈ done.*1) by by apply (list_elem_of_fmap_2 fst) in Hkv.
    destruct (P k v Hkv) as [s' Ht| | | |]; [done|by econstructor..].
Qed.

Lemma filled_child n done m name i c c' l :
  filled n done m -> enters n name i -> n_children n !! i = Some c ->
  n_children m !! i = Some c -> x_tag (n_xml c) = name -> name ∉ done.*1 ->
  good D c' -> n_class c' = n_class c -> x_tag (n_xml c') = name -> holds D (XDict l) c' ->
  filled n (done ++ [(name, XDict l)]) (set_children (<[i := c']>) m).
Proof.
  clear wf text_settable. intros [C T Hd G L K Ch P] He Hi Him Htag Hn Hc' Hcl Htag' Hl.
  assert (Hlt : i < length (n_children m)) by by apply lookup_lt_Some in Him.
  split; [exact C|exact T|exact Hd| | |exact K| |].
  - destruct (good_inv D m G) as ((Ho & Hf & Hg) & Ht & Hc). split; [split; [exact Ho|split]|exact Ht|].
    + intros k v Hk. specialize (Hf k v Hk). destruct v; [done|]. cbn. by rewrite length_insert.
    + intros nm b Hb. specialize (Hg nm b Hb). by destruct (a_get b).
    + intros j d. cbn. destruct (decide (j = i)) as [->|Hj].
      * rewrite list_lookup_insert_eq by done. by intros [= <-].
      * rewrite list_lookup_insert_ne by done. apply Hc.
  - cbn [set_children n_children]. rewrite list_fmap_insert, list_insert_id; [done|].
    by rewrite list_lookup_fmap, Him, Hcl.
  - intros j d Hj Hnd. cbn. rewrite fmap_app in Hnd. rewrite list_lookup_insert_ne.
    + apply Ch; [done|]. set_solver.
    + intros ->. apply Hnd. apply elem_of_app. right. cbn. apply list_elem_of_singleton. congruence.
  - intros k v [Hkv|[= -> ->]%list_elem_of_singleton]%elem_of_app.
    + assert (Hin : k ∈ done.*1) by by apply (list_elem_of_fmap_2 fst) in Hkv.
      destruct (P k v Hkv) as [s Ht|nm s b j H1 H2 H3 H4 H5 H6|nm l0 j d d' H4 H5 H6 H7 H8 H9|k0 v0 e He'|k0 vs He'].
      * by constructor.
      * by apply (placed_attr _ _ _ _ b j).
      * apply (placed_child _ _ _ _ j d d'); try done. cbn.
        rewrite list_lookup_insert_ne; [done|]. intros ->. apply Hn. congruence.
      * by apply (placed_foreign _ _ _ _ e).
      * by constructor.
    + apply (placed_child _ _ _ _ i c c'); try done. cbn.
      by apply list_lookup_insert_eq.
Qed.

Lemma filled_foreign n done m e :
  filled n done m -> filled n done (set_xml (append_element e) m).
Proof.
  intros [C T Hd G L K Ch P].
  split; [exact C|exact T|exact Hd| |exact L|exact K|exact Ch|].
  - destruct (good_inv D m G) as (Hr & Ht & Hc). by split.
  - intros k v Hkv.
    destruct (P k v Hkv) as [s Ht|nm s b j H1 H2 H3 H4 H5 H6|nm l0 j d d' H4 H5 H6 H7 H8 H9|k0 v0 e' He|k0 vs He].
    + by constructor.
    + by apply (placed_attr _ _ _ _ b j).
    + by apply (placed_child _ _ _ _ j d d').
    + apply (placed_foreign _ _ _ _ e'); [|done]. cbn. apply elem_of_app. by left.
    + constructor. intros v Hv. destruct (He v Hv) as (e' & ? & ?). exists e'.
      split; [|done]. cbn. apply elem_of_app. by left.
Qed.

(** * One entry *)

Definition fills (v : xval) : Prop :=
  forall c, fits v c -> good D c -> exists c', serialize lib D v c = (Ret true, c') /\
    good D c' /\ n_class c' = n_class c /\ x_tag (n_xml c') = x_tag (n_xml c) /\ holds D v c'.

Lemma add_known k v whole parts m m' :
  k <> "#text" -> hasattr lib D (strip_at k) m = (Ret true, m') ->
  add_value_to_node lib D k v whole parts m =
  (current <- getattr_or_none lib D k ;;
   match v, current with
   | XDict _, Some (GNode i) => in_child i whole
   | XList _, Some (GNodes l) =>
       part <- of_option IndexError (head parts) ;;
       i <- of_option IndexError (head l) ;;
       in_child i part ;;;
       for_each (tail parts) (fun _ =>
         match create_fails lib k with Some e => raise e | None => mret tt end)
   | _, Some (GNodes l) => i <- of_option IndexError (head l) ;; in_child i whole
   | XList _, Some (GRaw (XList l)) =>
       _ <- of_option IndexError (head parts) ;;
       _ <- of_option IndexError (head l) ;;
       for_each (tail parts) (fun _ =>
         match create_fails lib k with Some e => raise e | None => mret tt end)
   | _, Some (GRaw (XList l)) => _ <- of_option IndexError (head l) ;; print_failure
   | _, _ => setattr lib D (strip_at k) v
   end) m'.
Proof.
  intros Hk E. unfold add_value_to_node. rewrite decide_False by done.
  by rewrite (run_bind _ _ _ _ _ E).
Qed.

Lemma add_unknown k v whole parts m :
  unknown m k -> add_value_to_node lib D k v whole parts m = handle_missing_attribute lib k v m.
Proof.
  intros (Hk & Ha & Hd & _ & Hb & Hl). unfold add_value_to_node. rewrite decide_False by done.
  assert (E : hasattr lib D (strip_at k) m = (Ret false, m)).
  { unfold hasattr, try_with, getattr. py_run. cbn [id]. rewrite Ha, Hd, Hl.
    rewrite bool_decide_eq_false_2 by done. reflexivity. }
  by rewrite (run_bind _ _ _ _ _ E).
Qed.

Lemma do_set_key a k s m :
  set_key a = Some k -> hidden "cot_attributes" m = false ->
  do_set lib (a_set a) (XText s) m = (Ret tt, set_attributes (dset k (VRaw (XText s))) m).
Proof.
  unfold set_key. intros Hk Hh.
  destruct (a_set a); injection Hk as <- || discriminate; by apply run_store.
Qed.

Lemma text_step n done m s :
  good D n -> filled n done m -> "#text" ∉ done.*1 ->
  exists m', entry ("#text", XText s) m = (Ret tt, m') /\
    filled n (done ++ [("#text", XText s)]) m'.
Proof using wf text_settable.
  intros Hg F Hn. pose proof (fi_class _ _ _ F) as C.
  destruct (good_inv D m (fi_good _ _ _ F)) as (Hr & _ & _).
  change (entry ("#text", XText s) m) with (setattr lib D "text" (XText s) m).
  destruct (find_accessor D (n_class n) "text") as [a|] eqn:Ea.
  - destruct (wf_text D wf _ _ Ea) as (k & Hget & Hk).
    eexists. split.
    { rewrite (run_setattr lib D "text" a) by by rewrite C.
      apply (do_set_key a k); [done|]. exact (not_hidden D m "cot_attributes" Hr ltac:(own_name)). }
    apply filled_more.
    + apply (filled_store n done m "text" a); try done.
      destruct (good_inv D n Hg) as (_ & [Ht _] & _). rewrite Ea in Ht.
      destruct Ht as (j & Hj & Hv). assert (j = k) as -> by congruence.
      intros i E. by rewrite E in Hv.
    + constructor. unfold text_of. cbn [n_class set_attributes n_attributes].
      by rewrite C, Ea, Hget, dget_dset_eq.
  - exists (set_dict (dset "text" (XText s)) m). split.
    { unfold setattr. py_run. cbn [id]. by rewrite C, Ea, text_settable. }
    apply filled_more; [by apply filled_text|]. constructor. unfold text_of.
    cbn [n_class set_dict n_dict]. by rewrite C, Ea, dget_dset_eq.
Qed.

Lemma attr_step n done m name a k s :
  filled n done m -> name <> "text" -> find_accessor D (n_class n) name = Some a ->
  a_cot a = true -> set_key a = Some k -> get_of (a_get a) k -> a_get a <> GetOrRaise k ->
  hidden ("@" +:+ name) n = false -> (forall i, dget k (n_attributes n) <> Some (VChild i)) ->
  ("@" +:+ name) ∉ done.*1 ->
  exists m', entry ("@" +:+ name, XText s) m = (Ret tt, m') /\
    filled n (done ++ [("@" +:+ name, XText s)]) m'.
Proof using wf.
  intros F Hnt Ha Hc Hk Hg Hgr Hh Hnc Hn. pose proof (fi_class _ _ _ F) as C.
  destruct (good_inv D m (fi_good _ _ _ F)) as (Hr & _ & _).
  destruct (wf_strip D wf _ _ _ Ha) as [Hs _].
  pose proof (getattr_reads lib D name a m Hr ltac:(by rewrite C)) as Hrd.
  unfold reads_well in Hrd. destruct (getattr lib D name m) as [[o|e] m1] eqn:E.
  2:{ destruct Hrd as (_ & _ & []). destruct Hg as [E1|[[d E1]|[E1|[E1|[E1|[t E1]]]]]]; rewrite E1 in *;
      first [exact Logic.I | by destruct Hgr]. }
  destruct Hrd as [R _]. pose proof (filled_read n done m m1 R F) as F1.
  pose proof (fi_class _ _ _ F1) as C1.
  destruct (good_inv D m1 (fi_good _ _ _ F1)) as (Hr1 & _ & _).
  eexists. split.
  - unfold entry. cbn [fst snd]. rewrite (add_known _ _ _ _ m m1); [|done|].
    2:{ rewrite Hs. unfold hasattr, try_with. by rewrite (run_bind _ _ _ _ _ E). }
    assert (Hcur : exists o, getattr_or_none lib D ("@" +:+ name) m1 = (Ret o, m1) /\
      (o = None \/ o = Some (GRaw XNone))).
    { unfold getattr_or_none, try_with, getattr. py_run. cbn [id].
      rewrite (wf_at D wf). unfold hidden in Hh. rewrite (fi_dict _ _ _ F1) by done.
      destruct (dget ("@" +:+ name) (n_dict n)); [discriminate|].
      destruct (bool_decide _ || _); eauto. }
    destruct Hcur as (o' & E' & Ho'). rewrite (run_bind _ _ _ _ _ E').
    transitivity (setattr lib D name (XText s) m1).
    { rewrite Hs. by destruct Ho' as [->| ->]. }
    rewrite (run_setattr lib D name a) by by rewrite C1.
    apply (do_set_key a k); [done|]. exact (not_hidden D m1 "cot_attributes" Hr1 ltac:(own_name)).
  - apply filled_more; [by apply (filled_store n done m1 name a)|].
    apply (placed_attr _ _ _ _ a k); try done. cbn. by rewrite dget_dset_eq.
Qed.

(** What is read where a child is entered. *)
Lemma enters_getattr n name i :
  enters n name i -> readable D n -> exists g, getattr lib D name n = (Ret (Some g), n) /\
    (g = GNode i \/ exists l, g = GNodes (i :: l)).
Proof.
  intros [a key Ha Hc Hg Hk|a cs Ha Hc Hg Hi] Hr.
  - exists (GNode i). split; [|by left]. apply (shows_getattr lib D n name (VChild i)).
    + exists a, key. split; [done|]. split; [done|]. split; [|by split].
      destruct Hg as [->| ->]; [by left|by right; right; right; left].
    + exact (not_hidden D n "cot_attributes" Hr ltac:(own_name)).
  - exists (GNodes (children_of cs n)). split.
    + apply (run_getattr lib D name a); [done|]. rewrite Hg. cbn [do_get]. unfold get_children.
      py_run. by rewrite (not_hidden D n "get_children_ex" Hr ltac:(own_name)).
    + right. destruct (children_of cs n) as [|j l]; [done|]. injection Hi as ->. by exists l.
Qed.

Lemma child_step n done m name l i c :
  filled n done m -> fills (XDict l) -> enters n name i -> n_children n !! i = Some c ->
  x_tag (n_xml c) = name -> name <> "#text" -> fits (XDict l) c -> good D c ->
  name ∉ done.*1 ->
  exists m', entry (name, XDict l) m = (Ret tt, m') /\
    filled n (done ++ [(name, XDict l)]) m'.
Proof using wf.
  intros F IH He Hi Ht Hnt Hf Hgc Hn.
  destruct (good_inv D m (fi_good _ _ _ F)) as (Hr & _ & _).
  destruct (enters_found n name i He) as [a Ha].
  destruct (wf_strip D wf _ _ _ Ha) as [_ Hs].
  destruct (IH c Hf Hgc) as (c' & E' & G' & C' & T' & H').
  assert (Hm : n_children m !! i = Some c).
  { apply (fi_children _ _ _ F); [done|]. by rewrite Ht. }
  destruct (enters_getattr m name i (filled_enters n done m name i F He) Hr) as (g & E & Hg).
  exists (set_children (<[i := c']>) m). split.
  - unfold entry. cbn [fst snd]. rewrite (add_known _ _ _ _ m m); [|done|].
    2:{ rewrite Hs. unfold hasattr, try_with. by rewrite (run_bind _ _ _ _ _ E). }
    assert (E2 : getattr_or_none lib D name m = (Ret (Some g), m)).
    { unfold getattr_or_none, try_with. by rewrite E. }
    rewrite (run_bind _ _ _ _ _ E2).
    assert (E3 : in_child i (serialize lib D (XDict l) ;;; mret tt) m =
      (Ret tt, set_children (<[i := c']>) m)).
    { unfold in_child. rewrite Hm. by rewrite (run_bind _ _ _ _ _ E'). }
    destruct Hg as [->|[l' ->]]; [exact E3|]. cbn [head of_option].
    by rewrite (run_bind (mret i) _ m i m eq_refl).
  - apply (filled_child n done m name i c c' l); try done. congruence.
Qed.

Lemma unknown_filled n done m k : filled n done m -> unknown n k -> unknown m k.
Proof.
  intros F (H1 & H2 & H3 & H4 & H5). split; [done|]. rewrite (fi_class _ _ _ F).
  split; [done|]. by rewrite (fi_dict _ _ _ F).
Qed.

Lemma foreign_step n done m k v e :
  filled n done m -> dict_to_element lib k v = Ret e ->
  exists m', (e <- of_outcome (dict_to_element lib k v) ;; change_xml (append_element e)) m =
      (Ret tt, m') /\ filled n done m' /\ Foreign e ∈ x_items (n_xml m') /\
    (forall e', Foreign e' ∈ x_items (n_xml m) -> Foreign e' ∈ x_items (n_xml m')).
Proof.
  intros F E. exists (set_xml (append_element e) m).
  destruct (good_inv D m (fi_good _ _ _ F)) as (Hr & _ & _). split; [|split; [|split]].
  - rewrite E. rewrite (run_bind (of_outcome (Ret e)) _ m e m eq_refl).
    by apply (run_change_xml D).
  - by apply filled_foreign.
  - cbn. apply elem_of_app. right. by left.
  - intros e' He. cbn. apply elem_of_app. by left.
Qed.

Lemma foreigns_step n done m k vs :
  filled n done m ->
  (forall v, v ∈ vs -> exists e, dict_to_element lib k v = Ret e /\ carries e k v) ->
  exists m', handle_missing_attribute lib k (XList vs) m = (Ret tt, m') /\ filled n done m' /\
    (forall e', Foreign e' ∈ x_items (n_xml m) -> Foreign e' ∈ x_items (n_xml m')) /\
    forall v, v ∈ vs -> exists e, Foreign e ∈ x_items (n_xml m') /\ carries e k v.
Proof.
  revert m. induction vs as [|v vs IH]; intros m F Hv.
  { exists m. split; [done|]. split; [done|]. split; [done|]. intros v H. by apply not_elem_of_nil in H. }
  destruct (Hv v (list_elem_of_here _ _)) as (e & E & Ce).
  destruct (foreign_step n done m k v e F E) as (m1 & E1 & F1 & He & Hm1).
  destruct (IH m1 F1) as (m2 & E2 & F2 & Hm2 & H2).
  { intros w Hw. apply Hv. by right. }
  exists m2. split; [|split; [done|split]].
  - cbn [handle_missing_attribute for_each] in *. by rewrite (run_bind _ _ _ _ _ E1).
  - auto.
  - intros w [->|Hw]%elem_of_cons; [exists e; auto|by apply H2].
Qed.

Lemma entry_step n done m k v :
  good D n -> filled n done m -> fits_entry k v n -> k ∉ done.*1 -> fills v ->
  exists m', entry (k, v) m = (Ret tt, m') /\ filled n (done ++ [(k, v)]) m'.
Proof using wf text_settable.
  intros Hg F Hf Hn IH. inversion Hf; subst.
  - by apply text_step.
  - by apply (attr_step n done m name a k0 s).
  - destruct (good_inv D n Hg) as (_ & _ & Hgood).
    apply (child_step n done m _ l i c F IH); first [assumption | reflexivity | idtac].
    by apply (Hgood i).
  - destruct (foreign_step n done m k (XDict l) e F) as (m1 & E1 & F1 & He & _); [done|].
    exists m1. split.
    + unfold entry. cbn [fst snd]. rewrite add_unknown by by apply (unknown_filled n done). exact E1.
    + apply filled_more; [done|]. by apply (placed_foreign _ _ _ _ e).
  - destruct (foreigns_step n done m k vs F) as (m1 & E1 & F1 & _ & He); [done|].
    exists m1. split.
    + unfold entry. cbn [fst snd]. rewrite add_unknown by by apply (unknown_filled n done). exact E1.
    + apply filled_more; [done|]. by constructor.
Qed.

(** * Documents *)

Lemma entries_step n done l m :
  good D n -> filled n done m -> NoDup (done ++ l)%list.*1 ->
  (forall k v, (k, v) ∈ l -> fits_entry k v n) -> (forall k v, (k, v) ∈ l -> fills v) ->
  exists m', for_each (List.map entry l) id m = (Ret tt, m') /\ filled n (done ++ l) m'.
Proof using wf text_settable.
  intros Hg. revert done m. induction l as [|[k v] l IHl]; intros done m F Hn Hf IH.
  { exists m. by rewrite app_nil_r. }
  destruct (entry_step n done m k v) as (m1 & E1 & F1); try done.
  { apply Hf. by left. }
  { rewrite fmap_app in Hn. apply NoDup_app in Hn as (_ & Hn & _).
    intros H. apply (Hn k H). cbn. by left. }
  { apply (IH k). by left. }
  destruct (IHl (done ++ [(k, v)])%list m1) as (m2 & E2 & F2); try done.
  { by rewrite <- app_assoc. }
  { intros k' v' H. apply Hf. by right. }
  { intros k' v' H. apply (IH k'). by right. }
  exists m2. rewrite <- app_assoc in F2. split; [|done].
  cbn [List.map for_each]. change (id (entry (k, v))) with (entry (k, v)).
  by rewrite (run_bind _ _ _ _ _ E1).
Qed.

(** A document that fits is held. *)
Lemma document_fills v : fills v.
Proof using wf text_settable.
  induction v as [|s|l IH|l IH] using xval_ind'; intros c Hf Hg; inversion Hf; subst.
  destruct (entries_step c [] l c Hg (filled_start c Hg)) as (m & E & F); try done.
  exists m. split; [|split; [|split; [|split]]].
  - rewrite serialize_dict. apply try_except_ret. by rewrite (run_bind _ _ _ _ _ E).
  - exact (fi_good _ _ _ F).
  - exact (fi_class _ _ _ F).
  - exact (fi_tag _ _ _ F).
  - constructor. intros k v Hkv. apply (placed_holds c l); [done|]. by apply (fi_placed _ _ _ F).
Qed.
End Fill.

(** * New nodes *)

Definition raw_ok (x : xval) : bool :=
  match x with XText _ | XNone | XList [] => true | _ => false end.

(** That a node can be written, but for its children, as a test. *)
Definition node_ok (D : list domain_class) (n : node) : bool :=
  forallb (fun name => negb (hidden name n))
    ["cot_attributes"; "xml"; "get_properties"; "get_children_ex"; "xml_string"] &&
  forallb (fun p => match p.2 with
    | VRaw x => raw_ok x
    | VChild i => Nat.ltb i (length (n_children n))
    end) (n_attributes n) &&
  forallb (fun a => match a_get a with
    | GetItem k => bool_decide (is_Some (dget k (n_attributes n)))
    | GetOr _ x => raw_ok x
    | _ => true
    end) (accessors D (n_class n)) &&
  match find_accessor D (n_class n) "text" with
  | Some a => match a_get a with
      | Get k => match dget k (n_attributes n) with
          | Some (VRaw (XText _)) | Some (VRaw XNone) | None => true | _ => false end
      | _ => false end
  | None => match dget "text" (n_dict n) with Some (XText _) | Some XNone => true | _ => false end
  end &&
  match find_accessor D (n_class n) "xml_string" with None => true | Some _ => false end.

Lemma raw_ok_writable n x : raw_ok x = true -> writable_value n (GRaw x).
Proof. by destruct x as [| | |[]]. Qed.

Lemma node_ok_good D n :
  node_ok D n = true -> Forall (good D) (n_children n) -> good D n.
Proof.
  intros H Hc. apply andb_prop in H as [[[[Ho Hf]%andb_prop Ha]%andb_prop Ht]%andb_prop Hx].
  rewrite forallb_forall in Ho, Hf, Ha.
  assert (Hh : forall name, name ∈ ["cot_attributes"; "xml"; "get_properties"; "get_children_ex";
    "xml_string"] -> hidden name n = false).
  { intros name Hn. apply negb_true_iff, Ho. by apply list_elem_of_In. }
  split; [split; [|split]| |].
  - intros name Hn. apply Hh. set_solver.
  - intros k v E. apply dget_Some_elem in E.
    specialize (Hf (k, v) (proj1 (list_elem_of_In _ _) E)). cbn in Hf.
    destruct v as [[| | |[]]|]; try done. by apply Nat.ltb_lt.
  - intros name a Hn. apply find_accessor_name in Hn as [Hn _].
    specialize (Ha a (proj1 (list_elem_of_In _ _) Hn)).
    destruct (a_get a) as [|k x|k| | | | | |]; try done.
    + by apply raw_ok_writable.
    + by apply bool_decide_eq_true in Ha.
  - split; [|split].
    + unfold text_ok. destruct (find_accessor D (n_class n) "text") as [a|].
      * destruct (a_get a) as [k| | | | | | | |]; try done. exists k. split; [done|].
        by destruct (dget k (n_attributes n)) as [[[]|]|].
      * by destruct (dget "text" (n_dict n)) as [[]|].
    + by destruct (find_accessor D (n_class n) "xml_string").
    + apply Hh. set_solver.
  - intros i c Hi. rewrite Forall_forall in Hc. apply Hc. by apply list_elem_of_lookup_2 in Hi.
Qed.

Lemma new_good D d children :
  node_ok D (new_node d children) = true -> Forall (good D) children ->
  good D (new_node d children).
Proof. intros H Hc. apply node_ok_good; [exact H|exact Hc]. Qed.

(** A library that answers, for the instances of the theorems. *)
Definition plain_library : library :=
  mkLibrary (fun _ => false) (fun _ => None) (fun _ => "now") "uuid"
    (fun s => negb (starts_at s))
    (fun k v => Ret (mkElement k (match v with XText s => Some s | _ => None end)
       (match v with
        | XDict l => omap (fun kv => match kv.1, kv.2 with
            | String "@"%char name, XText s => Some (name, s) | _, _ => None end) l
        | _ => [] end) []))
    (fun x => match x with XText s => s | _ => "" end) (fun _ => Some KeyError).
