(* ===== verification/DomainProps.v ===== *)
(** Properties of the domain: what nodes keep of the documents they are made from. *)
From stdpp Require Import base strings list.
From Stdlib Require Import ZArith Lia.
From S2P Require Import Prelude.
From S2P Require Import DomainNode.
From S2P Require Import DomainClasses.
From S2P Require Import DictToNode.
From S2P Require Import DomainFacts.
From S2P Require Import ConvertFacts.
From S2P Require Import WriteFacts.
From S2P Require Import FillFacts.

Set Default Proof Using "Type".
Local Open Scope list_scope.
Local Open Scope string_scope.
Local Open Scope py_scope.


(** The nodes of a default event: what the core makes of a document without a type of
    its own. *)
Definition default_event : node :=
  new_node event_class
    [new_node detail_class
       [new_node marti_class [new_node dest_class []]; new_node contact_class []];
     new_node point_class []].

Lemma default_event_good : good domain default_event.
Proof.
  repeat first [apply Forall_nil_2 | apply Forall_cons_2
    | apply new_good; [vm_compute; reflexivity|]].
Qed.




(** What the node answers when it is written for the [j]-th time. *)
Definition written_again (lib : library) (D : list domain_class) (j : nat) (m : node) :
    outcome element :=
  (convert_node_to_xml lib D (Nat.iter j (fun m => (convert_node_to_xml lib D m).2) m)).1.

Lemma fitting_document_survives lib D n name l :
  well_formed D -> node_attr lib "xml_string" = false -> node_setattr lib "text" = None ->
  (forall s, str_of lib (XText s) = s) -> good D n -> fits lib D (XDict l) n ->
  exists m, convert_dict_to_node lib D name [(lower name, XDict l)] n = (Ret true, m) /\
    forall j, exists e, written_again lib D j m = Ret e /\ carries e (x_tag (n_xml n)) (XDict l).
Proof.
  intros wf Hx Ht Hs Hg Hf.
  destruct (document_fills lib D wf Ht (XDict l) n Hf Hg) as (m & E & Gm & _ & Tm & Hm).
  exists m. split.
  { unfold convert_dict_to_node. cbn [dget]. rewrite decide_True by done. exact E. }
  assert (W : forall c, good D c -> exists c', convert_node_to_xml lib D c = (Ret (xml_of c'), c') /\
    evolves D c c' /\ carried_by D c c').
  { intros c Hc.
    destruct (write_node lib D Hx Hs (wf_private D wf) (depth c) c Hc (le_n _)) as (c' & Ec & H).
    exists c'. split; [|done]. unfold convert_node_to_xml.
    rewrite (run_bind (gets id) _ c c c eq_refl). cbn [id]. by rewrite (run_bind _ _ _ _ _ Ec). }
  intros j.
  assert (Ev : evolves D m (Nat.iter j (fun m => (convert_node_to_xml lib D m).2) m)).
  { induction j as [|j IH]; [by apply evolves_refl|]. rewrite Nat.iter_succ.
    destruct (W _ (ev_good _ _ _ IH)) as (c' & Ec & Ec' & _). rewrite Ec.
    by apply (evolves_trans D _ _ _ IH). }
  unfold written_again. destruct (W _ (ev_good _ _ _ Ev)) as (c' & Ec & _ & B).
  exists (xml_of c'). rewrite Ec. split; [done|]. rewrite <- Tm, <- (ev_tag _ _ _ Ev).
  apply B, (ev_holds _ _ _ Ev), Hm.
Qed.

(** C9: a document that fits the node it is converted to goes out as it came in: the
    conversion succeeds, and however often the node is written, the element has the
    tag, the text, every attribute and every element below, nested to any depth, those
    the domain does not know included.  (It fits when no element has two entries of one
    name, attributes are properties that read back what they are assigned, known
    elements have a child of the node, and [xmltodict] and [lxml] build the elements of
    unknown ones.) *)
Theorem document_survives lib D n name l :
  well_formed D -> node_attr lib "xml_string" = false -> node_setattr lib "text" = None ->
  (forall s, str_of lib (XText s) = s) -> good D n -> fits lib D (XDict l) n ->
  exists m, convert_dict_to_node lib D name [(lower name, XDict l)] n = (Ret true, m) /\
    forall j, exists e, written_again lib D j m = Ret e /\ carries e (x_tag (n_xml n)) (XDict l).
Proof. apply fitting_document_survives. Qed.

(** A message to one user, with an element the domain does not know. *)
Definition a_message : list (string * xval) :=
  [("@uid", XText "u1"); ("@type", XText "b-t-f");
   ("point", XDict [("@lat", XText "1.5"); ("@lon", XText "2.5")]);
   ("detail", XDict
      [("contact", XDict [("@callsign", XText "alpha")]);
       ("marti", XDict [("dest", XDict [("@callsign", XText "bravo")])]);
       ("color", XDict [("@argb", XText "-1")])])].

(** Of a document of known attributes and elements every entry is looked up. *)
Ltac fit_entries k v H :=
  intros k v H; repeat (apply elem_of_cons in H as [[= -> ->]|H]); [..|by apply not_elem_of_nil in H].
Ltac fit_dict := apply fits_dict; [apply (bool_decide_unpack _); vm_compute; exact Logic.I|].
Ltac fit_attr name k :=
  eapply (fits_attr _ _ name _ _ k);
    [discriminate | vm_compute; reflexivity | reflexivity | reflexivity
    | unfold get_of; eauto 10 | discriminate | vm_compute; reflexivity
    | let i := fresh in intros i; vm_compute; discriminate].
Ltac fit_child way i :=
  eapply (fits_child _ _ _ _ i);
    [eapply way; vm_compute; auto | reflexivity | reflexivity | discriminate | ].

Lemma a_message_fits : fits plain_library domain (XDict a_message) default_event.
Proof.
  fit_dict. fit_entries k v H.
  - fit_attr "uid" "uid".
  - fit_attr "type" "type".
  - fit_child enters_value 1. fit_dict. fit_entries k v H.
    + fit_attr "lat" "lat".
    + fit_attr "lon" "lon".
  - fit_child enters_value 0. fit_dict. fit_entries k v H.
    + fit_child enters_value 1. fit_dict. fit_entries k v H. fit_attr "callsign" "callsign".
    + fit_child enters_value 0. fit_dict. fit_entries k v H.
      fit_child enters_first 0. fit_dict. fit_entries k v H. fit_attr "callsign" "callsign".
    + eapply fits_foreign; [|reflexivity|].
      * repeat split; try (vm_compute; (reflexivity || discriminate)).
        apply (bool_decide_unpack _). vm_compute. exact Logic.I.
      * apply (carries_dict (mkElement _ _ _ _)). fit_entries k v H.
        by apply (carried_attr _ "argb").
Qed.

Lemma document_survives_witness :
  exists m, convert_dict_to_node plain_library domain "Event" [("event", XDict a_message)]
      default_event = (Ret true, m) /\
    forall j, exists e, written_again plain_library domain j m = Ret e /\
      carries e "event" (XDict a_message).
Proof.
  exact (document_survives plain_library domain default_event "Event" a_message
    domain_well_formed eq_refl eq_refl (fun s => eq_refl) default_event_good a_message_fits).
Defined.
