(* ===== verification/DomainErrors.v ===== *)
(** What a conversion loses: entries after one that raises, and elements of a list after
    the first. *)
From stdpp Require Import base strings list.
From Stdlib Require Import ZArith Lia.
From S2P Require Import Prelude.
From S2P Require Import DomainNode.
From S2P Require Import DomainClasses.
From S2P Require Import DictToNode.
From S2P Require Import DomainFacts.
From S2P Require Import ConvertFacts.
From S2P Require Import WriteFacts.
From S2P Require Import FillFacts.
From S2P Require Import DomainProps.

Set Default Proof Using "Type".
Local Open Scope list_scope.
Local Open Scope string_scope.
Local Open Scope py_scope.

Section Lost.
Context (lib : library) (D : list domain_class).

(** An attribute that cannot be assigned: one that no class knows, whose name keeps its
    "@", or one whose setter assigns to itself. *)
Inductive rejected (n : node) (name : string) : Prop :=
  | rejected_unknown :
      unknown lib D n ("@" +:+ name) -> valid_name lib ("@" +:+ name) = false -> rejected n name
  | rejected_setter a k :
      find_accessor D (n_class n) name = Some a -> a_get a = Get k ->
      a_set a = SetItself \/ a_set a = SetItselfOrTime -> hidden ("@" +:+ name) n = false ->
      rejected n name.

Lemma filled_rejected n done m name :
  filled D n done m -> rejected n name -> rejected m name.
Proof.
  intros F [Hu Hv|a k Ha Hg Hs Hh].
  - apply rejected_unknown; [|done]. by apply (unknown_filled lib D n done).
  - apply (rejected_setter _ _ a k); [by rewrite (fi_class _ _ _ _ F)|done..|].
    revert Hh. unfold hidden. by rewrite (fi_dict _ _ _ _ F).
Qed.

(** Assigning it raises and leaves the node as it is. *)
Lemma rejected_raises n name s :
  well_formed D -> good D n -> rejected n name ->
  exists e, is_Exception e = true /\ entry lib D ("@" +:+ name, XText s) n = (Exn e, n).
Proof.
  intros wf (Hr & _ & _)%good_inv [Hu Hv|a k Ha Hg Hs Hh].
  - exists ValueError. split; [done|]. unfold entry. cbn [fst snd]. rewrite add_unknown by done.
    unfold handle_missing_attribute. py_run.
    rewrite (not_hidden D n "xml" Hr ltac:(own_name)). by rewrite Hv.
  - destruct (wf_strip D wf _ _ _ Ha) as [Hst _].
    exists RuntimeError. split; [done|]. unfold entry. cbn [fst snd].
    pose proof (not_hidden D n "cot_attributes" Hr ltac:(own_name)) as Hc.
    assert (E : exists o, getattr lib D name n = (Ret o, n)).
    { unfold getattr. rewrite (run_bind (gets id) _ n n n eq_refl). cbn [id].
      rewrite Ha, Hg. cbn [do_get].
      rewrite (run_bind _ _ _ _ _ (run_get_value k XNone n Hc)). by eexists. }
    destruct E as [o E]. rewrite (add_known lib D _ _ _ _ n n); [|done|].
    2:{ rewrite Hst. unfold hasattr, try_with. by rewrite (run_bind _ _ _ _ _ E). }
    assert (Hcur : exists o, getattr_or_none lib D ("@" +:+ name) n = (Ret o, n) /\
      (o = None \/ o = Some (GRaw XNone))).
    { unfold getattr_or_none, try_with, getattr. py_run. cbn [id].
      rewrite (wf_at D wf). unfold hidden in Hh.
      destruct (dget ("@" +:+ name) (n_dict n)); [discriminate|].
      destruct (bool_decide _ || _); eauto. }
    destruct Hcur as (o' & E' & Ho'). rewrite (run_bind _ _ _ _ _ E').
    transitivity (setattr lib D name (XText s) n).
    { rewrite Hst. by destruct Ho' as [->| ->]. }
    rewrite (run_setattr lib D name a) by done. by destruct Hs as [->| ->].
Qed.

Lemma for_each_split {S A} (f : A -> M S unit) l1 l2 s s1 :
  for_each l1 f s = (Ret tt, s1) -> for_each (l1 ++ l2) f s = for_each l2 f s1.
Proof.
  revert s. induction l1 as [|x l1 IH]; intros s; [by intros [= ->]|].
  cbn [app for_each]. cbv [mbind M_bind]. destruct (f x s) as [[[]|e] s2]; [|done].
  apply IH.
Qed.

(** Creating nodes for further elements does nothing to the node. *)
Lemma further_nodes {A} name (l : list A) (m : node) :
  exists r, for_each l (fun _ =>
    match create_fails lib name with Some e => raise e | None => mret tt end) m = (r, m).
Proof.
  destruct (create_fails lib name) as [e|].
  - destruct l; by eexists.
  - exists (Ret tt). induction l as [|w l IH]; [done|]. exact IH.
Qed.

Lemma rejected_ends n l1 name s :
  well_formed D -> node_setattr lib "text" = None -> good D n -> fits lib D (XDict l1) n ->
  rejected n name ->
  exists m, holds D (XDict l1) m /\ good D m /\ n_class m = n_class n /\
    forall l2, serialize lib D (XDict (l1 ++ ("@" +:+ name, XText s) :: l2)) n = (Ret false, m).
Proof.
  intros wf Ht Hg Hf Hrej. inversion Hf; subst.
  destruct (entries_step lib D wf Ht n [] l1 n Hg (filled_start D n Hg)) as (m & E & F);
    [done|done| |].
  { intros k v _. by apply document_fills. }
  exists m. split; [|split; [by destruct F|split; [by destruct F|]]].
  { constructor. intros k v Hkv. apply (placed_holds D n l1); [done|].
    by apply (fi_placed _ _ _ _ F). }
  intros l2. rewrite serialize_dict, map_app. cbn [List.map].
  destruct (rejected_raises m name s wf (fi_good _ _ _ _ F)
    (filled_rejected n _ m name F Hrej)) as (e & He & Ee).
  assert (El : for_each (List.map (entry lib D) l1 ++
      entry lib D ("@" +:+ name, XText s) :: List.map (entry lib D) l2) id n = (Exn e, m)).
  { rewrite (for_each_split _ _ _ _ _ E). cbn [for_each]. by apply run_bind_exn. }
  unfold try_except, try_with. rewrite (run_bind_exn _ _ _ _ _ El). by rewrite He.
Qed.
End Lost.

(** C17: an attribute that cannot be assigned ends its element.  What came before it is
    kept and the conversion of the element answers that it failed, but nothing after it is
    looked at, attribute, text or element below: the node is the same whatever follows. *)
Theorem rejected_attribute_ends_element lib D n l1 name s :
  well_formed D -> node_setattr lib "text" = None -> good D n -> fits lib D (XDict l1) n ->
  rejected lib D n name ->
  exists m, holds D (XDict l1) m /\ good D m /\ n_class m = n_class n /\
    forall l2, serialize lib D (XDict (l1 ++ ("@" +:+ name, XText s) :: l2)) n = (Ret false, m).
Proof. apply rejected_ends. Qed.

(** A chat message: the text comes after the attributes. *)
Lemma rejected_attribute_ends_element_witness :
  exists m, holds domain (XDict [("@to", XText "all")]) m /\ good domain m /\
    n_class m = "remarks" /\
    forall l2, serialize plain_library domain
      (XDict ([("@to", XText "all")] ++ ("@" +:+ "source", XText "u1") :: l2))
      (new_node remarks_class []) = (Ret false, m).
Proof.
  assert (Hg : good domain (new_node remarks_class [])).
  { apply new_good; [vm_compute; reflexivity|by apply Forall_nil_2]. }
  assert (Hf : fits plain_library domain (XDict [("@to", XText "all")])
    (new_node remarks_class [])).
  { fit_dict. fit_entries k v H. fit_attr "to" "to". }
  assert (Hr : rejected plain_library domain (new_node remarks_class []) "source").
  { eapply rejected_setter; [reflexivity|reflexivity|by left|reflexivity]. }
  exact (rejected_attribute_ends_element plain_library domain (new_node remarks_class [])
    [("@to", XText "all")] "source" "u1" domain_well_formed eq_refl Hg Hf Hr).
Defined.

(** of the elements of one name below an element only the first is kept: whatever
    the others hold (further recipients of a message, say), and whether or not nodes can
    be created for them, the node is the one the first alone makes. *)
Theorem only_first_of_a_list_is_kept lib D n name i c v :
  well_formed D -> node_setattr lib "text" = None -> good D n ->
  enters D n name i -> (exists a cs, find_accessor D (n_class n) name = Some a /\
    a_get a = GetChildren cs) ->
  n_children n !! i = Some c -> name <> "#text" -> fits lib D (XDict v) c ->
  exists c', holds D (XDict v) c' /\ forall vs,
    (serialize lib D (XDict [(name, XList (XDict v :: vs))]) n).2 =
      set_children (<[i := c']>) n.
Proof.
  intros wf Ht Hg He (a & cs & Ha & Hcs) Hi Hn Hf.
  destruct (good_inv D n Hg) as (Hr & _ & Hc).
  destruct (document_fills lib D wf Ht (XDict v) c Hf (Hc i c Hi)) as (c' & E' & _ & _ & _ & H').
  exists c'. split; [done|]. intros vs. rewrite serialize_dict. cbn [List.map].
  destruct (enters_getattr lib D n name i He Hr) as (g & E & Hg').
  assert (El : exists l, g = GNodes (i :: l)).
  { destruct Hg' as [->|?]; [|done]. exfalso. unfold getattr in E.
    rewrite (run_bind (gets id) _ n n n eq_refl) in E. cbn [id] in E.
    rewrite Ha, Hcs in E. cbn [do_get] in E. unfold get_children in E.
    revert E. py_run. rewrite (not_hidden D n "get_children_ex" Hr ltac:(own_name)). done. }
  destruct El as [l ->]. destruct (wf_strip D wf _ _ _ Ha) as [_ Hs].
  assert (E2 : getattr_or_none lib D name n = (Ret (Some (GNodes (i :: l))), n)).
  { unfold getattr_or_none, try_with. by rewrite E. }
  assert (E3 : in_child i (serialize lib D (XDict v) ;;; mret tt) n =
    (Ret tt, set_children (<[i := c']>) n)).
  { unfold in_child. rewrite Hi. by rewrite (run_bind _ _ _ _ _ E'). }
  destruct (further_nodes lib name (List.map (fun v => serialize lib D v ;;; mret tt) vs)
    (set_children (<[i := c']>) n)) as [r Er].
  assert (Eent : entry lib D (name, XList (XDict v :: vs)) n =
    (r, set_children (<[i := c']>) n)).
  { unfold entry. cbn [fst snd List.map]. rewrite (add_known lib D _ _ _ _ n n); [|done|].
    2:{ rewrite Hs. unfold hasattr, try_with. by rewrite (run_bind _ _ _ _ _ E). }
    rewrite (run_bind _ _ _ _ _ E2). cbn [head of_option].
    cbn [tail]. rewrite (run_bind (mret _) _ n _ n eq_refl), (run_bind (mret i) _ n i n eq_refl).
    by rewrite (run_bind _ _ _ _ _ E3). }
  cbn [for_each]. change (id (entry lib D ?x)) with (entry lib D x).
  unfold try_except, try_with. cbv [mbind M_bind]. rewrite Eent.
  destruct r as [[]|e]; [done|]. by destruct (is_Exception e).
Qed.

Lemma only_first_of_a_list_is_kept_witness :
  exists c', holds domain (XDict [("@callsign", XText "bravo")]) c' /\ forall vs,
    (serialize plain_library domain
       (XDict [("dest", XList (XDict [("@callsign", XText "bravo")] :: vs))])
       (new_node marti_class [new_node dest_class []])).2 =
      set_children (<[0 := c']>) (new_node marti_class [new_node dest_class []]).
Proof.
  assert (Hg : good domain (new_node marti_class [new_node dest_class []])).
  { repeat first [apply Forall_nil_2 | apply Forall_cons_2
      | apply new_good; [vm_compute; reflexivity|]]. }
  assert (He : enters domain (new_node marti_class [new_node dest_class []]) "dest" 0).
  { eapply enters_first; reflexivity. }
  assert (Hf : fits plain_library domain (XDict [("@callsign", XText "bravo")])
    (new_node dest_class [])).
  { fit_dict. fit_entries k v H. fit_attr "callsign" "callsign". }
  assert (Hl : exists a cs, find_accessor domain
      (n_class (new_node marti_class [new_node dest_class []])) "dest" = Some a /\
    a_get a = GetChildren cs) by (by repeat eexists).
  assert (Hn : "dest" <> "#text") by discriminate.
  exact (only_first_of_a_list_is_kept plain_library domain
    (new_node marti_class [new_node dest_class []]) "dest" 0 (new_node dest_class [])
    [("@callsign", XText "bravo")] domain_well_formed eq_refl Hg He Hl eq_refl Hn Hf).
Defined.
