(* ===== verification/JsonStore.v ===== *)
(** Controllers that keep dictionaries in a JSON file: the emergencies
    ([components/extended/emergency/controllers/emergency_persistence.py]), the stores of
    the other components, which are copies of it, and the types
    ([components/core/type/controllers/memory_mapping.py]).  A controller reads the whole
    file and keeps, next to it, attributes that are parts of what it read; so the objects
    are modelled with a heap. *)
From stdpp Require Import base strings list.
From Stdlib Require Import ZArith Lia.
From S2P Require Import Prelude.

Set Default Proof Using "Type".
Local Open Scope list_scope.
Local Open Scope string_scope.
Local Open Scope py_scope.

Section Store.
Context {V : Type}.

Abbreviation dict := (list (string * V)).
(** What the file holds: a dictionary of dictionaries. *)
Abbreviation doc := (list (string * dict)).

(** The objects of a controller: dictionaries by location, the value of [_persistence]
    with the locations of its dictionaries, and the attributes that are dictionaries. *)
Record holder := mkHolder {
  h_heap : list dict;
  h_persistence : list (string * nat);
  h_attrs : list (string * nat) }.

Record json_store := mkStore { s_file : option doc; s_holder : holder }.

Abbreviation MS := (M json_store).

Definition set_file (f : option doc -> option doc) (s : json_store) : json_store :=
  mkStore (f (s_file s)) (s_holder s).
Definition set_holder (f : holder -> holder) (s : json_store) : json_store :=
  mkStore (s_file s) (f (s_holder s)).
Definition set_heap (f : list dict -> list dict) : json_store -> json_store :=
  set_holder (fun h => mkHolder (f (h_heap h)) (h_persistence h) (h_attrs h)).
Definition set_persistence (p : list (string * nat)) : json_store -> json_store :=
  set_holder (fun h => mkHolder (h_heap h) p (h_attrs h)).
Definition set_attr (name : string) (l : nat) : json_store -> json_store :=
  set_holder (fun h => mkHolder (h_heap h) (h_persistence h) (dset name l (h_attrs h))).

(** Dictionaries that are made take new locations, in order. *)
Definition allocate (d : doc) : MS (list (string * nat)) :=
  n <- gets (fun s => length (h_heap (s_holder s))) ;;
  modify (set_heap (fun h => (h ++ d.*2)%list)) ;;;
  mret (imap (fun i p => (p.1, n + i)) d).

Definition deref (h : list dict) (p : list (string * nat)) : doc :=
  (fun e => (e.1, default [] (h !! e.2))) <$> p.

(** [json.load] and [json.dump] of [_persistence]. *)
Definition json_load : MS unit :=
  file <- gets s_file ;;
  d <- of_option FileNotFoundError file ;;
  p <- allocate d ;; modify (set_persistence p).

Definition json_dump : MS unit := modify (fun s =>
  set_file (fun _ => Some (deref (h_heap (s_holder s)) (h_persistence (s_holder s)))) s).

(** A constructor: [fresh] is [_persistence] of a new store, [names] the attributes. *)
Definition open_store (fresh : doc) (names : list string) : MS unit :=
  modify (set_holder (fun _ => mkHolder [] [] [])) ;;;
  p <- allocate fresh ;;
  modify (set_persistence p) ;;;
  file <- gets s_file ;;
  match file with None => json_dump | Some _ => mret tt end ;;;
  json_load ;;;
  for_each names (fun name =>
    p <- gets (fun s => h_persistence (s_holder s)) ;;
    l <- of_option KeyError (dget name p) ;;
    modify (set_attr name l)).

(** An attribute is read, and what it refers to changed. *)
Definition attribute (name : string) : MS nat :=
  h <- gets s_holder ;; of_option AttributeError (dget name (h_attrs h)).

Definition contents (name : string) : MS dict :=
  l <- attribute name ;; gets (fun s => default [] (h_heap (s_holder s) !! l)).

Definition change (name : string) (f : dict -> dict) : MS unit :=
  l <- attribute name ;; modify (set_heap (alter f l)).

Definition _update_persistence : MS unit := json_dump.
Definition _sync_persistence : MS unit := json_load.
End Store.
Arguments json_store : clear implicits.
Arguments holder : clear implicits.

(** * Emergencies *)

Section Emergencies.
(** An event has a uid and is pickled. *)
Context {E V : Type}.
Context (uid : E -> string) (dumps : E -> outcome V) (loads : V -> outcome E).

Abbreviation ME := (M (json_store V)).

Definition open_emergencies : ME unit := open_store [("emergencies", [])] ["emergencies"].

Definition save_emergency (model_object : E) : ME unit :=
  try: (data <- of_outcome (dumps model_object) ;;
        change "emergencies" (dset (uid model_object) data) ;;;
        _update_persistence)
  except: mret tt.

Definition delete_emergency (model_object : E) : ME unit :=
  d <- contents "emergencies" ;;
  match py_del (uid model_object) d with
  | Some d => change "emergencies" (fun _ => d)
  | None => raise KeyError
  end ;;;
  _update_persistence.

Fixpoint unpickle (l : list V) : outcome (list E) :=
  match l with
  | [] => Ret []
  | v :: l =>
      match loads v, unpickle l with
      | Ret e, Ret es => Ret (e :: es)
      | Exn x, _ => Exn x
      | _, Exn x => Exn x
      end
  end.

Definition get_all_emergencies : ME (list E) :=
  _sync_persistence ;;; d <- contents "emergencies" ;; of_outcome (unpickle (dvalues d)).
End Emergencies.

(** * Stores of the other components *)

(** The stores that are copies of a template: the key a new file has, and the key that is
    read. *)
Definition open_components (name : string) : M (json_store string) unit :=
  open_store [(name, [])] ["components"].

Definition component_stores : list string :=
  ["repeater"; "report"; "master_parrot"; "federation"; "cotmanager"; "companion_parrot";
   "track_manager"].

(** * Types *)

Section Types.
Abbreviation MT := (M (json_store string)).

Definition machine_to_human : string := "machine_to_human_mapping".
Definition human_to_machine : string := "human_to_machine_mapping".

Definition open_types : MT unit :=
  open_store [(machine_to_human, []); (human_to_machine, [])]
    [machine_to_human; human_to_machine].

Definition get_machine_readable_type (human_readable_type : string) (default : option string) :
    MT (option string) :=
  d <- contents human_to_machine ;;
  mret (match dget human_readable_type d with Some t => Some t | None => default end).

Definition get_human_readable_type (machine_readable_type : string) (default : option string) :
    MT (option string) :=
  d <- contents machine_to_human ;;
  mret (match dget machine_readable_type d with Some t => Some t | None => default end).

(** [dict.update]. *)
Definition dict_update (mapping d : list (string * string)) : list (string * string) :=
  fold_left (fun d p => dset p.1 p.2 d) mapping d.

Definition register_machine_to_human_mapping (mapping : list (string * string)) : MT unit :=
  change machine_to_human (dict_update mapping) ;;; _update_persistence.

Definition register_human_to_machine_mapping (mapping : list (string * string)) : MT unit :=
  change human_to_machine (dict_update mapping) ;;; _update_persistence.
End Types.
