(* ===== verification/StoreProps.v ===== *)
(** Properties of the JSON stores: what the store of the emergencies promises and how it
    keeps it, what a restart finds, the stores that can not be opened, and the types. *)
From stdpp Require Import base strings list.
From Stdlib Require Import ZArith Lia.
From S2P Require Import Prelude.
From S2P Require Import JsonStore.

Set Default Proof Using "Type".
Local Open Scope list_scope.
Local Open Scope string_scope.
Local Open Scope py_scope.

(** * Files and heaps *)

Section Facts.
Context {V : Type}.
Implicit Types (d : list (string * list (string * V))) (h : list (list (string * V))).
Implicit Types (p : list (string * nat)) (s : json_store V).

Lemma dset_dset {A} (k : string) (v w : A) l : dset k v (dset k w l) = dset k v l.
Proof.
  induction l as [|[k' v'] l IH]; simpl; [by rewrite decide_True|].
  case_decide; simpl; [by rewrite decide_True|]. rewrite decide_False by done. by rewrite IH.
Qed.

Lemma deref_app h h' p :
  Forall (fun l => l < length h) p.*2 -> deref (h ++ h') p = deref h p.
Proof.
  intros H. unfold deref. apply list_fmap_ext. intros i [k l] Hi. cbn. f_equal.
  rewrite Forall_forall in H. rewrite lookup_app_l; [done|]. apply H.
  apply list_elem_of_fmap. exists (k, l). split; [done|]. by apply list_elem_of_lookup_2 in Hi.
Qed.

Definition locations (n : nat) d : list (string * nat) := imap (fun i e => (e.1, n + i)) d.

Lemma lookup_locations n d i k l :
  locations n d !! i = Some (k, l) -> l = n + i /\ i < length d.
Proof.
  unfold locations. rewrite list_lookup_imap. intros H. apply fmap_Some in H as (e & He & [= -> ->]).
  split; [done|]. by apply lookup_lt_Some in He.
Qed.

Lemma locations_bound n d : Forall (fun l => n <= l /\ l < n + length d) (locations n d).*2.
Proof.
  apply Forall_forall. intros l Hl. apply list_elem_of_fmap in Hl as ([k l'] & -> & Hl).
  apply list_elem_of_lookup in Hl as (i & Hi). apply lookup_locations in Hi. cbn. lia.
Qed.

Lemma locations_apart n d : NoDup (locations n d).*2.
Proof.
  apply NoDup_alt. intros i j l Hi Hj.
  apply list_lookup_fmap_Some in Hi as ([k1 l1] & -> & Hi).
  apply list_lookup_fmap_Some in Hj as ([k2 l2] & E & Hj).
  apply lookup_locations in Hi, Hj. cbn in E. lia.
Qed.

Lemma deref_locations h d : deref (h ++ d.*2) (locations (length h) d) = d.
Proof.
  unfold deref, locations. apply list_eq. intros i.
  rewrite list_lookup_fmap, list_lookup_imap.
  destruct (d !! i) as [[k v]|] eqn:E; [|done]. cbn. do 2 f_equal.
  rewrite lookup_app_r by lia. replace (length h + i - length h) with i by lia.
  by rewrite list_lookup_fmap, E.
Qed.

Lemma dget_deref h p name :
  dget name (deref h p) = (fun l => default [] (h !! l)) <$> dget name p.
Proof.
  unfold deref. induction p as [|[k l] p IH]; [done|]. cbn. case_decide; [done|]. exact IH.
Qed.

Lemma dget_location name p l : dget name p = Some l -> l ∈ p.*2.
Proof. intros H%dget_Some_elem. by apply (list_elem_of_fmap_2 snd) in H. Qed.

Lemma deref_alter_other h p l f : l ∉ p.*2 -> deref (alter f l h) p = deref h p.
Proof.
  intros H. unfold deref. apply list_fmap_ext. intros i [k l'] Hi. cbn. f_equal.
  rewrite list_lookup_alter_ne; [done|]. intros ->. apply H. apply list_elem_of_fmap.
  exists (k, l'). split; [done|]. by apply list_elem_of_lookup_2 in Hi.
Qed.

Lemma deref_alter h p l f name old :
  NoDup p.*2 -> dget name p = Some l -> h !! l = Some old ->
  deref (alter f l h) p = dset name (f old) (deref h p).
Proof.
  intros Hn Hl Ho. induction p as [|[k l'] p IH]; [done|]. cbn in Hl, Hn.
  apply NoDup_cons in Hn as [Hk Hn]. cbn [deref fmap list_fmap fst snd dset].
  fold (deref (alter f l h) p). fold (deref h p). case_decide as Hd.
  - injection Hl as ->. cbn. rewrite list_lookup_alter_eq, Ho. cbn. subst k.
    by rewrite deref_alter_other.
  - rewrite list_lookup_alter_ne; [by rewrite IH|].
    intros ->. apply Hk. by apply (dget_location name).
Qed.

(** * Holders *)

(** A holder whose attributes are parts of what it writes: [d] is what the file holds. *)
Record linked (names : list string) s d : Prop := {
  li_file : s_file s = Some d;
  li_deref : deref (h_heap (s_holder s)) (h_persistence (s_holder s)) = d;
  li_bound : Forall (fun l => l < length (h_heap (s_holder s))) (h_persistence (s_holder s)).*2;
  li_apart : NoDup (h_persistence (s_holder s)).*2;
  li_attrs : forall name, name ∈ names -> exists l,
    dget name (h_attrs (s_holder s)) = Some l /\ dget name (h_persistence (s_holder s)) = Some l }.

(** One whose attribute is not, with the value [own]. *)
Record loose (name : string) s d (own : list (string * V)) : Prop := {
  lo_file : s_file s = Some d;
  lo_deref : deref (h_heap (s_holder s)) (h_persistence (s_holder s)) = d;
  lo_attr : exists l, dget name (h_attrs (s_holder s)) = Some l /\
    h_heap (s_holder s) !! l = Some own /\ l ∉ (h_persistence (s_holder s)).*2 }.

Definition loaded s d : json_store V :=
  mkStore (s_file s) (mkHolder (h_heap (s_holder s) ++ d.*2)
    (locations (length (h_heap (s_holder s))) d) (h_attrs (s_holder s))).

Lemma run_json_load s d : s_file s = Some d -> json_load s = (Ret tt, loaded s d).
Proof. intros E. unfold json_load, allocate. py_run. by rewrite E. Qed.

Lemma loaded_linked s d : s_file s = Some d -> linked [] (loaded s d) d.
Proof.
  intros E. split; cbn; [done|apply deref_locations| |apply locations_apart|].
  - pose proof (locations_bound (length (h_heap (s_holder s))) d) as H.
    eapply Forall_impl; [exact H|]. intros l. cbn. rewrite length_app, length_fmap. lia.
  - intros name H. by apply not_elem_of_nil in H.
Qed.

(** Attributes are set one by one. *)
Lemma set_attrs_linked names done s d :
  linked done s d -> Forall (fun name => is_Some (dget name d)) names ->
  exists s', for_each names (fun name =>
      p <- gets (fun s => h_persistence (s_holder s)) ;;
      l <- of_option KeyError (dget name p) ;;
      modify (set_attr name l)) s = (Ret tt, s') /\ linked (rev names ++ done) s' d.
Proof.
  intros L H. revert done s L. induction H as [|name names [v Hv] _ IH]; intros done s L.
  { by exists s. }
  pose proof L as [F Dr B A At]. rewrite <- Dr, dget_deref in Hv.
  apply fmap_Some in Hv as (l & Hl & _).
  destruct (IH (name :: done) (set_attr name l s)) as (s' & E & L').
  { split; try done. intros nm Hn. cbn. destruct (decide (nm = name)) as [->|Hne].
    - exists l. by rewrite dget_dset_eq.
    - rewrite dget_dset_ne by done. apply At. apply elem_of_cons in Hn as [->|Hn]; done. }
  exists s'. split; [|cbn [rev]; by rewrite <- app_assoc].
  cbn [for_each]. rewrite <- E. py_run. by rewrite Hl.
Qed.

(** What [_persistence] is when the file is read. *)
Definition found (fresh : list (string * list (string * V))) s :=
  default fresh (s_file s).

Lemma run_open_store fresh names s :
  exists s1, linked [] s1 (found fresh s) /\ h_attrs (s_holder s1) = [] /\
    open_store fresh names s = for_each names (fun name =>
      p <- gets (fun s => h_persistence (s_holder s)) ;;
      l <- of_option KeyError (dget name p) ;;
      modify (set_attr name l)) s1.
Proof.
  set (s0 := mkStore (Some (found fresh s))
    (mkHolder fresh.*2 (locations 0 fresh) [])).
  exists (loaded s0 (found fresh s)). split; [by apply loaded_linked|]. split; [done|].
  destruct s as [[d|] h]; [reflexivity|].
  assert (E : deref fresh.*2 (locations 0 fresh) = fresh) by exact (deref_locations [] fresh).
  unfold open_store.
  do 4 (erewrite run_bind by reflexivity).
  rewrite (run_bind json_dump _ _ tt s0).
  2:{ change (json_dump (mkStore None (mkHolder fresh.*2 (locations 0 fresh) [])) = (Ret tt, s0)).
      unfold s0, found, json_dump, modify, set_file.
      cbn [s_holder h_heap h_persistence s_file default from_option]. by rewrite E. }
  by erewrite run_bind by reflexivity.
Qed.

Lemma open_store_linked fresh names s :
  Forall (fun name => is_Some (dget name (found fresh s))) names ->
  exists s', open_store fresh names s = (Ret tt, s') /\ linked names s' (found fresh s).
Proof.
  intros H. destruct (run_open_store fresh names s) as (s1 & L & _ & E).
  destruct (set_attrs_linked names [] s1 _ L H) as (s' & E' & [F Dr B A At]).
  exists s'. split; [congruence|]. split; try done. intros name Hn. apply At.
  rewrite app_nil_r. apply list_elem_of_In, in_rev. rewrite rev_involutive.
  by apply list_elem_of_In.
Qed.

(** A change of an attribute is written. *)
Lemma linked_value names s d name v :
  linked names s d -> name ∈ names -> dget name d = Some v ->
  exists l, dget name (h_attrs (s_holder s)) = Some l /\
    dget name (h_persistence (s_holder s)) = Some l /\ h_heap (s_holder s) !! l = Some v.
Proof.
  intros [F Dr B A At] Hn Hv. destruct (At name Hn) as (l & H1 & H2). exists l.
  split; [done|]. split; [done|]. rewrite <- Dr, dget_deref, H2 in Hv.
  rewrite Forall_forall in B. destruct (lookup_lt_is_Some_2 _ _ (B l (dget_location _ _ _ H2))) as [w Hw].
  cbn in Hv. rewrite Hw in Hv. injection Hv as <-. exact Hw.
Qed.

Lemma contents_linked names s d name v :
  linked names s d -> name ∈ names -> dget name d = Some v -> contents name s = (Ret v, s).
Proof.
  intros L Hn Hv. destruct (linked_value _ _ _ _ _ L Hn Hv) as (l & H1 & _ & H3).
  unfold contents, attribute. py_run. by rewrite H1, H3.
Qed.

Lemma change_linked names s d name f v :
  linked names s d -> name ∈ names -> dget name d = Some v ->
  exists s', (change name f ;;; _update_persistence) s = (Ret tt, s') /\
    linked names s' (dset name (f v) d).
Proof.
  intros L Hn Hv. destruct (linked_value _ _ _ _ _ L Hn Hv) as (l & H1 & H2 & H3).
  pose proof L as [F Dr B A At]. rewrite <- Dr.
  rewrite <- (deref_alter _ _ l f name v A H2 H3).
  eexists. split.
  { unfold change, attribute, _update_persistence, json_dump. py_run. rewrite H1. reflexivity. }
  split; cbn; try done. by rewrite length_alter.
Qed.

(** The same of an attribute that is no part of it: nothing new is written. *)
Lemma contents_loose name s d own : loose name s d own -> contents name s = (Ret own, s).
Proof.
  intros [F Dr (l & H1 & H2 & H3)]. unfold contents, attribute. py_run. by rewrite H1, H2.
Qed.

Lemma change_loose name s d own f :
  loose name s d own ->
  exists s', (change name f ;;; _update_persistence) s = (Ret tt, s') /\
    loose name s' d (f own).
Proof.
  intros [F Dr (l & H1 & H2 & H3)].
  eexists. split.
  { unfold change, attribute, _update_persistence, json_dump. py_run. rewrite H1. reflexivity. }
  assert (E : deref (alter f l (h_heap (s_holder s))) (h_persistence (s_holder s)) = d).
  { by rewrite deref_alter_other. }
  split; cbn; [by f_equal|done|]. exists l. split; [done|]. split; [|done].
  by rewrite list_lookup_alter_eq, H2.
Qed.

(** Reading the file again separates the two. *)
Lemma load_loose name s d l own :
  s_file s = Some d -> dget name (h_attrs (s_holder s)) = Some l ->
  h_heap (s_holder s) !! l = Some own ->
  exists s', _sync_persistence s = (Ret tt, s') /\ loose name s' d own.
Proof.
  intros F Hl Hv. exists (loaded s d). split; [by apply run_json_load|].
  split; cbn; [done|apply deref_locations|]. exists l. split; [done|]. split.
  - apply lookup_app_l_Some. done.
  - intros H. pose proof (locations_bound (length (h_heap (s_holder s))) d) as B.
    rewrite Forall_forall in B. apply B in H. apply lookup_lt_Some in Hv. lia.
Qed.
End Facts.

(** * The promise of the emergency store *)

(** What a user of the store may rely on: a map [p_own] that it can be asked for, and
    what a restart will find, [p_kept].  They are the same map until it is asked for all
    emergencies, and separate for good from then on. *)
Record promise (E : Type) := mkPromise {
  p_own : list (string * E);
  p_kept : list (string * E);
  p_attached : bool }.
Arguments mkPromise {E}.
Arguments p_own {E}.
Arguments p_kept {E}.
Arguments p_attached {E}.

Section Promise.
Context {E V : Type}.
Context (uid : E -> string) (dumps : E -> outcome V) (loads : V -> outcome E).

Definition put (f : list (string * E) -> list (string * E)) (p : promise E) : promise E :=
  mkPromise (f (p_own p)) (if p_attached p then f (p_own p) else p_kept p) (p_attached p).

Definition spec_save (e : E) : M (promise E) unit :=
  match dumps e with
  | Ret _ => modify (put (dset (uid e) e))
  | Exn x => if is_Exception x then mret tt else raise x
  end.

Definition spec_delete (e : E) : M (promise E) unit :=
  own <- gets p_own ;;
  match dget (uid e) own with
  | Some _ => modify (put (ddel (uid e)))
  | None => raise KeyError
  end.

Definition spec_all : M (promise E) (list E) :=
  own <- gets p_own ;;
  modify (fun p => mkPromise (p_own p) (p_kept p) false) ;;; mret (dvalues own).

(** What is asked of the store, and the answers it gives to a sequence of it. *)
Inductive request := Save (e : E) | Delete (e : E) | GetAll.

Definition answer (r : request) : M (json_store V) (list E) :=
  match r with
  | Save e => save_emergency uid dumps e ;;; mret []
  | Delete e => delete_emergency uid e ;;; mret []
  | GetAll => get_all_emergencies loads
  end.

Definition spec_answer (r : request) : M (promise E) (list E) :=
  match r with
  | Save e => spec_save e ;;; mret []
  | Delete e => spec_delete e ;;; mret []
  | GetAll => spec_all
  end.

Fixpoint answers_of {S} (step : request -> M S (list E)) (rs : list request) (s : S) :
    list (outcome (list E)) * S :=
  match rs with
  | [] => ([], s)
  | r :: rs =>
      let '(o, s1) := step r s in
      let '(os, s2) := answers_of step rs s1 in (o :: os, s2)
  end.

(** * The store keeps it *)

(** The pickled dictionary of a map. *)
Definition pickled (d : list (string * V)) (m : list (string * E)) : Prop :=
  Forall2 (fun p q => p.1 = q.1 /\ loads p.2 = Ret q.2) d m.

Lemma pickled_dset d m k v e :
  pickled d m -> loads v = Ret e -> pickled (dset k v d) (dset k e m).
Proof.
  intros H He. induction H as [|[k1 v1] [k2 e2] d m [E1 E2] H IH]; cbn in *.
  { by repeat constructor. }
  subst k2. case_decide; constructor; auto.
Qed.

Lemma pickled_ddel d m k : pickled d m -> pickled (ddel k d) (ddel k m).
Proof.
  intros H. induction H as [|[k1 v1] [k2 e2] d m [E1 E2] H IH]; cbn in *; [by constructor|].
  subst k2. case_decide; [done|]. constructor; auto.
Qed.

Lemma pickled_dget d m k :
  pickled d m -> (exists v e, dget k d = Some v /\ dget k m = Some e) \/
    (dget k d = None /\ dget k m = None).
Proof.
  intros H. induction H as [|[k1 v1] [k2 e2] d m [E1 E2] H IH]; cbn in *; [by right|].
  subst k2. case_decide; [left; eauto|done].
Qed.

Lemma unpickle_pickled d m : pickled d m -> unpickle loads (dvalues d) = Ret (dvalues m).
Proof.
  intros H. unfold dvalues. induction H as [|[k1 v1] [k2 e2] d m [E1 E2] H IH]; [done|].
  cbn in *. by rewrite E2, IH.
Qed.

(** What was pickled is unpickled. *)
Context (pickles : forall e v, dumps e = Ret v -> loads v = Ret e).

(** [base] is what the file held when the store was opened. *)
Record implements (base : list (string * list (string * V))) (p : promise E)
    (s : json_store V) : Prop := {
  im_known : is_Some (dget "emergencies" base);
  im_state : exists own kept, pickled own (p_own p) /\ pickled kept (p_kept p) /\
    if p_attached p then p_kept p = p_own p /\ own = kept /\
      linked ["emergencies"] s (dset "emergencies" kept base)
    else loose "emergencies" s (dset "emergencies" kept base) own }.

Lemma implements_file base p s :
  implements base p s -> exists kept, pickled kept (p_kept p) /\
    s_file s = Some (dset "emergencies" kept base).
Proof.
  intros [_ (own & kept & _ & H & Hs)]. exists kept. split; [done|].
  destruct (p_attached p); [by destruct Hs as (_ & _ & [])|by destruct Hs].
Qed.

Lemma implements_contents base p s :
  implements base p s -> exists own, pickled own (p_own p) /\
    contents "emergencies" s = (Ret own, s).
Proof.
  intros [_ (own & kept & H & _ & Hs)]. exists own. split; [done|].
  destruct (p_attached p).
  - destruct Hs as (_ & -> & L). apply (contents_linked _ _ _ _ _ L); [by left|].
    apply dget_dset_eq.
  - by apply (contents_loose _ _ _ _ Hs).
Qed.

(** A change of the dictionary that the map follows. *)
Lemma implements_change base p s f g :
  (forall own, pickled own (p_own p) -> contents "emergencies" s = (Ret own, s) ->
     pickled (f own) (g (p_own p))) ->
  implements base p s ->
  exists s', (change "emergencies" f ;;; _update_persistence) s = (Ret tt, s') /\
    implements base (put g p) s'.
Proof.
  intros Hfg H. destruct (implements_contents base p s H) as (own' & H1' & Ec).
  specialize (Hfg own' H1' Ec). destruct H as [K (own & kept & H1 & H2 & Hs)].
  unfold put. destruct (p_attached p) eqn:Ea.
  - destruct Hs as (Em & -> & L).
    destruct (change_linked _ _ _ "emergencies" f kept L) as (s' & E' & L').
    { by left. }
    { apply dget_dset_eq. }
    rewrite dset_dset in L'. exists s'. split; [done|]. split; [done|].
    rewrite (contents_linked _ _ _ "emergencies" kept L) in Ec;
      [|by left|apply dget_dset_eq]. injection Ec as <-.
    exists (f kept), (f kept). cbn. eauto 10.
  - destruct (change_loose _ _ _ _ f Hs) as (s' & E' & L'). exists s'. split; [done|].
    rewrite (contents_loose _ _ _ _ Hs) in Ec. injection Ec as <-.
    split; [done|]. exists (f own), kept. cbn. eauto.
Qed.

Lemma save_implements base p s e :
  implements base p s -> exists o s' p', save_emergency uid dumps e s = (o, s') /\
    spec_save e p = (o, p') /\ implements base p' s'.
Proof using pickles.
  intros H. unfold save_emergency, spec_save. destruct (dumps e) as [v|x] eqn:Ev.
  - destruct (implements_change base p s (dset (uid e) v) (dset (uid e) e)) as (s' & E' & H').
    { intros own Ho _. apply pickled_dset; auto. }
    { done. }
    exists (Ret tt), s', (put (dset (uid e) e) p). split; [|done].
    apply try_except_ret. by rewrite (run_bind (of_outcome (Ret v)) _ s v s eq_refl).
  - unfold try_except, try_with.
    rewrite (run_bind_exn (of_outcome (Exn x)) _ s x s eq_refl).
    destruct (is_Exception x) eqn:Ex; eauto 10.
Qed.

Lemma delete_implements base p s e :
  implements base p s -> exists o s' p', delete_emergency uid e s = (o, s') /\
    spec_delete e p = (o, p') /\ implements base p' s'.
Proof.
  intros H. destruct (implements_contents base p s H) as (own & Ho & Ec).
  unfold delete_emergency, spec_delete. rewrite (run_bind _ _ _ _ _ Ec).
  rewrite (run_bind (gets p_own) _ p (p_own p) p eq_refl). unfold py_del.
  destruct (pickled_dget own (p_own p) (uid e) Ho) as [(v & e' & -> & ->)|[-> ->]].
  2:{ by exists (Exn KeyError), s, p. }
  destruct (implements_change base p s (fun _ => ddel (uid e) own) (ddel (uid e)))
    as (s' & E' & H').
  { intros own' Ho' Ec'. rewrite Ec in Ec'. injection Ec' as <-. by apply pickled_ddel. }
  { done. }
  by exists (Ret tt), s', (put (ddel (uid e)) p).
Qed.

Lemma all_implements base p s :
  implements base p s -> exists o s' p', get_all_emergencies loads s = (o, s') /\
    spec_all p = (o, p') /\ implements base p' s'.
Proof.
  intros [K (own & kept & H1 & H2 & Hs)].
  assert (Hl : exists l, dget "emergencies" (h_attrs (s_holder s)) = Some l /\
    h_heap (s_holder s) !! l = Some own /\
    s_file s = Some (dset "emergencies" kept base)).
  { destruct (p_attached p).
    - destruct Hs as (_ & -> & L).
      destruct (linked_value _ _ _ "emergencies" kept L) as (l & ? & _ & ?);
        [by left|apply dget_dset_eq|]. exists l. split; [done|]. split; [done|]. by destruct L.
    - destruct Hs as [F _ (l & ? & ? & _)]. by exists l. }
  destruct Hl as (l & Hl & Hv & F).
  destruct (load_loose "emergencies" s _ l own F Hl Hv) as (s' & E' & L').
  eexists (Ret _), s', _. split; [|split; [reflexivity|]].
  - unfold get_all_emergencies. rewrite (run_bind _ _ _ _ _ E').
    rewrite (run_bind _ _ _ _ _ (contents_loose _ _ _ _ L')).
    by rewrite (unpickle_pickled _ _ H1).
  - split; [done|]. exists own, kept. auto.
Qed.

Lemma answer_implements base p s r :
  implements base p s -> exists o s' p', answer r s = (o, s') /\
    spec_answer r p = (o, p') /\ implements base p' s'.
Proof using pickles.
  intros H. destruct r as [e|e|]; cbn [answer spec_answer].
  - destruct (save_implements base p s e H) as ([[]|x] & s' & p' & E1 & E2 & H').
    + exists (Ret []), s', p'. by rewrite (run_bind _ _ _ _ _ E1), (run_bind _ _ _ _ _ E2).
    + exists (Exn x), s', p'. by rewrite (run_bind_exn _ _ _ _ _ E1), (run_bind_exn _ _ _ _ _ E2).
  - destruct (delete_implements base p s e H) as ([[]|x] & s' & p' & E1 & E2 & H').
    + exists (Ret []), s', p'. by rewrite (run_bind _ _ _ _ _ E1), (run_bind _ _ _ _ _ E2).
    + exists (Exn x), s', p'. by rewrite (run_bind_exn _ _ _ _ _ E1), (run_bind_exn _ _ _ _ _ E2).
  - by apply all_implements.
Qed.

Lemma answers_implement base rs p s :
  implements base p s ->
  (answers_of answer rs s).1 = (answers_of spec_answer rs p).1 /\
  implements base (answers_of spec_answer rs p).2 (answers_of answer rs s).2.
Proof using pickles.
  revert p s. induction rs as [|r rs IH]; intros p s H; [done|]. cbn.
  destruct (answer_implements base p s r H) as (o & s' & p' & -> & -> & H').
  destruct (IH p' s' H') as [E1 E2].
  destruct (answers_of answer rs s'), (answers_of spec_answer rs p'). cbn in *.
  split; [by f_equal|done].
Qed.

(** A store that is opened holds what the file held, nothing where there was none. *)
Definition file_of (base : list (string * list (string * V))) (s : json_store V) : Prop :=
  s_file s = Some base \/ (s_file s = None /\ base = [("emergencies", [])]).

Lemma open_implements base dv m s :
  file_of base s -> dget "emergencies" base = Some dv -> pickled dv m ->
  exists s', open_emergencies s = (Ret tt, s') /\ implements base (mkPromise m m true) s'.
Proof.
  intros Hf Hd Hm.
  assert (Ef : found [("emergencies", [])] s = base).
  { unfold found. destruct Hf as [->|[-> ->]]; done. }
  destruct (open_store_linked [("emergencies", [])] ["emergencies"] s) as (s' & Eo & L).
  { rewrite Ef. repeat constructor. by rewrite Hd. }
  exists s'. split; [done|]. split; [by rewrite Hd|]. exists dv, dv. cbn.
  rewrite Ef in L. split; [done|]. split; [done|]. split; [done|]. split; [done|].
  replace (dset "emergencies" dv base) with base; [done|]. clear -Hd.
  induction base as [|[k v] base IH]; [done|]. cbn in *. case_decide; [by simplify_eq|].
  by rewrite <- IH.
Qed.


(** * Restarts *)

(** A new controller on the same file, and its answer. *)
Definition restarted : M (json_store V) (list E) :=
  open_emergencies ;;; get_all_emergencies loads.

Lemma restart_finds_kept base p s :
  implements base p s -> (restarted s).1 = Ret (dvalues (p_kept p)).
Proof.
  intros H. destruct (implements_file base p s H) as (kept & Hk & F).
  destruct (open_implements (dset "emergencies" kept base) kept (p_kept p) s) as (s' & Eo & H').
  { by left. }
  { apply dget_dset_eq. }
  { done. }
  destruct (all_implements _ _ _ H') as (o & s2 & p2 & E1 & [= <- <-] & _).
  unfold restarted. rewrite (run_bind _ _ _ _ _ Eo). by rewrite E1.
Qed.

Lemma answers_of_app {S} (step : request -> M S (list E)) rs1 rs2 s :
  (answers_of step (rs1 ++ rs2) s).2 = (answers_of step rs2 (answers_of step rs1 s).2).2.
Proof.
  revert s. induction rs1 as [|r rs1 IH]; intros s; [done|]. cbn.
  destruct (step r s) as [o s1]. specialize (IH s1).
  destruct (answers_of step (rs1 ++ rs2) s1), (answers_of step rs1 s1). exact IH.
Qed.

(** The map alone: it does not depend on what is kept. *)
Definition remembered (rs : list request) (m : list (string * E)) : list (string * E) :=
  p_own (answers_of spec_answer rs (mkPromise m m true)).2.

Lemma spec_answer_own r p :
  p_own (spec_answer r p).2 = p_own (spec_answer r (mkPromise (p_own p) (p_own p) true)).2.
Proof.
  destruct r as [e|e|]; cbn [spec_answer]; unfold spec_save, spec_delete, spec_all.
  - destruct (dumps e) as [v|x]; [done|]. by destruct (is_Exception x).
  - py_run. cbn [p_own]. by destruct (dget (uid e) (p_own p)).
  - done.
Qed.

Lemma remembered_own rs p : p_own (answers_of spec_answer rs p).2 = remembered rs (p_own p).
Proof.
  unfold remembered. revert p. induction rs as [|r rs IH]; intros p; [done|]. cbn.
  pose proof (spec_answer_own r p) as H. destruct (spec_answer r p) as [o p1].
  destruct (spec_answer r (mkPromise (p_own p) (p_own p) true)) as [o' p1'].
  cbn in H. pose proof (IH p1) as H1. pose proof (IH p1') as H2. rewrite <- H in H2.
  rewrite <- H2 in H1. by destruct (answers_of spec_answer rs p1), (answers_of spec_answer rs p1').
Qed.

(** Until all emergencies are asked for the two are the same, and after that nothing more
    is kept. *)
Lemma spec_attached rs p :
  GetAll ∉ rs -> p_attached p = true -> p_kept p = p_own p ->
  p_kept (answers_of spec_answer rs p).2 = p_own (answers_of spec_answer rs p).2.
Proof.
  revert p. induction rs as [|r rs IH]; intros p Hn Ha Hk; [done|]. cbn.
  apply not_elem_of_cons in Hn as [Hr Hn].
  assert (H : p_attached (spec_answer r p).2 = true /\
    p_kept (spec_answer r p).2 = p_own (spec_answer r p).2).
  { destruct p as [own kept a]. cbn in Ha. subst a.
    destruct r as [e|e|]; cbn [spec_answer]; unfold spec_save, spec_delete; [| |done].
    - destruct (dumps e) as [v|x]; [done|by destruct (is_Exception x)].
    - py_run. cbn [p_own]. by destruct (dget (uid e) own). }
  destruct (spec_answer r p) as [o p1]. destruct H as [H1 H2]. specialize (IH p1 Hn H1 H2).
  by destruct (answers_of spec_answer rs p1).
Qed.

Lemma spec_detached rs p :
  p_attached p = false -> p_kept (answers_of spec_answer rs p).2 = p_kept p.
Proof.
  revert p. induction rs as [|r rs IH]; intros p Ha; [done|]. cbn.
  assert (H : p_attached (spec_answer r p).2 = false /\ p_kept (spec_answer r p).2 = p_kept p).
  { destruct p as [own kept a]. cbn in Ha. subst a.
    destruct r as [e|e|]; cbn [spec_answer]; unfold spec_save, spec_delete; [| |done].
    - destruct (dumps e) as [v|x]; [done|by destruct (is_Exception x)].
    - py_run. cbn [p_own]. by destruct (dget (uid e) own). }
  destruct (spec_answer r p) as [o p1]. destruct H as [H1 <-]. specialize (IH p1 H1).
  by destruct (answers_of spec_answer rs p1).
Qed.

Lemma spec_listed rs1 rs2 p :
  p_kept (answers_of spec_answer (rs1 ++ GetAll :: rs2) p).2 =
  p_kept (answers_of spec_answer rs1 p).2.
Proof.
  rewrite answers_of_app. destruct (answers_of spec_answer rs1 p) as [os [o k a]].
  cbn [snd]. pose proof (spec_detached rs2 (mkPromise o k false) eq_refl) as H.
  change (answers_of spec_answer (GetAll :: rs2) (mkPromise o k a)) with
    (let '(os', s2) := answers_of spec_answer rs2 (mkPromise o k false) in
     (Ret (dvalues o) :: os', s2)).
  by destruct (answers_of spec_answer rs2 (mkPromise o k false)).
Qed.
End Promise.
Arguments Save {E}.
Arguments Delete {E}.
Arguments GetAll {E}.

(** * Theorems *)

(** C24: the store of the emergencies implements its promise, a map from uids to events
    beside the map a restart will find: opened on a file that holds a map, or on none, it
    answers every sequence of requests as the promise does, an event that can not be
    pickled and a uid that is not there included, and the file always holds what the
    promise keeps, with everything else it held. *)
Theorem emergencies_refine_promise {E V : Type} uid dumps loads base dv m (s : json_store V) :
  (forall (e : E) v, dumps e = Ret v -> loads v = Ret e) ->
  file_of base s -> dget "emergencies" base = Some dv -> pickled loads dv m ->
  exists s1, open_emergencies s = (Ret tt, s1) /\ forall rs,
    let store := answers_of (answer uid dumps loads) rs s1 in
    let spec := answers_of (spec_answer uid dumps) rs (mkPromise m m true) in
    store.1 = spec.1 /\ exists kept, pickled loads kept (p_kept spec.2) /\
      s_file store.2 = Some (dset "emergencies" kept base).
Proof.
  intros Hp Hf Hd Hm. destruct (open_implements loads base dv m s Hf Hd Hm) as (s1 & Eo & H).
  exists s1. split; [done|]. intros rs.
  destruct (answers_implement uid dumps loads Hp base rs _ _ H) as [E1 H1].
  split; [done|]. by apply implements_file in H1.
Qed.

Lemma emergencies_refine_promise_witness :
  exists s1, open_emergencies (mkStore None (mkHolder [] [] [])) = (Ret tt, s1) /\ forall rs,
    let store := answers_of (answer id Ret Ret) rs s1 in
    let spec := answers_of (spec_answer id (@Ret string)) rs (mkPromise [] [] true) in
    store.1 = spec.1 /\ exists kept, pickled Ret kept (p_kept spec.2) /\
      s_file store.2 = Some (dset "emergencies" kept [("emergencies", [])]).
Proof.
  apply (emergencies_refine_promise (E := string) (V := string) id Ret Ret
    [("emergencies", [])] [] [] (mkStore None (mkHolder [] [] []))).
  - by intros e v [= ->].
  - by right.
  - reflexivity.
  - constructor.
Defined.

(** C25: what is saved survives a restart, until the emergencies are listed (which happens
    whenever a client connects).  After the first listing the store goes on answering as
    if it saved and deleted, but nothing it is told reaches the file: a restart finds the
    emergencies as they were when they were first listed. *)
Theorem listed_emergencies_are_final {E V : Type} uid dumps loads base dv m
    (s s1 : json_store V) rs1 rs2 :
  (forall (e : E) v, dumps e = Ret v -> loads v = Ret e) ->
  file_of base s -> dget "emergencies" base = Some dv -> pickled loads dv m ->
  open_emergencies s = (Ret tt, s1) -> GetAll ∉ rs1 ->
  let before := (answers_of (answer uid dumps loads) rs1 s1).2 in
  let after := (answers_of (answer uid dumps loads) (rs1 ++ GetAll :: rs2) s1).2 in
  (restarted loads before).1 = Ret (dvalues (remembered uid dumps rs1 m)) /\
  (restarted loads after).1 = Ret (dvalues (remembered uid dumps rs1 m)) /\
  (get_all_emergencies loads after).1 =
    Ret (dvalues (remembered uid dumps (rs1 ++ GetAll :: rs2) m)).
Proof.
  intros Hp Hf Hd Hm Eo Hn before after.
  destruct (open_implements loads base dv m s Hf Hd Hm) as (s1' & Eo' & H).
  rewrite Eo in Eo'. injection Eo' as <-.
  destruct (answers_implement uid dumps loads Hp base rs1 _ _ H) as [_ H1].
  destruct (answers_implement uid dumps loads Hp base (rs1 ++ GetAll :: rs2) _ _ H) as [_ H2].
  assert (Ek : p_kept (answers_of (spec_answer uid dumps) rs1 (mkPromise m m true)).2 =
    remembered uid dumps rs1 m) by (by apply spec_attached).
  subst before after. split; [|split].
  - rewrite (restart_finds_kept loads _ _ _ H1). by rewrite Ek.
  - rewrite (restart_finds_kept loads _ _ _ H2). do 2 f_equal.
    by rewrite spec_listed.
  - destruct (all_implements loads _ _ _ H2) as (o & s2 & p2 & -> & [= <- <-] & _).
    done.
Qed.

Lemma listed_emergencies_are_final_witness :
  let s := mkStore None (mkHolder [] [] []) in
  let s1 := (open_emergencies (V := string) s).2 in
  let before := (answers_of (answer id Ret Ret) [Save "a"; Save "b"; Delete "a"] s1).2 in
  let after := (answers_of (answer id Ret Ret)
    ([Save "a"; Save "b"; Delete "a"] ++ GetAll :: [Save "c"; Delete "b"]) s1).2 in
  (restarted Ret before).1 = Ret ["b"] /\ (restarted Ret after).1 = Ret ["b"] /\
  (get_all_emergencies Ret after).1 = Ret ["c"].
Proof.
  apply (listed_emergencies_are_final (E := string) (V := string) id Ret Ret
    [("emergencies", [])] [] [] (mkStore None (mkHolder [] [] [])) _
    [Save "a"; Save "b"; Delete "a"] [Save "c"; Delete "b"]).
  - by intros e v [= ->].
  - by right.
  - reflexivity.
  - constructor.
  - reflexivity.
  - intros H. repeat (apply elem_of_cons in H as [[=]|H]). by apply not_elem_of_nil in H.
Defined.

(** None of the stores copied from the template can be opened.  A new file has the
    name of the component for its only key and the key "components" is read: the
    constructor raises [KeyError], however often it is tried, and all it leaves is the
    file. *)
Theorem component_stores_never_open name n (s : json_store string) :
  name ∈ component_stores -> s_file s = None ->
  let tried := Nat.iter n (fun s => (open_components name s).2) s in
  (open_components name tried).1 = Exn KeyError /\
  s_file (open_components name tried).2 = Some [(name, [])].
Proof.
  intros Hn Hs.
  assert (Hne : dget "components" [(name, @nil (string * string))] = None).
  { cbn. rewrite decide_False; [done|]. intros <-. revert Hn.
    apply (bool_decide_unpack _). exact Logic.I. }
  assert (Hopen : forall t : json_store string,
    found [(name, [])] t = [(name, [])] ->
    (open_components name t).1 = Exn KeyError /\
    s_file (open_components name t).2 = Some [(name, [])]).
  { intros t Ht. destruct (run_open_store [(name, [])] ["components"] t) as (t1 & L & _ & E).
    rewrite Ht in L. destruct L as [F Dr _ _ _]. unfold open_components. rewrite E.
    cbn [for_each]. rewrite <- Dr, dget_deref in Hne.
    destruct (dget "components" (h_persistence (s_holder t1))) as [l|] eqn:El; [done|].
    py_run. rewrite El. done. }
  intros tried. apply Hopen. subst tried. induction n as [|n IH].
  - unfold found. cbn [Nat.iter nat_rect]. by rewrite Hs.
  - rewrite Nat.iter_succ. destruct (Hopen _ IH) as [_ E]. unfold found. by rewrite E.
Qed.

Lemma component_stores_never_open_witness :
  (open_components "repeater" (mkStore None (mkHolder [] [] []))).1 = Exn KeyError /\
  s_file (open_components "repeater" (mkStore None (mkHolder [] [] []))).2 =
    Some [("repeater", [])].
Proof.
  apply (component_stores_never_open "repeater" 0 (mkStore None (mkHolder [] [] [])));
    [by left|reflexivity].
Defined.

(** * Types *)

Lemma dict_update_get mapping d k :
  dget k (dict_update mapping d) =
  match dget k (rev mapping) with Some t => Some t | None => dget k d end.
Proof. apply dget_fold_dset_rev. Qed.

(** The name is one of the two attributes. *)
Ltac own_type := apply (bool_decide_unpack _); exact Logic.I.

(** Types that are registered are answered, the last registration of a name before
    the others, the names registered before and the default of the caller as before; and
    a controller opened on the file afterwards answers the same. *)
Theorem registered_types_are_answered d h2m mapping s s1 :
  found [(machine_to_human, []); (human_to_machine, [])] s = d ->
  is_Some (dget machine_to_human d) -> dget human_to_machine d = Some h2m ->
  open_types s = (Ret tt, s1) ->
  exists s2, register_human_to_machine_mapping mapping s1 = (Ret tt, s2) /\
    forall name other, let t := match dget name (rev mapping), dget name h2m with
        | Some t, _ => Some t
        | None, Some t => Some t
        | None, None => other
        end in
      (get_machine_readable_type name other s2).1 = Ret t /\
      ((open_types ;;; get_machine_readable_type name other) s2).1 = Ret t.
Proof.
  intros Hd Hm Hh Eo.
  assert (Hopen : forall t d', found [(machine_to_human, []); (human_to_machine, [])] t = d' ->
    is_Some (dget machine_to_human d') -> is_Some (dget human_to_machine d') ->
    exists t', open_types t = (Ret tt, t') /\
      linked [machine_to_human; human_to_machine] t' d').
  { intros t d' <- H1 H2. apply open_store_linked. by repeat constructor. }
  assert (Hget : forall t d' m name other, linked [machine_to_human; human_to_machine] t d' ->
    dget human_to_machine d' = Some m ->
    get_machine_readable_type name other t =
      (Ret match dget name m with Some x => Some x | None => other end, t)).
  { intros t d' m name other L H. unfold get_machine_readable_type.
    rewrite (run_bind _ _ _ _ _ (contents_linked _ _ _ human_to_machine _ L ltac:(own_type) H)). done. }
  destruct (Hopen s d Hd Hm ltac:(by rewrite Hh)) as (s1' & E1 & L1).
  rewrite Eo in E1. injection E1 as <-.
  destruct (change_linked _ _ _ human_to_machine (dict_update mapping) h2m L1
    ltac:(own_type) Hh) as (s2 & E2 & L2).
  exists s2. split; [exact E2|]. intros name other t.
  assert (Et : match dget name (dict_update mapping h2m) with Some x => Some x | None => other end
    = t).
  { subst t. rewrite dict_update_get. by destruct (dget name (rev mapping)). }
  split.
  - rewrite (Hget _ _ _ _ _ L2 (dget_dset_eq _ _ _)). by rewrite Et.
  - destruct (Hopen s2 (dset human_to_machine (dict_update mapping h2m) d)) as (s3 & E3 & L3).
    + unfold found. by rewrite (li_file _ _ _ L2).
    + by rewrite dget_dset_ne.
    + by rewrite dget_dset_eq.
    + rewrite (run_bind _ _ _ _ _ E3), (Hget _ _ _ _ _ L3 (dget_dset_eq _ _ _)). by rewrite Et.
Qed.


Lemma registered_types_are_answered_witness :
  let s := mkStore None (mkHolder [] [] []) in
  let s1 := (open_types s).2 in
  exists s2, register_human_to_machine_mapping [("EmergencyAlert", "b-a-o-tbl")] s1 =
      (Ret tt, s2) /\
    forall name other, let t := match dget name [("EmergencyAlert", "b-a-o-tbl")],
          dget name (@nil (string * string)) with
        | Some t, _ => Some t
        | None, Some t => Some t
        | None, None => other
        end in
      (get_machine_readable_type name other s2).1 = Ret t /\
      ((open_types ;;; get_machine_readable_type name other) s2).1 = Ret t.
Proof.
  apply (registered_types_are_answered [(machine_to_human, []); (human_to_machine, [])] []
    [("EmergencyAlert", "b-a-o-tbl")] (mkStore None (mkHolder [] [] [])));
    [reflexivity|by eexists|reflexivity|reflexivity].
Defined.
