(* ===== verification/CotManagement.v ===== *)
(** The management of CoTs ([core/cot_management/controllers]): messages that are repeated
    to clients who connect, geo objects, whom a message is for, and the default handling
    of a message. *)
From stdpp Require Import base strings list.
From Stdlib Require Import ZArith Lia.
From S2P Require Import Prelude.
From S2P Require Import DomainNode.
From S2P Require Import DictToNode.

Set Default Proof Using "Type".
Local Open Scope list_scope.
Local Open Scope string_scope.
Local Open Scope py_scope.

(** Whom a response is for: "*" or the object ids of connections. *)
Inductive recipients := Everyone | These (oids : list string).

(** * Repeated messages *)

Section Repeater.
(** Events, [str(event.uid)], and [pickle]: what it has written of a dictionary, whether
    it raised then, and what it reads. *)
Context {E : Type} (uid : E -> string).
Context (dump : list (string * E) -> string * option exn).
Context (load : string -> outcome (list (string * E))).

(** The values of requests and responses that matter here. *)
Inductive value :=
  | VNodes (l : list (option E))
  | VNode (o : option E)
  | VRecipients (r : recipients)
  | VTrue
  | VOther (s : string).

(** The file of the repeated messages, the request and response of the controller and the
    action its response is for. *)
Record controller := mkController {
  c_file : option string;
  c_request : list (string * value);
  c_response : list (string * value);
  c_action : option string }.

Abbreviation MR := (M controller).

Definition set_c_file (f : option string) (c : controller) : controller :=
  mkController f (c_request c) (c_response c) (c_action c).
Definition request_set (k : string) (v : value) : MR unit :=
  modify (fun c => mkController (c_file c) (dset k v (c_request c)) (c_response c) (c_action c)).
Definition response_set (k : string) (v : value) : MR unit :=
  modify (fun c => mkController (c_file c) (c_request c) (dset k v (c_response c)) (c_action c)).
Definition set_action (a : string) : MR unit :=
  modify (fun c => mkController (c_file c) (c_request c) (c_response c) (Some a)).

(** The file is emptied before anything is pickled. *)
Definition _save_repeated_messages (messages : list (string * E)) : MR unit :=
  modify (set_c_file (Some "")) ;;;
  let '(written, raised) := dump messages in
  modify (set_c_file (Some written)) ;;;
  match raised with Some e => raise e | None => mret tt end.

Definition _load_repeated_messages : MR (list (string * E)) :=
  try_with
    (file <- gets c_file ;;
     bytes <- of_option FileNotFoundError file ;;
     try_with (of_outcome (load bytes)) (fun e =>
       if decide (e = EOFError) then _save_repeated_messages [] ;;; mret [] else raise e))
    (fun e =>
      if decide (e = FileNotFoundError) then _save_repeated_messages [] ;;; mret []
      else raise e).

Definition copy_request : MR unit :=
  values <- gets c_request ;; for_each values (fun p => response_set p.1 p.2).

Definition connected_user : MR unit :=
  message <- _load_repeated_messages ;;
  response_set "message" (VNodes (Some <$> dvalues message)) ;;;
  set_action "publish" ;;;
  copy_request.

Definition get_repeated_messages : MR unit :=
  messages <- _load_repeated_messages ;;
  response_set "message" (VNodes (Some <$> dvalues messages)) ;;;
  copy_request.

Definition create_repeated_messages (message : list E) : MR unit :=
  cur_messages <- _load_repeated_messages ;;
  _save_repeated_messages (fold_left (fun d node => dset (uid node) node d) message cur_messages) ;;;
  response_set "success" VTrue.

Definition delete_repeated_message (ids : list string) : MR unit :=
  cur_messages <- _load_repeated_messages ;;
  _save_repeated_messages (fold_left (fun d id => ddel id d) ids cur_messages) ;;;
  response_set "success" VTrue.

(** * Geo objects *)

(** The sub-actions: [CreateNode] answers a node; [DictToNode] fills it, and answers
    [None] when that fails or when the request does not name the class, an exception the
    facade of the domain swallows. *)
Context (created filled : option E).

Definition dict_to_node : MR (option E) :=
  r <- gets c_request ;;
  mret (match dget "object_class_name" r with Some _ => filled | None => None end).

Definition node_uid (o : option E) : MR string :=
  match o with Some e => mret (uid e) | None => raise AttributeError end.

Definition create_geo_object (dictionary : value) (repeated : bool) : MR unit :=
  request_set "object_class_name" (VOther "Event") ;;;
  request_set "configuration" (VOther "geoobject") ;;;
  request_set "dictionary" dictionary ;;;
  request_set "model_object" (VNode created) ;;;
  model_obj <- dict_to_node ;;
  response_set "message" (VNodes [model_obj]) ;;;
  response_set "recipients" (VRecipients Everyone) ;;;
  (if repeated then
     match model_obj with
     | Some e => create_repeated_messages [e]
     | None => _load_repeated_messages ;;; raise AttributeError
     end
   else mret tt) ;;;
  copy_request ;;;
  set_action "publish".

Definition delete_geo_object (dictionary : value) (repeated : bool) : MR unit :=
  response_set "object_class_name" (VOther "Event") ;;;
  request_set "configuration" (VOther "deletegeoobject") ;;;
  request_set "dictionary" dictionary ;;;
  request_set "model_object" (VNode created) ;;;
  model_obj <- dict_to_node ;;
  response_set "message" (VNodes [model_obj]) ;;;
  response_set "recipients" (VRecipients Everyone) ;;;
  (if repeated then id <- node_uid model_obj ;; delete_repeated_message [id] else mret tt) ;;;
  copy_request ;;;
  set_action "publish".
End Repeater.
Arguments value : clear implicits.
Arguments controller : clear implicits.

(** * Messages of clients *)

Section Default.
Context (lib : library) (D : list domain_class).

Abbreviation MN := (M node).

(** The node an attribute is. *)
Definition child_at (name : string) : MN nat :=
  v <- getattr lib D name ;;
  match v with Some (GNode i) => mret i | _ => raise AttributeError end.

(** [node.name.sub...]: what is done in the node below. *)
Definition below {A} (name : string) (m : MN A) : MN A :=
  i <- child_at name ;; in_child i m.

(** [detail.marti.dest], and what is done in each of the destinations. *)
Definition dests : MN (list nat) :=
  below "detail" (below "marti" (
    v <- getattr lib D "dest" ;;
    match v with Some (GNodes l) => mret l | _ => raise AttributeError end)).

Definition in_dest {A} (i : nat) (m : MN A) : MN A :=
  below "detail" (below "marti" (in_child i m)).

Fixpoint map_each {A B} (l : list A) (f : A -> MN B) : MN (list B) :=
  match l with
  | [] => mret []
  | a :: l => b <- f a ;; rest <- map_each l f ;; mret (b :: rest)
  end.

Definition attr (name : string) : MN gval :=
  v <- getattr lib D name ;; of_option AttributeError v.

(** [==] of a callsign of the message and one of a connection. *)
Definition same_callsign (a : gval) (b : option string) : bool :=
  match a, b with
  | GRaw XNone, None => true
  | GRaw (XText s), Some t => bool_decide (s = t)
  | _, _ => false
  end.

(** [hasattr(model_object.detail, "marti")]. *)
Definition has_marti : MN bool :=
  d <- getattr lib D "detail" ;;
  match d with Some (GNode i) => in_child i (hasattr lib D "marti") | _ => mret false end.

Definition addressed (callsign : gval) (connections : list (string * option string)) :
    list string :=
  fst <$> filter (fun con => same_callsign callsign con.2 = true) connections.

(** [connections] are those the sub-action answers: object ids and callsigns. *)
Definition get_recipients (connections : option (list (string * option string))) :
    MN recipients :=
  has <- has_marti ;;
  if negb has then mret Everyone else
  l <- dests ;;
  match l with
  | [] => mret Everyone
  | i :: _ =>
      first <- in_dest i (attr "callsign") ;;
      match first with
      | GRaw XNone => mret Everyone
      | _ =>
          cons <- of_option TypeError connections ;;
          oids <- map_each l (fun i =>
            c <- in_dest i (attr "callsign") ;; mret (addressed c cons)) ;;
          mret (These (mjoin oids))
      end
  end.

(** What handling a message does elsewhere: rows of the database, and requests to the
    missions with their values. *)
Inductive errand :=
  | SaveCoT (n : node)
  | CreateMissionCOT (mission_ids : list gval) (uid : gval)
  | CreateMissionGeoFence (mission_ids : list gval)
      (cot_type callsign uid lat lon iconset_path : gval) (xml_content : option string).

(** What the sub-actions answer ([None] where they failed, which their facades swallow):
    the outline of the event, the connections, the recipients among the values of
    [ValidateUsers], the XML of a document; and what the database and the request to the
    missions raise. *)
Record manager := mkManager {
  created_node : option node;
  all_connections : option (list (string * option string));
  validate_users : recipients -> option recipients;
  dict_to_xml : list (string * xval) -> option string;
  save_raises : node -> option exn;
  process_raises : option exn }.
Context (w : manager).

(** The message while it is handled, and what has been done elsewhere. *)
Record handling := mkHandling { h_message : node; h_errands : list errand }.

Abbreviation MH := (M handling).

Definition perform (e : errand) (raises : option exn) : MH unit :=
  match raises with
  | Some x => raise x
  | None => modify (fun h => mkHandling (h_message h) (h_errands h ++ [e])%list)
  end.

(** A computation on the message, which may change it. *)
Definition on {A} (m : MN A) : MH A := fun h =>
  let '(o, n) := m (h_message h) in (o, mkHandling n (h_errands h)).

(** The missions of the destinations. *)
Definition missions : MN (list gval) :=
  d <- getattr lib D "detail" ;;
  match d with
  | Some (GRaw XNone) => mret []
  | _ =>
      l <- dests ;;
      ms <- map_each l (fun i => in_dest i (attr "mission")) ;;
      mret (List.filter (fun m => match m with GRaw XNone => false | _ => true end) ms)
  end.

Definition is_type (v : gval) (t : string) : bool :=
  match v with GRaw (XText s) => bool_decide (s = t) | _ => false end.

Definition create_mission_cot (mission_ids : list gval) : MH unit :=
  uid <- on (attr "uid") ;;
  perform (CreateMissionCOT mission_ids uid) (process_raises w).

Definition create_mission_geo_fence (mission_ids : list gval) (cot_type : gval)
    (cot_xml : option string) : MH unit :=
  callsign <- on (below "detail" (below "contact" (attr "callsign"))) ;;
  uid <- on (attr "uid") ;;
  lat <- on (below "point" (attr "lat")) ;;
  lon <- on (below "point" (attr "lon")) ;;
  icon <- on (below "detail" (below "usericon" (attr "iconsetpath"))) ;;
  perform (CreateMissionGeoFence mission_ids cot_type callsign uid lat lon icon cot_xml)
    (process_raises w).

Definition cot_event_chain_of_command (cot_dict : list (string * xval)) : MH unit :=
  ms <- on missions ;;
  match ms with
  | [] => mret tt
  | _ =>
      n <- gets h_message ;;
      perform (SaveCoT n) (save_raises w n) ;;;
      let cot_xml := dict_to_xml w cot_dict in
      t <- on (attr "type") ;;
      if is_type t "b-i-v" then create_mission_cot ms
      else if is_type t "u-d-c-c" then create_mission_geo_fence ms t cot_xml
      else create_mission_cot ms
  end.

(** The recipients of the response, of which the message is the [h_message].  A document
    that can not be converted leaves no model object, of which [detail] is read. *)
Definition handle_default_cot (dictionary : list (string * xval)) : MH (option recipients) :=
  n <- of_option AttributeError (created_node w) ;;
  modify (fun h => mkHandling n (h_errands h)) ;;;
  converted <- try_except (on (convert_dict_to_node lib D "Event" dictionary))
    (fun _ => mret false) ;;
  if negb converted then raise AttributeError else
  r <- on (get_recipients (all_connections w)) ;;
  let validated := validate_users w r in
  cot_event_chain_of_command dictionary ;;;
  mret validated.
End Default.
