(* ===== verification/Emergency.v ===== *)
(** The emergency component ([components/extended/emergency/controllers]): whom an
    emergency is for, and the emergencies a new client is sent. *)
From Stdlib Require Import ZArith Lia Ascii String QArith.
From stdpp Require Import base strings list.
From S2P Require Import Prelude.
From S2P Require Import DomainNode.
From S2P Require Import DictToNode.
From S2P Require Import CotManagement.

Set Default Proof Using "Type".
Local Open Scope list_scope.
Local Open Scope string_scope.
Local Open Scope py_scope.

(** The latitude and the longitude of a point, as its attributes have them. *)
Record position := mkPosition { lat : xval; lon : xval }.

Section Emergency.
(** Events and connections: the object id of a connection, and what reading
    [connection.model_object.point] and [emergency.point] does. *)
Context {E C : Type} (get_oid : C -> string).
Context (connection_point : C -> outcome position) (event_point : E -> outcome position).

(** The kilometers between two points ([geopy]), and the setting of the radius. *)
Context (geodesic_km : xval * xval -> xval * xval -> outcome Q) (EmergencyRadius : Z).

(** The values of requests and responses; [AOther] is one that is only handed on. *)
#[local] Unset Elimination Schemes.
Inductive aval :=
  | ANone
  | AEvent (e : E)
  | AConn (c : C)
  | AText (s : string)
  | AList (l : list aval)
  | AOther (s : string).
#[local] Set Elimination Schemes.
Definition avalues := list (string * aval).
Definition get_avalue (k : string) (v : avalues) : aval := default ANone (dget k v).

(** What a sub-action answers to the values of the request, and what is found of a
    configuration: other components, and DigitalPy. *)
Context (sub_action : string -> avalues -> outcome avalues).
Context (find_configuration : string -> outcome aval).

(** The request and the response of a controller, and the action of the response. *)
Record alert := mkAlert {
  a_request : avalues;
  a_response : avalues;
  a_action : option string }.

Abbreviation MA := (M alert).

Definition request_put (k : string) (v : aval) : MA unit :=
  modify (fun a => mkAlert (dset k v (a_request a)) (a_response a) (a_action a)).
Definition response_put (k : string) (v : aval) : MA unit :=
  modify (fun a => mkAlert (a_request a) (dset k v (a_response a)) (a_action a)).
Definition response_action (s : string) : MA unit :=
  modify (fun a => mkAlert (a_request a) (a_response a) (Some s)).
Definition execute_sub_action (action : string) : MA avalues :=
  q <- gets a_request ;; of_outcome (sub_action action q).

(** [for key, value in response.get_values().items(): self.response.set_value(key, value)]. *)
Definition copy_values (v : avalues) : MA unit := for_each v (fun p => response_put p.1 p.2).

(** [for x in v], and [v.append(x)]. *)
Definition elements (v : aval) : outcome (list aval) :=
  match v with
  | AList l => Ret l
  | AText s => Ret (List.map (fun c => AText (String c EmptyString)) (list_ascii_of_string s))
  | _ => Exn TypeError
  end.
Definition appended (v x : aval) : outcome aval :=
  match v with AList l => Ret (AList (l ++ [x])) | _ => Exn AttributeError end.

Definition append_to_request (k : string) (x : aval) : MA unit :=
  q <- gets a_request ;; v <- of_outcome (appended (get_avalue k q) x) ;; request_put k v.
Definition append_to_response (k : string) (x : aval) : MA unit :=
  r <- gets a_response ;; v <- of_outcome (appended (get_avalue k r) x) ;; response_put k v.

Definition location_of (v : aval) : outcome position :=
  match v with AConn c => connection_point c | _ => Exn AttributeError end.
Definition point_of (v : aval) : outcome position :=
  match v with AEvent e => event_point e | _ => Exn AttributeError end.
Definition oid_of (v : aval) : outcome aval :=
  match v with AConn c => Ret (AText (get_oid c)) | _ => Exn AttributeError end.

(** * The general controller *)

Definition retrieve_users : MA aval :=
  sub_response <- execute_sub_action "GetAllConnections" ;; mret (get_avalue "connections" sub_response).

Definition validate_user_distance (emergency connection : aval) : MA bool :=
  connection_location <- of_outcome (location_of connection) ;;
  if Z.eqb EmergencyRadius 0 then mret true
  else
    point <- of_outcome (point_of emergency) ;;
    km <- of_outcome (geodesic_km (lat connection_location, lon connection_location) (lat point, lon point)) ;;
    mret (negb (Qle_bool (inject_Z EmergencyRadius) km)).

Definition filter_by_distance (emergency : aval) : MA unit :=
  if Z.eqb EmergencyRadius 0 then request_put "recipients" (AText "*")
  else
    connections <- retrieve_users ;;
    l <- of_outcome (elements connections) ;;
    for_each l (fun connection_obj =>
      b <- validate_user_distance emergency connection_obj ;;
      if (b : bool) then
        oid <- of_outcome (oid_of connection_obj) ;; append_to_request "recipients" oid
      else mret tt).

(** The type of an event, and the event with another one. *)
Context (event_type : E -> aval) (with_type : E -> aval -> E).

(** The event as it is afterwards. *)
Definition convert_type (model_object : aval) : MA aval :=
  match model_object with
  | AEvent e =>
      request_put "human_readable_type" (event_type e) ;;;
      response <- execute_sub_action "ConvertHumanReadableToMachineReadable" ;;
      mret (AEvent (with_type e (get_avalue "machine_readable_type" response)))
  | _ => raise AttributeError
  end.

(** [m[i]] is this event from now on. *)
Definition event_at (i : nat) (e m : aval) : aval :=
  match m with AList m => AList (<[i := e]> m) | _ => m end.

(** The events of the message, from the [i]-th on, are converted where they are: the lists of
    the response and of the request have the same objects.  (The store has them, too, and
    changes with them; that is not followed here.) *)
Fixpoint convert_messages (i : nat) (l : list aval) : MA unit :=
  match l with
  | [] => mret tt
  | emergency :: l =>
      e <- convert_type emergency ;;
      r <- gets a_response ;; response_put "message" (event_at i e (get_avalue "message" r)) ;;;
      q <- gets a_request ;; request_put "message" (event_at i e (get_avalue "message" q)) ;;;
      convert_messages (S i) l
  end.

(** * The handlers *)

(** The event of the document in the request, from the sub-actions that create its node and
    fill it. *)
Definition parse_event (configuration_name : string) (extended_domain : option aval) : MA aval :=
  request_put "object_class_name" (AText "Event") ;;;
  configuration <- of_outcome (find_configuration configuration_name) ;;
  request_put "configuration" configuration ;;;
  match extended_domain with Some d => request_put "extended_domain" d | None => mret tt end ;;;
  q <- gets a_request ;;
  request_put "source_format" (get_avalue "source_format" q) ;;;
  request_put "target_format" (AText "node") ;;;
  response <- execute_sub_action "CreateNode" ;;
  request_put "model_object" (get_avalue "model_object" response) ;;;
  response <- execute_sub_action "DictToNode" ;;
  copy_values response ;;;
  let event := get_avalue "model_object" response in
  request_put "message" event ;;;
  response_put "message" (AList [event]) ;;;
  mret event.

Definition parse_emergency_on : MA unit :=
  event <- parse_event "emergency_alert" (Some (AOther "emergency")) ;;
  request_put "recipients" (AList []) ;;;
  filter_by_distance event ;;;
  response <- execute_sub_action "ValidateUsers" ;;
  copy_values response ;;;
  response_action "publish".

Definition parse_emergency_off : MA unit :=
  event <- parse_event "emergency_delete" None ;;
  request_put "recipients" (AText "*") ;;;
  response <- execute_sub_action "ValidateUsers" ;;
  copy_values response ;;;
  response_action "publish".

(** What [ValidateUsers] answers is not looked at. *)
Definition send_emergencies_to_client (user : aval) : MA unit :=
  response <- execute_sub_action "GetAllEmergencies" ;;
  let emergencies := get_avalue "emergencies" response in
  request_put "object_class_name" (AText "Event") ;;;
  configuration <- of_outcome (find_configuration "emergency_alert") ;;
  request_put "configuration" configuration ;;;
  response_put "message" (AList []) ;;;
  request_put "message" (AList []) ;;;
  response_put "recipients" (AList []) ;;;
  l <- of_outcome (elements emergencies) ;;
  for_each l (fun emergency =>
    b <- validate_user_distance emergency user ;;
    if (b : bool) then
      oid <- of_outcome (oid_of user) ;;
      append_to_response "recipients" oid ;;;
      append_to_response "message" emergency ;;;
      append_to_request "message" emergency
    else mret tt) ;;;
  execute_sub_action "ValidateUsers" ;;;
  r <- gets a_response ;;
  l <- of_outcome (elements (get_avalue "message" r)) ;;
  convert_messages 0 l ;;;
  response_action "publish".
End Emergency.
