(* ===== verification/ManagementProps.v ===== *)
(** Properties of emergencies: whom they are for, and what a new client is sent, together
    with what the CoT service makes of such recipients.  Properties of the management of
    CoTs: the messages that are repeated, whom a message is for, and messages that are
    dropped. *)
From Stdlib Require Import ZArith Lia Ascii String QArith.
From stdpp Require Import base strings list sets pretty countable.
From S2P Require Import Prelude.
From S2P Require Import CotData.
From S2P Require Import CotState.
From S2P Require Import SendData.
From S2P Require Import CotFacts.
From S2P Require Import CotSend.
From S2P Require Import DomainNode.
From S2P Require Import DomainClasses.
From S2P Require Import DictToNode.
From S2P Require Import DomainFacts.
From S2P Require Import ConvertFacts.
From S2P Require Import WriteFacts.
From S2P Require Import FillFacts.
From S2P Require Import DomainProps.
From S2P Require Import DomainErrors.
From S2P Require Import CotManagement.
From S2P Require Import Emergency.

Set Default Proof Using "Type".
Local Open Scope list_scope.
Local Open Scope string_scope.
Local Open Scope py_scope.

Section Facts.
Context {E C : Type} (get_oid : C -> string).
Context (connection_point : C -> outcome position) (event_point : E -> outcome position).
Context (geodesic_km : xval * xval -> xval * xval -> outcome Q) (radius : Z).

Abbreviation validate := (validate_user_distance connection_point event_point geodesic_km radius).

(** The kilometers from a connection to an event, where both have a position. *)
Definition away (c : C) (e : E) (km : Q) : Prop := exists p q,
  connection_point c = Ret p /\ event_point e = Ret q /\ geodesic_km (lat p, lon p) (lat q, lon q) = Ret km.

(** What is less than the radius away. *)
Definition within (km : Q) : bool := if Qlt_le_dec km (inject_Z radius) then true else false.

Lemma validate_run c e km (a : alert) : radius <> 0%Z -> away c e km ->
  validate (AEvent e) (AConn c) a = (Ret (within km), a).
Proof.
  intros Hr (p & q & Hp & Hq & Hkm). unfold validate_user_distance. cbn [location_of]. rewrite Hp.
  erewrite run_bind by reflexivity. rewrite (proj2 (Z.eqb_neq _ _) Hr). cbn [point_of]. rewrite Hq.
  erewrite run_bind by reflexivity. rewrite Hkm. erewrite run_bind by reflexivity.
  unfold within. destruct (Qlt_le_dec km (inject_Z radius)) as [Hlt|Hle]; unfold mret, M_ret; do 2 f_equal.
  - apply negb_true_iff. destruct (Qle_bool (inject_Z radius) km) eqn:E0; [|done].
    apply Qle_bool_iff in E0. exfalso. by apply (Qlt_not_le _ _ Hlt).
  - apply negb_false_iff. by apply Qle_bool_iff.
Qed.

Lemma get_avalue_put (k k' : string) (v : aval (E := E) (C := C)) q :
  get_avalue k (dset k' v q) = if decide (k = k') then v else get_avalue k q.
Proof.
  unfold get_avalue. case_decide; [subst; by rewrite dget_dset_eq|by rewrite dget_dset_ne].
Qed.

(** The connections that are within the radius are appended to the recipients. *)
Lemma connections_filtered (km : C -> Q) cons e l q r act :
  radius <> 0%Z -> (forall c, c ∈ cons -> away c e (km c)) -> get_avalue "recipients" q = AList l ->
  exists q', for_each (AConn <$> cons) (fun c =>
      b <- validate (AEvent e) c ;;
      if (b : bool) then oid <- of_outcome (oid_of get_oid c) ;; append_to_request "recipients" oid
      else mret tt) (mkAlert q r act) = (Ret tt, mkAlert q' r act) /\
    get_avalue "recipients" q' =
      AList (l ++ (AText <$> (get_oid <$> List.filter (fun c => within (km c)) cons))) /\
    forall k, k <> "recipients" -> get_avalue k q' = get_avalue k q.
Proof.
  intros Hr. revert l q. induction cons as [|c cons IH]; intros l q Hc Hl.
  { exists q. rewrite app_nil_r. done. }
  cbn [fmap list_fmap for_each List.filter].
  pose proof (validate_run c e (km c) (mkAlert q r act) Hr (Hc c ltac:(left))) as Ev.
  destruct (within (km c)) eqn:Ew.
  - set (q1 := dset "recipients" (AList (l ++ [AText (get_oid c)])%list) q).
    destruct (IH (l ++ [AText (get_oid c)])%list q1) as (q' & Eq & Hq' & Ho);
      [set_solver|unfold q1; by rewrite get_avalue_put, decide_True|].
    exists q'. split; [|split].
    + rewrite (run_bind _ _ _ tt (mkAlert q1 r act)); [exact Eq|].
      rewrite (run_bind _ _ _ _ _ Ev). erewrite run_bind by reflexivity. unfold append_to_request.
      erewrite run_bind by reflexivity. cbn [a_request]. rewrite Hl. by erewrite run_bind by reflexivity.
    + rewrite Hq', <- app_assoc. done.
    + intros k Hk. rewrite Ho by done. unfold q1. by rewrite get_avalue_put, decide_False.
  - destruct (IH l q) as (q' & Eq & Hq' & Ho); [set_solver|done|]. exists q'. split; [|done].
    rewrite (run_bind _ _ _ tt (mkAlert q r act)); [exact Eq|]. by rewrite (run_bind _ _ _ _ _ Ev).
Qed.

Lemma copy_values_run (v : avalues (E := E) (C := C)) q r act :
  copy_values v (mkAlert q r act) = (Ret tt, mkAlert q (dupdate r v) act).
Proof.
  unfold copy_values, dupdate. revert r. induction v as [|[k x] v IH]; intros r; [done|].
  cbn [for_each fold_left]. erewrite run_bind by reflexivity. apply IH.
Qed.

(** The emergencies that are due to a client are appended to the message, and the client to
    the recipients each time. *)
Lemma emergencies_collected (km : E -> Q) es user l m q r act :
  radius <> 0%Z -> (forall e, e ∈ es -> away user e (km e)) ->
  get_avalue "recipients" r = AList l -> get_avalue "message" r = AList m ->
  (exists m', get_avalue "message" q = AList m') ->
  let due := List.filter (fun e => within (km e)) es in
  exists q' r', for_each (AEvent <$> es) (fun e =>
      b <- validate e (AConn user) ;;
      if (b : bool) then
        oid <- of_outcome (oid_of get_oid (AConn user)) ;;
        append_to_response "recipients" oid ;;;
        append_to_response "message" e ;;;
        append_to_request "message" e
      else mret tt) (mkAlert q r act) = (Ret tt, mkAlert q' r' act) /\
    get_avalue "recipients" r' = AList (l ++ replicate (length due) (AText (get_oid user))) /\
    get_avalue "message" r' = AList (m ++ (AEvent <$> due)).
Proof.
  intros Hr. revert l m q r. induction es as [|e es IH]; intros l m q r He Hl Hm (m' & Hm').
  { exists q, r. cbn. by rewrite !app_nil_r. }
  cbn [fmap list_fmap for_each List.filter].
  pose proof (validate_run user e (km e) (mkAlert q r act) Hr (He e ltac:(left))) as Ev.
  destruct (within (km e)) eqn:Ew.
  - set (r1 := dset "message" (AList (m ++ [AEvent e])%list) (dset "recipients" (AList (l ++ [AText (get_oid user)])%list) r)).
    set (q1 := dset "message" (AList (m' ++ [AEvent e])%list) q).
    destruct (IH (l ++ [AText (get_oid user)])%list (m ++ [AEvent e])%list q1 r1) as (q' & r' & Eq & H1' & H2').
    { set_solver. }
    { unfold r1. by rewrite !get_avalue_put, decide_False, decide_True by done. }
    { unfold r1. by rewrite !get_avalue_put, decide_True by done. }
    { eexists. unfold q1. by rewrite get_avalue_put, decide_True. }
    exists q', r'. split; [|split].
    + rewrite (run_bind _ _ _ tt (mkAlert q1 r1 act)); [exact Eq|].
      rewrite (run_bind _ _ _ _ _ Ev). erewrite run_bind by reflexivity.
      set (r0 := dset "recipients" (AList (l ++ [AText (get_oid user)])%list) r).
      rewrite (run_bind (append_to_response _ _) _ _ tt (mkAlert q r0 act)).
      2:{ unfold append_to_response. erewrite run_bind by reflexivity. cbn [a_response]. rewrite Hl.
          by erewrite run_bind by reflexivity. }
      rewrite (run_bind (append_to_response _ _) _ _ tt (mkAlert q r1 act)).
      2:{ unfold append_to_response. erewrite run_bind by reflexivity. cbn [a_response].
          unfold r0 at 1. rewrite get_avalue_put, decide_False, Hm by done.
          by erewrite run_bind by reflexivity. }
      unfold append_to_request. erewrite run_bind by reflexivity. cbn [a_request]. rewrite Hm'.
      by erewrite run_bind by reflexivity.
    + rewrite H1', <- app_assoc. done.
    + rewrite H2', <- app_assoc. done.
  - destruct (IH l m q r) as (q' & r' & Eq & H1' & H2'); [set_solver|done|done|by exists m'|].
    exists q', r'. split; [|done].
    rewrite (run_bind _ _ _ tt (mkAlert q r act)); [exact Eq|]. by rewrite (run_bind _ _ _ _ _ Ev).
Qed.
End Facts.

(** Appending the connections of the list of recipients that are near: the filter of a
    request that asks for nobody yet. *)
Lemma filter_run {E C : Type} (get_oid : C -> string) cp ep geo radius (sub : string -> avalues -> outcome avalues)
    (answer : avalues -> avalues) (km : C -> Q) cons (e : E) q r act :
  radius <> 0%Z -> (forall c, c ∈ cons -> away cp ep geo c e (km c)) ->
  (forall q, sub "GetAllConnections" q = Ret (answer q) /\
     get_avalue "connections" (answer q) = AList (AConn <$> cons)) ->
  get_avalue "recipients" q = AList [] ->
  exists q', filter_by_distance get_oid cp ep geo radius sub (AEvent e) (mkAlert q r act) =
      (Ret tt, mkAlert q' r act) /\
    get_avalue "recipients" q' =
      AList (AText <$> (get_oid <$> List.filter (fun c => within radius (km c)) cons)) /\
    forall k, k <> "recipients" -> get_avalue k q' = get_avalue k q.
Proof.
  intros Hr Hc Hs Hq.
  destruct (connections_filtered get_oid cp ep geo radius km cons e [] q r act Hr Hc Hq) as (q' & Eq & H').
  exists q'. split; [|exact H']. unfold filter_by_distance. rewrite (proj2 (Z.eqb_neq _ _) Hr).
  destruct (Hs q) as [H1' H2'].
  rewrite (run_bind _ _ _ (AList (AConn <$> cons)) (mkAlert q r act)); [by erewrite run_bind by reflexivity|].
  unfold retrieve_users, execute_sub_action. erewrite run_bind.
  2:{ erewrite run_bind by reflexivity. cbn [a_request]. rewrite H1'. reflexivity. }
  unfold mret, M_ret. by rewrite H2'.
Qed.

(** What a dictionary was updated with. *)
Lemma get_avalue_updated {E C : Type} (r v : avalues (E := E) (C := C)) k x :
  NoDup (dkeys v) -> dget k v = Some x -> get_avalue k (dupdate r v) = x.
Proof. intros Hn Hx. unfold get_avalue, dupdate. by rewrite dget_fold_dset_rev, dget_rev, Hx. Qed.

(** C34: with a radius set an emergency is for the connections that are less than it away,
    by the distance from the latitude and longitude of the connection to those of the event:
    [ValidateUsers] is asked with exactly those, in the order of the connections, what it
    answers is put over the response, and the event is published.  But when it answers that
    there are none, the empty list that says so is the one the CoT services send to
    everybody.  (The sub-actions answer, and connections and event have positions.) *)
Theorem emergency_goes_to_those_near {E C : Type} (get_oid : C -> string) cp ep geo radius
    (sub : string -> avalues -> outcome avalues) (answer : string -> avalues -> avalues)
    find conf (km : C -> Q) cons (e : E) a :
  radius <> 0%Z -> find "emergency_alert" = Ret conf ->
  (forall n q, sub n q = Ret (answer n q)) ->
  (forall q, get_avalue "connections" (answer "GetAllConnections" q) = AList (AConn <$> cons)) ->
  (forall q, get_avalue "model_object" (answer "DictToNode" q) = AEvent e) ->
  (forall c, c ∈ cons -> away cp ep geo c e (km c)) ->
  let oids := get_oid <$> List.filter (fun c => within radius (km c)) cons in
  exists q0 q a', parse_emergency_on get_oid cp ep geo radius sub find a = (Ret tt, a') /\
    get_avalue "recipients" q = AList (AText <$> oids) /\ get_avalue "message" q = AEvent e /\
    a_request a' = q /\ a_action a' = Some "publish" /\
    a_response a' = dupdate (dset "message" (AList [AEvent e])
      (dupdate (a_response a) (answer "DictToNode" q0))) (answer "ValidateUsers" q) /\
    forall rs, NoDup (dkeys (answer "ValidateUsers" q)) ->
      dget "recipients" (answer "ValidateUsers" q) = Some (AList (AText <$> rs)) ->
      get_avalue "recipients" (a_response a') = AList (AText <$> rs) /\
      (rs = [] -> forall w b s, os_sockets w ->
         let everybody := tc_sock <$> dvalues (cot_connections s) in
         send_message w (Bytes b) (Some rs) s =
           (Ret tt, advance (broadcast w (is_closed s) (now s) everybody b) (length everybody) s)).
Proof.
  intros Hr Hf Hs Hcons Hev Haway oids.
  assert (Esub : forall n b, execute_sub_action sub n b = (Ret (answer n (a_request b)), b)).
  { intros n b. unfold execute_sub_action. erewrite run_bind by reflexivity. by rewrite Hs. }
  assert (Hp : exists q0 q1, parse_event sub find "emergency_alert" (Some (AOther "emergency")) a =
    (Ret (AEvent e), mkAlert (dset "message" (AEvent e) q1)
      (dset "message" (AList [AEvent e]) (dupdate (a_response a) (answer "DictToNode" q0))) (a_action a))).
  { unfold parse_event. erewrite run_bind by reflexivity. rewrite Hf.
    do 6 (erewrite run_bind by reflexivity). erewrite run_bind by apply Esub.
    erewrite run_bind by reflexivity. erewrite run_bind by apply Esub.
    erewrite run_bind by apply copy_values_run. cbn [a_request]. rewrite Hev.
    do 2 (erewrite run_bind by reflexivity). do 2 eexists. reflexivity. }
  destruct Hp as (q0 & q1 & Hp).
  set (r := dset "message" (AList [AEvent e]) _) in Hp.
  destruct (filter_run get_oid cp ep geo radius sub (answer "GetAllConnections") km cons e
    (dset "recipients" (AList []) (dset "message" (AEvent e) q1)) r (a_action a) Hr Haway)
    as (q & Eq & Hq & Ho).
  { intros q. split; [apply Hs|apply Hcons]. }
  { by rewrite get_avalue_put, decide_True. }
  exists q0, q. eexists. split; [|split; [exact Hq|split]].
  - unfold parse_emergency_on. rewrite (run_bind _ _ _ _ _ Hp). erewrite run_bind by reflexivity.
    cbn [a_request a_response a_action]. rewrite (run_bind _ _ _ _ _ Eq). erewrite run_bind by apply Esub.
    erewrite run_bind by apply copy_values_run. reflexivity.
  - rewrite Ho by done. by rewrite get_avalue_put, decide_False, get_avalue_put, decide_True.
  - cbn [a_request a_response a_action]. do 3 (split; [done|]). intros rs Hn Hrs. split; [by apply get_avalue_updated|].
    intros -> w b s Hw. exact (send_message_run w b (Some []) s Hw).
Qed.

(** For instances: events are their places, connections a name and a place on the equator, and
    a degree is 111 kilometers. *)
Definition place (s : string) : xval := XText s.
Definition on_equator {A} (f : A -> string) (x : A) : outcome position := Ret (mkPosition (place "0") (place (f x))).
Definition equator_km (p q : xval * xval) : outcome Q :=
  match p.2, q.2 with
  | XText s, XText t => if String.eqb s t then Ret 0%Q else Ret 111%Q
  | _, _ => Exn External
  end.

Definition equator_answer (cons : list (string * string)) (n : string)
    (q : avalues (E := string) (C := string * string)) : avalues :=
  if String.eqb n "GetAllConnections" then [("connections", AList (AConn <$> cons))]
  else if String.eqb n "ValidateUsers" then [("recipients", get_avalue "recipients" q)]
  else [("model_object", AEvent "7")].

Lemma emergency_goes_to_those_near_witness :
  let cons := [("A", "7"); ("B", "8"); ("C", "7")] in
  let a := mkAlert [] [] None in
  exists q0 q a', parse_emergency_on fst (on_equator snd) (on_equator id) equator_km 10
      (fun n q => Ret (equator_answer cons n q)) (fun _ => Ret (AOther "conf")) a = (Ret tt, a') /\
    get_avalue "recipients" q = AList (AText <$> ["A"; "C"]) /\ get_avalue "message" q = AEvent "7" /\
    a_request a' = q /\ a_action a' = Some "publish" /\
    a_response a' = dupdate (dset "message" (AList [AEvent "7"])
      (dupdate (a_response a) (equator_answer cons "DictToNode" q0))) (equator_answer cons "ValidateUsers" q) /\
    forall rs, NoDup (dkeys (equator_answer cons "ValidateUsers" q)) ->
      dget "recipients" (equator_answer cons "ValidateUsers" q) = Some (AList (AText <$> rs)) ->
      get_avalue "recipients" (a_response a') = AList (AText <$> rs) /\
      (rs = [] -> forall w b s, os_sockets w ->
         let everybody := tc_sock <$> dvalues (cot_connections s) in
         send_message w (Bytes b) (Some rs) s =
           (Ret tt, advance (broadcast w (is_closed s) (now s) everybody b) (length everybody) s)).
Proof.
  refine (emergency_goes_to_those_near fst (on_equator snd) (on_equator id) equator_km 10
    (fun n q => Ret (equator_answer [("A", "7"); ("B", "8"); ("C", "7")] n q))
    (equator_answer [("A", "7"); ("B", "8"); ("C", "7")]) (fun _ => Ret (AOther "conf")) (AOther "conf")
    (fun c => if String.eqb (snd c) "7" then 0%Q else 111%Q) [("A", "7"); ("B", "8"); ("C", "7")] "7"
    (mkAlert [] [] None) _ eq_refl (fun _ _ => eq_refl) (fun _ => eq_refl) (fun _ => eq_refl) _).
  - discriminate.
  - intros c Hc. do 2 eexists. split; [reflexivity|]. split; [reflexivity|].
    cbn. by destruct (String.eqb (snd c) "7").
Defined.

Section Sent.
Context {E C : Type} (get_oid : C -> string).
Context (cp : C -> outcome position) (ep : E -> outcome position).
Context (geo : xval * xval -> xval * xval -> outcome Q) (radius : Z).
Context (answer : string -> avalues (E := E) (C := C) -> avalues (E := E) (C := C)).
Context (event_type : E -> aval (E := E) (C := C)) (with_type : E -> aval (E := E) (C := C) -> E).

(** Events with the type that machines read. *)
Context (machine : aval (E := E) (C := C) -> aval (E := E) (C := C)).
Context (converts : forall q, get_avalue "machine_readable_type" (answer "ConvertHumanReadableToMachineReadable" q) =
  machine (get_avalue "human_readable_type" q)).
Definition for_machines (e : E) : E := with_type e (machine (event_type e)).

Abbreviation sub := (fun n q => Ret (answer n q)).

Lemma conversion_run es pre a :
  get_avalue "message" (a_response a) = AList (pre ++ (AEvent <$> es)) ->
  exists a', convert_messages sub event_type with_type (length pre) (AEvent <$> es) a = (Ret tt, a') /\
    get_avalue "message" (a_response a') = AList (pre ++ (AEvent <$> (for_machines <$> es))) /\
    get_avalue "recipients" (a_response a') = get_avalue "recipients" (a_response a) /\
    a_action a' = a_action a.
Proof using converts.
  revert pre a. induction es as [|e es IH]; intros pre a Ha; [by exists a|].
  destruct a as [q r act]. cbn [a_response] in Ha. cbn [fmap list_fmap convert_messages] in *.
  set (r1 := dset "message" (event_at (length pre) (AEvent (for_machines e)) (get_avalue "message" r)) r).
  destruct (IH (pre ++ [AEvent (for_machines e)])%list (mkAlert
    (dset "message" (event_at (length pre) (AEvent (for_machines e)) (get_avalue "message"
       (dset "human_readable_type" (event_type e) q))) (dset "human_readable_type" (event_type e) q)) r1 act))
    as (a' & Ea & Hm & Hre & Hac).
  { cbn [a_response]. unfold r1. rewrite get_avalue_put, decide_True, Ha by done. cbn [event_at].
    rewrite <- (Nat.add_0_r (length pre)), insert_app_r. cbn. by rewrite <- app_assoc. }
  exists a'. split; [|split; [|split]].
  - rewrite (run_bind _ _ _ (AEvent (for_machines e)) (mkAlert (dset "human_readable_type" (event_type e) q) r act)).
    2:{ unfold convert_type. erewrite run_bind by reflexivity. unfold execute_sub_action.
        rewrite (run_bind _ _ _ (answer "ConvertHumanReadableToMachineReadable"
          (dset "human_readable_type" (event_type e) q))
          (mkAlert (dset "human_readable_type" (event_type e) q) r act)) by done.
        rewrite converts, get_avalue_put, decide_True by done. reflexivity. }
    do 4 (erewrite run_bind by reflexivity). rewrite length_app in Ea. cbn [length] in Ea.
    rewrite Nat.add_1_r in Ea. exact Ea.
  - rewrite Hm, <- app_assoc. done.
  - rewrite Hre. cbn [a_response]. unfold r1. by rewrite get_avalue_put, decide_False.
  - exact Hac.
Qed.

(** C35: A client who connects is named as a recipient once for each emergency that is within the
    radius of it.  So the CoT service offers it each of the messages as many times as there
    are messages. *)
Theorem emergencies_are_sent_repeatedly find conf (km : E -> Q) es user a :
  radius <> 0%Z -> find "emergency_alert" = Ret conf ->
  (forall q, get_avalue "emergencies" (answer "GetAllEmergencies" q) = AList (AEvent <$> es)) ->
  (forall e, e ∈ es -> away cp ep geo user e (km e)) ->
  let due := List.filter (fun e => within radius (km e)) es in
  let oids := replicate (length due) (get_oid user) in
  (exists a', send_emergencies_to_client get_oid cp ep geo radius sub find event_type with_type
       (AConn user) a = (Ret tt, a') /\ a_action a' = Some "publish" /\
     get_avalue "message" (a_response a') = AList (AEvent <$> (for_machines <$> due)) /\
     get_avalue "recipients" (a_response a') = AList (AText <$> oids)) /\
  (due <> [] -> forall w b s c, os_sockets w -> dget (get_oid user) (cot_connections s) = Some c ->
     send_message w (Bytes b) (Some oids) s =
       (Ret tt, advance (broadcast w (is_closed s) (now s)
          (replicate (length due) (tc_sock c)) b) (length due) s)).
Proof using converts.
  intros Hr Hf Hes Haway due oids. split.
  - destruct a as [q r act].
    set (q1 := dset "message" (AList []) (dset "configuration" conf (dset "object_class_name" (AText "Event") q))).
    set (r1 := dset "recipients" (AList []) (dset "message" (AList []) r)).
    destruct (emergencies_collected get_oid cp ep geo radius km es user [] [] q1 r1 act Hr Haway)
      as (q2 & r2 & El & Hre & Hm).
    { unfold r1. by rewrite get_avalue_put, decide_True. }
    { unfold r1. by rewrite get_avalue_put, decide_False, get_avalue_put, decide_True. }
    { exists []. unfold q1. by rewrite get_avalue_put, decide_True. }
    fold due in Hre, Hm.
    destruct (conversion_run due [] (mkAlert q2 r2 act) Hm) as (a' & Ec & Hm' & Hre' & _).
    eexists. split; [|split; [|split]].
    + unfold send_emergencies_to_client, execute_sub_action.
      erewrite run_bind by (erewrite run_bind by reflexivity; reflexivity).
      erewrite run_bind by reflexivity. rewrite Hf. do 5 (erewrite run_bind by reflexivity).
      rewrite Hes. erewrite run_bind by reflexivity. rewrite (run_bind _ _ _ _ _ El).
      erewrite run_bind by (erewrite run_bind by reflexivity; reflexivity).
      erewrite run_bind by reflexivity. cbn [a_response]. rewrite Hm. erewrite run_bind by reflexivity.
      rewrite (run_bind _ _ _ _ _ Ec). reflexivity.
    + done.
    + exact Hm'.
    + cbn [a_response]. rewrite Hre'. cbn [a_response]. rewrite Hre. unfold oids. by rewrite fmap_replicate.
  - intros Hne w b s c Hw Hc. subst oids. destruct due as [|e l]; [done|]. cbn [length].
    rewrite send_message_run by done. cbn [replicate recipient_socks].
    assert (Es : forall n, omap (fun oid => tc_sock <$> dget oid (cot_connections s))
      (replicate n (get_oid user)) = replicate n (tc_sock c)).
    { induction n as [|n IH]; [done|]. cbn [replicate]. cbn. by rewrite Hc, IH. }
    change (get_oid user :: replicate (length l) (get_oid user)) with
      (replicate (S (length l)) (get_oid user)).
    rewrite Es. by rewrite length_replicate.
Qed.
End Sent.

Definition radio_answer (n : string) (q : avalues (E := string) (C := string * string)) :=
  if String.eqb n "GetAllEmergencies" then [("emergencies", AList (AEvent <$> ["7"; "8"; "7"]))]
  else [("machine_readable_type", get_avalue "human_readable_type" q)].

Lemma emergencies_are_sent_repeatedly_witness :
  let user := ("A", "7") in
  let oids := ["A"; "A"] in
  (exists a', send_emergencies_to_client fst (on_equator snd) (on_equator id) equator_km 10
       (fun n q => Ret (radio_answer n q)) (fun _ => Ret (AOther "conf")) AText (fun e _ => e)
       (AConn user) (mkAlert [] [] None) = (Ret tt, a') /\ a_action a' = Some "publish" /\
     get_avalue "message" (a_response a') = AList (AEvent <$> ["7"; "7"]) /\
     get_avalue "recipients" (a_response a') = AList (AText <$> oids)) /\
  (["7"; "7"] <> [] -> forall w b s c, os_sockets w -> dget "A" (cot_connections s) = Some c ->
     send_message w (Bytes b) (Some oids) s =
       (Ret tt, advance (broadcast w (is_closed s) (now s) (replicate 2 (tc_sock c)) b) 2 s)).
Proof.
  refine (emergencies_are_sent_repeatedly fst (on_equator snd) (on_equator id) equator_km 10 radio_answer
    AText (fun e _ => e) id (fun _ => eq_refl) (fun _ => Ret (AOther "conf")) (AOther "conf")
    (fun e => if String.eqb "7" e then 0%Q else 111%Q) ["7"; "8"; "7"] ("A", "7") (mkAlert [] [] None)
    _ eq_refl (fun _ => eq_refl) _).
  - discriminate.
  - intros e He. do 2 eexists. split; [reflexivity|]. split; [reflexivity|].
    unfold equator_km, id. cbn [lat lon fst snd place]. by destruct (String.eqb "7" e).
Defined.

(** * Repeated messages *)

Section Repeated.
Context {E : Type} (uid : E -> string).
Context (dump : list (string * E) -> string * option exn).
Context (load : string -> outcome (list (string * E))).

(** The file holds these messages: there is none, it is empty, or it was written. *)
Inductive stored (c : controller E) (d : list (string * E)) : Prop :=
  | stored_missing : c_file c = None -> d = [] -> stored c d
  | stored_empty b : c_file c = Some b -> load b = Exn EOFError -> d = [] -> stored c d
  | stored_pickled b : c_file c = Some b -> load b = Ret d -> stored c d.

Lemma stored_same c c' d : stored c d -> c_file c' = c_file c -> stored c' d.
Proof.
  intros [Hf Hd|b Hf Hb Hd|b Hf Hb] Hc.
  - apply stored_missing; congruence.
  - apply (stored_empty _ _ b); congruence.
  - apply (stored_pickled _ _ b); congruence.
Qed.

(** What else there is of a controller. *)
Definition same_values (c c' : controller E) : Prop :=
  c_request c' = c_request c /\ c_response c' = c_response c /\ c_action c' = c_action c.

(** Events are pickled, and read again. *)
Context (pickles : forall d, exists b, dump d = (b, None) /\ load b = Ret d).

Lemma save_run d c :
  exists c', _save_repeated_messages dump d c = (Ret tt, c') /\ stored c' d /\ same_values c c'.
Proof using pickles.
  destruct (pickles d) as (b & Eb & Hb). exists (set_c_file (Some b) c).
  unfold _save_repeated_messages. rewrite Eb. split; [done|]. split; [|done].
  by apply (stored_pickled _ _ b).
Qed.

Lemma load_run c d :
  stored c d -> exists c', _load_repeated_messages dump load c = (Ret d, c') /\
    stored c' d /\ same_values c c'.
Proof using pickles.
  intros H. unfold _load_repeated_messages. destruct H as [Hf ->|b Hf Hb ->|b Hf Hb].
  - destruct (save_run [] c) as (c' & Es & Hs & Hv). exists c'. split; [|done].
    unfold try_with at 1. rewrite (run_bind (gets c_file) _ c None c) by (unfold gets; by rewrite Hf).
    rewrite (run_bind_exn (of_option FileNotFoundError None) _ c FileNotFoundError c eq_refl).
    rewrite decide_True by done. by rewrite (run_bind _ _ _ _ _ Es).
  - destruct (save_run [] c) as (c' & Es & Hs & Hv). exists c'. split; [|done].
    unfold try_with. rewrite (run_bind (gets c_file) _ c (Some b) c) by (unfold gets; by rewrite Hf).
    rewrite (run_bind (of_option FileNotFoundError (Some b)) _ c b c eq_refl).
    unfold of_outcome. rewrite Hb, decide_True by done. by rewrite (run_bind _ _ _ _ _ Es).
  - exists c. split; [|split; [by apply (stored_pickled _ _ b)|done]].
    unfold try_with. rewrite (run_bind (gets c_file) _ c (Some b) c) by (unfold gets; by rewrite Hf).
    rewrite (run_bind (of_option FileNotFoundError (Some b)) _ c b c eq_refl).
    unfold of_outcome. by rewrite Hb.
Qed.

(** Requests about repeated messages, and what they make of the messages. *)
Inductive repeat_request := Create (message : list E) | DeleteIds (ids : list string) | GetRepeated.

Definition serve (r : repeat_request) : M (controller E) unit :=
  match r with
  | Create message => create_repeated_messages uid dump load message
  | DeleteIds ids => delete_repeated_message dump load ids
  | GetRepeated => get_repeated_messages dump load
  end.

Definition served (r : repeat_request) (d : list (string * E)) : list (string * E) :=
  match r with
  | Create message => fold_left (fun d node => dset (uid node) node d) message d
  | DeleteIds ids => fold_left (fun d id => ddel id d) ids d
  | GetRepeated => d
  end.

Lemma copy_request_run (c : controller E) :
  copy_request c = (Ret tt, mkController (c_file c) (c_request c)
    (fold_left (fun d p => dset p.1 p.2 d) (c_request c) (c_response c)) (c_action c)).
Proof.
  unfold copy_request. rewrite (run_bind (gets c_request) _ c _ c eq_refl).
  generalize (c_request c) at 1 3. intros l. destruct c as [f q r a].
  cbn [c_file c_request c_response c_action].
  revert r. induction l as [|[k v] l IH]; intros r; [done|]. cbn [for_each fold_left].
  rewrite (run_bind (response_set k v) _ (mkController f q r a) tt
    (mkController f q (dset k v r) a) eq_refl). apply IH.
Qed.

Lemma serve_run r c d :
  stored c d -> exists c', serve r c = (Ret tt, c') /\ stored c' (served r d) /\
    c_request c' = c_request c /\ c_action c' = c_action c.
Proof using pickles.
  intros H. destruct (load_run c d H) as (c1 & E1 & H1 & Q1 & R1 & A1).
  destruct r as [message|ids|]; cbn [serve served].
  - destruct (save_run (fold_left (fun d node => dset (uid node) node d) message d) c1)
      as (c2 & E2 & H2 & Q2 & _ & A2).
    exists (mkController (c_file c2) (c_request c2) (dset "success" VTrue (c_response c2))
      (c_action c2)).
    split; [|split; [|by split; cbn; congruence]].
    + unfold create_repeated_messages. rewrite (run_bind _ _ _ _ _ E1).
      by rewrite (run_bind _ _ _ _ _ E2).
    + by apply (stored_same c2).
  - destruct (save_run (fold_left (fun d id => ddel id d) ids d) c1)
      as (c2 & E2 & H2 & Q2 & _ & A2).
    exists (mkController (c_file c2) (c_request c2) (dset "success" VTrue (c_response c2))
      (c_action c2)).
    split; [|split; [|by split; cbn; congruence]].
    + unfold delete_repeated_message. rewrite (run_bind _ _ _ _ _ E1).
      by rewrite (run_bind _ _ _ _ _ E2).
    + by apply (stored_same c2).
  - eexists. split; [|split; [|split]].
    + unfold get_repeated_messages. rewrite (run_bind _ _ _ _ _ E1).
      erewrite run_bind by reflexivity. apply copy_request_run.
    + by apply (stored_same c1).
    + done.
    + done.
Qed.

Lemma serves_run rs c d :
  stored c d -> exists c', for_each rs serve c = (Ret tt, c') /\
    stored c' (fold_left (fun d r => served r d) rs d) /\
    c_request c' = c_request c /\ c_action c' = c_action c.
Proof using pickles.
  revert c d. induction rs as [|r rs IH]; intros c d H; [by exists c|].
  destruct (serve_run r c d H) as (c1 & E1 & H1 & Q1 & A1).
  destruct (IH c1 _ H1) as (c2 & E2 & H2 & Q2 & A2). exists c2.
  split; [cbn [for_each]; by rewrite (run_bind _ _ _ _ _ E1)|].
  split; [done|]. split; congruence.
Qed.
End Repeated.
Arguments Create {E}.
Arguments DeleteIds {E}.
Arguments GetRepeated {E}.

(** C26: repeated messages are a map from the uids of events to events, kept in the file:
    after any sequence of requests, on no file, an empty one or one that was written, a
    client who connects is sent exactly the events that were created and not deleted
    since, the last of each uid in the place of the first; the response is for the
    recipients of its request and says to publish (unless the request has a message of its
    own, which takes the place of the messages). *)
Theorem repeated_messages_are_a_map {E : Type} uid dump load rs (c : controller E) d :
  (forall d, exists b, dump d = (b, None) /\ load b = Ret d) -> stored load c d ->
  NoDup (dkeys (c_request c)) ->
  exists c1 c2, for_each rs (serve uid dump load) c = (Ret tt, c1) /\
    connected_user dump load c1 = (Ret tt, c2) /\
    let messages := fold_left (fun d r => served uid r d) rs d in
    stored load c2 messages /\ c_action c2 = Some "publish" /\
    dget "message" (c_response c2) =
      Some (default (VNodes (Some <$> dvalues messages)) (dget "message" (c_request c))) /\
    forall r, dget "recipients" (c_request c) = Some r ->
      dget "recipients" (c_response c2) = Some r.
Proof.
  intros Hp H Hn. destruct (serves_run uid dump load Hp rs c d H) as (c1 & E1 & H1 & Q1 & _).
  set (messages := fold_left _ rs d) in *.
  destruct (load_run dump load Hp c1 messages H1) as (c1' & E2 & H2 & Q2 & R2 & A2).
  exists c1. eexists. split; [done|]. split; [|split; [|split; [|split]]].
  - unfold connected_user. rewrite (run_bind _ _ _ _ _ E2).
    do 2 (erewrite run_bind by reflexivity). apply copy_request_run.
  - by apply (stored_same _ c1').
  - reflexivity.
  - cbn. rewrite dget_fold_dset_rev, dget_rev by (cbn; congruence). cbn.
    rewrite Q2, Q1. destruct (dget "message" (c_request c)); [done|].
    by rewrite dget_dset_eq.
  - intros r Hr. cbn. rewrite dget_fold_dset_rev, dget_rev by (cbn; congruence). cbn.
    by rewrite Q2, Q1, Hr.
Qed.

(** Pickling for an instance: the code of a dictionary in binary. *)
Fixpoint binary (p : positive) : string :=
  match p with
  | xI p => String "1"%char (binary p)
  | xO p => String "0"%char (binary p)
  | xH => "."
  end.
Fixpoint of_binary (s : string) : positive :=
  match s with
  | String "1"%char s => xI (of_binary s)
  | String "0"%char s => xO (of_binary s)
  | _ => xH
  end.

Definition plain_dump (d : list (string * string)) : string * option exn :=
  (binary (countable.encode d), None).
Definition plain_load (s : string) : outcome (list (string * string)) :=
  match countable.decode (of_binary s) with Some d => Ret d | None => Exn External end.

Lemma plain_pickles d : exists b, plain_dump d = (b, None) /\ plain_load b = Ret d.
Proof.
  eexists. split; [reflexivity|]. unfold plain_load.
  assert (E : forall p, of_binary (binary p) = p).
  { induction p as [p IH|p IH|]; cbn; [by rewrite IH..|done]. }
  by rewrite E, decode_encode.
Qed.

Lemma repeated_messages_are_a_map_witness :
  let c := mkController None [("recipients", VRecipients (These ["A"]))] [] None in
  let rs := [Create ["a"; "b"]; DeleteIds ["a"]; Create ["c"]] in
  exists c1 c2, for_each rs (serve id plain_dump plain_load) c = (Ret tt, c1) /\
    connected_user plain_dump plain_load c1 = (Ret tt, c2) /\
    stored plain_load c2 [("b", "b"); ("c", "c")] /\ c_action c2 = Some "publish" /\
    dget "message" (c_response c2) = Some (VNodes [Some "b"; Some "c"]) /\
    forall r, dget "recipients" (c_request c) = Some r ->
      dget "recipients" (c_response c2) = Some r.
Proof.
  apply (repeated_messages_are_a_map (E := string) id plain_dump plain_load
    [Create ["a"; "b"]; DeleteIds ["a"]; Create ["c"]]
    (mkController None [("recipients", VRecipients (These ["A"]))] [] None) [] plain_pickles).
  - by apply stored_missing.
  - apply NoDup_singleton.
Defined.

(** * Whom a message is for *)

Section Recipients.
Context (lib : library) (D : list domain_class).

Lemma in_child_same {A} (m : M node A) i n c o :
  n_children n !! i = Some c -> m c = (o, c) -> in_child i m n = (o, n).
Proof.
  intros Hc Hm. unfold in_child. rewrite Hc, Hm. cbn. f_equal. unfold set_children.
  rewrite list_insert_id by done. by destruct n.
Qed.

Lemma below_same {A} name (m : M node A) i n c o :
  getattr lib D name n = (Ret (Some (GNode i)), n) -> n_children n !! i = Some c ->
  m c = (o, c) -> below lib D name m n = (o, n).
Proof.
  intros E Hc Hm. unfold below, child_at.
  rewrite (run_bind _ _ n i n) by (by rewrite (run_bind _ _ _ _ _ E)).
  by apply (in_child_same _ _ _ c).
Qed.

Definition callsign_value (o : option string) : gval :=
  GRaw (match o with Some s => XText s | None => XNone end).

(** A message whose detail has a marti with destinations of these callsigns. *)
Inductive addressed_message (n : node) (ds : list (option string)) : Prop :=
  | addressed_to i d j m a cs :
      good D n -> shows D n "detail" (VChild i) -> n_children n !! i = Some d ->
      shows D d "marti" (VChild j) -> n_children d !! j = Some m ->
      find_accessor D (n_class m) "dest" = Some a -> a_get a = GetChildren cs ->
      Forall2 (fun k o => exists e, n_children m !! k = Some e /\
        getattr lib D "callsign" e = (Ret (Some (callsign_value o)), e)) (children_of cs m) ds ->
      addressed_message n ds.

Lemma shown_child n name i :
  good D n -> shows D n name (VChild i) -> getattr lib D name n = (Ret (Some (GNode i)), n).
Proof.
  intros (Hr & _ & _)%good_inv Hs. apply (shows_getattr lib D n name (VChild i) Hs).
  exact (not_hidden D n "cot_attributes" Hr ltac:(own_name)).
Qed.

Lemma addressed_reads n ds :
  addressed_message n ds -> has_marti lib D n = (Ret true, n) /\ exists l,
    dests lib D n = (Ret l, n) /\
    Forall2 (fun k o => in_dest lib D k (attr lib D "callsign") n =
      (Ret (callsign_value o), n)) l ds.
Proof.
  intros [i d j m a cs Hg Hd Hi Hm Hj Ha Hcs Hl].
  destruct (good_inv D n Hg) as (_ & _ & Hgd). specialize (Hgd i d Hi).
  destruct (good_inv D d Hgd) as (_ & _ & Hgm). specialize (Hgm j m Hj).
  pose proof (shown_child n "detail" i Hg Hd) as Ed.
  pose proof (shown_child d "marti" j Hgd Hm) as Em.
  split.
  - unfold has_marti. rewrite (run_bind _ _ _ _ _ Ed).
    apply (in_child_same _ _ _ d); [done|]. unfold hasattr, try_with.
    by rewrite (run_bind _ _ _ _ _ Em).
  - exists (children_of cs m). split.
    + unfold dests. apply (below_same _ _ i _ d); [done|done|].
      apply (below_same _ _ j _ m); [done|done|].
      destruct (good_inv D m Hgm) as (Hr & _ & _).
      assert (Eg : getattr lib D "dest" m = (Ret (Some (GNodes (children_of cs m))), m)).
      { apply (run_getattr lib D "dest" a); [done|]. rewrite Hcs. cbn [do_get].
        unfold get_children. py_run.
        by rewrite (not_hidden D m "get_children_ex" Hr ltac:(own_name)). }
      by rewrite (run_bind _ _ _ _ _ Eg).
    + eapply Forall2_impl; [|exact Hl]. intros k o (e & He & Eo). cbn in Eo.
      unfold in_dest. apply (below_same _ _ i _ d); [done|done|].
      apply (below_same _ _ j _ m); [done|done|]. apply (in_child_same _ _ _ e); [done|].
      unfold attr. by rewrite (run_bind _ _ _ _ _ Eo).
Qed.

(** The connections of a callsign. *)
Definition connected_as (o : option string) (cons : list (string * option string)) :
    list string :=
  fst <$> filter (fun con => con.2 = o) cons.

Lemma addressed_connected o cons : addressed (callsign_value o) cons = connected_as o cons.
Proof.
  unfold addressed, connected_as. f_equal. apply list_filter_iff. intros [k c].
  cbn. destruct o as [s|], c as [t|]; cbn; [|done..].
  rewrite bool_decide_eq_true. split; [by intros ->|by intros [= ->]].
Qed.

Lemma map_each_run {A B} (f : A -> M node B) l bs n :
  Forall2 (fun a b => f a n = (Ret b, n)) l bs -> map_each l f n = (Ret bs, n).
Proof.
  induction 1 as [|a b l bs Hab _ IH]; [done|]. cbn [map_each].
  by rewrite (run_bind _ _ _ _ _ Hab), (run_bind _ _ _ _ _ IH).
Qed.
End Recipients.

(** a message is for the connections that have one of the callsigns of its
    destinations, destination by destination and in the order of the connections; but it
    is for everybody when it has no destination or the first one names no callsign (a
    mission, say), whoever the others name.  And when nobody is connected under its
    callsigns the list is empty, which the sending side takes for everybody, too. *)
Theorem message_is_for_named_connections lib D n ds cons :
  addressed_message lib D n ds ->
  get_recipients lib D (Some cons) n =
    (Ret match ds with
         | [] | None :: _ => Everyone
         | _ => These (ds ≫= fun o => connected_as o cons)
         end, n) /\
  ((forall o, o ∈ ds -> o ∉ cons.*2) -> forall w b s, os_sockets w ->
     let everybody := tc_sock <$> dvalues (cot_connections s) in
     send_message w (Bytes b) (Some (ds ≫= fun o => connected_as o cons)) s =
       (Ret tt, advance (broadcast w (is_closed s) (now s) everybody b) (length everybody) s)).
Proof.
  intros H. split.
  - destruct (addressed_reads lib D n ds H) as (Em & l & Ed & Hl).
    unfold get_recipients. rewrite (run_bind _ _ _ _ _ Em). cbn [negb].
    rewrite (run_bind _ _ _ _ _ Ed).
    destruct Hl as [|k o l ds Hk Hl]; [done|]. rewrite (run_bind _ _ _ _ _ Hk).
    destruct o as [s|]; [|done]. cbn [callsign_value].
    rewrite (run_bind (of_option TypeError (Some cons)) _ n cons n eq_refl).
    erewrite run_bind.
    2:{ apply (map_each_run _ _ ((fun o => connected_as o cons) <$> (Some s :: ds))).
        apply Forall2_fmap_r. assert (Hl' : Forall2 (fun k o => in_dest lib D k
          (attr lib D "callsign") n = (Ret (callsign_value o), n)) (k :: l) (Some s :: ds)).
        { by constructor. }
        eapply Forall2_impl; [|exact Hl']. intros k' o' E. cbn in E.
        rewrite (run_bind _ _ _ _ _ E). by rewrite addressed_connected. }
    unfold mret, M_ret. do 3 f_equal. generalize (Some s :: ds). clear.
    intros ds. induction ds as [|o ds IH]; [done|]. rewrite fmap_cons, bind_cons, <- IH. done.
  - intros Hn w b s Hw everybody.
    assert (E0 : (ds ≫= fun o => connected_as o cons) = []).
    { clear -Hn. induction ds as [|o ds IH]; [done|]. cbn.
      rewrite IH by (intros; apply Hn; by right). rewrite app_nil_r.
      assert (Ef : filter (fun con : string * option string => con.2 = o) cons = []);
        [|unfold connected_as; by rewrite Ef].
      specialize (Hn o ltac:(by left)). clear IH.
      induction cons as [|[k c] cons IH]; [done|]. rewrite filter_cons. cbn in *.
      apply not_elem_of_cons in Hn as [H1 H2]. rewrite decide_False by done. by apply IH. }
    rewrite E0. exact (send_message_run w b (Some []) s Hw).
Qed.

Definition dest_of (o : option string) : node :=
  set_attributes (dset "callsign" (VRaw (match o with Some s => XText s | None => XNone end)))
    (new_node dest_class []).

Definition two_dests : node :=
  new_node event_class
    [new_node detail_class [new_node marti_class [dest_of (Some "bravo"); dest_of None]]].

Lemma dest_of_good o : good domain (dest_of o).
Proof. apply node_ok_good; [by destruct o|apply Forall_nil_2]. Qed.

Lemma message_is_for_named_connections_witness :
  get_recipients plain_library domain
      (Some [("c1", Some "bravo"); ("c2", None); ("c3", Some "alpha")]) two_dests =
    (Ret (These ["c1"; "c2"]), two_dests).
Proof.
  refine (proj1 (message_is_for_named_connections plain_library domain two_dests
    [Some "bravo"; None] [("c1", Some "bravo"); ("c2", None); ("c3", Some "alpha")] _)).
  eapply (addressed_to _ _ _ _ 0 _ 0); [|..].
  - repeat first [apply dest_of_good | apply Forall_nil_2 | apply Forall_cons_2
      | apply new_good; [vm_compute; reflexivity|]].
  - eexists _, "detail". split; [vm_compute; reflexivity|]. by repeat split; [left|].
  - reflexivity.
  - eexists _, "marti". split; [vm_compute; reflexivity|]. split; [done|].
    split; [by right; right; right; left|by split].
  - reflexivity.
  - reflexivity.
  - reflexivity.
  - change (children_of ["dest"] _) with [0; 1]. constructor; [|constructor; [|constructor]].
    + exists (dest_of (Some "bravo")). split; [reflexivity|vm_compute; reflexivity].
    + exists (dest_of None). split; [reflexivity|vm_compute; reflexivity].
Defined.

(** * Messages that are dropped *)

(** one attribute of the event that cannot be assigned, one the domain does not know
    for instance, and the message is dropped: its handling ends in an exception, with
    nothing stored, nothing asked of the missions and nobody named as a recipient,
    whatever else the message says. *)
Theorem rejected_event_attribute_drops_message lib D w n l1 name s l2 h :
  well_formed D -> node_setattr lib "text" = None -> good D n -> created_node w = Some n ->
  fits lib D (XDict l1) n -> rejected lib D n name ->
  exists m, handle_default_cot lib D w [("event", XDict (l1 ++ ("@" +:+ name, XText s) :: l2))] h =
    (Exn AttributeError, mkHandling m (h_errands h)).
Proof.
  intros wf Ht Hg Hw Hf Hr.
  destruct (rejected_ends lib D n l1 name s wf Ht Hg Hf Hr) as (m & _ & _ & _ & E).
  assert (Ec : convert_dict_to_node lib D "Event"
      [("event", XDict (l1 ++ ("@" +:+ name, XText s) :: l2))] n = (Ret false, m)).
  { unfold convert_dict_to_node. change (lower "Event") with "event". cbn [dget].
    rewrite decide_True by done. exact (E l2). }
  exists m. unfold handle_default_cot. rewrite Hw.
  do 2 (erewrite run_bind by reflexivity).
  rewrite (run_bind _ _ _ false (mkHandling m (h_errands h))); [done|].
  apply try_except_ret. unfold on. cbn [h_message]. by rewrite Ec.
Qed.

Lemma rejected_event_attribute_drops_message_witness :
  let w := mkManager (Some default_event) (Some []) Some (fun _ => None) (fun _ => None) None in
  exists m, handle_default_cot plain_library domain w
      [("event", XDict ([("@uid", XText "u1")] ++ ("@" +:+ "qos", XText "1-r-c") ::
         [("@type", XText "a-f-G")]))] (mkHandling default_event []) =
    (Exn AttributeError, mkHandling m []).
Proof.
  assert (Hf : fits plain_library domain (XDict [("@uid", XText "u1")]) default_event).
  { fit_dict. fit_entries k v H. fit_attr "uid" "uid". }
  assert (Hr : rejected plain_library domain default_event "qos").
  { apply rejected_unknown; [|reflexivity].
    repeat split; try (vm_compute; (reflexivity || discriminate)).
    apply (bool_decide_unpack _). vm_compute. exact Logic.I. }
  exact (rejected_event_attribute_drops_message plain_library domain
    (mkManager (Some default_event) (Some []) Some (fun _ => None) (fun _ => None) None)
    default_event [("@uid", XText "u1")] "qos" "1-r-c" [("@type", XText "a-f-G")]
    (mkHandling default_event []) domain_well_formed eq_refl default_event_good eq_refl Hf Hr).
Defined.

(** * Geo objects and missions *)

(** A geo object that is to be repeated is stored under its uid and published, as the only
    message unless the request has one. *)
Theorem created_geo_object_is_repeated {E : Type} uid dump load created (e : E) dictionary c d :
  (forall d, exists b, dump d = (b, None) /\ load b = Ret d) -> stored load c d ->
  exists c', create_geo_object uid dump load created (Some e) dictionary true c = (Ret tt, c') /\
    stored load c' (dset (uid e) e d) /\ c_action c' = Some "publish".
Proof.
  intros Hp H. unfold create_geo_object. do 4 (erewrite run_bind by reflexivity).
  set (c1 := mkController (c_file c) (dset "model_object" (VNode created)
    (dset "dictionary" dictionary (dset "configuration" (VOther "geoobject")
       (dset "object_class_name" (VOther "Event") (c_request c))))) (c_response c) (c_action c)).
  change (exists c', (model_obj <- dict_to_node (Some e) ;;
    response_set "message" (VNodes [model_obj]) ;;;
    response_set "recipients" (VRecipients Everyone) ;;;
    (if true then match model_obj with
       | Some e => create_repeated_messages uid dump load [e]
       | None => _load_repeated_messages dump load ;;; raise AttributeError end
     else mret tt) ;;; copy_request ;;; set_action "publish") c1 = (Ret tt, c') /\
    stored load c' (dset (uid e) e d) /\ c_action c' = Some "publish").
  rewrite (run_bind (dict_to_node (Some e)) _ c1 (Some e) c1).
  2:{ unfold dict_to_node. rewrite (run_bind (gets c_request) _ c1 _ c1 eq_refl). cbn [c_request c1].
      rewrite !dget_dset_ne by done. by rewrite dget_dset_eq. }
  do 2 (erewrite run_bind by reflexivity).
  match goal with |- context [mbind _ _ ?s] => set (c2 := s) end.
  assert (H2 : stored load c2 d).
  { by apply (stored_same _ c). }
  destruct (serve_run uid dump load Hp (Create [e]) c2 d H2) as (c3 & E3 & H3 & _ & _).
  rewrite (run_bind _ _ _ _ _ E3), (run_bind _ _ _ _ _ (copy_request_run c3)).
  eexists. split; [reflexivity|]. split; [|done].
  by apply (stored_same _ c3).
Qed.

(** The deletion of one does not name the class to the conversion: unless the caller did,
    it raises, with the file as it was. *)
Theorem deleted_geo_object_stays {E : Type} uid dump load created filled dictionary
    (c : controller E) :
  dget "object_class_name" (c_request c) = None ->
  exists c', delete_geo_object uid dump load created filled dictionary true c =
    (Exn AttributeError, c') /\ c_file c' = c_file c.
Proof.
  intros H. eexists. split; [|].
  - unfold delete_geo_object. do 4 (erewrite run_bind by reflexivity).
    erewrite (run_bind (dict_to_node filled)).
    2:{ unfold dict_to_node. erewrite (run_bind (gets c_request)) by reflexivity.
        cbn [c_request]. unfold modify. cbn. rewrite !dget_dset_ne by done. rewrite H. reflexivity. }
    do 2 (erewrite run_bind by reflexivity). apply run_bind_exn. by apply run_bind_exn.
  - reflexivity.
Qed.

(** What handling a message adds to the errands. *)
Section Errands.
Context (lib : library) (D : list domain_class) (w : manager).

Definition adds {A} (m : M handling A) (Q : list errand -> Prop) : Prop :=
  forall h, exists es, h_errands (m h).2 = (h_errands h ++ es)%list /\ Q es.

Lemma adds_on {A B} (m : M node A) (k : A -> M handling B) Q :
  Q [] -> (forall a, adds (k a) Q) -> adds (on m ≫= k) Q.
Proof.
  intros HQ Hk h. cbv [mbind M_bind]. unfold on at 1.
  destruct (m (h_message h)) as [[a|e] n]; [apply (Hk a (mkHandling n (h_errands h)))|].
  exists []. cbn. by rewrite app_nil_r.
Qed.

Lemma adds_ret {A} (a : A) (Q : list errand -> Prop) : Q [] -> adds (mret a) Q.
Proof. intros HQ h. exists []. cbn. by rewrite app_nil_r. Qed.

Lemma adds_perform e x (Q : list errand -> Prop) : Q [] -> Q [e] -> adds (perform e x) Q.
Proof.
  intros H0 H1 h. unfold perform. destruct x as [x|]; [exists []|exists [e]]; [|done].
  cbn. by rewrite app_nil_r.
Qed.

(** A request to the missions, or none. *)
Definition one_request (es : list errand) : Prop :=
  es = [] \/ exists e, es = [e] /\ forall n, e <> SaveCoT n.

Lemma create_mission_cot_adds ms : adds (create_mission_cot lib D w ms) one_request.
Proof.
  apply adds_on; [by left|]. intros u. apply adds_perform; [by left|]. right. by eexists.
Qed.

Lemma create_mission_geo_fence_adds ms t x :
  adds (create_mission_geo_fence lib D w ms t x) one_request.
Proof.
  unfold create_mission_geo_fence.
  repeat (apply adds_on; [by left|]; intros ?). apply adds_perform; [by left|].
  right. by eexists.
Qed.

(** The missions are never asked to take a message that has not been stored before, and
    are asked once at most. *)
Theorem missions_get_stored_messages dictionary :
  adds (cot_event_chain_of_command lib D w dictionary) (fun es =>
    es = [] \/ exists n es', es = SaveCoT n :: es' /\ one_request es').
Proof.
  unfold cot_event_chain_of_command. apply adds_on; [by left|]. intros [|m ms].
  { apply adds_ret. by left. }
  intros h. rewrite (run_bind (gets h_message) _ h (h_message h) h eq_refl).
  unfold perform at 1. destruct (save_raises w (h_message h)) as [x|].
  { exists []. cbn. rewrite app_nil_r. split; [done|]. by left. }
  erewrite run_bind by reflexivity.
  assert (Hrest : adds (t <- on (attr lib D "type") ;;
      if is_type t "b-i-v" then create_mission_cot lib D w (m :: ms)
      else if is_type t "u-d-c-c"
      then create_mission_geo_fence lib D w (m :: ms) t (dict_to_xml w dictionary)
      else create_mission_cot lib D w (m :: ms)) one_request).
  { apply adds_on; [by left|]. intros t. destruct (is_type t "b-i-v");
      [apply create_mission_cot_adds|]. destruct (is_type t "u-d-c-c");
      [apply create_mission_geo_fence_adds|apply create_mission_cot_adds]. }
  destruct (Hrest (mkHandling (h_message h) (h_errands h ++ [SaveCoT (h_message h)])%list))
    as (es & E & H). exists (SaveCoT (h_message h) :: es). split; [|right; by eauto].
  etransitivity; [exact E|]. cbn. by rewrite <- app_assoc.
Qed.
End Errands.
