(* ===== verification/ListTables.v ===== *)
(** The tables geo objects are looked up in when they are listed over the REST API
    ([model/RestMessages/RestEnumerations.py]). *)
From stdpp Require Import base strings list.
From S2P Require Import Prelude.

Set Default Proof Using "Type".
Local Open Scope list_scope.
Local Open Scope string_scope.

Definition SquadTypes : list (string * string) :=
  dict_of
    [("Gnd Combat Infantry Rifleman", "a-.-G-U-C-I");
     ("Gnd Combat Infantry grenadier", "a-.-G-E-W-Z");
     ("Gnd Combat Infantry Mortar", "a-.-G-E-W-O");
     ("Gnd Combat Infantry MachineGunner (LMG)", "a-.-G-E-W-R");
     ("Gnd Combat Infantry Medic", "a-.-G-U-i-m-etf");
     ("Gnd Combat Infantry Sniper", "a-.-G-U-C-I-d");
     ("Gnd Combat Infantry Recon", "a-.-G-U-C-R");
     ("Gnd Combat Infantry anti Tank", "a-.-G-U-C-A-A");
     ("Gnd Combat Infantry air defense", "a-.-G-U-C-D");
     ("Gnd Combat Infantry Engineer", "a-.-G-U-C-E");
     ("Gnd Crowd Control Team", "a-.-G-U-i-l-cct");
     ("Combat search &amp; rescue (CSAR)", "a-.-A-M-F-Q-H"); ("Medevac", "a-.-G-U-C-V-R-E");
     ("REFUGEES", "b-r-.-O-I-R")].

Definition SquadTypeNicknames : list (string * string) :=
  dict_of
    [("Police", "a-.-G-U-i-l-cct"); ("SAR", "a-.-A-M-F-Q-H"); ("Medevac", "a-.-G-U-C-V-R-E");
     ("Refugees", "b-r-.-O-I-R"); ("Sniper", "a-.-G-U-C-I-d"); ("Recon", "a-.-G-U-C-R");
     ("Medic", "a-.-G-U-i-m-etf"); ("Grenadier", "a-.-G-E-W-Z"); ("Rifleman", "a-.-G-U-C-I");
     ("Engineer", "a-.-G-U-C-E")].

Definition VehicleTypeNicknames : list (string * string) :=
  dict_of
    [("Vehicle", "a-.-G-E-V-C"); ("Ambulance", "a-.-G-E-V-m")].

Definition VehicleTypes : list (string * string) :=
  dict_of
    [("Gnd Equip Vehic Civilian", "a-.-G-E-V-C");
     ("Gnd Equip Vehic Ambulance", "a-.-G-E-V-m")].

Definition BuildingTypeNicknames : list (string * string) :=
  dict_of
    [("Emergency Station", "a-.-G-I-i-e"); ("Police Station", "a-.-G-I-i-l");
     ("gas Station", "a-.-G-I-R-P"); ("Power Station", "a-.-G-I-U-E");
     ("Telco Station", "a-.-G-I-U-T"); ("Hospital", "a-.-G-I-X-H")].

Definition BuildingTypes : list (string * string) :=
  dict_of
    [("Gnd Structure IM Facilities Emergency Management", "a-.-G-I-i-e");
     ("Gnd Structure IM Facilities Law Enforcement", "a-.-G-I-i-l");
     ("Gnd Structure petroleum gas oil", "a-.-G-I-R-P");
     ("Gnd Structure Utility Electric Power", "a-.-G-I-U-E");
     ("Gnd Structure Utility Telecommunications", "a-.-G-I-U-T");
     ("Gnd Structure Hospital", "a-.-G-I-X-H")].

Definition IncidentTypes : list (string * string) :=
  dict_of
    [("Other incident geo", "a-.-X-i-g"); ("Other incident geo avalanche", "a-.-X-i-g-a");
     ("Other incident geo earthquake", "a-.-X-i-g-e");
     ("Other incident geo landslide", "a-.-X-i-g-l");
     ("Other incident geo subsistance", "a-.-X-i-g-s");
     ("Other incident geo volcano", "a-.-X-i-g-v");
     ("Other incident geo eruption", "a-.-X-i-g-v-e");
     ("Other incident met drought", "a-.-X-i-m-d");
     ("Other incident met cyclone", "a-.-X-i-m-c");
     ("Other incident met tsunami", "a-.-X-i-m-n"); ("Other incident fire", "a-.-X-i-f");
     ("Other incident medical public health", "a-.-X-i-h");
     ("Other incident transportation vehicle accident", "a-.-X-i-t-v-a")].

Definition IncidentTypeNicknames : list (string * string) :=
  dict_of
    [("geo incident", "a-.-X-i-g"); ("avalanche", "a-.-X-i-g-a");
     ("earthquake", "a-.-X-i-g-e"); ("landslide", "a-.-X-i-g-l");
     ("subsistance", "a-.-X-i-g-s"); ("volcano", "a-.-X-i-g-v");
     ("eruption", "a-.-X-i-g-v-e"); ("drought", "a-.-X-i-m-d"); ("cyclone", "a-.-X-i-m-c");
     ("tsunami", "a-.-X-i-m-n"); ("fire", "a-.-X-i-f"); ("medical incident", "a-.-X-i-h");
     ("vehicle accident", "a-.-X-i-t-v-a")].

Definition OtherTypesNicknames : list (string * string) :=
  dict_of
    [("Ground", "a-.-G"); ("Generator", "a-.-G-U-i-p-gen"); ("Incident", "a-.-X-i-o");
     ("Alarm", "b-l"); ("Disorder", "b-l-l-l-cd"); ("Riot", "b-r-.-O-I-V");
     ("Resources", "a-.-G-U-i"); ("Food", "b-r-.-O-O-O")].

Definition OtherTypes : list (string * string) :=
  dict_of
    [("Gnd IM Resources", "a-.-G-U-i"); ("FOOD DISTRIBUTION", "b-r-.-O-O-O");
     ("Gnd Generators", "a-.-G-U-i-p-gen"); ("Other incident other", "a-.-X-i-o");
     ("Alarm", "b-l");
     ("Alarm/Security/Law Enforcement/Civil Disturbance or Disorder", "b-l-l-l-cd");
     ("REFUGEES", "b-r-.-O-I-R"); ("VANDALISM/RAPE/LOOT/RANSACK/PLUNDER/SACK", "b-r-.-O-I-V")].

Definition attitude : list (string * string) :=
  dict_of
    [("friend", "-f-"); ("friendly", "-f-"); ("hostile", "-h-"); ("unknown", "-u-");
     ("pending", "-p-"); ("assumed", "-a-"); ("neutral", "-n-"); ("suspect", "-s-");
     ("joker", "-j-"); ("faker", "-k-"); ("atoms", "-")].

Definition supportedTypeEnumerations : list (string * string) :=
  fold_left dupdate
    [OtherTypesNicknames; SquadTypeNicknames; BuildingTypeNicknames; VehicleTypeNicknames;
     OtherTypes; SquadTypes; BuildingTypes; VehicleTypes; IncidentTypes;
     IncidentTypeNicknames] [].
