(* ===== verification/RestGeo.v ===== *)
(** Geo objects and emergencies over the REST API
    ([services/rest_api_service/blueprints], [core/parsers/JsonController.py]): the
    requests the endpoints make to the components, with their documents, and how geo
    objects are listed. *)
From Stdlib Require Import ZArith Lia Ascii String QArith.
From stdpp Require Import base strings list.
From S2P Require Import Prelude.
From S2P Require Import DomainNode.
From S2P Require Import CotManagement.
From S2P Require Import PostTables.
From S2P Require Import ListTables.

Set Default Proof Using "Type".
Local Open Scope list_scope.
Local Open Scope string_scope.
Local Open Scope py_scope.

Local Unset Elimination Schemes.

(** * JSON *)

(** A number is its exact value. *)
Inductive json :=
  | JNull
  | JBool (b : bool)
  | JNum (q : Q)
  | JText (s : string)
  | JList (l : list json)
  | JDict (l : list (string * json)).

(** [bool(v)]. *)
Definition truthy (v : json) : bool :=
  match v with
  | JNull => false
  | JBool b => b
  | JNum q => negb (Qeq_bool q 0)
  | JText s => negb (bool_decide (s = ""))
  | JList l => match l with [] => false | _ => true end
  | JDict l => match l with [] => false | _ => true end
  end.

(** What is computed without a state. *)
Definition pure {A} (m : M unit A) : outcome A := (m tt).1.

(** [v[k]], [v.get(k, default)] and [k in v]. *)
Definition json_item (v : json) (k : string) : outcome json :=
  match v with
  | JDict l => match dget k l with Some x => Ret x | None => Exn KeyError end
  | _ => Exn TypeError
  end.
Definition get_or (v : json) (k : string) (d : json) : outcome json :=
  match v with JDict l => Ret (default d (dget k l)) | _ => Exn AttributeError end.

(** [table[k]]: lists and dictionaries have no hash. *)
Definition lookup_in (table : list (string * string)) (k : json) : outcome string :=
  match k with
  | JText s => match dget s table with Some x => Ret x | None => Exn KeyError end
  | JList _ | JDict _ => Exn TypeError
  | _ => Exn KeyError
  end.

(** * Strings *)

(** [s.split(sep)] of a separator that is not empty. *)
Fixpoint split_from (sep : string) (skip : nat) (s : string) : list string :=
  match s with
  | EmptyString => [""]
  | String c s' =>
      match skip with
      | S skip => split_from sep skip s'
      | O =>
          if String.prefix sep s then "" :: split_from sep (String.length sep - 1) s'
          else match split_from sep 0 s' with
               | w :: ws => String c w :: ws
               | [] => [String c ""]
               end
      end
  end.
Definition py_split (s sep : string) : outcome (list string) :=
  if decide (sep = "") then Exn ValueError else Ret (split_from sep 0 s).

(** [s.replace(old, new)] and [part in s], for parts that are not empty. *)
Definition replace (s old new : string) : string := String.concat new (split_from old 0 s).
Definition occurs (part s : string) : bool :=
  match String.index 0 part s with Some _ => true | None => false end.

(** [re.fullmatch], of patterns of letters, digits, "-", "." and "*". *)
Definition char_matches (c x : ascii) : bool :=
  if decide (c = "."%char) then bool_decide (x <> "010"%char) else bool_decide (c = x).
Fixpoint fullmatch (p s : string) : bool :=
  match p with
  | EmptyString => match s with EmptyString => true | _ => false end
  | String c (String "*"%char p') =>
      (fix star s :=
         fullmatch p' s ||
         match s with String x s' => char_matches c x && star s' | EmptyString => false end) s
  | String c p' =>
      match s with String x s' => char_matches c x && fullmatch p' s' | EmptyString => false end
  end.

(** * Requests *)

(** [make_request(action, context, values, service_id, synchronous)]. *)
Record rest_request := mkRequest {
  rq_action : string;
  rq_context : string;
  rq_values : list (string * json);
  rq_service : json;
  rq_synchronous : json }.

(** Code outside the repository: the geocoder (latitude and longitude, or nothing), the
    point in a distance and direction of another, the [i]-th reading of the clock so many
    seconds ahead, a new uuid, [str] of what is not text, and what a request raises. *)
Record rest_library := mkRestLibrary {
  geocode : json -> outcome (option (Q * Q));
  destination : json -> json -> json -> json -> outcome (Q * Q);
  dtg : nat -> Q -> outcome string;
  fresh_uid : string;
  str_json : json -> string;
  request_raises : rest_request -> option exn }.

(** What an endpoint answers. *)
Record endpoint_answer := mkAnswer { a_body : json; a_status : nat }.
Definition message_answer (v : json) (status : nat) : endpoint_answer := mkAnswer (JDict [("message", v)]) status.

Section Rest.
Context (lib : rest_library).

(** An endpoint and the requests it has made. *)
Abbreviation MQ := (M (list rest_request)).

Definition make_request (action context : string) (values : list (string * json))
    (service synchronous : json) : MQ unit :=
  let r := mkRequest action context values service synchronous in
  match request_raises lib r with
  | Some e => raise e
  | None => modify (fun l => l ++ [r])%list
  end.

(** * Geo objects *)

(** [timedelta(seconds=delay)]. *)
Definition seconds_of (delay : json) : outcome Q :=
  match delay with
  | JNum q => Ret q
  | JBool b => Ret (if b then 1%Q else 0%Q)
  | _ => Exn TypeError
  end.
Definition get_current_dtg (i : nat) (delay : json) : MQ string :=
  q <- of_outcome (seconds_of delay) ;; of_outcome (dtg lib i q).

Definition create_geoobject_json (type how : string) (uid lat lon timeout name remarks
    link_uid : json) : MQ json :=
  time <- get_current_dtg 0 (JNum 0) ;;
  start <- get_current_dtg 1 (JNum 0) ;;
  stale <- get_current_dtg 2 timeout ;;
  let detail :=
    ((if truthy name then [("contact", JDict [("@callsign", name)])] else []) ++
     (if truthy link_uid then [("link", JDict [("@uid", link_uid)])] else []) ++
     (if truthy remarks then [("remarks", JDict [("#text", remarks)])] else []))%list in
  mret (JDict [("event", JDict
    [("@how", JText how); ("@type", JText type); ("@uid", uid); ("@time", JText time);
     ("@start", JText start); ("@stale", JText stale);
     ("point", JDict [("@lat", lat); ("@lon", lon); ("@hae", JText "9999999");
                      ("@ce", JText "9999999"); ("@le", JText "9999999")]);
     ("detail", JDict detail)])]).

(** The type of the object: where its name has a place for an attitude, that of the
    request. *)
Definition obj_type (jsondata : json) : outcome string := pure (
  g <- of_outcome (json_item jsondata "geoObject") ;;
  t <- of_outcome (lookup_in PostTables.supportedTypeEnumerations g) ;;
  if occurs "-.-" t then
    a <- of_outcome (json_item jsondata "attitude") ;;
    s <- of_outcome (lookup_in PostTables.attitude a) ;;
    mret (replace t "-.-" s)
  else mret t).

(** The latitude and longitude of the request. *)
Definition located (jsondata : json) : MQ (json * json) :=
  address <- of_outcome (get_or jsondata "address" JNull) ;;
  if truthy address then
    l <- of_outcome (geocode lib address) ;;
    match l with
    | Some (lat, lon) => mret (JNum lat, JNum lon)
    | None => raise AttributeError
    end
  else
    lon <- of_outcome (json_item jsondata "longitude") ;;
    lat <- of_outcome (json_item jsondata "latitude") ;;
    mret (lat, lon).

(** Where it is in so many meters from there. *)
Definition displaced (jsondata : json) (p : json * json) : MQ (json * json) :=
  meters <- of_outcome (get_or jsondata "distance" JNull) ;;
  if truthy meters then
    bearing <- of_outcome (get_or jsondata "bearing" (JNum 360)) ;;
    q <- of_outcome (destination lib p.1 p.2 meters bearing) ;;
    mret (JNum q.1, JNum q.2)
  else mret p.

(** What the endpoints that create geo objects have in common. *)
Definition send_geoobject (jsondata : json) (get_uid : MQ json) : MQ endpoint_answer :=
  type <- of_outcome (obj_type jsondata) ;;
  p <- located jsondata ;;
  p <- displaced jsondata p ;;
  h <- of_outcome (json_item jsondata "how") ;;
  how <- of_outcome (lookup_in PostTables.how h) ;;
  uid <- get_uid ;;
  timeout <- of_outcome (json_item jsondata "timeout") ;;
  name <- of_outcome (get_or jsondata "name" JNull) ;;
  remarks <- of_outcome (get_or jsondata "remarks" JNull) ;;
  link_uid <- of_outcome (get_or jsondata "link_uid" JNull) ;;
  json_result <- create_geoobject_json type how uid p.1 p.2 timeout name remarks link_uid ;;
  repeated <- of_outcome (get_or jsondata "repeat" (JBool false)) ;;
  make_request "CreateGeoObject" "XMLCoT"
    [("dictionary", json_result); ("repeated", repeated)] JNull (JBool false) ;;;
  mret (message_answer uid 200).

(** [body] is [request.get_json(force=True)]. *)
Definition put_geoobject (body : outcome json) : MQ endpoint_answer :=
  jsondata <- of_outcome body ;;
  send_geoobject jsondata (of_outcome (json_item jsondata "uid")).

Definition post_geoobject (body : outcome json) : MQ endpoint_answer :=
  try: (jsondata <- of_outcome body ;;
        send_geoobject jsondata (mret (JText (fresh_uid lib))))
  except: mret (message_answer (JText "An error occurred adding geo object.") 500).

(** [ids] is the argument of the request; [deletes] what the request for the deletion
    answers under "success". *)
Definition delete_repeated_messages (ids : option string) (deletes : outcome bool) : MQ endpoint_answer :=
  try: (ids <- of_option AttributeError ids ;;
        let ids := split_from "," 0 ids in
        make_request "DeleteRepeatedMessage" "" [("ids", JList (JText <$> ids))] JNull
          (JBool true) ;;;
        success <- of_outcome deletes ;;
        if (success : bool) then
          for_each ids (fun id =>
            json_result <- create_geoobject_json "t-x-d-d" "m-g" (JText id) (JNum 0) (JNum 0)
              (JNum 0) JNull JNull (JText id) ;;
            make_request "DeleteGeoObject" "XMLCoT" [("dictionary", json_result)] JNull
              (JBool false)) ;;;
          mret (message_answer (JText "operation successful") 200)
        else mret (message_answer (JText "operation failed") 500))
  except: mret (mkAnswer JNull 500).

(** * Emergencies *)

(** [str(v)]. *)
Definition str_of_json (v : json) : string :=
  match v with
  | JText s => s
  | JNull => "None"
  | JBool true => "True"
  | JBool false => "False"
  | _ => str_json lib v
  end.

Definition resolve_address (jsondata : list (string * json)) : MQ (json * json) :=
  match dget "address" jsondata with
  | Some address =>
      l <- of_outcome (geocode lib address) ;;
      match l with
      | Some (lat, lon) => mret (JNum lat, JNum lon)
      | None => raise AttributeError
      end
  | None =>
      mret (default (JNum 0) (dget "latitude" jsondata),
            default (JNum 0) (dget "longitude" jsondata))
  end.

Definition serialize_emergency_post (jsondata : list (string * json)) : MQ json :=
  p <- resolve_address jsondata ;;
  mret (JDict [("event", JDict
    [("@uid", JText (fresh_uid lib)); ("@type", JText "EmergencyAlert"); ("@how", JText "h-e");
     ("@time", JNull); ("@start", JNull); ("@stale", JNull);
     ("point", JDict [("@lat", p.1); ("@lon", p.2); ("@hae", JText "9999999");
                      ("@ce", JText "9999999"); ("@le", JText "9999999")]);
     ("detail", JDict
        [("remarks", JDict
            [("#text", JText (str_of_json (default (JText "") (dget "remarks" jsondata))))]);
         ("emergency", JDict
            [("@type", JText (str_of_json (default JNull (dget "emergencyType" jsondata))));
             ("#text", JText (str_of_json (default JNull (dget "name" jsondata))))])])])]).

Definition serialize_emergency_delete (jsondata : list (string * json)) : json :=
  JDict [("event", JDict
    [("@how", JText "h-e"); ("@time", JNull); ("@start", JNull); ("@stale", JNull);
     ("@type", JText "EmergencyCancelled"); ("@uid", default JNull (dget "uid" jsondata));
     ("@version", JText "2.0");
     ("detail", JDict [("emergency", JDict [("@cancel", JText "true")])]);
     ("point", JDict [("@ce", JText "9999999"); ("@hae", JText "9999999");
                      ("@lat", JText "0"); ("@le", JText "9999999"); ("@lon", JText "0")])])].

(** [jsonobj.get("event").get("@uid")] and [jsonobj.get("@uid")]. *)
Definition event_uid (v : json) : MQ json :=
  e <- of_outcome (get_or v "event" JNull) ;; of_outcome (get_or e "@uid" JNull).

Definition post_emergency_request (jsondata : list (string * json)) : MQ endpoint_answer :=
  jsonobj <- serialize_emergency_post jsondata ;;
  make_request "EmergencyAlert" "emergency" [("dictionary", jsonobj)] (JText "tcp_cot_service")
    (JBool false) ;;;
  make_request "EmergencyAlert" "emergency" [("dictionary", jsonobj)] (JText "ssl_cot_service")
    (JBool false) ;;;
  uid <- event_uid jsonobj ;;
  mret (message_answer uid 200).

Definition delete_emergency_request (jsondata : list (string * json)) : MQ endpoint_answer :=
  let jsonobj := serialize_emergency_delete jsondata in
  make_request "EmergencyCancelled" "emergency" [("dictionary", jsonobj)] (JBool false)
    (JText "tcp_cot_service") ;;;
  make_request "EmergencyCancelled" "emergency" [("dictionary", jsonobj)] (JBool false)
    (JText "ssl_cot_service") ;;;
  uid <- of_outcome (get_or jsonobj "@uid" JNull) ;;
  mret (message_answer uid 200).
End Rest.

(** [get_emergencys]: an emergency without one of the nodes is left out of the list. *)
Section Listing.
Context (lib : library) (D : list domain_class).

Record listed_emergency := mkListedEmergency {
  le_lat : gval; le_lon : gval; le_type : gval; le_name : gval; le_uid : gval }.

Definition list_emergency : M node listed_emergency :=
  callsign <- below lib D "detail" (below lib D "contact" (attr lib D "callsign")) ;;
  name <- (match callsign with
           | GRaw XNone => below lib D "detail" (below lib D "emergency" (attr lib D "text"))
           | _ => mret callsign
           end) ;;
  lat <- below lib D "point" (attr lib D "lat") ;;
  lon <- below lib D "point" (attr lib D "lon") ;;
  type <- below lib D "detail" (below lib D "emergency" (attr lib D "type")) ;;
  uid <- attr lib D "uid" ;;
  mret (mkListedEmergency lat lon type name uid).

Fixpoint list_emergencies (emergencies : list node) : outcome (list listed_emergency) :=
  match emergencies with
  | [] => Ret []
  | n :: l =>
      match (list_emergency n).1, list_emergencies l with
      | Ret e, Ret es => Ret (e :: es)
      | Exn AttributeError, r => r
      | Exn e, _ | Ret _, Exn e => Exn e
      end
  end.
End Listing.

(** * Listing geo objects *)

(** The condition that is sent to the database. *)
Inductive sql_number :=
  | PointLon
  | PointLat
  | Number (q : Q)
  | Minus (a b : sql_number)
  | Times (a b : sql_number)
  | Plus (a b : sql_number).
Inductive sql_condition :=
  | Ge (a : sql_number) (q : Q)
  | Gt (a : sql_number) (q : Q)
  | Le (a : sql_number) (q : Q)
  | Lt (a : sql_number) (q : Q)
  | And (l : list sql_condition)
  | Or (l : list sql_condition).

(** [query_CoT(query=...)] is called with a condition or with a list of one. *)
Inductive query := Condition (c : sql_condition) | ConditionList (l : list sql_condition).

(** [((a - b) * 111302.62) + ((c - d) * 110574.61)]. *)
Definition shift (a b c d : sql_number) : sql_number :=
  Plus (Times (Minus a b) (Number (11130262 # 100))) (Times (Minus c d) (Number (11057461 # 100))).

(** The four quadrants, [None] where the coordinates are in none of them. *)
Definition geo_query (radius : Z) (lat lon : Q) : option query :=
  let r := inject_Z (radius + 10) in
  let lon_abs := Number lon in
  let lat_abs := Number lat in
  let north_east := shift PointLon lon_abs PointLat lat_abs in
  let south_west := shift lon_abs PointLon lat_abs PointLat in
  if Qle_bool 0 lat && Qle_bool 0 lon then
    Some (Condition (And
      [Ge PointLon 0; Ge PointLat 0;
       Or [And [Le north_east r; Ge north_east 0];
           And [Le (shift lon_abs PointLon lon_abs PointLat) r;
                Ge (shift lon_abs PointLon lon_abs PointLat) 0]]]))
  else if negb (Qle_bool 0 lon) && negb (Qle_bool 0 lat) then
    Some (ConditionList [And
      [Lt PointLon 0; Lt PointLat 0;
       Or [And [Gt north_east 0; Le north_east r]; And [Gt south_west 0; Le south_west r]]]])
  else if negb (Qle_bool 0 lon) && negb (Qle_bool lat 0) then
    Some (Condition (And
      [Lt PointLon 0; Ge PointLat 0;
       Or [And [Le north_east r; Gt north_east 0]; And [Le south_west r; Gt south_west 0]]]))
  else if negb (Qle_bool lon 0) && negb (Qle_bool 0 lat) then
    Some (ConditionList [And
      [Ge PointLon 0; Lt PointLat 0;
       Or [And [Le south_west r; Gt south_west 0]; And [Le north_east r; Gt north_east 0]]]])
  else None.

(** What a condition says of a point, in exact arithmetic. *)
Fixpoint number_at (lat lon : Q) (a : sql_number) : Q :=
  match a with
  | PointLon => lon
  | PointLat => lat
  | Number q => q
  | Minus a b => (number_at lat lon a - number_at lat lon b)%Q
  | Times a b => (number_at lat lon a * number_at lat lon b)%Q
  | Plus a b => (number_at lat lon a + number_at lat lon b)%Q
  end.
Fixpoint selects (c : sql_condition) (lat lon : Q) : Prop :=
  match c with
  | Ge a q => (q <= number_at lat lon a)%Q
  | Gt a q => (q < number_at lat lon a)%Q
  | Le a q => (number_at lat lon a <= q)%Q
  | Lt a q => (number_at lat lon a < q)%Q
  | And l => (fix all l := match l with [] => True | c :: l => selects c lat lon /\ all l end) l
  | Or l => (fix some l := match l with [] => False | c :: l => selects c lat lon \/ some l end) l
  end.

(** A row of the table of events, with its point. *)
Record geo_row := mkGeoRow { row_type : option string; row_lat : Q; row_lon : Q }.

Record geo_object := mkGeoObject {
  geo_latitude : Q; geo_longitude : Q; geo_distance : Q; geo_direction : Q;
  geo_type : string; geo_attitude : string }.

(** [list(d.keys())[list(d.values()).index(v)]]. *)
Definition key_of (v : string) (d : list (string * string)) : outcome string :=
  match List.find (fun p => bool_decide (p.2 = v)) d with
  | Some p => Ret p.1
  | None => Exn ValueError
  end.

Section Geo.
(** [geopy.distance] of two pairs, in meters, the direction from one point to another, and
    the database. *)
Context (distance_m : Q * Q -> Q * Q -> outcome Q).
Context (direction : Q * Q -> Q * Q -> Q).
Context (query_CoT : query -> outcome (list geo_row)).

(** The name and the attitude of the type of an event. *)
Definition type_and_attitude (type : option string) : outcome (string * string) := pure (
  t <- of_option TypeError type ;;
  type_pattern <- of_option IndexError
    (head (List.filter (fun p => fullmatch p t) (dvalues ListTables.supportedTypeEnumerations))) ;;
  name <- of_outcome (key_of type_pattern ListTables.supportedTypeEnumerations) ;;
  let parts := split_from "." 0 type_pattern in
  before <- of_option IndexError (parts !! 0) ;;
  part1 <- of_outcome (py_split t before) ;;
  rest <- of_option IndexError (part1 !! 1) ;;
  after <- of_option IndexError (parts !! 1) ;;
  inner <- of_outcome (py_split rest after) ;;
  letter <- of_option IndexError (inner !! 0) ;;
  attitude <- of_outcome (key_of ("-" +:+ letter +:+ "-") ListTables.attitude) ;;
  mret (name, attitude)).

(** One result: it is appended to the output, or left out. *)
Definition list_result (lat lon : Q) (expectedAttitude : string) (row : geo_row) :
    M (list geo_object) unit :=
  try: (p <- of_outcome (type_and_attitude (row_type row)) ;;
        if negb (bool_decide (p.2 = expectedAttitude)) && negb (bool_decide (expectedAttitude = "*"))
        then mret tt
        else
          d <- of_outcome (distance_m (row_lon row, row_lat row) (lon, lat)) ;;
          modify (fun output => output ++
            [mkGeoObject (row_lat row) (row_lon row) d
               (direction (lat, lon) (row_lat row, row_lon row)) p.1 p.2])%list)
  except: mret tt.

(** The list it answers, or the message of an error. *)
Definition get_geoobject (radius : Z) (lat lon : Q) (expectedAttitude : string) :
    list geo_object + string :=
  match geo_query radius lat lon with
  | None => inr "unsupported coordinates"
  | Some q =>
      match query_CoT q with
      | Ret rows => inl (for_each rows (list_result lat lon expectedAttitude) []).2
      | Exn _ => inr "An error occurred retrieving geo object."
      end
  end.
End Geo.
