(* ===== verification/RestGeoProps.v ===== *)
(** Properties of the geo objects of the REST API: what a request becomes, which objects
    are listed again, and what the list has to do with distances. *)
From Stdlib Require Import ZArith Lia Lqa Ascii String QArith.
From stdpp Require Import base strings list.
From S2P Require Import Prelude.
From S2P Require Import DomainNode.
From S2P Require Import DomainClasses.
From S2P Require Import DictToNode.
From S2P Require Import ConvertFacts.
From S2P Require Import WriteFacts.
From S2P Require Import FillFacts.
From S2P Require Import DomainProps.
From S2P Require Import PostTables.
From S2P Require Import ListTables.
From S2P Require Import RestGeo.

Set Default Proof Using "Type".
Local Open Scope list_scope.
Local Open Scope string_scope.
Local Open Scope py_scope.

(** * Tables *)

Lemma posted_avalanche : dget "avalanche" PostTables.supportedTypeEnumerations = Some "a-.-X-i-g-a".
Proof.
  unfold PostTables.supportedTypeEnumerations.
  change [?a; ?b; ?c; ?d; ?e; ?f; ?g] with ([a; b; c; d; e; f] ++ [g])%list.
  rewrite dget_updates_last; [reflexivity|]. apply Forall_dupdate; [apply Forall_nil_2|].
  match goal with |- Forall _ ?l =>
    assert (H : forallb (fun p => negb (bool_decide (p.1 = "avalanche"))) l = true)
      by (vm_compute; reflexivity) end.
  apply Forall_forall. intros p Hp%list_elem_of_In. rewrite forallb_forall in H.
  specialize (H p Hp). by apply negb_true_iff, bool_decide_eq_false in H.
Qed.

(** * Types with a place for an attitude *)

Fixpoint plain_chars (s : string) : bool :=
  match s with
  | EmptyString => true
  | String c s => bool_decide (c <> "."%char) && bool_decide (c <> "*"%char) && plain_chars s
  end.

(** The two beginnings of a name with a place for an attitude. *)
Definition beginning (b : string) : Prop := b = "a" \/ b = "b-r".

Definition shaped (p : string) : bool :=
  match split_from "-.-" 0 p with
  | [b; s] => bool_decide (b = "a" \/ b = "b-r") && bool_decide (p = b +:+ "-.-" +:+ s)
  | _ => false
  end.

Lemma shaped_inv p : shaped p = true -> exists b s,
  p = b +:+ "-.-" +:+ s /\ beginning b /\ forall code, replace p "-.-" code = b +:+ code +:+ s.
Proof.
  unfold shaped, replace. destruct (split_from "-.-" 0 p) as [|b [|s [|]]]; try done.
  intros [H1 H2]%andb_prop. apply bool_decide_eq_true in H1, H2. by exists b, s.
Qed.

(** The places of an attitude in a type: what comes before and after each. *)
Fixpoint places (p : string) : list (string * string) :=
  (match p with
   | String "-" (String "." (String "-" s)) => [("", s)]
   | _ => []
   end ++
   match p with
   | String c p => (fun q => (String c q.1, q.2)) <$> places p
   | EmptyString => []
   end)%list.

Lemma places_complete b s : (b, s) ∈ places (b +:+ "-.-" +:+ s).
Proof.
  induction b as [|c b IH]; cbn [String.append]; [by left|]. cbn [places].
  apply elem_of_app. right. by apply (list_elem_of_fmap_2 (fun q => (String c q.1, q.2)) _ (b, s)).
Qed.

Lemma places_sound p b s : (b, s) ∈ places p -> p = b +:+ "-.-" +:+ s.
Proof.
  revert b. induction p as [|c p IH]; intros b; cbn [places]; [by intros ?%not_elem_of_nil|].
  intros [H|([b' s'] & [= -> ->] & H)%list_elem_of_fmap]%elem_of_app; cycle 1.
  { change (String c p = String c (b' +:+ "-.-" +:+ s')). f_equal. by apply IH. }
  destruct c as [[] [] [] [] [] [] [] []]; try by apply not_elem_of_nil in H.
  destruct p as [|[[] [] [] [] [] [] [] []] p]; try by apply not_elem_of_nil in H.
  destruct p as [|[[] [] [] [] [] [] [] []] p]; try by apply not_elem_of_nil in H.
  apply list_elem_of_singleton in H. by injection H as -> ->.
Qed.

(** There is one place at most, where the type is taken apart. *)
Definition one_place (p : string) : bool :=
  match places p with
  | [] => negb (occurs "-.-" p)
  | [(b, s)] => occurs "-.-" p && bool_decide (split_from "-.-" 0 p = [b; s])
  | _ => false
  end.

Lemma one_place_spec p : one_place p = true -> forall b s, p = b +:+ "-.-" +:+ s ->
  occurs "-.-" p = true /\ split_from "-.-" 0 p = [b; s].
Proof.
  intros H b s ->. unfold one_place in H. pose proof (places_complete b s) as Hin.
  destruct (places _) as [|[b' s'] [|]]; [by apply not_elem_of_nil in Hin| |discriminate].
  apply list_elem_of_singleton in Hin. injection Hin as <- <-.
  apply andb_prop in H as [Ho Hs]. by apply bool_decide_eq_true in Hs.
Qed.

Lemma no_place p : one_place p = true -> (forall b s, p <> b +:+ "-.-" +:+ s) -> occurs "-.-" p = false.
Proof.
  intros H Hno. unfold one_place in H. destruct (places p) as [|[b s] l] eqn:E.
  { by apply negb_true_iff in H. }
  exfalso. apply (Hno b s), places_sound. rewrite E. left.
Qed.

Definition pattern_shaped (p : string * string) : Prop :=
  implb (occurs "-.-" p.2) (shaped p.2) && one_place p.2 = true.

Lemma posted_patterns : Forall pattern_shaped PostTables.supportedTypeEnumerations.
Proof.
  assert (H : forall l, forallb (fun p => implb (occurs "-.-" p.2) (shaped p.2) && one_place p.2) l = true ->
    Forall pattern_shaped (dict_of l)).
  { intros l Hl. apply Forall_dupdate; [apply Forall_nil_2|].
    apply Forall_forall. intros p Hp. rewrite forallb_forall in Hl.
    by apply Hl, list_elem_of_In. }
  apply Forall_updates; [apply Forall_nil_2|].
  do 7 (apply Forall_cons_2; [apply H; vm_compute; reflexivity|]). apply Forall_nil_2.
Qed.

Lemma posted_place name p : dget name PostTables.supportedTypeEnumerations = Some p -> one_place p = true.
Proof.
  intros Hp%dget_Some_elem. pose proof (proj1 (Forall_forall _ _) posted_patterns (name, p) Hp) as H.
  exact (proj2 (andb_prop _ _ H)).
Qed.

(** A character that no star follows. *)
Lemma fullmatch_char c p s :
  String.prefix "*" p = false ->
  fullmatch (String c p) s =
    match s with String x s' => char_matches c x && fullmatch p s' | EmptyString => false end.
Proof.
  destruct p as [|d p]; [done|].
  cbn [String.prefix]. destruct (ascii_dec "*" d) as [|Hd]; [intros H; destruct p; discriminate H|].
  intros _. destruct d as [[] [] [] [] [] [] [] []]; done.
Qed.

(** Patterns match what they are made into, and of two the same only if they are. *)
Lemma fullmatch_plain q s : plain_chars q = true -> fullmatch q s = true -> q = s.
Proof.
  revert s. induction q as [|c q IH]; intros s Hq; [by destruct s|].
  apply andb_prop in Hq as [[Hd Hst]%andb_prop Hq]. apply bool_decide_eq_true in Hd, Hst.
  rewrite fullmatch_char.
  2:{ destruct q as [|d q]; [done|]. apply andb_prop in Hq as [[_ H]%andb_prop _].
      apply bool_decide_eq_true in H. cbn [String.prefix]. by destruct (ascii_dec "*" d) as [<-|]. }
  destruct s as [|x s]; [done|]. intros [Hx Hm]%andb_prop.
  unfold char_matches in Hx. rewrite decide_False in Hx by done.
  apply bool_decide_eq_true in Hx as ->. f_equal. by apply IH.
Qed.

Lemma fullmatch_shaped b s b' x s' :
  plain_chars s = true -> beginning b -> beginning b' ->
  fullmatch (b +:+ "-.-" +:+ s) (b' +:+ String "-" (String x (String "-" s'))) = true ->
  b = b' /\ s = s'.
Proof.
  intros Hs Hb Hb' H.
  assert (Hm : b = b' /\ fullmatch ("-" +:+ s) (String "-" s') = true).
  { destruct Hb as [->| ->], Hb' as [->| ->]; cbv beta iota delta [String.append] in H |- *;
      repeat (rewrite fullmatch_char in H by done;
              apply andb_prop in H as [Hc H]; first [by vm_compute in Hc|clear Hc]); done. }
  destruct Hm as [E Hm]. split; [done|].
  apply fullmatch_plain in Hm; [by injection Hm|]. exact Hs.
Qed.

(** The types that can be listed, with the place of the attitude if they have one. *)
Definition listed_shape (q : string) : Prop :=
  (exists b s, q = b +:+ "-.-" +:+ s /\ beginning b /\ plain_chars s = true) \/
  q = "b-l" \/ q = "b-l-l-l-cd".

Lemma listed_patterns q : q ∈ dvalues ListTables.supportedTypeEnumerations -> listed_shape q.
Proof.
  assert (H : forallb (fun q => match split_from "-.-" 0 q with
    | [b; s] => bool_decide (b = "a" \/ b = "b-r") && bool_decide (q = b +:+ "-.-" +:+ s) && plain_chars s
    | _ => bool_decide (q = "b-l" \/ q = "b-l-l-l-cd")
    end) (dvalues ListTables.supportedTypeEnumerations) = true) by (vm_compute; reflexivity).
  rewrite forallb_forall in H. intros Hq%list_elem_of_In. specialize (H q Hq). clear Hq.
  destruct (split_from "-.-" 0 q) as [|b [|s [|]]];
    try (right; by apply bool_decide_eq_true in H).
  apply andb_prop in H as [[H1 H2]%andb_prop H3]. apply bool_decide_eq_true in H1, H2.
  left. by exists b, s.
Qed.

(** The letters of the attitudes. *)
Lemma posted_code a code : dget a PostTables.attitude = Some code ->
  code ∈ ["-f-"; "-h-"; "-u-"; "-p-"; "-a-"; "-n-"; "-s-"; "-j-"; "-k-"].
Proof.
  intros H%dget_Some_elem.
  assert (Hf : forallb (fun p => bool_decide (p.2 ∈
    ["-f-"; "-h-"; "-u-"; "-p-"; "-a-"; "-n-"; "-s-"; "-j-"; "-k-"])) PostTables.attitude = true)
    by (vm_compute; reflexivity).
  rewrite forallb_forall in Hf. specialize (Hf (a, code) (proj1 (list_elem_of_In _ _) H)).
  by apply bool_decide_eq_true in Hf.
Qed.

(** Of the types that can be listed, only its own matches what a name is made into. *)
Lemma only_own_matches p code q :
  shaped p = true ->
  code ∈ ["-f-"; "-h-"; "-u-"; "-p-"; "-a-"; "-n-"; "-s-"; "-j-"; "-k-"] ->
  q ∈ dvalues ListTables.supportedTypeEnumerations ->
  fullmatch q (replace p "-.-" code) = true -> q = p.
Proof.
  intros (b & s & -> & Hb & ->)%shaped_inv Hc Hq%listed_patterns Hm.
  assert (E : exists x, code = String "-" (String x "-") /\ x <> "l"%char).
  { repeat (apply elem_of_cons in Hc as [->|Hc]; [by eexists|]). by apply not_elem_of_nil in Hc. }
  destruct E as (x & -> & Hx). destruct Hq as [(b' & s' & -> & Hb' & Hs')|Hq].
  - by destruct (fullmatch_shaped b' s' b x s Hs' Hb' Hb Hm) as [-> ->].
  - assert (Hp : plain_chars q = true) by (by destruct Hq as [->| ->]).
    apply fullmatch_plain in Hm; [|done].
    destruct Hq as [->| ->], Hb as [->| ->]; cbv beta iota delta [String.append] in Hm;
      injection Hm; try done; congruence.
Qed.

(** What each of these types is listed as, with each attitude. *)
Definition listed_well (p code : string) : bool :=
  match type_and_attitude (Some (replace p "-.-" code)) with
  | Ret (name, a) =>
      negb (bool_decide (code = "-a-" /\ String.prefix "a" p = true)) &&
      bool_decide (dget name ListTables.supportedTypeEnumerations = Some p) &&
      bool_decide (dget a ListTables.attitude = Some code)
  | Exn e => is_Exception e && bool_decide (code = "-a-" /\ String.prefix "a" p = true)
  end.

Lemma all_listed_well p code :
  p ∈ dvalues ListTables.supportedTypeEnumerations -> occurs "-.-" p = true ->
  code ∈ ["-f-"; "-h-"; "-u-"; "-p-"; "-a-"; "-n-"; "-s-"; "-j-"; "-k-"] ->
  listed_well p code = true.
Proof.
  intros Hp Ho Hc.
  assert (H : forallb (fun p => implb (occurs "-.-" p) (forallb (listed_well p)
      ["-f-"; "-h-"; "-u-"; "-p-"; "-a-"; "-n-"; "-s-"; "-j-"; "-k-"]))
    (remove_dups (dvalues ListTables.supportedTypeEnumerations)) = true) by (vm_compute; reflexivity).
  rewrite forallb_forall in H.
  specialize (H p (proj1 (list_elem_of_In _ _) (proj2 (elem_of_remove_dups _ _) Hp))).
  rewrite Ho in H. cbn [implb] in H. rewrite forallb_forall in H.
  by apply H, list_elem_of_In.
Qed.

#[local] Opaque PostTables.supportedTypeEnumerations PostTables.attitude ListTables.supportedTypeEnumerations
  ListTables.attitude.

Lemma pure_bind {A B} (o : outcome A) (k : A -> M unit B) :
  pure (of_outcome o ≫= k) = match o with Ret a => pure (k a) | Exn e => Exn e end.
Proof. by destruct o. Qed.

(** The type a name is made into with the attitude of a request. *)
Lemma obj_type_replaced l name p a code :
  dget "geoObject" l = Some (JText name) -> dget name PostTables.supportedTypeEnumerations = Some p ->
  occurs "-.-" p = true -> dget "attitude" l = Some (JText a) ->
  dget a PostTables.attitude = Some code ->
  obj_type (JDict l) = Ret (replace p "-.-" code).
Proof.
  intros Hg Hp Ho Ha Hc. unfold obj_type, json_item, lookup_in.
  rewrite pure_bind, Hg, pure_bind, Hp, Ho, pure_bind, Ha, pure_bind, Hc. done.
Qed.

(** A type that can not be listed. *)
Lemma unknown_not_listed p code :
  shaped p = true ->
  code ∈ ["-f-"; "-h-"; "-u-"; "-p-"; "-a-"; "-n-"; "-s-"; "-j-"; "-k-"] ->
  p ∉ dvalues ListTables.supportedTypeEnumerations ->
  type_and_attitude (Some (replace p "-.-" code)) = Exn IndexError.
Proof.
  intros Hs Hc Hp. unfold type_and_attitude, pure.
  rewrite (run_bind (of_option TypeError (Some _)) _ tt _ tt eq_refl).
  destruct (head (List.filter _ _)) as [q|] eqn:E; [|done]. destruct Hp.
  assert (H : q ∈ List.filter (fun p' => fullmatch p' (replace p "-.-" code))
    (dvalues ListTables.supportedTypeEnumerations)) by (apply head_elem; exact E).
  apply list_elem_of_In, List.filter_In in H as [Hq Hm].
  apply list_elem_of_In in Hq. by rewrite <- (only_own_matches p code q Hs Hc Hq Hm).
Qed.

(** C30: a geo object whose type has a place for an attitude is listed, once it has been
    created, exactly when its type is one of the 43 the list knows and its attitude can be
    found in the type again, which "assumed" can not in the types that begin with "a":
    then under a name of its type and a name of its attitude.  Every other object is left
    out of the list without a word. *)
Theorem created_objects_are_listed distance_m direction l name p a code plat plon lat lon d output :
  dget "geoObject" l = Some (JText name) -> dget name PostTables.supportedTypeEnumerations = Some p ->
  occurs "-.-" p = true -> dget "attitude" l = Some (JText a) ->
  dget a PostTables.attitude = Some code ->
  distance_m (plon, plat) (lon, lat) = Ret d ->
  exists t, obj_type (JDict l) = Ret t /\
    let listed := list_result distance_m direction lat lon "*" (mkGeoRow (Some t) plat plon) output in
    if decide (p ∈ dvalues ListTables.supportedTypeEnumerations /\
               ~ (code = "-a-" /\ String.prefix "a" p = true))
    then exists name' a', dget name' ListTables.supportedTypeEnumerations = Some p /\
      dget a' ListTables.attitude = Some code /\
      listed = (Ret tt, (output ++
        [mkGeoObject plat plon d (direction (lat, lon) (plat, plon)) name' a'])%list)
    else listed = (Ret tt, output).
Proof.
  intros Hg Hp Ho Ha Hc Hd. exists (replace p "-.-" code).
  split; [by apply (obj_type_replaced l name p a code)|]. intros listed.
  pose proof (posted_code a code Hc) as Hin.
  assert (Hs : shaped p = true).
  { pose proof (proj1 (Forall_forall _ _) posted_patterns (name, p) (dget_Some_elem _ _ _ Hp)) as H.
    apply andb_prop in H as [H _]. cbn [snd] in H. by rewrite Ho in H. }
  assert (El : listed = match type_and_attitude (Some (replace p "-.-" code)) with
    | Ret q => (Ret tt, (output ++
        [mkGeoObject plat plon d (direction (lat, lon) (plat, plon)) q.1 q.2])%list)
    | Exn e => try_except (raise e) (fun _ => mret tt) output
    end).
  { unfold listed, list_result. cbn [row_type row_lat row_lon].
    destruct (type_and_attitude _) as [q|e]; [|done].
    unfold try_except, try_with. erewrite run_bind by reflexivity.
    rewrite (bool_decide_eq_true_2 ("*" = "*") eq_refl), andb_false_r, Hd. done. }
  rewrite El. clear El listed.
  destruct (decide (p ∈ dvalues ListTables.supportedTypeEnumerations)) as [Hv|Hv].
  - pose proof (all_listed_well p code Hv Ho Hin) as W. unfold listed_well in W.
    destruct (type_and_attitude _) as [[name' a']|e].
    + apply andb_prop in W as [[W1 W2]%andb_prop W3].
      apply negb_true_iff, bool_decide_eq_false in W1. apply bool_decide_eq_true in W2, W3.
      rewrite decide_True by (split; assumption). exists name', a'.
      split; [exact W2|]. split; [exact W3|reflexivity].
    + apply andb_prop in W as [He W]. apply bool_decide_eq_true in W.
      rewrite decide_False by (intros [_ Hn]; exact (Hn W)). unfold try_except, try_with, raise. by rewrite He.
  - rewrite decide_False by (intros [Hn _]; exact (Hv Hn)).
    by rewrite (unknown_not_listed p code Hs Hin Hv).
Qed.

Lemma created_objects_are_listed_witness :
  let l := [("geoObject", JText "avalanche"); ("attitude", JText "friend")] in
  exists t, obj_type (JDict l) = Ret t /\ exists name' a',
    dget name' ListTables.supportedTypeEnumerations = Some "a-.-X-i-g-a" /\
    dget a' ListTables.attitude = Some "-f-" /\
    list_result (fun _ _ => Ret 5%Q) (fun _ _ => 0%Q) 1 2 "*" (mkGeoRow (Some t) 3 4) [] =
      (Ret tt, [mkGeoObject 3 4 5 0 name' a']).
Proof.
  intros l.
  assert (Hc : dget "friend" PostTables.attitude = Some "-f-") by (vm_compute; reflexivity).
  assert (Hv : "a-.-X-i-g-a" ∈ dvalues ListTables.supportedTypeEnumerations).
  { apply (bool_decide_unpack _). vm_compute. exact Logic.I. }
  destruct (created_objects_are_listed (fun _ _ => Ret 5%Q) (fun _ _ => 0%Q) l "avalanche"
    "a-.-X-i-g-a" "friend" "-f-" 3 4 1 2 5 [] eq_refl posted_avalanche eq_refl eq_refl Hc eq_refl)
    as (t & Ht & H).
  exists t. split; [exact Ht|].
  rewrite decide_True in H by (split; [exact Hv|by intros [E _]]). exact H.
Defined.

(** * What a request becomes *)

(** The document the components are handed; numbers have no counterpart in those of
    clients. *)
Fixpoint xval_of (v : json) : option xval :=
  match v with
  | JNull => Some XNone
  | JText s => Some (XText s)
  | JDict l =>
      XDict <$> (fix entries l :=
        match l with
        | [] => Some []
        | (k, v) :: l => x ← xval_of v; r ← entries l; Some ((k, x) :: r)
        end) l
  | JList l =>
      XList <$> (fix values l :=
        match l with [] => Some [] | v :: l => x ← xval_of v; r ← values l; Some (x :: r) end) l
  | JBool _ | JNum _ => None
  end.

(** The node that [model_definitions/geoobject.json] describes. *)
Definition geo_event : node :=
  new_node event_class
    [new_node detail_class
       [new_node contact_class []; new_node link_class []; new_node remarks_class [];
        new_node usericon_class []];
     new_node point_class []].

(** What a document says of a geo object. *)
Record geo_document := mkGeoDocument {
  gd_how : string; gd_type : string; gd_uid : string; gd_time : string; gd_start : string;
  gd_stale : string; gd_lat : string; gd_lon : string;
  gd_name : option string; gd_link : option string; gd_remarks : option string }.

Definition part (name key : string) (o : option string) : list (string * xval) :=
  match o with
  | Some s => if decide (s = "") then [] else [(name, XDict [(key, XText s)])]
  | None => []
  end.

Definition geo_xml (g : geo_document) : list (string * xval) :=
  [("@how", XText (gd_how g)); ("@type", XText (gd_type g)); ("@uid", XText (gd_uid g));
   ("@time", XText (gd_time g)); ("@start", XText (gd_start g)); ("@stale", XText (gd_stale g));
   ("point", XDict [("@lat", XText (gd_lat g)); ("@lon", XText (gd_lon g));
      ("@hae", XText "9999999"); ("@ce", XText "9999999"); ("@le", XText "9999999")]);
   ("detail", XDict (part "contact" "@callsign" (gd_name g) ++ part "link" "@uid" (gd_link g) ++
      part "remarks" "#text" (gd_remarks g)))].

Lemma geo_event_good : good domain geo_event.
Proof.
  repeat first [apply Forall_nil_2 | apply Forall_cons_2
    | apply new_good; [vm_compute; reflexivity|]].
Qed.

Lemma elem_of_part k v name key o :
  (k, v) ∈ part name key o -> exists s, k = name /\ v = XDict [(key, XText s)].
Proof.
  destruct o as [s|]; cbn [part]; [|intros H; by apply not_elem_of_nil in H].
  destruct (decide _); [intros H; by apply not_elem_of_nil in H|].
  intros [= -> ->]%list_elem_of_singleton. by exists s.
Qed.

Lemma NoDup_parts a b c : NoDup (part "contact" "@callsign" a ++ part "link" "@uid" b ++
  part "remarks" "#text" c)%list.*1.
Proof.
  destruct a as [a|], b as [b|], c as [c|]; cbn [part]; repeat destruct (decide _);
    apply (bool_decide_unpack _); vm_compute; exact Logic.I.
Qed.

Lemma geo_xml_fits lib g :
  fits lib domain (XDict (geo_xml g)) geo_event.
Proof.
  unfold geo_xml. fit_dict. fit_entries k v H.
  - fit_attr "how" "how".
  - fit_attr "type" "type".
  - fit_attr "uid" "uid".
  - fit_attr "time" "time".
  - fit_attr "start" "start".
  - fit_attr "stale" "stale".
  - fit_child enters_value 1. fit_dict. fit_entries k v H.
    + fit_attr "lat" "lat".
    + fit_attr "lon" "lon".
    + fit_attr "hae" "hae".
    + fit_attr "ce" "ce".
    + fit_attr "le" "le".
  - fit_child enters_value 0. apply fits_dict; [apply NoDup_parts|]. intros k v.
    intros [(s & -> & ->)%elem_of_part|[(s & -> & ->)%elem_of_part|(s & -> & ->)%elem_of_part]%elem_of_app]%elem_of_app.
    + fit_child enters_value 0. fit_dict. fit_entries k v H. fit_attr "callsign" "callsign".
    + fit_child enters_value 1. fit_dict. fit_entries k v H. fit_attr "uid" "uid".
    + fit_child enters_value 2. fit_dict. fit_entries k v H. constructor.
Qed.

(** The type a request asks for: that of the object it names; where it has a place for an
    attitude, with the letter of the attitude the request names in that place. *)
Definition type_asked (l : list (string * json)) (type : string) : Prop :=
  exists name p, dget "geoObject" l = Some (JText name) /\
    dget name PostTables.supportedTypeEnumerations = Some p /\
    ((exists b s a letter, p = b +:+ "-.-" +:+ s /\ dget "attitude" l = Some (JText a) /\
        dget a PostTables.attitude = Some letter /\ type = b +:+ letter +:+ s) \/
     ((forall b s, p <> b +:+ "-.-" +:+ s) /\ type = p)).

Lemma type_asked_made l type : type_asked l type -> obj_type (JDict l) = Ret type.
Proof.
  intros (name & p & Hg & Hp & Ht).
  pose proof (one_place_spec p (posted_place name p Hp)) as Hone.
  destruct Ht as [(b & s & a & letter & -> & Ha & Hc & ->)|[Hno ->]].
  - destruct (Hone b s eq_refl) as [Ho Hs].
    rewrite (obj_type_replaced l name _ a letter Hg Hp Ho Ha Hc). unfold replace. rewrite Hs. reflexivity.
  - assert (Ho : occurs "-.-" p = false) by exact (no_place p (posted_place name p Hp) Hno).
    unfold obj_type, json_item, lookup_in. rewrite pure_bind, Hg, pure_bind, Hp, Ho. reflexivity.
Qed.

(** A request that asks for the object of a document, where it says it is: as text, without
    an address or a distance. *)
Record asks_for (lib : rest_library) (l : list (string * json)) (g : geo_document) : Prop := {
  af_type : type_asked l (gd_type g);
  af_how : exists h, dget "how" l = Some (JText h) /\ dget h PostTables.how = Some (gd_how g);
  af_lat : dget "latitude" l = Some (JText (gd_lat g));
  af_lon : dget "longitude" l = Some (JText (gd_lon g));
  af_address : truthy (default JNull (dget "address" l)) = false;
  af_distance : truthy (default JNull (dget "distance" l)) = false;
  af_stale : exists q, dget "timeout" l = Some (JNum q) /\ dtg lib 2 q = Ret (gd_stale g);
  af_time : dtg lib 0 0 = Ret (gd_time g);
  af_start : dtg lib 1 0 = Ret (gd_start g);
  af_uid : gd_uid g = fresh_uid lib;
  af_name : dget "name" l = JText <$> gd_name g;
  af_link : dget "link_uid" l = JText <$> gd_link g;
  af_remarks : dget "remarks" l = JText <$> gd_remarks g }.

Lemma run_get_or {S} l k d (s : S) :
  of_outcome (get_or (JDict l) k d) s = (Ret (default d (dget k l)), s).
Proof. done. Qed.

Lemma run_json_item {S} l k v (s : S) :
  dget k l = Some v -> of_outcome (json_item (JDict l) k) s = (Ret v, s).
Proof. intros H. unfold json_item. by rewrite H. Qed.

(** The parts of the detail, as values of JSON and of documents. *)
Lemma xval_part (name key : string) (o : option string) :
  let v := default JNull (JText <$> o) in
  (if truthy v then [(name, JDict [(key, v)])] else [] : list (string * json)) =
    match o with
    | Some s => if decide (s = "") then [] else [(name, JDict [(key, JText s)])]
    | None => []
    end.
Proof. destruct o as [s|]; [|done]. cbn. by destruct (decide (s = "")); case_bool_decide. Qed.

Lemma send_geoobject_run lib l g rs :
  asks_for lib l g -> (forall r, request_raises lib r = None) ->
  exists doc, send_geoobject lib (JDict l) (mret (JText (fresh_uid lib))) rs =
      (Ret (message_answer (JText (gd_uid g)) 200),
       (rs ++ [mkRequest "CreateGeoObject" "XMLCoT"
          [("dictionary", doc); ("repeated", default (JBool false) (dget "repeat" l))]
          JNull (JBool false)])%list) /\
    xval_of doc = Some (XDict [("event", XDict (geo_xml g))]).
Proof.
  intros [Ht (h & Hh & Hhow) Hlat Hlon Had Hdi (q & Hto & Hq) H0 H1 Hu Hn Hl Hr] Hno.
  apply type_asked_made in Ht. unfold send_geoobject. rewrite Ht. erewrite run_bind by reflexivity.
  erewrite run_bind.
  2:{ unfold located. rewrite (run_bind _ _ _ _ _ (run_get_or l _ _ rs)), Had.
      rewrite (run_bind _ _ _ _ _ (run_json_item l _ _ rs Hlon)).
      by rewrite (run_bind _ _ _ _ _ (run_json_item l _ _ rs Hlat)). }
  erewrite run_bind.
  2:{ unfold displaced. by rewrite (run_bind _ _ _ _ _ (run_get_or l _ _ rs)), Hdi. }
  rewrite (run_bind _ _ _ _ _ (run_json_item l _ _ rs Hh)).
  unfold lookup_in at 1. rewrite Hhow. do 2 (erewrite run_bind by reflexivity).
  rewrite (run_bind _ _ _ _ _ (run_json_item l _ _ rs Hto)).
  do 3 rewrite (run_bind _ _ _ _ _ (run_get_or l _ _ rs)). cbn [fst snd].
  erewrite run_bind.
  2:{ unfold create_geoobject_json, get_current_dtg, seconds_of.
      do 3 (erewrite run_bind;
        [|erewrite run_bind by reflexivity; rewrite ?H0, ?H1, ?Hq; reflexivity]).
      reflexivity. }
  rewrite (run_bind _ _ _ _ _ (run_get_or l _ _ rs)). unfold make_request.
  rewrite Hno. eexists. split; [by rewrite Hu|].
  rewrite Hn, Hl, Hr, !xval_part. unfold geo_xml. rewrite Hu.
  destruct (gd_name g) as [a|], (gd_link g) as [b|], (gd_remarks g) as [c|]; cbn [part];
    repeat destruct (decide _); reflexivity.
Qed.

(** C29: a geo object that is posted is handed on, and written for the clients, as it
    was described. A request that names an object, an attitude where the type of the
    object has a place for one, an origin, a time out and coordinates, as text and
    without an address or a distance, is answered with the uid of the object and makes
    one request to the components; the document in it fits the node of a geo object,
    whose XML, however often it is written, has the type of the object with the letter of
    the attitude in its place, the origin, uid, times and coordinates and the callsign,
    link and remarks that are not empty. *)
Theorem posted_geo_object_reaches_clients lib nodes l g rs :
  asks_for lib l g -> (forall r, request_raises lib r = None) ->
  node_attr nodes "xml_string" = false -> node_setattr nodes "text" = None ->
  (forall s, str_of nodes (XText s) = s) ->
  exists doc m, post_geoobject lib (Ret (JDict l)) rs =
      (Ret (message_answer (JText (gd_uid g)) 200),
       (rs ++ [mkRequest "CreateGeoObject" "XMLCoT"
          [("dictionary", doc); ("repeated", default (JBool false) (dget "repeat" l))]
          JNull (JBool false)])%list) /\
    xval_of doc = Some (XDict [("event", XDict (geo_xml g))]) /\
    convert_dict_to_node nodes domain "Event" [("event", XDict (geo_xml g))] geo_event =
      (Ret true, m) /\
    forall j, exists e, written_again nodes domain j m = Ret e /\
      carries e "event" (XDict (geo_xml g)).
Proof.
  intros Ha Hno Hx Ht Hs. destruct (send_geoobject_run lib l g rs Ha Hno) as (doc & E & Hdoc).
  destruct (fitting_document_survives nodes domain geo_event "Event" (geo_xml g)
    domain_well_formed Hx Ht Hs geo_event_good (geo_xml_fits nodes g)) as (m & Em & Hm).
  exists doc, m. split; [|done]. unfold post_geoobject. apply try_except_ret.
  by rewrite (run_bind (of_outcome (Ret (JDict l))) _ rs (JDict l) rs eq_refl).
Qed.

Definition quiet_rest : rest_library :=
  mkRestLibrary (fun _ => Ret None) (fun _ _ _ _ => Exn ValueError)
    (fun i _ => Ret (match i with 0 => "t0" | 1 => "t1" | _ => "t2" end)) "u1"
    (fun _ => "?") (fun _ => None).

Definition a_request : list (string * json) :=
  [("longitude", JText "12.345678"); ("latitude", JText "34.5677889");
   ("attitude", JText "friend"); ("geoObject", JText "avalanche"); ("how", JText "nonCoT");
   ("name", JText "testing123"); ("timeout", JNum 60)].

Definition requested : geo_document :=
  mkGeoDocument "h-g-i-g-o" "a-f-X-i-g-a" "u1" "t0" "t1" "t2" "34.5677889" "12.345678"
    (Some "testing123") None None.

Lemma posted_geo_object_reaches_clients_witness :
  exists doc m, post_geoobject quiet_rest (Ret (JDict a_request)) [] =
      (Ret (message_answer (JText "u1") 200),
       [mkRequest "CreateGeoObject" "XMLCoT"
          [("dictionary", doc); ("repeated", JBool false)] JNull (JBool false)]) /\
    xval_of doc = Some (XDict [("event", XDict (geo_xml requested))]) /\
    convert_dict_to_node plain_library domain "Event" [("event", XDict (geo_xml requested))]
      geo_event = (Ret true, m) /\
    forall j, exists e, written_again plain_library domain j m = Ret e /\
      carries e "event" (XDict (geo_xml requested)).
Proof.
  assert (Ha : asks_for quiet_rest a_request requested).
  { constructor; [| |reflexivity|reflexivity|reflexivity|reflexivity| |reflexivity..].
    - exists "avalanche", "a-.-X-i-g-a". split; [reflexivity|]. split; [exact posted_avalanche|].
      left. exists "a", "X-i-g-a", "friend", "-f-". split; [reflexivity|]. split; [reflexivity|].
      split; [vm_compute; reflexivity|reflexivity].
    - exists "nonCoT". split; vm_compute; reflexivity.
    - exists 60%Q. split; reflexivity. }
  exact (posted_geo_object_reaches_clients quiet_rest plain_library a_request requested []
    Ha (fun _ => eq_refl) eq_refl eq_refl (fun _ => eq_refl)).
Defined.

(** Whether anything but an [Exception] comes out of the library. *)
Definition calm_rest (lib : rest_library) : Prop :=
  (forall v e, geocode lib v = Exn e -> is_Exception e = true) /\
  (forall a b c d e, destination lib a b c d = Exn e -> is_Exception e = true) /\
  (forall i q e, dtg lib i q = Exn e -> is_Exception e = true) /\
  (forall r e, request_raises lib r = Some e -> is_Exception e = true).

(** What an endpoint has done when it has answered, or raised. *)
Definition one_or_none {A} (P : A -> Prop) (m : M (list rest_request) A) (rs : list rest_request) :
    Prop :=
  match m rs with
  | (Ret a, rs') => P a /\ exists doc rep, rs' = (rs ++ [mkRequest "CreateGeoObject" "XMLCoT"
      [("dictionary", doc); ("repeated", rep)] JNull (JBool false)])%list
  | (Exn e, rs') => rs' = rs /\ is_Exception e = true
  end.

(** A computation that makes no request. *)
Definition asks_nothing {A} (m : M (list rest_request) A) : Prop :=
  forall rs, match m rs with (Ret _, rs') => rs' = rs | (Exn e, rs') => rs' = rs /\ is_Exception e = true end.

Lemma asks_nothing_bind {A B} P (m : M (list rest_request) A) (k : A -> M (list rest_request) B) rs :
  asks_nothing m -> (forall a, (m rs).1 = Ret a -> one_or_none P (k a) rs) ->
  one_or_none P (m ≫= k) rs.
Proof.
  intros Hm Hk. unfold one_or_none. cbv [mbind M_bind]. specialize (Hm rs).
  destruct (m rs) as [[a|e] rs']; [subst rs'; by apply Hk|done].
Qed.

Lemma asks_nothing_seq {A B} (m : M (list rest_request) A) (k : A -> M (list rest_request) B) :
  asks_nothing m -> (forall a, asks_nothing (k a)) -> asks_nothing (m ≫= k).
Proof.
  intros Hm Hk rs. cbv [mbind M_bind]. specialize (Hm rs).
  destruct (m rs) as [[a|e] rs']; [subst rs'; apply Hk|done].
Qed.

Lemma asks_nothing_ret {A} (a : A) : asks_nothing (mret a).
Proof. done. Qed.

Lemma asks_nothing_outcome {A} (o : outcome A) :
  (forall e, o = Exn e -> is_Exception e = true) -> asks_nothing (of_outcome o).
Proof. intros H rs. destruct o as [a|e]; [done|]. split; [done|by apply H]. Qed.

Lemma asks_nothing_raise {A} e : is_Exception e = true -> asks_nothing (raise e : M _ A).
Proof. intros H rs. by split. Qed.

Lemma json_item_calm v k e : json_item v k = Exn e -> is_Exception e = true.
Proof. destruct v as [| | | | |l]; cbn; try by intros [= <-]. destruct (dget k l); [done|by intros [= <-]]. Qed.
Lemma get_or_calm v k d e : get_or v k d = Exn e -> is_Exception e = true.
Proof. destruct v; by intros [= <-]. Qed.
Lemma lookup_in_calm table v e : lookup_in table v = Exn e -> is_Exception e = true.
Proof. destruct v as [| | |s| |]; cbn; try by intros [= <-]. destruct (dget s table); [done|by intros [= <-]]. Qed.
Lemma seconds_calm v e : seconds_of v = Exn e -> is_Exception e = true.
Proof. destruct v; by intros [= <-]. Qed.

Lemma obj_type_calm v e : obj_type v = Exn e -> is_Exception e = true.
Proof.
  unfold obj_type. rewrite pure_bind. destruct (json_item v "geoObject") as [g|e'] eqn:E1;
    [|intros [= ->]; by apply json_item_calm in E1].
  rewrite pure_bind. destruct (lookup_in _ g) as [t|e'] eqn:E2;
    [|intros [= ->]; by apply lookup_in_calm in E2].
  destruct (occurs "-.-" t); [|done].
  rewrite pure_bind. destruct (json_item v "attitude") as [a|e'] eqn:E3;
    [|intros [= ->]; by apply json_item_calm in E3].
  rewrite pure_bind. destruct (lookup_in _ a) as [s|e'] eqn:E4; [done|].
  intros [= ->]; by apply lookup_in_calm in E4.
Qed.

Create HintDb rest.
#[export] Hint Resolve json_item_calm get_or_calm lookup_in_calm seconds_calm obj_type_calm
  asks_nothing_ret : rest.

Ltac asks_step :=
  first
    [ lazymatch goal with
      | |- one_or_none _ (mbind _ (make_request _ _ _ _ _ _)) _ => fail
      | |- one_or_none _ _ _ => apply asks_nothing_bind; [|intros ? ?]
      end
    | apply asks_nothing_seq; [|intros ?]
    | apply asks_nothing_outcome; solve [eauto 4 with rest]
    | apply asks_nothing_ret
    | apply asks_nothing_raise; reflexivity
    | match goal with
      | |- asks_nothing (if ?b then _ else _) => destruct b
      | |- asks_nothing (match ?o with _ => _ end) => destruct o
      end ].

Lemma send_geoobject_asks lib v (uid : M (list rest_request) json) rs :
  calm_rest lib -> asks_nothing uid ->
  one_or_none (fun a => exists u, (uid rs).1 = Ret u /\ a = message_answer u 200)
    (send_geoobject lib v uid) rs.
Proof.
  intros (Hg & Hd & Ht & Hr) Hu. unfold send_geoobject, located, displaced,
    create_geoobject_json, get_current_dtg.
  repeat asks_step; try done.
  unfold one_or_none, make_request. destruct (request_raises lib _) as [e|] eqn:E.
  - cbv [mbind M_bind raise]. split; [done|by apply Hr in E].
  - cbv [mbind M_bind modify]. split; [by eexists|]. by repeat eexists.
Qed.

(** a request to create a geo object, whatever is in it, is answered: with the uid of
    the object after exactly one request to the components has been made, or with an error
    after none has; nothing else comes out of the endpoint. *)
Theorem geo_request_is_all_or_nothing lib body rs :
  calm_rest lib -> (forall e, body = Exn e -> is_Exception e = true) ->
  (exists doc rep, post_geoobject lib body rs =
     (Ret (message_answer (JText (fresh_uid lib)) 200),
      (rs ++ [mkRequest "CreateGeoObject" "XMLCoT" [("dictionary", doc); ("repeated", rep)]
         JNull (JBool false)])%list)) \/
  post_geoobject lib body rs =
    (Ret (message_answer (JText "An error occurred adding geo object.") 500), rs).
Proof.
  intros Hl Hb. unfold post_geoobject, try_except, try_with.
  destruct body as [v|e]; [|right; rewrite (run_bind_exn (of_outcome (Exn e)) _ rs e rs eq_refl);
    by rewrite (Hb e eq_refl)].
  rewrite (run_bind (of_outcome (Ret v)) _ rs v rs eq_refl).
  pose proof (send_geoobject_asks lib v (mret (JText (fresh_uid lib))) rs Hl
    (asks_nothing_ret _)) as H.
  unfold one_or_none in H. destruct (send_geoobject _ _ _ rs) as [[a|e] rs'].
  - destruct H as [(u & [= <-] & ->) (doc & rep & ->)]. left. by exists doc, rep.
  - destruct H as [-> He]. right. by rewrite He.
Qed.

Lemma geo_request_is_all_or_nothing_witness :
  (exists doc rep, post_geoobject quiet_rest (Ret JNull) [] =
     (Ret (message_answer (JText "u1") 200),
      [mkRequest "CreateGeoObject" "XMLCoT" [("dictionary", doc); ("repeated", rep)]
         JNull (JBool false)])) \/
  post_geoobject quiet_rest (Ret JNull) [] =
    (Ret (message_answer (JText "An error occurred adding geo object.") 500), []).
Proof.
  assert (Hl : calm_rest quiet_rest).
  { split; [done|]. split; [by intros ? ? ? ? ? [= <-]|]. by split. }
  assert (Hb : forall e, Ret JNull = Exn e -> is_Exception e = true) by done.
  exact (geo_request_is_all_or_nothing quiet_rest (Ret JNull) [] Hl Hb).
Defined.

(** * Distances *)

(** C33: the list of the geo objects around a point north of the equator and east of
    Greenwich does not go by distance: an object is selected wherever it is on a line
    through the point, however far, and however small the radius; an object just south-west
    of the point is not, for a radius up to 110 km, where the longitude is a degree more
    than the latitude.  And on the equator west of Greenwich there is no answer at all. *)
Theorem geo_query_ignores_distance radius lat lon :
  (0 <= radius)%Z -> (0 <= lat)%Q -> (0 <= lon)%Q ->
  exists c, geo_query radius lat lon = Some (Condition c) /\
    (forall k, (0 <= k)%Q -> (k * 11130262 <= lat)%Q ->
       selects c (lat - k * 11130262) (lon + k * 11057461)) /\
    ((radius <= 110000)%Z -> (lat + 1 <= lon)%Q -> forall plat plon,
       (plat <= lat)%Q -> (plon <= lon)%Q -> (plat < lat \/ plon < lon)%Q ->
       ~ selects c plat plon) /\
    (0 < lon -> geo_query radius 0 (- lon) = None)%Q.
Proof.
  intros Hr Hlat Hlon. unfold geo_query.
  rewrite (proj2 (Qle_bool_iff 0 lat) Hlat), (proj2 (Qle_bool_iff 0 lon) Hlon). cbn [andb].
  eexists. split; [reflexivity|].
  assert (H0 : (10 <= inject_Z (radius + 10))%Q).
  { change 10%Q with (inject_Z 10). rewrite <- Zle_Qle. lia. }
  split; [|split].
  - intros k Hk Hkl. cbn. split; [nra|]. split; [nra|]. split; [|done].
    left. split; [nra|]. split; [nra|done].
  - intros Hr2 Hll plat plon Ha Hb Hab. assert (H2 : (inject_Z (radius + 10) <= 110010)%Q).
    { change 110010%Q with (inject_Z 110010). rewrite <- Zle_Qle. lia. }
    cbn. intros (_ & _ & [(_ & H & _)|[(H & _)|[]]] & _); destruct Hab; lra.
  - intros Hp. assert (E : Qle_bool 0 (- lon) = false).
    { destruct (Qle_bool 0 (- lon)) eqn:E; [|done]. apply Qle_bool_iff in E. lra. }
    rewrite E. change (Qle_bool 0 0) with true. cbn [andb negb]. by rewrite andb_false_r.
Qed.

Lemma geo_query_ignores_distance_witness :
  exists c, geo_query 100 10 50 = Some (Condition c) /\
    selects c (10 - (1 # 2000000) * 11130262) (50 + (1 # 2000000) * 11057461) /\
    ~ selects c (9 # 1) 50 /\ geo_query 100 0 (- 50) = None.
Proof.
  assert (Hr : (0 <= 100)%Z) by lia.
  assert (H1 : (0 <= 10)%Q) by lra. assert (H2 : (0 <= 50)%Q) by lra.
  destruct (geo_query_ignores_distance 100 10 50 Hr H1 H2) as (c & E & A & B & C).
  exists c. split; [exact E|]. split; [apply A; lra|]. split; [|apply C; lra].
  apply B; [lia|lra|lra|lra|left; lra].
Defined.

(** * Emergencies *)

Lemma make_request_run lib action context values service synchronous rs :
  (forall r, request_raises lib r = None) ->
  make_request lib action context values service synchronous rs =
    (Ret tt, (rs ++ [mkRequest action context values service synchronous])%list).
Proof. intros H. unfold make_request. by rewrite H. Qed.

(** The cancellation of an emergency is answered without its uid, and its requests name
    the services where the others say whether they are answered. *)
Theorem cancellation_names_no_service lib jsondata rs :
  (forall r, request_raises lib r = None) ->
  let sent := mkRequest "EmergencyCancelled" "emergency"
    [("dictionary", serialize_emergency_delete jsondata)] (JBool false) in
  delete_emergency_request lib jsondata rs =
    (Ret (message_answer JNull 200),
     (rs ++ [sent (JText "tcp_cot_service"); sent (JText "ssl_cot_service")])%list).
Proof.
  intros H sent. unfold delete_emergency_request.
  do 2 (erewrite run_bind by by apply make_request_run).
  erewrite run_bind by reflexivity. by rewrite <- app_assoc.
Qed.

(** An emergency goes to both services, and its uid is answered. *)
Theorem posted_emergency_goes_to_both lib jsondata rs :
  (forall r, request_raises lib r = None) -> dget "address" jsondata = None ->
  exists doc, post_emergency_request lib jsondata rs =
    (Ret (message_answer (JText (fresh_uid lib)) 200),
     (rs ++ [mkRequest "EmergencyAlert" "emergency" [("dictionary", doc)]
               (JText "tcp_cot_service") (JBool false);
             mkRequest "EmergencyAlert" "emergency" [("dictionary", doc)]
               (JText "ssl_cot_service") (JBool false)])%list).
Proof.
  intros H Ha. unfold post_emergency_request, serialize_emergency_post, resolve_address. rewrite Ha.
  eexists. erewrite run_bind by reflexivity.
  do 2 (erewrite run_bind by by apply make_request_run).
  erewrite run_bind by reflexivity. by rewrite <- app_assoc.
Qed.
