(* ===== verification/MissionDb.v ===== *)
(** The databases of the missions, of the enterprise sync and of the checklists: the classes
    their tables are mapped to ([components/extended/mission/persistence],
    [core/enterprise_sync/persistence], [components/extended/excheck/persistence]), what the controllers ask of
    a session of SQLAlchemy, and what SQLAlchemy and the database promise. *)
From Stdlib Require Import ZArith Lia Ascii String.
From stdpp Require Import base strings list pretty.
From S2P Require Import Prelude.

Set Default Proof Using "Type".
Local Open Scope list_scope.
Local Open Scope string_scope.
Local Open Scope py_scope.

(** * Tables *)

(** The value of a column or of an attribute mapped to one; [DOther] is a value of a type
    that no column takes, by its [repr]. *)
Inductive dbval :=
  | DNone
  | DBool (b : bool)
  | DInt (z : Z)
  | DStr (s : string)
  | DTime (t : Z)
  | DOther (v : string).

#[export] Instance dbval_eq_dec : EqDecision dbval.
Proof. solve_decision. Defined.

Inductive table :=
  | TPermission | TRole | TRolePermission | TMission | TMissionToMission | TSubscription
  | TInvitation | TItem | TContent | TCoT | TLog | TMissionLog | TExternalData | TChange
  | TSyncObject | TKeyword
  | TTemplate | TTemplateTask | TChecklist | TChecklistTask | TChecklistMission.

#[export] Instance table_eq_dec : EqDecision table.
Proof. solve_decision. Defined.

Inductive coltype := CString | CInteger | CDateTime.
Inductive coldefault := NoDefault | Default (v : dbval) | DefaultNow.

Record column := mkColumn {
  c_name : string;
  c_type : coltype;
  c_default : coldefault;
  c_key : bool }.

(** A relationship: to the row whose [key] the column [fk] holds, or to the rows of
    [target] whose [fk] holds the [key] of this one. *)
Inductive relation :=
  | ToOne (name fk : string) (target : table) (key : string)
  | ToMany (name : string) (target : table) (fk key : string).

Record mapped_class := mkMapped { m_columns : list column; m_relations : list relation }.

Definition key_column (name : string) : column := mkColumn name CString NoDefault true.
Definition serial_column (name : string) : column := mkColumn name CInteger NoDefault true.
Definition text_column (name : string) : column := mkColumn name CString NoDefault false.
Definition text_default (name : string) (v : dbval) : column := mkColumn name CString (Default v) false.
Definition time_column (name : string) : column := mkColumn name CDateTime NoDefault false.
Definition time_default (name : string) : column := mkColumn name CDateTime DefaultNow false.
Definition int_column (name : string) : column := mkColumn name CInteger NoDefault false.
Definition int_default (name : string) (v : dbval) : column := mkColumn name CInteger (Default v) false.

Definition Permission : mapped_class :=
  mkMapped [key_column "permission_type"] [ToMany "roles" TRolePermission "permission_id" "permission_type"].

Definition Role : mapped_class :=
  mkMapped [key_column "role_type"]
    [ToMany "permissions" TRolePermission "role_uid" "role_type";
     ToMany "missions" TMission "defaultRole_id" "role_type"].

Definition RolePermission : mapped_class :=
  mkMapped [serial_column "id"; text_column "permission_id"; text_column "role_uid"]
    [ToOne "permission" "permission_id" TPermission "permission_type";
     ToOne "role" "role_uid" TRole "role_type"].

Definition Mission : mapped_class :=
  mkMapped
    [key_column "PrimaryKey"; text_default "name" (DStr ""); text_default "description" (DStr "");
     text_default "chatRoom" (DStr ""); text_default "baseLayer" (DStr "");
     text_default "bbox" (DStr ""); text_default "path" (DStr "");
     text_default "classification" (DStr ""); text_default "tool" (DStr "ExCheck");
     text_default "creatorUid" (DStr ""); time_default "createTime";
     text_column "defaultRole_id"; text_column "ownerRole";
     text_default "inviteOnly" (DBool false); text_default "expiration" (DInt (-1));
     text_column "guid"; text_default "uids" (DStr "[]"); text_column "token";
     text_default "passwordProtected" (DBool false); text_default "serviceUri" (DStr "")]
    [ToOne "defaultRole" "defaultRole_id" TRole "role_type";
     ToMany "contents" TContent "mission_uid" "PrimaryKey";
     ToMany "mission_items" TItem "mission_uid" "PrimaryKey";
     ToMany "mission_subscriptions" TSubscription "mission_uid" "PrimaryKey";
     ToMany "externalData" TExternalData "mission_uid" "PrimaryKey";
     ToMany "logs" TMissionLog "mission_uid" "PrimaryKey";
     ToMany "cots" TCoT "mission_uid" "PrimaryKey";
     ToMany "changes" TChange "mission_uid" "PrimaryKey";
     ToMany "child_missions" TMissionToMission "parent_mission_id" "PrimaryKey";
     ToMany "parent_missions" TMissionToMission "child_mission_id" "PrimaryKey"].

Definition MissionToMission : mapped_class :=
  mkMapped [serial_column "PrimaryKey"; text_column "parent_mission_id"; text_column "child_mission_id"]
    [ToOne "parent_mission" "parent_mission_id" TMission "PrimaryKey";
     ToOne "child_mission" "child_mission_id" TMission "PrimaryKey"].

Definition Subscription : mapped_class :=
  mkMapped
    [serial_column "PrimaryKey"; text_default "username" (DStr "anonymous");
     time_default "createTime"; text_column "role_id"; text_column "token";
     text_column "clientUid"; text_column "mission_uid"]
    [ToOne "role" "role_id" TRole "role_type";
     ToOne "mission" "mission_uid" TMission "PrimaryKey";
     ToMany "invitation" TInvitation "subscription_uid" "PrimaryKey"].

Definition MissionInvitation : mapped_class :=
  mkMapped
    [key_column "uid"; key_column "author_uid"; key_column "mission_uid";
     text_column "subscription_uid"]
    [ToOne "subscription" "subscription_uid" TSubscription "PrimaryKey"].

Definition MissionItem : mapped_class :=
  mkMapped [key_column "PrimaryKey"; text_column "mission_uid"]
    [ToOne "mission" "mission_uid" TMission "PrimaryKey"].

Definition MissionContent : mapped_class :=
  mkMapped [key_column "PrimaryKey"; key_column "mission_uid"]
    [ToOne "mission" "mission_uid" TMission "PrimaryKey";
     ToMany "change" TChange "content_resource_uid" "PrimaryKey"].

Definition MissionCoT : mapped_class :=
  mkMapped [key_column "uid"; key_column "mission_uid"]
    [ToOne "mission" "mission_uid" TMission "PrimaryKey";
     ToMany "change" TChange "cot_detail_uid" "uid"].

Definition Log : mapped_class :=
  mkMapped
    [key_column "id"; text_column "entryUid"; text_column "content"; text_column "creatorUid";
     time_column "servertime"; time_column "dtg"; time_column "created";
     text_column "contentHashes"; text_column "keywords"]
    [ToMany "missions" TMissionLog "log_id" "id"].

Definition MissionLog : mapped_class :=
  mkMapped [serial_column "id"; text_column "log_id"; text_column "mission_uid"]
    [ToOne "log" "log_id" TLog "id"; ToOne "mission" "mission_uid" TMission "PrimaryKey"].

Definition ExternalData : mapped_class :=
  mkMapped
    [key_column "id"; text_column "name"; text_column "tool"; text_column "urlData";
     text_column "notes"; text_column "uid"; text_column "urlView"; text_column "mission_uid";
     text_column "creator_uid"]
    [ToOne "mission" "mission_uid" TMission "PrimaryKey";
     ToMany "change" TChange "external_data_uid" "id"].

Definition MissionChange : mapped_class :=
  mkMapped
    [serial_column "PrimaryKey"; text_column "type"; text_column "content_uid";
     text_column "creator_uid"; time_default "server_time"; time_default "timestamp";
     text_column "mission_uid"; text_column "content_resource_uid";
     text_column "cot_detail_uid"; text_column "external_data_uid"]
    [ToOne "mission" "mission_uid" TMission "PrimaryKey";
     ToOne "content_resource" "content_resource_uid" TContent "PrimaryKey";
     ToOne "cot_detail" "cot_detail_uid" TCoT "uid";
     ToOne "external_data" "external_data_uid" TExternalData "id"].

Definition EnterpriseSyncDataObject : mapped_class :=
  mkMapped
    [text_column "PrimaryKey"; serial_column "id"; text_column "file_type"; text_column "hash";
     int_column "length"; time_default "start_time"; text_default "submitter" (DStr "anonymous");
     int_default "expiration" (DInt (-1)); text_default "mime_type" (DStr "");
     text_default "tool" (DStr ""); text_default "creator_uid" (DStr "");
     text_default "file_name" (DStr ""); int_default "private" (DInt 0)]
    [ToMany "keywords" TKeyword "enterprise_sync_data_object_id" "PrimaryKey"].

Definition EnterpriseSyncKeyword : mapped_class :=
  mkMapped
    [serial_column "id"; text_column "keyword"; text_column "enterprise_sync_data_object_id"]
    [ToOne "enterprise_sync_data_object" "enterprise_sync_data_object_id" TSyncObject "PrimaryKey"].

Definition ExCheckTemplate : mapped_class :=
  mkMapped [key_column "PrimaryKey"] [ToMany "tasks" TTemplateTask "template_uid" "PrimaryKey"].

Definition ExCheckTemplateTask : mapped_class :=
  mkMapped [key_column "PrimaryKey"; text_column "template_uid"]
    [ToOne "template" "template_uid" TTemplate "PrimaryKey"].

Definition ExCheckChecklist : mapped_class :=
  mkMapped [key_column "PrimaryKey"]
    [ToMany "missions" TChecklistMission "checklist_uid" "PrimaryKey";
     ToMany "tasks" TChecklistTask "checklist_uid" "PrimaryKey"].

Definition ExCheckChecklistTask : mapped_class :=
  mkMapped [key_column "PrimaryKey"; text_column "checklist_uid"]
    [ToOne "checklist" "checklist_uid" TChecklist "PrimaryKey"].

Definition ChecklistMission : mapped_class :=
  mkMapped [serial_column "PrimaryKey"; text_column "mission_uid"; text_column "checklist_uid"]
    [ToOne "checklist" "checklist_uid" TChecklist "PrimaryKey"].

Definition mapping (t : table) : mapped_class :=
  match t with
  | TPermission => Permission | TRole => Role | TRolePermission => RolePermission
  | TMission => Mission | TMissionToMission => MissionToMission
  | TSubscription => Subscription | TInvitation => MissionInvitation | TItem => MissionItem
  | TContent => MissionContent | TCoT => MissionCoT | TLog => Log | TMissionLog => MissionLog
  | TExternalData => ExternalData | TChange => MissionChange
  | TSyncObject => EnterpriseSyncDataObject | TKeyword => EnterpriseSyncKeyword
  | TTemplate => ExCheckTemplate | TTemplateTask => ExCheckTemplateTask
  | TChecklist => ExCheckChecklist | TChecklistTask => ExCheckChecklistTask
  | TChecklistMission => ChecklistMission
  end.

Definition columns (t : table) : list column := m_columns (mapping t).
Definition column_names (t : table) : list string := c_name <$> columns t.
Definition key_names (t : table) : list string := c_name <$> List.filter c_key (columns t).
Definition relations (t : table) : list relation := m_relations (mapping t).

(** * Objects *)

(** An object that is in the database, with its columns. *)
Record row := mkRow { r_table : table; r_cells : list (string * dbval) }.

(** An object that is not: the attributes assigned to it so far, those of its columns and
    those of its relationships. *)
Record draft := mkDraft {
  d_table : table;
  d_cells : list (string * dbval);
  d_links : list (string * option row) }.

Definition new (t : table) : draft := mkDraft t [] [].
Definition with_cell (k : string) (v : dbval) (d : draft) : draft :=
  mkDraft (d_table d) (dset k v (d_cells d)) (d_links d).
Definition with_link (k : string) (o : option row) (d : draft) : draft :=
  mkDraft (d_table d) (d_cells d) (dset k o (d_links d)).

(** A further object refers to one that is not in the database yet. *)
Definition as_row (d : draft) : row := mkRow (d_table d) (d_cells d).

(** The value of a column: [r.k]. *)
Definition cell (k : string) (r : row) : dbval := default DNone (dget k (r_cells r)).
Definition set_cells (cs : list (string * dbval)) (r : row) : row :=
  mkRow (r_table r) (dupdate (r_cells r) cs).

Definition row_key (r : row) : list dbval := (fun k => cell k r) <$> key_names (r_table r).

(** * Queries *)

Inductive comparison := Eq | Ge | Le.
Record condition := mkCondition { q_column : string; q_compare : comparison; q_value : dbval }.

(** [session.query(C).join(D, C.fk == D.key).filter(...)]. *)
Record join := mkJoin { j_fk : string; j_table : table; j_key : string; j_where : list condition }.
Record select := mkSelect { q_table : table; q_join : option join; q_where : list condition }.

Definition all_of (t : table) : select := mkSelect t None [].
Definition filter_by (t : table) (cs : list (string * dbval)) : select :=
  mkSelect t None ((fun p => mkCondition p.1 Eq p.2) <$> cs).

(** * A session *)

(** What the controllers ask of their sessions, each of which has a name, and of the
    system.  [add] makes an object pending, [assign] and [link] set a column and a
    relationship of an object that is in the database, [assign] answers it as it is once
    that has been committed, [commit] answers the objects that
    have been added since the last, as they are in the database, [related] reads a
    relationship. *)
Class Orm (S : Type) := {
  query : string -> select -> M S (list row);
  related : string -> row -> string -> M S (list row);
  add : string -> draft -> M S unit;
  assign : string -> row -> string -> dbval -> M S row;
  link : string -> row -> string -> row -> M S unit;
  delete : string -> row -> M S unit;
  commit : string -> M S (list row);
  rollback : string -> M S unit;
  uuid4 : M S string;
  utcnow : M S Z }.

(** * What they promise *)

(** What a column of that type holds after a value was stored in it. *)
Definition to_column (ty : coltype) (v : dbval) : dbval :=
  match ty, v with
  | CString, DInt z => DStr (pretty z)
  | CString, DBool b => DStr (if b then "1" else "0")
  | _, _ => v
  end.

(** What a column can hold. *)
Definition typed (ty : coltype) (v : dbval) : bool :=
  match ty, v with
  | _, DNone | CString, DStr _ | CInteger, DInt _ | CDateTime, DTime _ => true
  | _, _ => false
  end.

(** The values a column takes. *)
Definition storable (ty : coltype) (v : dbval) : bool := typed ty (to_column ty v).

(** [a == b], where [b] is given by the query: [None] asks for [NULL], and a number and
    a string are compared in the type of the column. *)
Definition sql_eqb (a b : dbval) : bool :=
  match a, b with
  | DStr s, DInt z | DInt z, DStr s => bool_decide (s = pretty z)
  | _, _ => bool_decide (a = b)
  end.

Definition satisfies (r : row) (c : condition) : bool :=
  match q_compare c, cell (q_column c) r, q_value c with
  | Eq, a, b => sql_eqb a b
  | Ge, DTime a, DTime b => Z.leb b a
  | Le, DTime a, DTime b => Z.leb a b
  | _, _, _ => false
  end.

(** Rows that reference each other: [NULL] references nothing. *)
Definition refers (fk : string) (r : row) (key : string) (r' : row) : bool :=
  match cell fk r with DNone => false | v => sql_eqb v (cell key r') end.

Definition tables := table -> list row.

Definition selected (q : select) (T : tables) : list row :=
  List.filter (fun r =>
    forallb (satisfies r) (q_where q) &&
    match q_join q with
    | None => true
    | Some j =>
        existsb (fun r' => refers (j_fk j) r (j_key j) r' && forallb (satisfies r') (j_where j))
          (T (j_table j))
    end) (T (q_table q)).

Definition relation_name (rel : relation) : string :=
  match rel with ToOne name _ _ _ | ToMany name _ _ _ => name end.

Definition find_relation (t : table) (name : string) : option relation :=
  List.find (fun rel => bool_decide (relation_name rel = name)) (relations t).

Definition related_rows (name : string) (r : row) (T : tables) : list row :=
  match find_relation (r_table r) name with
  | Some (ToOne _ fk target key) => List.filter (refers fk r key) (T target)
  | Some (ToMany _ target fk key) => List.filter (fun r' => refers fk r' key r) (T target)
  | None => []
  end.

(** The relationship whose object gives the column [c] its value. *)
Definition link_of (d : draft) (c : string) : option (string * option row) :=
  head (omap (fun rel =>
    match rel with
    | ToOne name fk _ key =>
        if decide (fk = c) then pair key <$> dget name (d_links d) else None
    | ToMany _ _ _ _ => None
    end) (relations (d_table d))).

(** The value given for the column [c] of an object that is inserted, if one is. *)
Definition given (d : draft) (c : column) : option dbval :=
  match link_of d (c_name c) with
  | Some (key, Some r) => Some (to_column (c_type c) (cell key r))
  | Some (_, None) => Some DNone
  | None =>
      match dget (c_name c) (d_cells d), c_default c with
      | Some v, _ | None, Default v => Some (to_column (c_type c) v)
      | None, _ => None
      end
  end.

Definition is_serial (c : column) : bool :=
  c_key c && match c_type c with CInteger => true | _ => false end.

Definition cell_of (T : tables) (d : draft) (c : column) (v : dbval) : Prop :=
  match given d c with
  | Some x => v = x
  | None =>
      match c_default c with
      | DefaultNow => exists t, v = DTime t
      | _ =>
          if is_serial c then
            exists z, v = DInt z /\ forall r, r ∈ T (d_table d) -> cell (c_name c) r <> v
          else v = DNone
      end
  end.

(** The row an object becomes. *)
Definition becomes (T : tables) (d : draft) (r : row) : Prop :=
  r_table r = d_table d /\ dkeys (r_cells r) = column_names (d_table d) /\
  forall c, c ∈ columns (d_table d) -> cell_of T d c (cell (c_name c) r).

Inductive work :=
  | Insert (d : draft)
  | Update (r : row) (c : string) (v : dbval)
  | Delete (r : row).

Definition insert_row (r : row) (T : tables) : tables := fun t =>
  if decide (t = r_table r) then (T t ++ [r])%list else T t.

Definition same_row (r r' : row) : bool :=
  bool_decide (r_table r = r_table r' /\ row_key r = row_key r').

(** [v] in the column [c] of [t]. *)
Definition column_value (t : table) (c : string) (v : dbval) : dbval :=
  match List.find (fun col => bool_decide (c_name col = c)) (columns t) with
  | Some col => to_column (c_type col) v
  | None => v
  end.

Definition update_rows (r : row) (c : string) (v : dbval) (T : tables) : tables := fun t =>
  if decide (t = r_table r) then
    (fun r' => if same_row r r' then set_cells [(c, column_value t c v)] r' else r') <$> T t
  else T t.

(** The rows that reference a row that is deleted lose the reference. *)
Definition forget (r : row) (r' : row) : row :=
  fold_left (fun r' rel =>
    match rel with
    | ToMany _ target fk key =>
        if bool_decide (r_table r' = target) && refers fk r' key r then set_cells [(fk, DNone)] r'
        else r'
    | ToOne _ _ _ _ => r'
    end) (relations (r_table r)) r'.
Definition delete_rows (r : row) (T : tables) : tables := fun t =>
  forget r <$> List.filter (fun r' => negb (same_row r r')) (T t).

(** What pending work makes of the tables, with the rows of the objects it inserts. *)
Inductive effect : tables -> list work -> list row -> tables -> Prop :=
  | effect_nil T : effect T [] [] T
  | effect_insert T d r ws rs T' :
      becomes T d r -> effect (insert_row r T) ws rs T' -> effect T (Insert d :: ws) (r :: rs) T'
  | effect_update T r c v ws rs T' :
      effect (update_rows r c v T) ws rs T' -> effect T (Update r c v :: ws) rs T'
  | effect_delete T r ws rs T' :
      effect (delete_rows r T) ws rs T' -> effect T (Delete r :: ws) rs T'.

(** The key of an object that is inserted, unless the database gives it one. *)
Definition draft_key (d : draft) : option (list dbval) :=
  let ks := List.filter c_key (columns (d_table d)) in
  if existsb is_serial ks then None else Some ((fun c => default DNone (given d c)) <$> ks).

Definition inserted (ws : list work) : list draft :=
  omap (fun w => match w with Insert d => Some d | _ => None end) ws.

(** Work neither SQLAlchemy nor the database has a reason to refuse: an object that is
    inserted has a key, or is given one, in which nothing is [NULL] and that no other
    row has. *)
Definition acceptable (T : tables) (ws : list work) : Prop :=
  (forall d k, d ∈ inserted ws -> draft_key d = Some k ->
     DNone ∉ k /\ forall r, r ∈ T (d_table d) -> row_key r <> k) /\
  NoDup (omap (fun d => pair (d_table d) <$> draft_key d) (inserted ws)) /\
  (forall d c v, d ∈ inserted ws -> c ∈ columns (d_table d) -> given d c = Some v ->
     typed (c_type c) v = true) /\
  (forall d c, d ∈ inserted ws -> c ∈ columns (d_table d) -> is_serial c = true -> given d c = None) /\
  (forall r c v, Update r c v ∈ ws ->
     (c ∉ key_names (r_table r)) /\
     (exists col, col ∈ columns (r_table r) /\ c_name col = c /\
        storable (c_type col) v = true)) /\
  (forall r name target fk key, Delete r ∈ ws -> ToMany name target fk key ∈ relations (r_table r) ->
     fk ∉ key_names target).

Definition askable (q : select) : bool :=
  forallb (fun c => match q_value c with DOther _ => false | _ => true end)
    (q_where q ++ match q_join q with Some j => j_where j | None => [] end)%list.

(** What there is to say of a state: [rows] is what has been committed, [pending] what a
    session has to write, [broken] whether a session waits for a [rollback] because
    writing has failed; in a [sane] state the rows have the columns of their table, of
    their types, and different keys, in which nothing is [NULL]. *)
Class OrmView (S : Type) := {
  rows : S -> tables;
  pending : S -> string -> list work;
  broken : S -> string -> bool;
  sane : S -> Prop }.

Section View.
Context {S : Type} `{OrmView S}.
Implicit Types (s : S).

Definition same_rows s s' : Prop := rows s' = rows s.

(** What a session does is nothing to the others. *)
Definition others (sid : string) s s' : Prop :=
  (sane s -> sane s') /\
  forall sid', sid' <> sid -> pending s' sid' = pending s sid' /\ broken s' sid' = broken s sid'.

Definition unchanged s s' : Prop :=
  (sane s -> sane s') /\ same_rows s s' /\
  forall sid, pending s' sid = pending s sid /\ broken s' sid = broken s sid.

(** A session has one more thing to write. *)
Definition awaits (sid : string) (w : work) s s' : Prop :=
  others sid s s' /\ same_rows s s' /\
  pending s' sid = (pending s sid ++ [w])%list /\ broken s' sid = broken s sid.

(** A failure leaves the tables, and a session that is broken broken. *)
Definition failed (sid : string) (e : exn) s s' : Prop :=
  is_Exception e = true /\ others sid s s' /\ same_rows s s' /\
  (broken s sid = true -> broken s' sid = true).

(** No session but this has something to write. *)
Definition alone (sid : string) s : Prop := forall sid', sid' <> sid -> pending s sid' = [].

(** A session that can write what it has to, and one that can be read from. *)
Definition writable (sid : string) s : Prop :=
  broken s sid = false /\ alone sid s /\ acceptable (rows s) (pending s sid).
Definition readable (sid : string) s : Prop :=
  broken s sid = false /\ (pending s sid = [] \/ writable sid s).

(** A string that no cell is equal to, nor any number, and that is a name: one without
    slashes and NULs. *)
Definition is_name (u : string) : Prop :=
  u <> "" /\ ("/"%char ∉ list_ascii_of_string u) /\ ("000"%char ∉ list_ascii_of_string u).
Definition fresh (u : string) s : Prop :=
  (forall t r c, r ∈ rows s t -> sql_eqb (cell c r) (DStr u) = false) /\ (forall z : Z, u <> pretty z) /\
  is_name u.
End View.

(** What SQLAlchemy and the database document.  Without an order asked for, rows come in
    any; a query writes what is pending first, and sees it. *)
Class OrmLaws (S : Type) `{Orm S, OrmView S} := {
  sane_rows s t r : sane s -> r ∈ rows s t ->
    r_table r = t /\ dkeys (r_cells r) = column_names t;
  sane_types s t r c : sane s -> r ∈ rows s t -> c ∈ columns t ->
    typed (c_type c) (cell (c_name c) r) = true;
  sane_keys s t : sane s -> NoDup (row_key <$> rows s t);
  sane_key s t r : sane s -> r ∈ rows s t -> DNone ∉ row_key r;
  query_ret sid q s l s' : query sid q s = (Ret l, s') ->
    unchanged s s' /\ broken s sid = false /\
    exists rs T, effect (rows s) (pending s sid) rs T /\ l ≡ₚ selected q T;
  query_exn sid q s e s' : query sid q s = (Exn e, s') -> failed sid e s s';
  related_ret sid r name s l s' : related sid r name s = (Ret l, s') ->
    unchanged s s' /\ broken s sid = false /\
    exists rs T, effect (rows s) (pending s sid) rs T /\ l ≡ₚ related_rows name r T;
  related_exn sid r name s e s' : related sid r name s = (Exn e, s') -> failed sid e s s';
  add_law sid d s : exists s', add sid d s = (Ret tt, s') /\ awaits sid (Insert d) s s';
  assign_law sid r c v s : exists s',
    assign sid r c v s = (Ret (set_cells [(c, column_value (r_table r) c v)] r), s') /\ awaits sid (Update r c v) s s';
  link_law sid r name r' s n fk target key :
    find_relation (r_table r) name = Some (ToOne n fk target key) ->
    exists s', link sid r name r' s = (Ret tt, s') /\ awaits sid (Update r fk (cell key r')) s s';
  link_frame sid r name r' s o s' : link sid r name r' s = (o, s') ->
    others sid s s' /\ same_rows s s' /\
    match o with Exn e => is_Exception e = true | Ret _ => True end;
  delete_law sid r s : exists s', delete sid r s = (Ret tt, s') /\ awaits sid (Delete r) s s';
  commit_ret sid s l s' : commit sid s = (Ret l, s') ->
    others sid s s' /\ broken s sid = false /\
    (exists T, effect (rows s) (pending s sid) l T /\ forall t, rows s' t ≡ₚ T t) /\
    pending s' sid = [] /\ broken s' sid = false;
  commit_exn sid s e s' : commit sid s = (Exn e, s') -> failed sid e s s';
  rollback_law sid s : exists s',
    rollback sid s = (Ret tt, s') /\ others sid s s' /\ same_rows s s' /\
    pending s' sid = [] /\ broken s' sid = false;
  uuid4_law s : exists u s', uuid4 s = (Ret u, s') /\ unchanged s s' /\ fresh u s;
  utcnow_law s : exists t s', utcnow s = (Ret t, s') /\ unchanged s s' }.

(** A database that answers what it can answer and takes what it can take. *)
Class OrmReliable (S : Type) `{Orm S, OrmView S} := {
  query_total sid q s : sane s -> readable sid s -> askable q = true ->
    exists l s', query sid q s = (Ret l, s');
  related_total sid r name s : sane s -> readable sid s -> is_Some (find_relation (r_table r) name) ->
    exists l s', related sid r name s = (Ret l, s');
  commit_total sid s : sane s -> writable sid s -> exists l s', commit sid s = (Ret l, s') }.

(** * Keys *)

Lemma key_columns_plain t c : c ∈ columns t -> c_key c = true -> c_default c = NoDefault.
Proof.
  intros Hc Hk. assert (H : forallb (fun c => negb (c_key c) ||
    match c_default c with NoDefault => true | _ => false end) (columns t) = true)
    by by destruct t.
  rewrite forallb_forall in H. specialize (H c ltac:(by apply list_elem_of_In)).
  rewrite Hk in H. simpl in H. by destruct (c_default c).
Qed.

Lemma elem_of_key_columns t c : c ∈ List.filter c_key (columns t) <-> c ∈ columns t /\ c_key c = true.
Proof. by rewrite !list_elem_of_In, filter_In. Qed.

(** A row that is inserted has the key its object asks for, or a new one. *)
Lemma becomes_key T d r : becomes T d r ->
  (forall r', r' ∈ T (d_table d) -> r_table r' = d_table d) ->
  (forall c, c ∈ columns (d_table d) -> is_serial c = true -> given d c = None) ->
  match draft_key d with
  | Some k => row_key r = k
  | None => row_key r ∉ row_key <$> T (d_table d)
  end.
Proof.
  intros (Ht & _ & Hc) HT Hs. unfold draft_key, row_key, key_names.
  destruct (existsb is_serial _) eqn:E.
  - apply existsb_exists in E as (c & Hin%list_elem_of_In & Hser).
    apply elem_of_key_columns in Hin as [Hin Hk].
    intros (r' & Heq & Hr')%list_elem_of_fmap. pose proof (Hc c Hin) as Hcell.
    unfold cell_of in Hcell. rewrite (Hs c Hin Hser), (key_columns_plain _ _ Hin Hk), Hser in Hcell.
    destruct Hcell as (z & Hz & Hfresh). apply (Hfresh r' Hr').
    rewrite (HT r' Hr'), Ht, <- !list_fmap_compose in Heq.
    symmetry. apply (list_fmap_inj_1 _ _ _ c Heq). by apply elem_of_key_columns.
  - rewrite Ht, <- list_fmap_compose. apply list_fmap_ext. intros i c Hi%list_elem_of_lookup_2.
    pose proof Hi as [Hin Hk]%elem_of_key_columns. simpl.
    pose proof (Hc c Hin) as Hcell. unfold cell_of in Hcell.
    destruct (given d c) as [x|]; [exact Hcell|].
    rewrite (key_columns_plain _ _ Hin Hk) in Hcell.
    destruct (is_serial c) eqn:Hser; [|exact Hcell].
    assert (existsb is_serial (List.filter c_key (columns (d_table d))) = true); [|congruence].
    apply existsb_exists. exists c. split; [by apply list_elem_of_In|done].
Qed.
