(* ===== verification/MissionStore.v ===== *)
(** The persistence controller of the missions
    ([components/extended/mission/controllers/mission_persistence_controller.py]). *)
From Stdlib Require Import ZArith Lia Ascii String QArith.
From stdpp Require Import base strings list pretty.
From S2P Require Import Prelude.
From S2P Require Import DictToNode.
From S2P Require Import RestGeo.
From S2P Require Import MissionDb.

Set Default Proof Using "Type".
Local Open Scope string_scope.
Local Open Scope list_scope.
Local Open Scope py_scope.

(** [PERMISSIONS]. *)
Definition PERMISSIONS : list string :=
  ["MISSION_MANAGE_FEEDS"; "MISSION_SET_PASSWORD"; "MISSION_MANAGE_LAYERS"; "MISSION_WRITE";
   "MISSION_UPDATE_GROUPS"; "MISSION_DELETE"; "MISSION_SET_ROLE"; "MISSION_READ"].

(** A value of a document, as it is assigned to the attribute of a column. *)
Definition db_of_json (v : json) : dbval :=
  match v with
  | JNull => DNone
  | JBool b => DBool b
  | JNum q => if bool_decide (Qden q = 1%positive) then DInt (Qnum q) else DOther "float"
  | JText s => DStr s
  | JList _ => DOther "list"
  | JDict _ => DOther "dict"
  end.

(** [for x in v]. *)
Fixpoint characters (s : string) : list string :=
  match s with EmptyString => [] | String c s => String c "" :: characters s end.
Definition iterate (v : json) : outcome (list json) :=
  match v with
  | JList l => Ret l
  | JText s => Ret (JText <$> characters s)
  | JDict l => Ret (JText <$> dkeys l)
  | _ => Exn TypeError
  end.

(** Of the values of a document only strings have a [lower]. *)
Definition with_lower (v : json) : outcome string :=
  match v with JText s => Ret s | _ => Exn AttributeError end.

(** [bool(v)]. *)
Definition db_truth (v : dbval) : bool :=
  match v with
  | DNone => false
  | DBool b => b
  | DInt z => negb (Z.eqb z 0)
  | DStr s => negb (bool_decide (s = ""))
  | DTime _ | DOther _ => true
  end.

Section Store.
Context {S : Type} `{Orm S}.
(** The session of the controller. *)
Context (sid : string).

Abbreviation MS := (M S).

(** [try: m except Exception as ex: self.ses.rollback(); raise ex]. *)
Definition or_rollback {A} (m : MS A) : MS A :=
  try_except m (fun e => rollback sid ;;; raise e).

Definition first (q : select) : MS (option row) := l <- query sid q ;; mret (head l).

(** [self.ses.add(x); self.ses.commit()], and what [x] is then. *)
Definition add_commit (d : draft) : MS row :=
  add sid d ;;; l <- commit sid ;; of_option External (last l).

(** [x.k] where [x] may be [None], and an attribute of it assigned. *)
Definition attr (k : string) (o : option row) : MS dbval :=
  r <- of_option AttributeError o ;; mret (cell k r).
Definition relationship (k : string) (o : option row) : MS (list row) :=
  r <- of_option AttributeError o ;; related sid r k.
Definition assign_if (k : string) (v : option dbval) (o : option row) : MS (option row) :=
  match v with
  | None => mret o
  | Some v => r <- of_option AttributeError o ;; r <- assign sid r k v ;; mret (Some r)
  end.

(** * Permissions and roles *)

Definition get_permission (permission_type : string) : MS (option row) :=
  first (filter_by TPermission [("permission_type", DStr permission_type)]).

(** The body of the loop. *)
Definition create_default_permission (permission_type : string) : MS unit :=
  o <- get_permission permission_type ;;
  match o with
  | Some _ => mret tt
  | None =>
      or_rollback
        (add sid (with_cell "permission_type" (DStr permission_type) (new TPermission)) ;;;
         commit sid ;;; mret tt)
  end.
Definition create_default_permissions : MS unit := for_each PERMISSIONS create_default_permission.

Definition _initialize_role_permission (role : draft) (permission : option row) : draft :=
  with_link "permission" permission (with_link "role" (Some (as_row role)) (new TRolePermission)).

Definition get_role (role_type : dbval) : MS (option row) :=
  first (filter_by TRole [("role_type", role_type)]).

(** [role.permissions.append(...)] for each permission, and [self.ses.add(role)], which
    adds what the role refers to. *)
Fixpoint role_permissions (role : draft) (permissions : list string) : MS (list draft) :=
  match permissions with
  | [] => mret []
  | p :: ps =>
      o <- get_permission p ;; l <- role_permissions role ps ;;
      mret (_initialize_role_permission role o :: l)
  end.
Definition add_role (role_type : string) (permissions : list string) : MS unit :=
  let role := with_cell "role_type" (DStr role_type) (new TRole) in
  l <- role_permissions role permissions ;; add sid role ;;; for_each l (add sid).

Definition owner_permissions : list string :=
  ["MISSION_SET_PASSWORD"; "MISSION_MANAGE_LAYERS"; "MISSION_WRITE"; "MISSION_UPDATE_GROUPS";
   "MISSION_DELETE"; "MISSION_SET_ROLE"; "MISSION_READ"].
Definition subscriber_permissions : list string := ["MISSION_WRITE"; "MISSION_READ"].

Definition create_default_roles : MS unit :=
  or_rollback
    (o <- get_role (DStr "MISSION_OWNER") ;;
     match o with
     | Some _ => mret tt
     | None =>
         add_role "MISSION_OWNER" owner_permissions ;;;
         o <- get_role (DStr "MISSION_SUBSCRIBER") ;;
         match o with
         | Some _ => mret tt
         | None =>
             add_role "MISSION_SUBSCRIBER" subscriber_permissions ;;; commit sid ;;; mret tt
         end
     end).

(** * Subscriptions *)

Definition create_subscription (subscription_id : dbval) (mission_id : string)
    (token client_uid : dbval) (role : option row) : MS row :=
  or_rollback
    (let s := new TSubscription in
     let s := if db_truth subscription_id then with_cell "PrimaryKey" subscription_id s else s in
     let s := with_cell "mission_uid" (DStr (lower mission_id)) s in
     let s := with_cell "token" token s in
     let s := with_cell "clientUid" client_uid s in
     add_commit (with_link "role" role s)).

Definition get_all_subscriptions : MS (list row) := query sid (all_of TSubscription).

Definition get_subscription (mission : option row) (client_uid : dbval) : MS (option row) :=
  mission_uid <- attr "PrimaryKey" mission ;;
  first (filter_by TSubscription [("mission_uid", mission_uid); ("clientUid", client_uid)]).

Definition get_subscription_id (subscription_id : dbval) : MS (option row) :=
  first (filter_by TSubscription [("PrimaryKey", subscription_id)]).

(** The role is a relationship of the subscription, the rest are columns. *)
Definition update_subscription (mission : option row) (client_uid : dbval) (role : option row)
    (token clientUid username : option dbval) : MS unit :=
  or_rollback
    (s <- get_subscription mission client_uid ;;
     match role with
     | Some role => r <- of_option AttributeError s ;; link sid r "role" role
     | None => mret tt
     end ;;;
     s <- assign_if "token" token s ;;
     s <- assign_if "clientUid" clientUid s ;;
     assign_if "username" username s ;;;
     commit sid ;;; mret tt).

(** [delete] of [None] raises. *)
Definition delete_object (o : option row) : MS unit :=
  r <- of_option External o ;; delete sid r ;;; commit sid ;;; mret tt.

Definition delete_subscription (mission : option row) (client_uid : dbval) : MS unit :=
  or_rollback (o <- get_subscription mission client_uid ;; delete_object o).

(** * Invitations *)

(** The attribute [clientUid] of the relationship of a class is asked for. *)
Definition get_invitations (invitee_uid : dbval) : MS (list row) := raise AttributeError.

Definition get_invitation_id (invitation_id : dbval) : MS (option row) :=
  first (filter_by TInvitation [("uid", invitation_id)]).

Definition create_invitation (author_uid subscription_uid : dbval) (mission_uid : string) : MS row :=
  or_rollback
    (uid <- uuid4 ;;
     let i := with_cell "uid" (DStr uid) (new TInvitation) in
     let i := with_cell "mission_uid" (DStr (lower mission_uid)) i in
     let i := with_cell "author_uid" author_uid i in
     subscription <- get_subscription_id subscription_uid ;;
     add_commit (with_link "subscription" subscription i)).

(** [subscription.invitation] is the list of the invitations, which is never [None]. *)
Fixpoint invitations_of (subscriptions : list row) : MS (list (list row)) :=
  match subscriptions with
  | [] => mret []
  | s :: ss =>
      i <- related sid s "invitation" ;; l <- invitations_of ss ;; mret (i :: l)
  end.
Definition get_client_invitations (client_uid : dbval) : MS (list (list row)) :=
  l <- query sid (filter_by TSubscription [("clientUid", client_uid)]) ;; invitations_of l.
(** * Items and contents *)

Definition create_mission_item (mission_id : string) (mission_item_id mission_item_data : dbval) : MS unit :=
  or_rollback
    (let i := with_cell "PrimaryKey" mission_item_id (new TItem) in
     let i := with_cell "MissionItemData" mission_item_data i in
     add sid (with_cell "mission_uid" (DStr (lower mission_id)) i) ;;; commit sid ;;; mret tt).

Definition get_mission_item (mission_item_id : dbval) : MS (option row) :=
  first (filter_by TItem [("PrimaryKey", mission_item_id)]).

Definition create_mission_content (mission_id : string) (id : dbval) : MS row :=
  or_rollback
    (let c := with_cell "mission_uid" (DStr (lower mission_id)) (new TContent) in
     add_commit (with_cell "PrimaryKey" id c)).

Definition get_mission_content (id : dbval) : MS (option row) :=
  first (filter_by TContent [("PrimaryKey", id)]).

(** * Missions *)

Definition get_mission (mission_id : string) : MS (option row) :=
  first (filter_by TMission [("PrimaryKey", DStr (lower mission_id))]).

(** The parameters that are stored. *)
Record mission_values := mkMissionValues {
  mv_name : dbval;
  mv_description : dbval;
  mv_createTime : dbval;
  mv_passwordProtected : dbval;
  mv_defaultRole : option row;
  mv_serviceUri : dbval;
  mv_classification : dbval;
  mv_tool : dbval }.

Definition create_mission (mission_id : string) (v : mission_values) : MS row :=
  or_rollback
    (let m := with_cell "PrimaryKey" (DStr (lower mission_id)) (new TMission) in
     let m := with_cell "name" (mv_name v) m in
     let m := with_cell "description" (mv_description v) m in
     let m := with_cell "createTime" (mv_createTime v) m in
     let m := with_cell "passwordProtected" (mv_passwordProtected v) m in
     let m := with_link "defaultRole" (mv_defaultRole v) m in
     let m := with_cell "serviceUri" (mv_serviceUri v) m in
     let m := with_cell "classification" (mv_classification v) m in
     add_commit (with_cell "tool" (mv_tool v) m)).

Definition add_parent_to_mission (child_mission parent_mission : row) : MS unit :=
  or_rollback
    (let rel := with_link "parent_mission" (Some parent_mission) (new TMissionToMission) in
     let rel := with_link "child_mission" (Some child_mission) rel in
     add sid rel ;;; commit sid ;;; mret tt).

(** [l.remove(x)], where [x] is deleted afterwards. *)
Definition remove_from (l : list row) (o : option row) : MS row :=
  match o with
  | Some r => if existsb (same_row r) l then mret r else raise ValueError
  | None => raise ValueError
  end.

Definition remove_parent_from_mission (mission_id : string) (parent_mission : option row) : MS unit :=
  or_rollback
    (mission <- get_mission mission_id ;;
     parent_id <- attr "PrimaryKey" parent_mission ;;
     child_id <- attr "PrimaryKey" mission ;;
     rel <- first (filter_by TMissionToMission
       [("parent_mission_id", parent_id); ("child_mission_id", child_id)]) ;;
     parents <- relationship "parent_missions" mission ;;
     remove_from parents rel ;;;
     children <- relationship "child_missions" parent_mission ;;
     rel <- remove_from children rel ;;
     delete sid rel ;;; commit sid ;;; mret tt).

(** [mission.contents.append(content)]: the mission of the content, the other side of
    the same relationship. *)
Definition append_to (mission : option row) (o : option row) : MS unit :=
  match o with
  | None => mret tt
  | Some r => m <- of_option AttributeError mission ;; link sid r "mission" m
  end.

Definition update_mission (mission_id : string) (content cot : option row) : MS (option row) :=
  or_rollback
    (mission <- get_mission (lower mission_id) ;;
     append_to mission content ;;; append_to mission cot ;;;
     commit sid ;;; mret mission).

Definition get_all_missions : MS (list row) := query sid (all_of TMission).

Definition get_all_public_missions : MS (list row) :=
  query sid (filter_by TMission [("tool", DStr "public")]).

(** * CoTs *)

Definition create_mission_cot (mission_id : string) (uid : dbval) : MS row :=
  or_rollback
    (let c := with_cell "uid" uid (new TCoT) in
     add_commit (with_cell "mission_uid" (DStr (lower mission_id)) c)).

Definition get_mission_cot (cot_uid : dbval) : MS (option row) :=
  first (filter_by TCoT [("uid", cot_uid)]).

Definition get_mission_cots (mission_id : string) : MS (list row) :=
  mission <- get_mission mission_id ;; relationship "cots" mission.

(** * Logs *)

(** A [Log] has no [mission]: the assignment to that attribute stores nothing. *)
Definition create_mission_log (id content creatorUid entryUid : dbval) (mission : option row)
    (servertime dtg created contentHashes keywords : dbval) : MS unit :=
  or_rollback
    (let l := with_cell "id" id (new TLog) in
     let l := with_cell "content" content l in
     let l := with_cell "creatorUid" creatorUid l in
     let l := with_cell "entryUid" entryUid l in
     let l := with_cell "servertime" servertime l in
     let l := with_cell "dtg" dtg l in
     let l := with_cell "created" created l in
     let l := with_cell "contentHashes" contentHashes l in
     add sid (with_cell "keywords" keywords l) ;;; commit sid ;;; mret tt).

Definition get_mission_logs (mission_id : string) : MS (list row) :=
  mission <- get_mission mission_id ;; relationship "logs" mission.

Definition get_mission_logs_by_time (mission_id : string) (start end_ : Z) : MS (list row) :=
  query sid (mkSelect TMissionLog
    (Some (mkJoin "log_id" TLog "id"
      [mkCondition "created" Ge (DTime start); mkCondition "created" Le (DTime end_)]))
    [mkCondition "mission_uid" Eq (DStr (lower mission_id))]).

Definition get_log (log_id : dbval) : MS (option row) := first (filter_by TLog [("id", log_id)]).

(** For each mission a [MissionLog]: [log] and [mission] are assigned, which is the other
    side of what is appended to the lists of the mission and the log. *)
Definition log_missions (log : option row) (mission_ids : json) : MS unit :=
  ids <- of_outcome (iterate mission_ids) ;;
  for_each ids (fun mission_id =>
    id <- of_outcome (with_lower mission_id) ;;
    mission <- get_mission id ;;
    let l := with_link "mission" mission (new TMissionLog) in
    let l := with_link "log" log l in
    of_option AttributeError log ;;;
    of_option AttributeError mission ;;;
    add sid l).

Record log_values := mkLogValues {
  lv_uid : dbval;
  lv_content : dbval;
  lv_dtg : dbval;
  lv_servertime : dbval;
  lv_creatorUid : dbval;
  lv_created : dbval;
  lv_keywords : dbval;
  lv_id : dbval;
  lv_contentHashes : dbval;
  lv_contentUid : dbval }.

Definition create_log (mission_ids : json) (v : log_values) : MS row :=
  or_rollback
    (let l := with_cell "id" (lv_id v) (new TLog) in
     let l := with_cell "entryUid" (lv_uid v) l in
     let l := with_cell "content" (lv_content v) l in
     let l := with_cell "creatorUid" (lv_creatorUid v) l in
     let l := with_cell "servertime" (lv_servertime v) l in
     let l := with_cell "dtg" (lv_dtg v) l in
     let l := with_cell "created" (lv_created v) l in
     let l := with_cell "keywords" (lv_keywords v) l in
     let l := with_cell "contentHashes" (lv_contentHashes v) l in
     let l := with_cell "creatorUid" (lv_contentUid v) l in
     log_missions (Some (as_row l)) mission_ids ;;;
     add_commit l).

(** The fields that are given are assigned; the log may not be there. *)
Record log_changes := mkLogChanges {
  lc_entryUid : option dbval;
  lc_mission_ids : option json;
  lc_content : option dbval;
  lc_dtg : option dbval;
  lc_servertime : option dbval;
  lc_creatorUid : option dbval;
  lc_created : option dbval;
  lc_keywords : option dbval }.

Definition update_log (id : dbval) (c : log_changes) : MS row :=
  or_rollback
    (log <- get_log id ;;
     log <- assign_if "entryUid" (lc_entryUid c) log ;;
     log <- assign_if "content" (lc_content c) log ;;
     log <- assign_if "creatorUid" (lc_creatorUid c) log ;;
     log <- assign_if "servertime" (lc_servertime c) log ;;
     log <- assign_if "dtg" (lc_dtg c) log ;;
     log <- assign_if "created" (lc_created c) log ;;
     log <- assign_if "keywords" (lc_keywords c) log ;;
     match lc_mission_ids c with
     | None => mret tt
     | Some mission_ids => log_missions log mission_ids
     end ;;;
     log <- of_option External log ;;
     commit sid ;;;
     mret log).

Definition delete_mission_log (log_id : dbval) : MS unit :=
  or_rollback (o <- get_log log_id ;; delete_object o).

Definition get_all_logs : MS (list row) := query sid (all_of TLog).

(** * External data *)

Definition get_external_data (id : string) : MS (option row) :=
  first (filter_by TExternalData [("id", DStr (lower id))]).

Definition get_external_data_by_uid (uid mission_uid : string) : MS (option row) :=
  first (filter_by TExternalData
    [("uid", DStr (lower uid)); ("mission_uid", DStr (lower mission_uid))]).

Record external_values := mkExternalValues {
  ev_name : dbval;
  ev_tool : dbval;
  ev_urlData : dbval;
  ev_notes : dbval;
  ev_uid : dbval;
  ev_urlView : dbval;
  ev_creator_uid : dbval }.

Definition add_external_data (mission_id : string) (v : external_values) (id : dbval) : MS row :=
  or_rollback
    (id <- (if db_truth id then mret id else u <- uuid4 ;; mret (DStr u)) ;;
     let e := with_cell "id" id (new TExternalData) in
     let e := with_cell "name" (ev_name v) e in
     let e := with_cell "tool" (ev_tool v) e in
     let e := with_cell "urlData" (ev_urlData v) e in
     let e := with_cell "notes" (ev_notes v) e in
     let e := with_cell "uid" (ev_uid v) e in
     let e := with_cell "urlView" (ev_urlView v) e in
     let e := with_cell "creator_uid"
       (if db_truth (ev_creator_uid v) then ev_creator_uid v else DStr "") e in
     mission <- get_mission mission_id ;;
     of_option AttributeError mission ;;;
     add_commit (with_link "mission" mission e)).

(** * Changes *)

(** No [rollback] follows a failure here. *)
Definition create_mission_change (type content_uid creator_uid : dbval) (mission_uid : string)
    (content_resource_uid cot_detail_uid external_data_uid : dbval) : MS row :=
  let c := with_cell "type" type (new TChange) in
  let c := with_cell "content_uid" content_uid c in
  let c := with_cell "creator_uid" creator_uid c in
  let c := with_cell "external_data_uid" external_data_uid c in
  mission <- get_mission mission_uid ;;
  let c := with_link "mission" mission c in
  content <- get_mission_content content_resource_uid ;;
  let c := with_link "content_resource" content c in
  cot <- get_mission_cot cot_detail_uid ;;
  add_commit (with_link "cot_detail" cot c).

Definition get_mission_change (content_uid : dbval) : MS (option row) :=
  first (filter_by TChange [("content_resource_uid", content_uid)]).
End Store.
