(* ===== verification/MissionList.v ===== *)
(** A database in memory that keeps what [MissionDb] says of SQLAlchemy and SQLite: its
    tables are lists, and it refuses work that gives two rows the same key. *)
From Stdlib Require Import ZArith Lia Ascii String.
From stdpp Require Import base strings list pretty.
From S2P Require Import Prelude.
From S2P Require Import ConfigFacts.
From S2P Require Import MissionDb.

Set Default Proof Using "Type".
Local Open Scope string_scope.
Local Open Scope list_scope.
Local Open Scope py_scope.

Record list_db := mkListDb {
  l_rows : tables;
  l_pending : list (string * list work);
  l_broken : list (string * bool);
  l_clock : Z }.

(** * Carrying out work *)

Definition next_serial (c : string) (l : list row) : Z :=
  1 + fold_right (fun r z => match cell c r with DInt x => Z.max x z | _ => z end) 0%Z l.

Definition new_cell (clock : Z) (T : tables) (d : draft) (c : column) : dbval :=
  match given d c with
  | Some x => x
  | None =>
      match c_default c with
      | DefaultNow => DTime clock
      | _ => if is_serial c then DInt (next_serial (c_name c) (T (d_table d))) else DNone
      end
  end.

Definition new_row (clock : Z) (T : tables) (d : draft) : row :=
  mkRow (d_table d) ((fun c => (c_name c, new_cell clock T d c)) <$> columns (d_table d)).

Fixpoint carry_out (clock : Z) (ws : list work) (T : tables) : list row * tables :=
  match ws with
  | [] => ([], T)
  | Insert d :: ws =>
      let r := new_row clock T d in
      let p := carry_out clock ws (insert_row r T) in (r :: p.1, p.2)
  | Update r c v :: ws => carry_out clock ws (update_rows r c v T)
  | Delete r :: ws => carry_out clock ws (delete_rows r T)
  end.

Definition all_tables : list table :=
  [TPermission; TRole; TRolePermission; TMission; TMissionToMission; TSubscription;
   TInvitation; TItem; TContent; TCoT; TLog; TMissionLog; TExternalData; TChange;
   TSyncObject; TKeyword; TTemplate; TTemplateTask; TChecklist; TChecklistTask; TChecklistMission].

Definition well_typed (r : row) : bool :=
  forallb (fun c => typed (c_type c) (cell (c_name c) r)) (columns (r_table r)).
Definition well_shaped (t : table) (r : row) : bool :=
  bool_decide (r_table r = t /\ dkeys (r_cells r) = column_names t) && well_typed r &&
  bool_decide (DNone ∉ row_key r).

Definition consistent (T : tables) : bool :=
  forallb (fun t => bool_decide (NoDup (row_key <$> T t)) && forallb (well_shaped t) (T t)) all_tables.

Definition pending_of (s : list_db) (sid : string) : list work := default [] (dget sid (l_pending s)).
Definition broken_of (s : list_db) (sid : string) : bool := default false (dget sid (l_broken s)).

Definition with_pending (sid : string) (ws : list work) (s : list_db) : list_db :=
  mkListDb (l_rows s) (dset sid ws (l_pending s)) (l_broken s) (l_clock s).
Definition with_broken (sid : string) (b : bool) (s : list_db) : list_db :=
  mkListDb (l_rows s) (l_pending s) (dset sid b (l_broken s)) (l_clock s).
Definition with_rows (T : tables) (s : list_db) : list_db :=
  mkListDb T (l_pending s) (l_broken s) (l_clock s).

(** The tables with what the session has to write, which may break it. *)
Definition flush (sid : string) : M list_db (list row * tables) := fun s =>
  if broken_of s sid then (Exn RuntimeError, s)
  else
    let p := carry_out (l_clock s) (pending_of s sid) (l_rows s) in
    if match pending_of s sid with [] => true | _ => consistent p.2 end then (Ret p, s)
    else (Exn External, with_broken sid true s).

Definition await (sid : string) (w : work) : M list_db unit :=
  modify (fun s => with_pending sid (pending_of s sid ++ [w]) s).

(** A string longer than every other, of letters. *)
Fixpoint letters (n : nat) : string :=
  match n with O => "u" | Datatypes.S n => String "u" (letters n) end.
Definition value_length (v : dbval) : nat :=
  match v with DStr s => String.length s | _ => 0 end.
Definition longest (T : tables) : nat :=
  max_list (value_length <$> ((r_cells <$> (all_tables ≫= T)) ≫= dvalues)).

#[export] Instance list_orm : Orm list_db := {
  query sid q := p <- flush sid ;; mret (selected q p.2);
  related sid r name := p <- flush sid ;; mret (related_rows name r p.2);
  add sid d := await sid (Insert d);
  assign sid r c v :=
    await sid (Update r c v) ;;; mret (set_cells [(c, column_value (r_table r) c v)] r);
  link sid r name r' :=
    match find_relation (r_table r) name with
    | Some (ToOne _ fk _ key) => await sid (Update r fk (cell key r'))
    | _ => raise AttributeError
    end;
  delete sid r := await sid (Delete r);
  commit sid :=
    p <- flush sid ;;
    modify (with_rows p.2) ;;; modify (with_pending sid []) ;;; mret p.1;
  rollback sid := modify (with_broken sid false) ;;; modify (with_pending sid []);
  uuid4 := gets (fun s => letters (longest (l_rows s)));
  utcnow := gets l_clock }.

#[export] Instance list_view : OrmView list_db := {
  rows := l_rows;
  pending := pending_of;
  broken := broken_of;
  sane s := consistent (l_rows s) = true }.

(** * It does what is promised *)

Lemma column_names_NoDup t : NoDup (column_names t).
Proof. destruct t; apply (bool_decide_unpack _); vm_compute; exact I. Qed.

Lemma next_serial_above c l r z : r ∈ l -> cell c r = DInt z -> (z < next_serial c l)%Z.
Proof.
  unfold next_serial. induction l as [|r' l IH]; [by intros Hr%not_elem_of_nil|].
  intros [<-|Hr]%elem_of_cons Hz; cbn [fold_right].
  - rewrite Hz. lia.
  - specialize (IH Hr Hz). destruct (cell c r'); lia.
Qed.

Lemma cell_new_row clock T d c : c ∈ columns (d_table d) ->
  cell (c_name c) (new_row clock T d) = new_cell clock T d c.
Proof.
  intros Hc. unfold cell, new_row; simpl.
  erewrite elem_dget; [reflexivity| |].
  - unfold dkeys. rewrite <- list_fmap_compose. apply column_names_NoDup.
  - apply (list_elem_of_fmap_2 (fun c => (c_name c, new_cell clock T d c))), Hc.
Qed.

Lemma new_row_becomes clock T d : becomes T d (new_row clock T d).
Proof.
  split; [done|split].
  - unfold new_row, dkeys; simpl. by rewrite <- list_fmap_compose.
  - intros c Hc. rewrite cell_new_row by done. unfold cell_of, new_cell.
    destruct (given d c); [done|].
    assert (Hs : if is_serial c
                 then exists z, DInt (next_serial (c_name c) (T (d_table d))) = DInt z /\
                      forall r, r ∈ T (d_table d) -> cell (c_name c) r <> DInt (next_serial (c_name c) (T (d_table d)))
                 else True).
    { destruct (is_serial c); [|done]. eexists; split; [done|].
      intros r Hr E. pose proof (next_serial_above _ _ _ _ Hr E). lia. }
    destruct (c_default c); [|by destruct (is_serial c)|by eexists].
    destruct (is_serial c); [exact Hs|done].
Qed.

Lemma carry_out_effect clock ws T :
  effect T ws (carry_out clock ws T).1 (carry_out clock ws T).2.
Proof.
  revert T. induction ws as [|[d|r c v|r] ws IH]; intros T; simpl; constructor;
    try apply IH. apply new_row_becomes.
Qed.

Lemma all_tables_complete t : t ∈ all_tables.
Proof. destruct t; apply (bool_decide_unpack _); vm_compute; exact I. Qed.

Lemma consistent_spec T : consistent T = true <->
  (forall t, NoDup (row_key <$> T t)) /\
  forall t r, r ∈ T t -> r_table r = t /\ dkeys (r_cells r) = column_names t /\ well_typed r = true /\
    DNone ∉ row_key r.
Proof.
  unfold consistent. rewrite forallb_forall. split.
  - intros H. assert (H' : forall t, NoDup (row_key <$> T t) /\ forallb (well_shaped t) (T t) = true).
    { intros t. specialize (H t ltac:(apply list_elem_of_In, all_tables_complete)).
      apply andb_true_iff in H as [H1 H2]. by apply bool_decide_eq_true in H1. }
    split; [intros t; apply H'|]. intros t r Hr.
    destruct (H' t) as [_ Hs]. rewrite forallb_forall in Hs.
    specialize (Hs r ltac:(by apply list_elem_of_In)).
    apply andb_true_iff in Hs as [[[? ?]%bool_decide_eq_true ?]%andb_true_iff ?%bool_decide_eq_true]. done.
  - intros [Hk Hs] t _. apply andb_true_iff. split; [by apply bool_decide_eq_true|].
    apply forallb_forall. intros r Hr%list_elem_of_In. destruct (Hs _ _ Hr) as (? & ? & ? & ?).
    unfold well_shaped. rewrite !andb_true_iff, !bool_decide_eq_true. done.
Qed.

Lemma longest_bound T t r c s : r ∈ T t -> cell c r = DStr s -> String.length s <= longest T.
Proof.
  intros Hr Hc. unfold cell in Hc. destruct (dget c (r_cells r)) as [v|] eqn:Ev; [|done].
  simpl in Hc. subst v. apply dget_Some_elem in Ev. unfold longest.
  apply (max_list_elem_of_le (value_length (DStr s))).
  apply list_elem_of_fmap_2, list_elem_of_bind. exists (r_cells r). split.
  - by apply (list_elem_of_fmap_2 snd) in Ev.
  - apply list_elem_of_fmap_2, list_elem_of_bind. exists t. split; [exact Hr|apply all_tables_complete].
Qed.

Lemma letters_length n : String.length (letters n) = S n.
Proof. induction n; simpl; [done|]. by f_equal. Qed.

Lemma letters_name n : is_name (letters n).
Proof.
  assert (Hl : forall c, c ∈ String.list_ascii_of_string (letters n) -> c = "u"%char).
  { induction n as [|n IH]; simpl; intros c.
    - by intros ?%list_elem_of_singleton.
    - intros [->|Hc]%elem_of_cons; [done|by apply IH]. }
  split; [by destruct n|split; intros Hc%Hl; done].
Qed.

Lemma letters_number n (z : Z) : letters n <> pretty z.
Proof.
  intros E. assert (Hl : String.list_ascii_of_string (letters n) = replicate (S n) "u"%char).
  { induction n as [|n IH] in |- *; [done|]. simpl. f_equal. exact IH. }
  pose proof (parse_int_pretty z) as Hp. simpl in Hp. rewrite <- E in Hp.
  assert (Hr : rev (replicate (S n) "u"%char) = replicate (S n) "u"%char).
  { rewrite rev_alt. apply reverse_replicate. }
  unfold parse_int, strip in Hp. rewrite Hl in Hp.
  change (lstrip (replicate (S n) "u"%char)) with (replicate (S n) "u"%char) in Hp.
  rewrite Hr in Hp.
  change (lstrip (replicate (S n) "u"%char)) with (replicate (S n) "u"%char) in Hp.
  rewrite Hr in Hp. discriminate.
Qed.

(** What is done to rows that are there leaves their table, columns and key. *)
Definition retouched (r r' : row) : Prop :=
  r_table r' = r_table r /\ dkeys (r_cells r') = dkeys (r_cells r) /\ row_key r' = row_key r /\
  (well_typed r = true -> well_typed r' = true).

Lemma dkeys_dset_elem {V} k (v : V) (l : list (string * V)) : k ∈ dkeys l -> dkeys (dset k v l) = dkeys l.
Proof.
  intros Hk. destruct (dget k l) as [x|] eqn:E; [by apply (dkeys_dset_present _ _ x)|].
  by apply dget_None_keys in E.
Qed.

Lemma cell_set_cells k c v r : cell k (set_cells [(c, v)] r) = if decide (k = c) then v else cell k r.
Proof.
  unfold cell, set_cells, dupdate; simpl. case_decide; subst.
  - by rewrite dget_dset_eq.
  - by rewrite dget_dset_ne.
Qed.

Lemma set_cells_retouched t col v r :
  r_table r = t -> dkeys (r_cells r) = column_names t -> col ∈ columns t ->
  c_name col ∉ key_names t -> typed (c_type col) v = true ->
  retouched r (set_cells [(c_name col, v)] r).
Proof.
  intros Ht Hs Hc Hk Hv. split; [done|split; [|split]].
  - apply dkeys_dset_elem. rewrite Hs. by apply (list_elem_of_fmap_2 c_name).
  - unfold row_key. simpl. apply list_fmap_ext. intros i k Hi%list_elem_of_lookup_2.
    rewrite cell_set_cells, decide_False; [done|]. intros ->. by rewrite Ht in Hi.
  - unfold well_typed. simpl. rewrite !forallb_forall, Ht. intros Hall c Hin.
    rewrite cell_set_cells. case_decide as E; [|by apply Hall].
    assert (c = col) as ->; [|done].
    apply (NoDup_fmap_elem c_name (columns t));
      [apply column_names_NoDup|by apply list_elem_of_In|done|done].
Qed.

Definition retouches (T T' : tables) : Prop :=
  forall t, row_key <$> T' t `sublist_of` row_key <$> T t /\
            forall r', r' ∈ T' t -> exists r, r ∈ T t /\ retouched r r'.

Lemma retouches_consistent T T' : retouches T T' -> consistent T = true -> consistent T' = true.
Proof.
  intros HT [Hk Hs]%consistent_spec. apply consistent_spec. split.
  - intros t. destruct (HT t) as [Hsub _]. by eapply sublist_NoDup.
  - intros t r' Hr'. destruct (HT t) as [_ H]. destruct (H r' Hr') as (r & Hr & E1 & E2 & E4 & E3).
    destruct (Hs _ _ Hr) as (? & ? & ? & ?). rewrite E1, E2, E4. auto.
Qed.

Lemma retouched_refl r : retouched r r.
Proof. done. Qed.

Lemma retouched_trans r1 r2 r3 : retouched r1 r2 -> retouched r2 r3 -> retouched r1 r3.
Proof. intros (A1 & A2 & A3 & A4) (B1 & B2 & B3 & B4). split_and!; [congruence..|auto]. Qed.

Lemma fmap_retouches (f : row -> row) (l l' : list row) :
  l' `sublist_of` l -> (forall r, r ∈ l -> retouched r (f r)) ->
  row_key <$> (f <$> l') `sublist_of` row_key <$> l /\
  forall r', r' ∈ f <$> l' -> exists r, r ∈ l /\ retouched r r'.
Proof.
  intros Hsub Hf. split.
  - rewrite <- list_fmap_compose.
    rewrite (list_fmap_ext _ row_key l').
    + by apply fmap_sublist.
    + intros i r Hr%list_elem_of_lookup_2. simpl. apply Hf.
      by eapply elem_of_sublist.
  - intros r' (r & -> & Hr)%list_elem_of_fmap. exists r. split; [by eapply elem_of_sublist|].
    apply Hf. by eapply elem_of_sublist.
Qed.

Lemma column_value_of t col v : col ∈ columns t ->
  column_value t (c_name col) v = to_column (c_type col) v.
Proof.
  intros Hc. unfold column_value. destruct (List.find _ _) as [col'|] eqn:E.
  - apply find_some in E as [Hc'%list_elem_of_In E%bool_decide_eq_true].
    by rewrite (NoDup_fmap_elem c_name (columns t) col' col (column_names_NoDup t)).
  - apply find_none with (x := col) in E; [|by apply list_elem_of_In].
    by apply bool_decide_eq_false in E.
Qed.

Lemma update_retouches r col v T : consistent T = true ->
  col ∈ columns (r_table r) -> c_name col ∉ key_names (r_table r) ->
  storable (c_type col) v = true -> retouches T (update_rows r (c_name col) v T).
Proof.
  intros [_ Hs]%consistent_spec Hc Hk Hv t. unfold update_rows. case_decide as Ht; cycle 1.
  - split; [done|]. intros r' Hr'. by exists r'.
  - apply fmap_retouches; [done|]. intros r' Hr'. destruct (same_row r r'); [|done].
    destruct (Hs _ _ Hr') as (E1 & E2 & _). subst t. rewrite column_value_of by done.
    by apply (set_cells_retouched (r_table r)).
Qed.

Lemma many_columns t name target fk key :
  ToMany name target fk key ∈ relations t ->
  exists col, col ∈ columns target /\ c_name col = fk.
Proof.
  intros H. assert (Hall : forallb (fun rel => match rel with
    | ToMany _ target fk _ => bool_decide (fk ∈ column_names target) | _ => true end) (relations t) = true)
    by by destruct t.
  rewrite forallb_forall in Hall. specialize (Hall _ ltac:(by apply list_elem_of_In)).
  apply bool_decide_eq_true, list_elem_of_fmap in Hall as (col & -> & Hc). by exists col.
Qed.

Lemma forget_retouched r r' : dkeys (r_cells r') = column_names (r_table r') ->
  (forall name target fk key, ToMany name target fk key ∈ relations (r_table r) ->
     fk ∉ key_names target) -> retouched r' (forget r r').
Proof.
  intros Hs Hrel. unfold forget.
  assert (H : forall rels r1, (forall rel, rel ∈ rels -> rel ∈ relations (r_table r)) ->
    retouched r' r1 ->
    retouched r' (fold_left (fun r' rel => match rel with
      | ToOne _ _ _ _ => r'
      | ToMany _ target fk key =>
          if bool_decide (r_table r' = target) && refers fk r' key r then set_cells [(fk, DNone)] r'
          else r' end) rels r1)).
  { induction rels as [|rel rels IH]; intros r1 Hin H1; [done|]. simpl.
    apply IH; [intros; apply Hin; by right|].
    destruct rel as [|name target fk key]; [done|].
    destruct (bool_decide (r_table r1 = target) && refers fk r1 key r) eqn:E; [|done].
    apply andb_true_iff in E as [Et%bool_decide_eq_true _].
    assert (Hm : ToMany name target fk key ∈ relations (r_table r)) by (apply Hin; left).
    destruct H1 as (A1 & A2 & A3). destruct (many_columns _ _ _ _ _ Hm) as (col & Hcol & <-).
    apply (retouched_trans _ r1); [done|]. apply (set_cells_retouched target); [done| |done| |].
    - rewrite A2, Hs. congruence.
    - by eapply Hrel.
    - by destruct (c_type col). }
  by apply H.
Qed.

Lemma sublist_filter {A} (p : A -> bool) (l : list A) : List.filter p l `sublist_of` l.
Proof. induction l as [|x l IH]; simpl; [done|]. destruct (p x); by constructor. Qed.

Lemma delete_retouches r T : consistent T = true ->
  (forall name target fk key, ToMany name target fk key ∈ relations (r_table r) ->
     fk ∉ key_names target) -> retouches T (delete_rows r T).
Proof.
  intros [_ Hs]%consistent_spec Hrel t. unfold delete_rows.
  apply fmap_retouches; [apply sublist_filter|]. intros r' Hr'. destruct (Hs _ _ Hr') as (E1 & E2 & _).
  apply forget_retouched; [congruence|done].
Qed.

Lemma acceptable_retouched T T' ws : retouches T T' -> acceptable T ws -> acceptable T' ws.
Proof.
  intros HT (H1 & H2). split; [|done]. intros d k Hd Hk.
  split; [by apply (H1 d k)|]. intros r' Hr'.
  destruct (HT (d_table d)) as [_ H]. destruct (H r' Hr') as (r & Hr & _ & _ & E & _).
  rewrite E. by apply (H1 d k).
Qed.

Lemma now_columns t c : c ∈ columns t -> c_default c = DefaultNow -> c_type c = CDateTime.
Proof.
  intros Hc Hk. assert (H : forallb (fun c => match c_default c, c_type c with
    DefaultNow, CDateTime => true | DefaultNow, _ => false | _, _ => true end) (columns t) = true)
    by by destruct t.
  rewrite forallb_forall in H. specialize (H c ltac:(by apply list_elem_of_In)).
  rewrite Hk in H. by destruct (c_type c).
Qed.

Lemma cell_of_typed T d c v : c ∈ columns (d_table d) -> cell_of T d c v ->
  (forall x, given d c = Some x -> typed (c_type c) x = true) -> typed (c_type c) v = true.
Proof.
  unfold cell_of. intros Hc Hv Hg. destruct (given d c) as [x|]; [subst; by apply Hg|].
  assert (Hs : (if is_serial c then exists z, v = DInt z /\
      (forall r, r ∈ T (d_table d) -> cell (c_name c) r <> v) else v = DNone) ->
    typed (c_type c) v = true).
  { unfold is_serial. destruct (c_key c), (c_type c); simpl; try (by intros ->); by intros (z & -> & _). }
  destruct (c_default c) eqn:E; [by apply Hs..|].
  rewrite (now_columns _ _ Hc E). by destruct Hv as [t ->].
Qed.

(** A key the database gives is that of one column, and a number. *)
Lemma serial_keys t c : existsb is_serial (List.filter c_key (columns t)) = true ->
  c ∈ columns t -> c_key c = true -> is_serial c = true.
Proof.
  intros Hs Hc Hk. assert (Ht : (if existsb is_serial (List.filter c_key (columns t)) then
    forallb is_serial (List.filter c_key (columns t)) else true) = true) by by destruct t.
  rewrite Hs, forallb_forall in Ht. apply Ht, list_elem_of_In. by apply elem_of_key_columns.
Qed.

(** Nothing in the key of a row that is inserted is [NULL]. *)
Lemma becomes_key_given T d r : becomes T d r ->
  (forall c, c ∈ columns (d_table d) -> is_serial c = true -> given d c = None) ->
  match draft_key d with Some k => row_key r = k | None => True end ->
  (forall k, draft_key d = Some k -> DNone ∉ k) -> DNone ∉ row_key r.
Proof.
  intros (Ht & _ & Hc) Hs Hkey Hnn. destruct (draft_key d) as [k|] eqn:Ek.
  { rewrite Hkey. by apply Hnn. }
  unfold draft_key in Ek. destruct (existsb is_serial _) eqn:E; [|done].
  unfold row_key, key_names. rewrite Ht, <- list_fmap_compose.
  intros (c & Hn & [Hin Hk]%elem_of_key_columns)%list_elem_of_fmap.
  pose proof (serial_keys _ c E Hin Hk) as Hser. specialize (Hc c Hin). simpl in Hn.
  unfold cell_of in Hc. rewrite (Hs c Hin Hser), (key_columns_plain _ _ Hin Hk), Hser in Hc.
  destruct Hc as (z & Hz & _). congruence.
Qed.

Lemma insert_consistent T d r ws :
  consistent T = true -> acceptable T (Insert d :: ws) -> becomes T d r ->
  consistent (insert_row r T) = true /\ acceptable (insert_row r T) ws.
Proof.
  intros Hcons (H1 & H2 & H3 & H4 & H5 & H6) Hb. pose proof Hcons as [Hk Hs]%consistent_spec.
  assert (Hd : d ∈ inserted (Insert d :: ws)) by left.
  pose proof (becomes_key T d r Hb ltac:(intros r' Hr'; by apply Hs in Hr' as (? & _)) (fun c => H4 d c Hd)) as Hkey.
  pose proof Hb as (Ht & Hsh & Hcells).
  assert (Hty : well_typed r = true).
  { unfold well_typed. rewrite forallb_forall, Ht. intros c Hc%list_elem_of_In.
    apply (cell_of_typed T d); [done|by apply Hcells|]. intros v. by apply H3. }
  assert (Hnn : DNone ∉ row_key r).
  { apply (becomes_key_given T d); [done|by intros c; apply H4|by destruct (draft_key d)|].
    intros k Ek. by apply (H1 d k). }
  split.
  - apply consistent_spec. unfold insert_row. split.
    + intros t. case_decide as E; [|done]. subst t. rewrite fmap_app. apply NoDup_app.
      split; [done|]. split; [|apply NoDup_singleton].
      intros k Hin Hr%list_elem_of_singleton. subst k. rewrite Ht in Hin.
      destruct (draft_key d) as [k|] eqn:Ek; [|done].
      apply list_elem_of_fmap in Hin as (r' & Er & Hr'). rewrite Hkey in Er.
      by apply (proj2 (H1 d k Hd Ek) r').
    + intros t r'. case_decide as E; [|apply Hs]. intros [Hin| ->%list_elem_of_singleton]%elem_of_app;
        [by apply Hs|]. split; [done|]. split; [by rewrite Hsh, E, Ht|done].
  - split_and!.
    + intros d' k Hd' Hk'. destruct (H1 d' k ltac:(by right) Hk') as [Hnn0 Hne].
      split; [done|]. intros r'. unfold insert_row. case_decide as E; cycle 1.
      { apply Hne. }
      intros [Hin| ->%list_elem_of_singleton]%elem_of_app; [by apply Hne|].
      rewrite Ht in E. simpl in H2. destruct (draft_key d) as [k0|] eqn:Ek.
      * simpl in H2. apply NoDup_cons in H2 as [Hn _]. rewrite Hkey. intros ->. apply Hn.
        apply list_elem_of_omap. exists d'. split; [done|]. rewrite Hk', E. done.
      * unfold draft_key in Ek, Hk'. rewrite E in Hk'. by destruct (existsb is_serial _).
    + simpl in H2. destruct (draft_key d); simpl in H2; [by apply NoDup_cons in H2 as [_ H2]|done].
    + intros d' c v Hd'. apply H3. by right.
    + intros d' c Hd'. apply H4. by right.
    + intros r' c v Hin. apply (H5 r' c v). by right.
    + intros r' name target fk key Hin. apply (H6 r' name target fk key). by right.
Qed.

Lemma acceptable_rest T w ws : (forall d, w <> Insert d) -> acceptable T (w :: ws) -> acceptable T ws.
Proof.
  intros Hw (H1 & H2 & H3 & H4 & H5 & H6).
  assert (E : inserted (w :: ws) = inserted ws) by (destruct w; [by destruct (Hw d)|done..]).
  rewrite E in *. split_and!; [done..| |].
  - intros r c v Hin. apply (H5 r c v). by right.
  - intros r name target fk key Hin. apply (H6 r name target fk key). by right.
Qed.

Lemma carry_out_consistent clock ws T :
  consistent T = true -> acceptable T ws -> consistent (carry_out clock ws T).2 = true.
Proof.
  revert T. induction ws as [|[d|r c v|r] ws IH]; intros T Hc Ha; [done| | |]; simpl.
  - destruct (insert_consistent T d (new_row clock T d) ws Hc Ha (new_row_becomes clock T d)).
    by apply IH.
  - pose proof Ha as (_ & _ & _ & _ & H5 & _).
    destruct (H5 r c v ltac:(left)) as (Hkey & col & Hcol & <- & Hv).
    pose proof (update_retouches r col v T Hc Hcol Hkey Hv) as HT.
    apply IH; [by eapply retouches_consistent|]. eapply acceptable_retouched; [exact HT|].
    by apply (acceptable_rest T (Update r (c_name col) v)).
  - pose proof Ha as (_ & _ & _ & _ & _ & H6).
    assert (HT : retouches T (delete_rows r T)).
    { apply delete_retouches; [done|]. intros. eapply H6; [left|done]. }
    apply IH; [by eapply retouches_consistent|]. eapply acceptable_retouched; [exact HT|].
    by apply (acceptable_rest T (Delete r)).
Qed.

(** * The instances *)

Lemma pending_with_pending sid ws s sid' :
  pending_of (with_pending sid ws s) sid' = if decide (sid' = sid) then ws else pending_of s sid'.
Proof.
  unfold pending_of, with_pending; simpl. case_decide; subst.
  - by rewrite dget_dset_eq.
  - by rewrite dget_dset_ne.
Qed.

Lemma broken_with_broken sid b s sid' :
  broken_of (with_broken sid b s) sid' = if decide (sid' = sid) then b else broken_of s sid'.
Proof.
  unfold broken_of, with_broken; simpl. case_decide; subst.
  - by rewrite dget_dset_eq.
  - by rewrite dget_dset_ne.
Qed.

Lemma await_awaits sid w s : exists s', await sid w s = (Ret tt, s') /\ awaits sid w s s'.
Proof.
  eexists. split; [reflexivity|]. split_and!; [|done| |done].
  - split; [done|]. intros sid' Hne. cbn [pending broken list_view].
    by rewrite pending_with_pending, decide_False.
  - cbn [pending list_view]. by rewrite pending_with_pending, decide_True.
Qed.

Lemma unchanged_refl (s : list_db) : unchanged s s.
Proof. done. Qed.

Lemma flush_ret sid s p s' : flush sid s = (Ret p, s') ->
  s' = s /\ broken_of s sid = false /\
  effect (l_rows s) (pending_of s sid) p.1 p.2 /\
  (consistent (l_rows s) = true -> consistent p.2 = true).
Proof.
  unfold flush. destruct (broken_of s sid); [done|].
  destruct (match _ with [] => _ | _ => _ end) eqn:E; [|done].
  intros [= <- <-]. split_and!; [done|done|apply carry_out_effect|].
  by destruct (pending_of s sid).
Qed.

Lemma flush_exn sid s e s' : flush sid s = (Exn e, s') -> failed sid e s s'.
Proof.
  unfold flush. destruct (broken_of s sid) eqn:B.
  - by intros [= <- <-].
  - destruct (match _ with [] => _ | _ => _ end); [done|]. intros [= <- <-].
    split_and!; [done| |done|].
    + split; [done|]. intros sid' Hne. cbn [pending broken list_view].
      by rewrite broken_with_broken, decide_False.
    + intros _. cbn [broken list_view]. by rewrite broken_with_broken, decide_True.
Qed.

#[export] Instance list_laws : OrmLaws list_db.
Proof.
  split.
  - intros s t r [_ Hs]%consistent_spec Hr. by destruct (Hs _ _ Hr) as (? & ? & _).
  - intros s t r c [_ Hs]%consistent_spec Hr Hc. destruct (Hs _ _ Hr) as (<- & _ & Hw).
    unfold well_typed in Hw. rewrite forallb_forall in Hw. by apply Hw, list_elem_of_In.
  - intros s t [Hk _]%consistent_spec. apply Hk.
  - intros s t r [_ Hs]%consistent_spec Hr. by apply (Hs t r).
  - intros sid q s l s' ([rs T] & s1 & Hf & [= <- <-])%bind_inv.
    apply flush_ret in Hf as (-> & Hb & He & _). split_and!; [done..|]. by exists rs, T.
  - intros sid q s e s' E. cbn [query list_orm] in E. unfold mbind, M_bind in E.
    destruct (flush sid s) as [[p|e'] s1] eqn:Hf; [done|]. injection E as <- <-. by apply flush_exn.
  - intros sid r name s l s' ([rs T] & s1 & Hf & [= <- <-])%bind_inv.
    apply flush_ret in Hf as (-> & Hb & He & _). split_and!; [done..|]. by exists rs, T.
  - intros sid r name s e s' E. cbn [related list_orm] in E. unfold mbind, M_bind in E.
    destruct (flush sid s) as [[p|e'] s1] eqn:Hf; [done|]. injection E as <- <-. by apply flush_exn.
  - intros sid d s. apply await_awaits.
  - intros sid r c v s. destruct (await_awaits sid (Update r c v) s) as (s' & E & Hs').
    exists s'. split; [|done]. cbn [assign list_orm]. by rewrite (run_bind _ _ _ _ _ E).
  - intros sid r name r' s n fk target key E. cbn [link list_orm]. rewrite E. apply await_awaits.
  - intros sid r name r' s o s' E. cbn [link list_orm] in E.
    destruct (find_relation (r_table r) name) as [[n fk target key|]|]; [|by injection E as <- <-..].
    destruct (await_awaits sid (Update r fk (cell key r')) s) as (s1 & E1 & Ho & Hr & _).
    rewrite E1 in E. by injection E as <- <-.
  - intros sid r s. apply await_awaits.
  - intros sid s l s' ([rs T] & s1 & Hf & E)%bind_inv. injection E as <- <-.
    apply flush_ret in Hf as (-> & Hb & He & Hc). simpl in He, Hc. split_and!.
    + split; [exact Hc|]. intros sid' Hne. cbn [pending broken list_view].
      rewrite pending_with_pending, decide_False by done. done.
    + done.
    + by exists T.
    + cbn [pending list_view]. by rewrite pending_with_pending, decide_True.
    + exact Hb.
  - intros sid s e s' E. cbn [commit list_orm] in E. unfold mbind, M_bind in E.
    destruct (flush sid s) as [[p|e'] s1] eqn:Hf; [done|]. injection E as <- <-. by apply flush_exn.
  - intros sid s. eexists. split; [reflexivity|]. split_and!.
    + split; [done|]. intros sid' Hne. cbn [pending broken list_view].
      rewrite pending_with_pending, decide_False by done. simpl. split; [done|].
      change (broken_of (with_broken sid false s) sid' = broken_of s sid').
      by rewrite broken_with_broken, decide_False.
    + done.
    + cbn [pending list_view]. by rewrite pending_with_pending, decide_True.
    + change (broken_of (with_broken sid false s) sid = false).
      by rewrite broken_with_broken, decide_True.
  - intros s. eexists _, s. split; [reflexivity|]. split; [done|]. split.
    + intros t r c Hr. assert (Hne : cell c r <> DStr (letters (longest (l_rows s)))).
      { intros E. pose proof (longest_bound (l_rows s) _ _ _ _ Hr E) as Hl. rewrite letters_length in Hl. lia. }
      destruct (cell c r) as [|b|z|x|x|x]; cbn [sql_eqb]; apply bool_decide_eq_false; try done.
      apply letters_number.
    + split; [apply letters_number|apply letters_name].
  - intros s. by eexists _, s.
Qed.

Lemma flush_total sid s : sane s -> readable sid s -> exists p s', flush sid s = (Ret p, s').
Proof.
  intros Hs [Hb Hp]. unfold flush. cbn [broken pending list_view] in *. rewrite Hb.
  destruct Hp as [->|(_ & _ & Ha)]; [by eexists _, _|].
  assert (E : consistent (carry_out (l_clock s) (pending_of s sid) (l_rows s)).2 = true)
    by by apply carry_out_consistent.
  rewrite E. destruct (pending_of s sid); by eexists _, _.
Qed.

#[export] Instance list_reliable : OrmReliable list_db.
Proof.
  split.
  - intros sid q s Hs Hr _. destruct (flush_total sid s Hs Hr) as (p & s' & E).
    eexists _, s'. cbn [query related list_orm]. by rewrite (run_bind _ _ _ _ _ E).
  - intros sid r name s Hs Hr _. destruct (flush_total sid s Hs Hr) as (p & s' & E).
    eexists _, s'. cbn [query related list_orm]. by rewrite (run_bind _ _ _ _ _ E).
  - intros sid s Hs Hw. destruct (flush_total sid s Hs) as (p & s' & E).
    { destruct Hw as (Hb & Ha). split; [done|]. by right. }
    eexists _, _. cbn [commit list_orm]. by rewrite (run_bind _ _ _ _ _ E).
Qed.
