(* ===== verification/MissionFacts.v ===== *)
(** What the persistence controller of the missions does, with one object or several that a
    session adds at once, over any database that keeps the promises of [MissionDb]. *)
From Stdlib Require Import ZArith Lia Ascii String.
From stdpp Require Import base strings list sets pretty.
From S2P Require Import Prelude.
From S2P Require Import DictToNode.
From S2P Require Import RestGeo.
From S2P Require Import MissionDb.
From S2P Require Import MissionStore.

Set Default Proof Using "All".
Local Open Scope string_scope.
Local Open Scope list_scope.
Local Open Scope py_scope.

#[export] Instance filter_Permutation {A} (p : A -> bool) : Proper (Permutation ==> Permutation) (List.filter p).
Proof. intros l l'. induction 1; simpl; repeat case_match; eauto using Permutation. Qed.

Section Facts.
Context {S : Type} `{OrmLaws S}.
Implicit Types (s : S) (sid : string).

(** * States *)

#[global] Instance same_rows_equivalence : Equivalence (same_rows (S := S)).
Proof. unfold same_rows. split; [done|by intros s1 s2 ->|by intros s1 s2 s3 -> ->]. Qed.

#[global] Instance others_preorder sid : PreOrder (others (S := S) sid).
Proof.
  split; [by intros s|]. intros s1 s2 s3 [A1 A2] [B1 B2]. split; [auto|].
  intros sid' Hne. destruct (A2 sid' Hne), (B2 sid' Hne). split; congruence.
Qed.

#[global] Instance unchanged_preorder : PreOrder (unchanged (S := S)).
Proof.
  split; [by intros s|]. intros s1 s2 s3 (A1 & A2 & A3) (B1 & B2 & B3). split_and!; [auto| |].
  - by etransitivity.
  - intros sid'. destruct (A3 sid'), (B3 sid'). split; congruence.
Qed.

Lemma unchanged_rows s s' : unchanged s s' -> rows s' = rows s.
Proof. by intros (_ & Hr & _). Qed.

Lemma unchanged_others sid s s' : unchanged s s' -> others sid s s'.
Proof. intros (A1 & _ & A3). split; auto. Qed.

(** A session with nothing to write, in a database nobody else is writing to. *)
Definition quiet sid s : Prop :=
  sane s /\ broken s sid = false /\ pending s sid = [] /\ alone sid s.

Lemma quiet_unchanged sid s s' : unchanged s s' -> quiet sid s -> quiet sid s'.
Proof.
  intros (A1 & A2 & A3) (B1 & B2 & B3 & B4). split_and!; [auto| | |].
  - by rewrite (proj2 (A3 sid)).
  - by rewrite (proj1 (A3 sid)).
  - intros sid' Hne. rewrite (proj1 (A3 sid')). auto.
Qed.

(** All sessions are quiet: nothing is pending anywhere and none is broken. *)
Definition calm s : Prop := sane s /\ forall sid, pending s sid = [] /\ broken s sid = false.

Lemma calm_quiet sid s : calm s -> quiet sid s.
Proof. intros [Hs Hc]. split_and!; [done|apply Hc..|]. intros sid' _. apply Hc. Qed.

Lemma calm_unchanged s s' : unchanged s s' -> calm s -> calm s'.
Proof.
  intros (A1 & A2 & A3) [B1 B2]. split; [auto|]. intros sid. destruct (A3 sid), (B2 sid).
  split; congruence.
Qed.

Lemma calm_others sid s s' :
  others sid s s' -> pending s' sid = [] -> broken s' sid = false -> calm s -> calm s'.
Proof.
  intros [A1 A2] Hp Hb [B1 B2]. split; [auto|]. intros sid'.
  destruct (decide (sid' = sid)) as [->|Hne]; [done|].
  destruct (A2 sid' Hne), (B2 sid'). split; congruence.
Qed.

(** * Statements that write nothing *)

(** [m] writes nothing, and is no business of other sessions. *)
Definition tentative {A} sid (m : M S A) : Prop := forall s o s', m s = (o, s') ->
  others sid s s' /\ same_rows s s' /\ match o with Exn e => is_Exception e = true | Ret _ => True end.

(** [m] writes nothing unless it returns. *)
Definition atomic {A} sid (m : M S A) : Prop := forall s e s', m s = (Exn e, s') ->
  others sid s s' /\ same_rows s s' /\ is_Exception e = true.

Lemma tentative_atomic {A} sid (m : M S A) : tentative sid m -> atomic sid m.
Proof. intros Hm s e s' E. by destruct (Hm _ _ _ E). Qed.

Lemma tentative_ret {A} sid (a : A) : tentative sid (mret a : M S A).
Proof. by intros s o s' [= <- <-]. Qed.

Lemma tentative_raise {A} sid e : is_Exception e = true -> tentative sid (raise e : M S A).
Proof. by intros He s o s' [= <- <-]. Qed.

Lemma tentative_of_option {A} sid e (o : option A) :
  is_Exception e = true -> tentative sid (of_option e o : M S A).
Proof. destruct o; [intros _; apply tentative_ret|apply tentative_raise]. Qed.

Lemma tentative_of_outcome {A} sid (o : outcome A) :
  match o with Exn e => is_Exception e = true | Ret _ => True end ->
  tentative sid (of_outcome o : M S A).
Proof. by intros Ho s o' s' [= <- <-]. Qed.

Lemma tentative_bind {A B} sid (m : M S A) (k : A -> M S B) :
  tentative sid m -> (forall a, tentative sid (k a)) -> tentative sid (m ≫= k).
Proof.
  intros Hm Hk s o s' E. cbv [mbind M_bind] in E.
  destruct (m s) as [[a|e] s1] eqn:E1; destruct (Hm _ _ _ E1) as (A1 & A2 & A3).
  - destruct (Hk a _ _ _ E) as (B1 & B2 & B3). split_and!; [by etransitivity..|done].
  - by injection E as <- <-.
Qed.

Lemma tentative_for_each {A} sid (l : list A) (f : A -> M S unit) :
  (forall a, tentative sid (f a)) -> tentative sid (for_each l f).
Proof.
  intros Hf. induction l as [|a l IH]; [apply tentative_ret|].
  apply tentative_bind; [apply Hf|by intros _].
Qed.

Lemma tentative_unchanged {A} sid (m : M S A) :
  (forall s, exists a s', m s = (Ret a, s') /\ unchanged s s') -> tentative sid m.
Proof.
  intros Hm s o s' E. destruct (Hm s) as (a & s1 & E1 & Hu). rewrite E1 in E.
  injection E as <- <-. split_and!; [by apply unchanged_others|apply Hu|done].
Qed.

Lemma tentative_query sid q : tentative sid (query sid q).
Proof.
  intros s [l|e] s' E.
  - destruct (query_ret _ _ _ _ _ E) as (Hu & _). split_and!; [by apply unchanged_others|apply Hu|done].
  - by destruct (query_exn _ _ _ _ _ E) as (He & Ho & Hr & _).
Qed.

Lemma tentative_related sid r name : tentative sid (related sid r name).
Proof.
  intros s [l|e] s' E.
  - destruct (related_ret _ _ _ _ _ _ E) as (Hu & _).
    split_and!; [by apply unchanged_others|apply Hu|done].
  - by destruct (related_exn _ _ _ _ _ _ E) as (He & Ho & Hr & _).
Qed.

Lemma tentative_awaits {A} sid (m : M S A) (w : work) :
  (forall s, exists a s', m s = (Ret a, s') /\ awaits sid w s s') -> tentative sid m.
Proof.
  intros Hm s o s' E. destruct (Hm s) as (a & s1 & E1 & Ho & Hr & _). rewrite E1 in E.
  by injection E as <- <-.
Qed.

Lemma tentative_add sid d : tentative sid (add sid d).
Proof.
  apply (tentative_awaits sid _ (Insert d)). intros s. destruct (add_law sid d s) as (s' & E & Hw).
  by exists tt, s'.
Qed.

Lemma tentative_assign sid r c v : tentative sid (assign sid r c v).
Proof.
  eapply tentative_awaits. intros s. destruct (assign_law sid r c v s) as (s' & E & Hw).
  by eexists _, s'.
Qed.

Lemma tentative_link sid r name r' : tentative sid (link sid r name r').
Proof. intros s o s' E. by apply (link_frame _ _ _ _ _ _ _ E). Qed.

Lemma tentative_delete sid r : tentative sid (delete sid r).
Proof.
  eapply tentative_awaits. intros s. destruct (delete_law sid r s) as (s' & E & Hw).
  by eexists _, s'.
Qed.

Lemma tentative_uuid4 sid : tentative sid uuid4.
Proof.
  apply tentative_unchanged. intros s. destruct (uuid4_law s) as (u & s' & E & Hu & _).
  by exists u, s'.
Qed.
(** * Statements that write at the end *)

Lemma atomic_bind {A B} sid (m : M S A) (k : A -> M S B) :
  tentative sid m -> (forall a, atomic sid (k a)) -> atomic sid (m ≫= k).
Proof.
  intros Hm Hk s e s' E. cbv [mbind M_bind] in E.
  destruct (m s) as [[a|e1] s1] eqn:E1; destruct (Hm _ _ _ E1) as (A1 & A2 & A3).
  - destruct (Hk a _ _ _ E) as (B1 & B2 & B3). split_and!; [by etransitivity..|done].
  - by injection E as <- <-.
Qed.

Lemma atomic_then_ret {A B} sid (m : M S A) (f : A -> B) :
  atomic sid m -> atomic sid (m ≫= fun a => mret (f a)).
Proof.
  intros Hm s e s' E. cbv [mbind M_bind] in E.
  destruct (m s) as [[a|e1] s1] eqn:E1; [done|]. injection E as <- <-. by apply Hm.
Qed.

Lemma atomic_commit sid : atomic sid (commit sid).
Proof. intros s e s' E. by destruct (commit_exn _ _ _ _ E) as (He & Ho & Hr & _). Qed.

Lemma effect_inserts T ws rs T' : effect T ws rs T' -> length rs = length (inserted ws).
Proof using Type. induction 1; simpl; [done|by f_equal|done..]. Qed.

(** What [add_commit] answers is the last of the rows that are written. *)
Lemma add_commit_ret sid d s r s' : add_commit sid d s = (Ret r, s') ->
  broken s sid = false /\
  others sid s s' /\ pending s' sid = [] /\ broken s' sid = false /\
  exists rs T, effect (rows s) (pending s sid ++ [Insert d]) (rs ++ [r]) T /\
    forall t, rows s' t ≡ₚ T t.
Proof.
  unfold add_commit. destruct (add_law sid d s) as (s1 & E1 & Ho1 & Hr1 & Hp1 & Hb1).
  rewrite (run_bind _ _ _ _ _ E1). intros (l & s2 & E2 & E3)%bind_inv.
  destruct (last l) as [r'|] eqn:El; [|done]. injection E3 as <- <-.
  destruct (commit_ret _ _ _ _ E2) as (Ho2 & Hb2 & (T & He & HT) & Hp2 & Hb2').
  apply last_Some in El as (rs & ->). split_and!; [congruence|by etransitivity|done|done|].
  exists rs, T. split; [|done]. by rewrite <- Hp1, <- Hr1.
Qed.

Lemma atomic_add_commit sid d : atomic sid (add_commit sid d).
Proof.
  intros s e s' E. unfold add_commit in E.
  destruct (add_law sid d s) as (s1 & E1 & Ho1 & Hr1 & Hp1 & _). rewrite (run_bind _ _ _ _ _ E1) in E.
  cbv [mbind M_bind] in E. destruct (commit sid s1) as [[l|e1] s2] eqn:E2.
  - destruct (commit_ret _ _ _ _ E2) as (_ & _ & (T & He & _) & _). rewrite Hp1 in He.
    apply effect_inserts in He. unfold inserted in He. rewrite omap_app, length_app in He. simpl in He.
    destruct (last l) as [r|] eqn:El; [done|]. apply last_None in El as ->. simpl in He. lia.
  - injection E as <- <-. destruct (atomic_commit _ _ _ _ E2) as (A1 & A2 & A3).
    split_and!; [by etransitivity..|done].
Qed.

(** What was tried is gone. *)
Definition undone sid e s s' : Prop :=
  is_Exception e = true /\ others sid s s' /\ same_rows s s' /\
  pending s' sid = [] /\ broken s' sid = false.

Lemma or_rollback_exn {A} sid (m : M S A) s e s' :
  atomic sid m -> or_rollback sid m s = (Exn e, s') -> undone sid e s s'.
Proof.
  intros Hm E. unfold or_rollback, try_except, try_with in E.
  destruct (m s) as [[a|e1] s1] eqn:E1; [done|]. destruct (Hm _ _ _ E1) as (A1 & A2 & A3).
  rewrite A3 in E. destruct (rollback_law sid s1) as (s2 & E2 & B1 & B2 & B3 & B4).
  rewrite (run_bind _ _ _ _ _ E2) in E. injection E as <- <-.
  split_and!; [done|by etransitivity..|done|done].
Qed.

Lemma or_rollback_ret {A} sid (m : M S A) s a s' :
  m s = (Ret a, s') -> or_rollback sid m s = (Ret a, s').
Proof. apply try_except_ret. Qed.

Lemma or_rollback_inv {A} sid (m : M S A) s a s' :
  or_rollback sid m s = (Ret a, s') -> m s = (Ret a, s').
Proof.
  intros [E|(e & s1 & _ & _ & E)]%try_except_inv; [done|].
  by apply bind_inv in E as (? & ? & _ & E).
Qed.

(** * What is found *)

Lemma elem_of_selected q (T : tables) r :
  r ∈ selected q T <-> r ∈ T (q_table q) /\
    forallb (satisfies r) (q_where q) = true /\
    match q_join q with
    | None => True
    | Some j => exists r', r' ∈ T (j_table j) /\ refers (j_fk j) r (j_key j) r' = true /\
                  forallb (satisfies r') (j_where j) = true
    end.
Proof using Type.
  unfold selected. rewrite list_elem_of_In, filter_In, <- list_elem_of_In, andb_true_iff.
  destruct (q_join q) as [j|]; [|naive_solver]. rewrite existsb_exists.
  setoid_rewrite <- list_elem_of_In. setoid_rewrite andb_true_iff. done.
Qed.

Lemma satisfies_eq r k v : satisfies r (mkCondition k Eq v) = sql_eqb (cell k r) v.
Proof using Type. unfold satisfies. simpl. by destruct (cell k r). Qed.

Lemma elem_of_filter_by t cs (T : tables) r :
  r ∈ selected (filter_by t cs) T <->
  r ∈ T t /\ forall k v, (k, v) ∈ cs -> sql_eqb (cell k r) v = true.
Proof using Type.
  rewrite elem_of_selected. cbn [q_table q_where q_join filter_by]. rewrite forallb_forall. split.
  - intros (Hr & Hall & _). split; [done|]. intros k v Hin.
    rewrite <- satisfies_eq. apply Hall, list_elem_of_In.
    by apply (list_elem_of_fmap_2 (fun p => mkCondition p.1 Eq p.2)) in Hin.
  - intros [Hr Hall]. split; [done|split; [|done]]. intros c (p & -> & Hp)%list_elem_of_In%list_elem_of_fmap.
    rewrite satisfies_eq. apply Hall. by destruct p.
Qed.

(** The columns of a row that is stored are of their types. *)
Definition string_column (t : table) (k : string) : bool :=
  existsb (fun c => bool_decide (c_name c = k) &&
    match c_type c with CString => true | _ => false end) (columns t).

Lemma cell_string s t r k : sane s -> r ∈ rows s t -> string_column t k = true ->
  cell k r = DNone \/ exists x, cell k r = DStr x.
Proof.
  intros Hs Hr (c & Hc%list_elem_of_In & [<-%bool_decide_eq_true Ht]%andb_true_iff)%existsb_exists.
  pose proof (sane_types s t r c Hs Hr Hc) as Hty. destruct (c_type c); [|done..].
  destruct (cell (c_name c) r); try done; [by left|right; by eexists].
Qed.

Lemma string_eqb s t r k x : sane s -> r ∈ rows s t -> string_column t k = true ->
  sql_eqb (cell k r) (DStr x) = true <-> cell k r = DStr x.
Proof.
  intros Hs Hr Hk. destruct (cell_string s t r k Hs Hr Hk) as [->|[y ->]]; simpl; [done|].
  by rewrite bool_decide_eq_true.
Qed.

Lemma rows_NoDup s t : sane s -> NoDup (rows s t).
Proof. intros Hs. by eapply NoDup_fmap_1, sane_keys. Qed.

Lemma refers_at s t0 fk t key r r' : sane s -> r ∈ rows s t0 -> r' ∈ rows s t ->
  string_column t0 fk = true -> string_column t key = true ->
  refers fk r key r' = true <-> exists x, cell fk r = DStr x /\ cell key r' = DStr x.
Proof.
  intros Hs Hr Hr' Hfk Hkey. unfold refers.
  destruct (cell_string s _ r fk Hs Hr Hfk) as [->|[x ->]]; [naive_solver|].
  destruct (cell_string s _ r' key Hs Hr' Hkey) as [->|[y ->]]; simpl; [naive_solver|].
  rewrite bool_decide_eq_true. naive_solver.
Qed.

(** * Sessions with nothing to write *)

Lemma query_nothing sid q s l s' : pending s sid = [] -> query sid q s = (Ret l, s') ->
  unchanged s s' /\ l ≡ₚ selected q (rows s).
Proof.
  intros Hp E. destruct (query_ret _ _ _ _ _ E) as (Hu & _ & rs & T & He & Hl). split; [done|].
  rewrite Hp in He. by inversion He; subst.
Qed.

Lemma related_nothing sid r name s l s' : pending s sid = [] -> related sid r name s = (Ret l, s') ->
  unchanged s s' /\ l ≡ₚ related_rows name r (rows s).
Proof.
  intros Hp E. destruct (related_ret _ _ _ _ _ _ E) as (Hu & _ & rs & T & He & Hl). split; [done|].
  rewrite Hp in He. by inversion He; subst.
Qed.

(** [o] is one of the rows of [l], if there is one. *)
Definition one_of (o : option row) (l : list row) : Prop :=
  match o with Some r => r ∈ l | None => l = [] end.

Lemma head_one_of (l l' : list row) : l ≡ₚ l' -> one_of (head l) l'.
Proof using Type.
  intros Hl. destruct l as [|r l]; simpl.
  - by apply Permutation_nil in Hl.
  - rewrite <- Hl. by left.
Qed.

Lemma first_nothing sid q s o s' : pending s sid = [] -> first sid q s = (Ret o, s') ->
  unchanged s s' /\ one_of o (selected q (rows s)).
Proof.
  intros Hp (l & s1 & E & [= <- <-])%bind_inv.
  destruct (query_nothing _ _ _ _ _ Hp E) as [Hu Hl]. split; [done|]. by apply head_one_of.
Qed.

(** Rows with the same key are one. *)
Lemma same_key s t r r' : sane s -> r ∈ rows s t -> r' ∈ rows s t -> row_key r = row_key r' -> r = r'.
Proof. intros Hs. apply NoDup_fmap_elem. by apply sane_keys. Qed.

Context `{!OrmReliable S}.

Lemma quiet_readable sid s : quiet sid s -> readable sid s.
Proof. intros (_ & Hb & Hp & _). split; [done|by left]. Qed.

Lemma query_quiet sid q s : quiet sid s -> askable q = true ->
  exists l s', query sid q s = (Ret l, s') /\ unchanged s s' /\ l ≡ₚ selected q (rows s).
Proof.
  intros Hq Ha. destruct (query_total sid q s (proj1 Hq) (quiet_readable _ _ Hq) Ha) as (l & s' & E).
  exists l, s'. split; [done|]. exact (query_nothing _ _ _ _ _ (proj1 (proj2 (proj2 Hq))) E).
Qed.

Lemma first_quiet sid q s : quiet sid s -> askable q = true ->
  exists o s', first sid q s = (Ret o, s') /\ unchanged s s' /\ one_of o (selected q (rows s)).
Proof.
  intros Hq Ha. destruct (query_quiet sid q s Hq Ha) as (l & s' & E & Hu & Hl).
  exists (head l), s'. split; [|split; [done|by apply head_one_of]].
  unfold first. by rewrite (run_bind _ _ _ _ _ E).
Qed.

Lemma related_quiet sid r name s : quiet sid s -> is_Some (find_relation (r_table r) name) ->
  exists l s', related sid r name s = (Ret l, s') /\ unchanged s s' /\
    l ≡ₚ related_rows name r (rows s).
Proof.
  intros Hq Ha.
  destruct (related_total sid r name s (proj1 Hq) (quiet_readable _ _ Hq) Ha) as (l & s' & E).
  exists l, s'. split; [done|]. exact (related_nothing _ _ _ _ _ _ (proj1 (proj2 (proj2 Hq))) E).
Qed.

Lemma add_commit_calm sid d s : calm s -> acceptable (rows s) [Insert d] ->
  exists r s', add_commit sid d s = (Ret r, s') /\ calm s' /\ becomes (rows s) d r /\
    forall t, rows s' t ≡ₚ insert_row r (rows s) t.
Proof.
  intros Hc Ha. pose proof (calm_quiet sid s Hc) as (Hs & Hb & Hp & Hal).
  unfold add_commit. destruct (add_law sid d s) as (s1 & E1 & Ho1 & Hr1 & Hp1 & Hb1).
  rewrite (run_bind _ _ _ _ _ E1). rewrite Hp in Hp1. simpl in Hp1.
  destruct (commit_total sid s1) as (l & s2 & E2).
  { by apply Ho1. }
  { split_and!; [congruence| |by rewrite Hp1, Hr1].
    intros sid' Hne. rewrite (proj1 (proj2 Ho1 sid' Hne)). by apply Hal. }
  rewrite (run_bind _ _ _ _ _ E2).
  destruct (commit_ret _ _ _ _ E2) as (Ho2 & Hb2 & (T & He & HT) & Hp2 & Hb2').
  rewrite Hp1, Hr1 in He. inversion He as [|? ? r ? rs ? Hbec Hrest| |]; subst.
  inversion Hrest; subst. exists r, s2. split; [done|]. split; [|done].
  apply (calm_others sid s); [by etransitivity|done..].
Qed.

(** * Objects that are inserted *)

Definition find_column (t : table) (k : string) : option column :=
  List.find (fun c => bool_decide (c_name c = k)) (columns t).

(** A column of a row is what was given for it. *)
Lemma becomes_cell T d r k v : becomes T d r ->
  (c ← find_column (d_table d) k; given d c) = Some v -> cell k r = v.
Proof using Type.
  intros (_ & _ & Hc) E. apply bind_Some in E as (c & Hf & Hg).
  apply find_some in Hf as [Hin%list_elem_of_In <-%bool_decide_eq_true].
  specialize (Hc c Hin). unfold cell_of in Hc. by rewrite Hg in Hc.
Qed.

(** The conditions of [acceptable] on one object. *)
Definition insertable (T : tables) (d : draft) : Prop :=
  (forall k, draft_key d = Some k -> DNone ∉ k /\ forall r, r ∈ T (d_table d) -> row_key r <> k) /\
  Forall (fun c => match given d c with
    | Some v => typed (c_type c) v = true /\ is_serial c = false | None => True end)
    (columns (d_table d)).

Lemma acceptable_insert T d : insertable T d -> acceptable T [Insert d].
Proof using Type.
  intros [Hk Hc]. rewrite Forall_forall in Hc.
  assert (Hin : forall d', d' ∈ inserted [Insert d] -> d' = d)
    by (intros d' Hd'; by apply list_elem_of_singleton in Hd').
  split_and!.
  - intros d' k ->%Hin. apply Hk.
  - simpl. destruct (draft_key d); simpl; [apply NoDup_singleton|apply NoDup_nil_2].
  - intros d' c v ->%Hin Hcc E. specialize (Hc c Hcc). rewrite E in Hc. apply Hc.
  - intros d' c ->%Hin Hcc Hs. specialize (Hc c Hcc). destruct (given d c) as [v|]; [|done].
    destruct Hc as [_ Hc]. congruence.
  - intros r c v Hw%list_elem_of_singleton. done.
  - intros r name target fk key Hw%list_elem_of_singleton. done.
Qed.

Lemma add_calm sid d s : calm s -> insertable (rows s) d ->
  exists r s', or_rollback sid (add_commit sid d) s = (Ret r, s') /\ calm s' /\
    becomes (rows s) d r /\ forall t, rows s' t ≡ₚ insert_row r (rows s) t.
Proof.
  intros Hc Hi. destruct (add_commit_calm sid d s Hc (acceptable_insert _ _ Hi)) as (r & s' & E & Hr).
  exists r, s'. split; [by apply or_rollback_ret|done].
Qed.

(** The key of an object that is there already is refused. *)
Lemma add_taken sid d s k r : calm s -> (forall r, r ∈ rows s (d_table d) -> r_table r = d_table d) ->
  (forall c, c ∈ columns (d_table d) -> is_serial c = true -> given d c = None) ->
  draft_key d = Some k -> r ∈ rows s (d_table d) -> row_key r = k ->
  exists e s', or_rollback sid (add_commit sid d) s = (Exn e, s') /\ undone sid e s s'.
Proof.
  intros Hc HT Hser Hk Hr Hrk.
  destruct (or_rollback sid (add_commit sid d) s) as [[r'|e] s'] eqn:E; cycle 1.
  { exists e, s'. split; [done|]. by apply (or_rollback_exn _ _ _ _ _ (atomic_add_commit sid d) E). }
  apply or_rollback_inv, add_commit_ret in E as (_ & Ho & _ & _ & rs & T & He & HT').
  destruct (calm_quiet sid s Hc) as (Hs & _ & Hp & _). rewrite Hp in He.
  inversion He as [|? ? r0 ? rs0 ? Hb Hrest| |]; subst. inversion Hrest; subst.
  pose proof (becomes_key _ _ _ Hb HT Hser) as Hkey. rewrite Hk in Hkey.
  pose proof (sane_keys s' (d_table d) (proj1 Ho Hs)) as Hnd. rewrite HT' in Hnd.
  unfold insert_row in Hnd. rewrite decide_True in Hnd by (symmetry; apply Hb).
  rewrite fmap_app, NoDup_app in Hnd. destruct Hnd as (_ & Hnd & _). exfalso.
  apply (Hnd (row_key r)); [by apply list_elem_of_fmap_2|]. simpl. rewrite Hkey. left.
Qed.

(** * Tables whose key is one string *)

Definition found (T : tables) (t : table) (k x : string) : option row :=
  head (selected (filter_by t [(k, DStr x)]) T).

Definition string_key (t : table) (k : string) : Prop :=
  key_names t = [k] /\ string_column t k = true.

Lemma elem_of_selected_key s t k x r : sane s -> string_column t k = true ->
  r ∈ selected (filter_by t [(k, DStr x)]) (rows s) <-> r ∈ rows s t /\ cell k r = DStr x.
Proof.
  intros Hs Hk. rewrite elem_of_filter_by. split.
  - intros [Hr Hall]. split; [done|]. specialize (Hall k (DStr x) ltac:(left)).
    by apply (string_eqb s t) in Hall.
  - intros [Hr Hc]. split; [done|]. intros k' v [= -> ->]%list_elem_of_singleton.
    by apply (string_eqb s t).
Qed.

Lemma found_Some s t k x r : sane s -> string_key t k ->
  found (rows s) t k x = Some r <-> r ∈ rows s t /\ cell k r = DStr x.
Proof.
  intros Hs [Hk Hc]. rewrite <- (elem_of_selected_key s t k x) by done. unfold found.
  destruct (selected _ _) as [|r' l] eqn:E; simpl.
  - split; [done|]. intros Hr. by apply not_elem_of_nil in Hr.
  - split; [intros [= ->]; left|]. rewrite <- E. intros Hr. f_equal.
    assert (Hr' : r' ∈ selected (filter_by t [(k, DStr x)]) (rows s)) by (rewrite E; left).
    apply (elem_of_selected_key s t) in Hr as [Hr Hx]; [|done..].
    apply (elem_of_selected_key s t) in Hr' as [Hr' Hx']; [|done..].
    apply (same_key s t); [done..|]. unfold row_key.
    destruct (sane_rows s t r Hs Hr) as [-> _], (sane_rows s t r' Hs Hr') as [-> _].
    rewrite Hk. simpl. congruence.
Qed.

Lemma found_None s t k x : sane s -> string_key t k ->
  found (rows s) t k x = None <-> forall r, r ∈ rows s t -> cell k r <> DStr x.
Proof.
  intros Hs Hk. split.
  - intros E r Hr Hx. assert (found (rows s) t k x = Some r); [by apply found_Some|congruence].
  - intros Hn. destruct (found _ _ _ _) as [r|] eqn:E; [|done].
    apply found_Some in E as [Hr Hx]; [|done..]. by apply Hn in Hr.
Qed.

Lemma one_of_found s t k x o : sane s -> string_key t k ->
  one_of o (selected (filter_by t [(k, DStr x)]) (rows s)) -> o = found (rows s) t k x.
Proof.
  intros Hs Hk. destruct o as [r|]; simpl.
  - intros [Hr Hx]%elem_of_selected_key; [|done|apply Hk]. symmetry. by apply found_Some.
  - intros E. unfold found. by rewrite E.
Qed.

(** A row that is inserted is found, and nothing else changes. *)
Lemma found_insert s s' t k r x0 x : sane s -> sane s' -> string_key t k ->
  rows s' t ≡ₚ insert_row r (rows s) t -> r_table r = t -> cell k r = DStr x0 ->
  found (rows s') t k x = if decide (x = x0) then Some r else found (rows s) t k x.
Proof.
  intros Hs Hs' Hk HT Ht Hx. unfold insert_row in HT. rewrite decide_True in HT by done.
  case_decide as E; [subst x|].
  - apply found_Some; [done..|]. split; [|done]. rewrite HT. set_solver.
  - destruct (found (rows s) t k x) as [r'|] eqn:E'.
    + apply found_Some in E' as [Hr' Hx']; [|done..]. apply found_Some; [done..|].
      split; [|done]. rewrite HT. set_solver.
    + apply found_None; [done..|]. intros r'. rewrite HT. intros [Hr'|Hr']%elem_of_app.
      * by apply (found_None s t k x).
      * apply list_elem_of_singleton in Hr'. subst. congruence.
Qed.

Lemma find_by_key sid s t k x : calm s -> string_key t k ->
  exists s', first sid (filter_by t [(k, DStr x)]) s = (Ret (found (rows s) t k x), s') /\ unchanged s s'.
Proof.
  intros Hc Hk. destruct (first_quiet sid (filter_by t [(k, DStr x)]) s) as (o & s' & E & Hu & Ho);
    [by apply calm_quiet|done|].
  apply one_of_found in Ho as ->; [|apply Hc|done]. by exists s'.
Qed.

Lemma row_key_string s t k r : sane s -> string_key t k -> r ∈ rows s t -> row_key r = [cell k r].
Proof.
  intros Hs [Hk _] Hr. unfold row_key. destruct (sane_rows s t r Hs Hr) as [-> _]. by rewrite Hk.
Qed.

(** An object with a key of one string is inserted if no row has it, and refused else. *)
Lemma add_string sid s d k x : calm s -> string_key (d_table d) k ->
  draft_key d = Some [DStr x] ->
  Forall (fun c => match given d c with
    | Some v => typed (c_type c) v = true /\ is_serial c = false | None => True end)
    (columns (d_table d)) ->
  match found (rows s) (d_table d) k x with
  | None => exists r s', or_rollback sid (add_commit sid d) s = (Ret r, s') /\ calm s' /\
      becomes (rows s) d r /\ cell k r = DStr x /\
      (forall y, found (rows s') (d_table d) k y =
         if decide (y = x) then Some r else found (rows s) (d_table d) k y) /\
      forall t, rows s' t ≡ₚ insert_row r (rows s) t
  | Some _ => exists e s', or_rollback sid (add_commit sid d) s = (Exn e, s') /\ undone sid e s s'
  end.
Proof.
  intros Hc Hk Hd Hcols. pose proof (proj1 Hc) as Hs.
  assert (Hser : forall c, c ∈ columns (d_table d) -> is_serial c = true -> given d c = None).
  { intros c Hin Hser. rewrite Forall_forall in Hcols. specialize (Hcols c Hin).
    destruct (given d c); [|done]. destruct Hcols. congruence. }
  destruct (found (rows s) (d_table d) k x) as [r|] eqn:E.
  - apply found_Some in E as [Hr Hx]; [|done..].
    apply (add_taken sid d s [DStr x] r Hc); [|done..|].
    + intros r' Hr'. by apply (sane_rows s).
    + by rewrite (row_key_string s (d_table d) k), Hx.
  - destruct (add_calm sid d s Hc) as (r & s' & E' & Hc' & Hb & HT).
    { split; [|done]. intros k' [= <-]%(eq_trans (eq_sym Hd)).
      split; [by intros ?%list_elem_of_singleton|]. intros r' Hr'.
      rewrite (row_key_string s (d_table d) k) by done. intros [= Hx].
      by apply (proj1 (found_None s (d_table d) k x Hs Hk) E) in Hr'. }
    assert (Hx : cell k r = DStr x).
    { pose proof (becomes_key _ _ _ Hb ltac:(intros; by apply (sane_rows s)) Hser) as Hkey.
      rewrite Hd in Hkey. unfold row_key in Hkey. destruct Hb as (Ht & _). rewrite Ht in Hkey.
      rewrite (proj1 Hk) in Hkey. by injection Hkey. }
    exists r, s'. split_and!; [done..| |done].
    intros y. apply (found_insert s); [done|apply Hc'|done|done|apply Hb|done].
Qed.

Lemma insert_row_perm r (T T' : tables) t : T t ≡ₚ T' t -> insert_row r T t ≡ₚ insert_row r T' t.
Proof using Type. intros HT. unfold insert_row. case_decide; by rewrite HT. Qed.

Lemma rows_elsewhere (T T' : tables) r t : (forall t, T' t ≡ₚ insert_row r T t) -> t <> r_table r ->
  T' t ≡ₚ T t.
Proof using Type. intros HT Hne. rewrite (HT t). unfold insert_row. by rewrite decide_False. Qed.
End Facts.

(** Walks a statement sequence that writes at its end. *)
Create HintDb store.
#[export] Hint Resolve tentative_ret tentative_query tentative_related tentative_add
  tentative_assign tentative_link tentative_delete tentative_uuid4 : store.
#[export] Hint Resolve atomic_commit atomic_add_commit : store.
Ltac store_step :=
  match goal with
  | |- atomic _ (or_rollback _ _) => fail 1
  | |- atomic _ (_ ≫= fun _ => mret _) => apply atomic_then_ret
  | |- atomic _ (_ ≫= _) => apply atomic_bind; [|intros ?]
  | |- tentative _ (_ ≫= _) => apply tentative_bind; [|intros ?]
  | |- tentative _ (for_each _ _) => apply tentative_for_each; intros ?
  | |- tentative _ (of_option _ _) => by apply tentative_of_option
  | |- tentative _ (raise _) => by apply tentative_raise
  | |- _ _ (match ?x with _ => _ end) => destruct x
  end.
Ltac store_walk := repeat (store_step || solve [eauto 2 with store nocore] || apply tentative_atomic).

(** The columns of a concrete object, one by one. *)
Ltac each_column :=
  unfold storable in *;
  cbn [d_table new with_cell with_link]; repeat apply Forall_cons_2; try apply Forall_nil_2;
  cbv -[lower to_column cell typed]; try (split; [|done]); auto.

Set Default Proof Using "All".
(** * Several objects at once *)

Definition of_table (t : table) (rs : list row) : list row :=
  List.filter (fun r => bool_decide (r_table r = t)) rs.

Definition with_inserted (T : tables) (rs : list row) : tables := fun t => T t ++ of_table t rs.

(** The objects [ds] have become the rows [rs]. *)
Definition become (ds : list draft) (rs : list row) : Prop :=
  Forall2 (fun d r => exists T, becomes T d r) ds rs.

Lemma effect_insert_list T ds rs T' : effect T (Insert <$> ds) rs T' ->
  become ds rs /\ forall t, T' t = with_inserted T rs t.
Proof.
  revert T rs. induction ds as [|d ds IH]; intros T rs He; inversion He as [|? ? r ? rs' ? Hb Hrest| |]; subst.
  - split; [constructor|]. intros t. unfold with_inserted. by rewrite app_nil_r.
  - destruct (IH _ _ Hrest) as [Hbs HT]. split; [constructor; [by exists T|done]|].
    intros t. rewrite HT. unfold with_inserted, insert_row, of_table. simpl.
    case_decide as E; [rewrite bool_decide_eq_true_2 by done|rewrite bool_decide_eq_false_2 by done];
      [by rewrite <- app_assoc|done].
Qed.

Lemma become_table t ds rs : become ds rs -> (forall d, d ∈ ds -> d_table d <> t) -> of_table t rs = [].
Proof.
  induction 1 as [|d r ds rs (T & Hb) Hrest IH]; intros Hne; [done|]. unfold of_table. simpl.
  rewrite bool_decide_eq_false_2; [apply IH; intros; apply Hne; by right|].
  rewrite (proj1 Hb). apply Hne. left.
Qed.

(** Distinct new keys, and columns of their types. *)
Definition insertable_list (T : tables) (ds : list draft) : Prop :=
  Forall (insertable T) ds /\ NoDup (omap (fun d => pair (d_table d) <$> draft_key d) ds).

Lemma inserted_fmap ds : inserted (Insert <$> ds) = ds.
Proof. induction ds; simpl; [done|by f_equal]. Qed.

Lemma acceptable_list T ds : insertable_list T ds -> acceptable T (Insert <$> ds).
Proof.
  intros [Hi Hk]. rewrite Forall_forall in Hi. unfold acceptable. rewrite inserted_fmap.
  assert (Hone : forall d, d ∈ ds -> acceptable T [Insert d]) by (intros; by apply acceptable_insert, Hi).
  assert (Hin : forall d : draft, d ∈ inserted [Insert d]) by left.
  split_and!.
  - intros d k Hd. apply (Hone d Hd). apply Hin.
  - done.
  - intros d c v Hd. apply (Hone d Hd). apply Hin.
  - intros d c Hd. apply (Hone d Hd). apply Hin.
  - intros r c v (d & ? & _)%list_elem_of_fmap. done.
  - intros r name target fk key (d & ? & _)%list_elem_of_fmap. done.
Qed.

Section Several.
Context {S : Type} `{OrmLaws S} `{!OrmReliable S}.
Implicit Types (s : S) (sid : string).

(** The session has the objects [ds] to add, and is the only one to write. *)
Definition adding (sid : string) (ds : list draft) (s : S) : Prop :=
  sane s /\ broken s sid = false /\ alone sid s /\ pending s sid = Insert <$> ds.

Lemma calm_adding sid s : calm s -> adding sid [] s.
Proof. intros Hc. destruct (calm_quiet sid s Hc) as (? & ? & ? & ?). done. Qed.

Lemma adding_unchanged sid ds s s' : unchanged s s' -> adding sid ds s -> adding sid ds s'.
Proof.
  intros (A1 & A2 & A3) (B1 & B2 & B3 & B4). destruct (A3 sid) as [E1 E2].
  split_and!; [auto|congruence| |congruence].
  intros sid' Hne. rewrite (proj1 (A3 sid')). auto.
Qed.

Lemma add_adding sid ds d s : adding sid ds s ->
  exists s', add sid d s = (Ret tt, s') /\ adding sid (ds ++ [d]) s' /\ rows s' = rows s /\ others sid s s'.
Proof.
  intros (B1 & B2 & B3 & B4). destruct (add_law sid d s) as (s' & E & Ho & Hr & Hp & Hb).
  exists s'. split_and!; [done| |done|done]. split_and!; [by apply Ho|congruence| |].
  - intros sid' Hne. rewrite (proj1 (proj2 Ho sid' Hne)). auto.
  - by rewrite Hp, B4, fmap_app.
Qed.

Lemma add_list_adding sid ds ds' s : adding sid ds s ->
  exists s', for_each ds' (add sid) s = (Ret tt, s') /\ adding sid (ds ++ ds') s' /\
    rows s' = rows s /\ others sid s s'.
Proof.
  revert ds s. induction ds' as [|d ds' IH]; intros ds s Ha.
  - exists s. rewrite app_nil_r. split_and!; done.
  - destruct (add_adding sid ds d s Ha) as (s1 & E1 & Ha1 & Hr1 & Ho1).
    destruct (IH _ _ Ha1) as (s2 & E2 & Ha2 & Hr2 & Ho2). exists s2.
    cbn [for_each]. rewrite (run_bind _ _ _ _ _ E1). split_and!; [done| |congruence|by etransitivity].
    by rewrite <- app_assoc in Ha2.
Qed.

(** A query sees the objects that are to be added. *)
Lemma first_adding sid ds q s : adding sid ds s -> insertable_list (rows s) ds -> askable q = true ->
  exists o s', first sid q s = (Ret o, s') /\ unchanged s s' /\
    exists rs, become ds rs /\ one_of o (selected q (with_inserted (rows s) rs)).
Proof.
  intros (B1 & B2 & B3 & B4) Hi Ha. destruct (query_total sid q s B1) as (l & s' & E); [|done|].
  { split; [done|right]. split_and!; [done..|]. rewrite B4. by apply acceptable_list. }
  destruct (query_ret _ _ _ _ _ E) as (Hu & _ & rs & T & He & Hl). rewrite B4 in He.
  apply effect_insert_list in He as [Hb HT].
  exists (head l), s'. split; [|split; [done|]].
  - unfold first. by rewrite (run_bind _ _ _ _ _ E).
  - exists rs. split; [done|]. apply head_one_of. rewrite Hl. unfold selected. rewrite HT.
    erewrite filter_ext; [done|]. intros r. simpl. f_equal.
    destruct (q_join q) as [j|]; [|done]. by rewrite HT.
Qed.

(** None of them is in the table that is asked. *)
Lemma find_adding sid ds t k x s : adding sid ds s -> insertable_list (rows s) ds ->
  string_key t k -> (forall d, d ∈ ds -> d_table d <> t) ->
  exists s', first sid (filter_by t [(k, DStr x)]) s = (Ret (found (rows s) t k x), s') /\ unchanged s s'.
Proof.
  intros Ha Hi Hk Hne.
  destruct (first_adding sid ds (filter_by t [(k, DStr x)]) s Ha Hi) as (o & s' & E & Hu & rs & Hb & Ho);
    [done|].
  exists s'. split; [|done]. rewrite E. do 2 f_equal. apply (one_of_found s); [apply Ha|done|].
  assert (Hsel : selected (filter_by t [(k, DStr x)]) (with_inserted (rows s) rs) =
                 selected (filter_by t [(k, DStr x)]) (rows s)).
  { unfold selected, with_inserted. cbn [q_table q_join filter_by].
    by rewrite (become_table t ds rs Hb Hne), app_nil_r. }
  by rewrite <- Hsel.
Qed.


Lemma commit_adding_calm sid ds s0 s : calm s0 -> others sid s0 s -> adding sid ds s ->
  insertable_list (rows s) ds ->
  exists rs s', commit sid s = (Ret rs, s') /\ calm s' /\ become ds rs /\
    forall t, rows s' t ≡ₚ with_inserted (rows s) rs t.
Proof.
  intros Hc Ho0 (B1 & B2 & B3 & B4) Hi. destruct (commit_total sid s B1) as (rs & s' & E).
  { split_and!; [done..|]. rewrite B4. by apply acceptable_list. }
  destruct (commit_ret _ _ _ _ E) as (Ho & _ & (T & He & HT) & Hp & Hb). rewrite B4 in He.
  apply effect_insert_list in He as [Hbs HT']. exists rs, s'. split_and!; [done| |done|].
  - apply (calm_others sid s0); [by etransitivity|done..].
  - intros t. by rewrite HT, HT'.
Qed.
End Several.
