(* ===== verification/MissionNodes.v ===== *)
(** The documents the component of the missions answers with: nodes of its domain as the
    builders, the directors and the domain controller fill them
    ([components/extended/mission/controllers]). *)
From Stdlib Require Import ZArith Lia Ascii String.
From stdpp Require Import base strings list pretty.
From S2P Require Import Prelude.
From S2P Require Import DomainNode.
From S2P Require Import RestGeo.
From S2P Require Import MissionDb.
From S2P Require Import MissionStore.

Set Default Proof Using "Type".
Local Open Scope string_scope.
Local Open Scope list_scope.
Local Open Scope py_scope.

Local Unset Elimination Schemes.

(** * Nodes with nodes as values *)

(** A node: its class, [cot_attributes] and the children in the order they were added.
    A value is one of a column, a list, the child with that position or a node that is no
    child. *)
Inductive dnode := DNode (c : domain_class) (values : list (string * dval)) (kids : list dnode)
with dval :=
  | VData (v : dbval)
  | VList (l : list dbval)
  | VKid (i : nat)
  | VNode (n : dnode).

Local Set Elimination Schemes.

Definition n_class (n : dnode) : domain_class := match n with DNode c _ _ => c end.
Definition n_values (n : dnode) : list (string * dval) := match n with DNode _ v _ => v end.
Definition n_kids (n : dnode) : list dnode := match n with DNode _ _ k => k end.
Definition class_name (n : dnode) : string := d_name (n_class n).

Definition text (s : string) : dval := VData (DStr s).
Definition nothing : dval := VData DNone.

(** Code outside the repository, and the components behind sub-actions: [CreateNode] of a
    class and a configuration, whether DigitalPy lets a node be the child of another,
    [serialize] to JSON and XML, the event of a CoT ([GetCoT]) and its XML, the columns
    and keywords of a file ([GetEnterpriseSyncMetaData]) or of the files with some hashes and
    uids, what is in them ([GetMultipleEnterpriseSyncData]), the first file of an archive
    and its [changes.json], [SaveEnterpriseSyncData], [strftime], [strptime] and the
    year it reads, [str] and [json] of documents, [jwt.encode] and [jwt.decode] with the key
    that is read for it, the clock, a uuid. *)
Record mission_library := mkMissionLibrary {
  create_node : string -> string -> outcome dnode;
  child_allowed : dnode -> dnode -> bool;
  serialize_json : dnode -> outcome string;
  serialize_xml : dnode -> outcome string;
  node_to_xml : dnode -> outcome string;
  from_string : string -> outcome string;
  get_cot : dbval -> outcome (option dnode);
  sync_metadata : dbval -> outcome (option (list (string * dbval) * list dbval));
  sync_metadatas : list dbval -> list dbval -> outcome (list (list (string * dbval) * list dbval));
  sync_datas : list dbval -> list dbval -> outcome (list string);
  unzip : string -> outcome (string * json);
  save_sync_data : string -> list (string * dval) -> outcome unit;
  dtg : Z -> string;
  parse_dtg : json -> outcome Z;
  year_of : Z -> Z;
  str_of_json : json -> string;
  json_loads : string -> outcome json;
  json_dumps : json -> outcome string;
  token_of : list (string * dbval) -> outcome string;
  decode_token : string -> outcome json;
  epoch : Z -> Z;
  clock_text : nat -> string;
  node_uuid : string;
  node_id : string }.

Section Nodes.
Context (lib : mission_library).

Definition find_accessor (n : dnode) (name : string) : option accessor :=
  List.find (fun a => bool_decide (a_name a = name)) (d_accessors (n_class n)).

Definition put_value (k : string) (v : dval) (n : dnode) : dnode :=
  DNode (n_class n) (dset k v (n_values n)) (n_kids n).

(** [self.add_child(child)]. *)
Definition add_child (child n : dnode) : outcome dnode :=
  if child_allowed lib n child then
    Ret (DNode (n_class n) (dset (class_name child) (VKid (length (n_kids n))) (n_values n))
           (n_kids n ++ [child]))
  else Exn TypeError.

Definition value_or (d : dval) (k : string) (n : dnode) : dval := default d (dget k (n_values n)).

Definition is_nothing (v : dval) : bool :=
  match v with VData DNone => true | _ => false end.

(** What a property evaluates to; [inr] are children, by position. *)
Definition positions (cs : list string) (n : dnode) : list nat :=
  cs ≫= fun c =>
    omap (fun p => if bool_decide (p.2 = c) then Some p.1 else None)
      (imap pair (class_name <$> n_kids n)).

Definition of_xval (x : xval) : dval :=
  match x with XText s => text s | XList _ => VList [] | _ => nothing end.

Definition get_attr (name : string) (n : dnode) : outcome (dval + list nat) :=
  match find_accessor n name with
  | None => Exn AttributeError
  | Some a =>
      match a_get a with
      | Get k => Ret (inl (value_or nothing k n))
      | GetOr k x => Ret (inl (value_or (of_xval x) k n))
      | GetItem k => match dget k (n_values n) with Some v => Ret (inl v) | None => Exn KeyError end
      | GetOrRaise k =>
          let v := value_or nothing k n in
          if is_nothing v then Exn AttributeError else Ret (inl v)
      | GetTime k seconds =>
          let v := value_or nothing k n in
          Ret (inl (if is_nothing v then text (clock_text lib seconds) else v))
      | GetUuid k => Ret (inl (value_or (text (node_uuid lib)) k n))
      | GetChildren cs => Ret (inr (positions cs n))
      | GetChildrenOr cs k =>
          match positions cs n with
          | [] => Ret (inl (value_or nothing k n))
          | l => Ret (inr l)
          end
      | GetFirst ks =>
          Ret (inl (default nothing (head (List.filter (fun v => negb (is_nothing v))
            ((fun k => value_or nothing k n) <$> ks)))))
      end
  end.

(** [setattr(n, name, v)]; an attribute that is no property is set on the instance, where
    nothing here reads it. *)
Definition set_attr (name : string) (v : dval) (n : dnode) : outcome dnode :=
  match find_accessor n name with
  | None => Ret n
  | Some a =>
      match a_set a with
      | SetValue k => Ret (put_value k v n)
      | SetItself => Exn RuntimeError
      | SetItselfOrTime => if is_nothing v then Exn AttributeError else Exn RuntimeError
      | SetTime k seconds =>
          Ret (put_value k (if is_nothing v then text (clock_text lib seconds) else v) n)
      | SetUuid k => Ret (put_value k (if is_nothing v then text (node_uuid lib) else v) n)
      | SetChild => match v with VNode c => add_child c n | _ => Exn TypeError end
      | SetChildOrAppend cs k =>
          match v with
          | VNode c => if bool_decide (class_name c ∈ cs) then add_child c n else Ret n
          | VData (DStr s) =>
              match dget k (n_values n) with
              | Some (VList l) => Ret (put_value k (VList (l ++ [DStr s])) n)
              | Some _ => Exn AttributeError
              | None => Exn KeyError
              end
          | _ => Ret n
          end
      | SetSameClass k =>
          match value_or nothing k n, v with
          | VData DNone, _ | VData (DStr _), VData (DStr _) => Ret (put_value k v n)
          | VNode m, VNode c =>
              if bool_decide (class_name c = class_name m) then Ret (put_value k v n) else Exn External
          | _, _ => Exn External
          end
      end
  end.

(** A part of a path: [.name] or [.name[0]]. *)
Inductive hop := Attr (name : string) | First (name : string).

(** The key under which a property keeps a node that is no child. *)
Definition kept_under (name : string) (n : dnode) : string :=
  match find_accessor n name with
  | Some a => match a_get a with Get k | GetOrRaise k | GetItem k | GetOr k _ => k | _ => name end
  | None => name
  end.

(** The statement [f] about what the path leads to. *)
Fixpoint at_path (path : list hop) (f : dnode -> outcome dnode) (n : dnode) : outcome dnode :=
  match path with
  | [] => f n
  | hop :: path =>
      let in_kid i :=
        match n_kids n !! i with
        | Some kid =>
            match at_path path f kid with
            | Ret kid' => Ret (DNode (n_class n) (n_values n) (<[i := kid']> (n_kids n)))
            | Exn e => Exn e
            end
        | None => Exn AttributeError
        end in
      match hop with
      | Attr name =>
          match get_attr name n with
          | Ret (inl (VKid i)) => in_kid i
          | Ret (inl (VNode m)) =>
              match at_path path f m with
              | Ret m' => Ret (put_value (kept_under name n) (VNode m') n)
              | Exn e => Exn e
              end
          | Ret _ => Exn AttributeError
          | Exn e => Exn e
          end
      | First name =>
          match get_attr name n with
          | Ret (inr (i :: _)) => in_kid i
          | Ret (inr []) => Exn IndexError
          | Ret (inl (VKid i)) => Exn TypeError
          | Ret _ => Exn TypeError
          | Exn e => Exn e
          end
      end
  end.

(** The value of an attribute at the end of a path. *)
Fixpoint read (path : list string) (name : string) (n : dnode) : outcome dval :=
  match path with
  | [] => match get_attr name n with Ret (inl v) => Ret v | Ret (inr _) => Exn External | Exn e => Exn e end
  | p :: path =>
      match get_attr p n with
      | Ret (inl (VKid i)) =>
          match n_kids n !! i with Some kid => read path name kid | None => Exn AttributeError end
      | Ret (inl (VNode m)) => read path name m
      | Ret _ => Exn AttributeError
      | Exn e => Exn e
      end
  end.

(** Statements [n.path.name = value], whose values may raise. *)
Definition assign_at (path : list hop) (name : string) (v : outcome dval) (n : dnode) : outcome dnode :=
  match v with Ret v => at_path path (set_attr name v) n | Exn e => Exn e end.

Fixpoint assign_all (path : list hop) (l : list (string * outcome dval)) (n : dnode) : outcome dnode :=
  match l with
  | [] => Ret n
  | (name, v) :: l =>
      match assign_at path name v n with Ret n => assign_all path l n | Exn e => Exn e end
  end.

(** [n.path.k.text = value]. *)
Fixpoint assign_texts (path : list hop) (l : list (string * outcome dval)) (n : dnode) : outcome dnode :=
  match l with
  | [] => Ret n
  | (k, v) :: l =>
      match assign_at (path ++ [Attr k]) "text" v n with
      | Ret n => assign_texts path l n
      | Exn e => Exn e
      end
  end.

(** [n.name.append(v)]; what is appended to a list that is not kept is lost. *)
Definition append_attr (name : string) (v : dbval) (n : dnode) : outcome dnode :=
  match get_attr name n with
  | Ret (inl (VList l)) =>
      match dget (kept_under name n) (n_values n) with
      | Some _ => Ret (put_value (kept_under name n) (VList (l ++ [v])) n)
      | None => Ret n
      end
  | Ret (inl _) => Exn AttributeError
  | Ret (inr _) => Ret n
  | Exn e => Exn e
  end.

(** [n.name[0]]. *)
Definition first_of (name : string) (n : dnode) : outcome dnode :=
  match get_attr name n with
  | Ret (inr (i :: _)) => match n_kids n !! i with Some kid => Ret kid | None => Exn AttributeError end
  | Ret (inr []) | Ret (inl (VList [])) => Exn IndexError
  | Ret (inl _) => Exn TypeError
  | Exn e => Exn e
  end.

(** [n.text += s], at the end of a path. *)
Definition extend_text (path : list hop) (s : string) : dnode -> outcome dnode :=
  at_path path (fun n =>
    match get_attr "text" n with
    | Ret (inl (VData (DStr t))) => set_attr "text" (text (t +:+ s)) n
    | Ret _ => Exn TypeError
    | Exn e => Exn e
    end).

(** A column of an object, [get_dtg] of one, and constants. *)
Definition col (k : string) (r : row) : outcome dval := Ret (VData (cell k r)).
Definition get_dtg (v : dbval) : outcome dval :=
  match v with DTime t => Ret (text (dtg lib t)) | _ => Exn AttributeError end.
Definition const (s : string) : outcome dval := Ret (text s).
Definition empty_list : outcome dval := Ret (VList []).
End Nodes.
