(* ===== verification/MissionBuilders.v ===== *)
(** The builders and directors of the missions
    ([components/extended/mission/controllers/builders], [directors]) and what the domain
    controller completes. *)
From Stdlib Require Import ZArith Lia Ascii String.
From stdpp Require Import base strings list pretty.
From S2P Require Import Prelude.
From S2P Require Import RestGeo.
From S2P Require Import MissionDb.
From S2P Require Import MissionStore.
From S2P Require Import MissionNodes.

Set Default Proof Using "Type".
Local Open Scope string_scope.
Local Open Scope list_scope.
Local Open Scope py_scope.

(** What a response holds. *)
Inductive answer :=
  | AText (s : string)
  | ANone
  | AJson (j : json)
  | ANodes (l : list dnode).

(** The database, the response and the context and action it is for. *)
Record mission_state (S : Type) := mkMissionState {
  ms_db : S;
  ms_response : list (string * answer);
  ms_context : option string;
  ms_action : option string }.
Arguments mkMissionState {S} _ _ _ _.
Arguments ms_db {S} _.
Arguments ms_response {S} _.
Arguments ms_context {S} _.
Arguments ms_action {S} _.

Section Builders.
Context {S : Type} `{Orm S} (lib : mission_library).
(** The session of the controller whose object is shown. *)
Context (sid : string).

Abbreviation MW := (M (mission_state S)).

Definition db {A} (m : M S A) : MW A := fun w =>
  let r := m (ms_db w) in (r.1, mkMissionState r.2 (ms_response w) (ms_context w) (ms_action w)).

(** A relationship of an object, and that object where it is only one. *)
Definition many (r : row) (name : string) : MW (list row) := db (related sid r name).
Definition one (r : row) (name : string) : MW (option row) := l <- many r name ;; mret (head l).

(** [_create_model_object]. *)
Definition create (class configuration : string) : MW dnode :=
  of_outcome (create_node lib class configuration).

Definition put (path : list hop) (l : list (string * outcome dval)) (n : dnode) : MW dnode :=
  of_outcome (assign_all lib path l n).
Definition put_texts (path : list hop) (l : list (string * outcome dval)) (n : dnode) : MW dnode :=
  of_outcome (assign_texts lib path l n).

(** The event of a CoT, and an attribute of it. *)
Definition GetCoT (uid : dbval) : MW (option dnode) := of_outcome (get_cot lib uid).
Definition of_cot (cot : option dnode) (path : list string) (name : string) : outcome dval :=
  match cot with Some c => read lib path name c | None => Exn AttributeError end.

(** A file, its columns and its keywords. *)
Definition metadata := option (list (string * dbval) * list dbval).
Definition GetEnterpriseSyncMetaData (key : dbval) : MW metadata := of_outcome (sync_metadata lib key).
Definition of_sync (m : metadata) (k : string) : outcome dval :=
  match m with
  | Some (cells, _) => match dget k cells with Some v => Ret (VData v) | None => Exn AttributeError end
  | None => Exn AttributeError
  end.
Definition time_of_sync (m : metadata) (k : string) : outcome dval :=
  match of_sync m k with Ret (VData v) => get_dtg lib v | Ret _ => Exn AttributeError | Exn e => Exn e end.
Definition keywords_of (m : metadata) : outcome dval :=
  match m with Some (_, ks) => Ret (VList ks) | None => Exn AttributeError end.

(** The data of a file, as every description of one has it. *)
Definition sync_data (m : metadata) : list (string * outcome dval) :=
  [("uid", of_sync m "PrimaryKey"); ("hash", of_sync m "hash"); ("name", of_sync m "file_name");
   ("mimeType", of_sync m "mime_type"); ("size", of_sync m "length"); ("tool", of_sync m "tool");
   ("submitter", of_sync m "submitter"); ("keywords", keywords_of m);
   ("expiration", of_sync m "expiration")].

(** * Builders *)

Definition MissionListBuilder : MW dnode :=
  n <- create "MissionInfo" "mission_collection" ;;
  put [] [("version", const "3"); ("type", const "Mission"); ("nodeId", const (node_id lib))] n.

Definition MissionChangeListBuilder : MW dnode :=
  n <- create "MissionInfo" "mission_collection" ;;
  put [] [("version", const "3"); ("type", const "MissionChange"); ("nodeId", const (node_id lib))] n.

Definition MissionInvitationListBuilder : MW dnode :=
  n <- create "MissionInvitationList" "mission_invitation_list" ;;
  put [] [("version", const "3"); ("type", const "MissionInvitation"); ("nodeId", const (node_id lib))] n.

(** [int(v)]. *)
Definition db_int (v : dbval) : outcome Z :=
  match v with
  | DInt z => Ret z
  | DBool b => Ret (Z.b2z b)
  | DStr s => match parse_int s with Some z => Ret z | None => Exn ValueError end
  | _ => Exn TypeError
  end.

Definition MissionListRecordBuilder (mapped_object : option row) : MW dnode :=
  n <- create "MissionData" "mission_record" ;;
  match mapped_object with
  | None => mret n
  | Some m =>
      put [] [("name", col "name" m); ("description", col "description" m);
        ("chatRoom", col "chatRoom" m); ("baseLayer", col "baseLayer" m); ("bbox", col "bbox" m);
        ("path", col "path" m); ("classification", col "classification" m);
        ("tool", const "public"); ("keywords", empty_list); ("creatorUid", col "creatorUid" m);
        ("createTime", get_dtg lib (cell "createTime" m)); ("groups", empty_list);
        ("feeds", empty_list); ("mapLayers", empty_list);
        ("inviteOnly",
          match db_int (cell "inviteOnly" m) with
          | Ret z => Ret (VData (DBool (negb (Z.eqb z 0))))
          | Exn e => Exn e
          end);
        ("expiration", col "expiration" m);
        ("passwordProtected",
          Ret (VData (DBool (negb (bool_decide (cell "passwordProtected" m = DStr "False"))))))] n
  end.

(** [permission.permission.permission_type] for each permission of a role. *)
Fixpoint permission_types (l : list row) : MW (list dbval) :=
  match l with
  | [] => mret []
  | r :: l =>
      p <- one r "permission" ;; p <- of_option AttributeError p ;;
      ts <- permission_types l ;; mret (cell "permission_type" p :: ts)
  end.

Definition MissionRoleBuilder (mapped_object : option row) : MW dnode :=
  n <- create "role" "mission_cot_content" ;;
  role <- of_option AttributeError mapped_object ;;
  l <- many role "permissions" ;; ts <- permission_types l ;;
  put [] [("permissions", Ret (VList ts)); ("type", col "role_type" role)] n.

Definition MissionCoTContentBuilder (mapped_object : row) : MW dnode :=
  n <- create "MissionContent" "mission_cot_content" ;;
  cot <- GetCoT (cell "uid" mapped_object) ;;
  n <- put [] [("creatorUid", const ""); ("data", col "uid" mapped_object); ("timestamp", of_cot cot [] "time")] n ;;
  n <- put [Attr "details"] [("iconsetPath", of_cot cot ["detail"; "usericon"] "iconsetpath");
    ("type", of_cot cot [] "type"); ("callsign", of_cot cot ["detail"; "contact"] "callsign")] n ;;
  put [Attr "details"; Attr "location"]
    [("lat", of_cot cot ["point"] "lat"); ("lon", of_cot cot ["point"] "lon")] n.

Definition MissionListCoTContentBuilder (mapped_object : row) : MW dnode :=
  n <- create "MissionListCoTContent" "mission_list_cot_content" ;;
  cot <- GetCoT (cell "uid" mapped_object) ;;
  put [] [("creatorUid", const ""); ("data", col "uid" mapped_object); ("timestamp", of_cot cot [] "time")] n.

Definition MissionStandardContentBuilder (mapped_object : row) : MW dnode :=
  n <- create "MissionContent" "mission_content" ;;
  m <- GetEnterpriseSyncMetaData (cell "PrimaryKey" mapped_object) ;;
  n <- put [] [("creatorUid", of_sync m "creator_uid"); ("timestamp", time_of_sync m "start_time")] n ;;
  put [Attr "data"] (sync_data m) n.

(** The columns of external data under their names in the domain. *)
Definition external_columns (names : list string) (e : row) : list (string * outcome dval) :=
  (fun k => (k, col k e)) <$> names.

Definition MissionStandardExternalDataBuilder (mapped_object : row) : MW dnode :=
  n <- create "MissionExternalData" "mission_external_data" ;;
  put [] (external_columns ["name"; "tool"; "notes"; "uid"; "urlData"; "urlView"] mapped_object) n.

(** What every record of a change begins with. *)
Definition change_columns (c : row) : list (string * outcome dval) :=
  [("type", col "type" c); ("creatorUid", col "creator_uid" c); ("missionName", col "mission_uid" c);
   ("serverTime", get_dtg lib (cell "server_time" c)); ("timestamp", get_dtg lib (cell "timestamp" c))].

Definition is_set (k : string) (r : row) : bool := negb (bool_decide (cell k r = DNone)).

Definition external_names : list string := ["name"; "tool"; "urlData"; "urlView"; "notes"; "uid"].

(** The external data of a change, field by field. *)
Definition put_external (c : row) (n : dnode) : MW dnode :=
  e <- one c "external_data" ;; e <- of_option AttributeError e ;;
  put [Attr "externalData"] (external_columns external_names e) n.

Definition MissionContentChangeBuilder (c : row) : MW dnode :=
  n <- create "MissionChangeRecord" "mission_change_record" ;;
  n <- put [] (change_columns c ++ [("contentUid", col "content_uid" c)]) n ;;
  n <- (if is_set "external_data_uid" c then put_external c n
        else put [] [("externalData", Ret nothing)] n) ;;
  n <- (if is_set "content_resource_uid" c then
          m <- GetEnterpriseSyncMetaData (cell "content_resource_uid" c) ;;
          put [Attr "contentResource"] (sync_data m) n
        else mret n) ;;
  if is_set "cot_detail_uid" c then
    cot <- GetCoT (cell "cot_detail_uid" c) ;;
    put [Attr "details"] [("callsign", of_cot cot ["detail"; "contact"] "callsign");
      ("type", of_cot cot [] "type")] n
  else mret n.

Definition MissionSimpleCoTChangeBuilder (c : row) : MW dnode :=
  n <- create "MissionChangeRecord" "mission_simple_cot_change" ;;
  cot <- GetCoT (cell "cot_detail_uid" c) ;;
  n <- put [] [("type", const "ADD_CONTENT"); ("contentUid", of_cot cot [] "uid");
    ("missionName", col "mission_uid" c); ("serverTime", of_cot cot [] "time");
    ("timestamp", of_cot cot [] "time"); ("creatorUid", const "")] n ;;
  n <- put [Attr "details"] [("type", of_cot cot [] "type");
    ("callsign", of_cot cot ["detail"; "contact"] "callsign")] n ;;
  put [] [("contentResource", Ret nothing); ("externalData", Ret nothing)] n.

Definition MissionExternalDataChangeBuilder (c : row) : MW dnode :=
  n <- create "MissionChangeRecord" "mission_change_record" ;;
  n <- put [] (change_columns c ++ [("contentUid", col "content_uid" c); ("contentResource", Ret nothing)]) n ;;
  if is_set "external_data_uid" c then put_external c n else mret n.

Definition MissionSimpleChangeBuilder (c : row) : MW dnode :=
  n <- create "MissionChangeRecord" "mission_change_record" ;;
  put [] [("type", col "type" c); ("creatorUid", col "creator_uid" c);
    ("contentUid", col "content_uid" c); ("missionName", col "mission_uid" c);
    ("serverTime", get_dtg lib (cell "server_time" c));
    ("timestamp", get_dtg lib (cell "timestamp" c)); ("contentResource", Ret nothing)] n.

Definition MissionCoTChangeBuilder (mapped_object : row) : MW dnode :=
  n <- create "detail" "mission_cot_change" ;;
  cot <- GetCoT (cell "uid" mapped_object) ;;
  n <- put [] [("isFederatedChange", Ret (VData (DBool false))); ("creatorUid", const "");
    ("type", const "ADD_CONTENT"); ("contentUid", col "uid" mapped_object)] n ;;
  mission <- one mapped_object "mission" ;; mission <- of_option AttributeError mission ;;
  n <- put [] [("missionName", col "name" mission); ("timestamp", of_cot cot [] "time");
    ("serverTime", of_cot cot [] "time")] n ;;
  n <- put [Attr "details"] [("callsign", of_cot cot ["detail"; "contact"] "callsign");
    ("iconsetPath", of_cot cot ["detail"; "usericon"] "iconsetpath"); ("type", of_cot cot [] "type")] n ;;
  put [Attr "details"; Attr "location"]
    [("lat", of_cot cot ["point"] "lat"); ("lon", of_cot cot ["point"] "lon")] n.

(** The first change a notification is about. *)
Definition first_change : list hop :=
  [Attr "detail"; Attr "mission"; Attr "MissionChanges"; First "MissionChange"].
Definition the_mission : list hop := [Attr "detail"; Attr "mission"].

Definition MissionExternalDataNotificationBuilder (mapped_object : option row) : MW dnode :=
  n <- create "Event" "mission_external_data_notification" ;;
  uid <- db uuid4 ;;
  n <- put [] [("uid", const uid); ("type", const "t-x-m-c-e"); ("how", const "h-g-i-g-o")] n ;;
  n <- put [Attr "point"] [("lat", Ret (VData (DInt 0))); ("lon", Ret (VData (DInt 0)));
    ("ce", Ret (VData (DInt 9999999))); ("le", Ret (VData (DInt 9999999)));
    ("hae", Ret (VData (DInt 0)))] n ;;
  e <- of_option AttributeError mapped_object ;;
  n <- put the_mission [("authorUid", col "creator_uid" e); ("name", col "mission_uid" e);
    ("type", const "CHANGE"); ("tool", const "public")] n ;;
  n <- put_texts first_change [("creatorUid", col "creator_uid" e); ("contentUid", col "uid" e);
    ("isFederatedChange", const "false")] n ;;
  mission <- one e "mission" ;; mission <- of_option AttributeError mission ;;
  now <- db utcnow ;;
  n <- put_texts first_change [("missionName", col "name" mission); ("timestamp", const (dtg lib now));
    ("type", const "ADD_CONTENT")] n ;;
  put_texts (first_change ++ [Attr "externalData"])
    (external_columns ["name"; "tool"; "notes"; "urlData"; "urlView"; "uid"] e) n.

(** The subscription of an invitation, its mission and its role are read where they are
    asked for. *)
Definition MissionInvitationNotificationBuilder (mapped_object : option row) : MW dnode :=
  n <- create "Event" "mission_invitation_notification" ;;
  uid <- db uuid4 ;;
  n <- put [] [("uid", const uid); ("type", const "t-x-m-i"); ("version", const "2.0");
    ("how", const "h-g-i-g-o")] n ;;
  n <- put the_mission [("type", const "INVITE"); ("tool", const "public")] n ;;
  i <- of_option AttributeError mapped_object ;;
  subscription <- one i "subscription" ;; subscription <- of_option AttributeError subscription ;;
  mission <- one subscription "mission" ;; mission <- of_option AttributeError mission ;;
  n <- put the_mission [("name", col "name" mission); ("authorUid", col "author_uid" i);
    ("token", col "token" subscription)] n ;;
  role <- one subscription "role" ;; role <- of_option AttributeError role ;;
  put (the_mission ++ [Attr "role"]) [("type", col "role_type" role)] n.

Definition MissionPermissionBuilder (mapped_object : option row) : MW dnode :=
  n <- create "MissionPermission" "mission_permission" ;;
  p <- of_option AttributeError mapped_object ;;
  put [] [("type", col "permission_type" p)] n.

(** * Directors *)

(** [for x in l: n.name = builder(x)]. *)
Fixpoint put_each (path : list hop) (name : string) (builder : row -> MW dnode) (l : list row) (n : dnode) : MW dnode :=
  match l with
  | [] => mret n
  | r :: l => c <- builder r ;; n <- put path [(name, Ret (VNode c))] n ;; put_each path name builder l n
  end.

Definition MissionDirector (mission : option row) : MW dnode :=
  mission_list <- MissionListBuilder ;;
  n <- MissionListRecordBuilder mission ;;
  m <- of_option AttributeError mission ;;
  defaultRole <- one m "defaultRole" ;;
  role <- MissionRoleBuilder defaultRole ;;
  n <- put [] [("defaultRole", Ret (VNode role))] n ;;
  cots <- many m "cots" ;; n <- put_each [] "uids" MissionCoTContentBuilder cots n ;;
  contents <- many m "contents" ;;
  n <- put_each [] "contents" MissionStandardContentBuilder contents n ;;
  external_data <- many m "externalData" ;;
  n <- put_each [] "externalData" MissionStandardExternalDataBuilder external_data n ;;
  put [] [("data", Ret (VNode n))] mission_list.

(** A record of the list of missions. *)
Definition list_record (mission : row) : MW dnode :=
  n <- MissionListRecordBuilder (Some mission) ;;
  external_data <- many mission "externalData" ;;
  n <- put_each [] "externalData" MissionStandardExternalDataBuilder external_data n ;;
  cots <- many mission "cots" ;; n <- put_each [] "uids" MissionListCoTContentBuilder cots n ;;
  contents <- many mission "contents" ;;
  put_each [] "contents" MissionStandardContentBuilder contents n.

Definition MissionListDirector (missions : list row) : MW dnode :=
  n <- MissionListBuilder ;; put_each [] "data" list_record missions n.

Definition change_record (change : row) : MW dnode :=
  if is_set "content_resource_uid" change then MissionContentChangeBuilder change
  else if is_set "cot_detail_uid" change then MissionSimpleCoTChangeBuilder change
  else if is_set "external_data_uid" change then MissionExternalDataChangeBuilder change
  else MissionSimpleChangeBuilder change.

Definition MissionChangesDirector (mission : option row) : MW dnode :=
  n <- MissionChangeListBuilder ;;
  m <- of_option AttributeError mission ;;
  changes <- many m "changes" ;; put_each [] "data" change_record changes n.

(** The invitations are not looked at. *)
Definition MissionInvitationListDirector (mission_invitations : list (list row)) : MW dnode :=
  MissionInvitationListBuilder.

Definition MissionInvitationNotificationDirector (mission_invitation : option row) : MW dnode :=
  n <- MissionInvitationNotificationBuilder mission_invitation ;;
  i <- of_option AttributeError mission_invitation ;;
  subscription <- one i "subscription" ;; subscription <- of_option AttributeError subscription ;;
  role <- one subscription "role" ;; role <- of_option AttributeError role ;;
  permissions <- many role "permissions" ;;
  put_each (the_mission ++ [Attr "role"; Attr "permissions"]) "permission"
    (fun p => permission <- one p "permission" ;; MissionPermissionBuilder permission) permissions n.
(** * The domain controller *)

Definition create_details : MW dnode := create "details" "details".
Definition create_events : MW dnode := create "events" "events".
Definition create_mission_change_record : MW dnode := create "MissionChangeRecord" "mission_change_record".
Definition create_mission_changes : MW dnode := create "MissionChanges" "mission_changes_obj".
Definition create_mission_collection : MW dnode :=
  n <- create "MissionInfo" "mission_collection" ;;
  put [] [("version", const "3"); ("type", const "Mission"); ("nodeId", const (node_id lib))] n.
Definition create_mission_record_object : MW dnode := create "MissionData" "mission_record".
Definition create_mission_notification : MW dnode := create "Event" "new_mission_notification".
Definition create_mission_change_notification : MW dnode := create "Event" "mission_change_notification".
Definition create_mission_subscription_simple_list : MW dnode :=
  create "MissionInfo" "mission_subscription_simple_list".
Definition create_mission_subscriptions_list : MW dnode := create "MissionInfo" "mission_subscription_list".
Definition create_mission_subscription : MW dnode := create "MissionInfoSingle" "mission_subscription".
Definition create_mission_subscription_data : MW dnode :=
  create "MissionSubscription" "mission_subscription_data".
Definition create_mission_content_node : MW dnode := create "MissionContent" "mission_content".
Definition create_mission_content_data : MW dnode := create "MissionContentData" "mission_content_data".
Definition create_log_node : MW dnode := create "MissionLog" "mission_log".
Definition create_log_collection : MW dnode := create "MissionInfo" "mission_log_collection".
Definition create_external_data_collection : MW dnode := create "MissionInfoSingle" "mission_external_data".

Definition add_mission_to_collection (mission_record mission_collection : dnode) : MW dnode :=
  put [] [("data", Ret (VNode mission_record))] mission_collection.

Definition complete_mission_content_data (m : metadata) (n : dnode) : MW dnode := put [] (sync_data m) n.

Definition complete_mission_change_record (c : row) (n : dnode) : MW dnode :=
  n <- put [] (change_columns c ++ [("contentUid", col "content_uid" c)]) n ;;
  if is_set "content_resource_uid" c then
    content <- create_mission_content_data ;;
    m <- GetEnterpriseSyncMetaData (cell "content_resource_uid" c) ;;
    content <- complete_mission_content_data m content ;;
    put [] [("contentResource", Ret (VNode content))] n
  else mret n.

Definition complete_mission_change_notification (c : row) (n : dnode) : MW dnode :=
  n <- put_texts first_change [("type", col "type" c); ("creatorUid", col "creator_uid" c);
    ("missionName", col "mission_uid" c); ("timestamp", get_dtg lib (cell "timestamp" c));
    ("isFederatedChange", const "false")] n ;;
  n <- (if is_set "content_resource_uid" c then
    m <- GetEnterpriseSyncMetaData (cell "content_resource_uid" c) ;;
    put_texts (first_change ++ [Attr "contentResource"])
      [("creatorUid", of_sync m "creator_uid"); ("timestamp", time_of_sync m "start_time");
       ("uid", of_sync m "PrimaryKey"); ("hash", of_sync m "hash"); ("name", of_sync m "file_name");
       ("mimeType", of_sync m "mime_type"); ("size", of_sync m "length");
       ("expiration", of_sync m "expiration"); ("groupVector", const "0000100");
       ("submitter", of_sync m "submitter"); ("submissionTime", time_of_sync m "start_time")] n
    else mret n) ;;
  e <- one c "external_data" ;;
  match e with
  | Some e => put_texts (first_change ++ [Attr "externalData"]) (external_columns external_names e) n
  | None => mret n
  end.

Definition complete_mission_content_db (content : row) (n : dnode) : MW dnode :=
  m <- GetEnterpriseSyncMetaData (cell "PrimaryKey" content) ;;
  n <- put [] [("timestamp", time_of_sync m "start_time"); ("creatorUid", of_sync m "creator_uid")] n ;;
  put [Attr "data"] (sync_data m) n.

(** The contents of a mission, and of its children. *)
Definition completed_content (content : row) : MW dnode :=
  n <- create_mission_content_node ;; complete_mission_content_db content n.
Fixpoint put_contents_of_children (children : list row) (n : dnode) : MW dnode :=
  match children with
  | [] => mret n
  | c :: children =>
      child <- one c "child_mission" ;; child <- of_option AttributeError child ;;
      contents <- many child "contents" ;; n <- put_each [] "contents" completed_content contents n ;;
      put_contents_of_children children n
  end.

(** What is appended to [uids], which answers a list of its own, is lost. *)
Definition complete_mission_record_db (mission : option row) (n : dnode) : MW dnode :=
  m <- of_option AttributeError mission ;;
  n <- put [] [("name", col "name" m); ("description", col "description" m);
    ("chatRoom", col "chatRoom" m); ("baseLayer", col "baseLayer" m); ("bbox", col "bbox" m);
    ("path", col "path" m); ("classification", col "classification" m); ("tool", const "public");
    ("keywords", empty_list); ("creatorUid", col "creatorUid" m);
    ("createTime", get_dtg lib (cell "createTime" m)); ("groups", empty_list);
    ("feeds", empty_list); ("mapLayers", empty_list); ("inviteOnly", col "inviteOnly" m);
    ("expiration", col "expiration" m); ("uids", empty_list);
    ("passwordProtected", col "passwordProtected" m)] n ;;
  contents <- many m "contents" ;; n <- put_each [] "contents" completed_content contents n ;;
  cots <- many m "cots" ;;
  for_each cots (fun c =>
    cot <- GetCoT (cell "uid" c) ;; cot <- of_option AttributeError cot ;;
    uid <- of_outcome (read lib [] "uid" cot) ;;
    MissionCoTContentBuilder (mkRow TCoT [("uid", match uid with VData v => v | _ => DNone end)]) ;;;
    mret tt) ;;;
  children <- many m "child_missions" ;; put_contents_of_children children n.

(** The first mission of a list is what the notification is about. *)
Definition complete_mission_creation_notification (mission : outcome dnode) (n : dnode) : MW dnode :=
  m <- of_outcome mission ;;
  n <- put [] [("type", const "t-x-m-n"); ("how", const "h-g-i-g-o")] n ;;
  put the_mission [("type", const "CREATE"); ("tool", const "public");
    ("name", read lib [] "name" m); ("authorUid", read lib [] "creatorUid" m)] n.

Definition complete_mission_cot_notification (path : list hop) (cot : option dnode) (n : dnode) : MW dnode :=
  n <- put path [("callsign", of_cot cot ["detail"; "contact"] "callsign"); ("type", of_cot cot [] "type");
    ("iconsetPath", of_cot cot ["detail"; "usericon"] "iconsetpath")] n ;;
  put (path ++ [Attr "location"]) [("lat", of_cot cot ["point"] "lat"); ("lon", of_cot cot ["point"] "lon")] n.
End Builders.
