(* ===== verification/MissionSample.v ===== *)
(** A small database and a library the theorems on the missions are applied to. *)
From Stdlib Require Import ZArith Lia Ascii String.
From stdpp Require Import base strings list pretty.
From S2P Require Import Prelude.
From S2P Require Import DomainNode.
From S2P Require Import DomainClasses.
From S2P Require Import RestGeo.
From S2P Require Import MissionDb.
From S2P Require Import MissionStore.
From S2P Require Import MissionList.
From S2P Require Import MissionFacts.
From S2P Require Import MissionNodes.
From S2P Require Import MissionBuilders.

Local Open Scope string_scope.
Local Open Scope list_scope.

(** The rows of objects, in a database in which nothing is under way. *)
Definition stored (d : draft) : row := new_row 0 (fun _ => []) d.
Definition database (rs : list row) : list_db :=
  mkListDb (fun t => List.filter (fun r => bool_decide (r_table r = t)) rs) [] [] 0.
Definition state_of (rs : list row) : mission_state list_db := mkMissionState (database rs) [] None None.

Lemma database_calm rs : consistent (l_rows (database rs)) = true -> calm (database rs).
Proof. by intros Hc. Qed.

Definition mission_row (id : string) : row :=
  stored (with_cell "name" (DStr id) (with_cell "PrimaryKey" (DStr id) (new TMission))).
Definition log_row (id : string) : row :=
  stored (with_cell "created" (DTime 5) (with_cell "id" (DStr id) (new TLog))).
Definition entry_row (log mission : string) : row :=
  stored (with_cell "mission_uid" (DStr mission) (with_cell "log_id" (DStr log) (new TMissionLog))).
Definition cot_row (uid mission : string) : row :=
  stored (with_cell "mission_uid" (DStr mission) (with_cell "uid" (DStr uid) (new TCoT))).

(** A library that makes nodes of the classes of the missions, without attributes. *)
Definition mission_classes : list domain_class :=
  [missionData_class; missionInfo_class; role_class].

Definition library : mission_library := {|
  create_node class _ :=
    match List.find (fun c => bool_decide (d_name c = class)) mission_classes with
    | Some c => Ret (DNode c [] [])
    | None => Exn KeyError
    end;
  child_allowed _ _ := true;
  serialize_json n := Ret (class_name n);
  serialize_xml n := Ret (class_name n);
  node_to_xml n := Ret (class_name n);
  from_string s := Ret s;
  get_cot _ := Ret None;
  sync_metadata _ := Ret None;
  sync_metadatas _ _ := Ret [];
  sync_datas _ _ := Ret [];
  unzip _ := Exn External;
  save_sync_data _ _ := Ret tt;
  dtg := pretty;
  parse_dtg _ := Ret 0%Z;
  year_of _ := 2023%Z;
  str_of_json v := match v with JText s => s | _ => "None" end;
  json_loads s := Ret (JText s);
  json_dumps _ := Ret "[]";
  token_of _ := Ret "token";
  decode_token s := Ret (JText s);
  epoch t := t;
  clock_text _ := "";
  node_uuid := "uuid";
  node_id := "id" |}.
