(* ===== verification/MissionProps.v ===== *)
(** Properties of the persistence controller of the missions. *)
From Stdlib Require Import ZArith Lia Ascii String.
From stdpp Require Import base strings list pretty.
From S2P Require Import Prelude.
From S2P Require Import DictToNode.
From S2P Require Import RestGeo.
From S2P Require Import MissionDb.
From S2P Require Import MissionStore.
From S2P Require Import MissionList.
From S2P Require Import MissionFacts.
From S2P Require Import MissionSample.

Set Default Proof Using "All".
Local Open Scope string_scope.
Local Open Scope list_scope.
Local Open Scope py_scope.

(** * Failures *)

(** The calls that change the tables and undo their work when they fail: all but
    [create_default_permissions] and [create_mission_change]. *)
Inductive store_call :=
  | CreateDefaultRoles
  | CreateSubscription (subscription_id : dbval) (mission_id : string) (token client_uid : dbval)
      (role : option row)
  | UpdateSubscription (mission : option row) (client_uid : dbval) (role : option row)
      (token clientUid username : option dbval)
  | DeleteSubscription (mission : option row) (client_uid : dbval)
  | CreateInvitation (author_uid subscription_uid : dbval) (mission_uid : string)
  | CreateMissionItem (mission_id : string) (mission_item_id mission_item_data : dbval)
  | CreateMissionContent (mission_id : string) (id : dbval)
  | CreateMission (mission_id : string) (v : mission_values)
  | AddParentToMission (child_mission parent_mission : row)
  | RemoveParentFromMission (mission_id : string) (parent_mission : option row)
  | UpdateMission (mission_id : string) (content cot : option row)
  | CreateMissionCot (mission_id : string) (uid : dbval)
  | CreateMissionLog (id content creatorUid entryUid : dbval) (mission : option row)
      (servertime dtg created contentHashes keywords : dbval)
  | CreateLog (mission_ids : json) (v : log_values)
  | UpdateLog (id : dbval) (c : log_changes)
  | DeleteMissionLog (log_id : dbval)
  | AddExternalData (mission_id : string) (v : external_values) (id : dbval).

Section Store.
Context {S : Type} `{OrmLaws S}.
Implicit Types (s : S) (sid : string).

Definition run_call (sid : string) (c : store_call) : M S unit :=
  match c with
  | CreateDefaultRoles => create_default_roles sid
  | CreateSubscription i m t u r => create_subscription sid i m t u r ;;; mret tt
  | UpdateSubscription m u r t c n => update_subscription sid m u r t c n
  | DeleteSubscription m u => delete_subscription sid m u
  | CreateInvitation a u m => create_invitation sid a u m ;;; mret tt
  | CreateMissionItem m i d => create_mission_item sid m i d
  | CreateMissionContent m i => create_mission_content sid m i ;;; mret tt
  | CreateMission m v => create_mission sid m v ;;; mret tt
  | AddParentToMission c p => add_parent_to_mission sid c p
  | RemoveParentFromMission m p => remove_parent_from_mission sid m p
  | UpdateMission m c o => update_mission sid m c o ;;; mret tt
  | CreateMissionCot m u => create_mission_cot sid m u ;;; mret tt
  | CreateMissionLog i c u e m s d r h k => create_mission_log sid i c u e m s d r h k
  | CreateLog m v => create_log sid m v ;;; mret tt
  | UpdateLog i c => update_log sid i c ;;; mret tt
  | DeleteMissionLog i => delete_mission_log sid i
  | AddExternalData m v i => add_external_data sid m v i ;;; mret tt
  end.

Definition undoes {A} (sid : string) (m : M S A) : Prop :=
  forall s e s', m s = (Exn e, s') -> undone sid e s s'.

Lemma undoes_or_rollback {A} sid (m : M S A) : atomic sid m -> undoes sid (or_rollback sid m).
Proof. intros Hm s e s'. by apply or_rollback_exn. Qed.

Lemma undoes_then_ret {A} sid (m : M S A) : undoes sid m -> undoes sid (m ;;; mret tt).
Proof.
  intros Hm s e s' E. cbv [mbind M_bind] in E. destruct (m s) as [[a|e1] s1] eqn:E1; [done|].
  injection E as <- <-. by apply Hm.
Qed.

Lemma tentative_first sid q : tentative sid (first sid q).
Proof. unfold first. store_walk. Qed.

Lemma tentative_role_permissions sid role ps : tentative sid (role_permissions sid role ps).
Proof.
  induction ps as [|p ps IH]; simpl; store_walk. apply tentative_first.
Qed.

Lemma tentative_add_role sid role ps : tentative sid (add_role sid role ps).
Proof. unfold add_role. store_walk. apply tentative_role_permissions. Qed.

Lemma tentative_assign_if sid k v o : tentative sid (assign_if sid k v o).
Proof. unfold assign_if. store_walk. Qed.

Lemma tentative_attr sid k o : tentative sid (attr k o).
Proof. unfold attr. store_walk. Qed.

Lemma tentative_relationship sid k o : tentative sid (relationship sid k o).
Proof. unfold relationship. store_walk. Qed.

Lemma tentative_remove_from sid l o : tentative sid (remove_from l o).
Proof. unfold remove_from. store_walk. Qed.

Lemma tentative_append_to sid m o : tentative sid (append_to sid m o).
Proof. unfold append_to. store_walk. Qed.

Lemma tentative_log_missions sid log ids : tentative sid (log_missions sid log ids).
Proof.
  unfold log_missions. store_walk.
  - apply tentative_of_outcome. by destruct ids.
  - apply tentative_of_outcome. by destruct a0.
  - apply tentative_first.
Qed.

Hint Resolve tentative_first tentative_role_permissions tentative_add_role tentative_assign_if
  tentative_attr tentative_relationship tentative_remove_from tentative_append_to
  tentative_log_missions : store.

Lemma atomic_default_permission sid p : atomic sid (create_default_permission sid p).
Proof.
  unfold create_default_permission, get_permission. apply atomic_bind; [apply tentative_first|]. intros [r|].
  - apply tentative_atomic, tentative_ret.
  - intros s e s' E. apply or_rollback_exn in E; [|store_walk].
    by destruct E as (He & Ho & Hr & _).
Qed.

(** A loop that raises has gone some way. *)
Lemma for_each_exn {A} (l : list A) (f : A -> M S unit) s e s' : for_each l f s = (Exn e, s') ->
  exists l1 a l2 s1, l = l1 ++ a :: l2 /\ for_each l1 f s = (Ret tt, s1) /\ f a s1 = (Exn e, s').
Proof.
  revert s. induction l as [|a l IH]; intros s E; [done|]. cbn [for_each] in E. cbv [mbind M_bind] in E.
  destruct (f a s) as [[[]|e1] s1] eqn:E1.
  - destruct (IH s1 E) as (l1 & b & l2 & s2 & -> & E2 & E3). exists (a :: l1), b, l2, s2.
    split; [done|]. split; [|done]. cbn [for_each]. by rewrite (run_bind _ _ _ _ _ E1).
  - injection E as -> ->. by exists [], a, l, s.
Qed.

(** C12: Every call of the store of the missions that changes the tables, but two, leaves all
    tables as they were when it raises, wherever it does, nothing pending in its session
    and the session usable, and the other sessions untouched.  The two: creating the
    default permissions commits each on its own, so that when it raises the tables are
    those after the permissions before the one it raised at; and recording a change,
    which has no [rollback], leaves the tables as they were, but promises nothing of its
    session. *)
Theorem store_all_or_nothing sid s e s' :
  (forall c : store_call, run_call sid c s = (Exn e, s') ->
     is_Exception e = true /\ rows s' = rows s /\ pending s' sid = [] /\ broken s' sid = false /\
     others sid s s') /\
  (create_default_permissions sid s = (Exn e, s') ->
     is_Exception e = true /\
     exists done p rest s1, PERMISSIONS = done ++ p :: rest /\
       for_each done (create_default_permission sid) s = (Ret tt, s1) /\
       rows s' = rows s1 /\ others sid s1 s') /\
  (forall type content creator id resource cot ext,
     create_mission_change sid type content creator id resource cot ext s = (Exn e, s') ->
     is_Exception e = true /\ rows s' = rows s /\ others sid s s').
Proof.
  split; [|split].
  - intros c E. enough (undone sid e s s') as (? & ? & ? & ? & ?) by done. revert s e s' E.
    change (undoes sid (run_call sid c)).
    destruct c; simpl; try apply undoes_then_ret; apply undoes_or_rollback.
    all: try (unfold get_role, get_subscription, get_mission, get_subscription_id, get_log, delete_object; store_walk).
  - intros (l1 & p & l2 & s1 & El & E1 & E2)%for_each_exn.
    destruct (atomic_default_permission sid p _ _ _ E2) as (Ho & Hr & He). split; [done|].
    by exists l1, p, l2, s1.
  - intros type content creator id resource cot ext E.
    enough (atomic sid (create_mission_change sid type content creator id resource cot ext)) as Ha
      by (destruct (Ha _ _ _ E) as (? & ? & ?); done).
    unfold create_mission_change, MissionStore.get_mission, get_mission_content, get_mission_cot. store_walk.
Qed.

(** * Missions *)

Context `{!OrmReliable S}.

Definition mission_of (s : S) (id : string) : option row :=
  found (rows s) TMission "PrimaryKey" (lower id).

Definition storable_mission (v : mission_values) : Prop :=
  storable CString (mv_name v) = true /\ storable CString (mv_description v) = true /\
  storable CDateTime (mv_createTime v) = true /\ storable CString (mv_passwordProtected v) = true /\
  storable CString (mv_serviceUri v) = true /\ storable CString (mv_classification v) = true /\
  storable CString (mv_tool v) = true /\
  match mv_defaultRole v with Some r => storable CString (cell "role_type" r) = true | None => True end.

(** The mission [m] is the one that was asked for. *)
Definition shows_mission (id : string) (v : mission_values) (m : row) : Prop :=
  cell "PrimaryKey" m = DStr (lower id) /\
  cell "name" m = to_column CString (mv_name v) /\
  cell "description" m = to_column CString (mv_description v) /\
  cell "createTime" m = mv_createTime v /\
  cell "passwordProtected" m = to_column CString (mv_passwordProtected v) /\
  cell "serviceUri" m = to_column CString (mv_serviceUri v) /\
  cell "classification" m = to_column CString (mv_classification v) /\
  cell "tool" m = to_column CString (mv_tool v) /\
  cell "defaultRole_id" m =
    match mv_defaultRole v with Some r => to_column CString (cell "role_type" r) | None => DNone end.

(** What [create_mission] does where nothing else is under way. *)
Lemma mission_stored sid s id v : calm s -> storable_mission v ->
  match mission_of s id with
  | None => exists m s', create_mission sid id v s = (Ret m, s') /\ calm s' /\
      shows_mission id v m /\ r_table m = TMission /\
      (forall id', mission_of s' id' = if decide (lower id' = lower id) then Some m else mission_of s id') /\
      (forall t, rows s' t ≡ₚ insert_row m (rows s) t)
  | Some _ => exists e s', create_mission sid id v s = (Exn e, s') /\ undone sid e s s'
  end.
Proof.
  intros Hc Hv. assert (Hk : string_key TMission "PrimaryKey") by done. unfold create_mission.
  match goal with |- context [add_commit sid ?x] => set (d := x) end.
  pose proof (add_string sid s d "PrimaryKey" (lower id) Hc Hk eq_refl) as Hadd.
  fold (mission_of s id) in Hadd.
  destruct Hv as (? & ? & ? & ? & ? & ? & ? & ?).
  assert (Hcols : Forall (fun c => match given d c with
    | Some v => typed (c_type c) v = true /\ is_serial c = false | None => True end)
    (columns (d_table d))).
  { subst d. each_column. by destruct v as [? ? ? ? [r|] ? ? ?]; [split|]. }
  specialize (Hadd Hcols). unfold mission_of. cbn in Hadd |- *.
  destruct (found (rows s) TMission "PrimaryKey" (lower id)) as [m|]; [done|].
  destruct Hadd as (m & s' & E & Hc' & Hb & Hx & Hf & HT).
  exists m, s'. split_and!; [done..| |exact (proj1 Hb)|intros; by apply Hf|done].
  split_and!; [done|..]; try (by apply (becomes_cell _ _ _ _ _ Hb)).
  apply (becomes_cell _ _ _ _ _ Hb). cbn. by destruct (mv_defaultRole v).
Qed.

(** C10: The store keeps missions as a map from lower-case names: a mission is read back under any
    spelling of its name with the values it was created with, the others stay what they
    were, and one that exists is refused with nothing changed. *)
Theorem missions_are_a_map sid s id v : calm s -> storable_mission v ->
  (forall id', exists s', get_mission sid id' s = (Ret (mission_of s id'), s') /\ unchanged s s') /\
  match mission_of s id with
  | None => exists m s', create_mission sid id v s = (Ret m, s') /\ calm s' /\
      shows_mission id v m /\
      (forall id', mission_of s' id' = if decide (lower id' = lower id) then Some m else mission_of s id') /\
      (forall t, t <> TMission -> rows s' t ≡ₚ rows s t)
  | Some _ => exists e s', create_mission sid id v s = (Exn e, s') /\ undone sid e s s'
  end.
Proof.
  intros Hc Hv. split; [intros id'; by apply find_by_key|].
  pose proof (mission_stored sid s id v Hc Hv) as Hm. destruct (mission_of s id); [done|].
  destruct Hm as (m & s' & ? & ? & ? & Ht & ? & HT). exists m, s'. split_and!; [done..|].
  intros t Hne. apply (rows_elsewhere (rows s) _ m); [done|]. by rewrite Ht.
Qed.

(** * Subscriptions *)

Definition storable_role (role : option row) : Prop :=
  match role with Some r => storable CString (cell "role_type" r) = true | None => True end.

Definition shows_subscription (id : string) (token client : dbval) (role : option row) (r : row) : Prop :=
  r_table r = TSubscription /\ cell "mission_uid" r = DStr (lower id) /\
  cell "token" r = to_column CString token /\ cell "clientUid" r = to_column CString client /\
  cell "role_id" r = match role with Some r => to_column CString (cell "role_type" r) | None => DNone end.

Lemma subscription_stored sid s id token client role : calm s ->
  storable CString token = true -> storable CString client = true -> storable_role role ->
  exists r s', create_subscription sid DNone id token client role s = (Ret r, s') /\ calm s' /\
    shows_subscription id token client role r /\ forall t, rows s' t ≡ₚ insert_row r (rows s) t.
Proof.
  intros Hc Ht Hu Hr. unfold create_subscription. cbv zeta. cbn [db_truth].
  match goal with |- context [add_commit sid ?x] => set (d := x) end.
  destruct (add_calm sid d s Hc) as (r & s' & E & Hc' & Hb & HT).
  { split; [done|]. subst d. unfold storable_role in Hr. each_column. by destruct role; [split|]. }
  exists r, s'. split_and!; [done..| |done].
  split_and!; [apply Hb|by apply (becomes_cell _ _ _ _ _ Hb)..|].
  apply (becomes_cell _ _ _ _ _ Hb). cbn. by destruct role.
Qed.
End Store.

Lemma store_all_or_nothing_witness :
  let s := database [cot_row "c" "m"] in
  let s' := (run_call "s" (CreateMissionCot "m" (DStr "c")) s).2 in
  rows s' = rows s /\ pending s' "s" = [] /\ broken s' "s" = false.
Proof.
  intros s s'.
  destruct (proj1 (store_all_or_nothing "s" s External s') (CreateMissionCot "m" (DStr "c")))
    as (_ & H1 & H2 & H3 & _); [reflexivity|]. split; [exact H1|]. split; [exact H2|exact H3].
Defined.

Lemma missions_are_a_map_witness :
  let v := mkMissionValues (DStr "M") (DStr "") (DTime 0) (DStr "False") None (DStr "") (DStr "") (DStr "public") in
  exists m s', create_mission "s" "M" v (database []) = (Ret m, s') /\ mission_of s' "m" = Some m.
Proof.
  intros v. destruct (missions_are_a_map "s" (database []) "M" v) as [_ Hm].
  - apply database_calm. reflexivity.
  - repeat split.
  - destruct Hm as (m & s' & E & _ & _ & Hf & _). exists m, s'. split; [exact E|]. exact (Hf "m").
Defined.
