(* ===== verification/MissionRoles.v ===== *)
(** The permissions and roles the component of the missions begins with. *)
From Stdlib Require Import ZArith Lia Ascii String.
From stdpp Require Import base strings list sets pretty.
From S2P Require Import Prelude.
From S2P Require Import MissionDb.
From S2P Require Import MissionStore.
From S2P Require Import MissionList.
From S2P Require Import MissionFacts.

Set Default Proof Using "All".
Local Open Scope string_scope.
Local Open Scope list_scope.
Local Open Scope py_scope.

(** * The defaults *)

(** The object of a role, and of its permission [r]. *)
Definition role_draft (role_type : string) : draft := with_cell "role_type" (DStr role_type) (new TRole).
Definition grant (role_type : string) (r : row) : draft :=
  _initialize_role_permission (role_draft role_type) (Some r).

(** The rows of a permission and of a role, and the role and the permission a row of
    [RolePermission] joins. *)
Definition permission_row (p : string) : row := mkRow TPermission [("permission_type", DStr p)].
Definition role_row (role_type : string) : row := mkRow TRole [("role_type", DStr role_type)].
Definition grant_of (r : row) : dbval * dbval := (cell "role_uid" r, cell "permission_id" r).

(** What there is to be by default. *)
Definition default_permissions : list string :=
  ["MISSION_MANAGE_FEEDS"; "MISSION_SET_PASSWORD"; "MISSION_MANAGE_LAYERS"; "MISSION_WRITE";
   "MISSION_UPDATE_GROUPS"; "MISSION_DELETE"; "MISSION_SET_ROLE"; "MISSION_READ"].
Definition default_grants : list (dbval * dbval) :=
  [(DStr "MISSION_OWNER", DStr "MISSION_SET_PASSWORD"); (DStr "MISSION_OWNER", DStr "MISSION_MANAGE_LAYERS");
   (DStr "MISSION_OWNER", DStr "MISSION_WRITE"); (DStr "MISSION_OWNER", DStr "MISSION_UPDATE_GROUPS");
   (DStr "MISSION_OWNER", DStr "MISSION_DELETE"); (DStr "MISSION_OWNER", DStr "MISSION_SET_ROLE");
   (DStr "MISSION_OWNER", DStr "MISSION_READ");
   (DStr "MISSION_SUBSCRIBER", DStr "MISSION_WRITE"); (DStr "MISSION_SUBSCRIBER", DStr "MISSION_READ")].

Definition permission_in (T : tables) (p : string) : option row :=
  found T TPermission "permission_type" p.
Definition role_in (T : tables) (role_type : string) : option row := found T TRole "role_type" role_type.

Lemma grant_insertable T role_type r p :
  cell "permission_type" r = DStr p -> insertable T (grant role_type r).
Proof.
  intros Hp. split; [done|]. each_column. by rewrite Hp.
Qed.

(** A row of one column. *)
Lemma becomes_one T d r k v : becomes T d r -> column_names (d_table d) = [k] -> cell k r = v ->
  r = mkRow (d_table d) [(k, v)].
Proof.
  intros (Ht & Hk & _) E Hv. rewrite E in Hk. destruct r as [t cs]. simpl in *. subst t. f_equal.
  destruct cs as [|[k' v'] [|]]; try done. injection Hk as ->. unfold cell in Hv. simpl in Hv.
  rewrite decide_True in Hv by done. by subst v.
Qed.

(** The rows of a role and its permissions. *)
Definition role_rows (role_type : string) (ps : list row) (rs : list row) : Prop :=
  exists rs', rs = role_row role_type :: rs' /\ Forall (fun r => r_table r = TRolePermission) rs' /\
    grant_of <$> rs' = (fun p => (DStr role_type, cell "permission_type" p)) <$> ps.

Lemma become_role role_type ps rs :
  (forall r, r ∈ ps -> exists p, cell "permission_type" r = DStr p) ->
  become (role_draft role_type :: (grant role_type <$> ps)) rs -> role_rows role_type ps rs.
Proof.
  intros Hps Hb. inversion Hb as [|? r ? rs' (T & Hr) Hrest]; subst. exists rs'. split; [f_equal|].
  { apply (becomes_one T (role_draft role_type)); [done..|]. by apply (becomes_cell T _ _ _ _ Hr). }
  clear Hb. apply Forall2_fmap_l in Hrest. induction Hrest as [|p r' ps rs' (T' & Hr') Hrest IH].
  { split; constructor. }
  destruct IH as [IH1 IH2]; [intros r1 Hr1; apply Hps; by right|].
  split; [constructor; [by apply Hr'|done]|]. rewrite !fmap_cons, IH2. f_equal.
  destruct (Hps p ltac:(left)) as [x Hx]. unfold grant_of. f_equal.
  - by apply (becomes_cell T' _ _ _ _ Hr').
  - pose proof (becomes_cell T' _ _ "permission_id" _ Hr' eq_refl) as E. cbn in E. by rewrite E, Hx.
Qed.

Lemma role_rows_tables role_type ps rs t : role_rows role_type ps rs ->
  of_table t rs = match t with TRole => [role_row role_type] | TRolePermission => tail rs | _ => [] end.
Proof.
  intros (rs' & -> & Ht & _). unfold of_table. cbn [List.filter role_row r_table tail].
  assert (E : List.filter (fun r => bool_decide (r_table r = t)) rs' =
              if decide (t = TRolePermission) then rs' else []).
  { induction Ht as [|r rs' Hr _ IH]; [by case_decide|]. cbn [List.filter]. rewrite IH, Hr.
    case_decide as E; [subst; by rewrite bool_decide_eq_true_2|].
    by rewrite bool_decide_eq_false_2 by congruence. }
  rewrite E. by destruct t.
Qed.

Section Defaults.
Context {S : Type} `{OrmLaws S} `{!OrmReliable S}.
Implicit Types (s : S) (sid : string).

Lemma permission_key : string_key TPermission "permission_type".
Proof. done. Qed.
Lemma role_key : string_key TRole "role_type".
Proof. done. Qed.

Lemma role_insertable s role_type : sane s -> role_in (rows s) role_type = None ->
  insertable (rows s) (role_draft role_type).
Proof.
  intros Hs Hn. split; [|by each_column].
  intros k [= <-]. split; [by intros ?%list_elem_of_singleton|]. intros r Hr. rewrite (row_key_string s TRole "role_type") by done. intros [= Hx].
  by apply (proj1 (found_None s TRole "role_type" role_type Hs role_key) Hn) in Hr.
Qed.

(** Permissions that are found. *)
Definition permissions_at (s : S) (ps : list string) (rs : list row) : Prop :=
  Forall2 (fun p r => permission_in (rows s) p = Some r) ps rs.

Lemma permission_type_at s p r : sane s -> permission_in (rows s) p = Some r ->
  cell "permission_type" r = DStr p.
Proof. by intros Hs [_ E]%(found_Some s _ _ _ _ Hs permission_key). Qed.

Lemma permissions_types s ps rs : sane s -> permissions_at s ps rs ->
  cell "permission_type" <$> rs = DStr <$> ps.
Proof.
  intros Hs. induction 1 as [|p r ps rs Hp _ IH]; [done|].
  by rewrite !fmap_cons, IH, (permission_type_at s p r).
Qed.

Lemma granted_pairs s role_type ps rs : sane s -> permissions_at s ps rs ->
  (fun p => (DStr role_type, cell "permission_type" p)) <$> rs = (fun p => (DStr role_type, DStr p)) <$> ps.
Proof.
  intros Hs Hp. pose proof (permissions_types s ps rs Hs Hp) as E.
  apply (f_equal (fmap (pair (DStr role_type)))) in E. by rewrite <- !list_fmap_compose in E.
Qed.

Lemma role_permissions_at sid ds role_type ps rs s : adding sid ds s -> insertable_list (rows s) ds ->
  (forall d, d ∈ ds -> d_table d <> TPermission) -> permissions_at s ps rs ->
  exists s', role_permissions sid (role_draft role_type) ps s = (Ret (grant role_type <$> rs), s') /\ unchanged s s'.
Proof.
  intros Ha Hi Hne Hp. revert s Ha Hi Hp. revert rs.
  induction ps as [|p ps IH]; intros rs s Ha Hi Hp; inversion Hp as [|? r ? rs' Hr Hrest]; subst.
  - by exists s.
  - destruct (find_adding sid ds TPermission "permission_type" p s Ha Hi permission_key Hne) as (s1 & E1 & Hu1).
    assert (Hr1 : rows s1 = rows s) by apply Hu1.
    destruct (IH rs' s1) as (s2 & E2 & Hu2); [by eapply adding_unchanged|by rewrite Hr1|
      by unfold permissions_at; rewrite Hr1|].
    exists s2. split; [|by etransitivity]. cbn [role_permissions].
    unfold get_permission. rewrite (run_bind _ _ _ _ _ E1), (run_bind _ _ _ _ _ E2).
    fold (permission_in (rows s) p). by rewrite Hr.
Qed.

Lemma add_role_at sid ds role_type ps rs s : adding sid ds s -> insertable_list (rows s) ds ->
  (forall d, d ∈ ds -> d_table d <> TPermission) -> permissions_at s ps rs ->
  exists s', add_role sid role_type ps s = (Ret tt, s') /\
    adding sid (ds ++ role_draft role_type :: (grant role_type <$> rs)) s' /\
    rows s' = rows s /\ others sid s s'.
Proof.
  intros Ha Hi Hne Hp. destruct (role_permissions_at sid ds role_type ps rs s Ha Hi Hne Hp) as (s1 & E1 & Hu1).
  destruct (add_adding sid ds (role_draft role_type) s1) as (s2 & E2 & Ha2 & Hr2 & Ho2);
    [by eapply adding_unchanged|].
  destruct (add_list_adding sid _ (grant role_type <$> rs) s2 Ha2) as (s3 & E3 & Ha3 & Hr3 & Ho3).
  exists s3. unfold add_role. fold (role_draft role_type).
  rewrite (run_bind _ _ _ _ _ E1), (run_bind _ _ _ _ _ E2). split_and!; [done| | |].
  - by rewrite <- app_assoc in Ha3.
  - rewrite Hr3, Hr2. apply Hu1.
  - etransitivity; [by apply unchanged_others|]. by etransitivity.
Qed.

(** A permission is inserted unless it is there. *)
Definition missing (T : tables) (p : string) : bool :=
  match permission_in T p with None => true | Some _ => false end.

Lemma missing_ext (T T' : tables) ps : (forall p, p ∈ ps -> permission_in T' p = permission_in T p) ->
  List.filter (missing T') ps = List.filter (missing T) ps.
Proof.
  intros HT. apply filter_ext_in. intros p Hp%list_elem_of_In. unfold missing. by rewrite HT.
Qed.

Lemma create_permissions_calm sid ps s : calm s -> NoDup ps ->
  exists s', for_each ps (create_default_permission sid) s = (Ret tt, s') /\ calm s' /\
    (forall p, p ∈ ps -> is_Some (permission_in (rows s') p)) /\
    rows s' TPermission ≡ₚ rows s TPermission ++ (permission_row <$> List.filter (missing (rows s)) ps) /\
    (forall t, t <> TPermission -> rows s' t ≡ₚ rows s t) /\
    ((forall p, p ∈ ps -> is_Some (permission_in (rows s) p)) -> rows s' = rows s).
Proof.
  intros Hc Hnd. revert s Hc. induction Hnd as [|p ps Hnin Hnd IH]; intros s Hc.
  { exists s. rewrite app_nil_r. split_and!; try done. intros p Hp. by apply not_elem_of_nil in Hp. }
  destruct (find_by_key sid s TPermission "permission_type" p Hc permission_key) as (s1 & E1 & Hu1).
  assert (Hc1 : calm s1) by (by eapply calm_unchanged).
  assert (Hr1 : rows s1 = rows s) by apply Hu1.
  cbn [for_each].
  set (d := with_cell "permission_type" (DStr p) (new TPermission)).
  pose proof (add_string sid s1 d "permission_type" p Hc1 permission_key eq_refl) as Hadd.
  specialize (Hadd ltac:(subst d; each_column)). cbn [d_table d with_cell new] in Hadd.
  rewrite Hr1 in Hadd. fold (permission_in (rows s) p) in *.
  cbn [List.filter]. unfold missing at 1. destruct (permission_in (rows s) p) as [r|] eqn:Ep.
  - destruct (IH s1 Hc1) as (s2 & E2 & Hc2 & F2 & FP & F3 & F4). rewrite Hr1 in *. exists s2.
    rewrite (run_bind _ _ s tt s1)
      by (unfold create_default_permission, get_permission; by rewrite (run_bind _ _ _ _ _ E1)).
    split_and!; [done..| |done|done|].
    + intros p' [->|Hp']%elem_of_cons; [|auto]. exists r. apply found_Some in Ep as [Hr Hx]; [|apply Hc|done].
      apply found_Some; [apply Hc2|done|]. split; [|done]. rewrite FP. set_solver.
    + intros Hall. apply F4. intros p' Hp'. apply Hall. by right.
  - destruct Hadd as (r & s2 & E2 & Hc2 & Hb & Hx & Hf & HT).
    destruct (IH s2 Hc2) as (s3 & E3 & Hc3 & F2 & FP & F3 & F4). exists s3.
    assert (E2' : or_rollback sid (add sid d ;;; commit sid ;;; mret tt) s1 = (Ret tt, s2)).
    { apply or_rollback_ret. apply or_rollback_inv in E2. unfold add_commit in E2.
      apply bind_inv in E2 as ([] & s4 & E4 & E5). rewrite (run_bind _ _ _ _ _ E4).
      apply bind_inv in E5 as (l & s5 & E5 & E6). rewrite (run_bind _ _ _ _ _ E5).
      destruct (last l); [|done]. by injection E6 as _ <-. }
    rewrite (run_bind _ _ s tt s2)
      by (unfold create_default_permission, get_permission; by rewrite (run_bind _ _ _ _ _ E1)).
    assert (HP : rows s3 TPermission ≡ₚ rows s TPermission ++
      (permission_row <$> p :: List.filter (missing (rows s)) ps)).
    { rewrite FP, (HT TPermission), (missing_ext (rows s) (rows s2)).
      - unfold insert_row. rewrite (proj1 Hb), decide_True by done.
        rewrite (becomes_one _ _ _ "permission_type" (DStr p) Hb) by done. by rewrite <- app_assoc.
      - intros p' Hp'. unfold permission_in. rewrite Hf, decide_False; [done|]. by intros ->. }
    split_and!; [done..| |done| |].
    + intros p' [->|Hp']%elem_of_cons; [|auto]. exists (permission_row p).
      apply found_Some; [apply Hc3|done|]. split; [|done]. rewrite HP. set_solver.
    + intros t Ht. rewrite (F3 t Ht), (rows_elsewhere (rows s) _ r); [done..|].
      by rewrite (proj1 Hb).
    + intros Hall. destruct (Hall p ltac:(left)) as [? ?]. congruence.
Qed.

Lemma permissions_at_exist s ps : (forall p, p ∈ ps -> is_Some (permission_in (rows s) p)) ->
  exists rs, permissions_at s ps rs.
Proof.
  induction ps as [|p ps IH]; intros Hp; [exists []; constructor|].
  destruct (Hp p ltac:(left)) as [r Hr]. destruct IH as [rs Hrs]; [intros; apply Hp; by right|].
  exists (r :: rs). by constructor.
Qed.

Lemma grants_keyless role_type rs :
  omap (fun d => pair (d_table d) <$> draft_key d) (grant role_type <$> rs) = [].
Proof. by induction rs. Qed.

Lemma role_list_insertable s role_type rs : sane s -> role_in (rows s) role_type = None ->
  (forall r, r ∈ rs -> exists p, cell "permission_type" r = DStr p) ->
  Forall (insertable (rows s)) (role_draft role_type :: (grant role_type <$> rs)).
Proof.
  intros Hs Hn Hrs. constructor; [by apply role_insertable|]. apply Forall_forall.
  intros d (r & -> & Hr)%list_elem_of_fmap. destruct (Hrs r Hr) as [p Hp]. by apply (grant_insertable _ _ _ p).
Qed.

Lemma permissions_at_types s ps rs : sane s -> permissions_at s ps rs ->
  forall r, r ∈ rs -> exists p, cell "permission_type" r = DStr p.
Proof.
  intros Hs Hp r Hr. apply list_elem_of_lookup in Hr as [i Hi].
  destruct (Forall2_lookup_r _ _ _ _ _ Hp Hi) as (p & _ & E). exists p. by apply (permission_type_at s).
Qed.

Lemma other_role_missing s role_type role_type' ps rs o : sane s -> role_type' <> role_type ->
  role_in (rows s) role_type' = None -> role_rows role_type ps rs ->
  one_of o (selected (filter_by TRole [("role_type", DStr role_type')]) (with_inserted (rows s) rs)) ->
  o = None.
Proof.
  intros Hs Hne Hn Hrs Ho. destruct o as [r|]; [|done]. simpl in Ho.
  apply elem_of_filter_by in Ho as [Hr Hx].
  specialize (Hx "role_type" (DStr role_type') ltac:(left)). exfalso.
  unfold with_inserted in Hr. apply elem_of_app in Hr as [Hr|Hr].
  - apply (string_eqb s TRole) in Hx; [|done..].
    by apply (proj1 (found_None s TRole _ _ Hs role_key) Hn) in Hr.
  - rewrite (role_rows_tables _ _ _ _ Hrs) in Hr. apply list_elem_of_singleton in Hr as ->.
    apply bool_decide_eq_true in Hx. injection Hx as Hx. congruence.
Qed.

Lemma create_roles_calm sid s ps1 ps2 : calm s ->
  permissions_at s owner_permissions ps1 -> permissions_at s subscriber_permissions ps2 ->
  role_in (rows s) "MISSION_OWNER" = None -> role_in (rows s) "MISSION_SUBSCRIBER" = None ->
  exists s', create_default_roles sid s = (Ret tt, s') /\ calm s' /\
    rows s' TRole ≡ₚ rows s TRole ++ [role_row "MISSION_OWNER"; role_row "MISSION_SUBSCRIBER"] /\
    (exists gs, rows s' TRolePermission ≡ₚ rows s TRolePermission ++ gs /\ grant_of <$> gs = default_grants) /\
    (forall t, t <> TRole -> t <> TRolePermission -> rows s' t ≡ₚ rows s t).
Proof.
  intros Hc Hp1 Hp2 Hn1 Hn2. pose proof (proj1 Hc) as Hs.
  pose proof (permissions_at_types _ _ _ Hs Hp1) as Ht1.
  pose proof (permissions_at_types _ _ _ Hs Hp2) as Ht2.
  destruct (find_by_key sid s TRole "role_type" "MISSION_OWNER" Hc role_key) as (s1 & E1 & Hu1).
  assert (Hr1 : rows s1 = rows s) by apply Hu1.
  destruct (add_role_at sid [] "MISSION_OWNER" owner_permissions ps1 s1) as (s2 & E2 & Ha2 & Hr2 & Ho2);
    [by apply calm_adding, (calm_unchanged s)|by repeat constructor|by intros d Hd%not_elem_of_nil|
     by unfold permissions_at; rewrite Hr1|].
  simpl app in Ha2. set (ds1 := role_draft "MISSION_OWNER" :: (grant "MISSION_OWNER" <$> ps1)) in *.
  assert (Hrs2 : rows s2 = rows s) by congruence.
  assert (Hi2 : insertable_list (rows s2) ds1).
  { rewrite Hrs2. split; [by apply role_list_insertable|]. simpl. rewrite grants_keyless.
    apply NoDup_singleton. }
  assert (Hnp : forall d, d ∈ ds1 -> d_table d <> TPermission).
  { intros d [->|(r & -> & _)%list_elem_of_fmap]%elem_of_cons; done. }
  destruct (first_adding sid ds1 (filter_by TRole [("role_type", DStr "MISSION_SUBSCRIBER")]) s2 Ha2 Hi2)
    as (o & s3 & E3 & Hu3 & rs0 & Hb0 & Ho); [done|].
  rewrite Hrs2 in Ho. assert (o = None) as ->.
  { by apply (other_role_missing s "MISSION_OWNER" "MISSION_SUBSCRIBER" ps1 rs0); [..|apply become_role|]. }
  assert (Hrs3 : rows s3 = rows s) by (rewrite <- Hrs2; apply Hu3).
  destruct (add_role_at sid ds1 "MISSION_SUBSCRIBER" subscriber_permissions ps2 s3)
    as (s4 & E4 & Ha4 & Hr4 & Ho4);
    [by eapply adding_unchanged|by rewrite Hrs3, <- Hrs2|done|by unfold permissions_at; rewrite Hrs3|].
  set (ds2 := role_draft "MISSION_SUBSCRIBER" :: (grant "MISSION_SUBSCRIBER" <$> ps2)) in *.
  destruct (commit_adding_calm sid (ds1 ++ ds2) s s4 Hc) as (rs & s5 & E5 & Hc5 & Hb5 & HT5).
  { etransitivity; [by apply unchanged_others, Hu1|]. etransitivity; [exact Ho2|].
    etransitivity; [by apply unchanged_others, Hu3|exact Ho4]. }
  { done. }
  { rewrite Hr4, Hrs3. split.
    - apply Forall_app. split; by apply role_list_insertable.
    - rewrite omap_app. simpl. rewrite !grants_keyless. apply NoDup_cons.
      split; [|apply NoDup_singleton]. by intros Hx%list_elem_of_singleton. }
  rewrite Hr4, Hrs3 in HT5.
  apply Forall2_app_inv_l in Hb5 as (rs1 & rs2 & Hb1 & Hb2 & ->).
  apply (become_role _ _ _ Ht1) in Hb1. apply (become_role _ _ _ Ht2) in Hb2.
  assert (Hot : forall t, of_table t (rs1 ++ rs2) = of_table t rs1 ++ of_table t rs2)
    by (intros t; apply List.filter_app).
  exists s5. split_and!.
  - apply or_rollback_ret. unfold get_role. rewrite (run_bind _ _ _ _ _ E1).
    fold (role_in (rows s) "MISSION_OWNER"). rewrite Hn1.
    rewrite (run_bind _ _ _ _ _ E2), (run_bind _ _ _ _ _ E3), (run_bind _ _ _ _ _ E4).
    by rewrite (run_bind _ _ _ _ _ E5).
  - done.
  - rewrite (HT5 TRole). unfold with_inserted. rewrite Hot.
    by rewrite (role_rows_tables _ _ _ _ Hb1), (role_rows_tables _ _ _ _ Hb2).
  - exists (tail rs1 ++ tail rs2). rewrite (HT5 TRolePermission). unfold with_inserted.
    rewrite Hot, (role_rows_tables _ _ _ _ Hb1), (role_rows_tables _ _ _ _ Hb2). split; [done|].
    destruct Hb1 as (gs1 & -> & _ & Hg1), Hb2 as (gs2 & -> & _ & Hg2). simpl tail.
    by rewrite fmap_app, Hg1, Hg2, (granted_pairs s _ _ _ Hs Hp1), (granted_pairs s _ _ _ Hs Hp2).
  - intros t Hne1 Hne2. rewrite (HT5 t). unfold with_inserted.
    rewrite Hot, (role_rows_tables _ _ _ _ Hb1), (role_rows_tables _ _ _ _ Hb2).
    by destruct t; rewrite ?app_nil_r.
Qed.

(** C18: In a database without the roles of owner and subscriber the default permissions and
    roles are created: to the permissions are added exactly those of the eight that are
    missing, to the roles exactly the owner and the subscriber, to what roles permit
    exactly the seven permissions of the owner and the two of the subscriber; no other row
    is added, changed or removed in any table, and creating them again changes nothing. *)
Theorem defaults_are_created sid s : calm s ->
  role_in (rows s) "MISSION_OWNER" = None -> role_in (rows s) "MISSION_SUBSCRIBER" = None ->
  exists s', (create_default_permissions sid ;;; create_default_roles sid) s = (Ret tt, s') /\ calm s' /\
    rows s' TPermission ≡ₚ
      rows s TPermission ++ (permission_row <$> List.filter (missing (rows s)) default_permissions) /\
    rows s' TRole ≡ₚ rows s TRole ++ [role_row "MISSION_OWNER"; role_row "MISSION_SUBSCRIBER"] /\
    (exists gs, rows s' TRolePermission ≡ₚ rows s TRolePermission ++ gs /\ grant_of <$> gs = default_grants) /\
    (forall t, t ∉ [TPermission; TRole; TRolePermission] -> rows s' t ≡ₚ rows s t) /\
    exists s'', (create_default_permissions sid ;;; create_default_roles sid) s' = (Ret tt, s'') /\
      rows s'' = rows s' /\ calm s''.
Proof.
  intros Hc Hn1 Hn2. assert (Hnd : NoDup PERMISSIONS) by by apply (bool_decide_unpack _).
  destruct (create_permissions_calm sid PERMISSIONS s Hc Hnd) as (s1 & E1 & Hc1 & Hall & HP & Hrest & _).
  destruct (permissions_at_exist s1 owner_permissions) as [ps1 Hp1].
  { intros p Hp. apply Hall. revert p Hp. apply Forall_forall, (bool_decide_unpack _). by vm_compute. }
  destruct (permissions_at_exist s1 subscriber_permissions) as [ps2 Hp2].
  { intros p Hp. apply Hall. revert p Hp. apply Forall_forall, (bool_decide_unpack _). by vm_compute. }
  assert (Hno : forall rt, role_in (rows s) rt = None -> role_in (rows s1) rt = None).
  { intros rt Hn. apply found_None; [apply Hc1|done|]. intros r. rewrite (Hrest TRole) by done.
    by apply found_None; [apply Hc|..]. }
  destruct (create_roles_calm sid s1 ps1 ps2 Hc1 Hp1 Hp2 (Hno _ Hn1) (Hno _ Hn2))
    as (s2 & E2 & Hc2 & HR & (gs & HG & Hgs) & Hsame).
  assert (Hall2 : forall p, p ∈ PERMISSIONS -> is_Some (permission_in (rows s2) p)).
  { intros p Hp. destruct (Hall p Hp) as [x Hx]. exists x. apply (found_Some s1) in Hx as [Hx1 Hx2];
      [|apply Hc1|done]. apply found_Some; [apply Hc2|done|]. by rewrite (Hsame TPermission). }
  assert (Hr : role_in (rows s2) "MISSION_OWNER" = Some (role_row "MISSION_OWNER")).
  { apply found_Some; [apply Hc2|done|]. split; [|done]. rewrite HR. set_solver. }
  exists s2. split_and!; [by rewrite (run_bind _ _ _ _ _ E1)|done| | | | |].
  - by rewrite (Hsame TPermission), HP.
  - by rewrite HR, (Hrest TRole).
  - exists gs. by rewrite HG, (Hrest TRolePermission).
  - intros t Ht. rewrite (Hsame t), (Hrest t); [done|set_solver..].
  - destruct (create_permissions_calm sid PERMISSIONS s2 Hc2 Hnd) as (s3 & E3 & Hc3 & _ & _ & _ & Hid).
    specialize (Hid Hall2).
    destruct (find_by_key sid s3 TRole "role_type" "MISSION_OWNER" Hc3 role_key) as (s4 & E4 & Hu4).
    rewrite Hid in E4. fold (role_in (rows s2) "MISSION_OWNER") in E4. rewrite Hr in E4.
    exists s4. split_and!; [|rewrite <- Hid; apply Hu4|by eapply calm_unchanged].
    unfold create_default_permissions. rewrite (run_bind _ _ _ _ _ E3). apply or_rollback_ret. unfold get_role.
    by rewrite (run_bind _ _ _ _ _ E4).
Qed.
End Defaults.

Lemma defaults_are_created_witness :
  exists s', (create_default_permissions "s" ;;; create_default_roles "s") (mkListDb (fun _ => []) [] [] 0) = (Ret tt, s') /\
    rows s' TRole ≡ₚ [role_row "MISSION_OWNER"; role_row "MISSION_SUBSCRIBER"].
Proof.
  destruct (defaults_are_created "s" (mkListDb (fun _ => []) [] [] 0)) as (s' & E & _ & _ & HR & _).
  - split; [reflexivity|]. intros sid. split; reflexivity.
  - reflexivity.
  - reflexivity.
  - exists s'. split; [exact E|exact HR].
Defined.
