(* ===== verification/MissionControllers.v ===== *)
(** The controllers of the missions and their facade
    ([components/extended/mission/controllers], [mission_facade.py]).  Each controller has a
    persistence controller of its own, and so a session of its own. *)
From Stdlib Require Import ZArith Lia Ascii String.
From stdpp Require Import base strings list pretty.
From S2P Require Import Prelude.
From S2P Require Import RestGeo.
From S2P Require Import MissionDb.
From S2P Require Import MissionStore.
From S2P Require Import MissionNodes.
From S2P Require Import MissionBuilders.

Set Default Proof Using "Type".
Local Open Scope string_scope.
Local Open Scope list_scope.
Local Open Scope py_scope.

Section Controllers.
Context {S : Type} `{Orm S} (lib : mission_library).

Abbreviation MW := (M (mission_state S)).

(** [self.response.set_value(k, v)], [set_action] and [set_context]. *)
Definition respond (k : string) (v : answer) : MW unit :=
  modify (fun w => mkMissionState (ms_db w) (dset k v (ms_response w)) (ms_context w) (ms_action w)).
Definition set_action (a : string) : MW unit :=
  modify (fun w => mkMissionState (ms_db w) (ms_response w) (ms_context w) (Some a)).
Definition set_context (c : string) : MW unit :=
  modify (fun w => mkMissionState (ms_db w) (ms_response w) (Some c) (ms_action w)).

(** [serialize_to_json], and the answer that holds it. *)
Definition serialize_to_json (n : dnode) : MW string := of_outcome (serialize_json lib n).
Definition answer_json (k : string) (n : dnode) : MW string :=
  s <- serialize_to_json n ;; respond k (AText s) ;;; mret s.
Definition serialize_to_xml (n : dnode) : MW string := of_outcome (serialize_xml lib n).

(** [version], [type] and [nodeId] of a collection. *)
Definition put_collection (type : string) (n : dnode) : MW dnode :=
  put lib [] [("version", const "3"); ("type", const type); ("nodeId", const (node_id lib))] n.

(** * Tokens *)

Definition get_token (mission_object : row) : MW string :=
  uid <- db uuid4 ;; now <- db utcnow ;;
  token <- of_outcome (token_of lib
    [("jti", DStr uid); ("iat", DInt (epoch lib now)); ("sub", DStr "SUBSCRIPTION"); ("iss", DStr "");
     ("SUBSCRIPTION", DStr uid); ("MISSION_NAME", cell "name" mission_object)]) ;;
  respond "token" (AText token) ;;; mret token.

Definition load_token (token_string : string) : MW json :=
  token <- of_outcome (decode_token lib token_string) ;;
  respond "token" (AJson token) ;;; mret token.

(** * Changes *)

Definition create_mission_record (sid mission_uid : string) (creator_uid : dbval) : MW unit :=
  db (create_mission_change sid (DStr "CREATE_MISSION") DNone creator_uid mission_uid DNone DNone DNone) ;;;
  mret tt.

Definition create_mission_content_upload_record (sid mission_uid : string) (creator_uid content_uid : dbval) : MW unit :=
  db (create_mission_change sid (DStr "ADD_CONTENT") DNone creator_uid mission_uid content_uid DNone DNone) ;;;
  mret tt.

Definition create_mission_simple_content_upload_record (sid mission_uid : string) (creator_uid content : dbval) : MW unit :=
  db (create_mission_change sid (DStr "ADD_CONTENT") content creator_uid mission_uid DNone DNone DNone) ;;;
  mret tt.

Definition create_mission_cot_record (sid mission_cot_uid : string) (creator_uid cot_uid : dbval) : MW unit :=
  db (create_mission_change sid (DStr "ADD_CONTENT") DNone creator_uid mission_cot_uid DNone cot_uid DNone) ;;;
  mret tt.

Definition create_mission_external_data_record (sid mission_uid : string) (creator_uid external_data_uid : dbval) : MW unit :=
  db (create_mission_change sid (DStr "ADD_CONTENT") DNone creator_uid mission_uid DNone DNone external_data_uid) ;;;
  mret tt.

(** The collection that is made first is dropped. *)
Definition get_mission_changes (sid mission_id : string) : MW string :=
  n <- create_mission_collection lib ;; put_collection "MissionChange" n ;;;
  mission <- db (MissionStore.get_mission sid mission_id) ;;
  n <- MissionChangesDirector lib sid mission ;;
  answer_json "mission_changes" n.

(** * Missions *)

(** [str(d.get(k))], and [str(d.get(k, default))]. *)
Definition field_text (k : string) (d : json) : outcome string :=
  match get_or d k JNull with Ret v => Ret (str_of_json lib v) | Exn e => Exn e end.
Definition field_text_or (k : string) (default : string) (d : json) : outcome string :=
  match get_or d k (JText default) with Ret v => Ret (str_of_json lib v) | Exn e => Exn e end.

Definition requested_role (data : json) : MW dbval :=
  v <- of_outcome (get_or data "defaultRole" JNull) ;;
  match v with
  | JDict _ => t <- of_outcome (json_item v "type") ;; mret (db_of_json t)
  | v => mret (db_of_json v)
  end.

(** Clients that know no time send the first year. *)
Definition requested_time (data : json) : MW Z :=
  v <- of_outcome (get_or data "createTime" JNull) ;;
  match v with
  | JNull => db utcnow
  | v =>
      t <- of_outcome (parse_dtg lib (JText (str_of_json lib v))) ;;
      if Z.eqb (year_of lib t) 1 then db utcnow
      else of_outcome (parse_dtg lib (JText (str_of_json lib v)))
  end.

Definition put_mission (mission_id mission_data : string) (mission_data_args : list (string * json))
    (creatorUid : dbval) : MW unit :=
  data <- (if bool_decide (mission_data = "") then mret (JDict mission_data_args)
           else of_outcome (json_loads lib mission_data)) ;;
  role_type <- requested_role data ;;
  default_mission_role <- db (get_role "general" role_type) ;;
  create_time <- requested_time data ;;
  tool <- of_outcome (field_text_or "tool" "public" data) ;;
  description <- of_outcome (field_text "description" data) ;;
  passwordProtected <- of_outcome (field_text_or "passwordProtected" "False" data) ;;
  serviceUri <- of_outcome (field_text "serviceUri" data) ;;
  classification <- of_outcome (field_text "classification" data) ;;
  mission <- db (create_mission "general" mission_id
    (mkMissionValues (DStr mission_id) (DStr description) (DTime create_time)
      (DStr passwordProtected) default_mission_role (DStr serviceUri) (DStr classification)
      (DStr tool))) ;;
  token <- get_token mission ;;
  owner <- db (get_role "general" (DStr "MISSION_OWNER")) ;;
  db (create_subscription "general" DNone mission_id (DStr token) creatorUid owner) ;;;
  mission_obj <- MissionDirector lib "general" (Some mission) ;;
  notification <- create_mission_notification lib ;;
  notification <- complete_mission_creation_notification lib (first_of lib "data" mission_obj) notification ;;
  answer_json "mission_subscription" mission_obj ;;;
  message <- serialize_to_xml notification ;;
  respond "message" (AText message) ;;;
  create_mission_record "general/change" mission_id creatorUid.

Definition create_new_mission_notification (mission_id : string) (creator_uid : dbval) : MW dnode :=
  n <- create lib "Event" "new_mission_notification" ;;
  n <- put lib [] [("type", const "t-x-m-n"); ("how", const "h-g-i-g-o")] n ;;
  put lib the_mission [("type", const "CREATE"); ("tool", const "public"); ("name", const mission_id);
    ("authorUid", Ret (VData creator_uid))] n.

(** The log of the persistence controller for a mission. *)
Definition create_mission_log (id content creator_uid entry_uid : dbval) (mission_id : string)
    (servertime dtg created content_hashes keywords : dbval) : MW unit :=
  mission <- db (MissionStore.get_mission "general" mission_id) ;;
  db (MissionStore.create_mission_log "general" id content creator_uid entry_uid mission servertime dtg
        created content_hashes keywords).

(** What is in a file has no [uid]. *)
Definition create_mission_content (mission_id : string) (hashes uids : list dbval) : MW unit :=
  contents <- of_outcome (sync_datas lib hashes uids) ;;
  for_each contents (fun _ => raise AttributeError).

Definition get_missions : MW string :=
  missions <- db (get_all_public_missions "general") ;;
  n <- MissionListDirector lib "general" missions ;;
  answer_json "missions" n.

Definition get_mission (mission_id : string) : MW string :=
  mission <- db (MissionStore.get_mission "general" mission_id) ;;
  n <- MissionDirector lib "general" mission ;;
  answer_json "mission" n.

(** An element of the list of hashes: the object of a file is appended to it. *)
Inductive hash_item := HashOf (v : dbval) | HashObject.

(** [l.remove(v)]. *)
Fixpoint remove_hash (v : dbval) (l : list hash_item) : outcome (list hash_item) :=
  match l with
  | [] => Exn ValueError
  | HashOf x :: l =>
      if bool_decide (x = v) then Ret l
      else match remove_hash v l with Ret l => Ret (HashOf x :: l) | Exn e => Exn e end
  | HashObject :: l => match remove_hash v l with Ret l => Ret (HashObject :: l) | Exn e => Exn e end
  end.
Fixpoint remove_uid (v : dbval) (l : list dbval) : outcome (list dbval) :=
  match l with
  | [] => Exn ValueError
  | x :: l =>
      if bool_decide (x = v) then Ret l
      else match remove_uid v l with Ret l => Ret (x :: l) | Exn e => Exn e end
  end.

(** A file: its columns and its keywords; its object is assigned to. *)
Definition file := (list (string * dbval) * list dbval)%type.
Definition file_column (k : string) (f : file) : outcome dbval :=
  match dget k f.1 with Some v => Ret v | None => Exn AttributeError end.
Definition with_hash (v : dbval) (f : file) : file := (dset "hash" v f.1, f.2).

Definition dval_of_json (v : json) : dval :=
  match v with JList l => VList (db_of_json <$> l) | v => VData (db_of_json v) end.

(** [d.get(k, f.c)], and [v[0]]. *)
Definition changed (d : json) (k : string) (f : file) (c : string) : outcome dval :=
  match d, file_column c f with
  | JDict l, Ret x => Ret (match dget k l with Some v => dval_of_json v | None => VData x end)
  | JDict _, Exn e => Exn e
  | _, _ => Exn AttributeError
  end.
Definition jfirst (v : json) : outcome json :=
  match v with
  | JList (x :: _) => Ret x
  | JText (String c _) => Ret (JText (String c ""))
  | JList [] | JText EmptyString => Exn IndexError
  | JDict _ => Exn KeyError
  | _ => Exn TypeError
  end.
Definition data_of (v : dval) : dbval := match v with VData v => v | _ => DOther "list" end.

(** What another server sends: an archive with the file and what changed.  The object of
    the file takes the place of its hash in the list. *)
Definition add_archive (f : file) (data : string) (hashes : list hash_item) : MW (file * list hash_item) :=
  archive <- of_outcome (unzip lib data) ;;
  changes <- of_outcome (json_item archive.2 "missionChanges") ;;
  change <- of_outcome (jfirst changes) ;;
  r <- of_outcome (json_item change "contentResource") ;;
  uid <- of_outcome (changed r "uid" f "PrimaryKey") ;;
  hash <- of_outcome (changed r "hash" f "hash") ;;
  old <- of_outcome (file_column "hash" f) ;;
  hashes <- of_outcome (remove_hash old hashes) ;;
  let f := with_hash (data_of hash) f in
  file_name <- of_outcome (changed r "name" f "file_name") ;;
  mime_type <- of_outcome (changed r "mimeType" f "mime_type") ;;
  length <- of_outcome (changed r "size" f "length") ;;
  of_outcome (save_sync_data lib archive.1
    [("objectuid", uid); ("objecthash", hash); ("synctype", text "content"); ("file_name", file_name);
     ("mime_type", mime_type);
     ("objkeywords", match r with
        | JDict l => match dget "keywords" l with Some v => dval_of_json v | None => VList f.2 end
        | _ => nothing end);
     ("length", length); ("tool", text "public"); ("privacy", VData (DInt 1))]) ;;;
  mret (f, hashes ++ [HashObject]).

(** A content for a file, of the mission, with the change that tells of it. *)
Definition add_content (mission_id : string) (id : dbval) : MW unit :=
  content <- db (MissionStore.create_mission_content "general" mission_id id) ;;
  db (update_mission "general" mission_id (Some content) None) ;;;
  create_mission_content_upload_record "general/change" mission_id DNone id.

Fixpoint add_files (mission_id : string) (files : list (file * string)) (hashes : list hash_item)
    (uids : list dbval) : MW unit :=
  match files with
  | [] => mret tt
  | (f, data) :: files =>
      mime_type <- of_outcome (file_column "mime_type" f) ;;
      p <- (if bool_decide (mime_type = DStr "application/x-zip-compressed")
            then add_archive f data hashes else mret (f, hashes)) ;;
      hash <- of_outcome (file_column "hash" p.1) ;;
      if negb (bool_decide (hash = DNone)) then
        add_content mission_id hash ;;;
        hashes <- of_outcome (remove_hash hash p.2) ;;
        add_files mission_id files hashes uids
      else
        key <- of_outcome (file_column "PrimaryKey" p.1) ;;
        if negb (bool_decide (key = DNone)) then
          add_content mission_id key ;;;
          uids <- of_outcome (remove_uid key uids) ;;
          add_files mission_id files p.2 uids
        else add_files mission_id files p.2 uids
  end.

Definition add_contents_to_mission (mission_id : string) (hashes uids : list dbval) : MW unit :=
  contents_metadata <- of_outcome (sync_metadatas lib hashes uids) ;;
  contents_data <- of_outcome (sync_datas lib hashes uids) ;;
  add_files mission_id (zip contents_metadata contents_data) (HashOf <$> hashes) uids ;;;
  get_mission mission_id ;;; mret tt.

(** * Subscriptions *)

Definition get_permissions_as_list (sid : string) (role_permissions : list row) : MW (list dbval) :=
  permission_types sid role_permissions.

(** [n.data is not None]. *)
Definition has_data (n : dnode) : MW bool :=
  v <- of_outcome (get_attr lib "data" n) ;;
  mret (match v with inl v => negb (is_nothing v) | inr _ => true end).

Definition complete_mission_subscription (sid : string) (n : dnode) (subscription : option row) : MW dnode :=
  n <- put_collection "com.bbn.marti.sync.model.MissionSubscription" n ;;
  has <- has_data n ;;
  if (has : bool) then
    s <- of_option AttributeError subscription ;;
    n <- put lib [Attr "data"] [("token", col "token" s); ("clientUid", col "clientUid" s);
      ("username", col "username" s); ("createTime", get_dtg lib (cell "createTime" s))] n ;;
    role <- one sid s "role" ;; role <- of_option AttributeError role ;;
    permissions <- many sid role "permissions" ;; ts <- get_permissions_as_list sid permissions ;;
    put lib [Attr "data"; Attr "role"] [("permissions", Ret (VList ts)); ("type", col "role_type" role)] n
  else mret n.

Fixpoint put_clients (subscriptions : list row) (n : dnode) : MW dnode :=
  match subscriptions with
  | [] => mret n
  | s :: ss => n <- put lib [] [("data", col "clientUid" s)] n ;; put_clients ss n
  end.
Definition complete_mission_subscription_simple_list_object (n : dnode) (subscriptions : list row) : MW dnode :=
  n <- put_collection "MissionSubscription" n ;; put_clients subscriptions n.

(** The role of what is answered keeps no type. *)
Definition subscription_record (sid : string) (s : row) : MW dnode :=
  n <- create_mission_subscription_data lib ;;
  n <- put lib [] [("createTime", get_dtg lib (cell "createTime" s)); ("clientUid", col "clientUid" s);
    ("username", col "username" s)] n ;;
  role <- one sid s "role" ;; role <- of_option AttributeError role ;;
  permissions <- many sid role "permissions" ;; ts <- get_permissions_as_list sid permissions ;;
  put lib [Attr "role"] [("permissions", Ret (VList ts))] n.
Definition complete_mission_subscription_list_object (sid : string) (n : dnode) (subscriptions : list row) : MW dnode :=
  n <- put_collection "MissionSubscription" n ;;
  put_each lib [] "data" (subscription_record sid) subscriptions n.

Definition get_all_subscriptions (sid : string) : MW string :=
  subscriptions <- db (MissionStore.get_all_subscriptions sid) ;;
  n <- create_mission_subscriptions_list lib ;;
  n <- complete_mission_subscription_list_object sid n subscriptions ;;
  answer_json "mission_subscriptions" n.

Definition get_mission_subscriptions (sid mission_id : string) : MW string :=
  mission <- db (MissionStore.get_mission sid mission_id) ;;
  mission <- of_option AttributeError mission ;;
  subscriptions <- many sid mission "mission_subscriptions" ;;
  n <- create_mission_subscription_simple_list lib ;;
  n <- complete_mission_subscription_simple_list_object n subscriptions ;;
  answer_json "mission_subscriptions" n.

(** What is returned for a mission that is not there was never assigned. *)
Definition add_mission_subscription (sid mission_id : string) (client : dbval) : MW string :=
  mission <- db (MissionStore.get_mission sid mission_id) ;;
  match mission with
  | Some m =>
      token <- get_token m ;;
      role <- one sid m "defaultRole" ;;
      s <- db (create_subscription sid DNone mission_id (DStr token) client role) ;;
      n <- create_mission_subscription lib ;;
      n <- complete_mission_subscription sid n (Some s) ;;
      answer_json "mission_subscription" n
  | None => respond "mission_subscription" ANone ;;; raise NameError
  end.

Definition delete_mission_subscription (sid mission_id : string) (client : dbval) : MW unit :=
  mission <- db (MissionStore.get_mission sid mission_id) ;;
  db (delete_subscription sid mission client) ;;;
  respond "complete" (AText "true").

Definition get_mission_subscription (sid mission_id : string) (client : dbval) : MW string :=
  mission <- db (MissionStore.get_mission sid mission_id) ;;
  s <- db (get_subscription sid mission client) ;;
  n <- create_mission_subscription lib ;;
  n <- complete_mission_subscription sid n s ;;
  answer_json "mission_subscription" n.

(** * Logs *)

(** [json.loads] of a column. *)
Definition loads (v : dbval) : outcome dval :=
  match v with
  | DStr s => match json_loads lib s with Ret j => Ret (dval_of_json j) | Exn e => Exn e end
  | _ => Exn TypeError
  end.

Fixpoint append_missions (logs : list row) (n : dnode) : MW dnode :=
  match logs with
  | [] => mret n
  | l :: logs => n <- of_outcome (append_attr lib "missionNames" (cell "mission_uid" l) n) ;; append_missions logs n
  end.

Definition complete_mission_log_object (sid : string) (n : dnode) (log : option row) : MW dnode :=
  l <- of_option AttributeError log ;;
  n <- put lib [] [("entryUid", col "entryUid" l); ("data", col "content" l);
    ("dtg", get_dtg lib (cell "dtg" l)); ("creatorUid", col "creatorUid" l);
    ("servertime", get_dtg lib (cell "servertime" l)); ("created", get_dtg lib (cell "created" l));
    ("contentHashes", loads (cell "contentHashes" l)); ("content", col "content" l);
    ("keywords", loads (cell "keywords" l)); ("id", col "id" l)] n ;;
  missions <- many sid l "missions" ;; append_missions missions n.

Fixpoint put_logs (sid : string) (logs : list (option row)) (n : dnode) : MW dnode :=
  match logs with
  | [] => mret n
  | l :: logs =>
      log <- create_log_node lib ;; log <- complete_mission_log_object sid log l ;;
      n <- put lib [] [("data", Ret (VNode log))] n ;; put_logs sid logs n
  end.
Definition complete_log_collection_object (sid : string) (n : dnode) (logs : list (option row)) : MW dnode :=
  n <- put_collection "com.bbn.marti.sync.model.LogEntry" n ;; put_logs sid logs n.

Definition add_mission_log (data : json) : MW string :=
  id <- db uuid4 ;; entry <- db uuid4 ;;
  uid <- of_outcome (get_or data "entryUid" (JText entry)) ;;
  mission_names <- of_outcome (json_item data "missionNames") ;;
  v <- of_outcome (json_item data "dtg") ;; dtg <- of_outcome (parse_dtg lib v) ;;
  creatorUid <- of_outcome (json_item data "creatorUid") ;;
  servertime <- db utcnow ;; created <- db utcnow ;;
  v <- of_outcome (get_or data "contentHashes" (JList [])) ;;
  contentHashes <- of_outcome (json_dumps lib v) ;;
  v <- of_outcome (get_or data "contentUid" (JList [])) ;;
  contentUid <- of_outcome (json_dumps lib v) ;;
  content <- of_outcome (get_or data "content" (JText "")) ;;
  v <- of_outcome (json_item data "keywords") ;; keywords <- of_outcome (json_dumps lib v) ;;
  log <- db (create_log "logs" mission_names
    (mkLogValues (db_of_json uid) (db_of_json content) (DTime dtg) (DTime servertime)
      (db_of_json creatorUid) (DTime created) (DStr keywords) (DStr id) (DStr contentHashes)
      (DStr contentUid))) ;;
  names <- of_outcome (iterate mission_names) ;;
  for_each names (fun name =>
    name <- of_outcome (with_lower name) ;;
    create_mission_simple_content_upload_record "logs/changes" name (db_of_json creatorUid) (db_of_json content)) ;;;
  n <- create_log_collection lib ;;
  n <- put_collection "com.bbn.marti.sync.model.LogEntry" n ;;
  node <- create_log_node lib ;;
  node <- complete_mission_log_object "logs" node (Some log) ;;
  n <- put lib [] [("data", Ret (VNode node))] n ;;
  answer_json "log" n.

(** A second in the unit of the clock. *)
Definition second : Z := 1000000.

(** The times logs are asked for: the last seconds, or from a start to an end. *)
Definition requested_span (seconds_ago start end_ : json) : MW (option (Z * Z)) :=
  match seconds_ago, start, end_ with
  | JNull, JNull, _ | JNull, _, JNull => mret None
  | JNull, start, end_ =>
      start_time <- of_outcome (parse_dtg lib start) ;;
      end_time <- of_outcome (parse_dtg lib end_) ;; mret (Some (start_time, end_time))
  | seconds_ago, _, _ =>
      k <- of_outcome (db_int (db_of_json seconds_ago)) ;;
      now <- db utcnow ;; end_time <- db utcnow ;; mret (Some ((now - k * second)%Z, end_time))
  end.

(** [[mission_log.log for mission_log in logs]]. *)
Fixpoint logs_of (sid : string) (mission_logs : list row) : MW (list (option row)) :=
  match mission_logs with
  | [] => mret []
  | l :: ls => log <- one sid l "log" ;; logs <- logs_of sid ls ;; mret (log :: logs)
  end.

Definition get_mission_logs (mission_id : string) (seconds_ago start end_ : json) : MW string :=
  span <- requested_span seconds_ago start end_ ;;
  logs <- match span with
          | Some (start_time, end_time) => db (get_mission_logs_by_time "logs" mission_id start_time end_time)
          | None => db (MissionStore.get_mission_logs "logs" mission_id)
          end ;;
  n <- create_log_collection lib ;;
  logs <- logs_of "logs" logs ;;
  n <- complete_log_collection_object "logs" n logs ;;
  answer_json "logs" n.

(** What is not given stays; the content becomes the hashes. *)
Definition given_value (v : json) : option dbval := match v with JNull => None | v => Some (db_of_json v) end.

Definition update_mission_log (data : json) : MW string :=
  v <- of_outcome (get_or data "dtg" JNull) ;;
  dtg <- match v with
         | JNull => mret None
         | v => t <- of_outcome (parse_dtg lib v) ;; mret (Some (DTime t))
         end ;;
  id <- of_outcome (get_or data "id" JNull) ;;
  entryUid <- of_outcome (get_or data "entryUid" JNull) ;;
  mission_names <- of_outcome (get_or data "missionNames" JNull) ;;
  creatorUid <- of_outcome (get_or data "creatorUid" JNull) ;;
  v <- of_outcome (get_or data "contentHashes" (JList [])) ;; content <- of_outcome (json_dumps lib v) ;;
  v <- of_outcome (get_or data "keywords" (JList [])) ;; keywords <- of_outcome (json_dumps lib v) ;;
  log <- db (update_log "logs" (db_of_json id)
    (mkLogChanges (given_value entryUid) (match mission_names with JNull => None | v => Some v end)
      (Some (DStr content)) dtg None (given_value creatorUid) None (Some (DStr keywords)))) ;;
  node <- create_log_node lib ;;
  node <- complete_mission_log_object "logs" node (Some log) ;;
  answer_json "log" node.

Definition get_all_logs : MW string :=
  logs <- db (MissionStore.get_all_logs "logs") ;;
  n <- create_log_collection lib ;;
  n <- complete_log_collection_object "logs" n (Some <$> logs) ;;
  answer_json "logs" n.

Definition get_log (log_id : dbval) : MW string :=
  log <- db (MissionStore.get_log "logs" log_id) ;;
  n <- create_log_collection lib ;;
  n <- complete_log_collection_object "logs" n [log] ;;
  answer_json "log" n.

Definition delete_mission_log (log_id : dbval) : MW unit := db (MissionStore.delete_mission_log "logs" log_id).
End Controllers.
