(* ===== verification/MissionFacade.v ===== *)
(** The rest of the controllers of the missions (CoTs, external data, hierarchy,
    notifications, invitations), and the facade through which all are reached
    ([components/extended/mission/controllers], [mission_facade.py]). *)
From Stdlib Require Import ZArith Lia Ascii String.
From stdpp Require Import base strings list pretty.
From S2P Require Import Prelude.
From S2P Require Import RestGeo.
From S2P Require Import MissionDb.
From S2P Require Import MissionStore.
From S2P Require Import MissionNodes.
From S2P Require Import MissionBuilders.
From S2P Require Import MissionControllers.

Set Default Proof Using "Type".
Local Open Scope string_scope.
Local Open Scope list_scope.
Local Open Scope py_scope.

Section Facade.
Context {S : Type} `{Orm S} (lib : mission_library).

Abbreviation MW := (M (mission_state S)).

(** * CoTs *)

(** [events.xml.append(etree.fromstring(...))]. *)
Definition append_xml (xml : string) (events : dnode) : dnode :=
  match dget "xml" (n_values events) with
  | Some (VList l) => put_value "xml" (VList (l ++ [DStr xml])) events
  | _ => put_value "xml" (VList [DStr xml]) events
  end.

Fixpoint put_events (mission_cots : list row) (events : dnode) : MW dnode :=
  match mission_cots with
  | [] => mret events
  | c :: cots =>
      cot <- GetCoT lib (cell "uid" c) ;; cot <- of_option AttributeError cot ;;
      xml <- of_outcome (node_to_xml lib cot) ;; xml <- of_outcome (from_string lib xml) ;;
      put_events cots (append_xml xml events)
  end.

Definition get_mission_cots (mission_id : string) : MW string :=
  mission_cots <- db (MissionStore.get_mission_cots "cot" mission_id) ;;
  events <- create_events lib ;;
  events <- put_events mission_cots events ;;
  xml_events <- of_outcome (node_to_xml lib events) ;;
  respond "cots" (AText xml_events) ;;; mret xml_events.

(** An identifier in a response is a string. *)
Definition answer_of (v : dbval) : answer :=
  match v with DStr s => AText s | _ => ANone end.

Definition create_mission_cot (mission_ids : list string) (uid : dbval) : MW unit :=
  for_each mission_ids (fun mission_id =>
    db (MissionStore.create_mission_cot "cot" mission_id uid) ;;;
    create_mission_cot_record "cot/change" mission_id (DStr "") uid ;;;
    respond "mission_cot_id" (answer_of uid) ;;;
    set_context "mission" ;;;
    set_action "MissionCotCreatedNotification").

(** The type, the callsign and the place of a geofence or a video are handed on to a
    method that drops them. *)
Definition create_mission_geofence (mission_ids : list string) (uid : dbval) : MW unit :=
  create_mission_cot mission_ids uid.
Definition create_mission_video_alias (mission_ids : list string) (uid : dbval) : MW unit :=
  create_mission_cot mission_ids uid.

(** * External data *)

Definition complete_mission_external_data_collection (n : dnode) (e : row) : MW dnode :=
  n <- put_collection lib "com.bbn.marti.sync.model.ExternalMissionData" n ;;
  v <- of_outcome (get_attr lib "data" n) ;;
  let external_data :=
    match v with
    | inl (VKid i) => n_kids n !! i
    | inl (VNode m) => Some m
    | _ => None
    end in
  match external_data with
  | Some m =>
      if bool_decide (class_name m = "MissionExternalData") then
        put lib [Attr "data"] (external_columns ["name"; "notes"; "tool"; "uid"; "urlData"; "urlView"] e) n
      else mret n
  | None => mret n
  end.

Definition add_mission_external_data (mission_id : string) (data : json) : MW dnode :=
  name <- of_outcome (json_item data "name") ;;
  tool <- of_outcome (json_item data "tool") ;;
  urlData <- of_outcome (json_item data "urlData") ;;
  notes <- of_outcome (json_item data "notes") ;;
  uid <- of_outcome (json_item data "uid") ;;
  urlView <- of_outcome (json_item data "urlView") ;;
  creatorUid <- of_outcome (json_item data "creatorUid") ;;
  e <- db (add_external_data "external" mission_id
    (mkExternalValues (db_of_json name) (db_of_json tool) (db_of_json urlData) (db_of_json notes)
      (db_of_json uid) (db_of_json urlView) (db_of_json creatorUid)) DNone) ;;
  create_mission_external_data_record "external/changes" mission_id (db_of_json creatorUid) (cell "id" e) ;;;
  n <- create_external_data_collection lib ;;
  n <- complete_mission_external_data_collection n e ;;
  answer_json lib "external_data" n ;;; mret n.

(** * Hierarchy *)

Definition add_child_to_parent (parent_mission_id child_mission_id : string) : MW unit :=
  parent_mission <- db (MissionStore.get_mission "hierarchy" parent_mission_id) ;;
  child_mission <- db (MissionStore.get_mission "hierarchy" child_mission_id) ;;
  match parent_mission, child_mission with
  | Some parent, Some child => db (add_parent_to_mission "hierarchy" child parent)
  | _, _ => mret tt
  end.

Definition delete_parent (child_mission_id : string) : MW unit :=
  child_mission <- db (MissionStore.get_mission "hierarchy" child_mission_id) ;;
  match child_mission with
  | Some child =>
      parents <- many "hierarchy" child "parent_missions" ;;
      rel <- of_option IndexError (head parents) ;;
      parent <- one "hierarchy" rel "parent_mission" ;;
      db (remove_parent_from_mission "hierarchy" child_mission_id parent)
  | None => mret tt
  end.

(** A record of a mission, in a collection. *)
Definition collect_mission (mission : option row) (collection : dnode) : MW dnode :=
  n <- create_mission_record_object lib ;;
  n <- complete_mission_record_db lib "hierarchy" mission n ;;
  add_mission_to_collection lib n collection.

Fixpoint collect_children (children : list row) (collection : dnode) : MW dnode :=
  match children with
  | [] => mret collection
  | c :: children =>
      mission <- one "hierarchy" c "child_mission" ;;
      collection <- collect_mission mission collection ;; collect_children children collection
  end.

Definition get_children (parent_mission_id : string) : MW (list row) :=
  mission <- db (MissionStore.get_mission "hierarchy" parent_mission_id) ;;
  mission <- of_option AttributeError mission ;;
  children <- many "hierarchy" mission "child_missions" ;;
  collection <- create_mission_collection lib ;;
  collection <- collect_children children collection ;;
  answer_json lib "children" collection ;;; mret children.

Definition get_parent (child_mission_id : string) : MW (option row) :=
  collection <- create_mission_collection lib ;;
  mission <- db (MissionStore.get_mission "hierarchy" child_mission_id) ;;
  mission <- of_option AttributeError mission ;;
  parents <- many "hierarchy" mission "parent_missions" ;;
  collection <- match parents with
                | parent :: _ =>
                    mission <- one "hierarchy" parent "parent_mission" ;;
                    collect_mission mission collection
                | [] => mret collection
                end ;;
  answer_json lib "parent" collection ;;; mret (head parents).

(** * Notifications *)

(** What is sent to everybody. *)
Definition publish (n : dnode) : MW unit :=
  respond "message" (ANodes [n]) ;;; respond "recipients" (AText "*") ;;; set_action "publish".

Definition send_mission_created_notification (sid mission_id : string) : MW unit :=
  mission <- db (MissionStore.get_mission sid mission_id) ;;
  n <- create_mission_notification lib ;;
  uid <- db uuid4 ;;
  n <- put lib [] [("uid", const uid); ("type", const "t-x-m-n"); ("how", const "h-g-i-g-o")] n ;;
  n <- put lib the_mission [("type", const "CREATE")] n ;;
  m <- of_option AttributeError mission ;;
  n <- put lib the_mission [("tool", col "tool" m); ("name", col "name" m); ("authorUid", col "creatorUid" m)] n ;;
  publish n.

(** [log.missions[0].mission]. *)
Definition first_mission (sid : string) (log : row) : MW row :=
  missions <- many sid log "missions" ;; m <- of_option IndexError (head missions) ;;
  mission <- one sid m "mission" ;; of_option AttributeError mission.

Definition send_log_created_notification (sid : string) (log_id : dbval) : MW unit :=
  log <- db (MissionStore.get_log sid log_id) ;;
  n <- create_mission_notification lib ;;
  n <- put lib [] [("uid", Ret (VData log_id)); ("type", const "t-x-m-c-l"); ("how", const "h-g-i-g-o")] n ;;
  n <- put lib the_mission [("type", const "CHANGE")] n ;;
  l <- of_option AttributeError log ;;
  mission <- first_mission sid l ;; n <- put lib the_mission [("tool", col "tool" mission)] n ;;
  mission <- first_mission sid l ;; n <- put lib the_mission [("name", col "name" mission)] n ;;
  n <- put lib the_mission [("authorUid", col "creatorUid" l)] n ;;
  publish n.

(** [x.mission] of a change or a CoT. *)
Definition mission_of_row (sid : string) (r : row) : MW row :=
  mission <- one sid r "mission" ;; of_option AttributeError mission.

Definition send_content_created_notification (sid : string) (content_id : dbval) : MW unit :=
  change <- db (get_mission_change sid content_id) ;;
  n <- create_mission_change_notification lib ;;
  create_mission_change_record lib ;;;
  uid <- db uuid4 ;;
  n <- put lib [] [("uid", const uid); ("type", const "t-x-m-c"); ("how", const "h-g-i-g-o")] n ;;
  n <- put lib the_mission [("type", const "CHANGE")] n ;;
  c <- of_option AttributeError change ;;
  mission <- mission_of_row sid c ;; n <- put lib the_mission [("tool", col "tool" mission)] n ;;
  mission <- mission_of_row sid c ;; n <- put lib the_mission [("name", col "name" mission)] n ;;
  n <- put lib the_mission [("authorUid", col "creator_uid" c)] n ;;
  n <- complete_mission_change_notification lib sid c n ;;
  publish n.

Definition send_external_data_created_notification (sid external_data_id mission_id : string) : MW unit :=
  e <- db (get_external_data_by_uid sid external_data_id mission_id) ;;
  n <- MissionExternalDataNotificationBuilder lib sid e ;;
  publish n.

(** The notes are new, and the addresses carry a token. *)
Definition send_external_data_updated_notification (sid external_data_id mission_id : string) (notes : dbval) : MW unit :=
  e <- db (get_external_data_by_uid sid external_data_id mission_id) ;;
  n <- MissionExternalDataNotificationBuilder lib sid e ;;
  token <- db uuid4 ;;
  let data := first_change ++ [Attr "externalData"] in
  n <- of_outcome (extend_text lib (data ++ [Attr "urlData"]) ("?token=" +:+ token) n) ;;
  n <- of_outcome (extend_text lib (data ++ [Attr "urlView"]) ("?token=" +:+ token) n) ;;
  n <- put_texts lib data [("notes", Ret (VData notes))] n ;;
  publish n.

Definition send_invitation_notification (sid : string) (invitation_id : dbval) : MW unit :=
  i <- db (get_invitation_id sid invitation_id) ;;
  n <- MissionInvitationNotificationDirector lib sid i ;;
  publish n.

Definition send_cot_created_notification (sid : string) (mission_cot_id : dbval) : MW unit :=
  c <- db (get_mission_cot sid mission_cot_id) ;; c <- of_option AttributeError c ;;
  cot <- GetCoT lib (cell "uid" c) ;;
  n <- create_mission_change_notification lib ;;
  n <- put lib first_change [("contentResource", Ret nothing)] n ;;
  details <- create_details lib ;;
  n <- put lib first_change [("details", Ret (VNode details))] n ;;
  uid <- db uuid4 ;;
  n <- put lib [] [("uid", const uid); ("type", const "t-x-m-c"); ("how", const "h-g-i-g-o")] n ;;
  n <- put lib the_mission [("type", const "CHANGE")] n ;;
  mission <- mission_of_row sid c ;; n <- put lib the_mission [("tool", col "tool" mission)] n ;;
  mission <- mission_of_row sid c ;; n <- put lib the_mission [("name", col "name" mission)] n ;;
  n <- put_texts lib first_change [("contentUid", col "uid" c); ("type", const "ADD_CONTENT");
    ("isFederatedChange", const "false")] n ;;
  mission <- mission_of_row sid c ;;
  n <- put_texts lib first_change [("missionName", col "name" mission); ("timestamp", of_cot lib cot [] "time")] n ;;
  n <- complete_mission_cot_notification lib (first_change ++ [Attr "details"]) cot n ;;
  publish n.

(** * Invitations *)

Definition get_invitations (client_uid : dbval) : MW string :=
  invitations <- db (get_client_invitations "invitations" client_uid) ;;
  n <- MissionInvitationListDirector lib invitations ;;
  answer_json lib "mission_changes" n.

(** The invitation is looked for under the key of the subscription. *)
Definition send_invitation (author_uid client_uid : dbval) (mission_id : string) : MW unit :=
  add_mission_subscription lib "invitations/subscription" mission_id client_uid ;;;
  mission <- db (MissionStore.get_mission "invitations" mission_id) ;;
  subscription <- db (get_subscription "invitations" mission client_uid) ;;
  s <- of_option AttributeError subscription ;;
  invitation <- db (get_invitation_id "invitations" (cell "PrimaryKey" s)) ;;
  invitation <- match invitation with
                | Some i => mret i
                | None => db (create_invitation "invitations" author_uid (cell "PrimaryKey" s) mission_id)
                end ;;
  send_invitation_notification "invitations/notification" (cell "uid" invitation).

(** * The facade *)

(** Its methods, with the values of the request they take. *)
Inductive mission_request :=
  | PutMission (mission_id mission_data : string) (mission_data_args : list (string * json)) (creatorUid : dbval)
  | CreateContent (mission_id : string) (hashes uids : list dbval)
  | GetMissions
  | GetMission (mission_id : string)
  | AddMissionContents (mission_id : string) (hashes uids : list dbval)
  | AddMissionLog (mission_log_data : json)
  | GetMissionLogs (mission_id : string) (seconds_ago start end_ : json)
  | GetAllLogs
  | GetMissionLog (log_id : dbval)
  | DeleteLog (log_id : dbval)
  | UpdateMissionLog (mission_log_data : json)
  | AddChildToParent (parent_mission_id child_mission_id : string)
  | DeleteParent (child_mission_id : string)
  | GetChildren (parent_mission_id : string)
  | GetParent (child_mission_id : string)
  | GetAllSubscriptions
  | GetMissionSubscriptions (mission_id : string)
  | AddMissionSubscription (mission_id : string) (client : dbval)
  | DeleteMissionSubscription (mission_id : string) (client : dbval)
  | GetMissionSubscription (mission_id : string) (client : dbval)
  | CreateExternalMissionData (mission_id : string) (mission_external_data : json)
  | GetMissionChanges (mission_id : string)
  | MissionCreatedNotification (mission_id : string)
  | MissionContentCreatedNotification (content_id : dbval)
  | MissionExternalDataCreatedNotification (external_data_id mission_id : string)
  | MissionLogCreatedNotification (log_id : dbval)
  | CreateMissionCOT (mission_ids : list string) (uid : dbval)
  | CreateMissionGeoFence (mission_ids : list string) (uid : dbval)
  | CreateMissionVideoAlias (mission_ids : list string) (uid : dbval)
  | GetMissionCots (mission_id : string)
  | MissionCotCreatedNotification (mission_cot_id : dbval)
  | GetInvitations (client_uid : dbval)
  | SendInvitation (author_uid client_uid : dbval) (mission_id : string)
  | SendExternalDataUpdateNotification (external_data_id mission_id : string) (notes : dbval).

Definition perform (r : mission_request) : MW unit :=
  match r with
  | PutMission m d a c => put_mission lib m d a c
  | CreateContent m h u => create_mission_content lib m h u
  | GetMissions => get_missions lib ;;; mret tt
  | GetMission m => MissionControllers.get_mission lib m ;;; mret tt
  | AddMissionContents m h u => add_contents_to_mission lib m h u
  | AddMissionLog d => add_mission_log lib d ;;; mret tt
  | GetMissionLogs m k s e => get_mission_logs lib m k s e ;;; mret tt
  | GetAllLogs => get_all_logs lib ;;; mret tt
  | GetMissionLog l => get_log lib l ;;; mret tt
  | DeleteLog l => delete_mission_log l
  | UpdateMissionLog d => update_mission_log lib d ;;; mret tt
  | AddChildToParent p c => add_child_to_parent p c
  | DeleteParent c => delete_parent c
  | GetChildren p => get_children p ;;; mret tt
  | GetParent c => get_parent c ;;; mret tt
  | GetAllSubscriptions => get_all_subscriptions lib "subscription" ;;; mret tt
  | GetMissionSubscriptions m => get_mission_subscriptions lib "subscription" m ;;; mret tt
  | AddMissionSubscription m c => add_mission_subscription lib "subscription" m c ;;; mret tt
  | DeleteMissionSubscription m c => delete_mission_subscription "subscription" m c
  | GetMissionSubscription m c => get_mission_subscription lib "subscription" m c ;;; mret tt
  | CreateExternalMissionData m d => add_mission_external_data m d ;;; mret tt
  | GetMissionChanges m => get_mission_changes lib "change" m ;;; mret tt
  | MissionCreatedNotification m => send_mission_created_notification "notification" m
  | MissionContentCreatedNotification c => send_content_created_notification "notification" c
  | MissionExternalDataCreatedNotification e m => send_external_data_created_notification "notification" e m
  | MissionLogCreatedNotification l => send_log_created_notification "notification" l
  | CreateMissionCOT ms u => create_mission_cot ms u
  | CreateMissionGeoFence ms u => create_mission_geofence ms u
  | CreateMissionVideoAlias ms u => create_mission_video_alias ms u
  | GetMissionCots m => get_mission_cots m ;;; mret tt
  | MissionCotCreatedNotification c => send_cot_created_notification "notification" c
  | GetInvitations c => get_invitations c ;;; mret tt
  | SendInvitation a c m => send_invitation a c m
  | SendExternalDataUpdateNotification e m n => send_external_data_updated_notification "notification" e m n
  end.

(** What a method raises is logged, and the response goes out as it is. *)
Definition execute (r : mission_request) : MW unit := try: perform r except: mret tt.

(** What is stored when the component is registered. *)
Definition register : MW unit :=
  db (create_default_permissions "facade") ;;; db (create_default_roles "facade").
End Facade.
