(* ===== verification/MissionReads.v ===== *)
(** What of the component of the missions reads only: its builders, its directors, the
    requests that ask and the notifications. *)
From Stdlib Require Import ZArith Lia Ascii String.
From stdpp Require Import base strings list pretty.
From S2P Require Import Prelude.
From S2P Require Import RestGeo.
From S2P Require Import MissionDb.
From S2P Require Import MissionStore.
From S2P Require Import MissionList.
From S2P Require Import MissionFacts.
From S2P Require Import MissionNodes.
From S2P Require Import MissionBuilders.
From S2P Require Import MissionSample.
From S2P Require Import MissionControllers.
From S2P Require Import MissionFacade.

Set Default Proof Using "All".
Local Open Scope string_scope.
Local Open Scope list_scope.
Local Open Scope py_scope.

Create HintDb reads.

Section Reads.
Context {S : Type} `{OrmLaws S}.

Abbreviation MW := (M (mission_state S)).

(** Whatever comes of it, the tables are what they were. *)
Definition reads {A} (m : MW A) : Prop := forall w, rows (ms_db (m w).2) = rows (ms_db w).

Lemma reads_ret {A} (a : A) : reads (mret a).
Proof. by intros w. Qed.
Lemma reads_raise {A} e : reads (raise e : MW A).
Proof. by intros w. Qed.
Lemma reads_of_outcome {A} (o : outcome A) : reads (of_outcome o).
Proof. by intros w. Qed.
Lemma reads_of_option {A} e (o : option A) : reads (of_option e o).
Proof. by destruct o. Qed.
Lemma reads_bind {A B} (m : MW A) (k : A -> MW B) :
  reads m -> (forall a, reads (k a)) -> reads (m ≫= k).
Proof.
  intros Hm Hk w. cbv [mbind M_bind]. specialize (Hm w).
  destruct (m w) as [[a|e] w1]; simpl in *; [|done]. by rewrite Hk.
Qed.
Lemma reads_for_each {A} (l : list A) (f : A -> MW unit) :
  (forall a, reads (f a)) -> reads (for_each l f).
Proof.
  intros Hf. induction l as [|a l IH]; [apply reads_ret|]. apply reads_bind; [apply Hf|by intros _].
Qed.
Lemma reads_db {A} sid (m : M S A) : tentative sid m -> reads (db m).
Proof.
  intros Hm w. unfold db. simpl. destruct (m (ms_db w)) as [o s'] eqn:E.
  by destruct (Hm _ _ _ E) as (_ & Hr & _).
Qed.
Lemma reads_modify f : (forall w, ms_db (f w) = ms_db w) -> reads (modify f).
Proof. intros Hf w. cbn. by rewrite Hf. Qed.
End Reads.

#[export] Hint Extern 0 (reads (db _)) =>
  progress unfold get_all_public_missions, MissionStore.get_all_logs, MissionStore.get_log,
    MissionStore.get_mission, get_mission_logs_by_time, MissionStore.get_all_subscriptions, get_mission_change,
    get_mission_cot, get_external_data_by_uid : reads.
#[export] Hint Resolve reads_ret reads_raise reads_of_outcome reads_of_option : reads.
#[export] Hint Extern 1 (reads (modify _)) => apply reads_modify; reflexivity : reads.

Ltac reads_step :=
  match goal with
  | |- reads (_ ≫= _) => apply reads_bind; [|intros ?]
  | |- reads (for_each _ _) => apply reads_for_each; intros ?
  | |- reads (match ?x with _ => _ end) => destruct x
  | |- reads (let _ := _ in _) => cbv zeta
  end.
Ltac reads_walk := repeat (reads_step || solve [eauto 2 with reads nocore]).
(** Follows the definition [f]. *)
Tactic Notation "reads_in" reference(f) := unfold f; reads_walk.

Section Builders.
Context {S : Type} `{OrmLaws S} (lib : mission_library).
Implicit Types (sid : string).

Lemma reads_query sid q : reads (db (query sid q)).
Proof. apply (reads_db sid). apply tentative_query. Qed.
Lemma reads_first sid q : reads (db (first sid q)).
Proof. apply (reads_db sid). unfold first. store_walk. Qed.
Lemma reads_uuid4 : reads (db uuid4).
Proof. apply (reads_db ""). apply tentative_uuid4. Qed.
Lemma reads_utcnow : reads (db utcnow).
Proof.
  apply (reads_db ""). apply tentative_unchanged. intros s.
  destruct (utcnow_law s) as (t & s' & E & Hu). by exists t, s'.
Qed.
Lemma reads_many sid r name : reads (many sid r name).
Proof. apply (reads_db sid). apply tentative_related. Qed.
Lemma reads_one sid r name : reads (one sid r name).
Proof. unfold one. apply reads_bind; [apply reads_many|intros; apply reads_ret]. Qed.

Hint Resolve reads_query reads_first reads_uuid4 reads_utcnow reads_many reads_one : reads.

Lemma reads_put path l n : reads (put lib path l n).
Proof. apply reads_of_outcome. Qed.
Lemma reads_put_texts path l n : reads (put_texts lib path l n).
Proof. apply reads_of_outcome. Qed.
Lemma reads_create c k : reads (create lib c k).
Proof. apply reads_of_outcome. Qed.
Lemma reads_GetCoT uid : reads (GetCoT lib uid).
Proof. apply reads_of_outcome. Qed.
Lemma reads_metadata k : reads (GetEnterpriseSyncMetaData lib k).
Proof. apply reads_of_outcome. Qed.

Hint Resolve reads_put reads_put_texts reads_create reads_GetCoT reads_metadata : reads.

Lemma reads_put_each path name builder l n : (forall r, reads (builder r)) ->
  reads (put_each lib path name builder l n).
Proof. intros Hb. revert n. induction l as [|r l IH]; intros n; simpl; reads_walk; auto. Qed.

Lemma reads_permission_types sid l : reads (permission_types sid l).
Proof. induction l as [|r l IH]; simpl; reads_walk. Qed.

Hint Resolve reads_permission_types : reads.
Hint Extern 1 (reads (put_each _ _ _ _ _ _)) => apply reads_put_each; intros ? : reads.

Lemma reads_list_builder : reads (MissionListBuilder lib).
Proof. reads_in MissionListBuilder. Qed.
Lemma reads_change_list_builder : reads (MissionChangeListBuilder lib).
Proof. reads_in MissionChangeListBuilder. Qed.
Lemma reads_list_record m : reads (MissionListRecordBuilder lib m).
Proof. reads_in MissionListRecordBuilder. Qed.
Lemma reads_role sid o : reads (MissionRoleBuilder lib sid o).
Proof. reads_in MissionRoleBuilder. Qed.
Lemma reads_cot_content r : reads (MissionCoTContentBuilder lib r).
Proof. reads_in MissionCoTContentBuilder. Qed.
Lemma reads_list_cot_content r : reads (MissionListCoTContentBuilder lib r).
Proof. reads_in MissionListCoTContentBuilder. Qed.
Lemma reads_standard_content r : reads (MissionStandardContentBuilder lib r).
Proof. reads_in MissionStandardContentBuilder. Qed.
Lemma reads_standard_external_data r : reads (MissionStandardExternalDataBuilder lib r).
Proof. reads_in MissionStandardExternalDataBuilder. Qed.

Hint Resolve reads_list_builder reads_change_list_builder reads_list_record reads_role
  reads_cot_content reads_list_cot_content reads_standard_content
  reads_standard_external_data : reads.

Ltac each := repeat first [progress reads_walk | apply reads_put_each; intros ?].

Lemma reads_put_external sid c n : reads (put_external lib sid c n).
Proof. reads_in put_external. Qed.
Hint Resolve reads_put_external : reads.

Lemma reads_change_record sid c : reads (change_record lib sid c).
Proof.
  unfold change_record, MissionContentChangeBuilder, MissionSimpleCoTChangeBuilder,
    MissionExternalDataChangeBuilder, MissionSimpleChangeBuilder. reads_walk.
Qed.
Lemma reads_external_notification sid o : reads (MissionExternalDataNotificationBuilder lib sid o).
Proof. reads_in MissionExternalDataNotificationBuilder. Qed.
Lemma reads_invitation_notification sid o : reads (MissionInvitationNotificationBuilder lib sid o).
Proof. reads_in MissionInvitationNotificationBuilder. Qed.
Lemma reads_permission o : reads (MissionPermissionBuilder lib o).
Proof. reads_in MissionPermissionBuilder. Qed.
Hint Resolve reads_change_record reads_external_notification reads_invitation_notification
  reads_permission : reads.

Lemma reads_director sid o : reads (MissionDirector lib sid o).
Proof. unfold MissionDirector. each. Qed.
Lemma reads_record sid r : reads (list_record lib sid r).
Proof. unfold list_record. each. Qed.
Hint Resolve reads_director reads_record : reads.
Lemma reads_list_director sid l : reads (MissionListDirector lib sid l).
Proof. unfold MissionListDirector. each. Qed.
Lemma reads_changes_director sid o : reads (MissionChangesDirector lib sid o).
Proof. unfold MissionChangesDirector. each. Qed.
Lemma reads_invitation_director sid o : reads (MissionInvitationNotificationDirector lib sid o).
Proof. unfold MissionInvitationNotificationDirector. each. Qed.
Lemma reads_invitations l : reads (MissionInvitationListDirector lib l : M (mission_state S) _).
Proof. unfold MissionInvitationListDirector, MissionInvitationListBuilder. each. Qed.
Hint Resolve reads_list_director reads_changes_director reads_invitation_director reads_invitations : reads.

Lemma reads_content r : reads (completed_content lib r : M (mission_state S) _).
Proof. unfold completed_content, create_mission_content_node, complete_mission_content_db. each. Qed.
Hint Resolve reads_content : reads.
Lemma reads_children sid l n : reads (put_contents_of_children lib sid l n).
Proof. revert n. induction l as [|r l IH]; intros n; simpl; each. Qed.
Hint Resolve reads_children : reads.
Lemma reads_record_db sid m n : reads (complete_mission_record_db lib sid m n).
Proof. unfold complete_mission_record_db. each. Qed.
Lemma reads_change_notification sid c n : reads (complete_mission_change_notification lib sid c n).
Proof. unfold complete_mission_change_notification. each. Qed.
Hint Resolve reads_record_db reads_change_notification : reads.

(** * The requests *)

Lemma reads_respond k v : reads (respond k v : M (mission_state S) unit).
Proof. by apply reads_modify. Qed.
Lemma reads_set_action a : reads (set_action a : M (mission_state S) unit).
Proof. by apply reads_modify. Qed.
Hint Resolve reads_respond reads_set_action : reads.
Lemma reads_answer k n : reads (answer_json lib k n : M (mission_state S) _).
Proof. unfold answer_json, serialize_to_json. each. Qed.
Lemma reads_collection t n : reads (put_collection lib t n : M (mission_state S) _).
Proof. unfold put_collection. each. Qed.
Lemma reads_publish n : reads (publish n : M (mission_state S) _).
Proof. unfold publish. each. Qed.
Lemma reads_mission sid m : reads (db (MissionStore.get_mission sid m)).
Proof. apply reads_first. Qed.
Lemma reads_mission_row sid r : reads (mission_of_row sid r).
Proof. unfold mission_of_row. each. Qed.
Lemma reads_first_mission sid r : reads (first_mission sid r).
Proof. unfold first_mission. each. Qed.
Lemma reads_attribute sid k o : reads (db (relationship sid k o)).
Proof. apply (reads_db sid). unfold relationship. store_walk. Qed.
Lemma reads_get_subscription sid m u : reads (db (get_subscription sid m u)).
Proof. apply (reads_db sid). unfold get_subscription, attr, first. store_walk. Qed.
Lemma reads_invitations_of sid l : tentative sid (invitations_of sid l).
Proof. induction l as [|r l IH]; simpl; store_walk. Qed.
Lemma reads_client_invitations sid u : reads (db (get_client_invitations sid u)).
Proof.
  apply (reads_db sid). unfold get_client_invitations. store_walk. apply reads_invitations_of.
Qed.
Lemma reads_mission_logs sid m : reads (db (MissionStore.get_mission_logs sid m)).
Proof.
  apply (reads_db sid). unfold MissionStore.get_mission_logs, MissionStore.get_mission, relationship, first.
  store_walk.
Qed.
Lemma reads_mission_cots sid m : reads (db (MissionStore.get_mission_cots sid m)).
Proof.
  apply (reads_db sid). unfold MissionStore.get_mission_cots, MissionStore.get_mission, relationship, first.
  store_walk.
Qed.
Hint Resolve reads_mission_logs reads_mission_cots reads_answer reads_get_subscription reads_client_invitations reads_collection reads_publish reads_mission reads_mission_row
  reads_first_mission reads_attribute : reads.

Lemma reads_subscription_record sid s : reads (subscription_record lib sid s).
Proof. unfold subscription_record, get_permissions_as_list, create_mission_subscription_data. each. Qed.
Lemma reads_subscription sid n o : reads (complete_mission_subscription lib sid n o).
Proof. unfold complete_mission_subscription, has_data, get_permissions_as_list. each. Qed.
Lemma reads_put_clients l n : reads (put_clients lib l n : M (mission_state S) _).
Proof. revert n. induction l as [|r l IH]; intros n; simpl; each. Qed.
Lemma reads_append_missions l n : reads (append_missions lib l n : M (mission_state S) _).
Proof. revert n. induction l as [|r l IH]; intros n; simpl; each. Qed.
Hint Resolve reads_subscription_record reads_subscription reads_put_clients reads_append_missions : reads.
Lemma reads_log_object sid n o : reads (complete_mission_log_object lib sid n o).
Proof. unfold complete_mission_log_object. each. Qed.
Hint Resolve reads_log_object : reads.
Lemma reads_put_logs sid l n : reads (put_logs lib sid l n).
Proof. revert n. induction l as [|r l IH]; intros n; simpl; unfold create_log_node; each. Qed.
Lemma reads_logs_of sid l : reads (logs_of sid l).
Proof. induction l as [|r l IH]; simpl; each. Qed.
Lemma reads_put_events l n : reads (put_events lib l n : M (mission_state S) _).
Proof. revert n. induction l as [|r l IH]; intros n; simpl; each. Qed.
Lemma reads_collect_mission o n : reads (collect_mission lib o n).
Proof. unfold collect_mission, create_mission_record_object, add_mission_to_collection. each. Qed.
Hint Resolve reads_put_logs reads_logs_of reads_put_events reads_collect_mission : reads.
Lemma reads_collect_children l n : reads (collect_children lib l n).
Proof. revert n. induction l as [|r l IH]; intros n; simpl; each. Qed.
Hint Resolve reads_collect_children : reads.

(** The requests that ask, and the notifications. *)
Definition asks (r : mission_request) : bool :=
  match r with
  | GetMissions | GetMission _ | GetMissionLogs _ _ _ _ | GetAllLogs | GetMissionLog _
  | GetChildren _ | GetParent _ | GetAllSubscriptions | GetMissionSubscriptions _
  | GetMissionSubscription _ _ | GetMissionChanges _ | GetMissionCots _ | GetInvitations _
  | MissionCreatedNotification _ | MissionContentCreatedNotification _
  | MissionExternalDataCreatedNotification _ _ | MissionLogCreatedNotification _
  | MissionCotCreatedNotification _ | SendExternalDataUpdateNotification _ _ _ => true
  | _ => false
  end.

Lemma reads_perform r : asks r = true -> reads (perform lib r).
Proof.
  destruct r; try done; intros _; cbn [perform];
  unfold get_missions, MissionControllers.get_mission, get_mission_logs, get_all_logs, get_log,
    get_children, get_parent, get_all_subscriptions, get_mission_subscriptions,
    get_mission_subscription, get_mission_changes, get_mission_cots, get_invitations,
    send_mission_created_notification, send_content_created_notification,
    send_external_data_created_notification, send_log_created_notification,
    send_cot_created_notification, send_external_data_updated_notification,
    create_mission_collection, create_events, create_log_collection, create_details,
    create_mission_notification, create_mission_change_notification, create_mission_change_record,
    create_mission_subscription_simple_list, create_mission_subscriptions_list,
    create_mission_subscription, requested_span, complete_log_collection_object,
    complete_mission_subscription_simple_list_object, complete_mission_subscription_list_object,
    complete_mission_cot_notification; each.
Qed.

(** A request that asks (for missions, changes, logs, subscriptions, children, CoTs or
    invitations) and a notification, but that of an invitation, leave every table as it
    was, whatever they answer and whatever fails on the way. *)
Theorem asking_changes_nothing r w : asks r = true -> rows (ms_db (execute lib r w).2) = rows (ms_db w).
Proof.
  intros Hr. pose proof (reads_perform r Hr w) as E. unfold execute, try_except, try_with.
  destruct (perform lib r w) as [[a|e] w1]; [done|]. simpl in *. by destruct (is_Exception e).
Qed.
End Builders.

Lemma asking_changes_nothing_witness :
  let w := state_of [mission_row "m"] in rows (ms_db (execute library (GetMission "m") w).2) = rows (ms_db w).
Proof. intros w. apply (asking_changes_nothing library (GetMission "m") w). reflexivity. Defined.
