(* ===== verification/MissionLooks.v ===== *)
(** Requests of the missions on a database that answers: what looks only is no change of the
    database and no answer, and what ends in an exception leaves no answer. *)
From Stdlib Require Import ZArith Lia Ascii String.
From stdpp Require Import base strings list pretty.
From S2P Require Import Prelude.
From S2P Require Import DictToNode.
From S2P Require Import RestGeo.
From S2P Require Import MissionDb.
From S2P Require Import MissionStore.
From S2P Require Import MissionFacts.
From S2P Require Import MissionNodes.
From S2P Require Import MissionBuilders.
From S2P Require Import MissionControllers.
From S2P Require Import MissionFacade.

Set Default Proof Using "All".
Local Open Scope string_scope.
Local Open Scope list_scope.
Local Open Scope py_scope.

Create HintDb looks.

Section Looks.
Context {S : Type} `{OrmLaws S, !OrmReliable S}.

Abbreviation MW := (M (mission_state S)).
Implicit Types (w : mission_state S) (s : S) (sid : string).

(** Nothing is stored and nothing answered. *)
Definition still w w' : Prop :=
  unchanged (ms_db w) (ms_db w') /\ ms_response w' = ms_response w /\
  ms_context w' = ms_context w /\ ms_action w' = ms_action w.

#[global] Instance still_preorder : PreOrder still.
Proof.
  split; [by intros w|]. intros w1 w2 w3 (A1 & A2 & A3 & A4) (B1 & B2 & B3 & B4).
  split_and!; [by etransitivity|congruence..].
Qed.

Definition calm_state w : Prop := calm (ms_db w).

Lemma still_calm w w' : still w w' -> calm_state w -> calm_state w'.
Proof. intros (Hu & _). by apply calm_unchanged. Qed.
Lemma still_rows w w' : still w w' -> rows (ms_db w') = rows (ms_db w).
Proof. by intros ((_ & Hr & _) & _). Qed.

(** [m] looks only; what it returns is described by [P]. *)
Definition looks {A} (P : A -> tables -> Prop) (m : MW A) : Prop :=
  forall w, calm_state w ->
    still w (m w).2 /\ match (m w).1 with Ret a => P a (rows (ms_db w)) | Exn _ => True end.

(** [m] ends in an exception, having looked only. *)
Definition ends {A} (m : MW A) w : Prop := exists e w', m w = (Exn e, w') /\ still w w'.

Lemma looks_weaken {A} (P Q : A -> tables -> Prop) (m : MW A) :
  (forall a T, P a T -> Q a T) -> looks P m -> looks Q m.
Proof. intros HPQ Hm w Hw. destruct (Hm w Hw) as [Hs Hp]. split; [done|]. destruct (m w).1; auto. Qed.

Lemma looks_ret {A} (a : A) : looks (fun a' _ => a' = a) (mret a).
Proof. by intros w Hw. Qed.
Lemma looks_raise {A} e : looks (fun _ _ => False) (raise e : MW A).
Proof. by intros w Hw. Qed.
Lemma looks_of_outcome {A} (o : outcome A) : looks (fun a _ => o = Ret a) (of_outcome o).
Proof. intros w Hw. by destruct o. Qed.
Lemma looks_of_option {A} e (o : option A) : looks (fun a _ => o = Some a) (of_option e o).
Proof. intros w Hw. by destruct o. Qed.
Lemma looks_bind {A B} P Q (m : MW A) (k : A -> MW B) :
  looks P m -> (forall a, looks (fun b T => P a T -> Q b T) (k a)) -> looks Q (m ≫= k).
Proof.
  intros Hm Hk w Hw. destruct (Hm w Hw) as [Hs Hp]. cbv [mbind M_bind].
  destruct (m w) as [[a|e] w1]; simpl in *; [|done].
  destruct (Hk a w1 (still_calm _ _ Hs Hw)) as [Hs' Hq]. split; [by etransitivity|].
  rewrite (still_rows _ _ Hs) in Hq. destruct (k a w1).1; auto.
Qed.

Lemma run_outcome {A B} (a : A) (k : A -> MW B) w : (of_outcome (Ret a) ≫= k) w = k a w.
Proof. done. Qed.

(** With nothing to say of the results. *)
Definition glances {A} (m : MW A) : Prop := looks (fun _ _ => True) m.
Lemma looks_glances {A} P (m : MW A) : looks P m -> glances m.
Proof. by apply looks_weaken. Qed.
Lemma glances_bind {A B} (m : MW A) (k : A -> MW B) :
  glances m -> (forall a, glances (k a)) -> glances (m ≫= k).
Proof.
  intros Hm Hk. eapply looks_bind; [exact Hm|]. intros a. apply (looks_weaken (fun _ _ => True)); [done|apply Hk].
Qed.

Lemma looks_ends {A B} P (m : MW A) (k : A -> MW B) w : looks P m -> calm_state w ->
  (forall a w', calm_state w' -> rows (ms_db w') = rows (ms_db w) -> P a (rows (ms_db w)) -> ends (k a) w') ->
  ends (m ≫= k) w.
Proof.
  intros Hm Hw Hk. destruct (Hm w Hw) as [Hs Hp]. unfold ends. cbv [mbind M_bind].
  destruct (m w) as [[a|e] w1]; simpl in *; [|by exists e, w1].
  destruct (Hk a w1) as (e & w2 & E & Hs'); [by apply (still_calm w)|by apply still_rows|done|].
  exists e, w2. split; [done|by etransitivity].
Qed.

Lemma ends_after {A B} (m : MW A) (k : A -> MW B) w : glances m -> calm_state w ->
  (forall a w', calm_state w' -> rows (ms_db w') = rows (ms_db w) -> ends (k a) w') ->
  ends (m ≫= k) w.
Proof. intros Hm Hw Hk. eapply looks_ends; [exact Hm|done|]. intros a w' ? ? _. by apply Hk. Qed.

Lemma ends_first {A B} (m : MW A) (k : A -> MW B) w : ends m w -> ends (m ≫= k) w.
Proof. intros (e & w' & E & Hs). exists e, w'. split; [|done]. by apply run_bind_exn. Qed.
Lemma ends_raise {A} e w : ends (raise e : MW A) w.
Proof. by exists e, w. Qed.
Lemma ends_of_option {A} e w : ends (of_option e None : MW A) w.
Proof. by exists e, w. Qed.

(** A request that ends so is answered as it was before. *)
Lemma ends_execute lib r w : ends (perform lib r) w -> still w (execute lib r w).2.
Proof.
  intros (e & w' & E & Hs). unfold execute, try_except, try_with. rewrite E.
  by destruct (is_Exception e).
Qed.

(** * The database *)

Definition with_db s w : mission_state S := mkMissionState s (ms_response w) (ms_context w) (ms_action w).

Lemma db_ret {A} (m : M S A) w a s' : m (ms_db w) = (Ret a, s') -> db m w = (Ret a, with_db s' w).
Proof. intros E. unfold db. by rewrite E. Qed.

Lemma looks_query sid q : askable q = true ->
  looks (fun l T => l ≡ₚ selected q T) (db (query sid q)).
Proof.
  intros Ha w Hw. destruct (query_quiet sid q (ms_db w)) as (l & s' & E & Hu & Hl);
    [by apply calm_quiet|done|]. unfold db. rewrite E. done.
Qed.

Lemma looks_first sid q : askable q = true ->
  looks (fun o T => one_of o (selected q T)) (db (first sid q)).
Proof.
  intros Ha w Hw. destruct (first_quiet sid q (ms_db w)) as (o & s' & E & Hu & Ho);
    [by apply calm_quiet|done|]. unfold db. rewrite E. done.
Qed.

Lemma looks_find sid t k x : string_key t k ->
  looks (fun o T => o = found T t k x) (db (first sid (filter_by t [(k, DStr x)]))).
Proof.
  intros Hk w Hw. destruct (find_by_key sid (ms_db w) t k x) as (s' & E & Hu); [done..|].
  unfold db. rewrite E. done.
Qed.

Lemma looks_mission sid id :
  looks (fun o T => o = found T TMission "PrimaryKey" (lower id)) (db (MissionStore.get_mission sid id)).
Proof. by apply looks_find. Qed.

Lemma looks_many sid r name : is_Some (find_relation (r_table r) name) ->
  looks (fun l T => l ≡ₚ related_rows name r T) (many sid r name).
Proof.
  intros Hr w Hw. destruct (related_quiet sid r name (ms_db w)) as (l & s' & E & Hu & Hl);
    [by apply calm_quiet|done|]. unfold many, db. rewrite E. done.
Qed.

Lemma looks_one sid r name : is_Some (find_relation (r_table r) name) ->
  looks (fun o T => one_of o (related_rows name r T)) (one sid r name).
Proof.
  intros Hr. unfold one. eapply looks_bind; [by apply looks_many|]. intros l.
  eapply looks_weaken; [|apply looks_ret]. intros o T -> Hl. by apply head_one_of.
Qed.

Lemma glances_uuid4 : glances (db uuid4).
Proof.
  intros w Hw. destruct (uuid4_law (ms_db w)) as (u & s' & E & Hu & _). unfold db. rewrite E. done.
Qed.
Lemma glances_utcnow : glances (db utcnow).
Proof.
  intros w Hw. destruct (utcnow_law (ms_db w)) as (t & s' & E & Hu). unfold db. rewrite E. done.
Qed.

Lemma glances_ret {A} (a : A) : glances (mret a).
Proof. eapply looks_glances, looks_ret. Qed.
Lemma glances_of_outcome {A} (o : outcome A) : glances (of_outcome o).
Proof. eapply looks_glances, looks_of_outcome. Qed.
Lemma glances_of_option {A} e (o : option A) : glances (of_option e o).
Proof. eapply looks_glances, looks_of_option. Qed.
Lemma glances_given {A B} e (a : A) (k : A -> MW B) : glances (k a) -> glances (of_option e (Some a) ≫= k).
Proof. done. Qed.
(** The database is left alone, whatever is answered. *)
Definition leaves {A} (m : MW A) : Prop :=
  forall w, calm_state w -> unchanged (ms_db w) (ms_db (m w).2).
Lemma leaves_glances {A} (m : MW A) : glances m -> leaves m.
Proof. intros Hm w Hw. by destruct (Hm w Hw) as [[Hu _] _]. Qed.
Lemma leaves_bind {A B} (m : MW A) (k : A -> MW B) :
  leaves m -> (forall a, leaves (k a)) -> leaves (m ≫= k).
Proof.
  intros Hm Hk w Hw. cbv [mbind M_bind]. specialize (Hm w Hw). destruct (m w) as [[a|e] w1]; simpl in *; [|done].
  etransitivity; [exact Hm|]. apply Hk. by apply (calm_unchanged (ms_db w)).
Qed.
Lemma leaves_answer lib k n : leaves (answer_json lib k n).
Proof.
  unfold answer_json. apply leaves_bind; [apply leaves_glances, looks_glances with (P := fun a _ => serialize_json lib n = Ret a), looks_of_outcome|].
  intros s. by intros w Hw.
Qed.
Lemma glances_create lib c k : glances (create lib c k).
Proof. apply glances_of_outcome. Qed.
Lemma glances_put lib path l n : glances (put lib path l n).
Proof. apply glances_of_outcome. Qed.
Lemma glances_many sid r name : is_Some (find_relation (r_table r) name) -> glances (many sid r name).
Proof. intros. by eapply looks_glances, looks_many. Qed.
Lemma glances_one sid r name : is_Some (find_relation (r_table r) name) -> glances (one sid r name).
Proof. intros. by eapply looks_glances, looks_one. Qed.
End Looks.

#[export] Hint Resolve glances_uuid4 glances_utcnow glances_ret glances_of_outcome glances_of_option
  glances_create glances_put : looks.

Ltac glances_step :=
  match goal with
  | |- glances (_ ≫= _) => apply glances_bind; [|intros ?]
  | |- glances (match ?x with _ => _ end) => destruct x
  end.
Ltac glances_walk := repeat (glances_step || solve [eauto 2 with looks nocore]).
