(* ===== verification/MissionMissing.v ===== *)
(** Missions that are put without a default role that is known. *)
From Stdlib Require Import ZArith Lia Ascii String.
From stdpp Require Import base strings list sets pretty.
From S2P Require Import Prelude.
From S2P Require Import DictToNode.
From S2P Require Import RestGeo.
From S2P Require Import MissionDb.
From S2P Require Import MissionStore.
From S2P Require Import MissionFacts.
From S2P Require Import MissionProps.
From S2P Require Import MissionNodes.
From S2P Require Import MissionBuilders.
From S2P Require Import MissionSample.
From S2P Require Import MissionList.
From S2P Require Import MissionControllers.
From S2P Require Import MissionFacade.
From S2P Require Import MissionLooks.

Set Default Proof Using "All".
Local Open Scope string_scope.
Local Open Scope list_scope.
Local Open Scope py_scope.

Section Missing.
Context {S : Type} `{OrmLaws S, !OrmReliable S} (lib : mission_library).
Implicit Types (w : mission_state S) (s : S) (sid : string).

(** * Missions that are stored *)

Lemma mission_of_table s id m : sane s -> mission_of s id = Some m ->
  m ∈ rows s TMission /\ r_table m = TMission.
Proof.
  intros Hs [Hm _]%found_Some; [|done..]. split; [done|]. by apply (sane_rows s).
Qed.

(** A role that is [NULL] is nobody's. *)
Lemma no_role_rows (T : tables) m : r_table m = TMission -> cell "defaultRole_id" m = DNone ->
  related_rows "defaultRole" m T = [].
Proof.
  intros Ht Hr. unfold related_rows. rewrite Ht.
  change (find_relation TMission "defaultRole")
    with (Some (ToOne "defaultRole" "defaultRole_id" TRole "role_type")).
  cbv beta iota. generalize (T TRole). intros l. induction l as [|r l IH]; [done|]. simpl. unfold refers at 1. rewrite Hr. exact IH.
Qed.

Lemma director_without_role sid m w : calm_state w -> r_table m = TMission ->
  cell "defaultRole_id" m = DNone -> ends (MissionDirector lib sid (Some m)) w.
Proof.
  intros Hw Ht Hr. unfold MissionDirector. cbn [of_option].
  apply ends_after; [unfold MissionListBuilder; glances_walk|done|]. intros l w1 Hw1 _.
  apply ends_after; [unfold MissionListRecordBuilder; glances_walk|done|]. intros n w2 Hw2 _.
  eapply looks_ends; [apply looks_ret|done|]. intros m' w3 Hw3 _ ->.
  eapply looks_ends; [apply looks_one; by rewrite Ht|done|]. intros role w4 Hw4 _ Ho.
  cbv beta in Ho. rewrite no_role_rows in Ho by done. destruct role as [r|]; [by apply not_elem_of_nil in Ho|].
  apply ends_first. unfold MissionRoleBuilder.
  apply ends_after; [apply glances_create|done|]. intros n' w5 Hw5 _. apply ends_first, ends_of_option.
Qed.

Lemma hidden_mission w id m : calm_state w -> mission_of (ms_db w) id = Some m ->
  cell "defaultRole_id" m = DNone -> still w (execute lib (GetMission id) w).2.
Proof.
  intros Hw Hm Hr. apply ends_execute. cbn [perform]. unfold MissionControllers.get_mission.
  apply ends_first. eapply looks_ends; [apply looks_mission|done|]. intros o w1 Hw1 _ Ho.
  cbv beta in Ho. fold (mission_of (ms_db w) id) in Ho. rewrite Hm in Ho. subst o. apply ends_first.
  apply director_without_role; [done|apply (mission_of_table (ms_db w) id); [apply Hw|done]|done].
Qed.

(** * What [put_mission] does *)

Definition given_field (k : string) (args : list (string * json)) : json := default JNull (dget k args).

(** The role that is asked for is none that is stored. *)
Definition role_unknown (v : json) (T : tables) : Prop :=
  (forall l, v <> JDict l) /\ (forall x, db_of_json v <> DOther x) /\
  selected (filter_by TRole [("role_type", db_of_json v)]) T = [].

Lemma requested_role_value args w : (forall l, given_field "defaultRole" args <> JDict l) ->
  requested_role (JDict args) w = (Ret (db_of_json (given_field "defaultRole" args)), w).
Proof.
  unfold requested_role, given_field. intros Hd. cbn.
  destruct (default JNull (dget "defaultRole" args)) as [| | | | |l]; try done. by destruct (Hd l).
Qed.

Lemma no_stored_role sid v w : calm_state w -> role_unknown v (rows (ms_db w)) ->
  exists w', db (get_role sid (db_of_json v)) w = (Ret None, w') /\ calm_state w' /\ still w w'.
Proof.
  intros Hw (_ & Hx & Hn). destruct (first_quiet sid (filter_by TRole [("role_type", db_of_json v)]) (ms_db w))
    as (o & s' & E & Hu & Ho); [by apply calm_quiet| |].
  { unfold askable. cbn. destruct (db_of_json v) eqn:Ev; try done. by destruct (Hx v0). }
  rewrite Hn in Ho. exists (with_db s' w). split; [|by split; [apply (calm_unchanged (ms_db w))|]].
  apply db_ret. destruct o; [by apply not_elem_of_nil in Ho|exact E].
Qed.

Lemma token_given m w : (forall l, exists t, token_of lib l = Ret t) -> calm_state w ->
  exists t w', get_token lib m w = (Ret t, w') /\ calm_state w' /\ unchanged (ms_db w) (ms_db w') /\
    ms_response w' = dset "token" (AText t) (ms_response w).
Proof.
  intros Ht Hw. unfold get_token.
  destruct (uuid4_law (ms_db w)) as (u & s1 & E1 & Hu1 & _).
  rewrite (run_bind _ _ _ _ _ (db_ret _ w _ _ E1)).
  destruct (utcnow_law s1) as (now & s2 & E2 & Hu2).
  rewrite (run_bind _ _ _ _ _ (db_ret _ (with_db s1 w) _ _ E2)).
  assert (Hu : unchanged (ms_db w) s2) by by etransitivity.
  match goal with |- context [token_of lib ?l] => destruct (Ht l) as (t & E) end. rewrite E.
  do 2 eexists. split; [reflexivity|]. split; [|done]. by apply (calm_unchanged (ms_db w)).
Qed.

Lemma first_typed sid t k v s : calm s -> askable (filter_by t [(k, v)]) = true ->
  string_column t "role_type" = true ->
  exists o s', first sid (filter_by t [(k, v)]) s = (Ret o, s') /\ unchanged s s' /\ storable_role o.
Proof.
  intros Hc Ha Ht. destruct (first_quiet sid (filter_by t [(k, v)]) s) as (o & s' & E & Hu & Ho);
    [by apply calm_quiet|done|].
  exists o, s'. split_and!; [done..|]. destruct o as [r|]; [|done]. simpl in *.
  apply elem_of_filter_by in Ho as [Hr _]. unfold storable.
  by destruct (cell_string s t r "role_type" (proj1 Hc) Hr Ht) as [->|[x ->]].
Qed.

(** What is stored of a mission that a client gives arguments for. *)
Definition asked_mission (id : string) (args : list (string * json)) (now : Z) : mission_values :=
  let field k d := DStr (str_of_json lib (default d (dget k args))) in
  mkMissionValues (DStr id) (field "description" JNull) (DTime now)
    (field "passwordProtected" (JText "False")) None (field "serviceUri" JNull)
    (field "classification" JNull) (field "tool" (JText "public")).

Lemma put_mission_begins w id args creator : calm_state w ->
  role_unknown (given_field "defaultRole" args) (rows (ms_db w)) -> dget "createTime" args = None ->
  exists now w1, calm_state w1 /\ still w w1 /\
    put_mission lib id "" args creator w =
      (mission <- db (create_mission "general" id (asked_mission id args now)) ;;
       token <- get_token lib mission ;;
       owner <- db (get_role "general" (DStr "MISSION_OWNER")) ;;
       db (create_subscription "general" DNone id (DStr token) creator owner) ;;;
       mission_obj <- MissionDirector lib "general" (Some mission) ;;
       notification <- create_mission_notification lib ;;
       notification <- complete_mission_creation_notification lib (first_of lib "data" mission_obj) notification ;;
       answer_json lib "mission_subscription" mission_obj ;;;
       message <- serialize_to_xml lib notification ;;
       respond "message" (AText message) ;;;
       create_mission_record "general/change" id creator) w1.
Proof.
  intros Hw Hr Ht. destruct (no_stored_role "general" _ w Hw Hr) as (w1 & E1 & Hw1 & Hs1).
  destruct (utcnow_law (ms_db w1)) as (now & s2 & E2 & Hu2).
  exists now, (with_db s2 w1). split; [by apply (calm_unchanged (ms_db w1))|].
  split; [by etransitivity|]. unfold put_mission.
  rewrite (run_bind _ _ w (JDict args) w) by done.
  rewrite (run_bind _ _ w _ w) by (apply requested_role_value, Hr).
  rewrite (run_bind _ _ _ _ _ E1).
  rewrite (run_bind _ _ w1 now (with_db s2 w1)); [reflexivity|].
  unfold requested_time. cbn [get_or of_outcome]. cbv [mbind M_bind of_outcome]. rewrite Ht.
  by apply (db_ret utcnow).
Qed.

(** It stores the mission and a subscription of its creator, and ends there. *)
Lemma put_mission_ends w id args creator : calm_state w -> mission_of (ms_db w) id = None ->
  role_unknown (given_field "defaultRole" args) (rows (ms_db w)) -> dget "createTime" args = None ->
  (forall l, exists t, token_of lib l = Ret t) -> storable CString creator = true ->
  exists t m r e w', put_mission lib id "" args creator w = (Exn e, w') /\ calm_state w' /\
    ms_response w' = dset "token" (AText t) (ms_response w) /\
    r_table m = TMission /\ cell "PrimaryKey" m = DStr (lower id) /\ cell "defaultRole_id" m = DNone /\
    r_table r = TSubscription /\ cell "mission_uid" r = DStr (lower id) /\
    cell "clientUid" r = to_column CString creator /\
    forall t, rows (ms_db w') t ≡ₚ insert_row r (insert_row m (rows (ms_db w))) t.
Proof.
  intros Hw Hm Hr Ht Htok Hcr.
  destruct (put_mission_begins w id args creator Hw Hr Ht) as (now & w1 & Hw1 & Hs1 & E).
  pose proof (mission_stored "general" (ms_db w1) id (asked_mission id args now) Hw1) as Hst.
  unfold mission_of in Hst, Hm. rewrite (still_rows _ _ Hs1), Hm in Hst.
  destruct Hst as (m & s2 & E2 & Hc2 & Hsh & Htab & Hof & HT); [done|].
  destruct (token_given m (with_db s2 w1) Htok Hc2) as (t & w3 & E3 & Hw3 & Hu3 & Hresp).
  destruct (first_typed "general" TRole "role_type" (DStr "MISSION_OWNER") (ms_db w3) Hw3)
    as (owner & s4 & E4 & Hu4 & Ho); [done..|].
  destruct (subscription_stored "general" s4 id (DStr t) creator owner) as (r & s5 & E5 & Hc5 & Hsub & HT5);
    [by apply (calm_unchanged (ms_db w3))|done..|].
  destruct (director_without_role "general" m (with_db s5 (with_db s4 w3))) as (e & w6 & E6 & Hs6);
    [done|done|apply Hsh|].
  exists t, m, r, e, w6. split.
  { rewrite E, (run_bind _ _ _ _ _ (db_ret _ w1 _ _ E2)), (run_bind _ _ _ _ _ E3).
    rewrite (run_bind _ _ _ _ _ (db_ret _ w3 _ _ E4)), (run_bind _ _ _ _ _ (db_ret _ (with_db s4 w3) _ _ E5)).
    by apply run_bind_exn. }
  split; [by apply (still_calm _ _ Hs6)|]. split.
  { destruct Hs6 as (_ & -> & _). simpl. rewrite Hresp. simpl. f_equal. apply Hs1. }
  split_and!; [done|apply Hsh|apply Hsh|apply Hsub..|].
  intros tb. rewrite (still_rows _ _ Hs6). simpl. rewrite HT5. destruct Hu4 as (_ & -> & _), Hu3 as (_ & -> & _).
  apply insert_row_perm. simpl. by rewrite HT.
Qed.

(** A new mission put without a default role that is known is stored, with the subscription of
    its creator and its token answered, before the request fails; whatever happens
    afterwards to other rows, while the mission stays as it is asking for it raises. *)
Theorem mission_without_role_stays_hidden w id args creator :
  calm_state w -> mission_of (ms_db w) id = None ->
  role_unknown (given_field "defaultRole" args) (rows (ms_db w)) -> dget "createTime" args = None ->
  (forall l, exists t, token_of lib l = Ret t) -> storable CString creator = true ->
  let w' := (execute lib (PutMission id "" args creator) w).2 in
  calm_state w' /\ (exists t, ms_response w' = dset "token" (AText t) (ms_response w)) /\
  (exists m, mission_of (ms_db w') id = Some m /\ cell "defaultRole_id" m = DNone) /\
  (exists r, rows (ms_db w') TSubscription ≡ₚ rows (ms_db w) TSubscription ++ [r] /\
     cell "mission_uid" r = DStr (lower id) /\ cell "clientUid" r = to_column CString creator) /\
  forall w2, calm_state w2 -> mission_of (ms_db w2) id = mission_of (ms_db w') id ->
    still w2 (execute lib (GetMission id) w2).2.
Proof.
  intros Hw Hm Hr Ht Htok Hcr w'.
  destruct (put_mission_ends w id args creator Hw Hm Hr Ht Htok Hcr)
    as (t & m & r & e & w1 & E & Hw1 & Hresp & Htab & Hk & Hrole & Hrt & Hr1 & Hr2 & HT).
  assert (w' = w1) as ->.
  { subst w'. unfold execute, try_except, try_with. cbn [perform]. rewrite E. by destruct (is_Exception e). }
  assert (Hm' : mission_of (ms_db w1) id = Some m).
  { apply found_Some; [apply Hw1|done|]. split; [|done]. rewrite HT. unfold insert_row.
    rewrite Hrt, Htab. rewrite decide_False, decide_True by done. set_solver. }
  split_and!; [done|by exists t|by exists m| |].
  - exists r. split; [|done]. rewrite HT. unfold insert_row. rewrite Hrt, Htab.
    by rewrite decide_True, decide_False by done.
  - intros w2 Hw2 E2. apply (hidden_mission w2 id m); [done|by rewrite E2|done].
Qed.
End Missing.

Lemma mission_without_role_stays_hidden_witness :
  let w' := (execute library (PutMission "m" "" [] (DStr "c")) (state_of [])).2 in
  (exists m, mission_of (ms_db w') "m" = Some m /\ cell "defaultRole_id" m = DNone) /\
  still w' (execute library (GetMission "m") w').2.
Proof.
  intros w'. destruct (mission_without_role_stays_hidden library (state_of []) "m" [] (DStr "c"))
    as (Hc & _ & Hm & _ & Hs).
  - apply database_calm. reflexivity.
  - reflexivity.
  - split; [intros l; discriminate|]. split; [intros x; discriminate|reflexivity].
  - reflexivity.
  - intros l. exists "token". reflexivity.
  - reflexivity.
  - split; [exact Hm|]. apply Hs; [exact Hc|reflexivity].
Defined.
