(* ===== verification/MissionLogs.v ===== *)
(** The logs of the missions. *)
From Stdlib Require Import ZArith Lia Ascii String.
From stdpp Require Import base strings list sets pretty.
From S2P Require Import Prelude.
From S2P Require Import DictToNode.
From S2P Require Import RestGeo.
From S2P Require Import MissionDb.
From S2P Require Import MissionStore.
From S2P Require Import MissionList.
From S2P Require Import MissionFacts.
From S2P Require Import MissionProps.
From S2P Require Import MissionNodes.
From S2P Require Import MissionBuilders.
From S2P Require Import MissionSample.
From S2P Require Import MissionControllers.
From S2P Require Import MissionFacade.
From S2P Require Import MissionLooks.

Set Default Proof Using "All".
Local Open Scope string_scope.
Local Open Scope list_scope.
Local Open Scope py_scope.

Section Logs.
Context {S : Type} `{OrmLaws S, !OrmReliable S}.
Implicit Types (w : mission_state S) (s : S) (sid : string).

(** * The logs of a time *)

Lemma created_between s r t1 t2 : sane s -> r ∈ rows s TLog ->
  forallb (satisfies r) [mkCondition "created" Ge (DTime t1); mkCondition "created" Le (DTime t2)] = true <->
  exists t, cell "created" r = DTime t /\ (t1 <= t <= t2)%Z.
Proof.
  intros Hs Hr.
  assert (Hty := sane_types s TLog r (mkColumn "created" CDateTime NoDefault false) Hs Hr ltac:(set_solver)).
  simpl in Hty. cbn. unfold satisfies. cbn. destruct (cell "created" r) as [| | | |t|]; try done; [naive_solver|].
  rewrite !andb_true_r, andb_true_iff, !Z.leb_le. split; [by exists t|by intros (? & [= ->] & ?)].
Qed.

(** The logs of a mission between two times are the entries of the mission whose log was
    created between them, the times included, each once; asking changes nothing. *)
Theorem logs_between sid id t1 t2 s : calm s ->
  exists l s', get_mission_logs_by_time sid id t1 t2 s = (Ret l, s') /\ unchanged s s' /\ NoDup l /\
    forall r, r ∈ l <-> r ∈ rows s TMissionLog /\ cell "mission_uid" r = DStr (lower id) /\
      exists log x t, log ∈ rows s TLog /\ cell "log_id" r = DStr x /\ cell "id" log = DStr x /\
        cell "created" log = DTime t /\ (t1 <= t <= t2)%Z.
Proof.
  intros Hc. pose proof (proj1 Hc) as Hs. unfold get_mission_logs_by_time.
  match goal with |- context [query sid ?q] => destruct (query_quiet sid q s) as (l & s' & E & Hu & Hl);
    [by apply calm_quiet|done|] end.
  exists l, s'. split_and!; [done..| |].
  - rewrite Hl. unfold selected. apply NoDup_ListNoDup, List.NoDup_filter, NoDup_ListNoDup, rows_NoDup, Hs.
  - intros r. rewrite Hl, elem_of_selected. cbn [q_table q_where q_join j_table j_where j_fk j_key].
    cbn [forallb]. rewrite andb_true_r, satisfies_eq. split.
    + intros (Hr & Hid & log & Hlog & Href & Ht). split; [done|].
      split; [by apply (string_eqb s TMissionLog)|].
      apply (refers_at s TMissionLog _ TLog) in Href as (x & Hx & Hx'); [|done..].
      apply (created_between s) in Ht as (t & Hct & Ht); [|done..]. by exists log, x, t.
    + intros (Hr & Hid & log & x & t & Hlog & Hx & Hx' & Hct & Ht).
      split; [done|]. split; [by apply (string_eqb s TMissionLog)|]. exists log. split; [done|].
      split; [apply (refers_at s TMissionLog _ TLog); [done..|by exists x]|].
      apply (created_between s); [done..|by exists t].
Qed.

(** * Logs that are deleted *)

Lemma delete_calm sid s r : calm s ->
  (forall name target fk key, ToMany name target fk key ∈ relations (r_table r) -> fk ∉ key_names target) ->
  exists s', delete_object sid (Some r) s = (Ret tt, s') /\ calm s' /\
    forall t, rows s' t ≡ₚ delete_rows r (rows s) t.
Proof.
  intros Hc Hrel. pose proof (calm_quiet sid s Hc) as (Hs & Hb & Hp & Hal).
  unfold delete_object. destruct (delete_law sid r s) as (s1 & E1 & Ho1 & Hr1 & Hp1 & Hb1).
  rewrite Hp in Hp1. simpl in Hp1. rewrite (run_bind _ _ s r s) by done. rewrite (run_bind _ _ _ _ _ E1).
  destruct (commit_total sid s1) as (l & s2 & E2).
  { by apply Ho1. }
  { split_and!; [congruence| |].
    - intros sid' Hne. rewrite (proj1 (proj2 Ho1 sid' Hne)). by apply Hal.
    - rewrite Hp1. split_and!; try by intros ? ? ?%not_elem_of_nil.
      + constructor.
      + by intros ? ? ? ?%not_elem_of_nil.
      + by intros r0 c v ?%list_elem_of_singleton.
      + intros r0 name target fk key [= ->]%list_elem_of_singleton. by apply Hrel. }
  rewrite (run_bind _ _ _ _ _ E2). exists s2. split; [done|].
  destruct (commit_ret _ _ _ _ E2) as (Ho2 & _ & (T & He & HT) & Hp2 & Hb2).
  rewrite Hp1, Hr1 in He. inversion He as [| | |? ? ? ? ? Hrest]; subst. inversion Hrest; subst.
  split; [|done]. apply (calm_others sid s); [by etransitivity|done..].
Qed.

Definition log_of s (x : string) : option row := found (rows s) TLog "id" x.

Lemma log_deleted sid s x r : calm s -> log_of s x = Some r ->
  exists s', MissionStore.delete_mission_log sid (DStr x) s = (Ret tt, s') /\ calm s' /\
    forall t, rows s' t ≡ₚ delete_rows r (rows s) t.
Proof.
  intros Hc Hr. destruct (find_by_key sid s TLog "id" x Hc) as (s1 & E1 & Hu); [done|].
  unfold log_of in Hr. rewrite Hr in E1. apply found_Some in Hr as [Hr _]; [|apply Hc|done].
  destruct (delete_calm sid s1 r) as (s2 & E2 & Hc2 & HT); [by apply (calm_unchanged s)| |].
  { rewrite (proj1 (sane_rows s TLog r (proj1 Hc) Hr)).
    intros name target fk key [= -> -> -> ->]%list_elem_of_singleton. by apply (bool_decide_unpack _). }
  exists s2. split; [|split; [done|]].
  - unfold MissionStore.delete_mission_log. apply or_rollback_ret. by rewrite (run_bind _ _ _ _ _ E1).
  - intros t. rewrite HT. destruct Hu as (_ & Hrows & _). by rewrite Hrows.
Qed.

(** What becomes of the entries of a log that is deleted. *)
Definition orphaned (ml : row) : row := set_cells [("log_id", DNone)] ml.

Lemma entry_orphaned s x r ml : sane s -> log_of s x = Some r ->
  ml ∈ rows s TMissionLog -> cell "log_id" ml = DStr x -> orphaned ml ∈ delete_rows r (rows s) TMissionLog.
Proof.
  intros Hs [Hr Hx]%found_Some Hml Hid; [|done..].
  pose proof (proj1 (sane_rows s _ _ Hs Hr)) as Ht. pose proof (proj1 (sane_rows s _ _ Hs Hml)) as Ht'.
  unfold delete_rows. apply list_elem_of_fmap. exists ml. split.
  - unfold forget, orphaned. rewrite Ht. cbn [relations mapping Log m_relations fold_left].
    rewrite bool_decide_eq_true_2 by done. unfold refers. rewrite Hid, Hx. simpl.
    by rewrite bool_decide_eq_true_2.
  - apply list_elem_of_In, filter_In. split; [by apply list_elem_of_In|]. unfold same_row.
    rewrite bool_decide_eq_false_2; [done|]. rewrite Ht, Ht'. by intros [? _].
Qed.

Lemma cell_orphaned k ml : cell k (orphaned ml) = if decide (k = "log_id") then DNone else cell k ml.
Proof. apply cell_set_cells. Qed.

(** * Logs that are created *)

Definition log_draft (v : log_values) : draft :=
  with_cell "creatorUid" (lv_contentUid v) (with_cell "contentHashes" (lv_contentHashes v)
  (with_cell "keywords" (lv_keywords v) (with_cell "created" (lv_created v)
  (with_cell "dtg" (lv_dtg v) (with_cell "servertime" (lv_servertime v)
  (with_cell "creatorUid" (lv_creatorUid v) (with_cell "content" (lv_content v)
  (with_cell "entryUid" (lv_uid v) (with_cell "id" (lv_id v) (new TLog)))))))))).

Definition entry_draft (l : row) (m : row) : draft :=
  with_link "log" (Some l) (with_link "mission" (Some m) (new TMissionLog)).

(** The missions [ids] of a log. *)
Definition missions_of s (ids : list string) (ms : list row) : Prop :=
  Forall2 (fun id m => mission_of s id = Some m) ids ms.

Lemma entry_insertable (T : tables) l m : storable CString (cell "id" l) = true ->
  storable CString (cell "PrimaryKey" m) = true -> insertable T (entry_draft l m).
Proof using Type. intros Hl Hm. split; [done|]. each_column. Qed.

Lemma entries_insertable (T : tables) l ms : storable CString (cell "id" l) = true ->
  (forall m, m ∈ ms -> storable CString (cell "PrimaryKey" m) = true) ->
  insertable_list T (entry_draft l <$> ms).
Proof using Type.
  intros Hl Hms. split.
  - apply Forall_forall. intros d (m & -> & Hm)%list_elem_of_fmap. by apply entry_insertable, Hms.
  - clear Hms. induction ms as [|m ms IH]; [apply NoDup_nil_2|exact IH].
Qed.

Lemma mission_key s id m : sane s -> mission_of s id = Some m -> cell "PrimaryKey" m = DStr (lower id).
Proof. intros Hs [_ Hk]%found_Some; done. Qed.

(** The missions are found while the entries wait to be written. *)
Lemma log_missions_adding sid l ids ms ms0 s : missions_of s ids ms ->
  storable CString (cell "id" l) = true ->
  (forall m, m ∈ ms0 -> storable CString (cell "PrimaryKey" m) = true) ->
  adding sid (entry_draft l <$> ms0) s ->
  exists s', log_missions sid (Some l) (JList (JText <$> ids)) s = (Ret tt, s') /\
    adding sid (entry_draft l <$> ms0 ++ ms) s' /\ rows s' = rows s /\ others sid s s'.
Proof.
  intros Hms Hl. unfold log_missions. cbn [iterate].
  revert ms ms0 s Hms. induction ids as [|id ids IH]; intros ms ms0 s Hms Hms0 Ha.
  { inversion Hms; subst. exists s. by rewrite app_nil_r. }
  inversion Hms as [|? m ? ms' Hm Hms']; subst.
  destruct (find_adding sid (entry_draft l <$> ms0) TMission "PrimaryKey" (lower id) s Ha) as (s1 & E1 & Hu1).
  { by apply entries_insertable. }
  { done. }
  { by intros d (m' & -> & _)%list_elem_of_fmap. }
  unfold mission_of in Hm. rewrite Hm in E1.
  destruct (add_adding sid (entry_draft l <$> ms0) (entry_draft l m) s1) as (s2 & E2 & Ha2 & Hr2 & Ho2);
    [by eapply adding_unchanged|].
  pose proof (unchanged_rows s s1 Hu1) as Hr1.
  destruct (IH ms' (ms0 ++ [m]) s2) as (s3 & E3 & Ha3 & Hr3 & Ho3).
  - eapply Forall2_impl; [exact Hms'|]. intros i m' Hi. unfold mission_of in *. by rewrite Hr2, Hr1.
  - intros m' [Hm'| ->%list_elem_of_singleton]%elem_of_app; [by apply Hms0|].
    by rewrite (mission_key s id m (proj1 Ha) Hm).
  - by rewrite fmap_app.
  - exists s3. split; [|split; [by rewrite <- app_assoc in Ha3|split; [congruence|]]].
    + rewrite (run_bind _ _ s (JText <$> id :: ids) s) by done. rewrite fmap_cons. cbn [for_each].
      rewrite (run_bind _ _ s tt s2); [exact E3|]. cbv beta.
      rewrite (run_bind _ _ s id s) by done. unfold MissionStore.get_mission.
      rewrite (run_bind _ _ _ _ _ E1). exact E2.
    + by etransitivity; [by apply unchanged_others|etransitivity].
Qed.

Definition storable_log (v : log_values) : Prop :=
  storable CString (lv_uid v) = true /\ storable CString (lv_content v) = true /\
  storable CString (lv_contentUid v) = true /\ storable CDateTime (lv_servertime v) = true /\
  storable CDateTime (lv_dtg v) = true /\ storable CDateTime (lv_created v) = true /\
  storable CString (lv_contentHashes v) = true /\ storable CString (lv_keywords v) = true.

(** The uids of the contents are stored where the creator belongs. *)
Definition shows_log (v : log_values) (l : row) : Prop :=
  cell "entryUid" l = to_column CString (lv_uid v) /\ cell "content" l = to_column CString (lv_content v) /\
  cell "creatorUid" l = to_column CString (lv_contentUid v) /\
  cell "servertime" l = lv_servertime v /\ cell "dtg" l = lv_dtg v /\ cell "created" l = lv_created v /\
  cell "contentHashes" l = to_column CString (lv_contentHashes v) /\
  cell "keywords" l = to_column CString (lv_keywords v).

Lemma log_insertable s v x : sane s -> lv_id v = DStr x -> log_of s x = None -> storable_log v ->
  insertable (rows s) (log_draft v).
Proof.
  intros Hs Hx Hn (? & ? & ? & ? & ? & ? & ? & ?). split.
  - intros k Hk. assert (k = [DStr x]) as ->.
    { unfold draft_key in Hk. cbn in Hk. rewrite Hx in Hk. by injection Hk. }
    split; [by intros ?%list_elem_of_singleton|]. intros r Hr E. rewrite (row_key_string s TLog "id") in E by done. injection E as E.
    by apply (proj1 (found_None s TLog "id" x Hs ltac:(done)) Hn) in E.
  - destruct v; simpl in *; subst. unfold log_draft. each_column.
Qed.

Lemma log_list_insertable s v x ms : sane s -> lv_id v = DStr x -> log_of s x = None -> storable_log v ->
  (forall m, m ∈ ms -> storable CString (cell "PrimaryKey" m) = true) ->
  insertable_list (rows s) ((entry_draft (as_row (log_draft v)) <$> ms) ++ [log_draft v]).
Proof.
  intros Hs Hx Hn Hv Hms.
  destruct (entries_insertable (rows s) (as_row (log_draft v)) ms) as [He _]; [|done|].
  { change (cell "id" (as_row (log_draft v))) with (lv_id v). by rewrite Hx. }
  split.
  - apply Forall_app. split; [done|]. apply Forall_singleton. by apply (log_insertable s v x).
  - clear He Hms. induction ms as [|m ms IH]; [apply NoDup_singleton|exact IH].
Qed.

Lemma entries_shown l ms es ids s : sane s -> become (entry_draft l <$> ms) es -> missions_of s ids ms ->
  Forall2 (fun id e => r_table e = TMissionLog /\ cell "mission_uid" e = DStr (lower id) /\
    cell "log_id" e = to_column CString (cell "id" l)) ids es.
Proof.
  intros Hs Hb Hms. revert es Hb. induction Hms as [|id m ids ms Hm Hms IH]; intros es Hb.
  - inversion Hb; subst. constructor.
  - rewrite fmap_cons in Hb. inversion Hb as [|? e ? es' (T & He) Hb']; subst. constructor; [|by apply IH].
    split; [apply He|]. split; [|by apply (becomes_cell _ _ _ _ _ He)].
    rewrite (becomes_cell _ _ _ "mission_uid" (to_column CString (cell "PrimaryKey" m)) He eq_refl).
    by rewrite (mission_key s id m Hs Hm).
Qed.

Lemma table_of_entries {A} (P : A -> row -> Prop) (ids : list A) es t :
  Forall2 (fun id e => r_table e = t /\ P id e) ids es -> of_table t es = es /\ forall t', t' <> t -> of_table t' es = [].
Proof using Type.
  induction 1 as [|id e ids es (He & _) Hes [IH1 IH2]]; [done|]. unfold of_table in *. simpl. rewrite He. split.
  - by rewrite bool_decide_eq_true_2, IH1.
  - intros t' Hne. by rewrite bool_decide_eq_false_2, IH2.
Qed.

Lemma missions_exist s ids : (forall id, id ∈ ids -> is_Some (mission_of s id)) ->
  exists ms, missions_of s ids ms.
Proof.
  induction ids as [|id ids IH]; intros Hids; [exists []; constructor|].
  destruct (Hids id) as [m Hm]; [by left|]. destruct IH as [ms Hms]; [intros; apply Hids; by right|].
  exists (m :: ms). by constructor.
Qed.

(** A log with a new id is stored once with one entry for each mission it is for,
    and found by its id afterwards; no other table changes. *)
Theorem log_is_created sid s ids v x : calm s -> lv_id v = DStr x -> log_of s x = None ->
  storable_log v -> (forall id, id ∈ ids -> is_Some (mission_of s id)) ->
  exists l es s', create_log sid (JList (JText <$> ids)) v s = (Ret l, s') /\ calm s' /\
    log_of s' x = Some l /\ shows_log v l /\
    rows s' TLog ≡ₚ rows s TLog ++ [l] /\ rows s' TMissionLog ≡ₚ rows s TMissionLog ++ es /\
    Forall2 (fun id e => cell "mission_uid" e = DStr (lower id) /\ cell "log_id" e = DStr x) ids es /\
    forall t, t <> TLog -> t <> TMissionLog -> rows s' t ≡ₚ rows s t.
Proof.
  intros Hc Hx Hn Hv Hids. pose proof (proj1 Hc) as Hs. destruct (missions_exist s ids Hids) as [ms Hms].
  destruct (log_missions_adding sid (as_row (log_draft v)) ids ms [] s Hms) as (s1 & E1 & Ha1 & Hr1 & Ho1).
  { change (cell "id" (as_row (log_draft v))) with (lv_id v). by rewrite Hx. }
  { by intros m ?%not_elem_of_nil. }
  { by apply calm_adding. }
  destruct (add_adding sid _ (log_draft v) s1 Ha1) as (s2 & E2 & Ha2 & Hr2 & Ho2).
  destruct (commit_adding_calm sid _ s s2 Hc ltac:(by etransitivity) Ha2) as (rs & s3 & E3 & Hc3 & Hb & HT).
  { rewrite Hr2, Hr1. apply (log_list_insertable s v x); [done..|]. intros m Hm.
    destruct (Forall2_elem_r _ _ _ _ Hms Hm) as (id & _ & Hid). by rewrite (mission_key s id m Hs Hid). }
  rewrite Hr2, Hr1 in HT. apply Forall2_app_inv_l in Hb as (es & ls & Hes & Hls & ->).
  inversion Hls as [|? l ? ls' (T & Hl) Hnil]; subst. inversion Hnil; subst.
  pose proof (entries_shown (as_row (log_draft v)) ms es ids s Hs Hes Hms) as Hsh.
  assert (Hlx : cell "id" l = DStr x).
  { rewrite (becomes_cell _ _ _ "id" (to_column CString (lv_id v)) Hl eq_refl). by rewrite Hx. }
  destruct (table_of_entries _ _ _ _ Hsh) as [Hes1 Hes2].
  assert (HTl : forall t, rows s3 t ≡ₚ rows s t ++ of_table t es ++ of_table t [l]).
  { intros t. rewrite HT. unfold with_inserted, of_table. by rewrite List.filter_app. }
  assert (Htl : r_table l = TLog) by apply Hl. unfold of_table at 2 in HTl. cbn [List.filter] in HTl. rewrite Htl in HTl.
  assert (HTL : rows s3 TLog ≡ₚ rows s TLog ++ [l]) by by rewrite HTl, Hes2.
  exists l, es, s3. split_and!; [|done| | |done| | |].
  - unfold create_log. apply or_rollback_ret. fold (log_draft v). rewrite (run_bind _ _ _ _ _ E1).
    unfold add_commit. rewrite (run_bind _ _ _ _ _ E2), (run_bind _ _ _ _ _ E3). by rewrite last_snoc.
  - apply found_Some; [apply Hc3|done|]. split; [|done]. rewrite HTL. set_solver.
  - unfold shows_log. split_and!; by apply (becomes_cell _ _ _ _ _ Hl).
  - by rewrite HTl, Hes1, app_nil_r.
  - eapply Forall2_impl; [exact Hsh|]. intros id e (_ & ? & E). split; [done|]. rewrite E.
    change (cell "id" (as_row (log_draft v))) with (lv_id v). by rewrite Hx.
  - intros t Ht Ht'. by rewrite HTl, Hes2, bool_decide_eq_false_2, app_nil_r by congruence.
Qed.

Context (lib : mission_library).

(** The logs of entries, with [None] where the log is gone. *)
Definition their_logs (l : list row) (os : list (option row)) (T : tables) : Prop :=
  Forall2 (fun r o => one_of o (related_rows "log" r T)) l os.

Lemma looks_logs_of sid l : (forall r, r ∈ l -> r_table r = TMissionLog) ->
  looks (their_logs l) (logs_of sid l).
Proof.
  induction l as [|r l IH]; intros Hl; simpl.
  - eapply looks_weaken; [|apply looks_ret]. intros os T ->. constructor.
  - eapply looks_bind; [apply looks_one; by rewrite Hl by left|]. intros o.
    apply (looks_weaken (fun os T => exists os', os = o :: os' /\ their_logs l os' T)).
    { intros os T (os' & -> & Hos) Ho. by constructor. }
    eapply looks_bind; [apply IH; intros; apply Hl; by right|]. intros os.
    eapply looks_weaken; [|apply looks_ret]. intros ? T -> Hos. by exists os.
Qed.

Lemma their_logs_table s l os o r : sane s -> their_logs l os (rows s) -> (forall ml, ml ∈ l -> ml ∈ rows s TMissionLog) ->
  o ∈ os -> o = Some r -> r_table r = TLog.
Proof.
  intros Hs Hos Hl Ho ->. destruct (Forall2_elem_r _ _ _ _ Hos Ho) as (ml & Hml & Hr).
  assert (Hin : r ∈ rows s TLog); [|by apply (sane_rows s)].
  simpl in Hr. unfold related_rows in Hr. rewrite (proj1 (sane_rows s _ _ Hs (Hl ml Hml))) in Hr.
  by apply list_elem_of_In, filter_In in Hr as [Hr%list_elem_of_In _].
Qed.

Lemma orphan_has_no_log s l os ml : sane s -> their_logs l os (rows s) -> ml ∈ l ->
  ml ∈ rows s TMissionLog -> cell "log_id" ml = DNone -> None ∈ os.
Proof.
  intros Hs Hos Hml Hin Hid. destruct (Forall2_elem_l _ _ _ _ Hos Hml) as (o & Ho & Hr).
  destruct o as [r|]; [|done]. simpl in Hr. unfold related_rows in Hr.
  rewrite (proj1 (sane_rows s _ _ Hs Hin)) in Hr.
  apply list_elem_of_In, filter_In in Hr as [_ Hr]. unfold refers in Hr. by rewrite Hid in Hr.
Qed.

Lemma glances_append_missions l n : glances (append_missions lib l n : M (mission_state S) _).
Proof. revert n. induction l as [|r l IH]; intros n; simpl; glances_walk. Qed.

Lemma glances_log_object sid n r : r_table r = TLog -> glances (complete_mission_log_object lib sid n (Some r)).
Proof.
  intros Hr. apply glances_given. apply glances_bind; [apply glances_put|]. intros n'.
  apply glances_bind; [apply glances_many; by rewrite Hr|]. intros l. apply glances_append_missions.
Qed.

(** An entry without its log ends the answer. *)
Lemma put_logs_ends sid os n w : calm_state w -> None ∈ os ->
  (forall o r, o ∈ os -> o = Some r -> r_table r = TLog) -> ends (put_logs lib sid os n) w.
Proof.
  revert n w. induction os as [|o os IH]; intros n w Hw Hin Hos; [by apply not_elem_of_nil in Hin|]. simpl.
  apply ends_after; [apply glances_create|done|]. intros log w1 Hw1 _.
  destruct o as [r|]; [|apply ends_first, ends_first, ends_of_option].
  apply elem_of_cons in Hin as [|Hin]; [done|].
  apply ends_after; [apply glances_log_object; apply (Hos (Some r)); [by left|done]|done|].
  intros log' w2 Hw2 _. apply ends_after; [apply glances_put|done|]. intros n' w3 Hw3 _.
  apply IH; [done..|]. intros o r' Ho. apply Hos. by right.
Qed.

(** * What is asked for after that *)

Lemma looks_mission_logs sid id m : r_table m = TMission ->
  looks (fun l T => found T TMission "PrimaryKey" (lower id) = Some m -> l ≡ₚ related_rows "logs" m T)
    (db (MissionStore.get_mission_logs sid id)).
Proof.
  intros Ht w Hw. unfold db, MissionStore.get_mission_logs, MissionStore.get_mission.
  destruct (find_by_key sid (ms_db w) TMission "PrimaryKey" (lower id)) as (s1 & E1 & Hu1); [done..|].
  rewrite (run_bind _ _ _ _ _ E1). unfold relationship.
  destruct (found (rows (ms_db w)) TMission "PrimaryKey" (lower id)) as [m'|] eqn:Em; [|done].
  assert (Ht' : r_table m' = TMission).
  { apply found_Some in Em as [Em _]; [|apply Hw|done]. apply (sane_rows (ms_db w)); [apply Hw|done]. }
  destruct (related_quiet sid m' "logs" s1) as (l & s2 & E2 & Hu2 & Hl);
    [apply calm_quiet; by apply (calm_unchanged (ms_db w))|by rewrite Ht'|].
  rewrite (run_bind _ _ s1 m' s1) by done. rewrite E2. simpl. split.
  - split_and!; [by etransitivity|done..].
  - intros [= ->]. rewrite Hl. destruct Hu1 as (_ & Hr & _). by rewrite Hr.
Qed.

Lemma elem_of_related_logs s m x r : sane s -> m ∈ rows s TMission -> cell "PrimaryKey" m = DStr x ->
  r ∈ related_rows "logs" m (rows s) <-> r ∈ rows s TMissionLog /\ cell "mission_uid" r = DStr x.
Proof.
  intros Hs Hm Hx. unfold related_rows. rewrite (proj1 (sane_rows s _ _ Hs Hm)).
  change (find_relation TMission "logs") with (Some (ToMany "logs" TMissionLog "mission_uid" "PrimaryKey")).
  cbv beta iota. rewrite list_elem_of_In, filter_In, <- list_elem_of_In. split.
  - intros [Hr Href]. split; [done|].
    apply (refers_at s TMissionLog _ TMission) in Href as (y & -> & Hy); [congruence|done..].
  - intros [Hr E]. split; [done|]. apply (refers_at s TMissionLog _ TMission); [done..|by exists x].
Qed.

Lemma orphan_ends_logs w id m ml : calm_state w -> mission_of (ms_db w) id = Some m ->
  ml ∈ rows (ms_db w) TMissionLog -> cell "mission_uid" ml = DStr (lower id) -> cell "log_id" ml = DNone ->
  ends (get_mission_logs lib id JNull JNull JNull) w.
Proof.
  intros Hw Hm Hml Hid Hlog. pose proof (proj1 Hw) as Hs. unfold mission_of in Hm.
  pose proof Hm as [Hmr Hk]%found_Some; [|done..]. pose proof (proj1 (sane_rows _ _ _ Hs Hmr)) as Ht.
  unfold get_mission_logs. eapply looks_ends; [apply looks_ret|done|]. intros span w1 Hw1 Hr1 ->.
  eapply looks_ends; [by apply (looks_mission_logs "logs" id m)|done|]. intros l w2 Hw2 Hr2 Hl.
  rewrite Hr1 in *. cbv beta in Hl. specialize (Hl Hm).
  apply ends_after; [apply glances_create|done|]. intros n w3 Hw3 Hr3.
  assert (Hlt : forall r, r ∈ l <-> r ∈ rows (ms_db w) TMissionLog /\ cell "mission_uid" r = DStr (lower id)).
  { intros r. rewrite Hl, (elem_of_related_logs (ms_db w) m (lower id) r Hs Hmr Hk). done. }
  eapply looks_ends; [apply looks_logs_of|done|].
  { intros r [Hr _]%Hlt. by apply (sane_rows (ms_db w)). }
  intros os w4 Hw4 Hr4 Hos. cbv beta in Hos. rewrite Hr3, Hr2 in Hos.
  apply ends_first. unfold complete_log_collection_object.
  apply ends_after; [apply glances_put|done|]. intros n' w5 Hw5 _. apply put_logs_ends; [done| |].
  - apply (orphan_has_no_log (ms_db w) l os ml); [done..|by apply Hlt|done|done].
  - intros o r Ho. apply (their_logs_table (ms_db w) l os); [done..| |done]. intros ml' [? _]%Hlt. done.
Qed.

(** Only logs and their entries change. *)
Lemma forget_other r r' : r_table r = TLog -> r_table r' <> TMissionLog -> forget r r' = r'.
Proof using Type.
  intros Hr Hr'. unfold forget. rewrite Hr. cbn [relations mapping Log m_relations fold_left].
  by rewrite bool_decide_eq_false_2.
Qed.

Lemma delete_rows_other s r t : sane s -> r_table r = TLog -> t <> TMissionLog ->
  delete_rows r (rows s) t = List.filter (fun r' => negb (same_row r r')) (rows s t).
Proof.
  intros Hs Hr Ht. unfold delete_rows.
  assert (Hall : forall r', r' ∈ List.filter (fun r' => negb (same_row r r')) (rows s t) -> r_table r' = t).
  { intros r' [Hin%list_elem_of_In _]%list_elem_of_In%filter_In. by apply (sane_rows s). }
  induction (List.filter _ _) as [|r' l IH]; [done|]. rewrite fmap_cons, IH.
  - f_equal. apply forget_other; [done|]. by rewrite Hall by left.
  - intros r0 Hr0. apply Hall. by right.
Qed.

Lemma not_same_table r r' : r_table r <> r_table r' -> same_row r r' = false.
Proof using Type. intros Ht. apply bool_decide_eq_false_2. by intros [? _]. Qed.

Lemma same_log s x r r' : sane s -> log_of s x = Some r -> r' ∈ rows s TLog ->
  same_row r r' = true <-> cell "id" r' = DStr x.
Proof.
  intros Hs [Hr Hx]%found_Some Hr'; [|done..]. unfold same_row.
  rewrite bool_decide_eq_true, (row_key_string s TLog "id") by done.
  rewrite (row_key_string s TLog "id" r'), Hx by done.
  rewrite (proj1 (sane_rows s _ _ Hs Hr)), (proj1 (sane_rows s _ _ Hs Hr')).
  split; [by intros [_ [= <-]]|by intros ->].
Qed.

(** Deleting a log removes exactly that log, and leaves its entries behind without one: from
    then on the logs of each mission it was for, asked for without a span of time, raise. *)
Theorem deleted_log_hides_logs w x r id m ml : calm_state w -> log_of (ms_db w) x = Some r ->
  mission_of (ms_db w) id = Some m ->
  ml ∈ rows (ms_db w) TMissionLog -> cell "mission_uid" ml = DStr (lower id) -> cell "log_id" ml = DStr x ->
  let w' := (execute lib (DeleteLog (DStr x)) w).2 in
  calm_state w' /\
  (forall r', r' ∈ rows (ms_db w') TLog <-> r' ∈ rows (ms_db w) TLog /\ cell "id" r' <> DStr x) /\
  still w' (execute lib (GetMissionLogs id JNull JNull JNull) w').2.
Proof.
  intros Hw Hr Hm Hml Hid Hlog w'. pose proof (proj1 Hw) as Hs.
  destruct (log_deleted "logs" (ms_db w) x r Hw Hr) as (s1 & E & Hc & HT).
  assert (w' = mkMissionState s1 (ms_response w) (ms_context w) (ms_action w)) as ->.
  { subst w'. unfold execute, try_except, try_with. cbn [perform]. unfold delete_mission_log, db. by rewrite E. }
  pose proof Hr as [Hrt _]%found_Some; [|done..]. pose proof (proj1 (sane_rows _ _ _ Hs Hrt)) as Ht.
  split_and!; [done| |].
  - intros r'. simpl. rewrite HT, delete_rows_other, list_elem_of_In, filter_In, <- list_elem_of_In by done.
    split; intros [Hr' Hne]; (split; [done|]).
    + intros Hx. apply (same_log (ms_db w) x r) in Hx; [|done..]. by rewrite Hx in Hne.
    + destruct (same_row r r') eqn:E'; [|done]. by apply (same_log (ms_db w) x r) in E'.
  - apply ends_execute, ends_first, (orphan_ends_logs _ id m (orphaned ml)); simpl.
    + done.
    + pose proof Hm as [Hmr Hk]%found_Some; [|done..]. apply found_Some; [apply Hc|done|]. split; [|done].
      rewrite HT, delete_rows_other by done. apply list_elem_of_In, filter_In. split; [by apply list_elem_of_In|].
      by rewrite not_same_table by (by rewrite Ht, (proj1 (sane_rows _ _ _ Hs Hmr))).
    + rewrite HT. by apply (entry_orphaned (ms_db w) x).
    + by rewrite cell_orphaned, decide_False.
    + by rewrite cell_orphaned, decide_True.
Qed.
End Logs.

Lemma logs_between_witness :
  exists l s', get_mission_logs_by_time "s" "m" 3 7 (database [mission_row "m"; log_row "l"; entry_row "l" "m"]) =
    (Ret l, s') /\ entry_row "l" "m" ∈ l.
Proof.
  destruct (logs_between "s" "m" 3 7 (database [mission_row "m"; log_row "l"; entry_row "l" "m"]))
    as (l & s' & E & _ & _ & Hl); [apply database_calm; reflexivity|].
  exists l, s'. split; [exact E|]. apply Hl. split; [left|]. split; [reflexivity|].
  exists (log_row "l"), "l", 5%Z. split; [left|]. repeat split; lia.
Defined.

Lemma log_is_created_witness :
  let v := mkLogValues (DStr "e") (DStr "text") (DTime 1) (DTime 2) (DStr "me") (DTime 2) (DStr "[]") (DStr "l")
    (DStr "[]") (DStr "[]") in
  exists l s', create_log "s" (JList (JText <$> ["m"])) v (database [mission_row "m"]) = (Ret l, s') /\
    cell "creatorUid" l = DStr "[]".
Proof.
  intros v. destruct (log_is_created "s" (database [mission_row "m"]) ["m"] v "l")
    as (l & es & s' & E & _ & _ & (_ & _ & Hcr & _) & _).
  - apply database_calm. reflexivity.
  - reflexivity.
  - reflexivity.
  - repeat split.
  - intros id ->%list_elem_of_singleton. eexists. reflexivity.
  - exists l, s'. split; [exact E|exact Hcr].
Defined.

Lemma deleted_log_hides_logs_witness :
  let w := state_of [mission_row "m"; log_row "l"; entry_row "l" "m"] in
  let w' := (execute library (DeleteLog (DStr "l")) w).2 in
  still w' (execute library (GetMissionLogs "m" JNull JNull JNull) w').2.
Proof.
  intros w w'.
  destruct (deleted_log_hides_logs library w "l" (log_row "l") "m" (mission_row "m") (entry_row "l" "m"))
    as (_ & _ & Hs).
  - apply database_calm. reflexivity.
  - reflexivity.
  - reflexivity.
  - left.
  - reflexivity.
  - reflexivity.
  - exact Hs.
Defined.
