(* ===== verification/MissionChanges.v ===== *)
(** What is put to missions: CoTs, external data and the changes that tell of them. *)
From Stdlib Require Import ZArith Lia Ascii String.
From stdpp Require Import base strings list sets pretty.
From S2P Require Import Prelude.
From S2P Require Import DictToNode.
From S2P Require Import RestGeo.
From S2P Require Import MissionDb.
From S2P Require Import MissionStore.
From S2P Require Import MissionFacts.
From S2P Require Import MissionProps.
From S2P Require Import MissionNodes.
From S2P Require Import MissionBuilders.
From S2P Require Import MissionSample.
From S2P Require Import MissionList.
From S2P Require Import MissionControllers.
From S2P Require Import MissionFacade.
From S2P Require Import MissionLooks.
From S2P Require Import MissionMissing.

Set Default Proof Using "All".
Local Open Scope string_scope.
Local Open Scope list_scope.
Local Open Scope py_scope.

Section Changes.
Context {S : Type} `{OrmLaws S, !OrmReliable S}.
Implicit Types (w : mission_state S) (s : S) (sid : string).

(** * Changes *)

(** The column [k] of an object that is linked, a string. *)
Definition linked_key (k : string) (o : option row) : Prop :=
  match o with Some r => storable CString (cell k r) = true | None => True end.

Lemma one_of_key s t q k o : sane s -> q_table q = t -> string_column t k = true ->
  one_of o (selected q (rows s)) -> linked_key k o.
Proof.
  intros Hs Ht Hk. destruct o as [r|]; [|done]. simpl. intros [Hr _]%elem_of_selected. rewrite Ht in Hr.
  unfold storable. by destruct (cell_string s t r k Hs Hr Hk) as [->|[x ->]].
Qed.

(** A string or [None]. *)
Definition plain (v : dbval) : Prop := match v with DStr _ | DNone => True | _ => False end.

Lemma plain_string v : plain v -> to_column CString v = v /\ storable CString v = true /\
  forall t k, askable (filter_by t [(k, v)]) = true.
Proof. by destruct v. Qed.

Definition shows_change (type content creator : dbval) (mission : option row) (c : row) : Prop :=
  r_table c = TChange /\ cell "type" c = type /\ cell "content_uid" c = content /\
  cell "creator_uid" c = creator /\
  cell "mission_uid" c = match mission with Some m => cell "PrimaryKey" m | None => DNone end.

(** The column [x] refers to a row of [rs] by the value [v] of the column [k] of its key:
    it has that value if there is such a row, and is [NULL] if there is none. *)
Definition points_to (rs : list row) (k : string) (v x : dbval) : Prop :=
  x = v /\ (v = DNone \/ exists r, r ∈ rs /\ cell k r = v) \/
  x = DNone /\ forall r, r ∈ rs -> cell k r <> v.

(** What a change tells of, besides its mission. *)
Definition change_links (T : tables) (resource cot ext : dbval) (c : row) : Prop :=
  points_to (T TContent) "PrimaryKey" resource (cell "content_resource_uid" c) /\
  points_to (T TCoT) "uid" cot (cell "cot_detail_uid" c) /\
  cell "external_data_uid" c = ext.

(** The row that is linked, if one is found. *)
Lemma linked_points s t k v o x : sane s -> plain v -> string_column t k = true ->
  one_of o (selected (filter_by t [(k, v)]) (rows s)) ->
  x = match o with Some r => to_column CString (cell k r) | None => DNone end ->
  points_to (rows s t) k v x.
Proof.
  intros Hs Hv Hk Ho ->. destruct o as [r|]; simpl in Ho.
  - apply elem_of_filter_by in Ho as [Hr Hx]. specialize (Hx k v ltac:(left)).
    assert (E : cell k r = v).
    { destruct v as [| | |y| |]; try done; [|by apply (string_eqb s t) in Hx].
      by destruct (cell_string s t r k Hs Hr Hk) as [->|[y E]]; [|rewrite E in Hx]. }
    left. rewrite E, (proj1 (plain_string v Hv)). split; [done|]. right. by exists r.
  - right. split; [done|]. intros r Hr E.
    assert (Hin : r ∈ selected (filter_by t [(k, v)]) (rows s)); [|rewrite Ho in Hin; by apply not_elem_of_nil in Hin].
    apply elem_of_filter_by. split; [done|]. intros k' v' [= -> ->]%list_elem_of_singleton. rewrite E.
    destruct v; try done. by apply bool_decide_eq_true.
Qed.

(** A change is always taken, of a mission that is not there too. *)
Lemma change_stored sid s type content creator id resource cot ext : calm s ->
  plain type -> plain content -> plain creator -> plain resource -> plain cot -> plain ext ->
  exists c s', create_mission_change sid type content creator id resource cot ext s = (Ret c, s') /\
    calm s' /\ shows_change type content creator (mission_of s id) c /\
    change_links (rows s) resource cot ext c /\
    forall t, rows s' t ≡ₚ insert_row c (rows s) t.
Proof.
  intros Hc Ht Hco Hcr Hre Hct Hex. unfold create_mission_change, MissionStore.get_mission.
  destruct (find_by_key sid s TMission "PrimaryKey" (lower id) Hc) as (s1 & E1 & Hu1); [done|].
  rewrite (run_bind _ _ _ _ _ E1). fold (mission_of s id).
  pose proof (calm_unchanged _ _ Hu1 Hc) as Hc1.
  destruct (first_quiet sid (filter_by TContent [("PrimaryKey", resource)]) s1) as (o2 & s2 & E2 & Hu2 & Ho2);
    [by apply calm_quiet|by apply plain_string|].
  unfold get_mission_content. rewrite (run_bind _ _ _ _ _ E2). pose proof (calm_unchanged _ _ Hu2 Hc1) as Hc2.
  destruct (first_quiet sid (filter_by TCoT [("uid", cot)]) s2) as (o3 & s3 & E3 & Hu3 & Ho3);
    [by apply calm_quiet|by apply plain_string|].
  unfold get_mission_cot. rewrite (run_bind _ _ _ _ _ E3). pose proof (calm_unchanged _ _ Hu3 Hc2) as Hc3.
  assert (Hm : linked_key "PrimaryKey" (mission_of s id)).
  { destruct (mission_of s id) as [m|] eqn:Em; [|done]. apply found_Some in Em as [_ Em]; [|apply Hc|done].
    simpl. by rewrite Em. }
  pose proof (fun x => linked_points s1 TContent "PrimaryKey" resource o2 x (proj1 Hc1) Hre eq_refl Ho2) as Hp2.
  pose proof (fun x => linked_points s2 TCoT "uid" cot o3 x (proj1 Hc2) Hct eq_refl Ho3) as Hp3.
  rewrite (unchanged_rows _ _ Hu1) in Hp2. rewrite (unchanged_rows _ _ Hu2), (unchanged_rows _ _ Hu1) in Hp3.
  apply (one_of_key s1 TContent _ "PrimaryKey") in Ho2; [|apply Hc1|done..].
  apply (one_of_key s2 TCoT _ "uid") in Ho3; [|apply Hc2|done..].
  remember (mission_of s id) as mission eqn:Em.
  match goal with |- context [add_commit sid ?x] => set (d := x) end.
  destruct (add_commit_calm sid d s3 Hc3) as (c & s4 & E4 & Hc4 & Hb & HT).
  { apply acceptable_insert. split; [done|]. subst d. unfold linked_key in *.
    destruct (plain_string _ Ht) as (Et & ? & _), (plain_string _ Hco) as (Eco & ? & _),
      (plain_string _ Hcr) as (Ecr & ? & _), (plain_string _ Hex) as (Eex & ? & _).
    each_column; [by destruct mission|by destruct o2|by destruct o3]. }
  exists c, s4. split_and!; [done|done| | |].
  - split_and!; [apply Hb| | | |].
    + rewrite <- (proj1 (plain_string _ Ht)). by apply (becomes_cell _ _ _ _ _ Hb).
    + rewrite <- (proj1 (plain_string _ Hco)). by apply (becomes_cell _ _ _ _ _ Hb).
    + rewrite <- (proj1 (plain_string _ Hcr)). by apply (becomes_cell _ _ _ _ _ Hb).
    + apply (becomes_cell _ _ _ _ _ Hb). destruct mission as [m|]; [|done].
      symmetry in Em. apply found_Some in Em as [_ Ek]; [|apply Hc|done].
      change (Some (to_column CString (cell "PrimaryKey" m)) = Some (cell "PrimaryKey" m)). by rewrite Ek.
  - split_and!.
    + apply Hp2, (becomes_cell _ _ _ _ _ Hb). by destruct o2.
    + apply Hp3, (becomes_cell _ _ _ _ _ Hb). by destruct o3.
    + rewrite <- (proj1 (plain_string _ Hex)). by apply (becomes_cell _ _ _ _ _ Hb).
  - intros t. rewrite HT. apply insert_row_perm.
    by rewrite (unchanged_rows _ _ Hu3), (unchanged_rows _ _ Hu2), (unchanged_rows _ _ Hu1).
Qed.

(** Nothing undoes a change that could not be written: once the session of the changes
    is broken every later change raises, whatever it tells of, and leaves it broken. *)
Theorem failed_change_ends_recording sid s type content creator id resource cot ext :
  broken s sid = true ->
  exists e s', create_mission_change sid type content creator id resource cot ext s = (Exn e, s') /\
    rows s' = rows s /\ broken s' sid = true.
Proof.
  intros Hb. unfold create_mission_change, MissionStore.get_mission, first.
  match goal with |- context [query sid ?q] => destruct (query sid q s) as [[l|e] s'] eqn:E end.
  - apply query_ret in E as (_ & Hb' & _). congruence.
  - destruct (query_exn _ _ _ _ _ E) as (_ & _ & Hr & Hb'). exists e, s'. split; [|by split; [|apply Hb']].
    apply run_bind_exn. by apply run_bind_exn.
Qed.

(** * CoTs *)

Definition cot_in s (id uid : string) : option row :=
  head (selected (filter_by TCoT [("uid", DStr uid); ("mission_uid", DStr (lower id))]) (rows s)).

Lemma elem_of_cot s id uid r : sane s ->
  r ∈ selected (filter_by TCoT [("uid", DStr uid); ("mission_uid", DStr (lower id))]) (rows s) <->
  r ∈ rows s TCoT /\ row_key r = [DStr uid; DStr (lower id)].
Proof.
  intros Hs. rewrite elem_of_filter_by. unfold row_key.
  assert (Hk : forall r, r ∈ rows s TCoT -> (fun k => cell k r) <$> key_names (r_table r) = [cell "uid" r; cell "mission_uid" r]).
  { intros r0 Hr0. by rewrite (proj1 (sane_rows s _ _ Hs Hr0)). }
  split.
  - intros [Hr Hall]. split; [done|]. rewrite Hk by done. f_equal; [|f_equal].
    + apply (string_eqb s TCoT); [done..|]. apply Hall. left.
    + apply (string_eqb s TCoT); [done..|]. apply Hall. right. left.
  - intros [Hr E]. split; [done|]. rewrite Hk in E by done. injection E as E1 E2.
    intros k v [[= -> ->]|[= -> ->]%list_elem_of_singleton]%elem_of_cons; by apply (string_eqb s TCoT).
Qed.

Lemma cot_stored sid s id uid : calm s ->
  match cot_in s id uid with
  | Some _ => exists e s', MissionStore.create_mission_cot sid id (DStr uid) s = (Exn e, s') /\ undone sid e s s'
  | None => exists c s', MissionStore.create_mission_cot sid id (DStr uid) s = (Ret c, s') /\ calm s' /\
      r_table c = TCoT /\ cell "uid" c = DStr uid /\ cell "mission_uid" c = DStr (lower id) /\
      forall t, rows s' t ≡ₚ insert_row c (rows s) t
  end.
Proof.
  intros Hc. pose proof (proj1 Hc) as Hs. unfold MissionStore.create_mission_cot.
  match goal with |- context [add_commit sid ?x] => set (d := x) end.
  unfold cot_in. pose proof (fun r => elem_of_cot s id uid r Hs) as Hsel.
  destruct (selected _ _) as [|c l]; simpl.
  - destruct (add_calm sid d s Hc) as (c & s' & E & Hc' & Hb & HT).
    { split.
      - intros k [= <-].
        split; [by intros [?|?%list_elem_of_singleton]%elem_of_cons|].
        intros r Hr Hk. assert (r ∈ []) as []%not_elem_of_nil by by apply Hsel.
      - subst d. each_column. }
    exists c, s'. split_and!; [done..|apply Hb| | |done]; by apply (becomes_cell _ _ _ _ _ Hb).
  - destruct (proj1 (Hsel c)) as [Hr Hk]; [by left|].
    apply (add_taken sid d s [DStr uid; DStr (lower id)] c Hc); try done.
    + intros r. by apply (sane_rows s).
    + intros col Hcol Hser. exfalso. revert Hser.
      assert (Hall : forallb (fun c => negb (is_serial c)) (columns TCoT) = true) by done.
      rewrite forallb_forall in Hall. specialize (Hall col ltac:(by apply list_elem_of_In)).
      intros E. by rewrite E in Hall.
Qed.

Lemma mission_of_insert s s' id r : calm s' -> sane s -> r_table r <> TMission ->
  (forall t, rows s' t ≡ₚ insert_row r (rows s) t) -> mission_of s' id = mission_of s id.
Proof.
  intros Hc Hs Hr HT. assert (Hm : rows s' TMission ≡ₚ rows s TMission) by (by apply (rows_elsewhere _ _ r)).
  unfold mission_of. destruct (found (rows s) TMission "PrimaryKey" (lower id)) as [m|] eqn:E.
  - apply found_Some in E as [E1 E2]; [|done..]. apply found_Some; [apply Hc|done|]. by rewrite Hm.
  - apply found_None; [apply Hc|done|]. intros m. rewrite Hm. by apply found_None.
Qed.

(** What a CoT that is put to a mission leaves in the tables. *)
Definition cot_recorded (id uid : string) s s' : Prop :=
  exists c ch, row_key c = [DStr uid; DStr (lower id)] /\
    shows_change (DStr "ADD_CONTENT") DNone (DStr "") (mission_of s id) ch /\
    cell "cot_detail_uid" ch = DStr uid /\ cell "content_resource_uid" ch = DNone /\
    cell "external_data_uid" ch = DNone /\
    rows s' TCoT ≡ₚ rows s TCoT ++ [c] /\ rows s' TChange ≡ₚ rows s TChange ++ [ch] /\
    forall t, t <> TCoT -> t <> TChange -> rows s' t ≡ₚ rows s t.

Lemma cot_put w id uid : calm_state w -> cot_in (ms_db w) id uid = None ->
  exists w', (db (MissionStore.create_mission_cot "cot" id (DStr uid)) ;;;
      create_mission_cot_record "cot/change" id (DStr "") (DStr uid) ;;;
      respond "mission_cot_id" (AText uid) ;;; set_context "mission" ;;;
      set_action "MissionCotCreatedNotification") w = (Ret tt, w') /\ calm_state w' /\
    cot_recorded id uid (ms_db w) (ms_db w') /\
    ms_response w' = dset "mission_cot_id" (AText uid) (ms_response w) /\
    ms_context w' = Some "mission" /\ ms_action w' = Some "MissionCotCreatedNotification".
Proof.
  intros Hw Hn. pose proof (cot_stored "cot" (ms_db w) id uid Hw) as Hst. rewrite Hn in Hst.
  destruct Hst as (c & s1 & E1 & Hc1 & Ht & Hu & Hm & HT1).
  destruct (change_stored "cot/change" s1 (DStr "ADD_CONTENT") DNone (DStr "") id DNone (DStr uid) DNone)
    as (ch & s2 & E2 & Hc2 & Hsh & (Hl1 & Hl2 & Hl3) & HT2); [done..|].
  pose proof (mission_of_insert (ms_db w) s1 id c Hc1 (proj1 Hw) ltac:(by rewrite Ht) HT1) as Hmo.
  eexists. split_and!.
  - rewrite (run_bind _ _ _ _ _ (db_ret _ w _ _ E1)). unfold create_mission_cot_record.
    rewrite (run_bind _ _ _ tt (with_db s2 (with_db s1 w))); [reflexivity|].
    by rewrite (run_bind _ _ _ _ _ (db_ret _ (with_db s1 w) _ _ E2)).
  - done.
  - assert (Htc : r_table ch = TChange) by apply Hsh. exists c, ch. rewrite <- Hmo. split_and!; [|done| | |done|..]; simpl.
    + unfold row_key. rewrite Ht. simpl. by rewrite Hu, Hm.
    + destruct Hl2 as [[? _]|[_ Hnone]]; [done|]. destruct (Hnone c); [|done].
      rewrite (HT1 TCoT). unfold insert_row. rewrite Ht. simpl. set_solver.
    + by destruct Hl1 as [[? _]|[? _]].
    + rewrite HT2. unfold insert_row at 1. rewrite Htc. simpl. rewrite HT1. unfold insert_row. by rewrite Ht.
    + rewrite HT2. unfold insert_row at 1. rewrite Htc. simpl. rewrite HT1. unfold insert_row. by rewrite Ht.
    + intros t Ht1 Ht2. rewrite HT2. unfold insert_row at 1. rewrite Htc, decide_False by done.
      rewrite HT1. unfold insert_row. by rewrite Ht, decide_False.
  - done.
  - done.
  - done.
Qed.

Context (lib : mission_library).

(** C20: Putting a CoT in missions stores, mission by mission, the CoT and one change, which is
    of the type [ADD_CONTENT], of that mission, and refers to the CoT by its uid and to no
    content and no external data, and announces it; at the first mission that has the CoT
    already the request stops with nothing more stored, answered or announced, so the
    missions after it are passed over. *)
Theorem cot_is_put_once w id ids uid : calm_state w ->
  let w' := (execute lib (CreateMissionCOT (id :: ids) (DStr uid)) w).2 in
  match cot_in (ms_db w) id uid with
  | Some _ => calm_state w' /\ rows (ms_db w') = rows (ms_db w) /\
      ms_response w' = ms_response w /\ ms_action w' = ms_action w
  | None => exists w1, w' = (execute lib (CreateMissionCOT ids (DStr uid)) w1).2 /\ calm_state w1 /\
      cot_recorded id uid (ms_db w) (ms_db w1) /\
      ms_action w1 = Some "MissionCotCreatedNotification"
  end.
Proof.
  intros Hw w'. subst w'. unfold execute, try_except, try_with. cbn [perform]. unfold create_mission_cot.
  cbn [for_each]. destruct (cot_in (ms_db w) id uid) as [c|] eqn:Ec.
  - pose proof (cot_stored "cot" (ms_db w) id uid Hw) as Hst. rewrite Ec in Hst.
    destruct Hst as (e & s1 & E1 & He & Ho & Hr & Hp & Hb).
    assert (E : db (MissionStore.create_mission_cot "cot" id (DStr uid)) w = (Exn e, with_db s1 w))
      by (unfold db; by rewrite E1).
    rewrite (run_bind_exn _ _ _ e (with_db s1 w)) by by apply run_bind_exn.
    rewrite He. simpl. split_and!; [|done..]. by apply (calm_others "cot" (ms_db w)).
  - destruct (cot_put w id uid Hw Ec) as (w1 & E & Hw1 & Hrec & _ & _ & Ha).
    exists w1. rewrite (run_bind _ _ _ _ _ E). done.
Qed.

(** * External data *)

Definition plain_external (v : external_values) : Prop :=
  plain (ev_name v) /\ plain (ev_tool v) /\ plain (ev_urlData v) /\ plain (ev_notes v) /\
  plain (ev_uid v) /\ plain (ev_urlView v) /\ plain (ev_creator_uid v).

Definition external_draft (u : string) (m : row) (v : external_values) : draft :=
  with_link "mission" (Some m)
  (with_cell "creator_uid" (if db_truth (ev_creator_uid v) then ev_creator_uid v else DStr "")
  (with_cell "urlView" (ev_urlView v) (with_cell "uid" (ev_uid v) (with_cell "notes" (ev_notes v)
  (with_cell "urlData" (ev_urlData v) (with_cell "tool" (ev_tool v) (with_cell "name" (ev_name v)
  (with_cell "id" (DStr u) (new TExternalData))))))))).

Lemma external_insertable s u m v : sane s -> fresh u s -> plain_external v ->
  storable CString (cell "PrimaryKey" m) = true -> insertable (rows s) (external_draft u m v).
Proof.
  intros Hs [Hf _] (H1' & H2' & H3' & H4' & H5' & H6' & H7') Hm.
  repeat match goal with Hp : plain _ |- _ => apply plain_string in Hp as (_ & ? & _) end. split.
  - intros k [= <-]. split; [by intros ?%list_elem_of_singleton|]. intros r Hr E. rewrite (row_key_string s TExternalData "id") in E by done. injection E as E.
    specialize (Hf _ r "id" Hr). rewrite E in Hf. simpl in Hf. by apply bool_decide_eq_false in Hf.
  - unfold external_draft.
    assert (Hcr : storable CString (if db_truth (ev_creator_uid v) then ev_creator_uid v else DStr "") = true)
      by by destruct (db_truth _).
    remember (if db_truth (ev_creator_uid v) then ev_creator_uid v else DStr "") as creator eqn:Ecr.
    clear Ecr. destruct v; simpl in *. each_column.
Qed.

Lemma external_stored sid s id v m : calm s -> plain_external v -> mission_of s id = Some m ->
  exists e s', add_external_data sid id v DNone s = (Ret e, s') /\ calm s' /\ r_table e = TExternalData /\
    cell "uid" e = ev_uid v /\ cell "mission_uid" e = DStr (lower id) /\
    (exists u, cell "id" e = DStr u) /\
    forall t, rows s' t ≡ₚ insert_row e (rows s) t.
Proof.
  intros Hc Hv Hm. unfold add_external_data. cbn [db_truth].
  destruct (uuid4_law s) as (u & s1 & E1 & Hu1 & Hfresh). pose proof (calm_unchanged _ _ Hu1 Hc) as Hc1.
  destruct (find_by_key sid s1 TMission "PrimaryKey" (lower id) Hc1) as (s2 & E2 & Hu2); [done|].
  pose proof (calm_unchanged _ _ Hu2 Hc1) as Hc2. rewrite (unchanged_rows _ _ Hu1) in E2.
  unfold mission_of in Hm. rewrite Hm in E2. apply found_Some in Hm as [_ Hk]; [|apply Hc|done].
  assert (Hrows : rows s2 = rows s) by by rewrite (unchanged_rows _ _ Hu2), (unchanged_rows _ _ Hu1).
  destruct (add_commit_calm sid (external_draft u m v) s2 Hc2) as (e & s3 & E3 & Hc3 & Hb & HT).
  { rewrite Hrows. apply acceptable_insert, external_insertable; [apply Hc|done..|by rewrite Hk]. }
  rewrite Hrows in Hb, HT. exists e, s3. split_and!; [|done|apply Hb| | | |done].
  - apply or_rollback_ret. rewrite (run_bind _ _ s (DStr u) s1) by by rewrite (run_bind _ _ _ _ _ E1).
    unfold MissionStore.get_mission. rewrite (run_bind _ _ _ _ _ E2). exact E3.
  - destruct Hv as (_ & _ & _ & _ & Hu & _). rewrite <- (proj1 (plain_string _ Hu)).
    by apply (becomes_cell _ _ _ _ _ Hb).
  - rewrite (becomes_cell _ _ _ "mission_uid" (to_column CString (cell "PrimaryKey" m)) Hb eq_refl).
    by rewrite Hk.
  - exists u. by apply (becomes_cell _ _ _ _ _ Hb).
Qed.

(** The document of external data, and its values. *)
Definition external_document (v : external_values) (data : json) : Prop :=
  exists name tool urlData notes uid urlView creatorUid,
    json_item data "name" = Ret name /\ json_item data "tool" = Ret tool /\
    json_item data "urlData" = Ret urlData /\ json_item data "notes" = Ret notes /\
    json_item data "uid" = Ret uid /\ json_item data "urlView" = Ret urlView /\
    json_item data "creatorUid" = Ret creatorUid /\
    v = mkExternalValues (db_of_json name) (db_of_json tool) (db_of_json urlData) (db_of_json notes)
          (db_of_json uid) (db_of_json urlView) (db_of_json creatorUid).

(** No external data has the uid [u] in lower case. *)
Definition unknown_external s (u : string) : Prop :=
  forall r, r ∈ rows s TExternalData -> cell "uid" r <> DStr (lower u).

Lemma unknown_external_ends w u id : calm_state w -> unknown_external (ms_db w) u ->
  still w (execute lib (MissionExternalDataCreatedNotification u id) w).2.
Proof.
  intros Hw Hn. apply ends_execute. cbn [perform]. unfold send_external_data_created_notification, get_external_data_by_uid.
  eapply looks_ends; [by apply looks_first|done|]. intros o w1 Hw1 _ Ho. cbv beta in Ho.
  destruct o as [r|].
  { apply elem_of_filter_by in Ho as [Hr Hall]. exfalso. apply (Hn r Hr).
    apply (string_eqb (ms_db w) TExternalData); [apply Hw|done..|]. apply Hall. left. }
  apply ends_first. unfold MissionExternalDataNotificationBuilder.
  apply ends_after; [apply glances_create|done|]. intros n w2 Hw2 _.
  apply ends_after; [apply glances_uuid4|done|]. intros uid w3 Hw3 _.
  apply ends_after; [apply glances_put|done|]. intros n2 w4 Hw4 _.
  apply ends_after; [apply glances_put|done|]. intros n3 w5 Hw5 _.
  apply ends_first, ends_of_option.
Qed.

Lemma glances_external n e : glances (complete_mission_external_data_collection lib n e : M (mission_state S) _).
Proof.
  unfold complete_mission_external_data_collection, put_collection.
  apply glances_bind; [apply glances_put|]. intros n'. apply glances_bind; [apply glances_of_outcome|].
  intros v. cbv zeta. destruct (match v with inl _ => _ | inr _ => _ end); [|apply glances_ret].
  destruct (bool_decide _); [apply glances_put|apply glances_ret].
Qed.

(** What is stored for external data, with its change. *)
Lemma external_put w id data v m : calm_state w -> external_document v data -> plain_external v ->
  mission_of (ms_db w) id = Some m ->
  let w' := (add_mission_external_data lib id data w).2 in
  exists e ch, calm_state w' /\ r_table e = TExternalData /\ cell "uid" e = ev_uid v /\
    cell "mission_uid" e = DStr (lower id) /\ r_table ch = TChange /\
    forall t, rows (ms_db w') t ≡ₚ insert_row ch (insert_row e (rows (ms_db w))) t.
Proof.
  intros Hw (name & tool & urlData & notes & uid & urlView & creator & D1 & D2 & D3 & D4 & D5 & D6 & D7 & Hv) Hp Hm w'.
  destruct (external_stored "external" (ms_db w) id v m Hw Hp Hm)
    as (e & s1 & E1 & Hc1 & Ht & Hu & Hmu & (u & Hid) & HT1).
  destruct (change_stored "external/changes" s1 (DStr "ADD_CONTENT") DNone (db_of_json creator) id DNone DNone (cell "id" e))
    as (ch & s2 & E2 & Hc2 & Hsh & _ & HT2); [done|done|done| |done|done|by rewrite Hid|].
  { destruct Hp as (_ & _ & _ & _ & _ & _ & Hcr). by rewrite Hv in Hcr. }
  exists e, ch. subst w'. unfold add_mission_external_data. rewrite D1, D2, D3, D4, D5, D6, D7.
  rewrite !run_outcome. rewrite <- Hv.
  rewrite (run_bind _ _ _ _ _ (db_ret _ w _ _ E1)). unfold create_mission_external_data_record.
  rewrite (run_bind _ _ _ tt (with_db s2 (with_db s1 w)))
    by by rewrite (run_bind _ _ _ _ _ (db_ret _ (with_db s1 w) _ _ E2)).
  match goal with |- context [(?k _).2] => assert (Hl : leaves k) end.
  { apply leaves_bind; [apply leaves_glances, glances_create|]. intros n.
    apply leaves_bind; [apply leaves_glances, glances_external|]. intros n'.
    apply leaves_bind; [apply leaves_answer|]. intros _. apply leaves_glances, glances_ret. }
  specialize (Hl (with_db s2 (with_db s1 w)) Hc2). split_and!; [by apply (calm_unchanged s2)|done..|apply Hsh|].
  intros t. rewrite (unchanged_rows _ _ Hl). simpl. rewrite HT2. by apply insert_row_perm.
Qed.

(** External data is stored under its uid as it was sent but looked for in lower case: data
    whose uid has an upper case letter is stored and the notification that should announce
    it raises, with nothing announced and nothing changed. *)
Theorem external_data_of_upper_case_is_not_announced w id data v u m :
  calm_state w -> external_document v data -> plain_external v -> mission_of (ms_db w) id = Some m ->
  ev_uid v = DStr u -> lower u <> u -> unknown_external (ms_db w) u ->
  let w' := (execute lib (CreateExternalMissionData id data) w).2 in
  calm_state w' /\
  (exists e, rows (ms_db w') TExternalData ≡ₚ rows (ms_db w) TExternalData ++ [e] /\
     cell "uid" e = DStr u /\ cell "mission_uid" e = DStr (lower id)) /\
  still w' (execute lib (MissionExternalDataCreatedNotification u id) w').2.
Proof.
  intros Hw Hd Hp Hm Hu Hne Hn w'. destruct (external_put w id data v m Hw Hd Hp Hm) as (e & ch & Hrest).
  assert (Ew : w' = (add_mission_external_data lib id data w).2).
  { subst w'. unfold execute, try_except, try_with. cbn [perform]. cbv [mbind M_bind mret M_ret].
    destruct (add_mission_external_data lib id data w) as [[n|x] w1]; [done|]. by destruct (is_Exception x). }
  rewrite <- Ew in Hrest. destruct Hrest as (Hc & Ht & Hue & Hme & Htc & HT).
  assert (HTe : rows (ms_db w') TExternalData ≡ₚ rows (ms_db w) TExternalData ++ [e]).
  { rewrite HT. unfold insert_row. by rewrite Htc, Ht. }
  split; [done|]. split; [by exists e; rewrite Hue|]. apply unknown_external_ends; [done|].
  intros r. rewrite HTe. intros [Hr| ->%list_elem_of_singleton]%elem_of_app; [by apply Hn|].
  rewrite Hue, Hu. by intros [= E].
Qed.
End Changes.

Lemma failed_change_ends_recording_witness :
  let s := mkListDb (fun _ => []) [] [("c", true)] 0 in
  exists e s', create_mission_change "c" (DStr "CREATE_MISSION") DNone (DStr "me") "m" DNone DNone DNone s =
    (Exn e, s') /\ broken s' "c" = true.
Proof.
  intros s. destruct (failed_change_ends_recording "c" s (DStr "CREATE_MISSION") DNone (DStr "me") "m" DNone DNone DNone)
    as (e & s' & E & _ & Hb); [reflexivity|]. exists e, s'. split; [exact E|exact Hb].
Defined.

Lemma cot_is_put_once_witness :
  let w := state_of [mission_row "m"; cot_row "c" "m"] in
  let w' := (execute library (CreateMissionCOT ["m"; "n"] (DStr "c")) w).2 in
  rows (ms_db w') = rows (ms_db w) /\ ms_action w' = None.
Proof.
  intros w w'. destruct (cot_is_put_once library w "m" ["n"] "c") as (_ & Hr & _ & Ha).
  - apply database_calm. reflexivity.
  - split; [exact Hr|exact Ha].
Defined.

Lemma external_data_of_upper_case_is_not_announced_witness :
  let data := JDict ((fun k => (k, JText "X")) <$> ["name"; "tool"; "urlData"; "notes"; "uid"; "urlView"; "creatorUid"]) in
  let w' := (execute library (CreateExternalMissionData "m" data) (state_of [mission_row "m"])).2 in
  still w' (execute library (MissionExternalDataCreatedNotification "X" "m") w').2.
Proof.
  intros data w'.
  destruct (external_data_of_upper_case_is_not_announced library (state_of [mission_row "m"]) "m" data
    (mkExternalValues (DStr "X") (DStr "X") (DStr "X") (DStr "X") (DStr "X") (DStr "X") (DStr "X")) "X" (mission_row "m"))
    as (_ & _ & Hs).
  - apply database_calm. reflexivity.
  - do 7 exists (JText "X"). repeat split.
  - repeat split.
  - reflexivity.
  - reflexivity.
  - discriminate.
  - intros r Hr. inversion Hr.
  - exact Hs.
Defined.
