(* ===== verification/MissionHierarchy.v ===== *)
(** Missions that are children of missions. *)
From Stdlib Require Import ZArith Lia Ascii String.
From stdpp Require Import base strings list sets pretty.
From S2P Require Import Prelude.
From S2P Require Import DictToNode.
From S2P Require Import DomainNode.
From S2P Require Import DomainClasses.
From S2P Require Import RestGeo.
From S2P Require Import MissionDb.
From S2P Require Import MissionStore.
From S2P Require Import MissionList.
From S2P Require Import MissionFacts.
From S2P Require Import MissionProps.
From S2P Require Import MissionNodes.
From S2P Require Import MissionBuilders.
From S2P Require Import MissionSample.
From S2P Require Import MissionControllers.
From S2P Require Import MissionFacade.
From S2P Require Import MissionLooks.
From S2P Require Import MissionLogs.
From S2P Require Import MissionChanges.

Set Default Proof Using "All".
Local Open Scope string_scope.
Local Open Scope list_scope.
Local Open Scope py_scope.

(** * What is assigned to a node *)

Section Assigned.
Context (lib : mission_library).

Lemma add_child_class c n n' : add_child lib c n = Ret n' -> n_class n' = n_class n.
Proof. unfold add_child. destruct (child_allowed lib n c); [by intros [= <-]|done]. Qed.

Lemma set_attr_class name v n n' : set_attr lib name v n = Ret n' -> n_class n' = n_class n.
Proof.
  unfold set_attr. destruct (find_accessor n name) as [a|]; [|by intros [= <-]].
  destruct (a_set a); try done.
  - by intros [= <-].
  - by destruct (is_nothing v).
  - by intros [= <-].
  - by intros [= <-].
  - destruct v; try done. apply add_child_class.
  - destruct v as [[]| | |m]; try (by intros [= <-]).
    + destruct (dget key (n_values n)) as [[]|]; try done; by intros [= <-].
    + destruct (bool_decide _); [apply add_child_class|by intros [= <-]].
  - destruct (value_or nothing key n) as [[]| | |m]; try done; destruct v as [[]| | |c]; try done;
      try (by intros [= <-]). destruct (bool_decide _); [by intros [= <-]|done].
Qed.

(** One assignment that raises whatever the node holds ends them all. *)
Lemma assign_all_raises name v l n : (name, Ret v) ∈ l ->
  (forall n', n_class n' = n_class n -> exists e, set_attr lib name v n' = Exn e) ->
  exists e, assign_all lib [] l n = Exn e.
Proof.
  revert n. induction l as [|[k x] l IH]; intros n Hin Hr; [by apply not_elem_of_nil in Hin|].
  cbn [assign_all]. unfold assign_at. destruct x as [x|e]; [|by exists e]. cbn [at_path].
  destruct (set_attr lib k x n) as [n'|e] eqn:E; [|by exists e].
  apply elem_of_cons in Hin as [[= -> ->]|Hin].
  - destruct (Hr n eq_refl) as [e He]. congruence.
  - apply IH; [done|]. intros n2 Hn2. apply Hr. rewrite Hn2. by apply (set_attr_class k x).
Qed.

(** The list of the CoTs of a mission takes children only. *)
Lemma uids_raise n : n_class n = missionData_class -> exists e, set_attr lib "uids" (VList []) n = Exn e.
Proof. intros Hn. unfold set_attr, find_accessor. rewrite Hn. by exists TypeError. Qed.
End Assigned.

Section Hierarchy.
Context {S : Type} `{OrmLaws S, !OrmReliable S}.
Implicit Types (w : mission_state S) (s : S) (sid : string).

(** * The relation of a parent and a child *)

Definition relation_draft (parent child : row) : draft :=
  with_link "child_mission" (Some child) (with_link "parent_mission" (Some parent) (new TMissionToMission)).

Definition relates (p c : string) (rel : row) : Prop :=
  r_table rel = TMissionToMission /\ cell "parent_mission_id" rel = DStr (lower p) /\
  cell "child_mission_id" rel = DStr (lower c).

Lemma mission_facts s id m : sane s -> mission_of s id = Some m ->
  m ∈ rows s TMission /\ r_table m = TMission /\ cell "PrimaryKey" m = DStr (lower id).
Proof.
  intros Hs [Hm Hk]%found_Some; [|done..]. split_and!; [done| |done]. by apply (sane_rows s).
Qed.

Lemma relation_stored sid s p c mp mc : calm s -> mission_of s p = Some mp -> mission_of s c = Some mc ->
  exists rel s', add_parent_to_mission sid mc mp s = (Ret tt, s') /\ calm s' /\ relates p c rel /\
    forall t, rows s' t ≡ₚ insert_row rel (rows s) t.
Proof.
  intros Hc Hp Hch. destruct (mission_facts s p mp (proj1 Hc) Hp) as (_ & _ & Hkp).
  destruct (mission_facts s c mc (proj1 Hc) Hch) as (_ & _ & Hkc).
  destruct (add_calm sid (relation_draft mp mc) s Hc) as (rel & s' & E & Hc' & Hb & HT).
  { split; [done|]. unfold relation_draft.
    assert (storable CString (cell "PrimaryKey" mp) = true) by by rewrite Hkp.
    assert (storable CString (cell "PrimaryKey" mc) = true) by by rewrite Hkc. each_column. }
  exists rel, s'. split_and!; [|done| |done].
  - unfold add_parent_to_mission. apply or_rollback_inv in E. apply or_rollback_ret. unfold add_commit in E.
    apply bind_inv in E as ([] & s1 & E1 & E). apply bind_inv in E as (l & s2 & E2 & E).
    rewrite (run_bind _ _ _ _ _ E1), (run_bind _ _ _ _ _ E2).
    destruct (last l); [|done]. by injection E as _ ->.
  - split_and!; [apply Hb| |].
    + rewrite (becomes_cell _ _ _ "parent_mission_id" (to_column CString (cell "PrimaryKey" mp)) Hb eq_refl).
      by rewrite Hkp.
    + rewrite (becomes_cell _ _ _ "child_mission_id" (to_column CString (cell "PrimaryKey" mc)) Hb eq_refl).
      by rewrite Hkc.
Qed.

(** The relations in which a mission is the parent, or the child. *)
Lemma elem_of_relations s m x rel name fk : sane s -> m ∈ rows s TMission -> cell "PrimaryKey" m = DStr x ->
  find_relation TMission name = Some (ToMany name TMissionToMission fk "PrimaryKey") ->
  string_column TMissionToMission fk = true ->
  rel ∈ related_rows name m (rows s) <-> rel ∈ rows s TMissionToMission /\ cell fk rel = DStr x.
Proof.
  intros Hs Hm Hx Hf Hk. unfold related_rows. rewrite (proj1 (sane_rows s _ _ Hs Hm)), Hf. cbv beta iota.
  rewrite list_elem_of_In, filter_In, <- list_elem_of_In. split.
  - intros [Hr Href]. split; [done|].
    apply (refers_at s TMissionToMission _ TMission) in Href as (y & -> & Hy); [congruence|done..].
  - intros [Hr E]. split; [done|]. apply (refers_at s TMissionToMission _ TMission); [done..|by exists x].
Qed.

Lemma mission_of_rows s s' id : rows s' = rows s -> mission_of s' id = mission_of s id.
Proof. intros E. unfold mission_of. by rewrite E. Qed.

Lemma child_added w p c mp mc : calm_state w ->
  mission_of (ms_db w) p = Some mp -> mission_of (ms_db w) c = Some mc ->
  exists rel s', add_child_to_parent p c w = (Ret tt, with_db s' w) /\ calm s' /\ relates p c rel /\
    forall t, rows s' t ≡ₚ insert_row rel (rows (ms_db w)) t.
Proof.
  intros Hw Hp Hc.
  destruct (find_by_key "hierarchy" (ms_db w) TMission "PrimaryKey" (lower p)) as (s1 & E1 & Hu1); [done..|].
  pose proof (calm_unchanged _ _ Hu1 Hw) as Hc1.
  destruct (find_by_key "hierarchy" s1 TMission "PrimaryKey" (lower c)) as (s2 & E2 & Hu2); [done..|].
  pose proof (calm_unchanged _ _ Hu2 Hc1) as Hc2. rewrite (unchanged_rows _ _ Hu1) in E2.
  assert (Hr : rows s2 = rows (ms_db w)) by by rewrite (unchanged_rows _ _ Hu2), (unchanged_rows _ _ Hu1).
  destruct (relation_stored "hierarchy" s2 p c mp mc Hc2) as (rel & s3 & E3 & Hc3 & Hrel & HT);
    [by rewrite (mission_of_rows _ _ _ Hr)..|].
  rewrite Hr in HT. unfold mission_of in Hp, Hc. rewrite Hp in E1. rewrite Hc in E2.
  exists rel, s3. split; [|done]. unfold add_child_to_parent, MissionStore.get_mission.
  rewrite (run_bind _ _ _ _ _ (db_ret _ w _ _ E1)), (run_bind _ _ _ _ _ (db_ret _ (with_db s1 w) _ _ E2)).
  by apply (db_ret _ (with_db s2 w)).
Qed.

(** * A parent that is removed *)

Lemma same_relation s rel r : sane s -> rel ∈ rows s TMissionToMission -> r ∈ rows s TMissionToMission ->
  same_row rel r = true <-> r = rel.
Proof.
  intros Hs Hrel Hr. unfold same_row. rewrite bool_decide_eq_true. split; [|by intros ->].
  intros [_ Hk]. symmetry. by apply (same_key s TMissionToMission).
Qed.

Lemma remove_from_ret s s' l rel : sane s -> rel ∈ rows s TMissionToMission -> rel ∈ l ->
  remove_from l (Some rel) s' = (Ret rel, s').
Proof.
  intros Hs Hrel Hin. unfold remove_from. destruct (existsb _ _) eqn:E; [done|].
  assert (existsb (same_row rel) l = true); [|congruence].
  apply existsb_exists. exists rel. split; [by apply list_elem_of_In|]. by apply (same_relation s).
Qed.

(** The one relation of a child is found from both its ends. *)
Lemma the_relation s p c rel r : sane s -> rel ∈ rows s TMissionToMission -> relates p c rel ->
  (forall r, r ∈ rows s TMissionToMission -> cell "child_mission_id" r = DStr (lower c) -> r = rel) ->
  r ∈ selected (filter_by TMissionToMission
    [("parent_mission_id", DStr (lower p)); ("child_mission_id", DStr (lower c))]) (rows s) <-> r = rel.
Proof.
  intros Hs Hrel (_ & Hp & Hc) Hone. rewrite elem_of_filter_by. split.
  - intros [Hr Hall]. apply Hone; [done|]. apply (string_eqb s TMissionToMission); [done..|].
    apply Hall. right. left.
  - intros ->. split; [done|]. intros k v [[= -> ->]|[= -> ->]%list_elem_of_singleton]%elem_of_cons;
      by apply (string_eqb s TMissionToMission).
Qed.

Lemma only_member {A} (o : option A) (l : list A) x : (forall y, y ∈ l <-> y = x) ->
  match o with Some y => y ∈ l | None => l = [] end -> o = Some x.
Proof using Type.
  intros Hl. destruct o as [y|]; [by intros ->%Hl|]. intros ->.
  by assert (Hx : x ∈ []) by (by apply Hl); apply not_elem_of_nil in Hx.
Qed.

Lemma relation_removed sid s p c mp mc rel : calm s ->
  mission_of s p = Some mp -> mission_of s c = Some mc ->
  rel ∈ rows s TMissionToMission -> relates p c rel ->
  (forall r, r ∈ rows s TMissionToMission -> cell "child_mission_id" r = DStr (lower c) -> r = rel) ->
  exists s', remove_parent_from_mission sid c (Some mp) s = (Ret tt, s') /\ calm s' /\
    forall t, rows s' t ≡ₚ delete_rows rel (rows s) t.
Proof.
  intros Hc Hp Hch Hin Hrel Hone. pose proof (proj1 Hc) as Hs.
  destruct (mission_facts s p mp Hs Hp) as (Hmp & Htp & Hkp).
  destruct (mission_facts s c mc Hs Hch) as (Hmc & Htc & Hkc).
  destruct (find_by_key sid s TMission "PrimaryKey" (lower c) Hc) as (s1 & E1 & Hu1); [done|].
  pose proof (calm_unchanged _ _ Hu1 Hc) as Hc1. unfold mission_of in Hch. rewrite Hch in E1.
  destruct (first_quiet sid (filter_by TMissionToMission
    [("parent_mission_id", DStr (lower p)); ("child_mission_id", DStr (lower c))]) s1)
    as (o & s2 & E2 & Hu2 & Ho); [by apply calm_quiet|done|]. rewrite (unchanged_rows _ _ Hu1) in Ho.
  apply (only_member o _ rel) in Ho as ->; [|intros r; by apply (the_relation s)].
  pose proof (calm_unchanged _ _ Hu2 Hc1) as Hc2.
  destruct (related_quiet sid mc "parent_missions" s2) as (l3 & s3 & E3 & Hu3 & Hl3);
    [by apply calm_quiet|by rewrite Htc|].
  pose proof (calm_unchanged _ _ Hu3 Hc2) as Hc3.
  destruct (related_quiet sid mp "child_missions" s3) as (l4 & s4 & E4 & Hu4 & Hl4);
    [by apply calm_quiet|by rewrite Htp|].
  pose proof (calm_unchanged _ _ Hu4 Hc3) as Hc4.
  assert (R2 : rows s2 = rows s) by by rewrite (unchanged_rows _ _ Hu2), (unchanged_rows _ _ Hu1).
  assert (R3 : rows s3 = rows s) by by rewrite (unchanged_rows _ _ Hu3).
  rewrite R2 in Hl3. rewrite R3 in Hl4. destruct Hrel as (Hrt & Hrp & Hrc).
  destruct (delete_calm sid s4 rel Hc4) as (s5 & E5 & Hc5 & HT).
  { rewrite Hrt. intros name target fk key Hm%list_elem_of_In. by destruct Hm as [Hm|[Hm|[]]]. }
  exists s5. split; [|split; [done|intros t; by rewrite HT, (unchanged_rows _ _ Hu4), R3]].
  apply or_rollback_ret. unfold MissionStore.get_mission. rewrite (run_bind _ _ _ _ _ E1).
  unfold attr, relationship. rewrite !(run_bind (of_option _ (Some _) ≫= _) _ s1 _ s1 eq_refl).
  rewrite Hkp, Hkc, (run_bind _ _ _ _ _ E2).
  rewrite (run_bind _ _ s2 l3 s3) by exact E3.
  rewrite (run_bind _ _ _ _ _ (remove_from_ret s s3 l3 rel Hs Hin ltac:(rewrite Hl3;
    by apply (elem_of_relations s mc (lower c) rel "parent_missions" "child_mission_id")))).
  rewrite (run_bind _ _ s3 l4 s4) by exact E4.
  rewrite (run_bind _ _ _ _ _ (remove_from_ret s s4 l4 rel Hs Hin ltac:(rewrite Hl4;
    by apply (elem_of_relations s mp (lower p) rel "child_missions" "parent_mission_id")))).
  exact E5.
Qed.
Lemma elem_of_parent s p c rel mp m : sane s -> rel ∈ rows s TMissionToMission -> relates p c rel ->
  mission_of s p = Some mp -> m ∈ related_rows "parent_mission" rel (rows s) <-> m = mp.
Proof.
  intros Hs Hrel (Ht & Hp & _) Hmp. unfold related_rows. rewrite Ht.
  change (find_relation TMissionToMission "parent_mission")
    with (Some (ToOne "parent_mission" "parent_mission_id" TMission "PrimaryKey")).
  cbv beta iota. rewrite list_elem_of_In, filter_In, <- list_elem_of_In. split.
  - intros [Hm Href]. apply (refers_at s TMissionToMission _ TMission) in Href as (x & Hx & Hk); [|done..].
    assert (mission_of s p = Some m); [|congruence]. apply found_Some; [done..|]. split; [done|]. congruence.
  - intros ->. destruct (mission_facts s p mp Hs Hmp) as (Hm & _ & Hk). split; [done|].
    apply (refers_at s TMissionToMission _ TMission); [done..|by exists (lower p)].
Qed.

Lemma in_with_rel rel (T T' : tables) r : r_table rel = TMissionToMission ->
  (forall t, T' t ≡ₚ insert_row rel T t) ->
  r ∈ T' TMissionToMission <-> r ∈ T TMissionToMission \/ r = rel.
Proof using Type.
  intros Ht HT. rewrite HT. unfold insert_row. rewrite Ht, decide_True by done.
  by rewrite elem_of_app, list_elem_of_singleton.
Qed.

Lemma parent_removed w p c mp mc rel : calm_state w ->
  mission_of (ms_db w) p = Some mp -> mission_of (ms_db w) c = Some mc ->
  rel ∈ rows (ms_db w) TMissionToMission -> relates p c rel ->
  (forall r, r ∈ rows (ms_db w) TMissionToMission -> cell "child_mission_id" r = DStr (lower c) -> r = rel) ->
  exists s', delete_parent c w = (Ret tt, with_db s' w) /\ calm s' /\
    forall t, rows s' t ≡ₚ delete_rows rel (rows (ms_db w)) t.
Proof.
  intros Hw Hp Hc Hin Hrel Hone. pose proof (proj1 Hw) as Hs.
  destruct (mission_facts _ p mp Hs Hp) as (Hmp & Htp & Hkp).
  destruct (mission_facts _ c mc Hs Hc) as (Hmc & Htc & Hkc). pose proof Hrel as (Hrt & Hrp & Hrc).
  destruct (find_by_key "hierarchy" (ms_db w) TMission "PrimaryKey" (lower c) Hw) as (s1 & E1 & Hu1); [done|].
  pose proof (calm_unchanged _ _ Hu1 Hw) as Hc1. pose proof Hc as Hc'. unfold mission_of in Hc'. rewrite Hc' in E1.
  destruct (related_quiet "hierarchy" mc "parent_missions" s1) as (l2 & s2 & E2 & Hu2 & Hl2);
    [by apply calm_quiet|by rewrite Htc|]. rewrite (unchanged_rows _ _ Hu1) in Hl2.
  pose proof (calm_unchanged _ _ Hu2 Hc1) as Hc2.
  assert (Hhead : head l2 = Some rel).
  { apply (only_member _ (related_rows "parent_missions" mc (rows (ms_db w)))); [|by apply head_one_of].
    intros r. rewrite (elem_of_relations _ mc (lower c) r "parent_missions" "child_mission_id") by done.
    split; [intros [??]; by apply Hone|by intros ->]. }
  destruct (related_quiet "hierarchy" rel "parent_mission" s2) as (l3 & s3 & E3 & Hu3 & Hl3);
    [by apply calm_quiet|by rewrite Hrt|]. pose proof (calm_unchanged _ _ Hu3 Hc2) as Hc3.
  assert (R2 : rows s2 = rows (ms_db w)) by by rewrite (unchanged_rows _ _ Hu2), (unchanged_rows _ _ Hu1).
  assert (R3 : rows s3 = rows (ms_db w)) by by rewrite (unchanged_rows _ _ Hu3).
  rewrite R2 in Hl3.
  assert (Hhead3 : head l3 = Some mp).
  { apply (only_member _ (related_rows "parent_mission" rel (rows (ms_db w)))); [|by apply head_one_of].
    intros m. by apply (elem_of_parent (ms_db w) p c). }
  destruct (relation_removed "hierarchy" s3 p c mp mc rel Hc3) as (s4 & E4 & Hc4 & HT);
    [by rewrite (mission_of_rows _ _ _ R3)..|by rewrite R3|done|by rewrite R3|].
  exists s4. split; [|split; [done|by rewrite R3 in HT]]. unfold delete_parent, MissionStore.get_mission.
  rewrite (run_bind _ _ _ _ _ (db_ret _ w _ _ E1)). unfold many, one.
  rewrite (run_bind _ _ _ _ _ (db_ret _ (with_db s1 w) _ _ E2)), Hhead.
  rewrite (run_bind (of_option _ (Some _)) _ (with_db s2 w) rel (with_db s2 w)) by done. unfold many.
  rewrite (run_bind _ _ (with_db s2 w) (Some mp) (with_db s3 w)); [by apply (db_ret _ (with_db s3 w))|].
  rewrite (run_bind _ _ _ _ _ (db_ret _ (with_db s2 w) _ _ E3)). by rewrite Hhead3.
Qed.
End Hierarchy.

Section RoundTrip.
Context {S : Type} `{OrmLaws S, !OrmReliable S} (lib : mission_library).
Implicit Types (w : mission_state S) (s : S).

(** Nobody refers to a relation, so its deletion is that of one row. *)
Lemma delete_relation rel (T : tables) t : r_table rel = TMissionToMission ->
  delete_rows rel T t = List.filter (fun r => negb (same_row rel r)) (T t).
Proof using Type.
  intros Ht. unfold delete_rows. rewrite <- list_fmap_id. apply list_fmap_ext. intros i r _.
  unfold forget. by rewrite Ht.
Qed.

Lemma filter_all {A} (f : A -> bool) (l : list A) : (forall x, x ∈ l -> f x = true) -> List.filter f l = l.
Proof using Type.
  induction l as [|x l IH]; intros Hf; [done|]. simpl. rewrite Hf by left. f_equal.
  apply IH. intros y Hy. apply Hf. by right.
Qed.

Lemma delete_inserted s s' rel t : sane s -> sane s' -> r_table rel = TMissionToMission ->
  (forall t, rows s' t ≡ₚ insert_row rel (rows s) t) -> delete_rows rel (rows s') t ≡ₚ rows s t.
Proof.
  intros Hs Hs' Ht HT. rewrite delete_relation by done. rewrite (HT t). unfold insert_row. rewrite Ht.
  case_decide as E; cycle 1.
  - rewrite filter_all; [done|]. intros r Hr. rewrite not_same_table; [done|].
    rewrite (proj1 (sane_rows s _ _ Hs Hr)). congruence.
  - subst t. rewrite List.filter_app. cbn [List.filter].
    assert (same_row rel rel = true) as -> by by apply bool_decide_eq_true_2. cbn [negb].
    rewrite app_nil_r, filter_all; [done|]. intros r Hr. apply negb_true_iff, bool_decide_eq_false_2.
    intros [_ Hk]. pose proof (sane_keys s' TMissionToMission Hs') as Hnd. rewrite HT in Hnd.
    unfold insert_row in Hnd. rewrite Ht, decide_True, fmap_app, NoDup_app in Hnd by done.
    destruct Hnd as (_ & Hnd & _). apply (Hnd (row_key r)); [by apply list_elem_of_fmap_2|]. rewrite <- Hk. by left.
Qed.

(** A relation that is made, and taken away again. *)
Lemma parent_given_and_taken w p c mp mc : calm_state w ->
  mission_of (ms_db w) p = Some mp -> mission_of (ms_db w) c = Some mc ->
  (forall r, r ∈ rows (ms_db w) TMissionToMission -> cell "child_mission_id" r <> DStr (lower c)) ->
  exists rel s1 s2, execute lib (AddChildToParent p c) w = (Ret tt, with_db s1 w) /\ relates p c rel /\
    (forall t, rows s1 t ≡ₚ insert_row rel (rows (ms_db w)) t) /\
    execute lib (DeleteParent c) (with_db s1 w) = (Ret tt, with_db s2 w) /\ calm s2 /\
    forall t, rows s2 t ≡ₚ rows (ms_db w) t.
Proof.
  intros Hw Hp Hc Hno. destruct (child_added w p c mp mc Hw Hp Hc) as (rel & s1 & E1 & Hc1 & Hrel & HT1).
  assert (Hmo : forall id, mission_of s1 id = mission_of (ms_db w) id).
  { intros id. apply (mission_of_insert _ _ _ rel); [done|apply Hw| |done]. by rewrite (proj1 Hrel). }
  pose proof (fun r => in_with_rel rel (rows (ms_db w)) (rows s1) r (proj1 Hrel) HT1) as Hin.
  destruct (parent_removed (with_db s1 w) p c mp mc rel) as (s2 & E2 & Hc2 & HT2); simpl.
  - done.
  - by rewrite Hmo.
  - by rewrite Hmo.
  - apply Hin. by right.
  - done.
  - intros r [Hr|Hr]%Hin Hrc; [|done]. by apply Hno in Hr.
  - exists rel, s1, s2. split; [|split; [done|split; [done|split; [|split; [done|]]]]].
    + unfold execute, try_except, try_with. cbn [perform]. by rewrite E1.
    + unfold execute, try_except, try_with. cbn [perform]. by rewrite E2.
    + intros t. rewrite HT2. apply (delete_inserted (ms_db w) s1); [apply Hw|apply Hc1|apply Hrel|done].
Qed.

(** Giving a mission without a parent a parent and taking the parent away again leaves every
    table with the rows it had, and answers nothing. *)
Theorem parent_round_trip w p c mp mc : calm_state w ->
  mission_of (ms_db w) p = Some mp -> mission_of (ms_db w) c = Some mc ->
  (forall r, r ∈ rows (ms_db w) TMissionToMission -> cell "child_mission_id" r <> DStr (lower c)) ->
  let w' := (execute lib (DeleteParent c) (execute lib (AddChildToParent p c) w).2).2 in
  calm_state w' /\ ms_response w' = ms_response w /\ forall t, rows (ms_db w') t ≡ₚ rows (ms_db w) t.
Proof.
  intros Hw Hp Hc Hno w'.
  destruct (parent_given_and_taken w p c mp mc Hw Hp Hc Hno) as (rel & s1 & s2 & E1 & _ & _ & E2 & Hc2 & HT).
  assert (w' = with_db s2 w) as -> by (subst w'; by rewrite E1; cbn [snd]; rewrite E2). by split_and!.
Qed.
End RoundTrip.

Section Shown.
Context {S : Type} `{OrmLaws S, !OrmReliable S} (lib : mission_library).
Implicit Types (w : mission_state S) (s : S) (sid : string).

(** What [CreateNode] is asked for is what it makes. *)
Context (Hrecord : forall n, create_node lib "MissionData" "mission_record" = Ret n ->
  n_class n = missionData_class).

Lemma record_db_ends sid m n w : n_class n = missionData_class -> calm_state w ->
  ends (complete_mission_record_db lib sid m n) w.
Proof.
  intros Hn Hw. unfold complete_mission_record_db.
  destruct m as [m|]; [|apply ends_first, ends_of_option].
  eapply looks_ends; [apply looks_of_option|done|]. intros m' w1 Hw1 _ [= <-].
  apply ends_first. unfold put.
  match goal with |- context [assign_all lib [] ?l n] =>
    destruct (assign_all_raises lib "uids" (VList []) l n) as [e ->] end.
  - set_solver.
  - intros n' Hn'. apply uids_raise. congruence.
  - apply ends_raise.
Qed.

Lemma collect_mission_ends m collection w : calm_state w -> ends (collect_mission lib m collection) w.
Proof.
  intros Hw. unfold collect_mission.
  eapply looks_ends; [apply looks_of_outcome|done|]. intros n w1 Hw1 _ Hn.
  apply ends_first, record_db_ends; [by apply Hrecord|done].
Qed.

Lemma children_end w p m rel : calm_state w -> mission_of (ms_db w) p = Some m ->
  rel ∈ rows (ms_db w) TMissionToMission -> cell "parent_mission_id" rel = DStr (lower p) ->
  ends (get_children lib p) w.
Proof.
  intros Hw Hm Hrel Hp. destruct (mission_facts _ _ _ (proj1 Hw) Hm) as (Hmr & Ht & Hk). unfold get_children.
  eapply looks_ends; [apply looks_mission|done|]. intros o w1 Hw1 Hr1 Ho. cbv beta in Ho.
  fold (mission_of (ms_db w) p) in Ho. rewrite Hm in Ho. subst o.
  eapply looks_ends; [apply looks_of_option|done|]. intros m' w2 Hw2 Hr2 [= <-].
  eapply looks_ends; [apply looks_many; by rewrite Ht|done|]. intros l w3 Hw3 Hr3 Hl. cbv beta in Hl.
  rewrite Hr2, Hr1 in Hl.
  apply ends_after; [unfold create_mission_collection; glances_walk|done|]. intros n w4 Hw4 Hr4.
  assert (Hin : rel ∈ l) by (rewrite Hl; by eapply (elem_of_relations (ms_db w) m (lower p)); [apply Hw|..]).
  destruct l as [|r l]; [by apply not_elem_of_nil in Hin|]. apply ends_first. simpl.
  assert (Hrt : r_table r = TMissionToMission).
  { assert (Hr : r ∈ related_rows "child_missions" m (rows (ms_db w))) by (rewrite <- Hl; left).
    eapply elem_of_relations in Hr as [Hr _]; [by apply (sane_rows _ _ _ (proj1 Hw) Hr)|apply Hw|done..]. }
  apply ends_after; [apply glances_one; by rewrite Hrt|done|]. intros o w5 Hw5 _.
  by apply ends_first, collect_mission_ends.
Qed.

Lemma parent_ends w c m rel : calm_state w -> mission_of (ms_db w) c = Some m ->
  rel ∈ rows (ms_db w) TMissionToMission -> cell "child_mission_id" rel = DStr (lower c) ->
  ends (get_parent lib c) w.
Proof.
  intros Hw Hm Hrel Hc. destruct (mission_facts _ _ _ (proj1 Hw) Hm) as (Hmr & Ht & Hk). unfold get_parent.
  apply ends_after; [unfold create_mission_collection; glances_walk|done|]. intros n w0 Hw0 Hr0.
  eapply looks_ends; [apply looks_mission|done|]. intros o w1 Hw1 Hr1 Ho. cbv beta in Ho. rewrite Hr0 in *.
  fold (mission_of (ms_db w) c) in Ho. rewrite Hm in Ho. subst o.
  eapply looks_ends; [apply looks_of_option|done|]. intros m' w2 Hw2 Hr2 [= <-].
  eapply looks_ends; [apply looks_many; by rewrite Ht|done|]. intros l w3 Hw3 Hr3 Hl. cbv beta in Hl.
  rewrite Hr2, Hr1 in Hl.
  assert (Hin : rel ∈ l) by (rewrite Hl; by eapply (elem_of_relations (ms_db w) m (lower c)); [apply Hw|..]).
  destruct l as [|r l]; [by apply not_elem_of_nil in Hin|]. apply ends_first.
  assert (Hrt : r_table r = TMissionToMission).
  { assert (Hr : r ∈ related_rows "parent_missions" m (rows (ms_db w))) by (rewrite <- Hl; left).
    eapply elem_of_relations in Hr as [Hr _]; [by apply (sane_rows _ _ _ (proj1 Hw) Hr)|apply Hw|done..]. }
  apply ends_after; [apply glances_one; by rewrite Hrt|done|]. intros o w5 Hw5 _.
  by apply collect_mission_ends.
Qed.

(** A mission becomes the child of another by one row that names both, and from then on
    neither the children of the one nor the parent of the other can be asked for: both
    requests raise before they answer. *)
Theorem hierarchy_is_stored_and_not_shown w p c mp mc : calm_state w ->
  mission_of (ms_db w) p = Some mp -> mission_of (ms_db w) c = Some mc ->
  let w' := (execute lib (AddChildToParent p c) w).2 in
  calm_state w' /\ ms_response w' = ms_response w /\
  (exists rel, relates p c rel /\ forall t, rows (ms_db w') t ≡ₚ insert_row rel (rows (ms_db w)) t) /\
  still w' (execute lib (GetChildren p) w').2 /\ still w' (execute lib (GetParent c) w').2.
Proof.
  intros Hw Hp Hc w'. destruct (child_added w p c mp mc Hw Hp Hc) as (rel & s1 & E & Hc1 & Hrel & HT).
  assert (w' = with_db s1 w) as ->.
  { subst w'. unfold execute, try_except, try_with. cbn [perform]. by rewrite E. }
  assert (Hmo : forall id, mission_of s1 id = mission_of (ms_db w) id).
  { intros id. apply (mission_of_insert _ _ _ rel); [done|apply Hw| |done]. by rewrite (proj1 Hrel). }
  assert (Hin : rel ∈ rows s1 TMissionToMission).
  { rewrite HT. unfold insert_row. rewrite (proj1 Hrel), decide_True by done. set_solver. }
  destruct Hrel as (Ht & Hrp & Hrc). split_and!; [done|done|by exists rel| |].
  - apply ends_execute. cbn [perform]. apply ends_first, (children_end (with_db s1 w) p mp rel);
      [done|simpl; by rewrite Hmo|done|done].
  - apply ends_execute. cbn [perform]. apply ends_first, (parent_ends (with_db s1 w) c mc rel);
      [done|simpl; by rewrite Hmo|done|done].
Qed.

End Shown.

Lemma hierarchy_is_stored_and_not_shown_witness :
  let w' := (execute library (AddChildToParent "p" "c") (state_of [mission_row "p"; mission_row "c"])).2 in
  still w' (execute library (GetChildren "p") w').2 /\ still w' (execute library (GetParent "c") w').2.
Proof.
  intros w'.
  destruct (hierarchy_is_stored_and_not_shown library
    ltac:(intros n [= <-]; reflexivity)
    (state_of [mission_row "p"; mission_row "c"]) "p" "c" (mission_row "p") (mission_row "c")) as (_ & _ & _ & H1 & H2).
  - apply database_calm. reflexivity.
  - reflexivity.
  - reflexivity.
  - split; [exact H1|exact H2].
Defined.

Lemma parent_round_trip_witness :
  let w := state_of [mission_row "p"; mission_row "c"] in
  let w' := (execute library (DeleteParent "c") (execute library (AddChildToParent "p" "c") w).2).2 in
  rows (ms_db w') TMission ≡ₚ [mission_row "p"; mission_row "c"] /\ rows (ms_db w') TMissionToMission ≡ₚ [].
Proof.
  intros w w'. destruct (parent_round_trip library w "p" "c" (mission_row "p") (mission_row "c")) as (_ & _ & Hr).
  - apply database_calm. reflexivity.
  - reflexivity.
  - reflexivity.
  - intros r Hr. inversion Hr.
  - split; [exact (Hr TMission)|exact (Hr TMissionToMission)].
Defined.
