(* ===== verification/SyncFiles.v ===== *)
(** The file system below the enterprise sync: paths as [os.path] joins them and the
    system resolves them, files of bytes, and what is read as text
    ([core/enterprise_sync/controllers/enterprise_sync_filesystem_controller.py]). *)
From Stdlib Require Import ZArith Lia Ascii String.
From stdpp Require Import base strings list.
From S2P Require Import Prelude.
From S2P Require Import MainConfig.
From S2P Require Import RestGeo.

Set Default Proof Using "Type".
Local Open Scope string_scope.
Local Open Scope list_scope.
Local Open Scope py_scope.

(** * Paths *)

Definition ends_with_slash (p : string) : bool :=
  match last (chars p) with Some c => bool_decide (c = slash) | None => false end.
Definition is_absolute (p : string) : bool :=
  match p with String c _ => bool_decide (c = slash) | EmptyString => false end.

(** [os.path.join(a, b)]. *)
Definition path_join (a b : string) : string :=
  if is_absolute b then b
  else if bool_decide (a = "") || ends_with_slash a then a ++ b
  else a ++ "/" ++ b.

Definition path_components (p : string) : list string := text <$> split_on slash (chars p).

(** A path that is resolved: names from the root. *)
Abbreviation place := (list string).

Definition move (cur : place) (c : string) : place :=
  if bool_decide (c = "") || bool_decide (c = ".") then cur
  else if bool_decide (c = "..") then removelast cur
  else cur ++ [c].

(** * Disks *)

(** Files with their bytes, and the directories but for the root. *)
Record disk := mkDisk { d_files : list (place * string); d_dirs : list place }.

Definition is_dir (d : disk) (p : place) : bool := bool_decide (p = []) || bool_decide (p ∈ d_dirs d).
Definition is_file (d : disk) (p : place) : bool :=
  match dget p (d_files d) with Some _ => true | None => false end.

(** What a call may be refused for, beside what is on the disk: permissions, names that
    are too long, a disk that is full. *)
Inductive disk_call := CallMkdir | CallOpen | CallWrite | CallRemove.

Section Disk.
Context (denied : disk_call -> string -> bool) (cwd : place).

(** Each name but the last has to be that of a directory; there are no links. *)
Fixpoint walk (d : disk) (cur : place) (cs : list string) : outcome place :=
  match cs with
  | [] => Ret cur
  | c :: cs =>
      if is_dir d cur then walk d (move cur c) cs
      else if is_file d cur then Exn OSError else Exn FileNotFoundError
  end.
Definition nul : string := String "000" "".
Definition resolve (d : disk) (p : string) : outcome place :=
  if occurs nul p then Exn ValueError
  else if bool_decide (p = "") then Exn FileNotFoundError
  else walk d (if is_absolute p then [] else cwd) (path_components p).

(** [os.path.exists(p)]. *)
Definition path_exists (p : string) : M disk bool := fun d =>
  (Ret (match resolve d p with Ret q => is_dir d q || is_file d q | Exn _ => false end), d).

Fixpoint drop_empty (cs : list string) : list string :=
  match cs with "" :: cs => drop_empty cs | cs => cs end.
Definition without_end (p : string) : string :=
  text (join_with slash (chars <$> rev (drop_empty (rev (path_components p))))).

(** [os.mkdir(p)], which takes a path that ends in slashes. *)
Definition mkdir (p : string) : M disk unit := fun d =>
  match resolve d (without_end p) with
  | Exn e => (Exn e, d)
  | Ret q =>
      if is_dir d q || is_file d q || denied CallMkdir p then (Exn OSError, d)
      else (Ret tt, mkDisk (d_files d) (q :: d_dirs d))
  end.

(** [open(p, 'wb+')], which empties the file, and [file.write(data)], where what is no
    bytes can not be written. *)
Definition write_file (p : string) (data : option string) : M disk unit := fun d =>
  match resolve d p with
  | Exn e => (Exn e, d)
  | Ret q =>
      if is_dir d q || denied CallOpen p then (Exn OSError, d)
      else
        match data with
        | None => (Exn TypeError, mkDisk (dset q "" (d_files d)) (d_dirs d))
        | Some b =>
            if denied CallWrite p then (Exn OSError, mkDisk (dset q "" (d_files d)) (d_dirs d))
            else (Ret tt, mkDisk (dset q b (d_files d)) (d_dirs d))
        end
  end.

(** [open(p, 'rb').read()]. *)
Definition read_file (p : string) : M disk string := fun d =>
  match resolve d p with
  | Exn e => (Exn e, d)
  | Ret q =>
      if is_dir d q || denied CallOpen p then (Exn OSError, d)
      else match dget q (d_files d) with Some b => (Ret b, d) | None => (Exn FileNotFoundError, d) end
  end.

(** [os.remove(p)]. *)
Definition remove_file (p : string) : M disk unit := fun d =>
  match resolve d p with
  | Exn e => (Exn e, d)
  | Ret q =>
      if is_dir d q || denied CallRemove p then (Exn OSError, d)
      else match dget q (d_files d) with
           | Some _ => (Ret tt, mkDisk (ddel q (d_files d)) (d_dirs d))
           | None => (Exn FileNotFoundError, d)
           end
  end.
End Disk.

(** * Text *)

(** The bytes UTF-8 allows.  A text is kept as the bytes it is encoded in. *)
Definition between (a b : N) (c : ascii) : bool := (a <=? N_of_ascii c)%N && (N_of_ascii c <=? b)%N.
Definition continues : ascii -> bool := between 128 191.
Fixpoint valid_utf8 (l : list ascii) : bool :=
  match l with
  | [] => true
  | a :: l =>
      if between 0 127 a then valid_utf8 l
      else
        match l with
        | b :: l =>
            if between 194 223 a then continues b && valid_utf8 l
            else
              match l with
              | c :: l =>
                  if between 224 239 a then
                    between (if between 224 224 a then 160 else 128) (if between 237 237 a then 159 else 191) b &&
                    continues c && valid_utf8 l
                  else
                    match l with
                    | e :: l =>
                        between 240 244 a &&
                        between (if between 240 240 a then 144 else 128) (if between 244 244 a then 143 else 191) b &&
                        continues c && continues e && valid_utf8 l
                    | [] => false
                    end
              | [] => false
              end
        | [] => false
        end
  end.

(** [bytes.decode("utf-8")]; the error is a [ValueError]. *)
Definition decode (b : string) : outcome string :=
  if valid_utf8 (chars b) then Ret b else Exn ValueError.

(** The characters of a text. *)
Definition text_length (s : string) : Z :=
  Z.of_nat (length (List.filter (fun c => negb (continues c)) (chars s))).

(** A file that is opened as text has one kind of line end. *)
Definition cr : string := String "013" "".
Definition lf : string := String "010" "".
Definition universal_newlines (s : string) : string := replace (replace s (cr ++ lf) lf) cr lf.
