(* ===== verification/SyncStore.v ===== *)
(** The enterprise sync ([core/enterprise_sync]): its database controller over the sessions
    of [MissionDb], its files over [SyncFiles], the general controller and the facade. *)
From Stdlib Require Import ZArith Lia Ascii String.
From stdpp Require Import base strings list pretty.
From S2P Require Import Prelude.
From S2P Require Import RestGeo.
From S2P Require Import MissionDb.
From S2P Require Import MissionStore.
From S2P Require Import SyncFiles.

Set Default Proof Using "Type".
Local Open Scope string_scope.
Local Open Scope list_scope.
Local Open Scope py_scope.

Local Unset Elimination Schemes.

(** * Values of requests and responses *)

(** An object that was read comes with its keywords, which are loaded with it. *)
Inductive sval :=
  | SNone
  | SBool (b : bool)
  | SInt (z : Z)
  | SText (s : string)
  | SBytes (s : string)
  | STime (t : Z)
  | SList (l : list sval)
  | SDict (l : list (string * sval))
  | SObject (r : row) (keywords : list dbval).

Abbreviation values := (list (string * sval)).

Definition is_none (v : sval) : bool := match v with SNone => true | _ => false end.

(** [bool(v)]. *)
Definition truth (v : sval) : bool :=
  match v with
  | SNone => false
  | SBool b => b
  | SInt z => negb (Z.eqb z 0)
  | SText s | SBytes s => negb (bool_decide (s = ""))
  | SList l => match l with [] => false | _ => true end
  | SDict l => match l with [] => false | _ => true end
  | STime _ | SObject _ _ => true
  end.

Definition to_db (v : sval) : dbval :=
  match v with
  | SNone => DNone
  | SBool b => DBool b
  | SInt z => DInt z
  | SText s => DStr s
  | STime t => DTime t
  | SBytes _ => DOther "bytes"
  | SList _ => DOther "list"
  | SDict _ => DOther "dict"
  | SObject _ _ => DOther "object"
  end.
Definition of_db (v : dbval) : sval :=
  match v with
  | DNone => SNone
  | DBool b => SBool b
  | DInt z => SInt z
  | DStr s => SText s
  | DTime t => STime t
  | DOther v => SText v
  end.

(** [for x in v]. *)
Definition items (v : sval) : outcome (list sval) :=
  match v with
  | SList l => Ret l
  | SText s => Ret (SText <$> characters s)
  | SBytes s => Ret ((fun c => SInt (Z.of_N (N_of_ascii c))) <$> list_ascii_of_string s)
  | SDict l => Ret (SText <$> dkeys l)
  | _ => Exn TypeError
  end.

(** [len(v)]. *)
Definition py_len (v : sval) : outcome sval :=
  match v with
  | SText s => Ret (SInt (text_length s))
  | SBytes s => Ret (SInt (Z.of_nat (String.length s)))
  | SList l => Ret (SInt (Z.of_nat (length l)))
  | SDict l => Ret (SInt (Z.of_nat (length l)))
  | _ => Exn TypeError
  end.

(** An argument of a call with keywords, required or with a default. *)
Definition arg (k : string) (v : values) : outcome sval := from_option Ret (Exn TypeError) (dget k v).
Definition opt (k : string) (d : sval) (v : values) : sval := default d (dget k v).

(** What is outside: [hashlib], the disk and [config.EnterpriseSyncPath]. *)
Record sync_library := mkSyncLibrary {
  sha256 : string -> string;
  disk_denies : disk_call -> string -> bool;
  working_directory : place;
  EnterpriseSyncPath : string }.

Record sync_state (S : Type) := mkSyncState {
  sy_db : S;
  sy_disk : disk;
  sy_response : values }.
Arguments mkSyncState {S} _ _ _.
Arguments sy_db {S} _.
Arguments sy_disk {S} _.
Arguments sy_response {S} _.

Section Sync.
Context {S : Type} `{Orm S} (lib : sync_library).

Abbreviation MS := (M S).
Abbreviation MY := (M (sync_state S)).

Definition on_db {A} (m : MS A) : MY A := fun w =>
  let '(o, s) := m (sy_db w) in (o, mkSyncState s (sy_disk w) (sy_response w)).
Definition on_disk {A} (m : M disk A) : MY A := fun w =>
  let '(o, d) := m (sy_disk w) in (o, mkSyncState (sy_db w) d (sy_response w)).
Definition respond (k : string) (v : sval) : MY unit :=
  modify (fun w => mkSyncState (sy_db w) (sy_disk w) (dset k v (sy_response w))).

(** * The database controller *)

Definition sid : string := "sync".

(** [DatabaseController()] makes a session; what the one before had to write is lost with
    it. *)
Definition new_session : MS unit := rollback sid.

Definition given_cell (v : sval) : option dbval := match v with SNone => None | v => Some (to_db v) end.

Definition data_draft (filetype objectuid objecthash obj_length mime_type tool file_name private : sval) : draft :=
  let d := with_cell "file_type" (to_db filetype) (new TSyncObject) in
  let d := with_cell "PrimaryKey" (to_db objectuid) d in
  let d := with_cell "hash" (to_db objecthash) d in
  let d := with_cell "length" (to_db obj_length) d in
  let d := with_cell "creator_uid" (DStr "") d in
  let d := with_cell "mime_type" (to_db mime_type) d in
  let d := with_cell "tool" (to_db tool) d in
  let d := with_cell "file_name" (to_db file_name) d in
  with_cell "private" (to_db private) d.

Definition keyword_draft (data_obj : draft) (keyword : sval) : draft :=
  with_link "enterprise_sync_data_object" (Some (as_row data_obj))
    (with_cell "keyword" (to_db keyword) (new TKeyword)).

(** The error is logged and raised again.  No caller gives a start time. *)
Definition create_enterprise_sync_data_object
    (filetype objectuid objecthash obj_length obj_keywords mime_type tool file_name private : sval) : MS sval :=
  new_session ;;;
  or_rollback sid
    (let d := data_draft filetype objectuid objecthash obj_length mime_type tool file_name private in
     keywords <- of_outcome (items obj_keywords) ;;
     for_each keywords (fun k => add sid (keyword_draft d k)) ;;;
     add sid d ;;; l <- commit sid ;; r <- of_option External (last l) ;;
     mret (SObject r (to_db <$> keywords))).

(** [try: m except Exception as ex: session.rollback()], which answers [None]. *)
Definition or_none (m : MS sval) : MS sval := try_except m (fun _ => rollback sid ;;; mret SNone).

(** An object with its keywords. *)
Definition load (r : row) : MS sval :=
  l <- related sid r "keywords" ;; mret (SObject r (cell "keyword" <$> l)).
Fixpoint load_all (l : list row) : MS (list sval) :=
  match l with
  | [] => mret []
  | r :: l => o <- load r ;; os <- load_all l ;; mret (o :: os)
  end.

(** One of the queries, if a value is given for it and nothing was found before. *)
Definition or_first (k : string) (v : sval) (o : option row) : MS (option row) :=
  match v, o with
  | SNone, _ | _, Some _ => mret o
  | v, None => first sid (filter_by TSyncObject [(k, to_db v)])
  end.

Definition get_enterprise_sync_data_object (object_uid object_hash object_id file_name : sval) : MS sval :=
  new_session ;;;
  or_none
    (o <- or_first "PrimaryKey" object_uid None ;;
     o <- or_first "hash" object_hash o ;;
     o <- or_first "id" object_id o ;;
     o <- or_first "file_name" file_name o ;;
     if is_none object_id && is_none object_hash && is_none object_uid && is_none file_name
     then raise External
     else match o with Some r => load r | None => mret SNone end).

Definition get_all_enterprise_sync_data_objects : MS sval :=
  new_session ;;; or_none (l <- query sid (all_of TSyncObject) ;; os <- load_all l ;; mret (SList os)).

Definition given_condition (k : string) (v : sval) : list condition :=
  match v with SNone => [] | v => [mkCondition k Eq (to_db v)] end.

(** Objects that have a keyword, each once. *)
Definition sync_query (tool keyword : sval) : select :=
  mkSelect TSyncObject
    (Some (mkJoin "PrimaryKey" TKeyword "enterprise_sync_data_object_id" (given_condition "keyword" keyword)))
    (given_condition "tool" tool).
Definition get_multiple_enterprise_sync_data_objec (tool keyword : sval) : MS sval :=
  new_session ;;;
  or_none (l <- query sid (sync_query tool keyword) ;; os <- load_all l ;; mret (SList os)).

(** [data_obj.keywords = l]: the objects of the list take the place of the keywords, which
    lose their object; a string is no object. *)
Definition set_keywords (v : sval) (o : option row) : MS unit :=
  match v with
  | SNone => mret tt
  | v =>
      r <- of_option AttributeError o ;;
      match v with
      | SList [] =>
          l <- related sid r "keywords" ;;
          for_each l (fun k => assign sid k "enterprise_sync_data_object_id" DNone ;;; mret tt)
      | SList _ => raise AttributeError
      | _ => raise TypeError
      end
  end.

(** [private] is 0 where it is not given. *)
Definition set_values (v : values) : MS unit :=
  o <- first sid (filter_by TSyncObject [("PrimaryKey", to_db (opt "objectuid" SNone v))]) ;;
  o <- assign_if sid "file_type" (given_cell (opt "filetype" SNone v)) o ;;
  o <- assign_if sid "hash" (given_cell (opt "objecthash" SNone v)) o ;;
  o <- assign_if sid "length" (given_cell (opt "obj_length" SNone v)) o ;;
  set_keywords (opt "obj_keywords" SNone v) o ;;;
  o <- assign_if sid "start_time" (given_cell (opt "obj_start_time" SNone v)) o ;;
  o <- assign_if sid "mime_type" (given_cell (opt "mime_type" SNone v)) o ;;
  o <- assign_if sid "tool" (given_cell (opt "tool" SNone v)) o ;;
  o <- assign_if sid "file_name" (given_cell (opt "file_name" SNone v)) o ;;
  o <- assign_if sid "private" (given_cell (opt "private" (SInt 0) v)) o ;;
  commit sid ;;; mret tt.

(** The error is logged. *)
Definition update_enterprise_sync_object (v : values) : MS unit :=
  new_session ;;; try_except (set_values v) (fun _ => rollback sid).

Definition delete_enterprise_sync_object (object_hash object_uid : sval) : MS unit :=
  new_session ;;;
  o <- match object_hash, object_uid with
       | SNone, SNone => raise External
       | SNone, u => first sid (filter_by TSyncObject [("PrimaryKey", to_db u)])
       | h, _ => first sid (filter_by TSyncObject [("hash", to_db h)])
       end ;;
  r <- of_option External o ;;
  delete sid r ;;; commit sid ;;; mret tt.

(** * Files *)

(** [os.path.join(root, filetype, objectuid + '.txt')]. *)
Definition join_names (filetype objectuid : sval) : outcome (string * string) :=
  match objectuid, filetype with
  | SText u, SText t =>
      Ret (path_join (EnterpriseSyncPath lib) t, path_join (path_join (EnterpriseSyncPath lib) t) (u ++ ".txt"))
  | _, _ => Exn TypeError
  end.

Definition make_directory (p : string) : M disk unit :=
  b <- path_exists (working_directory lib) p ;;
  if (b : bool) then mret tt else mkdir (disk_denies lib) (working_directory lib) p.

Definition bytes_of (objectdata : sval) : option string :=
  match objectdata with SText s | SBytes s => Some s | _ => None end.

Definition save_file (filetype objectuid objectdata : sval) : M disk unit :=
  names <- of_outcome (join_names filetype objectuid) ;;
  make_directory (EnterpriseSyncPath lib) ;;;
  make_directory names.1 ;;;
  write_file (disk_denies lib) (working_directory lib) names.2 (bytes_of objectdata).

Definition get_file (file_type object_uid : sval) (use_bytes : bool) : M disk sval :=
  names <- of_outcome (join_names file_type object_uid) ;;
  b <- read_file (disk_denies lib) (working_directory lib) names.2 ;;
  if use_bytes then mret (SBytes b)
  else s <- of_outcome (decode b) ;; mret (SText (universal_newlines s)).

Definition delete_file (file_type object_uid : sval) : M disk unit :=
  names <- of_outcome (join_names file_type object_uid) ;;
  remove_file (disk_denies lib) (working_directory lib) names.2.

(** Line ends of Windows become those of Unix, in text or bytes. *)
Definition convert_newlines (data : sval) : outcome sval :=
  match data with
  | SText s => Ret (SText (replace s (cr ++ lf) lf))
  | SBytes s => Ret (SBytes (replace s (cr ++ lf) lf))
  | _ => Exn AttributeError
  end.

(** * The general controller *)

Definition hexdigest (objectdata : sval) : outcome sval :=
  match objectdata with SBytes s => Ret (SText (sha256 lib s)) | _ => Exn TypeError end.

(** [creator_uid] and the start time of the request go nowhere. *)
Definition save_enterprise_sync_data (v : values) : MY unit :=
  synctype <- of_outcome (arg "synctype" v) ;;
  objectuid <- of_outcome (arg "objectuid" v) ;;
  objectdata <- of_outcome (arg "objectdata" v) ;;
  objkeywords <- of_outcome (arg "objkeywords" v) ;;
  tool <- of_outcome (arg "tool" v) ;;
  mime_type <- of_outcome (arg "mime_type" v) ;;
  let file_name := match opt "file_name" SNone v with SNone => objectuid | x => x end in
  objectdata <- (if truth (opt "convert_newlines" (SBool false) v)
                 then of_outcome (convert_newlines objectdata) else mret objectdata) ;;
  objecthash <- match opt "objecthash" SNone v with
                | SNone => of_outcome (hexdigest objectdata) | x => mret x end ;;
  objectuid <- match objectuid with
               | SNone => u <- on_db uuid4 ;; mret (SText u) | x => mret x end ;;
  obj_length <- match opt "length" SNone v with
                | SNone => of_outcome (py_len objectdata) | x => mret x end ;;
  on_disk (save_file synctype objectuid objectdata) ;;;
  data_obj <- on_db (create_enterprise_sync_data_object synctype objectuid objecthash obj_length
                objkeywords mime_type tool file_name (opt "privacy" (SInt 0) v)) ;;
  respond "objectmetadata" data_obj.

(** The file type and the key of an object. *)
Definition file_of (o : sval) : outcome (sval * sval) :=
  match o with
  | SObject r _ => Ret (of_db (cell "file_type" r), of_db (cell "PrimaryKey" r))
  | _ => Exn AttributeError
  end.

Definition update_enterprise_sync_data (v : values) : MY unit :=
  objectuid <- of_outcome (arg "objectuid" v) ;;
  objecthash <- of_outcome (arg "objecthash" v) ;;
  objectdata <- of_outcome (arg "objectdata" v) ;;
  data_obj <- on_db (get_enterprise_sync_data_object objectuid SNone SNone SNone) ;;
  objectdata <- of_outcome (convert_newlines objectdata) ;;
  f <- of_outcome (file_of data_obj) ;;
  on_disk (save_file f.1 objectuid objectdata) ;;;
  on_db (update_enterprise_sync_object
    [("filetype", f.1); ("objectuid", objectuid); ("objecthash", objecthash)]).

(** What is given is handed on under the names of the database controller, which has none
    for [objstarttime]. *)
Definition updated_values (v : values) : values :=
  let given (k k' : string) : values := match opt k SNone v with SNone => [] | x => [(k', x)] end in
  given "objectuid" "objectuid" ++ given "objecthash" "objecthash" ++
  given "keywords" "obj_keywords" ++ given "objstarttime" "objstarttime" ++
  given "length" "obj_length" ++ given "mime_type" "mime_type" ++
  given "file_name" "file_name" ++ given "privacy" "private".
Definition update_enterprise_sync_metadata (v : values) : MY unit :=
  on_db (update_enterprise_sync_object (updated_values v)).

Definition converted (v : values) (data : sval) : outcome sval :=
  if truth (opt "convert_newlines" (SBool false) v) then convert_newlines data else Ret data.

Definition read_object (v : values) (data_obj : sval) : MY sval :=
  f <- of_outcome (file_of data_obj) ;;
  data <- on_disk (get_file f.1 f.2 (truth (opt "use_bytes" (SBool false) v))) ;;
  of_outcome (converted v data).

Definition get_enterprise_sync_data (v : values) : MY unit :=
  data_obj <- on_db (get_enterprise_sync_data_object (opt "objectuid" SNone v) (opt "objecthash" SNone v) SNone SNone) ;;
  match data_obj with
  | SNone => respond "objectdata" SNone
  | o => data <- read_object v o ;; respond "objectdata" data
  end.

(** What can not be read is logged and left out. *)
Fixpoint read_each (v : values) (get : sval -> MS sval) (l : list sval) : MY (list sval) :=
  match l with
  | [] => mret []
  | x :: l =>
      d <- try_except (o <- on_db (get x) ;; data <- read_object v o ;; mret [data]) (fun _ => mret []) ;;
      ds <- read_each v get l ;; mret (d ++ ds)
  end.
Definition by_uid (u : sval) : MS sval := get_enterprise_sync_data_object u SNone SNone SNone.
Definition by_hash (h : sval) : MS sval := get_enterprise_sync_data_object SNone h SNone SNone.
Definition given_items (v : sval) : outcome (list sval) := match v with SNone => Ret [] | v => items v end.

Definition get_multiple_enterprise_sync_data (v : values) : MY unit :=
  uids <- of_outcome (given_items (opt "objectuids" SNone v)) ;;
  data <- read_each v by_uid uids ;;
  hashes <- of_outcome (given_items (opt "objecthashs" SNone v)) ;;
  more <- read_each v by_hash hashes ;;
  respond "objectdata" (SList (data ++ more)).

Fixpoint find_each (get : sval -> MS sval) (l : list sval) : MS (list sval) :=
  match l with
  | [] => mret []
  | x :: l => o <- get x ;; os <- find_each get l ;; mret (if is_none o then os else o :: os)
  end.
Definition get_multiple_enterprise_sync_metadata (v : values) : MY unit :=
  let objectuids := opt "objectuids" SNone v in
  let objecthashs := opt "objecthashs" SNone v in
  uids <- of_outcome (given_items objectuids) ;;
  found <- on_db (find_each by_uid uids) ;;
  hashes <- of_outcome (given_items objecthashs) ;;
  more <- on_db (find_each by_hash hashes) ;;
  objects <- (if is_none objecthashs && is_none objectuids
              then on_db (get_multiple_enterprise_sync_data_objec (opt "tool" SNone v) (opt "keyword" SNone v))
              else mret (SList (found ++ more))) ;;
  respond "objectmetadata" objects.

(** By the name of the file, then by uid, by hash and by number; that by uid takes the
    place of the first. *)
Definition get_enterprise_sync_metadata (v : values) : MY unit :=
  let given (k : string) := negb (is_none (opt k SNone v)) in
  o <- (if given "file_name"
        then on_db (get_enterprise_sync_data_object SNone SNone SNone (opt "file_name" SNone v)) else mret SNone) ;;
  o <- (if given "objectuid" then on_db (by_uid (opt "objectuid" SNone v)) else mret o) ;;
  o <- (if given "objecthash" && is_none o then on_db (by_hash (opt "objecthash" SNone v)) else mret o) ;;
  o <- (if given "objectid" && is_none o
        then on_db (get_enterprise_sync_data_object SNone SNone (opt "objectid" SNone v) SNone) else mret o) ;;
  respond "objectmetadata" o.

Definition get_all_enterprise_sync_metadata : MY unit :=
  o <- on_db get_all_enterprise_sync_data_objects ;; respond "objectmetadata" o.

Definition delete_enterprise_sync_data (v : values) : MY unit :=
  data_obj <- on_db (get_enterprise_sync_data_object (opt "object_uid" SNone v) (opt "object_hash" SNone v)
                (opt "object_id" SNone v) (opt "file_name" SNone v)) ;;
  f <- of_outcome (file_of data_obj) ;;
  on_disk (delete_file f.1 f.2) ;;;
  on_db (delete_enterprise_sync_object (opt "object_hash" SNone v) (opt "object_uid" SNone v)).

(** * The facade *)

Inductive sync_action :=
  | SaveEnterpriseSyncData
  | GetEnterpriseSyncData
  | GetMultipleEnterpriseSyncData
  | GetMultipleEnterpriseSyncMetaData
  | GetAllEnterpriseSyncMetaData
  | GetEnterpriseSyncMetaData
  | UpdateEnterpriseSyncData
  | UpdateEnterpriseSyncMetaData
  | DeleteEnterpriseSyncData.

(** The methods of the facade hand the values of the request on. *)
Definition sync_perform (a : sync_action) (v : values) : MY unit :=
  match a with
  | SaveEnterpriseSyncData => save_enterprise_sync_data v
  | GetEnterpriseSyncData => get_enterprise_sync_data v
  | GetMultipleEnterpriseSyncData => get_multiple_enterprise_sync_data v
  | GetMultipleEnterpriseSyncMetaData => get_multiple_enterprise_sync_metadata v
  | GetAllEnterpriseSyncMetaData => get_all_enterprise_sync_metadata
  | GetEnterpriseSyncMetaData => get_enterprise_sync_metadata v
  | UpdateEnterpriseSyncData => update_enterprise_sync_data v
  | UpdateEnterpriseSyncMetaData => update_enterprise_sync_metadata v
  | DeleteEnterpriseSyncData => delete_enterprise_sync_data v
  end.

(** [EnterpriseSync.execute]: what is raised is logged. *)
Definition sync_execute (a : sync_action) (v : values) : MY unit :=
  try_except (sync_perform a v) (fun _ => mret tt).
End Sync.
