(* ===== verification/SyncHttp.v ===== *)
(** The endpoints through which clients and operators reach the enterprise sync: the
    blueprints of the HTTP and the HTTPS service
    ([services/http_tak_api_service], [services/https_tak_api_service]) and the data
    packages of the REST API ([services/rest_api_service/blueprints]). *)
From Stdlib Require Import ZArith Lia Ascii String.
From stdpp Require Import base strings list pretty.
From S2P Require Import Prelude.
From S2P Require Import MissionDb.
From S2P Require Import MissionStore.
From S2P Require Import SyncFiles.
From S2P Require Import SyncStore.

Set Default Proof Using "Type".
Local Open Scope string_scope.
Local Open Scope list_scope.
Local Open Scope py_scope.

(** [flask.request]: its arguments, its data, the files sent as [assetfile] with their
    content types, and the content type of the request. *)
Record web_request := mkWebRequest {
  w_args : list (string * string);
  w_data : string;
  w_assets : list (string * option string);
  w_content_type : option string }.

Inductive web_body :=
  | BText (s : string)
  | BData (v : sval)
  | BFile (data : string) (mimetype name : dbval).
Record web_answer := mkAnswer { wa_body : web_body; wa_status : Z }.

(** What is outside: formats of times, [werkzeug], whether [send_file] of the Flask that is
    installed takes a parameter, and [config]. *)
Record web_library := mkWebLibrary {
  time_text : Z -> string;
  search_time : Z -> string;
  secure_filename : string -> string;
  send_file_takes : string -> bool;
  DataPackageServiceDefaultIP : string;
  TakAPIPort : Z }.

(** The services whose blueprints are the same but where they are told apart below. *)
Inductive tak_service := HttpService | HttpsService.

Definition maybe_text (o : option string) : sval := from_option SText SNone o.

Section Http.
Context {S : Type} `{Orm S} (lib : sync_library) (web : web_library).

Abbreviation MY := (M (sync_state S)).

(** [make_request(action, context, values)]: the values of the response. *)
Definition make_request (a : sync_action) (v : values) : MY values :=
  modify (fun w => mkSyncState (sy_db w) (sy_disk w) []) ;;;
  sync_execute lib a v ;;; gets sy_response.
Definition get_value (k : string) (v : values) : sval := opt k SNone v.

Definition web_arg (k : string) (q : web_request) : sval := maybe_text (dget k (w_args q)).
Definition web_arg_or (k d : string) (q : web_request) : sval := SText (default d (dget k (w_args q))).
Definition asset (q : web_request) : MY (string * option string) := of_option IndexError (head (w_assets q)).

(** Attributes of an object: of [None] there are none. *)
Definition attribute (k : string) (o : sval) : MY dbval :=
  match o with SObject r _ => mret (cell k r) | _ => raise AttributeError end.
Definition time_of (f : Z -> string) (v : dbval) : MY string :=
  match v with DTime t => mret (f t) | _ => raise AttributeError end.

Definition uploaded (q : web_request) : MY string :=
  if bool_decide (w_data q = "") then a <- asset q ;; mret a.1 else mret (w_data q).

(** * The HTTP and the HTTPS service *)

Definition enterprise_sync_upload_alt (q : web_request) : MY web_answer :=
  let filename := match web_arg "filename" q with
                  | SText s => if bool_decide (s = "") then web_arg "name" q else SText s
                  | _ => web_arg "name" q end in
  data <- uploaded q ;;
  mime_type <- of_option KeyError (w_content_type q) ;;
  response <- make_request SaveEnterpriseSyncData
    [("objectuid", web_arg "hash" q); ("tool", web_arg_or "tool" "public" q); ("objectdata", SBytes data);
     ("objkeywords", SList [filename; web_arg "creatorUid" q; SText "missionpackage"]);
     ("objstarttime", SText ""); ("synctype", SText "content"); ("mime_type", SText mime_type);
     ("file_name", filename)] ;;
  let metadata := get_value "objectmetadata" response in
  uid <- attribute "id" metadata ;;
  start_time <- attribute "start_time" metadata ;;
  submitted <- time_of (time_text web) start_time ;;
  mime <- attribute "mime_type" metadata ;;
  submitter <- attribute "submitter" metadata ;;
  key <- attribute "PrimaryKey" metadata ;;
  hash <- attribute "hash" metadata ;;
  mret (mkAnswer (BData (SDict
    [("UID", of_db uid); ("SubmissionDateTime", SText submitted); ("MIMEType", of_db mime);
     ("SubmissionUser", of_db submitter); ("PrimaryKey", of_db key); ("Hash", of_db hash)])) 200).

(** [str(v)] of a column. *)
Definition text_of (v : dbval) : string :=
  match v with DNone => "None" | DStr s => s | DInt z => pretty z | _ => "" end.

Definition search_entry (r : row) (keywords : list dbval) : MY sval :=
  name <- of_option IndexError (head keywords) ;;
  submitted <- time_of (search_time web) (cell "start_time" r) ;;
  mret (SDict
    [("UID", SText (text_of (cell "PrimaryKey" r))); ("Name", of_db name);
     ("Hash", of_db (cell "PrimaryKey" r)); ("PrimaryKey", SText (text_of (cell "id" r)));
     ("SubmissionDateTime", SText submitted); ("SubmissionUser", of_db (cell "submitter" r));
     ("CreatorUid", of_db (cell "creator_uid" r)); ("Keywords", SList (of_db <$> keywords));
     ("MIMEType", of_db (cell "mime_type" r)); ("Size", of_db (cell "length" r))]).

Fixpoint search_entries (packages : list sval) : MY (list sval) :=
  match packages with
  | [] => mret []
  | SObject r keywords :: packages =>
      e <- search_entry r keywords ;; es <- search_entries packages ;; mret (e :: es)
  | _ :: _ => raise AttributeError
  end.

Definition is_public (o : sval) : bool :=
  match o with SObject r _ => bool_decide (cell "private" r = DInt 0) | _ => false end.

Definition retrieveData (q : web_request) : MY web_answer :=
  response <- make_request GetMultipleEnterpriseSyncMetaData
    [("tool", web_arg_or "tool" "public" q); ("keyword", web_arg_or "keyword" "missionpackage" q)] ;;
  packages <- of_outcome (items (get_value "objectmetadata" response)) ;;
  let public_packages := List.filter is_public packages in
  es <- search_entries public_packages ;;
  mret (mkAnswer (BData (SDict
    [("resultCount", SInt (Z.of_nat (length public_packages))); ("results", SList es)])) 200).

Definition enterprise_sync_head (q : web_request) : MY web_answer :=
  response <- make_request GetEnterpriseSyncData [("objecthash", web_arg "hash" q)] ;;
  mret (mkAnswer (BText "") (if is_none (get_value "objectdata" response) then 404 else 200)).

(** What is sent is the object Flask has for the file, which is neither text nor bytes.
    [None] is no body: Flask raises a [TypeError]. *)
Definition enterprise_sync_upload (q : web_request) : MY web_answer :=
  a <- asset q ;;
  response <- make_request SaveEnterpriseSyncData
    [("objecthash", web_arg "hash" q); ("objectdata", SDict []);
     ("objkeywords", SList [web_arg "filename" q; web_arg "creatorUid" q; SText "missionpackage"]);
     ("objstarttime", SText ""); ("tool", web_arg_or "tool" "public" q)] ;;
  match get_value "objectid" response with
  | SNone => raise TypeError
  | v => mret (mkAnswer (BData v) 200)
  end.

Definition content_of (q : web_request) : MY sval :=
  response <- make_request GetEnterpriseSyncData
    (match web_arg "uid" q with
     | SNone => [("objecthash", web_arg "hash" q); ("use_bytes", SBool true)]
     | uid => [("objectuid", uid); ("use_bytes", SBool true)]
     end) ;;
  mret (get_value "objectdata" response).

(** The HTTPS service answers [None] for what is not there. *)
Definition specificPackage (service : tak_service) (q : web_request) : MY web_answer :=
  o <- try_except (data <- content_of q ;; mret (Some data)) (fun _ => mret None) ;;
  match o, service with
  | None, _ => mret (mkAnswer (BText "") 500)
  | Some SNone, HttpService => mret (mkAnswer (BText "") 404)
  | Some SNone, HttpsService => raise TypeError
  | Some data, _ => mret (mkAnswer (BData data) 200)
  end.

Definition upload (service : tak_service) (q : web_request) : MY web_answer :=
  filename <- of_option TypeError (dget "filename" (w_args q)) ;;
  a <- asset q ;;
  mime_type <- of_option KeyError a.2 ;;
  make_request SaveEnterpriseSyncData
    [("objectuid", web_arg "hash" q); ("tool", web_arg_or "tool" "public" q); ("objectdata", SBytes a.1);
     ("objkeywords", SList [SText (secure_filename web filename); web_arg "creatorUid" q; SText "missionpackage"]);
     ("objstarttime", SText ""); ("synctype", SText "content"); ("mime_type", SText mime_type)] ;;;
  file_hash <- of_option TypeError (dget "hash" (w_args q)) ;;
  mret (mkAnswer (BText
    (match service with HttpService => "http://" | HttpsService => "https://" end ++
     DataPackageServiceDefaultIP web ++ ":" ++ pretty (TakAPIPort web) ++
     "/Marti/api/sync/metadata/" ++ file_hash ++ "/tool")) 200).

(** [send_file(BytesIO(data), as_attachment=True, mimetype=..., <name>=...)]. *)
Definition send_file (data : sval) (name : string) (metadata : sval) : MY web_answer :=
  mime <- attribute "mime_type" metadata ;;
  file_name <- attribute "file_name" metadata ;;
  match data with
  | SBytes b => if send_file_takes web name then mret (mkAnswer (BFile b mime file_name) 200) else raise TypeError
  | _ => raise TypeError
  end.

Definition data_by_hash (hash : sval) : MY sval :=
  response <- make_request GetEnterpriseSyncData [("objecthash", hash); ("use_bytes", SBool true)] ;;
  mret (get_value "objectdata" response).
Definition metadata_by_hash (hash : sval) : MY sval :=
  response <- make_request GetEnterpriseSyncMetaData [("objecthash", hash)] ;;
  mret (get_value "objectmetadata" response).

Definition get_mission_package (q : web_request) : MY web_answer :=
  data <- data_by_hash (web_arg "hash" q) ;;
  metadata <- metadata_by_hash (web_arg "hash" q) ;;
  if negb (is_none data) && negb (is_none metadata) then send_file data "attachment_filename" metadata
  else mret (mkAnswer (BText "404") 404).

(** The HTTP service names the package by its hash, the HTTPS service by its uid. *)
Definition putDataPackageTool (service : tak_service) (hash : string) (q : web_request) : MY web_answer :=
  let privacy := SInt (if bool_decide (w_data q = "private") then 1 else 0) in
  make_request UpdateEnterpriseSyncMetaData
    [(match service with HttpService => "objecthash" | HttpsService => "objectuid" end, SText hash);
     ("privacy", privacy)] ;;;
  mret (mkAnswer (BText "Okay") 200).

Definition getDataPackageTool (service : tak_service) (hash : string) : MY web_answer :=
  data <- data_by_hash (SText hash) ;;
  match data with
  | SNone => mret (mkAnswer (BText "") 404)
  | data =>
      metadata <- metadata_by_hash (SText hash) ;;
      send_file data (match service with HttpService => "download_name" | HttpsService => "attachment_filename" end)
        metadata
  end.

(** * The REST API *)

Definition message (s : string) : web_body := BData (SDict [("message", SText s)]).

(** The text of the exception is left out of the message. *)
Definition post_DataPackageTable (q : web_request) : MY web_answer :=
  try_except
    (uid <- on_db uuid4 ;;
     a <- asset q ;;
     mime_type <- of_option KeyError (w_content_type q) ;;
     response <- make_request SaveEnterpriseSyncData
       [("objectuid", SText uid); ("tool", SText "public"); ("objectdata", SBytes a.1);
        ("objkeywords", SList [web_arg "filename" q; web_arg "creatorUid" q; SText "missionpackage"]);
        ("objstarttime", SText ""); ("synctype", SText "content"); ("mime_type", SText mime_type);
        ("file_name", web_arg "filename" q)] ;;
     id <- attribute "id" (get_value "objectmetadata" response) ;;
     mret (mkAnswer (BData (SDict [("message", SText "success"); ("id", SText (text_of id))])) 200))
    (fun _ => mret (mkAnswer (message "An error occurred accessing datapackage details: ") 500)).

(** [int(v)]. *)
Definition int_of (v : sval) : outcome sval :=
  match v with
  | SInt z => Ret (SInt z)
  | SBool b => Ret (SInt (if b then 1 else 0))
  | SText s => match parse_int s with Some z => Ret (SInt z) | None => Exn ValueError end
  | _ => Exn TypeError
  end.

(** An entry of ["DataPackages"] of the document that is sent. *)
Definition put_package (dp : values) : MY unit :=
  privacy <- match dget "Privacy" dp with
             | Some v => of_outcome (int_of v) | None => mret SNone end ;;
  let keywords := get_value "Keywords" dp in
  let name := get_value "Name" dp in
  key <- of_option KeyError (dget "PrimaryKey" dp) ;;
  response <- make_request GetEnterpriseSyncMetaData [("file_name", key)] ;;
  pk <- attribute "PrimaryKey" (get_value "objectmetadata" response) ;;
  make_request UpdateEnterpriseSyncMetaData
    [("file_name", name); ("keywords", keywords); ("privacy", privacy); ("objectuid", of_db pk)] ;;; mret tt.
Definition put_DataPackageTable (packages : list values) : MY web_answer :=
  for_each packages put_package ;;; mret (mkAnswer (message "success") 200).

Fixpoint table_entries (packages : list sval) : MY (list sval) :=
  match packages with
  | [] => mret []
  | SObject r keywords :: packages =>
      name <- of_option IndexError (head keywords) ;;
      es <- table_entries packages ;;
      mret (SDict
        [("PrimaryKey", of_db name); ("SubmissionUser", of_db (cell "submitter" r));
         ("Size", of_db (cell "length" r)); ("Privacy", of_db (cell "private" r));
         ("SubmissionDateTime", of_db (cell "start_time" r)); ("Name", of_db (cell "file_name" r));
         ("Hash", of_db (cell "hash" r))] :: es)
  | _ :: _ => raise AttributeError
  end.
Definition get_DataPackageTable : MY web_answer :=
  response <- make_request GetMultipleEnterpriseSyncMetaData [("keyword", SText "missionpackage")] ;;
  output <- of_outcome (items (get_value "objectmetadata" response)) ;;
  es <- table_entries output ;;
  mret (mkAnswer (BData (SDict [("json_list", SList es)])) 200).

Definition delete_DataPackageTable (packages : list values) : MY web_answer :=
  for_each packages (fun p =>
    hash <- of_option KeyError (dget "hash" p) ;;
    make_request DeleteEnterpriseSyncData [("object_hash", hash)] ;;; mret tt) ;;;
  mret (mkAnswer (message "success") 200).
End Http.
