(* ===== verification/SyncPaths.v ===== *)
(** Paths of the enterprise sync: where the names of a file lead, and what a saved file
    leaves on the disk. *)
From Stdlib Require Import ZArith Lia Ascii String.
From stdpp Require Import base strings list sets.
From S2P Require Import Prelude.
From S2P Require Import MainConfig.
From S2P Require Import RestGeo.
From S2P Require Import MissionDb.
From S2P Require Import SyncFiles.
From S2P Require Import SyncStore.

Set Default Proof Using "Type*".
Local Open Scope string_scope.
Local Open Scope list_scope.
Local Open Scope py_scope.

(** * Strings *)

Lemma chars_string_app s s' : chars (s ++ s')%string = chars s ++ chars s'.
Proof. induction s as [|c s IH]; simpl; [done|by f_equal]. Qed.

Lemma text_chars s : text (chars s) = s.
Proof. apply string_of_list_ascii_of_string. Qed.

Lemma chars_text l : chars (text l) = l.
Proof. apply list_ascii_of_string_of_list_ascii. Qed.

(** A name: no slash and no NUL. *)
Definition no_slash (s : string) : Prop := slash ∉ chars s.
Definition no_nul (s : string) : Prop := "000"%char ∉ chars s.

Lemma split_on_cons_slash c l : split_on c (c :: l) = [] :: split_on c l.
Proof.
  simpl. destruct (split_on c l) as [|w ws] eqn:E; [|by rewrite decide_True].
  exfalso. destruct l; simpl in E; [done|]. destruct (split_on c l); [done|by case_decide].
Qed.

Lemma split_on_nonempty c l : split_on c l <> [].
Proof. destruct l as [|x l]; simpl; [done|]. destruct (split_on c l); [done|by case_decide]. Qed.

Lemma split_on_between c a b : split_on c (a ++ c :: b) = split_on c a ++ split_on c b.
Proof.
  induction a as [|x a IH]; [apply split_on_cons_slash|]. simpl. rewrite IH.
  pose proof (split_on_nonempty c a). destruct (split_on c a) as [|w ws]; [done|]. simpl. by case_decide.
Qed.

Lemma split_on_name c w : c ∉ w -> split_on c w = [w].
Proof.
  induction w as [|x w IH]; [done|]. rewrite not_elem_of_cons. intros [Hx Hw]. simpl.
  rewrite IH by done. by rewrite decide_False.
Qed.

Lemma path_components_app a b :
  path_components (a ++ "/" ++ b)%string = path_components a ++ path_components b.
Proof. unfold path_components. by rewrite !chars_string_app, <- fmap_app, <- split_on_between. Qed.

Lemma path_components_name s : no_slash s -> path_components s = [s].
Proof. intros Hs. unfold path_components. rewrite split_on_name by done. simpl. by rewrite text_chars. Qed.

Lemma occurs_nul s : occurs nul s = false <-> no_nul s.
Proof.
  unfold occurs, no_nul. induction s as [|c s IH]; [split; [intros _; apply not_elem_of_nil|done]|].
  cbn [String.index String.prefix nul list_ascii_of_string]. rewrite not_elem_of_cons.
  destruct (ascii_dec "000" c) as [<-|Hne].
  - split; [|naive_solver]. by destruct s.
  - unfold nul in *. destruct (String.index 0 _ s); naive_solver.
Qed.

Lemma join_split c l : join_with c (split_on c l) = l.
Proof.
  induction l as [|x l IH]; [done|]. simpl. pose proof (split_on_nonempty c l).
  destruct (split_on c l) as [|w ws]; [done|]. rewrite <- IH. case_decide as Ex; [by subst x|by destruct ws].
Qed.

Lemma last_component p : p <> "" -> ends_with_slash p = false ->
  exists cs c, path_components p = cs ++ [c] /\ c <> "".
Proof.
  intros Hp He. unfold path_components. destruct (split_on slash (chars p)) as [|w ws _] eqn:E using rev_ind;
    [by apply split_on_nonempty in E|].
  exists (text <$> ws), (text w). split; [by rewrite fmap_app|]. intros Hw.
  assert (w = []) as -> by (rewrite <- (chars_text w), Hw; done).
  assert (Hj : chars p = join_with slash (ws ++ [[]])) by (rewrite <- E; by rewrite join_split).
  unfold ends_with_slash in He. rewrite Hj in He. destruct ws as [|v ws].
  { simpl in Hj. by destruct p. }
  assert (Hl : exists l, join_with slash ((v :: ws) ++ [[]]) = l ++ [slash]).
  { clear. revert v. induction ws as [|v' ws IH]; intros v.
    - exists v. done.
    - destruct (IH v') as [l Hl]. exists (v ++ slash :: l). simpl in *. rewrite Hl. by rewrite <- app_assoc. }
  destruct Hl as [l Hl]. rewrite Hl, last_snoc in He. done.
Qed.

Lemma without_end_id p : p <> "" -> ends_with_slash p = false -> without_end p = p.
Proof.
  intros Hp He. unfold without_end. destruct (last_component p Hp He) as (cs & c & E & Hc).
  assert (drop_empty (rev (path_components p)) = rev (path_components p)) as ->.
  { rewrite E, rev_app_distr. simpl. by destruct c. }
  rewrite rev_involutive. unfold path_components. rewrite <- list_fmap_compose.
  rewrite (list_fmap_ext _ id) by (intros; apply chars_text). rewrite list_fmap_id, join_split. apply text_chars.
Qed.

Lemma path_join_name p n : p <> "" -> ends_with_slash p = false -> is_absolute n = false ->
  path_join p n = (p ++ "/" ++ n)%string.
Proof. intros Hp He Hn. unfold path_join. rewrite Hn, He. by rewrite bool_decide_eq_false_2. Qed.

Lemma no_slash_relative n : no_slash n -> is_absolute n = false.
Proof.
  intros Hn. destruct n as [|c n]; [done|]. apply bool_decide_eq_false_2. intros ->. apply Hn. left.
Qed.

Lemma no_slash_end p n : n <> "" -> no_slash n -> ends_with_slash (p ++ "/" ++ n)%string = false.
Proof.
  intros Hn Hs. unfold ends_with_slash. rewrite !chars_string_app, app_assoc.
  destruct (chars n) as [|c l _] eqn:E using rev_ind; [by destruct n|].
  rewrite app_assoc, last_snoc. apply bool_decide_eq_false_2. intros ->. apply Hs. rewrite E. set_solver.
Qed.

Lemma no_nul_app s s' : no_nul (s ++ s')%string <-> no_nul s /\ no_nul s'.
Proof. unfold no_nul. rewrite chars_string_app, not_elem_of_app. done. Qed.

(** * Places *)

Section Places.
Context (lib : sync_library).

Abbreviation cwd := (working_directory lib).
Abbreviation root := (EnterpriseSyncPath lib).

Lemma walk_app d cur a b :
  walk d cur (a ++ b) = match walk d cur a with Ret q => walk d q b | Exn e => Exn e end.
Proof.
  revert cur. induction a as [|c a IH]; intros cur; [done|]. simpl. destruct (is_dir d cur); [apply IH|].
  by destruct (is_file d cur).
Qed.

(** The path leads to that place, of a directory. *)
Definition leads_to (d : disk) (p : string) (R : place) : Prop :=
  resolve cwd d p = Ret R /\ is_dir d R = true /\ p <> "" /\ ends_with_slash p = false.

Lemma resolve_below d p R s : leads_to d p R -> no_nul s ->
  resolve cwd d (p ++ "/" ++ s)%string = walk d R (path_components s).
Proof.
  intros (Hr & Hd & Hp & _) Hs. unfold resolve in *.
  destruct (occurs nul p) eqn:Ep; [done|]. rewrite bool_decide_eq_false_2 in Hr by done.
  assert (occurs nul (p ++ "/" ++ s)%string = false) as ->.
  { apply occurs_nul, no_nul_app. split; [by apply occurs_nul|]. apply no_nul_app. split; [|done].
    unfold no_nul. by apply (bool_decide_unpack _). }
  rewrite bool_decide_eq_false_2 by (by destruct p). rewrite path_components_app, walk_app.
  assert (is_absolute (p ++ "/" ++ s)%string = is_absolute p) as -> by by destruct p. by rewrite Hr.
Qed.

Lemma move_name R n : n <> "" -> n <> "." -> n <> ".." -> move R n = R ++ [n].
Proof. intros. unfold move. by rewrite !bool_decide_eq_false_2. Qed.

Lemma resolve_name d p R n : leads_to d p R -> no_slash n -> no_nul n -> n <> "" -> n <> "." -> n <> ".." ->
  resolve cwd d (p ++ "/" ++ n)%string = Ret (R ++ [n]).
Proof.
  intros Hl Hs Hn ???. rewrite (resolve_below d p R) by done. rewrite path_components_name by done.
  simpl. destruct Hl as (_ & -> & _). by rewrite move_name.
Qed.

(** A directory of the sync, once it has been made. *)
Lemma directory_below d p R t : leads_to d p R -> no_slash t -> no_nul t -> t <> "" -> t <> "." -> t <> ".." ->
  is_dir d (R ++ [t]) = true -> leads_to d (p ++ "/" ++ t)%string (R ++ [t]).
Proof.
  intros Hl Hs Hn ????. split; [by apply resolve_name|]. split; [done|]. split; [by destruct p|by apply no_slash_end].
Qed.

Lemma make_directory_there d p R : leads_to d p R -> make_directory lib p d = (Ret tt, d).
Proof.
  intros (Hr & Hd & _). unfold make_directory. rewrite (run_bind _ _ d true d); [done|].
  unfold path_exists. by rewrite Hr, Hd.
Qed.

Definition with_dir (q : place) (d : disk) : disk := mkDisk (d_files d) (q :: d_dirs d).
Definition with_file (q : place) (b : string) (d : disk) : disk := mkDisk (dset q b (d_files d)) (d_dirs d).

Lemma is_dir_more q q' d : is_dir d q = true -> is_dir (with_dir q' d) q = true.
Proof.
  unfold is_dir. simpl. rewrite !orb_true_iff, !bool_decide_eq_true. rewrite elem_of_cons. tauto.
Qed.

Lemma walk_more q' d cur cs q : walk d cur cs = Ret q -> walk (with_dir q' d) cur cs = Ret q.
Proof.
  revert cur. induction cs as [|c cs IH]; intros cur; [done|]. simpl. destruct (is_dir d cur) eqn:E.
  - rewrite is_dir_more by done. apply IH.
  - by destruct (is_file d cur).
Qed.

Lemma leads_to_more q' d p R : leads_to d p R -> leads_to (with_dir q' d) p R.
Proof.
  intros (Hr & Hd & Hrest). split; [|split; [by apply is_dir_more|done]].
  unfold resolve in *. destruct (occurs nul p); [done|]. case_bool_decide; [done|]. by apply walk_more.
Qed.

(** A file more is in the way of nothing. *)
Lemma walk_file q' b d cur cs q : walk d cur cs = Ret q -> walk (with_file q' b d) cur cs = Ret q.
Proof.
  revert cur. induction cs as [|c cs IH]; intros cur; [done|]. simpl.
  change (is_dir (with_file q' b d) cur) with (is_dir d cur). destruct (is_dir d cur); [apply IH|].
  by destruct (is_file d cur).
Qed.

Lemma leads_to_file q' b d p R : leads_to d p R -> leads_to (with_file q' b d) p R.
Proof.
  intros (Hr & Hd & Hrest). split; [|done].
  unfold resolve in *. destruct (occurs nul p); [done|]. case_bool_decide; [done|]. by apply walk_file.
Qed.

Lemma make_directory_new d p R t : leads_to d p R -> no_slash t -> no_nul t -> t <> "" -> t <> "." -> t <> ".." ->
  is_dir d (R ++ [t]) = false -> is_file d (R ++ [t]) = false ->
  disk_denies lib CallMkdir (p ++ "/" ++ t)%string = false ->
  make_directory lib (p ++ "/" ++ t)%string d = (Ret tt, with_dir (R ++ [t]) d).
Proof.
  intros Hl Hs Hn ??? Hd Hf Hden. pose proof (resolve_name d p R t Hl Hs Hn) as Hr.
  unfold make_directory. rewrite (run_bind _ _ d false d).
  - unfold mkdir. rewrite without_end_id; [|by destruct p|by apply no_slash_end].
    rewrite Hr by done. by rewrite Hd, Hf, Hden.
  - unfold path_exists. by rewrite Hr, Hd, Hf.
Qed.

(** * Files *)

Definition file_name_of (u : string) : string := (u ++ ".txt")%string.
Definition file_place (R : place) (t u : string) : place := R ++ [t; file_name_of u].
Definition file_path (t u : string) : string := (root ++ "/" ++ t ++ "/" ++ file_name_of u)%string.

(** A name of a directory or of a file. *)
Definition plain_name (n : string) : Prop := no_slash n /\ no_nul n.
Definition directory_name (t : string) : Prop := plain_name t /\ t <> "" /\ t <> "." /\ t <> "..".

Lemma file_name_plain u : plain_name u -> plain_name (file_name_of u).
Proof.
  intros [Hs Hn]. unfold plain_name, no_slash, file_name_of. rewrite chars_string_app, not_elem_of_app, no_nul_app.
  split; [split; [done|]|split; [done|]]; by apply (bool_decide_unpack _).
Qed.

Lemma file_name_proper u : file_name_of u <> "" /\ file_name_of u <> "." /\ file_name_of u <> "..".
Proof. unfold file_name_of. destruct u as [|a [|b [|c u]]]; simpl; split_and!; intros E; inversion E. Qed.

Lemma string_app_assoc a b c : ((a ++ b) ++ c = a ++ b ++ c)%string.
Proof. induction a as [|x a IH]; [done|]. change (String x ((a ++ b) ++ c) = String x (a ++ b ++ c))%string. by rewrite IH. Qed.

Lemma joined_names t u d R : leads_to d root R -> directory_name t -> is_absolute u = false -> u <> "" ->
  join_names lib (SText t) (SText u) = Ret ((root ++ "/" ++ t)%string, file_path t u).
Proof.
  intros (_ & _ & Hp & He) ((Hs & Hn) & Ht & _) Hu Hne. unfold join_names.
  rewrite (path_join_name root t) by (done || by apply no_slash_relative). f_equal. f_equal.
  rewrite path_join_name; [|by destruct root|by apply no_slash_end|by destruct u].
  unfold file_path. by rewrite !string_app_assoc.
Qed.

Lemma resolve_file d R t s : leads_to d root R -> directory_name t -> is_dir d (R ++ [t]) = true -> no_nul s ->
  resolve cwd d (root ++ "/" ++ t ++ "/" ++ s)%string = walk d (R ++ [t]) (path_components s).
Proof.
  intros Hl ((Hs & Hn) & ? & ? & ?) Hd Hu.
  pose proof (directory_below d root R t Hl Hs Hn) as Hl'. specialize (Hl' ltac:(done) ltac:(done) ltac:(done) Hd).
  rewrite <- (resolve_below d _ _ s Hl' Hu). by rewrite !string_app_assoc.
Qed.

Lemma resolve_saved d R t u : leads_to d root R -> directory_name t -> is_dir d (R ++ [t]) = true -> plain_name u ->
  resolve cwd d (file_path t u) = Ret (file_place R t u).
Proof.
  intros Hl Ht Hd Hu. apply file_name_plain in Hu as [Hs Hn]. unfold file_path.
  rewrite (resolve_file d R) by done. rewrite path_components_name by done. simpl. rewrite Hd.
  destruct (file_name_proper u) as (? & ? & ?). rewrite move_name by done. unfold file_place.
  by rewrite <- app_assoc.
Qed.

(** The disk after the directories of the sync have been made, if that can be done. *)
Definition open_for (d : disk) (R : place) (t : string) : Prop :=
  leads_to d root R /\ directory_name t /\
  (is_dir d (R ++ [t]) = true \/
   is_file d (R ++ [t]) = false /\ disk_denies lib CallMkdir (root ++ "/" ++ t)%string = false).
Definition opened (d : disk) (R : place) (t : string) : disk :=
  if is_dir d (R ++ [t]) then d else with_dir (R ++ [t]) d.

Lemma opened_dirs d R t : open_for d R t ->
  leads_to (opened d R t) root R /\ is_dir (opened d R t) (R ++ [t]) = true /\
  d_files (opened d R t) = d_files d.
Proof.
  intros (Hl & Ht & Hd). unfold opened. destruct (is_dir d (R ++ [t])) eqn:E; [done|].
  split_and!; [by apply leads_to_more| |done]. unfold is_dir. simpl.
  rewrite orb_true_iff, !bool_decide_eq_true. right. left.
Qed.

Lemma directories_made d R t : open_for d R t ->
  (make_directory lib root ;;; make_directory lib (root ++ "/" ++ t)%string) d = (Ret tt, opened d R t).
Proof.
  intros (Hl & ((Hs & Hn) & ? & ? & ?) & Hd).
  rewrite (run_bind _ _ _ _ _ (make_directory_there d root R Hl)). unfold opened.
  destruct (is_dir d (R ++ [t])) eqn:E.
  - by apply (make_directory_there d _ (R ++ [t])), directory_below.
  - destruct Hd as [Hd|[Hf Hden]]; [congruence|]. by apply make_directory_new.
Qed.

Lemma save_file_split d R t u v : open_for d R t -> is_absolute u = false -> u <> "" ->
  save_file lib (SText t) (SText u) v d =
  write_file (disk_denies lib) cwd (file_path t u) (bytes_of v) (opened d R t).
Proof.
  intros Ho Hu Hne. pose proof Ho as (Hl & Ht & _). unfold save_file.
  rewrite (joined_names t u d R) by done.
  pose proof (directories_made d R t Ho) as E.
  rewrite (run_bind _ _ d (root ++ "/" ++ t, file_path t u)%string d) by done. cbn [fst snd].
  cbv [mbind M_bind] in E |- *. destruct (make_directory lib root d) as [[[]|e] d1]; [|done].
  by rewrite E.
Qed.

(** What is saved under plain names, and that nothing else changes whatever happens. *)
Lemma file_saved d R t u v b : open_for d R t -> plain_name u -> u <> "" -> bytes_of v = Some b ->
  is_dir (opened d R t) (file_place R t u) = false ->
  disk_denies lib CallOpen (file_path t u) = false -> disk_denies lib CallWrite (file_path t u) = false ->
  save_file lib (SText t) (SText u) v d = (Ret tt, with_file (file_place R t u) b (opened d R t)).
Proof.
  intros Ho Hu Hne Hv Hd H1 H2. rewrite (save_file_split d R) by (done || by apply no_slash_relative, Hu).
  destruct (opened_dirs d R t Ho) as (Hl & Hd' & _). unfold write_file.
  rewrite (resolve_saved _ R) by (done || apply Ho). by rewrite Hd, H1, Hv, H2.
Qed.

Lemma file_save_touches d R t u v : open_for d R t -> plain_name u -> u <> "" ->
  forall q, q <> file_place R t u ->
    dget q (d_files (save_file lib (SText t) (SText u) v d).2) = dget q (d_files d).
Proof.
  intros Ho Hu Hne q Hq. rewrite (save_file_split d R) by (done || by apply no_slash_relative, Hu).
  destruct (opened_dirs d R t Ho) as (Hl & Hd' & Hf). unfold write_file.
  rewrite (resolve_saved _ R) by (done || apply Ho). rewrite <- Hf.
  repeat case_match; simpl; try done; by apply dget_dset_ne.
Qed.

Lemma file_read d R t u b : leads_to d root R -> directory_name t -> is_dir d (R ++ [t]) = true ->
  plain_name u -> u <> "" -> dget (file_place R t u) (d_files d) = Some b ->
  is_dir d (file_place R t u) = false -> disk_denies lib CallOpen (file_path t u) = false ->
  read_file (disk_denies lib) cwd (file_path t u) d = (Ret b, d) /\
  join_names lib (SText t) (SText u) = Ret ((root ++ "/" ++ t)%string, file_path t u).
Proof.
  intros Hl Ht Hd Hu Hne Hb Hf Hden. split; [|by apply (joined_names t u d R); [..|apply no_slash_relative, Hu|]].
  unfold read_file. rewrite (resolve_saved _ R) by done. by rewrite Hf, Hden, Hb.
Qed.
End Places.
