(* ===== verification/SyncFacts.v ===== *)
(** What the enterprise sync finds and stores, over any database that keeps the promises of
    [MissionDb]. *)
From Stdlib Require Import ZArith Lia Ascii String.
From stdpp Require Import base strings list sets pretty.
From S2P Require Import Prelude.
From S2P Require Import MissionDb.
From S2P Require Import MissionStore.
From S2P Require Import MissionList.
From S2P Require Import MissionFacts.
From S2P Require Import SyncFiles.
From S2P Require Import SyncStore.
From S2P Require Import SyncPaths.

Set Default Proof Using "Type*".
Local Open Scope string_scope.
Local Open Scope list_scope.
Local Open Scope py_scope.

(** The keywords of an object. *)
Definition keywords_of (T : tables) (r : row) : list dbval := cell "keyword" <$> related_rows "keywords" r T.

(** The file of the object [r] is on the disk, with these bytes, and can be opened. *)
Definition held (lib : sync_library) (d : disk) (R : place) (r : row) (b : string) : Prop := exists t u,
  cell "file_type" r = DStr t /\ cell "PrimaryKey" r = DStr u /\
  leads_to lib d (EnterpriseSyncPath lib) R /\ directory_name t /\ is_dir d (R ++ [t]) = true /\
  plain_name u /\ u <> "" /\ dget (file_place R t u) (d_files d) = Some b /\
  is_dir d (file_place R t u) = false /\ disk_denies lib CallOpen (file_path lib t u) = false.

Section Facts.
Context {S : Type} `{OrmLaws S, !OrmReliable S}.
Implicit Types (s : S).

(** * Sessions *)

(** A new session has nothing to write. *)
Lemma new_session_calm s : calm s -> exists s', new_session s = (Ret tt, s') /\ unchanged s s'.
Proof.
  intros [Hs Hc]. destruct (rollback_law sid s) as (s' & E & Ho & Hr & Hp & Hb).
  exists s'. split; [done|]. split_and!; [apply Ho|done|]. intros sid'.
  destruct (decide (sid' = sid)) as [->|Hne]; [|by apply Ho]. destruct (Hc sid). split; congruence.
Qed.

Definition with_sync (s : S) (w : sync_state S) : sync_state S := mkSyncState s (sy_disk w) (sy_response w).
Definition with_disk (d : disk) (w : sync_state S) : sync_state S := mkSyncState (sy_db w) d (sy_response w).

Lemma on_db_run {A} (m : M S A) (w : sync_state S) o s' :
  m (sy_db w) = (o, s') -> on_db m w = (o, with_sync s' w).
Proof. intros E. unfold on_db. by rewrite E. Qed.

Lemma on_disk_run {A} (m : M disk A) (w : sync_state S) o d' :
  m (sy_disk w) = (o, d') -> on_disk m w = (o, with_disk d' w).
Proof. intros E. unfold on_disk. by rewrite E. Qed.

(** * Objects that are read *)

(** [v] is the object of [r] with its keywords. *)
Definition object_of (T : tables) (r : row) (v : sval) : Prop :=
  exists ks, v = SObject r ks /\ ks ≡ₚ keywords_of T r.

Lemma load_calm s r : calm s -> r_table r = TSyncObject ->
  exists v s', load r s = (Ret v, s') /\ unchanged s s' /\ object_of (rows s) r v.
Proof.
  intros Hc Hr. destruct (related_quiet sid r "keywords" s) as (l & s' & E & Hu & Hl);
    [by apply calm_quiet|by rewrite Hr|].
  exists (SObject r (cell "keyword" <$> l)), s'. split; [|split; [done|]].
  - unfold load. by rewrite (run_bind _ _ _ _ _ E).
  - exists (cell "keyword" <$> l). split; [done|]. by apply fmap_Permutation.
Qed.

Lemma load_all_calm s l : calm s -> (forall r, r ∈ l -> r_table r = TSyncObject) ->
  exists vs s', load_all l s = (Ret vs, s') /\ unchanged s s' /\ Forall2 (object_of (rows s)) l vs.
Proof.
  revert s. induction l as [|r l IH]; intros s Hc Hl.
  - exists [], s. split; [done|split; [done|constructor]].
  - destruct (load_calm s r Hc) as (v & s1 & E1 & Hu1 & Ho); [apply Hl; left|].
    destruct (IH s1) as (vs & s2 & E2 & Hu2 & Hos); [by eapply calm_unchanged|intros; apply Hl; by right|].
    exists (v :: vs), s2. split; [|split; [by etransitivity|]].
    + simpl. rewrite (run_bind _ _ _ _ _ E1). by rewrite (run_bind _ _ _ _ _ E2).
    + constructor; [done|]. by rewrite <- (unchanged_rows _ _ Hu1).
Qed.

(** [v] is the answer to the question for an object whose column [k] is [x]. *)
Definition answers s (k x : string) (v : sval) : Prop :=
  (v = SNone /\ forall r, r ∈ rows s TSyncObject -> cell k r <> DStr x) \/
  (exists r, r ∈ rows s TSyncObject /\ cell k r = DStr x /\ object_of (rows s) r v).

Lemma ask_calm s k x : calm s -> string_column TSyncObject k = true ->
  exists v s', (o <- first sid (filter_by TSyncObject [(k, DStr x)]) ;;
                match o with Some r => load r | None => mret SNone end) s = (Ret v, s') /\
    unchanged s s' /\ answers s k x v.
Proof.
  intros Hc Hk. destruct (first_quiet sid (filter_by TSyncObject [(k, DStr x)]) s) as (o & s1 & E1 & Hu1 & Ho);
    [by apply calm_quiet|done|].
  setoid_rewrite (run_bind _ _ _ _ _ E1). destruct o as [r|].
  - apply elem_of_selected_key in Ho as [Hr Hx]; [|apply Hc|done].
    destruct (load_calm s1 r) as (v & s2 & E2 & Hu2 & Hv);
      [by eapply calm_unchanged|by apply (sane_rows s _ _ (proj1 Hc) Hr)|].
    rewrite (unchanged_rows _ _ Hu1) in Hv. exists v, s2. split; [done|].
    split; [by etransitivity|]. right. by exists r.
  - exists SNone, s1. split; [done|]. split; [done|]. left. split; [done|]. intros r Hr Hx.
    assert (Hin : r ∈ selected (filter_by TSyncObject [(k, DStr x)]) (rows s))
      by (apply elem_of_selected_key; [apply Hc|done..]).
    simpl in Ho. rewrite Ho in Hin. by apply not_elem_of_nil in Hin.
Qed.

Lemma asked_calm s k x (m : M S sval) : calm s -> string_column TSyncObject k = true ->
  (forall s, m s = (o <- first sid (filter_by TSyncObject [(k, DStr x)]) ;;
                    match o with Some r => load r | None => mret SNone end) s) ->
  exists v s', (new_session ;;; or_none m) s = (Ret v, s') /\ unchanged s s' /\ answers s k x v.
Proof.
  intros Hc Hk Hm. destruct (new_session_calm s Hc) as (s1 & E1 & Hu1).
  destruct (ask_calm s1 k x) as (v & s2 & E2 & Hu2 & Hv); [by eapply calm_unchanged|done|].
  rewrite <- Hm in E2. exists v, s2. split; [|split; [by etransitivity|]].
  - rewrite (run_bind _ _ _ _ _ E1). by apply try_except_ret.
  - unfold answers in *. by rewrite (unchanged_rows _ _ Hu1) in Hv.
Qed.

Lemma by_uid_calm s x : calm s ->
  exists v s', by_uid (SText x) s = (Ret v, s') /\ unchanged s s' /\ answers s "PrimaryKey" x v.
Proof.
  intros Hc. unfold by_uid, get_enterprise_sync_data_object. apply asked_calm; [done..|].
  intros s0. unfold or_first. cbv [mbind M_bind mret M_ret]. simpl. by destruct (first _ _ _) as [[[]|] ?].
Qed.

Lemma by_hash_calm s x : calm s ->
  exists v s', by_hash (SText x) s = (Ret v, s') /\ unchanged s s' /\ answers s "hash" x v.
Proof.
  intros Hc. unfold by_hash, get_enterprise_sync_data_object. apply asked_calm; [done..|].
  intros s0. unfold or_first. cbv [mbind M_bind mret M_ret]. simpl. by destruct (first _ _ _) as [[[]|] ?].
Qed.

Lemma by_name_calm s x : calm s ->
  exists v s', get_enterprise_sync_data_object SNone SNone SNone (SText x) s = (Ret v, s') /\
    unchanged s s' /\ answers s "file_name" x v.
Proof.
  intros Hc. unfold get_enterprise_sync_data_object. apply asked_calm; [done..|].
  intros s0. unfold or_first. cbv [mbind M_bind mret M_ret]. simpl. by destruct (first _ _ _) as [[[]|] ?].
Qed.

(** Where one object only can be meant, it is the answer. *)
Lemma answers_one s k x r v : answers s k x v -> r ∈ rows s TSyncObject -> cell k r = DStr x ->
  (forall r', r' ∈ rows s TSyncObject -> cell k r' = DStr x -> r' = r) -> object_of (rows s) r v.
Proof.
  intros [[-> Hno]|(r' & Hr' & Hx & Hv)] Hr Hk Hone; [by apply Hno in Hr|]. by rewrite <- (Hone r').
Qed.

Lemma first_one s k x r : calm s -> string_column TSyncObject k = true -> r ∈ rows s TSyncObject ->
  cell k r = DStr x -> (forall r', r' ∈ rows s TSyncObject -> cell k r' = DStr x -> r' = r) ->
  exists s', first sid (filter_by TSyncObject [(k, DStr x)]) s = (Ret (Some r), s') /\ unchanged s s'.
Proof.
  intros Hc Hk Hr Hx Hone.
  destruct (first_quiet sid (filter_by TSyncObject [(k, DStr x)]) s) as (o & s' & E & Hu & Ho);
    [by apply calm_quiet|done|].
  exists s'. split; [|done]. rewrite E. do 2 f_equal. destruct o as [r'|]; simpl in Ho.
  - apply elem_of_selected_key in Ho as [Hr' Hx']; [|apply Hc|done]. by rewrite (Hone r').
  - exfalso. assert (Hin : r ∈ selected (filter_by TSyncObject [(k, DStr x)]) (rows s))
      by (apply elem_of_selected_key; [apply Hc|done..]). rewrite Ho in Hin. by apply not_elem_of_nil in Hin.
Qed.

(** * Objects that are changed *)

(** The session has [ws] to write, and is the only one to write. *)
Definition writing (ws : list work) s : Prop :=
  sane s /\ broken s sid = false /\ alone sid s /\ pending s sid = ws.

Lemma calm_writing s : calm s -> writing [] s.
Proof. intros Hc. by destruct (calm_quiet sid s Hc) as (? & ? & ? & ?). Qed.

Lemma assign_writing ws s r c v : writing ws s ->
  exists s', assign sid r c v s = (Ret (set_cells [(c, column_value (r_table r) c v)] r), s') /\
    writing (ws ++ [Update r c v]) s' /\ rows s' = rows s /\ others sid s s'.
Proof.
  intros (B1 & B2 & B3 & B4). destruct (assign_law sid r c v s) as (s' & E & Ho & Hr & Hp & Hb).
  exists s'. split_and!; [done| |done|done]. split_and!; [by apply Ho|congruence| |congruence].
  intros sid' Hne. rewrite (proj1 (proj2 Ho sid' Hne)). auto.
Qed.

Lemma commit_writing_calm ws s0 s : calm s0 -> others sid s0 s -> writing ws s -> acceptable (rows s) ws ->
  exists l rs T s', commit sid s = (Ret l, s') /\ calm s' /\ effect (rows s) ws rs T /\ forall t, rows s' t ≡ₚ T t.
Proof.
  intros Hc Ho0 (B1 & B2 & B3 & B4) Ha. destruct (commit_total sid s B1) as (l & s' & E).
  { split_and!; [done..|by rewrite B4]. }
  destruct (commit_ret _ _ _ _ E) as (Ho & _ & (T & He & HT) & Hp & Hb). rewrite B4 in He.
  exists l, l, T, s'. split_and!; [done| |done..]. apply (calm_others sid s0); [by etransitivity|done..].
Qed.

(** Updates of columns that are no keys, with values they take. *)
Lemma acceptable_updates (T : tables) (ws : list work) :
  (forall w, w ∈ ws -> exists r c v, w = Update r c v /\ c ∉ key_names (r_table r) /\
     exists col, col ∈ columns (r_table r) /\ c_name col = c /\ storable (c_type col) v = true) ->
  acceptable T ws.
Proof.
  intros Hws. assert (Hno : inserted ws = []).
  { unfold inserted. induction ws as [|w ws IH]; [done|]. simpl.
    destruct (Hws w ltac:(left)) as (? & ? & ? & -> & _). apply IH. intros w' Hw'. apply Hws. by right. }
  unfold acceptable. rewrite Hno. split_and!.
  - by intros ? ? ?%not_elem_of_nil.
  - constructor.
  - by intros ? ? ? ?%not_elem_of_nil.
  - by intros ? ? ?%not_elem_of_nil.
  - intros r c v (? & ? & ? & [= <- <- <-] & Hc)%Hws. done.
  - intros r name target fk key (? & ? & ? & ? & _)%Hws. done.
Qed.

(** A question and what failed after it leave a calm database as it was. *)
Lemma rolled_back s s1 e (m : M S unit) : calm s -> unchanged s s1 ->
  m s1 = (Exn e, s1) \/ (exists s2, m s1 = (Exn e, s2) /\ others sid s1 s2 /\ same_rows s1 s2) ->
  is_Exception e = true ->
  exists s', try_except m (fun _ => rollback sid) s1 = (Ret tt, s') /\ calm s' /\ rows s' = rows s.
Proof.
  intros Hc Hu Hm He.
  assert (exists s2, m s1 = (Exn e, s2) /\ others sid s1 s2 /\ same_rows s1 s2) as (s2 & E2 & Ho2 & Hr2)
    by (destruct Hm as [Hm|Hm]; [by exists s1|done]).
  destruct (rollback_law sid s2) as (s3 & E3 & Ho3 & Hr3 & Hp3 & Hb3).
  exists s3. split_and!.
  - unfold try_except, try_with. by rewrite E2, He.
  - apply (calm_others sid s); [|done..]. etransitivity; [by apply unchanged_others|]. by etransitivity.
  - unfold same_rows in *. rewrite Hr3, Hr2. by apply unchanged_rows.
Qed.
End Facts.
