(* ===== verification/SyncSample.v ===== *)
(** A small disk, a library and packages the theorems on the enterprise sync are applied
    to. *)
From Stdlib Require Import ZArith Lia Ascii String.
From stdpp Require Import base strings list sets pretty.
From S2P Require Import Prelude.
From S2P Require Import MissionDb.
From S2P Require Import MissionStore.
From S2P Require Import MissionList.
From S2P Require Import MissionFacts.
From S2P Require Import MissionSample.
From S2P Require Import SyncFiles.
From S2P Require Import SyncStore.
From S2P Require Import SyncHttp.
From S2P Require Import SyncPaths.
From S2P Require Import SyncFacts.

Local Open Scope string_scope.
Local Open Scope list_scope.

(** A digest that tells contents apart, and a system that refuses nothing. *)
Definition sync_lib : sync_library := {|
  sha256 s := ("digest of " ++ s)%string;
  disk_denies _ _ := false;
  working_directory := [];
  EnterpriseSyncPath := "/sync" |}.

Definition web_lib : web_library := {|
  time_text := pretty;
  search_time := pretty;
  secure_filename n := n;
  send_file_takes n := bool_decide (n = "download_name");
  DataPackageServiceDefaultIP := "127.0.0.1";
  TakAPIPort := 8080 |}.

(** The directory of the sync, and the file of a package in it. *)
Definition bare_disk : disk := mkDisk [] [["sync"]].
Definition disk_with (u b : string) : disk := mkDisk [(["sync"; "content"; (u ++ ".txt")%string], b)] [["sync"]; ["sync"; "content"]].

Definition package_of (u h f : string) (private : Z) : row :=
  stored (with_cell "private" (DInt private) (with_cell "file_name" (DStr f) (with_cell "tool" (DStr "public")
    (with_cell "hash" (DStr h) (with_cell "PrimaryKey" (DStr u) (with_cell "file_type" (DStr "content") (new TSyncObject))))))).
Definition keyword_of (u k : string) : row :=
  stored (with_cell "keyword" (DStr k) (with_cell "enterprise_sync_data_object_id" (DStr u) (new TKeyword))).

Definition store_of (rs : list row) (d : disk) : sync_state list_db := mkSyncState (database rs) d [].

Definition upload_request (u f b : string) : web_request :=
  mkWebRequest [("hash", u); ("filename", f); ("creatorUid", "me")] b [] (Some "text/plain").

(** One package with a keyword, and its file. *)
Definition sample_package (private : Z) : row := package_of "u" "h" "f" private.
Definition sample (private : Z) (b : string) : sync_state list_db :=
  store_of [sample_package private; keyword_of "u" "missionpackage"] (disk_with "u" b).

Lemma sample_calm private b : calm (sy_db (sample private b)).
Proof. by apply database_calm. Qed.

Lemma sample_one private b r : r ∈ rows (sy_db (sample private b)) TSyncObject -> r = sample_package private.
Proof. apply list_elem_of_singleton. Qed.

Lemma content_name : directory_name "content".
Proof. split; [split; by apply (bool_decide_unpack _)|done]. Qed.

Lemma sample_held private b : held sync_lib (sy_disk (sample private b)) ["sync"] (sample_package private) b.
Proof.
  exists "content", "u". split; [done|]. split; [done|]. split; [done|]. split; [apply content_name|].
  split; [done|]. split; [split; by apply (bool_decide_unpack _)|done].
Qed.
