(* ===== verification/SyncReads.v ===== *)
(** What the endpoints of the enterprise sync answer about objects that are there: their
    bytes and the list of packages. *)
From Stdlib Require Import ZArith Lia Ascii String.
From stdpp Require Import base strings list sets pretty.
From S2P Require Import Prelude.
From S2P Require Import MissionDb.
From S2P Require Import MissionStore.
From S2P Require Import MissionList.
From S2P Require Import MissionFacts.
From S2P Require Import MissionSample.
From S2P Require Import SyncFiles.
From S2P Require Import SyncStore.
From S2P Require Import SyncHttp.
From S2P Require Import SyncPaths.
From S2P Require Import SyncFacts.
From S2P Require Import SyncSample.

Set Default Proof Using "Type*".
Local Open Scope string_scope.
Local Open Scope list_scope.
Local Open Scope py_scope.

Section Reads.
Context {S : Type} `{OrmLaws S, !OrmReliable S} (lib : sync_library) (web : web_library).
Implicit Types (w : sync_state S) (s : S).

(** Nothing is stored: the tables and the disk are as they were. *)
Definition same_store w w' : Prop := unchanged (sy_db w) (sy_db w') /\ sy_disk w' = sy_disk w.

#[global] Instance same_store_preorder : PreOrder same_store.
Proof.
  split; [by intros w|]. intros w1 w2 w3 [A1 A2] [B1 B2]. split; [by etransitivity|congruence].
Qed.

Lemma same_store_calm w w' : same_store w w' -> calm (sy_db w) -> calm (sy_db w').
Proof. intros [Hu _]. by apply calm_unchanged. Qed.

Lemma same_store_rows w w' : same_store w w' -> rows (sy_db w') = rows (sy_db w).
Proof. intros [Hu _]. by apply unchanged_rows. Qed.

(** * Files *)

(** What reading it yields. *)
Definition contents (use_bytes : bool) (b : string) : outcome sval :=
  if use_bytes then Ret (SBytes b)
  else if valid_utf8 (list_ascii_of_string b) then Ret (SText (universal_newlines b)) else Exn ValueError.

Lemma file_held d R r b use : held lib d R r b ->
  exists t u, cell "file_type" r = DStr t /\ cell "PrimaryKey" r = DStr u /\
    get_file lib (SText t) (SText u) use d = (contents use b, d).
Proof.
  intros (t & u & Ht & Hu & Hl & Hdt & Hd & Hpu & Hne & Hb & Hf & Hden). exists t, u.
  split; [done|split; [done|]].
  destruct (file_read lib d R t u b Hl Hdt Hd Hpu Hne Hb Hf Hden) as [E1 E2].
  unfold get_file. rewrite E2. cbv [of_outcome mbind M_bind mret M_ret]. cbn [fst snd]. rewrite E1.
  unfold contents, decode. destruct use; [done|]. by destruct (valid_utf8 _).
Qed.

Lemma object_read w R r b ks (v : values) : held lib (sy_disk w) R r b ->
  truth (opt "convert_newlines" (SBool false) v) = false ->
  read_object lib v (SObject r ks) w = (contents (truth (opt "use_bytes" (SBool false) v)) b, w).
Proof.
  intros Hh Hc. destruct (file_held _ R r b (truth (opt "use_bytes" (SBool false) v)) Hh) as (t & u & Ht & Hu & E).
  unfold read_object. cbn [file_of]. rewrite Ht, Hu. cbn [of_db].
  cbv [of_outcome mbind M_bind mret M_ret on_disk]. cbn [fst snd]. rewrite E. unfold converted. rewrite Hc.
  by destruct w, (contents _ _).
Qed.

(** * Requests for data *)

(** The question of the key [k] of a request is one for the column [c]. *)
Definition asked_by (k c : string) : Prop :=
  k = "objectuid" /\ c = "PrimaryKey" \/ k = "objecthash" /\ c = "hash".

Definition clear w : sync_state S := mkSyncState (sy_db w) (sy_disk w) [].

Lemma data_requested w R k c x r b use : calm (sy_db w) -> asked_by k c ->
  r ∈ rows (sy_db w) TSyncObject -> cell c r = DStr x ->
  (forall r', r' ∈ rows (sy_db w) TSyncObject -> cell c r' = DStr x -> r' = r) ->
  held lib (sy_disk w) R r b ->
  let v := (k, SText x) :: (if use : bool then [("use_bytes", SBool true)] else []) in
  exists w', make_request lib GetEnterpriseSyncData v w =
    (Ret (match contents use b with Ret d => [("objectdata", d)] | Exn _ => [] end), w') /\ same_store w w'.
Proof.
  intros Hc Hk Hr Hx Hone Hh v.
  assert (exists o s', get_enterprise_sync_data_object (opt "objectuid" SNone v) (opt "objecthash" SNone v) SNone SNone
            (sy_db w) = (Ret o, s') /\ unchanged (sy_db w) s' /\ object_of (rows (sy_db w)) r o) as (o & s' & E & Hu & Ho).
  { destruct Hk as [[-> ->]|[-> ->]].
    - destruct (by_uid_calm (sy_db w) x Hc) as (o & s' & E & Hu & Ha). exists o, s'.
      split; [by destruct use|]. split; [done|]. by apply (answers_one _ "PrimaryKey" x).
    - destruct (by_hash_calm (sy_db w) x Hc) as (o & s' & E & Hu & Ha). exists o, s'.
      split; [by destruct use|]. split; [done|]. by apply (answers_one _ "hash" x). }
  destruct Ho as (ks & -> & _).
  assert (Hrd : read_object lib v (SObject r ks) (with_sync s' (clear w)) = (contents use b, with_sync s' (clear w))).
  { rewrite (object_read _ R r b ks v); [|done|].
    - f_equal. by destruct use, Hk as [[-> _]|[-> _]].
    - by destruct use, Hk as [[-> _]|[-> _]]. }
  unfold make_request. rewrite (run_bind _ _ w tt (clear w)) by done.
  assert (Es : sync_perform lib GetEnterpriseSyncData v (clear w) =
    match contents use b with
    | Ret d => (Ret tt, mkSyncState s' (sy_disk w) [("objectdata", d)])
    | Exn e => (Exn e, with_sync s' (clear w))
    end).
  { cbn [sync_perform]. unfold get_enterprise_sync_data.
    rewrite (run_bind _ _ _ _ _ (on_db_run _ (clear w) _ _ E)).
    unfold contents in *. destruct use; [by rewrite (run_bind _ _ _ _ _ Hrd)|].
    destruct (valid_utf8 _); [by rewrite (run_bind _ _ _ _ _ Hrd)|by rewrite (run_bind_exn _ _ _ _ _ Hrd)]. }
  unfold contents in *. unfold sync_execute, try_except, try_with. destruct use; [|destruct (valid_utf8 _)].
  all: eexists; cbv [mbind M_bind]; rewrite Es; (split; [done|by split]).
Qed.

(** Nothing is there by that name. *)
Lemma data_missing w k c x (more : values) : calm (sy_db w) -> asked_by k c ->
  (forall r, r ∈ rows (sy_db w) TSyncObject -> cell c r <> DStr x) ->
  dget "objectuid" more = None -> dget "objecthash" more = None ->
  exists w', make_request lib GetEnterpriseSyncData ((k, SText x) :: more) w =
    (Ret [("objectdata", SNone)], w') /\ same_store w w'.
Proof.
  intros Hc Hk Hno Hm1 Hm2.
  assert (exists s', get_enterprise_sync_data_object (opt "objectuid" SNone ((k, SText x) :: more))
            (opt "objecthash" SNone ((k, SText x) :: more)) SNone SNone
            (sy_db w) = (Ret SNone, s') /\ unchanged (sy_db w) s') as (s' & E & Hu).
  { destruct Hk as [[-> ->]|[-> ->]].
    - destruct (by_uid_calm (sy_db w) x Hc) as (o & s' & E & Hu & [[-> _]|(r & Hr & Hx & _)]); [|by apply Hno in Hr].
      exists s'. split; [|done]. unfold opt. simpl. by rewrite Hm2.
    - destruct (by_hash_calm (sy_db w) x Hc) as (o & s' & E & Hu & [[-> _]|(r & Hr & Hx & _)]); [|by apply Hno in Hr].
      exists s'. split; [|done]. unfold opt. simpl. by rewrite Hm1. }
  exists (mkSyncState s' (sy_disk w) [("objectdata", SNone)]). split; [|by split].
  unfold make_request. rewrite (run_bind _ _ w tt (clear w)) by done.
  unfold sync_execute, try_except, try_with. cbn [sync_perform]. unfold get_enterprise_sync_data.
  cbv [mbind M_bind] in *. by rewrite (on_db_run _ (clear w) _ _ E).
Qed.

(** * Downloads *)

Definition asks_for (k x : string) : web_request := mkWebRequest [(k, x)] "" [] None.
Definition bytes_answer (b : string) : web_answer := mkAnswer (BData (SBytes b)) 200.

(** What [specificPackage] is asked by, and the column it asks for. *)
Definition named_by (k c : string) : Prop := k = "uid" /\ c = "PrimaryKey" \/ k = "hash" /\ c = "hash".

Lemma package_downloaded w R service k c x r b : calm (sy_db w) -> named_by k c ->
  r ∈ rows (sy_db w) TSyncObject -> cell c r = DStr x ->
  (forall r', r' ∈ rows (sy_db w) TSyncObject -> cell c r' = DStr x -> r' = r) ->
  held lib (sy_disk w) R r b ->
  exists w', specificPackage lib service (asks_for k x) w = (Ret (bytes_answer b), w') /\ same_store w w'.
Proof.
  intros Hc Hk Hr Hx Hone Hh.
  assert (exists w', content_of lib (asks_for k x) w = (Ret (SBytes b), w') /\ same_store w w') as (w' & E & Hw').
  { destruct Hk as [[-> ->]|[-> ->]]; unfold content_of.
    - change (web_arg "uid" (asks_for "uid" x)) with (SText x). cbv iota.
      destruct (data_requested w R "objectuid" "PrimaryKey" x r b true) as (w' & E & Hw'); [done|by left|done..|].
      exists w'. split; [|done]. by rewrite (run_bind _ _ _ _ _ E).
    - change (web_arg "uid" (asks_for "hash" x)) with SNone.
      change (web_arg "hash" (asks_for "hash" x)) with (SText x). cbv iota.
      destruct (data_requested w R "objecthash" "hash" x r b true) as (w' & E & Hw'); [done|by right|done..|].
      exists w'. split; [|done]. by rewrite (run_bind _ _ _ _ _ E). }
  exists w'. split; [|done]. unfold specificPackage.
  rewrite (run_bind _ _ w (Some (SBytes b)) w'); [by destruct service|].
  apply try_except_ret. by rewrite (run_bind _ _ _ _ _ E).
Qed.

(** Whether a package is there is asked by reading it as text: of a package whose bytes
    are no UTF-8, as those of an archive, the HTTP and the HTTPS service answer that it is not
    there, and send it to whom asks for it. *)
Theorem binary_package_has_no_head w R service h r b : calm (sy_db w) ->
  r ∈ rows (sy_db w) TSyncObject -> cell "hash" r = DStr h ->
  (forall r', r' ∈ rows (sy_db w) TSyncObject -> cell "hash" r' = DStr h -> r' = r) ->
  held lib (sy_disk w) R r b -> valid_utf8 (list_ascii_of_string b) = false ->
  (exists w', enterprise_sync_head lib (asks_for "hash" h) w = (Ret (mkAnswer (BText "") 404), w') /\ same_store w w') /\
  exists w', specificPackage lib service (asks_for "hash" h) w = (Ret (bytes_answer b), w') /\ same_store w w'.
Proof.
  intros Hc Hr Hx Hone Hh Hb. split.
  - destruct (data_requested w R "objecthash" "hash" h r b false) as (w' & E & Hw'); [done|by right|done..|].
    exists w'. split; [|done]. unfold enterprise_sync_head.
    unfold contents in E. rewrite Hb in E. by rewrite (run_bind _ _ _ _ _ E).
  - apply (package_downloaded w R service "hash" "hash" h r b); [done|by right|done..].
Qed.

(** * The list of packages *)

(** The record of an object is of that tool, and one of the keywords that refer to it is
    that keyword. *)
Definition filed_under (T : tables) (tool keyword : string) (r : row) : Prop :=
  r ∈ T TSyncObject /\ cell "tool" r = DStr tool /\
  exists u k, k ∈ T TKeyword /\ cell "PrimaryKey" r = DStr u /\
    cell "enterprise_sync_data_object_id" k = DStr u /\ cell "keyword" k = DStr keyword.

(** The object is one of those that are to be listed for a tool and a keyword: it is filed
    under them and is not private. *)
Definition listed (T : tables) (tool keyword : string) (r : row) : Prop :=
  filed_under T tool keyword r /\ cell "private" r = DInt 0.

Lemma elem_of_sync_query s tool keyword r : sane s ->
  r ∈ selected (sync_query (SText tool) (SText keyword)) (rows s) <-> filed_under (rows s) tool keyword r.
Proof.
  unfold filed_under.
  intros Hs. rewrite elem_of_selected. cbn [sync_query q_table q_where q_join j_table j_fk j_key j_where given_condition].
  cbn [forallb to_db]. setoid_rewrite andb_true_r. setoid_rewrite satisfies_eq. split.
  - intros (Hr & Ht & k & Hk & Href & Hkw).
    apply (refers_at s TSyncObject _ TKeyword) in Href as (u & Hu & Hfk); [|done..].
    split; [done|]. split; [by apply (string_eqb s TSyncObject) in Ht|].
    exists u, k. apply (string_eqb s TKeyword) in Hkw; [|done..]. done.
  - intros (Hr & Ht & u & k & Hk & Hu & Hfk & Hkw). split; [done|].
    split; [by apply (string_eqb s TSyncObject)|]. exists k. split; [done|].
    split; [apply (refers_at s TSyncObject _ TKeyword); [done..|by exists u]|by apply (string_eqb s TKeyword)].
Qed.

Lemma elem_of_keywords s r x u k : sane s -> r ∈ rows s TSyncObject -> k ∈ rows s TKeyword ->
  cell "PrimaryKey" r = DStr u -> cell "enterprise_sync_data_object_id" k = DStr u ->
  cell "keyword" k = DStr x -> DStr x ∈ keywords_of (rows s) r.
Proof.
  intros Hs Hr Hk Hu Hfk Hx. unfold keywords_of. rewrite <- Hx. apply list_elem_of_fmap_2.
  unfold related_rows. rewrite (proj1 (sane_rows s _ _ Hs Hr)). cbn.
  apply list_elem_of_In, filter_In. split; [by apply list_elem_of_In|].
  apply (refers_at s TKeyword _ TSyncObject); [done..|by exists u].
Qed.

(** An entry of the list: the file is named by the key of the object, where a client
    takes it for the hash. *)
Definition shown_as (T : tables) (r : row) (e : sval) : Prop := exists l ks,
  e = SDict l /\ ks ≡ₚ keywords_of T r /\ dget "Keywords" l = Some (SList (of_db <$> ks)) /\
  dget "Hash" l = Some (of_db (cell "PrimaryKey" r)) /\
  dget "PrimaryKey" l = Some (SText (text_of (cell "id" r))) /\
  dget "MIMEType" l = Some (of_db (cell "mime_type" r)) /\ dget "Size" l = Some (of_db (cell "length" r)).

Lemma packages_shown T (l : list row) (vs : list sval) w : Forall2 (object_of T) l vs ->
  (forall r, r ∈ l -> is_public (SObject r []) = true -> keywords_of T r <> [] /\ exists t, cell "start_time" r = DTime t) ->
  exists es, search_entries web (List.filter is_public vs) w = (Ret es, w) /\
    Forall2 (shown_as T) (List.filter (fun r => bool_decide (cell "private" r = DInt 0)) l) es /\
    length es = length (List.filter is_public vs).
Proof.
  induction 1 as [|r v l vs (ks & -> & Hks) Hvs IH]; intros Hl.
  { exists []. split; [done|split; [constructor|done]]. }
  destruct IH as (es & E & Hes & Hlen); [intros; apply Hl; [by right|done]|].
  cbn [List.filter is_public]. destruct (bool_decide (cell "private" r = DInt 0)) eqn:Hp; [|by exists es].
  destruct (Hl r ltac:(left) Hp) as (Hne & t & Ht). destruct ks as [|k ks].
  { by apply Permutation_nil in Hks. }
  eexists (_ :: es). split; [|split; [constructor; [|done]|by simpl; f_equal]].
  - cbn [search_entries]. unfold search_entry, time_of. cbv [mbind M_bind mret M_ret of_option] in *. cbn [head].
    rewrite Ht, E. reflexivity.
  - eexists _, (k :: ks). split_and!; [reflexivity|done|reflexivity..].
Qed.

Lemma list_requested w (v : values) tool keyword : calm (sy_db w) ->
  opt "objectuids" SNone v = SNone -> opt "objecthashs" SNone v = SNone ->
  opt "tool" SNone v = SText tool -> opt "keyword" SNone v = SText keyword ->
  exists l vs w', make_request lib GetMultipleEnterpriseSyncMetaData v w = (Ret [("objectmetadata", SList vs)], w') /\
    same_store w w' /\ Forall2 (object_of (rows (sy_db w))) l vs /\
    l ≡ₚ selected (sync_query (SText tool) (SText keyword)) (rows (sy_db w)).
Proof.
  intros Hc Ho1 Ho2 Ho3 Ho4. destruct (new_session_calm (sy_db w) Hc) as (s1 & E1 & Hu1).
  destruct (query_quiet sid (sync_query (SText tool) (SText keyword)) s1) as (l & s2 & E2 & Hu2 & Hl);
    [by apply calm_quiet, (calm_unchanged (sy_db w))|done|].
  pose proof (calm_unchanged _ _ Hu1 Hc) as Hc1. pose proof (calm_unchanged _ _ Hu2 Hc1) as Hc2.
  rewrite (unchanged_rows _ _ Hu1) in Hl.
  destruct (load_all_calm s2 l Hc2) as (vs & s3 & E3 & Hu3 & Hvs).
  { intros r Hr. rewrite Hl in Hr. apply elem_of_selected in Hr as [Hr _]. by apply (sane_rows _ _ _ (proj1 Hc) Hr). }
  rewrite (unchanged_rows _ _ Hu2), (unchanged_rows _ _ Hu1) in Hvs.
  assert (E : get_multiple_enterprise_sync_data_objec (SText tool) (SText keyword) (sy_db w) = (Ret (SList vs), s3)).
  { unfold get_multiple_enterprise_sync_data_objec. rewrite (run_bind _ _ _ _ _ E1). apply try_except_ret.
    rewrite (run_bind _ _ _ _ _ E2). by rewrite (run_bind _ _ _ _ _ E3). }
  exists l, vs, (mkSyncState s3 (sy_disk w) [("objectmetadata", SList vs)]). split_and!; [|split; [|done]|done..].
  - unfold make_request. rewrite (run_bind _ _ w tt (clear w)) by done.
    unfold sync_execute, try_except, try_with. cbn [sync_perform]. unfold get_multiple_enterprise_sync_metadata.
    rewrite Ho1, Ho2, Ho3, Ho4. cbn [given_items is_none andb find_each].
    cbv [mbind M_bind of_outcome mret M_ret on_db] in *. cbn in *. by rewrite E.
  - simpl. etransitivity; [done|]. by etransitivity.
Qed.

(** C15: The HTTP and the HTTPS service list exactly the packages that are not private and
    have the tool that is asked for and, among their keywords, the keyword that is asked for
    ("public" and "missionpackage" where nothing is asked for), each once, with their
    keywords, types and sizes. *)
Theorem search_lists_public_packages w q : calm (sy_db w) ->
  (forall r, r ∈ rows (sy_db w) TSyncObject -> cell "start_time" r <> DNone) ->
  let tool := default "public" (dget "tool" (w_args q)) in
  let keyword := default "missionpackage" (dget "keyword" (w_args q)) in
  exists rs es w', retrieveData lib web q w =
    (Ret (mkAnswer (BData (SDict [("resultCount", SInt (Z.of_nat (length rs))); ("results", SList es)])) 200), w') /\
    same_store w w' /\ Forall2 (shown_as (rows (sy_db w))) rs es /\ NoDup rs /\
    forall r, r ∈ rs <-> listed (rows (sy_db w)) tool keyword r.
Proof.
  intros Hc Ht tool keyword. pose proof (proj1 Hc) as Hs.
  destruct (list_requested w [("tool", SText tool); ("keyword", SText keyword)] tool keyword)
    as (l & vs & w' & E & Hw' & Hvs & Hl); [done..|].
  destruct (packages_shown (rows (sy_db w)) l vs w' Hvs) as (es & E' & Hes & Hlen).
  { intros r Hr _. rewrite Hl in Hr. apply elem_of_sync_query in Hr as (Hr & _ & u & k & Hk & Hu & Hfk & Hx); [|done].
    split.
    - intros Hnil. pose proof (elem_of_keywords _ r _ u k Hs Hr Hk Hu Hfk Hx) as Hin. rewrite Hnil in Hin.
      by apply not_elem_of_nil in Hin.
    - pose proof (sane_types _ _ r (time_default "start_time") Hs Hr ltac:(set_solver)) as Hty.
      specialize (Ht r Hr). simpl in Hty. destruct (cell "start_time" r); try done. by eexists. }
  eexists _, es, w'. split_and!; [|done|exact Hes| |].
  - unfold retrieveData. rewrite (run_bind _ _ _ _ _ E). cbn [get_value opt dget]. 
    rewrite (run_bind _ _ w' vs w') by done. rewrite (run_bind _ _ _ _ _ E').
    rewrite <- Hlen. by rewrite <- (Forall2_length _ _ _ Hes).
  - apply NoDup_ListNoDup, List.NoDup_filter, NoDup_ListNoDup. rewrite Hl. unfold selected.
    apply NoDup_ListNoDup, List.NoDup_filter, NoDup_ListNoDup, rows_NoDup, Hs.
  - intros r. unfold listed. rewrite list_elem_of_In, filter_In, <- list_elem_of_In, Hl.
    by rewrite bool_decide_eq_true, elem_of_sync_query.
Qed.
End Reads.

Lemma binary_package_has_no_head_witness :
  exists w', specificPackage sync_lib HttpService (asks_for "hash" "h") (sample 0 (String "255" "")) =
    (Ret (bytes_answer (String "255" "")), w').
Proof.
  destruct (binary_package_has_no_head sync_lib (sample 0 (String "255" "")) ["sync"] HttpService "h"
    (sample_package 0) (String "255" "")) as [_ (w' & E & _)].
  - apply sample_calm.
  - left.
  - reflexivity.
  - intros r' Hr' _. by apply (sample_one 0 (String "255" "")).
  - apply sample_held.
  - reflexivity.
  - exists w'. exact E.
Defined.

Lemma sample_filed private b :
  filed_under (rows (sy_db (sample private b))) "public" "missionpackage" (sample_package private).
Proof.
  split; [left|split; [reflexivity|]].
  exists "u", (keyword_of "u" "missionpackage"). split; [left|]. repeat split.
Qed.

Lemma search_lists_public_packages_witness :
  exists rs es w', retrieveData sync_lib web_lib (mkWebRequest [] "" [] None) (sample 0 "text") =
    (Ret (mkAnswer (BData (SDict [("resultCount", SInt (Z.of_nat (length rs))); ("results", SList es)])) 200), w') /\
    sample_package 0 ∈ rs.
Proof.
  destruct (search_lists_public_packages sync_lib web_lib (sample 0 "text") (mkWebRequest [] "" [] None))
    as (rs & es & w' & E & _ & _ & _ & Hin).
  - apply sample_calm.
  - intros r Hr. rewrite (sample_one 0 "text" r Hr). discriminate.
  - exists rs, es, w'. split; [exact E|]. apply Hin. split; [|reflexivity].
    apply sample_filed.
Defined.
