(* ===== verification/SyncUpdates.v ===== *)
(** What a deletion leaves of a package.  Packages that are changed: what becomes of a record whose columns are assigned, what an
    operator changes over the REST API, and the privacy a client asks for over HTTP and
    HTTPS. *)
From Stdlib Require Import ZArith Lia Ascii String.
From stdpp Require Import base strings list sets pretty.
From S2P Require Import Prelude.
From S2P Require Import MainConfig.
From S2P Require Import MissionDb.
From S2P Require Import MissionStore.
From S2P Require Import MissionList.
From S2P Require Import MissionFacts.
From S2P Require Import MissionSample.
From S2P Require Import MissionLogs.
From S2P Require Import SyncFiles.
From S2P Require Import SyncStore.
From S2P Require Import SyncHttp.
From S2P Require Import SyncPaths.
From S2P Require Import SyncFacts.
From S2P Require Import SyncSample.
From S2P Require Import SyncReads.

Set Default Proof Using "Type*".
Local Open Scope string_scope.
Local Open Scope list_scope.
Local Open Scope py_scope.

(** * Rows *)

Lemma forget_package r r' : r_table r = TSyncObject -> r_table r' <> TKeyword -> forget r r' = r'.
Proof.
  intros Hr Hr'. unfold forget. rewrite Hr. cbn [relations mapping EnterpriseSyncDataObject m_relations fold_left].
  by rewrite bool_decide_eq_false_2.
Qed.

(** A keyword without its object. *)
Definition orphan (u : string) (k : row) : row :=
  if bool_decide (cell "enterprise_sync_data_object_id" k = DStr u)
  then set_cells [("enterprise_sync_data_object_id", DNone)] k else k.

Section Deletes.
Context {S : Type} `{OrmLaws S, !OrmReliable S} (lib : sync_library) (web : web_library).
Implicit Types (w : sync_state S) (s : S).

Lemma forget_keyword s r k u : sane s -> k ∈ rows s TKeyword -> r_table r = TSyncObject ->
  cell "PrimaryKey" r = DStr u -> forget r k = orphan u k.
Proof.
  intros Hs Hk Hr Hu. unfold forget. rewrite Hr. cbn [relations mapping EnterpriseSyncDataObject m_relations fold_left].
  rewrite bool_decide_eq_true_2 by apply (sane_rows s _ _ Hs Hk). unfold refers, orphan. rewrite Hu. simpl.
  destruct (cell_string s TKeyword k "enterprise_sync_data_object_id" Hs Hk eq_refl) as [->|[x ->]].
  - by rewrite bool_decide_eq_false_2.
  - cbn [sql_eqb]. 
    done.
Qed.

(** What deleting a package makes of the tables. *)
Lemma package_rows_deleted s r u t : sane s -> r ∈ rows s TSyncObject -> cell "PrimaryKey" r = DStr u ->
  delete_rows r (rows s) t =
    match t with
    | TSyncObject => List.filter (fun r' => negb (same_row r r')) (rows s TSyncObject)
    | TKeyword => orphan u <$> rows s TKeyword
    | t => rows s t
    end.
Proof.
  intros Hs Hr Hu. pose proof (proj1 (sane_rows s _ _ Hs Hr)) as Ht. unfold delete_rows.
  assert (Hf : forall t', t' <> TKeyword -> forget r <$> List.filter (fun r' => negb (same_row r r')) (rows s t') =
      List.filter (fun r' => negb (same_row r r')) (rows s t')).
  { intros t' Ht'. rewrite <- (list_fmap_id (List.filter _ _)) at 2. apply list_fmap_ext. intros i r' Hi.
    apply list_elem_of_lookup_2, list_elem_of_In, filter_In in Hi as [Hi%list_elem_of_In _].
    apply (forget_package r r'); [done|]. by rewrite (proj1 (sane_rows s _ _ Hs Hi)). }
  assert (Ha : forall t', t' <> TSyncObject -> List.filter (fun r' => negb (same_row r r')) (rows s t') = rows s t').
  { intros t' Ht'. rewrite (filter_ext_in _ (fun _ => true)); [induction (rows s t'); simpl; congruence|].
    intros r' Hr'%list_elem_of_In. apply negb_true_iff, not_same_table. by rewrite Ht, (proj1 (sane_rows s _ _ Hs Hr')). }
  destruct t; try (rewrite Hf, ?Ha by done; done).
  rewrite Ha by done. apply list_fmap_ext. intros i k Hk. apply (forget_keyword s); [done|by eapply list_elem_of_lookup_2|done..].
Qed.

Lemma record_deleted s h u r : calm s -> r ∈ rows s TSyncObject -> cell "hash" r = DStr h ->
  cell "PrimaryKey" r = DStr u -> (forall r', r' ∈ rows s TSyncObject -> cell "hash" r' = DStr h -> r' = r) ->
  exists s', delete_enterprise_sync_object (SText h) SNone s = (Ret tt, s') /\ calm s' /\
    rows s' TSyncObject ≡ₚ List.filter (fun r' => negb (same_row r r')) (rows s TSyncObject) /\
    rows s' TKeyword ≡ₚ orphan u <$> rows s TKeyword /\
    forall t, t <> TSyncObject -> t <> TKeyword -> rows s' t ≡ₚ rows s t.
Proof.
  intros Hc Hr Hh Hu Hone. destruct (new_session_calm s Hc) as (s1 & E1 & Hu1).
  pose proof (calm_unchanged _ _ Hu1 Hc) as Hc1.
  destruct (first_one s1 "hash" h r) as (s2 & E2 & Hu2);
    rewrite ?(unchanged_rows _ _ Hu1); [done..|].
  pose proof (calm_unchanged _ _ Hu2 Hc1) as Hc2. assert (Hu02 : unchanged s s2) by by etransitivity.
  pose proof (unchanged_rows _ _ Hu02) as Hr2.
  destruct (delete_calm sid s2 r Hc2) as (s3 & E3 & Hc3 & HT).
  { rewrite (proj1 (sane_rows s _ _ (proj1 Hc) Hr)).
    intros name target fk key [= -> -> -> ->]%list_elem_of_singleton. by apply (bool_decide_unpack _). }
  exists s3. split; [|split; [done|]].
  - unfold delete_enterprise_sync_object. rewrite (run_bind _ _ _ _ _ E1).
    rewrite (run_bind _ _ _ _ _ E2). exact E3.
  - rewrite Hr2 in HT. assert (Hdel : forall t, delete_rows r (rows s) t = _)
      by (intros t; apply (package_rows_deleted s r u t (proj1 Hc) Hr Hu)).
    split_and!; [by rewrite HT, Hdel..|]. intros t Ht1 Ht2. rewrite HT, Hdel. by destruct t.
Qed.

(** The file can be removed, and is gone then. *)
Lemma file_removed d R r b : held lib d R r b ->
  (forall p, disk_denies lib CallRemove p = false) ->
  exists t u, cell "file_type" r = DStr t /\ cell "PrimaryKey" r = DStr u /\
    delete_file lib (SText t) (SText u) d = (Ret tt, mkDisk (ddel (file_place R t u) (d_files d)) (d_dirs d)).
Proof.
  intros (t & u & Ht & Hu & Hl & Hdt & Hd & Hpu & Hne & Hb & Hf & Hden) Hrm. exists t, u.
  split; [done|split; [done|]].
  destruct (file_read lib d R t u b Hl Hdt Hd Hpu Hne Hb Hf Hden) as [_ E].
  unfold delete_file. rewrite E. rewrite (run_bind (of_outcome (Ret _)) _ _ _ _ eq_refl). cbn [snd].
  unfold remove_file. rewrite (resolve_saved lib _ R) by done. by rewrite Hf, Hrm, Hb.
Qed.

(** C23: A package that is deleted by its hash is gone: its record, its file and what its
    keywords say of it; all other records and files stay.  Who asks for it by the hash is
    answered 404 over HTTP, and by an exception over HTTPS. *)
Theorem deleted_package_is_gone w R h r b : calm (sy_db w) -> r ∈ rows (sy_db w) TSyncObject ->
  cell "hash" r = DStr h -> (forall r', r' ∈ rows (sy_db w) TSyncObject -> cell "hash" r' = DStr h -> r' = r) ->
  held lib (sy_disk w) R r b -> (forall p, disk_denies lib CallRemove p = false) ->
  exists t u w', cell "file_type" r = DStr t /\ cell "PrimaryKey" r = DStr u /\
    delete_DataPackageTable lib [[("hash", SText h)]] w = (Ret (mkAnswer (message "success") 200), w') /\
    calm (sy_db w') /\
    d_files (sy_disk w') = ddel (file_place R t u) (d_files (sy_disk w)) /\
    (forall r', r' ∈ rows (sy_db w') TSyncObject <-> r' ∈ rows (sy_db w) TSyncObject /\ r' <> r) /\
    rows (sy_db w') TKeyword ≡ₚ orphan u <$> rows (sy_db w) TKeyword /\
    (exists w2, specificPackage lib HttpService (asks_for "hash" h) w' = (Ret (mkAnswer (BText "") 404), w2)) /\
    exists w2, specificPackage lib HttpsService (asks_for "hash" h) w' = (Exn TypeError, w2).
Proof.
  intros Hc Hr Hh Hone Hheld Hrm.
  destruct (by_hash_calm (sy_db w) h Hc) as (o & s1 & E1 & Hu1 & Ha).
  apply (answers_one _ "hash" h r) in Ha as (ks & -> & _); [|done..].
  destruct (file_removed _ R r b Hheld Hrm) as (t & u & Ht & Hu & Ef).
  pose proof (calm_unchanged _ _ Hu1 Hc) as Hc1. pose proof (unchanged_rows _ _ Hu1) as Hr1.
  destruct (record_deleted s1 h u r Hc1) as (s2 & E2 & Hc2 & HT1 & HT2 & _); rewrite ?Hr1; [done..|].
  rewrite Hr1 in HT1, HT2.
  set (d' := mkDisk (ddel (file_place R t u) (d_files (sy_disk w))) (d_dirs (sy_disk w))) in *.
  set (w' := mkSyncState s2 d' [] : sync_state S).
  assert (Hrows : forall r', r' ∈ rows s2 TSyncObject <-> r' ∈ rows (sy_db w) TSyncObject /\ r' <> r).
  { intros r'. rewrite HT1, list_elem_of_In, filter_In, <- list_elem_of_In.
    split; intros [Hr' Hne]; (split; [done|]).
    - intros ->. unfold same_row in Hne. by rewrite bool_decide_eq_true_2 in Hne.
    - apply negb_true_iff, bool_decide_eq_false_2. intros [_ Hk]. apply Hne. symmetry.
      by apply (same_key (sy_db w) TSyncObject); [apply Hc|..]. }
  assert (exists w2, content_of lib (asks_for "hash" h) w' = (Ret SNone, w2)) as [w2 Emiss].
  { destruct (data_missing lib w' "objecthash" "hash" h [("use_bytes", SBool true)]) as (w2 & E & _);
      [done|by right| |done|done|].
    - intros r' [Hr' Hne]%Hrows Hx. by apply Hne, Hone.
    - exists w2. unfold content_of. change (web_arg "uid" (asks_for "hash" h)) with SNone.
      change (web_arg "hash" (asks_for "hash" h)) with (SText h). cbv iota. by rewrite (run_bind _ _ _ _ _ E). }
  exists t, u, w'. split_and!; [done..| |done|done|done|done| |].
  - unfold delete_DataPackageTable. cbn [for_each]. rewrite (run_bind _ _ w tt w'); [done|].
    rewrite (run_bind _ _ w tt w'); [done|]. rewrite (run_bind _ _ w (SText h) w) by done.
    unfold make_request. rewrite (run_bind _ _ w [] w'); [done|].
    rewrite (run_bind _ _ w tt (clear w)) by done. rewrite (run_bind _ _ (clear w) tt w'); [done|].
    unfold sync_execute. apply try_except_ret. cbn [sync_perform]. unfold delete_enterprise_sync_data.
    rewrite (run_bind _ _ _ _ _ (on_db_run _ (clear w) _ _ E1)). cbn [file_of]. rewrite Ht, Hu.
    rewrite (run_bind (of_outcome (Ret _)) _ _ _ _ eq_refl). cbn [of_db fst snd].
    rewrite (run_bind _ _ _ _ _ (on_disk_run _ (with_sync s1 (clear w)) _ _ Ef)).
    exact (on_db_run _ (with_disk d' (with_sync s1 (clear w))) _ _ E2).
  - exists w2. unfold specificPackage.
    rewrite (run_bind _ _ w' (Some SNone) w2); [done|]. apply try_except_ret. by rewrite (run_bind _ _ _ _ _ Emiss).
  - exists w2. unfold specificPackage.
    rewrite (run_bind _ _ w' (Some SNone) w2); [done|]. apply try_except_ret. by rewrite (run_bind _ _ _ _ _ Emiss).
Qed.
End Deletes.

Lemma deleted_package_is_gone_witness :
  exists w', delete_DataPackageTable sync_lib [[("hash", SText "h")]] (sample 0 "text") =
    (Ret (mkAnswer (message "success") 200), w') /\ d_files (sy_disk w') = [].
Proof.
  destruct (deleted_package_is_gone sync_lib (sample 0 "text") ["sync"] "h" (sample_package 0) "text")
    as (t & u & w' & Ht & Hu & E & _ & Hd & _).
  - apply sample_calm.
  - left.
  - reflexivity.
  - intros r' Hr' _. by apply (sample_one 0 "text").
  - apply sample_held.
  - reflexivity.
  - injection Ht as <-. injection Hu as <-. exists w'. split; [exact E|exact Hd].
Defined.

Set Default Proof Using "Type*".
Local Open Scope string_scope.
Local Open Scope list_scope.
Local Open Scope py_scope.

(** Values assigned to columns one after another. *)
Definition put_cell (c : string) (v : dbval) (r : row) : row := set_cells [(c, column_value (r_table r) c v)] r.
Fixpoint put_cells (cs : list (string * dbval)) (r : row) : row :=
  match cs with [] => r | (c, v) :: cs => put_cells cs (put_cell c v r) end.
Fixpoint assignments (cs : list (string * dbval)) (r : row) : list work :=
  match cs with [] => [] | (c, v) :: cs => Update r c v :: assignments cs (put_cell c v r) end.

(** Columns of an object that take those values, the key apart. *)
Definition takes (c : string) (v : dbval) : Prop := c <> "id" /\
  exists col, col ∈ columns TSyncObject /\ c_name col = c /\ storable (c_type col) v = true.
Definition all_taken (cs : list (string * dbval)) : Prop := Forall (fun p => takes p.1 p.2) cs.

Lemma cell_put_cell k c v r : cell k (put_cell c v r) = if decide (k = c) then column_value (r_table r) c v else cell k r.
Proof. apply cell_set_cells. Qed.

Lemma put_cells_table cs r : r_table (put_cells cs r) = r_table r.
Proof. revert r. induction cs as [|[c v] cs IH]; intros r; simpl; [done|]. by rewrite IH. Qed.

(** Columns that are not assigned are as they were. *)
Lemma cell_put_other k cs r : k ∉ cs.*1 -> cell k (put_cells cs r) = cell k r.
Proof.
  revert r. induction cs as [|[c v] cs IH]; intros r; [done|]. rewrite fmap_cons, not_elem_of_cons. intros [Hk Hcs].
  simpl. rewrite IH by done. by rewrite cell_put_cell, decide_False.
Qed.

(** A row is told by its number, which is not assigned. *)
Lemma same_row_put c v r r' : c <> "id" -> r_table r = TSyncObject -> same_row (put_cell c v r) r' = same_row r r'.
Proof.
  intros Hc Hr. unfold same_row. apply bool_decide_ext. unfold row_key.
  rewrite (eq_refl : r_table (put_cell c v r) = r_table r), Hr.
  change (key_names TSyncObject) with ["id"]. cbn [fmap list_fmap]. by rewrite cell_put_cell, decide_False.
Qed.

Lemma same_row_sym r r' : same_row r r' = same_row r' r.
Proof. apply bool_decide_ext. split; intros [? ?]; by split. Qed.

Lemma assignments_acceptable (T : tables) cs r : r_table r = TSyncObject -> all_taken cs -> acceptable T (assignments cs r).
Proof.
  intros Hr Hcs. apply acceptable_updates. revert r Hr. induction Hcs as [|[c v] cs [Hid Hc] Hcs IH]; intros r Hr u Hu;
    [by apply not_elem_of_nil in Hu|].
  apply elem_of_cons in Hu as [->|Hu]; [|by apply (IH (put_cell c v r))].
  exists r, c, v. split; [done|]. rewrite Hr. split; [|done].
  change (key_names TSyncObject) with ["id"]. by rewrite list_elem_of_singleton.
Qed.

(** The rows after that. *)
Definition put_rows (cs : list (string * dbval)) (r : row) (l : list row) : list row :=
  (fun r' => if same_row r r' then put_cells cs r' else r') <$> l.

Lemma assignments_effect (T : tables) cs r rs T' : r_table r = TSyncObject -> all_taken cs ->
  (forall r', r' ∈ T TSyncObject -> r_table r' = TSyncObject) -> effect T (assignments cs r) rs T' ->
  T' TSyncObject = put_rows cs r (T TSyncObject) /\ forall t, t <> TSyncObject -> T' t = T t.
Proof.
  intros Hr Hcs. revert T r Hr. induction Hcs as [|[c v] cs [Hid _] Hcs IH]; intros T r Hr HT He; simpl in He.
  - inversion He; subst. split; [|done]. unfold put_rows. rewrite <- (list_fmap_id (T' TSyncObject)) at 1.
    apply list_fmap_ext. intros i r' _. simpl. by case_match.
  - inversion He as [| |? ? ? ? ? ? ? He'|]; subst.
    apply IH in He' as [HT1 HT2]; [|done|].
    + split; [|intros t Ht; rewrite HT2 by done; unfold update_rows; by rewrite decide_False by congruence].
      rewrite HT1. unfold update_rows. rewrite decide_True by done. unfold put_rows.
      rewrite <- list_fmap_compose. apply list_fmap_ext. intros i r' Hi%list_elem_of_lookup_2. cbn [compose].
      apply HT in Hi. unfold compose. rewrite same_row_put by done. destruct (same_row r r') eqn:Es.
      * change (set_cells _ r') with (set_cells [(c, column_value TSyncObject c v)] r').
        assert (Hp : set_cells [(c, column_value TSyncObject c v)] r' = put_cell c v r') by (unfold put_cell; by rewrite Hi).
        rewrite Hp, same_row_sym, same_row_put, same_row_sym, Es by done. done.
      * by rewrite Es.
    + unfold update_rows. rewrite decide_True by done. intros r' (r0 & -> & Hr0)%list_elem_of_fmap.
      apply HT in Hr0. by destruct (same_row r r0).
Qed.

Section Changes.
Context {S : Type} `{OrmLaws S, !OrmReliable S}.
Implicit Types (s : S).

(** The columns a change gives a value, in the order in which they are assigned. *)
Definition given_change (k c : string) (d : sval) (v : values) : list (string * dbval) :=
  match given_cell (opt k d v) with Some x => [(c, x)] | None => [] end.
Definition change_of (v : values) : list (string * dbval) :=
  given_change "filetype" "file_type" SNone v ++ given_change "objecthash" "hash" SNone v ++
  given_change "obj_length" "length" SNone v ++ given_change "obj_start_time" "start_time" SNone v ++
  given_change "mime_type" "mime_type" SNone v ++ given_change "tool" "tool" SNone v ++
  given_change "file_name" "file_name" SNone v ++ given_change "private" "private" (SInt 0) v.

(** The session has assigned [cs] to the row [r0], which is [r] now. *)
Definition assigned s0 (r0 : row) (cs : list (string * dbval)) s : Prop :=
  writing (assignments cs r0) s /\ rows s = rows s0 /\ others sid s0 s.

Lemma assignments_app cs cs' r : assignments (cs ++ cs') r = assignments cs r ++ assignments cs' (put_cells cs r).
Proof. revert r. induction cs as [|[c v] cs IH]; intros r; [done|]. simpl. by rewrite IH. Qed.
Lemma put_cells_app cs cs' r : put_cells (cs ++ cs') r = put_cells cs' (put_cells cs r).
Proof. revert r. induction cs as [|[c v] cs IH]; intros r; [done|]. simpl. by rewrite IH. Qed.

Lemma assign_if_assigned s0 r0 cs k c d (v : values) s : assigned s0 r0 cs s ->
  exists s', assign_if sid c (given_cell (opt k d v)) (Some (put_cells cs r0)) s =
      (Ret (Some (put_cells (cs ++ given_change k c d v) r0)), s') /\ assigned s0 r0 (cs ++ given_change k c d v) s'.
Proof.
  intros (Hw & Hr & Ho). unfold given_change. destruct (given_cell (opt k d v)) as [x|]; cycle 1.
  { exists s. rewrite app_nil_r. done. }
  destruct (assign_writing _ s (put_cells cs r0) c x Hw) as (s' & E & Hw' & Hr' & Ho'). exists s'. split.
  - unfold assign_if. rewrite (run_bind _ _ s (put_cells cs r0) s) by done. rewrite (run_bind _ _ _ _ _ E).
    by rewrite put_cells_app.
  - split; [|split; [congruence|by etransitivity]]. by rewrite assignments_app.
Qed.

Lemma object_changed s u (v : values) r : calm s ->
  opt "objectuid" SNone v = SText u -> opt "obj_keywords" SNone v = SNone -> all_taken (change_of v) ->
  r ∈ rows s TSyncObject -> cell "PrimaryKey" r = DStr u ->
  (forall r', r' ∈ rows s TSyncObject -> cell "PrimaryKey" r' = DStr u -> r' = r) ->
  exists s', update_enterprise_sync_object v s = (Ret tt, s') /\ calm s' /\
    rows s' TSyncObject ≡ₚ put_rows (change_of v) r (rows s TSyncObject) /\
    forall t, t <> TSyncObject -> rows s' t ≡ₚ rows s t.
Proof.
  intros Hc Eu Ek Hcs Hr Hu Hone. pose proof (proj1 (sane_rows s _ _ (proj1 Hc) Hr)) as Htab.
  destruct (new_session_calm s Hc) as (s1 & N1 & Hu1). pose proof (calm_unchanged _ _ Hu1 Hc) as Hc1.
  destruct (first_one s1 "PrimaryKey" u r) as (s2 & N2 & Hu2); rewrite ?(unchanged_rows _ _ Hu1); [done..|].
  assert (Hu02 : unchanged s s2) by by etransitivity.
  assert (A0 : assigned s r [] s2).
  { split; [apply calm_writing; by eapply calm_unchanged|]. split; [by apply unchanged_rows|by apply unchanged_others]. }
  destruct (assign_if_assigned _ _ _ "filetype" "file_type" SNone v _ A0) as (s3 & N3 & A3).
  destruct (assign_if_assigned _ _ _ "objecthash" "hash" SNone v _ A3) as (s4 & N4 & A4).
  destruct (assign_if_assigned _ _ _ "obj_length" "length" SNone v _ A4) as (s5 & N5 & A5).
  destruct (assign_if_assigned _ _ _ "obj_start_time" "start_time" SNone v _ A5) as (s6 & N6 & A6).
  destruct (assign_if_assigned _ _ _ "mime_type" "mime_type" SNone v _ A6) as (s7 & N7 & A7).
  destruct (assign_if_assigned _ _ _ "tool" "tool" SNone v _ A7) as (s8 & N8 & A8).
  destruct (assign_if_assigned _ _ _ "file_name" "file_name" SNone v _ A8) as (s9 & N9 & A9).
  destruct (assign_if_assigned _ _ _ "private" "private" (SInt 0) v _ A9) as (s10 & N10 & (Hw & Hrows & Ho)).
  rewrite <- !app_assoc in Hw. cbn [app] in Hw. change (writing (assignments (change_of v) r) s10) in Hw.
  destruct (commit_writing_calm (assignments (change_of v) r) s s10 Hc Ho Hw) as (l & rs & T & s11 & N11 & Hc11 & He & HT).
  { by apply assignments_acceptable. }
  rewrite Hrows in He. destruct (assignments_effect _ _ _ _ _ Htab Hcs (fun r' Hr' => proj1 (sane_rows s _ _ (proj1 Hc) Hr')) He)
    as [HT1 HT2].
  exists s11. split; [|split; [done|split; [by rewrite HT, HT1|intros t Ht; by rewrite HT, HT2]]].
  unfold update_enterprise_sync_object. rewrite (run_bind _ _ _ _ _ N1). apply try_except_ret.
  unfold set_values. rewrite Eu, Ek. cbn [to_db set_keywords]. rewrite (run_bind _ _ _ _ _ N2).
  rewrite (run_bind _ _ _ _ _ N3), (run_bind _ _ _ _ _ N4), (run_bind _ _ _ _ _ N5).
  rewrite (run_bind (mret tt) _ s5 tt s5) by done.
  rewrite (run_bind _ _ _ _ _ N6), (run_bind _ _ _ _ _ N7), (run_bind _ _ _ _ _ N8), (run_bind _ _ _ _ _ N9),
    (run_bind _ _ _ _ _ N10). by rewrite (run_bind _ _ _ _ _ N11).
Qed.
End Changes.

Set Default Proof Using "Type*".
Local Open Scope string_scope.
Local Open Scope list_scope.
Local Open Scope py_scope.

(** An object whose name and privacy are changed. *)
Definition name_change (fn : option string) : list (string * dbval) :=
  match fn with Some n => [("file_name", DStr n)] | None => [] end.
Definition touched (fn : option string) (p : Z) (r : row) : row :=
  set_cells [("private", DInt p)] (set_cells (name_change fn) r).

Lemma cell_touched k fn p r : cell k (touched fn p r) =
  if decide (k = "private") then DInt p
  else match fn with
       | Some n => if decide (k = "file_name") then DStr n else cell k r
       | None => cell k r
       end.
Proof.
  unfold touched. rewrite cell_set_cells. case_decide; [done|]. destruct fn; simpl; [apply cell_set_cells|].
  by destruct r.
Qed.

(** * The database *)

(** What is asked of the database controller: a name or none, and a privacy or none. *)
Definition changing (u : string) (fn : option string) (v : values) : Prop :=
  opt "objectuid" SNone v = SText u /\ opt "file_name" SNone v = maybe_text fn /\
  opt "filetype" SNone v = SNone /\ opt "objecthash" SNone v = SNone /\ opt "obj_length" SNone v = SNone /\
  opt "obj_keywords" SNone v = SNone /\ opt "obj_start_time" SNone v = SNone /\
  opt "mime_type" SNone v = SNone /\ opt "tool" SNone v = SNone.

Definition touch_rows (fn : option string) (p : Z) (r : row) (l : list row) : list row :=
  (fun r' => if same_row r r' then touched fn p r' else r') <$> l.

Section Updates.
Context {S : Type} `{OrmLaws S, !OrmReliable S} (lib : sync_library).
Implicit Types (w : sync_state S) (s : S).

Lemma object_updated s u fn p v r : calm s -> changing u fn v -> opt "private" (SInt 0) v = SInt p ->
  r ∈ rows s TSyncObject -> cell "PrimaryKey" r = DStr u ->
  (forall r', r' ∈ rows s TSyncObject -> cell "PrimaryKey" r' = DStr u -> r' = r) ->
  exists s', update_enterprise_sync_object v s = (Ret tt, s') /\ calm s' /\
    rows s' TSyncObject ≡ₚ touch_rows fn p r (rows s TSyncObject) /\
    forall t, t <> TSyncObject -> rows s' t ≡ₚ rows s t.
Proof.
  intros Hc (E1 & E2 & E3 & E4 & E5 & E6 & E7 & E8 & E9) Hp Hr Hu Hone.
  assert (Hcs : change_of v = name_change fn ++ [("private", DInt p)]).
  { unfold change_of, given_change. rewrite E2, E3, E4, E5, E7, E8, E9, Hp. by destruct fn. }
  destruct (object_changed s u v r) as (s' & E & Hc' & HT1 & HT2); [done|done|done| |done|done|done|].
  { rewrite Hcs. apply Forall_app. split; [|constructor; [|constructor]].
    - destruct fn; [|constructor]. constructor; [|constructor]. split; [done|].
      eexists (text_default "file_name" (DStr "")). split; [set_solver|done].
    - split; [done|]. eexists (int_default "private" (DInt 0)). split; [set_solver|done]. }
  exists s'. split; [done|split; [done|split; [|done]]]. rewrite HT1, Hcs.
  assert (put_rows (name_change fn ++ [("private", DInt p)]) r (rows s TSyncObject) =
    touch_rows fn p r (rows s TSyncObject)) as ->; [|done].
  apply list_fmap_ext. intros i r' Hi%list_elem_of_lookup_2. simpl.
  destruct (same_row r r'); [|done]. pose proof (proj1 (sane_rows s _ _ (proj1 Hc) Hi)) as Ht.
  unfold touched. destruct fn; simpl; unfold put_cell; simpl; rewrite Ht; [done|]. by destruct r'.
Qed.

(** * The REST API *)

Lemma metadata_requested w f r : calm (sy_db w) -> r ∈ rows (sy_db w) TSyncObject -> cell "file_name" r = DStr f ->
  (forall r', r' ∈ rows (sy_db w) TSyncObject -> cell "file_name" r' = DStr f -> r' = r) ->
  exists v w', make_request lib GetEnterpriseSyncMetaData [("file_name", SText f)] w =
    (Ret [("objectmetadata", v)], w') /\ same_store w w' /\ object_of (rows (sy_db w)) r v.
Proof.
  intros Hc Hr Hf Hone. destruct (by_name_calm (sy_db w) f Hc) as (v & s' & E & Hu & Ha).
  apply (answers_one _ _ _ r) in Ha; [|done..].
  exists v, (mkSyncState s' (sy_disk w) [("objectmetadata", v)]). split; [|by split; [split|]].
  unfold make_request. rewrite (run_bind _ _ w tt (clear w)) by done.
  unfold sync_execute, try_except, try_with. cbn [sync_perform]. unfold get_enterprise_sync_metadata.
  set (v0 := [("file_name", SText f)]). cbv zeta beta.
  change (opt "file_name" SNone v0) with (SText f). change (opt "objectuid" SNone v0) with SNone.
  change (opt "objecthash" SNone v0) with SNone. change (opt "objectid" SNone v0) with SNone.
  cbn [is_none negb andb]. cbv [mbind M_bind mret M_ret] in *.
  by rewrite (on_db_run _ (clear w) _ _ E).
Qed.

Lemma metadata_updated w u fn p (v : values) r : calm (sy_db w) -> changing u fn (updated_values v) ->
  opt "private" (SInt 0) (updated_values v) = SInt p ->
  r ∈ rows (sy_db w) TSyncObject -> cell "PrimaryKey" r = DStr u ->
  (forall r', r' ∈ rows (sy_db w) TSyncObject -> cell "PrimaryKey" r' = DStr u -> r' = r) ->
  exists w', make_request lib UpdateEnterpriseSyncMetaData v w = (Ret [], w') /\ calm (sy_db w') /\
    sy_disk w' = sy_disk w /\
    rows (sy_db w') TSyncObject ≡ₚ touch_rows fn p r (rows (sy_db w) TSyncObject) /\
    forall t, t <> TSyncObject -> rows (sy_db w') t ≡ₚ rows (sy_db w) t.
Proof.
  intros Hc Hv Hp Hr Hu Hone.
  destruct (object_updated (sy_db w) u fn p (updated_values v) r) as (s' & E & Hc' & HT1 & HT2); [done..|].
  exists (mkSyncState s' (sy_disk w) []). split; [|done].
  unfold make_request. rewrite (run_bind _ _ w tt (clear w)) by done.
  unfold sync_execute, try_except, try_with. cbn [sync_perform]. unfold update_enterprise_sync_metadata.
  cbv [mbind M_bind mret M_ret] in *. by rewrite (on_db_run _ (clear w) _ _ E).
Qed.

(** A listing goes by columns that a name and a privacy do not touch. *)
Lemma query_touched s s' fn p r tool keyword : sane s -> sane s' ->
  rows s' TSyncObject ≡ₚ touch_rows fn p r (rows s TSyncObject) ->
  (forall t, t <> TSyncObject -> rows s' t ≡ₚ rows s t) -> r ∈ rows s TSyncObject ->
  filed_under (rows s) tool keyword r -> filed_under (rows s') tool keyword (touched fn p r).
Proof.
  intros Hs Hs' HT1 HT2 Hr (_ & Ht & u & k & Hk & Hu & Hfk & Hx).
  unfold filed_under. rewrite !cell_touched. split; [|split].
  - rewrite HT1. unfold touch_rows. apply list_elem_of_fmap. exists r. split; [|done].
    unfold same_row. by rewrite bool_decide_eq_true_2.
  - rewrite decide_False by done. destruct fn; [|done]. by rewrite decide_False.
  - exists u, k. rewrite HT2 by done. rewrite decide_False by done. split; [done|split; [|done]].
    destruct fn; [|done]. by rewrite decide_False.
Qed.

(** C27: A private package that an operator gives another name without saying anything of
    its privacy becomes public: it was in no list before and is afterwards in every list of
    its tool and keywords, under the new name. *)
Theorem renamed_package_is_published w f n u r : calm (sy_db w) -> r ∈ rows (sy_db w) TSyncObject ->
  cell "file_name" r = DStr f -> cell "PrimaryKey" r = DStr u -> cell "private" r = DInt 1 ->
  (forall r', r' ∈ rows (sy_db w) TSyncObject -> cell "file_name" r' = DStr f -> r' = r) ->
  (forall r', r' ∈ rows (sy_db w) TSyncObject -> cell "PrimaryKey" r' = DStr u -> r' = r) ->
  exists w', put_DataPackageTable lib [[("PrimaryKey", SText f); ("Name", SText n)]] w =
      (Ret (mkAnswer (message "success") 200), w') /\ calm (sy_db w') /\ sy_disk w' = sy_disk w /\
    rows (sy_db w') TSyncObject ≡ₚ touch_rows (Some n) 0 r (rows (sy_db w) TSyncObject) /\
    (forall t, t <> TSyncObject -> rows (sy_db w') t ≡ₚ rows (sy_db w) t) /\
    forall tool keyword, ~ listed (rows (sy_db w)) tool keyword r /\
      (filed_under (rows (sy_db w)) tool keyword r ->
       listed (rows (sy_db w')) tool keyword (touched (Some n) 0 r)).
Proof.
  intros Hc Hr Hf Hu Hp Hone1 Hone2.
  destruct (metadata_requested w f r) as (v & w1 & E1 & Hw1 & (ks & -> & _)); [done..|].
  pose proof (same_store_calm _ _ Hw1 Hc) as Hc1. pose proof (same_store_rows _ _ Hw1) as Hr1.
  destruct (metadata_updated w1 u (Some n) 0
    [("file_name", SText n); ("keywords", SNone); ("privacy", SNone); ("objectuid", SText u)] r)
    as (w2 & E2 & Hc2 & Hd2 & HT1 & HT2); try by (done || by rewrite Hr1).
  rewrite Hr1 in HT1, HT2. exists w2. split_and!; [|done|by rewrite Hd2; apply Hw1|done..|].
  - unfold put_DataPackageTable. cbn [for_each]. rewrite (run_bind _ _ w tt w2); [done|].
    rewrite (run_bind _ _ w tt w2); [done|]. unfold put_package. cbn [dget]. 
    rewrite (run_bind _ _ w SNone w) by done. rewrite (run_bind _ _ w (SText f) w) by done.
    rewrite (run_bind _ _ _ _ _ E1). rewrite (run_bind _ _ w1 (DStr u) w1) by (by cbn; rewrite <- Hu).
    by rewrite (run_bind _ _ _ _ _ E2).
  - intros tool keyword. split; [intros [_ Hp']; congruence|]. intros Hsel. split; [|by rewrite cell_touched].
    apply (query_touched (sy_db w)); [apply Hc|apply Hc2|done..].
Qed.

(** * Changes that are lost *)

(** What fails before anything is written leaves the tables as they were, and is logged. *)
Lemma update_lost w (v : values) e : calm (sy_db w) -> is_Exception e = true ->
  (forall s1, unchanged (sy_db w) s1 -> exists s2,
     set_values (updated_values v) s1 = (Exn e, s2) /\ unchanged s1 s2) ->
  exists w', make_request lib UpdateEnterpriseSyncMetaData v w = (Ret [], w') /\ calm (sy_db w') /\
    rows (sy_db w') = rows (sy_db w) /\ sy_disk w' = sy_disk w.
Proof.
  intros Hc He Hm. destruct (new_session_calm (sy_db w) Hc) as (s1 & E1 & Hu1).
  destruct (Hm s1 Hu1) as (s2 & E2 & Hu2).
  destruct (rolled_back (sy_db w) s1 e (set_values (updated_values v)) Hc Hu1) as (s3 & E3 & Hc3 & Hr3).
  { right. exists s2. split; [done|]. split; [by apply unchanged_others|apply Hu2]. }
  { done. }
  exists (mkSyncState s3 (sy_disk w) []). split; [|done].
  unfold make_request. rewrite (run_bind _ _ w tt (clear w)) by done.
  unfold sync_execute, try_except at 1, try_with at 1. cbn [sync_perform].
  unfold update_enterprise_sync_metadata, update_enterprise_sync_object.
  assert (E : (new_session ;;; try_except (set_values (updated_values v)) (fun _ => rollback sid)) (sy_db w) = (Ret tt, s3))
    by by rewrite (run_bind _ _ _ _ _ E1).
  cbv [mbind M_bind] in *. by rewrite (on_db_run _ (clear w) _ _ E).
Qed.

(** Over HTTP the privacy of a package is answered with "Okay" and never set: the
    request names the package by its hash, the update looks for its uid.  Over HTTPS it is
    set for the package with that uid. *)
Theorem privacy_is_set_over_https_only w h r q : calm (sy_db w) ->
  (forall r', r' ∈ rows (sy_db w) TSyncObject -> cell "PrimaryKey" r' <> DNone) ->
  r ∈ rows (sy_db w) TSyncObject -> cell "PrimaryKey" r = DStr h ->
  (forall r', r' ∈ rows (sy_db w) TSyncObject -> cell "PrimaryKey" r' = DStr h -> r' = r) ->
  let okay := mkAnswer (BText "Okay") 200 in
  (exists w', putDataPackageTool lib HttpService h q w = (Ret okay, w') /\ calm (sy_db w') /\
     rows (sy_db w') = rows (sy_db w)) /\
  exists w', putDataPackageTool lib HttpsService h q w = (Ret okay, w') /\ calm (sy_db w') /\
    rows (sy_db w') TSyncObject ≡ₚ
      touch_rows None (if bool_decide (w_data q = "private") then 1 else 0) r (rows (sy_db w) TSyncObject).
Proof.
  intros Hc Hnull Hr Hu Hone okay. split.
  - destruct (update_lost w [("objecthash", SText h); ("privacy", SInt (if bool_decide (w_data q = "private") then 1 else 0))]
      AttributeError) as (w' & E & Hw'); [done|done| |].
    + intros s1 Hu1. pose proof (calm_unchanged _ _ Hu1 Hc) as Hc1.
      destruct (first_quiet sid (filter_by TSyncObject [("PrimaryKey", DNone)]) s1) as (o & s2 & E2 & Hu2 & Ho);
        [by apply calm_quiet|done|].
      exists s2. split; [|done]. unfold set_values. rewrite (run_bind _ _ _ _ _ E2).
      destruct o as [r'|]; [|done]. exfalso. apply elem_of_filter_by in Ho as [Hr' Ho].
      rewrite (unchanged_rows _ _ Hu1) in Hr'. specialize (Ho "PrimaryKey" DNone ltac:(left)).
      apply (Hnull r' Hr'). by destruct (cell "PrimaryKey" r').
    + exists w'. split; [|split; apply Hw']. unfold putDataPackageTool. by rewrite (run_bind _ _ _ _ _ E).
  - destruct (metadata_updated w h None (if bool_decide (w_data q = "private") then 1 else 0)
      [("objectuid", SText h); ("privacy", SInt (if bool_decide (w_data q = "private") then 1 else 0))] r)
      as (w' & E & Hw' & _ & HT & _); try done.
    exists w'. split; [|done]. unfold putDataPackageTool. by rewrite (run_bind _ _ _ _ _ E).
Qed.

(** A change of a package that gives it keywords is lost altogether, the name and the
    privacy that come with it included, and answered as a success. *)
Theorem keywords_lose_the_change w f u r dp k ks : calm (sy_db w) -> r ∈ rows (sy_db w) TSyncObject ->
  cell "file_name" r = DStr f -> cell "PrimaryKey" r = DStr u ->
  (forall r', r' ∈ rows (sy_db w) TSyncObject -> cell "file_name" r' = DStr f -> r' = r) ->
  dget "PrimaryKey" dp = Some (SText f) -> dget "Keywords" dp = Some (SList (k :: ks)) ->
  match dget "Privacy" dp with Some v => exists z, int_of v = Ret (SInt z) | None => True end ->
  exists w', put_DataPackageTable lib [dp] w = (Ret (mkAnswer (message "success") 200), w') /\
    calm (sy_db w') /\ rows (sy_db w') = rows (sy_db w) /\ sy_disk w' = sy_disk w.
Proof.
  intros Hc Hr Hf Hu Hone Hd1 Hd2 Hd3.
  destruct (metadata_requested w f r) as (v & w1 & E1 & Hw1 & (kws & -> & _)); [done..|].
  pose proof (same_store_calm _ _ Hw1 Hc) as Hc1. pose proof (same_store_rows _ _ Hw1) as Hr1.
  assert (exists p, (match dget "Privacy" dp with Some v => of_outcome (int_of v) | None => mret SNone end
            : M (sync_state S) sval) w = (Ret p, w) /\ (p = SNone \/ exists z, p = SInt z)) as (p & Ep & Hp).
  { destruct (dget "Privacy" dp) as [v|]; [|exists SNone; split; [done|by left]].
    destruct Hd3 as [z Hz]. exists (SInt z). split; [by rewrite Hz|right; by exists z]. }
  set (name := get_value "Name" dp).
  destruct (update_lost w1 [("file_name", name); ("keywords", SList (k :: ks)); ("privacy", p); ("objectuid", SText u)]
    AttributeError) as (w2 & E2 & Hc2 & Hr2 & Hd); [done|done| |].
  - set (v := updated_values _).
    assert (opt "objectuid" SNone v = SText u /\ opt "filetype" SNone v = SNone /\ opt "objecthash" SNone v = SNone /\
      opt "obj_length" SNone v = SNone /\ opt "obj_keywords" SNone v = SList (k :: ks)) as (V1 & V2 & V3 & V4 & V5).
    { clearbody name. subst v. destruct Hp as [->|[z ->]]; destruct name; by split_and!. }
    clearbody v. intros s1 Hu1. pose proof (calm_unchanged _ _ Hu1 Hc1) as Hcs1.
    destruct (first_quiet sid (filter_by TSyncObject [("PrimaryKey", DStr u)]) s1) as (o & s2 & E2 & Hu2 & Ho);
      [by apply calm_quiet|done|].
    exists s2. split; [|done]. unfold set_values. rewrite V1, V2, V3, V4, V5. rewrite (run_bind _ _ _ _ _ E2).
    by destruct o.
  - rewrite Hr1 in Hr2. exists w2. split_and!; [|done|done|by rewrite Hd; apply Hw1].
    unfold put_DataPackageTable. cbn [for_each]. rewrite (run_bind _ _ w tt w2); [done|].
    rewrite (run_bind _ _ w tt w2); [done|]. unfold put_package. rewrite (run_bind _ _ _ _ _ Ep).
    rewrite Hd1. rewrite (run_bind _ _ w (SText f) w) by done. rewrite (run_bind _ _ _ _ _ E1).
    rewrite (run_bind _ _ w1 (DStr u) w1) by (by cbn; rewrite <- Hu).
    assert (get_value "Keywords" dp = SList (k :: ks)) as -> by (unfold get_value, opt; by rewrite Hd2).
    by rewrite (run_bind _ _ _ _ _ E2).
Qed.
End Updates.

Lemma renamed_package_is_published_witness :
  exists w', put_DataPackageTable sync_lib [[("PrimaryKey", SText "f"); ("Name", SText "g")]] (sample 1 "text") =
      (Ret (mkAnswer (message "success") 200), w') /\
    listed (rows (sy_db w')) "public" "missionpackage" (touched (Some "g") 0 (sample_package 1)).
Proof.
  destruct (renamed_package_is_published sync_lib (sample 1 "text") "f" "g" "u" (sample_package 1))
    as (w' & E & _ & _ & _ & _ & Hl).
  - apply sample_calm.
  - left.
  - reflexivity.
  - reflexivity.
  - reflexivity.
  - intros r' Hr' _. by apply (sample_one 1 "text").
  - intros r' Hr' _. by apply (sample_one 1 "text").
  - exists w'. split; [exact E|]. apply Hl, sample_filed.
Defined.

Lemma privacy_is_set_over_https_only_witness :
  exists w', putDataPackageTool sync_lib HttpService "u" (mkWebRequest [] "private" [] None) (sample 0 "text") =
      (Ret (mkAnswer (BText "Okay") 200), w') /\ rows (sy_db w') = rows (sy_db (sample 0 "text")).
Proof.
  destruct (privacy_is_set_over_https_only sync_lib (sample 0 "text") "u" (sample_package 0)
    (mkWebRequest [] "private" [] None)) as [(w' & E & _ & Hr) _].
  - apply sample_calm.
  - intros r Hr. rewrite (sample_one 0 "text" r Hr). discriminate.
  - left.
  - reflexivity.
  - intros r' Hr' _. by apply (sample_one 0 "text").
  - exists w'. split; [exact E|exact Hr].
Defined.

Lemma keywords_lose_the_change_witness :
  exists w', put_DataPackageTable sync_lib
      [[("PrimaryKey", SText "f"); ("Name", SText "g"); ("Keywords", SList [SText "k"])]] (sample 0 "text") =
      (Ret (mkAnswer (message "success") 200), w') /\ rows (sy_db w') = rows (sy_db (sample 0 "text")).
Proof.
  destruct (keywords_lose_the_change sync_lib (sample 0 "text") "f" "u" (sample_package 0)
    [("PrimaryKey", SText "f"); ("Name", SText "g"); ("Keywords", SList [SText "k"])] (SText "k") [])
    as (w' & E & _ & Hr & _).
  - apply sample_calm.
  - left.
  - reflexivity.
  - reflexivity.
  - intros r' Hr' _. by apply (sample_one 0 "text").
  - reflexivity.
  - reflexivity.
  - exact I.
  - exists w'. split; [exact E|exact Hr].
Defined.
