(* ===== verification/SyncUploads.v ===== *)
(** What an upload to the enterprise sync stores: a record with its keywords, and a file
    where its names lead to. *)
From Stdlib Require Import ZArith Lia Ascii String.
From stdpp Require Import base strings list sets pretty.
From S2P Require Import Prelude.
From S2P Require Import MainConfig.
From S2P Require Import RestGeo.
From S2P Require Import MissionDb.
From S2P Require Import MissionStore.
From S2P Require Import MissionList.
From S2P Require Import MissionFacts.
From S2P Require Import MissionSample.
From S2P Require Import SyncFiles.
From S2P Require Import SyncStore.
From S2P Require Import SyncHttp.
From S2P Require Import SyncPaths.
From S2P Require Import SyncFacts.
From S2P Require Import SyncSample.
From S2P Require Import SyncReads.

Set Default Proof Using "Type*".
Local Open Scope string_scope.
Local Open Scope list_scope.
Local Open Scope py_scope.

(** * Records *)

(** A keyword that is a text or is not given. *)
Definition keyword_value (v : sval) : Prop := v = SNone \/ exists s, v = SText s.

(** The draft of an upload, with the values the columns take. *)
Definition package_draft (t u h : string) (n : Z) (mime tool f : string) (p : Z) : draft :=
  data_draft (SText t) (SText u) (SText h) (SInt n) (SText mime) (SText tool) (SText f) (SInt p).

Lemma package_insertable (T : tables) t u h n mime tool f p : insertable T (package_draft t u h n mime tool f p).
Proof. split; [done|]. repeat constructor. Qed.

Lemma keyword_insertable (T : tables) t u h n mime tool f p k : keyword_value k ->
  insertable T (keyword_draft (package_draft t u h n mime tool f p) k).
Proof. intros [->|[s ->]]; (split; [done|]; repeat constructor). Qed.

(** What the record of a package holds. *)
Definition package_row (t u h : string) (n : Z) (mime tool f : string) (p : Z) (r : row) : Prop :=
  r_table r = TSyncObject /\ cell "file_type" r = DStr t /\ cell "PrimaryKey" r = DStr u /\
  cell "hash" r = DStr h /\ cell "length" r = DInt n /\ cell "mime_type" r = DStr mime /\
  cell "tool" r = DStr tool /\ cell "file_name" r = DStr f /\ cell "private" r = DInt p /\
  exists now, cell "start_time" r = DTime now.

Lemma becomes_package T t u h n mime tool f p r : becomes T (package_draft t u h n mime tool f p) r ->
  package_row t u h n mime tool f p r.
Proof.
  intros Hb. split_and!; [apply Hb|by apply (becomes_cell _ _ _ _ _ Hb)..|].
  destruct Hb as (_ & _ & Hc). specialize (Hc (time_default "start_time")). apply Hc.
  do 5 right. left.
Qed.

(** The rows of its keywords. *)
Definition keyword_row (u : string) (v : sval) (k : row) : Prop :=
  r_table k = TKeyword /\ cell "keyword" k = to_db v /\ cell "enterprise_sync_data_object_id" k = DStr u.

Lemma become_keywords t u h n mime tool f p kws krs : Forall keyword_value kws ->
  become (keyword_draft (package_draft t u h n mime tool f p) <$> kws) krs -> Forall2 (keyword_row u) kws krs.
Proof.
  intros Hk. revert krs. induction Hk as [|v kws Hv Hkws IH]; intros krs Hb; inversion Hb as [|? k ? krs' (T & Hb1) Hb2]; subst.
  { constructor. }
  constructor; [|by apply IH]. split; [apply Hb1|].
  split; [|by apply (becomes_cell _ _ _ _ _ Hb1)].
  by destruct Hv as [->|[s ->]]; apply (becomes_cell _ _ _ _ _ Hb1).
Qed.

Lemma of_table_keywords u kws krs : Forall2 (keyword_row u) kws krs ->
  of_table TKeyword krs = krs /\ forall t, t <> TKeyword -> of_table t krs = [].
Proof.
  induction 1 as [|v k kws krs (Hk & _) _ [IH1 IH2]]; [done|]. unfold of_table in *. simpl. rewrite Hk. split.
  - by rewrite bool_decide_eq_true_2, IH1.
  - intros t Ht. by rewrite bool_decide_eq_false_2, IH2.
Qed.

Lemma for_each_fmap {S A B} (g : A -> B) (l : list A) (f : B -> M S unit) s :
  for_each (g <$> l) f s = for_each l (fun a => f (g a)) s.
Proof.
  revert s. induction l as [|a l IH]; intros s; [done|]. rewrite fmap_cons. cbn [for_each].
  cbv [mbind M_bind]. by destruct (f (g a) s) as [[[]|] ?].
Qed.

Section Uploads.
Context {S : Type} `{OrmLaws S, !OrmReliable S} (lib : sync_library) (web : web_library).
Implicit Types (w : sync_state S) (s : S).

Lemma package_created s t u h n mime tool f p kws : calm s -> Forall keyword_value kws ->
  exists r krs s', create_enterprise_sync_data_object (SText t) (SText u) (SText h) (SInt n) (SList kws)
      (SText mime) (SText tool) (SText f) (SInt p) s = (Ret (SObject r (to_db <$> kws)), s') /\ calm s' /\
    package_row t u h n mime tool f p r /\ Forall2 (keyword_row u) kws krs /\
    rows s' TSyncObject ≡ₚ r :: rows s TSyncObject /\ rows s' TKeyword ≡ₚ krs ++ rows s TKeyword /\
    forall t', t' <> TSyncObject -> t' <> TKeyword -> rows s' t' ≡ₚ rows s t'.
Proof.
  intros Hc Hk. set (d := package_draft t u h n mime tool f p).
  destruct (new_session_calm s Hc) as (s1 & E1 & Hu1). pose proof (calm_unchanged _ _ Hu1 Hc) as Hc1.
  destruct (add_list_adding sid [] (keyword_draft d <$> kws) s1) as (s2 & E2 & Ha2 & Hr2 & Ho2); [by apply calm_adding|].
  destruct (add_adding sid _ d s2 Ha2) as (s3 & E3 & Ha3 & Hr3 & Ho3). rewrite app_nil_l in Ha3.
  assert (Hrows : rows s3 = rows s) by (rewrite Hr3, Hr2; by apply unchanged_rows).
  destruct (commit_adding_calm sid _ s1 s3 Hc1 ltac:(by etransitivity) Ha3) as (rs & s4 & E4 & Hc4 & Hb & HT).
  { split.
    - apply Forall_app. split; [|constructor; [apply package_insertable|constructor]].
      apply Forall_fmap. eapply Forall_impl; [exact Hk|]. intros k. apply keyword_insertable.
    - clear. induction kws as [|k kws IH]; [apply NoDup_nil_2|exact IH]. }
  apply Forall2_app_inv_l in Hb as (krs & rs' & Hbk & Hb & ->).
  inversion Hb as [|? r ? ? (T & Hbr) Hnil]; subst. inversion Hnil; subst.
  pose proof (become_keywords _ _ _ _ _ _ _ _ _ _ Hk Hbk) as Hkr.
  pose proof (of_table_keywords _ _ _ Hkr) as [Hkr1 Hkr2].
  pose proof (becomes_package _ _ _ _ _ _ _ _ _ _ Hbr) as Hp.
  exists r, krs, s4. split; [|split; [done|split; [done|split; [done|]]]].
  - unfold create_enterprise_sync_data_object. rewrite (run_bind _ _ _ _ _ E1). apply or_rollback_ret.
    rewrite (run_bind _ _ s1 kws s1) by done. rewrite for_each_fmap in E2. rewrite (run_bind _ _ _ _ _ E2).
    rewrite (run_bind _ _ _ _ _ E3), (run_bind _ _ _ _ _ E4). by rewrite last_snoc.
  - rewrite Hrows in HT. assert (Hof : forall t', of_table t' (krs ++ [r]) =
      of_table t' krs ++ (if bool_decide (t' = TSyncObject) then [r] else [])).
    { intros t'. unfold of_table. rewrite List.filter_app. f_equal. simpl. rewrite (proj1 Hp).
      by destruct t'. }
    unfold with_inserted in HT. split_and!.
    + by rewrite HT, Hof, Hkr2, app_nil_l, Permutation_app_comm.
    + by rewrite HT, Hof, Hkr1, app_nil_r, Permutation_app_comm.
    + intros t' Ht1 Ht2. by rewrite HT, Hof, Hkr2, bool_decide_eq_false_2, !app_nil_r.
Qed.

(** * Files *)

(** The directories of the sync are there or can be made, and the system lets the file be
    written. *)
Definition room (d : disk) (R : place) (t u : string) : Prop :=
  open_for lib d R t /\ plain_name u /\ u <> "" /\ is_dir (opened d R t) (file_place R t u) = false /\
  disk_denies lib CallOpen (file_path lib t u) = false /\ disk_denies lib CallWrite (file_path lib t u) = false.

Definition with_package (d : disk) (R : place) (t u b : string) : disk :=
  with_file (file_place R t u) b (opened d R t).

Lemma package_held d R t u b r : room d R t u -> cell "file_type" r = DStr t -> cell "PrimaryKey" r = DStr u ->
  held lib (with_package d R t u b) R r b.
Proof.
  intros (Ho & Hu & Hne & Hd & Hden & _) Ht Hk. exists t, u.
  destruct (opened_dirs lib d R t Ho) as (Hl & Hd' & _). destruct Ho as (_ & Htn & _).
  split_and!; try done; [by apply leads_to_file|by apply dget_dset_eq].
Qed.

(** * Uploads *)

(** A request for a package to be saved, with a digest or without, and without a length. *)
Record package_values (v : values) (t u b h f mime tool : string) (p : Z) (kws : list sval) : Prop := {
  pv_synctype : arg "synctype" v = Ret (SText t);
  pv_uid : arg "objectuid" v = Ret (SText u);
  pv_data : arg "objectdata" v = Ret (SBytes b);
  pv_keywords : arg "objkeywords" v = Ret (SList kws);
  pv_tool : arg "tool" v = Ret (SText tool);
  pv_mime : arg "mime_type" v = Ret (SText mime);
  pv_name : match opt "file_name" SNone v with SNone => SText u | x => x end = SText f;
  pv_newlines : truth (opt "convert_newlines" (SBool false) v) = false;
  pv_hash : match opt "objecthash" SNone v with SNone => SText (sha256 lib b) | x => x end = SText h;
  pv_length : opt "length" SNone v = SNone;
  pv_privacy : opt "privacy" (SInt 0) v = SInt p }.

Lemma room_saved d R t u b : room d R t u ->
  save_file lib (SText t) (SText u) (SBytes b) d = (Ret tt, with_package d R t u b).
Proof. intros (Ho & Hu & Hne & Hd & Hden1 & Hden2). by apply file_saved. Qed.

Lemma package_saved w d' v t u b h f mime tool p kws : calm (sy_db w) ->
  save_file lib (SText t) (SText u) (SBytes b) (sy_disk w) = (Ret tt, d') ->
  package_values v t u b h f mime tool p kws -> Forall keyword_value kws ->
  exists r krs w', make_request lib SaveEnterpriseSyncData v w =
      (Ret [("objectmetadata", SObject r (to_db <$> kws))], w') /\ calm (sy_db w') /\
    package_row t u h (Z.of_nat (String.length b)) mime tool f p r /\ Forall2 (keyword_row u) kws krs /\
    rows (sy_db w') TSyncObject ≡ₚ r :: rows (sy_db w) TSyncObject /\
    rows (sy_db w') TKeyword ≡ₚ krs ++ rows (sy_db w) TKeyword /\
    (forall t', t' <> TSyncObject -> t' <> TKeyword -> rows (sy_db w') t' ≡ₚ rows (sy_db w) t') /\
    sy_disk w' = d'.
Proof.
  intros Hc Ef [] Hk.
  destruct (package_created (sy_db w) t u h (Z.of_nat (String.length b)) mime tool f p kws Hc Hk)
    as (r & krs & s' & E & Hc' & Hp & Hkr & HT1 & HT2 & HT3).
  exists r, krs, (mkSyncState s' d' [("objectmetadata", SObject r (to_db <$> kws))]).
  split; [|by split_and!].
  unfold make_request. rewrite (run_bind _ _ w tt (clear w)) by done.
  rewrite (run_bind _ _ (clear w) tt (mkSyncState s' d' [("objectmetadata", SObject r (to_db <$> kws))])).
  { done. }
  unfold sync_execute. apply try_except_ret. cbn [sync_perform]. unfold save_enterprise_sync_data.
  rewrite pv_synctype0, pv_uid0, pv_data0, pv_keywords0, pv_tool0, pv_mime0.
  do 6 rewrite (run_bind (of_outcome (Ret _)) _ _ _ _ eq_refl). cbv zeta.
  rewrite pv_name0, pv_newlines0, pv_length0, pv_privacy0.
  rewrite (run_bind (mret (SBytes b)) _ _ _ _ eq_refl).
  assert (Eh : forall w0 : sync_state S, match opt "objecthash" SNone v with
            | SNone => of_outcome (hexdigest lib (SBytes b)) | x => mret x end w0 = (Ret (SText h), w0)).
  { intros w0. rewrite <- pv_hash0. by destruct (opt "objecthash" SNone v). }
  rewrite (run_bind _ _ _ _ _ (Eh (clear w))). do 2 (erewrite run_bind by reflexivity).
  rewrite (run_bind _ _ _ _ _ (on_disk_run _ (clear w) _ _ Ef)).
  by rewrite (run_bind _ _ _ _ _ (on_db_run _ (with_disk _ (clear w)) _ _ E)).
Qed.

(** The request uploads [b] as [f], to be kept under the name [u]: the bytes are the body of
    the request or its first file. *)
Definition uploads (q : web_request) (u f b mime : string) : Prop :=
  dget "hash" (w_args q) = Some u /\ dget "filename" (w_args q) = Some f /\ f <> "" /\
  w_content_type q = Some mime /\
  (w_data q = b /\ b <> "" \/ w_data q = "" /\ exists o more, w_assets q = (b, o) :: more).

Lemma uploaded_bytes q u f b mime w : uploads q u f b mime -> uploaded q w = (Ret b, w).
Proof.
  intros (_ & _ & _ & _ & [[Hd Hb]|[Hd (o & more & Ha)]]); unfold uploaded, asset; rewrite Hd.
  - by rewrite bool_decide_eq_false_2.
  - rewrite bool_decide_eq_true_2 by done. by rewrite Ha.
Qed.

(** The tool of an upload and the keywords it gets. *)
Definition upload_tool (q : web_request) : string := default "public" (dget "tool" (w_args q)).
Definition upload_keywords (q : web_request) (f : string) : list sval :=
  [SText f; web_arg "creatorUid" q; SText "missionpackage"].

Lemma upload_keyword_values q f : Forall keyword_value (upload_keywords q f).
Proof.
  assert (Ht : forall x, keyword_value (SText x)) by (right; by eexists).
  unfold upload_keywords. apply Forall_cons. split; [done|]. apply Forall_cons.
  split; [|by apply Forall_cons]. unfold web_arg. destruct (dget _ _); [apply Ht|by left].
Qed.

Lemma upload_stored w d' q u f b mime : calm (sy_db w) ->
  save_file lib (SText "content") (SText u) (SBytes b) (sy_disk w) = (Ret tt, d') -> uploads q u f b mime ->
  exists l r krs w', enterprise_sync_upload_alt lib web q w = (Ret (mkAnswer (BData (SDict l)) 200), w') /\
    dget "Hash" l = Some (SText (sha256 lib b)) /\ calm (sy_db w') /\
    package_row "content" u (sha256 lib b) (Z.of_nat (String.length b)) mime (upload_tool q) f 0 r /\
    Forall2 (keyword_row u) (upload_keywords q f) krs /\
    rows (sy_db w') TSyncObject ≡ₚ r :: rows (sy_db w) TSyncObject /\
    rows (sy_db w') TKeyword ≡ₚ krs ++ rows (sy_db w) TKeyword /\
    (forall t', t' <> TSyncObject -> t' <> TKeyword -> rows (sy_db w') t' ≡ₚ rows (sy_db w) t') /\
    sy_disk w' = d'.
Proof.
  intros Hc Ef Hq. pose proof (uploaded_bytes q u f b mime w Hq) as Eb.
  destruct Hq as (Hu & Hf & Hfne & Hm & _).
  set (v := [("objectuid", web_arg "hash" q); ("tool", web_arg_or "tool" "public" q); ("objectdata", SBytes b);
     ("objkeywords", SList (upload_keywords q f));
     ("objstarttime", SText ""); ("synctype", SText "content"); ("mime_type", SText mime);
     ("file_name", SText f)]).
  destruct (package_saved w d' v "content" u b (sha256 lib b) f mime (upload_tool q) 0 (upload_keywords q f))
    as (r & krs & w' & E & Hc' & Hp & Hrest); [done|done| |apply upload_keyword_values|].
  { split; try done. unfold v, web_arg, arg. simpl. by rewrite Hu. }
  pose proof Hp as (_ & _ & _ & Hh & _ & _ & _ & _ & _ & now & Hnow).
  eexists _, r, krs, w'. split; [|split; [|by split]].
  - unfold enterprise_sync_upload_alt. assert (Hwf : web_arg "filename" q = SText f) by (unfold web_arg; by rewrite Hf).
    rewrite Hwf, bool_decide_eq_false_2 by done. rewrite (run_bind _ _ _ _ _ Eb). rewrite Hm.
    rewrite (run_bind _ _ w mime w) by done. rewrite (run_bind _ _ _ _ _ E).
    change (get_value "objectmetadata" _) with (SObject r (to_db <$> upload_keywords q f)). cbv zeta.
    cbn [attribute]. rewrite Hnow. do 7 (erewrite run_bind by reflexivity). reflexivity.
  - simpl. by rewrite Hh.
Qed.

(** A package as it is downloaded. *)
Definition downloaded w service k x b : Prop := exists w',
  specificPackage lib service (asks_for k x) w = (Ret (bytes_answer b), w') /\ same_store w w'.

(** C11: What is uploaded under a name and a content that are new comes back byte for byte
    from the HTTP and the HTTPS service, by the name it was given and by the hash the upload
    answered. *)
Theorem uploaded_package_is_downloaded w R q u f b mime (service : tak_service) : calm (sy_db w) ->
  room (sy_disk w) R "content" u -> uploads q u f b mime ->
  (forall r, r ∈ rows (sy_db w) TSyncObject -> cell "PrimaryKey" r <> DStr u /\ cell "hash" r <> DStr (sha256 lib b)) ->
  exists l w', enterprise_sync_upload_alt lib web q w = (Ret (mkAnswer (BData (SDict l)) 200), w') /\
    calm (sy_db w') /\ dget "Hash" l = Some (SText (sha256 lib b)) /\
    downloaded w' service "uid" u b /\ downloaded w' service "hash" (sha256 lib b) b.
Proof.
  intros Hc Hroom Hq Hnew.
  destruct (upload_stored w _ q u f b mime Hc (room_saved _ _ _ _ _ Hroom) Hq) as (l & r & krs & w' & E & Hl & Hc' & Hp & _ & HT & _ & _ & Hd).
  exists l, w'. split; [done|split; [done|split; [done|]]]. destruct Hp as (_ & Ht & Hu & Hh & _).
  assert (Hh' : held lib (sy_disk w') R r b) by (rewrite Hd; by apply package_held).
  split; (eapply package_downloaded; [done| | | | |exact Hh']).
  1: by left. 4: by right. all: try done. all: try (rewrite HT; by left).
  all: intros r' Hr' Hx; rewrite HT in Hr'; apply elem_of_cons in Hr' as [->|Hr']; [done|].
  all: by destruct (Hnew r' Hr').
Qed.

(** The name an upload is given need not be its hash nor a new one: a second upload
    under the name of a package replaces the package's bytes, so that the first package's
    hash then names the bytes of the second. *)
Theorem second_upload_replaces_the_bytes w R q u f b mime (service : tak_service) h r : calm (sy_db w) ->
  room (sy_disk w) R "content" u -> uploads q u f b mime ->
  r ∈ rows (sy_db w) TSyncObject -> cell "file_type" r = DStr "content" -> cell "PrimaryKey" r = DStr u ->
  cell "hash" r = DStr h -> h <> sha256 lib b ->
  (forall r', r' ∈ rows (sy_db w) TSyncObject -> cell "hash" r' = DStr h -> r' = r) ->
  exists a w', enterprise_sync_upload_alt lib web q w = (Ret a, w') /\ wa_status a = 200%Z /\
    downloaded w' service "hash" h b.
Proof.
  intros Hc Hroom Hq Hr Ht Hu Hh Hne Hone.
  destruct (upload_stored w _ q u f b mime Hc (room_saved _ _ _ _ _ Hroom) Hq) as (l & r0 & krs & w' & E & _ & Hc' & Hp & _ & HT & _ & _ & Hd).
  eexists _, w'. split; [done|split; [done|]]. destruct Hp as (_ & _ & _ & Hh0 & _).
  assert (Hh' : held lib (sy_disk w') R r b) by (rewrite Hd; by apply package_held).
  eapply package_downloaded; [done|by right|rewrite HT; by right|done| |exact Hh'].
  intros r' Hr' Hx. rewrite HT in Hr'. apply elem_of_cons in Hr' as [->|Hr']; [congruence|by apply Hone].
Qed.

(** * Names *)

(** Two directories up. *)
Definition above (n : string) : string := ("../../" ++ n)%string.

Lemma above_components n : plain_name n -> path_components (file_name_of (above n)) = [".."; ".."; file_name_of n].
Proof.
  intros Hn. unfold file_name_of, above.
  change (("../../" ++ n) ++ ".txt")%string with (".." ++ "/" ++ (".." ++ "/" ++ (n ++ ".txt")))%string.
  rewrite !path_components_app. rewrite (path_components_name (n ++ ".txt")) by apply (file_name_plain n Hn). done.
Qed.

Lemma above_no_nul n : plain_name n -> no_nul (file_name_of (above n)).
Proof.
  intros [_ Hn]. unfold file_name_of, above. apply no_nul_app. split; [apply no_nul_app; split; [|done]|];
    by apply (bool_decide_unpack _).
Qed.

Lemma saved_above d R t n b : open_for lib d R t -> plain_name n -> is_dir d (removelast R) = true ->
  is_dir (opened d R t) (removelast R ++ [file_name_of n]) = false ->
  disk_denies lib CallOpen (file_path lib t (above n)) = false ->
  disk_denies lib CallWrite (file_path lib t (above n)) = false ->
  save_file lib (SText t) (SText (above n)) (SBytes b) d =
    (Ret tt, with_file (removelast R ++ [file_name_of n]) b (opened d R t)).
Proof.
  intros Ho Hn Hup Hd Hden1 Hden2. rewrite (save_file_split lib d R) by done.
  destruct (opened_dirs lib d R t Ho) as (Hl & Hd' & _).
  assert (Hup' : is_dir (opened d R t) (removelast R) = true)
    by (unfold opened; destruct (is_dir d (R ++ [t])); [done|by apply is_dir_more]).
  unfold write_file, file_path. rewrite (resolve_file lib _ R) by
    (done || apply Ho || by apply above_no_nul).
  rewrite above_components by done. destruct (file_name_proper n) as (? & ? & ?).
  cbn [walk]. rewrite Hd'. change (move (R ++ [t]) "..") with (removelast (R ++ [t])).
  rewrite removelast_last. destruct Hl as (_ & HR & _). rewrite HR.
  change (move R "..") with (removelast R). rewrite Hup', move_name by done.
  unfold file_path in *. by rewrite Hd, Hden1, Hden2.
Qed.

(** C28: An upload under a plain name writes one file, that of its name below the directory
    of the sync, and changes no other; under a name that starts with two steps upwards it
    writes a file beside that directory. *)
Theorem upload_escapes_its_directory w R q n f b mime : calm (sy_db w) ->
  open_for lib (sy_disk w) R "content" -> plain_name n -> uploads q (above n) f b mime ->
  is_dir (sy_disk w) (removelast R) = true ->
  is_dir (opened (sy_disk w) R "content") (removelast R ++ [file_name_of n]) = false ->
  disk_denies lib CallOpen (file_path lib "content" (above n)) = false ->
  disk_denies lib CallWrite (file_path lib "content" (above n)) = false ->
  exists a w', enterprise_sync_upload_alt lib web q w = (Ret a, w') /\ wa_status a = 200%Z /\
    dget (removelast R ++ [file_name_of n]) (d_files (sy_disk w')) = Some b /\
    forall p u v, p <> file_place R "content" u -> plain_name u -> u <> "" ->
      dget p (d_files (save_file lib (SText "content") (SText u) v (sy_disk w)).2) = dget p (d_files (sy_disk w)).
Proof.
  intros Hc Ho Hn Hq Hup Hd Hden1 Hden2.
  destruct (upload_stored w _ q (above n) f b mime Hc (saved_above _ R _ n b Ho Hn Hup Hd Hden1 Hden2) Hq)
    as (l & r & krs & w' & E & _ & _ & _ & _ & _ & _ & _ & Hd').
  eexists _, w'. split; [done|split; [done|split]].
  - rewrite Hd'. apply dget_dset_eq.
  - intros p u v Hp Hu Hne. by apply (file_save_touches lib _ R).
Qed.

(** The content that is put to the synchronisation, or posted to it, is not stored: the
    request lacks the type, the uid and the media type that the sync asks for, and the
    answer raises. *)
Theorem put_content_is_not_stored w q :
  exists e, (enterprise_sync_upload lib q w).1 = Exn e /\
    sy_db (enterprise_sync_upload lib q w).2 = sy_db w /\ sy_disk (enterprise_sync_upload lib q w).2 = sy_disk w.
Proof. destruct w, q as [? ? [|[] ?] ?]; by eexists. Qed.
End Uploads.

Lemma room_sample : room sync_lib bare_disk ["sync"] "content" "u".
Proof.
  split; [split; [done|split; [apply content_name|right; done]]|].
  split; [split; by apply (bool_decide_unpack _)|done].
Qed.

Lemma uploaded_package_is_downloaded_witness :
  exists l w', enterprise_sync_upload_alt sync_lib web_lib (upload_request "u" "f" "text") (store_of [] bare_disk) =
      (Ret (mkAnswer (BData (SDict l)) 200), w') /\
    downloaded sync_lib w' HttpService "hash" "digest of text" "text".
Proof.
  destruct (uploaded_package_is_downloaded sync_lib web_lib (store_of [] bare_disk) ["sync"]
    (upload_request "u" "f" "text") "u" "f" "text" "text/plain" HttpService) as (l & w' & E & _ & _ & _ & Hd).
  - apply database_calm. reflexivity.
  - apply room_sample.
  - repeat split; [discriminate|left; split; [reflexivity|discriminate]].
  - intros r Hr. by apply not_elem_of_nil in Hr.
  - exists l, w'. split; [exact E|exact Hd].
Defined.

Lemma second_upload_replaces_the_bytes_witness :
  exists a w', enterprise_sync_upload_alt sync_lib web_lib (upload_request "u" "f" "other") (sample 0 "text") = (Ret a, w') /\
    downloaded sync_lib w' HttpService "hash" "h" "other".
Proof.
  destruct (second_upload_replaces_the_bytes sync_lib web_lib (sample 0 "text") ["sync"]
    (upload_request "u" "f" "other") "u" "f" "other" "text/plain" HttpService "h" (sample_package 0))
    as (a & w' & E & _ & Hd).
  - apply sample_calm.
  - split; [split; [done|split; [apply content_name|left; done]]|].
    split; [split; by apply (bool_decide_unpack _)|done].
  - repeat split; [discriminate|left; split; [reflexivity|discriminate]].
  - left.
  - reflexivity.
  - reflexivity.
  - reflexivity.
  - discriminate.
  - intros r' Hr' _. by apply (sample_one 0 "text").
  - exists a, w'. split; [exact E|exact Hd].
Defined.

Lemma upload_escapes_its_directory_witness :
  exists a w', enterprise_sync_upload_alt sync_lib web_lib (upload_request (above "n") "f" "text") (store_of [] bare_disk) =
    (Ret a, w') /\ dget ["n.txt"] (d_files (sy_disk w')) = Some "text".
Proof.
  destruct (upload_escapes_its_directory sync_lib web_lib (store_of [] bare_disk) ["sync"]
    (upload_request (above "n") "f" "text") "n" "f" "text" "text/plain") as (a & w' & E & _ & Hf & _).
  - apply database_calm. reflexivity.
  - split; [done|split; [apply content_name|right; done]].
  - split; by apply (bool_decide_unpack _).
  - repeat split; [discriminate|left; split; [reflexivity|discriminate]].
  - reflexivity.
  - reflexivity.
  - reflexivity.
  - reflexivity.
  - exists a, w'. split; [exact E|exact Hf].
Defined.
