(* ===== verification/MissionHttp.v ===== *)
(** The endpoints through which clients reach the missions: the blueprints of the HTTP and
    the HTTPS service ([services/http_tak_api_service], [services/https_tak_api_service]), and
    those of the REST API that ask for missions ([services/rest_api_service/blueprints]);
    with their properties. *)
From Stdlib Require Import ZArith Lia Ascii String.
From stdpp Require Import base strings list pretty.
From S2P Require Import Prelude.
From S2P Require Import DictToNode.
From S2P Require Import RestGeo.
From S2P Require Import MissionDb.
From S2P Require Import MissionStore.
From S2P Require Import MissionList.
From S2P Require Import MissionFacts.
From S2P Require Import MissionNodes.
From S2P Require Import MissionBuilders.
From S2P Require Import MissionSample.
From S2P Require Import MissionProps.
From S2P Require Import MissionControllers.
From S2P Require Import MissionFacade.
From S2P Require Import MissionReads.
From S2P Require Import MissionLooks.
From S2P Require Import MissionMissing.
From S2P Require Import MissionHierarchy.
From S2P Require Import SyncStore.
From S2P Require Import SyncHttp.

Set Default Proof Using "Type".
Local Open Scope string_scope.
Local Open Scope list_scope.
Local Open Scope py_scope.

(** What is outside: the document of a request, and what an exception is printed as. *)
Record http_library := mkHttpLibrary {
  get_json : web_request -> outcome json;
  exn_text : exn -> string;
  saved_hash : values -> outcome (option dbval) }.

Section Http.
Context {S : Type} `{Orm S} (lib : mission_library) (http : http_library).

Abbreviation MW := (M (mission_state S)).

(** [make_request(action, "mission", values)]: the values of the response. *)
Definition mission_call (r : mission_request) : MW (list (string * answer)) :=
  modify (fun w => mkMissionState (ms_db w) [] None None) ;;; execute lib r ;;; gets ms_response.
Definition text_value (k : string) (response : list (string * answer)) : option string :=
  match dget k response with Some (AText s) => Some s | _ => None end.

(** What a view returns: Flask raises where there is no body. *)
Definition returned (body : option string) (status : Z) : MW web_answer :=
  match body with Some s => mret (mkAnswer (BText s) status) | None => raise TypeError end.
Definition asked (r : mission_request) (k : string) (status : Z) : MW web_answer :=
  response <- mission_call r ;; returned (text_value k response) status.
Definition nothing_else (status : Z) : MW web_answer := mret (mkAnswer (BText "") status).

(** Arguments of the request, as the missions take them. *)
Definition json_arg (k : string) (q : web_request) : json := from_option JText JNull (dget k (w_args q)).
Definition client_arg (k : string) (q : web_request) : dbval := from_option DStr DNone (dget k (w_args q)).
Definition texts_of (l : list json) : list dbval := db_of_json <$> l.

(** A document of the TAK server. *)
Definition tak_document (type : string) (data : list sval) : web_answer :=
  mkAnswer (BData (SDict [("version", SText "3"); ("type", SText type); ("data", SList data);
    ("nodeId", SText (node_id lib))])) 200.

(** * Missions *)

Definition get_missions : MW web_answer := asked GetMissions "missions" 200.
Definition get_mission (mission_id : string) : MW web_answer := asked (GetMission mission_id) "mission" 200.
Definition get_mission_cots (mission_id : string) : MW web_answer := asked (GetMissionCots mission_id) "cots" 200.
Definition get_mission_changes (mission_id : string) : MW web_answer :=
  asked (GetMissionChanges mission_id) "mission_changes" 200.

Definition put_mission (mission_id : string) (q : web_request) : MW web_answer :=
  response <- mission_call (PutMission mission_id (w_data q) ((fun p => (p.1, JText p.2)) <$> w_args q)
    (client_arg "creatorUid" q)) ;;
  mission_call (MissionCreatedNotification mission_id) ;;;
  returned (text_value "mission_subscription" response) 200.

(** What is iterated over is a list, a string or a document. *)
Definition add_mission_contents (mission_id : string) (q : web_request) : MW web_answer :=
  request_json <- of_outcome (get_json http q) ;;
  v <- of_outcome (get_or request_json "hashes" (JList [])) ;; hashes <- of_outcome (iterate v) ;;
  v <- of_outcome (get_or request_json "uids" (JList [])) ;; uids <- of_outcome (iterate v) ;;
  response <- mission_call (AddMissionContents mission_id (texts_of hashes) (texts_of uids)) ;;
  for_each hashes (fun hash => mission_call (MissionContentCreatedNotification (db_of_json hash)) ;;; mret tt) ;;;
  returned (text_value "mission" response) 200.

Definition groups_document : web_answer :=
  tak_document "com.bbn.marti.remote.groups.Group" [SDict
    [("name", SText "__ANON__"); ("direction", SText "OUT"); ("created", SText "2023-02-22");
     ("type", SText "SYSTEM"); ("bitpos", SInt 2); ("active", SBool true)]].
Definition get_groups : MW web_answer := mret groups_document.

(** The HTTP service knows no invitations. *)
Definition get_invitations (svc : tak_service) (q : web_request) : MW web_answer :=
  match svc with
  | HttpService => mret (tak_document "MissionInvitation" [])
  | HttpsService =>
      match dget "clientUid" (w_args q) with
      | None => nothing_else 400
      | Some client_uid => asked (GetInvitations (DStr client_uid)) "mission_changes" 200
      end
  end.

(** * Logs *)

(** [json.loads(log)["data"][0]["id"]]. *)
Definition log_id_of (log : option string) : outcome json :=
  match log with
  | None => Exn TypeError
  | Some s =>
      match json_loads lib s with
      | Exn e => Exn e
      | Ret j =>
          match json_item j "data" with
          | Exn e => Exn e
          | Ret l => match jfirst l with Ret d => json_item d "id" | Exn e => Exn e end
          end
      end
  end.
Definition add_log_entry (svc : tak_service) (q : web_request) : MW web_answer :=
  request_json <- of_outcome (get_json http q) ;;
  response <- mission_call (AddMissionLog request_json) ;;
  let log := text_value "log" response in
  id <- of_outcome (log_id_of log) ;;
  mission_call (MissionLogCreatedNotification (db_of_json id)) ;;;
  returned log (match svc with HttpService => 201 | HttpsService => 200 end).
Definition update_log_entry (q : web_request) : MW web_answer :=
  request_json <- of_outcome (get_json http q) ;; asked (UpdateMissionLog request_json) "log" 200.
Definition delete_log_entry (id : string) : MW web_answer :=
  mission_call (DeleteLog (DStr id)) ;;; nothing_else 200.

(** The view has no parameter for the id of its route. *)
Definition get_log_entry (id : string) : MW web_answer := raise TypeError.
Definition get_mission_logs (missionID : string) (q : web_request) : MW web_answer :=
  asked (GetMissionLogs missionID (json_arg "secago" q) (json_arg "start" q) (json_arg "end" q)) "logs" 200.
Definition get_all_logs : MW web_answer := asked GetAllLogs "logs" 200.

(** * Hierarchy *)

Definition add_child_to_parent (child_mission_id parent_mission_id : string) : MW web_answer :=
  mission_call (AddChildToParent parent_mission_id child_mission_id) ;;; nothing_else 200.
Definition delete_child (child_mission_id : string) : MW web_answer := asked (DeleteParent child_mission_id) "mission" 200.
Definition get_children (parent_mission_id : string) : MW web_answer := asked (GetChildren parent_mission_id) "children" 200.
Definition get_parent (child_mission_id : string) : MW web_answer := asked (GetParent child_mission_id) "parent" 200.

(** * Subscriptions *)

Definition get_all_subscriptions : MW web_answer := asked GetAllSubscriptions "mission_subscriptions" 200.
Definition get_mission_subscriptions (mission_id : string) : MW web_answer :=
  asked (GetMissionSubscriptions mission_id) "mission_subscriptions" 200.
Definition get_all_mission_subscriptions (mission_id : string) : MW web_answer :=
  asked (GetMissionSubscriptions mission_id) "mission_subscriptions" 200.
Definition add_mission_subscription (mission_id : string) (q : web_request) : MW web_answer :=
  try: (response <- mission_call (AddMissionSubscription mission_id (client_arg "uid" q)) ;;
        match text_value "mission_subscription" response with
        | Some s => mret (mkAnswer (BText s) 201)
        | None => nothing_else 404
        end)
  except: nothing_else 500.
Definition delete_mission_subscription (mission_id : string) (q : web_request) : MW web_answer :=
  mission_call (DeleteMissionSubscription mission_id (client_arg "uid" q)) ;;; nothing_else 200.
Definition get_mission_subscription (mission_id : string) (q : web_request) : MW web_answer :=
  asked (GetMissionSubscription mission_id (client_arg "uid" q)) "mission_subscription" 200.

(** * External data, and files sent to a mission *)

Definition create_external_mission_data (mission_id : string) (q : web_request) : MW web_answer :=
  request_json <- of_outcome (get_json http q) ;;
  asked (CreateExternalMissionData mission_id request_json) "external_data" 200.

(** The file goes to the enterprise sync first, and its hash to the mission. *)
Definition add_mission_content_direct (svc : tak_service) (mission_id : string) (q : web_request) : MW web_answer :=
  let filename := web_arg "filename" q in
  data <- (if bool_decide (w_data q = "") then a <- of_option IndexError (head (w_assets q)) ;; mret a.1
           else mret (w_data q)) ;;
  id <- match dget "hash" (w_args q) with None => db uuid4 | Some h => mret h end ;;
  mime_type <- of_option KeyError (w_content_type q) ;;
  metadata <- of_outcome (saved_hash http
    ([("objectuid", SText id); ("tool", web_arg_or "tool" "public" q); ("objectdata", SBytes data);
      ("objkeywords", SList [filename; web_arg "creatorUid" q; SText "missionpackage"])] ++
     match svc with HttpService => [("file_name", filename)] | HttpsService => [] end ++
     [("objstarttime", SText ""); ("synctype", SText "content"); ("mime_type", SText mime_type)])) ;;
  hash <- of_option AttributeError metadata ;;
  mission_call (AddMissionContents mission_id [hash] []) ;;;
  mret (tak_document "MissionChange" []).

(** * Invitations *)

Definition quoted (s : string) : string := String "034" (s ++ String "034" "")%string.
Definition message_text (s : string) : string := ("{" ++ quoted "message" ++ ": " ++ quoted s ++ "}")%string.
Definition failed (e : exn) : MW web_answer :=
  mret (mkAnswer (BData (SDict [("message", SText (exn_text http e))])) 500).

(** [json.loads(mission)["data"][0]["defaultRole"]["type"]]. *)
Definition default_role_of (mission : string) : outcome json :=
  match json_loads lib mission with
  | Exn e => Exn e
  | Ret j =>
      match json_item j "data" with
      | Exn e => Exn e
      | Ret l =>
          match jfirst l with
          | Exn e => Exn e
          | Ret d => match json_item d "defaultRole" with Ret r => json_item r "type" | Exn e => Exn e end
          end
      end
  end.

(** [role is None or role == default_mission_role]. *)
Definition role_accepted (role : option string) (default_mission_role : json) : bool :=
  match role, default_mission_role with
  | None, _ => true
  | Some r, JText s => bool_decide (r = s)
  | Some _, _ => false
  end.

(** The role of the request has to be the default one; the invitation has none. *)
Definition put_mission_invitation (mission_id invitee : string) (q : web_request) : MW web_answer :=
  let author := DStr (default "unknown" (dget "creatorUid" (w_args q))) in
  try_except
    (response <- mission_call (GetMission mission_id) ;;
     match text_value "mission" response with
     | None => mret (mkAnswer (BText (message_text "mission not found")) 404)
     | Some mission =>
         default_mission_role <- of_outcome (default_role_of mission) ;;
         if role_accepted (dget "role" (w_args q)) default_mission_role then
           mission_call (SendInvitation author (DStr invitee) mission_id) ;;; nothing_else 200
         else mret (mkAnswer (BText (message_text "invalid role")) 405)
     end)
    failed.

(** [json.loads(data)[0]["invitee"]], and its role, which has to be there. *)
Definition invitee_of (data : string) : outcome json :=
  match json_loads lib data with
  | Exn e => Exn e
  | Ret j =>
      match jfirst j with
      | Exn e => Exn e
      | Ret d =>
          match json_item d "invitee", json_item d "role" with
          | Ret i, Ret r => match json_item r "type" with Ret _ => Ret i | Exn e => Exn e end
          | Exn e, _ | _, Exn e => Exn e
          end
      end
  end.
Definition post_mission_invitation (mission_id : string) (q : web_request) : MW web_answer :=
  let author := DStr (default "unknown" (dget "creatorUid" (w_args q))) in
  invitedContacts <- (if bool_decide (w_data q = "") then mret (client_arg "contacts" q)
                      else i <- of_outcome (invitee_of (w_data q)) ;; mret (db_of_json i)) ;;
  try_except
    (response <- mission_call (GetMission mission_id) ;;
     match text_value "mission" response with
     | None => mret (mkAnswer (BText (message_text "mission not found")) 404)
     | Some mission =>
         of_outcome (default_role_of mission) ;;;
         mission_call (SendInvitation author invitedContacts mission_id) ;;; nothing_else 200
     end)
    failed.

(** * The REST API *)

Definition get_mission_table : MW web_answer := asked GetMissions "missions" 200.
Definition excheck_table : MW web_answer :=
  response <- mission_call (GetMission "exchecktemplates") ;;
  match text_value "mission" response with
  | None | Some "" => mret (mkAnswer (BText "{}") 200)
  | Some s => mret (mkAnswer (BText s) 200)
  end.
End Http.

(** * Routes *)

Inductive mission_route :=
  | MissionsGet | InvitationsGet | GroupsGet
  | MissionPut (mission_id : string) | MissionGet (mission_id : string) | CotsGet (mission_id : string)
  | ContentsPut (mission_id : string)
  | EntriesPost | EntriesPut | EntryDelete (id : string) | EntryGet (id : string)
  | LogGet (missionID : string) | AllLogsGet
  | ParentPut (child_mission_id parent_mission_id : string) | ParentDelete (child_mission_id : string)
  | ChildrenGet (parent_mission_id : string) | ParentGet (child_mission_id : string)
  | AllSubscriptionsGet | SubscriptionsGet (mission_id : string)
  | SubscriptionPut (mission_id : string) | SubscriptionDelete (mission_id : string)
  | SubscriptionGet (mission_id : string) | RolesGet (mission_id : string)
  | ExternalPost (mission_id : string) | ChangesGet (mission_id : string) | PackagePut (mission_id : string)
  | InvitePut (mission_id type invitee : string) | InvitePost (mission_id : string).

Definition mission_view {S : Type} `{Orm S} (lib : mission_library) (http : http_library) (svc : tak_service)
    (r : mission_route) (q : web_request) : M (mission_state S) web_answer :=
  match r with
  | MissionsGet => get_missions lib
  | InvitationsGet => get_invitations lib svc q
  | GroupsGet => get_groups lib
  | MissionPut m => put_mission lib m q
  | MissionGet m => get_mission lib m
  | CotsGet m => get_mission_cots lib m
  | ContentsPut m => add_mission_contents lib http m q
  | EntriesPost => add_log_entry lib http svc q
  | EntriesPut => update_log_entry lib http q
  | EntryDelete i => delete_log_entry lib i
  | EntryGet i => get_log_entry i
  | LogGet m => get_mission_logs lib m q
  | AllLogsGet => get_all_logs lib
  | ParentPut c p => add_child_to_parent lib c p
  | ParentDelete c => delete_child lib c
  | ChildrenGet p => get_children lib p
  | ParentGet c => get_parent lib c
  | AllSubscriptionsGet => get_all_subscriptions lib
  | SubscriptionsGet m => get_mission_subscriptions lib m
  | SubscriptionPut m => add_mission_subscription lib m q
  | SubscriptionDelete m => delete_mission_subscription lib m q
  | SubscriptionGet m => get_mission_subscription lib m q
  | RolesGet m => get_all_mission_subscriptions lib m
  | ExternalPost m => create_external_mission_data lib http m q
  | ChangesGet m => get_mission_changes lib m
  | PackagePut m => add_mission_content_direct lib http svc m q
  | InvitePut m _ i => put_mission_invitation lib http m i q
  | InvitePost m => post_mission_invitation lib http m q
  end.

(** The routes whose method is GET. *)
Definition is_get (r : mission_route) : bool :=
  match r with
  | MissionsGet | InvitationsGet | GroupsGet | MissionGet _ | CotsGet _ | EntryGet _ | LogGet _ | AllLogsGet
  | ChildrenGet _ | ParentGet _ | AllSubscriptionsGet | SubscriptionsGet _ | SubscriptionGet _ | RolesGet _
  | ChangesGet _ => true
  | _ => false
  end.

(** * Properties *)

Set Default Proof Using "Type*".

Section Props.
Context {S : Type} `{OrmLaws S, !OrmReliable S} (lib : mission_library) (http : http_library).
Implicit Types (w : mission_state S).

(** A request starts with a response of its own. *)
Definition fresh_response w : mission_state S := mkMissionState (ms_db w) [] None None.

Lemma mission_call_run r w :
  mission_call lib r w = (Ret (ms_response (execute lib r (fresh_response w)).2), (execute lib r (fresh_response w)).2) \/
  exists e, mission_call lib r w = (Exn e, (execute lib r (fresh_response w)).2) /\ is_Exception e = false.
Proof.
  unfold mission_call. rewrite (run_bind _ _ w tt (fresh_response w)) by done.
  destruct (execute lib r (fresh_response w)) as [[[]|e] w1] eqn:E.
  - left. by rewrite (run_bind _ _ _ _ _ E).
  - right. exists e. rewrite (run_bind_exn _ _ _ _ _ E). split; [done|].
    unfold execute, try_except, try_with in E. destruct (perform lib r (fresh_response w)) as [[[]|x] w2]; [done|].
    destruct (is_Exception x) eqn:Ex; [done|]. by injection E as <- _.
Qed.

Lemma mission_call_ret r w w' : execute lib r (fresh_response w) = (Ret tt, w') ->
  mission_call lib r w = (Ret (ms_response w'), w').
Proof.
  intros E. unfold mission_call. rewrite (run_bind _ _ w tt (fresh_response w)) by done.
  by rewrite (run_bind _ _ _ _ _ E).
Qed.

Lemma asked_state r k status w : (asked lib r k status w).2 = (execute lib r (fresh_response w)).2.
Proof.
  unfold asked. destruct (mission_call_run r w) as [E|(e & E & _)].
  - rewrite (run_bind _ _ _ _ _ E). by destruct (text_value k _).
  - by rewrite (run_bind_exn _ _ _ _ _ E).
Qed.

Lemma asked_reads r k status w : asks r = true -> rows (ms_db (asked lib r k status w).2) = rows (ms_db w).
Proof.
  intros Hr. rewrite asked_state. by apply (asking_changes_nothing lib r (fresh_response w)).
Qed.

(** C32: No GET request for the missions changes a table, over HTTP or HTTPS, whatever is asked
    for and whether it is answered or fails. *)
Theorem get_requests_change_nothing svc r q w : is_get r = true ->
  rows (ms_db (mission_view lib http svc r q w).2) = rows (ms_db w).
Proof.
  destruct r; try done; intros _; cbn [mission_view]; try by apply asked_reads.
  - destruct svc; [done|]. unfold get_invitations. destruct (dget _ _); [by apply asked_reads|done].
Qed.

(** The notification that a mission was created looks at the database only. *)
Lemma leaves_created_notification sid id : leaves (send_mission_created_notification lib sid id).
Proof.
  unfold send_mission_created_notification.
  apply leaves_bind; [eapply leaves_glances, looks_glances, looks_mission|intros m].
  apply leaves_bind; [apply leaves_glances, glances_create|intros n].
  apply leaves_bind; [apply leaves_glances, glances_uuid4|intros u].
  do 2 (apply leaves_bind; [apply leaves_glances, glances_put|intros ?]).
  apply leaves_bind; [apply leaves_glances, glances_of_option|intros ?].
  apply leaves_bind; [apply leaves_glances, glances_put|intros ?]. by intros w Hw.
Qed.
Lemma execute_leaves r w : leaves (perform lib r) -> calm_state w -> unchanged (ms_db w) (ms_db (execute lib r w).2).
Proof.
  intros Hr Hw. specialize (Hr w Hw). unfold execute, try_except, try_with.
  destruct (perform lib r w) as [[a|e] w1]; [done|]. simpl in *. by destruct (is_Exception e).
Qed.

(** Who asks for a mission without a role is answered with an error. *)
Lemma hidden_over_http id m w : calm_state w -> mission_of (ms_db w) id = Some m -> cell "defaultRole_id" m = DNone ->
  exists e w', get_mission lib id w = (Exn e, w') /\ unchanged (ms_db w) (ms_db w').
Proof.
  intros Hw Hm Hr. pose proof (hidden_mission lib (fresh_response w) id m Hw Hm Hr) as (Hu & Hresp & _).
  unfold get_mission, asked. destruct (mission_call_run (GetMission id) w) as [E|(e & E & _)].
  - exists TypeError, (execute lib (GetMission id) (fresh_response w)).2. rewrite (run_bind _ _ _ _ _ E).
    by rewrite Hresp.
  - exists e, (execute lib (GetMission id) (fresh_response w)).2. by rewrite (run_bind_exn _ _ _ _ _ E).
Qed.

(** C31: A mission that is put over HTTP or HTTPS without a known default role, and without a
    time, is answered with a server error, although it is stored with the subscription of its
    creator; from then on each of the services answers who asks for it with a server error,
    too, and changes nothing. *)
Theorem mission_put_without_role_is_hidden svc w id q :
  let args := (fun p => (p.1, JText p.2)) <$> w_args q in
  calm_state w -> mission_of (ms_db w) id = None -> w_data q = "" ->
  role_unknown (given_field "defaultRole" args) (rows (ms_db w)) -> dget "createTime" args = None ->
  (forall l, exists t, token_of lib l = Ret t) -> storable CString (client_arg "creatorUid" q) = true ->
  exists e w', mission_view lib http svc (MissionPut id) q w = (Exn e, w') /\ calm_state w' /\
    (exists m, mission_of (ms_db w') id = Some m /\ cell "defaultRole_id" m = DNone) /\
    (exists r, rows (ms_db w') TSubscription ≡ₚ rows (ms_db w) TSubscription ++ [r] /\
       cell "mission_uid" r = DStr (lower id) /\ cell "clientUid" r = to_column CString (client_arg "creatorUid" q)) /\
    forall svc' q' w2, calm_state w2 -> mission_of (ms_db w2) id = mission_of (ms_db w') id ->
      exists e' w3, mission_view lib http svc' (MissionGet id) q' w2 = (Exn e', w3) /\
        unchanged (ms_db w2) (ms_db w3).
Proof.
  intros args Hw Hm Hd Hr Ht Htok Hcr. set (creator := client_arg "creatorUid" q) in *.
  destruct (mission_without_role_stays_hidden lib (fresh_response w) id args creator Hw Hm Hr Ht Htok Hcr)
    as (Hw1 & (t & Hresp) & Hmis & Hsub & _). set (w1 := (execute lib _ _).2) in *.
  set (w2 := (execute lib (MissionCreatedNotification id) (fresh_response w1)).2).
  assert (Hu : unchanged (ms_db w1) (ms_db w2))
    by (apply (execute_leaves _ (fresh_response w1)); [apply leaves_created_notification|done]).
  assert (Hend : exists e w', put_mission lib id q w = (Exn e, w') /\ unchanged (ms_db w1) (ms_db w')).
  { unfold put_mission. rewrite Hd. destruct (mission_call_run (PutMission id "" args creator) w) as [E|(e & E & _)].
    - rewrite (run_bind _ _ _ _ _ E). fold w1.
      destruct (mission_call_run (MissionCreatedNotification id) w1) as [E2|(e & E2 & _)].
      + rewrite (run_bind _ _ _ _ _ E2). exists TypeError, w2. by rewrite Hresp.
      + rewrite (run_bind_exn _ _ _ _ _ E2). by exists e, w2.
    - rewrite (run_bind_exn _ _ _ _ _ E). by exists e, w1. }
  destruct Hend as (e & w' & E & Hu'). pose proof (unchanged_rows _ _ Hu') as Hr'.
  assert (Hmo : mission_of (ms_db w') id = mission_of (ms_db w1) id) by (unfold mission_of; by rewrite Hr').
  exists e, w'. rewrite Hmo, Hr'. split_and!; [exact E|by apply (calm_unchanged (ms_db w1))|done|done|].
  intros svc' q' w0 Hw0 Hm0. destruct Hmis as (m & Hm1 & Hrole). rewrite Hm1 in Hm0.
  by apply (hidden_over_http id m).
Qed.

(** C19: A mission without a parent that is given one over HTTP or HTTPS has it until it is
    taken away again, which leaves every table with the rows it had.  But who takes it away is
    answered with a server error, since the missions answer nothing that could be sent. *)
Theorem parent_round_trip_over_http svc svc' q q' w p c mp mc : calm_state w ->
  mission_of (ms_db w) p = Some mp -> mission_of (ms_db w) c = Some mc ->
  (forall r, r ∈ rows (ms_db w) TMissionToMission -> cell "child_mission_id" r <> DStr (lower c)) ->
  exists rel w1 w2, mission_view lib http svc (ParentPut c p) q w = (Ret (mkAnswer (BText "") 200), w1) /\
    relates p c rel /\ (forall t, rows (ms_db w1) t ≡ₚ insert_row rel (rows (ms_db w)) t) /\
    mission_view lib http svc' (ParentDelete c) q' w1 = (Exn TypeError, w2) /\
    calm_state w2 /\ forall t, rows (ms_db w2) t ≡ₚ rows (ms_db w) t.
Proof.
  intros Hw Hp Hc Hno. set (w0 := fresh_response w).
  destruct (parent_given_and_taken lib w0 p c mp mc Hw Hp Hc Hno)
    as (rel & s1 & s2 & E1 & Hrel & HT1 & E2 & Hc2 & HT2).
  exists rel, (with_db s1 w0), (with_db s2 w0). split_and!; [|done|done| |done|done].
  - cbn [mission_view]. unfold add_child_to_parent. by rewrite (run_bind _ _ _ _ _ (mission_call_ret _ w _ E1)).
  - cbn [mission_view]. unfold delete_child, asked.
    by rewrite (run_bind _ _ _ _ _ (mission_call_ret _ (with_db s1 w0) _ E2)).
Qed.
End Props.

(** * The theorems applied *)

Definition http_lib : http_library := {|
  get_json q := Ret (JText (w_data q));
  exn_text _ := "error";
  saved_hash _ := Ret None |}.
Definition plain_request (args : list (string * string)) : web_request := mkWebRequest args "" [] None.

Lemma get_requests_change_nothing_witness :
  let w := state_of [mission_row "m"] in
  rows (ms_db (mission_view library http_lib HttpService (MissionGet "m") (plain_request []) w).2) = rows (ms_db w).
Proof.
  intros w. apply (get_requests_change_nothing library http_lib HttpService (MissionGet "m") (plain_request []) w).
  reflexivity.
Defined.

Lemma mission_put_without_role_is_hidden_witness :
  exists e w' e' w3,
    mission_view library http_lib HttpService (MissionPut "m") (plain_request [("creatorUid", "c")]) (state_of []) = (Exn e, w') /\
    (exists m, mission_of (ms_db w') "m" = Some m) /\
    mission_view library http_lib HttpsService (MissionGet "m") (plain_request []) w' = (Exn e', w3).
Proof.
  destruct (mission_put_without_role_is_hidden library http_lib HttpService (state_of []) "m"
    (plain_request [("creatorUid", "c")])) as (e & w' & E & Hc & (m & Hm & _) & _ & Hs).
  - apply database_calm. reflexivity.
  - reflexivity.
  - reflexivity.
  - split; [intros l; discriminate|]. split; [intros x; discriminate|reflexivity].
  - reflexivity.
  - intros l. exists "token". reflexivity.
  - reflexivity.
  - destruct (Hs HttpsService (plain_request []) w' Hc eq_refl) as (e' & w3 & E' & _).
    exists e, w', e', w3. split; [exact E|]. split; [exists m; exact Hm|exact E'].
Defined.

Lemma parent_round_trip_over_http_witness :
  let w := state_of [mission_row "p"; mission_row "c"] in
  exists w1 w2,
    mission_view library http_lib HttpService (ParentPut "c" "p") (plain_request []) w = (Ret (mkAnswer (BText "") 200), w1) /\
    mission_view library http_lib HttpsService (ParentDelete "c") (plain_request []) w1 = (Exn TypeError, w2) /\
    rows (ms_db w2) TMissionToMission ≡ₚ [].
Proof.
  intros w. destruct (parent_round_trip_over_http library http_lib HttpService HttpsService (plain_request [])
    (plain_request []) w "p" "c" (mission_row "p") (mission_row "c")) as (rel & w1 & w2 & E1 & _ & _ & E2 & _ & Hr).
  - apply database_calm. reflexivity.
  - reflexivity.
  - reflexivity.
  - intros r Hr. inversion Hr.
  - exists w1, w2. split; [exact E1|]. split; [exact E2|exact (Hr TMissionToMission)].
Defined.
