(* ===== verification/ExcheckStore.v ===== *)
(** The database of the checklists
    ([components/extended/excheck/controllers/excheck_persistency_controller.py]): each
    method over a session of [MissionDb]. *)
From Stdlib Require Import ZArith Lia Ascii String.
From stdpp Require Import base strings list pretty.
From S2P Require Import Prelude.
From S2P Require Import MissionDb.
From S2P Require Import MissionStore.

Set Default Proof Using "Type".
Local Open Scope string_scope.
Local Open Scope list_scope.
Local Open Scope py_scope.

Section Store.
Context {E : Type} `{Orm E} (sid : string).

Abbreviation ME := (M E).

(** [try: ses.add(o); ses.commit()] and what is raised is raised again. *)
Definition record (d : draft) : ME unit := or_rollback sid (add_commit sid d) ;;; mret tt.

Definition create_template (templateuid : dbval) : ME unit :=
  record (with_cell "PrimaryKey" templateuid (new TTemplate)).

Definition create_checklist (checklistuid : dbval) : ME unit :=
  record (with_cell "PrimaryKey" checklistuid (new TChecklist)).

Definition add_mission_checklist_mapping (checklist_uid mission_id : dbval) : ME unit :=
  record (with_cell "mission_uid" mission_id (with_cell "checklist_uid" checklist_uid (new TChecklistMission))).

Definition get_template (template_uid : dbval) : ME (option row) :=
  first sid (filter_by TTemplate [("PrimaryKey", template_uid)]).

Definition get_checklist (checklist_uid : dbval) : ME (option row) :=
  first sid (filter_by TChecklist [("PrimaryKey", checklist_uid)]).

Definition get_checklist_task (checklist_task_uid : dbval) : ME (option row) :=
  first sid (filter_by TChecklistTask [("PrimaryKey", checklist_task_uid)]).

Definition get_all_templates : ME (list row) := query sid (all_of TTemplate).

Definition get_all_checklists : ME (list row) := query sid (all_of TChecklist).

Definition create_template_task (templateuid taskuid : dbval) : ME unit :=
  record (with_cell "template_uid" templateuid (with_cell "PrimaryKey" taskuid (new TTemplateTask))).

Definition create_checklist_task (checklistuid taskuid : dbval) : ME unit :=
  record (with_cell "checklist_uid" checklistuid (with_cell "PrimaryKey" taskuid (new TChecklistTask))).
End Store.
