(* ===== verification/ExcheckXml.v ===== *)
(** The documents of the checklists: elements as [lxml] and [ElementTree] have them, and what
    the adapter for WinTAK does to a task
    ([components/extended/excheck/controllers/excheck_wintak_adapter.py]). *)
From Stdlib Require Import ZArith Lia Ascii String.
From stdpp Require Import base strings list pretty.
From S2P Require Import Prelude.
From S2P Require Import MissionDb.
From S2P Require Import SyncStore.

Set Default Proof Using "Type".
Local Open Scope string_scope.
Local Open Scope list_scope.
Local Open Scope py_scope.

Local Unset Elimination Schemes.

(** An element with its attributes, its text, the elements below it, and the text behind
    it.  Comments and processing instructions are left out. *)
Inductive xml := Elem {
  x_tag : string;
  x_attrs : list (string * string);
  x_text : option string;
  x_kids : list xml;
  x_tail : option string }.

Definition element (tag : string) (text : option string) : xml := Elem tag [] text [] None.
Definition with_text (t : option string) (e : xml) : xml := Elem (x_tag e) (x_attrs e) t (x_kids e) (x_tail e).
Definition with_kids (l : list xml) (e : xml) : xml := Elem (x_tag e) (x_attrs e) (x_text e) l (x_tail e).

Definition has_tag (tag : string) (e : xml) : bool := bool_decide (x_tag e = tag).

(** [e.find(tag)], [e.findall(tag)], [e.append(e')]. *)
Definition find (tag : string) (e : xml) : option xml := List.find (has_tag tag) (x_kids e).
Definition findall (tag : string) (e : xml) : list xml := List.filter (has_tag tag) (x_kids e).
Definition append (e' : xml) (e : xml) : xml := with_kids (x_kids e ++ [e']) e.

(** The first of the elements that is asked for, and the others. *)
Fixpoint take_first (p : xml -> bool) (l : list xml) : option (xml * list xml) :=
  match l with
  | [] => None
  | e :: l =>
      if p e then Some (e, l)
      else match take_first p l with Some (e', l') => Some (e', e :: l') | None => None end
  end.

(** [c = e.find(tag); if c != None: e.remove(c)]. *)
Definition remove_found (tag : string) (e : xml) : xml :=
  match take_first (has_tag tag) (x_kids e) with Some (_, l) => with_kids l e | None => e end.

(** [e.remove(e.find(tag))]. *)
Definition remove_child (tag : string) (e : xml) : outcome xml :=
  match take_first (has_tag tag) (x_kids e) with Some (_, l) => Ret (with_kids l e) | None => Exn TypeError end.

(** The first element with that tag is changed in its place. *)
Fixpoint change_first (tag : string) (f : xml -> outcome xml) (l : list xml) : outcome (list xml) :=
  match l with
  | [] => Exn AttributeError
  | e :: l =>
      if has_tag tag e then match f e with Ret e' => Ret (e' :: l) | Exn x => Exn x end
      else match change_first tag f l with Ret l' => Ret (e :: l') | Exn x => Exn x end
  end.
Definition at_child (tag : string) (f : xml -> outcome xml) (e : xml) : outcome xml :=
  match change_first tag f (x_kids e) with Ret l => Ret (with_kids l e) | Exn x => Exn x end.

(** [e.find(tag).text], and of what is further below. *)
Definition child (tag : string) (e : xml) : outcome xml :=
  match find tag e with Some c => Ret c | None => Exn AttributeError end.
Definition child_text (tag : string) (e : xml) : outcome (option string) :=
  match child tag e with Ret c => Ret (x_text c) | Exn x => Exn x end.
Definition detail_text (tag : string) (e : xml) : outcome (option string) :=
  match child "checklistDetails" e with Ret d => child_text tag d | Exn x => Exn x end.

(** What is outside: the parsers and printers of [lxml] and of [defusedxml]'s
    [ElementTree], and the text an element of [lxml] takes. *)
Record xml_library := mkXmlLibrary {
  lxml_fromstring : sval -> outcome xml;
  et_fromstring : sval -> outcome xml;
  lxml_tostring : xml -> string;
  lxml_document : xml -> string;
  lxml_standalone : xml -> string;
  et_tostring : xml -> string;
  takes_text : string -> bool }.

Section Xml.
Context (lib : xml_library).

(** [e.text = v] of an element of [lxml]. *)
Definition set_text (v : sval) (e : xml) : outcome xml :=
  match v with
  | SNone => Ret (with_text None e)
  | SText s => if takes_text lib s then Ret (with_text (Some s) e) else Exn ValueError
  | SBytes s => if takes_text lib s then Ret (with_text (Some s) e) else Exn ValueError
  | _ => Exn TypeError
  end.

(** * The adapter *)

Definition remove_Status (e : xml) : xml := remove_found "Status" e.
Definition remove_checklistuid (e : xml) : xml := remove_found "checklistUid" e.

Definition rename_completeDtg (e : xml) : xml :=
  match find "CompleteDTG" e with
  | None => e
  | Some completeDTG =>
      let e := remove_found "CompleteDTG" e in
      match find "completeDTG" e with
      | Some _ =>
          match at_child "completeDTG" (fun c => Ret (with_text (x_text completeDTG) c)) e with
          | Ret e' => e' | Exn _ => e
          end
      | None => append (element "completeDTG" (x_text completeDTG)) e
      end
  end.

Definition standardize_element (e : xml) : xml := rename_completeDtg (remove_checklistuid (remove_Status e)).
Definition standardize_task (task : sval) : outcome string :=
  match et_fromstring lib task with
  | Ret e => Ret (et_tostring lib (standardize_element e))
  | Exn x => Exn x
  end.
End Xml.
