(* ===== verification/ExcheckControllers.v ===== *)
(** The controllers of the checklists and their facade
    ([components/extended/excheck/controllers], [excheck_facade.py]), over the enterprise
    sync of [SyncStore] and their database. *)
From Stdlib Require Import ZArith Lia Ascii String.
From stdpp Require Import base strings list pretty.
From S2P Require Import Prelude.
From S2P Require Import RestGeo.
From S2P Require Import MissionDb.
From S2P Require Import MissionStore.
From S2P Require Import SyncFiles.
From S2P Require Import SyncStore.
From S2P Require Import SyncHttp.
From S2P Require Import ExcheckStore.
From S2P Require Import ExcheckXml.

Set Default Proof Using "Type".
Local Open Scope string_scope.
Local Open Scope list_scope.
Local Open Scope py_scope.

(** What is outside: the format of times, what the missions answer, and [config]. *)
Record excheck_library := mkExcheckLibrary {
  ex_xml : xml_library;
  ex_dtg : Z -> string;
  ex_missions : string -> values -> values;
  ex_address : string;
  ex_port : Z }.

(** The enterprise sync, the database of the checklists, the values of the request and of
    the response, and what the missions have been asked. *)
Record excheck_state (S E : Type) := mkExcheckState {
  ec_sync : sync_state S;
  ec_db : E;
  ec_request : values;
  ec_response : values;
  ec_asked : list (string * values) }.
Arguments mkExcheckState {S E} _ _ _ _ _.
Arguments ec_sync {S E} _.
Arguments ec_db {S E} _.
Arguments ec_request {S E} _.
Arguments ec_response {S E} _.
Arguments ec_asked {S E} _.

Section Excheck.
Context {S E : Type} `{Orm S} `{Orm E} (slib : sync_library) (lib : excheck_library).

Abbreviation MX := (M (excheck_state S E)).
Abbreviation xlib := (ex_xml lib).

Definition in_sync {A} (m : M (sync_state S) A) : MX A := fun w =>
  let '(o, s) := m (ec_sync w) in
  (o, mkExcheckState s (ec_db w) (ec_request w) (ec_response w) (ec_asked w)).
Definition in_db {A} (m : M E A) : MX A := fun w =>
  let '(o, e) := m (ec_db w) in
  (o, mkExcheckState (ec_sync w) e (ec_request w) (ec_response w) (ec_asked w)).

Definition set_value (k : string) (v : sval) : MX unit :=
  modify (fun w => mkExcheckState (ec_sync w) (ec_db w) (dset k v (ec_request w)) (ec_response w) (ec_asked w)).
Fixpoint set_values (l : values) : MX unit :=
  match l with [] => mret tt | (k, v) :: l => set_value k v ;;; set_values l end.
Definition answer (k : string) (v : sval) : MX unit :=
  modify (fun w => mkExcheckState (ec_sync w) (ec_db w) (ec_request w) (dset k v (ec_response w)) (ec_asked w)).

(** [execute_sub_action]: an action gets all the values of the request. *)
Definition sync_sub_action (a : sync_action) : MX values :=
  v <- gets ec_request ;; in_sync (make_request slib a v).
Definition mission_sub_action (a : string) : MX values :=
  v <- gets ec_request ;;
  modify (fun w => mkExcheckState (ec_sync w) (ec_db w) (ec_request w) (ec_response w) (ec_asked w ++ [(a, v)])) ;;;
  mret (ex_missions lib a v).

Definition get_time : MX string := t <- in_sync (on_db utcnow) ;; mret (ex_dtg lib t).
Definition new_uid : MX string := in_sync (on_db uuid4).

(** Each controller has a session of its own. *)
Definition template_sid : string := "excheck templates".
Definition checklist_sid : string := "excheck checklists".

(** [try: m except Exception: pass]. *)
Definition ignoring (m : MX unit) : MX unit := try_except m (fun _ => mret tt).

(** * Templates *)

Definition mission_values (description : sval) (createTime : string) (contents : list sval) (more : values) : sval :=
  SDict ([("defaultRole", SText "MISSION_OWNER"); ("tool", SText "ExCheck"); ("downloaded", SBool false);
    ("connected", SBool true); ("isSubscribed", SBool true); ("autoPublish", SBool false);
    ("description", description); ("uids", SList []); ("contents", SList contents);
    ("createTime", SText createTime); ("passwordProtected", SBool false); ("groups", SList []);
    ("serviceUri", SText "")] ++ more).

Definition create_template_mission : MX unit :=
  set_value "mission_id" (SText "exchecktemplates") ;;;
  set_value "mission_data" (SBytes "") ;;;
  now <- get_time ;;
  set_value "mission_data_args" (mission_values (SText "") now [] []) ;;;
  set_value "creatorUid" (SText "ExCheck") ;;;
  mission_sub_action "PutMission" ;;; mret tt.

Definition as_bytes (v : sval) : sval := match v with SText s => SBytes s | v => v end.

(** A task of a template has a number. *)
Definition number_task (t : xml) : xml :=
  match find "number" t with Some _ => t | None => append (element "number" (Some "0")) t end.
Definition number_tasks (tasks : xml) : outcome xml :=
  Ret (with_kids ((fun t => if has_tag "checklistTask" t then number_task t else t) <$> x_kids tasks) tasks).

(** The digest is that of the document as it came, the data that of the document written
    again. *)
Definition create_template (v : values) : MX unit :=
  templatedata <- of_outcome (arg "templatedata" v) ;;
  creator_uid <- of_outcome (arg "creator_uid" v) ;;
  let templatedata := as_bytes templatedata in
  parsed <- of_outcome (lxml_fromstring xlib templatedata) ;;
  uid <- of_outcome (detail_text "uid" parsed) ;;
  ignoring (in_db (ExcheckStore.create_template template_sid (to_db (maybe_text uid)))) ;;;
  parsed <- of_outcome (at_child "checklistTasks" number_tasks parsed) ;;
  set_value "synctype" (SText "ExCheckTemplate") ;;;
  objecthash <- of_outcome (hexdigest slib templatedata) ;;
  set_value "objecthash" objecthash ;;;
  set_value "objectdata" (SBytes (et_tostring xlib parsed)) ;;;
  set_value "objectuid" (maybe_text uid) ;;;
  name <- of_outcome (detail_text "name" parsed) ;;
  description <- of_outcome (detail_text "description" parsed) ;;
  creatorCallsign <- of_outcome (detail_text "creatorCallsign" parsed) ;;
  set_value "objkeywords" (SList [maybe_text name; maybe_text description; maybe_text creatorCallsign]) ;;;
  set_value "tool" (SText "ExCheck") ;;;
  set_value "creator_uid" creator_uid ;;;
  set_value "mime_type" (SText "application/xml") ;;;
  now <- get_time ;;
  set_value "objstarttime" (SText now) ;;;
  response <- sync_sub_action SaveEnterpriseSyncData ;;
  set_value "mission_id" (SText "exchecktemplates") ;;;
  hash <- match get_value "objectmetadata" response with
          | SObject r _ => mret (of_db (cell "hash" r)) | _ => raise AttributeError end ;;
  set_value "hashes" (SList [hash]) ;;;
  mission_sub_action "AddMissionContents" ;;; mret tt.

Definition get_template (templateuid : sval) : MX sval :=
  set_value "objectuid" templateuid ;;;
  response <- sync_sub_action GetEnterpriseSyncData ;;
  answer "template_data" (get_value "objectdata" response) ;;;
  mret (get_value "objectdata" response).

(** * Checklists *)

(** Each task in turn is removed and appended as the adapter makes it; the one the loop is
    at is the first that is left. *)
Fixpoint standardize_tasks (n : nat) (l : list xml) : outcome (list xml) :=
  match n with
  | O => Ret l
  | Datatypes.S n =>
      match take_first (has_tag "checklistTask") l with
      | None => Ret l
      | Some (t, l) =>
          match standardize_task xlib (SBytes (lxml_tostring xlib t)) with
          | Exn x => Exn x
          | Ret s =>
              match lxml_fromstring xlib (SBytes s) with
              | Exn x => Exn x
              | Ret t' => standardize_tasks n (l ++ [t'])
              end
          end
      end
  end.
Definition standardized (tasks : xml) : outcome xml :=
  match standardize_tasks (length (findall "checklistTask" tasks)) (x_kids tasks) with
  | Ret l => Ret (with_kids l tasks)
  | Exn x => Exn x
  end.

Fixpoint number_from (n : Z) (l : list xml) : list xml :=
  match l with
  | [] => []
  | t :: l =>
      if has_tag "checklistTask" t
      then append (element "number" (Some (pretty n))) t :: number_from (n + 1) l
      else t :: number_from n l
  end.
Definition numbered (tasks : xml) : outcome xml := Ret (with_kids (number_from 0 (x_kids tasks)) tasks).

(** The checklist's uid in a task that still has one. *)
Definition set_checklist_uid (checklistuid : option string) (t : xml) : outcome xml :=
  match find "checklistUid" t with
  | Some _ => at_child "checklistUid" (set_text xlib (maybe_text checklistuid)) t
  | None => Ret t
  end.

Definition create_checklist_task (checklistuid : option string) (taskdata : xml) : MX xml :=
  taskuid <- of_outcome (child_text "uid" taskdata) ;;
  taskuid <- match taskuid with None => new_uid | Some u => mret u end ;;
  taskdata <- of_outcome (set_checklist_uid checklistuid taskdata) ;;
  taskdata <- of_outcome (at_child "uid" (set_text xlib (SText taskuid)) taskdata) ;;
  set_value "synctype" (SText "ExCheckChecklistTask") ;;;
  set_value "objectdata" (SBytes (et_tostring xlib taskdata)) ;;;
  set_value "objectuid" (SText taskuid) ;;;
  set_value "objkeywords" (SList [SText "Task"]) ;;;
  now <- get_time ;;
  set_value "objstarttime" (SText now) ;;;
  set_value "tool" (SText "ExCheck") ;;;
  set_value "mime_type" (SText "application/xml") ;;;
  sync_sub_action SaveEnterpriseSyncData ;;;
  in_db (ExcheckStore.create_checklist_task checklist_sid (to_db (maybe_text checklistuid)) (DStr taskuid)) ;;;
  mret taskdata.

Fixpoint save_tasks (checklistuid : option string) (l : list xml) : MX (list xml) :=
  match l with
  | [] => mret []
  | t :: l =>
      if has_tag "checklistTask" t
      then t' <- create_checklist_task checklistuid t ;; l' <- save_tasks checklistuid l ;; mret (t' :: l')
      else l' <- save_tasks checklistuid l ;; mret (t :: l')
  end.
Definition save_tasks_in_checklist (checklist : xml) : MX xml :=
  uid <- of_outcome (detail_text "uid" checklist) ;;
  tasks <- of_outcome (child "checklistTasks" checklist) ;;
  l <- save_tasks uid (x_kids tasks) ;;
  of_outcome (at_child "checklistTasks" (fun tasks => Ret (with_kids l tasks)) checklist).

Definition set_detail (tag : string) (v : sval) : xml -> outcome xml :=
  at_child "checklistDetails" (at_child tag (set_text xlib v)).

(** A checklist of a template: with a uid, name, description and time of its own. *)
Definition from_template (templateuid checklistname checklist_description : sval) : MX (xml * string * string) :=
  start_time <- get_time ;;
  checklist_uuid <- new_uid ;;
  template <- get_template templateuid ;;
  parsed <- of_outcome (lxml_fromstring xlib template) ;;
  parsed <- of_outcome (set_detail "uid" (SText checklist_uuid) parsed) ;;
  parsed <- of_outcome (set_detail "name" checklistname parsed) ;;
  parsed <- of_outcome (set_detail "description" checklist_description parsed) ;;
  parsed <- of_outcome (set_detail "startTime" (SText start_time) parsed) ;;
  mret (parsed, checklist_uuid, start_time).

(** Where a content is given it is parsed, and then searched as the text or the bytes that it
    is. *)
Definition from_content (content : sval) : MX (xml * string * string) :=
  of_outcome (lxml_fromstring xlib content) ;;;
  match content with SText _ => raise AttributeError | _ => raise TypeError end.

Definition start_checklist (v : values) : MX unit :=
  templateuid <- of_outcome (arg "templateuid" v) ;;
  checklistname <- of_outcome (arg "checklistname" v) ;;
  checklist_description <- of_outcome (arg "checklist_description" v) ;;
  p <- match opt "checklist_content" (SBytes "") v with
       | SBytes "" => from_template templateuid checklistname checklist_description
       | content => from_content content
       end ;;
  let '(parsed, checklist_uuid, start_time) := p in
  parsed <- of_outcome (at_child "checklistTasks" standardized parsed) ;;
  parsed <- of_outcome (at_child "checklistTasks" numbered parsed) ;;
  ignoring (in_db (ExcheckStore.create_checklist checklist_sid (DStr checklist_uuid))) ;;;
  parsed <- save_tasks_in_checklist parsed ;;
  let document := SBytes (lxml_document xlib parsed) in
  set_values [("synctype", SText "ExCheckChecklist"); ("objectdata", document);
    ("objectuid", SText checklist_uuid); ("objkeywords", SList [SText "Template"]);
    ("objstarttime", SText start_time); ("tool", SText "ExCheck"); ("mime_type", SText "application/xml")] ;;;
  sync_sub_action SaveEnterpriseSyncData ;;;
  set_values [("mission_id", SText checklist_uuid); ("mission_data", SBytes "");
    ("mission_data_args", mission_values checklist_description start_time [SDict []]
       [("classification", SText "UNCLASSIFIED")]);
    ("creatorUid", SText "ExCheck")] ;;;
  mission_sub_action "PutMission" ;;;
  answer "checklist" document.

(** [checklist_tasks.remove(old_task)], the first task with that uid. *)
Fixpoint remove_task (uid : string) (l : list xml) : outcome (list xml) :=
  match l with
  | [] => Exn TypeError
  | t :: l =>
      let rest := match remove_task uid l with Ret l' => Ret (t :: l') | Exn x => Exn x end in
      if has_tag "checklistTask" t then
        match child_text "uid" t with
        | Exn x => Exn x
        | Ret u => if bool_decide (u = Some uid) then Ret l else rest
        end
      else rest
  end.
Definition replace_task (uid : string) (data : sval) : xml -> outcome xml :=
  at_child "checklistTasks" (fun tasks =>
    match remove_task uid (x_kids tasks) with
    | Exn x => Exn x
    | Ret l =>
        match et_fromstring xlib data with
        | Ret task => Ret (append task (with_kids l tasks))
        | Exn x => Exn x
        end
    end).

(** The uid of a task is a text, as the path of the request has it. *)
Definition update_checklist_task (v : values) : MX unit :=
  checklistuid <- of_outcome (arg "checklistuid" v) ;;
  taskuid <- of_outcome (arg "checklisttaskuid" v) ;;
  data <- of_outcome (arg "checklisttaskdata" v) ;;
  data <- of_outcome (standardize_task xlib data) ;;
  set_value "synctype" (SText "ExCheckChecklistTask") ;;;
  set_value "objectdata" (SBytes data) ;;;
  set_value "objectuid" taskuid ;;;
  set_value "objecthash" (SText (sha256 slib data)) ;;;
  sync_sub_action UpdateEnterpriseSyncData ;;;
  set_value "objectuid" checklistuid ;;;
  response <- sync_sub_action GetEnterpriseSyncData ;;
  checklist <- of_outcome (et_fromstring xlib (get_value "objectdata" response)) ;;
  uid <- match taskuid with SText u => mret u | _ => raise TypeError end ;;
  checklist <- of_outcome (replace_task uid (SBytes data) checklist) ;;
  set_value "synctype" (SText "ExCheckChecklist") ;;;
  set_value "objectdata" (SBytes (et_tostring xlib checklist)) ;;;
  set_value "objectuid" checklistuid ;;;
  sync_sub_action UpdateEnterpriseSyncData ;;; mret tt.

Definition get_checklist (v : values) : MX unit :=
  checklistuid <- of_outcome (arg "checklistuid" v) ;;
  set_value "objectuid" checklistuid ;;;
  response <- sync_sub_action GetEnterpriseSyncData ;;
  checklist <- of_outcome (et_fromstring xlib (get_value "objectdata" response)) ;;
  answer "checklist_data" (SBytes (et_tostring xlib checklist)).

Definition get_checklist_task (v : values) : MX unit :=
  of_outcome (arg "checklistuid" v) ;;;
  taskuid <- of_outcome (arg "checklisttaskuid" v) ;;
  set_value "objectuid" taskuid ;;;
  response <- sync_sub_action GetEnterpriseSyncData ;;
  answer "checklist_task_data" (get_value "objectdata" response).

(** A checklist of the list, without columns and tasks; one that has none or can not be
    parsed is logged and left out. *)
Definition bare_checklist (content : sval) : outcome xml :=
  match lxml_fromstring xlib content with
  | Exn x => Exn x
  | Ret e =>
      match remove_child "checklistTasks" e with
      | Exn x => Exn x
      | Ret e =>
          match remove_child "checklistColumns" e with
          | Exn x => Exn x
          | Ret e => Ret (append (element "checklistTasks" None) (append (element "checklistColumns" None) e))
          end
      end
  end.
Definition bare_checklists (contents : list sval) : list xml :=
  omap (fun c => match bare_checklist c with Ret e => Some e | Exn _ => None end) contents.
Definition get_all_checklists : MX unit :=
  checklists <- in_db (ExcheckStore.get_all_checklists checklist_sid) ;;
  set_value "objectuids" (SList (of_db <$> (cell "PrimaryKey" <$> checklists))) ;;;
  set_value "use_bytes" (SBool true) ;;;
  response <- sync_sub_action GetMultipleEnterpriseSyncData ;;
  contents <- of_outcome (items (get_value "objectdata" response)) ;;
  let l := bare_checklists (take (length checklists) contents) in
  answer "checklists" (SBytes (replace (lxml_standalone xlib (with_kids l (element "checklists" None))) lf "")).

Definition add_checklist_to_mission (v : values) : MX unit :=
  checklist_id <- of_outcome (arg "checklist_id" v) ;;
  mission_id <- of_outcome (arg "mission_id" v) ;;
  client_uid <- of_outcome (arg "client_uid" v) ;;
  set_value "objectuid" checklist_id ;;;
  set_value "use_bytes" (SBool true) ;;;
  response <- sync_sub_action GetEnterpriseSyncData ;;
  parsed <- of_outcome (lxml_fromstring xlib (get_value "objectdata" response)) ;;
  checklist_name <- of_outcome (detail_text "name" parsed) ;;
  o <- in_db (ExcheckStore.get_checklist checklist_sid (to_db checklist_id)) ;;
  set_value "mission_id" mission_id ;;;
  checklist <- of_option AttributeError o ;;
  notes <- match client_uid, checklist_name with
           | SText c, Some n => mret (c ++ " added " ++ n)%string | _, _ => raise TypeError end ;;
  key <- match cell "PrimaryKey" checklist with DStr k => mret k | _ => raise TypeError end ;;
  let url := ("https://" ++ ex_address lib ++ ":" ++ pretty (ex_port lib) ++ "/Marti/api/excheck/checklist/" ++ key)%string in
  set_value "mission_external_data" (SDict
    [("name", maybe_text checklist_name); ("uid", SText key); ("tool", SText "ExCheck"); ("notes", SText notes);
     ("urlData", SText url); ("urlView", SText (url ++ "/status")%string); ("creatorUid", client_uid)]) ;;;
  mission_sub_action "CreateExternalMissionData" ;;;
  in_db (ExcheckStore.add_mission_checklist_mapping checklist_sid (to_db checklist_id) (to_db mission_id)).

(** * The facade *)

Inductive excheck_action :=
  | CreateTemplate | GetTemplate | StartChecklist | UpdateChecklistTask | GetChecklist
  | GetChecklistTask | GetChecklists | AddChecklistToMission.

Definition excheck_perform (a : excheck_action) (v : values) : MX unit :=
  match a with
  | CreateTemplate => create_template v
  | GetTemplate => u <- of_outcome (arg "templateuid" v) ;; get_template u ;;; mret tt
  | StartChecklist => start_checklist v
  | UpdateChecklistTask => update_checklist_task v
  | GetChecklist => get_checklist v
  | GetChecklistTask => get_checklist_task v
  | GetChecklists => get_all_checklists
  | AddChecklistToMission => add_checklist_to_mission v
  end.

(** [Excheck.execute]: what is raised is logged. *)
Definition excheck_execute (a : excheck_action) : MX unit :=
  v <- gets ec_request ;; try_except (excheck_perform a v) (fun _ => mret tt).

(** A request with its values: those of the response. *)
Definition excheck_request (a : excheck_action) (v : values) : MX values :=
  modify (fun w => mkExcheckState (ec_sync w) (ec_db w) v [] (ec_asked w)) ;;;
  excheck_execute a ;;; gets ec_response.

(** [Excheck.register]: the mission of the templates is put. *)
Definition register_excheck : MX unit :=
  modify (fun w => mkExcheckState (ec_sync w) (ec_db w) [] [] (ec_asked w)) ;;; create_template_mission.
End Excheck.
