(* ===== verification/ExcheckProps.v ===== *)
(** What the enterprise sync does for the checklists: data that is asked for by its uid, and
    data that is replaced.  Properties of templates, and of tasks that are updated. *)
From Stdlib Require Import ZArith Lia Ascii String.
From stdpp Require Import base strings list sets pretty.
From S2P Require Import Prelude.
From S2P Require Import MainConfig.
From S2P Require Import RestGeo.
From S2P Require Import MissionDb.
From S2P Require Import MissionStore.
From S2P Require Import MissionList.
From S2P Require Import MissionFacts.
From S2P Require Import MissionSample.
From S2P Require Import SyncFiles.
From S2P Require Import SyncStore.
From S2P Require Import SyncHttp.
From S2P Require Import SyncPaths.
From S2P Require Import SyncFacts.
From S2P Require Import SyncSample.
From S2P Require Import SyncReads.
From S2P Require Import SyncUpdates.
From S2P Require Import SyncUploads.
From S2P Require Import ExcheckStore.
From S2P Require Import ExcheckXml.
From S2P Require Import ExcheckControllers.

Set Default Proof Using "Type*".
Local Open Scope string_scope.
Local Open Scope list_scope.
Local Open Scope py_scope.

(** * Disks *)

Section Disks.
Context (lib : sync_library).

Lemma app_two_ne {A} (R : list A) a b c : R ++ [a] <> R ++ [b; c].
Proof. intros E. apply (f_equal length) in E. rewrite !length_app in E. simpl in E. lia. Qed.

Lemma file_place_eq R t u t' u' : file_place R t u = file_place R t' u' -> t = t' /\ u = u'.
Proof.
  unfold file_place, file_name_of. intros [= Ht Hu]%(app_inv_head R). split; [done|].
  apply (f_equal chars) in Hu. rewrite !chars_string_app in Hu. apply app_inv_tail in Hu.
  by rewrite <- (text_chars u), Hu, text_chars.
Qed.

Lemma opened_same_dirs d R t q : is_dir d q = true -> is_dir (opened d R t) q = true.
Proof. intros Hq. unfold opened. destruct (is_dir d (R ++ [t])); [done|by apply is_dir_more]. Qed.

Lemma not_dir_opened d R t q : is_dir d q = false -> q <> R ++ [t] -> is_dir (opened d R t) q = false.
Proof.
  intros Hq Hne. unfold opened. destruct (is_dir d (R ++ [t])); [done|]. unfold is_dir in *. simpl.
  apply orb_false_iff in Hq as [H1 H2]. rewrite H1. simpl. apply bool_decide_eq_false_2.
  apply bool_decide_eq_false_1 in H2. by rewrite not_elem_of_cons.
Qed.

(** What is saved beside a file is not in its way. *)
Lemma room_stays d R t u t' u' b : room lib d R t u -> room lib d R t' u' -> room lib (with_package d R t' u' b) R t u.
Proof.
  intros ((Hl & Ht & Hd) & Hu & Hne & Hf & Hden) ((Hl' & Ht' & Hd') & _).
  assert (Hdirs : forall q, is_dir (with_package d R t' u' b) q = is_dir (opened d R t') q) by done.
  split; [|split; [done|split; [done|split; [|done]]]].
  - split; [|split; [done|]].
    + destruct (opened_dirs lib d R t') as (Hl2 & _); [done|]. by apply leads_to_file.
    + rewrite Hdirs. destruct Hd as [Hd|[Hf1 Hden1]]; [left; by apply opened_same_dirs|].
      destruct (is_dir (opened d R t') (R ++ [t])) eqn:E; [by left|right]. split; [|done].
      unfold is_file, with_package, with_file. cbn [d_files].
      rewrite dget_dset_ne by apply app_two_ne.
      unfold is_file in Hf1. unfold opened. by destruct (is_dir d (R ++ [t'])).
  - apply not_dir_opened; [|intros E; symmetry in E; by apply app_two_ne in E].
    rewrite Hdirs. apply not_dir_opened; [|intros E; symmetry in E; by apply app_two_ne in E].
    destruct (is_dir d (file_place R t u)) eqn:E; [|done]. by rewrite (opened_same_dirs d R t) in Hf.
Qed.

Lemma held_stays d R r cb t' u' b : held lib d R r cb -> room lib d R t' u' ->
  cell "PrimaryKey" r <> DStr u' -> held lib (with_package d R t' u' b) R r cb.
Proof.
  intros (t & u & Ht & Hu & Hl & Hdt & Hd & Hpu & Hne & Hb & Hf & Hden) (Ho & _) Hk.
  exists t, u. assert (Hplace : file_place R t u <> file_place R t' u')
    by (intros [_ ->]%file_place_eq; congruence).
  split_and!; try done.
  - destruct (opened_dirs lib d R t' Ho) as (Hl2 & _). by apply leads_to_file.
  - by apply opened_same_dirs.
  - unfold with_package, with_file. cbn [d_files]. rewrite dget_dset_ne by done.
    by destruct (opened_dirs lib d R t' Ho) as (_ & _ & ->).
  - change (is_dir (opened d R t') (file_place R t u) = false).
    apply not_dir_opened; [done|intros E; symmetry in E; by apply app_two_ne in E].
Qed.
End Disks.

(** * Requests to the enterprise sync *)

Section Requests.
Context {S : Type} `{OrmLaws S, !OrmReliable S} (lib : sync_library).
Implicit Types (w : sync_state S) (s : S).

(** The only object with that uid. *)
Definition only (s : S) (u : string) (r : row) : Prop :=
  r ∈ rows s TSyncObject /\ cell "PrimaryKey" r = DStr u /\
  forall r', r' ∈ rows s TSyncObject -> cell "PrimaryKey" r' = DStr u -> r' = r.

Lemma object_by_uid s u (h : sval) r : calm s -> only s u r ->
  exists ks s', get_enterprise_sync_data_object (SText u) h SNone SNone s = (Ret (SObject r ks), s') /\ unchanged s s'.
Proof.
  intros Hc (Hr & Hu & Hone). destruct (new_session_calm s Hc) as (s1 & E1 & Hu1).
  pose proof (calm_unchanged _ _ Hu1 Hc) as Hc1.
  destruct (first_one s1 "PrimaryKey" u r) as (s2 & E2 & Hu2); rewrite ?(unchanged_rows _ _ Hu1); [done..|].
  destruct (load_calm s2 r) as (v & s3 & E3 & Hu3 & (ks & -> & _));
    [by eapply calm_unchanged|by apply (sane_rows s _ _ (proj1 Hc) Hr)|].
  exists ks, s3. split; [|etransitivity; [done|]; by etransitivity].
  unfold get_enterprise_sync_data_object. rewrite (run_bind _ _ _ _ _ E1). apply try_except_ret.
  cbn [or_first]. rewrite (run_bind _ _ _ _ _ E2).
  rewrite (run_bind (or_first "hash" h (Some r)) _ s2 (Some r) s2) by by destruct h.
  rewrite (run_bind _ _ s2 (Some r) s2) by done. rewrite (run_bind _ _ s2 (Some r) s2) by done.
  by rewrite andb_false_r.
Qed.

(** The data of the object with a uid, whatever else is in the request. *)
Lemma data_by_uid w R u r b (v : values) : calm (sy_db w) -> only (sy_db w) u r ->
  opt "objectuid" SNone v = SText u -> truth (opt "convert_newlines" (SBool false) v) = false ->
  held lib (sy_disk w) R r b ->
  exists w', make_request lib GetEnterpriseSyncData v w =
    (Ret (match contents (truth (opt "use_bytes" (SBool false) v)) b with
          | Ret d => [("objectdata", d)] | Exn _ => [] end), w') /\ same_store w w'.
Proof.
  intros Hc Ho Hv Hconv Hh.
  destruct (object_by_uid (sy_db w) u (opt "objecthash" SNone v) r Hc Ho) as (ks & s' & E & Hu).
  pose proof (object_read lib (with_sync s' (clear w)) R r b ks v Hh Hconv) as Hrd.
  unfold make_request. rewrite (run_bind _ _ w tt (clear w)) by done.
  unfold sync_execute, try_except, try_with. cbn [sync_perform]. unfold get_enterprise_sync_data.
  rewrite Hv. unfold contents in *.
  destruct (truth (opt "use_bytes" (SBool false) v)); [|destruct (valid_utf8 _)].
  all: eexists; cbv [mbind M_bind] in *; rewrite (on_db_run _ (clear w) _ _ E); cbn [fst snd]; rewrite Hrd;
    (split; [done|by split]).
Qed.

(** Line ends of Windows become those of Unix. *)
Definition unix (b : string) : string := replace b (cr ++ lf)%string lf.

(** What replacing the data of an object makes of its record. *)
Definition renewed (t h : string) : list (string * dbval) :=
  [("file_type", DStr t); ("hash", DStr h); ("private", DInt 0)].

Lemma data_updated w R t u r b h (v : values) : calm (sy_db w) -> only (sy_db w) u r -> cell "file_type" r = DStr t ->
  arg "objectuid" v = Ret (SText u) -> arg "objecthash" v = Ret (SText h) -> arg "objectdata" v = Ret (SBytes b) ->
  room lib (sy_disk w) R t u ->
  exists w', make_request lib UpdateEnterpriseSyncData v w = (Ret [], w') /\ calm (sy_db w') /\
    rows (sy_db w') TSyncObject ≡ₚ put_rows (renewed t h) r (rows (sy_db w) TSyncObject) /\
    (forall t', t' <> TSyncObject -> rows (sy_db w') t' ≡ₚ rows (sy_db w) t') /\
    sy_disk w' = with_package (sy_disk w) R t u (unix b).
Proof.
  intros Hc Ho Ht Hv1 Hv2 Hv3 Hroom.
  destruct (object_by_uid (sy_db w) u SNone r Hc Ho) as (ks & s1 & E1 & Hu1).
  pose proof (calm_unchanged _ _ Hu1 Hc) as Hc1. pose proof (unchanged_rows _ _ Hu1) as Hr1.
  destruct Ho as (Hr & Hu & Hone).
  destruct (object_changed s1 u [("filetype", SText t); ("objectuid", SText u); ("objecthash", SText h)] r)
    as (s2 & E2 & Hc2 & HT1 & HT2); rewrite ?Hr1; [done|done|done| |done|done|done|].
  { constructor; [|constructor; [|constructor; [|constructor]]]; (split; [done|]).
    - eexists (text_column "file_type"). split; [set_solver|done].
    - eexists (text_column "hash"). split; [set_solver|done].
    - eexists (int_default "private" (DInt 0)). split; [set_solver|done]. }
  rewrite Hr1 in HT1, HT2.
  exists (mkSyncState s2 (with_package (sy_disk w) R t u (unix b)) []). split; [|split_and!; done].
  unfold make_request. rewrite (run_bind _ _ w tt (clear w)) by done.
  rewrite (run_bind _ _ (clear w) tt (mkSyncState s2 (with_package (sy_disk w) R t u (unix b)) [])); [done|].
  unfold sync_execute. apply try_except_ret. cbn [sync_perform]. unfold update_enterprise_sync_data.
  rewrite Hv1, Hv2, Hv3. do 3 rewrite (run_bind (of_outcome (Ret _)) _ _ _ _ eq_refl).
  rewrite (run_bind _ _ _ _ _ (on_db_run _ (clear w) _ _ E1)). cbn [convert_newlines file_of].
  rewrite Ht. do 2 rewrite (run_bind (of_outcome (Ret _)) _ _ _ _ eq_refl). cbn [fst snd of_db].
  rewrite (run_bind _ _ _ _ _ (on_disk_run _ (with_sync s1 (clear w)) _ _ (room_saved lib _ _ _ _ (unix b) Hroom))).
  by rewrite (on_db_run _ (with_disk _ (with_sync s1 (clear w))) _ _ E2).
Qed.

(** The other objects are as they were, and there is still one with the uid. *)
Lemma only_renewed s s' t h u r u' r' : calm s -> calm s' -> only s u r -> only s u' r' ->
  rows s' TSyncObject ≡ₚ put_rows (renewed t h) r (rows s TSyncObject) ->
  only s' u' (if same_row r r' then put_cells (renewed t h) r' else r').
Proof.
  intros Hc Hc' (Hr & Hu & _) (Hr' & Hu' & Hone) HT.
  assert (Hkey : forall x, cell "PrimaryKey" (if same_row r x then put_cells (renewed t h) x else x) = cell "PrimaryKey" x)
    by (intros x; destruct (same_row r x); [by apply cell_put_other; set_solver|done]).
  split_and!.
  - rewrite HT. unfold put_rows. apply list_elem_of_fmap. by exists r'.
  - by rewrite Hkey.
  - intros x Hx Hxu. rewrite HT in Hx. apply list_elem_of_fmap in Hx as (x0 & -> & Hx0).
    rewrite Hkey in Hxu. by rewrite (Hone x0).
Qed.
End Requests.

Set Default Proof Using "Type*".
Local Open Scope string_scope.
Local Open Scope list_scope.
Local Open Scope py_scope.

(** Bytes that are text, in lines of Unix. *)
Definition unix_text (b : string) : Prop :=
  valid_utf8 (chars b) = true /\ unix b = b /\ universal_newlines b = b.

(** * Documents with numbers *)

(** A task that has a number is as it was, and one that has none gets the number 0. *)
Definition task_numbered (t t' : xml) : Prop :=
  ((exists c, c ∈ x_kids t /\ x_tag c = "number") /\ t' = t) \/
  ((forall c, c ∈ x_kids t -> x_tag c <> "number") /\
   t' = Elem (x_tag t) (x_attrs t) (x_text t) (x_kids t ++ [Elem "number" [] (Some "0") [] None]) (x_tail t)).

(** The document [e'] is [e] with a number in each task of its (first) list of tasks. *)
Definition with_numbers (e e' : xml) : Prop := exists before tasks after ts,
  x_kids e = before ++ tasks :: after /\ x_tag tasks = "checklistTasks" /\
  (forall c, c ∈ before -> x_tag c <> "checklistTasks") /\
  Forall2 (fun t t' => (x_tag t = "checklistTask" /\ task_numbered t t') \/ (x_tag t <> "checklistTask" /\ t' = t))
    (x_kids tasks) ts /\
  e' = Elem (x_tag e) (x_attrs e) (x_text e)
    (before ++ Elem (x_tag tasks) (x_attrs tasks) (x_text tasks) ts (x_tail tasks) :: after) (x_tail e).

Lemma find_tag tag (l : list xml) : match List.find (has_tag tag) l with
  | Some c => c ∈ l /\ x_tag c = tag | None => forall c, c ∈ l -> x_tag c <> tag end.
Proof.
  destruct (List.find _ l) as [c|] eqn:E.
  - apply find_some in E as [Hin Ht]. split; [by apply list_elem_of_In|]. by apply bool_decide_eq_true in Ht.
  - intros c Hc%list_elem_of_In Ht. pose proof (find_none _ _ E c Hc) as Hn.
    by apply bool_decide_eq_false in Hn.
Qed.

Lemma number_task_numbered t t' : task_numbered t t' -> number_task t = t'.
Proof.
  unfold number_task, ExcheckXml.find. pose proof (find_tag "number" (x_kids t)) as Hf.
  destruct (List.find _ _) as [c|]; intros [[(c' & Hc' & Ht') ->]|[Hn ->]]; try done.
  - exfalso. by apply (Hn c); destruct Hf.
  - by apply Hf in Hc'.
Qed.

Lemma change_first_at tag f (before : list xml) x x' after :
  (forall c, c ∈ before -> x_tag c <> tag) -> x_tag x = tag -> f x = Ret x' ->
  change_first tag f (before ++ x :: after) = Ret (before ++ x' :: after).
Proof.
  intros Hb Hx Hf. induction before as [|c before IH]; cbn [app change_first]; unfold has_tag.
  - by rewrite bool_decide_eq_true_2, Hf.
  - rewrite bool_decide_eq_false_2 by (apply Hb; left). rewrite IH; [done|]. intros c' Hc'. apply Hb. by right.
Qed.

Lemma with_numbers_tasks e e' : with_numbers e e' -> at_child "checklistTasks" number_tasks e = Ret e'.
Proof.
  intros (before & tasks & after & ts & Hk & Ht & Hb & Hts & ->). unfold at_child.
  rewrite Hk, (change_first_at _ _ _ _ (with_kids ts tasks)); [done..|].
  unfold number_tasks. do 2 f_equal. induction Hts as [|t t' l l' Htt _ IH]; [done|].
  rewrite fmap_cons, IH. f_equal. unfold has_tag. destruct Htt as [[Ht1 Hn]|[Ht1 ->]].
  - rewrite bool_decide_eq_true_2 by done. by apply number_task_numbered.
  - by rewrite bool_decide_eq_false_2.
Qed.

Lemma find_beside {A} (p : A -> bool) l1 x y l2 : p x = false -> p y = false ->
  List.find p (l1 ++ x :: l2) = List.find p (l1 ++ y :: l2).
Proof.
  intros Hx Hy. induction l1 as [|a l1 IH]; simpl; [by rewrite Hx, Hy|]. by destruct (p a).
Qed.

(** The details are those of the document before. *)
Lemma with_numbers_details e e' k : with_numbers e e' -> detail_text k e' = detail_text k e.
Proof.
  intros (before & tasks & after & ts & Hk & Ht & _ & _ & ->). unfold detail_text, child, ExcheckXml.find.
  rewrite Hk. cbn [x_kids]. rewrite (find_beside _ before tasks (Elem (x_tag tasks) (x_attrs tasks) (x_text tasks) ts (x_tail tasks)));
    [done|..]; unfold has_tag; cbn [x_tag]; by rewrite Ht.
Qed.

Section Props.
Context {S E : Type} `{OrmLaws S, !OrmReliable S} `{OrmLaws E, !OrmReliable E}.
Context (slib : sync_library) (lib : excheck_library).
Implicit Types (w : excheck_state S E).

Abbreviation xlib := (ex_xml lib).
Abbreviation syncdb w := (sy_db (ec_sync w)).
Abbreviation syncdisk w := (sy_disk (ec_sync w)).

(** Both databases are calm. *)
Definition calm_both w : Prop := calm (syncdb w) /\ calm (ec_db w).

Definition at_sync (s : sync_state S) w : excheck_state S E :=
  mkExcheckState s (ec_db w) (ec_request w) (ec_response w) (ec_asked w).
Definition at_request (v : values) w : excheck_state S E :=
  mkExcheckState (ec_sync w) (ec_db w) v (ec_response w) (ec_asked w).
Definition received (v : values) w : excheck_state S E :=
  mkExcheckState (ec_sync w) (ec_db w) v [] (ec_asked w).

Lemma sub_action_run a w o s : make_request slib a (ec_request w) (ec_sync w) = (Ret o, s) ->
  sync_sub_action slib a w = (Ret o, at_sync s w).
Proof.
  intros Er. unfold sync_sub_action. rewrite (run_bind _ _ w (ec_request w) w) by done.
  unfold in_sync. by rewrite Er.
Qed.

Lemma set_value_run k x w : set_value k x w = (Ret tt, at_request (dset k x (ec_request w)) w).
Proof. done. Qed.

(** What a request does whose handler returns. *)
Lemma request_run a (v : values) w w' : excheck_perform slib lib a v (received v w) = (Ret tt, w') ->
  excheck_request slib lib a v w = (Ret (ec_response w'), w').
Proof.
  intros Er. unfold excheck_request. rewrite (run_bind _ _ w tt (received v w)) by done.
  rewrite (run_bind _ _ (received v w) tt w'); [done|].
  unfold excheck_execute. rewrite (run_bind _ _ (received v w) v (received v w)) by done.
  by apply try_except_ret.
Qed.
Lemma request_fails a (v : values) w e w' : excheck_perform slib lib a v (received v w) = (Exn e, w') ->
  is_Exception e = true -> excheck_request slib lib a v w = (Ret (ec_response w'), w').
Proof.
  intros Er He. unfold excheck_request. rewrite (run_bind _ _ w tt (received v w)) by done.
  rewrite (run_bind _ _ (received v w) tt w'); [done|].
  unfold excheck_execute. rewrite (run_bind _ _ (received v w) v (received v w)) by done.
  unfold try_except, try_with. by rewrite Er, He.
Qed.

(** * Checklists that are read *)

Lemma checklist_read w R cu r b e : calm_both w -> only (syncdb w) cu r -> held slib (syncdisk w) R r b ->
  valid_utf8 (chars b) = true -> et_fromstring xlib (SText (universal_newlines b)) = Ret e ->
  exists w', excheck_request slib lib GetChecklist [("checklistuid", SText cu)] w =
      (Ret [("checklist_data", SBytes (et_tostring xlib e))], w') /\
    same_store (ec_sync w) (ec_sync w') /\ ec_db w' = ec_db w.
Proof.
  intros [Hc _] Ho Hh Hb Hp. set (v := [("checklistuid", SText cu)]).
  destruct (data_by_uid slib (ec_sync w) R cu r b (dset "objectuid" (SText cu) v) Hc Ho) as (s' & Er & Hs); [done..|].
  set (w1 := at_request (dset "objectuid" (SText cu) v) (received v w)).
  exists (mkExcheckState s' (ec_db w) (ec_request w1) [("checklist_data", SBytes (et_tostring xlib e))] (ec_asked w)).
  split; [|by split].
  rewrite (request_run _ _ w (mkExcheckState s' (ec_db w) (ec_request w1) [("checklist_data", SBytes (et_tostring xlib e))] (ec_asked w))); [done|].
  cbn [excheck_perform]. unfold get_checklist. rewrite (run_bind _ _ _ (SText cu) (received v w)) by done.
  rewrite (run_bind _ _ _ tt w1) by done.
  change (truth _) with false in Er. unfold contents in Er. rewrite Hb in Er.
  rewrite (run_bind _ _ _ _ _ (sub_action_run _ w1 _ _ Er)).
  change (get_value "objectdata" _) with (SText (universal_newlines b)). rewrite Hp.
  by rewrite (run_bind (of_outcome (Ret _)) _ _ _ _ eq_refl).
Qed.

Lemma task_read w R cu tu r b : calm_both w -> only (syncdb w) tu r -> held slib (syncdisk w) R r b ->
  valid_utf8 (chars b) = true ->
  exists w', excheck_request slib lib GetChecklistTask [("checklistuid", SText cu); ("checklisttaskuid", SText tu)] w =
      (Ret [("checklist_task_data", SText (universal_newlines b))], w') /\
    same_store (ec_sync w) (ec_sync w') /\ ec_db w' = ec_db w.
Proof.
  intros [Hc _] Ho Hh Hb. set (v := [("checklistuid", SText cu); ("checklisttaskuid", SText tu)]).
  set (v1 := dset "objectuid" (SText tu) v). set (out := [("checklist_task_data", SText (universal_newlines b))]).
  destruct (data_by_uid slib (ec_sync w) R tu r b v1 Hc Ho) as (s' & Er & Hs); [done..|].
  exists (mkExcheckState s' (ec_db w) v1 out (ec_asked w)). split; [|by split].
  rewrite (request_run _ _ w (mkExcheckState s' (ec_db w) v1 out (ec_asked w))); [done|].
  cbn [excheck_perform]. unfold get_checklist_task. rewrite (run_bind _ _ _ (SText cu) (received v w)) by done.
  rewrite (run_bind _ _ _ (SText tu) (received v w)) by done. rewrite (run_bind _ _ _ _ _ (set_value_run _ _ _)).
  change (truth _) with false in Er. unfold contents in Er. rewrite Hb in Er.
  by rewrite (run_bind _ _ _ _ _ (sub_action_run _ (at_request v1 (received v w)) _ _ Er)).
Qed.

(** * Tasks that are updated *)

Definition update_request (cu tu data : string) : values :=
  [("checklistuid", SText cu); ("checklisttaskuid", SText tu); ("checklisttaskdata", SBytes data)].

Lemma not_same_object (s : S) u r u' r' : calm s -> only s u r -> only s u' r' -> u <> u' -> same_row r r' = false.
Proof.
  intros Hc (Hr & Hu & _) (Hr' & Hu' & _) Hne. apply bool_decide_eq_false_2. intros [_ Hk].
  assert (r = r') as -> by (apply (same_key s TSyncObject); [apply Hc|done..]). congruence.
Qed.

(** What an update of a task makes of the two records: both get the digest of the task. *)
Lemma both_renewed (s s1 s2 : S) tt tc h tu rt cu rc : calm s -> calm s1 -> calm s2 -> only s tu rt -> only s cu rc -> tu <> cu ->
  rows s1 TSyncObject ≡ₚ put_rows (renewed tt h) rt (rows s TSyncObject) ->
  rows s2 TSyncObject ≡ₚ put_rows (renewed tc h) rc (rows s1 TSyncObject) ->
  only s1 cu rc /\ only s2 tu (put_cells (renewed tt h) rt) /\ only s2 cu (put_cells (renewed tc h) rc).
Proof.
  intros Hc Hc1 Hc2 Ht Hcl Hne HT1 HT2.
  pose proof (only_renewed s s1 tt h tu rt cu rc Hc Hc1 Ht Hcl HT1) as O1.
  rewrite (not_same_object s tu rt cu rc) in O1 by done.
  pose proof (only_renewed s s1 tt h tu rt tu rt Hc Hc1 Ht Ht HT1) as O2.
  unfold same_row in O2. rewrite bool_decide_eq_true_2 in O2 by done.
  pose proof (only_renewed s1 s2 tc h cu rc tu _ Hc1 Hc2 O1 O2 HT2) as O3.
  rewrite (not_same_object s1 cu rc tu) in O3 by done.
  pose proof (only_renewed s1 s2 tc h cu rc cu rc Hc1 Hc2 O1 O1 HT2) as O4.
  unfold same_row in O4. rewrite bool_decide_eq_true_2 in O4 by done. done.
Qed.

Lemma cells_renewed t h r : r_table r = TSyncObject ->
  cell "file_type" (put_cells (renewed t h) r) = DStr t /\ cell "hash" (put_cells (renewed t h) r) = DStr h /\
  cell "private" (put_cells (renewed t h) r) = DInt 0.
Proof.
  intros Hr. cbn [renewed put_cells]. rewrite !cell_put_cell. cbn [r_table put_cell set_cells]. by rewrite Hr.
Qed.

Lemma held_renewed d R r b t h : held slib d R r b -> cell "file_type" r = DStr t -> r_table r = TSyncObject ->
  held slib d R (put_cells (renewed t h) r) b.
Proof.
  intros (t' & u & Ht & Hu & Hrest) Ht' Hr. exists t', u. split; [|split; [|done]].
  - destruct (cells_renewed t h r Hr) as [-> _]. congruence.
  - rewrite cell_put_other; [done|by apply (bool_decide_unpack _)].
Qed.

(** The handler, once it is known what its three requests to the enterprise sync answer. *)
Definition task_values (cu tu data b : string) : values :=
  dset "objecthash" (SText (sha256 slib b)) (dset "objectuid" (SText tu) (dset "objectdata" (SBytes b)
    (dset "synctype" (SText "ExCheckChecklistTask") (update_request cu tu data)))).
Definition whole_values (cu tu data b : string) : values := dset "objectuid" (SText cu) (task_values cu tu data b).
Definition checklist_values (cu tu data b doc : string) : values :=
  dset "objectuid" (SText cu) (dset "objectdata" (SBytes doc)
    (dset "synctype" (SText "ExCheckChecklist") (whole_values cu tu data b))).

Lemma update_performed w tu cu data b cb ce ce' s1 s2 s3 :
  standardize_task xlib (SBytes data) = Ret b ->
  make_request slib UpdateEnterpriseSyncData (task_values cu tu data b) (ec_sync w) = (Ret [], s1) ->
  make_request slib GetEnterpriseSyncData (whole_values cu tu data b) s1 =
    (Ret [("objectdata", SText (universal_newlines cb))], s2) ->
  et_fromstring xlib (SText (universal_newlines cb)) = Ret ce -> replace_task lib tu (SBytes b) ce = Ret ce' ->
  make_request slib UpdateEnterpriseSyncData (checklist_values cu tu data b (et_tostring xlib ce')) s2 = (Ret [], s3) ->
  excheck_request slib lib UpdateChecklistTask (update_request cu tu data) w =
    (Ret [], mkExcheckState s3 (ec_db w) (checklist_values cu tu data b (et_tostring xlib ce')) [] (ec_asked w)).
Proof.
  intros Hstd E1 E2 Hce Hrep E3. set (v0 := update_request cu tu data).
  set (v1 := task_values cu tu data b) in *. set (v2 := whole_values cu tu data b) in *.
  set (v3 := checklist_values cu tu data b (et_tostring xlib ce')) in *.
  set (w' := mkExcheckState s3 (ec_db w) v3 [] (ec_asked w)).
  rewrite (request_run _ _ w w'); [done|]. cbn [excheck_perform]. unfold update_checklist_task.
  rewrite (run_bind _ _ _ (SText cu) (received v0 w)) by done. rewrite (run_bind _ _ _ (SText tu) (received v0 w)) by done.
  rewrite (run_bind _ _ _ (SBytes data) (received v0 w)) by done. rewrite Hstd.
  rewrite (run_bind _ _ _ b (received v0 w)) by done.
  do 4 (rewrite (run_bind _ _ _ _ _ (set_value_run _ _ _))).
  rewrite (run_bind _ _ _ _ _ (sub_action_run _ (at_request v1 (received v0 w)) _ _ E1)).
  rewrite (run_bind _ _ _ _ _ (set_value_run _ _ _)).
  rewrite (run_bind _ _ _ _ _ (sub_action_run _ (at_request v2 (at_sync s1 (at_request v1 (received v0 w)))) _ _ E2)).
  change (get_value "objectdata" _) with (SText (universal_newlines cb)). rewrite Hce.
  rewrite (run_bind (of_outcome (Ret ce)) _ _ _ _ eq_refl). rewrite (run_bind (mret tu) _ _ _ _ eq_refl).
  rewrite Hrep. rewrite (run_bind (of_outcome (Ret ce')) _ _ _ _ eq_refl).
  do 3 (rewrite (run_bind _ _ _ _ _ (set_value_run _ _ _))).
  by rewrite (run_bind _ _ _ _ _ (sub_action_run _ (at_request v3 (at_sync s2 (at_request v2 (at_sync s1 (at_request v1 (received v0 w)))))) _ _ E3)).
Qed.

(** A task that is updated is stored as the adapter makes it, and the checklist with it
    in the place of the old one, at the end of its tasks; both can be asked for.  But the
    record of the checklist gets the digest of the task for its own, and both records become
    public. *)
Theorem updated_task_is_stored w R tu cu rt rc tt tc data b cb ce ce' : calm_both w ->
  only (syncdb w) tu rt -> only (syncdb w) cu rc -> tu <> cu ->
  cell "file_type" rt = DStr tt -> cell "file_type" rc = DStr tc ->
  room slib (syncdisk w) R tt tu -> room slib (syncdisk w) R tc cu -> held slib (syncdisk w) R rc cb ->
  standardize_task xlib (SBytes data) = Ret b -> unix_text b ->
  valid_utf8 (chars cb) = true -> et_fromstring xlib (SText (universal_newlines cb)) = Ret ce ->
  replace_task lib tu (SBytes b) ce = Ret ce' -> unix_text (et_tostring xlib ce') ->
  et_fromstring xlib (SText (et_tostring xlib ce')) = Ret ce' ->
  exists rt' rc' w', excheck_request slib lib UpdateChecklistTask (update_request cu tu data) w = (Ret [], w') /\
    calm_both w' /\ ec_asked w' = ec_asked w /\
    only (syncdb w') tu rt' /\ held slib (syncdisk w') R rt' b /\ cell "hash" rt' = DStr (sha256 slib b) /\
    cell "private" rt' = DInt 0 /\
    only (syncdb w') cu rc' /\ held slib (syncdisk w') R rc' (et_tostring xlib ce') /\
    cell "hash" rc' = DStr (sha256 slib b) /\ cell "private" rc' = DInt 0 /\
    exists w'', excheck_request slib lib GetChecklist [("checklistuid", SText cu)] w' =
      (Ret [("checklist_data", SBytes (et_tostring xlib ce'))], w'').
Proof.
  intros [Hc HcE] Ht Hcl Hne Htt Htc Hroomt Hroomc Hheld Hstd (Hb1 & Hb2 & _) Hcb Hce Hrep (Hd1 & Hd2 & Hd3) Hback.
  set (h := sha256 slib b). set (doc := et_tostring xlib ce') in *. set (v1 := task_values cu tu data b).
  destruct (data_updated slib (ec_sync w) R tt tu rt b h v1) as (s1 & E1 & Hc1 & HT1 & _ & Hdisk1); [done..|].
  rewrite Hb2 in Hdisk1.
  assert (O1 : only (sy_db s1) cu rc).
  { pose proof (only_renewed _ _ tt h tu rt cu rc Hc Hc1 Ht Hcl HT1) as O1.
    by rewrite (not_same_object (syncdb w) tu rt cu rc) in O1. }
  set (v2 := whole_values cu tu data b).
  assert (Hh1 : held slib (sy_disk s1) R rc cb).
  { rewrite Hdisk1. apply held_stays; [done..|]. destruct Hcl as (_ & Hu & _). congruence. }
  destruct (data_by_uid slib s1 R cu rc cb v2 Hc1 O1 eq_refl eq_refl Hh1) as (s2 & E2 & Hs2).
  change (truth _) with false in E2. unfold contents in E2. rewrite Hcb in E2.
  pose proof (same_store_calm _ _ Hs2 Hc1) as Hc2. pose proof (same_store_rows _ _ Hs2) as Hr2.
  set (v3 := checklist_values cu tu data b doc).
  assert (O2 : only (sy_db s2) cu rc) by (unfold only in *; by rewrite Hr2).
  destruct (data_updated slib s2 R tc cu rc doc h v3) as (s3 & E3 & Hc3 & HT3 & _ & Hdisk3); [done..| |].
  { rewrite (proj2 Hs2), Hdisk1. by apply room_stays. }
  rewrite Hr2 in HT3. rewrite Hd2, (proj2 Hs2), Hdisk1 in Hdisk3.
  destruct (both_renewed _ _ _ tt tc h tu rt cu rc Hc Hc1 Hc3 Ht Hcl Hne HT1 HT3) as (_ & O3 & O4).
  pose proof (proj1 (sane_rows _ _ _ (proj1 Hc) (proj1 Ht))) as Tt.
  pose proof (proj1 (sane_rows _ _ _ (proj1 Hc) (proj1 Hcl))) as Tc.
  assert (Hheld1 : held slib (sy_disk s3) R (put_cells (renewed tt h) rt) b).
  { apply held_renewed; [|done..]. rewrite Hdisk3. apply held_stays.
    - apply package_held; [done..|apply Ht].
    - by apply room_stays.
    - destruct Ht as (_ & Hu & _). congruence. }
  assert (Hheld2 : held slib (sy_disk s3) R (put_cells (renewed tc h) rc) doc).
  { apply held_renewed; [|done..]. rewrite Hdisk3. apply package_held; [by apply room_stays|done|apply Hcl]. }
  set (w' := mkExcheckState s3 (ec_db w) v3 [] (ec_asked w)).
  pose proof (cells_renewed tt h rt Tt) as (_ & Hh2 & Hp2). pose proof (cells_renewed tc h rc Tc) as (_ & Hh3 & Hp3).
  destruct (checklist_read w' R cu (put_cells (renewed tc h) rc) doc ce') as (w'' & E4 & _);
    [done|done|done|done|by rewrite Hd3|].
  exists (put_cells (renewed tt h) rt), (put_cells (renewed tc h) rc), w'.
  split_and!; [|done..|by exists w''].
  by apply (update_performed w tu cu data b cb ce ce' s1 s2 s3).
Qed.

(** * Templates *)

Definition at_db (e : E) w : excheck_state S E :=
  mkExcheckState (ec_sync w) e (ec_request w) (ec_response w) (ec_asked w).

(** An object with that uid is recorded, or is there already and the refusal is ignored. *)
Lemma recorded t u sid w : calm (ec_db w) -> t = TTemplate \/ t = TChecklist ->
  exists e', ignoring (in_db (ExcheckStore.record sid (with_cell "PrimaryKey" (DStr u) (new t)))) w = (Ret tt, at_db e' w) /\
    calm e' /\ is_Some (found (rows e') t "PrimaryKey" u) /\
    forall t', t' <> t -> rows e' t' ≡ₚ rows (ec_db w) t'.
Proof.
  intros Hc Ht. set (d := with_cell "PrimaryKey" (DStr u) (new t)).
  pose proof (add_string sid (ec_db w) d "PrimaryKey" u Hc) as Hadd.
  assert (d_table d = t) as Et by done. rewrite Et in Hadd.
  specialize (Hadd ltac:(by destruct Ht as [->| ->]) ltac:(by destruct Ht as [->| ->])).
  specialize (Hadd ltac:(destruct Ht as [->| ->]; repeat constructor)).
  unfold ignoring, try_except, try_with, in_db, ExcheckStore.record. fold d.
  destruct (found (rows (ec_db w)) t "PrimaryKey" u) as [r|] eqn:Ef.
  - destruct Hadd as (e & s' & Er & He & Ho & Hrows & Hp & Hb). exists s'. rewrite (run_bind_exn _ _ _ _ _ Er).
    rewrite He. split; [done|]. split; [by apply (calm_others sid (ec_db w))|]. rewrite Hrows. by rewrite Ef.
  - destruct Hadd as (r & s' & Er & Hc' & Hb & _ & Hf & HT). exists s'. rewrite (run_bind _ _ _ _ _ Er).
    split; [done|]. split; [done|]. rewrite Hf, decide_True by done. split; [by eexists|].
    intros t' Ht'. apply (rows_elsewhere (rows (ec_db w)) _ r); [done|]. by rewrite (proj1 Hb).
Qed.

Lemma time_told w : exists now s', get_time lib w = (Ret now, at_sync s' w) /\
  unchanged (syncdb w) (sy_db s') /\ sy_disk s' = syncdisk w.
Proof.
  destruct (utcnow_law (syncdb w)) as (t & s' & Er & Hu). exists (ex_dtg lib t), (with_sync s' (ec_sync w)).
  split; [|by split]. unfold get_time, in_sync. cbv [mbind M_bind mret M_ret].
  by rewrite (on_db_run _ (ec_sync w) _ _ Er).
Qed.

Definition template_request (data creator : string) : values :=
  [("templatedata", SBytes data); ("creator_uid", SText creator)].

(** The request as it is when a template is saved. *)
Definition template_values (data creator u doc now : string) (kws : list sval) : values :=
  dset "objstarttime" (SText now) (dset "mime_type" (SText "application/xml") (dset "creator_uid" (SText creator)
    (dset "tool" (SText "ExCheck") (dset "objkeywords" (SList kws) (dset "objectuid" (SText u)
    (dset "objectdata" (SBytes doc) (dset "objecthash" (SText (sha256 slib data))
    (dset "synctype" (SText "ExCheckTemplate") (template_request data creator))))))))).

Lemma template_package data creator u doc now kws :
  package_values slib (template_values data creator u doc now kws) "ExCheckTemplate" u doc (sha256 slib data) u
    "application/xml" "ExCheck" 0 kws.
Proof. by split. Qed.

Lemma keyword_texts (l : list (option string)) : Forall keyword_value (maybe_text <$> l).
Proof.
  apply Forall_fmap, Forall_forall. intros [x|] _; [right; by eexists|by left].
Qed.

(** The handler stores the record and the file, and asks the missions to take the digest. *)
Lemma template_created w R data creator e e' u n d c : calm_both w ->
  lxml_fromstring xlib (SBytes data) = Ret e -> detail_text "uid" e = Ret (Some u) ->
  at_child "checklistTasks" number_tasks e = Ret e' ->
  detail_text "name" e' = Ret n -> detail_text "description" e' = Ret d -> detail_text "creatorCallsign" e' = Ret c ->
  room slib (syncdisk w) R "ExCheckTemplate" u ->
  exists r asked w', excheck_request slib lib CreateTemplate (template_request data creator) w = (Ret [], w') /\
    calm_both w' /\ is_Some (found (rows (ec_db w')) TTemplate "PrimaryKey" u) /\
    ec_asked w' = ec_asked w ++ [("AddMissionContents", asked)] /\
    dget "hashes" asked = Some (SList [SText (sha256 slib data)]) /\
    cell "file_type" r = DStr "ExCheckTemplate" /\ cell "PrimaryKey" r = DStr u /\
    rows (syncdb w') TSyncObject ≡ₚ r :: rows (syncdb w) TSyncObject /\
    syncdisk w' = with_package (syncdisk w) R "ExCheckTemplate" u (et_tostring xlib e').
Proof.
  intros [Hc HcE] Hp Huid Hnum Hn Hd Hcs Hroom. set (v0 := template_request data creator).
  set (doc := et_tostring xlib e'). set (kws := maybe_text <$> [n; d; c]).
  destruct (recorded TTemplate u template_sid (received v0 w) HcE ltac:(by left)) as (e1 & E1 & Hc1 & Hf & _).
  destruct (time_told (at_db e1 (received v0 w))) as (now & s1 & E2 & Hu1 & Hd1).
  set (vs := template_values data creator u doc now kws).
  destruct (package_saved slib s1 (with_package (syncdisk w) R "ExCheckTemplate" u doc) vs "ExCheckTemplate" u doc (sha256 slib data) u "application/xml" "ExCheck" 0 kws)
    as (r & krs & s2 & E3 & Hc2 & Hrow & _ & HT & _ & _ & Hd2);
    [by eapply calm_unchanged|rewrite Hd1; by apply room_saved|apply template_package|apply keyword_texts|].
  destruct Hrow as (_ & Ht & Hk & Hh & _). rewrite (unchanged_rows _ _ Hu1) in HT.
  set (va := dset "hashes" (SList [SText (sha256 slib data)]) (dset "mission_id" (SText "exchecktemplates") vs)).
  set (w' := mkExcheckState s2 e1 va [] (ec_asked w ++ [("AddMissionContents", va)])).
  exists r, va, w'. split; [|split; [done|split; [exact Hf|by split]]].
  rewrite (request_run _ _ w w'); [done|]. cbn [excheck_perform]. unfold create_template.
  rewrite (run_bind (of_outcome (arg "templatedata" v0)) _ _ _ _ eq_refl).
  rewrite (run_bind (of_outcome (arg "creator_uid" v0)) _ _ _ _ eq_refl). cbn [as_bytes]. cbv zeta.
  rewrite Hp, (run_bind (of_outcome (Ret _)) _ _ _ _ eq_refl). rewrite Huid, (run_bind (of_outcome (Ret _)) _ _ _ _ eq_refl).
  rewrite (run_bind _ _ _ _ _ E1). rewrite Hnum, (run_bind (of_outcome (Ret _)) _ _ _ _ eq_refl).
  rewrite (run_bind _ _ _ _ _ (set_value_run _ _ _)). rewrite (run_bind (of_outcome (hexdigest slib (SBytes data))) _ _ _ _ eq_refl).
  do 3 (rewrite (run_bind _ _ _ _ _ (set_value_run _ _ _))).
  rewrite Hn, Hd, Hcs. do 3 rewrite (run_bind (of_outcome (Ret _)) _ _ _ _ eq_refl).
  do 4 (rewrite (run_bind _ _ _ _ _ (set_value_run _ _ _))).
  match goal with |- (get_time lib ≫= _) ?w0 = _ =>
    assert (E2' : get_time lib w0 = (Ret now, at_sync s1 w0)) end.
  { clear -E2. unfold get_time, in_sync in *. cbv [mbind M_bind mret M_ret] in *. cbn in *.
    destruct (on_db utcnow (ec_sync w)) as [[t|x] s]; [|done]. by injection E2 as <- <-. }
  rewrite (run_bind _ _ _ _ _ E2'). rewrite (run_bind _ _ _ _ _ (set_value_run _ _ _)).
  match goal with |- (sync_sub_action slib _ ≫= _) ?w0 = _ =>
    rewrite (run_bind _ _ _ _ _ (sub_action_run SaveEnterpriseSyncData w0 _ _ E3)) end.
  rewrite (run_bind _ _ _ _ _ (set_value_run _ _ _)). change (get_value "objectmetadata" _) with (SObject r (to_db <$> kws)).
  cbv iota. rewrite Hh. rewrite (run_bind (mret _) _ _ _ _ eq_refl). done.
Qed.

(** C21: A template that is posted can be asked for by its uid: what comes back is the document
    in which every task that had no number has the number 0 at its end, and nothing else is
    different.  The missions are told the digest of the document as it was posted, and the
    template is recorded, whether or not it was before. *)
Theorem posted_template_is_returned w R data creator e e' u n d c : calm_both w ->
  lxml_fromstring xlib (SBytes data) = Ret e -> with_numbers e e' -> detail_text "uid" e = Ret (Some u) ->
  detail_text "name" e = Ret n -> detail_text "description" e = Ret d -> detail_text "creatorCallsign" e = Ret c ->
  room slib (syncdisk w) R "ExCheckTemplate" u -> unix_text (et_tostring xlib e') ->
  (forall r, r ∈ rows (syncdb w) TSyncObject -> cell "PrimaryKey" r <> DStr u) ->
  exists asked w' w'', excheck_request slib lib CreateTemplate (template_request data creator) w = (Ret [], w') /\
    calm_both w' /\ is_Some (found (rows (ec_db w')) TTemplate "PrimaryKey" u) /\
    ec_asked w' = ec_asked w ++ [("AddMissionContents", asked)] /\
    dget "hashes" asked = Some (SList [SText (sha256 slib data)]) /\
    excheck_request slib lib GetTemplate [("templateuid", SText u)] w' =
      (Ret [("template_data", SText (et_tostring xlib e'))], w'').
Proof.
  intros Hw Hp Hnum Huid Hn Hd Hcs Hroom (Ht1 & _ & Ht3) Hnew.
  rewrite <- (with_numbers_details e e') in Hn, Hd, Hcs by done. apply with_numbers_tasks in Hnum.
  destruct (template_created w R data creator e e' u n d c) as (r & asked & w' & E1 & Hw' & Hf & Ha & Hh & Ht & Hk & HT & Hdisk);
    [done..|].
  assert (Ho : only (syncdb w') u r).
  { split; [rewrite HT; left|split; [done|]]. intros r' Hr' Hu'. rewrite HT in Hr'.
    apply elem_of_cons in Hr' as [->|Hr']; [done|by apply Hnew in Hr']. }
  set (v := [("templateuid", SText u)]). set (v1 := dset "objectuid" (SText u) v).
  destruct (data_by_uid slib (ec_sync w') R u r (et_tostring xlib e') v1) as (s' & E2 & _);
    [apply Hw'|done|done|done|rewrite Hdisk; by apply package_held|].
  change (truth _) with false in E2. unfold contents in E2. rewrite Ht1, Ht3 in E2.
  set (w'' := mkExcheckState s' (ec_db w') v1 [("template_data", SText (et_tostring xlib e'))] (ec_asked w')).
  exists asked, w', w''. split_and!; [done..|].
  rewrite (request_run _ _ w' w''); [done|]. cbn [excheck_perform]. unfold get_template.
  rewrite (run_bind (of_outcome (arg "templateuid" v)) _ _ _ _ eq_refl).
  rewrite (run_bind _ _ (received v w') (SText (et_tostring xlib e')) w''); [done|].
  rewrite (run_bind _ _ _ _ _ (set_value_run _ _ _)).
  by rewrite (run_bind _ _ _ _ _ (sub_action_run _ (at_request v1 (received v w')) _ _ E2)).
Qed.
End Props.
