(* ===== verification/ExcheckStarts.v ===== *)
(** Checklists that are started from a template: the tasks that are saved, the checklist, and
    what becomes of a second one whose tasks have the uids of the first. *)
From Stdlib Require Import ZArith Lia Ascii String.
From stdpp Require Import base strings list sets pretty.
From S2P Require Import Prelude.
From S2P Require Import MainConfig.
From S2P Require Import RestGeo.
From S2P Require Import MissionDb.
From S2P Require Import MissionStore.
From S2P Require Import MissionList.
From S2P Require Import MissionFacts.
From S2P Require Import SyncFiles.
From S2P Require Import SyncStore.
From S2P Require Import SyncHttp.
From S2P Require Import SyncPaths.
From S2P Require Import SyncFacts.
From S2P Require Import SyncReads.
From S2P Require Import SyncUpdates.
From S2P Require Import SyncUploads.
From S2P Require Import ExcheckStore.
From S2P Require Import ExcheckXml.
From S2P Require Import ExcheckControllers.
From S2P Require Import ExcheckProps.

Set Default Proof Using "Type*".
Local Open Scope string_scope.
Local Open Scope list_scope.
Local Open Scope py_scope.

(** * Requests that say nothing of digests, names and lengths *)

Definition unsaid : list string := ["objecthash"; "file_name"; "convert_newlines"; "length"; "privacy"].
Definition quiet_request (v : values) : Prop := Forall (fun k => dget k v = None) unsaid.

Lemma quiet_dset k x v : bool_decide (k ∈ unsaid) = false -> quiet_request v -> quiet_request (dset k x v).
Proof.
  intros Hk%bool_decide_eq_false_1 Hv. unfold quiet_request in *. rewrite Forall_forall in *.
  intros k' Hk'. rewrite dget_dset_ne; [by apply Hv|]. by intros ->.
Qed.

(** Looks a key up in values that were set one after the other. *)
Ltac look := repeat first [rewrite dget_dset_eq | rewrite dget_dset_ne by done].

Definition saved_values (t u b tool mime now : string) (kws : list sval) (v : values) : values :=
  dset "mime_type" (SText mime) (dset "tool" (SText tool) (dset "objstarttime" (SText now)
    (dset "objkeywords" (SList kws) (dset "objectuid" (SText u) (dset "objectdata" (SBytes b)
      (dset "synctype" (SText t) v)))))).

Lemma quiet_saved t u b tool mime now kws v : quiet_request v -> quiet_request (saved_values t u b tool mime now kws v).
Proof. intros Hv. unfold saved_values. by repeat apply quiet_dset. Qed.

Lemma quiet_package slib t u b tool mime now kws v : quiet_request v ->
  package_values slib (saved_values t u b tool mime now kws v) t u b (sha256 slib b) u mime tool 0 kws.
Proof.
  intros Hv. unfold quiet_request, unsaid in Hv. rewrite !Forall_cons in Hv.
  destruct Hv as (H1 & H2 & H3 & H4 & H5 & _).
  split; unfold arg, opt, saved_values; look; by rewrite ?H1, ?H2, ?H3, ?H4, ?H5.
Qed.

(** What is in the second of two lists that go together is related to something in the first. *)
Lemma related_elem {A B} (P : A -> B -> Prop) l k y : Forall2 P l k -> y ∈ k -> exists x, x ∈ l /\ P x y.
Proof.
  intros Hl (i & Hi)%list_elem_of_lookup. destruct (Forall2_lookup_r _ _ _ _ _ Hl Hi) as (x & Hx & HP).
  exists x. split; [by eapply list_elem_of_lookup_2|done].
Qed.

Section Starts.
Context {S E : Type} `{OrmLaws S, !OrmReliable S} `{OrmLaws E, !OrmReliable E}.
Context (slib : sync_library) (lib : excheck_library).
Implicit Types (w : excheck_state S E).

Abbreviation xlib := (ex_xml lib).
Abbreviation syncdb w := (sy_db (ec_sync w)).
Abbreviation syncdisk w := (sy_disk (ec_sync w)).

(** * Tasks that are saved *)

Definition task_type : string := "ExCheckChecklistTask".

(** The uid of a task, and the task with the uid of its checklist and its own written. *)
Definition titled (cu : string) (t : xml) (u : string) (t' : xml) : Prop :=
  child_text "uid" t = Ret (Some u) /\
  exists t1, set_checklist_uid lib (Some cu) t = Ret t1 /\ at_child "uid" (set_text xlib (SText u)) t1 = Ret t'.

(** A package that is saved with values of the request. *)
Lemma package_stored w R t u b tool mime now kws : calm (syncdb w) -> room slib (syncdisk w) R t u ->
  quiet_request (ec_request w) -> Forall keyword_value kws ->
  exists r o s', sync_sub_action slib SaveEnterpriseSyncData (at_request (saved_values t u b tool mime now kws (ec_request w)) w) =
      (Ret o, at_sync s' (at_request (saved_values t u b tool mime now kws (ec_request w)) w)) /\
    calm (sy_db s') /\ cell "file_type" r = DStr t /\ cell "PrimaryKey" r = DStr u /\
    cell "hash" r = DStr (sha256 slib b) /\
    rows (sy_db s') TSyncObject ≡ₚ r :: rows (syncdb w) TSyncObject /\ sy_disk s' = with_package (syncdisk w) R t u b.
Proof.
  intros Hc Hroom Hq Hk. set (v := saved_values t u b tool mime now kws (ec_request w)).
  destruct (package_saved slib (ec_sync w) _ v t u b (sha256 slib b) u mime tool 0 kws Hc (room_saved slib _ _ _ _ b Hroom))
    as (r & krs & s' & Er & Hc' & (_ & Ht & Hu & Hh & _) & _ & HT & _ & _ & Hd); [by apply quiet_package|done|].
  exists r, [("objectmetadata", SObject r (to_db <$> kws))], s'. split; [|by split_and!].
  by apply (sub_action_run slib SaveEnterpriseSyncData (at_request v w)).
Qed.

(** What is recorded of a task. *)
Definition task_draft (cu u : string) : draft :=
  with_cell "checklist_uid" (DStr cu) (with_cell "PrimaryKey" (DStr u) (new TChecklistTask)).
Definition taken (e : E) (u : string) : Prop := is_Some (found (rows e) TChecklistTask "PrimaryKey" u).

(** Up to its record, a task is saved the same way whether it can be recorded or not. *)
Lemma task_stored w R cu t u t' : calm (syncdb w) -> quiet_request (ec_request w) -> titled cu t u t' ->
  room slib (syncdisk w) R task_type u ->
  exists r w', create_checklist_task slib lib (Some cu) t w =
      (in_db (record checklist_sid (task_draft cu u)) ;;; mret t') w' /\
    calm (syncdb w') /\ quiet_request (ec_request w') /\ ec_db w' = ec_db w /\ ec_asked w' = ec_asked w /\
    ec_response w' = ec_response w /\ cell "file_type" r = DStr task_type /\ cell "PrimaryKey" r = DStr u /\
    rows (syncdb w') TSyncObject ≡ₚ r :: rows (syncdb w) TSyncObject /\
    syncdisk w' = with_package (syncdisk w) R task_type u (et_tostring xlib t').
Proof.
  intros Hc Hq (Hu & t1 & Ht1 & Ht2) Hroom. set (doc := et_tostring xlib t').
  set (v4 := dset "objkeywords" (SList [SText "Task"]) (dset "objectuid" (SText u) (dset "objectdata" (SBytes doc)
    (dset "synctype" (SText task_type) (ec_request w))))).
  destruct (time_told lib (at_request v4 w)) as (now & s1 & Et & Hu1 & Hd1).
  pose proof (unchanged_rows _ _ Hu1) as Hr1.
  destruct (package_stored (at_sync s1 w) R task_type u doc "ExCheck" "application/xml" now [SText "Task"])
    as (r & o & s2 & E2 & Hc2 & Hrt & Hru & _ & HT & Hd2);
    [by eapply calm_unchanged|cbn [at_sync ec_sync]; by rewrite Hd1|done|by constructor; [right; eexists|]|].
  exists r, (at_sync s2 (at_request (saved_values task_type u doc "ExCheck" "application/xml" now [SText "Task"] (ec_request w)) w)).
  cbn [at_sync at_request ec_sync ec_db ec_request ec_asked ec_response] in HT, Hd2 |- *. rewrite Hr1 in HT.
  split; [|split; [done|split; [by apply quiet_saved|]]].
  - unfold create_checklist_task. rewrite Hu, (run_bind (of_outcome (Ret _)) _ _ _ _ eq_refl).
    rewrite (run_bind (mret u) _ _ _ _ eq_refl). rewrite Ht1, (run_bind (of_outcome (Ret _)) _ _ _ _ eq_refl).
    rewrite Ht2, (run_bind (of_outcome (Ret _)) _ _ _ _ eq_refl).
    do 4 (rewrite (run_bind _ _ _ _ _ (set_value_run _ _ _))).
    rewrite (run_bind _ _ _ _ _ Et). do 3 (rewrite (run_bind _ _ _ _ _ (set_value_run _ _ _))).
    by rewrite (run_bind _ _ _ _ _ E2).
  - split_and!; [done..|]. by rewrite Hd2, Hd1.
Qed.

(** A task whose uid is taken is refused. *)
Lemma task_refused w cu u : calm (ec_db w) -> taken (ec_db w) u ->
  exists x e', in_db (record checklist_sid (task_draft cu u)) w = (Exn x, at_db e' w) /\ is_Exception x = true /\
    calm e' /\ rows e' = rows (ec_db w).
Proof.
  intros Hc [r Hf]. pose proof (add_string checklist_sid (ec_db w) (task_draft cu u) "PrimaryKey" u Hc) as Hadd.
  specialize (Hadd ltac:(done) ltac:(done) ltac:(repeat constructor)).
  change (d_table (task_draft cu u)) with TChecklistTask in Hadd.
  rewrite Hf in Hadd. destruct Hadd as (x & e' & Er & He & Ho & Hrows & Hp & Hb).
  exists x, e'. unfold in_db, record. rewrite (run_bind_exn _ _ _ _ _ Er).
  split_and!; [done|done|by apply (calm_others checklist_sid (ec_db w))|done].
Qed.

(** One whose uid is new is recorded. *)
Lemma task_recorded w cu u : calm (ec_db w) -> ~ taken (ec_db w) u ->
  exists e', in_db (record checklist_sid (task_draft cu u)) w = (Ret tt, at_db e' w) /\ calm e' /\ taken e' u /\
    (forall y, taken e' y <-> y = u \/ taken (ec_db w) y) /\
    forall t, t <> TChecklistTask -> rows e' t ≡ₚ rows (ec_db w) t.
Proof.
  intros Hc Hf. pose proof (add_string checklist_sid (ec_db w) (task_draft cu u) "PrimaryKey" u Hc) as Hadd.
  specialize (Hadd ltac:(done) ltac:(done) ltac:(repeat constructor)).
  change (d_table (task_draft cu u)) with TChecklistTask in Hadd.
  unfold taken in *. destruct (found (rows (ec_db w)) TChecklistTask "PrimaryKey" u) as [r|] eqn:E0;
    [by destruct Hf; eexists|].
  destruct Hadd as (r & e' & Er & Hc' & Hb & _ & Hy & HT). exists e'. unfold in_db, record.
  rewrite (run_bind _ _ _ _ _ Er). split_and!; [done|done|rewrite Hy, decide_True by done; by eexists| |].
  - intros y. rewrite Hy. case_decide as Ey; [|naive_solver]. split; [by left|by eexists].
  - intros t Ht. apply (rows_elsewhere (rows (ec_db w)) _ r); [done|]. by rewrite (proj1 Hb).
Qed.

(** The elements below the tasks of a checklist as they are saved, and the tasks among them
    with their uids. *)
Inductive saved_as (cu : string) : list xml -> list xml -> list (string * xml) -> Prop :=
  | saved_nil : saved_as cu [] [] []
  | saved_task t t' u l l' us : has_tag "checklistTask" t = true -> titled cu t u t' -> saved_as cu l l' us ->
      saved_as cu (t :: l) (t' :: l') ((u, t') :: us)
  | saved_other t l l' us : has_tag "checklistTask" t = false -> saved_as cu l l' us ->
      saved_as cu (t :: l) (t :: l') us.

Definition with_task R (d : disk) (p : string * xml) : disk := with_package d R task_type p.1 (et_tostring xlib p.2).
Definition with_tasks (d : disk) R (us : list (string * xml)) : disk := foldl (with_task R) d us.
Definition task_object (p : string * xml) (r : row) : Prop :=
  cell "file_type" r = DStr task_type /\ cell "PrimaryKey" r = DStr p.1.

(** The tasks can be saved: there is room for their files, and their uids are new. *)
Definition room_for (d : disk) R (us : list (string * xml)) : Prop := Forall (fun p => room slib d R task_type p.1) us.
Definition all_new (e : E) (us : list (string * xml)) : Prop := Forall (fun p => ~ taken e p.1) us.

Lemma room_after d R p us : room slib d R task_type p.1 -> room_for d R us -> room_for (with_task R d p) R us.
Proof. intros Hp Hus. eapply Forall_impl; [exact Hus|]. intros q Hq. by apply room_stays. Qed.

Lemma tasks_saved R cu l l' us : saved_as cu l l' us -> forall w, calm_both w -> quiet_request (ec_request w) ->
  NoDup us.*1 -> room_for (syncdisk w) R us -> all_new (ec_db w) us ->
  exists rs w', save_tasks slib lib (Some cu) l w = (Ret l', w') /\ calm_both w' /\ quiet_request (ec_request w') /\
    ec_asked w' = ec_asked w /\ ec_response w' = ec_response w /\ Forall2 task_object us rs /\
    rows (syncdb w') TSyncObject ≡ₚ rs ++ rows (syncdb w) TSyncObject /\
    syncdisk w' = with_tasks (syncdisk w) R us /\ Forall (fun p => taken (ec_db w') p.1) us /\
    (forall u, taken (ec_db w) u -> taken (ec_db w') u) /\
    forall t, t <> TChecklistTask -> rows (ec_db w') t ≡ₚ rows (ec_db w) t.
Proof.
  induction 1 as [|t t' u l l' us Ht Hu Hl IH|t l l' us Ht Hl IH]; intros w [Hc HcE] Hq Hnd Hroom Hnew.
  - exists [], w. by split_and!.
  - inversion Hnd as [|? ? Hnin Hnd']; subst. inversion Hroom as [|? ? Hr Hroom']; subst.
    inversion Hnew as [|? ? Hn Hnew']; subst. cbn [fst] in *.
    destruct (task_stored w R cu t u t') as (r & w1 & E1 & Hc1 & Hq1 & Hdb1 & Ha1 & Hr1 & Hrt & Hru & HT1 & Hd1); [done..|].
    rewrite <- Hdb1 in HcE, Hn.
    destruct (task_recorded w1 cu u HcE Hn) as (e2 & E2 & Hc2 & Hk2 & Hy2 & HT2). set (w2 := at_db e2 w1) in *.
    destruct (IH w2) as (rs & w' & E3 & Hw' & Hq' & Ha' & Hr' & Hrs & HT3 & Hd3 & Hk & Hmono & HT4); [done|done|done| | |].
    { cbn [w2 at_db ec_sync]. rewrite Hd1. by apply (room_after _ R (u, t')). }
    { apply Forall_forall. intros p Hp. change (ec_db w2) with e2. rewrite Hy2, Hdb1. intros [Hpu|Hpt].
      - apply Hnin. apply list_elem_of_fmap. by exists p.
      - revert Hpt. by apply (proj1 (Forall_forall _ _) Hnew'). }
    exists (r :: rs), w'. cbn [w2 at_db ec_sync ec_db ec_asked ec_response] in *. split_and!; [|done|done|..].
    + cbn [save_tasks]. rewrite Ht. rewrite (run_bind _ _ w t' w2).
      * by rewrite (run_bind _ _ _ _ _ E3).
      * rewrite E1. by rewrite (run_bind _ _ _ _ _ E2).
    + by rewrite Ha', Ha1.
    + by rewrite Hr', Hr1.
    + by constructor.
    + rewrite HT3, HT1. symmetry. apply Permutation_middle.
    + by rewrite Hd3, Hd1.
    + constructor; [by apply Hmono|done].
    + intros y Hy. apply Hmono, Hy2. right. by rewrite Hdb1.
    + intros t0 Ht0. by rewrite HT4, HT2, Hdb1.
  - destruct (IH w) as (rs & w' & E3 & Hrest); [done..|]. exists rs, w'. split; [|done].
    cbn [save_tasks]. rewrite Ht. by rewrite (run_bind _ _ _ _ _ E3).
Qed.

Lemma held_through R r b us : Forall (fun p => cell "PrimaryKey" r <> DStr p.1) us -> forall d,
  held slib d R r b -> room_for d R us -> held slib (with_tasks d R us) R r b.
Proof.
  induction 1 as [|p us Hp _ IH]; intros d Hh Hroom; [done|].
  inversion Hroom as [|? ? Hr Hroom']; subst. apply IH; [by apply held_stays|by apply room_after].
Qed.
Lemma room_through R t u us : forall d, room slib d R t u -> room_for d R us -> room slib (with_tasks d R us) R t u.
Proof.
  induction us as [|p us IH]; intros d Hd Hroom; [done|].
  inversion Hroom as [|? ? Hr Hroom']; subst. apply IH; [by apply room_stays|by apply room_after].
Qed.

(** The files of all the tasks are there when they have all been saved. *)
Lemma tasks_held R us rs : Forall2 task_object us rs -> forall d, NoDup us.*1 -> room_for d R us ->
  Forall2 (fun p r => held slib (with_tasks d R us) R r (et_tostring xlib p.2)) us rs.
Proof.
  induction 1 as [|p r us rs [Hrt Hru] Hrs IH]; intros d Hnd Hroom; [done|].
  inversion Hnd as [|? ? Hnin Hnd']; subst. inversion Hroom as [|? ? Hr Hroom']; subst.
  pose proof (room_after d R p us Hr Hroom') as Hroom1. constructor; [|by apply IH].
  change (with_tasks d R (p :: us)) with (with_tasks (with_task R d p) R us). apply held_through; [|by apply package_held|done].
  apply Forall_forall. intros q Hq. rewrite Hru. intros [= Hpq]. apply Hnin. rewrite Hpq.
  apply list_elem_of_fmap. by exists q.
Qed.

(** * Checklists that are started *)

Fixpoint in_turn (fs : list (xml -> outcome xml)) (e : xml) : outcome xml :=
  match fs with
  | [] => Ret e
  | f :: fs => match f e with Ret e' => in_turn fs e' | Exn x => Exn x end
  end.
Lemma in_turn_cons f fs e p : in_turn (f :: fs) e = Ret p -> exists e1, f e = Ret e1 /\ in_turn fs e1 = Ret p.
Proof. cbn [in_turn]. destruct (f e) as [e1|]; [|done]. by exists e1. Qed.

(** What is made of a template before its tasks are saved. *)
Definition made_of (cu now name description : string) : list (xml -> outcome xml) :=
  [set_detail lib "uid" (SText cu); set_detail lib "name" (SText name);
   set_detail lib "description" (SText description); set_detail lib "startTime" (SText now);
   at_child "checklistTasks" (standardized lib); at_child "checklistTasks" numbered].

Definition start_request (tpl name description : string) : values :=
  [("templateuid", SText tpl); ("checklistname", SText name); ("checklist_description", SText description)].

(** The time and the uid that the clock and the generator give in a state. *)
Definition told w (now cu : string) : Prop :=
  exists w', (t <- get_time lib ;; u <- new_uid ;; mret (t, u)) w = (Ret (now, cu), w').

Lemma told_run w now cu : told w now cu -> exists s1 s2, get_time lib w = (Ret now, at_sync s1 w) /\
  new_uid (at_sync s1 w) = (Ret cu, at_sync s2 w) /\ unchanged (syncdb w) (sy_db s2) /\
  sy_disk s2 = syncdisk w /\ fresh cu (syncdb w).
Proof.
  intros (w' & E0). destruct (time_told lib w) as (t & s1 & E1 & Hu1 & Hd1).
  rewrite (run_bind _ _ _ _ _ E1) in E0. destruct (uuid4_law (sy_db s1)) as (u & s2 & E2 & Hu2 & Hf).
  set (w1 := at_sync s1 w) in *.
  assert (E3 : new_uid w1 = (Ret u, at_sync (with_sync s2 s1) w)).
  { unfold new_uid, in_sync. by rewrite (on_db_run uuid4 (ec_sync w1) _ _ E2). }
  rewrite (run_bind _ _ _ _ _ E3) in E0. injection E0 as <- <- _.
  exists s1, (with_sync s2 s1). split_and!; [done|done|by etransitivity|done|].
  unfold fresh in *. by rewrite (unchanged_rows _ _ Hu1) in Hf.
Qed.

(** What is done once the tasks are saved. *)
Definition finish (cu now : string) (description : sval) (parsed : xml) : M (excheck_state S E) unit :=
  let document := SBytes (lxml_document xlib parsed) in
  set_values [("synctype", SText "ExCheckChecklist"); ("objectdata", document);
    ("objectuid", SText cu); ("objkeywords", SList [SText "Template"]);
    ("objstarttime", SText now); ("tool", SText "ExCheck"); ("mime_type", SText "application/xml")] ;;;
  sync_sub_action slib SaveEnterpriseSyncData ;;;
  set_values [("mission_id", SText cu); ("mission_data", SBytes "");
    ("mission_data_args", mission_values description now [SDict []] [("classification", SText "UNCLASSIFIED")]);
    ("creatorUid", SText "ExCheck")] ;;;
  mission_sub_action lib "PutMission" ;;; answer "checklist" document.

Definition template_answer (b : string) : values := [("template_data", SText (universal_newlines b))].

(** Up to its tasks: the checklist has a uid and is recorded. *)
Lemma start_begun w R tpl rt b name description now cu e p : calm_both w ->
  only (syncdb w) tpl rt -> held slib (syncdisk w) R rt b -> valid_utf8 (chars b) = true ->
  lxml_fromstring xlib (SText (universal_newlines b)) = Ret e ->
  told (received (start_request tpl name description) w) now cu ->
  in_turn (made_of cu now name description) e = Ret p ->
  exists w', start_checklist slib lib (start_request tpl name description) (received (start_request tpl name description) w) =
      (parsed <- save_tasks_in_checklist slib lib p ;; finish cu now (SText description) parsed) w' /\
    calm_both w' /\ quiet_request (ec_request w') /\ ec_asked w' = ec_asked w /\ ec_response w' = template_answer b /\
    rows (syncdb w') = rows (syncdb w) /\ syncdisk w' = syncdisk w /\ fresh cu (syncdb w) /\
    is_Some (found (rows (ec_db w')) TChecklist "PrimaryKey" cu) /\
    forall t, t <> TChecklist -> rows (ec_db w') t ≡ₚ rows (ec_db w) t.
Proof.
  intros [Hc HcE] Ho Hh Hb Hp Ht Hmade. set (v := start_request tpl name description) in *.
  set (w0 := received v w) in *. destruct (told_run _ _ _ Ht) as (s1 & s2 & E1 & E2 & Hu2 & Hd2 & Hf).
  change (syncdb w0) with (syncdb w) in Hu2, Hf. change (syncdisk w0) with (syncdisk w) in Hd2.
  pose proof (calm_unchanged _ _ Hu2 Hc) as Hc2. pose proof (unchanged_rows _ _ Hu2) as Hr2.
  set (v1 := dset "objectuid" (SText tpl) v).
  destruct (data_by_uid slib s2 R tpl rt b v1) as (s3 & E3 & Hs3);
    [done|unfold only in *; by rewrite Hr2|done|done|by rewrite Hd2|].
  change (truth _) with false in E3. unfold contents in E3. rewrite Hb in E3.
  set (w3 := mkExcheckState s3 (ec_db w) v1 (template_answer b) (ec_asked w)).
  destruct (recorded TChecklist cu checklist_sid w3 HcE ltac:(by right)) as (e4 & E4 & Hc4 & Hk4 & HT4).
  apply in_turn_cons in Hmade as (p1 & M1 & Hmade). apply in_turn_cons in Hmade as (p2 & M2 & Hmade).
  apply in_turn_cons in Hmade as (p3 & M3 & Hmade). apply in_turn_cons in Hmade as (p4 & M4 & Hmade).
  apply in_turn_cons in Hmade as (p5 & M5 & Hmade). apply in_turn_cons in Hmade as (p6 & M6 & [= ->]).
  exists (at_db e4 w3). cbn [at_db w3 ec_sync ec_db ec_request ec_asked ec_response]. split.
  - unfold start_checklist.
    rewrite (run_bind (of_outcome (arg "templateuid" v)) _ w0 (SText tpl) w0) by done.
    rewrite (run_bind (of_outcome (arg "checklistname" v)) _ w0 (SText name) w0) by done.
    rewrite (run_bind (of_outcome (arg "checklist_description" v)) _ w0 (SText description) w0) by done.
    change (opt "checklist_content" _ _) with (SBytes ""). cbv iota.
    rewrite (run_bind _ _ w0 (p4, cu, now) w3).
    + rewrite M5, (run_bind (of_outcome (Ret _)) _ _ _ _ eq_refl). rewrite M6, (run_bind (of_outcome (Ret _)) _ _ _ _ eq_refl).
      by rewrite (run_bind _ _ _ _ _ E4).
    + unfold from_template. rewrite (run_bind _ _ _ _ _ E1), (run_bind _ _ _ _ _ E2).
      rewrite (run_bind _ _ (at_sync s2 w0) (SText (universal_newlines b)) w3).
      * rewrite Hp, (run_bind (of_outcome (Ret _)) _ _ _ _ eq_refl). rewrite M1, (run_bind (of_outcome (Ret _)) _ _ _ _ eq_refl).
        rewrite M2, (run_bind (of_outcome (Ret _)) _ _ _ _ eq_refl). rewrite M3, (run_bind (of_outcome (Ret _)) _ _ _ _ eq_refl).
        by rewrite M4, (run_bind (of_outcome (Ret _)) _ _ _ _ eq_refl).
      * unfold get_template. rewrite (run_bind _ _ _ _ _ (set_value_run _ _ _)).
        by rewrite (run_bind _ _ _ _ _ (sub_action_run slib _ (at_request v1 (at_sync s2 w0)) _ _ E3)).
  - split_and!; [split; [by apply (same_store_calm s2)|done]|by repeat constructor|done|done| |by rewrite (proj2 Hs3)|done|done|done].
    by rewrite (same_store_rows _ _ Hs3).
Qed.

(** The checklist is saved, and a mission is asked for. *)
Lemma finished w R cu now (description : sval) p : calm_both w -> quiet_request (ec_request w) ->
  room slib (syncdisk w) R "ExCheckChecklist" cu ->
  exists r asked w', finish cu now description p w = (Ret tt, w') /\ calm_both w' /\ ec_db w' = ec_db w /\
    ec_asked w' = ec_asked w ++ [("PutMission", asked)] /\ dget "mission_id" asked = Some (SText cu) /\
    ec_response w' = dset "checklist" (SBytes (lxml_document xlib p)) (ec_response w) /\
    cell "file_type" r = DStr "ExCheckChecklist" /\ cell "PrimaryKey" r = DStr cu /\
    cell "hash" r = DStr (sha256 slib (lxml_document xlib p)) /\
    rows (syncdb w') TSyncObject ≡ₚ r :: rows (syncdb w) TSyncObject /\
    syncdisk w' = with_package (syncdisk w) R "ExCheckChecklist" cu (lxml_document xlib p).
Proof.
  intros [Hc HcE] Hq Hroom. set (doc := lxml_document xlib p).
  destruct (package_stored w R "ExCheckChecklist" cu doc "ExCheck" "application/xml" now [SText "Template"])
    as (r & o & s' & E1 & Hc' & Hrt & Hru & Hh & HT & Hd); [done..|by constructor; [right; eexists|]|].
  set (v1 := saved_values _ _ _ _ _ _ _ _) in *.
  set (asked := dset "creatorUid" (SText "ExCheck") (dset "mission_data_args"
    (mission_values description now [SDict []] [("classification", SText "UNCLASSIFIED")])
    (dset "mission_data" (SBytes "") (dset "mission_id" (SText cu) v1)))).
  set (w1 := at_sync s' (at_request v1 w)) in *. set (w2 := at_request asked w1).
  set (w3 := mkExcheckState s' (ec_db w) asked (ec_response w) (ec_asked w ++ [("PutMission", asked)])).
  exists r, asked, (mkExcheckState s' (ec_db w) asked (dset "checklist" (SBytes doc) (ec_response w)) (ec_asked w3)).
  split_and!; try done.
  - unfold finish. rewrite (run_bind _ _ w tt (at_request v1 w)) by done. rewrite (run_bind _ _ _ _ _ E1).
    rewrite (run_bind _ _ w1 tt w2) by done. by rewrite (run_bind _ _ w2 (ex_missions lib "PutMission" asked) w3).
  - unfold asked. by look.
Qed.

(** Of the tasks that were saved each has one object. *)
Lemma one_object (Q : string * xml -> row -> Prop) p us rs : Forall2 task_object us rs -> Forall2 Q us rs ->
  NoDup us.*1 -> p ∈ us ->
  exists r, r ∈ rs /\ task_object p r /\ Q p r /\
    forall r', r' ∈ rs -> cell "PrimaryKey" r' = DStr p.1 -> r' = r.
Proof.
  intros Hrs. induction Hrs as [|q r us rs Hq Hrs IH]; [by intros _ _ ?%not_elem_of_nil|].
  intros [HQ HQs]%Forall2_cons [Hnin Hnd]%NoDup_cons [->|Hp]%elem_of_cons.
  - exists r. split; [left|split; [done|split; [done|]]]. intros r' [->|Hr']%elem_of_cons Hk; [done|].
    destruct (related_elem _ _ _ _ Hrs Hr') as (p' & Hp' & _ & Hk'). destruct Hnin.
    apply list_elem_of_fmap. exists p'. split; [congruence|done].
  - destruct (IH HQs Hnd Hp) as (r' & Hr' & Hobj & HQ' & Hone). exists r'. split; [by right|split; [done|split; [done|]]].
    intros r2 [->|Hr2]%elem_of_cons Hk; [|by apply Hone]. destruct Hnin. apply list_elem_of_fmap.
    exists p. split; [|done]. destruct Hq as [_ Hq]. congruence.
Qed.

(** The tasks can be saved as new ones. *)
Definition savable w R (us : list (string * xml)) : Prop :=
  NoDup us.*1 /\ room_for (syncdisk w) R us /\ all_new (ec_db w) us /\
  forall p r, p ∈ us -> r ∈ rows (syncdb w) TSyncObject -> cell "PrimaryKey" r <> DStr p.1.

(** A checklist that is started from a template is stored, recorded and given a mission,
    and what the client is sent is the document that can be asked for from then on.  Each of
    its tasks is recorded, and has an object and a file of its own. *)
Theorem started_checklist_is_stored w R tpl rt b name description now cu e p tasks l us p' p'' : calm_both w ->
  only (syncdb w) tpl rt -> held slib (syncdisk w) R rt b -> valid_utf8 (chars b) = true ->
  lxml_fromstring xlib (SText (universal_newlines b)) = Ret e ->
  told (received (start_request tpl name description) w) now cu ->
  in_turn (made_of cu now name description) e = Ret p ->
  detail_text "uid" p = Ret (Some cu) -> child "checklistTasks" p = Ret tasks ->
  saved_as cu (x_kids tasks) l us -> at_child "checklistTasks" (fun t => Ret (with_kids l t)) p = Ret p' ->
  savable w R us -> cu ∉ us.*1 -> room slib (syncdisk w) R "ExCheckChecklist" cu ->
  valid_utf8 (chars (lxml_document xlib p')) = true ->
  et_fromstring xlib (SText (universal_newlines (lxml_document xlib p'))) = Ret p'' ->
  exists rc asked w',
    excheck_request slib lib StartChecklist (start_request tpl name description) w =
      (Ret [("template_data", SText (universal_newlines b)); ("checklist", SBytes (lxml_document xlib p'))], w') /\
    calm_both w' /\ ec_asked w' = ec_asked w ++ [("PutMission", asked)] /\ dget "mission_id" asked = Some (SText cu) /\
    is_Some (found (rows (ec_db w')) TChecklist "PrimaryKey" cu) /\
    only (syncdb w') cu rc /\ held slib (syncdisk w') R rc (lxml_document xlib p') /\
    Forall (fun q => taken (ec_db w') q.1 /\
      exists r, only (syncdb w') q.1 r /\ held slib (syncdisk w') R r (et_tostring xlib q.2)) us /\
    exists w'', excheck_request slib lib GetChecklist [("checklistuid", SText cu)] w' =
      (Ret [("checklist_data", SBytes (et_tostring xlib p''))], w'').
Proof.
  intros Hw Ho Hh Hb He Ht Hmade Huid Htasks Hsaved Hp' (Hnd & Hrooms & Hnew & Hobj) Hcu Hroom Hdoc Hback.
  set (v := start_request tpl name description) in *. set (doc := lxml_document xlib p') in *.
  destruct (start_begun w R tpl rt b name description now cu e p)
    as (w1 & E1 & Hw1 & Hq1 & Ha1 & Hp1 & Hr1 & Hd1 & Hf & Hk1 & HT1); [done..|].
  assert (Hnew1 : all_new (ec_db w1) us).
  { eapply Forall_impl; [exact Hnew|]. intros q Hn (r & Hr). apply Hn.
    apply found_Some in Hr as [Hr Hru]; [|apply Hw1|done]. rewrite HT1 in Hr by done. exists r.
    apply found_Some; [apply Hw|done|done]. }
  destruct (tasks_saved R cu _ _ _ Hsaved w1) as
    (rs & w2 & E2 & Hw2 & Hq2 & Ha2 & Hp2 & Hrs & HS2 & Hd2 & Hk2 & _ & HT2); [done..|by rewrite Hd1|done|].
  rewrite Hd1 in Hd2. rewrite Hr1 in HS2.
  assert (Hroom2 : room slib (syncdisk w2) R "ExCheckChecklist" cu) by (rewrite Hd2; by apply room_through).
  destruct (finished w2 R cu now (SText description) p' Hw2 Hq2 Hroom2)
    as (rc & asked & w3 & E3 & Hw3 & Hdb3 & Ha3 & Hm3 & Hp3 & Hct & Hcu3 & _ & HS3 & Hd3).
  assert (Hwhole : only (syncdb w3) cu rc).
  { split; [rewrite HS3; left|split; [done|]]. intros r Hr Hru. rewrite HS3, HS2 in Hr.
    apply elem_of_cons in Hr as [->|[Hr|Hr]%elem_of_app]; [done|..].
    - destruct (related_elem _ _ _ _ Hrs Hr) as (q & Hq & _ & Hk). destruct Hcu. apply list_elem_of_fmap.
      exists q. split; [congruence|done].
    - destruct Hf as [Hf _]. specialize (Hf TSyncObject r "PrimaryKey" Hr). rewrite Hru in Hf.
      cbn in Hf. by rewrite bool_decide_true in Hf. }
  exists rc, asked, w3. split_and!.
  - rewrite (request_run slib lib StartChecklist v w w3); [by rewrite Hp3, Hp2, Hp1|]. cbn [excheck_perform].
    fold v in E1. rewrite E1. unfold save_tasks_in_checklist.
    rewrite (run_bind _ _ w1 p' w2); [done|]. rewrite Huid, (run_bind (of_outcome (Ret _)) _ _ _ _ eq_refl).
    rewrite Htasks, (run_bind (of_outcome (Ret _)) _ _ _ _ eq_refl). rewrite (run_bind _ _ _ _ _ E2). by rewrite Hp'.
  - done.
  - by rewrite Ha3, Ha2, Ha1.
  - done.
  - rewrite Hdb3. destruct Hk1 as (r & Hr). exists r. apply found_Some in Hr as [Hr Hru]; [|apply Hw1|done].
    apply found_Some; [apply Hw2|done|]. by rewrite HT2.
  - done.
  - rewrite Hd3. by apply package_held.
  - apply Forall_forall. intros q Hq. rewrite Hdb3. split; [by apply (proj1 (Forall_forall _ _) Hk2)|].
    pose proof (tasks_held R us rs Hrs (syncdisk w) Hnd Hrooms) as Hheld.
    destruct (one_object _ q us rs Hrs Hheld Hnd Hq) as (r & Hr & [_ Hrk] & Hh' & Hone).
    assert (Hqc : q.1 <> cu) by (intros Eq; apply Hcu, list_elem_of_fmap; by exists q).
    exists r. split; [split; [rewrite HS3, HS2; right; by apply elem_of_app; left|split; [done|]]|].
    + intros r' Hr' Hk'. rewrite HS3, HS2 in Hr'. apply elem_of_cons in Hr' as [->|[Hr'|Hr']%elem_of_app]; [congruence|by apply Hone|].
      by apply (Hobj q r') in Hr'.
    + rewrite Hd3, Hd2. apply held_stays; [done|by apply room_through|congruence].
  - destruct (checklist_read slib lib w3 R cu rc doc p'' Hw3 Hwhole) as (w4 & E4 & _); [|done|done|by exists w4].
    rewrite Hd3. by apply package_held.
Qed.

(** The first task is one whose uid is taken: its file is saved, and that is all. *)
Lemma first_task_refused R cu os t l u t' : Forall (fun o => has_tag "checklistTask" o = false) os ->
  has_tag "checklistTask" t = true -> titled cu t u t' -> forall w, calm_both w -> quiet_request (ec_request w) ->
  room slib (syncdisk w) R task_type u -> taken (ec_db w) u ->
  exists x r w', save_tasks slib lib (Some cu) (os ++ t :: l) w = (Exn x, w') /\ is_Exception x = true /\
    calm_both w' /\ ec_asked w' = ec_asked w /\ ec_response w' = ec_response w /\ rows (ec_db w') = rows (ec_db w) /\
    cell "PrimaryKey" r = DStr u /\ rows (syncdb w') TSyncObject ≡ₚ r :: rows (syncdb w) TSyncObject /\
    syncdisk w' = with_package (syncdisk w) R task_type u (et_tostring xlib t').
Proof.
  intros Hos Ht Htu w [Hc HcE] Hq Hroom Htaken.
  destruct (task_stored w R cu t u t') as (r & w1 & E1 & Hc1 & _ & Hdb1 & Ha1 & Hr1 & _ & Hru & HT1 & Hd1); [done..|].
  rewrite <- Hdb1 in HcE, Htaken.
  destruct (task_refused w1 cu u HcE Htaken) as (x & e2 & E2 & Hx & Hc2 & Hrows2).
  exists x, r, (at_db e2 w1). split; [|split_and!; try done; by rewrite <- Hdb1].
  induction Hos as [|o os Ho _ IH]; cbn [app save_tasks].
  - rewrite Ht. rewrite (run_bind_exn _ _ _ x (at_db e2 w1)); [done|]. by rewrite E1, (run_bind_exn _ _ _ _ _ E2).
  - rewrite Ho. by rewrite (run_bind_exn _ _ _ _ _ IH).
Qed.

(** The tasks of a checklist keep the uids of the template's, and a uid can be recorded
    once.  So a checklist is not started when the uid of its first task is taken, as it is from
    the first checklist of the template on: no mission is asked for, and what has the uid of
    the checklist is its record only.  But the file of the task, which is that of the first
    checklist too, is written over, and the task has an object more. *)
Theorem second_checklist_is_not_started w R tpl rt b name description now cu e p tasks os t l u t' : calm_both w ->
  only (syncdb w) tpl rt -> held slib (syncdisk w) R rt b -> valid_utf8 (chars b) = true ->
  lxml_fromstring xlib (SText (universal_newlines b)) = Ret e ->
  told (received (start_request tpl name description) w) now cu ->
  in_turn (made_of cu now name description) e = Ret p ->
  detail_text "uid" p = Ret (Some cu) -> child "checklistTasks" p = Ret tasks ->
  x_kids tasks = os ++ t :: l -> Forall (fun o => has_tag "checklistTask" o = false) os ->
  has_tag "checklistTask" t = true -> titled cu t u t' -> u <> cu -> taken (ec_db w) u ->
  room slib (syncdisk w) R task_type u ->
  exists r w', excheck_request slib lib StartChecklist (start_request tpl name description) w =
      (Ret [("template_data", SText (universal_newlines b))], w') /\
    calm_both w' /\ ec_asked w' = ec_asked w /\
    is_Some (found (rows (ec_db w')) TChecklist "PrimaryKey" cu) /\
    (forall r', r' ∈ rows (syncdb w') TSyncObject -> cell "PrimaryKey" r' <> DStr cu) /\
    cell "PrimaryKey" r = DStr u /\ rows (syncdb w') TSyncObject ≡ₚ r :: rows (syncdb w) TSyncObject /\
    syncdisk w' = with_package (syncdisk w) R task_type u (et_tostring xlib t').
Proof.
  intros Hw Ho Hh Hb He Ht Hmade Huid Htasks Hkids Hos Htag Htu Hne Htaken Hroom.
  set (v := start_request tpl name description) in *.
  destruct (start_begun w R tpl rt b name description now cu e p)
    as (w1 & E1 & Hw1 & Hq1 & Ha1 & Hp1 & Hr1 & Hd1 & Hf & Hk1 & HT1); [done..|].
  destruct (first_task_refused R cu os t l u t' Hos Htag Htu w1 Hw1 Hq1)
    as (x & r & w2 & E2 & Hx & Hw2 & Ha2 & Hp2 & Hrows2 & Hru & HS2 & Hd2); [by rewrite Hd1| |].
  { destruct Htaken as (r & Hr). exists r. apply found_Some in Hr as [Hr Hrk]; [|apply Hw|done].
    apply found_Some; [apply Hw1|done|]. by rewrite HT1. }
  rewrite Hr1 in HS2. rewrite Hd1 in Hd2. exists r, w2. split_and!; [|done| | | |done|done|done].
  - rewrite (request_fails slib lib StartChecklist v w x w2); [by rewrite Hp2, Hp1| |done]. cbn [excheck_perform].
    fold v in E1. rewrite E1. rewrite (run_bind_exn _ _ w1 x w2); [done|]. unfold save_tasks_in_checklist.
    rewrite Huid, (run_bind (of_outcome (Ret _)) _ _ _ _ eq_refl).
    rewrite Htasks, (run_bind (of_outcome (Ret _)) _ _ _ _ eq_refl). rewrite Hkids.
    by rewrite (run_bind_exn _ _ _ _ _ E2).
  - by rewrite Ha2, Ha1.
  - by rewrite Hrows2.
  - intros r' Hr' Hk'. rewrite HS2 in Hr'. apply elem_of_cons in Hr' as [->|Hr']; [congruence|].
    destruct Hf as [Hf _]. specialize (Hf TSyncObject r' "PrimaryKey" Hr'). rewrite Hk' in Hf.
    cbn in Hf. by rewrite bool_decide_true in Hf.
Qed.

(** A checklist that comes with its content is never started. *)
Lemma content_starts_nothing w (v : values) content : opt "checklist_content" (SBytes "") v = content ->
  content <> SBytes "" -> (forall x, lxml_fromstring xlib content = Exn x -> is_Exception x = true) ->
  excheck_request slib lib StartChecklist v w = (Ret [], received v w).
Proof.
  intros Hv Hne Hx.
  assert (Hfail : exists x, start_checklist slib lib v (received v w) = (Exn x, received v w) /\ is_Exception x = true).
  { unfold start_checklist, arg. destruct (dget "templateuid" v) as [tpl|]; [|by exists TypeError].
    destruct (dget "checklistname" v) as [name|]; [|by exists TypeError].
    destruct (dget "checklist_description" v) as [description|]; [|by exists TypeError].
    cbn [from_option]. do 3 rewrite (run_bind (of_outcome (Ret _)) _ _ _ _ eq_refl). rewrite Hv.
    assert (exists x, from_content lib content (received v w) = (Exn x, received v w) /\ is_Exception x = true) as (x & E1 & He).
    { unfold from_content. destruct (lxml_fromstring xlib content) as [e|x] eqn:E0; [|exists x; split; [done|by apply Hx]].
      rewrite (run_bind (of_outcome (Ret _)) _ _ _ _ eq_refl). destruct content; by eexists. }
    exists x. split; [|done]. apply run_bind_exn. by destruct content as [| | | |[|]| | | |]. }
  destruct Hfail as (x & E1 & He). exact (request_fails slib lib StartChecklist v w x _ E1 He).
Qed.
End Starts.
