(* ===== verification/ExcheckHttp.v ===== *)
(** The endpoints through which clients reach the checklists: the blueprints of the HTTP and
    the HTTPS service ([services/http_tak_api_service], [services/https_tak_api_service]); with
    what a client sees of a checklist that is started, and of a task that is put. *)
From Stdlib Require Import ZArith Lia Ascii String.
From stdpp Require Import base strings list pretty.
From S2P Require Import Prelude.
From S2P Require Import MainConfig.
From S2P Require Import RestGeo.
From S2P Require Import MissionDb.
From S2P Require Import MissionStore.
From S2P Require Import MissionFacts.
From S2P Require Import SyncFiles.
From S2P Require Import SyncStore.
From S2P Require Import SyncHttp.
From S2P Require Import SyncPaths.
From S2P Require Import SyncFacts.
From S2P Require Import SyncUploads.
From S2P Require Import ExcheckXml.
From S2P Require Import ExcheckControllers.
From S2P Require Import ExcheckProps.
From S2P Require Import ExcheckStarts.

Set Default Proof Using "Type".
Local Open Scope string_scope.
Local Open Scope list_scope.
Local Open Scope py_scope.

(** The values of the response of a request nobody waits for, where DigitalPy has them. *)
Definition later_response : Type := values -> option values.

Section Http.
Context {S E : Type} `{Orm S} `{Orm E} (slib : sync_library) (lib : excheck_library) (later : later_response).

Abbreviation MX := (M (excheck_state S E)).
Abbreviation call := (excheck_request slib lib).

(** What a view returns: text and bytes are sent alike, and Flask raises where there is
    neither. *)
Definition body_of (v : sval) (status : Z) : MX web_answer :=
  match v with
  | SText s | SBytes s => mret (mkAnswer (BText s) status)
  | _ => raise TypeError
  end.
Definition nothing_else (status : Z) : MX web_answer := mret (mkAnswer (BText "") status).

(** What is asked of the missions beside the checklists. *)
Definition ask_missions (a : string) (v : values) : MX unit :=
  modify (fun w => mkExcheckState (ec_sync w) (ec_db w) (ec_request w) (ec_response w) (ec_asked w ++ [(a, v)])).

(** The notifications that follow look only. *)
Definition updatetemplate (checklistid taskid : string) (q : web_request) : MX web_answer :=
  try: (call UpdateChecklistTask [("checklistuid", SText checklistid); ("checklisttaskuid", SText taskid);
          ("checklisttaskdata", SBytes (w_data q))] ;;;
        nothing_else 200)
  except: nothing_else 500.

Definition get_checklist_task (checklistid taskid : string) : MX web_answer :=
  response <- call GetChecklistTask [("checklistuid", SText checklistid); ("checklisttaskuid", SText taskid)] ;;
  body_of (get_value "checklist_task_data" response) 200.

Definition activechecklists : MX web_answer :=
  try: (response <- call GetChecklists [] ;; body_of (get_value "checklists" response) 200)
  except: nothing_else 500.

(** Flask looks at what is returned when the view is done. *)
Definition accesschecklist (checklistid : string) : MX web_answer :=
  v <- try_except (response <- call GetChecklist [("checklistuid", SText checklistid)] ;;
             mret (get_value "checklist_data" response, 200%Z))
         (fun _ => mret (SText "", 500%Z)) ;;
  body_of v.1 v.2.

Definition startList (subscription : string) (q : web_request) : MX web_answer :=
  v <- try_except (response <- call StartChecklist [("templateuid", SText subscription);
               ("checklistname", web_arg "name" q); ("checklist_description", web_arg "description" q)] ;;
             mret (get_value "checklist" response, 200%Z))
         (fun _ => mret (SText "", 500%Z)) ;;
  body_of v.1 v.2.

Definition template (q : web_request) : MX web_answer :=
  let creator := match dget "creatorUid" (w_args q) with
                 | Some c => SText c | None => web_arg_or "clientUid" "" q end in
  try: (call CreateTemplate [("templatedata", SBytes (w_data q)); ("creator_uid", creator)] ;;;
        mret (mkAnswer (BText "done") 200))
  except: nothing_else 500.

Definition get_template (templateUid : string) : MX web_answer :=
  v <- try_except (response <- call GetTemplate [("templateuid", SText templateUid)] ;;
             response <- of_option AttributeError (later response) ;;
             mret (get_value "template_data" response, 200%Z))
         (fun _ => mret (SText "", 500%Z)) ;;
  body_of v.1 v.2.

Definition add_checklist_to_mission (checklist_id mission_id : string) (q : web_request) : MX web_answer :=
  try: (call AddChecklistToMission [("checklist_id", SText checklist_id); ("mission_id", SText mission_id);
          ("client_uid", web_arg_or "clientUid" "" q)] ;;;
        ask_missions "MissionExternalDataCreatedNotification"
          [("external_data_id", SText checklist_id); ("mission_id", SText mission_id)] ;;;
        nothing_else 200)
  except: nothing_else 500.

Inductive checklist_route :=
  | TaskPut (checklistid taskid : string) | TaskGet (checklistid taskid : string) | ActiveGet
  | ChecklistGet (checklistid : string) | StartPost (subscription : string) | TemplatePost
  | TemplateGet (templateUid : string) | ChecklistMissionPut (checklist_id mission_id : string).

Definition checklist_view (r : checklist_route) (q : web_request) : MX web_answer :=
  match r with
  | TaskPut c t => updatetemplate c t q
  | TaskGet c t => get_checklist_task c t
  | ActiveGet => activechecklists
  | ChecklistGet c => accesschecklist c
  | StartPost s => startList s q
  | TemplatePost => template q
  | TemplateGet t => get_template t
  | ChecklistMissionPut c m => add_checklist_to_mission c m q
  end.
End Http.

Set Default Proof Using "Type*".

Section Props.
Context {S E : Type} `{OrmLaws S, !OrmReliable S} `{OrmLaws E, !OrmReliable E}.
Context (slib : sync_library) (lib : excheck_library) (later : later_response).
Implicit Types (w : excheck_state S E).

Abbreviation xlib := (ex_xml lib).
Abbreviation syncdb w := (sy_db (ec_sync w)).
Abbreviation syncdisk w := (sy_disk (ec_sync w)).
Abbreviation view := (checklist_view slib lib later).

Lemma checklist_served w w' cu q v body : 
  excheck_request slib lib GetChecklist [("checklistuid", SText cu)] w = (Ret v, w') ->
  dget "checklist_data" v = Some (SBytes body) ->
  view (ChecklistGet cu) q w = (Ret (mkAnswer (BText body) 200), w').
Proof.
  intros E1 Hv. cbn [checklist_view]. unfold accesschecklist.
  rewrite (run_bind _ _ w (SBytes body, 200%Z) w'); [done|]. apply try_except_ret.
  rewrite (run_bind _ _ _ _ _ E1). unfold get_value, opt. by rewrite Hv.
Qed.

(** C13: A checklist that is started with a POST is answered with its document, which a GET is
    answered with from then on, over HTTP and HTTPS; it is recorded and a mission is asked for;
    and each of its tasks is recorded, and has an object and a file of its own. *)
Theorem started_checklist_is_served w R tpl rt b q q' name description now cu e p tasks l us p' p'' : calm_both w ->
  web_arg "name" q = SText name -> web_arg "description" q = SText description ->
  only (syncdb w) tpl rt -> held slib (syncdisk w) R rt b -> valid_utf8 (chars b) = true ->
  lxml_fromstring xlib (SText (universal_newlines b)) = Ret e ->
  told lib (received (start_request tpl name description) w) now cu ->
  in_turn (made_of lib cu now name description) e = Ret p ->
  detail_text "uid" p = Ret (Some cu) -> child "checklistTasks" p = Ret tasks ->
  saved_as lib cu (x_kids tasks) l us -> at_child "checklistTasks" (fun t => Ret (with_kids l t)) p = Ret p' ->
  savable slib w R us -> cu ∉ us.*1 -> room slib (syncdisk w) R "ExCheckChecklist" cu ->
  valid_utf8 (chars (lxml_document xlib p')) = true ->
  et_fromstring xlib (SText (universal_newlines (lxml_document xlib p'))) = Ret p'' ->
  exists asked w' w'', view (StartPost tpl) q w = (Ret (mkAnswer (BText (lxml_document xlib p')) 200), w') /\
    calm_both w' /\ ec_asked w' = ec_asked w ++ [("PutMission", asked)] /\ dget "mission_id" asked = Some (SText cu) /\
    is_Some (found (rows (ec_db w')) TChecklist "PrimaryKey" cu) /\
    Forall (fun t => taken (ec_db w') t.1 /\
      exists r, only (syncdb w') t.1 r /\ held slib (syncdisk w') R r (et_tostring xlib t.2)) us /\
    view (ChecklistGet cu) q' w' = (Ret (mkAnswer (BText (et_tostring xlib p'')) 200), w'').
Proof.
  intros Hw Hname Hdesc Ho Hh Hb He Ht Hmade Huid Htasks Hsaved Hp' Hus Hcu Hroom Hdoc Hback.
  destruct (started_checklist_is_stored slib lib w R tpl rt b name description now cu e p tasks l us p' p'')
    as (rc & asked & w' & E1 & Hw' & Ha & Hm & Hf & _ & _ & Hk & w'' & E2); [done..|].
  exists asked, w', w''. split_and!; [|done..|by apply (checklist_served w' w'' cu q' _ _ E2)].
  cbn [checklist_view]. unfold startList. rewrite Hname, Hdesc.
  rewrite (run_bind _ _ w (SBytes (lxml_document xlib p'), 200%Z) w'); [done|]. apply try_except_ret.
  by rewrite (run_bind _ _ _ _ _ E1).
Qed.

(** C14: A task that is put is answered with success, and a GET for it and one for its checklist
    are from then on answered with what the adapter made of it and with the checklist that has
    it in the place of the old one, at the end of its tasks.  But the record of the checklist
    gets the digest of the task for its own, and both records become public. *)
Theorem put_task_is_served w R tu cu rt rc tt tc q q' b cb ce ce' : calm_both w ->
  only (syncdb w) tu rt -> only (syncdb w) cu rc -> tu <> cu ->
  cell "file_type" rt = DStr tt -> cell "file_type" rc = DStr tc ->
  room slib (syncdisk w) R tt tu -> room slib (syncdisk w) R tc cu -> held slib (syncdisk w) R rc cb ->
  standardize_task xlib (SBytes (w_data q)) = Ret b -> unix_text b ->
  valid_utf8 (chars cb) = true -> et_fromstring xlib (SText (universal_newlines cb)) = Ret ce ->
  replace_task lib tu (SBytes b) ce = Ret ce' -> unix_text (et_tostring xlib ce') ->
  et_fromstring xlib (SText (et_tostring xlib ce')) = Ret ce' ->
  exists rt' rc' w' w1 w2, view (TaskPut cu tu) q w = (Ret (mkAnswer (BText "") 200), w') /\ calm_both w' /\
    view (TaskGet cu tu) q' w' = (Ret (mkAnswer (BText b) 200), w1) /\
    view (ChecklistGet cu) q' w' = (Ret (mkAnswer (BText (et_tostring xlib ce')) 200), w2) /\
    only (syncdb w') tu rt' /\ cell "hash" rt' = DStr (sha256 slib b) /\ cell "private" rt' = DInt 0 /\
    only (syncdb w') cu rc' /\ cell "hash" rc' = DStr (sha256 slib b) /\ cell "private" rc' = DInt 0.
Proof.
  intros Hw Ht Hcl Hne Htt Htc Hroomt Hroomc Hheld Hstd Hb Hcb Hce Hrep Hdoc Hback.
  destruct (updated_task_is_stored slib lib w R tu cu rt rc tt tc (w_data q) b cb ce ce')
    as (rt' & rc' & w' & E1 & Hw' & _ & Ho1 & Hh1 & Hd1 & Hpr1 & Ho2 & _ & Hd2 & Hpr2 & w2 & E2); [done..|].
  destruct Hb as (Hb1 & _ & Hb3).
  destruct (task_read slib lib w' R cu tu rt' b Hw' Ho1 Hh1 Hb1) as (w1 & E3 & _).
  exists rt', rc', w', w1, w2. split_and!; [|done| |by apply (checklist_served w' w2 cu q' _ _ E2)|done..].
  - cbn [checklist_view]. unfold updatetemplate. apply try_except_ret. by rewrite (run_bind _ _ _ _ _ E1).
  - cbn [checklist_view]. unfold get_checklist_task. rewrite (run_bind _ _ _ _ _ E3). by rewrite Hb3.
Qed.

(** C22: The tasks of a checklist keep the uids of the template's, and a uid can be recorded
    once.  So who starts a checklist is answered with a server error when the uid of its first
    task is taken, as it is from the first checklist of the template on: no mission is asked
    for, and what has the uid of the checklist is its record only.  But the file of the task,
    which is that of the first checklist too, is written over, and the task has an object
    more. *)
Theorem second_checklist_is_refused w R tpl rt b q name description now cu e p tasks os t l u t' : calm_both w ->
  web_arg "name" q = SText name -> web_arg "description" q = SText description ->
  only (syncdb w) tpl rt -> held slib (syncdisk w) R rt b -> valid_utf8 (chars b) = true ->
  lxml_fromstring xlib (SText (universal_newlines b)) = Ret e ->
  told lib (received (start_request tpl name description) w) now cu ->
  in_turn (made_of lib cu now name description) e = Ret p ->
  detail_text "uid" p = Ret (Some cu) -> child "checklistTasks" p = Ret tasks ->
  x_kids tasks = os ++ t :: l -> Forall (fun o => has_tag "checklistTask" o = false) os ->
  has_tag "checklistTask" t = true -> titled lib cu t u t' -> u <> cu -> taken (ec_db w) u ->
  room slib (syncdisk w) R task_type u ->
  exists r w', view (StartPost tpl) q w = (Exn TypeError, w') /\ calm_both w' /\ ec_asked w' = ec_asked w /\
    is_Some (found (rows (ec_db w')) TChecklist "PrimaryKey" cu) /\
    (forall r', r' ∈ rows (syncdb w') TSyncObject -> cell "PrimaryKey" r' <> DStr cu) /\
    cell "PrimaryKey" r = DStr u /\ rows (syncdb w') TSyncObject ≡ₚ r :: rows (syncdb w) TSyncObject /\
    syncdisk w' = with_package (syncdisk w) R task_type u (et_tostring xlib t').
Proof.
  intros Hw Hname Hdesc Ho Hh Hb He Ht Hmade Huid Htasks Hkids Hos Htag Htu Hne Htaken Hroom.
  destruct (second_checklist_is_not_started slib lib w R tpl rt b name description now cu e p tasks os t l u t')
    as (r & w' & E1 & Hrest); [done..|].
  exists r, w'. split; [|done]. cbn [checklist_view]. unfold startList. rewrite Hname, Hdesc.
  rewrite (run_bind _ _ w (SNone, 200%Z) w'); [done|]. apply try_except_ret. by rewrite (run_bind _ _ _ _ _ E1).
Qed.

(** Whatever becomes of a task or of a template that a client sends, it is answered with
    success, unless the exception is one nobody catches. *)
Lemma sent_documents_are_welcomed r q w :
  match r with TaskPut _ _ | TemplatePost => True | _ => False end ->
  (exists a, (view r q w).1 = Ret a /\ wa_status a = 200%Z) \/ exists e, (view r q w).1 = Exn e /\ is_Exception e = false.
Proof.
  assert (Hcall : forall a v, exists o w', excheck_request slib lib a v w = (o, w') /\
    match o with Ret _ => True | Exn e => is_Exception e = false end).
  { intros a v. unfold excheck_request. rewrite (run_bind _ _ w tt (received v w)) by done.
    unfold excheck_execute. destruct (excheck_perform slib lib a v (received v w)) as [[[]|e] w1] eqn:Ep.
    - exists (Ret (ec_response w1)), w1. split; [|done]. rewrite (run_bind _ _ (received v w) tt w1); [done|].
      rewrite (run_bind _ _ (received v w) v (received v w)) by done. by apply try_except_ret.
    - destruct (is_Exception e) eqn:He.
      + exists (Ret (ec_response w1)), w1. split; [|done]. rewrite (run_bind _ _ (received v w) tt w1); [done|].
        rewrite (run_bind _ _ (received v w) v (received v w)) by done. unfold try_except, try_with. by rewrite Ep, He.
      + exists (Exn e), w1. split; [|done]. apply run_bind_exn.
        rewrite (run_bind _ _ (received v w) v (received v w)) by done. unfold try_except, try_with. by rewrite Ep, He. }
  destruct r; try done; intros _; cbn [checklist_view]; unfold updatetemplate, template.
  all: match goal with |- context [excheck_request slib lib ?a ?v] => destruct (Hcall a v) as ([x|e] & w' & E1 & He) end.
  all: unfold try_except, try_with; first [rewrite (run_bind _ _ _ _ _ E1)|rewrite (run_bind_exn _ _ _ _ _ E1)].
  all: first [left; by eexists|right; exists e; by rewrite He].
Qed.
End Props.
