(* ===== verification/ExcheckSample.v ===== *)
(** Small checklists, and the theorems on the checklists applied to them. *)
From Stdlib Require Import ZArith Lia Ascii String.
From stdpp Require Import base strings list sets pretty.
From S2P Require Import Prelude.
From S2P Require Import MainConfig.
From S2P Require Import RestGeo.
From S2P Require Import MissionDb.
From S2P Require Import MissionStore.
From S2P Require Import MissionList.
From S2P Require Import MissionFacts.
From S2P Require Import MissionSample.
From S2P Require Import SyncFiles.
From S2P Require Import SyncStore.
From S2P Require Import SyncHttp.
From S2P Require Import SyncPaths.
From S2P Require Import SyncFacts.
From S2P Require Import SyncSample.
From S2P Require Import SyncUploads.
From S2P Require Import ExcheckStore.
From S2P Require Import ExcheckXml.
From S2P Require Import ExcheckControllers.
From S2P Require Import ExcheckProps.
From S2P Require Import ExcheckStarts.
From S2P Require Import ExcheckHttp.

Local Open Scope string_scope.
Local Open Scope list_scope.

(** * Documents *)

(** An element as text, without attributes; and a parser that knows some documents. *)
Fixpoint printed (e : xml) : string :=
  ("<" ++ x_tag e ++ ">" ++ default "" (x_text e) ++
   (fix all (l : list xml) : string := match l with [] => "" | e :: l => printed e ++ all l end) (x_kids e) ++
   "</" ++ x_tag e ++ ">")%string.
Definition parsed_by (known : list xml) (v : sval) : outcome xml :=
  match v with
  | SText s | SBytes s => match List.find (fun e => String.eqb (printed e) s) known with
                          | Some e => Ret e | None => Exn ValueError end
  | _ => Exn ValueError
  end.
Definition xml_lib (known : list xml) : xml_library := {|
  lxml_fromstring := parsed_by known;
  et_fromstring := parsed_by known;
  lxml_tostring := printed;
  lxml_document := printed;
  lxml_standalone := printed;
  et_tostring := printed;
  takes_text _ := true |}.
Definition checklist_lib (known : list xml) : excheck_library := {|
  ex_xml := xml_lib known;
  ex_dtg := pretty;
  ex_missions _ _ := [];
  ex_address := "127.0.0.1";
  ex_port := 8443 |}.

Definition parent (tag : string) (l : list xml) : xml := Elem tag [] None l None.
Definition leaf (tag text : string) : xml := element tag (Some text).
Definition sample_task (u : string) (more : list xml) : xml := parent "checklistTask" (leaf "uid" u :: more).
Definition sample_checklist (u name description start : string) (tasks : list xml) : xml :=
  parent "checklist" [parent "checklistDetails" [leaf "uid" u; leaf "name" name; leaf "description" description;
    leaf "startTime" start; leaf "creatorCallsign" "me"]; parent "checklistTasks" tasks].

(** A template with a task, as it is posted and as it is stored. *)
Definition posted_template : xml := sample_checklist "tpl" "N" "D" "" [sample_task "t" []].
Definition stored_template : xml := sample_checklist "tpl" "N" "D" "" [sample_task "t" [leaf "number" "0"]].

(** A checklist of it, its task, and the task when it has been done. *)
Definition started_task : xml := sample_task "t" [leaf "number" "0"; leaf "number" "0"].
Definition started (u name description start : string) : xml := sample_checklist u name description start [started_task].
Definition done_task : xml := sample_task "t" [leaf "Status" "Complete"; leaf "CompleteDTG" "5"].
Definition kept_task : xml := sample_task "t" [leaf "completeDTG" "5"].

(** * Stores *)

Definition both_of (rs : list row) (d : disk) (es : list row) : excheck_state list_db list_db :=
  mkExcheckState (store_of rs d) (database es) [] [] [].
Definition object_of (u t : string) : draft :=
  with_cell "private" (DInt 1) (with_cell "hash" (DStr "h") (with_cell "PrimaryKey" (DStr u)
    (with_cell "file_type" (DStr t) (new TSyncObject)))).
Definition after (rs : list row) (d : draft) : row := new_row 0 (l_rows (database rs)) d.

Lemma both_calm rs d es : consistent (l_rows (database rs)) = true -> consistent (l_rows (database es)) = true ->
  calm_both (both_of rs d es).
Proof. intros H1 H2. split; by apply database_calm. Qed.

(** There is room in a directory below that of the sync for a file, with these names. *)
Ltac plain := split; by apply (bool_decide_unpack _).
Ltac has_room :=
  split; [split; [done|split; [split; [plain|done]|first [left; reflexivity|right; done]]]|split; [plain|done]].
(** The only object there is, or the only one with its uid. *)
Ltac only_one :=
  intros r' Hr'; repeat (apply elem_of_cons in Hr' as [->|Hr']); [try done..|by apply not_elem_of_nil in Hr'].

(** * Templates and tasks *)

Definition template_lib : excheck_library := checklist_lib [posted_template].

Lemma posted_numbered : with_numbers posted_template stored_template.
Proof.
  exists [List.hd started_task (x_kids posted_template)], (parent "checklistTasks" [sample_task "t" []]), [],
    [sample_task "t" [leaf "number" "0"]].
  split; [reflexivity|]. split; [reflexivity|].
  split; [intros c ->%list_elem_of_singleton; discriminate|]. split; [|reflexivity].
  constructor; [|constructor]. left. split; [reflexivity|]. right. split; [|reflexivity].
  intros c ->%list_elem_of_singleton. discriminate.
Qed.

Lemma posted_template_is_returned_witness :
  exists w' w'', excheck_request sync_lib template_lib CreateTemplate (template_request (printed posted_template) "me")
      (both_of [] bare_disk []) = (Ret [], w') /\
    excheck_request sync_lib template_lib GetTemplate [("templateuid", SText "tpl")] w' =
      (Ret [("template_data", SText (printed stored_template))], w'').
Proof.
  destruct (posted_template_is_returned sync_lib template_lib (both_of [] bare_disk []) ["sync"] (printed posted_template)
    "me" posted_template stored_template "tpl" (Some "N") (Some "D") (Some "me")) as (asked & w' & w'' & E1 & _ & _ & _ & _ & E2).
  - by apply both_calm.
  - reflexivity.
  - exact posted_numbered.
  - reflexivity.
  - reflexivity.
  - reflexivity.
  - reflexivity.
  - has_room.
  - split; [reflexivity|split; reflexivity].
  - intros r Hr. by apply not_elem_of_nil in Hr.
  - exists w', w''. split; [exact E1|exact E2].
Defined.

Definition whole : xml := started "c" "N" "D" "5".
Definition whole_done : xml := sample_checklist "c" "N" "D" "5" [kept_task].
Definition update_lib : excheck_library := checklist_lib [done_task; kept_task; whole; whole_done].

Definition task_row : row := stored (object_of "t" "ExCheckChecklistTask").
Definition whole_row : row := after [task_row] (object_of "c" "ExCheckChecklist").
Definition whole_disk : disk :=
  mkDisk [(["sync"; "ExCheckChecklist"; "c.txt"], printed whole)] [["sync"]; ["sync"; "ExCheckChecklist"]].

(** Requests of a client, where DigitalPy keeps nothing of what nobody waits for. *)
Definition sent (args : list (string * string)) (data : string) : web_request := mkWebRequest args data [] None.
Definition nothing_kept : later_response := fun _ => None.

Lemma put_task_is_served_witness :
  exists rc w' w1 w2,
    checklist_view sync_lib update_lib nothing_kept (TaskPut "c" "t") (sent [] (printed done_task))
      (both_of [task_row; whole_row] whole_disk []) = (Ret (mkAnswer (BText "") 200), w') /\
    checklist_view sync_lib update_lib nothing_kept (TaskGet "c" "t") (sent [] "") w' =
      (Ret (mkAnswer (BText (printed kept_task)) 200), w1) /\
    checklist_view sync_lib update_lib nothing_kept (ChecklistGet "c") (sent [] "") w' =
      (Ret (mkAnswer (BText (printed whole_done)) 200), w2) /\
    cell "hash" rc = DStr ("digest of " ++ printed kept_task)%string.
Proof.
  destruct (put_task_is_served sync_lib update_lib nothing_kept (both_of [task_row; whole_row] whole_disk []) ["sync"] "t" "c"
    task_row whole_row "ExCheckChecklistTask" "ExCheckChecklist" (sent [] (printed done_task)) (sent [] "")
    (printed kept_task) (printed whole) whole whole_done)
    as (rt' & rc' & w' & w1 & w2 & E1 & _ & E2 & E3 & _ & _ & _ & _ & Hh & _).
  - by apply both_calm.
  - split; [left|split; [reflexivity|only_one]].
  - split; [right; left|split; [reflexivity|only_one]].
  - discriminate.
  - reflexivity.
  - reflexivity.
  - has_room.
  - has_room.
  - exists "ExCheckChecklist", "c". split; [done|]. split; [done|]. split; [done|].
    split; [split; [plain|done]|]. split; [done|]. split; [plain|done].
  - reflexivity.
  - split; [reflexivity|split; reflexivity].
  - reflexivity.
  - reflexivity.
  - reflexivity.
  - split; [reflexivity|split; reflexivity].
  - reflexivity.
  - exists rc', w', w1, w2. split; [exact E1|split; [exact E2|split; [exact E3|exact Hh]]].
Defined.

(** * Checklists that are started *)

Definition template_row : row := stored (object_of "tpl" "ExCheckTemplate").
Definition template_disk : disk :=
  mkDisk [(["sync"; "ExCheckTemplate"; "tpl.txt"], printed stored_template)] [["sync"]; ["sync"; "ExCheckTemplate"]].
Definition first_state (es : list row) : excheck_state list_db list_db := both_of [template_row] template_disk es.
Definition sample_cu : string := letters (longest (l_rows (database [template_row]))).
Definition of_template : xml := started sample_cu "name" "what" "0".
Definition start_lib : excheck_library := checklist_lib [stored_template; sample_task "t" [leaf "number" "0"]; of_template].
Definition tasks_of_template : xml := parent "checklistTasks" [started_task].

Lemma template_told es : told start_lib (received (start_request "tpl" "name" "what") (first_state es)) "0" sample_cu.
Proof. eexists. reflexivity. Qed.
Lemma template_only es : only (sy_db (ec_sync (first_state es))) "tpl" template_row.
Proof. split; [left|split; [reflexivity|only_one]]. Qed.
Lemma template_held es : held sync_lib (sy_disk (ec_sync (first_state es))) ["sync"] template_row (printed stored_template).
Proof.
  exists "ExCheckTemplate", "tpl". split; [done|]. split; [done|]. split; [done|].
  split; [split; [plain|done]|]. split; [done|]. split; [plain|done].
Qed.
Lemma task_titled : titled start_lib sample_cu started_task "t" started_task.
Proof. split; [done|]. by exists started_task. Qed.

Definition start_sent : web_request := sent [("name", "name"); ("description", "what")] "".

Lemma started_checklist_is_served_witness :
  exists w' w'',
    checklist_view sync_lib start_lib nothing_kept (StartPost "tpl") start_sent (first_state []) =
      (Ret (mkAnswer (BText (printed of_template)) 200), w') /\
    taken (ec_db w') "t" /\
    checklist_view sync_lib start_lib nothing_kept (ChecklistGet sample_cu) (sent [] "") w' =
      (Ret (mkAnswer (BText (printed of_template)) 200), w'').
Proof.
  destruct (started_checklist_is_served sync_lib start_lib nothing_kept (first_state []) ["sync"] "tpl" template_row
    (printed stored_template) start_sent (sent [] "") "name" "what" "0" sample_cu stored_template of_template
    tasks_of_template [started_task] [("t", started_task)] of_template of_template)
    as (asked & w' & w'' & E1 & _ & _ & _ & _ & Hk & E2).
  - by apply both_calm.
  - reflexivity.
  - reflexivity.
  - apply template_only.
  - apply template_held.
  - reflexivity.
  - reflexivity.
  - apply template_told.
  - reflexivity.
  - reflexivity.
  - reflexivity.
  - apply saved_task; [reflexivity|apply task_titled|apply saved_nil].
  - reflexivity.
  - split; [by apply (bool_decide_unpack _)|split; [apply Forall_cons; split; [has_room|by apply Forall_nil]|split]].
    + apply Forall_cons. split; [|by apply Forall_nil]. by intros [r Hr].
    + intros p r [->|Hp]%elem_of_cons Hr; [|by apply not_elem_of_nil in Hp]. revert r Hr. only_one.
  - by apply (bool_decide_unpack _).
  - has_room.
  - reflexivity.
  - reflexivity.
  - exists w', w''. split; [exact E1|split; [|exact E2]]. apply Forall_cons in Hk as [[Hk _] _]. exact Hk.
Defined.

Definition taken_row : row :=
  stored (with_cell "checklist_uid" (DStr "first") (with_cell "PrimaryKey" (DStr "t") (new TChecklistTask))).

Lemma second_checklist_is_refused_witness :
  exists w', checklist_view sync_lib start_lib nothing_kept (StartPost "tpl") start_sent (first_state [taken_row]) =
      (Exn TypeError, w') /\ ec_asked w' = [] /\
    dget ["sync"; "ExCheckChecklistTask"; "t.txt"] (d_files (sy_disk (ec_sync w'))) = Some (printed started_task).
Proof.
  destruct (second_checklist_is_refused sync_lib start_lib nothing_kept (first_state [taken_row]) ["sync"] "tpl" template_row
    (printed stored_template) start_sent "name" "what" "0" sample_cu stored_template of_template tasks_of_template []
    started_task [] "t" started_task) as (r & w' & E1 & _ & Ha & _ & _ & _ & _ & Hd).
  - by apply both_calm.
  - reflexivity.
  - reflexivity.
  - apply template_only.
  - apply template_held.
  - reflexivity.
  - reflexivity.
  - apply template_told.
  - reflexivity.
  - reflexivity.
  - reflexivity.
  - reflexivity.
  - by apply Forall_nil.
  - reflexivity.
  - apply task_titled.
  - by apply (bool_decide_unpack _).
  - by eexists.
  - has_room.
  - exists w'. split; [exact E1|split; [exact Ha|]]. rewrite Hd. reflexivity.
Defined.
